(* ===== verification/_CoqProject ===== *)
-Q . S2P
Prelude.v
Json.v
JsonText.v
JsonRoundTrip.v
Common.v
Decoding.v
Permit.v
PermitLifecycle.v
PermitCodec.v
Evidence.v
PyEqual.v
Envelope.v
Capabilities.v
ProbeAudit.v
Rules.v
Admission.v
ReportContracts.v
Classification.v
Report.v
RecoveryContracts.v
RecoveryGraph.v
RecoveryRules.v
RecoveryRulesFacts.v
RecoveryVerification.v
RecoveryProperties.v
Reporting.v
ClassificationFacts.v
CoreFacts.v
ReportRefinement.v
ClassificationProperties.v
RecoveryConflicts.v
Controller.v
ControllerFacts.v
Session.v
AdmissionProperties.v
Investigation.v
Samples.v
Planning.v
Progress.v
Baseline.v
BaselineProperties.v
Adaptive.v
AdaptiveProperties.v
Witnesses.v
RecoveryWitnesses.v
Proc.v
Exceptions.v
FirestoreService.v
FirestoreCas.v
FirestoreCasFacts.v
FirestorePermits.v
FirestorePermitProperties.v
Provider.v
ProviderLedger.v
ProviderLedgerFacts.v
HostedPlanner.v
HostedPlannerFacts.v
ProviderProperties.v
FirestoreLab.v
FirestorePermitWitnesses.v
ProviderWitnesses.v
PermitAuthority.v
PermitAuthorityProperties.v
PermitAuthorityWitnesses.v
DispatchProperties.v
RunContracts.v
RunSnapshot.v
RunEvents.v
RunFacts.v
RunTransitions.v
RunProperties.v
RunProgress.v
RunWitnesses.v
WorkOps.v
Workflow.v
WorkRun.v
WorkSafe.v
WorkProperties.v
WorkWitnesses.v
WorkTermination.v
