(* ===== verification/Prelude.v ===== *)
(** * Reconcile: evidence-bound recovery of ambiguous side effects

    Reconcile (src/reconcile/, Python) investigates a tool call whose outcome
    was lost.  A controller reads provider state through bounded read-only
    probes, an evidence pipeline admits what correlates with the execution
    envelope, a deterministic classifier decides among COMMITTED,
    NOT_COMMITTED, PARTIAL, PENDING and UNKNOWN, a report carries the result,
    and a recovery layer turns a classification into a certificate and a
    single-use permit for one exact next action, or into an ambiguity witness
    and no action.  This library models that deterministic core and proves it.

    ** How the program's parts interact

    [ExecutionEnvelope] names the target, the expected effects and the budget.
    [ProbeController.execute] runs one probe at a time and appends one audit
    record per probe.  [EvidencePipeline.normalize] turns each audited execution
    into an [EvidenceAttempt].  [evaluate_evidence] classifies the attempts of a
    session, and [build_report] assembles the [InvestigationReport], whose own
    validator recomputes everything from the report alone.  [verify_recovery]
    turns a report about one node of a [RecoveryChain] into a
    [VerifiedCertificate] for one transition, or an [AmbiguityWitness].
    [PermitAuthority] derives from the certificate the one [ActionPermit] it
    allows and claims it around one dispatch.  The permit lives in a Firestore
    document: it is issued once, claimed once and completed once, by replacing
    the document revision that was read, and its audit history has to replay to
    it.  A recovery run records this work as events: a run's snapshot is the
    projection of its history, each append names the revision it extends, and
    the launch permit of the first dispatch is issued, claimed and completed
    once as events of the run.  [ProofToPermitWorkflow] drives it: a worker takes
    a run's nodes in order, dispatches the first under the launch permit, gathers
    evidence for each, has the verifier decide, and dispatches the next or the same
    node again under the permit of the certificate; a worker that finds a run half
    done resumes it from the store.

    Two drivers run the probes of one session.  A fixed plan runs its steps in
    order; an adaptive investigation asks a planner for proposals, and
    deterministic policy selects at most one per turn, executes it and decides when
    to stop.  A hosted planner may call the language model only under a provider
    ledger: one count and one generation per release candidate.

    ** Files and what they model

    Foundations
    - this file: fallible computations ([result], with the exceptions a Python
      call raises as values), Python tuples, sets and dicts as lists,
      strings as UTF-8 bytes, hints and tactics ([inv_ok] opens a chain of
      guarded steps);
    - Json.v: contracts/base.py and the encoder of contracts/codec.py, JSON values,
      their bounds, sensitive content, the field types, canonical text and digests;
    - JsonText.v, JsonRoundTrip.v: UTF-8 and the scanner of Python's [json.loads]
      with its errors, and that it reads back what the encoder writes;
    - Decoding.v, PyEqual.v: [decode_contract] and the field
      types as they read JSON; RFC 3339 timestamps; the dumps on which Python's [==]
      is reflexive;
    - Common.v, Evidence.v, Envelope.v: contracts/common.py, evidence.py and
      envelope.py, data with every model validator;
    - ReportContracts.v and Report.v: contracts/report.py.

    Investigation
    - Capabilities.v: controller/capabilities.py, the sealed allowlist registry and
      the capability registrations;
    - ProbeAudit.v, Controller.v: controller/executor.py, [ProbeController] with
      its durability observer, its clock and its races as an environment;
    - Rules.v: evidence/rules.py, target rules and their registry;
    - Admission.v: evidence/admission.py, [EvidencePipeline];
    - Classification.v: evidence/classification.py;
    - Reporting.v: evidence/reporting.py and evidence/engine.py.

    Investigation drivers
    - Progress.v: progress.py, the events a driver emits with their validators, and
      what the two drivers share;
    - Baseline.v: baseline.py, fixed plans, their executor and its result;
    - Planning.v: contracts/planning.py, what a planner is told and may answer, and
      the turn of adaptive.py that carries an answer;
    - Adaptive.v: adaptive.py, the catalog, the planner's input, the selection among
      its proposals, the turns, the loop and the explanation, the result.

    Recovery
    - RecoveryContracts.v, RecoveryGraph.v: contracts/recovery.py, chains and
      their acyclicity, certificates, witnesses and transitions;
    - RecoveryRules.v: evidence/recovery_rules.py, the sealed action profiles,
      typed provider observations and the proof rules;
    - RecoveryVerification.v: evidence/recovery_verification.py,
      [verify_recovery]; RecoveryRulesFacts.v, RecoveryProperties.v and
      RecoveryConflicts.v: what a certificate and a witness rest on.

    Permits and their store
    - Permit.v, PermitLifecycle.v: [CertifiedTransition] and [ActionPermit] of
      contracts/recovery.py, the transitions and history of
      persistence/permits.py and the aggregate of hosted/firestore_permits.py;
    - PermitCodec.v: their stored form and its round trip;
    - Proc.v, Exceptions.v: asynchronous procedures as trees of awaited
      operations, pools of them that interleave at every await, and their
      exceptions; [wp] is what a procedure guarantees in every environment, [yields]
      the rules for what it returns;
    - FirestoreService.v: the database as an interface ([Firestore],
      [FirestoreLaws]): commits that contend, lose their acknowledgement or are
      applied late; and what writers that follow a [protocol] keep true;
    - FirestoreCas.v, FirestoreCasFacts.v: hosted/firestore_cas.py, compare-and-swap
      documents; records kept in them, the point at which a call that returned took
      effect between two stored states, and the order of these points ([linear]);
    - FirestorePermits.v, FirestorePermitProperties.v:
      hosted/firestore_permits.py, and its concurrent behaviour against the pure
      permit object of PermitLifecycle.v, between the states the database stores;
    - PermitAuthority.v, PermitAuthorityProperties.v:
      controller/permits.py over any [ActionPermitStore], and over Firestore;
    - DispatchProperties.v: from the verifier's evidence to a claimed permit;
    - FirestoreLab.v: a concrete Firestore with a script of faults, for the
      witnesses.

    Provider authority
    - Provider.v: hosted/provider.py, a candidate, its sealed dispatch, its usage and
      reservations, with their stored form;
    - ProviderLedger.v, ProviderLedgerFacts.v: hosted/firestore_provider_ledger.py,
      the ledger's operations over the compare-and-swap store;
    - HostedPlanner.v, HostedPlannerFacts.v: hosted/planner.py and the attempt of
      adk_planner.py, the hook that counts, reserves, generates and finalises;
    - ProviderProperties.v: what any number of planners, every interleaving and every
      lost answer leave true of one candidate.

    Recovery runs
    - RunContracts.v, RunSnapshot.v: contracts/recovery_run.py, requests, launch
      permits, prepared actions, events, and the bindings of a run's snapshot;
    - RunEvents.v: persistence/recovery_runs.py, the projection of an
      event on the snapshot, aggregates of a snapshot and its history, the launch
      permit, and the lock-protected store as a sequence of calls;
    - RunFacts.v, RunTransitions.v: the steps an aggregate can take, what
      steps preserve and how runs end;
    - RunProperties.v, RunProgress.v: what is stored replays its history, an ended run
      is frozen, a launch and a revision are taken once, a decoded append is the
      append, a run with room can be failed, a full one is closed, and polling misses
      no event.

    Recovery workers
    - WorkOps.v, Workflow.v, WorkRun.v: recovery_workflow.py and the dispatch
      boundary of recovery_agents.py as procedures over the operations they await:
      definitions and advice, projections of nodes and permits, the first and the
      certified dispatch, fixed and adaptive investigation, one round of the loop,
      the loop, and the bodies of the service's worker and cancellation;
    - WorkSafe.v, WorkProperties.v: logs of
      operations and answers; every dispatch and every decision is authorized by the
      answers before it, whatever they are;
    - WorkTermination.v: over the run store of RunEvents.v the loop ends.

    Proofs that cross components
    - ControllerFacts.v, Session.v: the invariant of a probe session, over every
      environment;
    - AdmissionProperties.v: when normalization raises and
      exactly when evidence is admitted;
    - ClassificationFacts.v, CoreFacts.v,
      ClassificationProperties.v: what each classification means, and that the
      classifier computes exactly the outcome of a declarative specification;
    - ReportRefinement.v: the report contract accepts every evaluation's report, and
      refuses one at other times for the times alone;
    - Investigation.v: whole investigations, from probes to report and back: when a
      report is made, and what it tells of the admitted evidence;
    - BaselineProperties.v: a fixed plan runs its steps in order up to the first stop,
      its report and measurements are those of the probes it ran, and it raises only
      for named reasons;
    - AdaptiveProperties.v: which proposals can be selected; what the result of an
      adaptive investigation says of its run; and that one raises only for named
      reasons, none of them in its own records;
    - Samples.v, Witnesses.v, RecoveryWitnesses.v, FirestorePermitWitnesses.v,
      PermitAuthorityWitnesses.v, ProviderWitnesses.v, RunWitnesses.v,
      WorkWitnesses.v: concrete inputs; WorkWitnesses.v has an environment a worker
      is played against.

    ** Conventions

    A contract model is a record; constructing it runs its validator, so a
    construction is a [result].  The character and length checks pydantic makes
    on string fields hold of a record that stands for a validated model; they
    are written out ([validate_Identifier] and the others) where the code
    re-validates.  Integers are [Z] with their 64-bit bounds checked where
    the contracts check them; an aware datetime is microseconds since the epoch
    in UTC.  A Python set is a list used through membership.  Mutable objects
    are state passed along, and an operation that raises after a change still
    returns the changed state.

    ** What is a parameter

    [Runtime] (SHA-256, float text, Unicode tables, the text form of a
    timestamp), [Security] (reconcile/security.py, regular expressions over
    Unicode text), [SchemaValidator] (the jsonschema package),
    [ObservationDecoder] (a deployment's observation codec), [Environment]
    (clock, cancellation, durability observer, asyncio.wait, handlers), [Driver] (a
    driver's event emitter and the clock of its events), [Planner] (the advisory
    planner: its metadata and how one plan ends), [GenaiTypes] (the SDK's name of
    on-demand traffic),
    [FloatParser] and [TimeParser] (Python's float and pydantic's timestamp
    readers) and [Firestore] (the database and its SDK; [AbsentReads], that a missing
    document reads as missing, is assumed where absence is answered).  What a worker awaits
    (run store, evidence source, agent, action preparer, permit authority, gateway,
    clock, claim identifiers), and the model service a hosted planner calls, is answered by the environment.  A
    property that needs more than their types states it as a hypothesis and has
    a witness at concrete instances.  No collision-freedom of the digest is
    assumed: where the code compares digests the theorems speak of digests.

    ** Recursion

    Recursion over JSON and lists is structural, and loops of the code that
    consume their input are folds.  The depth bound of [validate_json] is the
    code's own.  The JSON scanner's fuel is twice the length of the text, which
    [loads_total] shows is never used up; the graph search of a recovery chain
    has one unit per node and is shown to decide acyclicity; the 64 attempts of
    the permit store are the code's own.  The loop of a recovery worker takes one
    unit per round; 544, the events of a run and the nodes of a chain together, are
    always enough ([workflow_terminates]), because a round that stays at its node
    leaves an event.  The eight turns of a worker's adaptive
    investigation, the steps of a fixed plan and [max_turns] of an adaptive policy
    are the code's own bounds.

    ** What is not modelled

    Provider adapters, the transport of Firestore and SQLite, the other hosted
    stores, the SQLite form of the run store and its payload cache, HTTP services, command
    line and terminal interfaces, the task table and request-scoped waiting of
    [RecoveryRunApplicationService], the prompts and output parsing of the
    language-model planners and of [RecoveryAgent], the buffered progress dispatcher and
    the envelope event, the wrappers that only start an event loop, scenario fixtures, qualification and acceptance harnesses, scripts and
    infrastructure: I/O and orchestration around the core above. *)

From stdpp Require Export base gmap sets list strings pretty sorting relations.
From Stdlib Require Export ZArith Lia.

(** ** Notation scope of the development *)

Declare Scope reconcile_scope.
Delimit Scope reconcile_scope with R.
#[global] Open Scope reconcile_scope.

(** ** Fallible computations

    Python code that returns or raises is a [result E A]: [Ok] is the returned
    value and [Raise] the exception.  The stdpp monad notations are used on
    it, so that a handler reads like the code: [x ← call; ...] and
    [reject_if guard error;; ...]. *)

Inductive result (E A : Type) : Type :=
  | Ok (a : A)
  | Raise (e : E).
Arguments Ok {E A} a.
Arguments Raise {E A} e.

#[export] Instance result_ret E : MRet (result E) := λ A a, Ok a.
#[export] Instance result_bind E : MBind (result E) := λ A B f m,
  match m with Ok a => f a | Raise e => Raise e end.
#[export] Instance result_fmap E : FMap (result E) := λ A B f m,
  match m with Ok a => Ok (f a) | Raise e => Raise e end.

#[export] Instance result_eq_dec `{EqDecision E, EqDecision A} :
  EqDecision (result E A).
Proof. solve_decision. Defined.

Definition is_ok {E A} (m : result E A) : bool :=
  match m with Ok _ => true | Raise _ => false end.

(** [if guard: raise error] *)
Definition reject_if {E} (guard : bool) (e : E) : result E unit :=
  if guard then Raise e else Ok tt.

(** [try: m except: raise (convert e)] *)
Definition map_error {E F A} (convert : E → F) (m : result E A) : result F A :=
  match m with Ok a => Ok a | Raise e => Raise (convert e) end.

(** A [for] loop whose body may raise. *)
Fixpoint for_each {E A} (body : A → result E unit) (l : list A) : result E unit :=
  match l with
  | [] => Ok tt
  | x :: l' => body x;; for_each body l'
  end.

(** A [for] loop that also rebinds a local variable. *)
Fixpoint fold_result {E A S} (body : S → A → result E S) (s : S) (l : list A)
  : result E S :=
  match l with
  | [] => Ok s
  | x :: l' => s' ← body s x; fold_result body s' l'
  end.

Section result_lemmas.
Context {E A B : Type}.

Lemma bind_ok (m : result E A) (f : A → result E B) b :
  (x ← m; f x) = Ok b ↔ ∃ a, m = Ok a ∧ f a = Ok b.
Proof. destruct m; cbn; naive_solver. Qed.

Lemma bind_raise (m : result E A) (f : A → result E B) e :
  (x ← m; f x) = Raise e ↔ m = Raise e ∨ ∃ a, m = Ok a ∧ f a = Raise e.
Proof. destruct m; cbn; naive_solver. Qed.

Lemma reject_if_ok (c : bool) (e : E) u : reject_if c e = Ok u ↔ c = false.
Proof. destruct c, u; cbn; naive_solver. Qed.

Lemma reject_if_false (c : bool) (e : E) : c = false → reject_if c e = Ok tt.
Proof. by intros ->. Qed.

Lemma reject_then_ok (c : bool) (e : E) (k : result E A) a :
  (reject_if c e;; k) = Ok a ↔ c = false ∧ k = Ok a.
Proof. destruct c; cbn; naive_solver. Qed.

Lemma reject_if_raise (c : bool) (e e' : E) :
  reject_if c e = Raise e' ↔ c = true ∧ e = e'.
Proof. destruct c; cbn; naive_solver. Qed.

Lemma for_each_ok (body : A → result E unit) l u :
  for_each body l = Ok u ↔ Forall (λ x, body x = Ok tt) l.
Proof.
  destruct u. induction l as [|x l IH]; cbn.
  - split; [constructor|done].
  - rewrite Forall_cons, <-IH. destruct (body x) as [[]|]; cbn; naive_solver.
Qed.

Lemma fold_result_snoc (body : B → A → result E B) s l x :
  fold_result body s (l ++ [x]) = (s' ← fold_result body s l; body s' x).
Proof.
  revert s; induction l as [|y l IH]; intros s; cbn.
  - by destruct (body s x).
  - destruct (body s y); cbn; [apply IH|done].
Qed.
End result_lemmas.

Lemma mapM_Raise {E A B} (f : A → result E B) l e :
  mapM f l = Raise e → ∃ x, x ∈ l ∧ f x = Raise e.
Proof.
  induction l as [|x l IH]; cbn [mapM]; [done|]. destruct (f x) as [y|e'] eqn:Hx; cbn.
  - destruct (mapM f l) as [k|e']; [done|]. intros [= ->]. destruct IH as (z & Hz & Hf); [done|].
    exists z. split; [by right|done].
  - intros [= ->]. exists x. split; [left|done].
Qed.

Lemma mapM_Ok {E A B} (f : A → result E B) l k :
  mapM f l = Ok k ↔ Forall2 (λ x y, f x = Ok y) l k.
Proof.
  revert k. induction l as [|x l IH]; intros k; cbn [mapM].
  - split; [intros [= <-]; constructor|]. by inversion 1.
  - rewrite bind_ok. split.
    + intros (y & Hy & Hl). apply bind_ok in Hl as (k' & Hk & [= <-]).
      constructor; [done|]. by apply IH.
    + inversion 1 as [|? y ? k' Hy Hk]; subst. exists y. split; [done|].
      apply IH in Hk. by rewrite Hk.
Qed.

Lemma map_error_ok {E F A} (f : E → F) (r : result E A) a :
  map_error f r = Ok a ↔ r = Ok a.
Proof. destruct r; cbn; split; congruence. Qed.

(** An invariant of a loop, over what it has processed. *)
Lemma fold_result_inv {E A B} (body : B → A → result E B) (I : list A → B → Prop) s l s' :
  I [] s →
  (∀ k x s s', x ∈ l → I k s → body s x = Ok s' → I (k ++ [x]) s') →
  fold_result body s l = Ok s' → I l s'.
Proof.
  intros H0 Hstep. revert s'. induction l as [|x l IH] using rev_ind; intros s' H.
  - cbn in H. injection H as <-. done.
  - rewrite fold_result_snoc in H.
    apply bind_ok in H as (t & Ht & H).
    eapply Hstep; [|apply IH; [|exact Ht]|exact H].
    + apply elem_of_app. right. by apply list_elem_of_singleton.
    + intros k y u u' Hy. apply Hstep. apply elem_of_app. by left.
Qed.

(** Every [Ok] produced by a chain of guarded steps gives the guards back.
    The side goals are closed by rewriting with the lemmas above, so a client
    proof opens a validator with [inv_ok] and reads its guards as facts. *)
Ltac inv_ok_step :=
  match goal with
  | H : Ok _ = Ok _ |- _ => injection H as H
  | H : Ok _ = Raise _ |- _ => discriminate H
  | H : Raise _ = Ok _ |- _ => discriminate H
  | H : mret _ = Ok _ |- _ => unfold mret, result_ret in H
  | H : mbind _ _ = Ok _ |- _ =>
      apply bind_ok in H; let a := fresh "r" in let Ha := fresh "Hr" in
      destruct H as (a & Ha & H)
  | H : reject_if _ _ = Ok _ |- _ => apply reject_if_ok in H
  | H : for_each _ _ = Ok _ |- _ => apply for_each_ok in H
  | u : unit |- _ => destruct u
  end.
Ltac inv_ok := repeat inv_ok_step.

(** A computation that returns. *)
Definition is_Ok {E A} (r : result E A) : Prop :=
  match r with Ok _ => True | Raise _ => False end.

Lemma is_Ok_inv {E A} (r : result E A) : is_Ok r → ∃ a, r = Ok a.
Proof. destruct r; [eauto|done]. Qed.

(** ** Booleans *)

Lemma bool_decide_eq_eqb `{EqDecision A} (x y : A) :
  bool_decide (x = y) = bool_decide (y = x).
Proof. apply bool_decide_ext; naive_solver. Qed.

Lemma bool_decide_refl {A} (x : A) `{!Decision (x = x)} : bool_decide (x = x) = true.
Proof. by apply bool_decide_eq_true_2. Qed.

(** [value is None] *)
Definition is_none {A} (o : option A) : bool :=
  match o with None => true | Some _ => false end.

(** [value is not None] *)
Definition is_some {A} (o : option A) : bool := negb (is_none o).

Lemma is_none_true {A} (o : option A) : is_none o = true ↔ o = None.
Proof. destruct o; cbn; split; congruence. Qed.

Lemma is_some_false {A} (o : option A) : is_some o = false ↔ o = None.
Proof. destruct o; cbn; split; congruence. Qed.

Lemma is_some_true {A} (o : option A) : is_some o = true ↔ is_Some o.
Proof. destruct o; cbn; split; done. Qed.

(** Splits [&&], [||], [negb] and [bool_decide] hypotheses. *)
Ltac bool_simpl :=
  repeat match goal with
  | H : _ && _ = true |- _ => apply andb_true_iff in H as [??]
  | H : _ || _ = false |- _ => apply orb_false_iff in H as [??]
  | H : negb _ = false |- _ => apply negb_false_iff in H
  | H : negb _ = true |- _ => apply negb_true_iff in H
  | H : bool_decide _ = true |- _ => apply bool_decide_eq_true in H
  | H : bool_decide _ = false |- _ => apply bool_decide_eq_false in H
  | H : is_none _ = true |- _ => apply is_none_true in H
  | H : is_some _ = false |- _ => apply is_some_false in H
  | H : (_ <=? _)%Z = true |- _ => apply Z.leb_le in H
  | H : (_ <=? _)%Z = false |- _ => apply Z.leb_gt in H
  | H : (_ <? _)%Z = true |- _ => apply Z.ltb_lt in H
  | H : (_ <? _)%Z = false |- _ => apply Z.ltb_ge in H
  | H : (_ =? _)%Z = true |- _ => apply Z.eqb_eq in H
  | H : (_ =? _)%Z = false |- _ => apply Z.eqb_neq in H
  | H : (_ =? _)%nat = true |- _ => apply Nat.eqb_eq in H
  | H : (_ =? _)%nat = false |- _ => apply Nat.eqb_neq in H
  end.

(** ** Python collections

    A tuple or list is a [list]; [len(x) != len(set(x))] is [has_dup] and
    [set(x) <= set(y)] is [subsetb]. *)

Section collections.
Context `{EqDecision A}.

Definition has_dup (l : list A) : bool := negb (bool_decide (NoDup l)).

Definition inb (x : A) (l : list A) : bool := bool_decide (x ∈ l).

Definition subsetb (l k : list A) : bool := forallb (λ x, inb x k) l.

(** [set(l) == set(k)] *)
Definition same_set (l k : list A) : bool := subsetb l k && subsetb k l.

Lemma has_dup_false l : has_dup l = false ↔ NoDup l.
Proof.
  unfold has_dup. rewrite negb_false_iff. apply bool_decide_eq_true.
Qed.

Lemma inb_true x l : inb x l = true ↔ x ∈ l.
Proof. apply bool_decide_eq_true. Qed.

Lemma inb_false x l : inb x l = false ↔ x ∉ l.
Proof. apply bool_decide_eq_false. Qed.

Lemma subsetb_true l k : subsetb l k = true ↔ l ⊆ k.
Proof.
  unfold subsetb. rewrite forallb_forall. setoid_rewrite inb_true.
  setoid_rewrite <-list_elem_of_In. done.
Qed.

Lemma same_set_true l k : same_set l k = true ↔ ∀ x, x ∈ l ↔ x ∈ k.
Proof.
  unfold same_set. rewrite andb_true_iff, !subsetb_true.
  unfold subseteq, list_subseteq. naive_solver.
Qed.
End collections.

(** A Python [dict] whose insertion order matters: an association list with
    one entry per key. *)
Section dict.
Context `{EqDecision K} {V : Type}.

(** [d.get(key)] *)
Fixpoint dict_get (key : K) (d : list (K * V)) : option V :=
  match d with
  | [] => None
  | (k, v) :: d' => if decide (k = key) then Some v else dict_get key d'
  end.

(** [d[key] = value]: in place when the key is there, appended when not. *)
Fixpoint dict_set (key : K) (value : V) (d : list (K * V)) : list (K * V) :=
  match d with
  | [] => [(key, value)]
  | (k, v) :: d' =>
      if decide (k = key) then (k, value) :: d' else (k, v) :: dict_set key value d'
  end.

Definition dict_keys (d : list (K * V)) : list K := d.*1.

(** [{key: value for ...}]: a later entry of the same key replaces the value. *)
Definition dict_of (l : list (K * V)) : list (K * V) :=
  fold_left (λ d e, dict_set e.1 e.2 d) l [].

Lemma dict_get_elem k v d : dict_get k d = Some v → (k, v) ∈ d.
Proof.
  induction d as [|[k' v'] d IH]; cbn; [done|].
  case_decide; intros Hg; simplify_eq; [left|right; auto].
Qed.

Lemma dict_get_is_some k d : is_Some (dict_get k d) ↔ k ∈ dict_keys d.
Proof.
  unfold dict_keys. induction d as [|[k' v'] d IH]; cbn.
  - split; [by intros [? ?]|by intros ?%not_elem_of_nil].
  - rewrite elem_of_cons, <-IH. case_decide; naive_solver.
Qed.

Lemma dict_get_nodup k v d :
  NoDup (dict_keys d) → (k, v) ∈ d → dict_get k d = Some v.
Proof.
  unfold dict_keys. induction d as [|[k' v'] d IH]; cbn.
  - intros _ []%not_elem_of_nil.
  - intros [Hk Hd]%NoDup_cons [?|Hin]%elem_of_cons; simplify_eq.
    + by rewrite decide_True.
    + case_decide as Heq; [|auto]. subst. destruct Hk.
      apply list_elem_of_fmap. by exists (k, v).
Qed.

Lemma dict_get_set_eq k v d : dict_get k (dict_set k v d) = Some v.
Proof.
  induction d as [|[k' v'] d IH]; cbn; [by rewrite decide_True|].
  case_decide; cbn; [by rewrite decide_True|by rewrite decide_False].
Qed.

Lemma dict_get_set_ne k k' v d :
  k ≠ k' → dict_get k (dict_set k' v d) = dict_get k d.
Proof.
  intros Hne. induction d as [|[j w] d IH]; cbn; [by rewrite decide_False|].
  case_decide; subst; cbn; [by rewrite !decide_False|]. by case_decide.
Qed.

Lemma dict_set_fresh k v d : k ∉ dict_keys d → dict_set k v d = d ++ [(k, v)].
Proof.
  unfold dict_keys. induction d as [|[j w] d IH]; cbn; [done|].
  intros [? ?]%not_elem_of_cons. rewrite decide_False by congruence. f_equal. auto.
Qed.

Lemma dict_keys_set k v d :
  dict_keys (dict_set k v d) =
    if decide (k ∈ dict_keys d) then dict_keys d else dict_keys d ++ [k].
Proof.
  unfold dict_keys. induction d as [|[j w] d IH].
  - cbn. by rewrite decide_False by apply not_elem_of_nil.
  - cbn [dict_set]. destruct (decide (j = k)) as [->|Hne]; cbn.
    + rewrite decide_True; [done|by left].
    + cbn in IH. rewrite IH. repeat case_decide; rewrite elem_of_cons in *; naive_solver.
Qed.

Lemma dict_set_elem k v k' v' d :
  (k, v) ∈ dict_set k' v' d → (k, v) = (k', v') ∨ (k, v) ∈ d.
Proof.
  induction d as [|[j w] d IH]; cbn; [intros ->%list_elem_of_singleton; by left|].
  destruct (decide (j = k')) as [->|]; rewrite !elem_of_cons; naive_solver.
Qed.

Lemma dict_of_elem k v l : (k, v) ∈ dict_of l → (k, v) ∈ l.
Proof.
  unfold dict_of.
  assert (∀ d, (k, v) ∈ fold_left (λ d e, dict_set e.1 e.2 d) l d → (k, v) ∈ d ∨ (k, v) ∈ l)
    as Hgen; [|intros [H|]%Hgen; [by apply not_elem_of_nil in H|done]].
  induction l as [|[k' v'] l IH]; intros d; cbn; [by left|].
  intros [[Heq|H]%dict_set_elem|H]%IH; [right; rewrite Heq; left|by left|right; by right].
Qed.

(** Distinct keys: the dict is the list. *)
Lemma dict_of_nodup l : NoDup (dict_keys l) → dict_of l = l.
Proof.
  unfold dict_of.
  assert (∀ d, NoDup (dict_keys (d ++ l)) →
    fold_left (λ d e, dict_set e.1 e.2 d) l d = d ++ l) as Hgen; [|apply (Hgen [])].
  induction l as [|[k v] l IH]; intros d Hnd; cbn; [by rewrite app_nil_r|].
  rewrite dict_set_fresh.
  - rewrite IH, <-app_assoc; [done|]. by rewrite <-app_assoc.
  - unfold dict_keys in *. rewrite fmap_app in Hnd. apply NoDup_app in Hnd as (_&Hd&_).
    intros Hk. apply (Hd k Hk). left.
Qed.
End dict.

(** [d.setdefault(key, []).append(value)], and a loop of it. *)
Definition dict_append `{EqDecision K} {V} (key : K) (value : V) (d : list (K * list V))
  : list (K * list V) :=
  dict_set key (default [] (dict_get key d) ++ [value]) d.

Definition group_by `{EqDecision K} {V} (key : V → K) (l : list V) : list (K * list V) :=
  fold_left (λ d v, dict_append (key v) v d) l [].

(** ** Strings

    A Python [str] is the list of its UTF-8 bytes.  UTF-8 keeps the order of
    code points, so comparing bytes is comparing Python strings. *)

Definition str_leb (a b : string) : bool := String.leb a b.
Definition str_le (a b : string) : Prop := str_leb a b = true.

#[export] Instance str_le_dec a b : Decision (str_le a b).
Proof. unfold str_le. apply _. Defined.

Lemma ascii_compare_refl a : Ascii.compare a a = Eq.
Proof. apply N.compare_refl. Qed.

Lemma ascii_compare_lt_trans a b c :
  Ascii.compare a b = Lt → Ascii.compare b c = Lt → Ascii.compare a c = Lt.
Proof. unfold Ascii.compare. rewrite !N.compare_lt_iff. lia. Qed.

Lemma str_le_cons a s b t :
  str_le (String a s) (String b t) ↔
    Ascii.compare a b = Lt ∨ (a = b ∧ str_le s t).
Proof.
  unfold str_le, str_leb, String.leb; cbn.
  destruct (Ascii.compare a b) eqn:Hab.
  - apply Ascii.compare_eq_iff in Hab. naive_solver.
  - split; [auto|done].
  - split; [done|]. intros [?|[-> ?]]; [done|].
    by rewrite ascii_compare_refl in Hab.
Qed.

#[export] Instance str_le_trans : Transitive str_le.
Proof.
  intros a. induction a as [|x a IH]; intros [|y b] [|z c] H1 H2; try done.
  apply str_le_cons in H1, H2. apply str_le_cons.
  destruct H1 as [H1|[-> H1]], H2 as [H2|[-> H2]]; eauto using ascii_compare_lt_trans.
Qed.

#[export] Instance str_le_total : Total str_le.
Proof. intros a b. apply String.leb_total. Qed.

#[export] Instance str_le_antisymm : AntiSymm (=) str_le.
Proof. intros a b. apply String.leb_antisym. Qed.

(** [sorted(l)] on strings. *)
Definition sorted_strings : list string → list string := merge_sort str_le.

Lemma sorted_strings_perm l : sorted_strings l ≡ₚ l.
Proof. apply merge_sort_Permutation. Qed.

(** Sorting forgets the order its input came in. *)
Lemma sorted_strings_ext l k : l ≡ₚ k → sorted_strings l = sorted_strings k.
Proof.
  intros Hlk. apply (StronglySorted_unique str_le).
  - apply StronglySorted_merge_sort; apply _.
  - apply StronglySorted_merge_sort; apply _.
  - by rewrite !sorted_strings_perm.
Qed.

(** ** Sorting *)

(** Two sorts of one multiset agree when the keys of its elements differ. *)
Lemma merge_sort_ext {A} (R : relation A) `{!RelDecision R, !Transitive R, !Total R}
  {K} (key : A → K) (l k : list A) :
  (∀ x y, R x y → R y x → key x = key y) → NoDup (map key l) → l ≡ₚ k →
  merge_sort R l = merge_sort R k.
Proof.
  intros Hanti Hn Hlk. apply (StronglySorted_unique_strong R).
  - intros x y Hx Hy Hxy Hyx. pose proof (Hanti x y Hxy Hyx) as Hk.
    rewrite merge_sort_Permutation in Hx.
    rewrite merge_sort_Permutation, <-Hlk in Hy.
    apply list_elem_of_lookup in Hx as [i Hi], Hy as [j Hj].
    assert (i = j) as ->; [|congruence].
    apply (NoDup_lookup (map key l) i j (key x) Hn);
      rewrite list_lookup_fmap, ?Hi, ?Hj; cbn; congruence.
  - by apply StronglySorted_merge_sort.
  - by apply StronglySorted_merge_sort.
  - by rewrite !merge_sort_Permutation.
Qed.

(** A sorted list is its own sort when its keys differ. *)
Lemma merge_sort_id {A} (R : relation A) `{!RelDecision R, !Transitive R, !Total R}
  {K} (key : A → K) (l : list A) :
  (∀ x y, R x y → R y x → key x = key y) → NoDup (map key l) → StronglySorted R l →
  merge_sort R l = l.
Proof.
  intros Hanti Hn Hs. apply (StronglySorted_unique_strong R).
  - intros x y Hx Hy Hxy Hyx. pose proof (Hanti x y Hxy Hyx) as Hk.
    rewrite merge_sort_Permutation in Hx.
    apply list_elem_of_lookup in Hx as [i Hi], Hy as [j Hj].
    assert (i = j) as ->; [|congruence].
    apply (NoDup_lookup (map key l) i j (key x) Hn);
      rewrite list_lookup_fmap, ?Hi, ?Hj; cbn; congruence.
  - by apply StronglySorted_merge_sort.
  - done.
  - apply merge_sort_Permutation.
Qed.

(** Sorting commutes with a map that keeps the distinct keys it sorts by. *)
Lemma merge_sort_map {A B} (R : relation A) (S : relation B)
  `{!RelDecision R, !Transitive R, !Total R, !RelDecision S, !Transitive S, !Total S}
  {K} (key : B → K) (f : A → B) (l : list A) :
  (∀ x y, S x y → S y x → key x = key y) → (∀ x y, R x y → S (f x) (f y)) →
  NoDup (map key (map f l)) → merge_sort S (map f l) = map f (merge_sort R l).
Proof.
  intros Hanti Hmono Hn. rewrite <-(merge_sort_id S key (map f (merge_sort R l))).
  - apply (merge_sort_ext S key); [done|done|]. by rewrite merge_sort_Permutation.
  - done.
  - by rewrite merge_sort_Permutation.
  - pose proof (StronglySorted_merge_sort R l) as Hs. induction Hs as [|x k Hk IH Hx];
      cbn; [constructor|]. constructor; [done|]. rewrite Forall_fmap.
    eapply Forall_impl; [exact Hx|]. intros y. apply Hmono.
Qed.

(** ** Integers

    Contract integers are bounded by the signed 64-bit range. *)

Definition int64_max : Z := 2 ^ 63 - 1.

(** ** Time

    An aware [datetime] is the number of microseconds since the Unix epoch,
    in UTC; comparison and difference are those of [Z]. *)

Abbreviation datetime := Z (only parsing).

(** ** Reachability *)

Lemma rtc_invariant {A} (R : relation A) (I : A → Prop) :
  (∀ x y, I x → R x y → I y) → ∀ x y, I x → rtc R x y → I y.
Proof. intros Hstep x y Hx Hxy. induction Hxy; eauto. Qed.

(** ** Hints *)

Create HintDb reconcile.
Create Rewrite HintDb reconcile.
#[export] Hint Resolve sorted_strings_perm : reconcile.
(* rewriting lemmas of the collections *)
#[export] Hint Rewrite @has_dup_false @inb_true @inb_false @subsetb_true
  @same_set_true : reconcile.
