(* ===== verification/Json.v ===== *)
(** JSON values, their bounds and their canonical wire encoding
    (reconcile/contracts/base.py and reconcile/contracts/codec.py).

    [json] is what [JsonValue] holds.  [validate_json] is [_validate_json],
    [canonical_json_value_bytes] the key-sorted compact encoder every digest of
    the program goes through, and [datetime_text] the wire form of a
    timestamp.  The class [Runtime] holds what the encoder needs of Python's
    runtime tables, and [Security] what it needs of reconcile/security.py.  The
    canonical bytes and digests of models follow. *)

From Stdlib Require Export Floats.SpecFloat.
From S2P Require Export Prelude.

(** ** Exceptions of the contract layer *)

Inductive py_error : Type :=
  | ValueError (message : string)
  | TypeError (message : string)
  | RuntimeError (message : string)
  | OverflowError
  | KeyError (key : string).

#[export] Instance py_error_eq_dec : EqDecision py_error.
Proof. solve_decision. Defined.

(** [hashlib.sha256(data).hexdigest()], [float.__repr__], the Unicode category
    table of [unicodedata], the text pydantic's [model_dump(mode="json")] gives
    a timestamp, [str.lower] and [str.strip]. *)
Class Runtime := {
  sha256_hex : string → string;
  float_repr : spec_float → string;
  has_unsafe_category : string → bool;
  pydantic_time : datetime → string;
  str_lower : string → string;
  str_strip : string → string;
}.

(** What reconcile/security.py decides about field names and text, and how it
    renders untrusted text. *)
Class Security := {
  is_sensitive_key : string → bool;
  contains_sensitive_material : string → bool;
  terminal_safe_text : string → string;
  redact_untrusted_text : string → string;
}.

(** ** Values *)

Inductive json : Type :=
  | JNull
  | JBool (b : bool)
  | JInt (z : Z)
  | JFloat (f : spec_float)
  | JStr (s : string)
  | JArr (l : list json)
  | JObj (m : list (string * json)).

(** A [dict[str, JsonValue]], in insertion order, keys unique. *)
Abbreviation json_object := (list (string * json)) (only parsing).

Section json_induction.
Variable P : json → Prop.
Hypothesis Hnull : P JNull.
Hypothesis Hbool : ∀ b, P (JBool b).
Hypothesis Hint : ∀ z, P (JInt z).
Hypothesis Hfloat : ∀ f, P (JFloat f).
Hypothesis Hstr : ∀ s, P (JStr s).
Hypothesis Harr : ∀ l, Forall P l → P (JArr l).
Hypothesis Hobj : ∀ m, Forall (λ kv, P kv.2) m → P (JObj m).

Fixpoint json_ind' (v : json) : P v :=
  match v with
  | JNull => Hnull
  | JBool b => Hbool b
  | JInt z => Hint z
  | JFloat f => Hfloat f
  | JStr s => Hstr s
  | JArr l => Harr l
      ((fix go l := match l return Forall P l with
        | [] => Forall_nil_2 P
        | x :: l' => Forall_cons_2 P x l' (json_ind' x) (go l')
        end) l)
  | JObj m => Hobj m
      ((fix go m := match m return Forall (λ kv, P kv.2) m with
        | [] => Forall_nil_2 _
        | kv :: m' => Forall_cons_2 (λ kv, P kv.2) kv m' (json_ind' kv.2) (go m')
        end) m)
  end.
End json_induction.

#[export] Instance spec_float_eq_dec : EqDecision spec_float.
Proof. solve_decision. Defined.

(** Structural equality; key order counts, as it does in the wire text before
    sorting. *)
Fixpoint json_eqb (v w : json) : bool :=
  match v, w with
  | JNull, JNull => true
  | JBool a, JBool b => eqb a b
  | JInt a, JInt b => Z.eqb a b
  | JFloat a, JFloat b => bool_decide (a = b)
  | JStr a, JStr b => bool_decide (a = b)
  | JArr l, JArr k =>
      (fix go l k := match l, k with
        | [], [] => true
        | x :: l', y :: k' => json_eqb x y && go l' k'
        | _, _ => false
        end) l k
  | JObj m, JObj n =>
      (fix go m n := match m, n with
        | [], [] => true
        | (a, x) :: m', (b, y) :: n' =>
            bool_decide (a = b) && json_eqb x y && go m' n'
        | _, _ => false
        end) m n
  | _, _ => false
  end.

Lemma json_eqb_eq v w : json_eqb v w = true ↔ v = w.
Proof.
  revert w. induction v as [|a|z|f|s|l IH|m IH] using json_ind'; intros w;
    destruct w as [|b'|z'|f'|s'|k|n]; cbn; try (split; congruence).
  - rewrite eqb_true_iff. split; congruence.
  - rewrite Z.eqb_eq. split; congruence.
  - rewrite bool_decide_eq_true. split; congruence.
  - rewrite bool_decide_eq_true. split; congruence.
  - transitivity (l = k); [|split; congruence].
    revert k. induction IH as [|x l Hx _ IHl]; intros [|y k]; try (split; congruence).
    rewrite andb_true_iff, Hx, IHl. split; [intros [-> ->]|]; naive_solver.
  - transitivity (m = n); [|split; congruence].
    revert n. induction IH as [|[a x] m Hx _ IHm]; intros [|[b y] n];
      try (split; congruence).
    cbn in Hx. rewrite !andb_true_iff, Hx, IHm, bool_decide_eq_true.
    split; [intros [[-> ->] ->]|]; naive_solver.
Qed.

#[export] Instance json_eq_dec : EqDecision json.
Proof.
  intros v w. destruct (json_eqb v w) eqn:H.
  - left. by apply json_eqb_eq.
  - right. intros ->. by rewrite (proj2 (json_eqb_eq w w)) in H.
Defined.

(** ** Bounds ([_validate_json]) *)

(** [len(text)]: code points, that is UTF-8 bytes that do not continue one. *)
Fixpoint py_len (s : string) : Z :=
  match s with
  | EmptyString => 0
  | String c s' =>
      let n := Ascii.N_of_ascii c in
      (if (128 <=? n)%N && (n <? 192)%N then 0 else 1) + py_len s'
  end.

(** The order [sort_keys=True] puts the members of an object in. *)
Definition key_le (x y : string * string) : Prop := str_le x.1 y.1.
#[export] Instance key_le_dec x y : Decision (key_le x y).
Proof. unfold key_le. apply _. Defined.

Section runtime.
Context {rt : Runtime} {sec : Security}.

Definition validate_unicode_text (value : string) : result py_error unit :=
reject_if (has_unsafe_category value)
  (ValueError "text contains an unsafe rendering control").

Fixpoint validate_json (depth : nat) (value : json) : result py_error unit :=
reject_if (12 <? depth)%nat
  (ValueError "JSON value exceeds maximum nesting depth");;
match value with
| JNull | JBool _ => Ok tt
| JStr s => validate_unicode_text s
| JInt z =>
    reject_if (negb ((- 2 ^ 63 <=? z) && (z <? 2 ^ 63)))%Z
      (ValueError "integer is outside signed 64-bit range")
| JFloat f =>
    reject_if (match f with S754_infinity _ | S754_nan => true | _ => false end)
      (ValueError "JSON numbers must be finite")
| JArr l =>
    (fix items l := match l with
      | [] => Ok tt
      | item :: l' => validate_json (S depth) item;; items l'
      end) l
| JObj m =>
    reject_if (128 <? length m)%nat (ValueError "JSON object has too many keys");;
    (fix items m := match m with
      | [] => Ok tt
      | (key, item) :: m' =>
          reject_if (bool_decide (key = "") || (128 <? py_len key)%Z)
            (ValueError "JSON object keys must be bounded and nonempty");;
          validate_unicode_text key;;
          validate_json (S depth) item;;
          items m'
      end) m
end.

(** [reject_sensitive_keys] and [reject_sensitive_values] *)
Fixpoint reject_sensitive_keys (value : json) : result py_error unit :=
match value with
| JObj m =>
    (fix items m := match m with
      | [] => Ok tt
      | (key, item) :: m' =>
          reject_if (is_sensitive_key key)
            (ValueError "secret-bearing fields are not allowed");;
          reject_sensitive_keys item;;
          items m'
      end) m
| JArr l =>
    (fix items l := match l with
      | [] => Ok tt
      | item :: l' => reject_sensitive_keys item;; items l'
      end) l
| _ => Ok tt
end.

Fixpoint reject_sensitive_values (value : json) : result py_error unit :=
match value with
| JStr s =>
    reject_if (contains_sensitive_material s)
      (ValueError "secret-bearing values are not allowed")
| JObj m =>
    (fix items m := match m with
      | [] => Ok tt
      | (_, item) :: m' => reject_sensitive_values item;; items m'
      end) m
| JArr l =>
    (fix items l := match l with
      | [] => Ok tt
      | item :: l' => reject_sensitive_values item;; items l'
      end) l
| _ => Ok tt
end.

(** ** String field types

    [Identifier], [NonEmptyText] and [Sha256Digest]: the length and character
    constraints pydantic applies, then the validators of the annotation. *)

Definition is_lower (c : Ascii.ascii) : bool :=
  let n := Ascii.N_of_ascii c in (97 <=? n)%N && (n <=? 122)%N.
Definition is_upper (c : Ascii.ascii) : bool :=
  let n := Ascii.N_of_ascii c in (65 <=? n)%N && (n <=? 90)%N.
Definition is_digit (c : Ascii.ascii) : bool :=
  let n := Ascii.N_of_ascii c in (48 <=? n)%N && (n <=? 57)%N.
Definition is_hex_digit (c : Ascii.ascii) : bool :=
  let n := Ascii.N_of_ascii c in is_digit c || ((97 <=? n)%N && (n <=? 102)%N).

Fixpoint string_forallb (f : Ascii.ascii → bool) (s : string) : bool :=
  match s with EmptyString => true | String c s' => f c && string_forallb f s' end.

(** [^[A-Za-z0-9][A-Za-z0-9._:-]*$] *)
Definition is_alnum (c : Ascii.ascii) : bool := is_lower c || is_upper c || is_digit c.
Definition is_identifier_char (c : Ascii.ascii) : bool :=
  is_alnum c || inb (Ascii.N_of_ascii c) [46; 95; 58; 45]%N.
Definition identifier_pattern (s : string) : bool :=
  match s with
  | EmptyString => false
  | String c rest => is_alnum c && string_forallb is_identifier_char rest
  end.

Definition validate_secret_free_identifier (value : string) : result py_error unit :=
reject_if (contains_sensitive_material value)
  (ValueError "identifier contains secret-bearing material").

Definition validate_Identifier (value : string) : result py_error unit :=
reject_if ((py_len value <? 1) || (128 <? py_len value))%Z
  (ValueError "identifier length is outside its bounds");;
reject_if (negb (identifier_pattern value))
  (ValueError "identifier does not match its pattern");;
validate_unicode_text value;;
validate_secret_free_identifier value.

Definition validate_NonEmptyText (value : string) : result py_error unit :=
reject_if ((py_len value <? 1) || (4096 <? py_len value))%Z
  (ValueError "text length is outside its bounds");;
validate_unicode_text value.

Definition validate_Sha256Digest (value : string) : result py_error unit :=
reject_if (negb ((String.length value =? 64)%nat && string_forallb is_hex_digit value))
  (ValueError "digest does not match its pattern").

(** [SanitizedText]: the length bounds, then [_sanitize_boundary_text]. *)
Definition sanitize_boundary_text (value : string) : result py_error string :=
let sanitized := terminal_safe_text value in
reject_if ((py_len sanitized <? 1) || (4096 <? py_len sanitized))%Z
  (ValueError "sanitized text exceeds the public boundary limit");;
Ok sanitized.

Definition validate_SanitizedText (value : string) : result py_error string :=
reject_if ((py_len value <? 1) || (4096 <? py_len value))%Z
  (ValueError "text length is outside its bounds");;
sanitize_boundary_text value.

(** [dict[Identifier, NonEmptyText]] with at most 32 entries. *)
Definition validate_text_map (m : list (string * string)) : result py_error unit :=
reject_if (32 <? length m)%nat (ValueError "dictionary has too many entries");;
for_each (λ e, validate_Identifier e.1;; validate_NonEmptyText e.2) m.

(** ** Text encoding *)

(** [json.dumps] of one string with [ensure_ascii=False]: quotes, backslashes
  and the C0 controls are escaped. *)
Definition hex_digit (n : N) : string :=
match String.get (N.to_nat n) "0123456789abcdef" with
| Some c => String c "" | None => "" end.

Definition escape_char (c : Ascii.ascii) : string :=
match Ascii.N_of_ascii c with
| 34%N => "\" +:+ String c ""
| 92%N => "\\"
| 10%N => "\n" | 13%N => "\r" | 9%N => "\t" | 12%N => "\f" | 8%N => "\b"
| n => if (n <? 32)%N then "\u00" +:+ hex_digit (n / 16) +:+ hex_digit (n mod 16)
       else String c ""
end.

Fixpoint escape (s : string) : string :=
match s with EmptyString => "" | String c s' => escape_char c +:+ escape s' end.

Definition dquote : string := String (Ascii.ascii_of_nat 34) "".
Definition quote (s : string) : string := dquote +:+ escape s +:+ dquote.

(** [json.dumps(value, ensure_ascii=False, separators=(",", ":"),
  sort_keys=True)] *)
Fixpoint dumps (v : json) : string :=
match v with
| JNull => "null"
| JBool true => "true"
| JBool false => "false"
| JInt z => pretty z
| JFloat f => float_repr f
| JStr s => quote s
| JArr l => "[" +:+ String.concat "," (map dumps l) +:+ "]"
| JObj m =>
    "{" +:+ String.concat ","
      (map (λ kv, quote kv.1 +:+ ":" +:+ kv.2)
        (merge_sort key_le (map (λ '(k, x), (k, dumps x)) m))) +:+ "}"
end.

Definition canonical_json_value_bytes (value : json) : result py_error string :=
validate_json 0 value;; Ok (dumps value).

(** What [validate_json] accepts, entry by entry. *)
Definition member_valid (depth : nat) (kv : string * json) : Prop :=
  bool_decide (kv.1 = "") || (128 <? py_len kv.1)%Z = false
  ∧ validate_unicode_text kv.1 = Ok tt ∧ validate_json (S depth) kv.2 = Ok tt.

Lemma validate_json_array depth l :
  validate_json depth (JArr l) = Ok tt ↔
  (depth ≤ 12)%nat ∧ Forall (λ v, validate_json (S depth) v = Ok tt) l.
Proof.
  cbn [validate_json]. rewrite reject_then_ok, Nat.ltb_ge. apply and_iff_compat_l.
  induction l as [|v l IH]; [split; [constructor|done]|].
  rewrite Forall_cons, <-IH, bind_ok.
  split; [intros ([] & ? & ?); done|intros [? ?]; by exists tt].
Qed.

Lemma validate_json_object depth m :
  validate_json depth (JObj m) = Ok tt ↔
  (depth ≤ 12)%nat ∧ (length m ≤ 128)%nat ∧ Forall (member_valid depth) m.
Proof.
  cbn [validate_json]. rewrite !reject_then_ok, !Nat.ltb_ge.
  apply and_iff_compat_l, and_iff_compat_l.
  induction m as [|[k v] m IH]; [split; [constructor|done]|].
  rewrite Forall_cons, <-IH. unfold member_valid at 1. cbn [fst snd].
  rewrite reject_then_ok, bind_ok. setoid_rewrite bind_ok. split.
  - intros (? & [] & ? & [] & ? & ?). done.
  - intros ((? & ? & ?) & ?). split; [done|]. exists tt. split; [done|]. by exists tt.
Qed.

(** A value that is accepted somewhere is accepted nearer to the root. *)
Lemma validate_json_shallower v d d' :
  (d' ≤ d)%nat → validate_json d v = Ok tt → validate_json d' v = Ok tt.
Proof.
  revert d d'. induction v as [|b|z|f|s|l IH|m IH] using json_ind'; intros d d' Hd.
  1-5: cbn [validate_json]; rewrite !reject_then_ok, !Nat.ltb_ge; intros [? ?]; split; [lia|done].
  - rewrite !validate_json_array. intros [Hn Hl]. split; [lia|].
    rewrite Forall_forall in IH, Hl |- *. intros v Hv. apply (IH v Hv (S d)); [lia|by apply Hl].
  - rewrite !validate_json_object. intros (Hn & Hlen & Hm). split_and!; [lia|done|].
    rewrite Forall_forall in IH, Hm |- *. intros kv Hv.
    destruct (Hm kv Hv) as (H1 & H2 & H3). split_and!; [done|done|].
    apply (IH kv Hv (S d)); [lia|done].
Qed.

End runtime.

(** ** Quoted text is decodable *)

Definition hex_value (c : Ascii.ascii) : N :=
  let n := Ascii.N_of_ascii c in if (n <? 58)%N then (n - 48)%N else (n - 87)%N.

(** One character back from an escaped string. *)
Definition unescape_char (s : string) : option (Ascii.ascii * string) :=
  match s with
  | EmptyString => None
  | String c rest =>
      if (Ascii.N_of_ascii c =? 92)%N then
        match rest with
        | EmptyString => None
        | String d r =>
            match Ascii.N_of_ascii d with
            | 110%N => Some (Ascii.ascii_of_N 10, r)
            | 114%N => Some (Ascii.ascii_of_N 13, r)
            | 116%N => Some (Ascii.ascii_of_N 9, r)
            | 102%N => Some (Ascii.ascii_of_N 12, r)
            | 98%N => Some (Ascii.ascii_of_N 8, r)
            | 117%N => match r with
              | String _ (String _ (String h (String l r'))) =>
                  Some (Ascii.ascii_of_N (16 * hex_value h + hex_value l), r')
              | _ => None end
            | _ => Some (d, r)
            end
        end
      else Some (c, rest)
  end.

Lemma unescape_escape c r : unescape_char (escape_char c +:+ r) = Some (c, r).
Proof. destruct c as [[] [] [] [] [] [] [] []]; reflexivity. Qed.

Lemma string_app_assoc (a b c : string) : (a +:+ b) +:+ c = a +:+ (b +:+ c).
Proof. induction a as [|x a IH]; [done|]. exact (f_equal (String x) IH). Qed.

Lemma escape_end_inj a b : escape a +:+ dquote = escape b +:+ dquote → a = b.
Proof.
  revert b. induction a as [|c a IH]; intros [|d b]; cbn [escape]; try done.
  - rewrite string_app_assoc. intros H%(f_equal unescape_char).
    rewrite unescape_escape in H. cbn in H. injection H as _ H.
    by destruct (escape b).
  - rewrite string_app_assoc. intros H%(f_equal unescape_char).
    rewrite unescape_escape in H. cbn in H. injection H as _ H.
    by destruct (escape a).
  - rewrite !string_app_assoc. intros H%(f_equal unescape_char).
    rewrite !unescape_escape in H. injection H as -> H. f_equal. by apply IH.
Qed.

Lemma quote_inj a b : quote a = quote b → a = b.
Proof. unfold quote, dquote. cbn. intros H. injection H as H. by apply escape_end_inj. Qed.

(** * Canonical bytes and digests *)

#[local] Open Scope Z_scope.

(** ** Timestamps *)

(** Proleptic Gregorian date of a day count from 1970-01-01. *)
Definition civil_from_days (days : Z) : Z * Z * Z :=
  let z := days + 719468 in
  let era := z / 146097 in
  let doe := z mod 146097 in
  let yoe := (doe - doe / 1460 + doe / 36524 - doe / 146096) / 365 in
  let doy := doe - (365 * yoe + yoe / 4 - yoe / 100) in
  let mp := (5 * doy + 2) / 153 in
  let d := doy - (153 * mp + 2) / 5 + 1 in
  let m := if mp <? 10 then mp + 3 else mp - 9 in
  let y := yoe + era * 400 + (if m <=? 2 then 1 else 0) in
  (y, m, d).

Fixpoint zero_padded (width : nat) (n : Z) : string :=
  match width with
  | O => ""
  | S w => zero_padded w (n / 10) +:+ pretty (n mod 10)
  end.

Definition second_us : Z := 1000000.
Definition day_us : Z := 86400 * second_us.

(** [utc.isoformat(timespec=...).replace("+00:00", "Z")] *)
Definition datetime_text (value : datetime) : string :=
  let '(y, m, d) := civil_from_days (value / day_us) in
  let t := value mod day_us in
  let seconds := t / second_us in
  let microsecond := t mod second_us in
  zero_padded 4 y +:+ "-" +:+ zero_padded 2 m +:+ "-" +:+ zero_padded 2 d +:+ "T" +:+
  zero_padded 2 (seconds / 3600) +:+ ":" +:+
  zero_padded 2 (seconds / 60 mod 60) +:+ ":" +:+
  zero_padded 2 (seconds mod 60) +:+
  (if microsecond =? 0 then "" else "." +:+ zero_padded 6 microsecond) +:+ "Z".

Example datetime_text_epoch : datetime_text 0 = "1970-01-01T00:00:00Z".
Proof. vm_compute. reflexivity. Qed.

Example datetime_text_leap :
  datetime_text 1709210096000250 = "2024-02-29T12:34:56.000250Z".
Proof. vm_compute. reflexivity. Qed.

(** ** Models *)

Class ToJson (A : Type) := to_json : A → json.

#[export] Instance string_to_json : ToJson string := JStr.
#[export] Instance int_to_json : ToJson Z := JInt.
#[export] Instance bool_to_json : ToJson bool := JBool.
#[export] Instance option_to_json `{ToJson A} : ToJson (option A) := λ o,
  match o with Some a => to_json a | None => JNull end.
#[export] Instance list_to_json `{ToJson A} : ToJson (list A) := λ l,
  JArr (map to_json l).
Definition time_json (t : datetime) : json := JStr (datetime_text t).
Definition opt_time_json (t : option datetime) : json :=
  match t with Some t => time_json t | None => JNull end.
Definition text_map_json (m : list (string * string)) : json :=
  JObj (map (λ '(k, v), (k, JStr v)) m).

Section runtime.
Context {rt : Runtime}.

(** [canonical_json_bytes(model)] of a model that is valid, and its digest. *)
Definition canonical_json_bytes `{ToJson A} (model : A) : string :=
  dumps (to_json model).

Definition canonical_sha256 `{ToJson A} (model : A) : string :=
  sha256_hex (canonical_json_bytes model).

Lemma canonical_sha256_ext `{ToJson A} (x y : A) :
  canonical_json_bytes x = canonical_json_bytes y →
  canonical_sha256 x = canonical_sha256 y.
Proof. unfold canonical_sha256. congruence. Qed.

End runtime.
