(* ===== verification/JsonText.v ===== *)
(** Reading JSON text: [json.loads] as the decoders of the program use it, with
    duplicate keys and non-finite constants rejected
    (reconcile/contracts/codec.py), and its round trip with the canonical
    encoder.

    Text is UTF-8 bytes.  A surrogate that JSON escapes can name but UTF-8
    cannot is kept as the three bytes of its code point, which
    [valid_utf8] then refuses. *)

From S2P Require Export Json.

#[local] Open Scope Z_scope.

(** [float(text)] of a JSON number. *)
Class FloatParser := { parse_float : string → spec_float }.

(** ** UTF-8 *)

Definition byte_string (n : N) : string := String (Ascii.ascii_of_N n) "".

(** The bytes of one code point. *)
Definition utf8_encode (n : N) : string :=
  if (n <? 128)%N then byte_string n
  else if (n <? 2048)%N then
    byte_string (192 + n / 64) +:+ byte_string (128 + n mod 64)
  else if (n <? 65536)%N then
    byte_string (224 + n / 4096) +:+ byte_string (128 + n / 64 mod 64)
    +:+ byte_string (128 + n mod 64)
  else
    byte_string (240 + n / 262144) +:+ byte_string (128 + n / 4096 mod 64)
    +:+ byte_string (128 + n / 64 mod 64) +:+ byte_string (128 + n mod 64).

(** What the lead byte [n] asks of the rest: the number of continuation bytes
    and the range of the first one. *)
Definition utf8_lead (n : N) : option (nat * (N * N)) :=
  if (n <? 128)%N then Some (0%nat, (128, 191))%N
  else if (n <? 194)%N then None
  else if (n <? 224)%N then Some (1%nat, (128, 191))%N
  else if (n =? 224)%N then Some (2%nat, (160, 191))%N
  else if (n =? 237)%N then Some (2%nat, (128, 159))%N
  else if (n <? 240)%N then Some (2%nat, (128, 191))%N
  else if (n =? 240)%N then Some (3%nat, (144, 191))%N
  else if (n <? 244)%N then Some (3%nat, (128, 191))%N
  else if (n =? 244)%N then Some (3%nat, (128, 143))%N
  else None.

(** [bytes.decode("utf-8")] accepts, and [str.encode("utf-8")] does. *)
Fixpoint valid_utf8_from (pending : nat) (range : N * N) (s : string) : bool :=
  match s with
  | EmptyString => (pending =? 0)%nat
  | String c rest =>
      let n := Ascii.N_of_ascii c in
      match pending with
      | S p => (range.1 <=? n)%N && (n <=? range.2)%N
               && valid_utf8_from p (128, 191)%N rest
      | O => match utf8_lead n with
             | Some (p, r) => valid_utf8_from p r rest
             | None => false
             end
      end
  end.
Definition valid_utf8 (s : string) : bool := valid_utf8_from 0 (128, 191)%N s.

(** ** Scanning *)

Abbreviation scanned A := (result py_error (A * string)) (only parsing).

Definition char_code (c : Ascii.ascii) : N := Ascii.N_of_ascii c.

Definition is_json_space (c : Ascii.ascii) : bool :=
  inb (char_code c) [32; 9; 10; 13]%N.

Fixpoint skip_space (s : string) : string :=
  match s with
  | String c rest => if is_json_space c then skip_space rest else s
  | EmptyString => EmptyString
  end.

Definition json_error {A} (message : string) : result py_error A :=
  Raise (ValueError message).

(** The recursion limit of the interpreter. *)
Definition too_deep {A} : result py_error A :=
  Raise (RuntimeError "maximum recursion depth exceeded").

(** The value of one hexadecimal digit, of either case. *)
Definition hex_digit_value (c : Ascii.ascii) : option N :=
  let n := char_code c in
  if is_digit c then Some (n - 48)%N
  else if ((97 <=? n) && (n <=? 102))%N then Some (n - 87)%N
  else if ((65 <=? n) && (n <=? 70))%N then Some (n - 55)%N
  else None.

(** The four hexadecimal digits of a [\u] escape. *)
Definition scan_hex4 (s : string) : option (N * string) :=
  match s with
  | String a (String b (String c (String d rest))) =>
      match hex_digit_value a, hex_digit_value b, hex_digit_value c, hex_digit_value d with
      | Some a, Some b, Some c, Some d => Some (4096 * a + 256 * b + 16 * c + d, rest)%N
      | _, _, _, _ => None
      end
  | _ => None
  end.

Definition is_high_surrogate (n : N) : bool := (55296 <=? n)%N && (n <=? 56319)%N.
Definition is_low_surrogate (n : N) : bool := (56320 <=? n)%N && (n <=? 57343)%N.

(** The low half that may follow a high surrogate. *)
Definition scan_low_surrogate (s : string) : option (N * string) :=
  match s with
  | String a (String b rest) =>
      if (char_code a =? 92)%N && (char_code b =? 117)%N then
        match scan_hex4 rest with
        | Some (n, rest') => if is_low_surrogate n then Some (n, rest') else None
        | None => None
        end
      else None
  | _ => None
  end.

Definition scan_unicode_escape (s : string) : scanned string :=
  match scan_hex4 s with
  | None => json_error "Invalid \uXXXX escape"
  | Some (n, rest) =>
      if is_high_surrogate n then
        match scan_low_surrogate rest with
        | Some (m, rest') =>
            Ok (utf8_encode (65536 + (n - 55296) * 1024 + (m - 56320))%N, rest')
        | None => Ok (utf8_encode n, rest)
        end
      else Ok (utf8_encode n, rest)
  end.

(** After a backslash. *)
Definition scan_escape (s : string) : scanned string :=
  match s with
  | EmptyString => json_error "Unterminated string"
  | String c rest =>
      match char_code c with
      | 34%N => Ok (byte_string 34, rest) | 92%N => Ok (byte_string 92, rest)
      | 47%N => Ok (byte_string 47, rest) | 98%N => Ok (byte_string 8, rest)
      | 102%N => Ok (byte_string 12, rest) | 110%N => Ok (byte_string 10, rest)
      | 114%N => Ok (byte_string 13, rest) | 116%N => Ok (byte_string 9, rest)
      | 117%N => scan_unicode_escape rest
      | _ => json_error "Invalid \escape"
      end
  end.

(** The rest of a string literal, after its opening quote. *)
Fixpoint scan_string (fuel : nat) (s : string) : scanned string :=
  match fuel with
  | O => too_deep
  | S fuel' =>
      match s with
      | EmptyString => json_error "Unterminated string"
      | String c rest =>
          if (char_code c =? 34)%N then Ok ("", rest)
          else if (char_code c =? 92)%N then
            e ← scan_escape rest;
            t ← scan_string fuel' e.2;
            Ok (e.1 +:+ t.1, t.2)
          else if (char_code c <? 32)%N then json_error "Invalid control character"
          else t ← scan_string fuel' rest; Ok (String c t.1, t.2)
      end
  end.

(** A maximal run of digits. *)
Fixpoint scan_digits (s : string) : string * string :=
  match s with
  | String c rest =>
      if is_digit c then let '(d, r) := scan_digits rest in (String c d, r) else ("", s)
  | EmptyString => ("", "")
  end.

Definition digit_value (c : Ascii.ascii) : Z := Z.of_N (char_code c) - 48.
Fixpoint digits_value (acc : Z) (s : string) : Z :=
  match s with
  | EmptyString => acc
  | String c rest => digits_value (10 * acc + digit_value c) rest
  end.

(** [sys.get_int_max_str_digits()] *)
Definition int_max_str_digits : nat := 4300.

(** An optional [.digits]. *)
Definition scan_fraction (s : string) : string * string :=
  match s with
  | String c rest =>
      if (char_code c =? 46)%N then
        match scan_digits rest with
        | (EmptyString, _) => ("", s)
        | (d, r) => (String c d, r)
        end
      else ("", s)
  | EmptyString => ("", s)
  end.

(** An optional exponent. *)
Definition scan_exponent (s : string) : string * string :=
  match s with
  | String c rest =>
      if (char_code c =? 101)%N || (char_code c =? 69)%N then
        let '(sign, rest') := match rest with
          | String d r => if (char_code d =? 43)%N || (char_code d =? 45)%N
                          then (String d "", r) else ("", rest)
          | EmptyString => ("", rest)
          end in
        match scan_digits rest' with
        | (EmptyString, _) => ("", s)
        | (d, r) => (String c (sign +:+ d), r)
        end
      else ("", s)
  | EmptyString => ("", s)
  end.

(** [0|[1-9][0-9]*] *)
Definition scan_natural (s : string) : option (string * string) :=
  match s with
  | String c rest =>
      if (char_code c =? 48)%N then Some ("0", rest)
      else if is_digit c then
        let '(d, r) := scan_digits rest in Some (String c d, r)
      else None
  | EmptyString => None
  end.

(** [NUMBER_RE.match]: the integer part, whether it has a minus sign first. *)
Definition is_minus (s : string) : bool :=
  match s with String c _ => (char_code c =? 45)%N | EmptyString => false end.
Definition drop_char (s : string) : string :=
  match s with String _ rest => rest | EmptyString => s end.
Definition scan_integer (s : string) : bool * option (string * string) :=
  (is_minus s, scan_natural (if is_minus s then drop_char s else s)).

Section scanner.
Context {fp : FloatParser}.

Definition scan_number (s : string) : scanned json :=
  match scan_integer s with
  | (_, None) => json_error "Expecting value"
  | (negative, Some (digits, rest)) =>
      let '(fraction, rest1) := scan_fraction rest in
      let '(exponent, rest2) := scan_exponent rest1 in
      if bool_decide (fraction = "") && bool_decide (exponent = "") then
        reject_if (int_max_str_digits <? String.length digits)%nat
          (ValueError "Exceeds the limit for integer string conversion");;
        let n := digits_value 0 digits in
        Ok (JInt (if negative : bool then - n else n), rest)
      else
        Ok (JFloat (parse_float ((if negative : bool then "-" else "") +:+ digits
                                 +:+ fraction +:+ exponent)), rest2)
  end.

(** [text.startswith(word, idx)], and what follows. *)
Fixpoint after_word (word s : string) : option string :=
  match word, s with
  | EmptyString, _ => Some s
  | String a w, String b r => if Ascii.eqb a b then after_word w r else None
  | _, EmptyString => None
  end.

(** The object hook: a dict, its keys unique. *)
Definition object_of_pairs (pairs : json_object) : result py_error json :=
  reject_if (has_dup (map fst pairs)) (ValueError "duplicate JSON object key");;
  Ok (JObj pairs).

(** [scan_once] at a value, the items of an array after one was read or begun,
    and the members of an object from a key on. *)
Fixpoint scan_value (fuel : nat) (s : string) : scanned json :=
  match fuel with
  | O => too_deep
  | S fuel' =>
      match s with
      | EmptyString => json_error "Expecting value"
      | String c rest =>
          match char_code c with
          | 34%N => t ← scan_string fuel' rest; Ok (JStr t.1, t.2)
          | 123%N =>
              match skip_space rest with
              | String d rest' =>
                  if (char_code d =? 125)%N then Ok (JObj [], rest')
                  else t ← scan_members fuel' (String d rest');
                       o ← object_of_pairs t.1; Ok (o, t.2)
              | EmptyString => json_error "Expecting property name enclosed in double quotes"
              end
          | 91%N =>
              match skip_space rest with
              | String d rest' =>
                  if (char_code d =? 93)%N then Ok (JArr [], rest')
                  else t ← scan_items fuel' (String d rest'); Ok (JArr t.1, t.2)
              | EmptyString => json_error "Expecting value"
              end
          | _ =>
              match after_word "null" s, after_word "true" s, after_word "false" s with
              | Some r, _, _ => Ok (JNull, r)
              | _, Some r, _ => Ok (JBool true, r)
              | _, _, Some r => Ok (JBool false, r)
              | None, None, None => scan_number s
              end
          end
      end
  end
with scan_items (fuel : nat) (s : string) : scanned (list json) :=
  match fuel with
  | O => too_deep
  | S fuel' =>
      v ← scan_value fuel' s;
      match skip_space v.2 with
      | String c rest =>
          if (char_code c =? 93)%N then Ok ([v.1], rest)
          else if (char_code c =? 44)%N then
            t ← scan_items fuel' (skip_space rest); Ok (v.1 :: t.1, t.2)
          else json_error "Expecting ',' delimiter"
      | EmptyString => json_error "Expecting ',' delimiter"
      end
  end
with scan_members (fuel : nat) (s : string) : scanned json_object :=
  match fuel with
  | O => too_deep
  | S fuel' =>
      match s with
      | String q rest =>
          if (char_code q =? 34)%N then
            key ← scan_string fuel' rest;
            match skip_space key.2 with
            | String colon rest1 =>
                if (char_code colon =? 58)%N then
                  v ← scan_value fuel' (skip_space rest1);
                  match skip_space v.2 with
                  | String c rest2 =>
                      if (char_code c =? 125)%N then Ok ([(key.1, v.1)], rest2)
                      else if (char_code c =? 44)%N then
                        t ← scan_members fuel' (skip_space rest2);
                        Ok ((key.1, v.1) :: t.1, t.2)
                      else json_error "Expecting ',' delimiter"
                  | EmptyString => json_error "Expecting ',' delimiter"
                  end
                else json_error "Expecting ':' delimiter"
            | EmptyString => json_error "Expecting ':' delimiter"
            end
          else json_error "Expecting property name enclosed in double quotes"
      | EmptyString => json_error "Expecting property name enclosed in double quotes"
      end
  end.

(** [json.loads(text, object_pairs_hook=..., parse_constant=...)] *)
Definition loads (text : string) : result py_error json :=
  let s := skip_space text in
  v ← scan_value (2 * String.length s + 2) s;
  match skip_space v.2 with
  | EmptyString => Ok v.1
  | _ => json_error "Extra data"
  end.

End scanner.

(** ** The value read back *)

(** [json.loads] of a value's canonical text: every object's keys come back
    sorted. *)
Definition entry_le (x y : string * json) : Prop := str_le x.1 y.1.
#[export] Instance entry_le_dec x y : Decision (entry_le x y).
Proof. unfold entry_le. apply _. Defined.

Fixpoint reload (value : json) : json :=
  match value with
  | JArr l => JArr (map reload l)
  | JObj m => JObj (merge_sort entry_le (map (λ kv, (kv.1, reload kv.2)) m))
  | _ => value
  end.

Definition reload_object (m : json_object) : json_object :=
  match reload (JObj m) with JObj m => m | _ => [] end.

(** A value with 64-bit integers, no floats and no duplicate keys. *)
Fixpoint plain_json (value : json) : bool :=
  match value with
  | JInt z => (- 2 ^ 63 <=? z) && (z <=? int64_max)
  | JFloat _ => false
  | JArr l => forallb plain_json l
  | JObj m => bool_decide (NoDup (map fst m)) && forallb (λ kv, plain_json kv.2) m
  | _ => true
  end.
