(* ===== verification/JsonRoundTrip.v ===== *)
(** The canonical text reads back: [loads (dumps v)] is [v] with its keys
    sorted, and reading never runs out of fuel. *)

From S2P Require Export JsonText.

#[local] Open Scope Z_scope.

(** ** Strings of text *)

Lemma slen_app a b : String.length (a +:+ b) = (String.length a + String.length b)%nat.
Proof. induction a as [|c a IH]; [done|]. exact (f_equal S IH). Qed.

Lemma app_empty_r (a : string) : a +:+ "" = a.
Proof. induction a as [|c a IH]; [done|]. exact (f_equal (String c) IH). Qed.

Section strings.

Lemma scan_escaped c n r :
  scan_string (S n) (escape_char c +:+ r)
    = (t ← scan_string n r; Ok (String c t.1, t.2)).
Proof. destruct c as [[] [] [] [] [] [] [] []]; reflexivity. Qed.

Lemma scan_string_escape s rest n :
  (String.length s < n)%nat → scan_string n (escape s +:+ dquote +:+ rest) = Ok (s, rest).
Proof.
  revert n. induction s as [|c s IH]; intros [|n] Hn; try (cbn in Hn; lia); [done|].
  cbn [escape]. rewrite string_app_assoc, scan_escaped. rewrite IH by (cbn in Hn; lia). done.
Qed.

Lemma escape_char_length c : (1 ≤ String.length (escape_char c))%nat.
Proof. apply Nat.leb_le. by destruct c as [[] [] [] [] [] [] [] []]. Qed.

Lemma escape_length s : (String.length s ≤ String.length (escape s))%nat.
Proof.
  induction s as [|c s IH]; [done|]. cbn [escape String.length]. rewrite slen_app.
  pose proof (escape_char_length c). lia.
Qed.

Lemma quote_length s : (String.length s + 2 ≤ String.length (quote s))%nat.
Proof.
  unfold quote. rewrite !slen_app. pose proof (escape_length s). cbn. lia.
Qed.

End strings.

(** ** Integers *)

Definition all_digits (s : string) : bool := string_forallb is_digit s.

Lemma digit_char x : (x < 10)%N →
  is_digit (pretty_N_char x) = true ∧ digit_value (pretty_N_char x) = Z.of_N x ∧
  ((0 < x)%N → (char_code (pretty_N_char x) =? 48)%N = false).
Proof.
  intros Hx. assert (x ∈ map N.of_nat (seq 0 10)) as Hin.
  { apply list_elem_of_fmap. exists (N.to_nat x). rewrite N2Nat.id. split; [done|].
    apply elem_of_seq. lia. }
  cbn in Hin. rewrite !elem_of_cons, elem_of_nil in Hin.
  destruct_or! Hin; subst x; try done; by vm_compute.
Qed.

(** The number's text does not run into what follows it. *)
Definition number_end (rest : string) : Prop :=
  match rest with
  | EmptyString => True
  | String c _ => is_digit c = false ∧ char_code c ≠ 46%N ∧ char_code c ≠ 101%N
                  ∧ char_code c ≠ 69%N
  end.

Lemma scan_digits_app d rest :
  all_digits d = true → number_end rest → scan_digits (d +:+ rest) = (d, rest).
Proof.
  intros Hd Hr. induction d as [|c d IH].
  - destruct rest as [|c r]; [done|]. destruct Hr as [Hc _].
    change (scan_digits (String c r) = ("", String c r)). cbn. by rewrite Hc.
  - cbn in Hd. apply andb_true_iff in Hd as [Hc Hd].
    change (scan_digits (String c (d +:+ rest)) = (String c d, rest)). cbn.
    by rewrite Hc, (IH Hd).
Qed.

Lemma pretty_go_digits n s : all_digits s = true → all_digits (pretty_N_go n s) = true.
Proof.
  revert s. induction (N.lt_wf_0 n) as [n _ IH]; intros s Hs.
  destruct (decide (0 < n)%N) as [Hn|Hn]; [|by replace n with 0%N by lia; rewrite pretty_N_go_0].
  rewrite pretty_N_go_step by done. apply IH; [by apply N.div_lt|].
  cbn. apply andb_true_iff. split; [|done]. apply digit_char. by apply N.mod_lt.
Qed.

Lemma pretty_go_value n s : digits_value 0 (pretty_N_go n s) = digits_value (Z.of_N n) s.
Proof.
  revert s. induction (N.lt_wf_0 n) as [n _ IH]; intros s.
  destruct (decide (0 < n)%N) as [Hn|Hn]; [|by replace n with 0%N by lia; rewrite pretty_N_go_0].
  rewrite pretty_N_go_step by done. rewrite IH by by apply N.div_lt.
  cbn [digits_value]. f_equal.
  destruct (digit_char (n mod 10)) as (_ & -> & _); [by apply N.mod_lt|].
  rewrite N2Z.inj_div, N2Z.inj_mod. pose proof (Z.div_mod (Z.of_N n) 10). lia.
Qed.

Lemma pretty_go_head n s : (0 < n)%N →
  ∃ c r, pretty_N_go n s = String c r ∧ is_digit c = true ∧ (char_code c =? 48)%N = false.
Proof.
  revert s. induction (N.lt_wf_0 n) as [n _ IH]; intros s Hn.
  rewrite pretty_N_go_step by done.
  destruct (decide (0 < n `div` 10)%N) as [Hd|Hd]; [by apply IH; [apply N.div_lt|]|].
  apply N.nlt_ge, N.le_0_r in Hd as Hz. rewrite Hz, pretty_N_go_0.
  assert (n < 10)%N as Hlt by (apply N.div_small_iff; done).
  rewrite N.mod_small by done. destruct (digit_char n Hlt) as (H1 & _ & H2).
  eexists _, _. split; [reflexivity|]. split; [exact H1|exact (H2 Hn)].
Qed.

Lemma pretty_go_length k n s : (n < 10 ^ N.of_nat k)%N →
  (String.length (pretty_N_go n s) ≤ k + String.length s)%nat.
Proof.
  revert n s. induction k as [|k IH]; intros n s Hn.
  - cbn in Hn. replace n with 0%N by lia. by rewrite pretty_N_go_0.
  - destruct (decide (0 < n)%N) as [Hp|Hp];
      [|replace n with 0%N by lia; rewrite pretty_N_go_0; lia].
    rewrite pretty_N_go_step by done.
    etransitivity; [apply IH|cbn; lia].
    rewrite Nat2N.inj_succ, N.pow_succ_r' in Hn.
    apply N.Div0.div_lt_upper_bound. lia.
Qed.

Section numbers.
Context {fp : FloatParser}.

Lemma scan_suffix rest : number_end rest →
  scan_fraction rest = ("", rest) ∧ scan_exponent rest = ("", rest).
Proof.
  destruct rest as [|c r]; [done|]. intros (_ & H1 & H2 & H3). cbn.
  by rewrite !(proj2 (N.eqb_neq _ _)).
Qed.

Lemma scan_number_digits (neg : bool) d c r rest :
  d = String c r → all_digits d = true → ((char_code c =? 48)%N = false ∨ d = "0") →
  (String.length d ≤ int_max_str_digits)%nat → number_end rest →
  scan_number ((if neg then "-" else "") +:+ d +:+ rest)
    = Ok (JInt (if neg then - digits_value 0 d else digits_value 0 d), rest).
Proof.
  intros -> Hd Hz Hlen Hr. cbn [all_digits string_forallb] in Hd.
  apply andb_true_iff in Hd as [Hc Hrd].
  destruct (scan_suffix _ Hr) as [Hf He].
  assert (scan_natural (String c r +:+ rest) = Some (String c r, rest)) as Hnat.
  { change (String c r +:+ rest) with (String c (r +:+ rest)). cbn [scan_natural].
    destruct Hz as [Hz|Hz]; [by rewrite Hz, Hc, scan_digits_app|]. by injection Hz as -> ->. }
  assert (is_minus (String c r +:+ rest) = false) as Hm.
  { pose proof Hc as H48. unfold is_digit in H48. apply andb_true_iff in H48 as [H48 _].
    apply N.leb_le in H48. apply N.eqb_neq. unfold char_code. lia. }
  assert (scan_integer ((if neg then "-" else "") +:+ String c r +:+ rest)
    = (neg, Some (String c r, rest))) as Hint.
  { unfold scan_integer. destruct neg; [by rewrite <-Hnat|].
    change ("" +:+ String c r +:+ rest) with (String c r +:+ rest). by rewrite Hm, Hnat. }
  unfold scan_number. rewrite Hint, Hf, He.
  rewrite !bool_decide_eq_true_2 by done. cbn [andb].
  rewrite reject_if_false by by apply Nat.ltb_ge. done.
Qed.

Lemma scan_positive (neg : bool) p rest :
  Z.pos p ≤ 2 ^ 63 → number_end rest →
  scan_number ((if neg then "-" else "") +:+ pretty_N_go (N.pos p) "" +:+ rest)
    = Ok (JInt (if neg then - Z.pos p else Z.pos p), rest).
Proof.
  intros Hp Hr. destruct (pretty_go_head (N.pos p) "") as (c & r & Hd & Hc & Hn); [done|].
  pose proof (pretty_go_value (N.pos p) "") as Hv. cbn [digits_value Z.of_N] in Hv.
  rewrite <-Hv. apply (scan_number_digits neg _ c r);
    [done|by apply pretty_go_digits|by left| |done].
  pose proof (pretty_go_length 20 (N.pos p) "") as Hl.
  etransitivity; [apply Hl|].
  - replace (10 ^ N.of_nat 20)%N with 100000000000000000000%N by (vm_compute; reflexivity).
    lia.
  - by apply Nat.leb_le.
Qed.

Lemma scan_pretty z rest :
  - 2 ^ 63 ≤ z ≤ int64_max → number_end rest →
  scan_number (pretty z +:+ rest) = Ok (JInt z, rest).
Proof.
  intros Hz Hr. unfold int64_max in Hz. destruct z as [|p|p].
  - apply (scan_number_digits false "0" (Ascii.ascii_of_N 48) "");
      [done|done|by right|by apply Nat.leb_le|done].
  - apply (scan_positive false); [lia|done].
  - apply (scan_positive true); [lia|done].
Qed.

End numbers.

(** ** Values *)

#[export] Instance entry_le_trans : Transitive entry_le.
Proof. intros x y z. unfold entry_le. by etransitivity. Qed.
#[export] Instance entry_le_total : Total entry_le.
Proof. intros x y. unfold entry_le. apply total, _. Qed.

Section values.
Context {rt : Runtime} {fp : FloatParser}.

Definition dump_member (kv : string * json) : string := quote kv.1 +:+ ":" +:+ dumps kv.2.

Lemma sorted_entries {V W} (R : relation (string * V)) (S : relation (string * W))
  `{∀ x y, Decision (R x y), ∀ x y, Decision (S x y)} (f : V → W) (m : list (string * V)) :
  (∀ x y, R x y ↔ str_le x.1 y.1) → (∀ x y, S x y ↔ str_le x.1 y.1) →
  NoDup (map fst m) →
  merge_sort S (map (λ kv, (kv.1, f kv.2)) m) = map (λ kv, (kv.1, f kv.2)) (merge_sort R m).
Proof.
  intros HR HS Hn.
  assert (Transitive R) by (intros x y z; rewrite !HR; by etransitivity).
  assert (Total R) by (intros x y; rewrite !HR; apply total, _).
  assert (Transitive S) by (intros x y z; rewrite !HS; by etransitivity).
  assert (Total S) by (intros x y; rewrite !HS; apply total, _).
  apply (merge_sort_map R S fst).
  - intros x y. rewrite !HS. apply (anti_symm str_le).
  - intros x y. by rewrite HS, HR.
  - by rewrite map_map.
Qed.

Lemma dumps_obj m : NoDup (map fst m) →
  dumps (JObj m) = "{" +:+ String.concat "," (map dump_member (merge_sort entry_le m)) +:+ "}".
Proof.
  intros Hn. cbn [dumps]. do 3 f_equal.
  transitivity (map (λ kv : string * string, quote kv.1 +:+ ":" +:+ kv.2)
    (map (λ kv, (kv.1, dumps kv.2)) (merge_sort entry_le m))).
  - f_equal. etransitivity; [|by apply (sorted_entries entry_le Json.key_le dumps m)].
    f_equal. apply map_ext. by intros [].
  - by rewrite map_map.
Qed.

Lemma reload_obj m : NoDup (map fst m) →
  reload (JObj m) = JObj (map (λ kv, (kv.1, reload kv.2)) (merge_sort entry_le m)).
Proof. intros Hn. cbn [reload]. f_equal. by apply (sorted_entries entry_le entry_le reload). Qed.

(** What a value's text begins with. *)
Definition value_head (c : Ascii.ascii) : bool :=
  negb (is_json_space c) && negb (char_code c =? 93)%N && negb (char_code c =? 125)%N.

Lemma digit_head c : is_digit c = true → value_head c = true.
Proof. by destruct c as [[] [] [] [] [] [] [] []]. Qed.

Lemma dumps_head v : plain_json v = true →
  ∃ c r, dumps v = String c r ∧ value_head c = true.
Proof.
  destruct v as [|[]|z|f|s|l|m]; intros Hp; try discriminate Hp; try by eexists _, _.
  destruct z as [|p|p]; [by eexists _, _| |by eexists _, _].
  destruct (pretty_go_head (N.pos p) "") as (c & r & Hd & Hc & _); [done|].
  exists c, r. split; [exact Hd|by apply digit_head].
Qed.

Lemma skip_head c r : value_head c = true → skip_space (String c r) = String c r.
Proof.
  unfold value_head. rewrite !andb_true_iff, !negb_true_iff. intros [[H _] _].
  cbn [skip_space]. by rewrite H.
Qed.

(** A value's text that another token follows. *)
Definition reads_back (v : json) : Prop :=
  ∀ fuel rest, number_end rest → (2 * String.length (dumps v) < fuel)%nat →
    scan_value fuel (dumps v +:+ rest) = Ok (reload v, rest).

Lemma scan_value_digit c r n :
  is_digit c = true ∨ char_code c = 45%N →
  scan_value (S n) (String c r) = scan_number (String c r).
Proof.
  intros Hc. assert (value_head c = true ∧ (char_code c =? 34)%N = false) as _.
  { destruct Hc as [Hc|Hc]; by destruct c as [[] [] [] [] [] [] [] []]. }
  destruct Hc as [Hc|Hc]; destruct c as [[] [] [] [] [] [] [] []];
    try discriminate Hc; reflexivity.
Qed.

Lemma int_reads_back z : - 2 ^ 63 ≤ z ≤ int64_max → reads_back (JInt z).
Proof.
  intros Hz [|n] rest Hr Hn; [lia|]. cbn [dumps reload].
  rewrite <-(scan_pretty z rest Hz Hr). destruct z as [|p|p].
  - by apply scan_value_digit; left.
  - destruct (pretty_go_head (N.pos p) "") as (c & r & Hd & Hc & _); [done|].
    change (pretty (Z.pos p)) with (pretty_N_go (N.pos p) ""). rewrite Hd.
    by apply scan_value_digit; left.
  - by apply scan_value_digit; right.
Qed.

Lemma scan_items_reads l n rest :
  l ≠ [] → Forall reads_back l → Forall (λ v, plain_json v = true) l →
  (2 * String.length (String.concat "," (map dumps l)) + 1 < n)%nat →
  scan_items n (String.concat "," (map dumps l) +:+ "]" +:+ rest) = Ok (map reload l, rest).
Proof.
  intros Hne Hl Hp. revert n. induction Hl as [|v l Hv Hl IH]; intros [|n] Hn; try (done || lia).
  apply Forall_cons in Hp as [Hpv Hp]. destruct l as [|w l].
  - cbn [map String.concat] in *. cbn [scan_items].
    rewrite Hv by (done || lia). done.
  - cbn [map] in *. change (String.concat "," (dumps v :: dumps w :: map dumps l))
      with (dumps v +:+ "," +:+ String.concat "," (dumps w :: map dumps l)) in *.
    rewrite !slen_app in Hn. cbn [String.length] in Hn.
    rewrite !string_app_assoc. cbn [scan_items]. rewrite Hv by (done || lia).
    cbn [mbind result_bind fst snd].
    assert (∃ c r, String.concat "," (dumps w :: map dumps l) +:+ "]" +:+ rest = String c r
      ∧ value_head c = true) as (c & r & Hc & Hh).
    { apply Forall_cons in Hp as [Hpw _]. destruct (dumps_head w Hpw) as (c & r & Hc & Hh).
      destruct l as [|x l]; cbn [map String.concat]; rewrite Hc; by eexists _, _. }
    change (skip_space ("," +:+ String.concat "," (dumps w :: map dumps l) +:+ "]" +:+ rest))
      with ("," +:+ String.concat "," (dumps w :: map dumps l) +:+ "]" +:+ rest).
    specialize (IH ltac:(done) Hp n ltac:(lia)). rewrite Hc in *.
    change ("," +:+ String c r) with (String (Ascii.ascii_of_N 44) (String c r)).
    cbn [char_code]. change (Ascii.N_of_ascii (Ascii.ascii_of_N 44)) with 44%N.
    cbv iota beta. change ((44 =? 93)%N) with false. change ((44 =? 44)%N) with true.
    cbv iota. rewrite skip_head by done. rewrite IH. done.
Qed.

(** A member's text reads back its key and value. *)
Definition member_reads (kv : string * json) : Prop := reads_back kv.2 ∧ plain_json kv.2 = true.

Lemma scan_members_reads m n rest :
  m ≠ [] → Forall member_reads m →
  (2 * String.length (String.concat "," (map dump_member m)) + 1 < n)%nat →
  scan_members n (String.concat "," (map dump_member m) +:+ "}" +:+ rest)
    = Ok (map (λ kv, (kv.1, reload kv.2)) m, rest).
Proof.
  intros Hne Hm. revert n. induction Hm as [|[k v] m [Hv Hpv] Hm IH]; intros [|n] Hn;
    try (done || lia). cbn [fst snd] in *.
  assert (String.length k + 2 + String.length (dumps v)
    < String.length (dump_member (k, v)))%nat as Hlen.
  { unfold dump_member. rewrite !slen_app. pose proof (quote_length k). cbn. lia. }
  assert (∀ tail, number_end tail →
    (2 * String.length (dump_member (k, v)) < S n)%nat →
    scan_members (S n) (dump_member (k, v) +:+ tail)
    = (match skip_space tail with
       | String c rest2 =>
           if (char_code c =? 125)%N then Ok ([(k, reload v)], rest2)
           else if (char_code c =? 44)%N then
             t ← scan_members n (skip_space rest2); Ok ((k, reload v) :: t.1, t.2)
           else json_error "Expecting ',' delimiter"
       | EmptyString => json_error "Expecting ',' delimiter"
       end)) as Hmember.
  { intros tail Htail Hfuel. unfold dump_member, quote. rewrite !string_app_assoc.
    change (dquote +:+ ?s) with (String (Ascii.ascii_of_N 34) s) at 1.
    cbn [scan_members fst snd]. change (char_code (Ascii.ascii_of_N 34) =? 34)%N with true.
    cbv iota. rewrite scan_string_escape by lia. cbn [mbind result_bind fst snd].
    change (skip_space (":" +:+ dumps v +:+ tail))
      with (String (Ascii.ascii_of_N 58) (dumps v +:+ tail)).
    cbv iota beta. change (char_code (Ascii.ascii_of_N 58) =? 58)%N with true. cbv iota.
    destruct (dumps_head v Hpv) as (c & r & Hc & Hh).
    assert (skip_space (dumps v +:+ tail) = dumps v +:+ tail) as ->
      by (rewrite Hc; by apply skip_head).
    by rewrite Hv by (done || lia). }
  destruct m as [|kw m].
  - cbn [map String.concat] in *. rewrite Hmember by (done || lia). done.
  - cbn [map] in *. change (String.concat "," (dump_member (k, v) :: dump_member kw
      :: map dump_member m)) with (dump_member (k, v) +:+ "," +:+
        String.concat "," (dump_member kw :: map dump_member m)) in *.
    rewrite !slen_app in Hn. cbn [String.length] in Hn.
    rewrite !string_app_assoc. rewrite Hmember by (done || lia).
    specialize (IH ltac:(done) n ltac:(lia)).
    assert (∃ r, String.concat "," (dump_member kw :: map dump_member m) +:+ "}" +:+ rest
      = String (Ascii.ascii_of_N 34) r) as [r Hc].
    { destruct m as [|x m]; cbn [map String.concat]; unfold dump_member at 1, quote;
        by eexists. }
    rewrite Hc in *.
    change (skip_space ("," +:+ String (Ascii.ascii_of_N 34) r))
      with (String (Ascii.ascii_of_N 44) (String (Ascii.ascii_of_N 34) r)).
    cbv iota beta. change (char_code (Ascii.ascii_of_N 44) =? 125)%N with false.
    change (char_code (Ascii.ascii_of_N 44) =? 44)%N with true. cbv iota.
    change (skip_space (String (Ascii.ascii_of_N 34) r)) with (String (Ascii.ascii_of_N 34) r).
    rewrite IH. done.
Qed.

Lemma array_reads_back l :
  Forall reads_back l → Forall (λ v, plain_json v = true) l → reads_back (JArr l).
Proof.
  intros Hl Hp [|n] rest Hr Hn; [lia|].
  change (dumps (JArr l)) with ("[" +:+ String.concat "," (map dumps l) +:+ "]") in *.
  change (reload (JArr l)) with (JArr (map reload l)).
  rewrite !slen_app in Hn. cbn [String.length] in Hn. rewrite !string_app_assoc.
  destruct l as [|v l]; [done|].
  assert (∃ c r, String.concat "," (map dumps (v :: l)) +:+ "]" +:+ rest = String c r
    ∧ value_head c = true) as (c & r & Hc & Hh).
  { apply Forall_cons in Hp as [Hpv _]. destruct (dumps_head v Hpv) as (c & r & Hc & Hh).
    destruct l as [|x l]; cbn [map String.concat]; rewrite Hc; by eexists _, _. }
  pose proof (scan_items_reads (v :: l) n rest ltac:(done) Hl Hp ltac:(lia)) as Hitems.
  rewrite Hc in *. change ("[" +:+ String c r) with (String (Ascii.ascii_of_N 91) (String c r)).
  cbn [scan_value]. change (char_code (Ascii.ascii_of_N 91)) with 91%N. cbv iota.
  rewrite skip_head by done. cbv iota beta.
  unfold value_head in Hh. rewrite !andb_true_iff, !negb_true_iff in Hh.
  destruct Hh as [[_ ->] _]. rewrite Hitems. done.
Qed.

Lemma object_reads_back m :
  NoDup (map fst m) → Forall member_reads m → reads_back (JObj m).
Proof.
  intros Hn Hm [|n] rest Hr Hf; [lia|].
  rewrite dumps_obj, reload_obj in * by done.
  assert (Forall member_reads (merge_sort entry_le m)) as Hs
    by by rewrite merge_sort_Permutation.
  assert (NoDup (map fst (merge_sort entry_le m))) as Hns
    by by rewrite merge_sort_Permutation.
  set (k := merge_sort entry_le m) in *. clearbody k. clear Hn Hm m.
  rewrite !slen_app in Hf. cbn [String.length] in Hf. rewrite !string_app_assoc.
  destruct k as [|kv k]; [done|].
  assert (∃ r, String.concat "," (map dump_member (kv :: k)) +:+ "}" +:+ rest
    = String (Ascii.ascii_of_N 34) r) as [r Hc].
  { destruct k as [|x k]; cbn [map String.concat]; unfold dump_member at 1, quote; by eexists. }
  pose proof (scan_members_reads (kv :: k) n rest ltac:(done) Hs ltac:(lia)) as Hmem.
  rewrite Hc in *.
  change ("{" +:+ String (Ascii.ascii_of_N 34) r)
    with (String (Ascii.ascii_of_N 123) (String (Ascii.ascii_of_N 34) r)).
  cbn [scan_value]. change (char_code (Ascii.ascii_of_N 123)) with 123%N. cbv iota.
  change (skip_space (String (Ascii.ascii_of_N 34) r)) with (String (Ascii.ascii_of_N 34) r).
  cbv iota beta. change (char_code (Ascii.ascii_of_N 34) =? 125)%N with false. cbv iota.
  rewrite Hmem. cbn [mbind result_bind fst snd]. unfold object_of_pairs.
  rewrite map_map. cbn [fst]. by rewrite (proj2 (has_dup_false _)) by done.
Qed.

Lemma plain_reads_back v : plain_json v = true → reads_back v.
Proof.
  induction v as [|b|z|f|s|l IH|m IH] using json_ind'; intros Hp.
  - intros [|n] rest Hr Hn; [lia|]. done.
  - intros [|n] rest Hr Hn; [lia|]. by destruct b.
  - cbn in Hp. apply andb_true_iff in Hp as [H1%Z.leb_le H2%Z.leb_le]. by apply int_reads_back.
  - discriminate Hp.
  - intros [|n] rest Hr Hn; [lia|]. cbn [dumps reload] in *. pose proof (quote_length s).
    unfold quote. rewrite !string_app_assoc.
    change (dquote +:+ ?s) with (String (Ascii.ascii_of_N 34) s) at 1.
    cbn [scan_value]. change (char_code (Ascii.ascii_of_N 34)) with 34%N. cbv iota.
    by rewrite scan_string_escape by lia.
  - cbn in Hp. rewrite forallb_forall in Hp.
    apply array_reads_back; rewrite Forall_forall in *; intros x Hx%list_elem_of_In; auto.
    apply IH; [by apply list_elem_of_In|auto].
  - cbn in Hp. apply andb_true_iff in Hp as [Hn%bool_decide_eq_true Hp].
    apply object_reads_back; [done|]. clear Hn. induction IH as [|kv m Hkv _ IHm]; [constructor|].
    cbn in Hp. apply andb_true_iff in Hp as [Hp1 Hp2]. constructor; [by split; auto|auto].
Qed.

End values.

(** ** Reading ends *)

(** A scan of [k] characters that ended: it consumed at least one, or it
    failed for a reason of the text. *)
Definition ended {A} (k : nat) (r : scanned A) : Prop :=
  match r with
  | Ok x => (String.length x.2 < k)%nat
  | Raise (ValueError _) => True
  | Raise _ => False
  end.

Section ends.
Context {fp : FloatParser}.

Lemma ended_bind {A B} j k (r : scanned A) (f : A * string → scanned B) :
  ended j r → (∀ a rest, (String.length rest < j)%nat → ended k (f (a, rest))) →
  ended k (r ≫= f).
Proof. destruct r as [[a rest]|e]; intros H Hf; [by apply Hf|by destruct e]. Qed.

Lemma ended_le {A} j k (r : scanned A) : ended j r → (j ≤ k)%nat → ended k r.
Proof. destruct r as [?|[]]; cbn; lia. Qed.

Lemma skip_space_length s : (String.length (skip_space s) ≤ String.length s)%nat.
Proof. induction s as [|c s IH]; [done|]. cbn. destruct is_json_space; cbn; lia. Qed.

Lemma scan_hex4_length s n rest :
  scan_hex4 s = Some (n, rest) → (String.length rest < String.length s)%nat.
Proof.
  destruct s as [|a [|b [|c [|d s]]]]; try discriminate. cbn [scan_hex4].
  repeat (destruct hex_digit_value; [|discriminate]). intros [= _ <-]. cbn. lia.
Qed.

Lemma scan_escape_ended s : ended (String.length s) (scan_escape s).
Proof.
  destruct s as [|c s]; [done|]. unfold scan_escape.
  assert (∀ n, ended (String.length (String c s)) (Ok (byte_string n, s))) as Hb
    by (intros n; cbn; lia).
  repeat case_match; try apply Hb; try exact I.
  unfold scan_unicode_escape. destruct scan_hex4 as [[n rest]|] eqn:Hhex; [|exact I].
  apply scan_hex4_length in Hhex. cbn [String.length].
  destruct is_high_surrogate; [|cbn; lia].
  destruct scan_low_surrogate as [[m r]|] eqn:Hl; [|cbn; lia].
  destruct rest as [|a [|b rest]]; try discriminate Hl. cbn [scan_low_surrogate] in Hl.
  destruct (_ && _)%N; [|discriminate Hl].
  destruct scan_hex4 as [[m' r']|] eqn:Hhex'; [|discriminate Hl].
  destruct is_low_surrogate; [|discriminate Hl]. injection Hl as _ <-.
  apply scan_hex4_length in Hhex'. cbn in *. lia.
Qed.

Lemma scan_string_ended n s :
  (String.length s < n)%nat → ended (String.length s) (scan_string n s).
Proof.
  revert s. induction n as [|n IH]; intros s Hn; [lia|]. destruct s as [|c s]; [exact I|].
  cbn [scan_string String.length] in *. destruct (_ =? 34)%N; [cbn; lia|].
  destruct (_ =? 92)%N.
  - eapply ended_bind; [apply scan_escape_ended|]. intros e r Hr. cbn [fst snd].
    eapply ended_bind; [apply IH; lia|]. intros t r' Hr'. cbn. lia.
  - destruct (_ <? 32)%N; [exact I|].
    eapply ended_bind; [apply IH; lia|]. intros t r' Hr'. cbn. lia.
Qed.

Lemma scan_digits_length s : (String.length (scan_digits s).2 ≤ String.length s)%nat.
Proof.
  induction s as [|c s IH]; [done|]. cbn [scan_digits]. destruct is_digit; [|done].
  destruct (scan_digits s) as [d r]. cbn in *. lia.
Qed.

Lemma scan_fraction_length s : (String.length (scan_fraction s).2 ≤ String.length s)%nat.
Proof.
  destruct s as [|c s]; [done|]. cbn [scan_fraction]. destruct (_ =? 46)%N; [|done].
  pose proof (scan_digits_length s). destruct (scan_digits s) as [[] r]; cbn in *; lia.
Qed.

Lemma scan_exponent_length s : (String.length (scan_exponent s).2 ≤ String.length s)%nat.
Proof.
  destruct s as [|c s]; [done|]. cbn [scan_exponent]. destruct (_ || _)%N; [|done].
  set (sp := match s with String _ _ => _ | EmptyString => _ end).
  assert (String.length sp.2 ≤ String.length s)%nat as Hs.
  { subst sp. destruct s as [|d r]; [done|]. destruct (_ || _)%N; cbn; lia. }
  destruct sp as [sign r]. pose proof (scan_digits_length r).
  destruct (scan_digits r) as [[] r']; cbn in *; lia.
Qed.

Lemma scan_number_ended s : ended (String.length s) (scan_number s).
Proof.
  unfold scan_number, scan_integer.
  set (t := if is_minus s then drop_char s else s).
  assert (String.length t ≤ String.length s)%nat as Ht.
  { subst t. destruct (is_minus s); [|done]. destruct s; cbn; lia. }
  destruct (scan_natural t) as [[d rest]|] eqn:Hd; [|exact I].
  assert (String.length rest < String.length s)%nat as Hr.
  { destruct t as [|c t]; [discriminate Hd|]. cbn [scan_natural] in Hd. cbn in Ht.
    destruct (_ =? 48)%N; [injection Hd as _ <-; lia|]. destruct is_digit; [|discriminate].
    pose proof (scan_digits_length t). destruct (scan_digits t). cbn in *.
    injection Hd as _ <-. lia. }
  pose proof (scan_fraction_length rest). destruct (scan_fraction rest) as [f r1].
  pose proof (scan_exponent_length r1). destruct (scan_exponent r1) as [e r2].
  cbn [snd] in *. destruct (_ && _); [|cbn; lia].
  destruct (reject_if _ _) as [?|?] eqn:Hj; unfold reject_if in Hj; case_match; simplify_eq;
    cbn; [lia|exact I].
Qed.

Lemma after_word_length w s r :
  after_word w s = Some r → (String.length r + String.length w = String.length s)%nat.
Proof.
  revert s. induction w as [|a w IH]; intros s; cbn; [intros [= ->]; lia|].
  destruct s as [|b s]; [discriminate|]. case_match; [|discriminate].
  intros Hr%IH. cbn. lia.
Qed.

(** The three scanners, each with the fuel it needs. *)
Lemma scan_ended n :
  (∀ s, (2 * String.length s < n)%nat → ended (String.length s) (scan_value n s))
  ∧ (∀ s, (2 * String.length s + 1 < n)%nat → ended (String.length s) (scan_items n s))
  ∧ (∀ s, (2 * String.length s + 1 < n)%nat → ended (String.length s) (scan_members n s)).
Proof.
  induction n as [|n (IHv & IHi & IHm)]; [split_and!; intros; lia|].
  split_and!; intros s Hn.
  - destruct s as [|c s]; [exact I|]. cbn [scan_value]. cbn [String.length] in *.
    pose proof (skip_space_length s) as Hs.
    assert (ended (S (String.length s))
      match after_word "null" (String c s), after_word "true" (String c s),
            after_word "false" (String c s) with
      | Some r, _, _ => Ok (JNull, r)
      | _, Some r, _ => Ok (JBool true, r)
      | _, _, Some r => Ok (JBool false, r)
      | None, None, None => scan_number (String c s)
      end) as Hword.
    { destruct (after_word "null" _) eqn:H1; [apply after_word_length in H1; cbn in *; lia|].
      destruct (after_word "true" _) eqn:H2; [apply after_word_length in H2; cbn in *; lia|].
      destruct (after_word "false" _) eqn:H3; [apply after_word_length in H3; cbn in *; lia|].
      apply (scan_number_ended (String c s)). }
    repeat case_match; try exact Hword; try exact I; subst; cbn [String.length] in *;
      try (cbn; lia).
    all: eapply ended_bind;
      [first [apply scan_string_ended; lia | apply IHi; cbn; lia | apply IHm; cbn; lia]|].
    all: intros t r Hr; cbn [fst snd] in *; unfold object_of_pairs, reject_if;
      repeat case_match; cbn in *; first [exact I | lia | discriminate].
  - cbn [scan_items]. eapply ended_bind; [apply IHv; lia|]. intros v r Hr. cbn [fst snd].
    pose proof (skip_space_length r). destruct (skip_space r) as [|c t]; [exact I|].
    destruct (_ =? 93)%N; [cbn in *; lia|]. destruct (_ =? 44)%N; [|exact I].
    pose proof (skip_space_length t). cbn in *.
    eapply ended_bind; [apply IHi; lia|]. intros w r' Hr'. cbn. lia.
  - destruct s as [|c s]; [exact I|]. cbn [scan_members String.length] in *.
    destruct (_ =? 34)%N; [|exact I].
    eapply ended_bind; [apply scan_string_ended; lia|]. intros key r Hr. cbn [fst snd].
    pose proof (skip_space_length r). destruct (skip_space r) as [|d t]; [exact I|].
    destruct (_ =? 58)%N; [|exact I]. pose proof (skip_space_length t). cbn in *.
    eapply ended_bind; [apply IHv; lia|]. intros v r' Hr'. cbn [fst snd].
    pose proof (skip_space_length r'). destruct (skip_space r') as [|d' t']; [exact I|].
    destruct (_ =? 125)%N; [cbn in *; lia|]. destruct (_ =? 44)%N; [|exact I].
    pose proof (skip_space_length t'). cbn in *.
    eapply ended_bind; [apply IHm; lia|]. intros w r'' Hr''. cbn. lia.
Qed.

End ends.

(** ** Properties *)

Section properties.
Context {rt : Runtime} {fp : FloatParser}.

(** The canonical JSON text of a value whose integers fit 64 bits, with no
    floats and no duplicate keys, reads back as that value with every object's
    keys in order. *)
Lemma loads_dumps v : plain_json v = true → loads (dumps v) = Ok (reload v).
Proof.
  intros Hv. unfold loads. destruct (dumps_head v Hv) as (c & r & Hd & Hc).
  assert (skip_space (dumps v) = dumps v) as ->
    by (rewrite Hd; by apply skip_head).
  pose proof (plain_reads_back v Hv (2 * String.length (dumps v) + 2)%nat "" I ltac:(lia)) as H.
  rewrite app_empty_r in H. by rewrite H.
Qed.

(** C38: reading any text ends: [loads] returns a value or raises the error the
    text has; its fuel is never used up. *)
Theorem loads_total text :
  (∃ v, loads text = Ok v) ∨ (∃ message, loads text = Raise (ValueError message)).
Proof.
  unfold loads. set (s := skip_space text).
  pose proof (proj1 (scan_ended (2 * String.length s + 2)%nat) s ltac:(lia)) as H.
  destruct (scan_value _ s) as [[v rest]|e]; cbn.
  - destruct (skip_space rest); [left|right]; by eexists.
  - right. destruct e; try done. by eexists.
Qed.

End properties.
