(* ===== verification/Common.v ===== *)
(** Values shared by the public contracts (reconcile/contracts/common.py):
    classifications, targets, invocations, budgets, freshness and the envelope
    context, each with its model validator.

    The string types of contracts/base.py ([Identifier], [Sha256Digest],
    [NonEmptyText], ...) are [string]: the character and length checks of
    those fields are made by pydantic before a model validator runs, and a
    record here stands for a model whose fields passed them.  Bounds on
    integers are kept, as [valid_...] predicates. *)

From S2P Require Export Json.

#[local] Open Scope Z_scope.

Inductive Classification := COMMITTED | NOT_COMMITTED | PARTIAL | PENDING | UNKNOWN.

#[export] Instance Classification_eq_dec : EqDecision Classification.
Proof. solve_decision. Defined.

Definition Classification_value (c : Classification) : string :=
  match c with
  | COMMITTED => "COMMITTED" | NOT_COMMITTED => "NOT_COMMITTED"
  | PARTIAL => "PARTIAL" | PENDING => "PENDING" | UNKNOWN => "UNKNOWN"
  end.

Inductive AmbiguityKind :=
  | TIMEOUT | CONNECTION_RESET | PROCESS_INTERRUPTED | MISSING_TOOL_RESULT
  | PROVIDER_UNAVAILABLE | OTHER.

#[export] Instance AmbiguityKind_eq_dec : EqDecision AmbiguityKind.
Proof. solve_decision. Defined.

Definition AmbiguityKind_value (k : AmbiguityKind) : string :=
  match k with
  | TIMEOUT => "TIMEOUT" | CONNECTION_RESET => "CONNECTION_RESET"
  | PROCESS_INTERRUPTED => "PROCESS_INTERRUPTED"
  | MISSING_TOOL_RESULT => "MISSING_TOOL_RESULT"
  | PROVIDER_UNAVAILABLE => "PROVIDER_UNAVAILABLE" | OTHER => "OTHER"
  end.

Record AmbiguousExecution := {
  ae_kind : AmbiguityKind;
  ae_observed_at : datetime;
  ae_detail : option string;
}.

Record CapabilityRef := { cr_name : string; cr_version : string }.

Record TargetBinding := {
  tb_target_kind : string;
  tb_scope : json_object;
  tb_resource : json_object;
}.

Record TargetConstraint := { tc_target_kind : string; tc_scope : json_object }.

Record OriginalInvocation := {
  oi_invocation_id : string;
  oi_function_call_id : option string;
  oi_tool_name : string;
  oi_tool_version : string;
  oi_arguments : json_object;
  oi_arguments_sha256 : string;
}.

Record EvidenceBudget := {
  max_probes : Z;
  max_elapsed_ms : Z;
  max_total_result_bytes : Z;
  max_cost_units : Z;
}.

Record FreshnessPolicy := { max_age_seconds : Z; clock_skew_seconds : Z }.

Record PolicyReferences := {
  pr_authority : string;
  pr_classification : string;
  pr_action : string;
}.

Record EnvelopeContext := {
  ec_invocation : OriginalInvocation;
  enabled_capabilities : list CapabilityRef;
  correlation_fields : list (string * string);
  evidence_budget : EvidenceBudget;
  ec_freshness : FreshnessPolicy;
  policies : PolicyReferences;
}.

Record RawObservationReference := {
  ro_sha256 : string;
  ro_reference : string;
  ro_byte_count : Z;
}.

Record EvidenceProvenance := {
  ep_source : string;
  ep_source_record : string;
  ep_adapter_version : string;
  ep_retrieved_at : datetime;
}.

Record FreshnessWindow := { valid_from : datetime; valid_until : datetime }.

#[export] Instance CapabilityRef_eq_dec : EqDecision CapabilityRef.
Proof. solve_decision. Defined.
#[export] Instance TargetBinding_eq_dec : EqDecision TargetBinding.
Proof. solve_decision. Defined.
#[export] Instance RawObservationReference_eq_dec : EqDecision RawObservationReference.
Proof. solve_decision. Defined.
#[export] Instance EvidenceProvenance_eq_dec : EqDecision EvidenceProvenance.
Proof. solve_decision. Defined.
#[export] Instance FreshnessWindow_eq_dec : EqDecision FreshnessWindow.
Proof. solve_decision. Defined.

(** ** Wire forms *)

#[export] Instance AmbiguousExecution_json : ToJson AmbiguousExecution := λ m, JObj
  [("kind", JStr (AmbiguityKind_value (ae_kind m)));
   ("observed_at", time_json (ae_observed_at m));
   ("detail", to_json (ae_detail m))].

#[export] Instance CapabilityRef_json : ToJson CapabilityRef := λ m, JObj
  [("name", JStr (cr_name m)); ("version", JStr (cr_version m))].

#[export] Instance TargetBinding_json : ToJson TargetBinding := λ m, JObj
  [("target_kind", JStr (tb_target_kind m));
   ("scope", JObj (tb_scope m)); ("resource", JObj (tb_resource m))].

#[export] Instance OriginalInvocation_json : ToJson OriginalInvocation := λ m, JObj
  [("invocation_id", JStr (oi_invocation_id m));
   ("function_call_id", to_json (oi_function_call_id m));
   ("tool_name", JStr (oi_tool_name m));
   ("tool_version", JStr (oi_tool_version m));
   ("arguments", JObj (oi_arguments m));
   ("arguments_sha256", JStr (oi_arguments_sha256 m))].

#[export] Instance EvidenceBudget_json : ToJson EvidenceBudget := λ m, JObj
  [("max_probes", JInt (max_probes m));
   ("max_elapsed_ms", JInt (max_elapsed_ms m));
   ("max_total_result_bytes", JInt (max_total_result_bytes m));
   ("max_cost_units", JInt (max_cost_units m))].

#[export] Instance FreshnessPolicy_json : ToJson FreshnessPolicy := λ m, JObj
  [("max_age_seconds", JInt (max_age_seconds m));
   ("clock_skew_seconds", JInt (clock_skew_seconds m))].

#[export] Instance PolicyReferences_json : ToJson PolicyReferences := λ m, JObj
  [("authority", JStr (pr_authority m));
   ("classification", JStr (pr_classification m));
   ("action", JStr (pr_action m))].

#[export] Instance EnvelopeContext_json : ToJson EnvelopeContext := λ m, JObj
  [("invocation", to_json (ec_invocation m));
   ("enabled_capabilities", to_json (enabled_capabilities m));
   ("correlation_fields", text_map_json (correlation_fields m));
   ("evidence_budget", to_json (evidence_budget m));
   ("freshness", to_json (ec_freshness m));
   ("policies", to_json (policies m))].

#[export] Instance RawObservationReference_json : ToJson RawObservationReference :=
  λ m, JObj
  [("sha256", JStr (ro_sha256 m)); ("reference", JStr (ro_reference m));
   ("byte_count", JInt (ro_byte_count m))].

#[export] Instance EvidenceProvenance_json : ToJson EvidenceProvenance := λ m, JObj
  [("source", JStr (ep_source m)); ("source_record", JStr (ep_source_record m));
   ("adapter_version", JStr (ep_adapter_version m));
   ("retrieved_at", time_json (ep_retrieved_at m))].

#[export] Instance FreshnessWindow_json : ToJson FreshnessWindow := λ m, JObj
  [("valid_from", time_json (valid_from m)); ("valid_until", time_json (valid_until m))].

(** ** Validators *)

Section validators.
Context {rt : Runtime} {sec : Security}.

Definition validate_AmbiguousExecution (self : AmbiguousExecution)
  : result py_error unit :=
  match ae_detail self with
  | Some detail => reject_sensitive_values (JStr detail)
  | None => Ok tt
  end.

Definition validate_TargetBinding (self : TargetBinding) : result py_error unit :=
  reject_sensitive_keys (JObj (tb_scope self));;
  reject_sensitive_keys (JObj (tb_resource self));;
  reject_sensitive_values (JObj (tb_scope self));;
  reject_sensitive_values (JObj (tb_resource self)).

Definition validate_TargetConstraint (self : TargetConstraint) : result py_error unit :=
  reject_sensitive_keys (JObj (tc_scope self));;
  reject_sensitive_values (JObj (tc_scope self)).

Definition validate_arguments_digest (self : OriginalInvocation)
  : result py_error unit :=
  reject_sensitive_keys (JObj (oi_arguments self));;
  reject_sensitive_values (JObj (oi_arguments self));;
  payload ← canonical_json_value_bytes (JObj (oi_arguments self));
  reject_if (negb (bool_decide (sha256_hex payload = oi_arguments_sha256 self)))
    (ValueError "invocation argument digest does not match arguments").

Definition in_range (low value high : Z) : bool := (low <=? value) && (value <=? high).

Definition valid_EvidenceBudget (self : EvidenceBudget) : bool :=
  in_range 1 (max_probes self) 64
  && in_range 1 (max_elapsed_ms self) int64_max
  && in_range 1 (max_total_result_bytes self) int64_max
  && in_range 1 (max_cost_units self) int64_max.

Definition valid_FreshnessPolicy (self : FreshnessPolicy) : bool :=
  in_range 1 (max_age_seconds self) int64_max
  && in_range 0 (clock_skew_seconds self) int64_max.

Definition capability_identities (self : EnvelopeContext) : list (string * string) :=
  map (λ item, (cr_name item, cr_version item)) (enabled_capabilities self).

Definition validate_capability_identity (self : EnvelopeContext)
  : result py_error unit :=
  reject_if (has_dup (capability_identities self))
    (ValueError "enabled capability identities must be unique");;
  reject_sensitive_keys (text_map_json (correlation_fields self));;
  reject_sensitive_values (text_map_json (correlation_fields self)).

Definition validate_FreshnessWindow (self : FreshnessWindow) : result py_error unit :=
  reject_if (valid_until self <? valid_from self)
    (ValueError "freshness window must be ordered").

End validators.

Lemma in_range_true a x b : in_range a x b = true ↔ a ≤ x ≤ b.
Proof. unfold in_range. rewrite andb_true_iff, !Z.leb_le. done. Qed.
#[export] Hint Rewrite in_range_true : reconcile.
