(* ===== verification/Decoding.v ===== *)
(** Version-aware decoding of contracts (reconcile/contracts/codec.py,
    [decode_contract]) and the field types of [StrictModel]
    (reconcile/contracts/base.py) as they read JSON.

    A model is decoded the way pydantic does it: every field is read, the
    errors are collected, unknown keys are errors, and the model validators run
    when there were none.  What remains of the collected errors is whether one
    of them is a [literal_error] on a [schema_version] given as a string,
    because that decides which code the caller sees. *)

From S2P Require Export JsonRoundTrip Common.

#[local] Open Scope Z_scope.

(** ** Collected errors *)

Inductive validation (A : Type) : Type :=
  | Valid (a : A)
  | Invalid (nested_version : bool).
Arguments Valid {A} a.
Arguments Invalid {A} nested_version.

(** Two fields: both are read, their errors are joined. *)
Definition both {A B C} (f : A → B → C) (x : validation A) (y : validation B)
  : validation C :=
  match x, y with
  | Valid a, Valid b => Valid (f a b)
  | Invalid v, Invalid w => Invalid (v || w)
  | Invalid v, _ => Invalid v
  | _, Invalid w => Invalid w
  end.
Definition ap {A B} (f : validation (A → B)) (x : validation A) : validation B :=
  both (λ f a, f a) f x.
Notation "f <*> x" := (ap f x) (at level 61, left associativity) : reconcile_scope.

(** A field the model does not keep. *)
Definition keep {A B} (x : validation A) (y : validation B) : validation A :=
  both (λ a _, a) x y.
Notation "x <* y" := (keep x y) (at level 61, left associativity) : reconcile_scope.

Definition vmap {A B} (f : A → B) (x : validation A) : validation B :=
  match x with Valid a => Valid (f a) | Invalid v => Invalid v end.

(** An [AfterValidator] or a [model_validator(mode="after")]. *)
Definition after {A} (validator : A → result py_error unit) (x : validation A)
  : validation A :=
  match x with
  | Valid a => match validator a with Ok _ => Valid a | Raise _ => Invalid false end
  | Invalid v => Invalid v
  end.

Fixpoint traverse {A B} (f : A → validation B) (l : list A) : validation (list B) :=
  match l with
  | [] => Valid []
  | x :: l' => both cons (f x) (traverse f l')
  end.

(** ** Field types *)

(** The text form of a timestamp as pydantic reads it: [None] when it is not
    one, or has no UTC offset; the value is normalised to UTC. *)
Class TimeParser := { parse_datetime : string → option datetime }.

(** The timestamps Python has: years 1 to 9999. *)
Definition datetime_min : datetime := - 62135596800 * second_us.
Definition datetime_max : datetime := 253402300800 * second_us - 1.
Definition representable (t : datetime) : bool := in_range datetime_min t datetime_max.

Class TimeParserLaws (tp : TimeParser) : Prop := {
  parse_datetime_text t :
    representable t = true → parse_datetime (datetime_text t) = Some t;
}.

Section fields.
Context {rt : Runtime} {sec : Security} {tp : TimeParser}.

(** [Identifier], [Sha256Digest] and the other string types. *)
Definition text_field (check : string → result py_error unit) (v : json)
  : validation string :=
  match v with JStr s => after check (Valid s) | _ => Invalid false end.
Definition identifier_field : json → validation string := text_field validate_Identifier.
Definition digest_field : json → validation string := text_field validate_Sha256Digest.

(** [int = Field(ge=low, le=high)] *)
Definition int_field (low high : Z) (v : json) : validation Z :=
  match v with
  | JInt z => if in_range low z high then Valid z else Invalid false
  | _ => Invalid false
  end.

(** [AwareDatetime] *)
Definition time_field (v : json) : validation datetime :=
  match v with
  | JStr s => match parse_datetime s with Some t => Valid t | None => Invalid false end
  | _ => Invalid false
  end.

(** A [StrEnum]: the member whose value the text is. *)
Definition enum_field {A} (value : A → string) (members : list A) (v : json)
  : validation A :=
  match v with
  | JStr s => match find (λ a, bool_decide (value a = s)) members with
              | Some a => Valid a | None => Invalid false end
  | _ => Invalid false
  end.

(** [field: T | None] *)
Definition nullable {A} (field : json → validation A) (v : json)
  : validation (option A) :=
  match v with JNull => Valid None | _ => vmap Some (field v) end.

(** [tuple[T, ...]] *)
Definition tuple_field {A} (field : json → validation A) (v : json)
  : validation (list A) :=
  match v with JArr l => traverse field l | _ => Invalid false end.

(** [schema_version: Literal[version]] *)
Definition version_field (version : string) (v : json) : validation unit :=
  match v with
  | JStr s => if bool_decide (s = version) then Valid tt else Invalid true
  | _ => Invalid false
  end.

(** [Literal[1]] *)
Definition one_field (v : json) : validation unit :=
  match v with
  | JInt z => if z =? 1 then Valid tt else Invalid false
  | _ => Invalid false
  end.

(** A field without a default, and one whose default is [None]. *)
Definition required {A} (name : string) (field : json → validation A) (m : json_object)
  : validation A :=
  match dict_get name m with Some v => field v | None => Invalid false end.
Definition defaulted {A} (name : string) (field : json → validation A) (m : json_object)
  : validation (option A) :=
  match dict_get name m with Some v => nullable field v | None => Valid None end.

(** [extra="forbid"] *)
Definition only_fields (names : list string) (m : json_object) : validation unit :=
  if forallb (λ kv, inb kv.1 names) m then Valid tt else Invalid false.

(** The object a model is read from. *)
Definition model_field {A} (read : json_object → validation A) (v : json)
  : validation A :=
  match v with JObj m => read m | _ => Invalid false end.

End fields.

(** ** [decode_contract] *)

Inductive contract_error :=
  | InvalidContract (message : string)
  | UnsupportedContractVersion (message : string).

(** A versioned contract model: the one version [_expected_version] finds in its
    declaration, and [model_validate_json] on the parsed value. *)
Class Contract (A : Type) := {
  expected_version : string;
  validate_model : json → validation A;
}.
Arguments expected_version A {_}.

(** What the second encoding of [decode_contract] needs: text of Unicode scalar
    values and finite numbers. *)
Fixpoint encodable (v : json) : bool :=
  match v with
  | JStr s => valid_utf8 s
  | JFloat f => match f with S754_infinity _ | S754_nan => false | _ => true end
  | JArr l => forallb encodable l
  | JObj m => forallb (λ kv, valid_utf8 kv.1 && encodable kv.2) m
  | _ => true
  end.

Section decode.
Context {rt : Runtime} {sec : Security} {fp : FloatParser} {tp : TimeParser}.

Definition decode_contract `{Contract A} (payload : string) : result contract_error A :=
  reject_if (negb (valid_utf8 payload)) (InvalidContract "contract is not valid UTF-8");;
  value ← map_error (λ _, InvalidContract "contract is not valid JSON") (loads payload);
  match value with
  | JObj fields =>
      match dict_get "schema_version" fields with
      | Some (JStr version) =>
          reject_if (negb (valid_utf8 version))
            (InvalidContract "schema_version must contain Unicode scalar values");;
          reject_if (negb (bool_decide (version = expected_version A)))
            (UnsupportedContractVersion "contract schema_version is unsupported");;
          reject_if (negb (encodable value))
            (InvalidContract "contract validation failed");;
          match validate_model value with
          | Valid model => Ok model
          | Invalid true => Raise (UnsupportedContractVersion
              "contract contains an unsupported nested schema_version")
          | Invalid false => Raise (InvalidContract "contract validation failed")
          end
      | _ => Raise (InvalidContract "schema_version is required")
      end
  | _ => Raise (InvalidContract "contract must be a JSON object")
  end.

End decode.

(** * What decoding recovers *)

(** ** UTF-8 text *)

(** Between characters the range is not looked at. *)
Lemma valid_from_start r s : valid_utf8_from 0 r s = valid_utf8 s.
Proof. by destruct s. Qed.

Lemma valid_from_app p r a b :
  valid_utf8_from p r a = true → valid_utf8 b = true →
  valid_utf8_from p r (a +:+ b) = true.
Proof.
  revert p r. induction a as [|c a IH]; intros p r Ha Hb.
  - destruct p; [by rewrite valid_from_start|discriminate Ha].
  - change (String c a +:+ b) with (String c (a +:+ b)). cbn [valid_utf8_from] in *.
    destruct p as [|p].
    + destruct utf8_lead as [[p' r']|]; [by apply IH|discriminate Ha].
    + apply andb_true_iff in Ha as [-> Ha]. by apply IH.
Qed.

Lemma valid_app a b :
  valid_utf8 a = true → valid_utf8 b = true → valid_utf8 (a +:+ b) = true.
Proof. apply valid_from_app. Qed.

Lemma valid_concat sep l :
  valid_utf8 sep = true → Forall (λ s, valid_utf8 s = true) l →
  valid_utf8 (String.concat sep l) = true.
Proof.
  intros Hsep. induction 1 as [|s l Hs _ IH]; [done|].
  destruct l; cbn [String.concat] in *; [done|by repeat apply valid_app].
Qed.

Lemma escape_char_cases c :
  ((128 <=? Ascii.N_of_ascii c)%N = true ∧ escape_char c = String c "")
  ∨ (utf8_lead (Ascii.N_of_ascii c) = Some (0%nat, (128, 191)%N)
     ∧ valid_utf8 (escape_char c) = true).
Proof. destruct c as [[] [] [] [] [] [] [] []]; (by left) || (by right). Qed.

Lemma valid_escape p r s :
  (128 <= r.1)%N → valid_utf8_from p r s = true → valid_utf8_from p r (escape s) = true.
Proof.
  revert p r. induction s as [|c s IH]; intros p r Hr Hs; [done|]. cbn [escape].
  destruct (escape_char_cases c) as [[Hc ->]|[Hl He]].
  - change (String c "" +:+ escape s) with (String c (escape s)).
    cbn [valid_utf8_from] in *. destruct p as [|p].
    + destruct utf8_lead as [[p' r']|] eqn:Hu; [|done]. apply IH; [|done].
      revert Hu. unfold utf8_lead. repeat case_match; intros; simplify_eq; cbn; lia.
    + apply andb_true_iff in Hs as [-> Hs]. apply IH; [cbn; lia|done].
  - cbn [valid_utf8_from] in Hs. destruct p as [|p].
    + rewrite Hl in Hs. rewrite valid_from_start. apply valid_app; [done|].
      rewrite <-(valid_from_start (128, 191)%N). apply IH; [cbn; lia|done].
    + apply andb_true_iff in Hs as [Hs _]. apply andb_true_iff in Hs as [Hs _].
      apply N.leb_le in Hs. exfalso. revert Hl. unfold utf8_lead.
      repeat case_match; try discriminate; rewrite ?N.ltb_lt in *; lia.
Qed.

Lemma valid_quote s : valid_utf8 s = true → valid_utf8 (quote s) = true.
Proof.
  intros Hs. unfold quote. apply valid_app; [done|]. apply valid_app; [|done].
  apply valid_escape; [cbn; lia|done].
Qed.

Lemma valid_pretty (z : Z) : valid_utf8 (pretty z) = true.
Proof.
  assert (∀ n, valid_utf8 (pretty_N_go n "") = true) as Hn.
  { intros n. pose proof (pretty_go_digits n "" eq_refl) as H. revert H.
    generalize (pretty_N_go n ""). intros s. unfold all_digits, valid_utf8.
    induction s as [|c s IH]; [done|]. cbn. intros [Hc Hs]%andb_true_iff.
    by destruct c as [[] [] [] [] [] [] [] []]; try discriminate Hc; apply IH. }
  destruct z as [|p|p]; [done|apply Hn|]. change (valid_utf8 (pretty (N.pos p)) = true).
  apply Hn.
Qed.

Section text.
Context {rt : Runtime}.

(** The canonical text of a value of valid text is valid. *)
Lemma valid_dumps v :
  plain_json v = true → encodable v = true → valid_utf8 (dumps v) = true.
Proof.
  induction v as [|[]|z|f|s|l IH|m IH] using json_ind'; intros Hp He; try done.
  - apply valid_pretty.
  - by apply valid_quote.
  - cbn in *. rewrite forallb_forall in Hp, He. apply valid_app; [done|].
    apply valid_app; [|done]. apply valid_concat; [done|].
    rewrite Forall_map, Forall_forall in *. intros x Hx.
    apply IH; [done|apply Hp|apply He]; by apply list_elem_of_In.
  - pose proof Hp as Hp'. cbn [plain_json] in Hp'.
    apply andb_true_iff in Hp' as [Hn%bool_decide_eq_true Hp'].
    cbn [encodable] in He. rewrite forallb_forall in Hp', He. rewrite dumps_obj by done.
    apply valid_app; [done|]. apply valid_app; [|done]. apply valid_concat; [done|].
    rewrite merge_sort_Permutation, Forall_map, Forall_forall in *. intros kv Hkv.
    pose proof (proj1 (list_elem_of_In _ _) Hkv) as Hin.
    apply He in Hin as Hk. apply andb_true_iff in Hk as [Hk Hv]. unfold dump_member.
    apply valid_app; [by apply valid_quote|]. apply valid_app; [done|].
    by apply (IH kv Hkv); [apply Hp'|].
Qed.

End text.

(** ** Values read back *)

Lemma reload_obj_shape m : ∃ m', reload (JObj m) = JObj m'
  ∧ m' ≡ₚ map (λ kv, (kv.1, reload kv.2)) m.
Proof. eexists. split; [reflexivity|]. apply merge_sort_Permutation. Qed.

Lemma encodable_reload v : encodable (reload v) = encodable v.
Proof.
  induction v as [|b|z|f|s|l IH|m IH] using json_ind'; try done.
  - cbn. induction IH as [|x l Hx _ IH]; [done|]. cbn. by rewrite Hx, IH.
  - destruct (reload_obj_shape m) as (m' & -> & Hm'). cbn [encodable].
    transitivity (forallb (λ kv, valid_utf8 kv.1 && encodable kv.2)
      (map (λ kv, (kv.1, reload kv.2)) m)).
    + apply eq_iff_eq_true. rewrite !forallb_forall.
      setoid_rewrite <-list_elem_of_In. by setoid_rewrite Hm'.
    + clear m' Hm'. induction IH as [|x l Hx _ IH]; [done|]. cbn. by rewrite Hx, IH.
Qed.

Lemma dict_get_perm {V} (d e : list (string * V)) k :
  NoDup (dict_keys d) → d ≡ₚ e → dict_get k d = dict_get k e.
Proof.
  intros Hd Hde. assert (NoDup (dict_keys e)) as He
    by (unfold dict_keys in *; by rewrite <-Hde).
  apply option_eq. intros v. split; intros Hg%dict_get_elem; apply dict_get_nodup; try done.
  - by rewrite <-Hde.
  - by rewrite Hde.
Qed.

Lemma dict_get_map {V W} (f : V → W) (d : list (string * V)) k :
  dict_get k (map (λ kv, (kv.1, f kv.2)) d) = f <$> dict_get k d.
Proof. induction d as [|[k' v] d IH]; [done|]. cbn. by case_decide. Qed.

(** The fields of an object that was written and read. *)
Definition reloaded (m : json_object) : json_object := reload_object m.

Lemma reload_is m : reload (JObj m) = JObj (reloaded m).
Proof. done. Qed.

Lemma reloaded_perm m : reloaded m ≡ₚ map (λ kv, (kv.1, reload kv.2)) m.
Proof. apply merge_sort_Permutation. Qed.

Lemma dict_get_reloaded m k :
  NoDup (map fst m) → dict_get k (reloaded m) = reload <$> dict_get k m.
Proof.
  intros Hm. rewrite <-dict_get_map. apply dict_get_perm; [|apply reloaded_perm].
  unfold dict_keys. rewrite (reloaded_perm m). by rewrite <-list_fmap_compose.
Qed.

Section fields.
Context {A : Type} (m : json_object) (Hm : NoDup (map fst m)).

Lemma required_reloaded name (field : json → validation A) v a :
  dict_get name m = Some v → field (reload v) = Valid a →
  required name field (reloaded m) = Valid a.
Proof. intros Hv Ha. unfold required. by rewrite dict_get_reloaded, Hv by done. Qed.

Lemma defaulted_reloaded name (field : json → validation A) v a :
  dict_get name m = Some v → nullable field (reload v) = Valid a →
  defaulted name field (reloaded m) = Valid a.
Proof. intros Hv Ha. unfold defaulted. by rewrite dict_get_reloaded, Hv by done. Qed.

Lemma only_fields_reloaded names :
  subsetb (map fst m) names = true → only_fields names (reloaded m) = Valid tt.
Proof.
  rewrite subsetb_true. intros Hs. unfold only_fields.
  replace (forallb _ (reloaded m)) with true; [done|]. symmetry. apply forallb_forall.
  intros kv Hkv. apply inb_true, Hs. apply list_elem_of_In in Hkv.
  rewrite reloaded_perm in Hkv. apply list_elem_of_fmap in Hkv as (x & -> & Hx).
  apply list_elem_of_fmap. by exists x.
Qed.

End fields.

(** ** The canonical bytes of a model *)

Section roundtrip.
Context {rt : Runtime} {sec : Security} {fp : FloatParser} {tp : TimeParser}.

Lemma decode_canonical `{Contract A, ToJson A} (model : A) m :
  to_json model = JObj m → plain_json (JObj m) = true → encodable (JObj m) = true →
  dict_get "schema_version" m = Some (JStr (expected_version A)) →
  validate_model (JObj (reloaded m)) = Valid model →
  decode_contract (canonical_json_bytes model) = Ok model.
Proof.
  intros Hj Hp He Hv Hm. unfold decode_contract, canonical_json_bytes. rewrite Hj.
  rewrite valid_dumps, loads_dumps by done. cbn [negb reject_if mbind result_bind map_error].
  rewrite reload_is. cbn [reject_if mbind result_bind].
  assert (NoDup (map fst m)) as Hn
    by (cbn in Hp; by apply andb_true_iff in Hp as [?%bool_decide_eq_true _]).
  rewrite dict_get_reloaded, Hv by done. cbn [fmap option_fmap option_map reload].
  assert (valid_utf8 (expected_version A) = true) as ->.
  { apply dict_get_elem, list_elem_of_In in Hv. cbn [encodable] in He.
    rewrite forallb_forall in He. apply He, andb_true_iff in Hv as [_ Hv]. done. }
  rewrite bool_decide_refl, <-reload_is, encodable_reload, He. cbn.
  by rewrite <-reload_is in Hm; cbn in Hm; rewrite Hm.
Qed.

End roundtrip.

(** ** Fields that read back *)

Section leaves.
Context {rt : Runtime} {sec : Security} {tp : TimeParser} {tl : TimeParserLaws tp}.

Lemma text_reads check s : check s = Ok tt → text_field check (JStr s) = Valid s.
Proof. intros Hs. cbn. by rewrite Hs. Qed.

Lemma int_reads low high z : in_range low z high = true →
  int_field low high (JInt z) = Valid z.
Proof. intros Hz. cbn. by rewrite Hz. Qed.

Lemma time_reads t : representable t = true → time_field (time_json t) = Valid t.
Proof. intros Ht. unfold time_field, time_json. by rewrite parse_datetime_text. Qed.

Lemma nullable_reads {A} (field : json → validation A) v a :
  v ≠ JNull → field v = Valid a → nullable field v = Valid (Some a).
Proof. intros Hv Ha. destruct v; cbn; rewrite ?Ha; done. Qed.

Lemma traverse_reads {A B} (f : B → validation A) (g : A → B) l :
  Forall (λ a, f (g a) = Valid a) l → traverse f (map g l) = Valid l.
Proof. induction 1 as [|a l Ha _ IH]; [done|]. cbn. by rewrite Ha, IH. Qed.

End leaves.

(** * Timestamps *)

(** ** The calendar backwards *)

Definition days_from_civil (y m d : Z) : Z :=
  let y' := if m <=? 2 then y - 1 else y in
  let mp := if m <=? 2 then m + 9 else m - 3 in
  let yoe := y' mod 400 in
  y' / 400 * 146097 + (365 * yoe + yoe / 4 - yoe / 100) + (153 * mp + 2) / 5 + d - 1
  - 719468.

(** One 400-year era, day by day. *)
Definition era_day_ok (doe : Z) : bool :=
  let yoe := (doe - doe / 1460 + doe / 36524 - doe / 146096) / 365 in
  let doy := doe - (365 * yoe + yoe / 4 - yoe / 100) in
  let mp := (5 * doy + 2) / 153 in
  let d := doy - (153 * mp + 2) / 5 + 1 in
  in_range 0 yoe 399 && in_range 0 mp 11 && in_range 1 d 31
  && (365 * yoe + yoe / 4 - yoe / 100 + (153 * mp + 2) / 5 + d - 1 =? doe)
  && implb (doe <=? 146036) (yoe + (if mp <? 10 then 0 else 1) <=? 399).

(** [f] on [k] successive integers from [z]. *)
Fixpoint all_from (f : Z → bool) (k : nat) (z : Z) : bool :=
  match k with O => true | S k' => f z && all_from f k' (z + 1) end.

Lemma all_from_spec f k z x :
  all_from f k z = true → z <= x < z + Z.of_nat k → f x = true.
Proof.
  revert z. induction k as [|k IH]; intros z; cbn [all_from]; [lia|].
  intros [Hz Hk]%andb_true_iff Hx. destruct (decide (x = z)) as [->|]; [done|].
  apply (IH (z + 1)); [done|lia].
Qed.

(** The first day of a year of the era, and the year of a day. *)
Definition year_start (yoe : Z) : Z := 365 * yoe + yoe / 4 - yoe / 100.
Definition year_guess (doe : Z) : Z := doe - doe / 1460 + doe / 36524 - doe / 146096.

Lemma year_guess_succ d : 0 <= d -> d + 1 < 146097 -> year_guess d <= year_guess (d + 1).
Proof.
  unfold year_guess. intros H0 H1. assert (d / 146096 = 0) as -> by (apply Z.div_small; lia).
  pose proof (Z.div_mod d 1460 ltac:(lia)). pose proof (Z.mod_pos_bound d 1460 ltac:(lia)).
  pose proof (Z.div_mod (d + 1) 1460 ltac:(lia)).
  pose proof (Z.mod_pos_bound (d + 1) 1460 ltac:(lia)).
  pose proof (Z.div_le_mono d (d + 1) 36524 ltac:(lia) ltac:(lia)).
  destruct (decide (d = 146095)) as [->|]; [vm_compute; discriminate|].
  rewrite (Z.div_small (d + 1) 146096) by lia. lia.
Qed.

Lemma year_guess_mono d e : 0 <= d -> d <= e -> e < 146097 -> year_guess d <= year_guess e.
Proof.
  intros Hd Hde. replace e with (d + Z.of_nat (Z.to_nat (e - d))) by lia.
  generalize (Z.to_nat (e - d)). intros k. induction k as [|k IH]; intros Hk.
  - rewrite Z.add_0_r. lia.
  - etransitivity; [apply IH; lia|]. rewrite Nat2Z.inj_succ, Z.add_succ_r, <-Z.add_1_r.
    apply year_guess_succ; lia.
Qed.

Lemma year_of doe k :
  0 <= doe < year_start (Z.of_nat k) ->
  exists yoe, 0 <= yoe < Z.of_nat k /\ year_start yoe <= doe < year_start (yoe + 1).
Proof.
  induction k as [|k IH]; [intros Hd; change (year_start (Z.of_nat 0)) with 0 in Hd; lia|]. intros Hd.
  destruct (Z.lt_ge_cases doe (year_start (Z.of_nat k))) as [Hlt|Hge].
  - destruct (IH ltac:(lia)) as (y & Hy & Hd'). exists y. lia.
  - exists (Z.of_nat k). rewrite Z.add_1_r, <-Nat2Z.inj_succ. lia.
Qed.

(** The 400 years of the era, by their first and last days. *)
Definition year_ok (yoe : Z) : bool :=
  (year_guess (year_start yoe) / 365 =? yoe)
  && (year_guess (year_start (yoe + 1) - 1) / 365 =? yoe)
  && (year_start (yoe + 1) - year_start yoe <=? 366).

Lemma years_ok yoe : 0 <= yoe < 399 -> year_ok yoe = true.
Proof. intros Hy. by apply (all_from_spec year_ok 399 0). Qed.

(** The days of a year that begins in March. *)
Definition day_ok (doy : Z) : bool :=
  let mp := (5 * doy + 2) / 153 in
  let d := doy - (153 * mp + 2) / 5 + 1 in
  in_range 0 mp 11 && in_range 1 d 31 && implb (doy <=? 305) (mp <? 10).

Lemma days_ok doy : 0 <= doy < 366 -> day_ok doy = true.
Proof. intros Hy. by apply (all_from_spec day_ok 366 0). Qed.

Lemma year_found doe : 0 <= doe < 146097 ->
  0 <= year_guess doe / 365 <= 399
  /\ 0 <= doe - year_start (year_guess doe / 365) < 366.
Proof.
  intros Hd. destruct (decide (145731 <= doe)) as [Hlast|Hlast].
  - pose proof (year_guess_mono 145731 doe ltac:(lia) ltac:(lia) ltac:(lia)) as H1.
    pose proof (year_guess_mono doe 146096 ltac:(lia) ltac:(lia) ltac:(lia)) as H2.
    change (year_guess 145731) with 145635 in H1. change (year_guess 146096) with 145999 in H2.
    assert (year_guess doe / 365 = 399) as ->.
    { symmetry. apply (Z.div_unique _ _ _ (year_guess doe - 145635)); lia. }
    change (year_start 399) with 145731. lia.
  - destruct (year_of doe 399) as (y & Hy & Hin); [change (year_start (Z.of_nat 399)) with 145731; lia|].
    pose proof (years_ok y Hy) as Hok. unfold year_ok in Hok.
    rewrite !andb_true_iff, !Z.eqb_eq, Z.leb_le in Hok. destruct Hok as [[Hs He] Hl].
    assert (0 <= year_start y) as H0.
    { unfold year_start. pose proof (Z.div_pos y 4 ltac:(lia) ltac:(lia)).
      pose proof (Z.div_le_upper_bound y 100 y ltac:(lia) ltac:(lia)). lia. }
    assert (year_guess doe / 365 = y) as ->; [|lia].
    apply Z.le_antisymm; [rewrite <-He|rewrite <-Hs at 1];
      (apply Z.div_le_mono; [lia|]; apply year_guess_mono; lia).
Qed.

Lemma era_days_ok doe : 0 <= doe < 146097 → era_day_ok doe = true.
Proof.
  intros Hd. destruct (year_found doe Hd) as [Hy Hdoy]. unfold era_day_ok.
  change (doe - doe / 1460 + doe / 36524 - doe / 146096) with (year_guess doe).
  set (yoe := year_guess doe / 365) in *.
  change (365 * yoe + yoe / 4 - yoe / 100) with (year_start yoe).
  pose proof (days_ok (doe - year_start yoe) ltac:(lia)) as Hok. unfold day_ok in Hok.
  cbv zeta. set (mp := (5 * (doe - year_start yoe) + 2) / 153) in *.
  cbv zeta in Hok. rewrite !andb_true_iff, !in_range_true in Hok. destruct Hok as [[Hmp Hdd] Himp].
  rewrite !andb_true_iff, !in_range_true, Z.eqb_eq. split_and!; [lia..|].
  destruct (Z.leb_spec doe 146036); [|done]. cbn [implb].
  destruct (decide (yoe = 399)) as [Heq|].
  - rewrite Heq in *. change (year_start 399) with 145731 in *.
    rewrite (proj2 (Z.leb_le (doe - 145731) 305)) in Himp by lia. cbn [implb] in Himp.
    by rewrite Himp.
  - apply Z.leb_le. destruct (mp <? 10); lia.
Qed.

Lemma civil_inverse days y m d :
  civil_from_days days = (y, m, d) →
  days_from_civil y m d = days ∧ 1 <= m <= 12 ∧ 1 <= d <= 31
  ∧ (-719468 <= days <= 2932896 → 0 <= y <= 9999).
Proof.
  unfold civil_from_days. set (z := days + 719468).
  pose proof (Z.div_mod z 146097 ltac:(lia)) as Hz.
  pose proof (Z.mod_pos_bound z 146097 ltac:(lia)) as Hm.
  generalize dependent (z / 146097). generalize dependent (z mod 146097).
  intros doe Hdoe era Hz. pose proof (era_days_ok doe Hdoe) as Hok. revert Hok.
  unfold era_day_ok. set (yoe := (doe - _ + _ - _) / 365).
  set (mp := (5 * _ + 2) / 153). cbv zeta.
  generalize (doe - (365 * yoe + yoe / 4 - yoe / 100) - (153 * mp + 2) / 5 + 1).
  intros d' Hok. rewrite !andb_true_iff, !in_range_true, Z.eqb_eq in Hok.
  destruct Hok as [[[[Hy Hmp] Hd] Heq] Hlast].
  clearbody yoe mp. intros [= <- <- <-]. unfold days_from_civil.
  assert (((if mp <? 10 then mp + 3 else mp - 9) <=? 2) = negb (mp <? 10)) as ->.
  { destruct (Z.ltb_spec mp 10); [apply Z.leb_gt|apply Z.leb_le]; lia. }
  set (y' := if negb (mp <? 10) then _ else _).
  assert (y' = yoe + era * 400) as -> by (subst y'; destruct (mp <? 10); cbn; lia).
  rewrite Z.div_add, Z.mod_add, Z.div_small, Z.mod_small by lia.
  split; [|split_and!].
  - assert ((if negb (mp <? 10) then (if mp <? 10 then mp + 3 else mp - 9) + 9
      else (if mp <? 10 then mp + 3 else mp - 9) - 3) = mp) as ->
      by (destruct (mp <? 10); cbn [negb]; lia).
    subst z. lia.
  - destruct (Z.ltb_spec mp 10); lia.
  - destruct (Z.ltb_spec mp 10); lia.
  - lia.
  - lia.
  - intros Hr. subst z. assert (0 <= era <= 24) as He by lia.
    destruct (Z.leb_spec doe 146036) as [Hle|Hgt]; cbn [implb] in Hlast.
    + apply Z.leb_le in Hlast. destruct (mp <? 10); cbn [negb]; lia.
    + destruct (mp <? 10); cbn [negb]; lia.
Qed.

(** ** Reading digits *)

Fixpoint take_digits (width : nat) (acc : Z) (s : string) : option (Z * string) :=
  match width, s with
  | O, _ => Some (acc, s)
  | S w, String c rest =>
      if is_digit c then take_digits w (10 * acc + digit_value c) rest else None
  | S _, EmptyString => None
  end.

Lemma take_digits_app k w acc n rest :
  0 <= n < 10 ^ Z.of_nat w →
  take_digits (w + k) acc (zero_padded w n +:+ rest)
    = take_digits k (acc * 10 ^ Z.of_nat w + n) rest.
Proof.
  revert k acc n rest. induction w as [|w IH]; intros k acc n rest Hn.
  - cbn. f_equal. cbn in Hn. lia.
  - cbn [zero_padded]. rewrite string_app_assoc.
    replace (S w + k)%nat with (w + S k)%nat by lia.
    rewrite Nat2Z.inj_succ, Z.pow_succ_r in * by lia.
    rewrite IH by (split; [apply Z.div_pos; lia|apply Z.div_lt_upper_bound; lia]).
    pose proof (Z.div_mod n 10 ltac:(lia)) as Hdm.
    pose proof (Z.mod_pos_bound n 10 ltac:(lia)) as Hb.
    generalize dependent (n / 10). generalize dependent (n mod 10). intros x Hx q Hq.
    assert (∃ c, pretty x = String c "" ∧ is_digit c = true ∧ digit_value c = x)
      as (c & -> & Hc & Hv).
    { assert (x = 0 ∨ x = 1 ∨ x = 2 ∨ x = 3 ∨ x = 4 ∨ x = 5 ∨ x = 6 ∨ x = 7 ∨ x = 8 ∨ x = 9)
        as Hcases by lia.
      repeat destruct Hcases as [->|Hcases]; try (eexists; split_and!; reflexivity).
      subst. eexists; split_and!; reflexivity. }
    change (String c "" +:+ rest) with (String c rest). cbn [take_digits]. rewrite Hc, Hv. f_equal. lia.
Qed.

Definition take (width : nat) (s : string) : option (Z * string) := take_digits width 0 s.

Lemma take_padded w n rest :
  0 <= n < 10 ^ Z.of_nat w → take w (zero_padded w n +:+ rest) = Some (n, rest).
Proof.
  intros Hn. unfold take. rewrite <-(Nat.add_0_r w) at 1.
  rewrite take_digits_app by done. done.
Qed.

Definition expect (sep : string) (s : string) : option string := after_word sep s.

(** [YYYY-MM-DDTHH:MM:SS[.ffffff]Z] *)
Definition parse_rfc3339 (s : string) : option datetime :=
  '(y, s) ← take 4 s; s ← expect "-" s;
  '(m, s) ← take 2 s; s ← expect "-" s;
  '(d, s) ← take 2 s; s ← expect "T" s;
  '(hh, s) ← take 2 s; s ← expect ":" s;
  '(mm, s) ← take 2 s; s ← expect ":" s;
  '(ss, s) ← take 2 s;
  '(us, s) ← match expect "." s with Some s => take 6 s | None => Some (0, s) end;
  if bool_decide (s = "Z") then
    Some (days_from_civil y m d * day_us + ((hh * 60 + mm) * 60 + ss) * second_us + us)
  else None.

Lemma expect_app sep rest : expect sep (sep +:+ rest) = Some rest.
Proof.
  unfold expect. induction sep as [|c sep IH]; [done|].
  change (String c sep +:+ rest) with (String c (sep +:+ rest)). cbn.
  by rewrite Ascii.eqb_refl.
Qed.

#[export] Instance rfc3339_parser : TimeParser := {| parse_datetime := parse_rfc3339 |}.

#[export] Instance rfc3339_laws : TimeParserLaws rfc3339_parser.
Proof.
  constructor. intros t Ht. cbn [parse_datetime rfc3339_parser].
  apply in_range_true in Ht. unfold datetime_min, datetime_max in Ht.
  unfold datetime_text. destruct (civil_from_days (t / day_us)) as [[y m] d] eqn:Hc.
  apply civil_inverse in Hc as (Hd & Hm & Hdd & Hy).
  assert (0 <= y <= 9999) as Hy'.
  { apply Hy. unfold day_us, second_us in *. split; [apply Z.div_le_lower_bound; lia|].
    apply Z.lt_succ_r, Z.div_lt_upper_bound; lia. }
  pose proof (Z.div_mod t day_us ltac:(done)) as Ht'.
  pose proof (Z.mod_pos_bound t day_us ltac:(done)) as Hb.
  rewrite <-Hd in Ht'. generalize dependent (t mod day_us). intros u Ht' Hu.
  pose proof (Z.div_mod u second_us ltac:(done)) as Hu'.
  pose proof (Z.mod_pos_bound u second_us ltac:(done)) as Hub.
  generalize dependent (u mod second_us). intros us Hu' Hus.
  assert (0 <= u / second_us < 86400) as Hs by (unfold day_us, second_us in *; split;
    [apply Z.div_pos; lia|apply Z.div_lt_upper_bound; lia]).
  generalize dependent (u / second_us). intros s Hu' Hs.
  pose proof (Z.div_mod s 60 ltac:(done)) as Hs60.
  pose proof (Z.mod_pos_bound s 60 ltac:(done)) as Hsb.
  pose proof (Z.div_mod (s / 60) 60 ltac:(done)) as Hm60.
  pose proof (Z.mod_pos_bound (s / 60) 60 ltac:(done)) as Hmb.
  rewrite (Z.div_div s 60 60) in Hm60 by lia. change (60 * 60) with 3600 in Hm60.
  assert (0 <= s / 3600 < 24) as Hh by
    (split; [apply Z.div_pos; lia|apply Z.div_lt_upper_bound; lia]).
  unfold parse_rfc3339.
  rewrite take_padded by (cbn; lia). cbn [mbind option_bind]. rewrite expect_app.
  cbn [mbind option_bind]. rewrite take_padded by (cbn; lia). cbn [mbind option_bind].
  rewrite expect_app. cbn [mbind option_bind]. rewrite take_padded by (cbn; lia).
  cbn [mbind option_bind]. rewrite expect_app. cbn [mbind option_bind].
  rewrite take_padded by (cbn; lia). cbn [mbind option_bind]. rewrite expect_app.
  cbn [mbind option_bind]. rewrite take_padded by (cbn; lia). cbn [mbind option_bind].
  rewrite expect_app. cbn [mbind option_bind]. rewrite take_padded by (cbn; lia).
  cbn [mbind option_bind].
  assert (∀ o, o = Some (us, "Z") → ('(v, r) ← o; if bool_decide (r = "Z") then
    Some (days_from_civil y m d * day_us
          + ((s / 3600 * 60 + s / 60 mod 60) * 60 + s mod 60) * second_us + v)
    else None) = Some t) as Hend.
  { intros o ->. cbn [mbind option_bind]. rewrite bool_decide_refl. f_equal.
    unfold second_us, day_us in *. lia. }
  apply Hend. destruct (Z.eqb_spec us 0) as [->|Hne]; [reflexivity|].
  rewrite string_app_assoc, expect_app. apply take_padded. unfold second_us in *. cbn. lia.
Qed.
