(* ===== verification/Permit.v ===== *)
(** The single-use action permit: its contract ([ActionPermit] of
    reconcile/contracts/recovery.py) and the pure lifecycle transitions and
    audit history of reconcile/persistence/permits.py.

    A permit is ISSUED, then CLAIMED once or EXPIRED, then COMPLETED.
    [evaluate_permit_claim] and [evaluate_permit_completion] compute one
    transition with its audit event; [validate_permit_audit_history] replays a
    history and accepts it when it reproduces the permit.  Constructing a
    contract model runs its validator, so a transition is a [result]. *)

From S2P Require Export Common.

#[local] Open Scope Z_scope.

(** ** Data *)

Inductive PermitAction := CONTINUE | RETRY.
Inductive ActionPermitState := ISSUED | CLAIMED | COMPLETED | EXPIRED.
Inductive PermitCompletionOutcome := SUCCEEDED | REJECTED | OUTCOME_UNKNOWN.

Inductive PermitAuditKind :=
  | Audit_ISSUED | Audit_BLOCKED | Audit_CLAIMED | Audit_COMPLETED
  | Audit_REJECTED | Audit_EXPIRED | Audit_OUTCOME_UNKNOWN.

Inductive PermitDenialReason :=
  | BINDING_MISMATCH | NON_MONOTONIC_TIME | NOT_YET_VALID | Denied_EXPIRED
  | ALREADY_CLAIMED | ALREADY_COMPLETED.

#[export] Instance PermitAction_eq_dec : EqDecision PermitAction.
Proof. solve_decision. Defined.
#[export] Instance ActionPermitState_eq_dec : EqDecision ActionPermitState.
Proof. solve_decision. Defined.
#[export] Instance PermitCompletionOutcome_eq_dec : EqDecision PermitCompletionOutcome.
Proof. solve_decision. Defined.
#[export] Instance PermitAuditKind_eq_dec : EqDecision PermitAuditKind.
Proof. solve_decision. Defined.
#[export] Instance PermitDenialReason_eq_dec : EqDecision PermitDenialReason.
Proof. solve_decision. Defined.

Definition PermitAction_value (a : PermitAction) : string :=
  match a with CONTINUE => "CONTINUE" | RETRY => "RETRY" end.
Definition ActionPermitState_value (s : ActionPermitState) : string :=
  match s with
  | ISSUED => "ISSUED" | CLAIMED => "CLAIMED"
  | COMPLETED => "COMPLETED" | EXPIRED => "EXPIRED"
  end.
Definition PermitCompletionOutcome_value (o : PermitCompletionOutcome) : string :=
  match o with
  | SUCCEEDED => "SUCCEEDED" | REJECTED => "REJECTED"
  | OUTCOME_UNKNOWN => "OUTCOME_UNKNOWN"
  end.

Record CertifiedTransition := {
  ct_action : PermitAction;
  ct_source_node_id : string;
  ct_target_node_id : string;
  ct_semantic_action_sha256 : string;
  ct_tool_name : string;
  ct_tool_version : string;
  ct_arguments_sha256 : string;
  ct_target_sha256 : string;
  ct_precondition_sha256 : string;
}.

Record ActionPermit := {
  permit_id : string;
  certificate_id : string;
  certificate_sha256 : string;
  chain_id : string;
  source_node_id : string;
  target_node_id : string;
  semantic_action_sha256 : string;
  action : PermitAction;
  action_profile_version : string;
  action_policy_version : string;
  tool_name : string;
  tool_version : string;
  arguments_sha256 : string;
  target_sha256 : string;
  precondition_sha256 : string;
  issued_at : datetime;
  expires_at : datetime;
  state : ActionPermitState;
  revision : Z;
  claim_id : option string;
  claimed_at : option datetime;
  completed_at : option datetime;
  completion_outcome : option PermitCompletionOutcome;
  expired_at : option datetime;
}.

Record PermitAuditEvent := {
  ev_event_id : string;
  ev_permit_id : string;
  ev_sequence : Z;
  ev_kind : PermitAuditKind;
  ev_permit_revision : Z;
  ev_permit_sha256 : string;
  ev_occurred_at : datetime;
  ev_claim_id : option string;
  ev_denial_reason : option PermitDenialReason;
  ev_completion_outcome : option PermitCompletionOutcome;
}.

Record PermitClaimRequest := {
  rq_permit_id : string;
  rq_claim_id : string;
  rq_issued_permit_sha256 : string;
  rq_certificate_id : string;
  rq_certificate_sha256 : string;
  rq_chain_id : string;
  rq_source_node_id : string;
  rq_target_node_id : string;
  rq_semantic_action_sha256 : string;
  rq_action_profile_version : string;
  rq_action_policy_version : string;
  rq_tool_name : string;
  rq_tool_version : string;
  rq_arguments_sha256 : string;
  rq_target_sha256 : string;
  rq_precondition_sha256 : string;
  rq_requested_at : datetime;
}.

Record PermitCompletionRequest := {
  cq_permit_id : string;
  cq_claim_id : string;
  cq_claimed_permit_sha256 : string;
  cq_outcome : PermitCompletionOutcome;
  cq_completed_at : datetime;
}.

Record PermitMutation := {
  pm_permit : ActionPermit;
  pm_event : PermitAuditEvent;
  pm_denial_reason : option PermitDenialReason;
}.

#[export] Instance CertifiedTransition_eq_dec : EqDecision CertifiedTransition.
Proof. solve_decision. Defined.
#[export] Instance ActionPermit_eq_dec : EqDecision ActionPermit.
Proof. solve_decision. Defined.
#[export] Instance PermitAuditEvent_eq_dec : EqDecision PermitAuditEvent.
Proof. solve_decision. Defined.

(** ** Wire forms *)

Definition enum_json {A} (value : A → string) (o : option A) : json :=
  match o with Some a => JStr (value a) | None => JNull end.

#[export] Instance CertifiedTransition_json : ToJson CertifiedTransition := λ t, JObj
  [("action", JStr (PermitAction_value (ct_action t)));
   ("source_node_id", JStr (ct_source_node_id t));
   ("target_node_id", JStr (ct_target_node_id t));
   ("semantic_action_sha256", JStr (ct_semantic_action_sha256 t));
   ("tool_name", JStr (ct_tool_name t));
   ("tool_version", JStr (ct_tool_version t));
   ("arguments_sha256", JStr (ct_arguments_sha256 t));
   ("target_sha256", JStr (ct_target_sha256 t));
   ("precondition_sha256", JStr (ct_precondition_sha256 t))].

Definition ACTION_PERMIT_VERSION : string := "reconcile/action-permit/v1".

(** The fields of the dump that neither the audit presentation nor the
    lifecycle owns, those of the presentation, and those of the lifecycle;
    [time] is the text form of a timestamp. *)
Definition permit_authority_fields (time : datetime → string) (p : ActionPermit)
  : json_object :=
  [("schema_version", JStr ACTION_PERMIT_VERSION);
   ("permit_id", JStr (permit_id p));
   ("certificate_id", JStr (certificate_id p));
   ("chain_id", JStr (chain_id p));
   ("source_node_id", JStr (source_node_id p));
   ("target_node_id", JStr (target_node_id p));
   ("semantic_action_sha256", JStr (semantic_action_sha256 p));
   ("action", JStr (PermitAction_value (action p)));
   ("action_profile_version", JStr (action_profile_version p));
   ("action_policy_version", JStr (action_policy_version p));
   ("tool_name", JStr (tool_name p));
   ("tool_version", JStr (tool_version p));
   ("arguments_sha256", JStr (arguments_sha256 p));
   ("target_sha256", JStr (target_sha256 p));
   ("precondition_sha256", JStr (precondition_sha256 p));
   ("expires_at", JStr (time (expires_at p)));
   ("max_uses", JInt 1)].

Definition permit_presentation_fields (time : datetime → string) (p : ActionPermit)
  : json_object :=
  [("certificate_sha256", JStr (certificate_sha256 p));
   ("issued_at", JStr (time (issued_at p)))].

Definition permit_lifecycle_fields (time : datetime → string) (p : ActionPermit)
  : json_object :=
  let opt_time t := match t with Some t => JStr (time t) | None => JNull end in
  [("state", JStr (ActionPermitState_value (state p)));
   ("revision", JInt (revision p));
   ("claim_id", to_json (claim_id p));
   ("claimed_at", opt_time (claimed_at p));
   ("completed_at", opt_time (completed_at p));
   ("completion_outcome",
     enum_json PermitCompletionOutcome_value (completion_outcome p));
   ("expired_at", opt_time (expired_at p))].

#[export] Instance ActionPermit_json : ToJson ActionPermit := λ p, JObj
  (permit_authority_fields datetime_text p
   ++ permit_presentation_fields datetime_text p
   ++ permit_lifecycle_fields datetime_text p).

(** ** Validators *)

Definition validate_transition_target (self : CertifiedTransition)
  : result py_error unit :=
  reject_if (bool_decide (ct_action self = RETRY)
             && negb (bool_decide (ct_target_node_id self = ct_source_node_id self)))
    (ValueError "a retry transition must target its source node");;
  reject_if (bool_decide (ct_action self = CONTINUE)
             && bool_decide (ct_target_node_id self = ct_source_node_id self))
    (ValueError "a continuation transition must target a successor node").

(** [ActionPermit.validate_lifecycle], with the field bound on [revision]. *)
Definition lifecycle_fields_match (self : ActionPermit) : bool :=
  let claim_none := is_none (claim_id self) && is_none (claimed_at self) in
  let claim_some := is_some (claim_id self) && is_some (claimed_at self) in
  let completion_none :=
    is_none (completed_at self) && is_none (completion_outcome self) in
  let completion_some :=
    is_some (completed_at self) && is_some (completion_outcome self) in
  match state self with
  | ISSUED => (revision self =? 0) && claim_none && completion_none
              && is_none (expired_at self)
  | CLAIMED => (revision self =? 1) && claim_some && completion_none
               && is_none (expired_at self)
  | COMPLETED => (revision self =? 2) && claim_some && completion_some
                 && is_none (expired_at self)
  | EXPIRED => (revision self =? 1) && claim_none && completion_none
               && is_some (expired_at self)
  end.

Definition validate_lifecycle (self : ActionPermit) : result py_error unit :=
  reject_if (expires_at self <=? issued_at self)
    (ValueError "permit validity interval must be nonempty");;
  reject_if (bool_decide (action self = RETRY)
             && negb (bool_decide (target_node_id self = source_node_id self)))
    (ValueError "a retry permit must target its source node");;
  reject_if (bool_decide (action self = CONTINUE)
             && bool_decide (target_node_id self = source_node_id self))
    (ValueError "a continuation permit must target a successor node");;
  reject_if (negb (lifecycle_fields_match self))
    (ValueError "permit fields do not match its lifecycle state");;
  reject_if (match claimed_at self with
             | Some at_ => negb ((issued_at self <=? at_) && (at_ <? expires_at self))
             | None => false end)
    (ValueError "permit claim must occur inside its validity interval");;
  reject_if (match completed_at self, claimed_at self with
             | Some done, Some at_ => done <? at_
             | _, _ => false end)
    (ValueError "permit completion cannot precede its claim");;
  reject_if (match expired_at self with
             | Some at_ => at_ <? expires_at self
             | None => false end)
    (ValueError "permit cannot expire before its validity ends").

(** [ActionPermit.model_validate] *)
Definition model_validate_permit (p : ActionPermit) : result py_error ActionPermit :=
  validate_lifecycle p;; Ok p.

Definition completion_audit_kind (o : PermitCompletionOutcome) : PermitAuditKind :=
  match o with
  | SUCCEEDED => Audit_COMPLETED
  | REJECTED => Audit_REJECTED
  | OUTCOME_UNKNOWN => Audit_OUTCOME_UNKNOWN
  end.

(** The outcome an audit kind past the claim stands for. *)
Definition audit_kind_outcome (k : PermitAuditKind) : option PermitCompletionOutcome :=
  match k with
  | Audit_COMPLETED => Some SUCCEEDED
  | Audit_REJECTED => Some REJECTED
  | Audit_OUTCOME_UNKNOWN => Some OUTCOME_UNKNOWN
  | _ => None
  end.

Definition audit_fields_match (self : PermitAuditEvent) : bool :=
  match ev_kind self with
  | Audit_ISSUED =>
      (ev_permit_revision self =? 0) && is_none (ev_claim_id self)
      && is_none (ev_denial_reason self) && is_none (ev_completion_outcome self)
  | Audit_BLOCKED =>
      is_some (ev_claim_id self) && is_some (ev_denial_reason self)
      && negb (bool_decide (ev_denial_reason self = Some Denied_EXPIRED))
      && is_none (ev_completion_outcome self)
  | Audit_CLAIMED =>
      (ev_permit_revision self =? 1) && is_some (ev_claim_id self)
      && is_none (ev_denial_reason self) && is_none (ev_completion_outcome self)
  | Audit_EXPIRED =>
      (ev_permit_revision self =? 1) && is_some (ev_claim_id self)
      && bool_decide (ev_denial_reason self = Some Denied_EXPIRED)
      && is_none (ev_completion_outcome self)
  | k =>
      (ev_permit_revision self =? 2) && is_some (ev_claim_id self)
      && is_none (ev_denial_reason self)
      && bool_decide (ev_completion_outcome self = audit_kind_outcome k)
  end.

(** [PermitAuditEvent(...)]: the field bounds, then [validate_kind]. *)
Definition model_validate_event (e : PermitAuditEvent)
  : result py_error PermitAuditEvent :=
  reject_if (negb (in_range 1 (ev_sequence e) int64_max))
    (ValueError "sequence is outside its range");;
  reject_if (negb (in_range 0 (ev_permit_revision e) int64_max))
    (ValueError "permit revision is outside its range");;
  reject_if (negb (audit_fields_match e))
    (ValueError "permit audit fields do not match the event kind");;
  Ok e.

(** ** Updated copies ([permit.model_copy(update=...)]) *)

Definition with_lifecycle (p : ActionPermit) (s : ActionPermitState) (r : Z)
  (cid : option string) (cat coat : option datetime)
  (outcome : option PermitCompletionOutcome) (eat : option datetime) : ActionPermit :=
  {| permit_id := permit_id p; certificate_id := certificate_id p;
     certificate_sha256 := certificate_sha256 p; chain_id := chain_id p;
     source_node_id := source_node_id p; target_node_id := target_node_id p;
     semantic_action_sha256 := semantic_action_sha256 p; action := action p;
     action_profile_version := action_profile_version p;
     action_policy_version := action_policy_version p;
     tool_name := tool_name p; tool_version := tool_version p;
     arguments_sha256 := arguments_sha256 p; target_sha256 := target_sha256 p;
     precondition_sha256 := precondition_sha256 p;
     issued_at := issued_at p; expires_at := expires_at p;
     state := s; revision := r; claim_id := cid; claimed_at := cat;
     completed_at := coat; completion_outcome := outcome; expired_at := eat |}.

Definition issued_copy (p : ActionPermit) : ActionPermit :=
  with_lifecycle p ISSUED 0 None None None None None.

Definition claimed_copy (p : ActionPermit) (cid : string) (at_ : datetime)
  : ActionPermit :=
  with_lifecycle p CLAIMED 1 (Some cid) (Some at_)
    (completed_at p) (completion_outcome p) (expired_at p).

Definition expired_copy (p : ActionPermit) (at_ : datetime) : ActionPermit :=
  with_lifecycle p EXPIRED 1 (claim_id p) (claimed_at p)
    (completed_at p) (completion_outcome p) (Some at_).

Definition completed_copy (p : ActionPermit) (at_ : datetime)
  (outcome : PermitCompletionOutcome) : ActionPermit :=
  with_lifecycle p COMPLETED 2 (claim_id p) (claimed_at p)
    (Some at_) (Some outcome) (expired_at p).
