(* ===== verification/PermitLifecycle.v ===== *)
(** Transitions and audit history of one action permit
    (reconcile/persistence/permits.py).

    [evaluate_permit_claim] and [evaluate_permit_completion] apply one request
    to a permit; [validate_permit_audit_history] is the replay that every
    stored aggregate has to pass.  [permit_step] is one request applied to an
    aggregate, and the theorems are about every aggregate it reaches. *)

From S2P Require Export Permit.

#[local] Open Scope Z_scope.

Section lifecycle.
Context {rt : Runtime} {sec : Security}.

(** ** Identity *)

Definition transition_dump (t : CertifiedTransition) : json := to_json t.

Definition action_permit_id (certificate_id : string)
  (transition : CertifiedTransition) : result py_error string :=
  reject_if (bool_decide (certificate_id = ""))
    (TypeError "certificate identifier must be a nonempty string");;
  payload ← canonical_json_value_bytes (JObj
    [("certificate_id", JStr certificate_id);
     ("schema_version", JStr ACTION_PERMIT_VERSION);
     ("transition", transition_dump transition)]);
  let digest := sha256_hex payload in
  Ok ("permit-" +:+ String.substring 0 32 digest).

Definition action_permit_transition (permit : ActionPermit) : CertifiedTransition :=
  {| ct_action := action permit;
     ct_source_node_id := source_node_id permit;
     ct_target_node_id := target_node_id permit;
     ct_semantic_action_sha256 := semantic_action_sha256 permit;
     ct_tool_name := tool_name permit;
     ct_tool_version := tool_version permit;
     ct_arguments_sha256 := arguments_sha256 permit;
     ct_target_sha256 := target_sha256 permit;
     ct_precondition_sha256 := precondition_sha256 permit |}.

Definition validate_action_permit_identity (permit : ActionPermit)
  : result py_error unit :=
  validate_transition_target (action_permit_transition permit);;
  expected ← action_permit_id (certificate_id permit) (action_permit_transition permit);
  reject_if (negb (bool_decide (permit_id permit = expected)))
    (ValueError "permit identifier does not match its logical authority").

Definition same_action_permit_authority (left right : ActionPermit)
  : result py_error bool :=
  validate_action_permit_identity left;;
  validate_action_permit_identity right;;
  l ← canonical_json_value_bytes (JObj (permit_authority_fields pydantic_time left));
  r ← canonical_json_value_bytes (JObj (permit_authority_fields pydantic_time right));
  Ok (bool_decide (l = r)).

Definition same_action_permit_state (left right : ActionPermit)
  : result py_error bool :=
  validate_action_permit_identity left;;
  validate_action_permit_identity right;;
  l ← canonical_json_value_bytes (JObj (permit_authority_fields pydantic_time left
        ++ permit_lifecycle_fields pydantic_time left));
  r ← canonical_json_value_bytes (JObj (permit_authority_fields pydantic_time right
        ++ permit_lifecycle_fields pydantic_time right));
  Ok (bool_decide (l = r)).

(** ** Events *)

Definition audit_event_id (sequence : Z) : string := "permit-audit-" +:+ pretty sequence.

(** [_event] *)
Definition permit_event (permit : ActionPermit) (sequence : Z) (kind : PermitAuditKind)
  (occurred_at : datetime) (claim_id : option string)
  (denial_reason : option PermitDenialReason)
  (completion_outcome : option PermitCompletionOutcome)
  : result py_error PermitAuditEvent :=
  model_validate_event
    {| ev_event_id := audit_event_id sequence;
       ev_permit_id := permit_id permit;
       ev_sequence := sequence;
       ev_kind := kind;
       ev_permit_revision := revision permit;
       ev_permit_sha256 := canonical_sha256 permit;
       ev_occurred_at := occurred_at;
       ev_claim_id := claim_id;
       ev_denial_reason := denial_reason;
       ev_completion_outcome := completion_outcome |}.

Definition issued_audit_event (permit : ActionPermit)
  : result py_error PermitAuditEvent :=
  reject_if (negb (bool_decide (state permit = ISSUED)))
    (TypeError "an exact issued action permit is required");;
  permit_event permit 1 Audit_ISSUED (issued_at permit) None None None.

(** ** Replay *)

(** The loop variables of [validate_permit_audit_history]: the sequence number
    of the next event, the permit so far and the last timestamp. *)
Record replay_state := {
  rs_sequence : Z;
  rs_current : ActionPermit;
  rs_previous_at : datetime;
}.

(** The permit an event turns the current one into. *)
Definition replayed_permit (current : ActionPermit) (event : PermitAuditEvent)
  : result py_error ActionPermit :=
  match ev_kind event, state current, ev_claim_id event with
  | Audit_BLOCKED, _, _ => Ok current
  | Audit_CLAIMED, ISSUED, Some cid =>
      model_validate_permit (claimed_copy current cid (ev_occurred_at event))
  | Audit_EXPIRED, ISSUED, _ =>
      model_validate_permit (expired_copy current (ev_occurred_at event))
  | (Audit_COMPLETED | Audit_REJECTED | Audit_OUTCOME_UNKNOWN), CLAIMED, cid =>
      match bool_decide (cid = claim_id current), ev_completion_outcome event with
      | true, Some outcome =>
          model_validate_permit (completed_copy current (ev_occurred_at event) outcome)
      | _, _ => Raise (ValueError "permit audit transition is invalid")
      end
  | _, _, _ => Raise (ValueError "permit audit transition is invalid")
  end.

Definition replay_event (pid : string) (s : replay_state) (event : PermitAuditEvent)
  : result py_error replay_state :=
  let sequence := rs_sequence s in
  reject_if (negb (bool_decide (ev_permit_id event = pid))
             || negb (ev_sequence event =? sequence)
             || negb (bool_decide (ev_event_id event = audit_event_id sequence)))
    (ValueError "permit audit sequence is invalid");;
  if sequence =? 1
  then Ok {| rs_sequence := 2; rs_current := rs_current s;
             rs_previous_at := rs_previous_at s |}
  else
    reject_if (ev_occurred_at event <? rs_previous_at s)
      (ValueError "permit audit timestamps are not monotonic");;
    replacement ← replayed_permit (rs_current s) event;
    reject_if (negb (ev_permit_revision event =? revision replacement)
               || negb (bool_decide
                    (ev_permit_sha256 event = canonical_sha256 replacement)))
      (ValueError "permit audit does not bind its state revision");;
    Ok {| rs_sequence := sequence + 1; rs_current := replacement;
          rs_previous_at := ev_occurred_at event |}.

Definition validate_permit_audit_history (permit : ActionPermit)
  (events : list PermitAuditEvent) : result py_error unit :=
  issued ← model_validate_permit (issued_copy permit);
  match events with
  | [] => Raise (ValueError "permit audit history does not begin at issuance")
  | first :: _ =>
      expected ← issued_audit_event issued;
      reject_if (negb (bool_decide (first = expected)))
        (ValueError "permit audit history does not begin at issuance");;
      final ← fold_result (replay_event (permit_id permit))
        {| rs_sequence := 1; rs_current := issued;
           rs_previous_at := ev_occurred_at first |} events;
      reject_if (negb (bool_decide (rs_current final = permit)))
        (ValueError "permit audit history does not reproduce durable state")
  end.

(** ** Claims *)

(** [_claim_bindings] *)
Definition claim_bindings (permit : ActionPermit) (request : PermitClaimRequest) : bool :=
  bool_decide (rq_permit_id request = permit_id permit)
  && bool_decide (rq_issued_permit_sha256 request = canonical_sha256 permit)
  && bool_decide (rq_certificate_id request = certificate_id permit)
  && bool_decide (rq_certificate_sha256 request = certificate_sha256 permit)
  && bool_decide (rq_chain_id request = chain_id permit)
  && bool_decide (rq_source_node_id request = source_node_id permit)
  && bool_decide (rq_target_node_id request = target_node_id permit)
  && bool_decide (rq_semantic_action_sha256 request = semantic_action_sha256 permit)
  && bool_decide (rq_action_profile_version request = action_profile_version permit)
  && bool_decide (rq_action_policy_version request = action_policy_version permit)
  && bool_decide (rq_tool_name request = tool_name permit)
  && bool_decide (rq_tool_version request = tool_version permit)
  && bool_decide (rq_arguments_sha256 request = arguments_sha256 permit)
  && bool_decide (rq_target_sha256 request = target_sha256 permit)
  && bool_decide (rq_precondition_sha256 request = precondition_sha256 permit).

(** The tail of [evaluate_permit_claim]: an attempt that changes nothing. *)
Definition blocked_mutation (permit : ActionPermit) (audit_sequence : Z)
  (audit_at : datetime) (claim_id : string) (reason : PermitDenialReason)
  : result py_error PermitMutation :=
  event ← permit_event permit audit_sequence Audit_BLOCKED audit_at
    (Some claim_id) (Some reason) None;
  Ok {| pm_permit := permit; pm_event := event; pm_denial_reason := Some reason |}.

Definition evaluate_permit_claim (permit : ActionPermit) (request : PermitClaimRequest)
  (audit_sequence : Z) (audit_not_before : datetime) : result py_error PermitMutation :=
  let requested_at := rq_requested_at request in
  let blocked audit_at reason :=
    blocked_mutation permit audit_sequence audit_at (rq_claim_id request) reason in
  if requested_at <? audit_not_before then
    blocked audit_not_before NON_MONOTONIC_TIME
  else if requested_at <? issued_at permit then
    blocked (issued_at permit) NOT_YET_VALID
  else if bool_decide (state permit = ISSUED) && (expires_at permit <=? requested_at) then
    expired ← model_validate_permit (expired_copy permit requested_at);
    event ← permit_event expired audit_sequence Audit_EXPIRED requested_at
      (Some (rq_claim_id request)) (Some Denied_EXPIRED) None;
    Ok {| pm_permit := expired; pm_event := event;
          pm_denial_reason := Some Denied_EXPIRED |}
  else if bool_decide (state permit = CLAIMED) then
    blocked requested_at ALREADY_CLAIMED
  else if bool_decide (state permit = COMPLETED) || bool_decide (state permit = EXPIRED) then
    blocked requested_at ALREADY_COMPLETED
  else if negb (claim_bindings permit request) then
    blocked requested_at BINDING_MISMATCH
  else
    claimed ← model_validate_permit
      (claimed_copy permit (rq_claim_id request) requested_at);
    event ← permit_event claimed audit_sequence Audit_CLAIMED requested_at
      (Some (rq_claim_id request)) None None;
    Ok {| pm_permit := claimed; pm_event := event; pm_denial_reason := None |}.

(** ** Completions *)

Definition exact_claim (permit : ActionPermit) (request : PermitCompletionRequest)
  (audit_not_before : datetime) : bool :=
  bool_decide (cq_permit_id request = permit_id permit)
  && bool_decide (Some (cq_claim_id request) = claim_id permit)
  && bool_decide (cq_claimed_permit_sha256 request = canonical_sha256 permit)
  && match claimed_at permit with
     | Some at_ => at_ <=? cq_completed_at request
     | None => false end
  && (audit_not_before <=? cq_completed_at request).

Definition evaluate_permit_completion (permit : ActionPermit)
  (request : PermitCompletionRequest) (audit_sequence : Z)
  (audit_not_before : datetime) : result py_error PermitMutation :=
  if bool_decide (state permit = CLAIMED) && exact_claim permit request audit_not_before
  then
    completed ← model_validate_permit
      (completed_copy permit (cq_completed_at request) (cq_outcome request));
    event ← permit_event completed audit_sequence
      (completion_audit_kind (cq_outcome request)) (cq_completed_at request)
      (Some (cq_claim_id request)) None (Some (cq_outcome request));
    Ok {| pm_permit := completed; pm_event := event; pm_denial_reason := None |}
  else
    let reason :=
      if bool_decide (state permit = COMPLETED) || bool_decide (state permit = EXPIRED)
      then ALREADY_COMPLETED
      else if cq_completed_at request <? audit_not_before
      then NON_MONOTONIC_TIME
      else BINDING_MISMATCH in
    blocked_mutation permit audit_sequence
      (Z.max (cq_completed_at request) audit_not_before) (cq_claim_id request) reason.

(** ** Aggregates and their steps *)

(** [FirestoreActionPermitAggregate]: a permit with its append-only history. *)
Record permit_aggregate := {
  ag_permit : ActionPermit;
  ag_audit_events : list PermitAuditEvent;
}.

Definition validate_history (self : permit_aggregate) : result py_error unit :=
  validate_lifecycle (ag_permit self);;
  validate_permit_audit_history (ag_permit self) (ag_audit_events self).

Inductive permit_request :=
  | Claim (request : PermitClaimRequest)
  | Complete (request : PermitCompletionRequest).

(** [mutation_factory(permit, len(audit_events) + 1, audit_events[-1].occurred_at)] *)
Definition evaluate_request (a : permit_aggregate) (r : permit_request)
  : result py_error PermitMutation :=
  match last (ag_audit_events a) with
  | None => Raise (RuntimeError "empty permit audit history")
  | Some e =>
      let sequence := Z.of_nat (length (ag_audit_events a)) + 1 in
      match r with
      | Claim rq => evaluate_permit_claim (ag_permit a) rq sequence (ev_occurred_at e)
      | Complete cq =>
          evaluate_permit_completion (ag_permit a) cq sequence (ev_occurred_at e)
      end
  end.

Definition extend_aggregate (a : permit_aggregate) (m : PermitMutation)
  : permit_aggregate :=
  {| ag_permit := pm_permit m; ag_audit_events := ag_audit_events a ++ [pm_event m] |}.

Inductive permit_step : permit_aggregate → permit_aggregate → Prop :=
  | permit_step_request a r m :
      evaluate_request a r = Ok m → permit_step a (extend_aggregate a m).

(** The grants of a history. *)
Definition claims_of (events : list PermitAuditEvent) : list PermitAuditEvent :=
  filter (λ e, ev_kind e = Audit_CLAIMED) events.

Definition settlements_of (events : list PermitAuditEvent) : list PermitAuditEvent :=
  filter (λ e, is_Some (audit_kind_outcome (ev_kind e))) events.

(** What issuance stores ([issue_permit]'s aggregate). *)
Definition issued_aggregate (permit : ActionPermit) : result py_error permit_aggregate :=
  event ← issued_audit_event permit;
  Ok {| ag_permit := permit; ag_audit_events := [event] |}.

(** The edges of the permit state machine. *)
Inductive lifecycle_edge : ActionPermitState → ActionPermitState → Prop :=
  | edge_claim : lifecycle_edge ISSUED CLAIMED
  | edge_expire : lifecycle_edge ISSUED EXPIRED
  | edge_complete : lifecycle_edge CLAIMED COMPLETED.

(** When a claim is granted. *)
Definition claim_admissible (permit : ActionPermit) (request : PermitClaimRequest)
  (audit_not_before : datetime) : Prop :=
  state permit = ISSUED ∧
  audit_not_before ≤ rq_requested_at request ∧
  issued_at permit ≤ rq_requested_at request < expires_at permit ∧
  claim_bindings permit request = true.

End lifecycle.

(** * Proofs *)

Section facts.
Context {rt : Runtime} {sec : Security}.

Lemma validate_lifecycle_ok p :
  validate_lifecycle p = Ok tt ↔
    issued_at p < expires_at p ∧
    (action p = RETRY → target_node_id p = source_node_id p) ∧
    (action p = CONTINUE → target_node_id p ≠ source_node_id p) ∧
    lifecycle_fields_match p = true ∧
    (∀ c, claimed_at p = Some c → issued_at p ≤ c < expires_at p) ∧
    (∀ d c, completed_at p = Some d → claimed_at p = Some c → c ≤ d) ∧
    (∀ x, expired_at p = Some x → expires_at p ≤ x).
Proof.
  unfold validate_lifecycle.
  rewrite !reject_then_ok, reject_if_ok, Z.leb_gt, !andb_false_iff, !negb_false_iff,
    !bool_decide_eq_true, !bool_decide_eq_false.
  split.
  - intros (Hiv & Hr & Hc & Hf & Hcl & Hco & Hex).
    split_and!; [done|naive_solver..|done| | |].
    + intros c Hc'. rewrite Hc' in Hcl. bool_simpl. lia.
    + intros d c Hd Hc'. rewrite Hd, Hc' in Hco. bool_simpl. lia.
    + intros x Hx. rewrite Hx in Hex. bool_simpl. lia.
  - intros (Hiv & Hr & Hc & Hf & Hcl & Hco & Hex). split_and!; [done|..|done| | |].
    + destruct (action p); [by left|right; auto].
    + destruct (action p); [right; auto|by left].
    + destruct (claimed_at p) as [c|]; [|done]. specialize (Hcl c eq_refl).
      rewrite negb_false_iff, andb_true_iff, Z.leb_le, Z.ltb_lt. done.
    + destruct (completed_at p) as [d|], (claimed_at p) as [c|]; try done.
      rewrite Z.ltb_ge. eauto.
    + destruct (expired_at p) as [x|]; [|done]. rewrite Z.ltb_ge. eauto.
Qed.


Lemma revision_in_range p :
  lifecycle_fields_match p = true → in_range 0 (revision p) int64_max = true.
Proof.
  unfold lifecycle_fields_match. rewrite in_range_true. unfold int64_max.
  destruct (state p); intros; bool_simpl; lia.
Qed.

(** *** Updated copies are valid permits *)

Lemma issued_copy_valid p :
  validate_lifecycle p = Ok tt → validate_lifecycle (issued_copy p) = Ok tt.
Proof. rewrite !validate_lifecycle_ok. naive_solver. Qed.

Lemma issued_fields p :
  lifecycle_fields_match p = true → state p = ISSUED → p = issued_copy p.
Proof.
  unfold lifecycle_fields_match. intros H Hs. rewrite Hs in H.
  destruct p; cbn in *; bool_simpl.
  repeat match goal with H : is_none ?o = true |- _ => apply is_none_true in H end.
  by subst.
Qed.

Lemma claimed_copy_valid p cid at_ :
  validate_lifecycle p = Ok tt → state p = ISSUED →
  issued_at p ≤ at_ < expires_at p →
  validate_lifecycle (claimed_copy p cid at_) = Ok tt.
Proof.
  rewrite !validate_lifecycle_ok. intros (Hi&Hr&Hc&Hf&_) Hs Hat.
  rewrite (issued_fields p Hf Hs). cbn. split_and!; naive_solver.
Qed.

Lemma expired_copy_valid p at_ :
  validate_lifecycle p = Ok tt → state p = ISSUED → expires_at p ≤ at_ →
  validate_lifecycle (expired_copy p at_) = Ok tt.
Proof.
  rewrite !validate_lifecycle_ok. intros (Hi&Hr&Hc&Hf&_) Hs Hat.
  rewrite (issued_fields p Hf Hs). cbn. split_and!; naive_solver.
Qed.

Lemma completed_copy_valid p c at_ outcome :
  validate_lifecycle p = Ok tt → state p = CLAIMED →
  claimed_at p = Some c → c ≤ at_ →
  validate_lifecycle (completed_copy p at_ outcome) = Ok tt.
Proof.
  rewrite !validate_lifecycle_ok. intros (Hi&Hr&Hc&Hf&Hcl&_) Hs Hcat Hat.
  unfold lifecycle_fields_match in *. rewrite Hs in Hf. bool_simpl.
  cbn. split_and!; [naive_solver..| | | |].
  - rewrite Hcat. destruct (claim_id p), (expired_at p); done.
  - naive_solver.
  - naive_solver lia.
  - intros x Hx. rewrite Hx in *. done.
Qed.

Lemma model_validate_permit_ok p :
  validate_lifecycle p = Ok tt → model_validate_permit p = Ok p.
Proof. unfold model_validate_permit. by intros ->. Qed.

Lemma model_validate_permit_inv p q :
  model_validate_permit p = Ok q → q = p ∧ validate_lifecycle p = Ok tt.
Proof. unfold model_validate_permit. intros H. inv_ok. by subst. Qed.

(** *** Events of one permit *)

Lemma permit_event_ok p n k t cid dr oc :
  in_range 1 n int64_max = true →
  in_range 0 (revision p) int64_max = true →
  audit_fields_match {| ev_event_id := audit_event_id n; ev_permit_id := permit_id p;
     ev_sequence := n; ev_kind := k; ev_permit_revision := revision p;
     ev_permit_sha256 := canonical_sha256 p; ev_occurred_at := t; ev_claim_id := cid;
     ev_denial_reason := dr; ev_completion_outcome := oc |} = true →
  permit_event p n k t cid dr oc =
    Ok {| ev_event_id := audit_event_id n; ev_permit_id := permit_id p;
     ev_sequence := n; ev_kind := k; ev_permit_revision := revision p;
     ev_permit_sha256 := canonical_sha256 p; ev_occurred_at := t; ev_claim_id := cid;
     ev_denial_reason := dr; ev_completion_outcome := oc |}.
Proof.
  intros Hn Hr Hm. unfold permit_event, model_validate_event.
  cbn -[in_range audit_fields_match]. by rewrite Hn, Hr, Hm.
Qed.

Lemma permit_event_inv p n k t cid dr oc e :
  permit_event p n k t cid dr oc = Ok e →
  e = {| ev_event_id := audit_event_id n; ev_permit_id := permit_id p;
     ev_sequence := n; ev_kind := k; ev_permit_revision := revision p;
     ev_permit_sha256 := canonical_sha256 p; ev_occurred_at := t; ev_claim_id := cid;
     ev_denial_reason := dr; ev_completion_outcome := oc |}.
Proof. unfold permit_event, model_validate_event. intros H. inv_ok. by subst. Qed.

(** *** The replay loop *)

Lemma replay_event_inv pid s e s' :
  replay_event pid s e = Ok s' →
  ev_permit_id e = pid ∧ ev_sequence e = rs_sequence s ∧
  ev_event_id e = audit_event_id (rs_sequence s) ∧
  rs_sequence s' = rs_sequence s + 1.
Proof.
  unfold replay_event. intros H. inv_ok. bool_simpl.
  destruct (rs_sequence s =? 1) eqn:Hs; bool_simpl.
  - injection H as <-. cbn. split_and!; auto; lia.
  - inv_ok. subst. cbn. split_and!; auto.
Qed.

Lemma replay_sequence pid s l s' :
  fold_result (replay_event pid) s l = Ok s' →
  rs_sequence s' = rs_sequence s + Z.of_nat (length l).
Proof.
  revert s. induction l as [|e l IH]; intros s H; cbn in H; [inv_ok; subst; cbn; lia|].
  inv_ok. apply replay_event_inv in Hr as (_&_&_&Hs). apply IH in H.
  cbn [length]. lia.
Qed.

Lemma replay_previous pid s e l s' :
  rs_sequence s = 1 → rs_previous_at s = ev_occurred_at e →
  fold_result (replay_event pid) s (e :: l) = Ok s' →
  ∃ z, last (e :: l) = Some z ∧ rs_previous_at s' = ev_occurred_at z.
Proof.
  intros Hs Hp. revert s'. induction l as [|z l IH] using rev_ind; intros s' H.
  - cbn in H. inv_ok. unfold replay_event in Hr. inv_ok. rewrite Hs in Hr. cbn in Hr.
    inv_ok. subst. exists e. done.
  - rewrite app_comm_cons, fold_result_snoc in H. inv_ok.
    pose proof (replay_sequence _ _ _ _ Hr) as Hlen. cbn [length] in Hlen.
    exists z. split; [by rewrite app_comm_cons, last_snoc|].
    unfold replay_event in H. inv_ok.
    destruct (rs_sequence r =? 1) eqn:?; bool_simpl; [lia|]. inv_ok. by subst.
Qed.

(** A history with its permit, taken apart. *)
Lemma history_inv p evs :
  validate_permit_audit_history p evs = Ok tt →
  ∃ e0 rest s, evs = e0 :: rest ∧
    validate_lifecycle (issued_copy p) = Ok tt ∧
    issued_audit_event (issued_copy p) = Ok e0 ∧
    fold_result (replay_event (permit_id p))
      {| rs_sequence := 1; rs_current := issued_copy p;
         rs_previous_at := ev_occurred_at e0 |} evs = Ok s ∧
    rs_current s = p.
Proof.
  unfold validate_permit_audit_history. intros H. inv_ok.
  apply model_validate_permit_inv in Hr as [-> Hv].
  destruct evs as [|e0 rest]; [done|]. inv_ok. bool_simpl. subst.
  eauto 10.
Qed.

(** Appending an event the replay accepts keeps the history valid. *)
Lemma history_snoc p p' evs z e :
  validate_permit_audit_history p evs = Ok tt →
  last evs = Some z →
  issued_copy p' = issued_copy p →
  ev_permit_id e = permit_id p →
  ev_sequence e = Z.of_nat (length evs) + 1 →
  ev_event_id e = audit_event_id (ev_sequence e) →
  ev_occurred_at z ≤ ev_occurred_at e →
  replayed_permit p e = Ok p' →
  ev_permit_revision e = revision p' →
  ev_permit_sha256 e = canonical_sha256 p' →
  validate_permit_audit_history p' (evs ++ [e]) = Ok tt.
Proof.
  intros Hh Hz Hcopy Hid Hseq Heid Hat Hrep Hrev Hsha.
  apply history_inv in Hh as (e0 & rest & s & -> & Hv & He0 & Hfold & Hcur).
  assert (permit_id p' = permit_id p) as Hpid
    by exact (f_equal permit_id Hcopy).
  edestruct replay_previous as (z' & Hz' & Hprev);
    [| |exact Hfold|]; [reflexivity..|].
  pose proof (replay_sequence _ _ _ _ Hfold) as Hn. cbn [rs_sequence] in Hn.
  rewrite Hz in Hz'. injection Hz' as <-.
  unfold validate_permit_audit_history.
  rewrite Hcopy, (model_validate_permit_ok _ Hv). cbn [mbind result_bind app].
  rewrite He0. cbn [mbind result_bind].
  rewrite bool_decide_eq_true_2 by done. cbn [negb reject_if mbind result_bind].
  rewrite app_comm_cons, fold_result_snoc, Hpid, Hfold. cbn [mbind result_bind].
  assert (ev_sequence e = rs_sequence s) as Hseq' by lia.
  assert ((rs_sequence s =? 1) = false) as Hne by (cbn [length] in Hn; lia).
  unfold replay_event.
  rewrite Hid, Heid, Hseq', !bool_decide_eq_true_2, Z.eqb_refl, Hne by done.
  cbn [negb orb reject_if mbind result_bind].
  rewrite Hprev, (proj2 (Z.ltb_ge _ _)) by done.
  cbn [negb orb reject_if mbind result_bind].
  rewrite Hcur, Hrep. cbn [mbind result_bind].
  rewrite Hrev, Z.eqb_refl, Hsha, bool_decide_eq_true_2 by done.
  cbn [negb orb reject_if mbind result_bind rs_current].
  by rewrite bool_decide_eq_true_2.
Qed.

(** *** Every request keeps an aggregate valid *)

Definition room_for_event (a : permit_aggregate) : Prop :=
  Z.of_nat (length (ag_audit_events a)) < int64_max.

Lemma blocked_extends a z n t cid reason :
  validate_history a = Ok tt →
  last (ag_audit_events a) = Some z →
  n = Z.of_nat (length (ag_audit_events a)) + 1 → room_for_event a →
  ev_occurred_at z ≤ t → reason ≠ Denied_EXPIRED →
  ∃ m, blocked_mutation (ag_permit a) n t cid reason = Ok m ∧
    pm_permit m = ag_permit a ∧ pm_denial_reason m = Some reason ∧
    ev_kind (pm_event m) = Audit_BLOCKED ∧
    validate_history (extend_aggregate a m) = Ok tt.
Proof.
  intros Hv Hz -> Hroom Ht Hreason.
  unfold validate_history in Hv. inv_ok. rename Hr into Hp.
  pose proof (proj1 (validate_lifecycle_ok _) Hp) as (_&_&_&Hf&_).
  unfold blocked_mutation. rewrite permit_event_ok; [|..].
  - eexists. split; [reflexivity|]. split_and!; [done..|].
    unfold validate_history. cbn. rewrite Hp. cbn.
    eapply history_snoc; try done; cbn; auto.
  - apply in_range_true. unfold room_for_event in Hroom. lia.
  - by apply revision_in_range.
  - cbn. rewrite bool_decide_eq_false_2; [done|congruence].
Qed.

Lemma transition_extends a z p' n k t cid dr oc :
  validate_history a = Ok tt →
  last (ag_audit_events a) = Some z →
  n = Z.of_nat (length (ag_audit_events a)) + 1 → room_for_event a →
  ev_occurred_at z ≤ t →
  validate_lifecycle p' = Ok tt →
  issued_copy p' = issued_copy (ag_permit a) →
  (∀ e, ev_kind e = k → ev_occurred_at e = t → ev_claim_id e = Some cid →
    ev_completion_outcome e = oc → replayed_permit (ag_permit a) e = Ok p') →
  (∀ e, ev_kind e = k → ev_permit_revision e = revision p' → ev_claim_id e = Some cid →
    ev_denial_reason e = dr → ev_completion_outcome e = oc →
    audit_fields_match e = true) →
  ∃ e, permit_event p' n k t (Some cid) dr oc = Ok e ∧ ev_kind e = k ∧
    validate_history (extend_aggregate a
      {| pm_permit := p'; pm_event := e; pm_denial_reason := dr |}) = Ok tt.
Proof.
  intros Hv Hz -> Hroom Ht Hp' Hcopy Hrep Hmatch.
  unfold validate_history in Hv. inv_ok.
  pose proof (proj1 (validate_lifecycle_ok _) Hp') as (_&_&_&Hf&_).
  rewrite permit_event_ok; [|..].
  - eexists. split; [reflexivity|]. split; [done|].
    unfold validate_history. cbn. rewrite Hp'. cbn.
    eapply history_snoc; try done; cbn; auto.
    exact (f_equal permit_id Hcopy).
  - apply in_range_true. unfold room_for_event in Hroom. lia.
  - by apply revision_in_range.
  - by apply Hmatch.
Qed.

Lemma claim_extends a z rq :
  validate_history a = Ok tt → room_for_event a →
  last (ag_audit_events a) = Some z →
  ∃ m, evaluate_permit_claim (ag_permit a) rq
      (Z.of_nat (length (ag_audit_events a)) + 1) (ev_occurred_at z) = Ok m ∧
    validate_history (extend_aggregate a m) = Ok tt.
Proof.
  intros Hv Hroom Hz. pose proof Hv as Hv'. unfold validate_history in Hv'. inv_ok.
  set (n := Z.of_nat (length (ag_audit_events a)) + 1).
  assert (∀ t reason, ev_occurred_at z ≤ t → reason ≠ Denied_EXPIRED →
    ∃ m, blocked_mutation (ag_permit a) n t (rq_claim_id rq) reason = Ok m ∧
      validate_history (extend_aggregate a m) = Ok tt) as Hblocked.
  { intros t reason Ht Hne.
    destruct (blocked_extends a z n t (rq_claim_id rq) reason) as (m&?&?&?&?&?); eauto. }
  unfold evaluate_permit_claim. fold n.
  destruct (rq_requested_at rq <? ev_occurred_at z) eqn:H1; [by apply Hblocked|].
  destruct (rq_requested_at rq <? issued_at (ag_permit a)) eqn:H2; bool_simpl;
    [apply Hblocked; [lia|done]|].
  destruct (bool_decide (state (ag_permit a) = ISSUED)) eqn:Hs; cbn [andb].
  - bool_simpl. rewrite Hs.
    destruct (expires_at (ag_permit a) <=? rq_requested_at rq) eqn:H3; bool_simpl.
    + assert (validate_lifecycle (expired_copy (ag_permit a) (rq_requested_at rq)) = Ok tt)
        as Hx by by apply expired_copy_valid.
      rewrite (model_validate_permit_ok _ Hx). cbn [mbind result_bind].
      edestruct (transition_extends a z (expired_copy (ag_permit a) (rq_requested_at rq))
        n Audit_EXPIRED (rq_requested_at rq) (rq_claim_id rq)) as (e & -> & _ & He);
        [exact Hv|exact Hz|done|done|done|done|done| | |].
      * intros e Hk Hat Hc _. unfold replayed_permit.
        rewrite Hk, Hs, Hat. by apply model_validate_permit_ok.
      * intros e Hk Hrev Hc Hd Ho. unfold audit_fields_match.
        rewrite Hk, Hrev, Hc, Hd, Ho. done.
      * cbn. eauto.
    + rewrite !bool_decide_eq_false_2 by done. cbn [orb].
      destruct (claim_bindings (ag_permit a) rq) eqn:Hb; cbn [negb];
        [|by apply Hblocked].
      assert (validate_lifecycle
        (claimed_copy (ag_permit a) (rq_claim_id rq) (rq_requested_at rq)) = Ok tt)
        as Hx by by apply claimed_copy_valid.
      rewrite (model_validate_permit_ok _ Hx). cbn [mbind result_bind].
      edestruct (transition_extends a z
        (claimed_copy (ag_permit a) (rq_claim_id rq) (rq_requested_at rq))
        n Audit_CLAIMED (rq_requested_at rq) (rq_claim_id rq)) as (e & -> & _ & He);
        [exact Hv|exact Hz|done|done|done|done|done| | |].
      * intros e Hk Hat Hc _. unfold replayed_permit.
        rewrite Hk, Hs, Hat, Hc. by apply model_validate_permit_ok.
      * intros e Hk Hrev Hc Hd Ho. unfold audit_fields_match.
        rewrite Hk, Hrev, Hc, Hd, Ho. done.
      * cbn. eauto.
  - destruct (state (ag_permit a)) eqn:Hs'; [done|..]; cbn; by apply Hblocked.
Qed.

Lemma completion_extends a z cq :
  validate_history a = Ok tt → room_for_event a →
  last (ag_audit_events a) = Some z →
  ∃ m, evaluate_permit_completion (ag_permit a) cq
      (Z.of_nat (length (ag_audit_events a)) + 1) (ev_occurred_at z) = Ok m ∧
    validate_history (extend_aggregate a m) = Ok tt.
Proof.
  intros Hv Hroom Hz. pose proof Hv as Hv'. unfold validate_history in Hv'. inv_ok.
  set (n := Z.of_nat (length (ag_audit_events a)) + 1).
  unfold evaluate_permit_completion. fold n.
  destruct (bool_decide (state (ag_permit a) = CLAIMED)
            && exact_claim (ag_permit a) cq (ev_occurred_at z)) eqn:Hc.
  - unfold exact_claim in Hc. bool_simpl.
    destruct (claimed_at (ag_permit a)) as [c|] eqn:Hat; [|done]. bool_simpl.
    set (done_ := completed_copy (ag_permit a) (cq_completed_at cq) (cq_outcome cq)).
    assert (validate_lifecycle done_ = Ok tt) as Hx
      by by eapply completed_copy_valid.
    rewrite (model_validate_permit_ok _ Hx). cbn [mbind result_bind].
    edestruct (transition_extends a z done_ n (completion_audit_kind (cq_outcome cq))
      (cq_completed_at cq) (cq_claim_id cq)) as (e & -> & _ & He);
      [exact Hv|exact Hz|done|done|done|done|done| | |].
    + intros e Hk Hoc Hcid Ho. unfold replayed_permit. rewrite Hk, Hcid, Ho, Hoc.
      replace (state (ag_permit a)) with CLAIMED by done.
      destruct (cq_outcome cq); cbn; rewrite bool_decide_eq_true_2 by congruence;
        by apply model_validate_permit_ok.
    + intros e Hk Hrev Hcid Hd Ho. unfold audit_fields_match.
      rewrite Hk, Hrev, Hcid, Hd, Ho. by destruct (cq_outcome cq).
    + cbn. eauto.
  - destruct (blocked_extends a z n (Z.max (cq_completed_at cq) (ev_occurred_at z))
      (cq_claim_id cq)
      (if bool_decide (state (ag_permit a) = COMPLETED)
          || bool_decide (state (ag_permit a) = EXPIRED)
       then ALREADY_COMPLETED
       else if cq_completed_at cq <? ev_occurred_at z
       then NON_MONOTONIC_TIME else BINDING_MISMATCH)) as (m&?&?&?&?&?); eauto.
    + lia.
    + by repeat case_match.
Qed.

Lemma valid_history_nonempty a :
  validate_history a = Ok tt → ∃ z, last (ag_audit_events a) = Some z.
Proof.
  unfold validate_history. intros H. inv_ok.
  apply history_inv in H as (e0&rest&_&->&_). apply last_is_Some. done.
Qed.

Lemma request_extends a r :
  validate_history a = Ok tt → room_for_event a →
  ∃ m, evaluate_request a r = Ok m ∧ validate_history (extend_aggregate a m) = Ok tt.
Proof.
  intros Hv Hroom. destruct (valid_history_nonempty a Hv) as [z Hz].
  unfold evaluate_request. rewrite Hz.
  destruct r; eauto using claim_extends, completion_extends.
Qed.

(** *** Counting grants *)

Definition claims_expected (s : ActionPermitState) : nat :=
  match s with CLAIMED | COMPLETED => 1 | ISSUED | EXPIRED => 0 end.
Definition settlements_expected (s : ActionPermitState) : nat :=
  match s with COMPLETED => 1 | _ => 0 end.

Lemma claims_of_snoc l e :
  length (claims_of (l ++ [e])) =
    (length (claims_of l) + if decide (ev_kind e = Audit_CLAIMED) then 1 else 0)%nat.
Proof.
  unfold claims_of. rewrite filter_app, length_app, filter_cons, filter_nil.
  by case_decide.
Qed.

Lemma settlements_of_snoc l e :
  length (settlements_of (l ++ [e])) =
    (length (settlements_of l)
     + if decide (is_Some (audit_kind_outcome (ev_kind e))) then 1 else 0)%nat.
Proof.
  unfold settlements_of. rewrite filter_app, length_app, filter_cons, filter_nil.
  by case_decide.
Qed.

(** One replayed event moves the counts as it moves the state. *)
Lemma replayed_counts p e p' :
  replayed_permit p e = Ok p' →
  claims_expected (state p') = (claims_expected (state p)
    + if decide (ev_kind e = Audit_CLAIMED) then 1 else 0)%nat ∧
  settlements_expected (state p') = (settlements_expected (state p)
    + if decide (is_Some (audit_kind_outcome (ev_kind e))) then 1 else 0)%nat ∧
  (p' = p ∨ lifecycle_edge (state p) (state p')).
Proof.
  unfold replayed_permit. intros H.
  destruct (ev_kind e) eqn:Hk; cbn [audit_kind_outcome]; destruct (state p) eqn:Hs;
    try discriminate H;
    try (destruct (ev_claim_id e); try discriminate H);
    try (case_bool_decide; try discriminate H);
    try (destruct (ev_completion_outcome e); try discriminate H);
    try (apply model_validate_permit_inv in H as [-> _]);
    try (injection H as <-); rewrite ?Hs; cbn;
    repeat case_decide; try done;
    try match goal with
    | Hn : ¬ is_Some (Some _) |- _ => by destruct Hn
    | Hn : is_Some None |- _ => by destruct Hn
    end;
    split_and!; try done; auto using lifecycle_edge.
Qed.

Lemma replay_counts pid s e0 l s' :
  rs_sequence s = 1 → state (rs_current s) = ISSUED → ev_kind e0 = Audit_ISSUED →
  fold_result (replay_event pid) s (e0 :: l) = Ok s' →
  length (claims_of (e0 :: l)) = claims_expected (state (rs_current s')) ∧
  length (settlements_of (e0 :: l)) = settlements_expected (state (rs_current s')).
Proof.
  intros Hs Hst He0. revert s'. induction l as [|z l IH] using rev_ind; intros s' H.
  - cbn in H. inv_ok. unfold replay_event in Hr. inv_ok. rewrite Hs in Hr. cbn in Hr.
    inv_ok. subst. unfold claims_of, settlements_of.
    rewrite !filter_cons, !filter_nil, He0. cbn. rewrite Hst. done.
  - rewrite app_comm_cons, fold_result_snoc in H. inv_ok.
    destruct (IH _ Hr) as [Hc Hd].
    pose proof (replay_sequence _ _ _ _ Hr) as Hlen. cbn [length] in Hlen.
    unfold replay_event in H. inv_ok.
    destruct (rs_sequence r =? 1) eqn:?; bool_simpl; [lia|]. inv_ok. subst. cbn [rs_current].
    match goal with Hx : replayed_permit _ _ = Ok _ |- _ =>
      apply replayed_counts in Hx as (Hc'&Hd'&_) end.
    rewrite app_comm_cons, claims_of_snoc, settlements_of_snoc. lia.
Qed.

Lemma issued_audit_event_kind p e :
  issued_audit_event p = Ok e → ev_kind e = Audit_ISSUED.
Proof.
  unfold issued_audit_event. intros H. inv_ok. apply permit_event_inv in H. by subst.
Qed.

Lemma history_counts p evs :
  validate_permit_audit_history p evs = Ok tt →
  length (claims_of evs) = claims_expected (state p) ∧
  length (settlements_of evs) = settlements_expected (state p).
Proof.
  intros (e0&rest&s&->&Hv&He0&Hf&<-)%history_inv.
  apply issued_audit_event_kind in He0.
  by eapply replay_counts in Hf.
Qed.

(** *** What one evaluation can do *)

Lemma permit_event_bound p n k t cid dr oc e :
  permit_event p n k t cid dr oc = Ok e → n ≤ int64_max.
Proof.
  unfold permit_event, model_validate_event. intros H. inv_ok. bool_simpl.
  repeat match goal with Hx : in_range _ _ _ = true |- _ =>
    apply in_range_true in Hx; cbn in Hx end. lia.
Qed.

Lemma blocked_mutation_inv p n t cid reason m :
  blocked_mutation p n t cid reason = Ok m →
  pm_permit m = p ∧ pm_denial_reason m = Some reason ∧ n ≤ int64_max.
Proof.
  unfold blocked_mutation. intros H. inv_ok. subst. cbn.
  eauto using permit_event_bound.
Qed.

Lemma claim_cases p rq n t m :
  evaluate_permit_claim p rq n t = Ok m →
  n ≤ int64_max ∧
  ((claim_admissible p rq t ∧ pm_denial_reason m = None ∧
    pm_permit m = claimed_copy p (rq_claim_id rq) (rq_requested_at rq)) ∨
   (¬ claim_admissible p rq t ∧ state p = ISSUED ∧
    pm_denial_reason m = Some Denied_EXPIRED ∧
    pm_permit m = expired_copy p (rq_requested_at rq)) ∨
   (¬ claim_admissible p rq t ∧ pm_denial_reason m ≠ None ∧
    pm_denial_reason m ≠ Some Denied_EXPIRED ∧ pm_permit m = p)).
Proof.
  unfold evaluate_permit_claim, claim_admissible. intros H.
  repeat case_match; try (apply blocked_mutation_inv in H as (->&->&?); bool_simpl;
    split; [done|]; right; right; split_and!; try done;
    intros (?&?&?&?); first [lia|congruence]).
  - bool_simpl. inv_ok. apply model_validate_permit_inv in Hr as [-> _].
    apply permit_event_bound in Hr0. subst. cbn. split; [done|]. right; left.
    split_and!; try done. lia.
  - apply blocked_mutation_inv in H as (->&->&?). split; [done|]. right; right.
    split_and!; try done. rewrite orb_true_iff, !bool_decide_eq_true in *.
    intros (?&_). naive_solver congruence.
  - bool_simpl. inv_ok. apply model_validate_permit_inv in Hr as [-> _].
    apply permit_event_bound in Hr0. subst. cbn. split; [done|]. left.
    assert (state p = ISSUED) as Hs by (by destruct (state p)).
    rewrite Hs in *. rewrite bool_decide_eq_true_2 in * by done. cbn in *. bool_simpl.
    split_and!; auto; lia.
Qed.

Lemma completion_cases p cq n t m :
  evaluate_permit_completion p cq n t = Ok m →
  n ≤ int64_max ∧
  ((state p = CLAIMED ∧ exact_claim p cq t = true ∧ pm_denial_reason m = None ∧
    pm_permit m = completed_copy p (cq_completed_at cq) (cq_outcome cq)) ∨
   (¬ (state p = CLAIMED ∧ exact_claim p cq t = true) ∧
    pm_denial_reason m ≠ None ∧ pm_permit m = p)).
Proof.
  unfold evaluate_permit_completion. intros H.
  destruct (bool_decide (state p = CLAIMED) && exact_claim p cq t) eqn:Hc.
  - bool_simpl. inv_ok. apply model_validate_permit_inv in Hr as [-> _].
    apply permit_event_bound in Hr0. subst. cbn. split; [done|]. by left.
  - apply blocked_mutation_inv in H as (->&->&?). split; [done|]. right.
    split_and!; try done. intros [? ?]. apply andb_false_iff in Hc as [?|?];
      bool_simpl; congruence.
Qed.

Lemma evaluate_request_room a r m :
  evaluate_request a r = Ok m → room_for_event a.
Proof.
  unfold evaluate_request, room_for_event. intros H.
  destruct (last _); [|done]. destruct r.
  - apply claim_cases in H as [? _]. lia.
  - apply completion_cases in H as [? _]. lia.
Qed.

Lemma step_valid a a' :
  validate_history a = Ok tt → permit_step a a' → validate_history a' = Ok tt.
Proof.
  intros Hv Hs. revert Hv. destruct Hs as [a r m Hm]. intros Hv.
  pose proof (evaluate_request_room _ _ _ Hm) as Hroom.
  destruct (request_extends a r Hv Hroom) as (m'&Hm'&Hv'). congruence.
Qed.

Lemma issued_aggregate_valid p a :
  validate_lifecycle p = Ok tt → issued_aggregate p = Ok a →
  ag_permit a = p ∧ validate_history a = Ok tt.
Proof.
  intros Hp H. unfold issued_aggregate in H. inv_ok. subst. cbn. split; [done|].
  unfold validate_history. cbn. rewrite Hp. cbn.
  pose proof Hr as Hr'. unfold issued_audit_event in Hr'. inv_ok. bool_simpl.
  apply permit_event_inv in Hr'.
  pose proof (proj1 (validate_lifecycle_ok _) Hp) as (_&_&_&Hf&_).
  pose proof (issued_fields p Hf Hr0) as Hcopy.
  unfold validate_permit_audit_history.
  rewrite <-Hcopy, (model_validate_permit_ok _ Hp). cbn. rewrite Hr. cbn.
  rewrite bool_decide_eq_true_2 by done. cbn. unfold replay_event.
  subst r. cbn -[audit_event_id]. rewrite !bool_decide_eq_true_2 by done. cbn.
  by rewrite bool_decide_eq_true_2.
Qed.

Lemma run_valid p a0 a :
  validate_lifecycle p = Ok tt → issued_aggregate p = Ok a0 →
  rtc permit_step a0 a → validate_history a = Ok tt.
Proof.
  intros Hp Ha0 Hrun. apply issued_aggregate_valid in Ha0 as [_ Hv]; [|done].
  apply (rtc_invariant permit_step (λ a, validate_history a = Ok tt)) with a0; try done.
  intros; by eapply step_valid.
Qed.

(** One step leaves the permit alone or follows an edge and touches only the
    lifecycle fields. *)
Lemma step_edge a a' :
  permit_step a a' →
  ag_permit a' = ag_permit a ∨
  (lifecycle_edge (state (ag_permit a)) (state (ag_permit a')) ∧
   issued_copy (ag_permit a') = issued_copy (ag_permit a)).
Proof.
  destruct 1 as [a r m Hm]. unfold evaluate_request in Hm.
  destruct (last _); [|done]. cbn. destruct r.
  - apply claim_cases in Hm as [_ [(Ha&_&->)|[(_&Hs&_&->)|(_&_&_&->)]]]; [| |by left].
    + right. destruct Ha as [-> _]. split; [constructor|done].
    + right. rewrite Hs. split; [constructor|done].
  - apply completion_cases in Hm as [_ [(Hs&_&_&->)|(_&_&->)]]; [|by left].
    right. rewrite Hs. split; [constructor|done].
Qed.

End facts.

(** * Properties *)

Section properties.
Context {rt : Runtime} {sec : Security}.

(** C24: an action permit is single-use.  Whatever claims and completions are
    applied to a freshly issued permit, in whatever order and however often,
    its audit history never holds two grants, never holds two settlements, and
    holds a settlement only after a grant; the permit's state says exactly how
    many of each there are. *)
Theorem permit_single_use p a0 a :
  validate_lifecycle p = Ok tt → issued_aggregate p = Ok a0 →
  rtc permit_step a0 a →
  length (claims_of (ag_audit_events a)) = claims_expected (state (ag_permit a)) ∧
  length (settlements_of (ag_audit_events a))
    = settlements_expected (state (ag_permit a)) ∧
  (length (settlements_of (ag_audit_events a))
    ≤ length (claims_of (ag_audit_events a)) ≤ 1)%nat.
Proof.
  intros Hp Ha0 Hrun. pose proof (run_valid _ _ _ Hp Ha0 Hrun) as Hv.
  unfold validate_history in Hv. inv_ok. apply history_counts in Hv as [-> ->].
  destruct (state (ag_permit a)); cbn; lia.
Qed.

(** No request is ever refused by the aggregate's own validator.  From a
    valid aggregate with room for one more 64-bit sequence number, every claim
    and every completion evaluates without raising, and the permit and history
    it produces pass the full replay again. *)
Theorem permit_request_total a r :
  validate_history a = Ok tt →
  Z.of_nat (length (ag_audit_events a)) < int64_max →
  ∃ m, evaluate_request a r = Ok m ∧ validate_history (extend_aggregate a m) = Ok tt.
Proof. apply request_extends. Qed.

(** A claim is granted exactly when the permit is ISSUED, the request is
    not older than the audit history, falls in the validity interval and binds
    every sealed field; a grant records the claim and its time.  A refused claim
    names a reason and leaves the permit as it was, except that a claim past the
    end of the interval of an ISSUED permit expires it. *)
Lemma permit_claim_decision p rq n t m :
  evaluate_permit_claim p rq n t = Ok m →
  (pm_denial_reason m = None ↔ claim_admissible p rq t) ∧
  (pm_denial_reason m = None →
    pm_permit m = claimed_copy p (rq_claim_id rq) (rq_requested_at rq)) ∧
  (pm_denial_reason m ≠ None → pm_permit m = p ∨
    (pm_denial_reason m = Some Denied_EXPIRED ∧ state p = ISSUED ∧
     pm_permit m = expired_copy p (rq_requested_at rq))).
Proof. intros [_ ?]%claim_cases. naive_solver. Qed.

(** A completion is accepted exactly when the permit is CLAIMED and the
    request is the exact claim (same permit, claim identifier and digest of the
    claimed permit, not before the claim nor before the last audit event); it
    then records the outcome.  Otherwise the permit is left as it was. *)
Lemma permit_completion_decision p cq n t m :
  evaluate_permit_completion p cq n t = Ok m →
  (pm_denial_reason m = None ↔ state p = CLAIMED ∧ exact_claim p cq t = true) ∧
  (pm_denial_reason m = None →
    pm_permit m = completed_copy p (cq_completed_at cq) (cq_outcome cq)) ∧
  (pm_denial_reason m ≠ None → pm_permit m = p).
Proof. intros [_ ?]%completion_cases. naive_solver. Qed.

(** The lifecycle is the state machine ISSUED to CLAIMED to COMPLETED with
    ISSUED to EXPIRED, and the sealed authority never moves: along any run each
    step keeps the permit or follows one edge, and every field outside the
    lifecycle stays what it was at issuance. *)
Lemma permit_run_edges a a' :
  rtc permit_step a a' →
  rtc lifecycle_edge (state (ag_permit a)) (state (ag_permit a')) ∧
  issued_copy (ag_permit a') = issued_copy (ag_permit a).
Proof.
  induction 1 as [a|a b c Hab _ [IH1 IH2]]; [done|].
  apply step_edge in Hab as [Hsame|[He Hc]].
  - by rewrite <-Hsame.
  - split; [by eapply rtc_l|congruence].
Qed.

(** A history determines its permit.  Two permits with the same sealed
    fields that both pass the replay of one history are the same permit, down
    to every lifecycle field. *)
Lemma history_determines_permit p q evs :
  issued_copy p = issued_copy q →
  validate_permit_audit_history p evs = Ok tt →
  validate_permit_audit_history q evs = Ok tt → p = q.
Proof.
  intros Hpq (e0&rest&s&->&_&_&Hf&<-)%history_inv (e1&rest'&s'&He&_&_&Hf'&<-)%history_inv.
  injection He as <- <-. rewrite Hpq in Hf.
  rewrite (f_equal permit_id Hpq : permit_id (rs_current s) = permit_id (rs_current s'))
    in Hf. congruence.
Qed.

End properties.

(** * Permits on a concrete lab *)

Definition sample_runtime : Runtime :=
  {| sha256_hex := λ s, s; float_repr := λ _, "0.0";
     has_unsafe_category := λ _, false; pydantic_time := datetime_text;
     str_lower := λ s, s; str_strip := λ s, s |}.
Definition sample_security : Security :=
  {| is_sensitive_key := λ _, false; contains_sensitive_material := λ _, false;
     terminal_safe_text := λ s, s; redact_untrusted_text := λ s, s |}.
#[local] Existing Instance sample_runtime.
#[local] Existing Instance sample_security.

Definition sample_permit : ActionPermit :=
  {| permit_id := "permit-1"; certificate_id := "certificate-1";
     certificate_sha256 := "c0"; chain_id := "chain-1";
     source_node_id := "stage"; target_node_id := "promote";
     semantic_action_sha256 := "5e"; action := CONTINUE;
     action_profile_version := "promote-cloud-run-traffic-profile-v1";
     action_policy_version := "v1"; tool_name := "promote-cloud-run-traffic";
     tool_version := "1.0.0"; arguments_sha256 := "a1"; target_sha256 := "7a";
     precondition_sha256 := "9e"; issued_at := 1000; expires_at := 2000;
     state := ISSUED; revision := 0; claim_id := None; claimed_at := None;
     completed_at := None; completion_outcome := None; expired_at := None |}.

Definition sample_claim (p : ActionPermit) (cid : string) (at_ : datetime)
  : PermitClaimRequest :=
  {| rq_permit_id := permit_id p; rq_claim_id := cid;
     rq_issued_permit_sha256 := canonical_sha256 p;
     rq_certificate_id := certificate_id p;
     rq_certificate_sha256 := certificate_sha256 p;
     rq_chain_id := chain_id p; rq_source_node_id := source_node_id p;
     rq_target_node_id := target_node_id p;
     rq_semantic_action_sha256 := semantic_action_sha256 p;
     rq_action_profile_version := action_profile_version p;
     rq_action_policy_version := action_policy_version p;
     rq_tool_name := tool_name p; rq_tool_version := tool_version p;
     rq_arguments_sha256 := arguments_sha256 p; rq_target_sha256 := target_sha256 p;
     rq_precondition_sha256 := precondition_sha256 p; rq_requested_at := at_ |}.

Definition sample_completion (p : ActionPermit) (cid : string) (at_ : datetime)
  : PermitCompletionRequest :=
  {| cq_permit_id := permit_id p; cq_claim_id := cid;
     cq_claimed_permit_sha256 := canonical_sha256 p; cq_outcome := SUCCEEDED;
     cq_completed_at := at_ |}.

(** Runs a request and keeps the aggregate when it raises. *)
Definition apply_request (a : permit_aggregate) (r : permit_request) : permit_aggregate :=
  match evaluate_request a r with Ok m => extend_aggregate a m | Raise _ => a end.

Definition sample_issued : permit_aggregate :=
  match issued_aggregate sample_permit with
  | Ok a => a
  | Raise _ => {| ag_permit := sample_permit; ag_audit_events := [] |}
  end.
Definition sample_claimed : permit_aggregate :=
  apply_request sample_issued (Claim (sample_claim sample_permit "claim-1" 1500)).
Definition sample_replayed : permit_aggregate :=
  apply_request sample_claimed (Claim (sample_claim sample_permit "claim-2" 1600)).
Definition sample_completed : permit_aggregate :=
  apply_request sample_replayed
    (Complete (sample_completion (ag_permit sample_replayed) "claim-1" 1700)).

Lemma apply_request_step a r :
  is_ok (evaluate_request a r) = true → permit_step a (apply_request a r).
Proof.
  unfold apply_request. destruct (evaluate_request a r) eqn:H; [|done]. intros _.
  by apply permit_step_request with r.
Qed.

Lemma sample_run : rtc permit_step sample_issued sample_completed.
Proof.
  apply rtc_l with sample_claimed; [apply apply_request_step; vm_compute; reflexivity|].
  apply rtc_l with sample_replayed; [apply apply_request_step; vm_compute; reflexivity|].
  apply rtc_l with sample_completed; [apply apply_request_step; vm_compute; reflexivity|].
  apply rtc_refl.
Qed.

(** Claimed, replayed and completed: one grant, one settlement, four events. *)
Example sample_history :
  map ev_kind (ag_audit_events sample_completed)
  = [Audit_ISSUED; Audit_CLAIMED; Audit_BLOCKED; Audit_COMPLETED].
Proof. vm_compute. reflexivity. Qed.

Lemma permit_single_use_witness :
  length (claims_of (ag_audit_events sample_completed)) = 1%nat ∧
  length (settlements_of (ag_audit_events sample_completed)) = 1%nat.
Proof.
  destruct (permit_single_use sample_permit sample_issued sample_completed)
    as (Hc & Hs & _).
  - vm_compute. reflexivity.
  - vm_compute. reflexivity.
  - exact sample_run.
  - split; [rewrite Hc|rewrite Hs]; vm_compute; reflexivity.
Defined.

Lemma permit_request_total_witness :
  ∃ m, evaluate_request sample_issued
         (Claim (sample_claim sample_permit "claim-1" 1500)) = Ok m ∧
       validate_history (extend_aggregate sample_issued m) = Ok tt.
Proof. apply permit_request_total; vm_compute; reflexivity. Defined.

Lemma permit_claim_decision_witness :
  claim_admissible sample_permit (sample_claim sample_permit "claim-1" 1500) 1000.
Proof.
  destruct (evaluate_permit_claim sample_permit
    (sample_claim sample_permit "claim-1" 1500) 2 1000) as [m|e] eqn:Hm.
  - apply (permit_claim_decision _ _ _ _ _ Hm).
    revert Hm. vm_compute. intros Hm. injection Hm as <-. reflexivity.
  - exfalso. revert Hm. vm_compute. discriminate.
Defined.

Lemma permit_completion_decision_witness :
  state (ag_permit sample_claimed) = CLAIMED ∧
  exact_claim (ag_permit sample_claimed)
    (sample_completion (ag_permit sample_claimed) "claim-1" 1700) 1500 = true.
Proof.
  destruct (evaluate_permit_completion (ag_permit sample_claimed)
    (sample_completion (ag_permit sample_claimed) "claim-1" 1700) 3 1500)
    as [m|e] eqn:Hm.
  - apply (permit_completion_decision _ _ _ _ _ Hm).
    revert Hm. vm_compute. intros Hm. injection Hm as <-. reflexivity.
  - exfalso. revert Hm. vm_compute. discriminate.
Defined.

Lemma permit_run_edges_witness :
  rtc lifecycle_edge ISSUED COMPLETED ∧
  issued_copy (ag_permit sample_completed) = sample_permit.
Proof. exact (permit_run_edges _ _ sample_run). Defined.

Lemma history_determines_permit_witness :
  ag_permit sample_completed = ag_permit sample_completed.
Proof.
  apply (history_determines_permit _ _ (ag_audit_events sample_completed));
    vm_compute; reflexivity.
Defined.
