(* ===== verification/PermitCodec.v ===== *)
(** Permits and their audit history as stored contracts: the wire forms and the
    decoders of [ActionPermit] (reconcile/contracts/recovery.py),
    [PermitAuditEvent] (reconcile/persistence/permits.py) and
    [FirestoreActionPermitAggregate] (reconcile/hosted/firestore_permits.py),
    and their round trip.

    A decoder reads the fields in declaration order, refuses unknown ones and
    then runs the model validator.  [construct_...] is the constructor called
    with values: the same checks, on fields that are already typed. *)

From S2P Require Export Decoding PermitLifecycle.

#[local] Open Scope Z_scope.

(** ** Wire forms *)

Definition PERMIT_AUDIT_EVENT_VERSION : string := "reconcile/permit-audit-event/v1".
Definition FIRESTORE_ACTION_PERMIT_AGGREGATE_VERSION : string :=
  "reconcile/firestore-action-permit-aggregate/v1".

Definition PermitAuditKind_value (k : PermitAuditKind) : string :=
  match k with
  | Audit_ISSUED => "ISSUED" | Audit_BLOCKED => "BLOCKED" | Audit_CLAIMED => "CLAIMED"
  | Audit_COMPLETED => "COMPLETED" | Audit_REJECTED => "REJECTED"
  | Audit_EXPIRED => "EXPIRED" | Audit_OUTCOME_UNKNOWN => "OUTCOME_UNKNOWN"
  end.

Definition PermitDenialReason_value (r : PermitDenialReason) : string :=
  match r with
  | BINDING_MISMATCH => "BINDING_MISMATCH" | NON_MONOTONIC_TIME => "NON_MONOTONIC_TIME"
  | NOT_YET_VALID => "NOT_YET_VALID" | Denied_EXPIRED => "EXPIRED"
  | ALREADY_CLAIMED => "ALREADY_CLAIMED" | ALREADY_COMPLETED => "ALREADY_COMPLETED"
  end.

Definition audit_event_fields (time : datetime → string) (e : PermitAuditEvent)
  : json_object :=
  [("schema_version", JStr PERMIT_AUDIT_EVENT_VERSION);
   ("event_id", JStr (ev_event_id e));
   ("permit_id", JStr (ev_permit_id e));
   ("sequence", JInt (ev_sequence e));
   ("kind", JStr (PermitAuditKind_value (ev_kind e)));
   ("permit_revision", JInt (ev_permit_revision e));
   ("permit_sha256", JStr (ev_permit_sha256 e));
   ("occurred_at", JStr (time (ev_occurred_at e)));
   ("claim_id", to_json (ev_claim_id e));
   ("denial_reason", enum_json PermitDenialReason_value (ev_denial_reason e));
   ("completion_outcome",
     enum_json PermitCompletionOutcome_value (ev_completion_outcome e))].

#[export] Instance PermitAuditEvent_json : ToJson PermitAuditEvent := λ e,
  JObj (audit_event_fields datetime_text e).

Definition aggregate_fields (a : permit_aggregate) : json_object :=
  [("schema_version", JStr FIRESTORE_ACTION_PERMIT_AGGREGATE_VERSION);
   ("permit", to_json (ag_permit a));
   ("audit_events", to_json (ag_audit_events a))].

#[export] Instance permit_aggregate_json : ToJson permit_aggregate := λ a,
  JObj (aggregate_fields a).

(** ** Decoders *)

Section codec.
Context {rt : Runtime} {sec : Security} {tp : TimeParser}.

Definition permit_fields (time : datetime → string) (p : ActionPermit) : json_object :=
  permit_authority_fields time p ++ permit_presentation_fields time p
  ++ permit_lifecycle_fields time p.

Definition permit_field_names : list string :=
  ["schema_version"; "permit_id"; "certificate_id"; "certificate_sha256"; "chain_id";
   "source_node_id"; "target_node_id"; "semantic_action_sha256"; "action";
   "action_profile_version"; "action_policy_version"; "tool_name"; "tool_version";
   "arguments_sha256"; "target_sha256"; "precondition_sha256"; "issued_at"; "expires_at";
   "max_uses"; "state"; "revision"; "claim_id"; "claimed_at"; "completed_at";
   "completion_outcome"; "expired_at"].

Definition PermitCompletionOutcome_field : json → validation PermitCompletionOutcome :=
  enum_field PermitCompletionOutcome_value [SUCCEEDED; REJECTED; OUTCOME_UNKNOWN].

Definition read_permit (m : json_object) : validation ActionPermit :=
  after validate_lifecycle
    (Valid Build_ActionPermit
     <* required "schema_version" (version_field ACTION_PERMIT_VERSION) m
     <*> required "permit_id" identifier_field m
     <*> required "certificate_id" identifier_field m
     <*> required "certificate_sha256" digest_field m
     <*> required "chain_id" identifier_field m
     <*> required "source_node_id" identifier_field m
     <*> required "target_node_id" identifier_field m
     <*> required "semantic_action_sha256" digest_field m
     <*> required "action" (enum_field PermitAction_value [CONTINUE; RETRY]) m
     <*> required "action_profile_version" identifier_field m
     <*> required "action_policy_version" identifier_field m
     <*> required "tool_name" identifier_field m
     <*> required "tool_version" identifier_field m
     <*> required "arguments_sha256" digest_field m
     <*> required "target_sha256" digest_field m
     <*> required "precondition_sha256" digest_field m
     <*> required "issued_at" time_field m
     <*> required "expires_at" time_field m
     <* required "max_uses" one_field m
     <*> required "state"
           (enum_field ActionPermitState_value [ISSUED; CLAIMED; COMPLETED; EXPIRED]) m
     <*> required "revision" (int_field 0 int64_max) m
     <*> defaulted "claim_id" identifier_field m
     <*> defaulted "claimed_at" time_field m
     <*> defaulted "completed_at" time_field m
     <*> defaulted "completion_outcome" PermitCompletionOutcome_field m
     <*> defaulted "expired_at" time_field m
     <* only_fields permit_field_names m).

#[export] Instance ActionPermit_contract : Contract ActionPermit :=
  {| expected_version := ACTION_PERMIT_VERSION; validate_model := model_field read_permit |}.

Definition audit_event_field_names : list string :=
  ["schema_version"; "event_id"; "permit_id"; "sequence"; "kind"; "permit_revision";
   "permit_sha256"; "occurred_at"; "claim_id"; "denial_reason"; "completion_outcome"].

(** [PermitAuditEvent.validate_kind] *)
Definition validate_kind (e : PermitAuditEvent) : result py_error unit :=
  reject_if (negb (audit_fields_match e))
    (ValueError "permit audit fields do not match the event kind").

Definition read_audit_event (m : json_object) : validation PermitAuditEvent :=
  after validate_kind
    (Valid Build_PermitAuditEvent
     <* required "schema_version" (version_field PERMIT_AUDIT_EVENT_VERSION) m
     <*> required "event_id" identifier_field m
     <*> required "permit_id" identifier_field m
     <*> required "sequence" (int_field 1 int64_max) m
     <*> required "kind" (enum_field PermitAuditKind_value
           [Audit_ISSUED; Audit_BLOCKED; Audit_CLAIMED; Audit_COMPLETED;
            Audit_REJECTED; Audit_EXPIRED; Audit_OUTCOME_UNKNOWN]) m
     <*> required "permit_revision" (int_field 0 int64_max) m
     <*> required "permit_sha256" digest_field m
     <*> required "occurred_at" time_field m
     <*> defaulted "claim_id" identifier_field m
     <*> defaulted "denial_reason" (enum_field PermitDenialReason_value
           [BINDING_MISMATCH; NON_MONOTONIC_TIME; NOT_YET_VALID; Denied_EXPIRED;
            ALREADY_CLAIMED; ALREADY_COMPLETED]) m
     <*> defaulted "completion_outcome" PermitCompletionOutcome_field m
     <* only_fields audit_event_field_names m).

Definition read_aggregate (m : json_object) : validation permit_aggregate :=
  after (λ a, validate_permit_audit_history (ag_permit a) (ag_audit_events a))
    (Valid Build_permit_aggregate
     <* required "schema_version"
          (version_field FIRESTORE_ACTION_PERMIT_AGGREGATE_VERSION) m
     <*> required "permit" (model_field read_permit) m
     <*> required "audit_events" (tuple_field (model_field read_audit_event)) m
     <* only_fields ["schema_version"; "permit"; "audit_events"] m).

#[export] Instance permit_aggregate_contract : Contract permit_aggregate :=
  {| expected_version := FIRESTORE_ACTION_PERMIT_AGGREGATE_VERSION;
     validate_model := model_field read_aggregate |}.

(** ** Constructors *)

Definition passes {A} (check : A → result py_error unit) (a : A) : bool := is_ok (check a).
Definition passes_opt {A} (check : A → bool) (o : option A) : bool :=
  match o with Some a => check a | None => true end.

Definition permit_fields_valid (p : ActionPermit) : bool :=
  forallb (passes validate_Identifier)
    [permit_id p; certificate_id p; chain_id p; source_node_id p; target_node_id p;
     action_profile_version p; action_policy_version p; tool_name p; tool_version p]
  && forallb (passes validate_Sha256Digest)
    [certificate_sha256 p; semantic_action_sha256 p; arguments_sha256 p; target_sha256 p;
     precondition_sha256 p]
  && forallb representable [issued_at p; expires_at p]
  && in_range 0 (revision p) int64_max
  && passes_opt (passes validate_Identifier) (claim_id p)
  && forallb (passes_opt representable) [claimed_at p; completed_at p; expired_at p].

Definition construct_permit (p : ActionPermit) : result py_error unit :=
  reject_if (negb (permit_fields_valid p)) (ValueError "a permit field is invalid");;
  validate_lifecycle p.

Definition audit_event_fields_valid (e : PermitAuditEvent) : bool :=
  forallb (passes validate_Identifier) [ev_event_id e; ev_permit_id e]
  && in_range 1 (ev_sequence e) int64_max
  && in_range 0 (ev_permit_revision e) int64_max
  && passes validate_Sha256Digest (ev_permit_sha256 e)
  && representable (ev_occurred_at e)
  && passes_opt (passes validate_Identifier) (ev_claim_id e).

Definition construct_audit_event (e : PermitAuditEvent) : result py_error unit :=
  reject_if (negb (audit_event_fields_valid e)) (ValueError "an event field is invalid");;
  validate_kind e.

(** [FirestoreActionPermitAggregate(permit=..., audit_events=...)] *)
Definition construct_aggregate (a : permit_aggregate) : result py_error unit :=
  construct_permit (ag_permit a);;
  for_each construct_audit_event (ag_audit_events a);;
  validate_permit_audit_history (ag_permit a) (ag_audit_events a).

End codec.

(** * The stored form reads back *)

(** Lemmas that say a field reads back. *)
Create HintDb reads.

(** ** Text of the wire forms *)

Lemma ascii_valid (f : Ascii.ascii → bool) s :
  (∀ c, f c = true → utf8_lead (Ascii.N_of_ascii c) = Some (0%nat, (128, 191)%N)) →
  string_forallb f s = true → valid_utf8 s = true.
Proof.
  intros Hf. unfold valid_utf8. induction s as [|c s IH]; [done|].
  cbn. intros [Hc Hs]%andb_true_iff. rewrite (Hf c Hc). auto.
Qed.

Lemma zero_padded_valid w n : valid_utf8 (zero_padded w n) = true.
Proof.
  revert n. induction w as [|w IH]; intros n; [done|]. apply valid_app; [apply IH|].
  apply valid_pretty.
Qed.

Lemma datetime_text_valid t : valid_utf8 (datetime_text t) = true.
Proof.
  unfold datetime_text. destruct civil_from_days as [[y m] d].
  repeat first [apply zero_padded_valid | reflexivity | apply valid_app].
  destruct (Z.eqb _ 0); [done|]. apply valid_app; [done|apply zero_padded_valid].
Qed.

Section codec.
Context {rt : Runtime} {sec : Security} {tp : TimeParser} {tl : TimeParserLaws tp}.

Lemma identifier_valid s : validate_Identifier s = Ok tt → valid_utf8 s = true.
Proof.
  unfold validate_Identifier. intros H. inv_ok. bool_simpl.
  destruct s as [|c s]; [done|].
  assert (string_forallb is_identifier_char (String c s) = true) as Hs.
  { cbn in *. unfold is_identifier_char in *. bool_simpl.
    repeat match goal with H : is_alnum _ = true |- _ => rewrite H; clear H end. done. }
  revert Hs. apply ascii_valid. intros a. by destruct a as [[] [] [] [] [] [] [] []].
Qed.

Lemma digest_valid s : validate_Sha256Digest s = Ok tt → valid_utf8 s = true.
Proof.
  unfold validate_Sha256Digest. intros H. inv_ok. bool_simpl.
  match goal with Hs : string_forallb _ _ = true |- _ => revert Hs end.
  apply ascii_valid. intros a. by destruct a as [[] [] [] [] [] [] [] []].
Qed.

(** ** Leaves *)

Lemma passes_true {A} (check : A → result py_error unit) a :
  passes check a = true ↔ check a = Ok tt.
Proof. unfold passes. destruct (check a) as [[]|]; split; done. Qed.

Lemma option_text_reads check (o : option string) :
  passes_opt (passes check) o = true →
  nullable (text_field check) (reload (to_json o)) = Valid o.
Proof. destruct o as [s|]; cbn; [intros Hs%passes_true; by rewrite Hs|done]. Qed.

Definition time_option_json (time : datetime → string) (o : option datetime) : json :=
  match o with Some t => JStr (time t) | None => JNull end.

Lemma option_time_reads (o : option datetime) :
  passes_opt representable o = true →
  nullable time_field (reload (time_option_json datetime_text o)) = Valid o.
Proof.
  destruct o as [t|]; [|done]. intros Ht. cbn [passes_opt] in Ht.
  unfold time_option_json. cbn [reload nullable time_field].
  by rewrite parse_datetime_text.
Qed.

Lemma enum_reads {A} (value : A → string) members a :
  (∀ b c, value b = value c → b = c) → a ∈ members →
  enum_field value members (reload (JStr (value a))) = Valid a.
Proof.
  intros Hinj Ha. cbn. destruct (find _ members) as [b|] eqn:Hf.
  - apply find_some in Hf as [_ Hb%bool_decide_eq_true]. by rewrite (Hinj b a Hb).
  - rewrite list_elem_of_In in Ha. apply (find_none _ _ Hf) in Ha.
    by rewrite bool_decide_refl in Ha.
Qed.

Lemma option_enum_reads {A} (value : A → string) members (o : option A) :
  (∀ b c, value b = value c → b = c) → (∀ a, a ∈ members) →
  nullable (enum_field value members) (reload (enum_json value o)) = Valid o.
Proof.
  intros Hinj Ha. destruct o as [a|]; [|done].
  apply nullable_reads; [done|]. by apply enum_reads.
Qed.

End codec.

(** Enumerations: distinct members have distinct values. *)
Lemma PermitAction_value_inj b c : PermitAction_value b = PermitAction_value c → b = c.
Proof. by destruct b, c. Qed.
Lemma ActionPermitState_value_inj b c :
  ActionPermitState_value b = ActionPermitState_value c → b = c.
Proof. by destruct b, c. Qed.
Lemma PermitCompletionOutcome_value_inj b c :
  PermitCompletionOutcome_value b = PermitCompletionOutcome_value c → b = c.
Proof. by destruct b, c. Qed.
Lemma PermitAuditKind_value_inj b c :
  PermitAuditKind_value b = PermitAuditKind_value c → b = c.
Proof. by destruct b, c. Qed.
Lemma PermitDenialReason_value_inj b c :
  PermitDenialReason_value b = PermitDenialReason_value c → b = c.
Proof. by destruct b, c. Qed.

#[export] Hint Resolve PermitAction_value_inj ActionPermitState_value_inj
  PermitCompletionOutcome_value_inj PermitAuditKind_value_inj
  PermitDenialReason_value_inj : reads.
#[export] Hint Resolve int_reads option_text_reads option_time_reads : reads.

(** ** Objects *)

Ltac field_solve :=
  first [ by eauto with reads
        | apply text_reads; eassumption
        | apply time_reads; eassumption
        | apply enum_reads; [by eauto with reads|]; apply inb_true;
          match goal with |- inb (?f ?p) _ = true => by destruct (f p) end
        | apply option_enum_reads; [by eauto with reads|];
          let a := fresh in intros a; apply inb_true; by destruct a ].

(** Reads the fields of [reloaded m], whose keys differ by [Hn]. *)
Ltac read_fields Hn :=
  repeat match goal with
  | |- context [required ?name ?f (reloaded ?m)] =>
      let H := fresh in
      eassert (required name f (reloaded m) = Valid _) as H
        by (eapply (required_reloaded m Hn); [reflexivity|field_solve]);
      rewrite H; clear H
  | |- context [defaulted ?name ?f (reloaded ?m)] =>
      let H := fresh in
      eassert (defaulted name f (reloaded m) = Valid _) as H
        by (eapply (defaulted_reloaded m Hn); [reflexivity|field_solve]);
      rewrite H; clear H
  end.

Section reads.
Context {rt : Runtime} {sec : Security} {tp : TimeParser} {tl : TimeParserLaws tp}.

Lemma version_reads version : version_field version (reload (JStr version)) = Valid tt.
Proof. cbn. by rewrite bool_decide_refl. Qed.
#[local] Hint Resolve version_reads : reads.

Lemma permit_fields_names time p :
  map fst (permit_fields time p) ≡ₚ permit_field_names.
Proof. apply (bool_decide_eq_true_1 (_ ≡ₚ _)). vm_compute. reflexivity. Qed.

Lemma permit_fields_nodup time p : NoDup (map fst (permit_fields time p)).
Proof. rewrite permit_fields_names. apply has_dup_false. reflexivity. Qed.

Lemma read_permit_reloaded p :
  construct_permit p = Ok tt → read_permit (reloaded (permit_fields datetime_text p)) = Valid p.
Proof.
  intros [Hf Hl]%reject_then_ok. apply negb_false_iff in Hf.
  unfold permit_fields_valid in Hf. cbn [forallb] in Hf. bool_simpl.
  repeat match goal with H : passes _ _ = true |- _ => apply passes_true in H end.
  pose proof (permit_fields_nodup datetime_text p) as Hn.
  unfold read_permit, PermitCompletionOutcome_field. read_fields Hn.
  rewrite only_fields_reloaded; [|by apply subsetb_true; rewrite permit_fields_names].
  cbn [ap both keep after orb].
  match goal with |- context [validate_lifecycle ?q] => replace q with p by by destruct p end.
  by rewrite Hl.
Qed.


Lemma audit_event_names time e :
  map fst (audit_event_fields time e) = audit_event_field_names.
Proof. done. Qed.

Lemma audit_event_nodup time e : NoDup (map fst (audit_event_fields time e)).
Proof. rewrite audit_event_names. apply has_dup_false. reflexivity. Qed.

Lemma read_audit_event_reloaded e :
  construct_audit_event e = Ok tt →
  read_audit_event (reloaded (audit_event_fields datetime_text e)) = Valid e.
Proof.
  intros [Hf Hk]%reject_then_ok. apply negb_false_iff in Hf.
  unfold audit_event_fields_valid in Hf. cbn [forallb] in Hf. bool_simpl.
  repeat match goal with H : passes _ _ = true |- _ => apply passes_true in H end.
  pose proof (audit_event_nodup datetime_text e) as Hn.
  unfold read_audit_event, PermitCompletionOutcome_field. read_fields Hn.
  rewrite only_fields_reloaded; [|by rewrite audit_event_names; apply subsetb_true].
  cbn [ap both keep after orb].
  match goal with |- context [validate_kind ?q] => replace q with e by by destruct e end.
  by rewrite Hk.
Qed.

Lemma aggregate_names a :
  map fst (aggregate_fields a) = ["schema_version"; "permit"; "audit_events"].
Proof. done. Qed.

Lemma aggregate_nodup a : NoDup (map fst (aggregate_fields a)).
Proof. rewrite aggregate_names. apply has_dup_false. reflexivity. Qed.

Lemma permit_field_reads p :
  construct_permit p = Ok tt → model_field read_permit (reload (to_json p)) = Valid p.
Proof. apply read_permit_reloaded. Qed.

Lemma audit_events_field_reads l :
  Forall (λ e, construct_audit_event e = Ok tt) l →
  tuple_field (model_field read_audit_event) (reload (to_json l)) = Valid l.
Proof.
  intros Hl. cbn [to_json list_to_json reload tuple_field]. rewrite map_map.
  apply (traverse_reads _ (λ e, reload (to_json e))).
  eapply Forall_impl; [exact Hl|]. apply read_audit_event_reloaded.
Qed.

#[local] Hint Resolve permit_field_reads audit_events_field_reads : reads.

Lemma read_aggregate_reloaded a :
  construct_aggregate a = Ok tt → read_aggregate (reloaded (aggregate_fields a)) = Valid a.
Proof.
  intros H. unfold construct_aggregate in H. inv_ok.
  pose proof (aggregate_nodup a) as Hn. unfold read_aggregate. read_fields Hn.
  rewrite only_fields_reloaded; [|by rewrite aggregate_names; apply subsetb_true].
  cbn [ap both keep after orb].
  replace (Build_permit_aggregate _ _) with a by by destruct a. by rewrite H.
Qed.

(** ** Text the encoder accepts *)

#[local] Opaque datetime_text.

(** A value with 64-bit integers, no floats, distinct keys and valid text. *)
Definition sound_json (v : json) : bool := plain_json v && encodable v.

Lemma sound_text s : valid_utf8 s = true → sound_json (JStr s) = true.
Proof. intros Hs. exact Hs. Qed.

Lemma sound_array l : Forall (λ v, sound_json v = true) l → sound_json (JArr l) = true.
Proof.
  intros Hl. unfold sound_json in *. cbn. rewrite andb_true_iff, !forallb_forall.
  rewrite Forall_forall in Hl. setoid_rewrite <-list_elem_of_In.
  split; intros x Hx%Hl; by apply andb_true_iff in Hx as [].
Qed.

Lemma sound_object m :
  NoDup (map fst m) → Forall (λ k, valid_utf8 k = true) (map fst m) →
  Forall (λ v, sound_json v = true) (map snd m) → sound_json (JObj m) = true.
Proof.
  intros Hn Hk Hv. unfold sound_json in *. cbn.
  rewrite !andb_true_iff, bool_decide_eq_true, !forallb_forall.
  rewrite Forall_map, Forall_forall in Hk, Hv. setoid_rewrite <-list_elem_of_In.
  split_and!; [done| |]; intros x Hx; pose proof (Hk x Hx) as Hkx; pose proof (Hv x Hx) as Hvx;
    apply andb_true_iff in Hvx as []; [done|]. apply andb_true_iff; done.
Qed.

Lemma sound_int low z high : in_range low z high = true → - 2 ^ 63 <= low →
  high <= int64_max → sound_json (JInt z) = true.
Proof.
  intros Hz%in_range_true Hl Hh. unfold sound_json, plain_json, encodable.
  rewrite !andb_true_iff, !Z.leb_le. split; [lia|done].
Qed.

Lemma sound_identifier s : validate_Identifier s = Ok tt → sound_json (JStr s) = true.
Proof. apply identifier_valid. Qed.
Lemma sound_digest s : validate_Sha256Digest s = Ok tt → sound_json (JStr s) = true.
Proof. apply digest_valid. Qed.
Lemma sound_time t : sound_json (JStr (datetime_text t)) = true.
Proof. apply datetime_text_valid. Qed.
Lemma sound_option_text o :
  passes_opt (passes validate_Identifier) o = true → sound_json (to_json o) = true.
Proof. destruct o; [intros ?%passes_true; by apply sound_identifier|done]. Qed.
Lemma sound_option_time o : sound_json (time_option_json datetime_text o) = true.
Proof. destruct o; [apply sound_time|done]. Qed.
Lemma sound_enum {A} (value : A → string) o :
  (∀ a, valid_utf8 (value a) = true) → sound_json (enum_json value o) = true.
Proof. intros Hv. destruct o; [apply Hv|done]. Qed.

End reads.

(** The field's shape says which lemma applies. *)
Ltac sound_solve :=
  match goal with
  | |- sound_json (JStr (datetime_text _)) = true => apply sound_time
  | H : validate_Identifier ?s = Ok tt |- sound_json (JStr ?s) = true =>
      exact (sound_identifier s H)
  | H : validate_Sha256Digest ?s = Ok tt |- sound_json (JStr ?s) = true =>
      exact (sound_digest s H)
  | H : in_range _ ?z _ = true |- sound_json (JInt ?z) = true =>
      by apply (sound_int _ _ _ H)
  | H : passes_opt (passes validate_Identifier) ?o = true |- sound_json (to_json ?o) = true =>
      exact (sound_option_text o H)
  | |- sound_json (enum_json _ _) = true =>
      apply sound_enum; let a := fresh in intros a; by destruct a
  | |- sound_json (JStr (_ (?g ?p))) = true => by destruct (g p)
  | |- sound_json (match _ ?p with Some _ => _ | None => _ end) = true =>
      apply sound_option_time
  | |- _ => reflexivity
  end.

Section sounds.
Context {rt : Runtime} {sec : Security} {tp : TimeParser} {tl : TimeParserLaws tp}.

#[local] Opaque datetime_text.

Lemma sound_permit p : construct_permit p = Ok tt → sound_json (to_json p) = true.
Proof.
  intros [Hf _]%reject_then_ok. apply negb_false_iff in Hf.
  unfold permit_fields_valid in Hf. cbn [forallb] in Hf. bool_simpl.
  repeat match goal with H : passes _ _ = true |- _ => apply passes_true in H end.
  apply sound_object; [apply (permit_fields_nodup datetime_text)|by repeat constructor|].
  cbn [map app permit_authority_fields permit_presentation_fields permit_lifecycle_fields snd].
  repeat (apply Forall_cons; split); [..|by apply Forall_nil]; sound_solve.
Qed.


Lemma sound_audit_event e : construct_audit_event e = Ok tt → sound_json (to_json e) = true.
Proof.
  intros [Hf _]%reject_then_ok. apply negb_false_iff in Hf.
  unfold audit_event_fields_valid in Hf. cbn [forallb] in Hf. bool_simpl.
  repeat match goal with H : passes _ _ = true |- _ => apply passes_true in H end.
  apply sound_object; [apply (audit_event_nodup datetime_text)|by repeat constructor|].
  cbn [map audit_event_fields snd].
  repeat (apply Forall_cons; split); [..|by apply Forall_nil]; sound_solve.
Qed.

Lemma sound_aggregate a : construct_aggregate a = Ok tt → sound_json (to_json a) = true.
Proof.
  intros H. unfold construct_aggregate in H. inv_ok.
  apply sound_object; [apply aggregate_nodup|by repeat constructor|].
  cbn [map aggregate_fields snd].
  repeat (apply Forall_cons; split); [done|by apply sound_permit| |by apply Forall_nil].
  apply sound_array. rewrite Forall_map. eapply Forall_impl; [eassumption|].
  apply sound_audit_event.
Qed.

(** ** Round trips *)

Context {fp : FloatParser}.

(** The canonical bytes of a permit decode to that permit. *)
Lemma permit_decodes p :
  construct_permit p = Ok tt → decode_contract (canonical_json_bytes p) = Ok p.
Proof.
  intros Hp. pose proof (sound_permit p Hp) as [Hpl He]%andb_true_iff.
  eapply (decode_canonical p (permit_fields datetime_text p)); [done..|].
  by apply read_permit_reloaded.
Qed.

(** A stored aggregate decodes to the aggregate that was stored, its whole audit
    history included. *)
Lemma aggregate_decodes a :
  construct_aggregate a = Ok tt → decode_contract (canonical_json_bytes a) = Ok a.
Proof.
  intros Ha. pose proof (sound_aggregate a Ha) as [Hpl He]%andb_true_iff.
  eapply (decode_canonical a (aggregate_fields a)); [done..|].
  by apply read_aggregate_reloaded.
Qed.

End sounds.
