(* ===== verification/Evidence.v ===== *)
(** Normalized evidence and admission decisions
    (reconcile/contracts/evidence.py), with the model validators of both. *)

From S2P Require Export Common.

#[local] Open Scope Z_scope.

(** ** Data *)

Inductive EvidenceAuthority := TARGET_STATE | SUPPLEMENTARY | WEAK_AUTHORITY.
Inductive EffectAssertionState := ESTABLISHED | NOT_ESTABLISHED | UNVERIFIED.
Inductive OperationStatus :=
  | ACTIVE | UNRESOLVED | TERMINAL_COMMITTED | TERMINAL_NOT_COMMITTED.
Inductive EvidenceDisposition := ADMITTED | WEAK | REJECTED_EVIDENCE.
Inductive EvidenceReason :=
  | AUTHORITATIVE_EXACT_CORRELATION | AUTHORITATIVE_AFFIRMATIVE_NON_EXECUTION
  | AUTHORITATIVE_ACTIVE_STATUS | NON_AUTHORITATIVE_LOG_ONLY | NOT_FOUND_ABSENCE_ONLY
  | STALE_OBSERVATION | CORRELATION_MISMATCH | SCOPE_MISMATCH | UNSUPPORTED_CAPABILITY
  | MALFORMED_OBSERVATION | UNVERIFIABLE_AUTHORITY | CONFLICTING_AUTHORITY
  | BUDGET_EXHAUSTED | PROBE_TIMEOUT | RESULT_TOO_LARGE | DUPLICATE_CANDIDATES
  | CLOCK_AMBIGUITY | EXPECTED_EFFECT_MISMATCH.

#[export] Instance EvidenceAuthority_eq_dec : EqDecision EvidenceAuthority.
Proof. solve_decision. Defined.
#[export] Instance EffectAssertionState_eq_dec : EqDecision EffectAssertionState.
Proof. solve_decision. Defined.
#[export] Instance OperationStatus_eq_dec : EqDecision OperationStatus.
Proof. solve_decision. Defined.
#[export] Instance EvidenceDisposition_eq_dec : EqDecision EvidenceDisposition.
Proof. solve_decision. Defined.
#[export] Instance EvidenceReason_eq_dec : EqDecision EvidenceReason.
Proof. solve_decision. Defined.

Definition EvidenceAuthority_value (a : EvidenceAuthority) : string :=
  match a with
  | TARGET_STATE => "TARGET_STATE" | SUPPLEMENTARY => "SUPPLEMENTARY"
  | WEAK_AUTHORITY => "WEAK"
  end.
Definition EffectAssertionState_value (s : EffectAssertionState) : string :=
  match s with
  | ESTABLISHED => "ESTABLISHED" | NOT_ESTABLISHED => "NOT_ESTABLISHED"
  | UNVERIFIED => "UNVERIFIED"
  end.
Definition OperationStatus_value (s : OperationStatus) : string :=
  match s with
  | ACTIVE => "ACTIVE" | UNRESOLVED => "UNRESOLVED"
  | TERMINAL_COMMITTED => "TERMINAL_COMMITTED"
  | TERMINAL_NOT_COMMITTED => "TERMINAL_NOT_COMMITTED"
  end.
Definition EvidenceDisposition_value (d : EvidenceDisposition) : string :=
  match d with
  | ADMITTED => "ADMITTED" | WEAK => "WEAK" | REJECTED_EVIDENCE => "REJECTED"
  end.
Definition EvidenceReason_value (r : EvidenceReason) : string :=
  match r with
  | AUTHORITATIVE_EXACT_CORRELATION => "authoritative_exact_correlation"
  | AUTHORITATIVE_AFFIRMATIVE_NON_EXECUTION => "authoritative_affirmative_non_execution"
  | AUTHORITATIVE_ACTIVE_STATUS => "authoritative_active_status"
  | NON_AUTHORITATIVE_LOG_ONLY => "non_authoritative_log_only"
  | NOT_FOUND_ABSENCE_ONLY => "not_found_absence_only"
  | STALE_OBSERVATION => "stale_observation"
  | CORRELATION_MISMATCH => "correlation_mismatch"
  | SCOPE_MISMATCH => "scope_mismatch"
  | UNSUPPORTED_CAPABILITY => "unsupported_capability"
  | MALFORMED_OBSERVATION => "malformed_observation"
  | UNVERIFIABLE_AUTHORITY => "unverifiable_authority"
  | CONFLICTING_AUTHORITY => "conflicting_authority"
  | BUDGET_EXHAUSTED => "budget_exhausted"
  | PROBE_TIMEOUT => "probe_timeout"
  | RESULT_TOO_LARGE => "result_too_large"
  | DUPLICATE_CANDIDATES => "duplicate_candidates"
  | CLOCK_AMBIGUITY => "clock_ambiguity"
  | EXPECTED_EFFECT_MISMATCH => "expected_effect_mismatch"
  end.

Record EffectAssertion := {
  ea_effect_id : string;
  ea_state : EffectAssertionState;
}.

Record NormalizedEvidence := {
  ne_evidence_id : string;
  ne_capability_name : string;
  ne_capability_version : string;
  ne_target : TargetBinding;
  ne_provenance : EvidenceProvenance;
  ne_observed_at : datetime;
  ne_freshness : FreshnessWindow;
  ne_correlation : list (string * string);
  ne_authority : EvidenceAuthority;
  ne_authority_policy_version : string;
  ne_effect_assertions : list EffectAssertion;
  ne_operation_status : option OperationStatus;
  ne_raw_observation : RawObservationReference;
}.

Record EvidenceDecision := {
  ed_evidence_id : string;
  ed_disposition : EvidenceDisposition;
  ed_reason : EvidenceReason;
}.

#[export] Instance EffectAssertion_eq_dec : EqDecision EffectAssertion.
Proof. solve_decision. Defined.
#[export] Instance NormalizedEvidence_eq_dec : EqDecision NormalizedEvidence.
Proof. solve_decision. Defined.
#[export] Instance EvidenceDecision_eq_dec : EqDecision EvidenceDecision.
Proof. solve_decision. Defined.

(** ** Validators *)

Section validators.
Context {rt : Runtime} {sec : Security}.

Definition effect_ids (l : list EffectAssertion) : list string := map ea_effect_id l.
Definition assertion_states (l : list EffectAssertion) : list EffectAssertionState :=
  map ea_state l.

Definition validate_evidence_semantics (self : NormalizedEvidence)
  : result py_error unit :=
  reject_if (has_dup (effect_ids (ne_effect_assertions self)))
    (ValueError "effect assertions must have unique identifiers");;
  reject_sensitive_keys (text_map_json (ne_correlation self));;
  reject_sensitive_values (text_map_json (ne_correlation self));;
  reject_sensitive_values (JStr (ep_source_record (ne_provenance self)));;
  reject_if (negb (in_range (valid_from (ne_freshness self)) (ne_observed_at self)
                     (valid_until (ne_freshness self))))
    (ValueError "observation must fall inside its freshness window");;
  (if bool_decide (ne_authority self = TARGET_STATE) then Ok tt
   else
     reject_if (is_some (ne_operation_status self))
       (ValueError "non-target evidence cannot assert authoritative operation status");;
     reject_if (existsb (λ s, negb (bool_decide (s = UNVERIFIED)))
                  (assertion_states (ne_effect_assertions self)))
       (ValueError "non-target evidence cannot establish expected effects"));;
  reject_if (bool_decide (ne_operation_status self = Some TERMINAL_NOT_COMMITTED)
             && inb ESTABLISHED (assertion_states (ne_effect_assertions self)))
    (ValueError "terminal non-execution cannot coexist with an established effect").

Definition ADMITTED_REASONS : list EvidenceReason :=
  [AUTHORITATIVE_ACTIVE_STATUS; AUTHORITATIVE_AFFIRMATIVE_NON_EXECUTION;
   AUTHORITATIVE_EXACT_CORRELATION].
Definition WEAK_REASONS : list EvidenceReason :=
  [NON_AUTHORITATIVE_LOG_ONLY; NOT_FOUND_ABSENCE_ONLY].

Definition validate_reason_compatibility (self : EvidenceDecision)
  : result py_error unit :=
  let valid :=
    match ed_disposition self with
    | ADMITTED => inb (ed_reason self) ADMITTED_REASONS
    | WEAK => inb (ed_reason self) WEAK_REASONS
    | REJECTED_EVIDENCE => negb (inb (ed_reason self) (ADMITTED_REASONS ++ WEAK_REASONS))
    end in
  reject_if (negb valid) (ValueError "evidence reason is incompatible with disposition").

(** [NormalizedEvidence(...)] and [EvidenceDecision(...)]: the collection bounds
    and the model validator of the nested freshness window, then the model's own. *)
Definition model_validate_evidence (e : NormalizedEvidence)
  : result py_error NormalizedEvidence :=
  validate_TargetBinding (ne_target e);;
  validate_FreshnessWindow (ne_freshness e);;
  reject_if (32 <? length (ne_correlation e))%nat
    (ValueError "correlation has too many entries");;
  reject_if (64 <? length (ne_effect_assertions e))%nat
    (ValueError "effect assertions have too many entries");;
  reject_if (negb (in_range 0 (ro_byte_count (ne_raw_observation e)) int64_max))
    (ValueError "byte count is outside its range");;
  validate_evidence_semantics e;;
  Ok e.

Definition model_validate_decision (d : EvidenceDecision)
  : result py_error EvidenceDecision :=
  validate_reason_compatibility d;; Ok d.

Lemma model_validate_evidence_inv e e' :
  model_validate_evidence e = Ok e' →
  e' = e ∧ validate_evidence_semantics e = Ok tt ∧
  validate_FreshnessWindow (ne_freshness e) = Ok tt.
Proof. unfold model_validate_evidence. intros H. inv_ok. by subst. Qed.

Lemma model_validate_decision_inv d d' :
  model_validate_decision d = Ok d' → d' = d ∧ validate_reason_compatibility d = Ok tt.
Proof. unfold model_validate_decision. intros H. inv_ok. by subst. Qed.

(** What a validated evidence item guarantees. *)
Lemma evidence_semantics e :
  validate_evidence_semantics e = Ok tt →
  NoDup (effect_ids (ne_effect_assertions e)) ∧
  valid_from (ne_freshness e) ≤ ne_observed_at e ≤ valid_until (ne_freshness e) ∧
  (ne_authority e ≠ TARGET_STATE →
    ne_operation_status e = None ∧
    Forall (λ a, ea_state a = UNVERIFIED) (ne_effect_assertions e)) ∧
  (ne_operation_status e = Some TERMINAL_NOT_COMMITTED →
    ESTABLISHED ∉ assertion_states (ne_effect_assertions e)).
Proof.
  unfold validate_evidence_semantics. intros H. inv_ok. bool_simpl.
  rewrite has_dup_false, in_range_true in *. split_and!; try done; try lia.
  - intros Hne. match goal with Hx : (if _ then _ else _) = Ok _ |- _ =>
      rewrite bool_decide_eq_false_2 in Hx by done end.
    inv_ok. unfold is_some in *. rewrite ?negb_false_iff, ?is_none_true in *.
    split; [done|]. apply Forall_forall. intros a Ha.
    match goal with Hx : existsb _ _ = false |- _ => rename Hx into Hex end.
    destruct (decide (ea_state a = UNVERIFIED)) as [|Hbad]; [done|].
    assert (existsb (λ s, negb (bool_decide (s = UNVERIFIED)))
      (assertion_states (ne_effect_assertions e)) = true); [|congruence].
    apply existsb_exists. exists (ea_state a). split.
    + apply list_elem_of_In, list_elem_of_fmap. eauto.
    + by rewrite bool_decide_eq_false_2.
  - intros Hs. match goal with Hx : _ && _ = false |- _ =>
      rewrite bool_decide_eq_true_2 in Hx by done; by apply inb_false in Hx end.
Qed.

End validators.

(** ** Wire forms *)

#[export] Instance EffectAssertion_json : ToJson EffectAssertion := λ m, JObj
  [("effect_id", JStr (ea_effect_id m));
   ("state", JStr (EffectAssertionState_value (ea_state m)))].

#[export] Instance NormalizedEvidence_json : ToJson NormalizedEvidence := λ m, JObj
  [("schema_version", JStr "reconcile/normalized-evidence/v1");
   ("evidence_id", JStr (ne_evidence_id m));
   ("capability_name", JStr (ne_capability_name m));
   ("capability_version", JStr (ne_capability_version m));
   ("target", to_json (ne_target m));
   ("provenance", to_json (ne_provenance m));
   ("observed_at", time_json (ne_observed_at m));
   ("freshness", to_json (ne_freshness m));
   ("correlation", text_map_json (ne_correlation m));
   ("authority", JStr (EvidenceAuthority_value (ne_authority m)));
   ("authority_policy_version", JStr (ne_authority_policy_version m));
   ("effect_assertions", to_json (ne_effect_assertions m));
   ("operation_status", match ne_operation_status m with
      | Some s => JStr (OperationStatus_value s) | None => JNull end);
   ("raw_observation", to_json (ne_raw_observation m))].

#[export] Instance EvidenceDecision_json : ToJson EvidenceDecision := λ m, JObj
  [("schema_version", JStr "reconcile/evidence-decision/v1");
   ("evidence_id", JStr (ed_evidence_id m));
   ("disposition", JStr (EvidenceDisposition_value (ed_disposition m)));
   ("reason", JStr (EvidenceReason_value (ed_reason m)))].
