(* ===== verification/PyEqual.v ===== *)
(** Python's [==] on JSON values and on the contract models that hold them.

    Two dicts are equal when they have the same keys with equal values, in any
    order; an [int], a [bool] and a [float] are equal when their numbers are,
    so [1 == True] and [1 == 1.0].  Where the code compares models or
    arguments with [==] (reconcile/evidence/recovery_rules.py,
    reconcile/evidence/recovery_verification.py,
    reconcile/persistence/recovery_runs.py) the model uses these functions, not
    equality of the Rocq values. *)

From S2P Require Export Evidence.

#[local] Open Scope Z_scope.

(** A JSON number [m * 2 ^ e]. *)
Definition json_number (v : json) : option (Z * Z) :=
  match v with
  | JInt n => Some (n, 0)
  | JFloat (S754_zero _) => Some (0, 0)
  | JFloat (S754_finite s m e) => Some (if s then Z.neg m else Z.pos m, e)
  | _ => None
  end.

(** The number a value counts as; [bool] is a subclass of [int]. *)
Definition py_number (v : json) : option (Z * Z) :=
  match v with
  | JBool b => Some (Z.b2z b, 0)
  | _ => json_number v
  end.

Definition number_eqb (x y : Z * Z) : bool :=
  let e := Z.min x.2 y.2 in
  x.1 * 2 ^ (x.2 - e) =? y.1 * 2 ^ (y.2 - e).

Definition py_number_eqb (v w : json) : bool :=
  match py_number v, py_number w with
  | Some x, Some y => number_eqb x y
  | _, _ => match v, w with
            | JFloat (S754_infinity a), JFloat (S754_infinity b) => eqb a b
            | _, _ => false
            end
  end.

(** [v == w] *)
Fixpoint py_eqb (v w : json) : bool :=
  match v, w with
  | JNull, JNull => true
  | JStr a, JStr b => bool_decide (a = b)
  | JArr l, JArr k =>
      (fix items l k := match l, k with
        | [], [] => true
        | x :: l', y :: k' => py_eqb x y && items l' k'
        | _, _ => false
        end) l k
  | JObj m, JObj n =>
      (length m =? length n)%nat
      && (fix items m := match m with
           | [] => true
           | (key, x) :: m' =>
               match dict_get key n with Some y => py_eqb x y | None => false end
               && items m'
           end) m
  | (JBool _ | JInt _ | JFloat _), (JBool _ | JInt _ | JFloat _) => py_number_eqb v w
  | _, _ => false
  end.

Definition object_eqb (m n : json_object) : bool := py_eqb (JObj m) (JObj n).

(** [dict[str, str]] *)
Definition text_map_eqb (m n : list (string * string)) : bool :=
  (length m =? length n)%nat
  && forallb (λ e, bool_decide (dict_get e.1 n = Some e.2)) m.

Definition target_eqb (t u : TargetBinding) : bool :=
  bool_decide (tb_target_kind t = tb_target_kind u)
  && object_eqb (tb_scope t) (tb_scope u)
  && object_eqb (tb_resource t) (tb_resource u).

Definition evidence_eqb (e f : NormalizedEvidence) : bool :=
  bool_decide (ne_evidence_id e = ne_evidence_id f)
  && bool_decide (ne_capability_name e = ne_capability_name f)
  && bool_decide (ne_capability_version e = ne_capability_version f)
  && target_eqb (ne_target e) (ne_target f)
  && bool_decide (ne_provenance e = ne_provenance f)
  && bool_decide (ne_observed_at e = ne_observed_at f)
  && bool_decide (ne_freshness e = ne_freshness f)
  && text_map_eqb (ne_correlation e) (ne_correlation f)
  && bool_decide (ne_authority e = ne_authority f)
  && bool_decide (ne_authority_policy_version e = ne_authority_policy_version f)
  && bool_decide (ne_effect_assertions e = ne_effect_assertions f)
  && bool_decide (ne_operation_status e = ne_operation_status f)
  && bool_decide (ne_raw_observation e = ne_raw_observation f).

(** [tuple == tuple] *)
Fixpoint list_eqb {A} (f : A → A → bool) (l k : list A) : bool :=
  match l, k with
  | [], [] => true
  | x :: l', y :: k' => f x y && list_eqb f l' k'
  | _, _ => false
  end.

Example py_eqb_numbers :
  py_eqb (JInt 1) (JBool true) = true ∧
  py_eqb (JInt 3) (JFloat (S754_finite false 6 (-1))) = true ∧
  py_eqb (JInt 0) (JFloat (S754_zero true)) = true ∧
  py_eqb (JFloat S754_nan) (JFloat S754_nan) = false.
Proof. vm_compute. auto. Qed.

Example py_eqb_order :
  object_eqb [("a", JInt 1); ("b", JNull)] [("b", JNull); ("a", JBool true)] = true ∧
  object_eqb [("a", JInt 1)] [("a", JInt 1); ("b", JNull)] = false.
Proof. vm_compute. auto. Qed.

(** ** Facts *)

Lemma py_eqb_str s w : py_eqb (JStr s) w = true ↔ w = JStr s.
Proof.
  destruct w; cbn; try (split; congruence). rewrite bool_decide_eq_true.
  split; congruence.
Qed.

Lemma py_eqb_str_r s w : py_eqb w (JStr s) = true ↔ w = JStr s.
Proof.
  destruct w; cbn; try (split; congruence). rewrite bool_decide_eq_true.
  split; congruence.
Qed.

Lemma number_eqb_refl x : number_eqb x x = true.
Proof. apply Z.eqb_refl. Qed.

Lemma number_eqb_sym x y : number_eqb x y = number_eqb y x.
Proof. unfold number_eqb. rewrite (Z.min_comm x.2 y.2). apply Z.eqb_sym. Qed.

(** Equal dicts hold equal values under every key. *)
Lemma object_eqb_get m n key v :
  object_eqb m n = true → dict_get key m = Some v →
  ∃ w, dict_get key n = Some w ∧ py_eqb v w = true.
Proof.
  unfold object_eqb. cbn. intros [_ H]%andb_true_iff Hg%dict_get_elem.
  induction m as [|[k x] m IH]; [by apply not_elem_of_nil in Hg|].
  apply andb_true_iff in H as [Hx Hm]. apply elem_of_cons in Hg as [?|Hg].
  - simplify_eq. destruct (dict_get k n); [eauto|done].
  - auto.
Qed.

Lemma object_eqb_text m n key s :
  object_eqb m n = true → dict_get key m = Some (JStr s) →
  dict_get key n = Some (JStr s).
Proof.
  intros H Hg. destruct (object_eqb_get _ _ _ _ H Hg) as (w & Hw & Heq).
  apply py_eqb_str in Heq as ->. done.
Qed.

(** No NaN and no repeated key: what validated JSON is. *)
Fixpoint regular_json (v : json) : bool :=
  match v with
  | JFloat S754_nan => false
  | JArr l => (fix items l := match l with
      | [] => true | x :: l' => regular_json x && items l' end) l
  | JObj m =>
      bool_decide (NoDup (dict_keys m))
      && (fix items m := match m with
           | [] => true | (_, x) :: m' => regular_json x && items m' end) m
  | _ => true
  end.

Lemma py_eqb_refl v : regular_json v = true → py_eqb v v = true.
Proof.
  induction v as [|b|z|f|s|l IH|m IH] using json_ind'; intros Hv.
  - done.
  - destruct b; reflexivity.
  - apply number_eqb_refl.
  - destruct f; cbn in *; try done; [by destruct s|].
    unfold py_number_eqb. cbn. apply number_eqb_refl.
  - cbn. by apply bool_decide_eq_true.
  - cbn in *. induction IH as [|x l Hx _ IHl]; [done|].
    apply andb_true_iff in Hv as [? ?]. rewrite Hx by done. cbn. auto.
  - cbn in *. apply andb_true_iff in Hv as [Hnd%bool_decide_eq_true Hv].
    rewrite Nat.eqb_refl. cbn.
    assert (∀ n, (∀ k v, (k, v) ∈ m → dict_get k n = Some v) →
      (fix items m := match m with
           | [] => true
           | (key, x) :: m' =>
               match dict_get key n with Some y => py_eqb x y | None => false end
               && items m'
           end) m = true) as Hgen.
    { intros n Hn. clear Hnd. induction IH as [|[k x] m Hx _ IHm]; [done|].
      apply andb_true_iff in Hv as [? ?].
      rewrite (Hn k x) by left. cbn in Hx. rewrite Hx by done. cbn.
      apply IHm; [done|]. intros k' v' Hin. apply Hn. by right. }
    apply Hgen. intros k v Hin. by apply dict_get_nodup.
Qed.

Lemma list_eqb_length {A} (f : A → A → bool) l k :
  list_eqb f l k = true → length l = length k.
Proof.
  revert k. induction l as [|x l IH]; intros [|y k]; cbn; try done.
  intros [_ H]%andb_true_iff. f_equal. auto.
Qed.

Lemma list_eqb_lookup {A} (f : A → A → bool) l k i x :
  list_eqb f l k = true → l !! i = Some x → ∃ y, k !! i = Some y ∧ f x y = true.
Proof.
  revert k i. induction l as [|a l IH]; intros [|y k] [|i]; cbn; try done.
  - intros [? _]%andb_true_iff ?. simplify_eq. eauto.
  - intros [_ ?]%andb_true_iff ?. eauto.
Qed.
