(* ===== verification/Envelope.v ===== *)
(** Execution envelopes, observation capabilities and probe requests
    (reconcile/contracts/envelope.py).

    JSON Schema 2020-12 is the jsonschema package's: [SchemaValidator] is what
    the program uses of it, an identifier, a schema check and an instance check
    with the strict integer and number types of reconcile/controller/executor.py. *)

From S2P Require Export PyEqual.

#[local] Open Scope Z_scope.

Class SchemaValidator := {
  META_SCHEMA_ID : string;
  check_schema : json → bool;
  schema_is_valid : json → json → bool;
}.

(** ** Data *)

Record ExpectedEffect := {
  ee_effect_id : string;
  ee_commit_scope : string;
  ee_predicate : json_object;
  ee_description : string;
}.

Record ExecutionEnvelope := {
  en_investigation_id : string;
  en_operation_id : string;
  en_target : TargetBinding;
  en_invoked_at : datetime;
  en_ambiguity : AmbiguousExecution;
  en_expected_effects : list ExpectedEffect;
  en_context : EnvelopeContext;
}.

Record ObservationCapability := {
  oc_name : string;
  oc_version : string;
  oc_argument_schema : json_object;
  oc_allowed_targets : list TargetConstraint;
  oc_timeout_ms : Z;
  oc_result_byte_ceiling : Z;
  oc_cost_units : Z;
}.

Record ProbeRequest := {
  pr_capability_name : string;
  pr_capability_version : string;
  pr_relevant_effect_ids : list string;
  pr_arguments : json_object;
  pr_rationale : string;
}.

(** ** Controller-owned names *)

Definition TARGET_COORDINATE_TOKENS : list string :=
  ["address"; "bucket"; "credential"; "credentials"; "database"; "document";
   "domain"; "endpoint"; "headers"; "header"; "host"; "hostname"; "method"; "object";
   "path"; "port"; "project"; "resource"; "scope"; "target"; "token"; "uri"; "url"].

Definition is_word (c : Ascii.ascii) : bool := is_lower c || is_digit c.

Definition underscore : Ascii.ascii := Ascii.ascii_of_nat 95.
Definition dollar : Ascii.ascii := Ascii.ascii_of_nat 36.

(** [re.sub(r"([a-z0-9])([A-Z])", r"\1_\2", key)]: an underscore between a
    lower-case letter or digit and a capital. *)
Fixpoint split_camel (key : string) : string :=
  match key with
  | String c (String d _ as rest) =>
      if is_word c && is_upper d then String c (String underscore (split_camel rest))
      else String c (split_camel rest)
  | _ => key
  end.

(** [[part for part in re.split(r"[^a-z0-9]+", words) if part]]; [part] is the
    word being read, in reverse. *)
Fixpoint split_words (words : string) (part : list Ascii.ascii) : list string :=
  let flush := match part with
    | [] => [] | _ => [String.string_of_list_ascii (rev part)] end in
  match words with
  | EmptyString => flush
  | String c rest =>
      if is_word c then split_words rest (c :: part) else flush ++ split_words rest []
  end.

Section validators.
Context {rt : Runtime} {sec : Security}.

Definition key_words (key : string) : list string :=
  split_words (str_lower (split_camel key)) [].

(** [_iter_object_keys] *)
Fixpoint iter_object_keys (value : json) : list string :=
  match value with
  | JObj m =>
      (fix items m := match m with
        | [] => []
        | (key, item) :: m' => key_words key ++ iter_object_keys item ++ items m'
        end) m
  | JArr l =>
      (fix items l := match l with
        | [] => []
        | item :: l' => iter_object_keys item ++ items l'
        end) l
  | _ => []
  end.

(** [_reject_target_coordinates]; the message lists the offending words. *)
Definition reject_target_coordinates (value : json) : result py_error unit :=
  let forbidden :=
    filter (λ t, t ∈ iter_object_keys value) TARGET_COORDINATE_TOKENS in
  reject_if (negb (bool_decide (forbidden = [])))
    (ValueError ("target coordinates are controller-owned: "
                 +:+ String.concat ", " (sorted_strings forbidden))).

Definition starts_with_dollar (key : string) : bool :=
  match key with String c _ => bool_decide (c = dollar) | EmptyString => false end.

(** [_reject_schema_indirection] *)
Fixpoint reject_schema_indirection (root : bool) (value : json) : result py_error unit :=
  match value with
  | JObj m =>
      (fix items m := match m with
        | [] => Ok tt
        | (key, item) :: m' =>
            reject_if (starts_with_dollar key
                       && (negb (bool_decide (key = "$schema")) || negb root))
              (ValueError "capability argument schemas cannot use indirection");;
            reject_schema_indirection false item;;
            items m'
        end) m
  | JArr l =>
      (fix items l := match l with
        | [] => Ok tt
        | item :: l' => reject_schema_indirection false item;; items l'
        end) l
  | _ => Ok tt
  end.

(** ** Validators *)

Definition validate_ExpectedEffect (self : ExpectedEffect) : result py_error unit :=
  reject_sensitive_keys (JObj (ee_predicate self));;
  reject_sensitive_values (JObj (ee_predicate self));;
  reject_sensitive_values (JStr (ee_description self)).

Definition expected_effect_ids (self : ExecutionEnvelope) : list string :=
  map ee_effect_id (en_expected_effects self).

(** [ExecutionEnvelope.validate_effect_identity] with the field bounds. *)
Definition validate_effect_identity (self : ExecutionEnvelope) : result py_error unit :=
  reject_if (negb (in_range 1 (Z.of_nat (length (en_expected_effects self))) 64))
    (ValueError "expected effects are outside their bounds");;
  reject_if (has_dup (expected_effect_ids self))
    (ValueError "expected effect identifiers must be unique").

(** Re-validation of a whole envelope ([ExecutionEnvelope.model_validate]):
    the validators of its parts, then its own. *)
Definition validate_EnvelopeContext (self : EnvelopeContext) : result py_error unit :=
  validate_arguments_digest (ec_invocation self);;
  reject_if (negb (in_range 1 (Z.of_nat (length (enabled_capabilities self))) 64))
    (ValueError "enabled capabilities are outside their bounds");;
  validate_text_map (correlation_fields self);;
  reject_if (negb (valid_EvidenceBudget (evidence_budget self)))
    (ValueError "evidence budget is outside its bounds");;
  reject_if (negb (valid_FreshnessPolicy (ec_freshness self)))
    (ValueError "freshness policy is outside its bounds");;
  validate_capability_identity self.

Definition validate_ExecutionEnvelope (self : ExecutionEnvelope) : result py_error unit :=
  validate_Identifier (en_investigation_id self);;
  validate_Identifier (en_operation_id self);;
  validate_TargetBinding (en_target self);;
  validate_AmbiguousExecution (en_ambiguity self);;
  for_each validate_ExpectedEffect (en_expected_effects self);;
  validate_EnvelopeContext (en_context self);;
  validate_effect_identity self.

Lemma valid_envelope env :
  validate_ExecutionEnvelope env = Ok tt →
  NoDup (expected_effect_ids env) ∧ (1 ≤ length (en_expected_effects env) ≤ 64)%nat ∧
  validate_Identifier (en_investigation_id env) = Ok tt ∧
  validate_text_map (correlation_fields (en_context env)) = Ok tt ∧
  valid_EvidenceBudget (evidence_budget (en_context env)) = true ∧
  valid_FreshnessPolicy (ec_freshness (en_context env)) = true.
Proof.
  unfold validate_ExecutionEnvelope, validate_EnvelopeContext. intros H. inv_ok. bool_simpl.
  match goal with Hx : validate_effect_identity _ = Ok _ |- _ =>
    unfold validate_effect_identity in Hx end. inv_ok. bool_simpl.
  rewrite has_dup_false, in_range_true in *. split_and!; try done; lia.
Qed.

Context {sv : SchemaValidator}.

Definition target_keys (l : list TargetConstraint)
  : result py_error (list (string * string)) :=
  fold_result (λ keys target,
    scope ← canonical_json_value_bytes (JObj (tc_scope target));
    Ok (keys ++ [(tc_target_kind target, scope)])) [] l.

Definition validate_descriptor (self : ObservationCapability) : result py_error unit :=
  let schema := oc_argument_schema self in
  reject_if (negb (bool_decide (dict_get "type" schema = Some (JStr "object"))))
    (ValueError "capability argument schema must describe an object");;
  reject_if
    (negb (bool_decide (dict_get "additionalProperties" schema = Some (JBool false))))
    (ValueError "capability argument schema must reject extra properties");;
  reject_if (negb (bool_decide (dict_get "$schema" schema = Some (JStr META_SCHEMA_ID))))
    (ValueError "capability argument schema must declare JSON Schema 2020-12");;
  reject_if (negb (check_schema (JObj schema)))
    (ValueError "capability argument schema is invalid");;
  reject_schema_indirection true (JObj schema);;
  reject_sensitive_keys (JObj schema);;
  reject_target_coordinates (JObj schema);;
  keys ← target_keys (oc_allowed_targets self);
  reject_if (has_dup keys) (ValueError "allowed target constraints must be unique").

(** The field bounds of [ObservationCapability], then its validator. *)
Definition valid_capability_bounds (self : ObservationCapability) : bool :=
  in_range 1 (Z.of_nat (length (oc_allowed_targets self))) 32
  && in_range 1 (oc_timeout_ms self) int64_max
  && in_range 1 (oc_result_byte_ceiling self) int64_max
  && in_range 1 (oc_cost_units self) int64_max.

Definition validate_ObservationCapability (self : ObservationCapability)
  : result py_error unit :=
  reject_if (negb (valid_capability_bounds self))
    (ValueError "capability field is outside its bounds");;
  for_each validate_TargetConstraint (oc_allowed_targets self);;
  validate_descriptor self.

(** [ProbeRequest.validate_request] after its field validators. *)
Definition validate_request (self : ProbeRequest) : result py_error unit :=
  reject_if (negb (in_range 1 (Z.of_nat (length (pr_relevant_effect_ids self))) 64))
    (ValueError "relevant effect identifiers are outside their bounds");;
  reject_if (64 <? length (pr_arguments self))%nat
    (ValueError "arguments have too many entries");;
  validate_json 0 (JObj (pr_arguments self));;
  reject_if (has_dup (pr_relevant_effect_ids self))
    (ValueError "relevant effect identifiers must be unique");;
  reject_sensitive_keys (JObj (pr_arguments self));;
  reject_sensitive_values (JObj (pr_arguments self));;
  reject_target_coordinates (JObj (pr_arguments self)).

End validators.

(** ** Wire forms *)

#[export] Instance ExpectedEffect_json : ToJson ExpectedEffect := λ m, JObj
  [("schema_version", JStr "reconcile/expected-effect/v1");
   ("effect_id", JStr (ee_effect_id m));
   ("commit_scope", JStr (ee_commit_scope m));
   ("predicate", JObj (ee_predicate m));
   ("description", JStr (ee_description m))].

#[export] Instance ExecutionEnvelope_json : ToJson ExecutionEnvelope := λ m, JObj
  [("schema_version", JStr "reconcile/execution-envelope/v1");
   ("investigation_id", JStr (en_investigation_id m));
   ("operation_id", JStr (en_operation_id m));
   ("target", to_json (en_target m));
   ("invoked_at", time_json (en_invoked_at m));
   ("ambiguity", to_json (en_ambiguity m));
   ("expected_effects", to_json (en_expected_effects m));
   ("context", to_json (en_context m))].

#[export] Instance ProbeRequest_json : ToJson ProbeRequest := λ m, JObj
  [("schema_version", JStr "reconcile/probe-request/v1");
   ("capability_name", JStr (pr_capability_name m));
   ("capability_version", JStr (pr_capability_version m));
   ("relevant_effect_ids", to_json (pr_relevant_effect_ids m));
   ("arguments", JObj (pr_arguments m)); ("rationale", JStr (pr_rationale m))].
