(* ===== verification/Capabilities.v ===== *)
(** Observation capabilities as the controller registers them
    (reconcile/controller/capabilities.py): bound probes, observations, the
    closed argument-schema profile, registrations and their registry.

    A handler is an asynchronous Python callable the program is given; it is an
    element of the type [H], and only its presence matters here. *)

From S2P Require Export Envelope.

Inductive registry_error :=
  | RegistryFrozen
  | DuplicateRegistration.

#[export] Instance registry_error_eq_dec : EqDecision registry_error.
Proof. solve_decision. Defined.

(** The order of tuples of strings. *)
Fixpoint strings_leb (k j : list string) : bool :=
  match k, j with
  | [], _ => true
  | _ :: _, [] => false
  | a :: k', b :: j' =>
      if decide (a = b) then strings_leb k' j' else str_leb a b
  end.

Record registry (V : Type) := {
  registrations : list (list string * V);
  snapshot : option (list (list string * V));
}.
Arguments registrations {V} _.
Arguments snapshot {V} _.

Section registry.
Context {V : Type} (identity : V → list string).

Definition empty_registry : registry V := {| registrations := []; snapshot := None |}.

Definition is_frozen (r : registry V) : bool := is_some (snapshot r).

Definition register (r : registry V) (registration : V)
  : result registry_error (registry V) :=
  reject_if (is_frozen r) RegistryFrozen;;
  let key := identity registration in
  reject_if (is_some (dict_get key (registrations r))) DuplicateRegistration;;
  Ok {| registrations := dict_set key registration (registrations r);
        snapshot := snapshot r |}.

(** [if self._snapshot is None: self._snapshot = MappingProxyType(dict(...))] *)
Definition seal (r : registry V) : registry V :=
  {| registrations := registrations r;
     snapshot := match snapshot r with
                 | Some s => Some s | None => Some (registrations r) end |}.

Definition snapshot_of (r : registry V) : list (list string * V) :=
  match snapshot r with Some s => s | None => registrations r end.

Definition entry_le (x y : list string * V) : Prop := strings_leb x.1 y.1 = true.
#[local] Instance entry_le_dec x y : Decision (entry_le x y).
Proof. unfold entry_le. apply _. Defined.

Definition freeze (r : registry V) : registry V * list V :=
  (seal r, (merge_sort entry_le (snapshot_of r)).*2).

Definition resolve (r : registry V) (key : list string) : registry V * option V :=
  (seal r, dict_get key (snapshot_of r)).

(** One call on the registry. *)
Inductive registry_step : registry V → registry V → Prop :=
  | step_register r v r' : register r v = Ok r' → registry_step r r'
  | step_freeze r : registry_step r (freeze r).1
  | step_resolve r k : registry_step r (resolve r k).1.

(** A registry whose snapshot, once taken, is its dict, and whose entries are
    filed under their own key. *)
Definition registry_wf (r : registry V) : Prop :=
  (∀ s, snapshot r = Some s → s = registrations r) ∧
  NoDup (dict_keys (registrations r)) ∧
  Forall (λ e, e.1 = identity e.2) (registrations r).

Lemma snapshot_of_wf r : registry_wf r → snapshot_of r = registrations r.
Proof.
  unfold snapshot_of. intros [Hs _]. destruct (snapshot r) eqn:E; [by apply Hs|done].
Qed.

Lemma seal_wf r : registry_wf r → registry_wf (seal r).
Proof.
  intros (Hs & Hn & Hk). split_and!; cbn; [|done|done].
  destruct (snapshot r) eqn:E; intros s Hs'; simplify_eq; auto.
Qed.

Lemma register_ok r v r' :
  register r v = Ok r' →
  snapshot r = None ∧ snapshot r' = None ∧ dict_get (identity v) (registrations r) = None ∧
  registrations r' = registrations r ++ [(identity v, v)].
Proof.
  unfold register, is_frozen. intros H. inv_ok. bool_simpl. subst. cbn. split_and!; auto.
  apply dict_set_fresh. intros [v0 ?]%dict_get_is_some. congruence.
Qed.

Lemma register_wf r v r' : registry_wf r → register r v = Ok r' → registry_wf r'.
Proof.
  intros (_ & Hn & Hk) (_ & Hs & Hget & Hr)%register_ok. split_and!.
  - intros s. by rewrite Hs.
  - rewrite Hr. unfold dict_keys. rewrite fmap_app. apply NoDup_app. split_and!; [done| |].
    + intros k Hin. cbn. rewrite list_elem_of_singleton. intros ->.
      apply dict_get_is_some in Hin. rewrite Hget in Hin. by destruct Hin.
    + apply NoDup_singleton.
  - rewrite Hr. apply Forall_app. split; [done|]. by repeat constructor.
Qed.

Lemma step_wf r r' : registry_wf r → registry_step r r' → registry_wf r'.
Proof.
  intros Hw Hs. revert Hw. destruct Hs; intros Hw.
  - by eapply register_wf.
  - by apply seal_wf.
  - by apply seal_wf.
Qed.

Lemma empty_wf : registry_wf empty_registry.
Proof. split_and!; [done|constructor|constructor]. Qed.

Lemma reachable_wf r : rtc registry_step empty_registry r → registry_wf r.
Proof.
  apply (rtc_invariant registry_step registry_wf); eauto using step_wf, empty_wf.
Qed.

(** A frozen registry only ever steps to itself. *)
Lemma frozen_step r r' : is_frozen r = true → registry_step r r' → r' = r.
Proof.
  unfold is_frozen, is_some. intros Hf Hs. revert Hf.
  destruct Hs as [r v r' Hr|r|r k]; intros Hf.
  - apply register_ok in Hr as [Hn _]. by rewrite Hn in Hf.
  - cbn. unfold seal. destruct r as [d [s|]]; done.
  - cbn. unfold seal. destruct r as [d [s|]]; done.
Qed.

Lemma frozen_run r r' : is_frozen r = true → rtc registry_step r r' → r' = r.
Proof.
  intros Hf Hrun. induction Hrun as [|x y z Hxy _ IH]; [done|].
  pose proof (frozen_step _ _ Hf Hxy) as ->. auto.
Qed.

(** What a lookup finds was registered under that key. *)
Lemma resolve_identity r k v :
  registry_wf r → (resolve r k).2 = Some v → identity v = k ∧ (k, v) ∈ registrations r.
Proof.
  intros Hw H. cbn in H. rewrite snapshot_of_wf in H by done.
  apply dict_get_elem in H. split; [|done].
  destruct Hw as (_ & _ & Hk). rewrite Forall_forall in Hk. by apply Hk in H.
Qed.

Lemma resolve_registered r v r' :
  registry_wf r → register r v = Ok r' → (resolve r' (identity v)).2 = Some v.
Proof.
  intros Hw Hr. pose proof (register_wf _ _ _ Hw Hr) as Hw'.
  cbn. rewrite snapshot_of_wf by done. apply dict_get_nodup; [apply Hw'|].
  apply register_ok in Hr as (_ & _ & _ & ->). apply elem_of_app. right. by left.
Qed.

End registry.

(** * Capabilities and probe requests *)

#[local] Open Scope Z_scope.

Inductive CapabilitySemantics := READ_ONLY | MUTATING | AMBIGUOUS.

#[export] Instance CapabilitySemantics_eq_dec : EqDecision CapabilitySemantics.
Proof. solve_decision. Defined.

Record BoundProbe := {
  bp_investigation_id : string;
  bp_operation_id : string;
  bp_capability_name : string;
  bp_capability_version : string;
  bp_target : TargetBinding;
  bp_relevant_effect_ids : list string;
  bp_arguments : json_object;
  bp_timeout_ms : Z;
  bp_result_byte_ceiling : Z;
}.

Record ProbeObservation := {
  po_observed_at : datetime;
  po_payload : json_object;
}.

#[export] Instance ProbeObservation_json : ToJson ProbeObservation := λ m, JObj
  [("observed_at", time_json (po_observed_at m)); ("payload", JObj (po_payload m))].

(** ** The closed schema profile *)

Definition outside_profile : py_error :=
  ValueError "capability argument schema is outside the closed profile".

Definition ROOT_SCHEMA_KEYS : list string :=
  ["$schema"; "additionalProperties"; "properties"; "required"; "type"].

Definition SCALAR_SCHEMA_KEYS (schema_type : string) : option (list string) :=
  if decide (schema_type = "boolean") then Some ["type"]
  else if decide (schema_type = "integer") then Some ["maximum"; "minimum"; "type"]
  else if decide (schema_type = "null") then Some ["type"]
  else if decide (schema_type = "number") then Some ["maximum"; "minimum"; "type"]
  else if decide (schema_type = "string") then Some ["maxLength"; "minLength"; "type"]
  else None.

Definition ARRAY_SCHEMA_KEYS : list string :=
  ["items"; "maxItems"; "minItems"; "type"; "uniqueItems"].

(** [schema.get(key)], where JSON null and a missing key are both [None]. *)
Definition get_or_null (key : string) (schema : json_object) : json :=
  match dict_get key schema with Some v => v | None => JNull end.

Definition validate_nonnegative_bound (schema : json_object) (key : string)
  (ceiling : Z) (required : bool) : result py_error Z :=
  let value := get_or_null key schema in
  if bool_decide (value = JNull) && negb required then Ok 0
  else match value with
       | JInt n => reject_if ((n <? 0) || (ceiling <? n)) outside_profile;; Ok n
       | _ => Raise outside_profile
       end.

Definition number_gtb (x y : Z * Z) : bool :=
  let e := Z.min x.2 y.2 in
  x.1 * 2 ^ (x.2 - e) >? y.1 * 2 ^ (y.2 - e).

Definition is_int (v : json) : bool := match v with JInt _ => true | _ => false end.

Definition validate_numeric_leaf (schema : json_object) (schema_type : string)
  : result py_error unit :=
  let minimum := get_or_null "minimum" schema in
  let maximum := get_or_null "maximum" schema in
  reject_if (bool_decide (schema_type = "integer")
             && negb (is_int minimum && is_int maximum)) outside_profile;;
  match json_number minimum, json_number maximum with
  | Some a, Some b => reject_if (number_gtb a b) outside_profile
  | _, _ => Raise outside_profile
  end.

Definition validate_scalar_schema (schema : json) (argument_byte_ceiling : Z)
  : result py_error unit :=
  match schema with
  | JObj m =>
      match get_or_null "type" m with
      | JStr schema_type =>
          match SCALAR_SCHEMA_KEYS schema_type with
          | None => Raise outside_profile
          | Some keys =>
              reject_if (negb (subsetb (dict_keys m) keys)) outside_profile;;
              if bool_decide (schema_type = "string") then
                minimum ← validate_nonnegative_bound m "minLength"
                  argument_byte_ceiling false;
                maximum ← validate_nonnegative_bound m "maxLength"
                  argument_byte_ceiling true;
                reject_if (maximum <? minimum) outside_profile
              else if bool_decide (schema_type = "integer")
                      || bool_decide (schema_type = "number")
              then validate_numeric_leaf m schema_type
              else Ok tt
          end
      | _ => Raise outside_profile
      end
  | _ => Raise outside_profile
  end.

Definition validate_property_schema (schema : json) (argument_byte_ceiling : Z)
  : result py_error unit :=
  match schema with
  | JObj m =>
      if negb (bool_decide (get_or_null "type" m = JStr "array"))
      then validate_scalar_schema schema argument_byte_ceiling
      else
        reject_if (negb (subsetb (dict_keys m) ARRAY_SCHEMA_KEYS)) outside_profile;;
        minimum ← validate_nonnegative_bound m "minItems" argument_byte_ceiling false;
        maximum ← validate_nonnegative_bound m "maxItems" argument_byte_ceiling true;
        reject_if ((maximum <? minimum)
                   || match dict_get "uniqueItems" m with
                      | None | Some (JBool _) => false
                      | Some _ => true end) outside_profile;;
        validate_scalar_schema (get_or_null "items" m) argument_byte_ceiling
  | _ => Raise outside_profile
  end.

(** The strings of a list, when all its items are. *)
Definition strings_of (l : list json) : option (list string) :=
  mapM (λ v, match v with JStr s => Some s | _ => None end) l.

Definition validate_closed_argument_schema (capability : ObservationCapability)
  (argument_byte_ceiling : Z) : result py_error unit :=
  let schema := oc_argument_schema capability in
  reject_if (negb (same_set (dict_keys schema) ROOT_SCHEMA_KEYS)) outside_profile;;
  reject_if (negb (bool_decide (get_or_null "type" schema = JStr "object"))
             || negb (bool_decide
                  (get_or_null "additionalProperties" schema = JBool false)))
    outside_profile;;
  match get_or_null "properties" schema, get_or_null "required" schema with
  | JObj properties, JArr required =>
      reject_if (64 <? length properties)%nat outside_profile;;
      match strings_of required with
      | None => Raise outside_profile
      | Some names =>
          reject_if (has_dup names || negb (subsetb names (dict_keys properties)))
            outside_profile;;
          for_each (λ p, validate_property_schema p.2 argument_byte_ceiling) properties
      end
  | _, _ => Raise outside_profile
  end.

(** ** Registrations *)

Record CapabilityRegistration (H : Type) := {
  rg_capability : ObservationCapability;
  rg_semantics : CapabilitySemantics;
  rg_enabled : bool;
  rg_argument_byte_ceiling : Z;
  rg_max_invocations : Z;
  rg_handler : option H;
}.
Arguments rg_capability {H} _.
Arguments rg_semantics {H} _.
Arguments rg_enabled {H} _.
Arguments rg_argument_byte_ceiling {H} _.
Arguments rg_max_invocations {H} _.
Arguments rg_handler {H} _.

Section registrations.
Context {rt : Runtime} {sec : Security} {sv : SchemaValidator} {H : Type}.

Definition rg_identity (r : CapabilityRegistration H) : list string :=
  [oc_name (rg_capability r); oc_version (rg_capability r)].

Definition rg_executable (r : CapabilityRegistration H) : bool :=
  rg_enabled r && bool_decide (rg_semantics r = READ_ONLY).

(** [CapabilityRegistration.__init__]; its last call re-validates the
    capability to encode it. *)
Definition make_registration (r : CapabilityRegistration H)
  : result py_error (CapabilityRegistration H) :=
  reject_if (negb (in_range 1 (rg_argument_byte_ceiling r) int64_max))
    (ValueError "argument byte ceiling must be a positive signed 64-bit integer");;
  reject_if (negb (in_range 1 (rg_max_invocations r) int64_max))
    (ValueError "maximum invocation count must be a positive signed 64-bit integer");;
  reject_if (rg_executable r && is_none (rg_handler r))
    (ValueError "enabled read-only capability requires an async handler");;
  reject_if (negb (rg_executable r) && is_some (rg_handler r))
    (ValueError "non-executable capability cannot store a handler");;
  validate_closed_argument_schema (rg_capability r) (rg_argument_byte_ceiling r);;
  validate_ObservationCapability (rg_capability r);;
  Ok r.

Definition CapabilityRegistry : Type := registry (CapabilityRegistration H).

(** [CapabilityRegistry.register], [freeze] and [resolve]. *)
Definition capability_register (r : CapabilityRegistry)
  (registration : CapabilityRegistration H) : result registry_error CapabilityRegistry :=
  register rg_identity r registration.

Definition capability_freeze (r : CapabilityRegistry)
  : CapabilityRegistry * list (CapabilityRegistration H) := freeze r.

Definition capability_resolve (r : CapabilityRegistry) (name version : string)
  : CapabilityRegistry * option (CapabilityRegistration H) := resolve r [name; version].

(** Only values the constructor accepted are registered. *)
Inductive capability_step : CapabilityRegistry → CapabilityRegistry → Prop :=
  | capability_step_register r v v' r' :
      make_registration v = Ok v' → capability_register r v' = Ok r' →
      capability_step r r'
  | capability_step_freeze r : capability_step r (capability_freeze r).1
  | capability_step_resolve r name version :
      capability_step r (capability_resolve r name version).1.

Definition capability_wf (r : CapabilityRegistry) : Prop :=
  registry_wf rg_identity r ∧
  Forall (λ e, make_registration e.2 = Ok e.2) (registrations r).

Lemma make_registration_inv r r' :
  make_registration r = Ok r' →
  r' = r ∧ (is_some (rg_handler r) = rg_executable r) ∧
  1 ≤ rg_argument_byte_ceiling r ∧ 1 ≤ rg_max_invocations r ∧
  validate_closed_argument_schema (rg_capability r) (rg_argument_byte_ceiling r) = Ok tt ∧
  validate_ObservationCapability (rg_capability r) = Ok tt.
Proof.
  unfold make_registration. intros Hm. inv_ok. subst.
  rewrite !negb_false_iff, !in_range_true in *. unfold is_some in *.
  destruct (rg_executable r'), (is_none (rg_handler r')); cbn in *; try done;
    split_and!; try done; lia.
Qed.

Lemma capability_step_wf r r' : capability_wf r → capability_step r r' → capability_wf r'.
Proof.
  intros [Hw Hv] Hs. revert Hw Hv. destruct Hs as [r v v' r' Hm Hr|r|r n w]; intros Hw Hv.
  - split; [by eapply register_wf|].
    apply register_ok in Hr as (_&_&_&->). apply Forall_app. split; [done|].
    apply Forall_singleton. cbn.
    pose proof (make_registration_inv _ _ Hm) as [-> _]. done.
  - split; [by apply seal_wf|done].
  - split; [by apply seal_wf|done].
Qed.

Lemma capability_reachable r :
  rtc capability_step empty_registry r → capability_wf r.
Proof.
  apply (rtc_invariant capability_step capability_wf); eauto using capability_step_wf.
  split; [apply empty_wf|constructor].
Qed.

Lemma capability_step_registry r r' : capability_step r r' → registry_step rg_identity r r'.
Proof. destruct 1; [by eapply step_register|constructor|constructor]. Qed.

Lemma resolve_registration r name version v :
  capability_wf r → (capability_resolve r name version).2 = Some v →
  rg_identity v = [name; version] ∧ make_registration v = Ok v.
Proof.
  intros [Hw Hv] Hr. apply (resolve_identity rg_identity) in Hr as [Hi Hin]; [|done].
  split; [done|]. rewrite Forall_forall in Hv. by apply Hv in Hin.
Qed.

(** The capability allowlist is sealed.  In any registry built by
    registering, freezing and resolving, a resolved registration carries the
    identity it was asked for and holds a handler exactly when it is enabled and
    read-only; and once the registry is frozen, no further call changes any
    answer and every registration is refused. *)
Lemma capability_registry_sealed r r' name version v :
  rtc capability_step empty_registry r → rtc capability_step r r' →
  (capability_resolve r' name version).2 = Some v →
  rg_identity v = [name; version] ∧
  (is_Some (rg_handler v) ↔ rg_enabled v = true ∧ rg_semantics v = READ_ONLY) ∧
  (is_frozen r = true →
    (capability_resolve r name version).2 = Some v ∧
    ∀ w, capability_register r' w = Raise RegistryFrozen).
Proof.
  intros Hr Hrun Hres.
  pose proof (capability_reachable r' (transitivity Hr Hrun)) as Hw.
  pose proof (resolve_registration _ _ _ _ Hw Hres) as [Hi Hm].
  apply make_registration_inv in Hm as (_ & Hh & _). split_and!; [done| |].
  - unfold is_some, rg_executable in Hh.
    rewrite <-(bool_decide_eq_true (rg_semantics v = READ_ONLY)), <-andb_true_iff, <-Hh.
    destruct (rg_handler v); cbn; split; done.
  - intros Hf. assert (r' = r) as ->.
    { apply (frozen_run rg_identity); [done|].
      eapply rtc_subrel; [|exact Hrun]. intros; by apply capability_step_registry. }
    split; [done|]. intros w. unfold capability_register, register. by rewrite Hf.
Qed.

End registrations.

(** [BoundProbe.validate_probe] and [ProbeObservation.validate_secret_free_payload]. *)
Section validators.
Context {rt : Runtime} {sec : Security}.

Definition validate_probe (self : BoundProbe) : result py_error unit :=
  reject_if (negb (in_range 1 (bp_timeout_ms self) int64_max)
             || negb (in_range 1 (bp_result_byte_ceiling self) int64_max))
    (ValueError "probe bounds are outside their range");;
  reject_if (has_dup (bp_relevant_effect_ids self))
    (ValueError "relevant effect identifiers must be unique");;
  reject_sensitive_keys (JObj (bp_arguments self));;
  reject_sensitive_values (JObj (bp_arguments self)).

(** With the payload's own field validator. *)
Definition validate_secret_free_payload (self : ProbeObservation) : result py_error unit :=
  validate_json 0 (JObj (po_payload self));;
  reject_sensitive_keys (JObj (po_payload self));;
  reject_sensitive_values (JObj (po_payload self)).

End validators.
