(* ===== verification/ProbeAudit.v ===== *)
(** Controller audit records and probe executions: the data of
    reconcile/controller/executor.py that the evidence pipeline reads, with
    [ProbeOutcome] of reconcile/contracts/report.py.

    The seal of [ProbeExecution] (only the controller constructs one) is not a
    value here: a theorem that needs it says which executions the controller
    returned.  The session token, a fresh Python object, is a number. *)

From S2P Require Export Capabilities.

#[local] Open Scope Z_scope.

Inductive ProbeOutcome :=
  | Probe_COMPLETED | Probe_REJECTED | Probe_TIMED_OUT | Probe_UNAVAILABLE
  | Probe_CANCELLED | Probe_MALFORMED | Probe_BUDGET_EXHAUSTED.

Inductive ProbeStopReason :=
  | Stop_PROBE_COMPLETED | Stop_INVALID_REQUEST | Stop_UNKNOWN_CAPABILITY
  | Stop_CAPABILITY_DISABLED | Stop_CAPABILITY_NOT_ENABLED | Stop_CAPABILITY_MUTATING
  | Stop_CAPABILITY_SEMANTICS_AMBIGUOUS | Stop_TARGET_KIND_MISMATCH
  | Stop_TARGET_SCOPE_MISMATCH | Stop_INVALID_EFFECT_REFERENCE | Stop_INVALID_ARGUMENTS
  | Stop_ARGUMENTS_TOO_LARGE | Stop_TARGET_PARAMETER_INJECTION | Stop_CORRELATION_MISMATCH
  | Stop_PROBE_COUNT_EXHAUSTED | Stop_CAPABILITY_PROBE_LIMIT_EXHAUSTED
  | Stop_COST_BUDGET_EXHAUSTED | Stop_ELAPSED_BUDGET_EXHAUSTED
  | Stop_TOTAL_RESULT_BYTES_EXHAUSTED | Stop_RESULT_TOO_LARGE | Stop_PROBE_TIMEOUT
  | Stop_PROBE_CANCELLED | Stop_CAPABILITY_UNAVAILABLE | Stop_MALFORMED_OBSERVATION.

#[export] Instance ProbeOutcome_eq_dec : EqDecision ProbeOutcome.
Proof. solve_decision. Defined.
#[export] Instance ProbeStopReason_eq_dec : EqDecision ProbeStopReason.
Proof. solve_decision. Defined.

Definition ProbeOutcome_value (o : ProbeOutcome) : string :=
  match o with
  | Probe_COMPLETED => "COMPLETED" | Probe_REJECTED => "REJECTED"
  | Probe_TIMED_OUT => "TIMED_OUT" | Probe_UNAVAILABLE => "UNAVAILABLE"
  | Probe_CANCELLED => "CANCELLED" | Probe_MALFORMED => "MALFORMED"
  | Probe_BUDGET_EXHAUSTED => "BUDGET_EXHAUSTED"
  end.

Definition ProbeStopReason_value (r : ProbeStopReason) : string :=
  match r with
  | Stop_PROBE_COMPLETED => "probe_completed"
  | Stop_INVALID_REQUEST => "invalid_request"
  | Stop_UNKNOWN_CAPABILITY => "unknown_capability"
  | Stop_CAPABILITY_DISABLED => "capability_disabled"
  | Stop_CAPABILITY_NOT_ENABLED => "capability_not_enabled"
  | Stop_CAPABILITY_MUTATING => "capability_mutating"
  | Stop_CAPABILITY_SEMANTICS_AMBIGUOUS => "capability_semantics_ambiguous"
  | Stop_TARGET_KIND_MISMATCH => "target_kind_mismatch"
  | Stop_TARGET_SCOPE_MISMATCH => "target_scope_mismatch"
  | Stop_INVALID_EFFECT_REFERENCE => "invalid_effect_reference"
  | Stop_INVALID_ARGUMENTS => "invalid_arguments"
  | Stop_ARGUMENTS_TOO_LARGE => "arguments_too_large"
  | Stop_TARGET_PARAMETER_INJECTION => "target_parameter_injection"
  | Stop_CORRELATION_MISMATCH => "correlation_mismatch"
  | Stop_PROBE_COUNT_EXHAUSTED => "probe_count_exhausted"
  | Stop_CAPABILITY_PROBE_LIMIT_EXHAUSTED => "capability_probe_limit_exhausted"
  | Stop_COST_BUDGET_EXHAUSTED => "cost_budget_exhausted"
  | Stop_ELAPSED_BUDGET_EXHAUSTED => "elapsed_budget_exhausted"
  | Stop_TOTAL_RESULT_BYTES_EXHAUSTED => "total_result_bytes_exhausted"
  | Stop_RESULT_TOO_LARGE => "result_too_large"
  | Stop_PROBE_TIMEOUT => "probe_timeout"
  | Stop_PROBE_CANCELLED => "probe_cancelled"
  | Stop_CAPABILITY_UNAVAILABLE => "capability_unavailable"
  | Stop_MALFORMED_OBSERVATION => "malformed_observation"
  end.

Definition TERMINAL_REASONS : list ProbeStopReason :=
  [Stop_PROBE_CANCELLED; Stop_PROBE_COUNT_EXHAUSTED; Stop_ELAPSED_BUDGET_EXHAUSTED;
   Stop_TOTAL_RESULT_BYTES_EXHAUSTED; Stop_PROBE_TIMEOUT].

Record ControllerAuditRecord := {
  ar_sequence : Z;
  ar_capability_name : option string;
  ar_capability_version : option string;
  ar_request_sha256 : option string;
  ar_target_sha256 : string;
  ar_outcome : ProbeOutcome;
  ar_stop_reason : ProbeStopReason;
  ar_started_at : datetime;
  ar_completed_at : datetime;
  ar_session_elapsed_ms : Z;
  ar_probe_count_used : Z;
  ar_cost_units_used : Z;
  ar_result_bytes_acquired : Z;
  ar_result_sha256 : option string;
  ar_result_byte_count : option Z;
}.

Record ValidatedObservation := {
  vo_canonical_json : string;
  vo_sha256 : string;
  vo_byte_count : Z;
}.

Record ProbeExecution := {
  px_envelope_sha256 : string;
  px_audit : ControllerAuditRecord;
  px_observation : option ValidatedObservation;
  px_controller_session : nat;
}.

#[export] Instance ControllerAuditRecord_eq_dec : EqDecision ControllerAuditRecord.
Proof. solve_decision. Defined.
#[export] Instance ValidatedObservation_eq_dec : EqDecision ValidatedObservation.
Proof. solve_decision. Defined.
#[export] Instance ProbeExecution_eq_dec : EqDecision ProbeExecution.
Proof. solve_decision. Defined.

#[export] Instance ControllerAuditRecord_json : ToJson ControllerAuditRecord := λ m, JObj
  [("sequence", JInt (ar_sequence m));
   ("capability_name", to_json (ar_capability_name m));
   ("capability_version", to_json (ar_capability_version m));
   ("request_sha256", to_json (ar_request_sha256 m));
   ("target_sha256", JStr (ar_target_sha256 m));
   ("outcome", JStr (ProbeOutcome_value (ar_outcome m)));
   ("stop_reason", JStr (ProbeStopReason_value (ar_stop_reason m)));
   ("started_at", time_json (ar_started_at m));
   ("completed_at", time_json (ar_completed_at m));
   ("session_elapsed_ms", JInt (ar_session_elapsed_ms m));
   ("probe_count_used", JInt (ar_probe_count_used m));
   ("cost_units_used", JInt (ar_cost_units_used m));
   ("result_bytes_acquired", JInt (ar_result_bytes_acquired m));
   ("result_sha256", to_json (ar_result_sha256 m));
   ("result_byte_count", to_json (ar_result_byte_count m))].

(** [ControllerAuditRecord.validate_timestamps] *)
Definition validate_timestamps (self : ControllerAuditRecord) : result py_error unit :=
  reject_if (ar_completed_at self <? ar_started_at self)
    (ValueError "audit completion cannot precede its start");;
  if bool_decide (ar_outcome self = Probe_COMPLETED) then
    reject_if (is_none (ar_capability_name self) || is_none (ar_capability_version self)
               || is_none (ar_request_sha256 self) || is_none (ar_result_sha256 self)
               || is_none (ar_result_byte_count self))
      (ValueError "completed probes require request, capability, and result identity")
  else
    reject_if (is_some (ar_result_sha256 self))
      (ValueError "rejected probe output cannot become an evidence digest").

(** [ControllerAuditRecord(...)]: the integer fields' ranges, then the validator. *)
Definition model_validate_audit (a : ControllerAuditRecord)
  : result py_error ControllerAuditRecord :=
  reject_if (negb (in_range 1 (ar_sequence a) int64_max
                   && in_range 0 (ar_session_elapsed_ms a) int64_max
                   && in_range 0 (ar_probe_count_used a) int64_max
                   && in_range 0 (ar_cost_units_used a) int64_max
                   && in_range 0 (ar_result_bytes_acquired a) int64_max
                   && match ar_result_byte_count a with
                      | Some n => in_range 0 n int64_max | None => true end))
    (ValueError "audit counter is outside its range");;
  validate_timestamps a;;
  Ok a.

(** [ProbeExecution.__init__] *)
Definition make_execution (envelope_sha256 : string) (audit : ControllerAuditRecord)
  (observation : option ValidatedObservation) (session : nat)
  : result py_error ProbeExecution :=
  reject_if (negb (eqb (bool_decide (ar_outcome audit = Probe_COMPLETED))
                     (is_some observation)))
    (ValueError "only completed probes may return an observation");;
  Ok {| px_envelope_sha256 := envelope_sha256; px_audit := audit;
        px_observation := observation; px_controller_session := session |}.

(** [ProbeObservation.model_validate_json]: pydantic's parse of an observation's
    wire text, with the model's validators. *)
Class ObservationDecoder := {
  decode_observation : string → result py_error ProbeObservation;
}.

Section runtime.
Context {rt : Runtime} {sec : Security}.

Definition probe_request_identity (request : ProbeRequest) : json :=
  JObj [("arguments", JObj (pr_arguments request));
        ("capability_name", JStr (pr_capability_name request));
        ("capability_version", JStr (pr_capability_version request));
        ("relevant_effect_ids",
          JArr (map JStr (sorted_strings (pr_relevant_effect_ids request))))].

(** [probe_request_sha256]: re-validates the request, then digests what it
    executes, without the rationale. *)
Definition probe_request_sha256 (request : ProbeRequest) : result py_error string :=
  validate_request request;;
  payload ← canonical_json_value_bytes (probe_request_identity request);
  Ok (sha256_hex payload).

End runtime.

Lemma model_validate_audit_inv a a' :
  model_validate_audit a = Ok a' →
  a' = a ∧ validate_timestamps a = Ok tt ∧ 1 ≤ ar_sequence a.
Proof.
  unfold model_validate_audit. intros H. inv_ok. bool_simpl. subst.
  rewrite in_range_true in *. split_and!; try done; lia.
Qed.

Lemma completed_audit a :
  validate_timestamps a = Ok tt → ar_outcome a = Probe_COMPLETED →
  is_Some (ar_capability_name a) ∧ is_Some (ar_capability_version a) ∧
  is_Some (ar_request_sha256 a) ∧ is_Some (ar_result_sha256 a) ∧
  is_Some (ar_result_byte_count a).
Proof.
  unfold validate_timestamps. intros H Ho. inv_ok.
  rewrite bool_decide_eq_true_2 in H by done. inv_ok. bool_simpl.
  unfold is_none in *. by repeat case_match.
Qed.
