(* ===== verification/Rules.v ===== *)
(** Target rules: what a provider rule may say about one observation
    (reconcile/evidence/rules.py), and the sealed registry of rules.

    A normalizer is synchronous Python code registered by the application; it is
    a function from the input it is given to what it returns or raises. *)

From S2P Require Export ProbeAudit.

#[local] Open Scope Z_scope.

Inductive RuleVerdict :=
  | AUTHORITATIVE_EFFECTS | AUTHORITATIVE_NON_EXECUTION | AUTHORITATIVE_PENDING
  | SUPPLEMENTARY_VERDICT | ABSENCE_ONLY.

#[export] Instance RuleVerdict_eq_dec : EqDecision RuleVerdict.
Proof. solve_decision. Defined.

Record TargetRuleDescriptor := {
  td_target_kind : string;
  td_capability_name : string;
  td_capability_version : string;
  td_authority_policy_version : string;
  td_classification_policy_version : string;
  td_source : string;
  td_adapter_version : string;
}.

Definition descriptor_key (d : TargetRuleDescriptor) : list string :=
  [td_target_kind d; td_capability_name d; td_capability_version d;
   td_authority_policy_version d; td_classification_policy_version d].

Record RuleObservation := {
  rob_target : TargetBinding;
  rob_source_record : string;
  rob_observed_at : datetime;
  rob_operation_id : option string;
  rob_correlation : list (string * string);
  rob_effect_assertions : list EffectAssertion;
  rob_operation_status : option OperationStatus;
  rob_verdict : RuleVerdict;
}.

Record RuleRequest := {
  rr_capability_name : string;
  rr_capability_version : string;
  rr_relevant_effect_ids : list string;
  rr_arguments : json_object;
}.

Record RuleInput := {
  ri_envelope : ExecutionEnvelope;
  ri_request : RuleRequest;
  ri_observation : string;
  ri_retrieved_at : datetime;
}.

(** What a normalizer does: return an observation, run
    [raise RuleRejected(reason)], or raise anything else. *)
Inductive rule_outcome :=
  | RuleReturned (observation : RuleObservation)
  | RuleRaised (reason : EvidenceReason)
  | RuleFailed.

Section validators.
Context {rt : Runtime} {sec : Security}.

Definition weak_states_only (states : list EffectAssertionState) : bool :=
  subsetb states [UNVERIFIED].

(** [RuleObservation.validate_verdict] *)
Definition validate_verdict (self : RuleObservation) : result py_error unit :=
  reject_sensitive_keys (text_map_json (rob_correlation self));;
  reject_sensitive_values (text_map_json (rob_correlation self));;
  reject_sensitive_values (JStr (rob_source_record self));;
  reject_if (has_dup (effect_ids (rob_effect_assertions self)))
    (ValueError "rule effect assertions must be unique");;
  let states := assertion_states (rob_effect_assertions self) in
  let status := rob_operation_status self in
  match rob_verdict self with
  | AUTHORITATIVE_EFFECTS =>
      reject_if (negb (inb ESTABLISHED states || inb NOT_ESTABLISHED states)
                 || negb (inb status [None; Some TERMINAL_COMMITTED]))
        (ValueError "authoritative effect verdict is inconsistent")
  | AUTHORITATIVE_NON_EXECUTION =>
      reject_if (negb (bool_decide (status = Some TERMINAL_NOT_COMMITTED))
                 || inb ESTABLISHED states)
        (ValueError "non-execution verdict requires terminal authority")
  | AUTHORITATIVE_PENDING =>
      reject_if (negb (inb status [Some ACTIVE; Some UNRESOLVED])
                 || inb NOT_ESTABLISHED states)
        (ValueError "pending verdict requires an active target status")
  | SUPPLEMENTARY_VERDICT | ABSENCE_ONLY =>
      reject_if (is_some status || negb (weak_states_only states))
        (ValueError "weak rule verdict cannot assert target state")
  end.

(** [RuleObservation.model_validate]: field constraints, then the validator. *)
Definition model_validate_rule_observation (o : RuleObservation)
  : result py_error RuleObservation :=
  validate_TargetBinding (rob_target o);;
  validate_NonEmptyText (rob_source_record o);;
  match rob_operation_id o with Some i => validate_Identifier i | None => Ok tt end;;
  validate_text_map (rob_correlation o);;
  reject_if (64 <? length (rob_effect_assertions o))%nat
    (ValueError "effect assertions have too many entries");;
  for_each (λ a, validate_Identifier (ea_effect_id a)) (rob_effect_assertions o);;
  validate_verdict o;;
  Ok o.

(** [RuleRequest(...)] *)
Definition make_rule_request (request : ProbeRequest) : result py_error RuleRequest :=
  let self := {| rr_capability_name := pr_capability_name request;
                 rr_capability_version := pr_capability_version request;
                 rr_relevant_effect_ids := pr_relevant_effect_ids request;
                 rr_arguments := pr_arguments request |} in
  reject_if (negb (in_range 1 (Z.of_nat (length (rr_relevant_effect_ids self))) 64))
    (ValueError "relevant effect identifiers are outside their bounds");;
  reject_if (64 <? length (rr_arguments self))%nat
    (ValueError "arguments have too many entries");;
  validate_json 0 (JObj (rr_arguments self));;
  reject_if (has_dup (rr_relevant_effect_ids self))
    (ValueError "relevant effect identifiers must be unique");;
  reject_sensitive_keys (JObj (rr_arguments self));;
  reject_sensitive_values (JObj (rr_arguments self));;
  Ok self.

(** [RuleInput(...)] *)
Definition make_rule_input (envelope : ExecutionEnvelope) (request : ProbeRequest)
  (observation : string) (retrieved_at : datetime) : result py_error RuleInput :=
  deterministic_request ← make_rule_request request;
  Ok {| ri_envelope := envelope; ri_request := deterministic_request;
        ri_observation := observation; ri_retrieved_at := retrieved_at |}.

End validators.

(** [RuleRejected._ALLOWED_REASONS] *)
Definition ALLOWED_REJECTIONS : list EvidenceReason :=
  [DUPLICATE_CANDIDATES; EXPECTED_EFFECT_MISMATCH; MALFORMED_OBSERVATION;
   UNVERIFIABLE_AUTHORITY].

(** The reason the pipeline records when a rule raises: constructing a
    [RuleRejected] with another reason raises a [ValueError] instead. *)
Definition rule_rejection (reason : EvidenceReason) : EvidenceReason :=
  if inb reason ALLOWED_REJECTIONS then reason else MALFORMED_OBSERVATION.

(** ** Registrations *)

Record TargetRuleRegistration := {
  tr_descriptor : TargetRuleDescriptor;
  tr_normalizer : RuleInput → rule_outcome;
}.

Definition rule_key (r : TargetRuleRegistration) : list string :=
  descriptor_key (tr_descriptor r).

Definition TargetRuleRegistry : Type := registry TargetRuleRegistration.

(** [TargetRuleRegistry.register], [freeze] and [resolve]. *)
Definition rule_register (r : TargetRuleRegistry) (registration : TargetRuleRegistration)
  : result registry_error TargetRuleRegistry := register rule_key r registration.

Definition rule_freeze (r : TargetRuleRegistry)
  : TargetRuleRegistry * list TargetRuleRegistration := freeze r.

Definition rule_resolve (r : TargetRuleRegistry) (key : list string)
  : TargetRuleRegistry * option TargetRuleRegistration := resolve r key.

(** ** What a verdict allows *)

Section facts.
Context {rt : Runtime} {sec : Security}.

(** The states and status a validated verdict leaves room for. *)
Definition verdict_status_ok (v : RuleVerdict) (s : option OperationStatus) : Prop :=
  match v with
  | AUTHORITATIVE_EFFECTS => s = None ∨ s = Some TERMINAL_COMMITTED
  | AUTHORITATIVE_NON_EXECUTION => s = Some TERMINAL_NOT_COMMITTED
  | AUTHORITATIVE_PENDING => s = Some ACTIVE ∨ s = Some UNRESOLVED
  | SUPPLEMENTARY_VERDICT | ABSENCE_ONLY => s = None
  end.

Lemma validate_verdict_status o :
  validate_verdict o = Ok tt → verdict_status_ok (rob_verdict o) (rob_operation_status o).
Proof.
  unfold validate_verdict. intros H. inv_ok.
  destruct (rob_verdict o); inv_ok; bool_simpl; cbn.
  - rewrite inb_true in *. set_solver.
  - done.
  - rewrite inb_true in *. set_solver.
  - done.
  - done.
Qed.

Lemma model_validate_rule_observation_inv o o' :
  model_validate_rule_observation o = Ok o' →
  o' = o ∧ validate_verdict o = Ok tt ∧ validate_text_map (rob_correlation o) = Ok tt ∧
  validate_TargetBinding (rob_target o) = Ok tt ∧
  (length (rob_effect_assertions o) ≤ 64)%nat.
Proof.
  unfold model_validate_rule_observation. intros H. inv_ok. bool_simpl. subst.
  split_and!; try done. apply Nat.ltb_ge. done.
Qed.

Lemma rule_rejection_not_admitting r :
  rule_rejection r ∉ ADMITTED_REASONS ++ WEAK_REASONS.
Proof. destruct r; vm_compute; set_solver. Qed.

End facts.
