(* ===== verification/Admission.v ===== *)
(** Normalization and admission of one bounded probe observation
    (reconcile/evidence/admission.py).

    [normalize] is [EvidencePipeline.normalize]: integrity of the execution,
    integrity of the observation, the target rule, the freshness window, the
    normalized evidence, then the admission checks in order.  The pipeline's
    state (next sequence number, controller session) is threaded explicitly,
    and moves even when the call raises. *)

From S2P Require Export Rules.

#[local] Open Scope Z_scope.

(** ** Calendar arithmetic of [datetime] and [timedelta] *)

Definition datetime_min : Z := - 62135596800 * second_us.
Definition datetime_max : Z := 253402300800 * second_us - 1.
Definition timedelta_max : Z := 1000000000 * day_us - 1.
Definition timedelta_min : Z := - 999999999 * day_us.

Definition check_timedelta (us : Z) : result py_error Z :=
  reject_if (negb (in_range timedelta_min us timedelta_max)) OverflowError;; Ok us.

(** [timedelta(seconds=n)] *)
Definition timedelta_seconds (n : Z) : result py_error Z := check_timedelta (n * second_us).

(** [value + delta] *)
Definition datetime_add (value : datetime) (delta : Z) : result py_error datetime :=
  reject_if (negb (in_range datetime_min (value + delta) datetime_max)) OverflowError;;
  Ok (value + delta).

(** ** Data *)

Record ProbeRun := { run_request : ProbeRequest; run_execution : ProbeExecution }.

Record EvidenceAttempt := {
  at_envelope_sha256 : string;
  at_controller_audit_sha256 : string;
  at_request_sha256 : option string;
  at_probe_sequence : Z;
  at_raw_sha256 : option string;
  at_evidence : option NormalizedEvidence;
  at_decision : EvidenceDecision;
}.

Record EvidencePipeline := {
  pl_envelope : ExecutionEnvelope;
  pl_registry : TargetRuleRegistry;
  pl_next_sequence : Z;
  pl_controller_session : option nat;
}.

#[export] Instance EvidenceAttempt_eq_dec : EqDecision EvidenceAttempt.
Proof. solve_decision. Defined.

Section admission.
Context {rt : Runtime} {sec : Security} {od : ObservationDecoder}.

(** [EvidenceAttempt.__init__] *)
Definition make_attempt (a : EvidenceAttempt) : result py_error EvidenceAttempt :=
  reject_if (at_probe_sequence a <? 1)
    (ValueError "evidence attempt sequence must be positive");;
  model_validate_decision (at_decision a);;
  match at_evidence a with
  | Some evidence =>
      model_validate_evidence evidence;;
      reject_if (negb (bool_decide (ne_evidence_id evidence = ed_evidence_id (at_decision a))))
        (ValueError "evidence attempt identifiers must agree")
  | None => Ok tt
  end;;
  Ok a.

Definition make_decision (evidence_id : string) (disposition : EvidenceDisposition)
  (reason : EvidenceReason) : result py_error EvidenceDecision :=
  model_validate_decision {| ed_evidence_id := evidence_id;
    ed_disposition := disposition; ed_reason := reason |}.

(** [EvidenceAttempt.reject_duplicate] *)
Definition reject_duplicate (a : EvidenceAttempt) : result py_error EvidenceAttempt :=
  decision ← make_decision (ed_evidence_id (at_decision a)) REJECTED_EVIDENCE
    DUPLICATE_CANDIDATES;
  make_attempt
    {| at_envelope_sha256 := at_envelope_sha256 a;
       at_controller_audit_sha256 := at_controller_audit_sha256 a;
       at_request_sha256 := at_request_sha256 a;
       at_probe_sequence := at_probe_sequence a;
       at_raw_sha256 := at_raw_sha256 a;
       at_evidence := at_evidence a;
       at_decision := decision |}.

(** ** The pipeline *)

(** [EvidencePipeline.__init__] *)
Definition new_pipeline (envelope : ExecutionEnvelope) (registry : TargetRuleRegistry)
  : EvidencePipeline :=
  {| pl_envelope := envelope; pl_registry := (rule_freeze registry).1;
     pl_next_sequence := 1; pl_controller_session := None |}.

Definition envelope_sha256 (p : EvidencePipeline) : string :=
  canonical_sha256 (pl_envelope p).
Definition target_sha256_of (p : EvidencePipeline) : string :=
  sha256_hex (canonical_json_bytes (en_target (pl_envelope p))).

Definition evidence_id_of (p : EvidencePipeline) (sequence : Z)
  (request_sha256 raw_sha256 : option string) (outcome : ProbeOutcome)
  : result py_error string :=
  payload ← canonical_json_value_bytes (JObj
    [("investigation_id", JStr (en_investigation_id (pl_envelope p)));
     ("outcome", JStr (ProbeOutcome_value outcome));
     ("probe_sequence", JInt sequence);
     ("raw_sha256", to_json raw_sha256);
     ("request_sha256", to_json request_sha256);
     ("target_sha256", JStr (target_sha256_of p))]);
  Ok ("evidence:" +:+ sha256_hex payload).

Definition rejected_attempt (p : EvidencePipeline) (audit : ControllerAuditRecord)
  (raw_sha256 : option string) (reason : EvidenceReason)
  (evidence : option NormalizedEvidence) : result py_error EvidenceAttempt :=
  evidence_id ← evidence_id_of p (ar_sequence audit) (ar_request_sha256 audit)
    raw_sha256 (ar_outcome audit);
  reject_if (match evidence with
             | Some e => negb (bool_decide (ne_evidence_id e = evidence_id))
             | None => false end)
    (ValueError "normalized evidence identifier is not deterministic");;
  decision ← make_decision evidence_id REJECTED_EVIDENCE reason;
  make_attempt
    {| at_envelope_sha256 := envelope_sha256 p;
       at_controller_audit_sha256 := canonical_sha256 audit;
       at_request_sha256 := ar_request_sha256 audit;
       at_probe_sequence := ar_sequence audit;
       at_raw_sha256 := raw_sha256;
       at_evidence := evidence;
       at_decision := decision |}.

(** [integrity_valid] *)
Definition integrity_valid (p : EvidencePipeline) (run : ProbeRun)
  (expected_request_sha256 : string) : bool :=
  let request := run_request run in
  let execution := run_execution run in
  let audit := px_audit execution in
  bool_decide (px_envelope_sha256 execution = envelope_sha256 p)
  && bool_decide (pl_controller_session p = Some (px_controller_session execution))
  && bool_decide (ar_target_sha256 audit = target_sha256_of p)
  && inb (ar_request_sha256 audit) [None; Some expected_request_sha256]
  && (is_none (ar_capability_name audit)
      || bool_decide (ar_capability_name audit = Some (pr_capability_name request)))
  && (is_none (ar_capability_version audit)
      || bool_decide (ar_capability_version audit = Some (pr_capability_version request))).

(** [_FAILED_PROBE_REASONS], with its default and the oversized result. *)
Definition failed_probe_reason (audit : ControllerAuditRecord) : EvidenceReason :=
  if bool_decide (ar_stop_reason audit = Stop_RESULT_TOO_LARGE) then RESULT_TOO_LARGE
  else match ar_outcome audit with
       | Probe_TIMED_OUT => PROBE_TIMEOUT
       | Probe_MALFORMED => MALFORMED_OBSERVATION
       | Probe_BUDGET_EXHAUSTED => BUDGET_EXHAUSTED
       | _ => UNVERIFIABLE_AUTHORITY
       end.

(** The recheck of a completed probe's observation against its audit. *)
Definition observation_intact (run : ProbeRun) (observation : ValidatedObservation)
  (expected_request_sha256 : string) : bool :=
  let request := run_request run in
  let audit := px_audit (run_execution run) in
  let text := vo_canonical_json observation in
  let canonical_observation :=
    match decode_observation text with
    | Ok parsed => canonical_json_bytes parsed
    | Raise _ => ""
    end in
  bool_decide (sha256_hex text = vo_sha256 observation)
  && (vo_byte_count observation =? Z.of_nat (String.length text))
  && bool_decide (canonical_observation = text)
  && bool_decide (ar_result_sha256 audit = Some (vo_sha256 observation))
  && bool_decide (ar_result_byte_count audit = Some (vo_byte_count observation))
  && bool_decide (ar_capability_name audit = Some (pr_capability_name request))
  && bool_decide (ar_capability_version audit = Some (pr_capability_version request))
  && bool_decide (ar_request_sha256 audit = Some expected_request_sha256).

Definition registry_key (p : EvidencePipeline) (request : ProbeRequest) : list string :=
  [tb_target_kind (en_target (pl_envelope p)); pr_capability_name request;
   pr_capability_version request; pr_authority (policies (en_context (pl_envelope p)));
   pr_classification (policies (en_context (pl_envelope p)))].

(** The call of the normalizer and the validation of what it returns: the
    observation, or the reason to record. *)
Definition apply_rule (p : EvidencePipeline) (request : ProbeRequest)
  (registration : TargetRuleRegistration) (observation : string)
  (retrieved_at : datetime) : RuleObservation + EvidenceReason :=
  match make_rule_input (pl_envelope p) request observation retrieved_at with
  | Raise _ => inr MALFORMED_OBSERVATION
  | Ok rule_input =>
      match tr_normalizer registration rule_input with
      | RuleReturned o =>
          match model_validate_rule_observation o with
          | Ok o' => inl o'
          | Raise _ => inr MALFORMED_OBSERVATION
          end
      | RuleRaised reason => inr (rule_rejection reason)
      | RuleFailed => inr MALFORMED_OBSERVATION
      end
  end.

(** The clock skew, the freshness horizon and the freshness window. *)
Definition freshness_of (p : EvidencePipeline) (observed_at : datetime)
  : result py_error (Z * Z * FreshnessWindow) :=
  let policy := ec_freshness (en_context (pl_envelope p)) in
  skew ← timedelta_seconds (clock_skew_seconds policy);
  max_age ← timedelta_seconds (max_age_seconds policy);
  freshness_horizon ← check_timedelta (max_age + skew);
  from ← datetime_add observed_at (- skew);
  until ← datetime_add observed_at freshness_horizon;
  let window := {| valid_from := from; valid_until := until |} in
  validate_FreshnessWindow window;;
  Ok (skew, freshness_horizon, window).

Definition verdict_authority (v : RuleVerdict) : EvidenceAuthority :=
  match v with
  | AUTHORITATIVE_EFFECTS | AUTHORITATIVE_NON_EXECUTION | AUTHORITATIVE_PENDING =>
      TARGET_STATE
  | SUPPLEMENTARY_VERDICT => SUPPLEMENTARY
  | ABSENCE_ONLY => WEAK_AUTHORITY
  end.

Definition verdict_decision (v : RuleVerdict) : EvidenceDisposition * EvidenceReason :=
  match v with
  | AUTHORITATIVE_EFFECTS => (ADMITTED, AUTHORITATIVE_EXACT_CORRELATION)
  | AUTHORITATIVE_NON_EXECUTION => (ADMITTED, AUTHORITATIVE_AFFIRMATIVE_NON_EXECUTION)
  | AUTHORITATIVE_PENDING => (ADMITTED, AUTHORITATIVE_ACTIVE_STATUS)
  | SUPPLEMENTARY_VERDICT => (WEAK, NON_AUTHORITATIVE_LOG_ONLY)
  | ABSENCE_ONLY => (WEAK, NOT_FOUND_ABSENCE_ONLY)
  end.

(** The [NormalizedEvidence(...)] the pipeline builds. *)
Definition normalized_evidence (descriptor : TargetRuleDescriptor)
  (request : ProbeRequest) (evidence_id raw_sha256 : string) (byte_count : Z)
  (retrieved_at : datetime) (freshness : FreshnessWindow) (o : RuleObservation)
  : NormalizedEvidence :=
  {| ne_evidence_id := evidence_id;
     ne_capability_name := pr_capability_name request;
     ne_capability_version := pr_capability_version request;
     ne_target := rob_target o;
     ne_provenance := {| ep_source := td_source descriptor;
       ep_source_record := rob_source_record o;
       ep_adapter_version := td_adapter_version descriptor;
       ep_retrieved_at := retrieved_at |};
     ne_observed_at := rob_observed_at o;
     ne_freshness := freshness;
     ne_correlation := rob_correlation o;
     ne_authority := verdict_authority (rob_verdict o);
     ne_authority_policy_version := td_authority_policy_version descriptor;
     ne_effect_assertions := rob_effect_assertions o;
     ne_operation_status := rob_operation_status o;
     ne_raw_observation := {| ro_sha256 := raw_sha256;
       ro_reference := "observation:" +:+ raw_sha256; ro_byte_count := byte_count |} |}.

(** [any(key not in correlation or ... != ... for key, expected in ...)] *)
Fixpoint correlation_mismatch (correlation expected : list (string * string))
  : result py_error bool :=
  match expected with
  | [] => Ok false
  | (key, value) :: rest =>
      match dict_get key correlation with
      | None => Ok true
      | Some actual =>
          a ← canonical_json_value_bytes (JStr actual);
          e ← canonical_json_value_bytes (JStr value);
          if bool_decide (a = e) then correlation_mismatch correlation rest else Ok true
      end
  end.

(** The admission checks on normalized evidence, in order: the reason of the
    first that fails. *)
Definition admission_failure (p : EvidencePipeline) (request : ProbeRequest)
  (o : RuleObservation) (normalized : NormalizedEvidence)
  (retrieved_at : datetime) (skew freshness_horizon : Z)
  : result py_error (option EvidenceReason) :=
  let envelope := pl_envelope p in
  let asserted := effect_ids (ne_effect_assertions normalized) in
  let observed_at := ne_observed_at normalized in
  if negb (bool_decide (canonical_json_bytes (ne_target normalized)
                        = canonical_json_bytes (en_target envelope)))
  then Ok (Some SCOPE_MISMATCH)
  else if bool_decide (ne_authority normalized = TARGET_STATE)
          && negb (bool_decide (rob_operation_id o = Some (en_operation_id envelope)))
  then Ok (Some CORRELATION_MISMATCH)
  else
    mismatch ← correlation_mismatch (ne_correlation normalized)
      (correlation_fields (en_context envelope));
    if mismatch : bool then Ok (Some CORRELATION_MISMATCH)
    else if negb (subsetb asserted (expected_effect_ids envelope))
            || negb (subsetb asserted (pr_relevant_effect_ids request))
    then Ok (Some EXPECTED_EFFECT_MISMATCH)
    else if (retrieved_at <? observed_at) && (skew <? observed_at - retrieved_at)
    then Ok (Some CLOCK_AMBIGUITY)
    else if ((observed_at <? en_invoked_at envelope)
             && (skew <? en_invoked_at envelope - observed_at))
            || (freshness_horizon <? retrieved_at - observed_at)
    then Ok (Some STALE_OBSERVATION)
    else Ok None.

(** The attempt of a rule observation. *)
Definition admit_observation (p : EvidencePipeline) (run : ProbeRun)
  (descriptor : TargetRuleDescriptor) (raw_sha256 evidence_id : string)
  (byte_count : Z) (o : RuleObservation) : result py_error EvidenceAttempt :=
  let request := run_request run in
  let audit := px_audit (run_execution run) in
  let retrieved_at := ar_completed_at audit in
  let rejected reason evidence :=
    rejected_attempt p audit (Some raw_sha256) reason evidence in
  match freshness_of p (rob_observed_at o) with
  | Raise _ => rejected CLOCK_AMBIGUITY None
  | Ok (skew, freshness_horizon, freshness) =>
      match model_validate_evidence (normalized_evidence descriptor request evidence_id
              raw_sha256 byte_count retrieved_at freshness o) with
      | Raise _ => rejected MALFORMED_OBSERVATION None
      | Ok normalized =>
          failure ← admission_failure p request o normalized retrieved_at skew
            freshness_horizon;
          match failure with
          | Some reason => rejected reason (Some normalized)
          | None =>
              let '(disposition, reason) := verdict_decision (rob_verdict o) in
              decision ← make_decision evidence_id disposition reason;
              make_attempt
                {| at_envelope_sha256 := envelope_sha256 p;
                   at_controller_audit_sha256 := canonical_sha256 audit;
                   at_request_sha256 := ar_request_sha256 audit;
                   at_probe_sequence := ar_sequence audit;
                   at_raw_sha256 := Some raw_sha256;
                   at_evidence := Some normalized;
                   at_decision := decision |}
          end
      end
  end.

(** Everything [normalize] does after its state is updated. *)
Definition normalize_run (p : EvidencePipeline) (run : ProbeRun)
  : result py_error EvidenceAttempt :=
  let request := run_request run in
  let execution := run_execution run in
  let audit := px_audit execution in
  expected_request_sha256 ← probe_request_sha256 request;
  if negb (integrity_valid p run expected_request_sha256)
  then rejected_attempt p audit None MALFORMED_OBSERVATION None
  else if negb (bool_decide (ar_outcome audit = Probe_COMPLETED))
  then rejected_attempt p audit None (failed_probe_reason audit) None
  else match px_observation execution with
  | None => rejected_attempt p audit None MALFORMED_OBSERVATION None
  | Some observation =>
      let raw_sha256 := sha256_hex (vo_canonical_json observation) in
      if negb (observation_intact run observation expected_request_sha256)
      then rejected_attempt p audit (Some raw_sha256) MALFORMED_OBSERVATION None
      else
        evidence_id ← evidence_id_of p (ar_sequence audit) (ar_request_sha256 audit)
          (Some raw_sha256) (ar_outcome audit);
        match (rule_resolve (pl_registry p) (registry_key p request)).2 with
        | None => rejected_attempt p audit (Some raw_sha256) UNSUPPORTED_CAPABILITY None
        | Some registration =>
            match apply_rule p request registration (vo_canonical_json observation)
                    (ar_completed_at audit) with
            | inr reason => rejected_attempt p audit (Some raw_sha256) reason None
            | inl o =>
                admit_observation p run (tr_descriptor registration) raw_sha256
                  evidence_id (vo_byte_count observation) o
            end
        end
  end.

Definition advance (p : EvidencePipeline) (run : ProbeRun) : EvidencePipeline :=
  {| pl_envelope := pl_envelope p; pl_registry := pl_registry p;
     pl_next_sequence := pl_next_sequence p + 1;
     pl_controller_session := match pl_controller_session p with
       | Some s => Some s
       | None => Some (px_controller_session (run_execution run)) end |}.

(** [EvidencePipeline.normalize] *)
Definition normalize (p : EvidencePipeline) (run : ProbeRun)
  : EvidencePipeline * result py_error EvidenceAttempt :=
  if negb (ar_sequence (px_audit (run_execution run)) =? pl_next_sequence p)
  then (p, Raise (ValueError "probe runs must be normalized in contiguous order"))
  else (advance p run, normalize_run (advance p run) run).

End admission.

(** * Proofs *)

Section facts.
Context {rt : Runtime} {sec : Security} {od : ObservationDecoder}.

(** What admission checks of retained evidence, as the documentation of the
    evidence boundary states it. *)
Record evidence_admissible (env : ExecutionEnvelope) (request : ProbeRequest)
  (e : NormalizedEvidence) : Prop := {
  adm_target : canonical_json_bytes (ne_target e) = canonical_json_bytes (en_target env);
  adm_policy : ne_authority_policy_version e = pr_authority (policies (en_context env));
  adm_correlation : ∀ key value,
    (key, value) ∈ correlation_fields (en_context env) →
    dict_get key (ne_correlation e) = Some value;
  adm_effects : effect_ids (ne_effect_assertions e) ⊆ expected_effect_ids env;
  adm_relevant : effect_ids (ne_effect_assertions e) ⊆ pr_relevant_effect_ids request;
  adm_fresh : valid_from (ne_freshness e) ≤ ep_retrieved_at (ne_provenance e)
    ≤ valid_until (ne_freshness e);
  adm_invoked : en_invoked_at env
    - second_us * clock_skew_seconds (ec_freshness (en_context env)) ≤ ne_observed_at e;
}.

(** Normalized evidence is bound to the audit record of its probe. *)
Record evidence_bound (audit : ControllerAuditRecord) (a : EvidenceAttempt)
  (e : NormalizedEvidence) : Prop := {
  bnd_id : ne_evidence_id e = ed_evidence_id (at_decision a);
  bnd_valid : validate_evidence_semantics e = Ok tt;
  bnd_completed : ar_outcome audit = Probe_COMPLETED;
  bnd_name : ar_capability_name audit = Some (ne_capability_name e);
  bnd_version : ar_capability_version audit = Some (ne_capability_version e);
  bnd_result : ar_result_sha256 audit = Some (ro_sha256 (ne_raw_observation e));
  bnd_count : ar_result_byte_count audit = Some (ro_byte_count (ne_raw_observation e));
  bnd_raw : at_raw_sha256 a = Some (ro_sha256 (ne_raw_observation e));
  bnd_retrieved : ep_retrieved_at (ne_provenance e) = ar_completed_at audit;
}.

(** What the pipeline promises about an attempt: the interface between
    admission and classification. *)
Record attempt_ok (env : ExecutionEnvelope) (audit : ControllerAuditRecord)
  (a : EvidenceAttempt) : Prop := {
  ak_envelope : at_envelope_sha256 a = canonical_sha256 env;
  ak_audit : at_controller_audit_sha256 a = canonical_sha256 audit;
  ak_sequence : at_probe_sequence a = ar_sequence audit;
  ak_positive : 1 ≤ at_probe_sequence a;
  ak_reason : validate_reason_compatibility (at_decision a) = Ok tt;
  ak_evidence : ∀ e, at_evidence a = Some e →
    model_validate_evidence e = Ok e ∧ evidence_bound audit a e;
  ak_retained : ed_disposition (at_decision a) ≠ REJECTED_EVIDENCE →
    ∃ e v request, at_evidence a = Some e ∧
      (ed_disposition (at_decision a), ed_reason (at_decision a)) = verdict_decision v ∧
      ne_authority e = verdict_authority v ∧
      verdict_status_ok v (ne_operation_status e) ∧
      ar_target_sha256 audit = canonical_sha256 (en_target env) ∧
      evidence_admissible env request e;
}.

Lemma make_attempt_inv a a' :
  make_attempt a = Ok a' →
  a' = a ∧ 1 ≤ at_probe_sequence a ∧
  validate_reason_compatibility (at_decision a) = Ok tt ∧
  ∀ e, at_evidence a = Some e →
    model_validate_evidence e = Ok e ∧
    ne_evidence_id e = ed_evidence_id (at_decision a).
Proof.
  unfold make_attempt. intros H. inv_ok. bool_simpl. subst.
  match goal with Hd : model_validate_decision _ = Ok _ |- _ =>
    apply model_validate_decision_inv in Hd as [_ Hd] end.
  split_and!; [done|lia|done|]. intros e He. rewrite He in *. inv_ok. bool_simpl.
  match goal with Hd : model_validate_evidence _ = Ok _ |- _ =>
    pose proof (model_validate_evidence_inv _ _ Hd) as [-> _] end.
  done.
Qed.

Lemma make_decision_inv i d r x :
  make_decision i d r = Ok x →
  x = {| ed_evidence_id := i; ed_disposition := d; ed_reason := r |} ∧
  validate_reason_compatibility x = Ok tt.
Proof.
  unfold make_decision. intros H. apply model_validate_decision_inv in H as [-> ?]. done.
Qed.

Lemma rejected_attempt_inv p audit raw reason evidence a :
  rejected_attempt p audit raw reason evidence = Ok a →
  at_envelope_sha256 a = envelope_sha256 p ∧
  at_controller_audit_sha256 a = canonical_sha256 audit ∧
  at_probe_sequence a = ar_sequence audit ∧
  1 ≤ at_probe_sequence a ∧
  validate_reason_compatibility (at_decision a) = Ok tt ∧
  ed_disposition (at_decision a) = REJECTED_EVIDENCE ∧
  ed_reason (at_decision a) = reason ∧
  at_raw_sha256 a = raw ∧ at_evidence a = evidence ∧
  ∀ e, evidence = Some e →
    model_validate_evidence e = Ok e ∧ ne_evidence_id e = ed_evidence_id (at_decision a).
Proof.
  unfold rejected_attempt. intros H. inv_ok.
  match goal with Hd : make_decision _ _ _ = Ok _ |- _ =>
    apply make_decision_inv in Hd as [-> Hd] end.
  apply make_attempt_inv in H as (-> & Hseq & Hreas & He). cbn in *. done.
Qed.

Lemma rejected_attempt_ok p audit raw reason a :
  rejected_attempt p audit raw reason None = Ok a → attempt_ok (pl_envelope p) audit a.
Proof.
  intros (He & Ha & Hs & Hp & Hr & Hd & _ & _ & Hn & _)%rejected_attempt_inv.
  split; try done; congruence.
Qed.

Lemma rejected_evidence_ok p audit raw reason e a :
  rejected_attempt p audit (Some raw) reason (Some e) = Ok a →
  (∀ a, at_raw_sha256 a = Some raw → ne_evidence_id e = ed_evidence_id (at_decision a) →
    evidence_bound audit a e) →
  attempt_ok (pl_envelope p) audit a.
Proof.
  intros (He & Ha & Hs & Hp & Hr & Hd & _ & Hraw & Hev & Hm)%rejected_attempt_inv Hb.
  specialize (Hm e eq_refl) as [Hm Hid].
  split; try done; try congruence.
  intros e' He'. assert (e' = e) as -> by congruence. split; [done|]. by apply Hb.
Qed.

Lemma correlation_mismatch_false correlation expected :
  correlation_mismatch correlation expected = Ok false →
  ∀ key value, (key, value) ∈ expected → dict_get key correlation = Some value.
Proof.
  induction expected as [|[k v] rest IH]; cbn; intros H key value Hin.
  - by apply not_elem_of_nil in Hin.
  - destruct (dict_get k correlation) as [actual|] eqn:Hk; [|done]. inv_ok.
    case_bool_decide as Heq; [|done]. subst.
    apply elem_of_cons in Hin as [Hin|Hin]; [|by apply IH].
    injection Hin as -> ->. rewrite Hk. f_equal. by apply quote_inj.
Qed.

Lemma freshness_inv p observed skew horizon w :
  freshness_of p observed = Ok (skew, horizon, w) →
  skew = second_us * clock_skew_seconds (ec_freshness (en_context (pl_envelope p))) ∧
  w = {| valid_from := observed - skew; valid_until := observed + horizon |}.
Proof.
  unfold freshness_of, timedelta_seconds, check_timedelta, datetime_add.
  intros H. inv_ok. simplify_eq. split; [lia|]. f_equal; lia.
Qed.

Lemma admission_failure_none p request o e retrieved skew horizon :
  admission_failure p request o e retrieved skew horizon = Ok None →
  canonical_json_bytes (ne_target e) = canonical_json_bytes (en_target (pl_envelope p)) ∧
  (ne_authority e = TARGET_STATE →
    rob_operation_id o = Some (en_operation_id (pl_envelope p))) ∧
  (∀ key value, (key, value) ∈ correlation_fields (en_context (pl_envelope p)) →
    dict_get key (ne_correlation e) = Some value) ∧
  effect_ids (ne_effect_assertions e) ⊆ expected_effect_ids (pl_envelope p) ∧
  effect_ids (ne_effect_assertions e) ⊆ pr_relevant_effect_ids request ∧
  (ne_observed_at e ≤ retrieved ∨ ne_observed_at e - retrieved ≤ skew) ∧
  (en_invoked_at (pl_envelope p) ≤ ne_observed_at e ∨
   en_invoked_at (pl_envelope p) - ne_observed_at e ≤ skew) ∧
  retrieved - ne_observed_at e ≤ horizon.
Proof.
  unfold admission_failure. intros H.
  destruct (negb (bool_decide _)) eqn:Ht in H; [done|].
  destruct (bool_decide _ && negb _) eqn:Ho in H; [done|].
  inv_ok. destruct r; [done|].
  destruct (negb _ || negb _) eqn:He in H; [done|].
  destruct ((_ <? _) && (_ <? _)) eqn:Hc in H; [done|].
  destruct (((_ <? _) && (_ <? _)) || _) eqn:Hs in H; [done|].
  bool_simpl. rewrite subsetb_true in *.
  apply andb_false_iff in Ho, Hc.
  match goal with Hx : (_ <? _) && (_ <? _) = false |- _ => apply andb_false_iff in Hx end.
  split_and!; try done.
  - intros Ha. destruct Ho; bool_simpl; congruence.
  - by eapply correlation_mismatch_false.
  - destruct Hc; bool_simpl; lia.
  - destruct_or!; bool_simpl; lia.
Qed.

(** The evidence the pipeline builds is bound to its audit. *)
Lemma normalized_bound run observation expected descriptor id freshness o a :
  observation_intact run observation expected = true →
  ar_outcome (px_audit (run_execution run)) = Probe_COMPLETED →
  let e := normalized_evidence descriptor (run_request run) id
    (sha256_hex (vo_canonical_json observation)) (vo_byte_count observation)
    (ar_completed_at (px_audit (run_execution run))) freshness o in
  validate_evidence_semantics e = Ok tt →
  at_raw_sha256 a = Some (sha256_hex (vo_canonical_json observation)) →
  ne_evidence_id e = ed_evidence_id (at_decision a) →
  evidence_bound (px_audit (run_execution run)) a e.
Proof.
  unfold observation_intact. cbv zeta. intros Hi Hc Hv Hraw Hid. bool_simpl.
  split; try done; cbn; congruence.
Qed.

Lemma admit_observation_ok p run observation expected descriptor id o a :
  integrity_valid p run expected = true →
  observation_intact run observation expected = true →
  ar_outcome (px_audit (run_execution run)) = Probe_COMPLETED →
  td_authority_policy_version descriptor
    = pr_authority (policies (en_context (pl_envelope p))) →
  model_validate_rule_observation o = Ok o →
  admit_observation p run descriptor (sha256_hex (vo_canonical_json observation)) id
    (vo_byte_count observation) o = Ok a →
  attempt_ok (pl_envelope p) (px_audit (run_execution run)) a.
Proof.
  intros Hint Hobs Hc Hpol Ho. unfold admit_observation.
  destruct (freshness_of p (rob_observed_at o)) as [[[skew horizon] w]|] eqn:Hf;
    [|apply rejected_attempt_ok].
  apply freshness_inv in Hf as [Hskew Hw].
  destruct (model_validate_evidence _) as [e|] eqn:He; [|apply rejected_attempt_ok].
  apply model_validate_evidence_inv in He as (-> & Hsem & _).
  intros H. inv_ok.
  match goal with Hx : admission_failure _ _ _ _ _ _ _ = Ok ?f |- _ =>
    destruct f as [reason|]; [|apply admission_failure_none in Hx;
      destruct Hx as (Ht & Hop & Hcorr & Heff & Hrel & Hclk & Hinv & Hage)] end.
  - eapply rejected_evidence_ok; [exact H|]. intros a' Hraw Hid.
    by eapply normalized_bound.
  - destruct (verdict_decision (rob_verdict o)) as [d r] eqn:Hd. inv_ok.
    match goal with Hx : make_decision _ _ _ = Ok _ |- _ =>
      apply make_decision_inv in Hx as [-> Hcompat] end.
    apply make_attempt_inv in H as (-> & Hseq & _ & Hev).
    pose proof (evidence_semantics _ Hsem) as (_ & Hwin & _).
    cbn [ne_freshness ne_observed_at normalized_evidence] in Hwin, Hclk, Hinv, Hage.
    rewrite Hw in Hwin. cbn [valid_from valid_until] in Hwin.
    split; cbn; try done.
    + intros e [= <-]. destruct (Hev _ eq_refl) as [Hm Hid].
      split; [done|]. by eapply normalized_bound.
    + intros _. eexists _, (rob_verdict o), (run_request run).
      split; [done|]. split; [by rewrite Hd|]. split; [done|].
      unfold integrity_valid in Hint. bool_simpl.
      apply model_validate_rule_observation_inv in Ho as (_ & Hv & _).
      split; [by apply validate_verdict_status|]. split; [done|].
      split; try done; cbn [ne_freshness ne_observed_at ne_provenance ep_retrieved_at
        normalized_evidence]; rewrite ?Hw; cbn [valid_from valid_until]; lia.
Qed.

Lemma apply_rule_inl p request registration text at_ o :
  apply_rule p request registration text at_ = inl o →
  model_validate_rule_observation o = Ok o.
Proof.
  unfold apply_rule. intros H. repeat case_match; simplify_eq.
  match goal with Hx : model_validate_rule_observation _ = Ok _ |- _ =>
    pose proof (model_validate_rule_observation_inv _ _ Hx) as [-> _]; done end.
Qed.

Lemma normalize_run_ok p run a :
  registry_wf rule_key (pl_registry p) →
  normalize_run p run = Ok a →
  attempt_ok (pl_envelope p) (px_audit (run_execution run)) a.
Proof.
  intros Hw. unfold normalize_run. intros H. inv_ok.
  destruct (integrity_valid p run r) eqn:Hint; cbn [negb] in H;
    [|by eapply rejected_attempt_ok].
  case_bool_decide as Hc; cbn [negb] in H; [|by eapply rejected_attempt_ok].
  destruct (px_observation _) as [observation|] eqn:Hobs; [|by eapply rejected_attempt_ok].
  destruct (observation_intact run observation r) eqn:Hi; cbn [negb] in H;
    [|by eapply rejected_attempt_ok].
  inv_ok.
  destruct (rule_resolve _ _).2 as [registration|] eqn:Hres;
    [|by eapply rejected_attempt_ok].
  destruct (apply_rule _ _ _ _ _) as [o|reason] eqn:Hrule; [|by eapply rejected_attempt_ok].
  apply (resolve_identity rule_key) in Hres as [Hkey _]; [|done].
  eapply admit_observation_ok; [exact Hint|exact Hi|done| | |exact H].
  - unfold rule_key, descriptor_key, registry_key in Hkey. congruence.
  - by eapply apply_rule_inl.
Qed.

End facts.
