(* ===== verification/ReportContracts.v ===== *)
(** Action gates, findings, proofs and reports as contracts
    (reconcile/contracts/report.py): the data and the validators of everything
    but [InvestigationReport], which is in Report.v. *)

From S2P Require Export Admission.

#[local] Open Scope Z_scope.

Inductive RequestedAction :=
  | Action_CONTINUE | Action_RETRY | Action_COMPENSATE | Action_ESCALATE | Action_OBSERVE.

Inductive ActionGateReason :=
  | ALL_EFFECTS_ESTABLISHED | OPERATION_NOT_COMMITTED | DUPLICATE_EFFECT_RISK
  | COMPENSATION_OUT_OF_SCOPE_V1 | EXPLICIT_RETRY_POLICY_REQUIRED
  | OPERATOR_REVIEW_AVAILABLE | INCOMPLETE_EFFECT_SET | OPERATOR_INTERVENTION_REQUIRED
  | OPERATION_ACTIVE | READ_ONLY_FOLLOW_UP | INSUFFICIENT_AUTHORITATIVE_EVIDENCE
  | AMBIGUOUS_DUPLICATE_RISK.

Inductive InvestigationStatus := CREATED | INVESTIGATING | Report_COMPLETED.

#[export] Instance RequestedAction_eq_dec : EqDecision RequestedAction.
Proof. solve_decision. Defined.
#[export] Instance ActionGateReason_eq_dec : EqDecision ActionGateReason.
Proof. solve_decision. Defined.
#[export] Instance InvestigationStatus_eq_dec : EqDecision InvestigationStatus.
Proof. solve_decision. Defined.

(** [list(RequestedAction)] *)
Definition all_actions : list RequestedAction :=
  [Action_CONTINUE; Action_RETRY; Action_COMPENSATE; Action_ESCALATE; Action_OBSERVE].

Record ActionGateResult := {
  ag_requested_action : RequestedAction;
  ag_allowed : bool;
  ag_reason : ActionGateReason;
  ag_classification : Classification;
  ag_classification_policy_version : string;
  ag_action_policy_version : string;
  ag_escalation_required : bool;
}.

Record ProbeAuditRecord := {
  pa_probe_sequence : Z;
  pa_capability_name : option string;
  pa_capability_version : option string;
  pa_request_sha256 : option string;
  pa_target_sha256 : string;
  pa_outcome : ProbeOutcome;
  pa_stop_reason : string;
  pa_started_at : datetime;
  pa_completed_at : datetime;
  pa_session_elapsed_ms : Z;
  pa_probe_count_used : Z;
  pa_cost_units_used : Z;
  pa_result_bytes_acquired : Z;
  pa_result_sha256 : option string;
  pa_result_byte_count : option Z;
  pa_evidence_ids : list string;
}.

Record EffectFinding := {
  ef_effect_id : string;
  ef_commit_scope : string;
  ef_state : EffectAssertionState;
  ef_evidence_ids : list string;
}.

Record DeterministicProof := {
  dp_effect_findings : list EffectFinding;
  dp_operation_status : option OperationStatus;
  dp_conflicting_authority : bool;
  dp_admitted_evidence_ids : list string;
}.

Record MissingEvidence := { me_effect_ids : list string; me_reason : string }.

Record AdvisoryExplanation := { ax_text : string; ax_cited_evidence_ids : list string }.

#[export] Instance EffectFinding_eq_dec : EqDecision EffectFinding.
Proof. solve_decision. Defined.
#[export] Instance MissingEvidence_eq_dec : EqDecision MissingEvidence.
Proof. solve_decision. Defined.

(** ** Action gates *)

Definition retry_reason (c : Classification) : ActionGateReason :=
  match c with
  | COMMITTED => DUPLICATE_EFFECT_RISK
  | NOT_COMMITTED => EXPLICIT_RETRY_POLICY_REQUIRED
  | PARTIAL => DUPLICATE_EFFECT_RISK
  | PENDING => OPERATION_ACTIVE
  | UNKNOWN => AMBIGUOUS_DUPLICATE_RISK
  end.

Definition continue_reason (c : Classification) : ActionGateReason :=
  match c with
  | COMMITTED => ALL_EFFECTS_ESTABLISHED
  | NOT_COMMITTED => OPERATION_NOT_COMMITTED
  | PARTIAL => INCOMPLETE_EFFECT_SET
  | PENDING => OPERATION_ACTIVE
  | UNKNOWN => INSUFFICIENT_AUTHORITATIVE_EVIDENCE
  end.

Definition escalation_outcome (c : Classification) : bool * ActionGateReason :=
  match c with
  | COMMITTED => (false, ALL_EFFECTS_ESTABLISHED)
  | NOT_COMMITTED => (true, OPERATOR_REVIEW_AVAILABLE)
  | PARTIAL | PENDING | UNKNOWN => (true, OPERATOR_INTERVENTION_REQUIRED)
  end.

(** [ActionGateResult.validate_v1_safety] *)
Definition validate_v1_safety (self : ActionGateResult) : result py_error unit :=
  let c := ag_classification self in
  let a := ag_requested_action self in
  reject_if (negb (eqb (ag_escalation_required self) (negb (bool_decide (c = COMMITTED)))))
    (ValueError "escalation requirement does not match classification");;
  reject_if (inb a [Action_RETRY; Action_COMPENSATE] && ag_allowed self)
    (ValueError "retry and compensation are not executable in v1");;
  reject_if (bool_decide (a = Action_CONTINUE)
             && negb (eqb (ag_allowed self) (bool_decide (c = COMMITTED))))
    (ValueError "continuation is allowed exactly when committed");;
  reject_if (inb c [PARTIAL; PENDING; UNKNOWN]
             && inb a [Action_CONTINUE; Action_RETRY; Action_COMPENSATE]
             && ag_allowed self)
    (ValueError "indeterminate classifications block mutation");;
  match a with
  | Action_COMPENSATE =>
      reject_if (negb (bool_decide (ag_reason self = COMPENSATION_OUT_OF_SCOPE_V1)))
        (ValueError "compensation requires the frozen v1 denial reason")
  | Action_RETRY =>
      reject_if (negb (bool_decide (ag_reason self = retry_reason c)))
        (ValueError "retry reason does not match classification")
  | Action_CONTINUE =>
      reject_if (negb (bool_decide (ag_reason self = continue_reason c)))
        (ValueError "continuation reason does not match classification")
  | Action_OBSERVE =>
      reject_if (negb (ag_allowed self)
                 || negb (bool_decide (ag_reason self = READ_ONLY_FOLLOW_UP)))
        (ValueError "observation must remain available and read-only")
  | Action_ESCALATE =>
      let '(allowed, reason) := escalation_outcome c in
      reject_if (negb (eqb (ag_allowed self) allowed)
                 || negb (bool_decide (ag_reason self = reason)))
        (ValueError "operator escalation outcome does not match state")
  end.

Definition model_validate_gate (g : ActionGateResult) : result py_error ActionGateResult :=
  validate_v1_safety g;; Ok g.

(** ** Records of a report *)

(** [ProbeAuditRecord.validate_record], with the field bounds. *)
Definition validate_record (self : ProbeAuditRecord) : result py_error unit :=
  reject_if (negb (in_range 1 (pa_probe_sequence self) int64_max
                   && in_range 0 (pa_session_elapsed_ms self) int64_max
                   && in_range 0 (pa_probe_count_used self) int64_max
                   && in_range 0 (pa_cost_units_used self) int64_max
                   && in_range 0 (pa_result_bytes_acquired self) int64_max
                   && match pa_result_byte_count self with
                      | Some n => in_range 0 n int64_max | None => true end
                   && (length (pa_evidence_ids self) =? 1)%nat))
    (ValueError "probe audit field is outside its range");;
  reject_if (pa_completed_at self <? pa_started_at self)
    (ValueError "probe completion cannot precede its start");;
  reject_if (negb (eqb (is_none (pa_capability_name self))
                     (is_none (pa_capability_version self))))
    (ValueError "probe capability identity must be complete");;
  (if bool_decide (pa_outcome self = Probe_COMPLETED) then
    reject_if (is_none (pa_capability_name self) || is_none (pa_request_sha256 self)
               || is_none (pa_result_sha256 self) || is_none (pa_result_byte_count self))
      (ValueError "completed probes require request, capability, and result identity")
  else
    reject_if (is_some (pa_result_sha256 self))
      (ValueError "rejected probe output cannot become an evidence digest"));;
  reject_if (has_dup (pa_evidence_ids self))
    (ValueError "probe evidence identifiers must be unique").

Definition model_validate_probe_audit (a : ProbeAuditRecord)
  : result py_error ProbeAuditRecord := validate_record a;; Ok a.

(** [EffectFinding(...)], [DeterministicProof(...)], [MissingEvidence(...)] and
    [AdvisoryExplanation(...)]: field bounds, then uniqueness. *)
Definition validate_evidence_identity (self : EffectFinding) : result py_error unit :=
  reject_if (64 <? length (ef_evidence_ids self))%nat
    (ValueError "too many evidence identifiers");;
  reject_if (has_dup (ef_evidence_ids self))
    (ValueError "effect finding evidence identifiers must be unique").

Definition model_validate_finding (f : EffectFinding) : result py_error EffectFinding :=
  validate_evidence_identity f;; Ok f.

Definition finding_ids (l : list EffectFinding) : list string := map ef_effect_id l.

Definition validate_findings (self : DeterministicProof) : result py_error unit :=
  reject_if (negb (in_range 1 (Z.of_nat (length (dp_effect_findings self))) 64))
    (ValueError "effect findings are outside their bounds");;
  reject_if (64 <? length (dp_admitted_evidence_ids self))%nat
    (ValueError "too many admitted evidence identifiers");;
  reject_if (has_dup (finding_ids (dp_effect_findings self)))
    (ValueError "proof effect identifiers must be unique");;
  reject_if (has_dup (dp_admitted_evidence_ids self))
    (ValueError "admitted evidence identifiers must be unique").

Definition model_validate_proof (p : DeterministicProof)
  : result py_error DeterministicProof := validate_findings p;; Ok p.

Definition validate_missing_effects (self : MissingEvidence) : result py_error unit :=
  reject_if (64 <? length (me_effect_ids self))%nat
    (ValueError "too many missing effect identifiers");;
  reject_if (has_dup (me_effect_ids self))
    (ValueError "missing effect identifiers must be unique").

Definition model_validate_missing (m : MissingEvidence) : result py_error MissingEvidence :=
  validate_missing_effects m;; Ok m.

Definition validate_citation_identity (self : AdvisoryExplanation)
  : result py_error unit :=
  reject_if (negb (in_range 1 (Z.of_nat (length (ax_cited_evidence_ids self))) 64))
    (ValueError "advisory citations are outside their bounds");;
  reject_if (has_dup (ax_cited_evidence_ids self))
    (ValueError "advisory evidence citations must be unique").

(** ** Wire forms *)

Definition RequestedAction_value (a : RequestedAction) : string :=
  match a with
  | Action_CONTINUE => "CONTINUE" | Action_RETRY => "RETRY"
  | Action_COMPENSATE => "COMPENSATE" | Action_ESCALATE => "ESCALATE"
  | Action_OBSERVE => "OBSERVE"
  end.

Definition ActionGateReason_value (r : ActionGateReason) : string :=
  match r with
  | ALL_EFFECTS_ESTABLISHED => "all_effects_established"
  | OPERATION_NOT_COMMITTED => "operation_not_committed"
  | DUPLICATE_EFFECT_RISK => "duplicate_effect_risk"
  | COMPENSATION_OUT_OF_SCOPE_V1 => "compensation_out_of_scope_v1"
  | EXPLICIT_RETRY_POLICY_REQUIRED => "explicit_retry_policy_required"
  | OPERATOR_REVIEW_AVAILABLE => "operator_review_available"
  | INCOMPLETE_EFFECT_SET => "incomplete_effect_set"
  | OPERATOR_INTERVENTION_REQUIRED => "operator_intervention_required"
  | OPERATION_ACTIVE => "operation_active"
  | READ_ONLY_FOLLOW_UP => "read_only_follow_up"
  | INSUFFICIENT_AUTHORITATIVE_EVIDENCE => "insufficient_authoritative_evidence"
  | AMBIGUOUS_DUPLICATE_RISK => "ambiguous_duplicate_risk"
  end.

Definition InvestigationStatus_value (s : InvestigationStatus) : string :=
  match s with
  | CREATED => "CREATED" | INVESTIGATING => "INVESTIGATING"
  | Report_COMPLETED => "COMPLETED"
  end.

#[export] Instance ActionGateResult_json : ToJson ActionGateResult := λ m, JObj
  [("schema_version", JStr "reconcile/action-gate-result/v1");
   ("requested_action", JStr (RequestedAction_value (ag_requested_action m)));
   ("allowed", JBool (ag_allowed m));
   ("reason", JStr (ActionGateReason_value (ag_reason m)));
   ("classification", JStr (Classification_value (ag_classification m)));
   ("classification_policy_version", JStr (ag_classification_policy_version m));
   ("action_policy_version", JStr (ag_action_policy_version m));
   ("escalation_required", JBool (ag_escalation_required m))].

#[export] Instance ProbeAuditRecord_json : ToJson ProbeAuditRecord := λ m, JObj
  [("probe_sequence", JInt (pa_probe_sequence m));
   ("capability_name", to_json (pa_capability_name m));
   ("capability_version", to_json (pa_capability_version m));
   ("request_sha256", to_json (pa_request_sha256 m));
   ("target_sha256", JStr (pa_target_sha256 m));
   ("outcome", JStr (ProbeOutcome_value (pa_outcome m)));
   ("stop_reason", JStr (pa_stop_reason m));
   ("started_at", time_json (pa_started_at m));
   ("completed_at", time_json (pa_completed_at m));
   ("session_elapsed_ms", JInt (pa_session_elapsed_ms m));
   ("probe_count_used", JInt (pa_probe_count_used m));
   ("cost_units_used", JInt (pa_cost_units_used m));
   ("result_bytes_acquired", JInt (pa_result_bytes_acquired m));
   ("result_sha256", to_json (pa_result_sha256 m));
   ("result_byte_count", to_json (pa_result_byte_count m));
   ("evidence_ids", to_json (pa_evidence_ids m))].

#[export] Instance EffectFinding_json : ToJson EffectFinding := λ m, JObj
  [("effect_id", JStr (ef_effect_id m));
   ("commit_scope", JStr (ef_commit_scope m));
   ("state", JStr (EffectAssertionState_value (ef_state m)));
   ("evidence_ids", to_json (ef_evidence_ids m))].

#[export] Instance DeterministicProof_json : ToJson DeterministicProof := λ m, JObj
  [("effect_findings", to_json (dp_effect_findings m));
   ("operation_status", match dp_operation_status m with
      | Some s => JStr (OperationStatus_value s) | None => JNull end);
   ("conflicting_authority", JBool (dp_conflicting_authority m));
   ("admitted_evidence_ids", to_json (dp_admitted_evidence_ids m))].

#[export] Instance MissingEvidence_json : ToJson MissingEvidence := λ m, JObj
  [("effect_ids", to_json (me_effect_ids m)); ("reason", JStr (me_reason m))].

#[export] Instance AdvisoryExplanation_json : ToJson AdvisoryExplanation := λ m, JObj
  [("text", JStr (ax_text m)); ("cited_evidence_ids", to_json (ax_cited_evidence_ids m))].
