(* ===== verification/Classification.v ===== *)
(** Deterministic proof, five-state classification and action policy
    (reconcile/evidence/classification.py).

    [evaluate_evidence] rechecks the pipeline's attempts against the
    controller's audit trail, rejects duplicates, and derives the proof, the
    classification, the action gates and the missing evidence.  A Python set is
    a list here, compared by membership; the expected effects of a valid
    envelope have distinct identifiers, so the lists built from them have the
    sizes the sets have. *)

From S2P Require Export ReportContracts.

#[local] Open Scope Z_scope.

Record CoreEvaluation := {
  ce_envelope_sha256 : string;
  ce_attempts : list EvidenceAttempt;
  ce_evidence : list NormalizedEvidence;
  ce_decisions : list EvidenceDecision;
  ce_proof : DeterministicProof;
  ce_classification : Classification;
  ce_action_gates : list ActionGateResult;
  ce_missing_evidence : list MissingEvidence;
}.

(** Orders of the two [sorted] calls. *)
Definition attempt_key_le (x y : EvidenceAttempt) : Prop :=
  at_probe_sequence x < at_probe_sequence y ∨
  (at_probe_sequence x = at_probe_sequence y ∧
   str_le (ed_evidence_id (at_decision x)) (ed_evidence_id (at_decision y))).
#[export] Instance attempt_key_le_dec x y : Decision (attempt_key_le x y).
Proof. unfold attempt_key_le. apply _. Defined.

Definition audit_key_le (x y : ControllerAuditRecord) : Prop :=
  ar_sequence x ≤ ar_sequence y.
#[export] Instance audit_key_le_dec x y : Decision (audit_key_le x y).
Proof. unfold audit_key_le. apply _. Defined.

(** [list(range(1, n + 1))] *)
Definition one_to (n : nat) : list Z := map (λ i, Z.of_nat i) (seq 1 n).

Section classification.
Context {rt : Runtime} {sec : Security} {od : ObservationDecoder}.

(** ** Deduplication *)

Abbreviation dedup_key_type := (string * string * string * string * option string * string)%type
  (only parsing).

Definition dedup_key (a : EvidenceAttempt) (e : NormalizedEvidence) (raw : string)
  : dedup_key_type :=
  (ne_capability_name e, ne_capability_version e, ep_source (ne_provenance e),
   ep_adapter_version (ne_provenance e), at_request_sha256 a, raw).

(** [_deduplicate_attempts]; [seen] is [first_by_source_request_and_raw]. *)
Fixpoint deduplicate (seen : list (dedup_key_type * string))
  (attempts : list EvidenceAttempt) : result py_error (list EvidenceAttempt) :=
  match attempts with
  | [] => Ok []
  | a :: rest =>
      match at_raw_sha256 a, at_evidence a with
      | Some raw, Some e =>
          let key := dedup_key a e raw in
          let id := ed_evidence_id (at_decision a) in
          match dict_get key seen with
          | None => r ← deduplicate (dict_set key id seen) rest; Ok (a :: r)
          | Some first_id =>
              if bool_decide (first_id = id)
              then r ← deduplicate seen rest; Ok (a :: r)
              else
                a' ← reject_duplicate a;
                r ← deduplicate seen rest; Ok (a' :: r)
          end
      | _, _ => r ← deduplicate seen rest; Ok (a :: r)
      end
  end.

Definition deduplicate_attempts : list EvidenceAttempt →
  result py_error (list EvidenceAttempt) := deduplicate [].

(** ** Action gates *)

Definition gate_definitions (c : Classification)
  : list (RequestedAction * bool * ActionGateReason) :=
  [(Action_CONTINUE, bool_decide (c = COMMITTED), continue_reason c);
   (Action_RETRY, false, retry_reason c);
   (Action_COMPENSATE, false, COMPENSATION_OUT_OF_SCOPE_V1);
   (Action_ESCALATE, (escalation_outcome c).1, (escalation_outcome c).2);
   (Action_OBSERVE, true, READ_ONLY_FOLLOW_UP)].

(** The [ActionGateResult(...)] of one definition. *)
Definition gate_of (c : Classification) (classification_policy action_policy : string)
  (d : RequestedAction * bool * ActionGateReason) : ActionGateResult :=
  {| ag_requested_action := d.1.1; ag_allowed := d.1.2; ag_reason := d.2;
     ag_classification := c;
     ag_classification_policy_version := classification_policy;
     ag_action_policy_version := action_policy;
     ag_escalation_required := negb (bool_decide (c = COMMITTED)) |}.

Definition action_gates (c : Classification) (classification_policy action_policy : string)
  : result py_error (list ActionGateResult) :=
  mapM (λ d, model_validate_gate (gate_of c classification_policy action_policy d))
    (gate_definitions c).

(** ** Recheck of the pipeline's output *)

Definition sequences_of (attempts : list EvidenceAttempt) : list Z :=
  map at_probe_sequence attempts.
Definition decision_ids (attempts : list EvidenceAttempt) : list string :=
  map (λ a, ed_evidence_id (at_decision a)) attempts.

(** The first half of [evaluate_evidence]: sort, and check attempts and audit
    trail against each other. *)
Definition recheck_attempts (envelope : ExecutionEnvelope)
  (attempts : list EvidenceAttempt) (audit_trail : list ControllerAuditRecord)
  : result py_error (list EvidenceAttempt) :=
  reject_if (existsb (λ a, negb (bool_decide
               (at_envelope_sha256 a = canonical_sha256 envelope))) attempts)
    (ValueError "evidence attempt belongs to a different envelope");;
  let attempts := merge_sort attempt_key_le attempts in
  let sequences := sequences_of attempts in
  reject_if (has_dup sequences)
    (ValueError "one evidence attempt is allowed per probe sequence");;
  reject_if (has_dup (decision_ids attempts))
    (ValueError "evidence attempt identifiers must be unique");;
  let audit_trail := merge_sort audit_key_le audit_trail in
  reject_if (negb (bool_decide (sequences = one_to (length sequences))))
    (ValueError "controller audit sequence must be contiguous");;
  reject_if (negb (bool_decide (sequences = map ar_sequence audit_trail)))
    (ValueError "every controller audit record requires one evidence attempt");;
  reject_if (existsb (λ ar, negb (bool_decide
               (at_controller_audit_sha256 ar.1 = canonical_sha256 ar.2)))
               (zip attempts audit_trail))
    (ValueError "evidence attempt audit does not match the controller");;
  deduplicate_attempts attempts.

Definition enabled_identities (envelope : ExecutionEnvelope) : list (string * string) :=
  capability_identities (en_context envelope).

(** [key not in evidence.correlation or evidence.correlation[key] != expected] *)
Definition correlation_differs (e : NormalizedEvidence) (expected : string * string)
  : bool := negb (bool_decide (dict_get expected.1 (ne_correlation e) = Some expected.2)).

(** Admitted evidence that should not have been. *)
Definition admission_escaped (envelope : ExecutionEnvelope) (e : NormalizedEvidence)
  : bool :=
  negb (bool_decide (ne_authority e = TARGET_STATE))
  || negb (bool_decide (canonical_json_bytes (ne_target e)
                        = canonical_json_bytes (en_target envelope)))
  || negb (inb (ne_capability_name e, ne_capability_version e)
             (enabled_identities envelope))
  || negb (bool_decide (ne_authority_policy_version e
                        = pr_authority (policies (en_context envelope))))
  || existsb (correlation_differs e) (correlation_fields (en_context envelope)).

Definition is_admitted (a : EvidenceAttempt) : bool :=
  bool_decide (ed_disposition (at_decision a) = ADMITTED).

(** [admitted_attempts], as pairs with their evidence. *)
Fixpoint admitted_attempts (envelope : ExecutionEnvelope)
  (attempts : list EvidenceAttempt)
  : result py_error (list (EvidenceAttempt * NormalizedEvidence)) :=
  match attempts with
  | [] => Ok []
  | a :: rest =>
      match at_evidence a with
      | Some e =>
          if is_admitted a then
            reject_if (admission_escaped envelope e)
              (ValueError "admitted evidence escaped deterministic admission");;
            r ← admitted_attempts envelope rest; Ok ((a, e) :: r)
          else admitted_attempts envelope rest
      | None => admitted_attempts envelope rest
      end
  end.

(** ** The proof *)

(** [assertions.get(effect_id, [])]: the states asserted for one effect, with
    the evidence that asserts them. *)
Definition assertions_for (effect_id : string) (admitted : list NormalizedEvidence)
  : list (EffectAssertionState * string) :=
  concat (map (λ e,
    map (λ a, (ea_state a, ne_evidence_id e))
      (filter (λ a, ea_effect_id a = effect_id) (ne_effect_assertions e))) admitted).

Definition contradictory (states : list EffectAssertionState) : bool :=
  inb ESTABLISHED states && inb NOT_ESTABLISHED states.

Definition finding_state (states : list EffectAssertionState) : EffectAssertionState :=
  if contradictory states then UNVERIFIED
  else if inb ESTABLISHED states then ESTABLISHED
  else if inb NOT_ESTABLISHED states then NOT_ESTABLISHED
  else UNVERIFIED.

Definition states_for (effect_id : string) (admitted : list NormalizedEvidence)
  : list EffectAssertionState := (assertions_for effect_id admitted).*1.

(** The definitive assertions of an effect. *)
Definition definitive (values : list (EffectAssertionState * string))
  : list (EffectAssertionState * string) := filter (λ v, v.1 ≠ UNVERIFIED) values.

Definition finding_of (admitted : list NormalizedEvidence) (effect : ExpectedEffect)
  : EffectFinding :=
  {| ef_effect_id := ee_effect_id effect;
     ef_commit_scope := ee_commit_scope effect;
     ef_state := finding_state (states_for (ee_effect_id effect) admitted);
     ef_evidence_ids := sorted_strings (remove_dups
       (definitive (assertions_for (ee_effect_id effect) admitted)).*2) |}.

Definition effects_in_state (s : EffectAssertionState)
  (admitted : list NormalizedEvidence) (effects : list ExpectedEffect) : list string :=
  map ee_effect_id
    (filter (λ x, finding_state (states_for (ee_effect_id x) admitted) = s) effects).

Definition statuses_of (admitted : list NormalizedEvidence) : list OperationStatus :=
  omap ne_operation_status admitted.

(** [status_values & {ACTIVE, UNRESOLVED}] *)
Definition in_progress (statuses : list OperationStatus) : bool :=
  inb ACTIVE statuses || inb UNRESOLVED statuses.

Definition is_conflicting (effect_conflict : bool) (statuses : list OperationStatus)
  (any_established all_established : bool) : bool :=
  let terminal_not_committed := inb TERMINAL_NOT_COMMITTED statuses in
  let terminal_committed := inb TERMINAL_COMMITTED statuses in
  effect_conflict
  || ((terminal_committed && terminal_not_committed)
      || (terminal_not_committed && in_progress statuses))
  || (terminal_not_committed && any_established)
  || (terminal_committed && in_progress statuses && negb all_established).

Definition operation_status_of (conflicting : bool) (statuses : list OperationStatus)
  : option OperationStatus :=
  if conflicting then None
  else if inb TERMINAL_COMMITTED statuses then Some TERMINAL_COMMITTED
  else if inb UNRESOLVED statuses then Some UNRESOLVED
  else if inb ACTIVE statuses then Some ACTIVE
  else if inb TERMINAL_NOT_COMMITTED statuses then Some TERMINAL_NOT_COMMITTED
  else None.

(** ** Commit scopes *)

(** The effects of an investigation, as pairs of effect and commit scope. *)
Definition effect_scopes (effects : list ExpectedEffect) : list (string * string) :=
  map (λ x, (ee_effect_id x, ee_commit_scope x)) effects.

(** [effects_by_scope], as its keys and the effects of one key. *)
Definition scopes_of (pairs : list (string * string)) : list string :=
  remove_dups pairs.*2.
Definition effects_of_scope (pairs : list (string * string)) (scope : string)
  : list string := (filter (λ x, x.2 = scope) pairs).*1.

Definition scopes_within (pairs : list (string * string)) (ids : list string)
  : list string :=
  filter (λ scope, subsetb (effects_of_scope pairs scope) ids = true) (scopes_of pairs).

(** A complete mixture of established and absent scopes. *)
Definition is_partial (pairs : list (string * string))
  (established not_established : list string) : bool :=
  let scopes := scopes_of pairs in
  let fully_established := scopes_within pairs established in
  let fully_not_established := scopes_within pairs not_established in
  (2 <=? length scopes)%nat
  && ((0 <? length fully_established)%nat
      && (length fully_established <? length scopes)%nat)
  && same_set (fully_established ++ fully_not_established) scopes.

Definition classify (conflicting all_established partial any_established : bool)
  (operation_status : option OperationStatus) (terminal_not_committed : bool)
  : Classification :=
  if conflicting then UNKNOWN
  else if all_established then COMMITTED
  else if bool_decide (operation_status = Some ACTIVE) then PENDING
  else if partial then PARTIAL
  else if bool_decide (operation_status = Some UNRESOLVED) then PENDING
  else if terminal_not_committed && negb any_established then NOT_COMMITTED
  else UNKNOWN.

(** ** Missing evidence *)

Definition TERMINAL_PROOF_REQUIRED : string := "authoritative-terminal-proof-required".
Definition EFFECT_PROOF_REQUIRED : string := "authoritative-effect-proof-required".

Definition reported_reasons (decisions : list EvidenceDecision) : list string :=
  map (λ d, EvidenceReason_value (ed_reason d))
    (filter (λ d, ed_disposition d ≠ ADMITTED) decisions).

Definition unresolved_effects (findings : list EffectFinding) : list string :=
  map ef_effect_id (filter (λ f, ef_state f ≠ ESTABLISHED) findings).

Definition missing_reason (conflicting : bool) (c : Classification)
  (decisions : list EvidenceDecision) : string :=
  if conflicting then EvidenceReason_value CONFLICTING_AUTHORITY
  else if bool_decide (c = PENDING) then TERMINAL_PROOF_REQUIRED
  else if bool_decide (c = PARTIAL) then EFFECT_PROOF_REQUIRED
  else match sorted_strings (remove_dups (reported_reasons decisions)) with
       | reason :: _ => reason
       | [] => EFFECT_PROOF_REQUIRED
       end.

Definition missing_evidence (conflicting : bool) (c : Classification)
  (findings : list EffectFinding) (decisions : list EvidenceDecision)
  : result py_error (list MissingEvidence) :=
  if inb c [COMMITTED; NOT_COMMITTED] then Ok []
  else
    m ← model_validate_missing {| me_effect_ids := unresolved_effects findings;
      me_reason := missing_reason conflicting c decisions |};
    Ok [m].

(** ** The evaluation *)

Definition core_classification (effects : list ExpectedEffect)
  (admitted : list NormalizedEvidence) : bool * option OperationStatus * Classification :=
  let established := effects_in_state ESTABLISHED admitted effects in
  let not_established := effects_in_state NOT_ESTABLISHED admitted effects in
  let statuses := statuses_of admitted in
  let any_established := negb (bool_decide (established = [])) in
  let all_established := (length established =? length effects)%nat in
  let effect_conflict :=
    existsb (λ x, contradictory (states_for (ee_effect_id x) admitted)) effects in
  let conflicting :=
    is_conflicting effect_conflict statuses any_established all_established in
  let status := operation_status_of conflicting statuses in
  (conflicting, status,
   classify conflicting all_established
     (is_partial (effect_scopes effects) established not_established) any_established status
     (inb TERMINAL_NOT_COMMITTED statuses)).

(** The second half of [evaluate_evidence], on deduplicated attempts. *)
Definition core_evaluation (envelope : ExecutionEnvelope)
  (attempts : list EvidenceAttempt) : result py_error CoreEvaluation :=
  pairs ← admitted_attempts envelope attempts;
  let admitted := pairs.*2 in
  let effects := en_expected_effects envelope in
  findings ← mapM (λ x, model_validate_finding (finding_of admitted x)) effects;
  let '(conflicting, status, classification) := core_classification effects admitted in
  proof ← model_validate_proof
    {| dp_effect_findings := findings;
       dp_operation_status := status;
       dp_conflicting_authority := conflicting;
       dp_admitted_evidence_ids := decision_ids pairs.*1 |};
  let decisions := map at_decision attempts in
  missing ← missing_evidence conflicting classification findings decisions;
  gates ← action_gates classification
    (pr_classification (policies (en_context envelope)))
    (pr_action (policies (en_context envelope)));
  Ok {| ce_envelope_sha256 := canonical_sha256 envelope;
        ce_attempts := attempts;
        ce_evidence := omap at_evidence attempts;
        ce_decisions := decisions;
        ce_proof := proof;
        ce_classification := classification;
        ce_action_gates := gates;
        ce_missing_evidence := missing |}.

Definition evaluate_evidence (envelope : ExecutionEnvelope)
  (attempts : list EvidenceAttempt) (audit_trail : list ControllerAuditRecord)
  : result py_error CoreEvaluation :=
  validate_ExecutionEnvelope envelope;;
  attempts ← recheck_attempts envelope attempts audit_trail;
  core_evaluation envelope attempts.

End classification.
