(* ===== verification/Report.v ===== *)
(** The investigation report as a contract: [InvestigationReport] and its
    validator (reconcile/contracts/report.py).

    [validate_references] is one long method; it is a sequence of phases here,
    in its order: status, identifiers, probe audit sources, evidence against
    audit, authority and reasons, admitted evidence, proof, advisory citations,
    action gates, classification precedence, missing evidence.  It recomputes
    from the report alone what the classifier computed from the attempts. *)

From S2P Require Export Classification.

#[local] Open Scope Z_scope.

Record InvestigationReport := {
  ir_investigation_id : string;
  ir_envelope_sha256 : string;
  ir_status : InvestigationStatus;
  ir_probe_audit : list ProbeAuditRecord;
  ir_evidence : list NormalizedEvidence;
  ir_evidence_decisions : list EvidenceDecision;
  ir_proof : option DeterministicProof;
  ir_classification : option Classification;
  ir_action_gate : list ActionGateResult;
  ir_missing_evidence : list MissingEvidence;
  ir_limitations : list string;
  ir_advisory_explanation : option AdvisoryExplanation;
  ir_created_at : datetime;
  ir_updated_at : datetime;
  ir_revision : Z;
}.

(** [d[key]] *)
Definition dict_item {V} (key : string) (d : list (string * V)) : result py_error V :=
  match dict_get key d with Some v => Ok v | None => Raise (KeyError key) end.

Section report.
Context {rt : Runtime} {sec : Security} {od : ObservationDecoder}.

Definition evidence_by_id (self : InvestigationReport) : list (string * NormalizedEvidence) :=
  map (λ e, (ne_evidence_id e, e)) (ir_evidence self).
Definition decision_by_id (self : InvestigationReport) : list (string * EvidenceDecision) :=
  map (λ d, (ed_evidence_id d, d)) (ir_evidence_decisions self).
Definition audit_by_evidence_id (self : InvestigationReport)
  : list (string * ProbeAuditRecord) :=
  concat (map (λ r, map (λ i, (i, r)) (pa_evidence_ids r)) (ir_probe_audit self)).

Definition ids_with (d : EvidenceDisposition) (self : InvestigationReport) : list string :=
  map ed_evidence_id
    (filter (λ x, ed_disposition x = d) (ir_evidence_decisions self)).

Definition is_rejected (d : EvidenceDecision) : bool :=
  bool_decide (ed_disposition d = REJECTED_EVIDENCE).

(** *** Bounds of the collection fields *)
Definition validate_bounds (self : InvestigationReport) : result py_error unit :=
  reject_if ((64 <? length (ir_probe_audit self)) || (64 <? length (ir_evidence self))
             || (64 <? length (ir_evidence_decisions self))
             || (64 <? length (ir_missing_evidence self))
             || (64 <? length (ir_limitations self)))%nat
    (ValueError "report collection is too long");;
  reject_if (negb (inb (length (ir_action_gate self)) [0; length all_actions])%nat)
    (ValueError "action gates are outside their bounds");;
  reject_if (negb (in_range 0 (ir_revision self) int64_max))
    (ValueError "revision is outside its range").

Definition validate_status (self : InvestigationReport) : result py_error unit :=
  reject_if (ir_updated_at self <? ir_created_at self)
    (ValueError "report update cannot precede creation");;
  reject_if (bool_decide (ir_status self = Report_COMPLETED)
             && (is_none (ir_proof self) || is_none (ir_classification self)
                 || bool_decide (length (ir_action_gate self) = 0%nat)))
    (ValueError "completed reports require proof, classification, and action gates");;
  reject_if (is_none (ir_classification self)
             && negb (bool_decide (length (ir_action_gate self) = 0%nat)))
    (ValueError "action gates require a classification").

Definition validate_identifiers (self : InvestigationReport) : result py_error unit :=
  let sequences := map pa_probe_sequence (ir_probe_audit self) in
  let evidence_ids := dict_keys (evidence_by_id self) in
  let decision_ids := dict_keys (decision_by_id self) in
  reject_if (negb (bool_decide (sequences = one_to (length sequences))))
    (ValueError "probe audit sequence must be contiguous and ordered");;
  reject_if (has_dup evidence_ids) (ValueError "evidence identifiers must be unique");;
  reject_if (has_dup decision_ids)
    (ValueError "evidence decision identifiers must be unique");;
  reject_if (negb (subsetb evidence_ids decision_ids))
    (ValueError "every normalized evidence item requires one decision");;
  reject_if (existsb (λ d, negb (is_rejected d) && negb (inb (ed_evidence_id d) evidence_ids))
               (ir_evidence_decisions self))
    (ValueError "only rejected attempts may omit normalized evidence").

Definition validate_audit_sources (self : InvestigationReport) : result py_error unit :=
  let decision_ids := dict_keys (decision_by_id self) in
  let sources := dict_keys (audit_by_evidence_id self) in
  for_each (λ r, reject_if (negb (subsetb (pa_evidence_ids r) decision_ids))
      (ValueError "probe audit references an unknown evidence decision"))
    (ir_probe_audit self);;
  reject_if (has_dup sources)
    (ValueError "evidence decisions require one probe audit source");;
  reject_if (negb (same_set decision_ids sources))
    (ValueError "every evidence decision requires one probe audit source").

(** One evidence item against its probe audit. *)
Definition check_evidence_audit (self : InvestigationReport) (e : NormalizedEvidence)
  : result py_error unit :=
  audit ← dict_item (ne_evidence_id e) (audit_by_evidence_id self);
  decision ← dict_item (ne_evidence_id e) (decision_by_id self);
  reject_if (negb (bool_decide (pa_outcome audit = Probe_COMPLETED)))
    (ValueError "normalized evidence requires a completed probe");;
  reject_if (negb (bool_decide (pa_capability_name audit = Some (ne_capability_name e)))
             || negb (bool_decide
                  (pa_capability_version audit = Some (ne_capability_version e))))
    (ValueError "evidence capability does not match its probe audit");;
  reject_if (negb (is_rejected decision)
             && negb (bool_decide
                  (pa_target_sha256 audit = canonical_sha256 (ne_target e))))
    (ValueError "evidence target does not match its probe audit");;
  reject_if (negb (bool_decide
               (pa_result_sha256 audit = Some (ro_sha256 (ne_raw_observation e))))
             || negb (bool_decide
               (pa_result_byte_count audit = Some (ro_byte_count (ne_raw_observation e)))))
    (ValueError "raw observation does not match its probe result");;
  reject_if (negb (pa_completed_at audit =? ep_retrieved_at (ne_provenance e)))
    (ValueError "evidence retrieval time does not match probe completion");;
  reject_if (negb (is_rejected decision)
             && negb (in_range (valid_from (ne_freshness e))
                        (ep_retrieved_at (ne_provenance e))
                        (valid_until (ne_freshness e))))
    (ValueError "retained evidence is outside its freshness window").

Definition check_authority (self : InvestigationReport) : result py_error unit :=
  for_each (λ i, e ← dict_item i (evidence_by_id self);
    reject_if (negb (bool_decide (ne_authority e = TARGET_STATE)))
      (ValueError "only target-state evidence can be admitted")) (ids_with ADMITTED self);;
  for_each (λ i, e ← dict_item i (evidence_by_id self);
    reject_if (bool_decide (ne_authority e = TARGET_STATE))
      (ValueError "target-state evidence cannot be retained as weak")) (ids_with WEAK self).

Definition expected_weak_reason (a : EvidenceAuthority) : option EvidenceReason :=
  match a with
  | SUPPLEMENTARY => Some NON_AUTHORITATIVE_LOG_ONLY
  | WEAK_AUTHORITY => Some NOT_FOUND_ABSENCE_ONLY
  | TARGET_STATE => None
  end.

Definition expected_admitted_reason (s : option OperationStatus) : EvidenceReason :=
  match s with
  | Some ACTIVE | Some UNRESOLVED => AUTHORITATIVE_ACTIVE_STATUS
  | Some TERMINAL_NOT_COMMITTED => AUTHORITATIVE_AFFIRMATIVE_NON_EXECUTION
  | _ => AUTHORITATIVE_EXACT_CORRELATION
  end.

(** A retained decision's reason against its evidence. *)
Definition check_reason (self : InvestigationReport) (d : EvidenceDecision)
  : result py_error unit :=
  match dict_get (ed_evidence_id d) (evidence_by_id self), ed_disposition d with
  | None, _ | _, REJECTED_EVIDENCE => Ok tt
  | Some e, WEAK =>
      reject_if (negb (bool_decide
          (expected_weak_reason (ne_authority e) = Some (ed_reason d))))
        (ValueError "weak evidence reason does not match its authority")
  | Some e, ADMITTED =>
      reject_if (negb (bool_decide
          (ed_reason d = expected_admitted_reason (ne_operation_status e))))
        (ValueError "admitted evidence reason does not match its semantics")
  end.

Definition check_admitted_evidence (self : InvestigationReport) : result py_error unit :=
  admitted ← mapM (λ i, dict_item i (evidence_by_id self)) (ids_with ADMITTED self);
  match admitted with
  | [] => Ok tt
  | first :: rest =>
      reject_if (existsb (λ e, negb (bool_decide
          (canonical_sha256 (ne_target e) = canonical_sha256 (ne_target first)))) rest)
        (ValueError "admitted evidence targets must match");;
      reject_if (existsb (λ e, negb (bool_decide
          (ne_authority_policy_version e = ne_authority_policy_version first))) rest)
        (ValueError "admitted evidence authority policies must match")
  end.

(** *** The proof against the evidence *)

(** The admitted evidence the proof names, checked to assert only its effects. *)
Definition proof_evidence (self : InvestigationReport) (proof : DeterministicProof)
  : result py_error (list NormalizedEvidence) :=
  mapM (λ i,
    e ← dict_item i (evidence_by_id self);
    reject_if (negb (subsetb (effect_ids (ne_effect_assertions e))
                       (finding_ids (dp_effect_findings proof))))
      (ValueError "admitted assertion is absent from deterministic proof");;
    Ok e) (dp_admitted_evidence_ids proof).

(** The state evidence asserts of an effect. *)
Definition asserted_state (effect_id : string) (e : NormalizedEvidence)
  : option EffectAssertionState :=
  dict_get effect_id
    (map (λ a, (ea_effect_id a, ea_state a)) (ne_effect_assertions e)).

Definition check_finding (self : InvestigationReport) (proof : DeterministicProof)
  (admitted : list NormalizedEvidence) (f : EffectFinding) : result py_error unit :=
  let values := assertions_for (ef_effect_id f) admitted in
  let state := ef_state f in
  reject_if (negb (subsetb (ef_evidence_ids f) (dp_admitted_evidence_ids proof)))
    (ValueError "effect finding references evidence not admitted");;
  reject_if (negb (bool_decide (state = UNVERIFIED))
             && bool_decide (ef_evidence_ids f = []))
    (ValueError "definitive effect findings require evidence");;
  reject_if (negb (bool_decide (state = finding_state (definitive values).*1)))
    (ValueError "effect finding does not match aggregate admitted evidence");;
  reject_if (negb (bool_decide (ef_evidence_ids f = sorted_strings (definitive values).*2)))
    (ValueError "effect finding must cite every definitive assertion");;
  cited_states ← mapM (λ i,
    e ← dict_item i (evidence_by_id self);
    match asserted_state (ef_effect_id f) e with
    | Some s => Ok s
    | None => Raise (ValueError "effect finding is not supported by its cited evidence")
    end) (ef_evidence_ids f);
  if bool_decide (state = UNVERIFIED) && negb (bool_decide (ef_evidence_ids f = []))
  then
    reject_if (negb (dp_conflicting_authority proof) || negb (contradictory cited_states))
      (ValueError "unverified finding citations require conflicting authority")
  else
    reject_if (existsb (λ s, negb (bool_decide (s = state))) cited_states)
      (ValueError "effect finding is not supported by its cited evidence").

Definition is_established (f : EffectFinding) : bool :=
  bool_decide (ef_state f = ESTABLISHED).

Definition check_proof (self : InvestigationReport) (proof : DeterministicProof)
  : result py_error unit :=
  let findings := dp_effect_findings proof in
  reject_if (negb (same_set (dp_admitted_evidence_ids proof) (ids_with ADMITTED self)))
    (ValueError "proof must include every admitted evidence item");;
  admitted ← proof_evidence self proof;
  for_each (check_finding self proof admitted) findings;;
  let statuses := statuses_of admitted in
  let effect_conflict := existsb (λ f,
    contradictory (definitive (assertions_for (ef_effect_id f) admitted)).*1) findings in
  let aggregate_conflict := is_conflicting effect_conflict statuses
    (existsb is_established findings) (forallb is_established findings) in
  reject_if (negb (eqb aggregate_conflict (dp_conflicting_authority proof)))
    (ValueError "conflict flag does not match aggregate admitted evidence");;
  reject_if (negb (bool_decide (dp_operation_status proof
                                = operation_status_of aggregate_conflict statuses)))
    (ValueError "operation status does not match aggregate admitted evidence").

Definition check_advisory (self : InvestigationReport) : result py_error unit :=
  match ir_advisory_explanation self with
  | Some x =>
      reject_if (negb (subsetb (ax_cited_evidence_ids x)
                         (ids_with ADMITTED self ++ ids_with WEAK self)))
        (ValueError "advisory explanation must cite admitted or weak evidence")
  | None => Ok tt
  end.

Definition check_gates (self : InvestigationReport) : result py_error unit :=
  let gates := ir_action_gate self in
  let actions := map ag_requested_action gates in
  reject_if (has_dup actions) (ValueError "action gate requests must be unique");;
  reject_if (negb (bool_decide (actions = [])) && negb (bool_decide (actions = all_actions)))
    (ValueError "action gates must cover every v1 requested action");;
  match ir_classification self with
  | Some c =>
      reject_if (existsb (λ g, negb (bool_decide (ag_classification g = c))) gates)
        (ValueError "action gate classification must match the report")
  | None => Ok tt
  end;;
  match gates with
  | [] => Ok tt
  | first :: rest =>
      reject_if (existsb (λ g,
          negb (bool_decide (ag_classification_policy_version g
                             = ag_classification_policy_version first))
          || negb (bool_decide (ag_action_policy_version g
                                = ag_action_policy_version first))) rest)
        (ValueError "action gates must use one policy version pair")
  end.

(** *** Classification *)

Definition finding_scopes (findings : list EffectFinding) : list (string * string) :=
  map (λ f, (ef_effect_id f, ef_commit_scope f)) findings.

Definition ids_in_state (s : EffectAssertionState) (findings : list EffectFinding)
  : list string := map ef_effect_id (filter (λ f, ef_state f = s) findings).

(** A commit scope with established and other effects. *)
Definition splits_scope (findings : list EffectFinding) : bool :=
  existsb (λ scope,
    let values := map is_established (filter (λ f, ef_commit_scope f = scope) findings) in
    inb true values && inb false values)
    (map ef_commit_scope findings).

Definition check_classification_rules (proof : DeterministicProof) (c : Classification)
  : result py_error unit :=
  let findings := dp_effect_findings proof in
  let states := map ef_state findings in
  let established := filter (λ f, ef_state f = ESTABLISHED) findings in
  let conflicting := dp_conflicting_authority proof in
  let status := dp_operation_status proof in
  let none_established := bool_decide (length established = 0%nat) in
  let all_established := (length established =? length states)%nat in
  reject_if (conflicting && negb (bool_decide (c = UNKNOWN)))
    (ValueError "conflicting authority requires UNKNOWN");;
  reject_if (bool_decide (c = COMMITTED)
             && (conflicting || existsb (λ s, negb (bool_decide (s = ESTABLISHED))) states))
    (ValueError "COMMITTED requires every effect to be established");;
  reject_if (bool_decide (c = NOT_COMMITTED)
             && (conflicting || negb (bool_decide (status = Some TERMINAL_NOT_COMMITTED))
                 || negb none_established))
    (ValueError "NOT_COMMITTED requires affirmative terminal non-execution");;
  reject_if (bool_decide (c = PARTIAL)
             && (conflicting || none_established || all_established
                 || inb UNVERIFIED states || bool_decide (status = Some ACTIVE)))
    (ValueError "PARTIAL requires a terminal strict subset of effects");;
  reject_if (bool_decide (c = PARTIAL) && splits_scope findings)
    (ValueError "PARTIAL cannot split effects in one atomic commit scope");;
  reject_if (bool_decide (c = PENDING)
             && (conflicting || negb (inb status [Some ACTIVE; Some UNRESOLVED])
                 || all_established))
    (ValueError "PENDING requires an unresolved operation without complete proof").

(** The classification the proof alone gives. *)
Definition expected_classification (proof : DeterministicProof) : Classification :=
  let findings := dp_effect_findings proof in
  let established_ids := ids_in_state ESTABLISHED findings in
  let partial := is_partial (finding_scopes findings) established_ids
    (ids_in_state NOT_ESTABLISHED findings) in
  classify (dp_conflicting_authority proof)
    (length established_ids =? length findings)%nat partial
    (negb (bool_decide (established_ids = [])))
    (dp_operation_status proof)
    (bool_decide (dp_operation_status proof = Some TERMINAL_NOT_COMMITTED)).

Definition expected_missing_reason (self : InvestigationReport)
  (proof : DeterministicProof) (c : Classification) : option string :=
  if dp_conflicting_authority proof
  then Some (EvidenceReason_value CONFLICTING_AUTHORITY)
  else match c with
       | PARTIAL => Some EFFECT_PROOF_REQUIRED
       | PENDING => Some TERMINAL_PROOF_REQUIRED
       | UNKNOWN =>
           Some match sorted_strings (reported_reasons (ir_evidence_decisions self)) with
                | reason :: _ => reason
                | [] => EFFECT_PROOF_REQUIRED
                end
       | _ => None
       end.

Definition check_missing (self : InvestigationReport) (proof : DeterministicProof)
  (c : Classification) : result py_error unit :=
  if inb c [COMMITTED; NOT_COMMITTED] then
    reject_if (negb (bool_decide (ir_missing_evidence self = [])))
      (ValueError "definitive classifications cannot list missing evidence")
  else match ir_missing_evidence self with
  | [missing] =>
      reject_if (negb (bool_decide (me_effect_ids missing
                                    = unresolved_effects (dp_effect_findings proof))))
        (ValueError "missing evidence must list every unresolved effect");;
      match expected_missing_reason self proof c with
      | Some reason =>
          reject_if (negb (bool_decide (me_reason missing = reason)))
            (ValueError "missing evidence reason does not match classification")
      | None => Ok tt
      end
  | _ => Raise (ValueError "non-definitive classifications require missing evidence")
  end.

Definition check_classification (self : InvestigationReport) : result py_error unit :=
  match ir_classification self, ir_proof self with
  | Some c, Some proof =>
      check_classification_rules proof c;;
      reject_if (negb (bool_decide (c = expected_classification proof)))
        (ValueError "classification does not match deterministic proof precedence");;
      check_missing self proof c
  | _, _ => Ok tt
  end.

(** [InvestigationReport.validate_references] *)
Definition validate_references (self : InvestigationReport) : result py_error unit :=
  validate_status self;;
  validate_identifiers self;;
  validate_audit_sources self;;
  for_each (check_evidence_audit self) (ir_evidence self);;
  check_authority self;;
  for_each (check_reason self) (ir_evidence_decisions self);;
  check_admitted_evidence self;;
  match ir_proof self with Some proof => check_proof self proof | None => Ok tt end;;
  check_advisory self;;
  check_gates self;;
  check_classification self.

Definition model_validate_report (self : InvestigationReport)
  : result py_error InvestigationReport :=
  validate_bounds self;;
  validate_references self;;
  Ok self.

End report.

#[export] Instance InvestigationReport_json : ToJson InvestigationReport := λ m, JObj
  [("schema_version", JStr "reconcile/investigation-report/v1");
   ("investigation_id", JStr (ir_investigation_id m));
   ("envelope_sha256", JStr (ir_envelope_sha256 m));
   ("status", JStr (InvestigationStatus_value (ir_status m)));
   ("probe_audit", to_json (ir_probe_audit m));
   ("evidence", to_json (ir_evidence m));
   ("evidence_decisions", to_json (ir_evidence_decisions m));
   ("proof", to_json (ir_proof m));
   ("classification", match ir_classification m with
      | Some c => JStr (Classification_value c) | None => JNull end);
   ("action_gate", to_json (ir_action_gate m));
   ("missing_evidence", to_json (ir_missing_evidence m));
   ("limitations", to_json (ir_limitations m));
   ("advisory_explanation", to_json (ir_advisory_explanation m));
   ("created_at", time_json (ir_created_at m));
   ("updated_at", time_json (ir_updated_at m));
   ("revision", JInt (ir_revision m))].
