(* ===== verification/RecoveryContracts.v ===== *)
(** Contracts of proof-scoped recovery (reconcile/contracts/recovery.py, and
    the dispatch receipt of reconcile/contracts/recovery_scenario.py): recovery
    chains, hypotheses, certificates and ambiguity witnesses, with their model
    validators.  The permit of the same file is in Permit.v.

    [validate_graph] walks the dependency graph of a chain depth first; [visit]
    is its inner function, with fuel.  A chain has at most 32 nodes, and every
    nested call is on a node not yet being visited, so a call per node and one
    more is enough ([validate_graph_spec]). *)

From S2P Require Export Permit Report.

#[local] Open Scope Z_scope.

(** ** Data *)

Record ExecutionEnvelopeReference := {
  er_investigation_id : string;
  er_operation_id : string;
  er_envelope_sha256 : string;
}.

Record SemanticActionIdentity := {
  sa_key_version : string;
  sa_tool_name : string;
  sa_tool_version : string;
  sa_semantic_arguments : json_object;
  sa_target : TargetBinding;
  sa_expected_effect_sha256s : list string;
  sa_action_profile_version : string;
  sa_semantic_action_sha256 : string;
}.

Record RecoveryActionNode := {
  rn_node_id : string;
  rn_chain_profile_version : string;
  rn_semantic_action : SemanticActionIdentity;
  rn_depends_on : list string;
  rn_envelope : ExecutionEnvelopeReference;
}.

Record RecoveryChain := {
  rc_chain_id : string;
  rc_chain_profile_version : string;
  rc_nodes : list RecoveryActionNode;
  rc_created_at : datetime;
}.

Record HypothesizedEffect := {
  he_effect_id : string;
  he_state : EffectAssertionState;
  he_cited_evidence_ids : list string;
}.

Record PossibleHistory := {
  ph_history_id : string;
  ph_classification : Classification;
  ph_effect_states : list HypothesizedEffect;
  ph_compatible_evidence_ids : list string;
  ph_summary : string;
}.

Record HypothesisMissingEvidence := {
  hm_effect_ids : list string;
  hm_reason : string;
}.

Record ProposedTransition := {
  pt_action : PermitAction;
  pt_source_node_id : string;
  pt_target_node_id : string;
  pt_rationale : string;
}.

Record GeminiHypothesis := {
  gh_hypothesis_id : string;
  gh_chain_id : string;
  gh_node_id : string;
  gh_semantic_action_sha256 : string;
  gh_report_sha256 : string;
  gh_proposed_classification : Classification;
  gh_effect_hypotheses : list HypothesizedEffect;
  gh_cited_evidence_ids : list string;
  gh_confidence_basis_points : Z;
  gh_alternative_histories : list PossibleHistory;
  gh_missing_evidence : list HypothesisMissingEvidence;
  gh_proposed_probe : option ProbeRequest;
  gh_proposed_transition : option ProposedTransition;
  gh_explanation : string;
  gh_created_at : datetime;
}.

Record RecoveryEvidenceBinding := {
  rb_evidence_id : string;
  rb_evidence_sha256 : string;
  rb_raw_observation_sha256 : string;
  rb_valid_until : datetime;
}.

Record VerifiedCertificate := {
  vc_certificate_id : string;
  vc_chain_id : string;
  vc_node_id : string;
  vc_semantic_action_sha256 : string;
  vc_chain_sha256 : string;
  vc_node_sha256 : string;
  vc_envelope_sha256 : string;
  vc_report_sha256 : string;
  vc_proof_sha256 : string;
  vc_target : TargetBinding;
  vc_target_sha256 : string;
  vc_evidence : list RecoveryEvidenceBinding;
  vc_authority_policy_version : string;
  vc_correlation_policy_version : string;
  vc_freshness_policy_version : string;
  vc_classification_policy_version : string;
  vc_action_policy_version : string;
  vc_action_profile_version : string;
  vc_verifier_version : string;
  vc_classification : Classification;
  vc_transition : option CertifiedTransition;
  vc_issued_at : datetime;
  vc_expires_at : datetime;
}.

Record DiscriminatingObservation := {
  do_observation_id : string;
  do_description : string;
  do_capability_name : option string;
  do_capability_version : option string;
  do_relevant_effect_ids : list string;
  do_distinguishes_history_ids : list string;
}.

Record AmbiguityWitness := {
  aw_witness_id : string;
  aw_chain_id : string;
  aw_node_id : string;
  aw_semantic_action_sha256 : string;
  aw_chain_sha256 : string;
  aw_node_sha256 : string;
  aw_envelope_sha256 : string;
  aw_report_sha256 : string;
  aw_proof_sha256 : string;
  aw_target : TargetBinding;
  aw_target_sha256 : string;
  aw_evidence : list RecoveryEvidenceBinding;
  aw_possible_histories : list PossibleHistory;
  aw_discriminating_observations : list DiscriminatingObservation;
  aw_conflicting_evidence_ids : list string;
  aw_verifier_version : string;
  aw_created_at : datetime;
}.

(** reconcile/contracts/recovery_scenario.py *)
Inductive RecoveryReceiptOutcome :=
  | PROVIDER_CONTACTED | SUPPRESSED_BEFORE_DISPATCH | REJECTED_BEFORE_PROVIDER_CONTACT.

Record RecoveryDispatchReceipt := {
  dr_receipt_id : string;
  dr_run_id : string;
  dr_release_id : string;
  dr_node_id : string;
  dr_semantic_action_sha256 : string;
  dr_action_request_sha256 : string;
  dr_authority_id : string;
  dr_claim_id : string;
  dr_attempt : Z;
  dr_provider_contact : bool;
  dr_outcome : RecoveryReceiptOutcome;
  dr_recorded_at : datetime;
}.

#[export] Instance ExecutionEnvelopeReference_eq_dec :
  EqDecision ExecutionEnvelopeReference.
Proof. solve_decision. Defined.
#[export] Instance SemanticActionIdentity_eq_dec : EqDecision SemanticActionIdentity.
Proof. solve_decision. Defined.
#[export] Instance RecoveryActionNode_eq_dec : EqDecision RecoveryActionNode.
Proof. solve_decision. Defined.
#[export] Instance HypothesizedEffect_eq_dec : EqDecision HypothesizedEffect.
Proof. solve_decision. Defined.
#[export] Instance PossibleHistory_eq_dec : EqDecision PossibleHistory.
Proof. solve_decision. Defined.
#[export] Instance RecoveryEvidenceBinding_eq_dec : EqDecision RecoveryEvidenceBinding.
Proof. solve_decision. Defined.
#[export] Instance RecoveryReceiptOutcome_eq_dec : EqDecision RecoveryReceiptOutcome.
Proof. solve_decision. Defined.
#[export] Instance RecoveryDispatchReceipt_eq_dec : EqDecision RecoveryDispatchReceipt.
Proof. solve_decision. Defined.

(** ** Wire forms *)

#[export] Instance ExecutionEnvelopeReference_json : ToJson ExecutionEnvelopeReference :=
  λ m, JObj
  [("investigation_id", JStr (er_investigation_id m));
   ("operation_id", JStr (er_operation_id m));
   ("envelope_sha256", JStr (er_envelope_sha256 m))].

#[export] Instance SemanticActionIdentity_json : ToJson SemanticActionIdentity := λ m, JObj
  [("key_version", JStr (sa_key_version m)); ("tool_name", JStr (sa_tool_name m));
   ("tool_version", JStr (sa_tool_version m));
   ("semantic_arguments", JObj (sa_semantic_arguments m));
   ("target", to_json (sa_target m));
   ("expected_effect_sha256s", to_json (sa_expected_effect_sha256s m));
   ("action_profile_version", JStr (sa_action_profile_version m));
   ("semantic_action_sha256", JStr (sa_semantic_action_sha256 m))].

#[export] Instance RecoveryActionNode_json : ToJson RecoveryActionNode := λ m, JObj
  [("node_id", JStr (rn_node_id m));
   ("chain_profile_version", JStr (rn_chain_profile_version m));
   ("semantic_action", to_json (rn_semantic_action m));
   ("depends_on", to_json (rn_depends_on m));
   ("envelope", to_json (rn_envelope m))].

#[export] Instance RecoveryChain_json : ToJson RecoveryChain := λ m, JObj
  [("schema_version", JStr "reconcile/recovery-chain/v1");
   ("chain_id", JStr (rc_chain_id m));
   ("chain_profile_version", JStr (rc_chain_profile_version m));
   ("nodes", to_json (rc_nodes m));
   ("created_at", time_json (rc_created_at m))].

#[export] Instance HypothesizedEffect_json : ToJson HypothesizedEffect := λ m, JObj
  [("effect_id", JStr (he_effect_id m));
   ("state", JStr (EffectAssertionState_value (he_state m)));
   ("cited_evidence_ids", to_json (he_cited_evidence_ids m))].

#[export] Instance PossibleHistory_json : ToJson PossibleHistory := λ m, JObj
  [("history_id", JStr (ph_history_id m));
   ("classification", JStr (Classification_value (ph_classification m)));
   ("effect_states", to_json (ph_effect_states m));
   ("compatible_evidence_ids", to_json (ph_compatible_evidence_ids m));
   ("summary", JStr (ph_summary m))].

#[export] Instance RecoveryEvidenceBinding_json : ToJson RecoveryEvidenceBinding := λ m, JObj
  [("evidence_id", JStr (rb_evidence_id m));
   ("evidence_sha256", JStr (rb_evidence_sha256 m));
   ("raw_observation_sha256", JStr (rb_raw_observation_sha256 m));
   ("valid_until", time_json (rb_valid_until m))].

#[export] Instance VerifiedCertificate_json : ToJson VerifiedCertificate := λ m, JObj
  [("schema_version", JStr "reconcile/verified-certificate/v1");
   ("certificate_id", JStr (vc_certificate_id m)); ("chain_id", JStr (vc_chain_id m));
   ("node_id", JStr (vc_node_id m));
   ("semantic_action_sha256", JStr (vc_semantic_action_sha256 m));
   ("chain_sha256", JStr (vc_chain_sha256 m)); ("node_sha256", JStr (vc_node_sha256 m));
   ("envelope_sha256", JStr (vc_envelope_sha256 m));
   ("report_sha256", JStr (vc_report_sha256 m));
   ("proof_sha256", JStr (vc_proof_sha256 m)); ("target", to_json (vc_target m));
   ("target_sha256", JStr (vc_target_sha256 m)); ("evidence", to_json (vc_evidence m));
   ("authority_satisfied", JBool true); ("correlation_satisfied", JBool true);
   ("freshness_satisfied", JBool true);
   ("authority_policy_version", JStr (vc_authority_policy_version m));
   ("correlation_policy_version", JStr (vc_correlation_policy_version m));
   ("freshness_policy_version", JStr (vc_freshness_policy_version m));
   ("classification_policy_version", JStr (vc_classification_policy_version m));
   ("action_policy_version", JStr (vc_action_policy_version m));
   ("action_profile_version", JStr (vc_action_profile_version m));
   ("verifier_version", JStr (vc_verifier_version m));
   ("classification", JStr (Classification_value (vc_classification m)));
   ("transition", to_json (vc_transition m));
   ("issued_at", time_json (vc_issued_at m));
   ("expires_at", time_json (vc_expires_at m))].

#[export] Instance DiscriminatingObservation_json : ToJson DiscriminatingObservation :=
  λ m, JObj
  [("observation_id", JStr (do_observation_id m));
   ("description", JStr (do_description m));
   ("capability_name", to_json (do_capability_name m));
   ("capability_version", to_json (do_capability_version m));
   ("relevant_effect_ids", to_json (do_relevant_effect_ids m));
   ("distinguishes_history_ids", to_json (do_distinguishes_history_ids m))].

(** ** Validators *)

(** [_require_unique] *)
Definition require_unique `{EqDecision A} (values : list A) (label : string)
  : result py_error unit :=
  reject_if (has_dup values) (ValueError (label +:+ " must be unique")).

Definition bounded_length {A} (low high : Z) (l : list A) (label : string)
  : result py_error unit :=
  reject_if (negb (in_range low (Z.of_nat (length l)) high))
    (ValueError (label +:+ " is outside its bounds")).

Section validators.
Context {rt : Runtime} {sec : Security}.

Definition semantic_action_sha256 (key_version tool_name tool_version : string)
  (semantic_arguments : json_object) (target : TargetBinding)
  (expected_effect_sha256s : list string) (action_profile_version : string)
  : result py_error string :=
  payload ← canonical_json_value_bytes (JObj
    [("action_profile_version", JStr action_profile_version);
     ("expected_effect_sha256s", to_json expected_effect_sha256s);
     ("key_version", JStr key_version);
     ("semantic_arguments", JObj semantic_arguments);
     ("target", to_json target);
     ("tool_name", JStr tool_name);
     ("tool_version", JStr tool_version)]);
  Ok (sha256_hex payload).

(** [SemanticActionIdentity.validate_identity] with the bounds of its fields. *)
Definition validate_identity (self : SemanticActionIdentity) : result py_error unit :=
  validate_TargetBinding (sa_target self);;
  reject_if (64 <? length (sa_semantic_arguments self))%nat
    (ValueError "arguments have too many entries");;
  validate_json 0 (JObj (sa_semantic_arguments self));;
  bounded_length 1 64 (sa_expected_effect_sha256s self) "effect digest collection";;
  reject_sensitive_keys (JObj (sa_semantic_arguments self));;
  reject_sensitive_values (JObj (sa_semantic_arguments self));;
  require_unique (sa_expected_effect_sha256s self) "semantic action effect digests";;
  expected ← semantic_action_sha256 (sa_key_version self) (sa_tool_name self)
    (sa_tool_version self) (sa_semantic_arguments self) (sa_target self)
    (sa_expected_effect_sha256s self) (sa_action_profile_version self);
  reject_if (negb (bool_decide (expected = sa_semantic_action_sha256 self)))
    (ValueError "semantic action digest does not match its trusted fields").

Definition validate_dependencies (self : RecoveryActionNode) : result py_error unit :=
  bounded_length 0 32 (rn_depends_on self) "node dependency collection";;
  require_unique (rn_depends_on self) "node dependencies";;
  reject_if (inb (rn_node_id self) (rn_depends_on self))
    (ValueError "a recovery node cannot depend on itself").

(** *** The dependency graph of a chain *)

Definition node_ids (self : RecoveryChain) : list string := map rn_node_id (rc_nodes self).

(** [dependencies], the dict built from the nodes. *)
Definition dependencies (self : RecoveryChain) : list (string * list string) :=
  map (λ node, (rn_node_id node, rn_depends_on node)) (rc_nodes self).

(** [visiting] and [visited] *)
Record walk := { wk_visiting : list string; wk_visited : list string }.

Fixpoint visit (fuel : nat) (deps : list (string * list string)) (s : walk)
  (node_id : string) : result py_error walk :=
  match fuel with
  | O => Raise (RuntimeError "maximum recursion depth exceeded")
  | S fuel' =>
      if inb node_id (wk_visiting s)
      then Raise (ValueError "recovery chain must be acyclic")
      else if inb node_id (wk_visited s) then Ok s
      else
        node_dependencies ← dict_item node_id deps;
        s' ← fold_result (visit fuel' deps)
               {| wk_visiting := node_id :: wk_visiting s; wk_visited := wk_visited s |}
               node_dependencies;
        Ok {| wk_visiting := filter (λ x, x ≠ node_id) (wk_visiting s');
              wk_visited := node_id :: wk_visited s' |}
  end.

Definition envelope_refs (self : RecoveryChain) : list (string * string * string) :=
  map (λ node, (er_investigation_id (rn_envelope node), er_operation_id (rn_envelope node),
                er_envelope_sha256 (rn_envelope node))) (rc_nodes self).

Definition semantic_keys (self : RecoveryChain) : list string :=
  map (λ node, sa_semantic_action_sha256 (rn_semantic_action node)) (rc_nodes self).

Definition validate_graph (self : RecoveryChain) : result py_error unit :=
  require_unique (node_ids self) "recovery node identifiers";;
  require_unique (semantic_keys self) "recovery semantic action keys";;
  require_unique (envelope_refs self) "recovery envelope references";;
  reject_if (existsb (λ node, negb (bool_decide
      (rn_chain_profile_version node = rc_chain_profile_version self))) (rc_nodes self))
    (ValueError "node chain profile versions must match the chain");;
  reject_if (existsb (λ node, existsb (λ dependency,
      negb (inb dependency (node_ids self))) (rn_depends_on node)) (rc_nodes self))
    (ValueError "recovery node references a missing dependency");;
  s ← fold_result (visit (S (length (rc_nodes self))) (dependencies self))
        {| wk_visiting := []; wk_visited := [] |} (node_ids self);
  Ok tt.

(** [RecoveryChain.model_validate]: every node, then the graph. *)
Definition validate_RecoveryChain (self : RecoveryChain) : result py_error unit :=
  bounded_length 1 32 (rc_nodes self) "recovery node collection";;
  for_each (λ node, validate_identity (rn_semantic_action node);;
                    validate_dependencies node) (rc_nodes self);;
  validate_graph self.

(** *** Hypotheses and histories *)

Definition validate_citations (self : HypothesizedEffect) : result py_error unit :=
  bounded_length 0 64 (he_cited_evidence_ids self) "citation collection";;
  require_unique (he_cited_evidence_ids self) "effect hypothesis citations".

Definition cited_ids (effects : list HypothesizedEffect) : list string :=
  effects ≫= he_cited_evidence_ids.

Definition history_states (self : PossibleHistory) : list EffectAssertionState :=
  map he_state (ph_effect_states self).

Definition validate_possible_history (self : PossibleHistory) : result py_error unit :=
  bounded_length 1 64 (ph_effect_states self) "history effect collection";;
  bounded_length 0 64 (ph_compatible_evidence_ids self) "history evidence collection";;
  for_each validate_citations (ph_effect_states self);;
  require_unique (map he_effect_id (ph_effect_states self)) "history effect identifiers";;
  require_unique (ph_compatible_evidence_ids self) "history evidence identifiers";;
  reject_if (negb (subsetb (cited_ids (ph_effect_states self))
                     (ph_compatible_evidence_ids self)))
    (ValueError "history effect citations must be compatible evidence");;
  let states := history_states self in
  let c := ph_classification self in
  reject_if (bool_decide (c = COMMITTED)
             && existsb (λ s, negb (bool_decide (s = ESTABLISHED))) states)
    (ValueError "COMMITTED history requires every effect established");;
  reject_if (bool_decide (c = NOT_COMMITTED)
             && existsb (λ s, negb (bool_decide (s = NOT_ESTABLISHED))) states)
    (ValueError "NOT_COMMITTED history requires every effect absent");;
  reject_if (bool_decide (c = PARTIAL)
             && (inb UNVERIFIED states || negb (inb ESTABLISHED states)
                 || negb (inb NOT_ESTABLISHED states)))
    (ValueError "PARTIAL history requires a complete mixed effect state");;
  reject_if (bool_decide (c = PENDING) && negb (inb UNVERIFIED states))
    (ValueError "PENDING history requires an unresolved effect").

Definition validate_missing_hypothesis (self : HypothesisMissingEvidence)
  : result py_error unit :=
  bounded_length 1 64 (hm_effect_ids self) "missing-evidence effect collection";;
  require_unique (hm_effect_ids self) "missing-evidence effect identifiers".

Definition validate_proposal_target (self : ProposedTransition) : result py_error unit :=
  reject_if (bool_decide (pt_action self = RETRY)
             && negb (bool_decide (pt_target_node_id self = pt_source_node_id self)))
    (ValueError "a retry proposal must target its source node");;
  reject_if (bool_decide (pt_action self = CONTINUE)
             && bool_decide (pt_target_node_id self = pt_source_node_id self))
    (ValueError "a continuation proposal must target a successor node").

Definition validate_hypothesis (self : GeminiHypothesis) : result py_error unit :=
  bounded_length 1 64 (gh_effect_hypotheses self) "effect hypothesis collection";;
  bounded_length 0 64 (gh_cited_evidence_ids self) "citation collection";;
  reject_if (negb (in_range 0 (gh_confidence_basis_points self) 10000))
    (ValueError "confidence is outside its range");;
  bounded_length 0 8 (gh_alternative_histories self) "history collection";;
  bounded_length 0 64 (gh_missing_evidence self) "missing-evidence collection";;
  for_each validate_citations (gh_effect_hypotheses self);;
  for_each validate_possible_history (gh_alternative_histories self);;
  for_each validate_missing_hypothesis (gh_missing_evidence self);;
  match gh_proposed_probe self with Some probe => validate_request probe | None => Ok tt end;;
  match gh_proposed_transition self with
  | Some t => validate_proposal_target t | None => Ok tt end;;
  require_unique (map he_effect_id (gh_effect_hypotheses self))
    "hypothesis effect identifiers";;
  require_unique (gh_cited_evidence_ids self) "hypothesis evidence citations";;
  require_unique (map ph_history_id (gh_alternative_histories self))
    "alternative history identifiers";;
  require_unique (gh_missing_evidence self ≫= hm_effect_ids)
    "missing-evidence effect identifiers";;
  reject_if (is_some (gh_proposed_probe self) && is_some (gh_proposed_transition self))
    (ValueError "a hypothesis may propose one probe or one action, not both");;
  let cited := gh_cited_evidence_ids self in
  let referenced := cited_ids (gh_effect_hypotheses self)
    ++ (gh_alternative_histories self ≫= ph_compatible_evidence_ids) in
  reject_if (negb (subsetb referenced cited))
    (ValueError "hypothesis details cite undeclared evidence");;
  reject_if (bool_decide (cited = []) && bool_decide (length (gh_missing_evidence self) = O))
    (ValueError "a hypothesis requires evidence citations or missing evidence");;
  reject_if (match gh_proposed_transition self with
             | Some t => negb (bool_decide (pt_source_node_id t = gh_node_id self))
             | None => false end)
    (ValueError "a proposed transition must start at the bound node");;
  reject_if (match gh_proposed_probe self with
             | Some probe => negb (subsetb (pr_relevant_effect_ids probe)
                                     (map he_effect_id (gh_effect_hypotheses self)))
             | None => false end)
    (ValueError "a proposed probe references an unknown effect").

(** *** Certificates *)

(** [min(...)] of a nonempty list. *)
Definition min_time (t : datetime) (l : list datetime) : datetime := foldr Z.min t l.

Definition expected_permit_action (c : Classification) : option PermitAction :=
  match c with
  | COMMITTED => Some CONTINUE
  | NOT_COMMITTED => Some RETRY
  | _ => None
  end.

Definition validate_certificate (self : VerifiedCertificate) : result py_error unit :=
  validate_TargetBinding (vc_target self);;
  bounded_length 1 64 (vc_evidence self) "certificate evidence collection";;
  match vc_transition self with
  | Some t => validate_transition_target t | None => Ok tt end;;
  reject_if (negb (bool_decide (vc_target_sha256 self = canonical_sha256 (vc_target self))))
    (ValueError "certificate target digest does not match its target");;
  reject_if (vc_expires_at self <=? vc_issued_at self)
    (ValueError "certificate validity interval must be nonempty");;
  require_unique (map rb_evidence_id (vc_evidence self)) "certificate evidence identifiers";;
  require_unique (map rb_evidence_sha256 (vc_evidence self)) "certificate evidence digests";;
  reject_if (match map rb_valid_until (vc_evidence self) with
             | [] => false | t :: l => min_time t l <? vc_expires_at self end)
    (ValueError "certificate outlives supporting evidence");;
  reject_if (bool_decide (vc_classification self = UNKNOWN))
    (ValueError "UNKNOWN requires an ambiguity witness");;
  match vc_transition self with
  | None => Ok tt
  | Some t =>
      reject_if (negb (bool_decide (ct_source_node_id t = vc_node_id self)))
        (ValueError "certificate transition must start at the bound node");;
      reject_if (negb (bool_decide
          (expected_permit_action (vc_classification self) = Some (ct_action t))))
        (ValueError "classification cannot authorize this transition")
  end.

Definition model_validate_certificate (c : VerifiedCertificate)
  : result py_error VerifiedCertificate := validate_certificate c;; Ok c.

(** *** Ambiguity witnesses *)

Definition validate_observation (self : DiscriminatingObservation) : result py_error unit :=
  bounded_length 0 64 (do_relevant_effect_ids self) "discriminating effect collection";;
  bounded_length 2 8 (do_distinguishes_history_ids self) "distinguished history collection";;
  reject_if (negb (eqb (is_none (do_capability_name self))
                     (is_none (do_capability_version self))))
    (ValueError "discriminating capability identity must be complete");;
  require_unique (do_relevant_effect_ids self) "discriminating effect identifiers";;
  require_unique (do_distinguishes_history_ids self) "distinguished history identifiers".

(** The outcome and evidence of a history, apart from its name and summary. *)
Definition history_signature (h : PossibleHistory) :=
  (ph_classification h,
   map (λ e, (he_effect_id e, he_state e, sorted_strings (he_cited_evidence_ids e)))
     (ph_effect_states h),
   sorted_strings (ph_compatible_evidence_ids h)).

Definition validate_witness (self : AmbiguityWitness) : result py_error unit :=
  validate_TargetBinding (aw_target self);;
  bounded_length 0 64 (aw_evidence self) "witness evidence collection";;
  bounded_length 2 8 (aw_possible_histories self) "possible history collection";;
  bounded_length 1 8 (aw_discriminating_observations self) "observation collection";;
  bounded_length 0 64 (aw_conflicting_evidence_ids self) "conflict collection";;
  for_each validate_possible_history (aw_possible_histories self);;
  for_each validate_observation (aw_discriminating_observations self);;
  reject_if (negb (bool_decide (aw_target_sha256 self = canonical_sha256 (aw_target self))))
    (ValueError "witness target digest does not match its target");;
  let evidence_ids := map rb_evidence_id (aw_evidence self) in
  require_unique evidence_ids "witness evidence identifiers";;
  let history_ids := map ph_history_id (aw_possible_histories self) in
  require_unique history_ids "possible history identifiers";;
  require_unique (map history_signature (aw_possible_histories self))
    "possible history outcomes and evidence alternatives";;
  reject_if (existsb (λ h, negb (subsetb (ph_compatible_evidence_ids h) evidence_ids))
               (aw_possible_histories self))
    (ValueError "possible history references unknown evidence");;
  reject_if (negb (subsetb (aw_conflicting_evidence_ids self) evidence_ids))
    (ValueError "conflict set references unknown evidence");;
  require_unique (aw_conflicting_evidence_ids self) "conflicting evidence identifiers";;
  for_each (λ o, reject_if (negb (subsetb (do_distinguishes_history_ids o) history_ids))
      (ValueError "discriminating observation references unknown history"))
    (aw_discriminating_observations self).

Definition model_validate_witness (w : AmbiguityWitness)
  : result py_error AmbiguityWitness := validate_witness w;; Ok w.

Definition validate_contact (self : RecoveryDispatchReceipt) : result py_error unit :=
  reject_if (negb (in_range 1 (dr_attempt self) 2))
    (ValueError "attempt is outside its range");;
  reject_if (negb (eqb (dr_provider_contact self)
                     (bool_decide (dr_outcome self = PROVIDER_CONTACTED))))
    (ValueError "dispatch receipt outcome and provider contact disagree").

End validators.
