(* ===== verification/RecoveryGraph.v ===== *)
(** The dependency graph of a recovery chain: what the depth-first walk of
    [RecoveryChain.validate_graph] decides.

    [visit] returns exactly when everything reachable from the node is
    well-founded; the fuel of [validate_graph] never runs out, because the
    nodes being visited are distinct nodes of the chain. *)

From S2P Require Export RecoveryContracts.

Section graph.
Context (deps : list (string * list string)).

(** [a] depends on [b]. *)
Definition depends_on (a b : string) : Prop :=
  ∃ l, dict_get a deps = Some l ∧ b ∈ l.

(** Everything below [a] is well-founded: no walk down from [a] is endless. *)
Definition grounded (a : string) : Prop := Acc (λ y x, depends_on x y) a.

Definition known (a : string) : Prop := a ∈ dict_keys deps.

Lemma grounded_step a :
  (∀ b, depends_on a b → grounded b) → grounded a.
Proof. intros H. by constructor. Qed.

Lemma grounded_irreflexive a : grounded a → ¬ tc depends_on a a.
Proof.
  induction 1 as [a _ IH]. intros Ha.
  assert (∃ b, depends_on a b ∧ (b = a ∨ tc depends_on b a)) as (b&Hab&Hb).
  { inversion Ha; subst; [exists a; auto|eauto]. }
  destruct Hb as [->|Hb].
  - apply (IH a Hab). by apply tc_once.
  - apply (IH b Hab). eapply tc_r; [exact Hb|done].
Qed.

(** *** Acceptance is sound *)

Definition visited_grounded (s : walk) : Prop := Forall grounded (wk_visited s).

Lemma visit_accepts fuel s id s' :
  visited_grounded s → visit fuel deps s id = Ok s' →
  visited_grounded s' ∧ grounded id ∧ wk_visited s ⊆ wk_visited s'.
Proof.
  revert s id s'. induction fuel as [|fuel IH]; intros s id s' Hs; cbn [visit]; [done|].
  destruct (inb id (wk_visiting s)); [done|].
  destruct (inb id (wk_visited s)) eqn:Hin.
  { intros [= <-]. apply inb_true in Hin. split; [exact Hs|]. split; [|reflexivity].
    exact (proj1 (Forall_forall _ _) Hs id Hin). }
  intros H. apply bind_ok in H as (l & Hl & H). apply bind_ok in H as (r & Hr & [= <-]).
  assert (∀ l s s', visited_grounded s → fold_result (visit fuel deps) s l = Ok s' →
    visited_grounded s' ∧ Forall grounded l ∧ wk_visited s ⊆ wk_visited s') as Hfold.
  { clear -IH. induction l as [|b l IHl]; intros s s' Hs; cbn [fold_result].
    - intros [= <-]. split; [exact Hs|]. split; [constructor|reflexivity].
    - intros H. apply bind_ok in H as (t & Ht & H).
      apply IH in Ht as (Ht1&Hb&Hsub); [|exact Hs].
      apply IHl in H as (Hs'&Hl&Hsub'); [|exact Ht1].
      split; [exact Hs'|]. split; [by constructor|]. by rewrite Hsub. }
  apply Hfold in Hr as (Hr & Hg & Hsub); [|exact Hs]. cbn in *.
  unfold dict_item in Hl. destruct (dict_get id deps) eqn:Hd; [injection Hl as ->|done].
  assert (grounded id) as Hid.
  { apply grounded_step. intros b (l' & Hl' & Hb). rewrite Hd in Hl'. injection Hl' as <-.
    exact (proj1 (Forall_forall _ _) Hg b Hb). }
  split; [by constructor|]. split; [exact Hid|]. intros x Hx. right. by apply Hsub.
Qed.

(** *** An acyclic graph is accepted *)

Context (closed : ∀ a b, depends_on a b → known b).

(** The nodes being visited are distinct, known, and lead to [id]. *)
Record on_path (s : walk) (id : string) : Prop := {
  op_nodup : NoDup (wk_visiting s);
  op_known : Forall known (wk_visiting s);
  op_leads : Forall (λ x, tc depends_on x id) (wk_visiting s);
}.

Lemma filter_cons_fresh (id : string) l :
  id ∉ l → filter (λ x, x ≠ id) (id :: l) = l.
Proof.
  intros H. rewrite filter_cons_False by naive_solver.
  induction l as [|x l IH]; [done|]. apply not_elem_of_cons in H as [? ?].
  rewrite filter_cons_True by done. f_equal. auto.
Qed.

Lemma visiting_bound s id :
  on_path s id → length (wk_visiting s) ≤ length deps.
Proof.
  intros [Hnd Hk _]. replace (length deps) with (length (dict_keys deps))
    by apply length_fmap.
  apply submseteq_length, NoDup_submseteq; [done|]. by apply Forall_forall.
Qed.

Definition found_cycle {A} (r : result py_error A) : Prop :=
  r = Raise (ValueError "recovery chain must be acyclic") ∧ ∃ a, tc depends_on a a.

Lemma visit_decides fuel s id :
  on_path s id → known id → length deps - length (wk_visiting s) < fuel →
  (∃ s', visit fuel deps s id = Ok s' ∧ wk_visiting s' = wk_visiting s) ∨
  found_cycle (visit fuel deps s id).
Proof.
  revert s id. induction fuel as [|fuel IH]; intros s id Hp Hid Hf; [lia|].
  cbn [visit]. destruct (inb id (wk_visiting s)) eqn:Hin.
  { right. split; [done|]. exists id. apply inb_true in Hin.
    exact (proj1 (Forall_forall _ _) (op_leads _ _ Hp) id Hin). }
  destruct (inb id (wk_visited s)); [left; eauto|]. apply inb_false in Hin.
  pose proof Hid as Hid'. apply dict_get_is_some in Hid' as [l Hl].
  unfold dict_item. rewrite Hl. cbn [mbind result_bind].
  set (s1 := {| wk_visiting := id :: wk_visiting s; wk_visited := wk_visited s |}).
  assert (∀ k t, k ⊆ l → wk_visiting t = wk_visiting s1 →
    (∃ t', fold_result (visit fuel deps) t k = Ok t' ∧ wk_visiting t' = wk_visiting s1) ∨
    found_cycle (fold_result (visit fuel deps) t k)) as Hfold.
  { induction k as [|b k IHk]; intros t Hk Ht; cbn [fold_result]; [eauto|].
    assert (depends_on id b) as Hb by (exists l; split; [done|apply Hk; left]).
    destruct (IH t b) as [(t1 & -> & Ht1)|[-> Hc]].
    - destruct Hp as [Hnd Hkn Hle]. constructor; rewrite Ht; cbn; [by constructor..|].
      constructor; [by apply tc_once|].
      eapply Forall_impl; [exact Hle|]. intros x Hx. eapply tc_r; [exact Hx|exact Hb].
    - eapply closed; exact Hb.
    - rewrite Ht. subst s1. cbn [wk_visiting length].
      assert (length (id :: wk_visiting s) ≤ length deps); [|cbn in *; lia].
      replace (length deps) with (length (dict_keys deps)) by apply length_fmap.
      apply submseteq_length, NoDup_submseteq.
      + constructor; [done|apply Hp].
      + intros x [->|Hx]%elem_of_cons; [done|].
        exact (proj1 (Forall_forall _ _) (op_known _ _ Hp) x Hx).
    - cbn [mbind result_bind]. apply IHk; [|congruence]. intros x Hx. apply Hk. by right.
    - right. by split. }
  destruct (Hfold l s1) as [(t' & -> & Ht')|[-> Hc]]; [done|done| |].
  - left. cbn [mbind result_bind]. eexists. split; [done|]. cbn. rewrite Ht'.
    by apply filter_cons_fresh.
  - right. by split.
Qed.

Lemma walk_decides l s :
  Forall known l → wk_visiting s = [] →
  is_Ok (fold_result (visit (S (length deps)) deps) s l) ∨
  found_cycle (fold_result (visit (S (length deps)) deps) s l).
Proof.
  intros Hl. revert s. induction Hl as [|id l Hid _ IH]; intros s Hs;
    cbn [fold_result]; [by left|].
  destruct (visit_decides (S (length deps)) s id) as [(s1 & -> & Hs1)|[-> Hc]].
  - split; rewrite Hs; [apply NoDup_nil_2|apply Forall_nil_2|apply Forall_nil_2].
  - done.
  - rewrite Hs. cbn [length]. lia.
  - cbn [mbind result_bind]. apply IH. congruence.
  - right. by split.
Qed.

Lemma walk_accepts fuel l s s' :
  visited_grounded s → fold_result (visit fuel deps) s l = Ok s' → Forall grounded l.
Proof.
  revert s. induction l as [|id l IH]; intros s Hs H; [constructor|].
  cbn [fold_result] in H. apply bind_ok in H as (t & Ht & H).
  apply visit_accepts in Ht as (Ht1 & Hid & _); [|exact Hs].
  constructor; [exact Hid|]. by apply (IH t).
Qed.

End graph.

Lemma existsb_false {A} (f : A → bool) l :
  existsb f l = false ↔ Forall (λ x, f x = false) l.
Proof.
  induction l as [|x l IH]; cbn; [split; [constructor|done]|].
  rewrite orb_false_iff, IH, Forall_cons. done.
Qed.

(** A node of the chain lists [b] as a dependency of [a]. *)
Definition chain_depends (chain : RecoveryChain) (a b : string) : Prop :=
  ∃ node, node ∈ rc_nodes chain ∧ rn_node_id node = a ∧ b ∈ rn_depends_on node.

(** What a recovery chain has to be, with no mention of how it is checked. *)
Record well_formed_chain (chain : RecoveryChain) : Prop := {
  wf_ids : NoDup (node_ids chain);
  wf_keys : NoDup (semantic_keys chain);
  wf_refs : NoDup (envelope_refs chain);
  wf_profile : Forall (λ node, rn_chain_profile_version node
    = rc_chain_profile_version chain) (rc_nodes chain);
  wf_known : ∀ a b, chain_depends chain a b → b ∈ node_ids chain;
  wf_acyclic : ∀ a, ¬ tc (chain_depends chain) a a;
}.

Lemma dependencies_keys chain : dict_keys (dependencies chain) = node_ids chain.
Proof.
  unfold dict_keys, dependencies, node_ids. induction (rc_nodes chain); cbn; congruence.
Qed.

Lemma dependencies_length chain : length (dependencies chain) = length (rc_nodes chain).
Proof. apply length_map. Qed.

Lemma depends_on_chain chain a b :
  NoDup (node_ids chain) →
  depends_on (dependencies chain) a b ↔ chain_depends chain a b.
Proof.
  intros Hnd. unfold depends_on, chain_depends. split.
  - intros (l & Hl%dict_get_elem & Hb). apply list_elem_of_fmap in Hl as (node & Heq & Hn).
    simplify_eq. eauto.
  - intros (node & Hn & <- & Hb). exists (rn_depends_on node). split; [|done].
    apply dict_get_nodup; [by rewrite dependencies_keys|].
    apply list_elem_of_fmap. by exists node.
Qed.

Lemma depends_on_tc chain a b :
  NoDup (node_ids chain) →
  tc (depends_on (dependencies chain)) a b ↔ tc (chain_depends chain) a b.
Proof.
  intros Hnd. split; induction 1 as [x y Hxy|x y z Hxy _ IH];
    first [apply tc_once; by apply depends_on_chain
          |eapply tc_l; [|exact IH]; by apply depends_on_chain].
Qed.

Lemma tc_source {A} (R : relation A) x y : tc R x y → ∃ z, R x z.
Proof. destruct 1; eauto. Qed.

(** [validate_graph] up to the walk: the conditions the code tests one by one. *)
Lemma missing_dependency_false chain :
  existsb (λ node, existsb (λ dependency,
    negb (inb dependency (node_ids chain))) (rn_depends_on node)) (rc_nodes chain) = false
  ↔ ∀ a b, chain_depends chain a b → b ∈ node_ids chain.
Proof.
  rewrite existsb_false, Forall_forall. split.
  - intros H a b (node & Hn & _ & Hb). specialize (H node Hn).
    rewrite existsb_false, Forall_forall in H. specialize (H b Hb).
    rewrite negb_false_iff in H. by apply inb_true in H.
  - intros H node Hn. rewrite existsb_false, Forall_forall. intros b Hb.
    rewrite negb_false_iff, inb_true. apply (H (rn_node_id node)).
    by exists node.
Qed.

Lemma profile_mismatch_false chain :
  existsb (λ node, negb (bool_decide
    (rn_chain_profile_version node = rc_chain_profile_version chain))) (rc_nodes chain)
    = false
  ↔ Forall (λ node, rn_chain_profile_version node = rc_chain_profile_version chain)
      (rc_nodes chain).
Proof.
  rewrite existsb_false. apply Forall_proper; [|done]. intros node.
  rewrite negb_false_iff. apply bool_decide_eq_true.
Qed.

Lemma chain_walk_decides chain :
  NoDup (node_ids chain) → (∀ a b, chain_depends chain a b → b ∈ node_ids chain) →
  let w := fold_result (visit (S (length (rc_nodes chain))) (dependencies chain))
    {| wk_visiting := []; wk_visited := [] |} (node_ids chain) in
  is_Ok w ∨ found_cycle (dependencies chain) w.
Proof.
  intros Hnd Hkn. cbn zeta. rewrite <-dependencies_length. apply walk_decides.
  - intros a b Hab. unfold known. rewrite dependencies_keys.
    apply depends_on_chain in Hab; eauto.
  - apply Forall_forall. intros a Ha. unfold known. by rewrite dependencies_keys.
  - done.
Qed.

(** C28: the depth-first walk of a recovery chain decides exactly what it is
    for: [validate_graph] accepts a chain if and only if its node identifiers,
    semantic action keys and envelope references are unique, its nodes carry its
    profile, every dependency is a node, and no node depends on itself through
    any number of steps.  It answers every other chain with a [ValueError]: the
    walk never runs out of the fuel that stands for Python's recursion limit. *)
Theorem validate_graph_spec chain :
  (validate_graph chain = Ok tt ↔ well_formed_chain chain) ∧
  (validate_graph chain ≠ Ok tt →
    ∃ message, validate_graph chain = Raise (ValueError message)).
Proof.
  split; [split|].
  - intros H. unfold validate_graph, require_unique in H. inv_ok.
    repeat match goal with Hx : has_dup _ = false |- _ => apply has_dup_false in Hx end.
    rewrite missing_dependency_false in *.
    rewrite profile_mismatch_false in *. split; try assumption.
    intros a Ha. apply depends_on_tc in Ha; [|done].
    assert (a ∈ node_ids chain) as Hin.
    { destruct (tc_source _ _ _ Ha) as (b & l & Hl & _).
      rewrite <-dependencies_keys. apply dict_get_is_some. eauto. }
    apply (grounded_irreflexive (dependencies chain) a); [|done].
    match goal with Hw : fold_result _ _ _ = Ok _ |- _ =>
      apply walk_accepts in Hw; [|constructor] end.
    by eapply Forall_forall.
  - intros [Hi Hk Hr Hp Hkn Hac]. unfold validate_graph, require_unique.
    rewrite (proj2 (has_dup_false _) Hi), (proj2 (has_dup_false _) Hk),
      (proj2 (has_dup_false _) Hr), (proj2 (profile_mismatch_false _) Hp),
      (proj2 (missing_dependency_false _) Hkn). cbn [reject_if mbind result_bind].
    destruct (chain_walk_decides _ Hi Hkn) as [Hok|[_ [a Ha]]].
    + apply is_Ok_inv in Hok as [s ->]. done.
    + destruct (Hac a). by apply depends_on_tc in Ha.
  - intros Hne. destruct (validate_graph chain) as [[]|e] eqn:H; [done|].
    unfold validate_graph, require_unique in H.
    apply bind_raise in H as [[_ <-]%reject_if_raise|([] & Hi%reject_if_ok & H)]; [eauto|].
    apply bind_raise in H as [[_ <-]%reject_if_raise|([] & _ & H)]; [eauto|].
    apply bind_raise in H as [[_ <-]%reject_if_raise|([] & _ & H)]; [eauto|].
    apply bind_raise in H as [[_ <-]%reject_if_raise|([] & _ & H)]; [eauto|].
    apply bind_raise in H as [[_ <-]%reject_if_raise|([] & Hkn%reject_if_ok & H)]; [eauto|].
    apply has_dup_false in Hi. rewrite missing_dependency_false in Hkn.
    apply bind_raise in H as [H|(s & _ & H)]; [|done].
    destruct (chain_walk_decides _ Hi Hkn) as [Hok|[Hc _]].
    + apply is_Ok_inv in Hok as [s Hok]. congruence.
    + rewrite Hc in H. injection H as <-. eauto.
Qed.
