(* ===== verification/RecoveryRules.v ===== *)
(** Sealed semantic-action profiles and provider rules
    (reconcile/evidence/recovery_rules.py).

    A profile fixes tool, target and arguments of one action; a provider
    observation is the typed reading of an evidence item's correlation.
    [validate_recovery_proof] is what the recovery verifier asks before it
    certifies a classification.  A profile object is a module constant the code
    compares by identity; it is compared by value here. *)

From S2P Require Export RecoveryContracts.

#[local] Open Scope Z_scope.

Inductive recovery_error :=
  | RecoveryRuleViolation (message : string)
  | RecoveryVerificationError (message : string)
  | ContractError (e : py_error).

#[export] Instance recovery_error_eq_dec : EqDecision recovery_error.
Proof. solve_decision. Defined.

(** ** Constants *)

Definition STAGE_CLOUD_RUN_REVISION_PROFILE_VERSION := "stage-cloud-run-revision-profile-v1".
Definition PROMOTE_CLOUD_RUN_TRAFFIC_PROFILE_VERSION := "promote-cloud-run-traffic-profile-v1".
Definition CREATE_FIRESTORE_RELEASE_RECORD_PROFILE_VERSION :=
  "create-firestore-release-record-profile-v1".
Definition CLOUD_RUN_SERVICE_TARGET_KIND := "google.cloud_run.service".
Definition FIRESTORE_DOCUMENT_TARGET_KIND := "google.firestore.document".
Definition RECOVERY_TOOL_VERSION := "1.0.0".
Definition RECOVERY_CAPABILITY_VERSION := "1.0.0".

Definition STAGE_REVISION_EFFECT_SCOPE := "cloud-run-revision-created".
Definition STAGE_READINESS_EFFECT_SCOPE := "cloud-run-revision-ready".
Definition STAGE_TRAFFIC_EFFECT_SCOPE := "cloud-run-revision-zero-traffic".
Definition PROMOTION_TRAFFIC_EFFECT_SCOPE := "cloud-run-traffic-promoted".
Definition FIRESTORE_RECORD_EFFECT_SCOPE := "firestore-release-record-created".

Inductive RecoveryPreconditionKind :=
  | Precondition_NONE | CLOUD_RUN_SERVICE_ETAG | FIRESTORE_MUST_NOT_EXIST.

#[export] Instance RecoveryPreconditionKind_eq_dec : EqDecision RecoveryPreconditionKind.
Proof. solve_decision. Defined.

(** ** Text patterns *)

(** [_SHA256], [_IMAGE_DIGEST], [_IDENTIFIER], [_CLOUD_RUN_REVISION] *)
Definition SHA256_pattern (s : string) : bool :=
  (String.length s =? 64)%nat && string_forallb is_hex_digit s.
Definition IMAGE_DIGEST_pattern (s : string) : bool :=
  String.prefix "sha256:" s && SHA256_pattern (String.substring 7 (String.length s - 7) s).
Definition IDENTIFIER_pattern (s : string) : bool :=
  identifier_pattern s && (String.length s <=? 128)%nat.
Definition is_revision_char (c : Ascii.ascii) : bool :=
  is_lower c || is_digit c || (Ascii.N_of_ascii c =? 45)%N.
Definition CLOUD_RUN_REVISION_pattern (s : string) : bool :=
  match s with
  | EmptyString => false
  | String c rest =>
      is_lower c && string_forallb is_revision_char rest && (String.length rest <=? 62)%nat
  end.

(** [any(character.isspace() for character in s)]: the Unicode whitespace, in
    UTF-8.  [\s] of a text pattern is the same set. *)
Fixpoint has_space (s : string) : bool :=
  match s with
  | EmptyString => false
  | String c rest =>
      let n := Ascii.N_of_ascii c in
      let next k := match String.get k rest with
                    | Some d => Ascii.N_of_ascii d | None => 0%N end in
      let a := next 0%nat in let b := next 1%nat in
      ((9 <=? n) && (n <=? 13) || (28 <=? n) && (n <=? 32)
       || (n =? 194) && ((a =? 133) || (a =? 160))
       || (n =? 225) && (a =? 154) && (b =? 128)
       || (n =? 226) && (a =? 128)
          && ((128 <=? b) && (b <=? 138) || (b =? 168) || (b =? 169) || (b =? 175))
       || (n =? 226) && (a =? 129) && (b =? 159)
       || (n =? 227) && (a =? 128) && (b =? 128))%N
      || has_space rest
  end.

Definition is_slash (c : Ascii.ascii) : bool := (Ascii.N_of_ascii c =? 47)%N.

(** [_RESOURCE_COMPONENT] *)
Definition RESOURCE_COMPONENT_pattern (s : string) : bool :=
  in_range 1 (py_len s) 128 && string_forallb (λ c, negb (is_slash c)) s
  && negb (has_space s).

(** [_POSITIVE_GENERATION] and [_NONNEGATIVE_GENERATION] *)
Definition POSITIVE_GENERATION_pattern (s : string) : bool :=
  match s with
  | EmptyString => false
  | String c rest =>
      is_digit c && negb (Ascii.N_of_ascii c =? 48)%N
      && string_forallb is_digit rest && (String.length rest <=? 18)%nat
  end.
Definition NONNEGATIVE_GENERATION_pattern (s : string) : bool :=
  bool_decide (s = "0") || POSITIVE_GENERATION_pattern s.

(** [int(s)] of decimal text. *)
Fixpoint decimal_value (acc : Z) (s : string) : Z :=
  match s with
  | EmptyString => acc
  | String c rest => decimal_value (10 * acc + (Z.of_N (Ascii.N_of_ascii c) - 48)) rest
  end.

Example patterns_hold :
  CLOUD_RUN_REVISION_pattern "orders-r-0a1b" = true ∧
  CLOUD_RUN_REVISION_pattern "Orders" = false ∧
  NONNEGATIVE_GENERATION_pattern "007" = false ∧
  NONNEGATIVE_GENERATION_pattern "100" = true ∧ decimal_value 0 "100" = 100 ∧
  RESOURCE_COMPONENT_pattern "a b" = false ∧ RESOURCE_COMPONENT_pattern "a/b" = false ∧
  RESOURCE_COMPONENT_pattern "my-project" = true.
Proof. vm_compute. repeat split. Qed.

(** ** Provider observations *)

Record CloudRunServiceObservation := {
  so_release_id : string;
  so_revision : string;
  so_service_etag : string;
  so_generation : string;
  so_observed_generation : string;
  so_reconciling : string;
  so_terminal_condition : string;
  so_revision_traffic_percent : string;
}.

Record CloudRunRevisionObservation := {
  vo_release_id : string;
  vo_release_label : string;
  vo_revision : string;
  vo_image_digest : string;
  vo_configuration_sha256 : string;
  vo_generation : string;
  vo_observed_generation : string;
  vo_reconciling : string;
  vo_terminal_condition : string;
  vo_readiness : string;
}.

Record CloudRunOperationObservation := {
  oo_release_id : string;
  oo_revision : string;
  oo_operation_name : string;
  oo_operation_state : string;
}.

Record CloudRunHealthObservation := {
  ho_release_id : string;
  ho_revision : string;
  ho_health_status : string;
}.

Record FirestoreDocumentObservation := {
  fo_release_id : string;
  fo_cloud_run_revision : option string;
  fo_payload_sha256 : string;
  fo_semantic_action_sha256 : option string;
  fo_exists : string;
}.

Record DispatchReceiptObservation := {
  co_release_id : string;
  co_semantic_action_sha256 : string;
  co_receipt_id : string;
  co_outcome : string;
}.

Inductive ProviderObservation :=
  | ServiceObservation (o : CloudRunServiceObservation)
  | RevisionObservation (o : CloudRunRevisionObservation)
  | OperationObservation (o : CloudRunOperationObservation)
  | HealthObservation (o : CloudRunHealthObservation)
  | DocumentObservation (o : FirestoreDocumentObservation)
  | ReceiptObservation (o : DispatchReceiptObservation).

#[export] Instance CloudRunServiceObservation_eq_dec : EqDecision CloudRunServiceObservation.
Proof. solve_decision. Defined.
#[export] Instance CloudRunRevisionObservation_eq_dec : EqDecision CloudRunRevisionObservation.
Proof. solve_decision. Defined.
#[export] Instance CloudRunOperationObservation_eq_dec : EqDecision CloudRunOperationObservation.
Proof. solve_decision. Defined.
#[export] Instance CloudRunHealthObservation_eq_dec : EqDecision CloudRunHealthObservation.
Proof. solve_decision. Defined.
#[export] Instance FirestoreDocumentObservation_eq_dec : EqDecision FirestoreDocumentObservation.
Proof. solve_decision. Defined.
#[export] Instance DispatchReceiptObservation_eq_dec : EqDecision DispatchReceiptObservation.
Proof. solve_decision. Defined.
#[export] Instance ProviderObservation_eq_dec : EqDecision ProviderObservation.
Proof. solve_decision. Defined.

(** [observation.release_id] *)
Definition observation_release (o : ProviderObservation) : string :=
  match o with
  | ServiceObservation o => so_release_id o | RevisionObservation o => vo_release_id o
  | OperationObservation o => oo_release_id o | HealthObservation o => ho_release_id o
  | DocumentObservation o => fo_release_id o | ReceiptObservation o => co_release_id o
  end.

(** [observation.revision] of the four Cloud Run types. *)
Definition cloud_run_revision (o : ProviderObservation) : option string :=
  match o with
  | ServiceObservation o => Some (so_revision o)
  | RevisionObservation o => Some (vo_revision o)
  | OperationObservation o => Some (oo_revision o)
  | HealthObservation o => Some (ho_revision o)
  | _ => None
  end.

(** ** Profiles *)

Record RecoveryCapability := { rcap_name : string; rcap_version : string }.

Definition rcap_key (c : RecoveryCapability) : string * string := (rcap_name c, rcap_version c).

Record RecoveryActionProfile := {
  rp_profile_version : string;
  rp_tool_name : string;
  rp_tool_version : string;
  rp_target_kind : string;
  rp_target_scope_fields : list string;
  rp_target_resource_fields : list string;
  rp_semantic_argument_fields : list string;
  rp_retry_allowed : bool;
  rp_evidence_capabilities : list RecoveryCapability;
  rp_discriminating_probe : RecoveryCapability;
  rp_precondition_kind : RecoveryPreconditionKind;
}.

#[export] Instance RecoveryCapability_eq_dec : EqDecision RecoveryCapability.
Proof. solve_decision. Defined.
#[export] Instance RecoveryActionProfile_eq_dec : EqDecision RecoveryActionProfile.
Proof. solve_decision. Defined.

Definition validate_inventory_entry (self : RecoveryActionProfile) : result py_error unit :=
  for_each (λ fields, reject_if (has_dup fields)
      (ValueError "profile field names must be unique"))
    [rp_target_scope_fields self; rp_target_resource_fields self;
     rp_semantic_argument_fields self];;
  let capability_keys := map rcap_key (rp_evidence_capabilities self) in
  reject_if (has_dup capability_keys)
    (ValueError "profile evidence capabilities must be unique");;
  reject_if (negb (inb (rcap_key (rp_discriminating_probe self)) capability_keys))
    (ValueError "the discriminating probe must be an allowed evidence capability").

Definition SERVICE_GET :=
  {| rcap_name := "cloud-run-service-get"; rcap_version := RECOVERY_CAPABILITY_VERSION |}.
Definition REVISION_GET :=
  {| rcap_name := "cloud-run-revision-get"; rcap_version := RECOVERY_CAPABILITY_VERSION |}.
Definition OPERATION_GET :=
  {| rcap_name := "cloud-run-operation-get"; rcap_version := RECOVERY_CAPABILITY_VERSION |}.
Definition REVISION_HEALTH :=
  {| rcap_name := "cloud-run-revision-health"; rcap_version := RECOVERY_CAPABILITY_VERSION |}.
Definition FIRESTORE_GET :=
  {| rcap_name := "firestore-release-record-get";
     rcap_version := RECOVERY_CAPABILITY_VERSION |}.
Definition DISPATCH_RECEIPT_GET :=
  {| rcap_name := "reconcile-dispatch-receipt-get";
     rcap_version := RECOVERY_CAPABILITY_VERSION |}.

Definition STAGE_CLOUD_RUN_REVISION_PROFILE : RecoveryActionProfile := {|
  rp_profile_version := STAGE_CLOUD_RUN_REVISION_PROFILE_VERSION;
  rp_tool_name := "stage-cloud-run-revision";
  rp_tool_version := RECOVERY_TOOL_VERSION;
  rp_target_kind := CLOUD_RUN_SERVICE_TARGET_KIND;
  rp_target_scope_fields := ["project"; "location"];
  rp_target_resource_fields := ["service"];
  rp_semantic_argument_fields := ["release_id"; "image_digest"; "configuration_sha256"];
  rp_retry_allowed := false;
  rp_evidence_capabilities := [SERVICE_GET; REVISION_GET; OPERATION_GET; REVISION_HEALTH];
  rp_discriminating_probe := REVISION_GET;
  rp_precondition_kind := Precondition_NONE;
|}.

Definition PROMOTE_CLOUD_RUN_TRAFFIC_PROFILE : RecoveryActionProfile := {|
  rp_profile_version := PROMOTE_CLOUD_RUN_TRAFFIC_PROFILE_VERSION;
  rp_tool_name := "promote-cloud-run-traffic";
  rp_tool_version := RECOVERY_TOOL_VERSION;
  rp_target_kind := CLOUD_RUN_SERVICE_TARGET_KIND;
  rp_target_scope_fields := ["project"; "location"];
  rp_target_resource_fields := ["service"];
  rp_semantic_argument_fields := ["release_id"; "revision"; "percent"];
  rp_retry_allowed := false;
  rp_evidence_capabilities := [SERVICE_GET; REVISION_GET; OPERATION_GET; REVISION_HEALTH];
  rp_discriminating_probe := SERVICE_GET;
  rp_precondition_kind := CLOUD_RUN_SERVICE_ETAG;
|}.

Definition CREATE_FIRESTORE_RELEASE_RECORD_PROFILE : RecoveryActionProfile := {|
  rp_profile_version := CREATE_FIRESTORE_RELEASE_RECORD_PROFILE_VERSION;
  rp_tool_name := "create-firestore-release-record";
  rp_tool_version := RECOVERY_TOOL_VERSION;
  rp_target_kind := FIRESTORE_DOCUMENT_TARGET_KIND;
  rp_target_scope_fields := ["project"; "database"];
  rp_target_resource_fields := ["document"];
  rp_semantic_argument_fields := ["release_id"; "payload_sha256"];
  rp_retry_allowed := true;
  rp_evidence_capabilities := [FIRESTORE_GET; DISPATCH_RECEIPT_GET];
  rp_discriminating_probe := FIRESTORE_GET;
  rp_precondition_kind := FIRESTORE_MUST_NOT_EXIST;
|}.

Definition RECOVERY_ACTION_PROFILES : list RecoveryActionProfile :=
  [STAGE_CLOUD_RUN_REVISION_PROFILE; PROMOTE_CLOUD_RUN_TRAFFIC_PROFILE;
   CREATE_FIRESTORE_RELEASE_RECORD_PROFILE].

Definition PROFILES_BY_VERSION : list (string * RecoveryActionProfile) :=
  map (λ profile, (rp_profile_version profile, profile)) RECOVERY_ACTION_PROFILES.

(** [_TRUSTED_PROVENANCE]: source and adapter version per capability. *)
Definition TRUSTED_PROVENANCE : list ((string * string) * (string * string)) :=
  [(rcap_key SERVICE_GET, ("google-cloud-run-v2", "reconcile-cloud-run-v2-v1"));
   (rcap_key REVISION_GET, ("google-cloud-run-v2", "reconcile-cloud-run-v2-v1"));
   (rcap_key OPERATION_GET, ("google-cloud-run-v2", "reconcile-cloud-run-v2-v1"));
   (rcap_key REVISION_HEALTH, ("cloud-run-revision-health", "reconcile-cloud-run-health-v1"));
   (rcap_key FIRESTORE_GET, ("google-firestore-v1", "reconcile-firestore-v1"));
   (rcap_key DISPATCH_RECEIPT_GET,
     ("reconcile-dispatcher", "reconcile-dispatch-receipt-v1"))].

Lemma profiles_are_valid :
  Forall (λ p, validate_inventory_entry p = Ok tt) RECOVERY_ACTION_PROFILES.
Proof. repeat constructor. Qed.

(** ** Reading a provider observation *)

Section rules.
Context {rt : Runtime} {sec : Security}.

Definition field {V} (name : string) (m : list (string * V)) : result py_error V :=
  match dict_get name m with
  | Some v => Ok v | None => Raise (ValueError (name +:+ ": field required")) end.

(** A [Literal[...]] field, an [Identifier], a [NonEmptyText], a digest. *)
Definition literal_field (name : string) (options : list string)
  (m : list (string * string)) : result py_error string :=
  v ← field name m;
  reject_if (negb (inb v options)) (ValueError (name +:+ ": literal error"));; Ok v.
Definition identifier_field (name : string) (m : list (string * string))
  : result py_error string :=
  v ← field name m; validate_Identifier v;; Ok v.
Definition text_field (name : string) (m : list (string * string))
  : result py_error string :=
  v ← field name m; validate_NonEmptyText v;; Ok v.
Definition digest_field (name : string) (m : list (string * string))
  : result py_error string :=
  v ← field name m; validate_Sha256Digest v;; Ok v.
Definition optional_field (validate : string → result py_error unit) (name : string)
  (m : list (string * string)) : result py_error (option string) :=
  match dict_get name m with
  | None => Ok None
  | Some v => validate v;; Ok (Some v)
  end.

(** [extra="forbid"] *)
Definition only_fields (names : list string) (m : list (string * string))
  : result py_error unit :=
  reject_if (negb (subsetb (dict_keys m) names))
    (ValueError "extra inputs are not permitted").

Definition generation (value : string) (observed : bool) : result py_error Z :=
  reject_if (negb (if observed then NONNEGATIVE_GENERATION_pattern value
                   else POSITIVE_GENERATION_pattern value))
    (ValueError "provider generation is not canonical decimal text");;
  Ok (decimal_value 0 value).

Definition traffic_percent (value : string) : result py_error Z :=
  reject_if (negb (NONNEGATIVE_GENERATION_pattern value))
    (ValueError "traffic percent is not canonical decimal text");;
  reject_if (100 <? decimal_value 0 value)
    (ValueError "traffic percent is outside the closed range 0..100");;
  Ok (decimal_value 0 value).

Definition provider_value (value : string) (label : string) : result py_error string :=
  reject_if (negb (in_range 1 (py_len value) 512) || has_space value)
    (ValueError (label +:+ " is not a bounded opaque provider value"));;
  Ok value.

Definition check_revision (value : string) : result py_error string :=
  reject_if (negb (CLOUD_RUN_REVISION_pattern value))
    (ValueError "revision is not a canonical Cloud Run revision name");;
  Ok value.

Definition validate_service_state (self : CloudRunServiceObservation)
  : result py_error unit :=
  generation_ ← generation (so_generation self) false;
  observed ← generation (so_observed_generation self) true;
  reject_if (generation_ <? observed)
    (ValueError "observed generation cannot exceed service generation");;
  (if bool_decide (so_reconciling self = "false") then
     reject_if (negb (observed =? generation_)
                || bool_decide (so_terminal_condition self = "NONE"))
       (ValueError "settled service state must be terminal and observed")
   else
     reject_if (negb (bool_decide (so_terminal_condition self = "NONE")))
       (ValueError "reconciling service state cannot be terminal"));;
  traffic_percent (so_revision_traffic_percent self);;
  provider_value (so_service_etag self) "service_etag";;
  check_revision (so_revision self);;
  Ok tt.

Definition service_observation (m : list (string * string))
  : result py_error ProviderObservation :=
  only_fields ["observation_schema"; "release_id"; "revision"; "service_etag";
    "generation"; "observed_generation"; "reconciling"; "terminal_condition";
    "revision_traffic_percent"] m;;
  literal_field "observation_schema" ["cloud-run-service-observation-v1"] m;;
  release_id ← identifier_field "release_id" m;
  revision_ ← identifier_field "revision" m;
  service_etag ← text_field "service_etag" m;
  generation_ ← text_field "generation" m;
  observed ← text_field "observed_generation" m;
  reconciling ← literal_field "reconciling" ["true"; "false"] m;
  terminal ← literal_field "terminal_condition" ["SUCCEEDED"; "FAILED"; "NONE"] m;
  percent ← text_field "revision_traffic_percent" m;
  let self := {| so_release_id := release_id; so_revision := revision_;
    so_service_etag := service_etag; so_generation := generation_;
    so_observed_generation := observed; so_reconciling := reconciling;
    so_terminal_condition := terminal; so_revision_traffic_percent := percent |} in
  validate_service_state self;;
  Ok (ServiceObservation self).

Definition validate_revision_state (self : CloudRunRevisionObservation)
  : result py_error unit :=
  generation_ ← generation (vo_generation self) false;
  observed ← generation (vo_observed_generation self) true;
  reject_if (generation_ <? observed)
    (ValueError "observed generation cannot exceed revision generation");;
  (if bool_decide (vo_reconciling self = "false") then
     reject_if (negb (observed =? generation_)
                || bool_decide (vo_terminal_condition self = "NONE"))
       (ValueError "settled revision state must be terminal and observed")
   else
     reject_if (negb (bool_decide (vo_terminal_condition self = "NONE")))
       (ValueError "reconciling revision state cannot be terminal"));;
  reject_if (bool_decide (vo_terminal_condition self = "SUCCEEDED")
             && negb (bool_decide (vo_readiness self = "READY")))
    (ValueError "successful revision must be ready");;
  reject_if (bool_decide (vo_terminal_condition self = "FAILED")
             && bool_decide (vo_readiness self = "READY"))
    (ValueError "failed revision cannot be ready");;
  reject_if (negb (IMAGE_DIGEST_pattern (vo_image_digest self)))
    (ValueError "revision image digest is malformed");;
  check_revision (vo_revision self);;
  Ok tt.

Definition revision_observation (m : list (string * string))
  : result py_error ProviderObservation :=
  only_fields ["observation_schema"; "release_id"; "release_label"; "revision";
    "image_digest"; "configuration_sha256"; "generation"; "observed_generation";
    "reconciling"; "terminal_condition"; "readiness"] m;;
  literal_field "observation_schema" ["cloud-run-revision-observation-v1"] m;;
  release_id ← identifier_field "release_id" m;
  release_label ← identifier_field "release_label" m;
  revision_ ← identifier_field "revision" m;
  image_digest ← text_field "image_digest" m;
  configuration ← digest_field "configuration_sha256" m;
  generation_ ← text_field "generation" m;
  observed ← text_field "observed_generation" m;
  reconciling ← literal_field "reconciling" ["true"; "false"] m;
  terminal ← literal_field "terminal_condition" ["SUCCEEDED"; "FAILED"; "NONE"] m;
  readiness ← literal_field "readiness" ["READY"; "NOT_READY"; "UNKNOWN"] m;
  let self := {| vo_release_id := release_id; vo_release_label := release_label;
    vo_revision := revision_; vo_image_digest := image_digest;
    vo_configuration_sha256 := configuration; vo_generation := generation_;
    vo_observed_generation := observed; vo_reconciling := reconciling;
    vo_terminal_condition := terminal; vo_readiness := readiness |} in
  validate_revision_state self;;
  Ok (RevisionObservation self).

Definition operation_observation (m : list (string * string))
  : result py_error ProviderObservation :=
  only_fields ["observation_schema"; "release_id"; "revision"; "operation_name";
    "operation_state"] m;;
  literal_field "observation_schema" ["cloud-run-operation-observation-v1"] m;;
  release_id ← identifier_field "release_id" m;
  revision_ ← identifier_field "revision" m;
  operation_name ← text_field "operation_name" m;
  operation_state ← literal_field "operation_state" ["RUNNING"; "SUCCEEDED"; "FAILED"] m;
  provider_value operation_name "operation_name";;
  check_revision revision_;;
  Ok (OperationObservation {| oo_release_id := release_id; oo_revision := revision_;
    oo_operation_name := operation_name; oo_operation_state := operation_state |}).

Definition health_observation (m : list (string * string))
  : result py_error ProviderObservation :=
  only_fields ["observation_schema"; "release_id"; "revision"; "health_status"] m;;
  literal_field "observation_schema" ["cloud-run-health-observation-v1"] m;;
  release_id ← identifier_field "release_id" m;
  revision_ ← identifier_field "revision" m;
  health_status ← literal_field "health_status" ["READY"; "UNHEALTHY"] m;
  check_revision revision_;;
  Ok (HealthObservation {| ho_release_id := release_id; ho_revision := revision_;
    ho_health_status := health_status |}).

Definition document_observation (m : list (string * string))
  : result py_error ProviderObservation :=
  only_fields ["observation_schema"; "release_id"; "cloud_run_revision";
    "payload_sha256"; "semantic_action_sha256"; "exists"] m;;
  literal_field "observation_schema" ["firestore-document-observation-v1"] m;;
  release_id ← identifier_field "release_id" m;
  revision_ ← optional_field validate_Identifier "cloud_run_revision" m;
  payload_sha256 ← digest_field "payload_sha256" m;
  action_sha256 ← optional_field validate_Sha256Digest "semantic_action_sha256" m;
  exists_ ← literal_field "exists" ["true"; "false"] m;
  reject_if (negb (eqb (is_none revision_) (is_none action_sha256)))
    (ValueError "Firestore release binding must be complete");;
  Ok (DocumentObservation {| fo_release_id := release_id;
    fo_cloud_run_revision := revision_; fo_payload_sha256 := payload_sha256;
    fo_semantic_action_sha256 := action_sha256; fo_exists := exists_ |}).

Definition receipt_observation (m : list (string * string))
  : result py_error ProviderObservation :=
  only_fields ["observation_schema"; "release_id"; "semantic_action_sha256";
    "receipt_id"; "provider_contact"; "outcome"] m;;
  literal_field "observation_schema" ["dispatch-receipt-observation-v1"] m;;
  release_id ← identifier_field "release_id" m;
  action_sha256 ← digest_field "semantic_action_sha256" m;
  receipt_id ← identifier_field "receipt_id" m;
  literal_field "provider_contact" ["false"] m;;
  outcome ← literal_field "outcome" ["SUPPRESSED_BEFORE_DISPATCH";
    "AUTHORITATIVE_REJECTION_BEFORE_PROVIDER_CONTACT"] m;
  Ok (ReceiptObservation {| co_release_id := release_id;
    co_semantic_action_sha256 := action_sha256; co_receipt_id := receipt_id;
    co_outcome := outcome |}).

(** [_OBSERVATION_MODELS] *)
Definition OBSERVATION_MODELS
  : list ((string * string) * (list (string * string) → result py_error ProviderObservation)) :=
  [(rcap_key SERVICE_GET, service_observation);
   (rcap_key REVISION_GET, revision_observation);
   (rcap_key OPERATION_GET, operation_observation);
   (rcap_key REVISION_HEALTH, health_observation);
   (rcap_key FIRESTORE_GET, document_observation);
   (rcap_key DISPATCH_RECEIPT_GET, receipt_observation)].

Definition capability_key (e : NormalizedEvidence) : string * string :=
  (ne_capability_name e, ne_capability_version e).

Definition violation {A} (message : string) : result recovery_error A :=
  Raise (RecoveryRuleViolation message).

Definition violate_if (guard : bool) (message : string) : result recovery_error unit :=
  reject_if guard (RecoveryRuleViolation message).

(** [_provider_observation] *)
Definition provider_observation (e : NormalizedEvidence)
  : result recovery_error ProviderObservation :=
  match dict_get (capability_key e) TRUSTED_PROVENANCE,
        dict_get (capability_key e) OBSERVATION_MODELS with
  | Some provenance, Some model =>
      violate_if (negb (bool_decide
          ((ep_source (ne_provenance e), ep_adapter_version (ne_provenance e)) = provenance)))
        "evidence provenance does not name the trusted provider adapter";;
      map_error (λ _, RecoveryRuleViolation
          "evidence correlation is not a typed provider observation")
        (model (ne_correlation e))
  | _, _ => violation "evidence capability has no sealed provider rule"
  end.

(** ** Actions and profiles *)

(** [m[key]] *)
Definition item {V} (key : string) (m : list (string * V)) : result recovery_error V :=
  map_error ContractError (dict_item key m).

(** [str(value)] of a value the profile has already required to be text. *)
Definition text_of (value : json) : result recovery_error string :=
  match value with
  | JStr s => Ok s
  | _ => Raise (ContractError (TypeError "value is not text"))
  end.

Definition is_text (pattern : string → bool) (value : json) : bool :=
  match value with JStr s => pattern s | _ => false end.

Definition require_exact_fields {V} (value : list (string * V)) (expected : list string)
  (label : string) : result recovery_error unit :=
  violate_if (negb (same_set (dict_keys value) expected))
    (label +:+ " fields do not match the profile").

Definition require_text (value : json) (label : string) (pattern : string → bool)
  : result recovery_error string :=
  match value with
  | JStr s => violate_if (negb (pattern s)) (label +:+ " does not match the profile");; Ok s
  | _ => violation (label +:+ " does not match the profile")
  end.

(** [_target_text] on a section of the target. *)
Definition target_text (section : json_object) (section_name name : string)
  : result recovery_error string :=
  value ← item name section;
  match value with
  | JStr s =>
      violate_if (negb (RESOURCE_COMPONENT_pattern s))
        ("action target " +:+ section_name +:+ " field " +:+ name
         +:+ " is not a resource component");;
      Ok s
  | _ => violation ("action target " +:+ section_name +:+ " field " +:+ name
                    +:+ " is not a resource component")
  end.

Definition nul : string := String Ascii.zero "".

Definition deterministic_stage_revision (service release_id : string)
  : result recovery_error string :=
  require_text (JStr service) "service" CLOUD_RUN_REVISION_pattern;;
  require_text (JStr release_id) "release_id" IDENTIFIER_pattern;;
  let operation_suffix :=
    String.substring 0 24 (sha256_hex (release_id +:+ nul +:+ "stage")) in
  let operation_id := "release-stage-" +:+ operation_suffix in
  let revision_suffix := String.substring 0 16 (sha256_hex operation_id) in
  let revision_ := service +:+ "-r-" +:+ revision_suffix in
  require_text (JStr revision_) "revision" CLOUD_RUN_REVISION_pattern;;
  Ok revision_.

(** [_validate_target] *)
Definition validate_action_target (profile : RecoveryActionProfile)
  (action : SemanticActionIdentity) : result recovery_error unit :=
  let target := sa_target action in
  violate_if (negb (bool_decide (tb_target_kind target = rp_target_kind profile)))
    "action target kind does not match the profile";;
  require_exact_fields (tb_scope target) (rp_target_scope_fields profile)
    "action target scope";;
  require_exact_fields (tb_resource target) (rp_target_resource_fields profile)
    "action target resource";;
  for_each (λ e, violate_if (negb (is_text (λ s, negb (bool_decide (s = ""))) e.2))
      ("action target field " +:+ e.1 +:+ " must be nonempty text"))
    (tb_scope target ++ tb_resource target).

(** [_validate_arguments] *)
Definition validate_action_arguments (profile : RecoveryActionProfile)
  (action : SemanticActionIdentity) : result recovery_error unit :=
  let arguments := sa_semantic_arguments action in
  let require name pattern :=
    value ← item name arguments; require_text value name pattern;; Ok tt in
  require_exact_fields arguments (rp_semantic_argument_fields profile) "semantic argument";;
  require "release_id" IDENTIFIER_pattern;;
  if bool_decide (profile = STAGE_CLOUD_RUN_REVISION_PROFILE) then
    require "image_digest" IMAGE_DIGEST_pattern;;
    require "configuration_sha256" SHA256_pattern
  else if bool_decide (profile = PROMOTE_CLOUD_RUN_TRAFFIC_PROFILE) then
    require "revision" CLOUD_RUN_REVISION_pattern;;
    percent ← item "percent" arguments;
    violate_if (negb (bool_decide (percent = JInt 100))) "percent must be the integer 100"
  else if bool_decide (profile = CREATE_FIRESTORE_RELEASE_RECORD_PROFILE) then
    require "payload_sha256" SHA256_pattern
  else violation "action profile is not sealed".

Definition sealed_profile (profile : RecoveryActionProfile) : bool :=
  bool_decide (dict_get (rp_profile_version profile) PROFILES_BY_VERSION = Some profile).

Definition validate_recovery_action (profile : RecoveryActionProfile)
  (action : SemanticActionIdentity) : result recovery_error unit :=
  violate_if (negb (sealed_profile profile)) "action profile is not in the sealed inventory";;
  violate_if
    (negb (bool_decide (sa_action_profile_version action = rp_profile_version profile))
     || negb (bool_decide (sa_tool_name action = rp_tool_name profile))
     || negb (bool_decide (sa_tool_version action = rp_tool_version profile)))
    "semantic action identity does not match the profile";;
  validate_action_target profile action;;
  validate_action_arguments profile action.

Definition resolve_recovery_action_profile (action : SemanticActionIdentity)
  : result recovery_error RecoveryActionProfile :=
  match dict_get (sa_action_profile_version action) PROFILES_BY_VERSION with
  | None => violation "semantic action names an unsupported profile"
  | Some profile => validate_recovery_action profile action;; Ok profile
  end.

Definition valid_dispatch_precondition (kind : RecoveryPreconditionKind)
  (precondition : json_object) : bool :=
  match kind with
  | Precondition_NONE =>
      same_set (dict_keys precondition) ["none"]
      && bool_decide (dict_get "none" precondition = Some (JBool true))
  | CLOUD_RUN_SERVICE_ETAG =>
      same_set (dict_keys precondition) ["service_etag"]
      && match dict_get "service_etag" precondition with
         | Some (JStr etag) => is_ok (provider_value etag "service_etag")
         | _ => false
         end
  | FIRESTORE_MUST_NOT_EXIST =>
      same_set (dict_keys precondition) ["exists"]
      && bool_decide (dict_get "exists" precondition = Some (JBool false))
  end.

Definition validate_recovery_dispatch (action : SemanticActionIdentity)
  (tool_name tool_version : string) (arguments : json_object) (target : TargetBinding)
  (precondition : json_object) : result recovery_error RecoveryActionProfile :=
  profile ← resolve_recovery_action_profile action;
  violate_if
    (negb (bool_decide (tool_name = sa_tool_name action))
     || negb (bool_decide (tool_version = sa_tool_version action))
     || negb (object_eqb arguments (sa_semantic_arguments action))
     || negb (target_eqb target (sa_target action)))
    "dispatch identity does not match the sealed semantic action";;
  violate_if (negb (valid_dispatch_precondition (rp_precondition_kind profile) precondition))
    "dispatch precondition does not match the sealed action profile";;
  Ok profile.

(** ** Binding evidence to the action *)

(** [_cloud_run_record] *)
Definition cloud_run_record (action : SemanticActionIdentity) (o : ProviderObservation)
  : result recovery_error string :=
  project ← target_text (tb_scope (sa_target action)) "scope" "project";
  location ← target_text (tb_scope (sa_target action)) "scope" "location";
  service ← target_text (tb_resource (sa_target action)) "resource" "service";
  let place := "projects/" +:+ project +:+ "/locations/" +:+ location in
  let service_record := place +:+ "/services/" +:+ service in
  match o with
  | ServiceObservation _ => Ok service_record
  | RevisionObservation o => Ok (service_record +:+ "/revisions/" +:+ vo_revision o)
  | HealthObservation o =>
      Ok (service_record +:+ "/revisions/" +:+ ho_revision o +:+ "/health")
  | OperationObservation o =>
      let operation_prefix := place +:+ "/operations/" in
      let name := oo_operation_name o in
      let n := String.length operation_prefix in
      violate_if
        (negb (String.prefix operation_prefix name
               && RESOURCE_COMPONENT_pattern (String.substring n (String.length name - n) name)))
        "Cloud Run operation is outside the exact action project and location";;
      Ok name
  | _ => violation "Cloud Run evidence has the wrong observation type"
  end.

Definition slash : string := "/".
Definition starts_with_slash (s : string) : bool := String.prefix slash s.
Fixpoint ends_with_slash (s : string) : bool :=
  match s with
  | EmptyString => false
  | String c EmptyString => is_slash c
  | String _ rest => ends_with_slash rest
  end.
Fixpoint has_double_slash (s : string) : bool :=
  match s with
  | String c (String d _ as rest) => (is_slash c && is_slash d) || has_double_slash rest
  | _ => false
  end.

(** [_firestore_record] *)
Definition firestore_record (action : SemanticActionIdentity) : result recovery_error string :=
  project ← target_text (tb_scope (sa_target action)) "scope" "project";
  database ← target_text (tb_scope (sa_target action)) "scope" "database";
  document ← item "document" (tb_resource (sa_target action));
  match document with
  | JStr d =>
      violate_if (negb (in_range 1 (py_len d) 512) || starts_with_slash d
                  || ends_with_slash d || has_double_slash d || has_space d)
        "action target document is not a canonical relative document path";;
      Ok ("projects/" +:+ project +:+ "/databases/" +:+ database +:+ "/documents/" +:+ d)
  | _ => violation "action target document is not a canonical relative document path"
  end.

Definition any_not (s : EffectAssertionState) (l : list EffectAssertionState) : bool :=
  existsb (λ state, negb (bool_decide (state = s))) l.

(** [_validate_evidence_status] *)
Definition validate_evidence_status (e : NormalizedEvidence) (o : ProviderObservation)
  : result recovery_error unit :=
  let assertions := assertion_states (ne_effect_assertions e) in
  let status := ne_operation_status e in
  match o with
  | OperationObservation o =>
      let expected :=
        if bool_decide (oo_operation_state o = "RUNNING") then ACTIVE
        else if bool_decide (oo_operation_state o = "SUCCEEDED") then TERMINAL_COMMITTED
        else UNRESOLVED in
      violate_if (negb (bool_decide (status = Some expected)))
        "Cloud Run operation evidence has inconsistent proof semantics";;
      if bool_decide (oo_operation_state o = "SUCCEEDED") then
        violate_if (negb (inb ESTABLISHED assertions) || inb NOT_ESTABLISHED assertions)
          "successful Cloud Run operation evidence must establish an effect"
      else
        violate_if (any_not UNVERIFIED assertions)
          "non-successful Cloud Run operation evidence cannot establish effects"
  | ReceiptObservation _ =>
      violate_if (negb (bool_decide (status = Some TERMINAL_NOT_COMMITTED))
                  || bool_decide (assertions = []) || any_not NOT_ESTABLISHED assertions)
        "dispatch receipt must positively prove pre-provider non-execution"
  | _ =>
      let reconciling := match o with
        | ServiceObservation o => bool_decide (so_reconciling o = "true")
        | RevisionObservation o => bool_decide (vo_reconciling o = "true")
        | _ => false end in
      (if reconciling then
         violate_if (negb (inb status [None; Some ACTIVE]) || inb NOT_ESTABLISHED assertions)
           "reconciling Cloud Run state must remain authoritative pending"
       else
         violate_if (is_some status)
           "settled provider state reads cannot assert an operation outcome");;
      match o with
      | DocumentObservation o =>
          violate_if (bool_decide (fo_exists o = "false") && any_not UNVERIFIED assertions)
            "a missing Firestore document is absence-only evidence"
      | _ => Ok tt
      end
  end.

(** [text != arguments[name]] *)
Definition differs_from (arguments : json_object) (name text : string)
  : result recovery_error bool :=
  value ← item name arguments; Ok (negb (py_eqb (JStr text) value)).

(** [_validate_observation_binding] up to the source record. *)
Definition validate_observation_identity (profile : RecoveryActionProfile)
  (action : SemanticActionIdentity) (o : ProviderObservation)
  (require_expected_stage_revision : bool) : result recovery_error unit :=
  let arguments := sa_semantic_arguments action in
  let stage := bool_decide (profile = STAGE_CLOUD_RUN_REVISION_PROFILE) in
  let promote := bool_decide (profile = PROMOTE_CLOUD_RUN_TRAFFIC_PROFILE) in
  release_id ← item "release_id" arguments;
  violate_if (negb (py_eqb (JStr (observation_release o)) release_id))
    "provider observation release does not match the semantic action";;
  match cloud_run_revision o with
  | Some revision_ =>
      if require_expected_stage_revision && stage then
        service ← item "service" (tb_resource (sa_target action));
        service ← text_of service;
        release ← text_of release_id;
        expected ← deterministic_stage_revision service release;
        violate_if (negb (bool_decide (revision_ = expected)))
          "Cloud Run observation names a different staged revision"
      else Ok tt
  | None => Ok tt
  end;;
  match o with
  | RevisionObservation o =>
      violate_if (negb (py_eqb (JStr (vo_release_label o)) release_id))
        "Cloud Run revision does not carry the exact release label";;
      if stage then
        image ← differs_from arguments "image_digest" (vo_image_digest o);
        configuration ← differs_from arguments "configuration_sha256"
          (vo_configuration_sha256 o);
        violate_if (image || configuration)
          "Cloud Run revision identity differs from the staged action"
      else Ok tt
  | ServiceObservation o =>
      if promote then
        other ← differs_from arguments "revision" (so_revision o);
        violate_if other "Cloud Run service traffic names another revision"
      else Ok tt
  | OperationObservation o =>
      if promote then
        other ← differs_from arguments "revision" (oo_revision o);
        violate_if other "Cloud Run operation names another revision"
      else Ok tt
  | HealthObservation o =>
      if promote then
        other ← differs_from arguments "revision" (ho_revision o);
        violate_if other "Cloud Run health names another revision"
      else Ok tt
  | DocumentObservation o =>
      other ← differs_from arguments "payload_sha256" (fo_payload_sha256 o);
      violate_if (other || match fo_semantic_action_sha256 o with
          | Some sha => negb (bool_decide (sha = sa_semantic_action_sha256 action))
          | None => false end)
        "Firestore record identity differs from the semantic action"
  | ReceiptObservation o =>
      violate_if (negb (bool_decide
          (co_semantic_action_sha256 o = sa_semantic_action_sha256 action)))
        "dispatch receipt belongs to another semantic action"
  end.

Definition expected_source_record (profile : RecoveryActionProfile)
  (action : SemanticActionIdentity) (o : ProviderObservation) : result recovery_error string :=
  if bool_decide (rp_target_kind profile = CLOUD_RUN_SERVICE_TARGET_KIND)
  then cloud_run_record action o
  else match o with
       | DocumentObservation _ => firestore_record action
       | ReceiptObservation o => Ok ("dispatch-receipts/" +:+ co_receipt_id o)
       | _ => violation "provider observation target is unsupported"
       end.

(** [_validate_observation_binding] *)
Definition validate_observation_binding (profile : RecoveryActionProfile)
  (action : SemanticActionIdentity) (e : NormalizedEvidence) (o : ProviderObservation)
  (require_expected_stage_revision : bool) : result recovery_error unit :=
  validate_observation_identity profile action o require_expected_stage_revision;;
  expected_record ← expected_source_record profile action o;
  violate_if (negb (bool_decide (ep_source_record (ne_provenance e) = expected_record)))
    "provider source record does not match the exact action target".

Definition validated_observation (profile : RecoveryActionProfile)
  (action : SemanticActionIdentity) (require_expected_stage_revision : bool)
  (e : NormalizedEvidence) : result recovery_error ProviderObservation :=
  violate_if (negb (inb (capability_key e) (map rcap_key (rp_evidence_capabilities profile))))
    "supporting evidence capability does not match the profile";;
  violate_if (negb (target_eqb (ne_target e) (sa_target action)))
    "supporting evidence target does not match the semantic action";;
  violate_if (negb (bool_decide (ne_authority e = TARGET_STATE)))
    "supporting evidence is not authoritative target state";;
  o ← provider_observation e;
  validate_evidence_status e o;;
  validate_observation_binding profile action e o require_expected_stage_revision;;
  Ok o.

(** A loop that appends one result per item. *)
Fixpoint traverse {A B} (f : A → result recovery_error B) (l : list A)
  : result recovery_error (list B) :=
  match l with
  | [] => Ok []
  | x :: l' => y ← f x; k ← traverse f l'; Ok (y :: k)
  end.

(** [_validated_recovery_observations] *)
Definition validated_recovery_observations (profile : RecoveryActionProfile)
  (action : SemanticActionIdentity) (evidence : list NormalizedEvidence)
  (require_expected_stage_revision : bool) : result recovery_error (list ProviderObservation) :=
  validate_recovery_action profile action;;
  violate_if (bool_decide (length evidence = O)) "recovery proof requires provider evidence";;
  traverse (validated_observation profile action require_expected_stage_revision) evidence.

Definition validate_recovery_evidence (profile : RecoveryActionProfile)
  (action : SemanticActionIdentity) (evidence : list NormalizedEvidence)
  : result recovery_error unit :=
  validated_recovery_observations profile action evidence true;; Ok tt.

(** ** Consistency of several observations *)

Abbreviation snapshot := (NormalizedEvidence * ProviderObservation)%type (only parsing).

Definition resource_key (s : snapshot) : string * string * string :=
  (ne_capability_name s.1, ne_capability_version s.1, ep_source_record (ne_provenance s.1)).

Definition operation_of (s : snapshot) : option (NormalizedEvidence * CloudRunOperationObservation) :=
  match s.2 with OperationObservation o => Some (s.1, o) | _ => None end.

Abbreviation operation_snapshot := (NormalizedEvidence * CloudRunOperationObservation)%type
  (only parsing).

Definition operation_identity (s : operation_snapshot) : string * string * string :=
  (oo_release_id s.2, oo_revision s.2, oo_operation_name s.2).

(** The sort key of operation snapshots. *)
Definition operation_le (x y : operation_snapshot) : Prop :=
  ne_observed_at x.1 < ne_observed_at y.1 ∨
  (ne_observed_at x.1 = ne_observed_at y.1 ∧
   (ep_retrieved_at (ne_provenance x.1) < ep_retrieved_at (ne_provenance y.1) ∨
    (ep_retrieved_at (ne_provenance x.1) = ep_retrieved_at (ne_provenance y.1) ∧
     str_le (ne_evidence_id x.1) (ne_evidence_id y.1)))).
#[local] Instance operation_le_dec x y : Decision (operation_le x y).
Proof. unfold operation_le. apply _. Defined.

(** [set(l)] has one element. *)
Definition single_valued `{EqDecision A} (l : list A) : bool :=
  match l with [] => false | x :: l' => forallb (λ y, bool_decide (y = x)) l' end.

Definition operation_may_follow (previous current : string) : bool :=
  bool_decide (previous = current)
  || (bool_decide (previous = "RUNNING") && inb current ["SUCCEEDED"; "FAILED"]).

Fixpoint pairwise_all {A} (f : A → A → bool) (l : list A) : bool :=
  match l with
  | [] => true
  | x :: l' => match l' with y :: _ => f x y | [] => true end && pairwise_all f l'
  end.

Definition require_consistent_resource (snapshots : list snapshot)
  : result recovery_error unit :=
  match snapshots with
  | [] => Ok tt
  | first :: rest =>
      match first.2 with
      | OperationObservation _ =>
          let operations := omap operation_of snapshots in
          violate_if (negb (length operations =? length snapshots)%nat)
            "provider evidence contains inconsistent snapshots of one resource";;
          violate_if (negb (single_valued (map operation_identity operations)))
            "provider evidence contains inconsistent operation identity";;
          violate_if (existsb (λ group, negb (single_valued
              (map (λ s : operation_snapshot, oo_operation_state s.2) group.2)))
              (group_by (λ s : operation_snapshot, ne_observed_at s.1) operations))
            "provider operation diverges at one observation time";;
          violate_if (negb (pairwise_all operation_may_follow
              (map (λ s : operation_snapshot, oo_operation_state s.2)
                (merge_sort operation_le operations))))
            "provider operation snapshots regress or disagree after termination"
      | o =>
          violate_if (existsb (λ s, negb (bool_decide (s.2 = o))) rest)
            "provider evidence contains inconsistent snapshots of one resource"
      end
  end.

(** [_require_consistent_observations] *)
Definition require_consistent_observations (l : list snapshot) : result recovery_error unit :=
  for_each (λ group, require_consistent_resource group.2) (group_by resource_key l).

(** [_require_stage_revision_coherence] *)
Definition require_stage_revision_coherence (observations : list ProviderObservation)
  : result recovery_error unit :=
  let revisions := omap cloud_run_revision observations in
  violate_if (negb (bool_decide (revisions = []) || single_valued revisions))
    "staging observations do not identify one exact revision".

(** [combinations(l, 2)] *)
Fixpoint combinations2 {A} (l : list A) : list (A * A) :=
  match l with [] => [] | x :: l' => map (pair x) l' ++ combinations2 l' end.

Definition sorted_pair (a b : string) : string * string :=
  if str_leb a b then (a, b) else (b, a).

Definition pair_le (x y : string * string) : Prop :=
  (x.1 ≠ y.1 ∧ str_le x.1 y.1) ∨ (x.1 = y.1 ∧ str_le x.2 y.2).
#[export] Instance pair_le_dec x y : Decision (pair_le x y).
Proof. unfold pair_le. apply _. Defined.

(** [tuple(sorted(set(l)))] *)
Definition sorted_pairs (l : list (string * string)) : list (string * string) :=
  merge_sort pair_le (remove_dups l).

Definition pair_consistent (profile : RecoveryActionProfile) (pair : snapshot * snapshot)
  : result recovery_error unit :=
  require_consistent_observations [pair.1; pair.2];;
  if bool_decide (profile = STAGE_CLOUD_RUN_REVISION_PROFILE)
  then require_stage_revision_coherence [pair.1.2; pair.2.2]
  else Ok tt.

Definition conflicting_pair (profile : RecoveryActionProfile) (pair : snapshot * snapshot)
  : option (string * string) :=
  match pair_consistent profile pair with
  | Ok _ => None
  | Raise _ => Some (sorted_pair (ne_evidence_id pair.1.1) (ne_evidence_id pair.2.1))
  end.

Definition recovery_provider_conflict_pairs (profile : RecoveryActionProfile)
  (action : SemanticActionIdentity) (evidence : list NormalizedEvidence)
  : result recovery_error (list (string * string)) :=
  observations ← validated_recovery_observations profile action evidence false;
  Ok (sorted_pairs (omap (conflicting_pair profile)
       (combinations2 (zip evidence observations)))).

(** ** Expected effects *)

Definition stage_predicates (release_id revision_ : string) (arguments : json_object)
  : result recovery_error (list (string * json_object)) :=
  image ← item "image_digest" arguments;
  configuration ← item "configuration_sha256" arguments;
  Ok [(STAGE_REVISION_EFFECT_SCOPE,
        [("release_id", JStr release_id); ("image_digest", image);
         ("configuration_sha256", configuration); ("revision", JStr revision_)]);
      (STAGE_READINESS_EFFECT_SCOPE,
        [("release_id", JStr release_id); ("ready", JBool true);
         ("revision", JStr revision_)]);
      (STAGE_TRAFFIC_EFFECT_SCOPE,
        [("release_id", JStr release_id); ("traffic_percent", JInt 0);
         ("revision", JStr revision_)])].

(** The record predicate, with or without the Cloud Run revision. *)
Definition firestore_predicates (release_id : json) (arguments : json_object)
  (record_effect : option ExpectedEffect)
  : result recovery_error (list (string * json_object)) :=
  payload ← item "payload_sha256" arguments;
  let base_predicate := [("release_id", release_id); ("payload_sha256", payload)] in
  let record_predicate := match record_effect with
    | None => [] | Some effect => ee_predicate effect end in
  (if object_eqb record_predicate base_predicate then Ok tt
   else
     violate_if
       (negb (same_set (dict_keys record_predicate)
                ["release_id"; "payload_sha256"; "cloud_run_revision"])
        || existsb (λ e, match dict_get e.1 record_predicate with
             | Some v => negb (py_eqb v e.2) | None => true end) base_predicate)
       "expected-effect predicates do not match the sealed action profile";;
     revision_ ← item "cloud_run_revision" record_predicate;
     require_text revision_ "cloud_run_revision" CLOUD_RUN_REVISION_pattern;;
     Ok tt);;
  Ok [(FIRESTORE_RECORD_EFFECT_SCOPE, record_predicate)].

(** The predicates a profile fixes, per commit scope. *)
Definition expected_predicates (profile : RecoveryActionProfile)
  (action : SemanticActionIdentity) (effects : list (string * ExpectedEffect))
  : result recovery_error (list (string * json_object)) :=
  let arguments := sa_semantic_arguments action in
  release_id ← item "release_id" arguments;
  if bool_decide (profile = STAGE_CLOUD_RUN_REVISION_PROFILE) then
    service ← item "service" (tb_resource (sa_target action));
    service ← text_of service;
    release ← text_of release_id;
    revision_ ← deterministic_stage_revision service release;
    stage_predicates release revision_ arguments
  else if bool_decide (profile = PROMOTE_CLOUD_RUN_TRAFFIC_PROFILE) then
    revision_ ← item "revision" arguments;
    Ok [(PROMOTION_TRAFFIC_EFFECT_SCOPE,
          [("release_id", release_id); ("revision", revision_); ("percent", JInt 100)])]
  else if bool_decide (profile = CREATE_FIRESTORE_RELEASE_RECORD_PROFILE) then
    firestore_predicates release_id arguments (dict_get FIRESTORE_RECORD_EFFECT_SCOPE effects)
  else violation "recovery effect profile is unsupported".

(** [_expected_effects_by_scope] *)
Definition expected_effects_by_scope (profile : RecoveryActionProfile)
  (action : SemanticActionIdentity) (expected_effects : list ExpectedEffect)
  : result recovery_error (list (string * ExpectedEffect)) :=
  violate_if (negb (bool_decide
      (map canonical_sha256 expected_effects = sa_expected_effect_sha256s action)))
    "expected effects do not match the semantic action identity";;
  violate_if (has_dup (map ee_commit_scope expected_effects))
    "recovery effect scopes must be unique";;
  let effects := map (λ e, (ee_commit_scope e, e)) expected_effects in
  predicates ← expected_predicates profile action effects;
  violate_if
    (negb (same_set (dict_keys effects) (dict_keys predicates))
     || existsb (λ p, match dict_get p.1 effects with
          | Some effect => negb (object_eqb (ee_predicate effect) p.2)
          | None => true end) predicates)
    "expected-effect predicates do not match the sealed action profile";;
  Ok effects.

(** The scopes a provider capability speaks for. *)
Definition allowed_scopes (o : ProviderObservation) : list string :=
  match o with
  | ServiceObservation _ => [STAGE_TRAFFIC_EFFECT_SCOPE; PROMOTION_TRAFFIC_EFFECT_SCOPE]
  | RevisionObservation _ => [STAGE_REVISION_EFFECT_SCOPE; STAGE_READINESS_EFFECT_SCOPE]
  | HealthObservation _ => [STAGE_READINESS_EFFECT_SCOPE]
  | OperationObservation _ => [STAGE_REVISION_EFFECT_SCOPE; PROMOTION_TRAFFIC_EFFECT_SCOPE]
  | DocumentObservation _ | ReceiptObservation _ => [FIRESTORE_RECORD_EFFECT_SCOPE]
  end.

(** [_provider_effect_state] *)
Definition provider_effect_state (o : ProviderObservation) (scope : string)
  : EffectAssertionState :=
  match o with
  | ServiceObservation o =>
      if negb (bool_decide (so_reconciling o = "false")
               && bool_decide (so_terminal_condition o = "SUCCEEDED")) then UNVERIFIED
      else
        let decide_ satisfied : EffectAssertionState :=
          if (satisfied : bool) then ESTABLISHED else NOT_ESTABLISHED in
        if bool_decide (scope = STAGE_TRAFFIC_EFFECT_SCOPE)
        then decide_ (bool_decide (so_revision_traffic_percent o = "0"))
        else if bool_decide (scope = PROMOTION_TRAFFIC_EFFECT_SCOPE)
        then decide_ (bool_decide (so_revision_traffic_percent o = "100"))
        else UNVERIFIED
  | RevisionObservation o =>
      if bool_decide (scope = STAGE_REVISION_EFFECT_SCOPE) then ESTABLISHED
      else if bool_decide (scope = STAGE_READINESS_EFFECT_SCOPE) then
        if bool_decide (vo_reconciling o = "false")
           && bool_decide (vo_terminal_condition o = "SUCCEEDED")
           && bool_decide (vo_readiness o = "READY") then ESTABLISHED
        else if bool_decide (vo_reconciling o = "false") then NOT_ESTABLISHED
        else UNVERIFIED
      else UNVERIFIED
  | HealthObservation o =>
      if bool_decide (ho_health_status o = "READY") then ESTABLISHED else NOT_ESTABLISHED
  | OperationObservation o =>
      if bool_decide (oo_operation_state o = "SUCCEEDED")
         && inb scope [STAGE_REVISION_EFFECT_SCOPE; PROMOTION_TRAFFIC_EFFECT_SCOPE]
      then ESTABLISHED else UNVERIFIED
  | DocumentObservation o =>
      if bool_decide (fo_exists o = "true") then ESTABLISHED else UNVERIFIED
  | ReceiptObservation _ => NOT_ESTABLISHED
  end.

(** One assertion of one evidence item, checked and recorded. *)
Definition record_assertion (scope_by_effect : list (string * string))
  (o : ProviderObservation) (states : list (string * list EffectAssertionState))
  (assertion : EffectAssertion)
  : result recovery_error (list (string * list EffectAssertionState)) :=
  match dict_get (ea_effect_id assertion) scope_by_effect with
  | None => violation "provider evidence asserts an undeclared expected effect"
  | Some scope =>
      let verified := negb (bool_decide (ea_state assertion = UNVERIFIED)) in
      violate_if (verified && negb (inb scope (allowed_scopes o)))
        "provider capability asserted an effect outside its authority";;
      violate_if (verified
          && negb (bool_decide (ea_state assertion = provider_effect_state o scope)))
        "provider effect assertion contradicts its typed observation";;
      Ok (dict_append (ea_effect_id assertion) (ea_state assertion) states)
  end.

(** [_assertion_states] *)
Definition assertion_states_by_effect (effects : list (string * ExpectedEffect))
  (evidence : list NormalizedEvidence)
  : result recovery_error (list (string * list EffectAssertionState)) :=
  let scope_by_effect :=
    dict_of (map (λ e, (ee_effect_id e.2, e.1)) effects) in
  fold_result (λ states e,
      o ← provider_observation e;
      fold_result (record_assertion scope_by_effect o) states (ne_effect_assertions e))
    (map (λ e, (e.1, [])) scope_by_effect) evidence.

(** ** Proofs *)

Definition service_of (o : ProviderObservation) : option CloudRunServiceObservation :=
  match o with ServiceObservation o => Some o | _ => None end.
Definition revision_of (o : ProviderObservation) : option CloudRunRevisionObservation :=
  match o with RevisionObservation o => Some o | _ => None end.
Definition document_of (o : ProviderObservation) : option FirestoreDocumentObservation :=
  match o with DocumentObservation o => Some o | _ => None end.
Definition is_receipt (o : ProviderObservation) : bool :=
  match o with ReceiptObservation _ => true | _ => false end.

Definition settled_service (percent : string) (o : CloudRunServiceObservation) : bool :=
  bool_decide (so_reconciling o = "false")
  && bool_decide (so_terminal_condition o = "SUCCEEDED")
  && bool_decide (so_revision_traffic_percent o = percent).

Definition ready_revision (o : CloudRunRevisionObservation) : bool :=
  bool_decide (vo_reconciling o = "false")
  && bool_decide (vo_terminal_condition o = "SUCCEEDED")
  && bool_decide (vo_readiness o = "READY").

(** [_require_stage_commit] *)
Definition require_stage_commit (observations : list ProviderObservation)
  : result recovery_error unit :=
  let services := omap service_of observations in
  let revisions := omap revision_of observations in
  violate_if (bool_decide (services = []) || bool_decide (revisions = []))
    "committed staging requires service and revision observations";;
  violate_if (negb (forallb (settled_service "0") services))
    "staged revision requires settled service state and zero traffic";;
  violate_if (negb (forallb ready_revision revisions))
    "staged revision is not terminally reconciled and ready";;
  require_stage_revision_coherence observations;;
  violate_if (negb (single_valued (map so_service_etag services)))
    "staging observations do not carry one consistent service ETag".

(** [_require_promotion_commit] *)
Definition require_promotion_commit (action : SemanticActionIdentity)
  (observations : list ProviderObservation) : result recovery_error unit :=
  let services := omap service_of observations in
  revision_ ← item "revision" (sa_semantic_arguments action);
  violate_if (bool_decide (services = [])
      || negb (forallb (λ o, py_eqb (JStr (so_revision o)) revision_
                             && settled_service "100" o) services))
    "promotion requires settled 100-percent traffic to the exact revision";;
  violate_if (negb (single_valued (map so_service_etag services)))
    "promotion observations do not carry one consistent service ETag".

(** [_require_firestore_commit] *)
Definition require_firestore_commit (action : SemanticActionIdentity)
  (effects : list (string * ExpectedEffect)) (observations : list ProviderObservation)
  : result recovery_error unit :=
  let documents := omap document_of observations in
  violate_if (bool_decide (documents = [])
      || negb (forallb (λ o, bool_decide (fo_exists o = "true")) documents))
    "Firestore commit requires the exact release record to exist";;
  effect ← item FIRESTORE_RECORD_EFFECT_SCOPE effects;
  match dict_get "cloud_run_revision" (ee_predicate effect) with
  | None | Some JNull => Ok tt
  | Some expected_revision =>
      violate_if (negb (forallb (λ o,
          match fo_cloud_run_revision o with
          | Some r => py_eqb (JStr r) expected_revision | None => false end
          && bool_decide (fo_semantic_action_sha256 o
               = Some (sa_semantic_action_sha256 action))) documents))
        "Firestore commit is not bound to the intended Cloud Run revision"
  end.

Definition definitive_states (values : list EffectAssertionState) : list EffectAssertionState :=
  filter (λ s, s ≠ UNVERIFIED) values.

(** [{effect_id for effect_id, values in definitive_states.items() if values == {s}}] *)
Definition effects_settled_as (s : EffectAssertionState)
  (states : list (string * list EffectAssertionState)) : list string :=
  (filter (λ e, same_set (definitive_states e.2) [s] = true) states).*1.

Definition pending_observation (o : ProviderObservation) : bool :=
  match o with
  | OperationObservation o => inb (oo_operation_state o) ["RUNNING"; "FAILED"]
  | ServiceObservation o => bool_decide (so_reconciling o = "true")
  | RevisionObservation o => bool_decide (vo_reconciling o = "true")
  | _ => false
  end.

(** The classification's own requirements, once effects are known. *)
Definition validate_classified_proof (profile : RecoveryActionProfile)
  (action : SemanticActionIdentity) (effects : list (string * ExpectedEffect))
  (classification : Classification) (observations : list ProviderObservation)
  (states : list (string * list EffectAssertionState)) : result recovery_error unit :=
  let established := effects_settled_as ESTABLISHED states in
  let not_established := effects_settled_as NOT_ESTABLISHED states in
  let effect_ids := dict_keys states in
  match classification with
  | UNKNOWN => Ok tt
  | COMMITTED =>
      violate_if (negb (same_set established effect_ids)
                  || negb (bool_decide (not_established = [])))
        "committed proof does not establish every declared effect";;
      if bool_decide (profile = STAGE_CLOUD_RUN_REVISION_PROFILE)
      then require_stage_commit observations
      else if bool_decide (profile = PROMOTE_CLOUD_RUN_TRAFFIC_PROFILE)
      then require_promotion_commit action observations
      else require_firestore_commit action effects observations
  | NOT_COMMITTED =>
      violate_if
        (negb (bool_decide (profile = CREATE_FIRESTORE_RELEASE_RECORD_PROFILE))
         || negb (existsb is_receipt observations)
         || negb (same_set not_established effect_ids)
         || negb (bool_decide (established = []))
         || negb (forallb is_receipt observations))
        "not-committed proof requires only a positive pre-provider receipt"
  | PENDING =>
      violate_if (negb (existsb pending_observation observations))
        "pending proof requires typed unresolved Cloud Run state"
  | PARTIAL =>
      violate_if
        (negb (bool_decide (profile = STAGE_CLOUD_RUN_REVISION_PROFILE))
         || bool_decide (established = []) || bool_decide (not_established = [])
         || negb (same_set (established ++ not_established) effect_ids))
        "partial proof requires explicit mixed Cloud Run stage effects";;
      effect ← item STAGE_REVISION_EFFECT_SCOPE effects;
      violate_if (inb (ee_effect_id effect) established
                  && bool_decide (omap revision_of observations = []))
        "partial staged revision creation requires an exact revision read"
  end.

Definition validate_recovery_proof (profile : RecoveryActionProfile)
  (action : SemanticActionIdentity) (expected_effects : list ExpectedEffect)
  (classification : Classification) (evidence : list NormalizedEvidence)
  : result recovery_error unit :=
  validate_recovery_evidence profile action evidence;;
  effects ← expected_effects_by_scope profile action expected_effects;
  observations ← traverse provider_observation evidence;
  (if bool_decide (classification = UNKNOWN) then Ok tt
   else
     require_consistent_observations (zip evidence observations);;
     if bool_decide (profile = STAGE_CLOUD_RUN_REVISION_PROFILE)
     then require_stage_revision_coherence observations else Ok tt);;
  states ← assertion_states_by_effect effects evidence;
  violate_if (existsb (λ e, negb (bool_decide (definitive_states e.2 = [])
                                  || single_valued (definitive_states e.2))) states)
    "provider evidence contains conflicting effects";;
  validate_classified_proof profile action effects classification observations states.

(** ** Dispatch preconditions *)

Definition service_etags (evidence : list NormalizedEvidence)
  : list (option string) :=
  map (λ e, dict_get "service_etag" (ne_correlation e))
    (filter (λ e, capability_key e = rcap_key SERVICE_GET) evidence).

Definition recovery_precondition (profile : RecoveryActionProfile)
  (evidence : list NormalizedEvidence) (retry : bool) : result recovery_error json_object :=
  match rp_precondition_kind profile with
  | Precondition_NONE => Ok [("none", JBool true)]
  | FIRESTORE_MUST_NOT_EXIST =>
      violate_if (retry && (bool_decide (length evidence = O)
          || existsb (λ e, negb (bool_decide (capability_key e = rcap_key DISPATCH_RECEIPT_GET))
               || negb (bool_decide (ne_operation_status e = Some TERMINAL_NOT_COMMITTED)))
             evidence))
        "Firestore retry precondition requires a positive dispatch receipt";;
      Ok [("exists", JBool false)]
  | CLOUD_RUN_SERVICE_ETAG =>
      let etags := service_etags evidence in
      violate_if (bool_decide (etags = []) || inb None etags)
        "promotion requires a service_etag from service evidence";;
      violate_if (negb (single_valued etags))
        "promotion requires one consistent service_etag";;
      match etags with
      | Some etag :: _ => Ok [("service_etag", JStr etag)]
      | _ => violation "promotion requires a service_etag from service evidence"
      end
  end.

Definition recovery_precondition_sha256 (profile : RecoveryActionProfile)
  (evidence : list NormalizedEvidence) (retry : bool) : result recovery_error string :=
  violate_if (negb (sealed_profile profile)) "action profile is not in the sealed inventory";;
  traverse provider_observation evidence;;
  precondition ← recovery_precondition profile evidence retry;
  payload ← map_error ContractError (canonical_json_value_bytes (JObj precondition));
  Ok (sha256_hex payload).

End rules.
