(* ===== verification/RecoveryRulesFacts.v ===== *)
(** What an accepted recovery proof says about the provider observations.

    [validate_recovery_proof] runs over several loops; here each is read back as
    a statement about its items: every evidence item is a typed observation of a
    trusted adapter bound to the action, and every verified assertion is what
    that observation shows. *)

From S2P Require Export RecoveryRules.

#[local] Open Scope Z_scope.

(** Opens a chain of [violate_if] checks. *)
Ltac inv_checks :=
  unfold violate_if, violation in *; inv_ok; bool_simpl.

Lemma item_ok {V} key (m : list (string * V)) v : item key m = Ok v ↔ dict_get key m = Some v.
Proof.
  unfold item. rewrite map_error_ok. unfold dict_item.
  destruct (dict_get key m); split; congruence.
Qed.

Lemma traverse_ok {A B} (f : A → result recovery_error B) l k :
  traverse f l = Ok k ↔ Forall2 (λ x y, f x = Ok y) l k.
Proof.
  revert k. induction l as [|x l IH]; intros k; cbn.
  - split; [intros [= <-]; constructor|]. by intros ->%Forall2_nil_inv_l.
  - rewrite bind_ok. split.
    + intros (y & Hy & H). apply bind_ok in H as (k' & Hk & [= <-]).
      constructor; [done|]. by apply IH.
    + intros (y & k' & Hy & Hk & ->)%Forall2_cons_inv_l. exists y. split; [done|].
      apply IH in Hk as ->. done.
Qed.

Lemma Forall2_left {A B} (P : A → B → Prop) l k :
  Forall2 P l k → Forall (λ x, ∃ y, P x y) l.
Proof. induction 1; constructor; eauto. Qed.

Lemma traverse_length {A B} (f : A → result recovery_error B) l k :
  traverse f l = Ok k → length k = length l.
Proof. intros H%traverse_ok. symmetry. by eapply Forall2_length. Qed.

Lemma single_valued_pair `{EqDecision A} (l : list A) x y :
  single_valued l = true → x ∈ l → y ∈ l → x = y.
Proof.
  destruct l as [|a l]; [done|]. cbn. rewrite forallb_forall.
  setoid_rewrite bool_decide_eq_true. intros H.
  assert (∀ z, z ∈ a :: l → z = a) as Hz.
  { intros z [->|Hz]%elem_of_cons; [done|]. apply H. by apply list_elem_of_In. }
  intros ->%Hz ->%Hz. done.
Qed.

Lemma sealed_profile_elem profile :
  sealed_profile profile = true → profile ∈ RECOVERY_ACTION_PROFILES.
Proof.
  unfold sealed_profile. rewrite bool_decide_eq_true. intros H%dict_get_elem.
  apply list_elem_of_fmap in H as (p & Hp & Hin). by simplify_eq.
Qed.

Lemma sealed_profile_cases profile :
  sealed_profile profile = true →
  profile = STAGE_CLOUD_RUN_REVISION_PROFILE ∨
  profile = PROMOTE_CLOUD_RUN_TRAFFIC_PROFILE ∨
  profile = CREATE_FIRESTORE_RELEASE_RECORD_PROFILE.
Proof.
  intros H%sealed_profile_elem. unfold RECOVERY_ACTION_PROFILES in H.
  rewrite !elem_of_cons in H. destruct H as [->|[->|[->|H]]]; auto.
  by apply not_elem_of_nil in H.
Qed.

Section facts.
Context {rt : Runtime} {sec : Security}.

Lemma resolved_profile action profile :
  resolve_recovery_action_profile action = Ok profile →
  sealed_profile profile = true ∧ validate_recovery_action profile action = Ok tt ∧
  sa_action_profile_version action = rp_profile_version profile ∧
  sa_tool_name action = rp_tool_name profile ∧
  sa_tool_version action = rp_tool_version profile.
Proof.
  unfold resolve_recovery_action_profile. destruct (dict_get _ _) as [p|] eqn:Hp; [|done].
  intros H. inv_ok. subst p. pose proof Hr as Hv. unfold validate_recovery_action in Hr.
  inv_checks. done.
Qed.

(** Everything [validated_observation] establishes of one evidence item. *)
Record bound_observation (profile : RecoveryActionProfile) (action : SemanticActionIdentity)
  (e : NormalizedEvidence) (o : ProviderObservation) : Prop := {
  bo_capability : capability_key e ∈ map rcap_key (rp_evidence_capabilities profile);
  bo_target : target_eqb (ne_target e) (sa_target action) = true;
  bo_authority : ne_authority e = TARGET_STATE;
  bo_observation : provider_observation e = Ok o;
  bo_status : validate_evidence_status e o = Ok tt;
  bo_identity : ∃ strict, validate_observation_identity profile action o strict = Ok tt;
  bo_record : expected_source_record profile action o
    = Ok (ep_source_record (ne_provenance e));
}.

Lemma validated_observation_bound profile action strict e o :
  validated_observation profile action strict e = Ok o →
  bound_observation profile action e o.
Proof.
  unfold validated_observation, validate_observation_binding. intros H. inv_checks.
  rewrite inb_true in *. subst. split; eauto.
Qed.

Lemma validated_observations profile action evidence :
  validate_recovery_evidence profile action evidence = Ok tt →
  validate_recovery_action profile action = Ok tt ∧ evidence ≠ [] ∧
  Forall (λ e, ∃ o, bound_observation profile action e o) evidence.
Proof.
  unfold validate_recovery_evidence, validated_recovery_observations. intros H. inv_checks.
  split; [done|]. split; [by intros ->|].
  match goal with Hx : traverse _ _ = Ok _ |- _ => apply traverse_ok in Hx;
    apply Forall2_left in Hx; rename Hx into Ht end.
  eapply Forall_impl; [exact Ht|]. intros e [o Ho]. exists o.
  by apply validated_observation_bound in Ho.
Qed.

(** ** Assertions per effect *)

Abbreviation reading := (NormalizedEvidence * ProviderObservation * EffectAssertion)%type
  (only parsing).

(** The verified state of an assertion is what the observation shows, for a
    scope the capability speaks for. *)
Definition shown (scope_by_effect : list (string * string)) (r : reading) : Prop :=
  let '(e, o, a) := r in
  provider_observation e = Ok o ∧ a ∈ ne_effect_assertions e ∧
  ∃ scope, dict_get (ea_effect_id a) scope_by_effect = Some scope ∧
    (ea_state a ≠ UNVERIFIED →
      scope ∈ allowed_scopes o ∧ ea_state a = provider_effect_state o scope).

Record reflects (scope_by_effect : list (string * string)) (l : list reading)
  (states : list (string * list EffectAssertionState)) : Prop := {
  rf_keys : dict_keys states = dict_keys scope_by_effect;
  rf_shown : Forall (shown scope_by_effect) l;
  rf_sound : ∀ id k s, dict_get id states = Some k → s ∈ k →
    ∃ r, r ∈ l ∧ ea_effect_id r.2 = id ∧ ea_state r.2 = s;
  rf_complete : ∀ r, r ∈ l → ∃ k, dict_get (ea_effect_id r.2) states = Some k ∧
    ea_state r.2 ∈ k;
}.

Lemma dict_append_get_eq `{EqDecision K} {V} (k : K) (v : V) d :
  dict_get k (dict_append k v d) = Some (default [] (dict_get k d) ++ [v]).
Proof. apply dict_get_set_eq. Qed.

Lemma dict_append_get_ne `{EqDecision K} {V} (k k' : K) (v : V) d :
  k ≠ k' → dict_get k (dict_append k' v d) = dict_get k d.
Proof. apply dict_get_set_ne. Qed.

Lemma record_assertion_reflects sbe e o a l states states' :
  provider_observation e = Ok o → a ∈ ne_effect_assertions e →
  reflects sbe l states → record_assertion sbe o states a = Ok states' →
  reflects sbe (l ++ [(e, o, a)]) states'.
Proof.
  intros Ho Ha [Hk Hsh Hso Hco]. unfold record_assertion.
  destruct (dict_get (ea_effect_id a) sbe) as [scope|] eqn:Hscope; [|done].
  intros H. inv_checks. subst states'.
  assert (shown sbe (e, o, a)) as Hsn.
  { split_and!; [done|done|]. exists scope. split; [done|]. intros Hne.
    rewrite bool_decide_eq_false_2 in * by done. cbn in *. bool_simpl.
    rewrite inb_true in *. done. }
  split.
  - unfold dict_append. rewrite dict_keys_set, decide_True; [done|].
    rewrite Hk. apply dict_get_is_some. by rewrite Hscope.
  - apply Forall_app. split; [done|]. by constructor.
  - intros id k s Hg Hs. destruct (decide (id = ea_effect_id a)) as [->|Hne].
    + rewrite dict_append_get_eq in Hg. injection Hg as <-.
      apply elem_of_app in Hs as [Hs|Hs%list_elem_of_singleton].
      * destruct (dict_get (ea_effect_id a) states) as [k|] eqn:Hd;
          [|by apply not_elem_of_nil in Hs].
        destruct (Hso _ _ _ Hd Hs) as (r & Hin & ? & ?). exists r.
        split; [apply elem_of_app; by left|done].
      * exists (e, o, a). split; [apply elem_of_app; right; by left|done].
    + rewrite dict_append_get_ne in Hg by done.
      destruct (Hso _ _ _ Hg Hs) as (r & Hin & ? & ?). exists r.
      split; [apply elem_of_app; by left|done].
  - intros r [Hin|Heq%list_elem_of_singleton]%elem_of_app; [|subst r]; cbn.
    + destruct (Hco r Hin) as (k & Hg & Hs).
      destruct (decide (ea_effect_id r.2 = ea_effect_id a)) as [Heq|Hne].
      * rewrite Heq, dict_append_get_eq. rewrite Heq in Hg. rewrite Hg.
        eexists. split; [done|]. apply elem_of_app. by left.
      * rewrite dict_append_get_ne by done. eauto.
    + rewrite dict_append_get_eq. eexists. split; [done|].
      apply elem_of_app. right. by left.
Qed.

Definition scopes_by_effect (effects : list (string * ExpectedEffect))
  : list (string * string) := dict_of (map (λ e, (ee_effect_id e.2, e.1)) effects).

Lemma dict_get_fmap_nil {K V W} `{EqDecision K} (d : list (K * V)) k (l : list W) :
  dict_get k (map (λ e, (e.1, [])) d) = Some l → l = [].
Proof.
  induction d as [|[k' v] d IH]; cbn; [done|]. case_decide; [congruence|auto].
Qed.

(** The readings of a proof, one per assertion of its evidence. *)
Lemma assertion_states_reflect effects evidence states :
  assertion_states_by_effect effects evidence = Ok states →
  ∃ l, reflects (scopes_by_effect effects) l states ∧
    (∀ r, r ∈ l → r.1.1 ∈ evidence) ∧
    (∀ e a, e ∈ evidence → a ∈ ne_effect_assertions e → ∃ o, (e, o, a) ∈ l).
Proof.
  unfold assertion_states_by_effect. fold (scopes_by_effect effects).
  set (sbe := scopes_by_effect effects).
  apply (fold_result_inv _ (λ done states, ∃ l, reflects sbe l states ∧
    (∀ r, r ∈ l → r.1.1 ∈ done) ∧
    (∀ e a, e ∈ done → a ∈ ne_effect_assertions e → ∃ o, (e, o, a) ∈ l))).
  - exists []. split; [split|split].
    + unfold dict_keys. rewrite <-list_fmap_compose. done.
    + constructor.
    + intros id k s Hg Hs. apply dict_get_fmap_nil in Hg as ->.
      by apply not_elem_of_nil in Hs.
    + by intros r ?%not_elem_of_nil.
    + by intros r ?%not_elem_of_nil.
    + by intros e a ?%not_elem_of_nil.
  - intros k e st st' He (l & Hl & Hin & Hall) H. apply bind_ok in H as (o & Ho & H).
    apply (fold_result_inv _ (λ processed st, reflects sbe
      (l ++ map (λ a, (e, o, a)) processed) st)) in H.
    + exists (l ++ map (λ a, (e, o, a)) (ne_effect_assertions e)). split; [done|].
      split.
      * intros r [Hr|Hr]%elem_of_app; apply elem_of_app; [left; auto|].
        apply list_elem_of_fmap in Hr as (a & -> & _). right; by left.
      * intros e' a [He'|Heq%list_elem_of_singleton]%elem_of_app Ha; [|subst e'].
        -- destruct (Hall e' a He' Ha) as [o' ?]. exists o'. apply elem_of_app. by left.
        -- exists o. apply elem_of_app. right. apply list_elem_of_fmap. by exists a.
    + cbn. by rewrite app_nil_r.
    + intros p a u u' Ha Hu Hstep. rewrite map_app, app_assoc.
      by eapply record_assertion_reflects.
Qed.

(** ** Settled effects *)

(** The evidence settles an effect in state [s]: one item shows it through the
    typed reading of its own capability, and none shows anything else. *)
Record effect_settled (evidence : list NormalizedEvidence) (s : EffectAssertionState)
  (effect : ExpectedEffect) : Prop := {
  es_shown : ∃ e o, e ∈ evidence ∧ provider_observation e = Ok o ∧
    {| ea_effect_id := ee_effect_id effect; ea_state := s |} ∈ ne_effect_assertions e ∧
    ee_commit_scope effect ∈ allowed_scopes o ∧
    provider_effect_state o (ee_commit_scope effect) = s;
  es_unopposed : ∀ e a, e ∈ evidence → a ∈ ne_effect_assertions e →
    ea_effect_id a = ee_effect_id effect → ea_state a = s ∨ ea_state a = UNVERIFIED;
}.

Lemma settled_as_get s states id :
  NoDup (dict_keys states) → s ≠ UNVERIFIED → id ∈ effects_settled_as s states →
  ∃ k, dict_get id states = Some k ∧ s ∈ k ∧ (∀ t, t ∈ k → t = s ∨ t = UNVERIFIED).
Proof.
  intros Hnd Hs ([j k] & -> & [Hset Hin]%list_elem_of_filter)%list_elem_of_fmap.
  rewrite same_set_true in Hset. cbn in *. exists k.
  split; [by apply dict_get_nodup|]. unfold definitive_states in Hset. split.
  - assert (s ∈ filter (λ t, t ≠ UNVERIFIED) k) as Hk by (apply Hset; left).
    by apply list_elem_of_filter in Hk as [_ ?].
  - intros t Ht. destruct (decide (t = UNVERIFIED)) as [|Hne]; [by right|left].
    apply list_elem_of_singleton, Hset. by apply list_elem_of_filter.
Qed.

Lemma scopes_by_effect_unique (expected : list ExpectedEffect) :
  NoDup (map ee_effect_id expected) →
  scopes_by_effect (map (λ e, (ee_commit_scope e, e)) expected)
    = map (λ e, (ee_effect_id e, ee_commit_scope e)) expected ∧
  dict_keys (map (λ e, (ee_effect_id e, ee_commit_scope e)) expected)
    = map ee_effect_id expected.
Proof.
  intros Hnd. unfold scopes_by_effect. rewrite map_map. cbn.
  assert (dict_keys (map (λ e, (ee_effect_id e, ee_commit_scope e)) expected)
    = map ee_effect_id expected) as Hk.
  { unfold dict_keys. clear Hnd. induction expected; cbn; congruence. }
  split; [|done]. apply dict_of_nodup. by rewrite Hk.
Qed.

Lemma states_settle expected evidence states s :
  NoDup (map ee_effect_id expected) → s ≠ UNVERIFIED →
  assertion_states_by_effect (map (λ e, (ee_commit_scope e, e)) expected) evidence
    = Ok states →
  same_set (effects_settled_as s states) (dict_keys states) = true →
  Forall (effect_settled evidence s) expected.
Proof.
  intros Hnd Hs Hst Hset. destruct (scopes_by_effect_unique expected Hnd) as [Hsbe Hkeys].
  apply assertion_states_reflect in Hst as (l & [Hk Hsh Hso Hco] & Hin & Hall).
  rewrite Hsbe in *. rewrite Hk, Hkeys, same_set_true in Hset.
  assert (NoDup (dict_keys states)) as Hndk by (by rewrite Hk, Hkeys).
  apply Forall_forall. intros x Hx.
  assert (ee_effect_id x ∈ effects_settled_as s states) as Hid.
  { apply Hset. apply list_elem_of_fmap. by exists x. }
  apply settled_as_get in Hid as (k & Hg & Hsk & Honly); [|done|done].
  assert (dict_get (ee_effect_id x)
    (map (λ e, (ee_effect_id e, ee_commit_scope e)) expected)
      = Some (ee_commit_scope x)) as Hscope.
  { apply dict_get_nodup; [by rewrite Hkeys|]. apply list_elem_of_fmap. by exists x. }
  split.
  - destruct (Hso _ _ _ Hg Hsk) as ([[e o] a] & Hr & Ha & Hast). cbn in *.
    pose proof (proj1 (Forall_forall _ _) Hsh _ Hr) as (Ho & Hae & scope & Hsc & Hv).
    rewrite Ha, Hscope in Hsc. injection Hsc as <-. rewrite Hast in Hv.
    destruct (Hv Hs) as [Hal Hp]. exists e, o. split_and!; try done.
    + exact (Hin _ Hr).
    + destruct a as [i t]. cbn in *. by subst.
  - intros e a He Ha Heq. destruct (Hall e a He Ha) as [o Hr].
    destruct (Hco _ Hr) as (k' & Hg' & Hk'). cbn in *. rewrite Heq, Hg in Hg'.
    injection Hg' as <-. auto.
Qed.

Lemma expected_effects_scoped profile action expected effects :
  expected_effects_by_scope profile action expected = Ok effects →
  effects = map (λ e, (ee_commit_scope e, e)) expected ∧
  NoDup (map ee_commit_scope expected).
Proof.
  unfold expected_effects_by_scope. intros H. inv_checks. subst.
  by rewrite has_dup_false in *.
Qed.

(** The parts of an accepted proof. *)
Record accepted_proof (profile : RecoveryActionProfile) (action : SemanticActionIdentity)
  (expected : list ExpectedEffect) (classification : Classification)
  (evidence : list NormalizedEvidence) (observations : list ProviderObservation)
  (states : list (string * list EffectAssertionState)) : Prop := {
  ap_evidence : evidence ≠ [] ∧
    Forall (λ e, ∃ o, bound_observation profile action e o) evidence;
  ap_observations : Forall2 (λ e o, provider_observation e = Ok o) evidence observations;
  ap_consistent : classification ≠ UNKNOWN →
    require_consistent_observations (zip evidence observations) = Ok tt;
  ap_states : assertion_states_by_effect
    (map (λ e, (ee_commit_scope e, e)) expected) evidence = Ok states;
  ap_classified : validate_classified_proof profile action
    (map (λ e, (ee_commit_scope e, e)) expected) classification observations states = Ok tt;
}.

Lemma accepted_proof_inv profile action expected c evidence :
  validate_recovery_proof profile action expected c evidence = Ok tt →
  ∃ observations states, accepted_proof profile action expected c evidence observations states.
Proof.
  unfold validate_recovery_proof. intros H. inv_ok.
  match goal with Hx : validate_recovery_evidence _ _ _ = Ok _ |- _ =>
    apply validated_observations in Hx as (_ & Hne & Hb) end.
  match goal with Hx : expected_effects_by_scope _ _ _ = Ok _ |- _ =>
    apply expected_effects_scoped in Hx as [-> _] end.
  match goal with Hx : traverse _ _ = Ok ?obs, Hy : assertion_states_by_effect _ _ = Ok ?st |- _ =>
    apply traverse_ok in Hx; exists obs, st end.
  split; try done.
  intros Hc. match goal with Hx : (if bool_decide (c = UNKNOWN) then _ else _) = Ok _ |- _ =>
    rewrite bool_decide_eq_false_2 in Hx by done; inv_ok; done end.
Qed.

(** A receipt is bound to the action it proves was never sent. *)
Definition receipt_for (action : SemanticActionIdentity) (e : NormalizedEvidence) : Prop :=
  ∃ r, provider_observation e = Ok (ReceiptObservation r) ∧
    co_semantic_action_sha256 r = sa_semantic_action_sha256 action ∧
    ne_operation_status e = Some TERMINAL_NOT_COMMITTED ∧
    Forall (λ a, ea_state a = NOT_ESTABLISHED) (ne_effect_assertions e).

Lemma any_not_false s l : any_not s l = false ↔ Forall (λ t, t = s) l.
Proof.
  unfold any_not. induction l as [|t l IH]; cbn; [split; [constructor|done]|].
  rewrite orb_false_iff, IH, Forall_cons, negb_false_iff, bool_decide_eq_true. done.
Qed.

Lemma receipt_bound profile action e r :
  bound_observation profile action e (ReceiptObservation r) → receipt_for action e.
Proof.
  intros [_ _ _ Ho Hst [strict Hi] _]. exists r. split; [done|].
  unfold validate_observation_identity in Hi. cbn in Hi. inv_checks.
  cbn in Hst. inv_checks. split_and!; try done.
  rewrite any_not_false in *. unfold assertion_states in *.
  match goal with Hx : Forall _ (map _ _) |- _ => by apply Forall_map in Hx end.
Qed.

Lemma not_committed_proof profile action expected evidence :
  NoDup (map ee_effect_id expected) →
  validate_recovery_proof profile action expected NOT_COMMITTED evidence = Ok tt →
  profile = CREATE_FIRESTORE_RELEASE_RECORD_PROFILE ∧ evidence ≠ [] ∧
  Forall (receipt_for action) evidence ∧
  Forall (effect_settled evidence NOT_ESTABLISHED) expected.
Proof.
  intros Hnd (obs & states & [[Hne Hb] Ho _ Hst Hc])%accepted_proof_inv.
  cbn [validate_classified_proof] in Hc. inv_checks.
  split; [done|]. split; [done|]. split.
  - apply Forall_forall. intros e He.
    pose proof (proj1 (Forall_forall _ _) Hb e He) as [o Hbo].
    apply list_elem_of_lookup in He as [i Hi].
    destruct (Forall2_lookup_l _ _ _ _ _ Ho Hi) as (o' & Hi' & Ho').
    pose proof (bo_observation _ _ _ _ Hbo) as Heq. rewrite Heq in Ho'.
    injection Ho' as <-.
    match goal with Hx : forallb is_receipt _ = true |- _ =>
      rewrite forallb_forall in Hx; pose proof (Hx o) as Hrec end.
    assert (is_receipt o = true) as Hr1.
    { apply Hrec, list_elem_of_In, list_elem_of_lookup. eauto. }
    destruct o; try done. by eapply receipt_bound.
  - by eapply states_settle.
Qed.

(** The provider reading each profile demands before it calls an action
    committed. *)
Definition commit_observed (profile : RecoveryActionProfile) (action : SemanticActionIdentity)
  (evidence : list NormalizedEvidence) : Prop :=
  if decide (profile = STAGE_CLOUD_RUN_REVISION_PROFILE) then
    (∃ e o, e ∈ evidence ∧ provider_observation e = Ok (ServiceObservation o) ∧
      settled_service "0" o = true) ∧
    (∃ e o, e ∈ evidence ∧ provider_observation e = Ok (RevisionObservation o) ∧
      ready_revision o = true)
  else if decide (profile = PROMOTE_CLOUD_RUN_TRAFFIC_PROFILE) then
    ∃ e o, e ∈ evidence ∧ provider_observation e = Ok (ServiceObservation o) ∧
      settled_service "100" o = true ∧
      dict_get "revision" (sa_semantic_arguments action) = Some (JStr (so_revision o))
  else
    ∃ e o, e ∈ evidence ∧ provider_observation e = Ok (DocumentObservation o) ∧
      fo_exists o = "true".

Lemma observed {B} (pick : ProviderObservation → option B) evidence obs y :
  Forall2 (λ e o, provider_observation e = Ok o) evidence obs → y ∈ omap pick obs →
  ∃ e o, e ∈ evidence ∧ provider_observation e = Ok o ∧ pick o = Some y.
Proof.
  intros H (o & Ho & Hy)%list_elem_of_omap.
  apply list_elem_of_lookup in Ho as [i Hi].
  destruct (Forall2_lookup_r _ _ _ _ _ H Hi) as (e & He & Heo).
  exists e, o. split; [|done]. apply list_elem_of_lookup. eauto.
Qed.

Lemma nonempty_head {A} (l : list A) : l ≠ [] → ∃ x, x ∈ l.
Proof. destruct l as [|x l]; [done|]. exists x. left. Qed.

Lemma forallb_elem {A} (f : A → bool) l x : forallb f l = true → x ∈ l → f x = true.
Proof. rewrite forallb_forall. intros H Hx. apply H. by apply list_elem_of_In. Qed.

Lemma service_of_some o s : service_of o = Some s → o = ServiceObservation s.
Proof. destruct o; cbn; congruence. Qed.
Lemma revision_of_some o s : revision_of o = Some s → o = RevisionObservation s.
Proof. destruct o; cbn; congruence. Qed.
Lemma document_of_some o s : document_of o = Some s → o = DocumentObservation s.
Proof. destruct o; cbn; congruence. Qed.

Lemma stage_commit_observed evidence obs :
  Forall2 (λ e o, provider_observation e = Ok o) evidence obs →
  require_stage_commit obs = Ok tt →
  (∃ e o, e ∈ evidence ∧ provider_observation e = Ok (ServiceObservation o) ∧
    settled_service "0" o = true) ∧
  (∃ e o, e ∈ evidence ∧ provider_observation e = Ok (RevisionObservation o) ∧
    ready_revision o = true).
Proof.
  intros Hobs. unfold require_stage_commit. intros H. inv_checks. split.
  - destruct (nonempty_head (omap service_of obs)) as [s Hs]; [done|].
    destruct (observed _ _ _ _ Hobs Hs) as (e & o & He & Ho & ->%service_of_some).
    exists e, s. split_and!; try done. by eapply forallb_elem.
  - destruct (nonempty_head (omap revision_of obs)) as [s Hs]; [done|].
    destruct (observed _ _ _ _ Hobs Hs) as (e & o & He & Ho & ->%revision_of_some).
    exists e, s. split_and!; try done. by eapply forallb_elem.
Qed.

Lemma promotion_commit_observed action evidence obs :
  Forall2 (λ e o, provider_observation e = Ok o) evidence obs →
  require_promotion_commit action obs = Ok tt →
  ∃ e o, e ∈ evidence ∧ provider_observation e = Ok (ServiceObservation o) ∧
    settled_service "100" o = true ∧
    dict_get "revision" (sa_semantic_arguments action) = Some (JStr (so_revision o)).
Proof.
  intros Hobs. unfold require_promotion_commit. intros H. inv_checks.
  match goal with Hx : item _ _ = Ok _ |- _ => apply item_ok in Hx end.
  destruct (nonempty_head (omap service_of obs)) as [s Hs]; [done|].
  destruct (observed _ _ _ _ Hobs Hs) as (e & o & He & Ho & ->%service_of_some).
  match goal with Hx : forallb _ _ = true |- _ =>
    pose proof (forallb_elem _ _ _ Hx Hs) as Hset end.
  cbn in Hset. apply andb_true_iff in Hset as [Hrev Hset].
  exists e, s. split_and!; try done. apply py_eqb_str in Hrev. congruence.
Qed.

Lemma firestore_commit_observed action effects evidence obs :
  Forall2 (λ e o, provider_observation e = Ok o) evidence obs →
  require_firestore_commit action effects obs = Ok tt →
  ∃ e o, e ∈ evidence ∧ provider_observation e = Ok (DocumentObservation o) ∧
    fo_exists o = "true".
Proof.
  intros Hobs. unfold require_firestore_commit. intros H. inv_checks.
  destruct (nonempty_head (omap document_of obs)) as [s Hs]; [done|].
  destruct (observed _ _ _ _ Hobs Hs) as (e & o & He & Ho & ->%document_of_some).
  match goal with Hx : forallb _ _ = true |- _ =>
    pose proof (forallb_elem _ _ _ Hx Hs) as Hset end.
  exists e, s. split_and!; try done. by apply bool_decide_eq_true in Hset.
Qed.

Lemma committed_proof profile action expected evidence :
  NoDup (map ee_effect_id expected) →
  validate_recovery_proof profile action expected COMMITTED evidence = Ok tt →
  evidence ≠ [] ∧ Forall (effect_settled evidence ESTABLISHED) expected ∧
  commit_observed profile action evidence.
Proof.
  intros Hnd (obs & states & [[Hne Hb] Ho _ Hst Hc])%accepted_proof_inv.
  cbn [validate_classified_proof] in Hc. unfold violate_if in Hc. inv_ok. bool_simpl.
  split; [done|]. split; [by eapply states_settle|].
  unfold commit_observed.
  destruct (decide (profile = STAGE_CLOUD_RUN_REVISION_PROFILE)) as [->|H1].
  { rewrite bool_decide_eq_true_2 in Hc by done. by eapply stage_commit_observed. }
  rewrite bool_decide_eq_false_2 in Hc by done.
  destruct (decide (profile = PROMOTE_CLOUD_RUN_TRAFFIC_PROFILE)) as [->|H2].
  { rewrite bool_decide_eq_true_2 in Hc by done. by eapply promotion_commit_observed. }
  rewrite bool_decide_eq_false_2 in Hc by done. by eapply firestore_commit_observed.
Qed.

End facts.
