(* ===== verification/RecoveryVerification.v ===== *)
(** Deterministic certificates and ambiguity witnesses
    (reconcile/evidence/recovery_verification.py).

    [verify_recovery] takes a recovery chain, one of its nodes, the node's
    envelope, the report and the sealed evaluation of its investigation, and
    answers with a [VerifiedCertificate], which may carry one authorized
    transition, or with an [AmbiguityWitness], which carries two histories the
    evidence cannot tell apart.

    Decoding the canonical bytes of a valid contract gives the contract back
    up to the order of dict keys, which nothing here reads: [rehydrate] is the
    validation both directions make.  The seal of an evaluation (only the
    engine constructs one) is not a value: a theorem that needs it says which
    evaluation the engine returned. *)

From S2P Require Export RecoveryRules.

#[local] Open Scope Z_scope.

Definition RECOVERY_VERIFIER_VERSION := "recovery-verifier-v1".
Definition RECOVERY_CHAIN_PROFILE_VERSION := "cloud-run-release-chain-v1".
Definition RECOVERY_CORRELATION_POLICY_VERSION := "exact-envelope-correlation-v1".
Definition RECOVERY_FRESHNESS_POLICY_VERSION := "envelope-freshness-window-v1".

(** [_SUCCESSOR_PROFILE] *)
Definition successor_profile (version : string) : option string :=
  if bool_decide (version = STAGE_CLOUD_RUN_REVISION_PROFILE_VERSION)
  then Some PROMOTE_CLOUD_RUN_TRAFFIC_PROFILE_VERSION
  else if bool_decide (version = PROMOTE_CLOUD_RUN_TRAFFIC_PROFILE_VERSION)
  then Some CREATE_FIRESTORE_RELEASE_RECORD_PROFILE_VERSION
  else None.

Definition CHAIN_PROFILE_ORDER : list string :=
  [STAGE_CLOUD_RUN_REVISION_PROFILE_VERSION; PROMOTE_CLOUD_RUN_TRAFFIC_PROFILE_VERSION;
   CREATE_FIRESTORE_RELEASE_RECORD_PROFILE_VERSION].

Definition STAGE_REVISION_CAPABILITIES : list (string * string) :=
  [("cloud-run-revision-get", RECOVERY_CAPABILITY_VERSION);
   ("cloud-run-revision-health", RECOVERY_CAPABILITY_VERSION)].

Inductive RecoveryVerificationResult :=
  | CertificateResult (certificate : VerifiedCertificate)
  | WitnessResult (witness : AmbiguityWitness).

#[export] Instance EvidenceDecision_eq_dec' : EqDecision EvidenceDecision.
Proof. solve_decision. Defined.
#[export] Instance DeterministicProof_eq_dec : EqDecision DeterministicProof.
Proof. solve_decision. Defined.
#[export] Instance ActionGateResult_eq_dec : EqDecision ActionGateResult.
Proof. solve_decision. Defined.

(** [list(ProbeStopReason)] *)
Definition all_stop_reasons : list ProbeStopReason :=
  [Stop_PROBE_COMPLETED; Stop_INVALID_REQUEST; Stop_UNKNOWN_CAPABILITY;
   Stop_CAPABILITY_DISABLED; Stop_CAPABILITY_NOT_ENABLED; Stop_CAPABILITY_MUTATING;
   Stop_CAPABILITY_SEMANTICS_AMBIGUOUS; Stop_TARGET_KIND_MISMATCH;
   Stop_TARGET_SCOPE_MISMATCH; Stop_INVALID_EFFECT_REFERENCE; Stop_INVALID_ARGUMENTS;
   Stop_ARGUMENTS_TOO_LARGE; Stop_TARGET_PARAMETER_INJECTION; Stop_CORRELATION_MISMATCH;
   Stop_PROBE_COUNT_EXHAUSTED; Stop_CAPABILITY_PROBE_LIMIT_EXHAUSTED;
   Stop_COST_BUDGET_EXHAUSTED; Stop_ELAPSED_BUDGET_EXHAUSTED;
   Stop_TOTAL_RESULT_BYTES_EXHAUSTED; Stop_RESULT_TOO_LARGE; Stop_PROBE_TIMEOUT;
   Stop_PROBE_CANCELLED; Stop_CAPABILITY_UNAVAILABLE; Stop_MALFORMED_OBSERVATION].

Section verification.
Context {rt : Runtime} {sec : Security} {sv : SchemaValidator} {od : ObservationDecoder}.

Definition fail_if (guard : bool) (message : string) : result recovery_error unit :=
  reject_if guard (RecoveryVerificationError message).

Definition contract {A} (r : result py_error A) : result recovery_error A :=
  map_error ContractError r.

(** [_rehydrate] *)
Definition rehydrate (name : string) (validation : result py_error unit)
  : result recovery_error unit :=
  map_error (λ _, RecoveryVerificationError (name +:+ " input failed contract validation"))
    validation.

(** [except (TypeError, RecoveryRuleViolation) as error:
     raise RecoveryVerificationError(str(error))] *)
Definition as_verification_error (e : recovery_error) : recovery_error :=
  match e with
  | RecoveryRuleViolation message | ContractError (TypeError message) =>
      RecoveryVerificationError message
  | e => e
  end.

(** [except RecoveryRuleViolation: return default] *)
Definition on_violation {A} (default_ : A) (r : result recovery_error A)
  : result recovery_error A :=
  match r with
  | Raise (RecoveryRuleViolation _) => Ok default_
  | r => r
  end.

(** ** Checks of the inputs *)

Definition required_predecessors (chain : RecoveryChain) (envelope : ExecutionEnvelope)
  (report : InvestigationReport) : list datetime :=
  [rc_created_at chain; en_invoked_at envelope; ae_observed_at (en_ambiguity envelope);
   ir_created_at report; ir_updated_at report]
  ++ map pa_completed_at (ir_probe_audit report)
  ++ (ir_evidence report ≫= (λ e,
       [valid_from (ne_freshness e); ne_observed_at e; ep_retrieved_at (ne_provenance e)])).

(** [_validate_time]; an aware datetime is already in UTC. *)
Definition validate_time (verified_at : datetime) (chain : RecoveryChain)
  (envelope : ExecutionEnvelope) (report : InvestigationReport) : result recovery_error unit :=
  let ambiguous_at := ae_observed_at (en_ambiguity envelope) in
  fail_if (ambiguous_at <? en_invoked_at envelope)
    "ambiguous outcome precedes the bound invocation";;
  fail_if (ir_created_at report <? ambiguous_at)
    "report creation precedes the ambiguous outcome";;
  fail_if (ir_updated_at report <? ambiguous_at)
    "report completion precedes the ambiguous outcome";;
  fail_if (existsb (λ r, (pa_started_at r <? ir_created_at report)
                         || (ir_updated_at report <? pa_completed_at r))
             (ir_probe_audit report))
    "probe audit timestamps fall outside the report interval";;
  fail_if (existsb (λ e, ir_updated_at report <? ep_retrieved_at (ne_provenance e))
             (ir_evidence report))
    "evidence retrieval occurs after the report update";;
  fail_if (existsb (λ t, verified_at <? t) (required_predecessors chain envelope report))
    "verification time precedes its trusted inputs".

Abbreviation profiled_node := (RecoveryActionNode * RecoveryActionProfile)%type (only parsing).

(** [by_profile] of [_validate_chain] *)
Definition nodes_by_profile (chain : RecoveryChain)
  : result recovery_error (list (string * profiled_node)) :=
  fold_result (λ by_profile node,
      profile ← map_error as_verification_error
        (resolve_recovery_action_profile (rn_semantic_action node));
      fail_if (inb (rp_profile_version profile) (dict_keys by_profile))
        "recovery chain contains a duplicate action profile";;
      Ok (dict_set (rp_profile_version profile) (node, profile) by_profile))
    [] (rc_nodes chain).

(** The checks that tie the three actions of a release together. *)
Definition validate_release_bindings (stage promote record : RecoveryActionNode)
  : result recovery_error unit :=
  let stage_action := rn_semantic_action stage in
  let promote_action := rn_semantic_action promote in
  let record_action := rn_semantic_action record in
  stage_release ← item "release_id" (sa_semantic_arguments stage_action);
  promote_release ← item "release_id" (sa_semantic_arguments promote_action);
  fail_if (negb (target_eqb (sa_target promote_action) (sa_target stage_action))
           || negb (py_eqb promote_release stage_release))
    "stage and promotion must bind the same Cloud Run service and release";;
  record_project ← item "project" (tb_scope (sa_target record_action));
  stage_project ← item "project" (tb_scope (sa_target stage_action));
  record_release ← item "release_id" (sa_semantic_arguments record_action);
  document ← item "document" (tb_resource (sa_target record_action));
  release ← text_of stage_release;
  fail_if (negb (py_eqb record_project stage_project)
           || negb (py_eqb record_release stage_release)
           || negb (py_eqb document (JStr ("releases/" +:+ release))))
    "release record must bind the Cloud Run project and exact release document".

(** [_validate_chain] *)
Definition validate_chain (chain : RecoveryChain)
  : result recovery_error (list (string * profiled_node)) :=
  fail_if (negb (bool_decide (rc_chain_profile_version chain = RECOVERY_CHAIN_PROFILE_VERSION)))
    "recovery chain profile is unsupported";;
  fail_if (negb (length (rc_nodes chain) =? length CHAIN_PROFILE_ORDER)%nat)
    "recovery chain must contain exactly stage, promote, and record nodes";;
  by_profile ← nodes_by_profile chain;
  fail_if (negb (same_set (dict_keys by_profile) CHAIN_PROFILE_ORDER))
    "recovery chain must contain exactly stage, promote, and record nodes";;
  stage ← item STAGE_CLOUD_RUN_REVISION_PROFILE_VERSION by_profile;
  promote ← item PROMOTE_CLOUD_RUN_TRAFFIC_PROFILE_VERSION by_profile;
  record ← item CREATE_FIRESTORE_RELEASE_RECORD_PROFILE_VERSION by_profile;
  fail_if (negb (bool_decide (rn_depends_on stage.1 = []))
           || negb (bool_decide (rn_depends_on promote.1 = [rn_node_id stage.1]))
           || negb (bool_decide (rn_depends_on record.1 = [rn_node_id promote.1])))
    "recovery chain must be the exact stage-to-promote-to-record topology";;
  validate_release_bindings stage.1 promote.1 record.1;;
  Ok by_profile.

(** [_find_node] *)
Definition find_node (chain : RecoveryChain) (node_id : string)
  : result recovery_error RecoveryActionNode :=
  match filter (λ node, rn_node_id node = node_id) (rc_nodes chain) with
  | [node] => Ok node
  | _ => Raise (RecoveryVerificationError "recovery node is not present exactly once")
  end.

(** [_validate_node_binding] *)
Definition validate_node_binding (node : RecoveryActionNode) (envelope : ExecutionEnvelope)
  : result recovery_error RecoveryActionProfile :=
  let reference := rn_envelope node in
  fail_if (negb (bool_decide (er_investigation_id reference = en_investigation_id envelope))
           || negb (bool_decide (er_operation_id reference = en_operation_id envelope))
           || negb (bool_decide (er_envelope_sha256 reference = canonical_sha256 envelope)))
    "recovery node references another envelope";;
  let action := rn_semantic_action node in
  let invocation := ec_invocation (en_context envelope) in
  fail_if (negb (bool_decide (sa_key_version action = "semantic-action-v1"))
           || negb (bool_decide (sa_tool_name action = oi_tool_name invocation))
           || negb (bool_decide (sa_tool_version action = oi_tool_version invocation))
           || negb (object_eqb (sa_semantic_arguments action) (oi_arguments invocation))
           || negb (target_eqb (sa_target action) (en_target envelope))
           || negb (bool_decide (sa_expected_effect_sha256s action
                = map canonical_sha256 (en_expected_effects envelope))))
    "recovery semantic action does not match the execution envelope";;
  profile ← map_error as_verification_error (resolve_recovery_action_profile action);
  release_id ← item "release_id" (sa_semantic_arguments action);
  fail_if (negb (match dict_get "release_id" (correlation_fields (en_context envelope)) with
                 | Some r => py_eqb (JStr r) release_id | None => false end))
    "envelope release correlation does not match the semantic action";;
  Ok profile.

(** [_audit_record_sha256]: the controller record a report record came from. *)
Definition controller_audit (record : ProbeAuditRecord)
  : result py_error ControllerAuditRecord :=
  match list_find (λ r, ProbeStopReason_value r = pa_stop_reason record) all_stop_reasons with
  | None => Raise (ValueError "not a valid ProbeStopReason")
  | Some (_, reason) =>
      model_validate_audit {|
        ar_sequence := pa_probe_sequence record;
        ar_capability_name := pa_capability_name record;
        ar_capability_version := pa_capability_version record;
        ar_request_sha256 := pa_request_sha256 record;
        ar_target_sha256 := pa_target_sha256 record;
        ar_outcome := pa_outcome record;
        ar_stop_reason := reason;
        ar_started_at := pa_started_at record;
        ar_completed_at := pa_completed_at record;
        ar_session_elapsed_ms := pa_session_elapsed_ms record;
        ar_probe_count_used := pa_probe_count_used record;
        ar_cost_units_used := pa_cost_units_used record;
        ar_result_bytes_acquired := pa_result_bytes_acquired record;
        ar_result_sha256 := pa_result_sha256 record;
        ar_result_byte_count := pa_result_byte_count record |}
  end.

Definition audit_record_sha256 (record : ProbeAuditRecord) : result py_error string :=
  audit ← controller_audit record; Ok (canonical_sha256 audit).

Definition check_report_audit (pair : ProbeAuditRecord * EvidenceAttempt)
  : result recovery_error unit :=
  let '(record, attempt) := pair in
  sha256 ← contract (audit_record_sha256 record);
  fail_if (negb (pa_probe_sequence record =? at_probe_sequence attempt)
           || negb (bool_decide (sha256 = at_controller_audit_sha256 attempt))
           || negb (bool_decide (pa_evidence_ids record
                = [ed_evidence_id (at_decision attempt)])))
    "report probe audit does not match the sealed evaluation".

(** [_validate_report] *)
Definition validate_report (envelope : ExecutionEnvelope) (report : InvestigationReport)
  (evaluation : CoreEvaluation) : result recovery_error unit :=
  fail_if (negb (bool_decide (ir_status report = Report_COMPLETED)))
    "recovery requires a completed report";;
  fail_if (negb (bool_decide (ir_investigation_id report = en_investigation_id envelope))
           || negb (bool_decide (ir_envelope_sha256 report = canonical_sha256 envelope))
           || negb (bool_decide (ce_envelope_sha256 evaluation = ir_envelope_sha256 report)))
    "report and evaluation envelope binding differs";;
  fail_if (negb (list_eqb evidence_eqb (ir_evidence report) (ce_evidence evaluation))
           || negb (bool_decide (ir_evidence_decisions report = ce_decisions evaluation))
           || negb (bool_decide (ir_proof report = Some (ce_proof evaluation)))
           || negb (bool_decide (ir_classification report = Some (ce_classification evaluation)))
           || negb (bool_decide (ir_action_gate report = ce_action_gates evaluation))
           || negb (bool_decide (ir_missing_evidence report = ce_missing_evidence evaluation)))
    "report does not reproduce the sealed deterministic evaluation";;
  fail_if (negb (length (ir_probe_audit report) =? length (ce_attempts evaluation))%nat)
    "report omits deterministic probe audit";;
  for_each check_report_audit (zip (ir_probe_audit report) (ce_attempts evaluation)).

(** ** Evidence *)

Definition evidence_le (x y : NormalizedEvidence) : Prop :=
  str_le (ne_evidence_id x) (ne_evidence_id y).
#[local] Instance evidence_le_dec x y : Decision (evidence_le x y).
Proof. unfold evidence_le. apply _. Defined.

Definition evidence_ids (l : list NormalizedEvidence) : list string := map ne_evidence_id l.

Definition admitted_decision_ids (evaluation : CoreEvaluation) : list string :=
  map ed_evidence_id (filter (λ d, ed_disposition d = ADMITTED) (ce_decisions evaluation)).

Definition escapes_binding (envelope : ExecutionEnvelope) (e : NormalizedEvidence) : bool :=
  let context := en_context envelope in
  negb (target_eqb (ne_target e) (en_target envelope))
  || negb (bool_decide (ne_authority e = TARGET_STATE))
  || negb (inb (ne_capability_name e, ne_capability_version e)
             (map (λ c, (cr_name c, cr_version c)) (enabled_capabilities context)))
  || negb (bool_decide (ne_authority_policy_version e = pr_authority (policies context)))
  || existsb (λ f, negb (bool_decide (dict_get f.1 (ne_correlation e) = Some f.2)))
       (correlation_fields context).

(** [_admitted_evidence] *)
Definition admitted_evidence (envelope : ExecutionEnvelope) (evaluation : CoreEvaluation)
  : result recovery_error (list NormalizedEvidence) :=
  let admitted_ids := admitted_decision_ids evaluation in
  fail_if (negb (same_set admitted_ids (dp_admitted_evidence_ids (ce_proof evaluation))))
    "proof admitted-evidence identity drifted";;
  let admitted := merge_sort evidence_le
    (filter (λ e, ne_evidence_id e ∈ admitted_ids) (ce_evidence evaluation)) in
  fail_if (negb (same_set (evidence_ids admitted) admitted_ids))
    "admitted evidence is missing from evaluation";;
  fail_if (existsb (escapes_binding envelope) admitted)
    "admitted evidence escaped target, policy, or correlation binding";;
  Ok admitted.

Definition by_evidence_id (l : list NormalizedEvidence) : list (string * NormalizedEvidence) :=
  dict_of (map (λ e, (ne_evidence_id e, e)) l).

(** The evidence the proof's findings and status rest on. *)
Definition supporting_ids (evaluation : CoreEvaluation) (admitted : list NormalizedEvidence)
  : list string :=
  (dp_effect_findings (ce_proof evaluation) ≫= ef_evidence_ids)
  ++ match dp_operation_status (ce_proof evaluation) with
     | None => []
     | Some status =>
         evidence_ids (filter (λ e, ne_operation_status e = Some status) admitted)
     end.

(** [_supporting_evidence] *)
Definition supporting_evidence (evaluation : CoreEvaluation)
  (admitted : list NormalizedEvidence) : result recovery_error (list NormalizedEvidence) :=
  let identifiers := supporting_ids evaluation admitted in
  fail_if (negb (subsetb identifiers (evidence_ids admitted)))
    "proof cites evidence that was not admitted";;
  traverse (λ id, item id (by_evidence_id admitted))
    (sorted_strings (remove_dups identifiers)).

(** [_bindings] *)
Definition binding_of (e : NormalizedEvidence) : RecoveryEvidenceBinding :=
  {| rb_evidence_id := ne_evidence_id e;
     rb_evidence_sha256 := canonical_sha256 e;
     rb_raw_observation_sha256 := ro_sha256 (ne_raw_observation e);
     rb_valid_until := valid_until (ne_freshness e) |}.

Definition bindings (evidence : list NormalizedEvidence) : list RecoveryEvidenceBinding :=
  map binding_of evidence.

(** ** Transitions *)

Definition node_arguments_sha256 (node : RecoveryActionNode) : result recovery_error string :=
  payload ← contract (canonical_json_value_bytes
    (JObj (sa_semantic_arguments (rn_semantic_action node))));
  Ok (sha256_hex payload).

(** [_successor] *)
Definition successor (chain : RecoveryChain) (node : RecoveryActionNode)
  (profile : RecoveryActionProfile) : result recovery_error (option profiled_node) :=
  match successor_profile (rp_profile_version profile) with
  | None => Ok None
  | Some expected_profile =>
      match filter (λ candidate, rn_depends_on candidate = [rn_node_id node])
              (rc_nodes chain) with
      | [candidate] =>
          match resolve_recovery_action_profile (rn_semantic_action candidate) with
          | Raise (RecoveryRuleViolation _) | Raise (ContractError (TypeError _)) => Ok None
          | Raise e => Raise e
          | Ok candidate_profile =>
              if bool_decide (rp_profile_version candidate_profile = expected_profile)
              then Ok (Some (candidate, candidate_profile)) else Ok None
          end
      | _ => Ok None
      end
  end.

Definition make_transition (action_ : PermitAction) (source target : RecoveryActionNode)
  (precondition_sha256_ : string) : result recovery_error CertifiedTransition :=
  arguments ← node_arguments_sha256 target;
  let action := rn_semantic_action target in
  let transition := {|
    ct_action := action_;
    ct_source_node_id := rn_node_id source;
    ct_target_node_id := rn_node_id target;
    ct_semantic_action_sha256 := sa_semantic_action_sha256 action;
    ct_tool_name := sa_tool_name action;
    ct_tool_version := sa_tool_version action;
    ct_arguments_sha256 := arguments;
    ct_target_sha256 := canonical_sha256 (sa_target action);
    ct_precondition_sha256 := precondition_sha256_ |} in
  contract (validate_transition_target transition);;
  Ok transition.

(** The revisions the staging evidence read. *)
Definition staged_revisions (evidence : list NormalizedEvidence) : list string :=
  omap (λ e, if inb (ne_capability_name e, ne_capability_version e)
                  STAGE_REVISION_CAPABILITIES
             then dict_get "revision" (ne_correlation e) else None) evidence.

(** [_continue_transition] *)
Definition continue_transition (chain : RecoveryChain) (node : RecoveryActionNode)
  (profile : RecoveryActionProfile) (evidence : list NormalizedEvidence)
  (successor_envelope : option ExecutionEnvelope)
  : result recovery_error (option CertifiedTransition) :=
  next ← successor chain node profile;
  match next, successor_envelope with
  | Some (target_node, target_profile), Some envelope =>
      validated_profile ← validate_node_binding target_node envelope;
      fail_if (negb (bool_decide (rp_profile_version validated_profile
                 = rp_profile_version target_profile)))
        "successor envelope resolves to another action profile";;
      same_revision ←
        (if bool_decide (rp_profile_version profile = STAGE_CLOUD_RUN_REVISION_PROFILE_VERSION)
         then
           revision_ ← item "revision"
             (sa_semantic_arguments (rn_semantic_action target_node));
           let revisions := staged_revisions evidence in
           Ok (negb (bool_decide (revisions = []))
               && forallb (λ r, py_eqb (JStr r) revision_) revisions)
         else Ok true);
      if negb same_revision then Ok None
      else
        precondition ← on_violation None
          (sha256 ← recovery_precondition_sha256 target_profile evidence false;
           Ok (Some sha256));
        match precondition with
        | None => Ok None
        | Some sha256 =>
            transition ← make_transition CONTINUE node target_node sha256;
            Ok (Some transition)
        end
  | _, _ => Ok None
  end.

Definition affirmative (evaluation : CoreEvaluation) (e : NormalizedEvidence)
  : result recovery_error bool :=
  if bool_decide (ne_operation_status e = Some TERMINAL_NOT_COMMITTED) then
    decision ← item (ne_evidence_id e)
      (dict_of (map (λ d, (ed_evidence_id d, d)) (ce_decisions evaluation)));
    Ok (bool_decide (ed_reason decision = AUTHORITATIVE_AFFIRMATIVE_NON_EXECUTION))
  else Ok false.

(** A comprehension whose condition may raise. *)
Fixpoint filter_result {A} (f : A → result recovery_error bool) (l : list A)
  : result recovery_error (list A) :=
  match l with
  | [] => Ok []
  | x :: l' => b ← f x; k ← filter_result f l'; Ok (if (b : bool) then x :: k else k)
  end.

(** [_retry_transition] *)
Definition retry_transition (node : RecoveryActionNode) (profile : RecoveryActionProfile)
  (evaluation : CoreEvaluation) (evidence : list NormalizedEvidence)
  : result recovery_error (option CertifiedTransition) :=
  if negb (rp_retry_allowed profile) then Ok None
  else
    positive ← filter_result (affirmative evaluation) evidence;
    if bool_decide (length positive = O) then Ok None
    else
      precondition ← on_violation None
        (sha256 ← recovery_precondition_sha256 profile positive true; Ok (Some sha256));
      match precondition with
      | None => Ok None
      | Some sha256 =>
          transition ← make_transition RETRY node node sha256;
          Ok (Some transition)
      end.

(** ** Artifact identity *)

Definition finding_key_le (x y : EffectFinding) : Prop :=
  pair_le (ef_effect_id x, ef_commit_scope x) (ef_effect_id y, ef_commit_scope y).
#[local] Instance finding_key_le_dec x y : Decision (finding_key_le x y).
Proof. unfold finding_key_le. apply _. Defined.

(** [_proof_authority_value] *)
Definition proof_authority_value (evaluation : CoreEvaluation) : json :=
  let proof := ce_proof evaluation in
  JObj
  [("admitted_evidence_ids", to_json (sorted_strings (dp_admitted_evidence_ids proof)));
   ("conflicting_authority", JBool (dp_conflicting_authority proof));
   ("effect_findings", JArr (map (λ f, JObj
      [("commit_scope", JStr (ef_commit_scope f)); ("effect_id", JStr (ef_effect_id f));
       ("evidence_ids", to_json (sorted_strings (ef_evidence_ids f)));
       ("state", JStr (EffectAssertionState_value (ef_state f)))])
      (merge_sort finding_key_le (dp_effect_findings proof))));
   ("operation_status", match dp_operation_status proof with
      | Some s => JStr (OperationStatus_value s) | None => JNull end)].

(** [_artifact_identifier] *)
Definition artifact_identifier (prefix : string) (authority : json_object)
  : result recovery_error string :=
  payload ← contract (canonical_json_value_bytes (JObj authority));
  Ok (prefix +:+ "-" +:+ sha256_hex payload).

(** [_base_authority] *)
Definition base_authority (chain : RecoveryChain) (node : RecoveryActionNode)
  (envelope : ExecutionEnvelope) (evaluation : CoreEvaluation)
  (profile : RecoveryActionProfile) (evidence : list NormalizedEvidence) : json_object :=
  let policies_ := policies (en_context envelope) in
  [("action_profile_version", JStr (rp_profile_version profile));
   ("action_policy_version", JStr (pr_action policies_));
   ("authority_policy_version", JStr (pr_authority policies_));
   ("chain_sha256", JStr (canonical_sha256 chain));
   ("classification", JStr (Classification_value (ce_classification evaluation)));
   ("classification_policy_version", JStr (pr_classification policies_));
   ("correlation_policy_version", JStr RECOVERY_CORRELATION_POLICY_VERSION);
   ("envelope_sha256", JStr (canonical_sha256 envelope));
   ("evidence_sha256s", to_json (sorted_strings (map canonical_sha256 evidence)));
   ("freshness_policy_version", JStr RECOVERY_FRESHNESS_POLICY_VERSION);
   ("node_sha256", JStr (canonical_sha256 node));
   ("proof", proof_authority_value evaluation);
   ("semantic_action_sha256", JStr (sa_semantic_action_sha256 (rn_semantic_action node)));
   ("verifier_version", JStr RECOVERY_VERIFIER_VERSION)].

(** ** Histories *)

(** [_history_classification] *)
Definition history_classification (states : list EffectAssertionState) : Classification :=
  if forallb (λ s, bool_decide (s = ESTABLISHED)) states then COMMITTED
  else if forallb (λ s, bool_decide (s = NOT_ESTABLISHED)) states then NOT_COMMITTED
  else if negb (inb UNVERIFIED states) && inb ESTABLISHED states && inb NOT_ESTABLISHED states
  then PARTIAL
  else UNKNOWN.

Abbreviation effect_map := (list (string * EffectAssertionState)) (only parsing).

(** [_evidence_compatible_with_history] *)
Definition evidence_compatible_with_history (e : NormalizedEvidence) (states : effect_map)
  (classification : Classification) : bool :=
  forallb (λ a, match dict_get (ea_effect_id a) states with
                | Some s => bool_decide (ea_state a = UNVERIFIED) || bool_decide (ea_state a = s)
                | None => true end) (ne_effect_assertions e)
  && match ne_operation_status e with
     | Some TERMINAL_NOT_COMMITTED => bool_decide (classification = NOT_COMMITTED)
     | Some TERMINAL_COMMITTED => inb classification [COMMITTED; PARTIAL; UNKNOWN]
     | _ => true
     end.

Definition asserts (effect_id : string) (s : EffectAssertionState) (e : NormalizedEvidence)
  : bool :=
  existsb (λ a, bool_decide (ea_effect_id a = effect_id) && bool_decide (ea_state a = s))
    (ne_effect_assertions e).

(** [states[effect_id]] *)
Definition state_in (states : effect_map) (effect_id : string) : EffectAssertionState :=
  default UNVERIFIED (dict_get effect_id states).

Definition model_validate_history (h : PossibleHistory)
  : result recovery_error PossibleHistory :=
  contract (validate_possible_history h);; Ok h.

(** The effects of a history, with the compatible evidence that asserts them. *)
Definition history_effects (findings : list EffectFinding) (states : effect_map)
  (compatible : list string) (evidence : list NormalizedEvidence) : list HypothesizedEffect :=
  map (λ f,
    let s := state_in states (ef_effect_id f) in
    {| he_effect_id := ef_effect_id f; he_state := s;
       he_cited_evidence_ids := sorted_strings (evidence_ids
         (filter (λ e, ne_evidence_id e ∈ compatible ∧ asserts (ef_effect_id f) s e = true)
           evidence)) |}) findings.

Definition history_summary (assignment : EffectAssertionState) : string :=
  match assignment with
  | ESTABLISHED => "The unresolved effects occurred before acknowledgement was lost."
  | NOT_ESTABLISHED =>
      "The unresolved effects did not occur before acknowledgement was lost."
  | UNVERIFIED => "The operation remains active and the effects are not yet settled."
  end.

(** [_history] *)
Definition history (history_id : string) (assignment : EffectAssertionState)
  (evaluation : CoreEvaluation) (evidence : list NormalizedEvidence)
  (preserve_findings : bool) (classification_override : option Classification)
  (excluded_evidence_ids : list string) : result recovery_error PossibleHistory :=
  let findings := dp_effect_findings (ce_proof evaluation) in
  let states := dict_of (map (λ f, (ef_effect_id f,
    if negb preserve_findings || bool_decide (ef_state f = UNVERIFIED)
    then assignment else ef_state f)) findings) in
  let classification := match classification_override with
    | Some c => c | None => history_classification states.*2 end in
  let compatible := evidence_ids (filter (λ e, (ne_evidence_id e ∉ excluded_evidence_ids) ∧
    evidence_compatible_with_history e states classification = true) evidence) in
  model_validate_history {|
    ph_history_id := history_id;
    ph_classification := classification;
    ph_effect_states := history_effects findings states compatible evidence;
    ph_compatible_evidence_ids := compatible;
    ph_summary := history_summary assignment |}.

(** ** Conflicts *)

Definition pairs_between (left right : list string) : list (string * string) :=
  left ≫= (λ l, map (sorted_pair l) right).

Definition asserting_ids (effect_id : string) (s : EffectAssertionState)
  (evidence : list NormalizedEvidence) : list string :=
  sorted_strings (evidence_ids (filter (λ e, asserts effect_id s e = true) evidence)).

Definition status_ids (evidence : list NormalizedEvidence) (s : OperationStatus) : list string :=
  sorted_strings (evidence_ids (filter (λ e, ne_operation_status e = Some s) evidence)).

(** The pairs of operation statuses that contradict each other. *)
Definition incompatible_statuses (findings : list EffectFinding)
  : list (OperationStatus * OperationStatus) :=
  [(TERMINAL_COMMITTED, TERMINAL_NOT_COMMITTED); (TERMINAL_NOT_COMMITTED, ACTIVE);
   (TERMINAL_NOT_COMMITTED, UNRESOLVED)]
  ++ if forallb (λ f, bool_decide (ef_state f = ESTABLISHED)) findings then []
     else [(TERMINAL_COMMITTED, ACTIVE); (TERMINAL_COMMITTED, UNRESOLVED)].

(** [_generic_conflict_pairs] *)
Definition generic_conflict_pairs (evaluation : CoreEvaluation)
  (evidence : list NormalizedEvidence) : list (string * string) :=
  let findings := dp_effect_findings (ce_proof evaluation) in
  sorted_pairs
    ((findings ≫= (λ f, pairs_between (asserting_ids (ef_effect_id f) ESTABLISHED evidence)
                         (asserting_ids (ef_effect_id f) NOT_ESTABLISHED evidence)))
     ++ (incompatible_statuses findings ≫= (λ s,
           pairs_between (status_ids evidence s.1) (status_ids evidence s.2)))
     ++ pairs_between
          (sorted_strings (evidence_ids (filter
            (λ e, ESTABLISHED ∈ assertion_states (ne_effect_assertions e)) evidence)))
          (status_ids evidence TERMINAL_NOT_COMMITTED)).

Definition status_history (s : OperationStatus) : EffectAssertionState * Classification :=
  match s with
  | TERMINAL_COMMITTED => (ESTABLISHED, COMMITTED)
  | TERMINAL_NOT_COMMITTED => (NOT_ESTABLISHED, NOT_COMMITTED)
  | ACTIVE | UNRESOLVED => (UNVERIFIED, PENDING)
  end.

(** [item.operation_status.value.lower()] *)
Definition status_name (s : OperationStatus) : string :=
  match s with
  | ACTIVE => "active" | UNRESOLVED => "unresolved"
  | TERMINAL_COMMITTED => "terminal_committed"
  | TERMINAL_NOT_COMMITTED => "terminal_not_committed"
  end.

(** The evidence that contradicts [id]. *)
Definition contradicting (conflict_pairs : list (string * string)) (id : string)
  : list string :=
  omap (λ p, if bool_decide (p.1 = id) then Some p.2
             else if bool_decide (p.2 = id) then Some p.1 else None) conflict_pairs.

Definition status_conflict_history (conflict_pairs : list (string * string))
  (evaluation : CoreEvaluation) (evidence : list NormalizedEvidence)
  (e : NormalizedEvidence) (s : OperationStatus) : result recovery_error PossibleHistory :=
  history ("status-" +:+ status_name s) (status_history s).1 evaluation evidence false
    (Some (status_history s).2) (contradicting conflict_pairs (ne_evidence_id e)).

(** What distinguishes two histories, apart from the evidence they cite. *)
Definition outcome_signature (h : PossibleHistory) :=
  (ph_classification h, map (λ e, (he_effect_id e, he_state e)) (ph_effect_states h)).

Abbreviation history_pair := (PossibleHistory * PossibleHistory)%type (only parsing).

(** [_status_conflict_histories] on a conflicting pair. *)
Definition status_conflict_histories (conflict_ids : string * string)
  (conflict_pairs : list (string * string)) (evaluation : CoreEvaluation)
  (evidence : list NormalizedEvidence) : result recovery_error (option history_pair) :=
  let by_id := by_evidence_id evidence in
  a ← item conflict_ids.1 by_id;
  b ← item conflict_ids.2 by_id;
  if any_not UNVERIFIED (assertion_states (ne_effect_assertions a ++ ne_effect_assertions b))
  then Ok None
  else match ne_operation_status a, ne_operation_status b with
       | Some s, Some t =>
           h ← status_conflict_history conflict_pairs evaluation evidence a s;
           k ← status_conflict_history conflict_pairs evaluation evidence b t;
           if bool_decide (outcome_signature h = outcome_signature k) then Ok None
           else Ok (Some (h, k))
       | _, _ => Ok None
       end.

(** The evidence kept with an anchor: in identifier order, what contradicts
    nothing kept before it. *)
Definition select_compatible (conflict_pairs : list (string * string)) (anchor_id : string)
  (ids : list string) : list string :=
  fold_left (λ selected id,
      if bool_decide (id = anchor_id)
         || existsb (λ s, inb id (contradicting conflict_pairs s)) selected
      then selected else selected ++ [id]) ids [anchor_id].

(** The state the candidates give an effect, when they agree on one. *)
Definition agreed_state (candidates : list NormalizedEvidence) (effect_id : string)
  : EffectAssertionState :=
  let agreed := definitive_states (map ea_state (filter (λ a, ea_effect_id a = effect_id)
    (candidates ≫= ne_effect_assertions))) in
  match agreed with
  | s :: _ => if single_valued agreed then s else UNVERIFIED
  | [] => UNVERIFIED
  end.

(** [_provider_conflict_history] *)
Definition provider_conflict_history (history_id anchor_id : string)
  (conflict_pairs : list (string * string)) (evaluation : CoreEvaluation)
  (evidence : list NormalizedEvidence) : result recovery_error PossibleHistory :=
  let by_id := by_evidence_id evidence in
  let findings := dp_effect_findings (ce_proof evaluation) in
  let selected := select_compatible conflict_pairs anchor_id
    (sorted_strings (dict_keys by_id)) in
  candidates ← traverse (λ id, item id by_id) selected;
  let states := dict_of (map (λ f, (ef_effect_id f,
    agreed_state candidates (ef_effect_id f))) findings) in
  let settled := history_classification states.*2 in
  let classification :=
    if bool_decide (settled = UNKNOWN)
       && existsb (λ e, inb (ne_operation_status e) [Some ACTIVE; Some UNRESOLVED]) candidates
    then PENDING else settled in
  let compatible := sorted_strings (evidence_ids (filter (λ e,
    evidence_compatible_with_history e states classification = true) candidates)) in
  model_validate_history {|
    ph_history_id := history_id;
    ph_classification := classification;
    ph_effect_states := history_effects findings states compatible candidates;
    ph_compatible_evidence_ids := compatible;
    ph_summary := "Provider observation " +:+ anchor_id
      +:+ " is current; observations that contradict it are stale or superseded." |}.

(** [_provider_conflict_histories] *)
Definition provider_conflict_histories (conflict_ids : string * string)
  (conflict_pairs : list (string * string)) (evaluation : CoreEvaluation)
  (evidence : list NormalizedEvidence) : result recovery_error (option history_pair) :=
  if negb (inb conflict_ids conflict_pairs) then Ok None
  else
    h ← provider_conflict_history "provider-state-1" conflict_ids.1 conflict_pairs
          evaluation evidence;
    k ← provider_conflict_history "provider-state-2" conflict_ids.2 conflict_pairs
          evaluation evidence;
    Ok (Some (h, k)).

(** ** Discriminating observations *)

Definition observation_requirements (profile : RecoveryActionProfile)
  : list (string * string * string) :=
  if bool_decide (rp_profile_version profile = STAGE_CLOUD_RUN_REVISION_PROFILE_VERSION) then
    [(STAGE_REVISION_EFFECT_SCOPE, "cloud-run-revision-get",
      "Read the exact labelled revision and verify its image and configuration.");
     (STAGE_READINESS_EFFECT_SCOPE, "cloud-run-revision-health",
      "Read health from the exact staged revision.");
     (STAGE_TRAFFIC_EFFECT_SCOPE, "cloud-run-service-get",
      "Read settled service traffic for the exact staged revision.")]
  else if bool_decide (rp_profile_version profile = PROMOTE_CLOUD_RUN_TRAFFIC_PROFILE_VERSION)
  then
    [(PROMOTION_TRAFFIC_EFFECT_SCOPE, "cloud-run-service-get",
      "Read settled service traffic for the exact promoted revision.")]
  else
    [(FIRESTORE_RECORD_EFFECT_SCOPE, "firestore-release-record-get",
      "Read the exact release document; matching existence proves commit.");
     (FIRESTORE_RECORD_EFFECT_SCOPE, "reconcile-dispatch-receipt-get",
      "Read a positive pre-provider dispatch receipt to prove non-execution.")].

Definition model_validate_observation (o : DiscriminatingObservation)
  : result recovery_error DiscriminatingObservation :=
  contract (validate_observation o);; Ok o.

(** [_discriminating_observations] *)
Definition discriminating_observations (profile : RecoveryActionProfile)
  (envelope : ExecutionEnvelope) (unresolved_effect_ids history_ids : list string)
  : result recovery_error (list DiscriminatingObservation) :=
  let effects_by_scope := dict_of (map (λ e, (ee_commit_scope e, ee_effect_id e))
    (filter (λ e, ee_effect_id e ∈ unresolved_effect_ids) (en_expected_effects envelope))) in
  observations ← traverse model_validate_observation
    (omap (λ r : string * string * string,
      let '(scope, capability_name, description) := r in
      match dict_get scope effects_by_scope with
      | None => None
      | Some effect_id => Some {|
          do_observation_id := "observe-" +:+ capability_name;
          do_description := description;
          do_capability_name := Some capability_name;
          do_capability_version := Some RECOVERY_CAPABILITY_VERSION;
          do_relevant_effect_ids := [effect_id];
          do_distinguishes_history_ids := history_ids |}
      end) (observation_requirements profile));
  match observations with
  | [] =>
      o ← model_validate_observation {|
        do_observation_id := "validate-expected-effect-profile";
        do_description := "Validate the declared expected-effect profile before acquiring provider evidence.";
        do_capability_name := None;
        do_capability_version := None;
        do_relevant_effect_ids := unresolved_effect_ids;
        do_distinguishes_history_ids := history_ids |};
      Ok [o]
  | _ => Ok observations
  end.

Definition conflict_description (capability_name : string) : string :=
  if bool_decide (capability_name = "cloud-run-service-get") then
    "Re-read the exact Cloud Run service to establish its current generation, ETag, revision, and traffic."
  else if bool_decide (capability_name = "cloud-run-revision-get") then
    "Re-read the exact Cloud Run revision to establish its current identity and readiness."
  else if bool_decide (capability_name = "cloud-run-operation-get") then
    "Re-read the exact Cloud Run operation to establish its current lifecycle state."
  else if bool_decide (capability_name = "cloud-run-revision-health") then
    "Repeat the exact revision health observation to establish its current readiness."
  else if bool_decide (capability_name = "firestore-release-record-get") then
    "Re-read the exact Firestore release record to establish its current existence and payload."
  else if bool_decide (capability_name = "reconcile-dispatch-receipt-get") then
    "Re-read the exact dispatch receipt to establish whether provider contact occurred."
  else "Repeat the exact conflicting observation to establish current state.".

Definition capability_le (x y : (string * string) * list NormalizedEvidence) : Prop :=
  pair_le x.1 y.1.
#[local] Instance capability_le_dec x y : Decision (capability_le x y).
Proof. unfold capability_le. apply _. Defined.

Definition conflict_observation (history_ids : list string)
  (entry : nat * ((string * string) * list NormalizedEvidence)) : DiscriminatingObservation :=
  let '(index, ((capability_name, capability_version), items)) := entry in
  {| do_observation_id := "resolve-conflict-" +:+ pretty (Z.of_nat index);
     do_description := conflict_description capability_name;
     do_capability_name := Some capability_name;
     do_capability_version := Some capability_version;
     do_relevant_effect_ids := sorted_strings (remove_dups
       (map ea_effect_id (items ≫= ne_effect_assertions)));
     do_distinguishes_history_ids := history_ids |}.

(** [_conflict_discriminating_observations] *)
Definition conflict_discriminating_observations (conflict_ids : string * string)
  (evidence : list NormalizedEvidence) (history_ids : list string)
  : result recovery_error (list DiscriminatingObservation) :=
  let by_id := by_evidence_id evidence in
  selected ← traverse (λ id, item id by_id) [conflict_ids.1; conflict_ids.2];
  let by_capability := merge_sort capability_le (group_by capability_key selected) in
  traverse model_validate_observation
    (map (conflict_observation history_ids)
      (zip (seq 1 (length by_capability)) by_capability)).

(** ** The two artifacts *)

(** [_witness], up to the choice of histories. *)
Definition witness_conflicts (node : RecoveryActionNode) (evaluation : CoreEvaluation)
  (profile : RecoveryActionProfile) (evidence : list NormalizedEvidence)
  : result recovery_error (option (string * string) * list (string * string)) :=
  let generic_conflicts :=
    if dp_conflicting_authority (ce_proof evaluation)
    then generic_conflict_pairs evaluation evidence else [] in
  provider_conflicts ← on_violation []
    (recovery_provider_conflict_pairs profile (rn_semantic_action node) evidence);
  let conflict_ids := match head generic_conflicts with
    | Some ids => Some ids | None => head provider_conflicts end in
  fail_if (dp_conflicting_authority (ce_proof evaluation) && is_none conflict_ids)
    "conflicting authority has no minimal contradictory evidence pair";;
  Ok (conflict_ids, sorted_pairs (provider_conflicts ++ generic_conflicts)).

(** Two histories that differ only in what the unresolved effects did. *)
Definition open_histories (evaluation : CoreEvaluation) (evidence : list NormalizedEvidence)
  (preserve_findings : bool) : result recovery_error history_pair :=
  h ← history "effects-occurred" ESTABLISHED evaluation evidence preserve_findings None [];
  k ← history "effects-not-occurred" NOT_ESTABLISHED evaluation evidence
        preserve_findings None [];
  Ok (h, k).

Definition witness_histories (conflict_ids : option (string * string))
  (all_conflict_pairs : list (string * string)) (evaluation : CoreEvaluation)
  (evidence : list NormalizedEvidence) (preserve_findings : bool)
  : result recovery_error history_pair :=
  match conflict_ids with
  | None => open_histories evaluation evidence preserve_findings
  | Some ids =>
      by_status ← status_conflict_histories ids all_conflict_pairs evaluation evidence;
      match by_status with
      | Some both => Ok both
      | None =>
          by_provider ← provider_conflict_histories ids all_conflict_pairs evaluation evidence;
          match by_provider with
          | Some both => Ok both
          | None => open_histories evaluation evidence preserve_findings
          end
      end
  end.

Definition open_effects (findings : list EffectFinding) : list string :=
  match finding_ids (filter (λ f, ef_state f = UNVERIFIED) findings) with
  | [] => finding_ids findings
  | l => l
  end.

Definition conflict_list (conflict_ids : option (string * string)) : list string :=
  match conflict_ids with Some (a, b) => [a; b] | None => [] end.

(** [_witness] *)
Definition witness (chain : RecoveryChain) (node : RecoveryActionNode)
  (envelope : ExecutionEnvelope) (report : InvestigationReport) (evaluation : CoreEvaluation)
  (profile : RecoveryActionProfile) (evidence : list NormalizedEvidence)
  (verified_at : datetime) (preserve_findings : bool)
  : result recovery_error AmbiguityWitness :=
  let findings := dp_effect_findings (ce_proof evaluation) in
  let preserve_findings := preserve_findings
    && existsb (λ f, bool_decide (ef_state f = UNVERIFIED)) findings in
  conflicts ← witness_conflicts node evaluation profile evidence;
  let '(conflict_ids, all_conflict_pairs) := conflicts in
  histories ← witness_histories conflict_ids all_conflict_pairs evaluation evidence
    preserve_findings;
  let histories := [histories.1; histories.2] in
  let history_ids := map ph_history_id histories in
  discriminating ← match conflict_ids with
    | Some ids => conflict_discriminating_observations ids evidence history_ids
    | None => discriminating_observations profile envelope (open_effects findings)
                history_ids
    end;
  witness_id ← artifact_identifier "witness"
    (base_authority chain node envelope evaluation profile evidence
     ++ [("artifact_kind", JStr "ambiguity-witness");
         ("conflicting_evidence_ids", to_json (conflict_list conflict_ids));
         ("discriminating_observations", to_json discriminating);
         ("possible_histories", to_json histories)]);
  let target := sa_target (rn_semantic_action node) in
  contract (model_validate_witness {|
    aw_witness_id := witness_id;
    aw_chain_id := rc_chain_id chain;
    aw_node_id := rn_node_id node;
    aw_semantic_action_sha256 := sa_semantic_action_sha256 (rn_semantic_action node);
    aw_chain_sha256 := canonical_sha256 chain;
    aw_node_sha256 := canonical_sha256 node;
    aw_envelope_sha256 := canonical_sha256 envelope;
    aw_report_sha256 := canonical_sha256 report;
    aw_proof_sha256 := canonical_sha256 (ce_proof evaluation);
    aw_target := target;
    aw_target_sha256 := canonical_sha256 target;
    aw_evidence := bindings evidence;
    aw_possible_histories := histories;
    aw_discriminating_observations := discriminating;
    aw_conflicting_evidence_ids := conflict_list conflict_ids;
    aw_verifier_version := RECOVERY_VERIFIER_VERSION;
    aw_created_at := verified_at |}).

(** [expires_at.isoformat()] *)
Definition isoformat (t : datetime) : string :=
  let text := datetime_text t in
  String.substring 0 (String.length text - 1) text +:+ "+00:00".

Definition certificate (chain : RecoveryChain) (node : RecoveryActionNode)
  (envelope : ExecutionEnvelope) (report : InvestigationReport) (evaluation : CoreEvaluation)
  (profile : RecoveryActionProfile) (evidence supporting : list NormalizedEvidence)
  (transition : option CertifiedTransition) (verified_at expires_at : datetime)
  : result recovery_error VerifiedCertificate :=
  certificate_id ← artifact_identifier "certificate"
    (base_authority chain node envelope evaluation profile evidence
     ++ [("artifact_kind", JStr "verified-certificate");
         ("expires_at", JStr (isoformat expires_at));
         ("supporting_evidence_sha256s",
           to_json (sorted_strings (map canonical_sha256 supporting)));
         ("transition", to_json transition)]);
  let target := sa_target (rn_semantic_action node) in
  let policies_ := policies (en_context envelope) in
  contract (model_validate_certificate {|
    vc_certificate_id := certificate_id;
    vc_chain_id := rc_chain_id chain;
    vc_node_id := rn_node_id node;
    vc_semantic_action_sha256 := sa_semantic_action_sha256 (rn_semantic_action node);
    vc_chain_sha256 := canonical_sha256 chain;
    vc_node_sha256 := canonical_sha256 node;
    vc_envelope_sha256 := canonical_sha256 envelope;
    vc_report_sha256 := canonical_sha256 report;
    vc_proof_sha256 := canonical_sha256 (ce_proof evaluation);
    vc_target := target;
    vc_target_sha256 := canonical_sha256 target;
    vc_evidence := bindings supporting;
    vc_authority_policy_version := pr_authority policies_;
    vc_correlation_policy_version := RECOVERY_CORRELATION_POLICY_VERSION;
    vc_freshness_policy_version := RECOVERY_FRESHNESS_POLICY_VERSION;
    vc_classification_policy_version := pr_classification policies_;
    vc_action_policy_version := pr_action policies_;
    vc_action_profile_version := rp_profile_version profile;
    vc_verifier_version := RECOVERY_VERIFIER_VERSION;
    vc_classification := ce_classification evaluation;
    vc_transition := transition;
    vc_issued_at := verified_at;
    vc_expires_at := expires_at |}).

(** [_continue_transition], [_retry_transition] or none, by classification. *)
Definition transition_for (chain : RecoveryChain) (node : RecoveryActionNode)
  (profile : RecoveryActionProfile) (evaluation : CoreEvaluation)
  (supporting : list NormalizedEvidence) (successor_envelope : option ExecutionEnvelope)
  : result recovery_error (option CertifiedTransition) :=
  match ce_classification evaluation with
  | COMMITTED => continue_transition chain node profile supporting successor_envelope
  | NOT_COMMITTED => retry_transition node profile evaluation supporting
  | _ => Ok None
  end.

Definition still_fresh (verified_at : datetime) (e : NormalizedEvidence) : bool :=
  (valid_from (ne_freshness e) <=? verified_at) && (verified_at <? valid_until (ne_freshness e)).

Definition verify_recovery (chain : RecoveryChain) (node_id : string)
  (envelope : ExecutionEnvelope) (report : InvestigationReport) (evaluation : CoreEvaluation)
  (verified_at : datetime) (successor_envelope : option ExecutionEnvelope)
  : result recovery_error RecoveryVerificationResult :=
  rehydrate "RecoveryChain" (validate_RecoveryChain chain);;
  rehydrate "ExecutionEnvelope" (validate_ExecutionEnvelope envelope);;
  rehydrate "InvestigationReport" (model_validate_report report;; Ok tt);;
  match successor_envelope with
  | Some next => rehydrate "ExecutionEnvelope" (validate_ExecutionEnvelope next)
  | None => Ok tt
  end;;
  validate_chain chain;;
  node ← find_node chain node_id;
  profile ← validate_node_binding node envelope;
  validate_report envelope report evaluation;;
  validate_time verified_at chain envelope report;;
  admitted ← admitted_evidence envelope evaluation;
  supporting ← supporting_evidence evaluation admitted;
  profile_evidence_valid ← on_violation false
    (validate_recovery_proof profile (rn_semantic_action node) (en_expected_effects envelope)
       (ce_classification evaluation) admitted;; Ok true);
  let stale_support := existsb (λ e, negb (still_fresh verified_at e)) supporting in
  if bool_decide (ce_classification evaluation = UNKNOWN)
     || dp_conflicting_authority (ce_proof evaluation)
     || bool_decide (length supporting = O)
     || negb profile_evidence_valid || stale_support
  then
    w ← witness chain node envelope report evaluation profile admitted verified_at
          (profile_evidence_valid && negb stale_support);
    Ok (WitnessResult w)
  else
    transition ← transition_for chain node profile evaluation supporting successor_envelope;
    match map (λ e, valid_until (ne_freshness e)) supporting with
    | [] => Raise (ContractError (ValueError "min() iterable argument is empty"))
    | t :: l =>
        c ← certificate chain node envelope report evaluation profile admitted supporting
              transition verified_at (min_time t l);
        Ok (CertificateResult c)
    end.

End verification.
