(* ===== verification/RecoveryProperties.v ===== *)
(** Properties of recovery verification: what a certificate, a retry, a
    continuation and an ambiguity witness each rest on. *)

From S2P Require Export RecoveryVerification RecoveryRulesFacts.

#[local] Open Scope Z_scope.

Section facts.
Context {rt : Runtime} {sec : Security} {sv : SchemaValidator} {od : ObservationDecoder}.

Lemma on_violation_true (r : result recovery_error unit) :
  on_violation false (r;; Ok true) = Ok true → r = Ok tt.
Proof. destruct r as [[]|[]]; cbn; congruence. Qed.

Lemma min_time_le t l x : x ∈ t :: l → min_time t l ≤ x.
Proof.
  induction l as [|y l IH]; cbn.
  - intros ->%list_elem_of_singleton. lia.
  - rewrite !elem_of_cons in *. intros [->|[->|Hx]].
    + etrans; [apply Z.le_min_r|]. apply IH. by left.
    + apply Z.le_min_l.
    + etrans; [apply Z.le_min_r|]. apply IH. by right.
Qed.

Lemma find_node_inv chain node_id node :
  find_node chain node_id = Ok node → node ∈ rc_nodes chain ∧ rn_node_id node = node_id.
Proof.
  unfold find_node. destruct (filter _ _) as [|n [|? ?]] eqn:Hf; try done.
  intros [= ->]. assert (node ∈ [node]) as Hn by left. rewrite <-Hf in Hn.
  by apply list_elem_of_filter in Hn as [? ?].
Qed.

(** ** Evidence *)

(** Evidence a certificate may rest on. *)
Record admitted_for (envelope : ExecutionEnvelope) (evaluation : CoreEvaluation)
  (e : NormalizedEvidence) : Prop := {
  af_evaluated : e ∈ ce_evidence evaluation;
  af_admitted : ∃ d, d ∈ ce_decisions evaluation ∧ ed_evidence_id d = ne_evidence_id e ∧
    ed_disposition d = ADMITTED;
  af_target : target_eqb (ne_target e) (en_target envelope) = true;
  af_authority : ne_authority e = TARGET_STATE;
  af_policy : ne_authority_policy_version e = pr_authority (policies (en_context envelope));
  af_correlated : Forall (λ f, dict_get f.1 (ne_correlation e) = Some f.2)
    (correlation_fields (en_context envelope));
}.

Lemma admitted_evidence_bound envelope evaluation admitted :
  admitted_evidence envelope evaluation = Ok admitted →
  Forall (admitted_for envelope evaluation) admitted.
Proof.
  unfold admitted_evidence, fail_if. intros H. inv_ok. subst admitted.
  apply Forall_forall. intros e He.
  match goal with Hx : existsb (escapes_binding _) _ = false |- _ => rename Hx into Hesc end.
  assert (escapes_binding envelope e = false) as Hb.
  { destruct (escapes_binding envelope e) eqn:Hb; [|done].
    rewrite <-Hesc. symmetry. apply existsb_exists. exists e.
    split; [by apply list_elem_of_In|done]. }
  rewrite merge_sort_Permutation in He. apply list_elem_of_filter in He as [Hid Hin].
  unfold admitted_decision_ids in Hid.
  apply list_elem_of_fmap in Hid as (d & Hd & [Hda Hdi]%list_elem_of_filter).
  unfold escapes_binding in Hb. bool_simpl. split; try done.
  - exists d. split_and!; [done|by symmetry|done].
  - apply Forall_forall. intros f Hf.
    match goal with Hx : existsb _ (correlation_fields _) = false |- _ => rename Hx into Hc end.
    destruct (decide (dict_get f.1 (ne_correlation e) = Some f.2)) as [|Hne]; [done|].
    exfalso. assert (existsb (λ f, negb (bool_decide
      (dict_get f.1 (ne_correlation e) = Some f.2)))
      (correlation_fields (en_context envelope)) = true); [|congruence].
    apply existsb_exists. exists f. split; [by apply list_elem_of_In|].
    by rewrite bool_decide_eq_false_2.
Qed.

Lemma by_evidence_id_get l id e :
  dict_get id (by_evidence_id l) = Some e → e ∈ l ∧ ne_evidence_id e = id.
Proof.
  intros H%dict_get_elem%dict_of_elem. apply list_elem_of_fmap in H as (x & Hx & Hin).
  by simplify_eq.
Qed.

Lemma supporting_evidence_bound evaluation admitted supporting :
  supporting_evidence evaluation admitted = Ok supporting →
  supporting ⊆ admitted ∧
  (∀ id, id ∈ supporting_ids evaluation admitted → id ∈ evidence_ids supporting).
Proof.
  unfold supporting_evidence, fail_if. intros H. inv_ok. apply traverse_ok in H.
  split.
  - intros e He. apply list_elem_of_lookup in He as [i Hi].
    destruct (Forall2_lookup_r _ _ _ _ _ H Hi) as (id & _ & Hid).
    apply item_ok, by_evidence_id_get in Hid as [? _]. done.
  - intros id Hid.
    assert (id ∈ sorted_strings (remove_dups (supporting_ids evaluation admitted))) as Hs.
    { rewrite sorted_strings_perm. by apply elem_of_remove_dups. }
    apply list_elem_of_lookup in Hs as [i Hi].
    destruct (Forall2_lookup_l _ _ _ _ _ H Hi) as (e & He & Hx).
    apply item_ok, by_evidence_id_get in Hx as [_ <-].
    apply list_elem_of_fmap. exists e. split; [done|]. apply list_elem_of_lookup. eauto.
Qed.

(** ** The run behind a certificate *)

Record certified (chain : RecoveryChain) (node_id : string) (envelope : ExecutionEnvelope)
  (report : InvestigationReport) (evaluation : CoreEvaluation) (verified_at : datetime)
  (successor_envelope : option ExecutionEnvelope) (c : VerifiedCertificate)
  (node : RecoveryActionNode) (profile : RecoveryActionProfile)
  (admitted supporting : list NormalizedEvidence) : Prop := {
  cd_effects : NoDup (map ee_effect_id (en_expected_effects envelope));
  cd_node : node ∈ rc_nodes chain ∧ rn_node_id node = node_id;
  cd_profile : validate_node_binding node envelope = Ok profile;
  cd_report : validate_report envelope report evaluation = Ok tt;
  cd_admitted : admitted_evidence envelope evaluation = Ok admitted;
  cd_supporting : supporting_evidence evaluation admitted = Ok supporting;
  cd_proof : validate_recovery_proof profile (rn_semantic_action node)
    (en_expected_effects envelope) (ce_classification evaluation) admitted = Ok tt;
  cd_known : ce_classification evaluation ≠ UNKNOWN;
  cd_agreed : dp_conflicting_authority (ce_proof evaluation) = false;
  cd_supported : supporting ≠ [];
  cd_fresh : Forall (λ e, still_fresh verified_at e = true) supporting;
  cd_transition : transition_for chain node profile evaluation supporting
    successor_envelope = Ok (vc_transition c);
  cd_valid : validate_certificate c = Ok tt;
  cd_node_id : vc_node_id c = node_id;
  cd_chain : vc_chain_id c = rc_chain_id chain ∧ vc_chain_sha256 c = canonical_sha256 chain;
  cd_action : vc_semantic_action_sha256 c
    = sa_semantic_action_sha256 (rn_semantic_action node);
  cd_classification : vc_classification c = ce_classification evaluation;
  cd_evidence : vc_evidence c = bindings supporting;
  cd_issued : vc_issued_at c = verified_at;
  cd_expires : ∀ e, e ∈ supporting → vc_expires_at c ≤ valid_until (ne_freshness e);
  cd_profile_version : vc_action_profile_version c = rp_profile_version profile;
}.

Lemma existsb_negb_false {A} (f : A → bool) l :
  existsb (λ x, negb (f x)) l = false → Forall (λ x, f x = true) l.
Proof.
  induction l as [|x l IH]; cbn; [constructor|].
  intros [? ?]%orb_false_iff. constructor; [by apply negb_false_iff|auto].
Qed.

Lemma contract_ok {A} (r : result py_error A) a : contract r = Ok a ↔ r = Ok a.
Proof. apply map_error_ok. Qed.

Lemma certificate_fields chain node envelope report evaluation profile evidence supporting
  transition verified_at expires_at c :
  certificate chain node envelope report evaluation profile evidence supporting
    transition verified_at expires_at = Ok c →
  validate_certificate c = Ok tt ∧
  (vc_node_id c = rn_node_id node ∧ vc_chain_id c = rc_chain_id chain ∧
   vc_chain_sha256 c = canonical_sha256 chain) ∧
  vc_semantic_action_sha256 c = sa_semantic_action_sha256 (rn_semantic_action node) ∧
  vc_classification c = ce_classification evaluation ∧
  vc_evidence c = bindings supporting ∧ vc_transition c = transition ∧
  vc_issued_at c = verified_at ∧ vc_expires_at c = expires_at ∧
  vc_action_profile_version c = rp_profile_version profile.
Proof.
  unfold certificate. intros H. apply bind_ok in H as (id & _ & H).
  apply contract_ok in H. unfold model_validate_certificate in H. inv_ok. subst c.
  split; [done|]. repeat split.
Qed.

Lemma certificate_inv chain node_id envelope report evaluation verified_at succ c :
  verify_recovery chain node_id envelope report evaluation verified_at succ
    = Ok (CertificateResult c) →
  ∃ node profile admitted supporting,
    certified chain node_id envelope report evaluation verified_at succ c
      node profile admitted supporting.
Proof.
  unfold verify_recovery. intros H. inv_ok.
  match type of H with (if ?g then _ else _) = _ => destruct g eqn:Hg end;
    [inv_ok; done|].
  apply orb_false_iff in Hg as [Hg Hstale]. bool_simpl.
  inv_ok. destruct (map _ _) as [|t l] eqn:Hmap in H; [done|]. inv_ok.
  subst r10 r0. exists r4, r5, r8, r9.
  apply certificate_fields in Hr12 as (Hv&(Hn&Hci&Hcs)&Ha&Hcl&He&Ht&Hi&Hx&Hp).
  apply find_node_inv in Hr4 as [Hin Hid].
  apply map_error_ok, valid_envelope in Hr0 as [Heff _].
  split; try done.
  - by apply on_violation_true.
  - by intros ->.
  - by apply existsb_negb_false.
  - by rewrite Ht.
  - congruence.
  - intros e Hin'. rewrite Hx. apply min_time_le. rewrite <-Hmap.
    apply list_elem_of_fmap. by exists e.
Qed.

End facts.

(** * The theorems *)

Section facts.
Context {rt : Runtime} {sec : Security} {sv : SchemaValidator} {od : ObservationDecoder}.

(** ** Transitions *)

Lemma make_transition_inv action_ source target sha t :
  make_transition action_ source target sha = Ok t →
  ct_action t = action_ ∧ ct_source_node_id t = rn_node_id source ∧
  ct_target_node_id t = rn_node_id target ∧
  ct_semantic_action_sha256 t = sa_semantic_action_sha256 (rn_semantic_action target) ∧
  ct_target_sha256 t = canonical_sha256 (sa_target (rn_semantic_action target)) ∧
  node_arguments_sha256 target = Ok (ct_arguments_sha256 t) ∧
  ct_precondition_sha256 t = sha ∧ validate_transition_target t = Ok tt.
Proof.
  unfold make_transition. intros H. apply bind_ok in H as (arguments & Ha & H).
  apply bind_ok in H as ([] & Hv%contract_ok & [= <-]). repeat split; done.
Qed.

Lemma on_violation_some (r : result recovery_error string) sha :
  on_violation None (x ← r; Ok (Some x)) = Ok (Some sha) → r = Ok sha.
Proof. destruct r as [x|[]]; cbn; congruence. Qed.

Lemma filter_result_elem {A} (f : A → result recovery_error bool) l k x :
  filter_result f l = Ok k → x ∈ k → x ∈ l ∧ f x = Ok true.
Proof.
  revert k. induction l as [|y l IH]; intros k; cbn [filter_result].
  - intros [= <-] []%not_elem_of_nil.
  - intros H. apply bind_ok in H as (b & Hb & H). apply bind_ok in H as (k' & Hk & [= <-]).
    intros Hx. destruct b.
    + apply elem_of_cons in Hx as [->|Hx]; [split; [left|done]|].
      destruct (IH _ Hk Hx). split; [by right|done].
    + destruct (IH _ Hk Hx). split; [by right|done].
Qed.

Lemma retry_transition_inv node profile evaluation evidence t :
  retry_transition node profile evaluation evidence = Ok (Some t) →
  rp_retry_allowed profile = true ∧ ct_action t = RETRY ∧
  ct_source_node_id t = rn_node_id node ∧ ct_target_node_id t = rn_node_id node ∧
  ct_semantic_action_sha256 t = sa_semantic_action_sha256 (rn_semantic_action node).
Proof.
  unfold retry_transition. destruct (rp_retry_allowed profile); cbn [negb]; [|done].
  intros H. apply bind_ok in H as (positive & _ & H).
  destruct (bool_decide _) in H; [done|]. apply bind_ok in H as (o & _ & H).
  destruct o as [sha|]; [|done]. apply bind_ok in H as (t' & Ht & [= <-]).
  apply make_transition_inv in Ht as (?&?&?&?&?&?&?&?). done.
Qed.

Lemma successor_inv chain node profile target tp :
  successor chain node profile = Ok (Some (target, tp)) →
  target ∈ rc_nodes chain ∧ rn_depends_on target = [rn_node_id node] ∧
  resolve_recovery_action_profile (rn_semantic_action target) = Ok tp ∧
  successor_profile (rp_profile_version profile) = Some (rp_profile_version tp).
Proof.
  unfold successor. destruct (successor_profile _) as [expected|] eqn:He; [|done].
  destruct (filter _ _) as [|x [|? ?]] eqn:Hf; try done.
  assert (x ∈ [x]) as Hx by left. rewrite <-Hf in Hx.
  apply list_elem_of_filter in Hx as [Hd Hin].
  destruct (resolve_recovery_action_profile _) as [p|[| |[]]] eqn:Hp; try done.
  case_bool_decide as Hv; [|done]. intros [= <- <-]. subst. done.
Qed.

(** The successor of a certified node, with its own bound envelope. *)
Record continues (chain : RecoveryChain) (node : RecoveryActionNode)
  (profile : RecoveryActionProfile) (supporting : list NormalizedEvidence)
  (envelope : ExecutionEnvelope) (t : CertifiedTransition)
  (target : RecoveryActionNode) (tp : RecoveryActionProfile) : Prop := {
  cn_target : target ∈ rc_nodes chain ∧ rn_depends_on target = [rn_node_id node];
  cn_order : successor_profile (rp_profile_version profile) = Some (rp_profile_version tp);
  cn_resolved : resolve_recovery_action_profile (rn_semantic_action target) = Ok tp;
  cn_bound : er_envelope_sha256 (rn_envelope target) = canonical_sha256 envelope;
  cn_transition : ct_action t = CONTINUE ∧ ct_source_node_id t = rn_node_id node ∧
    ct_target_node_id t = rn_node_id target;
  cn_action : ct_semantic_action_sha256 t
    = sa_semantic_action_sha256 (rn_semantic_action target);
  cn_arguments : node_arguments_sha256 target = Ok (ct_arguments_sha256 t);
  cn_precondition : recovery_precondition_sha256 tp supporting false
    = Ok (ct_precondition_sha256 t);
}.

Lemma node_binding_inv node envelope profile :
  validate_node_binding node envelope = Ok profile →
  er_envelope_sha256 (rn_envelope node) = canonical_sha256 envelope ∧
  target_eqb (sa_target (rn_semantic_action node)) (en_target envelope) = true ∧
  resolve_recovery_action_profile (rn_semantic_action node) = Ok profile.
Proof.
  unfold validate_node_binding, fail_if. intros H. inv_ok. bool_simpl. subst.
  by match goal with Hx : map_error _ (resolve_recovery_action_profile _) = Ok _ |- _ =>
    apply map_error_ok in Hx end.
Qed.

Lemma continue_transition_inv chain node profile supporting succ t :
  continue_transition chain node profile supporting succ = Ok (Some t) →
  ∃ envelope target tp, succ = Some envelope ∧
    continues chain node profile supporting envelope t target tp.
Proof.
  unfold continue_transition. intros H. apply bind_ok in H as (next & Hs & H).
  destruct next as [[target tp]|]; [|done]. destruct succ as [envelope|]; [|done].
  apply bind_ok in H as (vp & Hb & H). apply bind_ok in H as ([] & _ & H).
  apply bind_ok in H as (same & _ & H). destruct (negb same); [done|].
  apply bind_ok in H as (o & Ho & H). destruct o as [sha|]; [|done].
  apply on_violation_some in Ho. apply bind_ok in H as (t' & Ht & [= <-]).
  apply make_transition_inv in Ht as (?&?&?&?&?&?&?&?).
  apply successor_inv in Hs as (?&?&?&?). apply node_binding_inv in Hb as (?&?&?).
  exists envelope, target, tp. split; [done|]. subst. split; done.
Qed.

(** *** Histories *)

(** A history that explains the evidence it calls compatible. *)
Definition explains (findings : list EffectFinding) (evidence : list NormalizedEvidence)
  (h : PossibleHistory) : Prop :=
  map he_effect_id (ph_effect_states h) = finding_ids findings ∧
  ∀ id, id ∈ ph_compatible_evidence_ids h → ∃ e, e ∈ evidence ∧ ne_evidence_id e = id ∧
    ∀ x a, x ∈ ph_effect_states h → a ∈ ne_effect_assertions e →
      ea_effect_id a = he_effect_id x → ea_state a ≠ UNVERIFIED → he_state x = ea_state a.

Lemma compatible_state e states c a s :
  evidence_compatible_with_history e states c = true → a ∈ ne_effect_assertions e →
  ea_state a ≠ UNVERIFIED → dict_get (ea_effect_id a) states = Some s → s = ea_state a.
Proof.
  unfold evidence_compatible_with_history. intros [H _]%andb_true_iff Ha Hne Hs.
  pose proof (forallb_elem _ _ _ H Ha) as Hx. cbn in Hx. rewrite Hs in Hx.
  apply orb_true_iff in Hx as [Hx|Hx]; apply bool_decide_eq_true in Hx; congruence.
Qed.

Lemma history_effects_ids findings states compatible evidence :
  map he_effect_id (history_effects findings states compatible evidence)
    = finding_ids findings.
Proof. unfold history_effects, finding_ids. by rewrite map_map. Qed.

Lemma history_effects_state findings states compatible evidence x :
  x ∈ history_effects findings states compatible evidence →
  he_effect_id x ∈ finding_ids findings ∧
  he_state x = state_in states (he_effect_id x).
Proof.
  intros (f & -> & Hf)%list_elem_of_fmap. cbn. split; [|done].
  apply list_elem_of_fmap. by exists f.
Qed.

Lemma dict_of_has {V} (f : EffectFinding → V) findings id :
  id ∈ finding_ids findings →
  is_Some (dict_get id (dict_of (map (λ x, (ef_effect_id x, f x)) findings))).
Proof.
  unfold dict_of. intros Hid.
  assert (∀ d, is_Some (dict_get id d) ∨ id ∈ finding_ids findings →
    is_Some (dict_get id (fold_left (λ d e, dict_set e.1 e.2 d)
      (map (λ x, (ef_effect_id x, f x)) findings) d))) as Hgen; [|by apply Hgen; right].
  clear Hid. induction findings as [|x l IH]; intros d Hd; cbn.
  - destruct Hd as [|Hd]; [done|]. by apply not_elem_of_nil in Hd.
  - apply IH. cbn in Hd. rewrite elem_of_cons in Hd.
    destruct (decide (id = ef_effect_id x)) as [->|Hne].
    + left. rewrite dict_get_set_eq. eauto.
    + rewrite dict_get_set_ne by done. naive_solver.
Qed.

Lemma explains_intro {V} (f : EffectFinding → V) g findings candidates evidence h compatible
  (states := dict_of (map (λ x, (ef_effect_id x, g x)) findings)) :
  candidates ⊆ evidence →
  ph_effect_states h = history_effects findings states compatible candidates →
  (∀ id, id ∈ ph_compatible_evidence_ids h → ∃ e, e ∈ candidates ∧ ne_evidence_id e = id ∧
    evidence_compatible_with_history e states (ph_classification h) = true) →
  explains findings evidence h.
Proof.
  intros Hsub Heff Hcomp. split; [rewrite Heff; apply history_effects_ids|].
  intros id (e & He & <- & Hc)%Hcomp. exists e. split; [by apply Hsub|]. split; [done|].
  intros x a Hx Ha Heq Hne. rewrite Heff in Hx.
  apply history_effects_state in Hx as [Hf ->]. unfold state_in.
  destruct (dict_of_has g findings _ Hf) as [s Hs]. fold states in Hs. rewrite Hs. cbn.
  eapply compatible_state; [exact Hc|done|done|]. by rewrite Heq.
Qed.

Lemma model_validate_history_inv h h' :
  model_validate_history h = Ok h' → h' = h.
Proof. unfold model_validate_history. intros H. by inv_ok. Qed.

Lemma history_explains id s evaluation evidence preserve override excluded h :
  history id s evaluation evidence preserve override excluded = Ok h →
  explains (dp_effect_findings (ce_proof evaluation)) evidence h.
Proof.
  unfold history. intros ->%model_validate_history_inv.
  eapply (explains_intro (λ _, tt)); [reflexivity|cbn [ph_effect_states]; reflexivity|].
  intros i Hi. cbn [ph_compatible_evidence_ids ph_classification] in *.
  apply list_elem_of_fmap in Hi as (e & -> & [[_ Hc] He]%list_elem_of_filter). eauto.
Qed.

Lemma provider_history_explains id anchor pairs evaluation evidence h :
  provider_conflict_history id anchor pairs evaluation evidence = Ok h →
  explains (dp_effect_findings (ce_proof evaluation)) evidence h.
Proof.
  unfold provider_conflict_history. intros H. apply bind_ok in H as (candidates & Hc & H).
  apply model_validate_history_inv in H as ->.
  assert (candidates ⊆ evidence) as Hsub.
  { apply traverse_ok in Hc. intros e He. apply list_elem_of_lookup in He as [i Hi].
    destruct (Forall2_lookup_r _ _ _ _ _ Hc Hi) as (x & _ & Hx).
    apply item_ok, by_evidence_id_get in Hx as [? _]. done. }
  eapply (explains_intro (λ _, tt)); [exact Hsub|cbn [ph_effect_states]; reflexivity|].
  intros i Hi. cbn [ph_compatible_evidence_ids ph_classification] in *.
  rewrite sorted_strings_perm in Hi.
  apply list_elem_of_fmap in Hi as (e & -> & [Hcc He]%list_elem_of_filter). eauto.
Qed.

Lemma witness_histories_explain conflict pairs evaluation evidence preserve hs
  (findings := dp_effect_findings (ce_proof evaluation)) :
  witness_histories conflict pairs evaluation evidence preserve = Ok hs →
  explains findings evidence hs.1 ∧ explains findings evidence hs.2.
Proof.
  assert (∀ hs, open_histories evaluation evidence preserve = Ok hs →
    explains findings evidence hs.1 ∧ explains findings evidence hs.2) as Hopen.
  { intros [h k]. unfold open_histories. intros H. apply bind_ok in H as (a & Ha & H).
    apply bind_ok in H as (b & Hb & [= <- <-]). split; by eapply history_explains. }
  unfold witness_histories. destruct conflict as [ids|]; [|apply Hopen].
  intros H. apply bind_ok in H as (st & Hst & H). destruct st as [both|].
  - injection H as ->. unfold status_conflict_histories in Hst. inv_ok.
    destruct (any_not _ _) in Hst; [done|].
    destruct (ne_operation_status r) as [s|]; [|done].
    destruct (ne_operation_status r0) as [t|]; [|done]. inv_ok.
    destruct (bool_decide _) in Hst; inv_ok; [done|]. subst hs.
    unfold status_conflict_history in Hr1, Hr2. cbn [fst snd].
    apply history_explains in Hr1, Hr2. by split.
  - apply bind_ok in H as (pr & Hpr & H). destruct pr as [both|]; [|by apply Hopen].
    injection H as ->. unfold provider_conflict_histories in Hpr.
    destruct (negb _) in Hpr; inv_ok; [done|]. subst hs.
    cbn [fst snd]. apply provider_history_explains in Hr, Hr0. by split.
Qed.

(** *** Witnesses *)

Lemma witness_inv chain node envelope report evaluation profile evidence t preserve w :
  witness chain node envelope report evaluation profile evidence t preserve = Ok w →
  validate_witness w = Ok tt ∧ aw_evidence w = bindings evidence ∧
  ∃ conflict pairs preserve' hs,
    witness_histories conflict pairs evaluation evidence preserve' = Ok hs ∧
    aw_possible_histories w = [hs.1; hs.2] ∧
    aw_conflicting_evidence_ids w = conflict_list conflict ∧
    (dp_conflicting_authority (ce_proof evaluation) = true → is_Some conflict).
Proof.
  unfold witness. intros H. apply bind_ok in H as ([conflict pairs] & Hc & H).
  apply bind_ok in H as (hs & Hh & H). apply bind_ok in H as (d & _ & H).
  apply bind_ok in H as (id & _ & H). apply contract_ok in H.
  unfold model_validate_witness in H. apply bind_ok in H as ([] & Hv & [= <-]).
  split; [done|]. split; [done|]. eexists _, _, _, hs. split; [exact Hh|].
  split; [done|]. split; [done|]. intros Hconf.
  unfold witness_conflicts, fail_if in Hc. apply bind_ok in Hc as (pc & _ & Hc).
  apply bind_ok in Hc as ([] & Hg%reject_if_ok & [= <- _]).
  rewrite Hconf in *. cbn [andb] in Hg. apply is_some_true. unfold is_some. by rewrite Hg.
Qed.

Lemma bindings_ids l : map rb_evidence_id (bindings l) = evidence_ids l.
Proof. unfold bindings, evidence_ids. rewrite map_map. done. Qed.

Lemma verify_witness_inv chain node_id envelope report evaluation t succ w :
  verify_recovery chain node_id envelope report evaluation t succ = Ok (WitnessResult w) →
  ∃ node profile admitted preserve,
    admitted_evidence envelope evaluation = Ok admitted ∧
    witness chain node envelope report evaluation profile admitted t preserve = Ok w.
Proof.
  unfold verify_recovery. intros H. inv_ok.
  match type of H with (if ?g then _ else _) = _ => destruct g eqn:Hg end.
  - inv_ok. subst. eauto 10.
  - inv_ok. destruct (map _ _) in H; [done|]. inv_ok. done.
Qed.

(** What a certified retry rests on. *)
Lemma retry_proved chain node_id envelope report evaluation verified_at succ c t :
  verify_recovery chain node_id envelope report evaluation verified_at succ
    = Ok (CertificateResult c) →
  vc_transition c = Some t → ct_action t = RETRY →
  ∃ node admitted,
    node ∈ rc_nodes chain ∧ rn_node_id node = node_id ∧
    ct_source_node_id t = node_id ∧ ct_target_node_id t = node_id ∧
    ct_semantic_action_sha256 t = sa_semantic_action_sha256 (rn_semantic_action node) ∧
    sa_action_profile_version (rn_semantic_action node)
      = CREATE_FIRESTORE_RELEASE_RECORD_PROFILE_VERSION ∧
    ce_classification evaluation = NOT_COMMITTED ∧
    admitted_evidence envelope evaluation = Ok admitted ∧ admitted ≠ [] ∧
    Forall (receipt_for (rn_semantic_action node)) admitted ∧
    Forall (effect_settled admitted NOT_ESTABLISHED) (en_expected_effects envelope).
Proof.
  intros (node & profile & admitted & supporting & Hc)%certificate_inv Ht Ha. destruct Hc as [Heff Hnode Hprof Hrep Hadm
    Hsup Hpf Hkn Hag Hne Hfr Htr Hval Hnid Hch Hact Hcls Hev Hiss Hexp Hpv].
  destruct Hnode as [Hin Hid]. rewrite Ht in Htr.
  unfold transition_for in Htr.
  destruct (ce_classification evaluation) eqn:Hcl; try done.
  - apply continue_transition_inv in Htr as (env & target & tp & _ & Hcn).
    destruct Hcn as [_ _ _ _ [Hct _]]. congruence.
  - apply retry_transition_inv in Htr as (_ & _ & Hs & Htg & Hsa).
    destruct (not_committed_proof _ _ _ _ Heff Hpf) as (Hp & Hn & Hr & He).
    apply node_binding_inv in Hprof as (_ & _ & Hres).
    apply resolved_profile in Hres as (_ & _ & Hver & _ & _).
    exists node, admitted. split_and!; try done; try congruence.
    rewrite Hver, Hp. done.
Qed.

(** What a certified continuation rests on. *)
Lemma continue_proved chain node_id envelope report evaluation verified_at succ c t :
  verify_recovery chain node_id envelope report evaluation verified_at succ
    = Ok (CertificateResult c) →
  vc_transition c = Some t → ct_action t = CONTINUE →
  ∃ node profile admitted supporting successor_envelope target target_profile,
    node ∈ rc_nodes chain ∧ rn_node_id node = node_id ∧
    resolve_recovery_action_profile (rn_semantic_action node) = Ok profile ∧
    ce_classification evaluation = COMMITTED ∧
    admitted_evidence envelope evaluation = Ok admitted ∧
    supporting_evidence evaluation admitted = Ok supporting ∧
    Forall (effect_settled admitted ESTABLISHED) (en_expected_effects envelope) ∧
    commit_observed profile (rn_semantic_action node) admitted ∧
    succ = Some successor_envelope ∧
    continues chain node profile supporting successor_envelope t target target_profile.
Proof.
  intros (node & profile & admitted & supporting & Hc)%certificate_inv Ht Ha. destruct Hc as [Heff Hnode Hprof Hrep Hadm
    Hsup Hpf Hkn Hag Hne Hfr Htr Hval Hnid Hch Hact Hcls Hev Hiss Hexp Hpv].
  destruct Hnode as [Hin Hid]. rewrite Ht in Htr.
  unfold transition_for in Htr.
  apply node_binding_inv in Hprof as (_ & _ & Hres).
  destruct (ce_classification evaluation) eqn:Hcl; try done.
  - apply continue_transition_inv in Htr as (env & target & tp & Henv & Hcn).
    destruct (committed_proof _ _ _ _ Heff Hpf) as (_ & He & Hobs).
    exists node, profile, admitted, supporting, env, target, tp. by split_and!.
  - apply retry_transition_inv in Htr as (_ & Hct & _). congruence.
Qed.

(** * Properties *)

(** C26: what a certificate rests on.  Its evidence is a nonempty list of items
    the classifier admitted, each authoritative target state of the envelope's
    own target, under its policy and correlation, fresh when the certificate
    was issued and until it expires; everything the proof's findings and
    operation status cite is in it.  The classification is the evaluation's and
    the report's, is not UNKNOWN and was reached without conflicting authority,
    and only COMMITTED can carry a continuation and only NOT_COMMITTED a retry. *)
Theorem certificate_sound chain node_id envelope report evaluation verified_at succ c :
  verify_recovery chain node_id envelope report evaluation verified_at succ
    = Ok (CertificateResult c) →
  (∃ admitted supporting,
    supporting ≠ [] ∧ vc_evidence c = bindings supporting ∧
    Forall (λ e, admitted_for envelope evaluation e ∧
      valid_from (ne_freshness e) ≤ vc_issued_at c ∧
      vc_expires_at c ≤ valid_until (ne_freshness e)) supporting ∧
    (∀ id, id ∈ supporting_ids evaluation admitted → id ∈ evidence_ids supporting)) ∧
  vc_issued_at c = verified_at ∧ verified_at < vc_expires_at c ∧
  vc_classification c = ce_classification evaluation ∧
  ir_classification report = Some (vc_classification c) ∧
  vc_classification c ≠ UNKNOWN ∧
  dp_conflicting_authority (ce_proof evaluation) = false ∧
  (∀ t, vc_transition c = Some t →
    expected_permit_action (vc_classification c) = Some (ct_action t) ∧
    ct_source_node_id t = node_id).
Proof.
  intros (node & profile & admitted & supporting & Hc)%certificate_inv. destruct Hc as [Heff Hnode Hprof Hrep Hadm
    Hsup Hpf Hkn Hag Hne Hfr Htr Hval Hnid Hch Hact Hcls Hev Hiss Hexp Hpv].
  pose proof (admitted_evidence_bound _ _ _ Hadm) as Had.
  pose proof (supporting_evidence_bound _ _ _ Hsup) as [Hsub Hcov].
  pose proof Hval as Hv. unfold validate_certificate in Hv. inv_ok. bool_simpl.
  split_and!.
  - exists admitted, supporting. split_and!; try done.
    apply Forall_forall. intros e He. split; [exact (proj1 (Forall_forall _ _) Had e (Hsub e He))|].
    split; [|by apply Hexp]. rewrite Hiss.
    pose proof (proj1 (Forall_forall _ _) Hfr e He) as Hf.
    apply andb_true_iff in Hf as [Hf _]. by apply Z.leb_le.
  - done.
  - lia.
  - done.
  - unfold validate_report, fail_if in Hrep. inv_ok. bool_simpl. congruence.
  - congruence.
  - done.
  - intros t Ht. rewrite Ht in *. inv_ok. bool_simpl. split; [done|congruence].
Qed.

(** C23: a retry is certified only when the provider was never contacted.  The
    retried action is the node's own, of the one profile that allows a retry;
    the classification is NOT_COMMITTED; and every admitted evidence item is a
    dispatch receipt of the trusted dispatcher for exactly this action, stating
    terminal non-execution, so that every expected effect is shown absent and
    none is shown present. *)
Theorem retry_certified chain node_id envelope report evaluation verified_at succ c t :
  verify_recovery chain node_id envelope report evaluation verified_at succ
    = Ok (CertificateResult c) →
  vc_transition c = Some t → ct_action t = RETRY →
  ∃ node admitted,
    node ∈ rc_nodes chain ∧ rn_node_id node = node_id ∧
    ct_source_node_id t = node_id ∧ ct_target_node_id t = node_id ∧
    ct_semantic_action_sha256 t = sa_semantic_action_sha256 (rn_semantic_action node) ∧
    sa_action_profile_version (rn_semantic_action node)
      = CREATE_FIRESTORE_RELEASE_RECORD_PROFILE_VERSION ∧
    ce_classification evaluation = NOT_COMMITTED ∧
    admitted_evidence envelope evaluation = Ok admitted ∧ admitted ≠ [] ∧
    Forall (receipt_for (rn_semantic_action node)) admitted ∧
    Forall (effect_settled admitted NOT_ESTABLISHED) (en_expected_effects envelope).
Proof. apply retry_proved. Qed.

(** C22: a continuation is certified only after a commit the provider shows.
    The classification is COMMITTED; every expected effect of the node is
    established by an admitted item whose typed provider reading shows it,
    within the scopes its capability speaks for, and no admitted item shows it
    absent; the reading the node's profile demands was made; and the
    transition is to the one successor of the node, bound to the successor's
    own envelope, action and arguments, with the dispatch precondition computed
    from the supporting evidence. *)
Theorem continue_certified chain node_id envelope report evaluation verified_at succ c t :
  verify_recovery chain node_id envelope report evaluation verified_at succ
    = Ok (CertificateResult c) →
  vc_transition c = Some t → ct_action t = CONTINUE →
  ∃ node profile admitted supporting successor_envelope target target_profile,
    node ∈ rc_nodes chain ∧ rn_node_id node = node_id ∧
    resolve_recovery_action_profile (rn_semantic_action node) = Ok profile ∧
    ce_classification evaluation = COMMITTED ∧
    admitted_evidence envelope evaluation = Ok admitted ∧
    supporting_evidence evaluation admitted = Ok supporting ∧
    Forall (effect_settled admitted ESTABLISHED) (en_expected_effects envelope) ∧
    commit_observed profile (rn_semantic_action node) admitted ∧
    succ = Some successor_envelope ∧
    continues chain node profile supporting successor_envelope t target target_profile.
Proof. apply continue_proved. Qed.

(** C29: an ambiguity witness shows a real ambiguity.  Its two histories have
    different names and different outcomes or evidence, each speaks of exactly
    the proof's effects, and each explains the evidence it calls compatible:
    whatever such an item verified about an effect is the state the history
    gives it.  When the proof is in conflict the witness names a contradictory
    pair of evidence items. *)
Theorem witness_ambiguous chain node_id envelope report evaluation verified_at succ w :
  verify_recovery chain node_id envelope report evaluation verified_at succ
    = Ok (WitnessResult w) →
  ∃ admitted h k,
    admitted_evidence envelope evaluation = Ok admitted ∧
    aw_possible_histories w = [h; k] ∧
    ph_history_id h ≠ ph_history_id k ∧ history_signature h ≠ history_signature k ∧
    explains (dp_effect_findings (ce_proof evaluation)) admitted h ∧
    explains (dp_effect_findings (ce_proof evaluation)) admitted k ∧
    (dp_conflicting_authority (ce_proof evaluation) = true →
      ∃ a b, a ≠ b ∧ aw_conflicting_evidence_ids w = [a; b] ∧
        a ∈ evidence_ids admitted ∧ b ∈ evidence_ids admitted).
Proof.
  intros (node & profile & admitted & preserve & Had & Hw)%verify_witness_inv.
  apply witness_inv in Hw as (Hv & Hev & conflict & pairs & pr & hs & Hh & Hhs & Hcf & Hc).
  apply witness_histories_explain in Hh as [H1 H2].
  exists admitted, hs.1, hs.2. unfold validate_witness, require_unique in Hv.
  rewrite Hhs, Hcf, Hev in Hv. inv_ok. rewrite !has_dup_false in *.
  cbn [map] in *.
  repeat match goal with Hx : NoDup [_; _] |- _ => apply NoDup_cons in Hx as [Hx _];
    rewrite list_elem_of_singleton in Hx end.
  split_and!; try done.
  intros Hconf. destruct (Hc Hconf) as [[a b] ->]. cbn [conflict_list] in *.
  exists a, b. bool_simpl.
  match goal with Hx : subsetb [a; b] _ = true |- _ =>
    rewrite subsetb_true, bindings_ids in Hx; rename Hx into Hsub end.
  match goal with Hx : NoDup [a; b] |- _ => apply NoDup_cons in Hx as [Hx _];
    rewrite list_elem_of_singleton in Hx end.
  split_and!; try done; apply Hsub; [left|right; left].
Qed.

End facts.
