(* ===== verification/Reporting.v ===== *)
(** Report assembly and the engine of one investigation
    (reconcile/evidence/reporting.py and reconcile/evidence/engine.py). *)

From S2P Require Export Report.

#[local] Open Scope Z_scope.

(** ** Report assembly *)

Section reporting.
Context {rt : Runtime} {sec : Security} {od : ObservationDecoder}.

(** The evidence identifiers of one probe, [sorted(evidence_ids_by_sequence[...])]. *)
Definition evidence_ids_at (attempts : list EvidenceAttempt) (sequence : Z) : list string :=
  sorted_strings (decision_ids (filter (λ a, at_probe_sequence a = sequence) attempts)).

(** [ProbeAuditRecord(...)] of a controller record. *)
Definition report_audit (attempts : list EvidenceAttempt) (record : ControllerAuditRecord)
  : ProbeAuditRecord :=
  {| pa_probe_sequence := ar_sequence record;
     pa_capability_name := ar_capability_name record;
     pa_capability_version := ar_capability_version record;
     pa_request_sha256 := ar_request_sha256 record;
     pa_target_sha256 := ar_target_sha256 record;
     pa_outcome := ar_outcome record;
     pa_stop_reason := ProbeStopReason_value (ar_stop_reason record);
     pa_started_at := ar_started_at record;
     pa_completed_at := ar_completed_at record;
     pa_session_elapsed_ms := ar_session_elapsed_ms record;
     pa_probe_count_used := ar_probe_count_used record;
     pa_cost_units_used := ar_cost_units_used record;
     pa_result_bytes_acquired := ar_result_bytes_acquired record;
     pa_result_sha256 := ar_result_sha256 record;
     pa_result_byte_count := ar_result_byte_count record;
     pa_evidence_ids := evidence_ids_at attempts (ar_sequence record) |}.

(** [AdvisoryExplanation.model_validate], which also sanitizes its text. *)
Definition model_validate_advisory (x : AdvisoryExplanation)
  : result py_error AdvisoryExplanation :=
  text ← validate_SanitizedText (ax_text x);
  validate_citation_identity x;;
  Ok {| ax_text := text; ax_cited_evidence_ids := ax_cited_evidence_ids x |}.

(** The explanation a report keeps: none when it cites evidence that is not
    explainable. *)
Definition report_advisory (decisions : list EvidenceDecision)
  (advisory : option AdvisoryExplanation) : result py_error (option AdvisoryExplanation) :=
  match advisory with
  | None => Ok None
  | Some x =>
      x ← model_validate_advisory x;
      let explainable := map ed_evidence_id
        (filter (λ d, ed_disposition d = ADMITTED ∨ ed_disposition d = WEAK) decisions) in
      if negb (subsetb (ax_cited_evidence_ids x) explainable) then Ok None
      else
        x ← model_validate_advisory
          {| ax_text := redact_untrusted_text (ax_text x);
             ax_cited_evidence_ids := ax_cited_evidence_ids x |};
        Ok (Some x)
  end.

(** The checks of [build_report] on its evaluation and audit trail. *)
Definition check_evaluation (envelope : ExecutionEnvelope)
  (audit_trail : list ControllerAuditRecord) (evaluation : CoreEvaluation)
  : result py_error unit :=
  reject_if (negb (bool_decide (ce_envelope_sha256 evaluation = canonical_sha256 envelope)))
    (ValueError "core evaluation belongs to a different envelope");;
  reject_if (negb (bool_decide
      (map ar_sequence audit_trail = one_to (length audit_trail))))
    (ValueError "controller audit sequence must be contiguous");;
  reject_if (negb (bool_decide
      (sequences_of (ce_attempts evaluation) = map ar_sequence audit_trail)))
    (ValueError "every controller audit record requires one evidence attempt");;
  reject_if (existsb (λ ar, negb (bool_decide
               (canonical_sha256 ar.2 = at_controller_audit_sha256 ar.1)))
               (zip (ce_attempts evaluation) audit_trail))
    (ValueError "evidence attempt audit does not match the controller").

Definition build_report (envelope : ExecutionEnvelope)
  (audit_trail : list ControllerAuditRecord) (evaluation : CoreEvaluation)
  (created_at updated_at : datetime) (revision : Z)
  (advisory : option AdvisoryExplanation) : result py_error InvestigationReport :=
  validate_ExecutionEnvelope envelope;;
  let audit_trail := merge_sort audit_key_le audit_trail in
  check_evaluation envelope audit_trail evaluation;;
  audit ← mapM (λ r, model_validate_probe_audit (report_audit (ce_attempts evaluation) r))
    audit_trail;
  advisory ← report_advisory (ce_decisions evaluation) advisory;
  model_validate_report
    {| ir_investigation_id := en_investigation_id envelope;
       ir_envelope_sha256 := canonical_sha256 envelope;
       ir_status := Report_COMPLETED;
       ir_probe_audit := audit;
       ir_evidence := ce_evidence evaluation;
       ir_evidence_decisions := ce_decisions evaluation;
       ir_proof := Some (ce_proof evaluation);
       ir_classification := Some (ce_classification evaluation);
       ir_action_gate := ce_action_gates evaluation;
       ir_missing_evidence := ce_missing_evidence evaluation;
       ir_limitations := ["No mutation was retried or compensated."];
       ir_advisory_explanation := advisory;
       ir_created_at := created_at;
       ir_updated_at := updated_at;
       ir_revision := revision |}.

(** ** The engine *)

(** [EvidenceEngine]: the pipeline and [_attempts] by probe sequence. *)
Record EvidenceEngine := {
  eg_pipeline : EvidencePipeline;
  eg_attempts : list (Z * EvidenceAttempt);
}.

Definition new_engine (envelope : ExecutionEnvelope) (registry : TargetRuleRegistry)
  : EvidenceEngine :=
  {| eg_pipeline := new_pipeline envelope registry; eg_attempts := [] |}.

Definition engine_key_le (x y : Z * EvidenceAttempt) : Prop := x.1 ≤ y.1.
#[export] Instance engine_key_le_dec x y : Decision (engine_key_le x y).
Proof. unfold engine_key_le. apply _. Defined.

Definition engine_attempts (g : EvidenceEngine) : list EvidenceAttempt :=
  (merge_sort engine_key_le (eg_attempts g)).*2.

Definition process (g : EvidenceEngine) (run : ProbeRun)
  : EvidenceEngine * result py_error EvidenceAttempt :=
  let '(pipeline, outcome) := normalize (eg_pipeline g) run in
  let g' := {| eg_pipeline := pipeline; eg_attempts := eg_attempts g |} in
  match outcome with
  | Raise e => (g', Raise e)
  | Ok attempt =>
      match dict_get (at_probe_sequence attempt) (eg_attempts g) with
      | Some _ => (g', Raise (ValueError "probe sequence already has an evidence attempt"))
      | None =>
          ({| eg_pipeline := pipeline;
              eg_attempts :=
                dict_set (at_probe_sequence attempt) attempt (eg_attempts g) |},
           Ok attempt)
      end
  end.

Definition evaluate (g : EvidenceEngine) (audit_trail : list ControllerAuditRecord)
  : result py_error CoreEvaluation :=
  evaluate_evidence (pl_envelope (eg_pipeline g)) (engine_attempts g) audit_trail.

Definition report (g : EvidenceEngine) (audit_trail : list ControllerAuditRecord)
  (created_at updated_at : datetime) (revision : Z)
  (advisory : option AdvisoryExplanation) : result py_error InvestigationReport :=
  evaluation ← evaluate g audit_trail;
  build_report (pl_envelope (eg_pipeline g)) audit_trail evaluation created_at updated_at
    revision advisory.

End reporting.
