(* ===== verification/ClassificationFacts.v ===== *)
(** Lemmas about classification: sorting, deduplication, admission recheck,
    findings, and the precedence of the five classifications.  The properties
    that use them are in ClassificationProperties.v and ReportRefinement.v. *)

From S2P Require Export Reporting.

#[local] Open Scope Z_scope.

(** ** Lists *)

Lemma remove_dups_nodup_perm `{EqDecision A} (l : list A) :
  NoDup l → remove_dups l ≡ₚ l.
Proof.
  intros H. apply NoDup_Permutation; [apply NoDup_remove_dups|done|].
  intros x. apply elem_of_remove_dups.
Qed.

Lemma mapM_ok_map {E A B} (f : A → result E B) (g : A → B) l :
  (∀ x, x ∈ l → f x = Ok (g x)) → mapM f l = Ok (map g l).
Proof.
  induction l as [|x l IH]; intros H; [done|]. cbn.
  rewrite H by left. cbn. rewrite IH; [done|]. intros y Hy. apply H. by right.
Qed.

Lemma existsb_false_iff {A} (f : A → bool) l :
  existsb f l = false ↔ ∀ x, x ∈ l → f x = false.
Proof.
  induction l as [|x l IH]; cbn.
  - split; [intros _ x []%not_elem_of_nil|done].
  - rewrite orb_false_iff, IH. split.
    + intros [Hx Hl] y [->|Hy]%elem_of_cons; auto.
    + intros H. split; [apply H; left|intros y Hy; apply H; by right].
Qed.

Lemma existsb_true_iff {A} (f : A → bool) l :
  existsb f l = true ↔ ∃ x, x ∈ l ∧ f x = true.
Proof.
  rewrite existsb_exists. setoid_rewrite <-list_elem_of_In. done.
Qed.

Lemma existsb_perm {A} (f : A → bool) l k : l ≡ₚ k → existsb f l = existsb f k.
Proof.
  intros Hlk. apply eq_true_iff_eq. rewrite !existsb_true_iff. by setoid_rewrite Hlk.
Qed.

Lemma Forall2_elem_r {A B} (P : A → B → Prop) l k y :
  Forall2 P l k → y ∈ k → ∃ x, x ∈ l ∧ P x y.
Proof.
  intros H [i Hi]%list_elem_of_lookup.
  destruct (Forall2_lookup_r _ _ _ _ _ H Hi) as (x & Hx & Hp).
  exists x. split; [|done]. by eapply list_elem_of_lookup_2.
Qed.

Lemma Forall2_elem_l {A B} (P : A → B → Prop) l k x :
  Forall2 P l k → x ∈ l → ∃ y, y ∈ k ∧ P x y.
Proof.
  intros H [i Hi]%list_elem_of_lookup.
  destruct (Forall2_lookup_l _ _ _ _ _ H Hi) as (y & Hy & Hp).
  exists y. split; [|done]. by eapply list_elem_of_lookup_2.
Qed.

Lemma length_one_to n : length (one_to n) = n.
Proof. unfold one_to. by rewrite length_map, length_seq. Qed.

Lemma one_to_lookup n i : (i < n)%nat → one_to n !! i = Some (Z.of_nat (S i)).
Proof.
  intros Hi. unfold one_to. rewrite list_lookup_fmap, lookup_seq_lt by done. done.
Qed.

Lemma NoDup_one_to n : NoDup (one_to n).
Proof. unfold one_to. apply NoDup_fmap; [intros ???; lia|apply NoDup_seq]. Qed.

(** ** The two orders *)

#[export] Instance attempt_key_le_trans : Transitive attempt_key_le.
Proof.
  intros x y z [H1|[H1 S1]] [H2|[H2 S2]]; unfold attempt_key_le; [left; lia..|].
  right. split; [lia|by etransitivity].
Qed.

#[export] Instance attempt_key_le_total : Total attempt_key_le.
Proof.
  intros x y. unfold attempt_key_le.
  destruct (Z.lt_trichotomy (at_probe_sequence x) (at_probe_sequence y)) as [?|[?|?]];
    [by left; left| |by right; left].
  destruct (total str_le (ed_evidence_id (at_decision x)) (ed_evidence_id (at_decision y)));
    [left; right; auto|right; right; auto].
Qed.

#[export] Instance audit_key_le_trans : Transitive audit_key_le.
Proof. intros x y z. unfold audit_key_le. lia. Qed.
#[export] Instance audit_key_le_total : Total audit_key_le.
Proof. intros x y. unfold audit_key_le. lia. Qed.

Lemma StronglySorted_keys {A} (R : relation A) (key : A → Z) l :
  (∀ x y, key x < key y → R x y) → map key l = one_to (length l) → StronglySorted R l.
Proof.
  intros HR. unfold one_to. generalize 1%nat as k.
  induction l as [|x l IH]; intros k; cbn; [constructor|].
  intros [= Hx Hl]. constructor; [by eapply IH|].
  apply Forall_forall. intros y Hy. apply HR. rewrite Hx.
  assert (key y ∈ map key l) as Hin by (apply list_elem_of_fmap; eauto).
  rewrite Hl in Hin. apply list_elem_of_fmap in Hin as (n & -> & Hn).
  apply elem_of_seq in Hn. lia.
Qed.

Lemma attempt_sort_id l :
  sequences_of l = one_to (length l) → merge_sort attempt_key_le l = l.
Proof.
  intros Hs. apply (merge_sort_id _ at_probe_sequence).
  - unfold attempt_key_le. intros x y. lia.
  - unfold sequences_of in Hs. rewrite Hs. apply NoDup_one_to.
  - apply (StronglySorted_keys _ at_probe_sequence); [|done]. by left.
Qed.

Lemma audit_sort_id l :
  map ar_sequence l = one_to (length l) → merge_sort audit_key_le l = l.
Proof.
  intros Hs. apply (merge_sort_id _ ar_sequence).
  - unfold audit_key_le. intros x y. lia.
  - rewrite Hs. apply NoDup_one_to.
  - apply (StronglySorted_keys _ ar_sequence); [|done]. unfold audit_key_le. lia.
Qed.

(** The first of a sorted list is its least element. *)
Lemma sorted_head k x r : sorted_strings k = x :: r → x ∈ k ∧ ∀ y, y ∈ k → str_le x y.
Proof.
  intros Hk. pose proof (sorted_strings_perm k) as Hp. rewrite Hk in Hp. split.
  - rewrite <-Hp. left.
  - intros y Hy. rewrite <-Hp in Hy.
    pose proof (StronglySorted_merge_sort str_le k) as Hs.
    fold (sorted_strings k) in Hs. rewrite Hk in Hs.
    apply StronglySorted_inv in Hs as [_ Hs]. rewrite Forall_forall in Hs.
    apply elem_of_cons in Hy as [->|Hy]; [by destruct (total str_le x x)|by apply Hs].
Qed.

(** Dropping repetitions before sorting keeps the least element. *)
Lemma head_sorted_remove_dups l d :
  match sorted_strings (remove_dups l) with x :: _ => x | [] => d end
  = match sorted_strings l with x :: _ => x | [] => d end.
Proof.
  destruct (sorted_strings (remove_dups l)) as [|x r] eqn:Hx,
    (sorted_strings l) as [|y t] eqn:Hy; [done| | |].
  - apply sorted_head in Hy as [Hy _]. pose proof (sorted_strings_perm (remove_dups l)) as Hp.
    rewrite Hx in Hp. apply Permutation_nil_l in Hp.
    apply elem_of_remove_dups in Hy. rewrite <-Hp in Hy. by apply not_elem_of_nil in Hy.
  - apply sorted_head in Hx as [Hx _]. pose proof (sorted_strings_perm l) as Hp.
    rewrite Hy in Hp. apply Permutation_nil_l in Hp.
    apply elem_of_remove_dups in Hx. rewrite <-Hp in Hx. by apply not_elem_of_nil in Hx.
  - apply sorted_head in Hx as [Hx Hxm], Hy as [Hy Hym]. rewrite elem_of_remove_dups in Hx.
    apply (anti_symm str_le); [apply Hxm; by apply elem_of_remove_dups|by apply Hym].
Qed.

Section facts.
Context {rt : Runtime} {sec : Security} {od : ObservationDecoder}.

(** ** Action gates *)

Lemma gate_valid c cp ap d :
  d ∈ gate_definitions c →
  model_validate_gate (gate_of c cp ap d) = Ok (gate_of c cp ap d).
Proof.
  unfold gate_definitions. rewrite !elem_of_cons, elem_of_nil.
  intros Hd; destruct_or! Hd; subst d; destruct c; reflexivity || done.
Qed.

Lemma action_gates_ok c cp ap :
  action_gates c cp ap = Ok (map (gate_of c cp ap) (gate_definitions c)).
Proof. apply mapM_ok_map. apply gate_valid. Qed.

(** ** Deduplication *)

(** The attempt a duplicate becomes. *)
Definition duplicate_of (a : EvidenceAttempt) : EvidenceAttempt :=
  {| at_envelope_sha256 := at_envelope_sha256 a;
     at_controller_audit_sha256 := at_controller_audit_sha256 a;
     at_request_sha256 := at_request_sha256 a;
     at_probe_sequence := at_probe_sequence a;
     at_raw_sha256 := at_raw_sha256 a;
     at_evidence := at_evidence a;
     at_decision := {| ed_evidence_id := ed_evidence_id (at_decision a);
       ed_disposition := REJECTED_EVIDENCE; ed_reason := DUPLICATE_CANDIDATES |} |}.

Lemma duplicate_decision_ok id :
  model_validate_decision {| ed_evidence_id := id; ed_disposition := REJECTED_EVIDENCE;
    ed_reason := DUPLICATE_CANDIDATES |} =
  Ok {| ed_evidence_id := id; ed_disposition := REJECTED_EVIDENCE;
    ed_reason := DUPLICATE_CANDIDATES |}.
Proof. reflexivity. Qed.

Lemma reject_duplicate_ok env audit a :
  attempt_ok env audit a → reject_duplicate a = Ok (duplicate_of a).
Proof.
  intros H. unfold reject_duplicate, make_decision.
  rewrite duplicate_decision_ok. cbn [mbind result_bind].
  unfold make_attempt. cbn [at_probe_sequence at_decision at_evidence].
  rewrite (proj2 (Z.ltb_ge _ _)) by apply H.
  rewrite duplicate_decision_ok. cbn [negb reject_if mbind result_bind].
  unfold duplicate_of. destruct (at_evidence a) as [e|] eqn:He; [|done].
  destruct (ak_evidence _ _ _ H e He) as [Hm Hb]. rewrite Hm. cbn [mbind result_bind].
  cbn [ed_evidence_id]. by rewrite (bnd_id _ _ _ Hb), bool_decide_eq_true_2.
Qed.

(** An attempt of the deduplicated list: the original, or its rejection. *)
Definition dedup_rel (a a' : EvidenceAttempt) : Prop := a' = a ∨ a' = duplicate_of a.

Lemma dedup_rel_ok env audit a a' :
  dedup_rel a a' → attempt_ok env audit a → attempt_ok env audit a'.
Proof.
  intros [->| ->]; [done|]. intros [H1 H2 H3 H4 _ H6 _].
  split; [exact H1|exact H2|exact H3|exact H4|reflexivity| |by intros []].
  intros e He. destruct (H6 e He) as [Hm []]. split; [exact Hm|]. by split.
Qed.

Lemma deduplicate_ok env audits l seen :
  Forall2 (attempt_ok env) audits l →
  ∃ l', deduplicate seen l = Ok l' ∧ Forall2 dedup_rel l l'.
Proof.
  intros H. revert seen. induction H as [|audit a audits l Ha _ IH]; intros seen; cbn.
  { eexists. split; [done|constructor]. }
  assert (∀ seen a', dedup_rel a a' →
    ∃ l', (r ← deduplicate seen l; Ok (a' :: r)) = Ok l' ∧ Forall2 dedup_rel (a :: l) l')
    as Hstep.
  { intros s a' Ha'. destruct (IH s) as (l' & -> & Hl'). cbn. eauto. }
  destruct (at_raw_sha256 a) as [raw|]; [|apply Hstep; by left].
  destruct (at_evidence a) as [e|] eqn:He; [|apply Hstep; by left].
  destruct (dict_get _ _) as [first|]; [|apply Hstep; by left].
  case_bool_decide; [apply Hstep; by left|].
  rewrite (reject_duplicate_ok _ _ _ Ha). cbn. apply Hstep. by right.
Qed.

Lemma dedup_sequences l l' : Forall2 dedup_rel l l' → sequences_of l' = sequences_of l.
Proof.
  unfold sequences_of. induction 1 as [|a a' l l' Ha _ IH]; cbn; [done|].
  rewrite IH. f_equal. by destruct Ha as [->| ->].
Qed.

Lemma dedup_ids l l' : Forall2 dedup_rel l l' → decision_ids l' = decision_ids l.
Proof.
  unfold decision_ids. induction 1 as [|a a' l l' Ha _ IH]; cbn; [done|].
  rewrite IH. f_equal. by destruct Ha as [->| ->].
Qed.

Lemma dedup_attempts_ok env audits l l' :
  Forall2 (attempt_ok env) audits l → Forall2 dedup_rel l l' →
  Forall2 (attempt_ok env) audits l'.
Proof.
  intros H Hd. revert audits H. induction Hd as [|a a' l l' Ha _ IH]; intros audits H.
  - by inversion H.
  - inversion H; subst. constructor; [by eapply dedup_rel_ok|by apply IH].
Qed.

(** ** The recheck *)

Lemma attempts_sequences env audits l :
  Forall2 (attempt_ok env) audits l → sequences_of l = map ar_sequence audits.
Proof.
  unfold sequences_of. induction 1 as [|audit a audits l Ha _ IH]; cbn; [done|].
  rewrite IH. f_equal. apply (ak_sequence _ _ _ Ha).
Qed.

Lemma attempts_zip env audits l (f : EvidenceAttempt * ControllerAuditRecord → bool) :
  Forall2 (attempt_ok env) audits l →
  (∀ a audit, attempt_ok env audit a → f (a, audit) = false) →
  existsb f (zip l audits) = false.
Proof.
  intros H Hf. induction H as [|audit a audits l Ha _ IH]; cbn; [done|].
  rewrite IH, orb_false_r. by apply Hf.
Qed.

Lemma recheck_ok env audits l :
  Forall2 (attempt_ok env) audits l →
  map ar_sequence audits = one_to (length audits) →
  NoDup (decision_ids l) →
  recheck_attempts env l audits = deduplicate_attempts l.
Proof.
  intros H Hseq Hids. pose proof (attempts_sequences _ _ _ H) as Hs.
  pose proof (Forall2_length _ _ _ H) as Hlen.
  unfold recheck_attempts.
  rewrite (attempt_sort_id l), (audit_sort_id audits) by congruence.
  rewrite (proj2 (existsb_false_iff _ l)).
  2:{ intros a (audit & _ & Ha)%(Forall2_elem_r _ _ _ _ H).
      rewrite bool_decide_eq_true_2; [done|]. apply (ak_envelope _ _ _ Ha). }
  cbn [reject_if mbind result_bind].
  rewrite (proj2 (has_dup_false (sequences_of l))).
  2:{ rewrite Hs, Hseq. apply NoDup_one_to. }
  cbn [reject_if mbind result_bind].
  rewrite (proj2 (has_dup_false (decision_ids l))) by done.
  cbn [reject_if mbind result_bind].
  rewrite Hs. rewrite (bool_decide_eq_true_2 (map ar_sequence audits = one_to _))
    by (rewrite length_map; done).
  rewrite bool_decide_eq_true_2 by done. cbn [negb reject_if mbind result_bind].
  rewrite (attempts_zip env); [done|done|]. cbn. intros a audit Ha.
  rewrite bool_decide_eq_true_2; [done|]. apply (ak_audit _ _ _ Ha).
Qed.

(** Attempts with one identifier are refused, and for that. *)
Lemma recheck_collides env audits l :
  Forall2 (attempt_ok env) audits l →
  map ar_sequence audits = one_to (length audits) →
  ¬ NoDup (decision_ids l) →
  recheck_attempts env l audits
    = Raise (ValueError "evidence attempt identifiers must be unique").
Proof.
  intros H Hseq Hids. pose proof (attempts_sequences _ _ _ H) as Hs.
  pose proof (Forall2_length _ _ _ H) as Hlen.
  unfold recheck_attempts. rewrite (attempt_sort_id l) by congruence.
  rewrite (proj2 (existsb_false_iff _ l)).
  2:{ intros a (audit & _ & Ha)%(Forall2_elem_r _ _ _ _ H).
      rewrite bool_decide_eq_true_2; [done|]. apply (ak_envelope _ _ _ Ha). }
  cbn [reject_if mbind result_bind].
  rewrite (proj2 (has_dup_false (sequences_of l))).
  2:{ rewrite Hs, Hseq. apply NoDup_one_to. }
  cbn [reject_if mbind result_bind].
  destruct (has_dup (decision_ids l)) eqn:Hd; [done|]. by apply has_dup_false in Hd.
Qed.

(** ** Admitted attempts *)

Definition admitted_pair (a : EvidenceAttempt)
  : option (EvidenceAttempt * NormalizedEvidence) :=
  match at_evidence a with
  | Some e => if is_admitted a then Some (a, e) else None
  | None => None
  end.

Definition admitted_pairs : list EvidenceAttempt →
  list (EvidenceAttempt * NormalizedEvidence) := omap admitted_pair.

Lemma admitted_pairs_elem l a e :
  (a, e) ∈ admitted_pairs l ↔
  a ∈ l ∧ at_evidence a = Some e ∧ ed_disposition (at_decision a) = ADMITTED.
Proof.
  unfold admitted_pairs, admitted_pair, is_admitted. rewrite list_elem_of_omap. split.
  - intros (b & Hb & Hp). destruct (at_evidence b) eqn:He; [|done].
    case_bool_decide; [|done]. by simplify_eq.
  - intros (Ha & He & Hd). exists a. rewrite He, bool_decide_eq_true_2 by done. done.
Qed.

(** A completed probe names an enabled capability. *)
Definition audit_enabled (env : ExecutionEnvelope) (audit : ControllerAuditRecord) : Prop :=
  ∀ name version, ar_outcome audit = Probe_COMPLETED →
    ar_capability_name audit = Some name → ar_capability_version audit = Some version →
    (name, version) ∈ enabled_identities env.

Lemma verdict_admitted v r :
  verdict_decision v = (ADMITTED, r) → verdict_authority v = TARGET_STATE.
Proof. by destruct v. Qed.

(** Admitted evidence, taken apart. *)
Lemma admitted_inv env audit a e :
  attempt_ok env audit a → at_evidence a = Some e →
  ed_disposition (at_decision a) = ADMITTED →
  ne_authority e = TARGET_STATE ∧
  ar_target_sha256 audit = canonical_sha256 (en_target env) ∧
  (∃ request, evidence_admissible env request e) ∧
  ed_reason (at_decision a) = expected_admitted_reason (ne_operation_status e).
Proof.
  intros H He Hd. destruct (ak_retained _ _ _ H) as
    (e' & v & request & He' & Hv & Hauth & Hst & Ht & Hadm); [by rewrite Hd|].
  assert (e' = e) as -> by congruence.
  rewrite Hd in Hv. pose proof (verdict_admitted v _ (eq_sym Hv)) as Hva.
  split_and!; [congruence|done|eauto|].
  destruct v; cbn in Hv, Hst; simplify_eq; try done;
    repeat match goal with Hx : _ ∨ _ |- _ => destruct Hx end;
    match goal with Hx : ne_operation_status _ = _ |- _ => by rewrite Hx end.
Qed.

Lemma weak_inv env audit a e :
  attempt_ok env audit a → at_evidence a = Some e →
  ed_disposition (at_decision a) = WEAK →
  ne_authority e ≠ TARGET_STATE ∧
  ar_target_sha256 audit = canonical_sha256 (en_target env) ∧
  (∃ request, evidence_admissible env request e) ∧
  expected_weak_reason (ne_authority e) = Some (ed_reason (at_decision a)).
Proof.
  intros H He Hd. destruct (ak_retained _ _ _ H) as
    (e' & v & request & He' & Hv & Hauth & Hst & Ht & Hadm); [by rewrite Hd|].
  assert (e' = e) as -> by congruence.
  rewrite Hd in Hv. rewrite Hauth. split_and!; [|done|eauto|];
    destruct v; cbn in Hv; try discriminate Hv; injection Hv as Hv; rewrite ?Hv; done.
Qed.

Lemma not_escaped env audit a e :
  attempt_ok env audit a → audit_enabled env audit → at_evidence a = Some e →
  ed_disposition (at_decision a) = ADMITTED → admission_escaped env e = false.
Proof.
  intros H Hen He Hd. destruct (admitted_inv _ _ _ _ H He Hd) as (Ha & _ & (rq & Hadm) & _).
  destruct (ak_evidence _ _ _ H e He) as [_ Hb].
  unfold admission_escaped.
  rewrite (bool_decide_eq_true_2 _ Ha), (bool_decide_eq_true_2 _ (adm_target _ _ _ Hadm)),
    (bool_decide_eq_true_2 _ (adm_policy _ _ _ Hadm)).
  rewrite (proj2 (inb_true _ _)).
  2:{ apply Hen; apply Hb. }
  cbn. apply existsb_false_iff. intros [k v] Hin. unfold correlation_differs. cbn.
  by rewrite (adm_correlation _ _ _ Hadm k v Hin), bool_decide_eq_true_2.
Qed.

Lemma admitted_attempts_pairs env l pairs :
  admitted_attempts env l = Ok pairs → pairs = admitted_pairs l.
Proof.
  revert pairs. induction l as [|a l IH]; intros pairs; cbn; [by intros [= <-]|].
  change (omap admitted_pair l) with (admitted_pairs l).
  unfold admitted_pair at 1. destruct (at_evidence a) as [e|]; [|apply IH].
  destruct (is_admitted a); [|apply IH]. intros H. inv_ok. subst. f_equal. by apply IH.
Qed.

Lemma admitted_attempts_ok env audits l :
  Forall2 (attempt_ok env) audits l → Forall (audit_enabled env) audits →
  admitted_attempts env l = Ok (admitted_pairs l).
Proof.
  induction 1 as [|audit a audits l Ha _ IH]; intros Hen; cbn; [done|].
  apply Forall_cons in Hen as [He Hen]. specialize (IH Hen).
  change (omap admitted_pair l) with (admitted_pairs l).
  unfold admitted_pair at 1. destruct (at_evidence a) as [e|] eqn:Hev; [|done].
  unfold is_admitted. case_bool_decide as Hd; [|done].
  rewrite (not_escaped _ _ _ _ Ha He Hev Hd). cbn. by rewrite IH.
Qed.

End facts.
