(* ===== verification/CoreFacts.v ===== *)
(** Lemmas about effect findings, and the classifier on the pipeline's output: under the promises of
    [attempt_ok], [core_evaluation] raises nothing, and its result is
    [core_result]. *)

From S2P Require Export ClassificationFacts.

#[local] Open Scope Z_scope.

Lemma filter_key_le_1 {A K} `{EqDecision K} (f : A → K) (k : K) (l : list A) :
  NoDup (map f l) → (length (filter (λ a, f a = k) l) ≤ 1)%nat.
Proof.
  induction l as [|a l IH]; cbn [map]; intros H; [cbn; lia|].
  apply NoDup_cons in H as [Hn H]. rewrite filter_cons.
  case_decide as Hk; [|by apply IH].
  assert (filter (λ a, f a = k) l = []) as ->; [|cbn; lia].
  destruct (filter _ l) as [|b r] eqn:Hf; [done|].
  assert (b ∈ filter (λ a, f a = k) l) as Hb by (rewrite Hf; left).
  apply list_elem_of_filter in Hb as [Hb Hin]. destruct Hn.
  apply list_elem_of_fmap. exists b. split; [congruence|done].
Qed.

(** ** Assertions of one effect *)

Lemma assertions_for_elem x adm s i :
  (s, i) ∈ assertions_for x adm ↔
  ∃ e a, e ∈ adm ∧ a ∈ ne_effect_assertions e ∧ ea_effect_id a = x ∧
    ea_state a = s ∧ ne_evidence_id e = i.
Proof.
  unfold assertions_for. rewrite <-(flat_map_concat_map _ adm).
  rewrite list_elem_of_In, in_flat_map. setoid_rewrite <-list_elem_of_In. split.
  - intros (e & He & Ha). apply list_elem_of_fmap in Ha as (a & [= -> ->] & Ha).
    apply list_elem_of_filter in Ha as [Hx Ha]. eauto 10.
  - intros (e & a & He & Ha & Hx & <- & <-). exists e. split; [done|].
    apply list_elem_of_fmap. exists a. split; [done|]. by apply list_elem_of_filter.
Qed.

Lemma assertions_for_cons x e adm :
  assertions_for x (e :: adm) =
    map (λ a, (ea_state a, ne_evidence_id e))
      (filter (λ a, ea_effect_id a = x) (ne_effect_assertions e))
    ++ assertions_for x adm.
Proof. done. Qed.

Definition distinct_assertions (e : NormalizedEvidence) : Prop :=
  NoDup (effect_ids (ne_effect_assertions e)).

(** Each evidence item asserts an effect at most once. *)
Lemma assertions_for_nodup x adm :
  NoDup (map ne_evidence_id adm) → Forall distinct_assertions adm →
  NoDup (assertions_for x adm).*2.
Proof.
  induction adm as [|e adm IH]; [intros; constructor|].
  intros [Hn Hnd]%NoDup_cons [He Hall]%Forall_cons.
  rewrite assertions_for_cons, fmap_app. apply NoDup_app. split_and!.
  - pose proof (filter_key_le_1 ea_effect_id x _ He) as Hlen.
    destruct (filter _ _) as [|a [|b r]]; cbn in *; [constructor|apply NoDup_singleton|lia].
  - intros i Hi Hin. destruct Hn.
    apply list_elem_of_fmap in Hi as ([s j] & -> & Hi).
    apply list_elem_of_fmap in Hi as (a & [= -> ->] & _). cbn in Hin.
    apply list_elem_of_fmap in Hin as ([s j] & Hj & Hin). cbn in Hj. subst j.
    apply assertions_for_elem in Hin as (e' & _ & He' & _ & _ & _ & Hid).
    apply list_elem_of_fmap. eauto.
  - by apply IH.
Qed.

(** ** The definitive assertions *)

Lemma definitive_elem v values : v ∈ definitive values ↔ v ∈ values ∧ v.1 ≠ UNVERIFIED.
Proof. unfold definitive. rewrite list_elem_of_filter. tauto. Qed.

Lemma definitive_states_elem s values :
  s ∈ (definitive values).*1 ↔ s ∈ values.*1 ∧ s ≠ UNVERIFIED.
Proof.
  rewrite !list_elem_of_fmap. setoid_rewrite definitive_elem. split.
  - intros (v & -> & Hv & Hn). eauto.
  - intros [(v & -> & Hv) Hn]. eauto.
Qed.

Lemma inb_definitive s values :
  s ≠ UNVERIFIED → inb s (definitive values).*1 = inb s values.*1.
Proof.
  intros Hs. apply eq_true_iff_eq. rewrite !inb_true, definitive_states_elem. tauto.
Qed.

Lemma contradictory_definitive values :
  contradictory (definitive values).*1 = contradictory values.*1.
Proof. unfold contradictory. by rewrite !inb_definitive. Qed.

Lemma finding_state_definitive values :
  finding_state (definitive values).*1 = finding_state values.*1.
Proof. unfold finding_state. by rewrite contradictory_definitive, !inb_definitive. Qed.

Lemma definitive_nodup values : NoDup values.*2 → NoDup (definitive values).*2.
Proof.
  intros Hn. eapply sublist_NoDup; [exact Hn|]. apply fmap_sublist. unfold definitive. clear Hn.
  induction values as [|v values IH]; [constructor|].
  rewrite filter_cons. case_decide; by constructor.
Qed.

Lemma contradictory_perm l k : l ≡ₚ k → contradictory l = contradictory k.
Proof.
  intros Hlk. unfold contradictory, inb.
  f_equal; apply bool_decide_ext; by rewrite Hlk.
Qed.

(** A state that is not [UNVERIFIED] is asserted, and every definitive
    assertion agrees with it. *)
Lemma finding_state_spec states s :
  finding_state states = s →
  match s with
  | UNVERIFIED => (contradictory states = true) ∨
      ((ESTABLISHED ∉ states) ∧ (NOT_ESTABLISHED ∉ states))
  | ESTABLISHED => ESTABLISHED ∈ states ∧ NOT_ESTABLISHED ∉ states
  | NOT_ESTABLISHED => NOT_ESTABLISHED ∈ states ∧ ESTABLISHED ∉ states
  end.
Proof.
  unfold finding_state, contradictory. intros <-.
  destruct (inb ESTABLISHED states) eqn:He, (inb NOT_ESTABLISHED states) eqn:Hn; cbn;
    rewrite ?inb_true, ?inb_false in *; auto.
Qed.

Section facts.
Context {rt : Runtime} {sec : Security} {od : ObservationDecoder}.
Context (adm : list NormalizedEvidence).
Context (Hids : NoDup (map ne_evidence_id adm)).
Context (Hdistinct : Forall distinct_assertions adm).

Lemma finding_citations x :
  ef_evidence_ids (finding_of adm x)
    = sorted_strings (definitive (assertions_for (ee_effect_id x) adm)).*2.
Proof.
  cbn. apply sorted_strings_ext, remove_dups_nodup_perm, definitive_nodup.
  by apply assertions_for_nodup.
Qed.

Lemma finding_cited_elem x i :
  i ∈ ef_evidence_ids (finding_of adm x) ↔
  ∃ s, (s, i) ∈ assertions_for (ee_effect_id x) adm ∧ s ≠ UNVERIFIED.
Proof.
  rewrite finding_citations, sorted_strings_perm, list_elem_of_fmap. split.
  - intros ([s j] & -> & [Hv Hs]%definitive_elem). eauto.
  - intros (s & Hv & Hs). exists (s, i). split; [done|]. by apply definitive_elem.
Qed.

Lemma finding_cited_admitted x i :
  i ∈ ef_evidence_ids (finding_of adm x) → i ∈ map ne_evidence_id adm.
Proof.
  intros (s & Hv & _)%finding_cited_elem.
  apply assertions_for_elem in Hv as (e & a & He & _ & _ & _ & <-).
  apply list_elem_of_fmap. eauto.
Qed.

Lemma finding_citations_nodup x : NoDup (ef_evidence_ids (finding_of adm x)).
Proof.
  rewrite finding_citations, sorted_strings_perm. apply definitive_nodup.
  by apply assertions_for_nodup.
Qed.

Lemma finding_valid x :
  (length adm ≤ 64)%nat → model_validate_finding (finding_of adm x) = Ok (finding_of adm x).
Proof.
  intros Hlen. unfold model_validate_finding, validate_evidence_identity.
  rewrite (proj2 (has_dup_false _)) by apply finding_citations_nodup.
  assert (length (ef_evidence_ids (finding_of adm x)) ≤ length (map ne_evidence_id adm))%nat
    as Hle.
  { apply submseteq_length, NoDup_submseteq; [apply finding_citations_nodup|].
    intros i. apply finding_cited_admitted. }
  rewrite length_map in Hle.
  rewrite (proj2 (Nat.ltb_ge _ _)) by lia. done.
Qed.

(** The state one cited item asserts. *)
Lemma asserted_state_ok e a :
  e ∈ adm → a ∈ ne_effect_assertions e →
  asserted_state (ea_effect_id a) e = Some (ea_state a).
Proof.
  intros He Ha. unfold asserted_state. apply dict_get_nodup.
  - unfold dict_keys. rewrite <-list_fmap_compose.
    rewrite Forall_forall in Hdistinct. by apply Hdistinct.
  - apply list_elem_of_fmap. eauto.
Qed.

End facts.

Lemma omap_map_sublist {A B C} (f : A → option B) (g : A → C) (h : B → C) l :
  (∀ a b, a ∈ l → f a = Some b → h b = g a) →
  sublist (map h (omap f l)) (map g l).
Proof.
  induction l as [|a l IH]; intros H; [constructor|]. cbn.
  assert (sublist (map h (omap f l)) (map g l)) as Hs.
  { apply IH. intros b c Hb. apply H. by right. }
  destruct (f a) as [b|] eqn:Hf; cbn.
  - rewrite (H a b) by (done || left). by constructor.
  - by constructor.
Qed.

Section core.
Context {rt : Runtime} {sec : Security} {od : ObservationDecoder}.
Context (env : ExecutionEnvelope) (audits : list ControllerAuditRecord)
  (l : list EvidenceAttempt).
Context (Henv : validate_ExecutionEnvelope env = Ok tt).
Context (Hok : Forall2 (attempt_ok env) audits l).
Context (Hen : Forall (audit_enabled env) audits).
Context (Hids : NoDup (decision_ids l)).
Context (Hlen : (length l ≤ 64)%nat).

Definition admitted_evidence : list NormalizedEvidence := (admitted_pairs l).*2.
Definition admitted_ids : list string := decision_ids (admitted_pairs l).*1.

Lemma attempt_of a : a ∈ l → ∃ audit, audit ∈ audits ∧ attempt_ok env audit a.
Proof. by apply Forall2_elem_r. Qed.

Lemma admitted_ids_eq : map ne_evidence_id admitted_evidence = admitted_ids.
Proof.
  unfold admitted_evidence, admitted_ids, decision_ids.
  change (map ne_evidence_id) with (fmap (M:=list) ne_evidence_id).
  rewrite <-!list_fmap_compose.
  apply list_fmap_ext. intros i [a e] Hi. cbn.
  apply list_elem_of_lookup_2, admitted_pairs_elem in Hi as (Ha & He & _).
  destruct (attempt_of a Ha) as (audit & _ & H).
  apply (bnd_id _ _ _ (proj2 (ak_evidence _ _ _ H e He))).
Qed.

Lemma admitted_ids_sublist : sublist admitted_ids (decision_ids l).
Proof.
  unfold admitted_ids, admitted_pairs, decision_ids.
  change (map ?f (?g <$> ?x)) with (f <$> (g <$> x)). rewrite <-list_fmap_compose.
  apply omap_map_sublist. intros a [b e] Ha. unfold admitted_pair.
  destruct (at_evidence a); [|done]. destruct (is_admitted a); [|done]. naive_solver.
Qed.

Lemma admitted_ids_nodup : NoDup admitted_ids.
Proof. eapply sublist_NoDup; [exact Hids|]. apply admitted_ids_sublist. Qed.

Lemma admitted_length : (length admitted_evidence ≤ 64)%nat.
Proof.
  rewrite <-(length_map ne_evidence_id), admitted_ids_eq.
  pose proof (sublist_length _ _ admitted_ids_sublist) as H.
  unfold decision_ids in H. rewrite length_map in H. lia.
Qed.

Lemma admitted_elem e :
  e ∈ admitted_evidence →
  ∃ a audit, a ∈ l ∧ audit ∈ audits ∧ attempt_ok env audit a ∧ at_evidence a = Some e ∧
    ed_disposition (at_decision a) = ADMITTED.
Proof.
  intros ([a e'] & -> & Hin)%list_elem_of_fmap. cbn.
  apply admitted_pairs_elem in Hin as (Ha & He & Hd).
  destruct (attempt_of a Ha) as (audit & Haud & H). eauto 10.
Qed.

Lemma evidence_semantics_of audit a e :
  attempt_ok env audit a → at_evidence a = Some e → validate_evidence_semantics e = Ok tt.
Proof. intros H He. apply (bnd_valid _ _ _ (proj2 (ak_evidence _ _ _ H e He))). Qed.

Lemma admitted_distinct : Forall distinct_assertions admitted_evidence.
Proof.
  apply Forall_forall. intros e (a & audit & _ & _ & H & He & _)%admitted_elem.
  by apply (evidence_semantics e), (evidence_semantics_of audit a).
Qed.

Lemma admitted_nodup : NoDup (map ne_evidence_id admitted_evidence).
Proof. rewrite admitted_ids_eq. apply admitted_ids_nodup. Qed.

(** ** The result *)

Definition core_findings : list EffectFinding :=
  map (finding_of admitted_evidence) (en_expected_effects env).

Definition core_conflict : bool :=
  (core_classification (en_expected_effects env) admitted_evidence).1.1.
Definition core_status : option OperationStatus :=
  (core_classification (en_expected_effects env) admitted_evidence).1.2.
Definition core_class : Classification :=
  (core_classification (en_expected_effects env) admitted_evidence).2.

Definition core_proof : DeterministicProof :=
  {| dp_effect_findings := core_findings;
     dp_operation_status := core_status;
     dp_conflicting_authority := core_conflict;
     dp_admitted_evidence_ids := admitted_ids |}.

Definition core_missing : list MissingEvidence :=
  if inb core_class [COMMITTED; NOT_COMMITTED] then []
  else [{| me_effect_ids := unresolved_effects core_findings;
           me_reason := missing_reason core_conflict core_class (map at_decision l) |}].

Definition core_result : CoreEvaluation :=
  {| ce_envelope_sha256 := canonical_sha256 env;
     ce_attempts := l;
     ce_evidence := omap at_evidence l;
     ce_decisions := map at_decision l;
     ce_proof := core_proof;
     ce_classification := core_class;
     ce_action_gates := map (gate_of core_class
       (pr_classification (policies (en_context env)))
       (pr_action (policies (en_context env)))) (gate_definitions core_class);
     ce_missing_evidence := core_missing |}.

Lemma core_finding_ids : finding_ids core_findings = expected_effect_ids env.
Proof.
  unfold finding_ids, core_findings, expected_effect_ids.
  change (map ?f (map ?g ?x)) with (f <$> (g <$> x)). by rewrite <-list_fmap_compose.
Qed.

Lemma core_proof_valid : model_validate_proof core_proof = Ok core_proof.
Proof.
  destruct (valid_envelope env Henv) as (Heff & Hn & _).
  unfold model_validate_proof, validate_findings. cbn [dp_effect_findings
    dp_admitted_evidence_ids core_proof].
  rewrite core_finding_ids, !(proj2 (has_dup_false _)) by auto using admitted_ids_nodup.
  unfold core_findings at 1. rewrite length_map.
  rewrite (proj2 (in_range_true _ _ _)) by lia.
  pose proof admitted_length as Ha.
  rewrite <-(length_map ne_evidence_id), admitted_ids_eq in Ha.
  rewrite (proj2 (Nat.ltb_ge _ _)) by lia. done.
Qed.

Lemma core_missing_valid :
  missing_evidence core_conflict core_class core_findings (map at_decision l)
    = Ok core_missing.
Proof.
  unfold missing_evidence, core_missing. destruct (inb _ _); [done|].
  destruct (valid_envelope env Henv) as (Heff & Hn & _).
  unfold model_validate_missing, validate_missing_effects. cbn [me_effect_ids].
  assert (sublist (unresolved_effects core_findings) (expected_effect_ids env)) as Hs.
  { rewrite <-core_finding_ids. unfold unresolved_effects, finding_ids.
    apply fmap_sublist. generalize core_findings as k.
    induction k as [|f k IH]; [constructor|]. rewrite filter_cons.
    case_decide; by constructor. }
  rewrite (proj2 (has_dup_false _)) by by eapply sublist_NoDup.
  pose proof (sublist_length _ _ Hs) as Hl.
  unfold expected_effect_ids in Hl. rewrite length_map in Hl.
  rewrite (proj2 (Nat.ltb_ge _ _)) by lia. done.
Qed.

Lemma core_evaluation_ok : core_evaluation env l = Ok core_result.
Proof.
  unfold core_evaluation.
  rewrite (admitted_attempts_ok env audits) by done. cbn [mbind result_bind].
  change ((admitted_pairs l).*2) with admitted_evidence.
  rewrite (mapM_ok_map _ (finding_of admitted_evidence)).
  2:{ intros x _. apply finding_valid;
        [apply admitted_nodup|apply admitted_distinct|apply admitted_length]. }
  cbn [mbind result_bind]. fold core_findings.
  destruct (core_classification _ _) as [[conflicting status] c] eqn:Hc.
  assert (core_conflict = conflicting) as <- by (unfold core_conflict; by rewrite Hc).
  assert (core_status = status) as <- by (unfold core_status; by rewrite Hc).
  assert (core_class = c) as <- by (unfold core_class; by rewrite Hc).
  fold admitted_ids. fold core_proof.
  rewrite core_proof_valid. cbn [mbind result_bind].
  rewrite core_missing_valid. cbn [mbind result_bind].
  by rewrite action_gates_ok.
Qed.

End core.
