(* ===== verification/ReportRefinement.v ===== *)
(** The report of a deterministic evaluation passes the report contract.

    [InvestigationReport.validate_references] recomputes the proof, the
    classification and the missing evidence from the report alone.  Each phase
    of that validator is shown to accept what [build_report] assembles from
    the classifier's result, so that the two independent computations agree.  The times
    and the revision of a report are checked by themselves, so a report made at some
    time tells what becomes of it at any other. *)

From S2P Require Export CoreFacts.

#[local] Open Scope Z_scope.

Lemma mapM_ok_ext {E A B} (f : A → result E B) l k :
  Forall2 (λ x y, f x = Ok y) l k → mapM f l = Ok k.
Proof.
  induction 1 as [|x y l k Hx _ IH]; [done|]. cbn. rewrite Hx. cbn. by rewrite IH.
Qed.

Lemma Forall2_map_self {A B} (P : B → A → Prop) (f : A → B) l :
  (∀ x, x ∈ l → P (f x) x) → Forall2 P (map f l) l.
Proof.
  induction l as [|x l IH]; intros H; constructor; [apply H; left|].
  apply IH. intros y Hy. apply H. by right.
Qed.

Section report.
Context {rt : Runtime} {sec : Security} {od : ObservationDecoder}.
Context (env : ExecutionEnvelope) (audits : list ControllerAuditRecord)
  (l : list EvidenceAttempt).
Context (Henv : validate_ExecutionEnvelope env = Ok tt).
Context (Hok : Forall2 (attempt_ok env) audits l).
Context (Hen : Forall (audit_enabled env) audits).
Context (Haud : Forall (λ a, model_validate_audit a = Ok a) audits).
Context (Hcap : Forall (λ a, is_none (ar_capability_name a)
                             = is_none (ar_capability_version a)) audits).
Context (Hseq : map ar_sequence audits = one_to (length audits)).
Context (Hids : NoDup (decision_ids l)).
Context (Hlen : (length l ≤ 64)%nat).
Context (created updated : datetime) (Htime : created ≤ updated).
Context (rev : Z) (Hrev : in_range 0 rev int64_max = true).
Context (advisory adv : option AdvisoryExplanation).
Context (Hadv : report_advisory (map at_decision l) advisory = Ok adv).

Definition core_report : InvestigationReport :=
  {| ir_investigation_id := en_investigation_id env;
     ir_envelope_sha256 := canonical_sha256 env;
     ir_status := Report_COMPLETED;
     ir_probe_audit := map (report_audit l) audits;
     ir_evidence := omap at_evidence l;
     ir_evidence_decisions := map at_decision l;
     ir_proof := Some (core_proof env l);
     ir_classification := Some (core_class env l);
     ir_action_gate := ce_action_gates (core_result env l);
     ir_missing_evidence := core_missing env l;
     ir_limitations := ["No mutation was retried or compensated."];
     ir_advisory_explanation := adv;
     ir_created_at := created;
     ir_updated_at := updated;
     ir_revision := rev |}.

Lemma audits_length : length audits = length l.
Proof. apply (Forall2_length _ _ _ Hok). Qed.

Lemma sequences_nodup : NoDup (sequences_of l).
Proof. rewrite (attempts_sequences env audits l Hok), Hseq. apply NoDup_one_to. Qed.

(** ** The dictionaries of the validator *)

Lemma ids_at a : a ∈ l → evidence_ids_at l (at_probe_sequence a) = [ed_evidence_id (at_decision a)].
Proof.
  intros Ha. unfold evidence_ids_at.
  pose proof (filter_key_le_1 at_probe_sequence (at_probe_sequence a) l sequences_nodup)
    as Hl.
  assert (a ∈ filter (λ b, at_probe_sequence b = at_probe_sequence a) l) as Hin
    by (by apply list_elem_of_filter).
  destruct (filter _ l) as [|b [|c r]]; cbn in Hl; [by apply not_elem_of_nil in Hin| |lia].
  apply list_elem_of_singleton in Hin as ->. done.
Qed.

Definition source_entry (a : EvidenceAttempt) (r : ControllerAuditRecord)
  : string * ProbeAuditRecord := (ed_evidence_id (at_decision a), report_audit l r).

Lemma audit_sources : audit_by_evidence_id core_report = zip_with source_entry l audits.
Proof.
  unfold audit_by_evidence_id. cbn [ir_probe_audit core_report].
  assert (∀ k, k ⊆ l → ∀ rs, Forall2 (attempt_ok env) rs k →
    concat (map (λ r, map (λ i, (i, r)) (pa_evidence_ids r)) (map (report_audit l) rs))
    = zip_with source_entry k rs) as H; [|by apply H].
  intros k Hk rs Hrs. induction Hrs as [|r a rs k Ha _ IH]; [done|].
  cbn [map concat zip_with]. rewrite IH by set_solver.
  cbn [pa_evidence_ids report_audit].
  rewrite <-(ak_sequence _ _ _ Ha), ids_at by set_solver. done.
Qed.

Lemma source_keys : dict_keys (audit_by_evidence_id core_report) = decision_ids l.
Proof.
  rewrite audit_sources. unfold dict_keys, decision_ids.
  pose proof audits_length as Hl. clear -Hl. revert audits Hl.
  induction l as [|a k IH]; intros [|r rs] Hl; try done.
  cbn. f_equal. apply IH. by injection Hl.
Qed.

Lemma decision_keys : dict_keys (decision_by_id core_report) = decision_ids l.
Proof.
  unfold dict_keys, decision_by_id, decision_ids. cbn [ir_evidence_decisions core_report].
  change (map ?f (map ?g ?x)) with (f <$> (g <$> x)). rewrite <-!list_fmap_compose. done.
Qed.

Lemma evidence_keys :
  dict_keys (evidence_by_id core_report) = map ne_evidence_id (omap at_evidence l).
Proof.
  unfold dict_keys, evidence_by_id. cbn [ir_evidence core_report].
  change (map ?f ?x) with (f <$> x). rewrite <-!list_fmap_compose. done.
Qed.

Lemma evidence_keys_sublist :
  sublist (map ne_evidence_id (omap at_evidence l)) (decision_ids l).
Proof.
  apply omap_map_sublist. intros a e Ha He.
  destruct (Forall2_elem_r _ _ _ _ Hok Ha) as (r & _ & H).
  apply (bnd_id _ _ _ (proj2 (ak_evidence _ _ _ H e He))).
Qed.

Lemma evidence_keys_nodup : NoDup (map ne_evidence_id (omap at_evidence l)).
Proof. eapply sublist_NoDup; [exact Hids|apply evidence_keys_sublist]. Qed.

Lemma get_decision a :
  a ∈ l → dict_get (ed_evidence_id (at_decision a)) (decision_by_id core_report)
    = Some (at_decision a).
Proof.
  intros Ha. apply dict_get_nodup; [by rewrite decision_keys|].
  unfold decision_by_id. cbn. change (map ?f (map ?g ?x)) with (f <$> (g <$> x)).
  rewrite <-list_fmap_compose. apply list_elem_of_fmap. by exists a.
Qed.

Lemma get_evidence a e :
  a ∈ l → at_evidence a = Some e →
  dict_get (ed_evidence_id (at_decision a)) (evidence_by_id core_report) = Some e.
Proof.
  intros Ha He. apply dict_get_nodup; [rewrite evidence_keys; apply evidence_keys_nodup|].
  destruct (Forall2_elem_r _ _ _ _ Hok Ha) as (r & _ & H).
  rewrite <-(bnd_id _ _ _ (proj2 (ak_evidence _ _ _ H e He))).
  unfold evidence_by_id. cbn. apply list_elem_of_fmap. exists e. split; [done|].
  apply list_elem_of_omap. eauto.
Qed.

Lemma get_no_evidence a :
  a ∈ l → at_evidence a = None →
  dict_get (ed_evidence_id (at_decision a)) (evidence_by_id core_report) = None.
Proof.
  intros Ha Hn. destruct (dict_get _ _) as [e|] eqn:He; [|done].
  apply dict_get_elem in He. unfold evidence_by_id in He. cbn in He.
  apply list_elem_of_fmap in He as (e' & [= Hid <-] & Hin).
  apply list_elem_of_omap in Hin as (b & Hb & Hbe).
  destruct (Forall2_elem_r _ _ _ _ Hok Hb) as (r & _ & H).
  rewrite (bnd_id _ _ _ (proj2 (ak_evidence _ _ _ H e Hbe))) in Hid.
  apply list_elem_of_lookup in Ha as [i Hi], Hb as [j Hj].
  assert (i = j) as ->; [|congruence].
  apply (NoDup_lookup (decision_ids l) i j (ed_evidence_id (at_decision a)) Hids);
    unfold decision_ids; rewrite list_lookup_fmap, ?Hi, ?Hj; cbn; congruence.
Qed.

(** Every attempt with the record its identifier leads to. *)
Lemma get_audit a :
  a ∈ l → ∃ r, r ∈ audits ∧ attempt_ok env r a ∧
    dict_get (ed_evidence_id (at_decision a)) (audit_by_evidence_id core_report)
      = Some (report_audit l r).
Proof.
  intros [i Hi]%list_elem_of_lookup.
  destruct (Forall2_lookup_r _ _ _ _ _ Hok Hi) as (r & Hr & H).
  exists r. split; [by eapply list_elem_of_lookup_2|]. split; [done|].
  apply dict_get_nodup; [by rewrite source_keys|]. rewrite audit_sources.
  apply list_elem_of_lookup. exists i.
  rewrite lookup_zip_with, Hi. cbn. by rewrite Hr.
Qed.

Lemma ids_with_elem d i :
  i ∈ ids_with d core_report ↔
  ∃ a, a ∈ l ∧ ed_disposition (at_decision a) = d ∧ ed_evidence_id (at_decision a) = i.
Proof.
  unfold ids_with. cbn. rewrite list_elem_of_fmap.
  setoid_rewrite list_elem_of_filter. setoid_rewrite list_elem_of_fmap. naive_solver.
Qed.

(** ** The phases *)

Lemma bounds_ok : validate_bounds core_report = Ok tt.
Proof.
  unfold validate_bounds. cbn [ir_probe_audit ir_evidence ir_evidence_decisions
    ir_missing_evidence ir_limitations ir_action_gate ir_revision core_report].
  rewrite !length_map, audits_length, Hrev.
  assert (length (omap at_evidence l) ≤ length l)%nat as He.
  { pose proof (sublist_length _ _ evidence_keys_sublist) as H.
    unfold decision_ids in H. rewrite !length_map in H. lia. }
  assert (length (core_missing env l) ≤ 1)%nat as Hm.
  { unfold core_missing. destruct (inb _ _); cbn; lia. }
  rewrite !(proj2 (Nat.ltb_ge 64 _)) by (cbn; lia). reflexivity.
Qed.

Lemma status_ok : validate_status core_report = Ok tt.
Proof.
  unfold validate_status. cbn [ir_updated_at ir_created_at core_report].
  rewrite (proj2 (Z.ltb_ge _ _)) by done. reflexivity.
Qed.

Lemma identifiers_ok : validate_identifiers core_report = Ok tt.
Proof.
  unfold validate_identifiers. rewrite decision_keys, evidence_keys.
  cbn [ir_probe_audit ir_evidence_decisions core_report].
  change (map pa_probe_sequence (map (report_audit l) audits))
    with (pa_probe_sequence <$> (report_audit l <$> audits)).
  rewrite <-list_fmap_compose.
  change ((pa_probe_sequence ∘ report_audit l) <$> audits) with (map ar_sequence audits).
  rewrite length_map, bool_decide_eq_true_2 by done.
  rewrite !(proj2 (has_dup_false _)) by auto using evidence_keys_nodup.
  rewrite (proj2 (subsetb_true _ _)).
  2:{ intros i. apply sublist_subseteq, evidence_keys_sublist. }
  cbn [negb reject_if mbind result_bind]. rewrite (proj2 (existsb_false_iff _ _)); [done|].
  intros d (a & -> & Ha)%list_elem_of_fmap. unfold is_rejected.
  case_bool_decide as Hd; [done|]. cbn. apply negb_false_iff, inb_true.
  destruct (Forall2_elem_r _ _ _ _ Hok Ha) as (r & _ & H).
  destruct (ak_retained _ _ _ H Hd) as (e & _ & _ & He & _).
  apply list_elem_of_fmap. exists e. split.
  - symmetry. apply (bnd_id _ _ _ (proj2 (ak_evidence _ _ _ H e He))).
  - apply list_elem_of_omap. eauto.
Qed.

Lemma audit_sources_ok : validate_audit_sources core_report = Ok tt.
Proof.
  unfold validate_audit_sources. rewrite source_keys, decision_keys.
  rewrite (proj2 (for_each_ok _ _ tt)).
  2:{ apply Forall_forall. intros p (r & -> & Hr)%list_elem_of_fmap.
      destruct (Forall2_elem_l _ _ _ _ Hok Hr) as (a & Ha & H).
      cbn [pa_evidence_ids report_audit].
      rewrite <-(ak_sequence _ _ _ H), ids_at by done.
      rewrite (proj2 (subsetb_true _ _)); [done|].
      intros i ->%list_elem_of_singleton. apply list_elem_of_fmap. eauto. }
  cbn [mbind result_bind].
  rewrite (proj2 (has_dup_false _)) by done.
  rewrite (proj2 (same_set_true _ _)); [done|tauto].
Qed.

Lemma evidence_audit_ok e :
  e ∈ ir_evidence core_report → check_evidence_audit core_report e = Ok tt.
Proof.
  cbn [ir_evidence core_report]. intros (a & Ha & He)%list_elem_of_omap.
  destruct (get_audit a Ha) as (r & Hr & H & Hget).
  destruct (ak_evidence _ _ _ H e He) as [_ Hb].
  unfold check_evidence_audit, dict_item.
  rewrite (bnd_id _ _ _ Hb), Hget, (get_decision a Ha). cbn [mbind result_bind].
  cbn [pa_outcome pa_capability_name pa_capability_version pa_target_sha256
    pa_result_sha256 pa_result_byte_count pa_completed_at report_audit].
  destruct Hb as [_ _ Hc Hn Hv Hs Hct _ Ht].
  rewrite Hc, Hn, Hv, Hs, Hct, Ht, Z.eqb_refl, !bool_decide_refl.
  cbn [negb orb reject_if mbind result_bind].
  unfold is_rejected. case_bool_decide as Hd; [done|].
  destruct (ak_retained _ _ _ H Hd) as (e' & v & rq & He' & _ & _ & _ & Htgt & Hadm).
  assert (e' = e) as -> by congruence.
  rewrite bool_decide_eq_true_2.
  2:{ rewrite Htgt. symmetry. apply canonical_sha256_ext, (adm_target _ _ _ Hadm). }
  cbn [negb andb reject_if mbind result_bind].
  pose proof (adm_fresh _ _ _ Hadm) as Hf. rewrite Ht in Hf.
  by rewrite (proj2 (in_range_true _ _ _) Hf).
Qed.

Lemma authority_ok : check_authority core_report = Ok tt.
Proof.
  unfold check_authority, dict_item.
  rewrite !(proj2 (for_each_ok _ _ tt)); [done| |]; apply Forall_forall;
    intros i (a & Ha & Hd & <-)%ids_with_elem;
    destruct (Forall2_elem_r _ _ _ _ Hok Ha) as (r & _ & H);
    destruct (ak_retained _ _ _ H) as (e & _ & _ & He & _); try (by rewrite Hd);
    rewrite (get_evidence a e Ha He); cbn [mbind result_bind].
  - destruct (admitted_inv _ _ _ _ H He Hd) as (Heq & _).
    by rewrite bool_decide_eq_true_2.
  - destruct (weak_inv _ _ _ _ H He Hd) as (Hne & _).
    by rewrite bool_decide_eq_false_2.
Qed.

Lemma reason_ok d : d ∈ ir_evidence_decisions core_report → check_reason core_report d = Ok tt.
Proof.
  cbn [ir_evidence_decisions core_report]. intros (a & -> & Ha)%list_elem_of_fmap.
  destruct (Forall2_elem_r _ _ _ _ Hok Ha) as (r & _ & H). unfold check_reason.
  destruct (at_evidence a) as [e|] eqn:He.
  - rewrite (get_evidence a e Ha He).
    destruct (ed_disposition (at_decision a)) eqn:Hd; [| |done].
    + destruct (admitted_inv _ _ _ _ H He Hd) as (_ & _ & _ & Hr).
      by rewrite bool_decide_eq_true_2.
    + destruct (weak_inv _ _ _ _ H He Hd) as (_ & _ & _ & Hr).
      by rewrite bool_decide_eq_true_2.
  - by rewrite (get_no_evidence a Ha He).
Qed.

Lemma get_admitted e :
  e ∈ admitted_evidence l →
  dict_get (ne_evidence_id e) (evidence_by_id core_report) = Some e ∧
  canonical_json_bytes (ne_target e) = canonical_json_bytes (en_target env) ∧
  ne_authority_policy_version e = pr_authority (policies (en_context env)) ∧
  effect_ids (ne_effect_assertions e) ⊆ expected_effect_ids env.
Proof.
  intros (a & r & Ha & _ & H & He & Hd)%(admitted_elem env audits l Hok).
  destruct (admitted_inv _ _ _ _ H He Hd) as (_ & _ & (rq & Hadm) & _).
  rewrite (bnd_id _ _ _ (proj2 (ak_evidence _ _ _ H e He))).
  split_and!; [by apply get_evidence|apply Hadm..].
Qed.

(** The lookups of admitted identifiers give the admitted evidence, in order. *)
Lemma lookup_admitted :
  Forall2 (λ i e, dict_item i (evidence_by_id core_report) = Ok e)
    (admitted_ids l) (admitted_evidence l).
Proof.
  rewrite <-(admitted_ids_eq env audits l Hok). apply Forall2_map_self. intros e He. unfold dict_item.
  by rewrite (proj1 (get_admitted e He)).
Qed.

Lemma ids_with_admitted : ids_with ADMITTED core_report = admitted_ids l.
Proof.
  unfold ids_with, admitted_ids, decision_ids, admitted_pairs.
  cbn [ir_evidence_decisions core_report].
  assert (∀ k, k ⊆ l →
    map ed_evidence_id (filter (λ x, ed_disposition x = ADMITTED) (map at_decision k))
    = map (λ a, ed_evidence_id (at_decision a)) (omap admitted_pair k).*1) as Hk;
    [|by apply Hk].
  intros k. induction k as [|a k IH]; intros Hsub; [done|].
  assert (a ∈ l) as Ha by set_solver.
  destruct (Forall2_elem_r _ _ _ _ Hok Ha) as (r & _ & H).
  change (omap admitted_pair (a :: k)) with
    (match admitted_pair a with
     | Some p => p :: omap admitted_pair k | None => omap admitted_pair k end).
  cbn [map]. rewrite filter_cons. unfold admitted_pair at 1, is_admitted.
  case_decide as Hd.
  - destruct (ak_retained _ _ _ H) as (e & _ & _ & He & _); [by rewrite Hd|].
    rewrite He, bool_decide_eq_true_2 by done. cbn. f_equal. apply IH. set_solver.
  - rewrite bool_decide_eq_false_2 by done. rewrite IH by set_solver.
    by destruct (at_evidence a).
Qed.

Lemma admitted_evidence_ok : check_admitted_evidence core_report = Ok tt.
Proof.
  unfold check_admitted_evidence. rewrite ids_with_admitted.
  rewrite (mapM_ok_ext _ _ _ lookup_admitted). cbn [mbind result_bind].
  destruct (admitted_evidence l) as [|first rest] eqn:Hadm; [done|].
  assert (∀ e, e ∈ first :: rest →
    canonical_json_bytes (ne_target e) = canonical_json_bytes (en_target env) ∧
    ne_authority_policy_version e = pr_authority (policies (en_context env))) as Hall.
  { rewrite <-Hadm. intros e He. split; apply (get_admitted e He). }
  destruct (Hall first) as [Ht Hp]; [left|].
  rewrite !(proj2 (existsb_false_iff _ _)); [done| |]; intros e He;
    destruct (Hall e) as [Ht' Hp']; try (by right); rewrite bool_decide_eq_true_2; try done.
  - apply canonical_sha256_ext. congruence.
  - congruence.
Qed.

Lemma advisory_ok : check_advisory core_report = Ok tt.
Proof.
  unfold check_advisory. cbn [ir_advisory_explanation core_report].
  destruct adv as [x|] eqn:Hx; [|done]. unfold report_advisory in Hadv.
  destruct advisory as [x0|]; [|done]. inv_ok.
  destruct (subsetb _ _) eqn:Hs; cbn [negb] in Hadv; [|by inv_ok]. inv_ok. subst.
  unfold model_validate_advisory in *. inv_ok. subst. cbn [ax_cited_evidence_ids] in *.
  rewrite (proj2 (subsetb_true _ _)); [done|].
  apply subsetb_true in Hs. intros i Hi. apply Hs in Hi.
  apply list_elem_of_fmap in Hi as (d & -> & Hd).
  apply list_elem_of_filter in Hd as [Hd Hin].
  apply list_elem_of_fmap in Hin as (a & -> & Ha).
  apply elem_of_app. rewrite !ids_with_elem. naive_solver.
Qed.

Lemma gates_ok : check_gates core_report = Ok tt.
Proof.
  unfold check_gates. cbn [ir_action_gate ir_classification ce_action_gates core_report
    core_result].
  destruct (core_class env l); cbn; by rewrite !bool_decide_refl.
Qed.

(** ** The proof *)

#[local] Abbreviation A := (admitted_evidence l).
#[local] Abbreviation effects := (en_expected_effects env).

Lemma proof_evidence_ok : proof_evidence core_report (core_proof env l) = Ok A.
Proof.
  unfold proof_evidence. cbn [dp_admitted_evidence_ids dp_effect_findings core_proof].
  apply mapM_ok_ext. rewrite core_finding_ids.
  pose proof lookup_admitted as Hl.
  assert (∀ e, e ∈ A → effect_ids (ne_effect_assertions e) ⊆ expected_effect_ids env) as Hsub
    by (intros e He; apply (get_admitted e He)).
  induction Hl as [|i e k es Hi _ IH]; constructor.
  - rewrite Hi. cbn [mbind result_bind]. rewrite (proj2 (subsetb_true _ _)); [done|].
    apply Hsub. left.
  - apply IH. intros e' He'. apply Hsub. by right.
Qed.

(** The states of a finding's citations are its definitive states. *)
Lemma cited_states x :
  ∃ cited, mapM (λ i,
      e ← dict_item i (evidence_by_id core_report);
      match asserted_state (ee_effect_id x) e with
      | Some s => Ok s
      | None => Raise (ValueError "effect finding is not supported by its cited evidence")
      end) (ef_evidence_ids (finding_of A x)) = Ok cited ∧
    cited ≡ₚ (definitive (assertions_for (ee_effect_id x) A)).*1.
Proof.
  set (D := definitive (assertions_for (ee_effect_id x) A)).
  pose proof (admitted_nodup env audits l Hok Hids) as Hn.
  pose proof (admitted_distinct env audits l Hok) as Hd.
  rewrite (finding_citations A Hn Hd). fold D.
  assert (∀ s i, (s, i) ∈ D →
    (e ← dict_item i (evidence_by_id core_report);
     match asserted_state (ee_effect_id x) e with
     | Some s => Ok s
     | None => Raise (ValueError "effect finding is not supported by its cited evidence")
     end) = Ok s) as Hbody.
  { intros s i [Hv _]%definitive_elem.
    apply assertions_for_elem in Hv as (e & a & He & Ha & Hx & Hs & <-).
    unfold dict_item. rewrite (proj1 (get_admitted e He)). cbn [mbind result_bind].
    rewrite <-Hx, (asserted_state_ok A Hd e a He Ha). congruence. }
  assert (∀ k, (∀ i, i ∈ k → i ∈ D.*2) → ∃ cited,
    Forall2 (λ i s, (s, i) ∈ D) k cited) as Hex.
  { induction k as [|i k IH]; intros Hk; [by exists []|].
    destruct IH as [cited Hc]; [intros j Hj; apply Hk; by right|].
    assert (i ∈ D.*2) as ([s j] & -> & Hin)%list_elem_of_fmap by (apply Hk; left).
    exists (s :: cited). by constructor. }
  destruct (Hex (sorted_strings D.*2)) as [cited Hcited].
  { intros i. by rewrite sorted_strings_perm. }
  exists cited. split.
  - apply mapM_ok_ext. eapply Forall2_impl; [exact Hcited|]. intros i s. apply Hbody.
  - assert (zip cited (sorted_strings D.*2) ≡ₚ D) as Hz.
    { pose proof (assertions_for_nodup (ee_effect_id x) A Hn Hd) as Hnd.
      apply definitive_nodup in Hnd. fold D in Hnd.
      pose proof (Forall2_length _ _ _ Hcited) as Hl.
      apply NoDup_Permutation.
      - eapply NoDup_fmap_1. rewrite snd_zip by lia. by rewrite sorted_strings_perm.
      - by eapply NoDup_fmap_1.
      - assert (zip cited (sorted_strings D.*2) ⊆ D) as Hsub.
        { intros [s i] [n Hz]%list_elem_of_lookup. rewrite lookup_zip_with in Hz.
          destruct (cited !! n) as [s'|] eqn:Hs'; [|done]. cbn in Hz.
          destruct (sorted_strings D.*2 !! n) as [i'|] eqn:Hi'; [|done]. cbn in Hz.
          injection Hz as -> ->.
          by apply (Forall2_lookup_lr _ _ _ _ _ _ Hcited Hi'). }
        intros [s i]. split; [apply Hsub|]. intros Hin.
        assert (i ∈ (zip cited (sorted_strings D.*2)).*2) as Hi.
        { rewrite snd_zip by lia. rewrite sorted_strings_perm.
          apply list_elem_of_fmap. by exists (s, i). }
        apply list_elem_of_fmap in Hi as ([s' j] & -> & Hz). cbn in *.
        assert (s = s') as ->; [|done].
        pose proof (Hbody _ _ (Hsub _ Hz)) as H1. pose proof (Hbody _ _ Hin) as H2.
        congruence. }
    rewrite <-Hz, fst_zip; [done|].
    pose proof (Forall2_length _ _ _ Hcited). lia.
Qed.

Lemma contradictory_findings k :
  existsb (λ f, contradictory (definitive (assertions_for (ef_effect_id f) A)).*1)
    (map (finding_of A) k)
  = existsb (λ x, contradictory (states_for (ee_effect_id x) A)) k.
Proof.
  induction k as [|x k IH]; [done|]. cbn [map existsb ef_effect_id finding_of].
  unfold states_for at 1. by rewrite contradictory_definitive, IH.
Qed.

Lemma any_established k :
  existsb is_established (map (finding_of A) k)
  = negb (bool_decide (effects_in_state ESTABLISHED A k = [])).
Proof.
  unfold effects_in_state. induction k as [|x k IH]; [done|].
  cbn [map existsb]. rewrite IH, filter_cons.
  unfold is_established at 1. cbn [ef_state finding_of]. case_decide as He.
  - rewrite (bool_decide_eq_true_2 _ He). by rewrite (bool_decide_eq_false_2 (map _ (x :: _) = [])).
  - by rewrite (bool_decide_eq_false_2 _ He).
Qed.

Lemma all_established k :
  forallb is_established (map (finding_of A) k)
  = (length (effects_in_state ESTABLISHED A k) =? length k)%nat.
Proof.
  unfold effects_in_state. induction k as [|x k IH]; [done|].
  cbn [map forallb]. rewrite IH, !length_map, filter_cons.
  unfold is_established at 1. cbn [ef_state finding_of].
  pose proof (length_filter
    (λ x, finding_state (states_for (ee_effect_id x) A) = ESTABLISHED) k) as Hle.
  case_decide as He.
  - by rewrite (bool_decide_eq_true_2 _ He).
  - rewrite (bool_decide_eq_false_2 _ He). cbn. symmetry. apply Nat.eqb_neq. lia.
Qed.

Lemma core_conflict_eq :
  is_conflicting
    (existsb (λ f, contradictory (definitive (assertions_for (ef_effect_id f) A)).*1)
      (core_findings env l)) (statuses_of A)
    (existsb is_established (core_findings env l))
    (forallb is_established (core_findings env l)) = core_conflict env l.
Proof.
  unfold core_findings. by rewrite contradictory_findings, any_established, all_established.
Qed.

Lemma definitive_state_cited x s :
  s ∈ states_for (ee_effect_id x) A → s ≠ UNVERIFIED →
  ef_evidence_ids (finding_of A x) ≠ [].
Proof.
  intros ([s' i] & Hs & Hv)%list_elem_of_fmap Hn Hnil. cbn in Hs. subst s'.
  assert (i ∈ ef_evidence_ids (finding_of A x)) as Hi.
  { apply finding_cited_elem;
      [by apply (admitted_nodup env audits)|by apply (admitted_distinct env audits)|eauto]. }
  rewrite Hnil in Hi. by apply not_elem_of_nil in Hi.
Qed.

(** The last check of a finding: its citations agree with its state. *)
Lemma cited_agree x cited :
  cited ≡ₚ (definitive (assertions_for (ee_effect_id x) A)).*1 →
  (contradictory (states_for (ee_effect_id x) A) = true → core_conflict env l = true) →
  let state := finding_state (states_for (ee_effect_id x) A) in
  (if bool_decide (state = UNVERIFIED)
      && negb (bool_decide (ef_evidence_ids (finding_of A x) = []))
   then
    reject_if (negb (core_conflict env l) || negb (contradictory cited))
      (ValueError "unverified finding citations require conflicting authority")
  else
    reject_if (existsb (λ s, negb (bool_decide (s = state))) cited)
      (ValueError "effect finding is not supported by its cited evidence")) = Ok tt.
Proof.
  intros Hcited Hconf state. unfold state.
  rewrite (contradictory_perm _ _ Hcited), contradictory_definitive.
  pose proof (finding_state_spec (states_for (ee_effect_id x) A) _ eq_refl) as Hspec.
  assert (∀ s, s ∈ cited ↔ s ∈ states_for (ee_effect_id x) A ∧ s ≠ UNVERIFIED) as Hin.
  { intros s. rewrite Hcited. apply definitive_states_elem. }
  revert Hspec.
  destruct (finding_state (states_for _ _)) eqn:Hst; intros Hspec; cbn [andb].
  - rewrite bool_decide_eq_false_2 by done. cbn [andb].
    rewrite (proj2 (existsb_false_iff _ _)); [done|].
    intros s [Hs Hu]%Hin. destruct Hspec as [_ Hno].
    destruct s; [by rewrite bool_decide_eq_true_2|by destruct Hno|done].
  - rewrite bool_decide_eq_false_2 by done. cbn [andb].
    rewrite (proj2 (existsb_false_iff _ _)); [done|].
    intros s [Hs Hu]%Hin. destruct Hspec as [_ Hno].
    destruct s; [by destruct Hno|by rewrite bool_decide_eq_true_2|done].
  - rewrite bool_decide_eq_true_2 by done. cbn [andb].
    destruct Hspec as [Hc|[He Hn]].
    + fold (states_for (ee_effect_id x) A) in Hc |- *. rewrite Hc, Hconf by done.
      case_bool_decide as Hnil; cbn [negb]; [|done].
      exfalso. unfold contradictory in Hc. apply andb_true_iff in Hc as [He _].
      apply inb_true in He. by apply definitive_state_cited in He.
    + assert (cited = []) as ->.
      { destruct cited as [|s r]; [done|]. exfalso.
        assert (s ∈ s :: r) as [Hs Hu]%Hin by left. by destruct s. }
      case_bool_decide as Hnil; cbn [negb existsb]; [done|]. exfalso. apply Hnil.
      destruct (ef_evidence_ids _) as [|i r] eqn:Hi; [done|]. exfalso.
      assert (i ∈ ef_evidence_ids (finding_of A x)) as Hc by (rewrite Hi; left).
      apply finding_cited_elem in Hc as (s & Hv & Hu);
        [|by apply (admitted_nodup env audits)|by apply (admitted_distinct env audits)].
      assert (s ∈ states_for (ee_effect_id x) A).
      { apply list_elem_of_fmap. by exists (s, i). }
      by destruct s.
Qed.

Lemma finding_ok x :
  (contradictory (states_for (ee_effect_id x) A) = true → core_conflict env l = true) →
  check_finding core_report (core_proof env l) A (finding_of A x) = Ok tt.
Proof.
  intros Hconf.
  pose proof (admitted_nodup env audits l Hok Hids) as Hn.
  pose proof (admitted_distinct env audits l Hok) as Hd.
  assert (negb (bool_decide (finding_state (states_for (ee_effect_id x) A) = UNVERIFIED))
    && bool_decide (ef_evidence_ids (finding_of A x) = []) = false) as Hguard.
  { apply andb_false_iff. rewrite negb_false_iff, bool_decide_eq_true,
      bool_decide_eq_false.
    destruct (decide (finding_state (states_for (ee_effect_id x) A) = UNVERIFIED))
      as [|Hne]; [by left|right].
    pose proof (finding_state_spec (states_for (ee_effect_id x) A) _ eq_refl) as Hspec.
    revert Hne Hspec. destruct (finding_state _); intros Hne Hspec; [| |done];
      destruct Hspec as [Hin _]; by eapply definitive_state_cited. }
  unfold check_finding.
  destruct (cited_states x) as (cited & Hcited & Hperm).
  change (ef_effect_id (finding_of A x)) with (ee_effect_id x).
  rewrite Hcited.
  change (ef_state (finding_of A x)) with (finding_state (states_for (ee_effect_id x) A)).
  cbn [dp_admitted_evidence_ids dp_conflicting_authority core_proof].
  rewrite (proj2 (subsetb_true _ _)).
  2:{ intros i Hi. rewrite <-(admitted_ids_eq env audits l Hok).
      by apply finding_cited_admitted in Hi. }
  cbn [negb reject_if mbind result_bind]. rewrite Hguard.
  rewrite finding_state_definitive.
  change ((assertions_for (ee_effect_id x) A).*1) with (states_for (ee_effect_id x) A).
  rewrite bool_decide_refl, <-(finding_citations A Hn Hd), bool_decide_refl.
  cbn [negb reject_if mbind result_bind]. by apply cited_agree.
Qed.

Lemma proof_ok : check_proof core_report (core_proof env l) = Ok tt.
Proof.
  unfold check_proof.
  change (dp_admitted_evidence_ids (core_proof env l)) with (admitted_ids l).
  rewrite ids_with_admitted, (proj2 (same_set_true _ _)) by tauto.
  rewrite proof_evidence_ok. cbn [negb reject_if mbind result_bind].
  change (dp_effect_findings (core_proof env l)) with (core_findings env l).
  rewrite core_conflict_eq.
  rewrite (proj2 (for_each_ok _ _ tt)).
  2:{ apply Forall_forall. intros f (x & -> & Hx)%list_elem_of_fmap.
      apply finding_ok. intros Hc.
      unfold core_conflict, core_classification, is_conflicting. cbn [fst].
      rewrite (proj2 (existsb_true_iff _ _)); [done|]. eauto. }
  cbn [mbind result_bind dp_conflicting_authority dp_operation_status core_proof].
  rewrite eqb_reflx. cbn [negb reject_if mbind result_bind].
  rewrite bool_decide_eq_true_2; [done|]. reflexivity.
Qed.

(** ** The classification *)

#[local] Abbreviation F := (core_findings env l).
#[local] Abbreviation est := (effects_in_state ESTABLISHED A effects).

Lemma ids_in_state_core s : ids_in_state s F = effects_in_state s A effects.
Proof.
  unfold ids_in_state, effects_in_state, core_findings.
  induction effects as [|x k IH]; [done|]. cbn [map]. rewrite !filter_cons.
  cbn [ef_state finding_of]. case_decide; cbn [map]; by rewrite IH.
Qed.

Lemma finding_scopes_core : finding_scopes F = effect_scopes effects.
Proof.
  unfold finding_scopes, effect_scopes, core_findings.
  change (map ?f (map ?g ?x)) with (f <$> (g <$> x)). by rewrite <-list_fmap_compose.
Qed.

Lemma core_class_eq :
  core_class env l = classify (core_conflict env l) (length est =? length effects)%nat
    (is_partial (effect_scopes effects) est (effects_in_state NOT_ESTABLISHED A effects))
    (negb (bool_decide (est = []))) (core_status env l)
    (inb TERMINAL_NOT_COMMITTED (statuses_of A)).
Proof. reflexivity. Qed.

Lemma core_status_eq :
  core_status env l = operation_status_of (core_conflict env l) (statuses_of A).
Proof. reflexivity. Qed.

Lemma core_conflict_false :
  core_conflict env l = false →
  (inb TERMINAL_COMMITTED (statuses_of A) && inb TERMINAL_NOT_COMMITTED (statuses_of A)
   = false) ∧
  (inb TERMINAL_NOT_COMMITTED (statuses_of A) && in_progress (statuses_of A) = false).
Proof.
  unfold core_conflict, core_classification, is_conflicting. cbn [fst snd].
  rewrite !orb_false_iff. tauto.
Qed.

(** Without conflict, the operation status tells terminal non-execution. *)
Lemma terminal_status :
  core_conflict env l = false →
  bool_decide (core_status env l = Some TERMINAL_NOT_COMMITTED)
    = inb TERMINAL_NOT_COMMITTED (statuses_of A).
Proof.
  intros Hc. rewrite core_status_eq, Hc. destruct (core_conflict_false Hc) as [H1 H2].
  unfold operation_status_of, in_progress in *.
  destruct (inb TERMINAL_COMMITTED _), (inb UNRESOLVED _), (inb ACTIVE _),
    (inb TERMINAL_NOT_COMMITTED _); done.
Qed.

Lemma expected_class : expected_classification (core_proof env l) = core_class env l.
Proof.
  unfold expected_classification.
  cbn [dp_effect_findings dp_conflicting_authority dp_operation_status core_proof].
  rewrite !ids_in_state_core, finding_scopes_core, core_class_eq.
  unfold core_findings at 1. rewrite length_map. unfold classify at 1 2.
  destruct (core_conflict env l) eqn:Hc; [done|]. by rewrite terminal_status.
Qed.

(** Each classification says which branch of the precedence was taken. *)
Lemma classify_inv conflicting all partial any status terminal c :
  classify conflicting all partial any status terminal = c →
  match c with
  | UNKNOWN => True
  | COMMITTED => conflicting = false ∧ all = true
  | NOT_COMMITTED => conflicting = false ∧ all = false ∧ terminal = true ∧ any = false
  | PARTIAL => conflicting = false ∧ all = false ∧ partial = true ∧ status ≠ Some ACTIVE
  | PENDING => conflicting = false ∧ all = false ∧
      (status = Some ACTIVE ∨ status = Some UNRESOLVED)
  end.
Proof.
  unfold classify. intros <-.
  destruct conflicting, all, partial, any, terminal, status as [[]|]; cbn;
    naive_solver.
Qed.

Lemma established_length :
  length (filter (λ f, ef_state f = ESTABLISHED) F) = length est.
Proof.
  rewrite <-ids_in_state_core. unfold ids_in_state. by rewrite length_map.
Qed.

Lemma effects_in_state_elem s i :
  i ∈ effects_in_state s A effects ↔
  i ∈ expected_effect_ids env ∧ finding_state (states_for i A) = s.
Proof.
  unfold effects_in_state, expected_effect_ids. rewrite !list_elem_of_fmap.
  setoid_rewrite list_elem_of_filter. naive_solver.
Qed.

Lemma scope_member f :
  f ∈ F → ∃ x, x ∈ effects ∧ f = finding_of A x ∧
    ee_commit_scope x ∈ scopes_of (effect_scopes effects) ∧
    ee_effect_id x ∈ effects_of_scope (effect_scopes effects) (ee_commit_scope x).
Proof.
  intros (x & -> & Hx)%list_elem_of_fmap. exists x. split_and!; [done|done| |].
  - apply elem_of_remove_dups. apply list_elem_of_fmap.
    exists (ee_effect_id x, ee_commit_scope x). split; [done|].
    apply list_elem_of_fmap. eauto.
  - apply list_elem_of_fmap. exists (ee_effect_id x, ee_commit_scope x).
    split; [done|]. apply list_elem_of_filter. split; [done|].
    apply list_elem_of_fmap. eauto.
Qed.

Lemma scopes_within_elem pairs ids s :
  s ∈ scopes_within pairs ids ↔ s ∈ scopes_of pairs ∧ effects_of_scope pairs s ⊆ ids.
Proof.
  unfold scopes_within. rewrite list_elem_of_filter, subsetb_true. tauto.
Qed.

(** In a partial outcome each commit scope is wholly established or wholly
    absent. *)
Lemma partial_scope x :
  is_partial (effect_scopes effects) est (effects_in_state NOT_ESTABLISHED A effects)
    = true →
  ee_commit_scope x ∈ scopes_of (effect_scopes effects) →
  (∀ i, i ∈ effects_of_scope (effect_scopes effects) (ee_commit_scope x) →
     finding_state (states_for i A) = ESTABLISHED) ∨
  (∀ i, i ∈ effects_of_scope (effect_scopes effects) (ee_commit_scope x) →
     finding_state (states_for i A) = NOT_ESTABLISHED).
Proof.
  unfold is_partial. intros Hp Hs. bool_simpl.
  match goal with Hx : same_set _ _ = true |- _ =>
    apply (proj1 (same_set_true _ _)) with (x := ee_commit_scope x) in Hx;
    apply Hx in Hs end.
  apply elem_of_app in Hs as [Hs|Hs]; apply scopes_within_elem in Hs as [_ Hsub];
    [left|right]; intros i Hi; apply Hsub in Hi; by apply effects_in_state_elem in Hi as [_ Hi].
Qed.

Lemma partial_established :
  is_partial (effect_scopes effects) est (effects_in_state NOT_ESTABLISHED A effects)
    = true → est ≠ [].
Proof.
  unfold is_partial. intros Hp Hnil. bool_simpl.
  destruct (scopes_within (effect_scopes effects) est) as [|s r] eqn:Hw; [done|].
  assert (s ∈ scopes_within (effect_scopes effects) est) as Hs by (rewrite Hw; left).
  apply scopes_within_elem in Hs as [Hs Hsub].
  apply elem_of_remove_dups, list_elem_of_fmap in Hs as ([i s'] & -> & Hin).
  assert (i ∈ est) as Hi.
  { apply Hsub, list_elem_of_fmap. exists (i, s'). split; [done|].
    by apply list_elem_of_filter. }
  rewrite Hnil in Hi. by apply not_elem_of_nil in Hi.
Qed.

Lemma states_length : length (map ef_state F) = length effects.
Proof. unfold core_findings. by rewrite !length_map. Qed.

Lemma established_states :
  forallb is_established F = true → ∀ s, s ∈ map ef_state F → s = ESTABLISHED.
Proof.
  intros H s (f & -> & Hf)%list_elem_of_fmap. rewrite forallb_forall in H.
  specialize (H f). rewrite <-list_elem_of_In in H. apply H in Hf.
  unfold is_established in Hf. by apply bool_decide_eq_true in Hf.
Qed.

(** In a partial outcome no scope is split and no effect is unverified. *)
Lemma partial_states :
  is_partial (effect_scopes effects) est (effects_in_state NOT_ESTABLISHED A effects)
    = true →
  inb UNVERIFIED (map ef_state F) = false ∧ splits_scope F = false.
Proof.
  intros Hp. split.
  - apply inb_false. intros (f & Hs & Hf)%list_elem_of_fmap.
    destruct (scope_member f Hf) as (x & _ & -> & Hsc & Hin). cbn in Hs.
    destruct (partial_scope x Hp Hsc) as [H|H]; by rewrite (H _ Hin) in Hs.
  - unfold splits_scope. apply existsb_false_iff. intros sc (f & -> & Hf)%list_elem_of_fmap.
    destruct (scope_member f Hf) as (x & _ & -> & Hsc & _). cbn [ef_commit_scope finding_of].
    assert (∀ b, b ∈ map is_established
        (filter (λ g, ef_commit_scope g = ee_commit_scope x) F) →
      ∃ i, i ∈ effects_of_scope (effect_scopes effects) (ee_commit_scope x) ∧
        b = bool_decide (finding_state (states_for i A) = ESTABLISHED)) as Hb.
    { intros b (g & -> & Hg)%list_elem_of_fmap. apply list_elem_of_filter in Hg as [Hsg Hg].
      destruct (scope_member g Hg) as (y & _ & -> & _ & Hy). cbn in Hsg.
      exists (ee_effect_id y). rewrite <-Hsg. split; [done|]. reflexivity. }
    apply andb_false_iff. rewrite !inb_false.
    destruct (partial_scope x Hp Hsc) as [H|H]; [right|left]; intros (i & Hi & Heq)%Hb;
      by rewrite (H i Hi) in Heq.
Qed.

Lemma classification_rules_ok :
  check_classification_rules (core_proof env l) (core_class env l) = Ok tt.
Proof.
  unfold check_classification_rules.
  cbn [dp_effect_findings dp_conflicting_authority dp_operation_status core_proof].
  rewrite established_length, states_length.
  pose proof (classify_inv _ _ _ _ _ _ _ (eq_sym core_class_eq)) as Hinv. revert Hinv.
  destruct (core_class env l); rewrite ?(bool_decide_eq_true_2 (_ = _)) by done; intros Hinv.
  - destruct Hinv as [-> Hall].
    rewrite (proj2 (existsb_false_iff _ _)); [reflexivity|].
    rewrite <-all_established in Hall. intros s Hs.
    by rewrite (established_states Hall s Hs), bool_decide_eq_true_2.
  - destruct Hinv as (Hc & _ & Ht & Hn). rewrite <-terminal_status in Ht by done.
    rewrite Hc, Ht. apply negb_false_iff, bool_decide_eq_true in Hn. rewrite Hn. reflexivity.
  - destruct Hinv as (-> & Hall & Hp & Hst). rewrite Hall.
    destruct (partial_states Hp) as [-> ->]. rewrite (bool_decide_eq_false_2 _ Hst).
    pose proof (partial_established Hp) as Hne.
    rewrite (bool_decide_eq_false_2 (length est = 0%nat)); [reflexivity|].
    by destruct est.
  - destruct Hinv as (-> & -> & [-> | ->]); reflexivity.
  - destruct (core_conflict env l); reflexivity.
Qed.

(** ** Missing evidence *)

Lemma missing_reason_ok :
  inb (core_class env l) [COMMITTED; NOT_COMMITTED] = false →
  expected_missing_reason core_report (core_proof env l) (core_class env l)
    = Some (missing_reason (core_conflict env l) (core_class env l) (map at_decision l)).
Proof.
  unfold expected_missing_reason, missing_reason.
  cbn [dp_conflicting_authority core_proof ir_evidence_decisions core_report].
  destruct (core_conflict env l); [done|].
  rewrite head_sorted_remove_dups.
  by destruct (core_class env l); intros Hc; cbn [inb] in Hc;
    rewrite ?(bool_decide_eq_true_2 (_ = _)), ?bool_decide_eq_false_2 by done.
Qed.

Lemma missing_ok : check_missing core_report (core_proof env l) (core_class env l) = Ok tt.
Proof.
  unfold check_missing. cbn [ir_missing_evidence core_report]. unfold core_missing.
  destruct (inb _ _) eqn:Hc; [reflexivity|]. rewrite missing_reason_ok by done.
  cbn [me_effect_ids me_reason dp_effect_findings core_proof].
  by rewrite !bool_decide_refl.
Qed.

(** Every phase of the validator accepts the report. *)
Lemma core_report_valid : model_validate_report core_report = Ok core_report.
Proof.
  unfold model_validate_report, validate_references.
  rewrite bounds_ok, status_ok, identifiers_ok, audit_sources_ok.
  rewrite (proj2 (for_each_ok (check_evidence_audit core_report) _ tt))
    by (apply Forall_forall; intros; by apply evidence_audit_ok).
  rewrite authority_ok.
  rewrite (proj2 (for_each_ok (check_reason core_report) _ tt))
    by (apply Forall_forall; intros; by apply reason_ok).
  rewrite admitted_evidence_ok. cbn [mbind result_bind ir_proof core_report].
  fold core_report. rewrite proof_ok, advisory_ok, gates_ok. cbn [mbind result_bind].
  unfold check_classification. cbn [ir_classification ir_proof core_report].
  fold core_report.
  rewrite classification_rules_ok, expected_class, bool_decide_refl, missing_ok. done.
Qed.

(** ** Assembly *)

Lemma report_audit_valid r :
  r ∈ audits → model_validate_probe_audit (report_audit l r) = Ok (report_audit l r).
Proof.
  intros Hr. destruct (Forall2_elem_l _ _ _ _ Hok Hr) as (a & Ha & H).
  pose proof (proj1 (Forall_forall _ _) Haud r Hr) as Hv.
  pose proof (proj1 (Forall_forall _ _) Hcap r Hr) as Hc. cbn beta in Hv, Hc.
  unfold model_validate_audit, validate_timestamps in Hv.
  unfold model_validate_probe_audit, validate_record.
  cbn [pa_probe_sequence pa_session_elapsed_ms pa_probe_count_used pa_cost_units_used
    pa_result_bytes_acquired pa_result_byte_count pa_evidence_ids pa_completed_at
    pa_started_at pa_capability_name pa_capability_version pa_outcome pa_request_sha256
    pa_result_sha256 report_audit].
  rewrite <-(ak_sequence _ _ _ H), ids_at by done. rewrite (ak_sequence _ _ _ H).
  inv_ok. bool_simpl.
  repeat match goal with Hx : in_range _ _ _ = true |- _ => rewrite Hx; clear Hx
    | Hx : _ = true |- _ => rewrite Hx; clear Hx end.
  rewrite (proj2 (Z.ltb_ge _ _)) by done. rewrite Hc, eqb_reflx.
  cbn [length Nat.eqb andb negb reject_if mbind result_bind].
  case_bool_decide; inv_ok; bool_simpl.
  - by repeat match goal with Hx : is_none _ = false |- _ => rewrite Hx; clear Hx end.
  - match goal with Hx : ar_result_sha256 _ = None |- _ => by rewrite Hx end.
Qed.

Lemma check_evaluation_ok : check_evaluation env audits (core_result env l) = Ok tt.
Proof.
  unfold check_evaluation. cbn [ce_envelope_sha256 ce_attempts core_result].
  rewrite bool_decide_refl, (bool_decide_eq_true_2 (map ar_sequence audits = _)) by done.
  rewrite (bool_decide_eq_true_2 (sequences_of l = _))
    by apply (attempts_sequences env audits l Hok).
  cbn [negb reject_if mbind result_bind].
  rewrite (attempts_zip env); [done|done|]. cbn. intros a audit Ha.
  rewrite bool_decide_eq_true_2; [done|]. symmetry. apply (ak_audit _ _ _ Ha).
Qed.

Lemma build_report_ok :
  build_report env audits (core_result env l) created updated rev advisory = Ok core_report.
Proof.
  unfold build_report. rewrite Henv, (audit_sort_id audits) by done.
  cbn [mbind result_bind]. rewrite check_evaluation_ok. cbn [mbind result_bind].
  rewrite (mapM_ok_map _ (report_audit l)) by (intros r Hr; by apply report_audit_valid).
  cbn [ce_decisions ce_attempts core_result mbind result_bind]. rewrite Hadv.
  cbn [mbind result_bind]. apply core_report_valid.
Qed.

End report.

(** ** Reports at other times

    The times and the revision of a report are checked by themselves: nothing else in
    a report depends on them. *)

Section times.
Context {rt : Runtime} {sec : Security} {od : ObservationDecoder}.

(** The checks of the times and of the revision, in the order they are made. *)
Definition times_checked (created updated : datetime) (revision : Z) : result py_error unit :=
  reject_if (negb (in_range 0 revision int64_max)) (ValueError "revision is outside its range");;
  reject_if (updated <? created) (ValueError "report update cannot precede creation").

Definition retimed (r : InvestigationReport) (created updated : datetime) (revision : Z)
  : InvestigationReport :=
  {| ir_investigation_id := ir_investigation_id r;
     ir_envelope_sha256 := ir_envelope_sha256 r;
     ir_status := ir_status r; ir_probe_audit := ir_probe_audit r;
     ir_evidence := ir_evidence r; ir_evidence_decisions := ir_evidence_decisions r;
     ir_proof := ir_proof r; ir_classification := ir_classification r;
     ir_action_gate := ir_action_gate r; ir_missing_evidence := ir_missing_evidence r;
     ir_limitations := ir_limitations r;
     ir_advisory_explanation := ir_advisory_explanation r;
     ir_created_at := created; ir_updated_at := updated; ir_revision := revision |}.

Lemma model_validate_retimed r r' created updated revision :
  model_validate_report r = Ok r' →
  model_validate_report (retimed r created updated revision)
    = (times_checked created updated revision;; Ok (retimed r created updated revision)).
Proof.
  unfold model_validate_report, validate_bounds, validate_references, validate_status, times_checked.
  cbn [retimed ir_probe_audit ir_evidence ir_evidence_decisions ir_missing_evidence
    ir_limitations ir_action_gate ir_revision ir_updated_at ir_created_at ir_status ir_proof
    ir_classification].
  set (long := reject_if _ (ValueError "report collection is too long")).
  set (gates := reject_if _ (ValueError "action gates are outside their bounds")).
  set (complete := reject_if _
    (ValueError "completed reports require proof, classification, and action gates")).
  set (classed := reject_if _ (ValueError "action gates require a classification")).
  intros H. apply bind_ok in H as ([] & Hb & H). apply bind_ok in Hb as ([] & -> & Hb).
  apply bind_ok in Hb as ([] & -> & _). cbn [mbind result_bind].
  apply bind_ok in H as ([] & Hrefs & _). apply bind_ok in Hrefs as ([] & Hst & Hrefs).
  apply bind_ok in Hst as ([] & _ & Hst). apply bind_ok in Hst as ([] & -> & ->).
  destruct (reject_if (negb _) _) as [[]|]; [|done]. cbn [mbind result_bind].
  destruct (reject_if (updated <? created) _) as [[]|]; [|done]. cbn [mbind result_bind].
  change (validate_identifiers (retimed r created updated revision)) with (validate_identifiers r).
  revert Hrefs.
  match goal with |- ?x = Ok tt → _ => intros Hrefs; match goal with
    |- mbind _ ?y = _ => change y with x end end.
  by rewrite Hrefs.
Qed.

(** A report made at some time tells what becomes of it at any other. *)
Lemma build_report_retimed env audits ev advisory created updated revision r
    created' updated' revision' :
  build_report env audits ev created updated revision advisory = Ok r →
  build_report env audits ev created' updated' revision' advisory
    = (times_checked created' updated' revision';; Ok (retimed r created' updated' revision')).
Proof.
  unfold build_report. intros H.
  apply bind_ok in H as ([] & -> & H). apply bind_ok in H as ([] & -> & H).
  apply bind_ok in H as (audit & -> & H). apply bind_ok in H as (adv & -> & H).
  cbn [mbind result_bind]. pose proof H as Hr. unfold model_validate_report in Hr. inv_ok. subst r.
  exact (model_validate_retimed _ _ created' updated' revision' H).
Qed.

Lemma report_retimed g audits advisory created updated revision r created' updated' revision' :
  report g audits created updated revision advisory = Ok r →
  report g audits created' updated' revision' advisory
    = (times_checked created' updated' revision';; Ok (retimed r created' updated' revision')).
Proof.
  unfold report. intros (ev & -> & H)%bind_ok. cbn [mbind result_bind].
  by eapply build_report_retimed.
Qed.

Lemma times_checked_ok created updated revision :
  times_checked created updated revision = Ok tt ↔ created ≤ updated ∧ 0 ≤ revision ≤ int64_max.
Proof.
  unfold times_checked. destruct (in_range 0 revision int64_max) eqn:Hr; cbn.
  - apply in_range_true in Hr. destruct (updated <? created) eqn:Hu; cbn.
    + apply Z.ltb_lt in Hu. split; [done|lia].
    + apply Z.ltb_ge in Hu. split; [lia|done].
  - split; [done|]. intros [_ Hin]. rewrite (proj2 (in_range_true _ _ _)) in Hr by lia. done.
Qed.

(** What the contract bounds. *)
Lemma build_report_bounds env audits ev created updated revision advisory r :
  build_report env audits ev created updated revision advisory = Ok r →
  (length (ce_decisions ev) ≤ 64)%nat ∧ created ≤ updated ∧ 0 ≤ revision ≤ int64_max.
Proof.
  intros H. pose proof (build_report_retimed _ _ _ _ _ _ _ _ created updated revision H) as Hre.
  rewrite H in Hre. destruct (times_checked created updated revision) as [[]|] eqn:Ht; [|done].
  apply times_checked_ok in Ht. split; [|done]. clear Hre.
  unfold build_report, model_validate_report in H. inv_ok.
  match goal with Hx : validate_bounds _ = Ok _ |- _ => unfold validate_bounds in Hx end.
  inv_ok. bool_simpl. cbn [ir_evidence_decisions] in *. rewrite !Nat.ltb_ge in *. lia.
Qed.

Definition limited (r : InvestigationReport) (limitations : list string) : InvestigationReport :=
  {| ir_investigation_id := ir_investigation_id r;
     ir_envelope_sha256 := ir_envelope_sha256 r;
     ir_status := ir_status r; ir_probe_audit := ir_probe_audit r;
     ir_evidence := ir_evidence r; ir_evidence_decisions := ir_evidence_decisions r;
     ir_proof := ir_proof r; ir_classification := ir_classification r;
     ir_action_gate := ir_action_gate r; ir_missing_evidence := ir_missing_evidence r;
     ir_limitations := limitations;
     ir_advisory_explanation := ir_advisory_explanation r;
     ir_created_at := ir_created_at r; ir_updated_at := ir_updated_at r;
     ir_revision := ir_revision r |}.

(** A valid report stays valid with any bounded limitations. *)
Lemma model_validate_limited r r' limitations :
  model_validate_report r = Ok r' → (length limitations ≤ 64)%nat →
  model_validate_report (limited r limitations) = Ok (limited r limitations).
Proof.
  unfold model_validate_report. intros H Hlen. apply bind_ok in H as ([] & Hb & H).
  apply bind_ok in H as ([] & Hrefs & _).
  assert (validate_bounds (limited r limitations) = Ok tt) as ->.
  { unfold validate_bounds in *. cbn [limited ir_probe_audit ir_evidence ir_evidence_decisions
      ir_missing_evidence ir_limitations ir_action_gate ir_revision].
    apply bind_ok in Hb as ([] & Hlong & Hb). apply reject_if_ok in Hlong.
    rewrite !orb_false_iff in Hlong. destruct Hlong as [[[[-> ->] ->] ->] _].
    rewrite (proj2 (Nat.ltb_ge _ _)) by done. exact Hb. }
  cbn [mbind result_bind].
  change (validate_references (limited r limitations)) with (validate_references r).
  by rewrite Hrefs.
Qed.

End times.
