(* ===== verification/ClassificationProperties.v ===== *)
(** What a classification means.

    The soundness of each definitive outcome, the independence of the
    evaluation from the order its inputs arrive in, the uniqueness of
    retained sources; and the outcomes specified by what the admitted evidence
    asserts, denies and reports ([outcome]), with which the classifier agrees. *)

From S2P Require Export ReportRefinement.

#[local] Open Scope Z_scope.

(** The output of one session's pipeline, with the session's audit trail. *)
Record pipeline_output `{Runtime, Security, ObservationDecoder} (env : ExecutionEnvelope)
  (audits : list ControllerAuditRecord) (attempts : list EvidenceAttempt) : Prop := {
  po_envelope : validate_ExecutionEnvelope env = Ok tt;
  po_attempts : Forall2 (attempt_ok env) audits attempts;
  po_enabled : Forall (audit_enabled env) audits;
  po_sequence : map ar_sequence audits = one_to (length audits);
  po_identifiers : NoDup (decision_ids attempts);
  po_bound : (length attempts ≤ 64)%nat;
}.

Section properties.
Context {rt : Runtime} {sec : Security} {od : ObservationDecoder}.

Lemma pipeline_evaluated env audits attempts :
  pipeline_output env audits attempts →
  ∃ l, deduplicate_attempts attempts = Ok l ∧ Forall2 dedup_rel attempts l ∧
    pipeline_output env audits l ∧
    evaluate_evidence env attempts audits = Ok (core_result env l).
Proof.
  intros [Henv Hok Hen Hseq Hids Hlen].
  destruct (deduplicate_ok env _ attempts [] Hok) as (l & Hded & Hrel).
  exists l. split; [done|]. split; [done|].
  assert (pipeline_output env audits l) as Hl.
  { split; [done|by eapply dedup_attempts_ok|done|done|by rewrite (dedup_ids _ _ Hrel)|].
    by rewrite <-(Forall2_length _ _ _ Hrel). }
  split; [done|]. unfold evaluate_evidence. rewrite Henv. cbn [mbind result_bind].
  rewrite (recheck_ok env audits attempts) by done.
  unfold deduplicate_attempts. rewrite Hded. cbn [mbind result_bind].
  destruct Hl. by apply (core_evaluation_ok env audits).
Qed.

(** Authoritative evidence of one attempt: admitted from the target's own state,
    through an enabled read-only capability, bound to the probe that read it. *)
Record authoritative (env : ExecutionEnvelope) (audits : list ControllerAuditRecord)
  (attempts : list EvidenceAttempt) (e : NormalizedEvidence) : Prop := {
  at_attempt : ∃ a audit, a ∈ attempts ∧ audit ∈ audits ∧ at_evidence a = Some e ∧
    ed_disposition (at_decision a) = ADMITTED ∧ evidence_bound audit a e ∧
    ar_target_sha256 audit = canonical_sha256 (en_target env);
  at_authority : ne_authority e = TARGET_STATE;
  at_enabled : (ne_capability_name e, ne_capability_version e) ∈ enabled_identities env;
  at_admissible : ∃ request, evidence_admissible env request e;
}.

(** [e] asserts [state] of the effect. *)
Definition asserts (effect_id : string) (state : EffectAssertionState)
  (e : NormalizedEvidence) : Prop :=
  ∃ a, a ∈ ne_effect_assertions e ∧ ea_effect_id a = effect_id ∧ ea_state a = state.

Lemma dedup_elem attempts l a :
  Forall2 dedup_rel attempts l → a ∈ l → ed_disposition (at_decision a) ≠ REJECTED_EVIDENCE →
  a ∈ attempts.
Proof.
  intros Hrel Ha Hd. destruct (Forall2_elem_r _ _ _ _ Hrel Ha) as (b & Hb & [->| ->]); done.
Qed.

Section outcome.
Context (env : ExecutionEnvelope) (audits : list ControllerAuditRecord)
  (attempts l : list EvidenceAttempt).
Context (Hl : pipeline_output env audits l) (Hrel : Forall2 dedup_rel attempts l).

Lemma admitted_authoritative e : e ∈ admitted_evidence l → authoritative env audits attempts e.
Proof.
  intros He. destruct (admitted_elem env audits l (po_attempts _ _ _ Hl) e He)
    as (a & audit & Ha & Haud & Hok & Hev & Hd).
  destruct (admitted_inv _ _ _ _ Hok Hev Hd) as (Hauth & Htgt & Hadm & _).
  destruct (ak_evidence _ _ _ Hok e Hev) as [_ Hb].
  split; [|done| |done].
  - exists a, audit. split_and!; try done. eapply dedup_elem; [done..|]. by rewrite Hd.
  - pose proof (po_enabled _ _ _ Hl) as Hen. rewrite Forall_forall in Hen.
    apply (Hen audit Haud); apply Hb.
Qed.

Lemma states_for_elem x s :
  s ∈ states_for x (admitted_evidence l) ↔
  ∃ e, e ∈ admitted_evidence l ∧ asserts x s e.
Proof.
  unfold states_for. rewrite list_elem_of_fmap. split.
  - intros ([s' i] & -> & Hin). apply assertions_for_elem in Hin
      as (e & a & He & Ha & Hx & Hs & _). exists e. split; [done|]. by exists a.
  - intros (e & He & a & Ha & Hx & Hs). exists (s, ne_evidence_id e). split; [done|].
    apply assertions_for_elem. eauto 10.
Qed.

Lemma effects_all_established :
  length (effects_in_state ESTABLISHED (admitted_evidence l) (en_expected_effects env))
    = length (en_expected_effects env) →
  ∀ x, x ∈ en_expected_effects env →
    finding_state (states_for (ee_effect_id x) (admitted_evidence l)) = ESTABLISHED.
Proof.
  unfold effects_in_state. rewrite length_map.
  induction (en_expected_effects env) as [|y k IH]; intros Hlen x Hx;
    [by apply not_elem_of_nil in Hx|].
  rewrite filter_cons in Hlen.
  pose proof (length_filter (λ x, finding_state (states_for (ee_effect_id x)
    (admitted_evidence l)) = ESTABLISHED) k) as Hle.
  case_decide as Hy; cbn [length] in Hlen; [|lia].
  apply elem_of_cons in Hx as [->|Hx]; [done|]. apply IH; [lia|done].
Qed.

Lemma effects_none_established :
  effects_in_state ESTABLISHED (admitted_evidence l) (en_expected_effects env) = [] →
  ∀ x, x ∈ en_expected_effects env →
    finding_state (states_for (ee_effect_id x) (admitted_evidence l)) ≠ ESTABLISHED.
Proof.
  intros Hnil x Hx Hs.
  assert (ee_effect_id x ∈ effects_in_state ESTABLISHED (admitted_evidence l)
    (en_expected_effects env)) as Hin.
  { apply list_elem_of_fmap. exists x. split; [done|]. by apply list_elem_of_filter. }
  rewrite Hnil in Hin. by apply not_elem_of_nil in Hin.
Qed.

Lemma status_elem s :
  s ∈ statuses_of (admitted_evidence l) ↔
  ∃ e, e ∈ admitted_evidence l ∧ ne_operation_status e = Some s.
Proof. unfold statuses_of. by rewrite list_elem_of_omap. Qed.

End outcome.

Lemma forallb_false_elem {A} (f : A → bool) l :
  forallb f l = false → ∃ x, x ∈ l ∧ f x = false.
Proof.
  induction l as [|x l IH]; [done|]. cbn. destruct (f x) eqn:Hx; cbn.
  - intros (y & Hy & Hf)%IH. exists y. split; [by right|done].
  - intros _. exists x. split; [left|done].
Qed.

(** ** The definitive outcomes *)

Lemma committed_read env audits attempts ev x :
  pipeline_output env audits attempts →
  evaluate_evidence env attempts audits = Ok ev →
  ce_classification ev = COMMITTED → x ∈ en_expected_effects env →
  ∃ e, authoritative env audits attempts e ∧ asserts (ee_effect_id x) ESTABLISHED e.
Proof.
  intros Hpo Hev Hc Hx.
  destruct (pipeline_evaluated _ _ _ Hpo) as (l & _ & Hrel & Hl & Hres).
  rewrite Hres in Hev. injection Hev as <-. cbn [ce_classification core_result] in *.
  pose proof (classify_inv _ _ _ _ _ _ _ (eq_sym (core_class_eq env l))) as Hinv.
  rewrite Hc in Hinv. destruct Hinv as [_ Hall]. apply Nat.eqb_eq in Hall.
  pose proof (effects_all_established env l Hall x Hx) as Hs.
  apply finding_state_spec in Hs as [Hin _]. rewrite states_for_elem in Hin.
  destruct Hin as (e & He & Has). exists e. split; [|done]. by eapply admitted_authoritative.
Qed.

(** C30: a COMMITTED classification is justified effect by effect.  When the
    pipeline's output is evaluated and the outcome is COMMITTED, every expected
    effect is asserted established by evidence admitted from the target's own
    state through an enabled capability, bound to an audited probe and fresh,
    and no authoritative evidence asserts the effect absent. *)
Theorem committed_sound env audits attempts ev x :
  pipeline_output env audits attempts →
  evaluate_evidence env attempts audits = Ok ev →
  ce_classification ev = COMMITTED → x ∈ en_expected_effects env →
  (∃ e, authoritative env audits attempts e ∧ asserts (ee_effect_id x) ESTABLISHED e) ∧
  (∀ a e, a ∈ ce_attempts ev → at_evidence a = Some e →
    ed_disposition (at_decision a) = ADMITTED →
    ¬ asserts (ee_effect_id x) NOT_ESTABLISHED e).
Proof.
  intros Hpo Hev Hc Hx. split; [by eapply committed_read|].
  destruct (pipeline_evaluated _ _ _ Hpo) as (l & _ & Hrel & Hl & Hres).
  rewrite Hres in Hev. injection Hev as <-. cbn [ce_classification ce_attempts core_result] in *.
  pose proof (classify_inv _ _ _ _ _ _ _ (eq_sym (core_class_eq env l))) as Hinv.
  rewrite Hc in Hinv. destruct Hinv as [_ Hall]. apply Nat.eqb_eq in Hall.
  pose proof (effects_all_established env l Hall x Hx) as Hs.
  apply finding_state_spec in Hs as [_ Hout]. rewrite states_for_elem in Hout.
  intros a e Ha He Hd Has. apply Hout. exists e. split; [|done].
  unfold admitted_evidence. apply list_elem_of_fmap. exists (a, e).
  split; [done|]. by apply admitted_pairs_elem.
Qed.

(** C32: NOT_COMMITTED needs affirmative terminal non-execution: authoritative
    evidence reports the operation terminal and not committed, none reports it
    active, unresolved or committed, and no expected effect is established. *)
Theorem not_committed_sound env audits attempts ev :
  pipeline_output env audits attempts →
  evaluate_evidence env attempts audits = Ok ev →
  ce_classification ev = NOT_COMMITTED →
  (∃ e, authoritative env audits attempts e ∧
    ne_operation_status e = Some TERMINAL_NOT_COMMITTED) ∧
  (∀ a e s, a ∈ ce_attempts ev → at_evidence a = Some e →
    ed_disposition (at_decision a) = ADMITTED → ne_operation_status e = Some s →
    s = TERMINAL_NOT_COMMITTED) ∧
  (∀ f, f ∈ dp_effect_findings (ce_proof ev) → ef_state f ≠ ESTABLISHED).
Proof.
  intros Hpo Hev Hc.
  destruct (pipeline_evaluated _ _ _ Hpo) as (l & _ & Hrel & Hl & Hres).
  rewrite Hres in Hev. injection Hev as <-.
  cbn [ce_classification ce_attempts ce_proof core_result] in *.
  pose proof (classify_inv _ _ _ _ _ _ _ (eq_sym (core_class_eq env l))) as Hinv.
  rewrite Hc in Hinv. destruct Hinv as (Hconf & _ & Ht & Hn).
  destruct (core_conflict_false env l Hconf) as [Hcc Hpp]. rewrite Ht in Hcc, Hpp.
  rewrite andb_true_r in Hcc. cbn in Hpp. unfold in_progress in Hpp. bool_simpl.
  rewrite inb_true in Ht. split_and!.
  - apply status_elem in Ht as (e & He & Hs). exists e. split; [|done].
    by eapply admitted_authoritative.
  - intros a e s Ha He Hd Hs.
    assert (s ∈ statuses_of (admitted_evidence l)) as Hin.
    { apply status_elem. exists e. split; [|done].
      apply list_elem_of_fmap. exists (a, e). split; [done|]. by apply admitted_pairs_elem. }
    rewrite !inb_false in *. by destruct s.
  - intros f (x & -> & Hx)%list_elem_of_fmap. cbn [ef_state finding_of].
    by apply (effects_none_established env l).
Qed.

(** PARTIAL is a complete mixture of whole commit scopes.  Some expected
    effect is established and some is affirmatively absent, every effect is one
    or the other, and effects of one commit scope have the same state. *)
Lemma partial_sound env audits attempts ev :
  pipeline_output env audits attempts →
  evaluate_evidence env attempts audits = Ok ev →
  ce_classification ev = PARTIAL →
  let findings := dp_effect_findings (ce_proof ev) in
  (∃ f, f ∈ findings ∧ ef_state f = ESTABLISHED) ∧
  (∃ f, f ∈ findings ∧ ef_state f = NOT_ESTABLISHED) ∧
  (∀ f, f ∈ findings → ef_state f ≠ UNVERIFIED) ∧
  (∀ f g, f ∈ findings → g ∈ findings → ef_commit_scope f = ef_commit_scope g →
    ef_state f = ef_state g) ∧
  dp_operation_status (ce_proof ev) ≠ Some ACTIVE.
Proof.
  intros Hpo Hev Hc.
  destruct (pipeline_evaluated _ _ _ Hpo) as (l & _ & Hrel & Hl & Hres).
  rewrite Hres in Hev. injection Hev as <-.
  cbn [ce_classification ce_proof dp_effect_findings dp_operation_status core_proof
    core_result] in *. cbv zeta.
  pose proof (classify_inv _ _ _ _ _ _ _ (eq_sym (core_class_eq env l))) as Hinv.
  rewrite Hc in Hinv. destruct Hinv as (_ & Hall & Hp & Hst).
  assert (∀ f g, f ∈ core_findings env l → g ∈ core_findings env l →
    ef_commit_scope f = ef_commit_scope g →
    (ef_state f = ESTABLISHED ∧ ef_state g = ESTABLISHED) ∨
    (ef_state f = NOT_ESTABLISHED ∧ ef_state g = NOT_ESTABLISHED)) as Hscope.
  { intros f g Hf Hg Hs. destruct (scope_member env l f Hf) as (x & _ & -> & Hsc & Hx).
    destruct (scope_member env l g Hg) as (y & _ & -> & _ & Hy). cbn in *.
    rewrite <-Hs in Hy.
    destruct (partial_scope env l x Hp Hsc) as [H|H]; [left|right]; auto. }
  assert (∀ f, f ∈ core_findings env l → ef_state f ≠ UNVERIFIED) as Hver.
  { intros f Hf Hu. destruct (Hscope f f Hf Hf eq_refl) as [[H _]|[H _]]; congruence. }
  split_and!; [| |done| |done].
  - pose proof (partial_established env l Hp) as Hne.
    destruct (effects_in_state ESTABLISHED _ _) as [|i r] eqn:Hi; [done|].
    assert (i ∈ i :: r) as Hin by left. rewrite <-Hi in Hin.
    apply list_elem_of_fmap in Hin as (x & _ & Hx). apply list_elem_of_filter in Hx as [Hs Hx].
    exists (finding_of (admitted_evidence l) x). split; [|done].
    apply list_elem_of_fmap. eauto.
  - rewrite <-(all_established l (po_bound _ _ _ Hl)) in Hall.
    destruct (forallb_false_elem _ _ Hall) as (f & Hf & Hb).
    exists f. split; [done|]. unfold is_established in Hb. apply bool_decide_eq_false in Hb.
    specialize (Hver f Hf). by destruct (ef_state f).
  - intros f g Hf Hg Hs. destruct (Hscope f g Hf Hg Hs) as [[-> ->]|[-> ->]]; done.
Qed.

(** ** The recheck and its deduplication *)

(** The recheck sorts both its inputs, and raises what it raises whatever their
    order. *)
Lemma recheck_permutation env attempts attempts' audits audits' :
  attempts ≡ₚ attempts' → audits ≡ₚ audits' →
  recheck_attempts env attempts audits = recheck_attempts env attempts' audits'.
Proof.
  intros Ha Haud. unfold recheck_attempts.
  rewrite (existsb_perm _ attempts attempts' Ha).
  destruct (existsb _ attempts'); [done|]. cbn [reject_if mbind result_bind].
  assert (∀ k k', k ≡ₚ k' → NoDup (sequences_of k) →
    merge_sort attempt_key_le k = merge_sort attempt_key_le k') as Hsort.
  { intros k k' Hkk Hn. apply (merge_sort_ext _ at_probe_sequence); [|done|done].
    unfold attempt_key_le. intros x y. lia. }
  assert (sequences_of (merge_sort attempt_key_le attempts) ≡ₚ sequences_of attempts) as Hp
    by (unfold sequences_of; by rewrite merge_sort_Permutation).
  assert (sequences_of (merge_sort attempt_key_le attempts') ≡ₚ sequences_of attempts) as Hp'
    by (unfold sequences_of; by rewrite merge_sort_Permutation, Ha).
  destruct (has_dup (sequences_of (merge_sort attempt_key_le attempts))) eqn:Hd.
  { destruct (has_dup (sequences_of (merge_sort attempt_key_le attempts'))) eqn:Hd'; [done|].
    apply has_dup_false in Hd'. rewrite Hp', <-Hp in Hd'. apply has_dup_false in Hd'.
    congruence. }
  apply has_dup_false in Hd.
  rewrite <-(Hsort attempts attempts' Ha) by (by rewrite <-Hp).
  rewrite (proj2 (has_dup_false (sequences_of (merge_sort attempt_key_le attempts))) Hd).
  cbn [reject_if mbind result_bind].
  destruct (has_dup (decision_ids _)); [done|]. cbn [reject_if mbind result_bind].
  destruct (negb (bool_decide (sequences_of _ = one_to _))); [done|].
  cbn [reject_if mbind result_bind].
  set (k := merge_sort attempt_key_le attempts) in *.
  destruct (decide (NoDup (map ar_sequence audits))) as [Hn|Hn].
  - assert (merge_sort audit_key_le audits = merge_sort audit_key_le audits') as Hs.
    { apply (merge_sort_ext _ ar_sequence); [|done|done]. unfold audit_key_le. lia. }
    by rewrite Hs.
  - assert (∀ r, r ≡ₚ audits →
      negb (bool_decide (sequences_of k = map ar_sequence (merge_sort audit_key_le r))) = true)
      as Hbad.
    { intros r Hrp. rewrite bool_decide_eq_false_2; [done|]. intros Heq. apply Hn.
      rewrite <-Hrp, <-(merge_sort_Permutation audit_key_le r), <-Heq. exact Hd. }
    by rewrite !Hbad.
Qed.

Lemma evaluation_attempts env attempts audits ev :
  evaluate_evidence env attempts audits = Ok ev →
  ∃ l, deduplicate_attempts l = Ok (ce_attempts ev) ∧ NoDup (decision_ids l).
Proof.
  unfold evaluate_evidence. intros H. inv_ok.
  match goal with Hx : recheck_attempts _ _ _ = Ok _ |- _ =>
    unfold recheck_attempts in Hx end. inv_ok. rewrite has_dup_false in *.
  match goal with Hx : core_evaluation _ _ = Ok _ |- _ =>
    unfold core_evaluation in Hx end. inv_ok.
  destruct (core_classification _ _) as [[] ]. inv_ok. subst. eauto.
Qed.

Lemma evaluation_identifiers env attempts audits ev :
  evaluate_evidence env attempts audits = Ok ev → NoDup (decision_ids attempts).
Proof.
  unfold evaluate_evidence. intros H. inv_ok.
  match goal with Hx : recheck_attempts _ _ _ = Ok _ |- _ =>
    unfold recheck_attempts in Hx end. inv_ok. rewrite has_dup_false in *.
  unfold decision_ids in *. by rewrite merge_sort_Permutation in *.
Qed.

Lemma reject_duplicate_inv a b :
  reject_duplicate a = Ok b →
  at_evidence b = at_evidence a ∧ at_raw_sha256 b = at_raw_sha256 a ∧
  at_request_sha256 b = at_request_sha256 a ∧
  ed_evidence_id (at_decision b) = ed_evidence_id (at_decision a) ∧
  ed_disposition (at_decision b) = REJECTED_EVIDENCE ∧
  ed_reason (at_decision b) = DUPLICATE_CANDIDATES.
Proof.
  unfold reject_duplicate. intros H. inv_ok.
  match goal with Hd : make_decision _ _ _ = Ok _ |- _ =>
    apply make_decision_inv in Hd as [-> _] end.
  by apply make_attempt_inv in H as (-> & _).
Qed.

(** The key of an attempt that has evidence and raw bytes. *)
Definition keyed (a : EvidenceAttempt) (k : string * string * string * string * option string * string)
  : Prop := ∃ e raw, at_evidence a = Some e ∧ at_raw_sha256 a = Some raw ∧
    dedup_key a e raw = k.

(** One step of the loop: what it emits and what it remembers. *)
Lemma deduplicate_cons seen a rest l :
  deduplicate seen (a :: rest) = Ok l →
  ∃ b t seen', l = b :: t ∧ deduplicate seen' rest = Ok t ∧
    (∀ k, keyed b k ↔ keyed a k) ∧
    ed_evidence_id (at_decision b) = ed_evidence_id (at_decision a) ∧
    (∀ k, keyed a k → is_Some (dict_get k seen')) ∧
    (∀ k v, dict_get k seen = Some v → dict_get k seen' = Some v) ∧
    (∀ k v, dict_get k seen' = Some v →
      dict_get k seen = Some v ∨ v = ed_evidence_id (at_decision a)) ∧
    (∀ k v, keyed a k → dict_get k seen = Some v → v ≠ ed_evidence_id (at_decision a) →
      ed_disposition (at_decision b) = REJECTED_EVIDENCE ∧
      ed_reason (at_decision b) = DUPLICATE_CANDIDATES).
Proof.
  cbn. intros Hd.
  destruct (at_raw_sha256 a) as [raw|] eqn:Hr; [destruct (at_evidence a) as [e|] eqn:He|].
  2,3: inv_ok; subst; eexists a, _, seen; split_and!; try done; unfold keyed; naive_solver.
  assert (∀ k, keyed a k ↔ dedup_key a e raw = k) as Hkey by (unfold keyed; naive_solver).
  destruct (dict_get (dedup_key a e raw) seen) as [first|] eqn:Hs.
  - case_bool_decide as Heq; inv_ok; subst.
    + eexists a, _, seen. split_and!; try done; try setoid_rewrite Hkey; naive_solver.
    + match goal with Hx : reject_duplicate _ = Ok _ |- _ =>
        apply reject_duplicate_inv in Hx as (H1 & H2 & H3 & H4 & H5 & H6) end.
      eexists _, _, seen. split_and!; try done; try setoid_rewrite Hkey.
      * intros k. rewrite <-Hkey. unfold keyed, dedup_key. by rewrite H1, H2, H3.
      * naive_solver.
      * naive_solver.
  - inv_ok; subst. eexists a, _, _. split_and!; try done; try setoid_rewrite Hkey.
    + intros k <-. rewrite dict_get_set_eq. eauto.
    + intros k v Hv. rewrite dict_get_set_ne; [done|]. congruence.
    + intros k v Hv. destruct (decide (k = dedup_key a e raw)) as [->|Hne].
      * rewrite dict_get_set_eq in Hv. right. congruence.
      * rewrite dict_get_set_ne in Hv by done. by left.
    + intros k v <- Hv. congruence.
Qed.

(** An attempt whose key was seen under another identifier is a duplicate. *)
Lemma deduplicate_seen seen l l' b k :
  deduplicate seen l = Ok l' → NoDup (decision_ids l) →
  (∀ k v, dict_get k seen = Some v → v ∉ decision_ids l) →
  b ∈ l' → keyed b k → is_Some (dict_get k seen) →
  ed_disposition (at_decision b) = REJECTED_EVIDENCE ∧
  ed_reason (at_decision b) = DUPLICATE_CANDIDATES.
Proof.
  revert seen l'. induction l as [|a l IH]; intros seen l' Hd Hn Hfresh Hb Hk Hs.
  { injection Hd as <-. by apply not_elem_of_nil in Hb. }
  apply deduplicate_cons in Hd as (b' & t & seen' & -> & Ht & Hkk & _ & _ & Hold & Hnew & Hrej).
  cbn in Hn. apply NoDup_cons in Hn as [Hnin Hn]. destruct Hs as [v Hv].
  apply elem_of_cons in Hb as [->|Hb].
  - apply (Hrej k v); [by apply Hkk|done|]. intros ->. apply (Hfresh _ _ Hv). left.
  - apply (IH seen' t); try done; [|by exists v; apply Hold].
    intros j u Hu. destruct (Hnew j u Hu) as [Hj| ->]; [|done].
    intros Hin. apply (Hfresh _ _ Hj). by right.
Qed.

Lemma deduplicate_pairs seen l l' i j a b k :
  deduplicate seen l = Ok l' → NoDup (decision_ids l) →
  (∀ k v, dict_get k seen = Some v → v ∉ decision_ids l) →
  (i < j)%nat → l' !! i = Some a → l' !! j = Some b → keyed a k → keyed b k →
  ed_disposition (at_decision b) = REJECTED_EVIDENCE ∧
  ed_reason (at_decision b) = DUPLICATE_CANDIDATES.
Proof.
  revert seen l' i j. induction l as [|x l IH]; intros seen l' i j Hd Hn Hfresh Hij Hi Hj Ha Hb.
  { by injection Hd as <-. }
  apply deduplicate_cons in Hd as (y & t & seen' & -> & Ht & Hkk & _ & Hin & Hold & Hnew & _).
  cbn in Hn. apply NoDup_cons in Hn as [Hnin Hn].
  assert (∀ k v, dict_get k seen' = Some v → v ∉ decision_ids l) as Hfresh'.
  { intros q v Hv. destruct (Hnew q v Hv) as [Hq| ->]; [|done].
    intros Hl. apply (Hfresh _ _ Hq). by right. }
  destruct j as [|j]; [lia|]. cbn in Hj. destruct i as [|i]; cbn in Hi.
  - injection Hi as ->. apply (deduplicate_seen seen' l t b k); try done.
    + by eapply list_elem_of_lookup_2.
    + by apply Hin, Hkk.
  - by apply (IH seen' t i j); try lia.
Qed.

(** C38: classification does not depend on arrival order.  Permuting the
    attempts and the audit trail leaves the evaluation, result or error,
    unchanged. *)
Theorem evaluation_order_independent env attempts attempts' audits audits' :
  attempts ≡ₚ attempts' → audits ≡ₚ audits' →
  evaluate_evidence env attempts audits = evaluate_evidence env attempts' audits'.
Proof.
  intros Ha Haud. unfold evaluate_evidence.
  by rewrite (recheck_permutation env attempts attempts' audits audits').
Qed.

(** A source is retained once.  Of two attempts of an evaluation with the
    same capability, source, adapter, request and raw observation, the later is
    rejected as a duplicate. *)
Lemma retained_sources_unique env audits attempts ev i j a b k :
  evaluate_evidence env attempts audits = Ok ev →
  (i < j)%nat → ce_attempts ev !! i = Some a → ce_attempts ev !! j = Some b →
  keyed a k → keyed b k →
  ed_disposition (at_decision b) = REJECTED_EVIDENCE ∧
  ed_reason (at_decision b) = DUPLICATE_CANDIDATES.
Proof.
  intros (l & Hl & Hn)%evaluation_attempts Hij Hi Hj Ha Hb.
  by apply (deduplicate_pairs [] l (ce_attempts ev) i j a b k).
Qed.

(** The action gates of every evaluation are safe.  They answer the five
    requests in order; continuation is allowed exactly when the outcome is
    COMMITTED, retry and compensation never, observation always, and
    escalation is required exactly when the outcome is not COMMITTED. *)
Lemma action_gates_safe env attempts audits ev :
  evaluate_evidence env attempts audits = Ok ev →
  map ag_requested_action (ce_action_gates ev) = all_actions ∧
  ∀ g, g ∈ ce_action_gates ev →
    ag_classification g = ce_classification ev ∧
    (ag_requested_action g = Action_CONTINUE →
      (ag_allowed g = true ↔ ce_classification ev = COMMITTED)) ∧
    (ag_requested_action g = Action_RETRY ∨ ag_requested_action g = Action_COMPENSATE →
      ag_allowed g = false) ∧
    (ag_requested_action g = Action_OBSERVE → ag_allowed g = true) ∧
    (ag_escalation_required g = true ↔ ce_classification ev ≠ COMMITTED).
Proof.
  unfold evaluate_evidence. intros H. inv_ok.
  match goal with Hx : core_evaluation _ _ = Ok _ |- _ =>
    unfold core_evaluation in Hx end. inv_ok.
  destruct (core_classification _ _) as [[? ?] c]. inv_ok. subst.
  match goal with Hx : action_gates _ _ _ = Ok _ |- _ =>
    rewrite action_gates_ok in Hx; injection Hx as <- end.
  cbn [ce_action_gates ce_classification]. split; [done|].
  intros g Hg. rewrite !elem_of_cons, elem_of_nil in Hg.
  destruct_or! Hg; subst g; destruct c; cbn; split_and!; try done; naive_solver.
Qed.

End properties.

(** ** What the outcomes mean

    The outcomes in terms of what the admitted evidence says: which effects it
    asserts and denies, and which operation statuses it reports. *)

Section meaning.
Context (admitted : NormalizedEvidence → Prop) (effects : list ExpectedEffect).

Definition effect_asserted (state : EffectAssertionState) (x : ExpectedEffect) : Prop :=
  ∃ e, admitted e ∧ asserts (ee_effect_id x) state e.
Definition effect_established (x : ExpectedEffect) : Prop :=
  effect_asserted ESTABLISHED x ∧ ¬ effect_asserted NOT_ESTABLISHED x.
Definition effect_absent (x : ExpectedEffect) : Prop :=
  effect_asserted NOT_ESTABLISHED x ∧ ¬ effect_asserted ESTABLISHED x.
Definition status_reported (status : OperationStatus) : Prop :=
  ∃ e, admitted e ∧ ne_operation_status e = Some status.
Definition every_established : Prop := ∀ x, x ∈ effects → effect_established x.

Inductive authority_conflict : Prop :=
  | conflict_effect x :
      x ∈ effects → effect_asserted ESTABLISHED x → effect_asserted NOT_ESTABLISHED x →
      authority_conflict
  | conflict_terminal :
      status_reported TERMINAL_COMMITTED → status_reported TERMINAL_NOT_COMMITTED →
      authority_conflict
  | conflict_unfinished status :
      status_reported TERMINAL_NOT_COMMITTED → status_reported status →
      status = ACTIVE ∨ status = UNRESOLVED → authority_conflict
  | conflict_executed x :
      status_reported TERMINAL_NOT_COMMITTED → x ∈ effects → effect_established x →
      authority_conflict
  | conflict_incomplete status x :
      status_reported TERMINAL_COMMITTED → status_reported status →
      status = ACTIVE ∨ status = UNRESOLVED → x ∈ effects → ¬ effect_established x →
      authority_conflict.

(** Whole commit scopes are established and whole commit scopes are absent. *)
Record scope_mixture : Prop := {
  sm_established : ∃ x, x ∈ effects ∧ effect_established x;
  sm_absent : ∃ x, x ∈ effects ∧ effect_absent x;
  sm_whole x y : x ∈ effects → y ∈ effects → ee_commit_scope x = ee_commit_scope y →
    (effect_established x ∧ effect_established y) ∨ (effect_absent x ∧ effect_absent y);
}.

(** The operation is known to be running. *)
Definition known_active : Prop := status_reported ACTIVE ∧ ¬ status_reported UNRESOLVED.

Inductive outcome : Classification → Prop :=
  | outcome_conflict : authority_conflict → outcome UNKNOWN
  | outcome_committed : ¬ authority_conflict → every_established → outcome COMMITTED
  | outcome_active :
      ¬ authority_conflict → ¬ every_established → known_active → outcome PENDING
  | outcome_partial :
      ¬ authority_conflict → ¬ every_established → ¬ known_active → scope_mixture →
      outcome PARTIAL
  | outcome_unresolved :
      ¬ authority_conflict → ¬ every_established → ¬ scope_mixture →
      status_reported UNRESOLVED → outcome PENDING
  | outcome_not_committed :
      ¬ authority_conflict → ¬ every_established → ¬ scope_mixture →
      status_reported TERMINAL_NOT_COMMITTED → outcome NOT_COMMITTED
  | outcome_unproved :
      ¬ authority_conflict → ¬ every_established → ¬ scope_mixture →
      (∀ status, status_reported status → status = TERMINAL_COMMITTED) → outcome UNKNOWN.

(** Evidence has one outcome. *)
Lemma outcome_unique c d : outcome c → outcome d → c = d.
Proof.
  assert (status_reported ACTIVE → status_reported TERMINAL_NOT_COMMITTED → authority_conflict)
    as Ha by (intros; apply (conflict_unfinished ACTIVE); auto).
  assert (status_reported UNRESOLVED → status_reported TERMINAL_NOT_COMMITTED →
    authority_conflict) as Hu by (intros; apply (conflict_unfinished UNRESOLVED); auto).
  assert ((∀ s, status_reported s → s = TERMINAL_COMMITTED) → ¬ status_reported ACTIVE ∧
    ¬ status_reported UNRESOLVED ∧ ¬ status_reported TERMINAL_NOT_COMMITTED) as Hn
    by (intros Hs; split_and!; by intros ?%Hs).
  intros Hc Hd.
  destruct Hc, Hd; try done; exfalso; unfold known_active in *;
    repeat match goal with H : ∀ s, status_reported s → _ |- _ => apply Hn in H end; tauto.
Qed.

End meaning.

(** [e] is the evidence of an admitted attempt. *)
Definition admitted_in (attempts : list EvidenceAttempt) (e : NormalizedEvidence) : Prop :=
  ∃ a, a ∈ attempts ∧ at_evidence a = Some e ∧ ed_disposition (at_decision a) = ADMITTED.

(** The classifier's flags, read as what the evidence says. *)
Section exact.
Context {rt : Runtime} {sec : Security} {od : ObservationDecoder}.
Context (effects : list ExpectedEffect) (l : list EvidenceAttempt).

#[local] Abbreviation A := (admitted_evidence l).
#[local] Abbreviation says := (admitted_in l).
#[local] Abbreviation state_of x := (finding_state (states_for (ee_effect_id x) A)).

Lemma admitted_in_elem e : e ∈ A ↔ says e.
Proof.
  unfold admitted_evidence, admitted_in. rewrite list_elem_of_fmap. split.
  - intros ([a e'] & -> & Ha%admitted_pairs_elem). by exists a.
  - intros (a & Ha). exists (a, e). split; [done|]. by apply admitted_pairs_elem.
Qed.

Lemma asserted_elem x state :
  state ∈ states_for (ee_effect_id x) A ↔ effect_asserted says state x.
Proof. rewrite states_for_elem. unfold effect_asserted. by setoid_rewrite admitted_in_elem. Qed.

Lemma reported_elem status : status ∈ statuses_of A ↔ status_reported says status.
Proof. rewrite status_elem. unfold status_reported. by setoid_rewrite admitted_in_elem. Qed.

Lemma reported_inb status : inb status (statuses_of A) = true ↔ status_reported says status.
Proof. by rewrite inb_true, reported_elem. Qed.

Lemma established_state x : state_of x = ESTABLISHED ↔ effect_established says x.
Proof.
  unfold effect_established. rewrite <-!asserted_elem. split.
  - apply finding_state_spec.
  - intros [He%inb_true Hn%inb_false]. unfold finding_state, contradictory. by rewrite He, Hn.
Qed.

Lemma absent_state x : state_of x = NOT_ESTABLISHED ↔ effect_absent says x.
Proof.
  unfold effect_absent. rewrite <-!asserted_elem. split.
  - apply finding_state_spec.
  - intros [Hn%inb_true He%inb_false]. unfold finding_state, contradictory. by rewrite He, Hn.
Qed.

Lemma contradictory_asserted x :
  contradictory (states_for (ee_effect_id x) A) = true ↔
  effect_asserted says ESTABLISHED x ∧ effect_asserted says NOT_ESTABLISHED x.
Proof. unfold contradictory. by rewrite andb_true_iff, !inb_true, !asserted_elem. Qed.

Lemma in_state_elem state i :
  i ∈ effects_in_state state A effects ↔ ∃ x, x ∈ effects ∧ i = ee_effect_id x ∧ state_of x = state.
Proof.
  unfold effects_in_state. rewrite list_elem_of_fmap. setoid_rewrite list_elem_of_filter.
  naive_solver.
Qed.

Lemma length_filter_all {B} (P : B → Prop) `{!∀ x, Decision (P x)} k :
  length (filter P k) = length k ↔ ∀ x, x ∈ k → P x.
Proof.
  split.
  - induction k as [|y k IH]; intros Hlen x Hx; [by apply not_elem_of_nil in Hx|].
    rewrite filter_cons in Hlen. pose proof (length_filter P k) as Hle.
    case_decide; cbn [length] in Hlen; [|lia].
    apply elem_of_cons in Hx as [->|Hx]; [done|]. apply IH; [lia|done].
  - intros HP. induction k as [|y k IH]; [done|]. rewrite filter_cons_True by (apply HP; left).
    cbn. f_equal. apply IH. intros x Hx. apply HP. by right.
Qed.

Lemma all_flag :
  (length (effects_in_state ESTABLISHED A effects) =? length effects)%nat = true ↔
  every_established says effects.
Proof.
  unfold effects_in_state, every_established. rewrite Nat.eqb_eq, length_map, length_filter_all.
  by setoid_rewrite established_state.
Qed.

Lemma any_flag :
  negb (bool_decide (effects_in_state ESTABLISHED A effects = [])) = true ↔
  ∃ x, x ∈ effects ∧ effect_established says x.
Proof.
  rewrite negb_true_iff, bool_decide_eq_false. split.
  - intros Hne. destruct (effects_in_state _ _ _) as [|i r] eqn:Hi; [done|].
    assert (i ∈ i :: r) as Hin by left. rewrite <-Hi in Hin.
    apply in_state_elem in Hin as (x & Hx & _ & Hs). exists x. by rewrite <-established_state.
  - intros (x & Hx & Hs%established_state) Hnil.
    assert (ee_effect_id x ∈ effects_in_state ESTABLISHED A effects) as Hin
      by (apply in_state_elem; eauto).
    rewrite Hnil in Hin. by apply not_elem_of_nil in Hin.
Qed.

Lemma progress_flag :
  in_progress (statuses_of A) = true ↔
  ∃ status, status_reported says status ∧ (status = ACTIVE ∨ status = UNRESOLVED).
Proof.
  unfold in_progress. rewrite orb_true_iff, !reported_inb. naive_solver.
Qed.

Lemma negb_flag (b : bool) (P : Prop) : (b = true ↔ P) → (negb b = true ↔ ¬ P).
Proof. intros HP. rewrite <-HP. destruct b; naive_solver. Qed.

Lemma not_all_established :
  (length (effects_in_state ESTABLISHED A effects) =? length effects)%nat = false ↔
  ∃ x, x ∈ effects ∧ ¬ effect_established says x.
Proof.
  rewrite <-not_true_iff_false, all_flag. split.
  - intros Hn. destruct (decide (Exists (λ x, state_of x ≠ ESTABLISHED) effects)) as [He|He].
    + apply Exists_exists in He as (x & Hx & Hs). exists x. by rewrite <-established_state.
    + destruct Hn. intros x Hx. apply established_state.
      destruct (decide (state_of x = ESTABLISHED)) as [|Hs]; [done|].
      destruct He. apply Exists_exists. by exists x.
  - intros (x & Hx & Hn) Hall. by apply Hn, Hall.
Qed.

Lemma conflict_flag :
  (core_classification effects A).1.1 = true ↔ authority_conflict says effects.
Proof.
  unfold core_classification, is_conflicting. cbn [fst].
  rewrite !orb_true_iff, !andb_true_iff, existsb_true_iff, any_flag, negb_true_iff,
    not_all_established, progress_flag, !reported_inb.
  setoid_rewrite contradictory_asserted. split.
  - intros [[[(x & ? & ? & ?)|[[? ?]|[? (s & ? & ?)]]]|[? (x & ? & ?)]]|
            [[? (s & ? & ?)] (x & ? & ?)]].
    + by eapply conflict_effect.
    + by apply conflict_terminal.
    + by eapply conflict_unfinished.
    + by eapply conflict_executed.
    + by eapply conflict_incomplete.
  - intros []; naive_solver.
Qed.

(** *** Commit scopes *)

Lemma scopes_elem scope :
  scope ∈ scopes_of (effect_scopes effects) ↔ ∃ x, x ∈ effects ∧ ee_commit_scope x = scope.
Proof.
  unfold scopes_of, effect_scopes. rewrite elem_of_remove_dups, list_elem_of_fmap. split.
  - intros ([i s] & -> & (x & [= -> ->] & Hx)%list_elem_of_fmap). eauto.
  - intros (x & Hx & <-). exists (ee_effect_id x, ee_commit_scope x). split; [done|].
    apply list_elem_of_fmap. eauto.
Qed.

Lemma within_elem state scope :
  scope ∈ scopes_within (effect_scopes effects) (effects_in_state state A effects) ↔
  scope ∈ scopes_of (effect_scopes effects) ∧
  ∀ x, x ∈ effects → ee_commit_scope x = scope → state_of x = state.
Proof.
  rewrite scopes_within_elem. apply and_iff_compat_l. split.
  - intros Hsub x Hx <-.
    assert (ee_effect_id x ∈ effects_in_state state A effects) as Hi.
    { apply Hsub, list_elem_of_fmap. exists (ee_effect_id x, ee_commit_scope x).
      split; [done|]. apply list_elem_of_filter. split; [done|]. apply list_elem_of_fmap. eauto. }
    apply in_state_elem in Hi as (y & _ & Hid & Hs). by rewrite Hid.
  - intros Hall i ([i' s] & -> & Hin)%list_elem_of_fmap.
    apply list_elem_of_filter in Hin as [Hs (x & [= -> ->] & Hx)%list_elem_of_fmap].
    apply in_state_elem. exists x. split_and!; [done..|]. by apply Hall.
Qed.

#[local] Abbreviation fully state :=
  (scopes_within (effect_scopes effects) (effects_in_state state A effects)).
#[local] Abbreviation scopes := (scopes_of (effect_scopes effects)).

Lemma fully_less :
  (length (fully ESTABLISHED) < length scopes)%nat ↔
  ∃ scope, scope ∈ scopes ∧ scope ∉ fully ESTABLISHED.
Proof.
  pose proof (length_filter (λ scope, subsetb (effects_of_scope (effect_scopes effects) scope)
    (effects_in_state ESTABLISHED A effects) = true) scopes) as Hle.
  fold (fully ESTABLISHED) in Hle. split.
  - intros Hlt. destruct (decide (Exists (λ scope, scope ∉ fully ESTABLISHED) scopes)) as [He|He].
    + apply Exists_exists in He as (scope & ? & ?). eauto.
    + assert (length (fully ESTABLISHED) = length scopes); [|lia].
      apply length_filter_all. intros scope Hs.
      destruct (decide (scope ∈ fully ESTABLISHED)) as [Hin|Hin].
      * by apply list_elem_of_filter in Hin as [? _].
      * destruct He. apply Exists_exists. eauto.
  - intros (scope & Hs & Hn). destruct (decide (length (fully ESTABLISHED) = length scopes)) as [He|];
      [|lia].
    destruct Hn. apply list_elem_of_filter. split; [|done].
    exact (proj1 (length_filter_all _ _) He scope Hs).
Qed.

Lemma partial_flag :
  is_partial (effect_scopes effects) (effects_in_state ESTABLISHED A effects)
    (effects_in_state NOT_ESTABLISHED A effects) = true ↔ scope_mixture says effects.
Proof.
  unfold is_partial. rewrite !andb_true_iff, !Nat.ltb_lt, Nat.leb_le, same_set_true, fully_less.
  split.
  - intros [[_ [Hne (scope & Hs & Hn)]] Hsame].
    assert (∀ x, x ∈ effects → ee_commit_scope x ∈ fully ESTABLISHED ∨
      ee_commit_scope x ∈ fully NOT_ESTABLISHED) as Hwhole.
    { intros x Hx. apply elem_of_app, Hsame, scopes_elem. eauto. }
    split.
    + destruct (fully ESTABLISHED) as [|sc r] eqn:Hf; [cbn in Hne; lia|].
      assert (sc ∈ fully ESTABLISHED) as Hin by (rewrite Hf; left).
      apply within_elem in Hin as [(x & Hx & Hsc)%scopes_elem Hall].
      exists x. split; [done|]. apply established_state. by apply Hall.
    + apply scopes_elem in Hs as (x & Hx & <-). exists x. split; [done|].
      apply absent_state. destruct (Hwhole x Hx) as [|Hin]; [done|].
      by apply within_elem in Hin as [_ Hall]; apply Hall.
    + intros x y Hx Hy Hxy. rewrite <-!established_state, <-!absent_state.
      destruct (Hwhole x Hx) as [Hin|Hin]; apply within_elem in Hin as [_ Hall];
        [left|right]; split; by apply Hall.
  - intros [(x & Hx & Hex) (y & Hy & Hay) Hwhole].
    assert (∀ x, x ∈ effects → ee_commit_scope x ∈ scopes) as Hin
      by (intros z Hz; apply scopes_elem; eauto).
    assert (∀ x, effect_established says x → ¬ effect_absent says x) as Hexcl.
    { intros z Hz%established_state Ha%absent_state. congruence. }
    assert (∀ x, x ∈ effects → effect_established says x → ee_commit_scope x ∈ fully ESTABLISHED)
      as Hest.
    { intros z Hz He. apply within_elem. split; [by apply Hin|]. intros w Hw Heq.
      apply established_state. destruct (Hwhole z w Hz Hw (eq_sym Heq)) as [[_ ?]|[? _]]; [done|].
      by destruct (Hexcl z). }
    assert (∀ x, x ∈ effects → effect_absent says x → ee_commit_scope x ∈ fully NOT_ESTABLISHED)
      as Habs.
    { intros z Hz He. apply within_elem. split; [by apply Hin|]. intros w Hw Heq.
      apply absent_state. destruct (Hwhole z w Hz Hw (eq_sym Heq)) as [[? _]|[_ ?]]; [|done].
      by destruct (Hexcl z). }
    assert (0 < length (fully ESTABLISHED))%nat as Hpos.
    { specialize (Hest x Hx Hex). destruct (fully ESTABLISHED); [by apply not_elem_of_nil in Hest|].
      cbn. lia. }
    assert (∃ scope, scope ∈ scopes ∧ scope ∉ fully ESTABLISHED) as Hless.
    { exists (ee_commit_scope y). split; [by apply Hin|]. intros [_ Hall]%within_elem.
      apply (Hexcl y); [|done]. by apply established_state, Hall. }
    split_and!; [|done|done|].
    + apply fully_less in Hless. lia.
    + intros scope. rewrite elem_of_app, !within_elem. split; [tauto|].
      intros Hs. pose proof Hs as (z & Hz & <-)%scopes_elem.
      destruct (Hwhole z z Hz Hz eq_refl) as [[He _]|[He _]].
      * left. apply within_elem. by apply Hest.
      * right. apply within_elem. by apply Habs.
Qed.

(** *** The classification *)

Lemma flag_false (b : bool) (P : Prop) : (b = true ↔ P) → b = false → ¬ P.
Proof. intros HP Hb Hp%HP. congruence. Qed.

(** Without a conflict, the status of the proof is the strongest that is reported. *)
Definition status_rank (status : OperationStatus) : nat :=
  match status with
  | TERMINAL_NOT_COMMITTED => 0 | ACTIVE => 1 | UNRESOLVED => 2 | TERMINAL_COMMITTED => 3
  end.

Lemma status_of_proof status :
  operation_status_of false (statuses_of A) = Some status ↔
  status_reported says status ∧
  ∀ other, status_reported says other → (status_rank other ≤ status_rank status)%nat.
Proof.
  unfold operation_status_of. setoid_rewrite <-reported_inb. split.
  - destruct (inb TERMINAL_COMMITTED _) eqn:H3; [|destruct (inb UNRESOLVED _) eqn:H2;
      [|destruct (inb ACTIVE _) eqn:H1; [|destruct (inb TERMINAL_NOT_COMMITTED _) eqn:H0; [|done]]]];
      intros [= <-]; (split; [done|]); intros []; cbn; intros; try lia; congruence.
  - intros [Hs Hmax].
    assert (∀ other, inb other (statuses_of A) = true → (status_rank status < status_rank other)%nat
      → False) as Hno by (intros other Ho%Hmax ?; lia).
    destruct (inb TERMINAL_COMMITTED _) eqn:H3; [|destruct (inb UNRESOLVED _) eqn:H2;
      [|destruct (inb ACTIVE _) eqn:H1; [|destruct (inb TERMINAL_NOT_COMMITTED _) eqn:H0]]];
      destruct status; try congruence; exfalso;
      first [by eapply (Hno TERMINAL_COMMITTED); [done|cbn; lia]
            |by eapply (Hno UNRESOLVED); [done|cbn; lia]
            |by eapply (Hno ACTIVE); [done|cbn; lia]].
Qed.

Lemma active_flag :
  ¬ authority_conflict says effects → ¬ every_established says effects →
  bool_decide (operation_status_of false (statuses_of A) = Some ACTIVE) = true ↔
  known_active says.
Proof.
  intros Hc Ha. rewrite bool_decide_eq_true, status_of_proof. unfold known_active. split.
  - intros [Hs Hmax]. split; [done|]. intros Hu%Hmax. cbn in Hu. lia.
  - intros [Hs Hu]. split; [done|]. intros [] Ho; cbn; try lia; [done|]. exfalso.
    assert ((length (effects_in_state ESTABLISHED A effects) =? length effects)%nat = false) as Hn
      by (by apply not_true_iff_false; rewrite all_flag).
    apply not_all_established in Hn as (x & Hx & Hn).
    apply Hc, (conflict_incomplete _ _ ACTIVE x); auto.
Qed.

Lemma unresolved_flag :
  ¬ authority_conflict says effects → ¬ every_established says effects →
  bool_decide (operation_status_of false (statuses_of A) = Some UNRESOLVED) = true ↔
  status_reported says UNRESOLVED.
Proof.
  intros Hc Ha. rewrite bool_decide_eq_true, status_of_proof. split; [by intros [? _]|].
  intros Hs. split; [done|]. intros [] Ho; cbn; try lia. exfalso.
  assert ((length (effects_in_state ESTABLISHED A effects) =? length effects)%nat = false) as Hn
    by (by apply not_true_iff_false; rewrite all_flag).
  apply not_all_established in Hn as (x & Hx & Hn).
  apply Hc, (conflict_incomplete _ _ UNRESOLVED x); auto.
Qed.

(** The classifier computes the outcome of the admitted evidence. *)
Lemma classified : outcome says effects (core_classification effects A).2.
Proof.
  pose proof conflict_flag as Hconf. unfold core_classification in *. cbn [fst snd] in *.
  set (conflicting := is_conflicting _ _ _ _) in *. unfold classify.
  destruct conflicting; [by apply outcome_conflict, Hconf|].
  apply flag_false in Hconf; [|done].
  destruct (_ =? _)%nat eqn:Hall; [by apply outcome_committed; [|apply all_flag]|].
  pose proof (flag_false _ _ all_flag Hall) as Hna.
  destruct (bool_decide (_ = Some ACTIVE)) eqn:Hact.
  { apply active_flag in Hact; [|done..]. by apply outcome_active. }
  apply (flag_false _ _ (active_flag Hconf Hna)) in Hact.
  destruct (is_partial _ _ _) eqn:Hp; [by apply outcome_partial, partial_flag|].
  apply (flag_false _ _ partial_flag) in Hp.
  destruct (bool_decide (_ = Some UNRESOLVED)) eqn:Hun.
  { apply unresolved_flag in Hun; [|done..]. by apply outcome_unresolved. }
  apply (flag_false _ _ (unresolved_flag Hconf Hna)) in Hun.
  destruct (inb TERMINAL_NOT_COMMITTED _) eqn:Ht.
  - apply reported_inb in Ht. destruct (negb (bool_decide (_ = []))) eqn:Hany; cbn [negb andb].
    + apply any_flag in Hany as (x & Hx & He). destruct Hconf. by eapply conflict_executed.
    + by apply outcome_not_committed.
  - apply (flag_false _ _ (reported_inb _)) in Ht. cbn [andb]. apply outcome_unproved; [done..|].
    intros [] Hs; try done. by destruct Hact.
Qed.

End exact.

(** ** The classification is exact *)

Section classification_theorem.
Context {rt : Runtime} {sec : Security} {od : ObservationDecoder}.

Lemma evaluation_classified env attempts audits ev :
  evaluate_evidence env attempts audits = Ok ev →
  ce_classification ev
    = (core_classification (en_expected_effects env) (admitted_evidence (ce_attempts ev))).2.
Proof.
  unfold evaluate_evidence. intros H. inv_ok.
  match goal with Hx : core_evaluation _ _ = Ok _ |- _ => unfold core_evaluation in Hx end. inv_ok.
  destruct (core_classification _ _) as [[conflicting status] c] eqn:Hc. inv_ok. subst.
  cbn [ce_classification ce_attempts].
  match goal with Hx : admitted_attempts _ _ = Ok _ |- _ => apply admitted_attempts_pairs in Hx end.
  subst. unfold admitted_evidence. by rewrite Hc.
Qed.

(** C31: a classification is exact.  An evaluation is classified as the admitted
    evidence says and in no other way: UNKNOWN on a conflict of authority; else
    COMMITTED when every expected effect is asserted and none denied; else PENDING
    when the operation is known to be running; else PARTIAL when whole commit scopes
    are established and whole ones absent; else PENDING when it is reported
    unresolved, NOT_COMMITTED when it is reported to have ended without commit, and
    UNKNOWN otherwise. *)
Theorem classification_exact env attempts audits ev c :
  evaluate_evidence env attempts audits = Ok ev →
  outcome (admitted_in (ce_attempts ev)) (en_expected_effects env) c ↔
  ce_classification ev = c.
Proof.
  intros ->%evaluation_classified. split; [|intros <-; apply classified].
  apply outcome_unique, classified.
Qed.

End classification_theorem.
