(* ===== verification/RecoveryConflicts.v ===== *)
(** Authority conflicts, seen by the classifier and by the verifier.

    The classifier reduces the admitted evidence to one flag; the verifier looks
    for the pairs of items that contradict each other.  Both are the same
    relation on evidence. *)

From S2P Require Export RecoveryProperties ClassificationProperties.

#[local] Open Scope Z_scope.

(** Two evidence items that cannot both be right about one operation. *)
Inductive contradicts (findings : list EffectFinding) (e f : NormalizedEvidence) : Prop :=
  | contradicts_effect x :
      x ∈ finding_ids findings →
      ClassificationProperties.asserts x ESTABLISHED e →
      ClassificationProperties.asserts x NOT_ESTABLISHED f →
      contradicts findings e f
  | contradicts_status s t :
      (s, t) ∈ incompatible_statuses findings →
      ne_operation_status e = Some s → ne_operation_status f = Some t →
      contradicts findings e f
  | contradicts_absence x :
      ClassificationProperties.asserts x ESTABLISHED e →
      ne_operation_status f = Some TERMINAL_NOT_COMMITTED →
      contradicts findings e f.

Section conflicts.
Context {rt : Runtime} {sec : Security} {od : ObservationDecoder}.

(** ** The verifier's pairs *)

Lemma asserts_iff x s e :
  RecoveryVerification.asserts x s e = true ↔ ClassificationProperties.asserts x s e.
Proof.
  unfold RecoveryVerification.asserts. rewrite existsb_exists. split.
  - intros (a & Ha & [Hx Hs]%andb_true_iff). apply bool_decide_eq_true in Hx, Hs.
    exists a. split; [by apply list_elem_of_In|done].
  - intros (a & Ha & Hx & Hs). exists a. split; [by apply list_elem_of_In|].
    by rewrite !bool_decide_eq_true_2.
Qed.

Lemma asserting_ids_elem x s evidence i :
  i ∈ asserting_ids x s evidence ↔
  ∃ e, e ∈ evidence ∧ ClassificationProperties.asserts x s e ∧ ne_evidence_id e = i.
Proof.
  unfold asserting_ids, evidence_ids. rewrite sorted_strings_perm, list_elem_of_fmap.
  setoid_rewrite list_elem_of_filter. setoid_rewrite asserts_iff. naive_solver.
Qed.

Lemma status_ids_elem s evidence i :
  i ∈ status_ids evidence s ↔
  ∃ e, e ∈ evidence ∧ ne_operation_status e = Some s ∧ ne_evidence_id e = i.
Proof.
  unfold status_ids, evidence_ids. rewrite sorted_strings_perm, list_elem_of_fmap.
  setoid_rewrite list_elem_of_filter. naive_solver.
Qed.

Lemma pairs_between_elem left right p :
  p ∈ pairs_between left right ↔ ∃ a b, a ∈ left ∧ b ∈ right ∧ p = sorted_pair a b.
Proof.
  unfold pairs_between. rewrite list_elem_of_bind. split.
  - intros (a & (b & -> & Hb)%list_elem_of_fmap & Ha). eauto.
  - intros (a & b & Ha & Hb & ->). exists a. split; [|done]. apply list_elem_of_fmap. eauto.
Qed.

Lemma established_ids_elem evidence i :
  i ∈ sorted_strings (evidence_ids (filter
        (λ e, ESTABLISHED ∈ assertion_states (ne_effect_assertions e)) evidence)) ↔
  ∃ e, e ∈ evidence ∧ (∃ x, ClassificationProperties.asserts x ESTABLISHED e) ∧
    ne_evidence_id e = i.
Proof.
  unfold evidence_ids. rewrite sorted_strings_perm, list_elem_of_fmap.
  setoid_rewrite list_elem_of_filter. split.
  - intros (e & -> & (a & Hs & Ha)%list_elem_of_fmap & He).
    exists e. split_and!; [done| |done]. exists (ea_effect_id a), a. by split_and!.
  - intros (e & He & (x & a & Ha & _ & Hs) & <-). exists e. split_and!; try done.
    apply list_elem_of_fmap. by exists a.
Qed.

Lemma generic_conflict_elem evaluation evidence p :
  p ∈ generic_conflict_pairs evaluation evidence ↔
  ∃ e f, e ∈ evidence ∧ f ∈ evidence ∧
    contradicts (dp_effect_findings (ce_proof evaluation)) e f ∧
    p = sorted_pair (ne_evidence_id e) (ne_evidence_id f).
Proof.
  unfold generic_conflict_pairs, sorted_pairs.
  rewrite merge_sort_Permutation, elem_of_remove_dups, !elem_of_app, !list_elem_of_bind.
  setoid_rewrite pairs_between_elem. setoid_rewrite asserting_ids_elem.
  setoid_rewrite established_ids_elem. setoid_rewrite status_ids_elem. split.
  - intros [(g & (a & b & (e & He & Hs & <-) & (f & Hf & Ht & <-) & ->) & Hg)
           |[([s t] & (a & b & (e & He & Hs & <-) & (f & Hf & Ht & <-) & ->) & Hst)
           |(a & b & (e & He & (x & Hs) & <-) & (f & Hf & Ht & <-) & ->)]];
      exists e, f; split_and!; try done.
    + eapply contradicts_effect; [|done..]. apply list_elem_of_fmap. by exists g.
    + by eapply contradicts_status.
    + by eapply contradicts_absence.
  - intros (e & f & He & Hf & [x Hx Hs Ht|s t Hst Hs Ht|x Hs Ht] & ->).
    + left. apply list_elem_of_fmap in Hx as (g & -> & Hg). exists g. split; [|done].
      eexists _, _. split_and!; [by exists e|by exists f|done].
    + right; left. exists (s, t). split; [|done].
      eexists _, _. split_and!; [by exists e|by exists f|done].
    + right; right. eexists _, _. split_and!; [exists e; eauto|by exists f|done].
Qed.

(** ** The classifier's flag *)

Section flag.
Context (env : ExecutionEnvelope) (l : list EvidenceAttempt).
Context (declared : ∀ e x s, e ∈ CoreFacts.admitted_evidence l →
  ClassificationProperties.asserts x s e → x ∈ expected_effect_ids env).
Context (Hlen : (length l ≤ 64)%nat).

#[local] Abbreviation A := (CoreFacts.admitted_evidence l).
#[local] Abbreviation F := (core_findings env l).

Lemma finding_id_elem x :
  x ∈ finding_ids F ↔ ∃ y, y ∈ en_expected_effects env ∧ ee_effect_id y = x.
Proof. rewrite core_finding_ids. unfold expected_effect_ids. rewrite list_elem_of_fmap. naive_solver. Qed.

Lemma contradictory_iff x :
  contradictory (states_for x A) = true ↔
  ∃ e f, e ∈ A ∧ f ∈ A ∧ ClassificationProperties.asserts x ESTABLISHED e ∧
    ClassificationProperties.asserts x NOT_ESTABLISHED f.
Proof.
  unfold contradictory. rewrite andb_true_iff, !inb_true, !states_for_elem. naive_solver.
Qed.

(** An established assertion either settles its effect or is contradicted. *)
Lemma asserted_established e x :
  e ∈ A → ClassificationProperties.asserts x ESTABLISHED e →
  existsb (λ y, contradictory (states_for (ee_effect_id y) A)) (en_expected_effects env) = true ∨
  effects_in_state ESTABLISHED A (en_expected_effects env) ≠ [].
Proof.
  intros He Hx. pose proof (declared e x _ He Hx) as Hin.
  apply list_elem_of_fmap in Hin as (y & -> & Hy).
  assert (ESTABLISHED ∈ states_for (ee_effect_id y) A) as Hs by (apply states_for_elem; eauto).
  destruct (contradictory (states_for (ee_effect_id y) A)) eqn:Hc; [left|right].
  - apply existsb_true_iff. eauto.
  - intros Hnil. apply (effects_none_established env l Hnil y Hy).
    unfold finding_state. by rewrite Hc, (proj2 (inb_true _ _) Hs).
Qed.

Lemma established_asserted :
  effects_in_state ESTABLISHED A (en_expected_effects env) ≠ [] →
  ∃ e x, e ∈ A ∧ ClassificationProperties.asserts x ESTABLISHED e.
Proof.
  intros Hne. destruct (effects_in_state _ _ _) as [|i k] eqn:Hk; [done|].
  assert (i ∈ effects_in_state ESTABLISHED A (en_expected_effects env)) as Hi
    by (rewrite Hk; left).
  apply list_elem_of_fmap in Hi as (y & -> & [Hs _]%list_elem_of_filter).
  apply finding_state_spec in Hs as [Hs _]. apply states_for_elem in Hs as (e & He & Ha). eauto.
Qed.

Lemma incompatible_elem s t :
  (s, t) ∈ incompatible_statuses F ↔
  (s = TERMINAL_COMMITTED ∧ t = TERMINAL_NOT_COMMITTED) ∨
  (s = TERMINAL_NOT_COMMITTED ∧ (t = ACTIVE ∨ t = UNRESOLVED)) ∨
  (s = TERMINAL_COMMITTED ∧ (t = ACTIVE ∨ t = UNRESOLVED) ∧
   forallb is_established F = false).
Proof.
  unfold incompatible_statuses.
  replace (forallb (λ f, bool_decide (ef_state f = ESTABLISHED)) F)
    with (forallb is_established F) by done.
  rewrite elem_of_app, !elem_of_cons, elem_of_nil.
  destruct (forallb is_established F) eqn:Hall;
    rewrite ?elem_of_nil, ?elem_of_cons, ?elem_of_nil; naive_solver.
Qed.

Lemma core_conflict_cases :
  core_conflict env l = true ↔
  (∃ y, y ∈ en_expected_effects env ∧ contradictory (states_for (ee_effect_id y) A) = true) ∨
  (∃ s t, (s, t) ∈ incompatible_statuses F ∧ s ∈ statuses_of A ∧ t ∈ statuses_of A) ∨
  (TERMINAL_NOT_COMMITTED ∈ statuses_of A ∧
   effects_in_state ESTABLISHED A (en_expected_effects env) ≠ []).
Proof.
  unfold core_conflict, core_classification, is_conflicting, in_progress. cbn [fst].
  rewrite <-(all_established l Hlen). fold F.
  rewrite !orb_true_iff, !andb_true_iff, !orb_true_iff, !inb_true, !negb_true_iff,
    existsb_true_iff, bool_decide_eq_false. setoid_rewrite incompatible_elem.
  split.
  - intros [[[H|[[Hc Hn]|[Hn [Ha|Hu]]]]|[Hn He]]|[[Hc [Ha|Hu]] Hall]]; [by left| | | | | |].
    + right; left. exists TERMINAL_COMMITTED, TERMINAL_NOT_COMMITTED. tauto.
    + right; left. exists TERMINAL_NOT_COMMITTED, ACTIVE. tauto.
    + right; left. exists TERMINAL_NOT_COMMITTED, UNRESOLVED. tauto.
    + by right; right.
    + right; left. exists TERMINAL_COMMITTED, ACTIVE. tauto.
    + right; left. exists TERMINAL_COMMITTED, UNRESOLVED. tauto.
  - intros [H|[(s & t & [[-> ->]|[[-> [-> | ->]]|(-> & [-> | ->] & Hall)]] & Hs & Ht)|[Hn He]]];
      tauto.
Qed.

(** The flag is raised exactly for admitted items that contradict each other. *)
Lemma core_conflict_contradicts :
  core_conflict env l = true ↔ ∃ e f, e ∈ A ∧ f ∈ A ∧ contradicts F e f.
Proof.
  rewrite core_conflict_cases. split.
  - intros [(y & Hy & (e & f & He & Hf & Hs & Ht)%contradictory_iff)
           |[(s & t & Hst & (e & He & Hs)%status_elem & (f & Hf & Ht)%status_elem)
           |[(f & Hf & Ht)%status_elem (e & x & He & Hs)%established_asserted]]];
      exists e, f; split_and!; try done.
    + eapply contradicts_effect; [|done..]. apply finding_id_elem. eauto.
    + by eapply contradicts_status.
    + by eapply contradicts_absence.
  - intros (e & f & He & Hf & [x Hx Hs Ht|s t Hst Hs Ht|x Hs Ht]).
    + left. apply finding_id_elem in Hx as (y & Hy & <-). exists y. split; [done|].
      apply contradictory_iff. eauto 10.
    + right; left. exists s, t. rewrite !status_elem. eauto 10.
    + destruct (asserted_established e x He Hs) as [H|H]; [left|right; right].
      * by apply existsb_true_iff.
      * split; [|done]. apply status_elem. eauto.
Qed.

End flag.

(** ** The evidence both read *)

Lemma NoDup_map_inj {X Y} (f : X → Y) (k : list X) x y :
  NoDup (map f k) → x ∈ k → y ∈ k → f x = f y → x = y.
Proof.
  intros Hn [i Hi]%list_elem_of_lookup [j Hj]%list_elem_of_lookup Heq.
  assert (i = j) as ->; [|congruence].
  apply (NoDup_lookup (f <$> k) i j (f x)); [done|..]; rewrite list_lookup_fmap.
  - by rewrite Hi.
  - by rewrite Hj, Heq.
Qed.

Lemma declared_effects env audits l e x s :
  pipeline_output env audits l → e ∈ CoreFacts.admitted_evidence l →
  ClassificationProperties.asserts x s e → x ∈ expected_effect_ids env.
Proof.
  intros Hl He (a & Ha & <- & _).
  destruct (admitted_elem env audits l (po_attempts _ _ _ Hl) e He)
    as (b & audit & _ & _ & Hok & Hev & Hd).
  destruct (admitted_inv _ _ _ _ Hok Hev Hd) as (_ & _ & (request & Hadm) & _).
  apply (adm_effects _ _ _ Hadm), list_elem_of_fmap. eauto.
Qed.

Lemma verifier_evidence env audits l admitted e :
  pipeline_output env audits l →
  RecoveryVerification.admitted_evidence env (core_result env l) = Ok admitted →
  e ∈ admitted ↔ e ∈ CoreFacts.admitted_evidence l.
Proof.
  intros Hl Had. unfold RecoveryVerification.admitted_evidence, fail_if in Had.
  inv_ok. subst admitted.
  rewrite merge_sort_Permutation, list_elem_of_filter. unfold CoreFacts.admitted_evidence.
  rewrite list_elem_of_fmap. unfold admitted_decision_ids. cbn [ce_decisions ce_evidence core_result].
  rewrite list_elem_of_omap. split.
  - intros [(d & Hd & [Hdis (b & -> & Hb)%list_elem_of_fmap]%list_elem_of_filter)%list_elem_of_fmap
            (a & Ha & He)].
    exists (a, e). split; [done|]. apply admitted_pairs_elem. split_and!; [done..|].
    assert (a = b) as ->; [|done].
    destruct (attempt_of env audits l (po_attempts _ _ _ Hl) a Ha) as (audit & _ & Hok).
    pose proof (bnd_id _ _ _ (proj2 (ak_evidence _ _ _ Hok e He))) as Hid.
    apply (NoDup_map_inj (λ a, ed_evidence_id (at_decision a)) l);
      [exact (po_identifiers _ _ _ Hl)|done|done|congruence].
  - intros ([a e'] & -> & (Ha & He & Hd)%admitted_pairs_elem). cbn [snd] in *.
    split; [|by exists a].
    destruct (attempt_of env audits l (po_attempts _ _ _ Hl) a Ha) as (audit & _ & Hok).
    rewrite (bnd_id _ _ _ (proj2 (ak_evidence _ _ _ Hok e' He))).
    apply list_elem_of_fmap. exists (at_decision a). split; [done|].
    apply list_elem_of_filter. split; [done|]. apply list_elem_of_fmap. by exists a.
Qed.

(** C27: the verifier and the classifier agree on what a conflict is.  For any
    evaluation of a session's pipeline, the proof is flagged with conflicting
    authority exactly when the verifier finds a contradictory pair among the
    admitted evidence, so a flagged proof always has a pair to witness it; and
    the pairs it finds are exactly the identifiers of two admitted items of
    which one asserts an effect established and the other absent, or whose
    operation statuses exclude each other, or of which one asserts an effect
    and the other terminal non-execution. *)
Theorem conflict_exact env audits attempts evaluation admitted :
  pipeline_output env audits attempts →
  evaluate_evidence env attempts audits = Ok evaluation →
  RecoveryVerification.admitted_evidence env evaluation = Ok admitted →
  (dp_conflicting_authority (ce_proof evaluation) = true ↔
     generic_conflict_pairs evaluation admitted ≠ []) ∧
  (∀ p, p ∈ generic_conflict_pairs evaluation admitted ↔
     ∃ e f, e ∈ admitted ∧ f ∈ admitted ∧
       contradicts (dp_effect_findings (ce_proof evaluation)) e f ∧
       p = sorted_pair (ne_evidence_id e) (ne_evidence_id f)).
Proof.
  intros Hpo Hev Had. split; [|apply generic_conflict_elem].
  destruct (pipeline_evaluated _ _ _ Hpo) as (l & _ & _ & Hl & Hres).
  rewrite Hres in Hev. injection Hev as <-.
  change (dp_conflicting_authority (ce_proof (core_result env l))) with (core_conflict env l).
  rewrite core_conflict_contradicts by (by intros; eapply declared_effects || apply Hl).
  setoid_rewrite <-(verifier_evidence env audits l admitted); [|done..].
  pose proof (generic_conflict_elem (core_result env l) admitted) as Hg.
  cbn [ce_proof dp_effect_findings core_result core_proof] in Hg. split.
  - intros (e & f & He & Hf & Hc) Hnil.
    assert (sorted_pair (ne_evidence_id e) (ne_evidence_id f)
      ∈ generic_conflict_pairs (core_result env l) admitted) as Hin by (apply Hg; eauto 10).
    rewrite Hnil in Hin. by apply not_elem_of_nil in Hin.
  - intros Hne. destruct (generic_conflict_pairs _ _) as [|p k]; [done|].
    destruct (proj1 (Hg p)) as (e & f & He & Hf & Hc & _); [left|]. by exists e, f.
Qed.

End conflicts.
