(* ===== verification/Controller.v ===== *)
(** The probe controller (reconcile/controller/executor.py, [ProbeController]).

    [execute] serializes probes, spends the evidence budget and appends one
    audit record per probe.  Everything outside the controller is the class
    [Environment]: the clock, the cancellation flag, the durability observer,
    the race [asyncio.wait] decides and the handler's own outcome, each a step
    of a world [W].  A coroutine body is a state-passing function that returns
    or raises; [asyncio.Lock] makes one [execute] one such run.

    [ss_dispatched] lists the probes handed to [_invoke_once], with their cost;
    the program keeps no such list, it is there to be counted. *)

From S2P Require Export ProbeAudit JsonText.

#[local] Open Scope Z_scope.

(** ** Binary64 arithmetic of the clock *)

Definition fzero : spec_float := S754_zero false.
Definition fadd : spec_float → spec_float → spec_float := SFadd 53 1024.
Definition fsub : spec_float → spec_float → spec_float := SFsub 53 1024.
Definition fmul : spec_float → spec_float → spec_float := SFmul 53 1024.
Definition float_of_int (n : Z) : spec_float := binary_normalize 53 1024 n 0 false.

(** [n / d] of two integers, correctly rounded. *)
Definition true_div (n d : Z) : spec_float :=
  match n, d with
  | Zpos a, Zpos b => SFdiv 53 1024 (S754_finite false a 0) (S754_finite false b 0)
  | Zneg a, Zpos b => SFdiv 53 1024 (S754_finite true a 0) (S754_finite false b 0)
  | _, _ => fzero
  end.

(** [max(0.0, x)] and [min(x, y)]: the first unless the second is strictly past it. *)
Definition float_max0 (x : spec_float) : spec_float := if SFltb fzero x then x else fzero.
Definition float_min (x y : spec_float) : spec_float := if SFltb y x then y else x.

(** [int(x)], towards zero. *)
Definition int_of_float (x : spec_float) : result py_error Z :=
  match x with
  | S754_zero _ => Ok 0
  | S754_infinity _ => Raise OverflowError
  | S754_nan => Raise (ValueError "cannot convert float NaN to integer")
  | S754_finite s m e =>
      let n := if 0 <=? e then Zpos m * 2 ^ e else Zpos m / 2 ^ (- e) in
      Ok (if s then - n else n)
  end.

(** ** Target coordinates in argument values *)

Definition TARGET_VALUE_PREFIXES : list string :=
  ["buckets/"; "databases/"; "documents/"; "gs://"; "http://"; "https://"; "projects/"].

Fixpoint starts_with (prefix s : string) : bool :=
  match prefix, s with
  | EmptyString, _ => true
  | String a p, String b t => bool_decide (a = b) && starts_with p t
  | _, EmptyString => false
  end.

(** A letter [[a-z]] matches under [re.IGNORECASE]: besides ASCII letters, the
    dotless i and the long s, whose UTF-8 forms are C4 B1 and C5 BF; the value
    is what follows it. *)
Definition scheme_letter (s : string) : option string :=
  match s with
  | String c t =>
      if is_lower c then Some t
      else match t with
        | String d u =>
            if inb (Ascii.N_of_ascii c, Ascii.N_of_ascii d) [(196, 177); (197, 191)]%N
            then Some u else None
        | EmptyString => None
        end
  | EmptyString => None
  end.

Definition is_scheme_mark (c : Ascii.ascii) : bool :=
  is_digit c || inb (Ascii.N_of_ascii c) [43; 46; 45]%N.

(** [[a-z0-9+.-]*://]; [fuel] is at least the length of the text. *)
Fixpoint scheme_rest (fuel : nat) (s : string) : bool :=
  match fuel with
  | O => false
  | S n =>
      starts_with "://" s
      || match scheme_letter s with
         | Some t => scheme_rest n t
         | None => match s with
                   | String c t => is_scheme_mark c && scheme_rest n t
                   | EmptyString => false
                   end
         end
  end.

(** [_URI_SCHEME.match] of lower-cased text. *)
Definition uri_scheme (s : string) : bool :=
  match scheme_letter s with
  | Some t => scheme_rest (S (String.length t)) t
  | None => false
  end.

(** *** What the session keeps *)

Record RestoredProbe := {
  rp_audit : ControllerAuditRecord;
  rp_observation : option ProbeObservation;
}.

(** What [_finish] is told about a probe. *)
Record probe_values := {
  v_sequence : Z;
  v_started_at : datetime;
  v_capability_name : option string;
  v_capability_version : option string;
  v_request_sha256 : option string;
}.

Inductive exn := Exn_error (e : py_error) | Exn_cancelled | Exn_observer (detail : string).

Inductive before_dispatch_result :=
  | Before_start | Before_restored (r : RestoredProbe) | Before_exhausted
  | Before_raised (e : exn).

(** How [asyncio.wait] of the handler and the cancellation ends. *)
Inductive wait_result :=
  | Wait_interrupted | Wait_timed_out | Wait_cancelled | Wait_handler_done.

(** How the handler's coroutine ends; [None] is a value that is not a
    [ProbeObservation]. *)
Inductive handler_result :=
  | Handler_returned (o : option ProbeObservation) | Handler_cancelled
  | Handler_unavailable | Handler_malformed | Handler_failed.

Inductive InvocationState :=
  | Invocation_COMPLETED | Invocation_CANCELLED | Invocation_ELAPSED_EXHAUSTED
  | Invocation_TIMED_OUT | Invocation_UNAVAILABLE | Invocation_MALFORMED.

#[export] Instance InvocationState_eq_dec : EqDecision InvocationState.
Proof. solve_decision. Defined.

(** [ProbeDurabilityObserver] *)
Record Observer (W : Type) := {
  elapsed_floor_ms : datetime → W → result exn Z * W;
  remaining_elapsed_ms : datetime → W → result exn Z * W;
  before_dispatch : ProbeRequest → Z → Z → Z → datetime → W → before_dispatch_result * W;
  authorize_dispatch : ProbeRequest → Z → datetime → W → result exn bool * W;
  after_dispatch : ProbeRequest → ProbeExecution → W → result exn unit * W;
  after_execution : ProbeExecution → W → result exn unit * W;
}.
Arguments elapsed_floor_ms {W} _.
Arguments remaining_elapsed_ms {W} _.
Arguments before_dispatch {W} _.
Arguments authorize_dispatch {W} _.
Arguments after_dispatch {W} _.
Arguments after_execution {W} _.

Class Environment (W H : Type) := {
  monotonic : W → spec_float * W;
  now : W → datetime * W;
  cancelled : W → bool * W;
  recording_interrupted : W → bool * W;
  wait_first : H → BoundProbe → spec_float → W → wait_result * W;
  call_observation : H → BoundProbe → W → handler_result * W;
  observer : option (Observer W);
}.

(** ** The controller's state *)

(** What the constructor fixes. *)
Record ControllerConfig (H : Type) := {
  cc_envelope : ExecutionEnvelope;
  cc_registry : @CapabilityRegistry H;
  cc_started_monotonic : spec_float;
  cc_session_token : nat;
}.
Arguments cc_envelope {H} _.
Arguments cc_registry {H} _.
Arguments cc_started_monotonic {H} _.
Arguments cc_session_token {H} _.

Record ControllerState := {
  cs_elapsed_offset_ms : Z;
  cs_sequence : Z;
  cs_probe_count_used : Z;
  cs_cost_units_used : Z;
  cs_result_bytes_acquired : Z;
  cs_capability_invocations : list ((string * string) * Z);
  cs_audit : list ControllerAuditRecord;
  cs_terminal_execution : option ProbeExecution;
}.

Record dispatch := {
  dis_probe : BoundProbe;
  dis_cost : Z;
}.

Record session (W : Type) := {
  ss_state : ControllerState;
  ss_world : W;
  ss_dispatched : list dispatch;
}.
Arguments ss_state {W} _.
Arguments ss_world {W} _.
Arguments ss_dispatched {W} _.

Definition set_sequence (n : Z) (s : ControllerState) : ControllerState :=
  {| cs_elapsed_offset_ms := cs_elapsed_offset_ms s; cs_sequence := n;
     cs_probe_count_used := cs_probe_count_used s;
     cs_cost_units_used := cs_cost_units_used s;
     cs_result_bytes_acquired := cs_result_bytes_acquired s;
     cs_capability_invocations := cs_capability_invocations s;
     cs_audit := cs_audit s; cs_terminal_execution := cs_terminal_execution s |}.

Definition set_offset (n : Z) (s : ControllerState) : ControllerState :=
  {| cs_elapsed_offset_ms := n; cs_sequence := cs_sequence s;
     cs_probe_count_used := cs_probe_count_used s;
     cs_cost_units_used := cs_cost_units_used s;
     cs_result_bytes_acquired := cs_result_bytes_acquired s;
     cs_capability_invocations := cs_capability_invocations s;
     cs_audit := cs_audit s; cs_terminal_execution := cs_terminal_execution s |}.

(** The three budget counters. *)
Definition set_usage (count cost bytes : Z) (s : ControllerState) : ControllerState :=
  {| cs_elapsed_offset_ms := cs_elapsed_offset_ms s; cs_sequence := cs_sequence s;
     cs_probe_count_used := count; cs_cost_units_used := cost;
     cs_result_bytes_acquired := bytes;
     cs_capability_invocations := cs_capability_invocations s;
     cs_audit := cs_audit s; cs_terminal_execution := cs_terminal_execution s |}.

Definition set_invocations (identity : string * string) (n : Z) (s : ControllerState)
  : ControllerState :=
  {| cs_elapsed_offset_ms := cs_elapsed_offset_ms s; cs_sequence := cs_sequence s;
     cs_probe_count_used := cs_probe_count_used s;
     cs_cost_units_used := cs_cost_units_used s;
     cs_result_bytes_acquired := cs_result_bytes_acquired s;
     cs_capability_invocations := dict_set identity n (cs_capability_invocations s);
     cs_audit := cs_audit s; cs_terminal_execution := cs_terminal_execution s |}.

(** [self._audit.append(audit)] *)
Definition append_audit (audit : ControllerAuditRecord) (s : ControllerState)
  : ControllerState :=
  {| cs_elapsed_offset_ms := cs_elapsed_offset_ms s; cs_sequence := cs_sequence s;
     cs_probe_count_used := cs_probe_count_used s;
     cs_cost_units_used := cs_cost_units_used s;
     cs_result_bytes_acquired := cs_result_bytes_acquired s;
     cs_capability_invocations := cs_capability_invocations s;
     cs_audit := cs_audit s ++ [audit];
     cs_terminal_execution := cs_terminal_execution s |}.

(** [if reason in _TERMINAL_REASONS: self._terminal_execution = execution] *)
Definition latch_terminal (x : ProbeExecution) (s : ControllerState) : ControllerState :=
  {| cs_elapsed_offset_ms := cs_elapsed_offset_ms s; cs_sequence := cs_sequence s;
     cs_probe_count_used := cs_probe_count_used s;
     cs_cost_units_used := cs_cost_units_used s;
     cs_result_bytes_acquired := cs_result_bytes_acquired s;
     cs_capability_invocations := cs_capability_invocations s;
     cs_audit := cs_audit s;
     cs_terminal_execution :=
       if inb (ar_stop_reason (px_audit x)) TERMINAL_REASONS then Some x
       else cs_terminal_execution s |}.

Definition get_invocations (identity : string * string) (s : ControllerState) : Z :=
  default 0 (dict_get identity (cs_capability_invocations s)).

(** ** Coroutines *)

Definition ctl (W A : Type) : Type := session W → result exn A * session W.

#[export] Instance ctl_ret W : MRet (ctl W) := λ A a s, (Ok a, s).
#[export] Instance ctl_bind W : MBind (ctl W) := λ A B k m s,
  match m s with
  | (Ok a, s') => k a s'
  | (Raise e, s') => (Raise e, s')
  end.

Definition throw {W A} (e : exn) : ctl W A := λ s, (Raise e, s).
Definition lift {W A} (r : result py_error A) : ctl W A := λ s,
  (match r with Ok a => Ok a | Raise e => Raise (Exn_error e) end, s).
Definition gets {W A} (f : ControllerState → A) : ctl W A := λ s, (Ok (f (ss_state s)), s).
Definition modify {W} (f : ControllerState → ControllerState) : ctl W unit := λ s,
  (Ok tt, {| ss_state := f (ss_state s); ss_world := ss_world s;
             ss_dispatched := ss_dispatched s |}).
(** A step of the environment. *)
Definition ask {W A} (f : W → A * W) : ctl W A := λ s,
  let '(a, w) := f (ss_world s) in
  (Ok a, {| ss_state := ss_state s; ss_world := w; ss_dispatched := ss_dispatched s |}).
Definition ask_result {W A} (f : W → result exn A * W) : ctl W A := λ s,
  let '(r, w) := f (ss_world s) in
  (r, {| ss_state := ss_state s; ss_world := w; ss_dispatched := ss_dispatched s |}).
Definition note_dispatch {W} (d : dispatch) : ctl W unit := λ s,
  (Ok tt, {| ss_state := ss_state s; ss_world := ss_world s;
             ss_dispatched := ss_dispatched s ++ [d] |}).

Section controller.
Context {rt : Runtime} {sec : Security} {sv : SchemaValidator} {od : ObservationDecoder}.
Context {W H : Type} {env : Environment W H}.
Context (cfg : ControllerConfig H).

#[local] Abbreviation envelope := (cc_envelope cfg).
#[local] Abbreviation budget := (evidence_budget (en_context envelope)).

(** ** Elapsed time *)

(** [_local_elapsed_ms] *)
Definition local_elapsed_ms : ctl W Z :=
  t ← ask monotonic;
  let elapsed := float_max0 (fsub t (cc_started_monotonic cfg)) in
  ms ← lift (int_of_float (fmul elapsed (float_of_int 1000)));
  mret (Z.min ms int64_max).

(** [_durable_elapsed_floor_ms] *)
Definition durable_elapsed_floor_ms : ctl W Z :=
  match observer with
  | None => mret 0
  | Some o =>
      t ← ask now;
      floor ← ask_result (elapsed_floor_ms o t);
      if negb (in_range 0 floor int64_max)
      then throw (Exn_error
             (ValueError "durability observer returned an invalid elapsed floor"))
      else mret floor
  end.

(** [_session_elapsed_ms] *)
Definition session_elapsed_ms : ctl W Z :=
  local ← local_elapsed_ms;
  match observer with
  | None =>
      offset ← gets cs_elapsed_offset_ms;
      mret (Z.min (offset + local) (max_elapsed_ms budget))
  | Some _ =>
      floor ← durable_elapsed_floor_ms;
      offset ← gets cs_elapsed_offset_ms;
      modify (set_offset (Z.max offset (Z.max 0 (floor - local))));;
      offset ← gets cs_elapsed_offset_ms;
      let elapsed := Z.min (Z.max floor (offset + local)) int64_max in
      mret (Z.min elapsed (max_elapsed_ms budget))
  end.

(** [_deadline_reached] *)
Definition deadline_reached : ctl W bool :=
  elapsed ← session_elapsed_ms;
  mret (max_elapsed_ms budget <=? elapsed).

(** ** Ending a probe *)

Definition target_sha256 : string :=
  sha256_hex (canonical_json_bytes (en_target envelope)).

Definition envelope_digest : string := canonical_sha256 envelope.

(** The audit record [_finish] builds. *)
Definition audit_record (v : probe_values) (completed_at : datetime) (elapsed : Z)
  (outcome : ProbeOutcome) (reason : ProbeStopReason)
  (observation : option ValidatedObservation) (rejected_result_bytes : option Z)
  (s : ControllerState) : ControllerAuditRecord :=
  {| ar_sequence := v_sequence v;
     ar_capability_name := v_capability_name v;
     ar_capability_version := v_capability_version v;
     ar_request_sha256 := v_request_sha256 v;
     ar_target_sha256 := target_sha256;
     ar_outcome := outcome;
     ar_stop_reason := reason;
     ar_started_at := v_started_at v;
     ar_completed_at := completed_at;
     ar_session_elapsed_ms := elapsed;
     ar_probe_count_used := cs_probe_count_used s;
     ar_cost_units_used := cs_cost_units_used s;
     ar_result_bytes_acquired := cs_result_bytes_acquired s;
     ar_result_sha256 := vo_sha256 <$> observation;
     ar_result_byte_count :=
       match observation with
       | Some o => Some (vo_byte_count o) | None => rejected_result_bytes end |}.

(** [_finish] *)
Definition finish (v : probe_values) (outcome : ProbeOutcome) (reason : ProbeStopReason)
  (observation : option ValidatedObservation) (rejected_result_bytes : option Z)
  : ctl W ProbeExecution :=
  t ← ask now;
  let completed_at := Z.max t (v_started_at v) in
  elapsed ← session_elapsed_ms;
  audit ← gets (audit_record v completed_at elapsed outcome reason observation
                  rejected_result_bytes);
  audit ← lift (model_validate_audit audit);
  modify (append_audit audit);;
  execution ← lift (make_execution envelope_digest audit observation
                      (cc_session_token cfg));
  modify (latch_terminal execution);;
  mret execution.

(** [_await_observer_operation]: the recording runs to its end; a cancellation
    that arrived meanwhile is raised after it. *)
Definition await_observer_operation (operation : W → result exn unit * W) : ctl W unit :=
  ask_result operation;;
  interrupted ← ask recording_interrupted;
  if interrupted : bool then throw Exn_cancelled else mret tt.

(** [_finish_dispatched] *)
Definition finish_dispatched (request : ProbeRequest) (v : probe_values)
  (outcome : ProbeOutcome) (reason : ProbeStopReason)
  (observation : option ValidatedObservation) (rejected_result_bytes : option Z)
  : ctl W ProbeExecution :=
  execution ← finish v outcome reason observation rejected_result_bytes;
  match observer with
  | None => mret execution
  | Some o =>
      await_observer_operation (λ w,
        match after_dispatch o request execution w with
        | (Ok _, w) => after_execution o execution w
        | (Raise e, w) => (Raise e, w)
        end);;
      mret execution
  end.

Definition observe_execution (execution : ProbeExecution) : ctl W ProbeExecution :=
  match observer with
  | None => mret execution
  | Some o => await_observer_operation (after_execution o execution);; mret execution
  end.

(** [_finish_observed] *)
Definition finish_observed (v : probe_values) (outcome : ProbeOutcome)
  (reason : ProbeStopReason) : ctl W ProbeExecution :=
  execution ← finish v outcome reason None None;
  observe_execution execution.

(** ** Restoring a durable result *)

(** The comparison of a restored audit record with the controller. *)
Definition restored_mismatch (audit : ControllerAuditRecord) (sequence : Z)
  (request : ProbeRequest) (request_sha256 : string) (cost : Z) (s : ControllerState)
  : bool :=
  let increment := default 0 (ar_result_byte_count audit) in
  negb (ar_sequence audit =? sequence)
  || negb (bool_decide (ar_capability_name audit = Some (pr_capability_name request)))
  || negb (bool_decide (ar_capability_version audit
                        = Some (pr_capability_version request)))
  || negb (bool_decide (ar_request_sha256 audit = Some request_sha256))
  || negb (bool_decide (ar_target_sha256 audit = target_sha256))
  || negb (ar_probe_count_used audit =? cs_probe_count_used s)
  || negb (ar_cost_units_used audit =? cs_cost_units_used s + cost)
  || negb (ar_result_bytes_acquired audit
           =? Z.min (cs_result_bytes_acquired s + increment) int64_max)
  || (max_probes budget <? ar_probe_count_used audit)
  || (max_cost_units budget <? ar_cost_units_used audit)
  || (max_total_result_bytes budget <? ar_result_bytes_acquired audit)
  || (max_elapsed_ms budget <? ar_session_elapsed_ms audit)
  || match last (cs_audit s) with
     | Some a => ar_session_elapsed_ms audit <? ar_session_elapsed_ms a
     | None => false
     end.

(** The observation of a restored probe, decoded again and compared. *)
Definition restored_observation (audit : ControllerAuditRecord)
  (observation : option ProbeObservation)
  : result py_error (option ValidatedObservation) :=
  match observation with
  | None => Ok None
  | Some o =>
      o ← decode_observation (canonical_json_bytes o);
      let payload := canonical_json_bytes o in
      let validated := {| vo_canonical_json := payload; vo_sha256 := sha256_hex payload;
                          vo_byte_count := Z.of_nat (String.length payload) |} in
      reject_if
        (negb (bool_decide (ar_result_sha256 audit = Some (vo_sha256 validated)))
         || negb (bool_decide (ar_result_byte_count audit
                               = Some (vo_byte_count validated))))
        (ValueError "restored observation does not match its audit");;
      Ok (Some validated)
  end.

(** [_restore] *)
Definition restore (restored : RestoredProbe) (sequence : Z) (request : ProbeRequest)
  (identity : string * string) (invocation_count cost : Z) : ctl W ProbeExecution :=
  audit ← lift (model_validate_audit (rp_audit restored));
  request_sha256 ← lift (probe_request_sha256 request);
  mismatch ← gets (restored_mismatch audit sequence request request_sha256 cost);
  lift (reject_if mismatch
    (ValueError "restored probe does not match the active controller"));;
  lift (reject_if (negb (eqb (bool_decide (ar_outcome audit = Probe_COMPLETED))
                           (is_some (rp_observation restored))))
    (ValueError "restored probe outcome and observation do not agree"));;
  validated ← lift (restored_observation audit (rp_observation restored));
  modify (set_usage (ar_probe_count_used audit) (ar_cost_units_used audit)
            (ar_result_bytes_acquired audit));;
  local ← local_elapsed_ms;
  offset ← gets cs_elapsed_offset_ms;
  modify (set_offset (Z.max offset (Z.max 0 (ar_session_elapsed_ms audit - local))));;
  modify (set_invocations identity (invocation_count + 1));;
  modify (append_audit audit);;
  execution ← lift (make_execution envelope_digest audit validated (cc_session_token cfg));
  modify (latch_terminal execution);;
  mret execution.

(** ** Screening a request *)

(** [_contains_target_coordinate_value] *)
Fixpoint contains_target_coordinate_value (value : json) : bool :=
  match value with
  | JStr text =>
      let lowered := str_lower (str_strip text) in
      existsb (λ prefix, starts_with prefix lowered) TARGET_VALUE_PREFIXES
      || uri_scheme lowered
  | JArr l => existsb contains_target_coordinate_value l
  | JObj m => existsb (λ kv, contains_target_coordinate_value kv.2) m
  | _ => false
  end.

(** Why a probe is refused before any read. *)
Definition refusal : Type := ProbeOutcome * ProbeStopReason.

Definition refuse_if (b : bool) (r : refusal) : option refusal :=
  if b then Some r else None.

(** [any(canonical_json_value_bytes(constraint.scope) == target_scope ...)] *)
Fixpoint any_scope (target_scope : string) (constraints : list TargetConstraint)
  : result py_error bool :=
  match constraints with
  | [] => Ok false
  | c :: rest =>
      scope ← canonical_json_value_bytes (JObj (tc_scope c));
      if bool_decide (scope = target_scope) then Ok true else any_scope target_scope rest
  end.

(** The registration against the envelope: enabled, read-only, granted, and
    allowed on the target. *)
Definition screen_capability (registration : CapabilityRegistration H)
  : result py_error (option refusal) :=
  let capability := rg_capability registration in
  if negb (rg_enabled registration)
  then Ok (Some (Probe_REJECTED, Stop_CAPABILITY_DISABLED))
  else if bool_decide (rg_semantics registration = MUTATING)
  then Ok (Some (Probe_REJECTED, Stop_CAPABILITY_MUTATING))
  else if bool_decide (rg_semantics registration = AMBIGUOUS)
  then Ok (Some (Probe_REJECTED, Stop_CAPABILITY_SEMANTICS_AMBIGUOUS))
  else if negb (inb (oc_name capability, oc_version capability)
                  (capability_identities (en_context envelope)))
  then Ok (Some (Probe_REJECTED, Stop_CAPABILITY_NOT_ENABLED))
  else
    let matching_kind := filter
      (λ c, tc_target_kind c = tb_target_kind (en_target envelope))
      (oc_allowed_targets capability) in
    if bool_decide (matching_kind = [])
    then Ok (Some (Probe_REJECTED, Stop_TARGET_KIND_MISMATCH))
    else
      target_scope ← canonical_json_value_bytes (JObj (tb_scope (en_target envelope)));
      matched ← any_scope target_scope matching_kind;
      Ok (refuse_if (negb matched) (Probe_REJECTED, Stop_TARGET_SCOPE_MISMATCH)).

(** The loop over [correlation_fields]. *)
Fixpoint correlation_conflict (arguments : json_object) (fields : list (string * string))
  : result py_error bool :=
  match fields with
  | [] => Ok false
  | (key, expected) :: rest =>
      match dict_get key arguments with
      | None => correlation_conflict arguments rest
      | Some value =>
          actual ← canonical_json_value_bytes value;
          wanted ← canonical_json_value_bytes (JStr expected);
          if bool_decide (actual = wanted) then correlation_conflict arguments rest
          else Ok true
      end
  end.

(** The request's effects and arguments. *)
Definition screen_request (registration : CapabilityRegistration H)
  (request : ProbeRequest) : result py_error (option refusal) :=
  if negb (subsetb (pr_relevant_effect_ids request) (expected_effect_ids envelope))
  then Ok (Some (Probe_REJECTED, Stop_INVALID_EFFECT_REFERENCE))
  else
    arguments_payload ← canonical_json_value_bytes (JObj (pr_arguments request));
    if rg_argument_byte_ceiling registration
       <? Z.of_nat (String.length arguments_payload)
    then Ok (Some (Probe_REJECTED, Stop_ARGUMENTS_TOO_LARGE))
    else if negb (schema_is_valid
              (JObj (oc_argument_schema (rg_capability registration)))
              (JObj (pr_arguments request)))
    then Ok (Some (Probe_REJECTED, Stop_INVALID_ARGUMENTS))
    else if contains_target_coordinate_value (JObj (pr_arguments request))
    then Ok (Some (Probe_REJECTED, Stop_TARGET_PARAMETER_INJECTION))
    else
      conflict ← correlation_conflict (pr_arguments request)
        (correlation_fields (en_context envelope));
      Ok (refuse_if conflict (Probe_REJECTED, Stop_CORRELATION_MISMATCH)).

(** What the session has left for a capability. *)
Definition screen_budget (registration : CapabilityRegistration H)
  (identity : string * string) (s : ControllerState) : option refusal :=
  if rg_max_invocations registration <=? get_invocations identity s
  then Some (Probe_BUDGET_EXHAUSTED, Stop_CAPABILITY_PROBE_LIMIT_EXHAUSTED)
  else if max_cost_units budget
          <? cs_cost_units_used s + oc_cost_units (rg_capability registration)
  then Some (Probe_BUDGET_EXHAUSTED, Stop_COST_BUDGET_EXHAUSTED)
  else refuse_if (max_total_result_bytes budget <=? cs_result_bytes_acquired s)
         (Probe_BUDGET_EXHAUSTED, Stop_TOTAL_RESULT_BYTES_EXHAUSTED).

Definition screen (registration : CapabilityRegistration H) (request : ProbeRequest)
  (identity : string * string) (s : ControllerState) : result py_error (option refusal) :=
  r ← screen_capability registration;
  match r with
  | Some r => Ok (Some r)
  | None =>
      r ← screen_request registration request;
      match r with
      | Some r => Ok (Some r)
      | None => Ok (screen_budget registration identity s)
      end
  end.

(** ** Invoking the handler *)

(** The [except] clauses around [handler_task.result()]. *)
Definition handler_state (r : handler_result) : InvocationState * option ProbeObservation :=
  match r with
  | Handler_returned (Some o) => (Invocation_COMPLETED, Some o)
  | Handler_returned None => (Invocation_MALFORMED, None)
  | Handler_cancelled => (Invocation_CANCELLED, None)
  | Handler_unavailable => (Invocation_UNAVAILABLE, None)
  | Handler_malformed => (Invocation_MALFORMED, None)
  | Handler_failed => (Invocation_UNAVAILABLE, None)
  end.

(** [call_handler], run to its end: a durable authorization, then the handler. *)
Definition call_handler (handler : H) (probe : BoundProbe) (request : ProbeRequest)
  (sequence : Z) : ctl W (InvocationState * option ProbeObservation) :=
  let call :=
    r ← ask (call_observation handler probe);
    mret (handler_state r) in
  match observer with
  | None => call
  | Some o =>
      t ← ask now;
      authorized ← ask (authorize_dispatch o request sequence t);
      match authorized with
      | Raise Exn_cancelled => mret (Invocation_CANCELLED, None)
      | Raise e => throw e
      | Ok false => mret (Invocation_ELAPSED_EXHAUSTED, None)
      | Ok true => call
      end
  end.

(** [_invoke_once].  When the race ends before the handler does, whatever part
    of [call_handler] had run belongs to the environment's step. *)
Definition invoke_once (handler : H) (probe : BoundProbe) (timeout_seconds : spec_float)
  (request : ProbeRequest) (sequence cost : Z)
  : ctl W (InvocationState * option ProbeObservation) :=
  note_dispatch {| dis_probe := probe; dis_cost := cost |};;
  done ← ask (wait_first handler probe timeout_seconds);
  match done with
  | Wait_interrupted => throw Exn_cancelled
  | Wait_timed_out => mret (Invocation_TIMED_OUT, None)
  | Wait_cancelled => mret (Invocation_CANCELLED, None)
  | Wait_handler_done => call_handler handler probe request sequence
  end.

(** [except asyncio.CancelledError] around [_invoke_once]. *)
Definition catch_cancelled {A} (m : ctl W A) (handler : ctl W A) : ctl W A := λ s,
  match m s with
  | (Raise Exn_cancelled, s') => handler s'
  | r => r
  end.

(** ** A dispatched probe *)

(** The deadlines of one probe, in monotonic seconds. *)
Record deadlines := {
  dl_started : spec_float;
  dl_capability : spec_float;
  dl_elapsed : spec_float;
}.

Definition dl_invocation (d : deadlines) : spec_float :=
  float_min (dl_elapsed d) (dl_capability d).
Definition dl_elapsed_limited (d : deadlines) : bool :=
  SFleb (dl_elapsed d) (dl_capability d).

Definition probe_deadlines (capability : ObservationCapability) : ctl W deadlines :=
  dispatch_started ← ask monotonic;
  let capability_deadline := fadd dispatch_started (true_div (oc_timeout_ms capability) 1000) in
  elapsed ← session_elapsed_ms;
  let remaining := Z.max 0 (max_elapsed_ms budget - elapsed) in
  remaining ← match observer with
    | None => mret remaining
    | Some o =>
        t ← ask now;
        durable ← ask_result (remaining_elapsed_ms o t);
        mret (Z.min remaining durable)
    end;
  mret {| dl_started := dispatch_started; dl_capability := capability_deadline;
          dl_elapsed := fadd dispatch_started (true_div remaining 1000) |}.

(** [timeout_seconds <= 0] *)
Definition not_positive (x : spec_float) : bool := SFleb x fzero.

(** How a probe that outlived its deadline ends. *)
Definition timeout_ending (elapsed_limited : bool) : refusal :=
  if elapsed_limited then (Probe_BUDGET_EXHAUSTED, Stop_ELAPSED_BUDGET_EXHAUSTED)
  else (Probe_TIMED_OUT, Stop_PROBE_TIMEOUT).

(** The invocation count and cost of a probe about to run. *)
Definition charge (identity : string * string) (count cost : Z) (s : ControllerState)
  : ControllerState :=
  set_usage (cs_probe_count_used s) (cs_cost_units_used s + cost)
    (cs_result_bytes_acquired s) (set_invocations identity count s).

Definition acquire_bytes (n : Z) (s : ControllerState) : ControllerState :=
  set_usage (cs_probe_count_used s) (cs_cost_units_used s)
    (Z.min (cs_result_bytes_acquired s + n) int64_max) s.

(** The observation's text, once it decodes. *)
Definition observation_payload (raw : ProbeObservation) : result py_error string :=
  let payload := canonical_json_bytes raw in
  decode_observation payload;;
  Ok payload.

(** The observation against the byte budgets. *)
Definition settle_observation (request : ProbeRequest) (v : probe_values)
  (capability : ObservationCapability) (d : deadlines) (payload : string)
  : ctl W ProbeExecution :=
  let byte_count := Z.of_nat (String.length payload) in
  modify (acquire_bytes byte_count);;
  t ← ask monotonic;
  if SFleb (dl_elapsed d) t
  then finish_dispatched request v Probe_BUDGET_EXHAUSTED Stop_ELAPSED_BUDGET_EXHAUSTED
         None (Some byte_count)
  else if oc_result_byte_ceiling capability <? byte_count
  then finish_dispatched request v Probe_BUDGET_EXHAUSTED Stop_RESULT_TOO_LARGE
         None (Some byte_count)
  else
    acquired ← gets cs_result_bytes_acquired;
    if max_total_result_bytes budget <? acquired
    then finish_dispatched request v Probe_BUDGET_EXHAUSTED
           Stop_TOTAL_RESULT_BYTES_EXHAUSTED None (Some byte_count)
    else finish_dispatched request v Probe_COMPLETED Stop_PROBE_COMPLETED
           (Some {| vo_canonical_json := payload; vo_sha256 := sha256_hex payload;
                    vo_byte_count := byte_count |}) None.

(** A completed invocation: its deadlines, then its payload. *)
Definition settle_completed (request : ProbeRequest) (v : probe_values)
  (capability : ObservationCapability) (d : deadlines) (raw : option ProbeObservation)
  : ctl W ProbeExecution :=
  t ← ask monotonic;
  if SFleb (dl_invocation d) t
  then let '(o, r) := timeout_ending (dl_elapsed_limited d) in
       finish_dispatched request v o r None None
  else match raw with
  | None => throw (Exn_error (RuntimeError "completed invocation omitted its observation"))
  | Some raw =>
      t ← ask monotonic;
      if SFleb (dl_elapsed d) t
      then finish_dispatched request v Probe_BUDGET_EXHAUSTED Stop_ELAPSED_BUDGET_EXHAUSTED
             None None
      else match observation_payload raw with
      | Raise _ => finish_dispatched request v Probe_MALFORMED Stop_MALFORMED_OBSERVATION
                     None None
      | Ok payload => settle_observation request v capability d payload
      end
  end.

Definition settle (request : ProbeRequest) (v : probe_values)
  (capability : ObservationCapability) (d : deadlines)
  (invocation : InvocationState * option ProbeObservation) : ctl W ProbeExecution :=
  match invocation.1 with
  | Invocation_CANCELLED =>
      finish_dispatched request v Probe_CANCELLED Stop_PROBE_CANCELLED None None
  | Invocation_ELAPSED_EXHAUSTED =>
      finish_dispatched request v Probe_BUDGET_EXHAUSTED Stop_ELAPSED_BUDGET_EXHAUSTED
        None None
  | Invocation_TIMED_OUT =>
      let '(o, r) := timeout_ending (dl_elapsed_limited d) in
      finish_dispatched request v o r None None
  | Invocation_UNAVAILABLE =>
      finish_dispatched request v Probe_UNAVAILABLE Stop_CAPABILITY_UNAVAILABLE None None
  | Invocation_MALFORMED =>
      finish_dispatched request v Probe_MALFORMED Stop_MALFORMED_OBSERVATION None None
  | Invocation_COMPLETED => settle_completed request v capability d invocation.2
  end.

(** Ends a probe that was not invoked, durably when it was durably started. *)
Definition finish_unsent (durably_started : bool) (request : ProbeRequest)
  (v : probe_values) (ending : refusal) : ctl W ProbeExecution :=
  if durably_started then finish_dispatched request v ending.1 ending.2 None None
  else finish_observed v ending.1 ending.2.

(** [BoundProbe(...)] *)
Definition bound_probe (capability : ObservationCapability) (request : ProbeRequest)
  (timeout_ms : Z) : BoundProbe :=
  {| bp_investigation_id := en_investigation_id envelope;
     bp_operation_id := en_operation_id envelope;
     bp_capability_name := oc_name capability;
     bp_capability_version := oc_version capability;
     bp_target := en_target envelope;
     bp_relevant_effect_ids := pr_relevant_effect_ids request;
     bp_arguments := reload_object (pr_arguments request);
     bp_timeout_ms := timeout_ms;
     bp_result_byte_ceiling := oc_result_byte_ceiling capability |}.

(** From the deadlines to the end of the invocation. *)
Definition run_probe (registration : CapabilityRegistration H) (handler : H)
  (request : ProbeRequest) (v : probe_values) (identity : string * string)
  (invocation_count : Z) (durably_started : bool) : ctl W ProbeExecution :=
  let capability := rg_capability registration in
  d ← probe_deadlines capability;
  let timeout_seconds := fsub (dl_invocation d) (dl_started d) in
  if not_positive timeout_seconds
  then finish_unsent durably_started request v
         (Probe_BUDGET_EXHAUSTED, Stop_ELAPSED_BUDGET_EXHAUSTED)
  else
    milliseconds ← lift (int_of_float (fmul timeout_seconds (float_of_int 1000)));
    let probe := bound_probe capability request (Z.max 1 milliseconds) in
    lift (validate_probe probe);;
    t ← ask monotonic;
    let timeout_seconds := fsub (dl_invocation d) t in
    if not_positive timeout_seconds
    then finish_unsent durably_started request v (timeout_ending (dl_elapsed_limited d))
    else
      (if durably_started then mret tt
       else modify (charge identity (invocation_count + 1) (oc_cost_units capability)));;
      invocation ← catch_cancelled
        (invoke_once handler probe timeout_seconds request (v_sequence v)
           (oc_cost_units capability))
        (finish_unsent durably_started request v (Probe_CANCELLED, Stop_PROBE_CANCELLED);;
         throw Exn_cancelled);
      settle request v capability d invocation.

(** A request that passed the screens: the durable start, then the probe. *)
Definition dispatch_probe (registration : CapabilityRegistration H)
  (request : ProbeRequest) (v : probe_values) (identity : string * string)
  : ctl W ProbeExecution :=
  let capability := rg_capability registration in
  invocation_count ← gets (get_invocations identity);
  match rg_handler registration with
  | None => finish_observed v Probe_UNAVAILABLE Stop_CAPABILITY_UNAVAILABLE
  | Some handler =>
      match observer with
      | None => run_probe registration handler request v identity invocation_count false
      | Some o =>
          started ← ask (before_dispatch o request (v_sequence v)
            (oc_cost_units capability) (oc_result_byte_ceiling capability)
            (v_started_at v));
          match started with
          | Before_raised e => throw e
          | Before_exhausted =>
              finish_observed v Probe_BUDGET_EXHAUSTED Stop_ELAPSED_BUDGET_EXHAUSTED
          | Before_restored r =>
              execution ← restore r (v_sequence v) request identity invocation_count
                (oc_cost_units capability);
              observe_execution execution
          | Before_start =>
              modify (charge identity (invocation_count + 1) (oc_cost_units capability));;
              run_probe registration handler request v identity invocation_count true
          end
      end
  end.

(** ** One probe *)

Definition with_request (request_sha256 : string) (v : probe_values) : probe_values :=
  {| v_sequence := v_sequence v; v_started_at := v_started_at v;
     v_capability_name := None; v_capability_version := None;
     v_request_sha256 := Some request_sha256 |}.

Definition with_identity (identity : string * string) (v : probe_values) : probe_values :=
  {| v_sequence := v_sequence v; v_started_at := v_started_at v;
     v_capability_name := Some identity.1; v_capability_version := Some identity.2;
     v_request_sha256 := v_request_sha256 v |}.

(** A valid request, from the deadline check on. *)
Definition execute_request (request : ProbeRequest) (v : probe_values)
  : ctl W ProbeExecution :=
  late ← deadline_reached;
  if late : bool
  then finish_observed v Probe_BUDGET_EXHAUSTED Stop_ELAPSED_BUDGET_EXHAUSTED
  else match (capability_resolve (cc_registry cfg) (pr_capability_name request)
                (pr_capability_version request)).2 with
  | None => finish_observed v Probe_REJECTED Stop_UNKNOWN_CAPABILITY
  | Some registration =>
      let identity := (oc_name (rg_capability registration),
                       oc_version (rg_capability registration)) in
      let v := with_identity identity v in
      screened ← gets (screen registration request identity);
      refused ← lift screened;
      match refused with
      | Some (outcome, reason) => finish_observed v outcome reason
      | None => dispatch_probe registration request v identity
      end
  end.

(** [execute] *)
Definition execute (request : ProbeRequest) : ctl W ProbeExecution :=
  terminal ← gets cs_terminal_execution;
  match terminal with
  | Some execution => mret execution
  | None =>
      modify (λ s, set_sequence (cs_sequence s + 1) s);;
      sequence ← gets cs_sequence;
      started_at ← ask now;
      let v := {| v_sequence := sequence; v_started_at := started_at;
                  v_capability_name := None; v_capability_version := None;
                  v_request_sha256 := None |} in
      stop ← ask cancelled;
      if stop : bool then finish_observed v Probe_CANCELLED Stop_PROBE_CANCELLED
      else
        used ← gets cs_probe_count_used;
        if max_probes budget <=? used
        then finish_observed v Probe_BUDGET_EXHAUSTED Stop_PROBE_COUNT_EXHAUSTED
        else
          modify (λ s, set_usage (cs_probe_count_used s + 1) (cs_cost_units_used s)
                         (cs_result_bytes_acquired s) s);;
          match probe_request_sha256 request with
          | Raise _ => finish_observed v Probe_REJECTED Stop_INVALID_REQUEST
          | Ok request_sha256 =>
              execute_request request (with_request request_sha256 v)
          end
  end.

End controller.

(** ** Construction *)

(** [ProbeController.__init__] with the clock's first reading: the offset
    bounds, the frozen registry and the empty session. *)
Definition initial_state (offset : Z) : ControllerState :=
  {| cs_elapsed_offset_ms := offset; cs_sequence := 0; cs_probe_count_used := 0;
     cs_cost_units_used := 0; cs_result_bytes_acquired := 0;
     cs_capability_invocations := []; cs_audit := []; cs_terminal_execution := None |}.

Section construction.
Context {rt : Runtime} {sec : Security} {W H : Type} {env : Environment W H}.

Definition new_controller (envelope : ExecutionEnvelope) (registry : @CapabilityRegistry H)
  (session_token : nat) (elapsed_offset_ms : Z) (w : W)
  : result exn (ControllerConfig H) * session W :=
  let start := {| ss_state := initial_state elapsed_offset_ms; ss_world := w;
                  ss_dispatched := [] |} in
  (lift (validate_ExecutionEnvelope envelope);;
   lift (reject_if
     (negb (in_range 0 elapsed_offset_ms
              (max_elapsed_ms (evidence_budget (en_context envelope)))))
     (ValueError "controller elapsed offset is outside the evidence budget"));;
   started ← ask monotonic;
   floor ← durable_elapsed_floor_ms;
   modify (set_offset (Z.max elapsed_offset_ms floor));;
   mret {| cc_envelope := envelope; cc_registry := (capability_freeze registry).1;
           cc_started_monotonic := started; cc_session_token := session_token |}) start.

End construction.
