(* ===== verification/ControllerFacts.v ===== *)
(** The invariant of a probe session.

    [session_ok] bounds the counters by the evidence budget, the dispatch list
    by the counters, and says what every audit record and dispatched probe
    satisfies.  Each coroutine of Controller.v is shown to keep it, whether it
    returns or raises, with the weakest-precondition rules of [ctl]. *)

From S2P Require Export Controller CoreFacts.

#[local] Open Scope Z_scope.

(** ** Rules of the coroutine monad *)

Definition wp {W A} (m : ctl W A) (Q : result exn A → session W → Prop) (s : session W)
  : Prop := Q (m s).1 (m s).2.

Section rules.
Context {W A : Type}.
Implicit Types Q : result exn A → session W → Prop.

Lemma wp_mono (m : ctl W A) Q Q' s :
  wp m Q s → (∀ r s', Q r s' → Q' r s') → wp m Q' s.
Proof. unfold wp. auto. Qed.

Lemma wp_bind {B} (m : ctl W B) (k : B → ctl W A) Q s :
  wp m (λ r s', match r with Ok a => wp (k a) Q s' | Raise e => Q (Raise e) s' end) s →
  wp (mbind k m) Q s.
Proof. unfold wp, mbind, ctl_bind. by destruct (m s) as [[] ?]. Qed.

Lemma wp_ret a Q s : Q (Ok a) s → wp (mret a) Q s.
Proof. done. Qed.

Lemma wp_throw e Q s : Q (Raise e) s → wp (throw e) Q s.
Proof. done. Qed.

Lemma wp_lift (r : result py_error A) Q s :
  (∀ a, r = Ok a → Q (Ok a) s) → (∀ e, r = Raise e → Q (Raise (Exn_error e)) s) →
  wp (lift r) Q s.
Proof. unfold wp, lift. destruct r; cbn; auto. Qed.

Lemma wp_gets f Q s : Q (Ok (f (ss_state s))) s → wp (gets f) Q s.
Proof. done. Qed.

Lemma wp_ask f Q s :
  (∀ a w, f (ss_world s) = (a, w) →
    Q (Ok a) {| ss_state := ss_state s; ss_world := w; ss_dispatched := ss_dispatched s |}) →
  wp (ask f) Q s.
Proof. unfold wp, ask. intros H. destruct (f _) as [a w] eqn:E. by apply H. Qed.

Lemma wp_ask_result f Q s :
  (∀ r w, f (ss_world s) = (r, w) →
    Q r {| ss_state := ss_state s; ss_world := w; ss_dispatched := ss_dispatched s |}) →
  wp (ask_result f) Q s.
Proof. unfold wp, ask_result. intros H. destruct (f _) as [a w] eqn:E. by apply H. Qed.

End rules.

Lemma wp_modify {W} f (Q : result exn unit → session W → Prop) s :
  Q (Ok tt) {| ss_state := f (ss_state s); ss_world := ss_world s;
               ss_dispatched := ss_dispatched s |} → wp (modify f) Q s.
Proof. done. Qed.

Lemma wp_note {W} d (Q : result exn unit → session W → Prop) s :
  Q (Ok tt) {| ss_state := ss_state s; ss_world := ss_world s;
               ss_dispatched := ss_dispatched s ++ [d] |} → wp (note_dispatch d) Q s.
Proof. done. Qed.

Lemma wp_catch {W A} (m h : ctl W A) Q s :
  wp m (λ r s', match r with Raise Exn_cancelled => wp h Q s' | _ => Q r s' end) s →
  wp (catch_cancelled m h) Q s.
Proof. unfold wp, catch_cancelled. destruct (m s) as [[a|[]] s']; done. Qed.

(** ** What a session keeps *)

(** The sum of the costs, and the probes of one capability, of a dispatch list. *)
Definition dispatched_cost (l : list dispatch) : Z := foldr (λ d n, dis_cost d + n) 0 l.

Definition dispatches_of (identity : string * string) (l : list dispatch) : Z :=
  Z.of_nat (length (filter (λ d,
    (bp_capability_name (dis_probe d), bp_capability_version (dis_probe d)) = identity) l)).

Lemma dispatched_cost_app l d : dispatched_cost (l ++ [d]) = dispatched_cost l + dis_cost d.
Proof. unfold dispatched_cost. induction l as [|x l IH]; cbn in *; lia. Qed.

Lemma dispatches_of_app i l d :
  dispatches_of i (l ++ [d]) = dispatches_of i l +
    (if decide ((bp_capability_name (dis_probe d), bp_capability_version (dis_probe d)) = i)
     then 1 else 0).
Proof.
  unfold dispatches_of. rewrite filter_app, length_app, filter_cons, filter_nil.
  case_decide; cbn; lia.
Qed.

Section facts.
Context {rt : Runtime} {sec : Security} {sv : SchemaValidator} {od : ObservationDecoder}.
Context {W H : Type} {env : Environment W H}.
Context (cfg : ControllerConfig H).

#[local] Abbreviation envelope := (cc_envelope cfg).
#[local] Abbreviation budget := (evidence_budget (en_context envelope)).
#[local] Abbreviation resolved n v := ((capability_resolve (cc_registry cfg) n v).2).

(** What holds of a probe handed to its handler. *)
Record probe_ok (d : dispatch) : Prop := {
  pk_investigation : bp_investigation_id (dis_probe d) = en_investigation_id envelope;
  pk_operation : bp_operation_id (dis_probe d) = en_operation_id envelope;
  pk_target : bp_target (dis_probe d) = en_target envelope;
  pk_effects : bp_relevant_effect_ids (dis_probe d) ⊆ expected_effect_ids envelope;
  pk_enabled : (bp_capability_name (dis_probe d), bp_capability_version (dis_probe d))
    ∈ enabled_identities envelope;
  pk_registered : ∃ r, resolved (bp_capability_name (dis_probe d))
      (bp_capability_version (dis_probe d)) = Some r ∧
    rg_enabled r = true ∧ rg_semantics r = READ_ONLY ∧
    bp_result_byte_ceiling (dis_probe d) = oc_result_byte_ceiling (rg_capability r) ∧
    dis_cost d = oc_cost_units (rg_capability r);
  pk_arguments : ∃ arguments, bp_arguments (dis_probe d) = reload_object arguments ∧
    contains_target_coordinate_value (JObj arguments) = false;
  pk_valid : validate_probe (dis_probe d) = Ok tt;
}.

(** What holds of a record of the audit trail. *)
Record audit_ok (a : ControllerAuditRecord) : Prop := {
  au_valid : model_validate_audit a = Ok a;
  au_identity : is_none (ar_capability_name a) = is_none (ar_capability_version a);
  au_enabled : audit_enabled envelope a;
  au_target : ar_target_sha256 a = canonical_sha256 (en_target envelope);
  au_count : ar_probe_count_used a ≤ max_probes budget;
  au_cost : ar_cost_units_used a ≤ max_cost_units budget;
  au_bytes : ar_outcome a = Probe_COMPLETED →
    ar_result_bytes_acquired a ≤ max_total_result_bytes budget;
}.

Record state_ok (s : ControllerState) (l : list dispatch) : Prop := {
  so_count : 0 ≤ cs_probe_count_used s ≤ max_probes budget;
  so_cost : cs_cost_units_used s ≤ max_cost_units budget;
  so_invocations : ∀ name version r, resolved name version = Some r →
    get_invocations (name, version) s ≤ rg_max_invocations r;
  so_dispatched : Z.of_nat (length l) ≤ cs_probe_count_used s;
  so_spent : dispatched_cost l ≤ cs_cost_units_used s;
  so_invoked : ∀ identity, dispatches_of identity l ≤ get_invocations identity s;
  so_audit : Forall audit_ok (cs_audit s);
  so_probes : Forall probe_ok l;
}.

Definition session_ok (s : session W) : Prop := state_ok (ss_state s) (ss_dispatched s).

(** A step that only lets time pass: the elapsed offset may grow. *)
Definition quiet (s s' : session W) : Prop :=
  ss_dispatched s' = ss_dispatched s ∧
  ∃ offset, ss_state s' = set_offset offset (ss_state s).

Lemma quiet_refl s w :
  quiet s {| ss_state := ss_state s; ss_world := w; ss_dispatched := ss_dispatched s |}.
Proof.
  split; [done|]. exists (cs_elapsed_offset_ms (ss_state s)).
  by destruct (ss_state s).
Qed.

Lemma quiet_trans s1 s2 s3 : quiet s1 s2 → quiet s2 s3 → quiet s1 s3.
Proof.
  intros [Hd1 [o1 H1]] [Hd2 [o2 H2]]. split; [congruence|]. exists o2. rewrite H2, H1. done.
Qed.

Lemma quiet_offset s o :
  quiet s {| ss_state := set_offset o (ss_state s); ss_world := ss_world s;
             ss_dispatched := ss_dispatched s |}.
Proof. split; [done|]. by exists o. Qed.

Lemma quiet_ok s s' : quiet s s' → session_ok s → session_ok s'.
Proof. intros [Hd [o Hs]] []. unfold session_ok. rewrite Hd, Hs. by split. Qed.

(** ** Time *)

Definition passes {A} (m : ctl W A) : Prop := ∀ s, wp m (λ _ s', quiet s s') s.

Lemma passes_bind {A B} (m : ctl W A) (k : A → ctl W B) :
  passes m → (∀ a, passes (k a)) → passes (mbind k m).
Proof.
  intros Hm Hk s. apply wp_bind. eapply wp_mono; [apply Hm|].
  intros [a|e] s' Hq; cbn; [|done].
  eapply wp_mono; [apply Hk|]. intros r s'' Hq'. by eapply quiet_trans.
Qed.

Lemma passes_ask {A} (f : W → A * W) : passes (ask f).
Proof. intros s. apply wp_ask. intros a w _. apply quiet_refl. Qed.

Lemma passes_ask_result {A} (f : W → result exn A * W) : passes (ask_result f).
Proof. intros s. apply wp_ask_result. intros a w _. apply quiet_refl. Qed.

Lemma passes_gets {A} (f : ControllerState → A) : passes (gets f).
Proof. intros s. apply wp_gets. destruct s. apply quiet_refl. Qed.

Lemma passes_ret {A} (a : A) : passes (mret a).
Proof. intros s. apply wp_ret. destruct s. apply quiet_refl. Qed.

Lemma passes_throw {A} e : passes (throw (A := A) e).
Proof. intros s. apply wp_throw. destruct s. apply quiet_refl. Qed.

Lemma passes_lift {A} (r : result py_error A) : passes (lift r).
Proof. intros s. apply wp_lift; intros; destruct s; apply quiet_refl. Qed.

Lemma passes_offset o : passes (modify (set_offset o)).
Proof. intros s. apply wp_modify. apply quiet_offset. Qed.

#[local] Hint Resolve passes_ask passes_ask_result passes_gets passes_ret passes_throw
  passes_lift passes_offset : reconcile.

#[local] Ltac passes := repeat first
  [ apply passes_bind; [|intros ?] | case_match | solve [auto with reconcile] ].

Lemma passes_local : passes (local_elapsed_ms cfg).
Proof. unfold local_elapsed_ms. passes. Qed.

Lemma passes_floor : passes durable_elapsed_floor_ms.
Proof. unfold durable_elapsed_floor_ms. passes. Qed.

Lemma passes_elapsed : passes (session_elapsed_ms cfg).
Proof.
  unfold session_elapsed_ms. apply passes_bind; [apply passes_local|intros ?].
  case_match; [|passes]. apply passes_bind; [apply passes_floor|intros ?]. passes.
Qed.

Lemma passes_deadline : passes (deadline_reached cfg).
Proof. unfold deadline_reached. apply passes_bind; [apply passes_elapsed|]. passes. Qed.

Lemma passes_observer (op : W → result exn unit * W) : passes (await_observer_operation op).
Proof. unfold await_observer_operation. passes. Qed.

Lemma passes_deadlines c : passes (probe_deadlines cfg c).
Proof.
  unfold probe_deadlines. apply passes_bind; [passes|intros ?].
  apply passes_bind; [apply passes_elapsed|intros ?]. passes.
Qed.

Lemma wp_passes {A} (m : ctl W A) (Q : result exn A → session W → Prop) s :
  passes m → (∀ r s', quiet s s' → Q r s') → wp m Q s.
Proof. intros Hm HQ. eapply wp_mono; [apply Hm|]. auto. Qed.

(** ** The screens *)

(** What a request that passed the screens satisfies. *)
Record screened (r : CapabilityRegistration H) (request : ProbeRequest)
  (identity : string * string) (s : ControllerState) : Prop := {
  sc_executable : rg_enabled r = true ∧ rg_semantics r = READ_ONLY;
  sc_enabled : (oc_name (rg_capability r), oc_version (rg_capability r))
    ∈ enabled_identities envelope;
  sc_effects : pr_relevant_effect_ids request ⊆ expected_effect_ids envelope;
  sc_arguments : contains_target_coordinate_value (JObj (pr_arguments request)) = false;
  sc_schema : schema_is_valid (JObj (oc_argument_schema (rg_capability r)))
    (JObj (pr_arguments request)) = true;
  sc_invocations : get_invocations identity s < rg_max_invocations r;
  sc_cost : cs_cost_units_used s + oc_cost_units (rg_capability r)
    ≤ max_cost_units budget;
}.

Lemma screen_capability_none r :
  screen_capability cfg r = Ok None →
  (rg_enabled r = true ∧ rg_semantics r = READ_ONLY) ∧
  (oc_name (rg_capability r), oc_version (rg_capability r)) ∈ enabled_identities envelope.
Proof.
  unfold screen_capability. intros Hr.
  destruct (rg_enabled r); [|done]. cbn [negb] in Hr.
  destruct (bool_decide (rg_semantics r = MUTATING)) eqn:Hm; [done|].
  destruct (bool_decide (rg_semantics r = AMBIGUOUS)) eqn:Ha; [done|].
  destruct (inb _ _) eqn:Hin; [|done]. rewrite bool_decide_eq_false in Hm, Ha.
  split; [|by apply inb_true]. by destruct (rg_semantics r).
Qed.

Lemma screen_request_none r request :
  screen_request cfg r request = Ok None →
  pr_relevant_effect_ids request ⊆ expected_effect_ids envelope ∧
  contains_target_coordinate_value (JObj (pr_arguments request)) = false ∧
  schema_is_valid (JObj (oc_argument_schema (rg_capability r)))
    (JObj (pr_arguments request)) = true.
Proof.
  unfold screen_request. intros Hr.
  destruct (subsetb _ _) eqn:Hs; [|done]. cbn [negb] in Hr. inv_ok.
  destruct (_ <? _); [done|]. destruct (schema_is_valid _ _); [|done]. cbn [negb] in Hr.
  destruct (contains_target_coordinate_value _); [done|].
  split; [by apply subsetb_true|done].
Qed.

Lemma screen_budget_none r identity s :
  screen_budget cfg r identity s = None →
  get_invocations identity s < rg_max_invocations r ∧
  cs_cost_units_used s + oc_cost_units (rg_capability r) ≤ max_cost_units budget ∧
  cs_result_bytes_acquired s < max_total_result_bytes budget.
Proof.
  unfold screen_budget, refuse_if. repeat case_match; try done. lia.
Qed.

Lemma screen_none r request identity s :
  screen cfg r request identity s = Ok None → screened r request identity s.
Proof.
  unfold screen. intros Hr. inv_ok.
  destruct r0; [done|]. inv_ok. destruct r0; [done|]. injection Hr as Hr.
  match goal with Hx : screen_capability _ _ = _ |- _ =>
    apply screen_capability_none in Hx as [He Hi] end.
  match goal with Hx : screen_request _ _ _ = _ |- _ =>
    apply screen_request_none in Hx as (Hf & Ha & Hsc) end.
  apply screen_budget_none in Hr as (Hn & Hc & _). by split.
Qed.

(** A refusal is never a completion. *)
Lemma screen_not_completed r request identity s o reason :
  screen cfg r request identity s = Ok (Some (o, reason)) → o ≠ Probe_COMPLETED.
Proof.
  unfold screen, screen_capability, screen_request, screen_budget, refuse_if.
  intros Hr. inv_ok. repeat (case_match; simplify_eq; inv_ok; simplify_eq; try done).
Qed.

(** ** Ending a probe *)

(** The request being executed. *)
Context (request : ProbeRequest).

(** Where the text of an observation comes from: the encoding of what the
    handler returned, or of what a durable result decoded to. *)
Definition text_ok (text : string) : Prop :=
  ∃ raw decoded : ProbeObservation,
    decode_observation (canonical_json_bytes raw) = Ok decoded ∧
    (text = canonical_json_bytes raw ∨ text = canonical_json_bytes decoded).

(** What holds of an execution the controller returns for the request. *)
Record execution_ok (x : ProbeExecution) : Prop := {
  ex_envelope : px_envelope_sha256 x = canonical_sha256 envelope;
  ex_session : px_controller_session x = cc_session_token cfg;
  ex_completed : bool_decide (ar_outcome (px_audit x) = Probe_COMPLETED)
    = is_some (px_observation x);
  ex_observation : ∀ o, px_observation x = Some o →
    vo_sha256 o = sha256_hex (vo_canonical_json o) ∧
    vo_byte_count o = Z.of_nat (String.length (vo_canonical_json o)) ∧
    ar_result_sha256 (px_audit x) = Some (vo_sha256 o) ∧
    ar_result_byte_count (px_audit x) = Some (vo_byte_count o) ∧
    text_ok (vo_canonical_json o);
  ex_request : ar_request_sha256 (px_audit x) = None ∨
    ∃ sha, probe_request_sha256 request = Ok sha ∧
      ar_request_sha256 (px_audit x) = Some sha;
  ex_name : ar_capability_name (px_audit x) = None ∨
    ar_capability_name (px_audit x) = Some (pr_capability_name request);
  ex_version : ar_capability_version (px_audit x) = None ∨
    ar_capability_version (px_audit x) = Some (pr_capability_version request);
}.

(** The parts of a session that only the end of a probe changes. *)
Definition trail (s : session W)
  : list ControllerAuditRecord * Z * option ProbeExecution :=
  (cs_audit (ss_state s), cs_sequence (ss_state s), cs_terminal_execution (ss_state s)).

Definition is_terminal (x : ProbeExecution) : bool :=
  inb (ar_stop_reason (px_audit x)) TERMINAL_REASONS.

(** From [s0], a probe ended with [x]: one record was appended, under the
    session's sequence number, and a terminal reason was latched. *)
Record ended (s0 s : session W) (x : ProbeExecution) : Prop := {
  ed_audit : cs_audit (ss_state s) = cs_audit (ss_state s0) ++ [px_audit x];
  ed_sequence : ar_sequence (px_audit x) = cs_sequence (ss_state s0);
  ed_next : cs_sequence (ss_state s) = cs_sequence (ss_state s0);
  ed_terminal : cs_terminal_execution (ss_state s) =
    if is_terminal x then Some x else cs_terminal_execution (ss_state s0);
  ed_execution : execution_ok x;
}.

Definition outcome_ok (s0 : session W) (r : result exn ProbeExecution) (s : session W)
  : Prop :=
  session_ok s ∧ match r with Ok x => ended s0 s x | Raise _ => True end.

Record values_ok (s0 : session W) (v : probe_values) : Prop := {
  vk_sequence : v_sequence v = cs_sequence (ss_state s0);
  vk_identity : is_none (v_capability_name v) = is_none (v_capability_version v);
  vk_request : v_request_sha256 v = None ∨
    ∃ sha, probe_request_sha256 request = Ok sha ∧ v_request_sha256 v = Some sha;
  vk_name : v_capability_name v = None ∨
    v_capability_name v = Some (pr_capability_name request);
  vk_version : v_capability_version v = None ∨
    v_capability_version v = Some (pr_capability_version request);
}.

Definition observation_ok (outcome : ProbeOutcome) (observation : option ValidatedObservation)
  : Prop :=
  bool_decide (outcome = Probe_COMPLETED) = is_some observation ∧
  ∀ o, observation = Some o →
    vo_sha256 o = sha256_hex (vo_canonical_json o) ∧
    vo_byte_count o = Z.of_nat (String.length (vo_canonical_json o)) ∧
    text_ok (vo_canonical_json o).

(** Only an enabled capability, within the byte budget, may complete. *)
Definition completion_ok (v : probe_values) (outcome : ProbeOutcome) (s : session W) : Prop :=
  outcome = Probe_COMPLETED →
  cs_result_bytes_acquired (ss_state s) ≤ max_total_result_bytes budget ∧
  ∀ name version, v_capability_name v = Some name → v_capability_version v = Some version →
    (name, version) ∈ enabled_identities envelope.

Lemma quiet_trail s s' : quiet s s' → trail s' = trail s.
Proof. intros [_ [o Hs]]. unfold trail. by rewrite Hs. Qed.

Lemma outcome_quiet s0 x s s' :
  outcome_ok s0 (Ok x) s → quiet s s' → ∀ r, (r = Ok x ∨ ∃ e, r = Raise e) →
  outcome_ok s0 r s'.
Proof.
  intros [Hok Hend] Hq r Hr. split; [by eapply quiet_ok|].
  destruct Hr as [->|[e ->]]; [|done]. destruct Hend as [H1 H2 H3 H4 H5].
  apply quiet_trail in Hq. unfold trail in Hq. injection Hq as Ha Hs Ht.
  split; congruence.
Qed.

Lemma append_ok s a l :
  audit_ok a → state_ok s l → state_ok (append_audit a s) l.
Proof.
  intros Ha []. split; try done. cbn. apply Forall_app. by rewrite Forall_singleton.
Qed.

Lemma latch_ok s x l : state_ok s l → state_ok (latch_terminal x s) l.
Proof. by intros []. Qed.

(** Recording a valid audit ends the probe. *)
Lemma record_ok s0 s w x :
  audit_ok (px_audit x) → execution_ok x → session_ok s → trail s = trail s0 →
  ar_sequence (px_audit x) = cs_sequence (ss_state s0) →
  outcome_ok s0 (Ok x)
    {| ss_state := latch_terminal x (append_audit (px_audit x) (ss_state s));
       ss_world := w; ss_dispatched := ss_dispatched s |}.
Proof.
  intros Ha Hx Hs Ht Hseq. unfold trail in Ht. injection Ht as Ht1 Ht2 Ht3.
  split; [by apply latch_ok, append_ok|]. split; cbn; try congruence.
  by rewrite Ht3.
Qed.

Lemma make_execution_ok audit observation :
  bool_decide (ar_outcome audit = Probe_COMPLETED) = is_some observation →
  make_execution (envelope_digest cfg) audit observation (cc_session_token cfg) =
  Ok {| px_envelope_sha256 := envelope_digest cfg; px_audit := audit;
        px_observation := observation; px_controller_session := cc_session_token cfg |}.
Proof. intros H1. unfold make_execution. by rewrite H1, eqb_reflx. Qed.

Lemma finish_ok s0 s v outcome reason observation rejected :
  session_ok s → trail s = trail s0 → values_ok s0 v → observation_ok outcome observation →
  completion_ok v outcome s →
  wp (finish cfg v outcome reason observation rejected) (outcome_ok s0) s.
Proof.
  intros Hs Ht [Hseq Hid Hrq Hnm Hvr] [Hobs Hobs'] Hc. unfold finish.
  apply wp_bind, wp_passes; [apply passes_ask|]. intros [t|e] s1 Hq1;
    [|split; [by eapply quiet_ok|done]].
  apply wp_bind, wp_passes; [apply passes_elapsed|]. intros [ms|e] s2 Hq2;
    [|split; [by eapply quiet_ok, quiet_ok|done]].
  pose proof (quiet_trans _ _ _ Hq1 Hq2) as Hq. clear Hq1 Hq2 s1.
  pose proof (quiet_ok _ _ Hq Hs) as Hs2. pose proof (quiet_trail _ _ Hq) as Ht2.
  apply wp_bind, wp_gets. apply wp_bind, wp_lift; [|by split].
  intros a Ha. pose proof (model_validate_audit_inv _ _ Ha) as (-> & _).
  set (audit := audit_record cfg v _ _ _ _ _ _ _) in *.
  apply wp_bind, wp_modify. apply wp_bind.
  rewrite make_execution_ok by done. apply wp_lift; [|done]. intros x [= <-].
  apply wp_bind, wp_modify, wp_ret.
  set (x := {| px_envelope_sha256 := _ |}).
  change (outcome_ok s0 (Ok x) {| ss_state := latch_terminal x
    (append_audit (px_audit x) (ss_state s2)); ss_world := ss_world s2;
    ss_dispatched := ss_dispatched s2 |}).
  assert (ss_state s2 = set_offset (cs_elapsed_offset_ms (ss_state s2)) (ss_state s)) as Hst.
  { destruct Hq as [_ [o ->]]. done. }
  apply record_ok; [| |done|congruence|done].
  - split; [done|done| | |..].
    + intros n ver Hout Hn Hv. by apply (proj2 (Hc Hout)).
    + reflexivity.
    + apply (so_count _ _ Hs2).
    + apply (so_cost _ _ Hs2).
    + intros Hout. cbn. rewrite Hst. apply (proj1 (Hc Hout)).
  - split; [done|done|done| |exact Hrq|exact Hnm|exact Hvr].
    cbn. intros o ->. destruct (Hobs' o eq_refl) as (H1 & H2 & H3). done.
Qed.

Lemma observed_ok s0 s x :
  outcome_ok s0 (Ok x) s → wp (observe_execution x) (outcome_ok s0) s.
Proof.
  intros Hx. unfold observe_execution. destruct observer as [o|]; [|by apply wp_ret].
  apply wp_bind, wp_passes; [apply passes_observer|].
  intros [[]|e] s' Hq; [apply wp_ret|]; eapply outcome_quiet; eauto.
Qed.

Lemma finish_observed_ok s0 s v outcome reason :
  session_ok s → trail s = trail s0 → values_ok s0 v → outcome ≠ Probe_COMPLETED →
  wp (finish_observed cfg v outcome reason) (outcome_ok s0) s.
Proof.
  intros Hs Ht Hv Hc. unfold finish_observed. apply wp_bind.
  eapply wp_mono; [apply (finish_ok s0 s)|]; [done..| | |].
  - split; [|done]. by rewrite bool_decide_eq_false_2.
  - by intros.
  - intros [x|e] s' Hx; [by apply observed_ok|done].
Qed.

Lemma finish_dispatched_ok s0 s v outcome reason observation rejected :
  session_ok s → trail s = trail s0 → values_ok s0 v → observation_ok outcome observation →
  completion_ok v outcome s →
  wp (finish_dispatched cfg request v outcome reason observation rejected)
    (outcome_ok s0) s.
Proof.
  intros Hs Ht Hv Hobs Hc. unfold finish_dispatched. apply wp_bind.
  eapply wp_mono; [apply (finish_ok s0 s); done|].
  intros [x|e] s' Hx; [|done]. destruct observer as [o|]; [|by apply wp_ret].
  apply wp_bind, wp_passes; [apply passes_observer|].
  intros [[]|e] s2 Hq; [apply wp_ret|]; eapply outcome_quiet; eauto.
Qed.

(** A dispatched probe that ends without an observation. *)
Lemma finish_failed_ok s0 s v outcome reason rejected :
  session_ok s → trail s = trail s0 → values_ok s0 v → outcome ≠ Probe_COMPLETED →
  wp (finish_dispatched cfg request v outcome reason None rejected) (outcome_ok s0) s.
Proof.
  intros Hs Ht Hv Hc. apply finish_dispatched_ok; try done. split; [|done].
  by rewrite bool_decide_eq_false_2.
Qed.

Lemma finish_unsent_ok s0 s started v ending :
  session_ok s → trail s = trail s0 → values_ok s0 v → ending.1 ≠ Probe_COMPLETED →
  wp (finish_unsent cfg started request v ending) (outcome_ok s0) s.
Proof.
  intros. unfold finish_unsent.
  destruct started; [by apply finish_failed_ok|by apply finish_observed_ok].
Qed.

(** ** After the invocation *)

#[local] Abbreviation enabled v :=
  (∀ name version, v_capability_name v = Some name → v_capability_version v = Some version →
    (name, version) ∈ enabled_identities envelope).

Lemma acquire_ok n s w :
  session_ok s →
  session_ok {| ss_state := acquire_bytes n (ss_state s); ss_world := w;
                ss_dispatched := ss_dispatched s |}.
Proof. intros []. by split. Qed.

Lemma timeout_not_completed b : (timeout_ending b).1 ≠ Probe_COMPLETED.
Proof. by destruct b. Qed.

(** Lets time pass in a goal [wp (m ≫= k) (outcome_ok s0) s]. *)
#[local] Tactic Notation "wp_pass" constr(lem) "as" ident(s') ident(Hq) :=
  apply wp_bind, wp_passes; [apply lem|];
  intros [?|?] s' Hq; [|by split; [eapply quiet_ok; [exact Hq|]|]].

Lemma settle_observation_ok s0 s v capability d payload raw :
  observation_payload raw = Ok payload → session_ok s → trail s = trail s0 → values_ok s0 v → enabled v →
  wp (settle_observation cfg request v capability d payload) (outcome_ok s0) s.
Proof.
  intros Hraw Hs Ht Hv He. unfold settle_observation. apply wp_bind, wp_modify.
  apply (acquire_ok (Z.of_nat (String.length payload)) s (ss_world s)) in Hs.
  set (s1 := {| ss_state := acquire_bytes _ _ |}) in *.
  assert (trail s1 = trail s0) as Ht1 by (rewrite <-Ht; done). clearbody s1.
  wp_pass @passes_ask as sq1 Hq. pose proof (quiet_ok _ _ Hq Hs) as Hs2.
  pose proof (quiet_trail _ _ Hq) as Ht2. rewrite Ht1 in Ht2.
  case_match; [by apply finish_failed_ok|]. case_match; [by apply finish_failed_ok|].
  apply wp_bind, wp_gets. case_match eqn:Hb; [by apply finish_failed_ok|].
  apply finish_dispatched_ok; try done.
  - split; [done|]. intros o [= <-]. split_and!; [done|done|]. cbn [vo_canonical_json].
    unfold observation_payload in Hraw. revert Hraw.
    destruct (decode_observation _) as [decoded|] eqn:Hdec;
      cbn [mbind result_bind]; [|done].
    intros Heq. injection Heq as <-. exists raw, decoded. auto.
  - intros _. split; [|done]. by apply Z.ltb_ge in Hb.
Qed.

Lemma settle_completed_ok s0 s v capability d raw :
  session_ok s → trail s = trail s0 → values_ok s0 v → enabled v →
  wp (settle_completed cfg request v capability d raw) (outcome_ok s0) s.
Proof.
  intros Hs Ht Hv He. unfold settle_completed.
  wp_pass @passes_ask as sq2 Hq. pose proof (quiet_ok _ _ Hq Hs) as Hs1.
  pose proof (quiet_trail _ _ Hq) as Ht1. rewrite Ht in Ht1. clear Hq Hs Ht.
  case_match.
  { destruct (timeout_ending _) as [o r] eqn:Heq. apply finish_failed_ok; try done.
    pose proof (timeout_not_completed (dl_elapsed_limited d)) as Hne. by rewrite Heq in Hne. }
  destruct raw as [raw|]; [|by apply wp_throw].
  wp_pass @passes_ask as sq3 Hq. pose proof (quiet_ok _ _ Hq Hs1) as Hs2.
  pose proof (quiet_trail _ _ Hq) as Ht2. rewrite Ht1 in Ht2.
  case_match; [by apply finish_failed_ok|].
  destruct (observation_payload raw) as [payload|] eqn:Hpay;
    [by eapply settle_observation_ok|by apply finish_failed_ok].
Qed.

Lemma settle_ok s0 s v capability d invocation :
  session_ok s → trail s = trail s0 → values_ok s0 v → enabled v →
  wp (settle cfg request v capability d invocation) (outcome_ok s0) s.
Proof.
  intros Hs Ht Hv He. unfold settle.
  destruct (invocation.1); [by apply settle_completed_ok|by apply finish_failed_ok|
    by apply finish_failed_ok| |by apply finish_failed_ok|by apply finish_failed_ok].
  destruct (timeout_ending _) as [o r] eqn:Heq. apply finish_failed_ok; try done.
  pose proof (timeout_not_completed (dl_elapsed_limited d)) as Hne. by rewrite Heq in Hne.
Qed.

(** ** Spending the budget *)

Context (Henv : validate_ExecutionEnvelope envelope = Ok tt).
Context (Hreg : capability_wf (cc_registry cfg)).

Lemma resolved_identity n ver r :
  resolved n ver = Some r →
  oc_name (rg_capability r) = n ∧ oc_version (rg_capability r) = ver ∧
  1 ≤ oc_cost_units (rg_capability r).
Proof.
  intros Hr. apply resolve_registration in Hr as [Hi Hm]; [|done].
  injection Hi as Hn Hv. split_and!; [done|done|].
  apply make_registration_inv in Hm as (_ & _ & _ & _ & _ & Hc).
  unfold validate_ObservationCapability, valid_capability_bounds in Hc. inv_ok. bool_simpl.
  rewrite in_range_true in *. lia.
Qed.

Lemma get_set_invocations identity j n s :
  get_invocations j (set_invocations identity n s)
    = if decide (j = identity) then n else get_invocations j s.
Proof.
  unfold get_invocations. cbn. case_decide as He.
  - subst. by rewrite dict_get_set_eq.
  - by rewrite dict_get_set_ne.
Qed.

Lemma get_charge identity j n cost s :
  get_invocations j (charge identity n cost s)
    = if decide (j = identity) then n else get_invocations j s.
Proof. apply get_set_invocations. Qed.

(** Room for one more dispatch of a capability, already paid for. *)
Definition slack (identity : string * string) (cost : Z) (s : session W) : Prop :=
  Z.of_nat (length (ss_dispatched s)) < cs_probe_count_used (ss_state s) ∧
  dispatched_cost (ss_dispatched s) + cost ≤ cs_cost_units_used (ss_state s) ∧
  dispatches_of identity (ss_dispatched s) < get_invocations identity (ss_state s).

Lemma quiet_slack identity cost s s' :
  quiet s s' → slack identity cost s → slack identity cost s'.
Proof. intros [Hd [o Hs]]. unfold slack. by rewrite Hd, Hs. Qed.

Lemma charge_ok s w r n ver :
  resolved n ver = Some r → session_ok s →
  Z.of_nat (length (ss_dispatched s)) < cs_probe_count_used (ss_state s) →
  screened r request (n, ver) (ss_state s) →
  let s' := {| ss_state := charge (n, ver) (get_invocations (n, ver) (ss_state s) + 1)
                 (oc_cost_units (rg_capability r)) (ss_state s);
               ss_world := w; ss_dispatched := ss_dispatched s |} in
  session_ok s' ∧ slack (n, ver) (oc_cost_units (rg_capability r)) s'.
Proof.
  intros Hr Hs Hroom Hsc s'. pose proof (sc_invocations _ _ _ _ Hsc) as Hi.
  pose proof (sc_cost _ _ _ _ Hsc) as Hc.
  pose proof (resolved_identity _ _ _ Hr) as (_ & _ & Hpos).
  destruct Hs as [H1 H2 H3 H4 H5 H6 H7 H8]. split.
  - split; try done; try (cbn -[dispatched_cost]; lia).
    + intros a b q Hq. unfold s'. cbn [ss_state]. rewrite get_charge.
      case_decide as He; [|by apply H3].
      injection He as -> ->. assert (q = r) as -> by congruence. lia.
    + intros j. unfold s'. cbn [ss_state ss_dispatched]. rewrite get_charge.
      pose proof (H6 j) as Hj. case_decide; subst; lia.
  - unfold slack, s'. cbn [ss_state ss_dispatched]. rewrite get_charge, decide_True by done.
    pose proof (H6 (n, ver)) as Hj. split_and!; [done|cbn; lia|lia].
Qed.

Lemma note_ok s w d :
  session_ok s → probe_ok d →
  slack (bp_capability_name (dis_probe d), bp_capability_version (dis_probe d))
    (dis_cost d) s →
  session_ok {| ss_state := ss_state s; ss_world := w; ss_dispatched := ss_dispatched s ++ [d] |}.
Proof.
  intros [H1 H2 H3 H4 H5 H6 H7 H8] Hd (Hl & Hc & Hi). split; cbn; try done.
  - rewrite length_app. cbn. lia.
  - rewrite dispatched_cost_app. lia.
  - intros j. rewrite dispatches_of_app. pose proof (H6 j). case_decide; subst; lia.
  - apply Forall_app. by rewrite Forall_singleton.
Qed.

(** ** One dispatch *)

Lemma passes_call handler probe sequence :
  passes (call_handler handler probe request sequence).
Proof.
  assert (passes (r ← ask (call_observation handler probe); mret (handler_state r)))
    as Hc by (apply passes_bind; [apply passes_ask|intros; apply passes_ret]).
  unfold call_handler. destruct observer as [o|]; [|done].
  apply passes_bind; [apply passes_ask|intros t].
  apply passes_bind; [apply passes_ask|intros [[]|[]]];
    auto using @passes_ret, @passes_throw.
Qed.

(** The invocation adds exactly its own probe to the dispatch list. *)
Lemma invoke_once_ok handler probe timeout sequence cost s :
  session_ok s → probe_ok {| dis_probe := probe; dis_cost := cost |} →
  slack (bp_capability_name probe, bp_capability_version probe) cost s →
  wp (invoke_once handler probe timeout request sequence cost)
    (λ _ s', session_ok s' ∧ trail s' = trail s) s.
Proof.
  intros Hs Hp Hsl. unfold invoke_once. apply wp_bind, wp_note.
  pose proof (note_ok s (ss_world s) {| dis_probe := probe; dis_cost := cost |} Hs Hp Hsl)
    as Hn. set (s1 := {| ss_state := ss_state s; ss_dispatched := _ ++ _ |}) in *.
  assert (trail s1 = trail s) as Ht by done. clearbody s1.
  assert (passes (done ← ask (wait_first handler probe timeout);
    match done with
    | Wait_interrupted => throw Exn_cancelled
    | Wait_timed_out => mret (Invocation_TIMED_OUT, None)
    | Wait_cancelled => mret (Invocation_CANCELLED, None)
    | Wait_handler_done => call_handler handler probe request sequence
    end)) as Hrest.
  { apply passes_bind; [apply passes_ask|intros []];
      auto using passes_ret, passes_throw, passes_call. }
  eapply wp_passes; [exact Hrest|]. intros r s' Hq.
  split; [by eapply quiet_ok|]. by rewrite (quiet_trail _ _ Hq).
Qed.

Lemma bound_probe_ok r n ver ms :
  resolved n ver = Some r → validate_probe (bound_probe cfg (rg_capability r) request ms) = Ok tt →
  ∀ s, screened r request (n, ver) s →
  probe_ok {| dis_probe := bound_probe cfg (rg_capability r) request ms;
              dis_cost := oc_cost_units (rg_capability r) |}.
Proof.
  intros Hr Hv s []. pose proof (resolved_identity _ _ _ Hr) as (Hn & Hver & _).
  split; cbn; try done.
  - exists r. rewrite Hn, Hver. naive_solver.
  - eauto.
Qed.

(** The start of a probe: either paid for, or about to be. *)
Definition startable (r : CapabilityRegistration H)
  (identity : string * string) (count : Z) (started : bool) (s : session W) : Prop :=
  if started then slack identity (oc_cost_units (rg_capability r)) s
  else Z.of_nat (length (ss_dispatched s)) < cs_probe_count_used (ss_state s) ∧
       count = get_invocations identity (ss_state s) ∧
       screened r request identity (ss_state s).

Lemma quiet_screened r identity s s' :
  quiet s s' → screened r request identity (ss_state s) →
  screened r request identity (ss_state s').
Proof. intros [_ [o ->]] []. by split. Qed.

Lemma quiet_startable r identity count started s s' :
  quiet s s' → startable r identity count started s →
  startable r identity count started s'.
Proof.
  unfold startable. destruct started; [apply quiet_slack|].
  intros Hq (Hl & -> & Hsc). split_and!.
  - destruct Hq as [-> [o ->]]. done.
  - destruct Hq as [_ [o ->]]. done.
  - by eapply quiet_screened.
Qed.

Lemma wp_cancelled s0 (m : ctl W ProbeExecution)
  (k : InvocationState * option ProbeObservation → ctl W ProbeExecution) s :
  wp m (outcome_ok s0) s →
  wp (m;; throw (A := InvocationState * option ProbeObservation) Exn_cancelled)
    (λ r s', match r with Ok a => wp (k a) (outcome_ok s0) s'
             | Raise e => outcome_ok s0 (Raise e) s' end) s.
Proof.
  intros Hm. apply wp_bind. eapply wp_mono; [exact Hm|].
  intros [x|e] s' [Hok _]; [apply wp_throw|]; by split.
Qed.

Lemma run_probe_ok s0 s r handler v n ver count started :
  resolved n ver = Some r → session_ok s → trail s = trail s0 → values_ok s0 v →
  enabled v → startable r (n, ver) count started s →
  (∃ s1, screened r request (n, ver) s1) →
  wp (run_probe cfg r handler request v (n, ver) count started) (outcome_ok s0) s.
Proof.
  intros Hr Hs Ht Hv He Hst [s1 Hsc].
  pose proof (resolved_identity _ _ _ Hr) as (Hname & Hver & _).
  unfold run_probe. wp_pass passes_deadlines as sd Hq.
  pose proof (quiet_ok _ _ Hq Hs) as Hs2. pose proof (quiet_trail _ _ Hq) as Ht2.
  rewrite Ht in Ht2. pose proof (quiet_startable _ _ _ _ _ _ Hq Hst) as Hst2.
  clear s Hs Ht Hst Hq. case_match; [by apply finish_unsent_ok|].
  apply wp_bind, wp_lift; [|by intros]. intros ms _.
  apply wp_bind, wp_lift; [|by intros]. intros [] Hvp.
  wp_pass @passes_ask as s' Hq.
  pose proof (quiet_ok _ _ Hq Hs2) as Hs. pose proof (quiet_trail _ _ Hq) as Ht.
  rewrite Ht2 in Ht. pose proof (quiet_startable _ _ _ _ _ _ Hq Hst2) as Hst.
  clear sd Hs2 Ht2 Hst2 Hq.
  case_match; [apply finish_unsent_ok; try done; apply timeout_not_completed|].
  assert (wp (if started then mret tt else
      modify (charge (n, ver) (count + 1) (oc_cost_units (rg_capability r))))
    (λ r' s', r' = Ok tt ∧ session_ok s' ∧ trail s' = trail s0 ∧
      slack (n, ver) (oc_cost_units (rg_capability r)) s') s') as Hpaid.
  { destruct started; [apply wp_ret; by split_and!|]. destruct Hst as (Hl & -> & Hsc').
    apply wp_modify.
    destruct (charge_ok s' (ss_world s') r n ver Hr Hs Hl Hsc') as [Hok Hsl].
    split; [done|]. split; [exact Hok|]. split; [exact Ht|exact Hsl]. }
  apply wp_bind. eapply wp_mono; [exact Hpaid|].
  intros ? s2 (-> & Hs2 & Ht2 & Hsl). apply wp_bind, wp_catch.
  eapply wp_mono; [apply invoke_once_ok; [done|by eapply bound_probe_ok|]|].
  { cbn. by rewrite Hname, Hver. }
  intros [invocation|e] s3 [Hs3 Ht3]; [apply settle_ok; try done; congruence|].
  destruct e; try (by split). apply wp_cancelled, finish_unsent_ok; try done. congruence.
Qed.

Lemma restored_mismatch_false a sequence sha cost s :
  restored_mismatch cfg a sequence request sha cost s = false →
  ar_sequence a = sequence ∧
  ar_capability_name a = Some (pr_capability_name request) ∧
  ar_capability_version a = Some (pr_capability_version request) ∧
  ar_request_sha256 a = Some sha ∧
  ar_target_sha256 a = target_sha256 cfg ∧
  ar_probe_count_used a = cs_probe_count_used s ∧
  ar_cost_units_used a = cs_cost_units_used s + cost ∧
  ar_probe_count_used a ≤ max_probes budget ∧
  ar_cost_units_used a ≤ max_cost_units budget ∧
  ar_result_bytes_acquired a ≤ max_total_result_bytes budget.
Proof.
  unfold restored_mismatch. intros Hm. bool_simpl. split_and!; try done; lia.
Qed.

Lemma restored_observation_ok a o validated :
  restored_observation a o = Ok validated →
  is_some validated = is_some o ∧ ∀ x, validated = Some x →
    vo_sha256 x = sha256_hex (vo_canonical_json x) ∧
    vo_byte_count x = Z.of_nat (String.length (vo_canonical_json x)) ∧
    ar_result_sha256 a = Some (vo_sha256 x) ∧
    ar_result_byte_count a = Some (vo_byte_count x) ∧ text_ok (vo_canonical_json x).
Proof.
  unfold restored_observation. destruct o as [o|]; [|by intros [= <-]].
  destruct (decode_observation _) as [o'|] eqn:Hdec; cbn [mbind result_bind]; [|done].
  assert (text_ok (canonical_json_bytes o')) as Htext by (exists o, o'; auto).
  revert Htext. generalize (canonical_json_bytes o') as payload. intros payload Htext.
  cbn [vo_sha256 vo_byte_count].
  remember (Z.of_nat (String.length payload)) as count eqn:Hcount.
  remember (sha256_hex payload) as sha eqn:Hsha.
  destruct (negb _ || negb _) eqn:Hm; cbn [reject_if mbind result_bind]; [done|].
  bool_simpl. intros [= <-]. split; [done|]. intros x [= <-]. cbn. by subst.
Qed.

(** The counters a restored record brings. *)
Lemma restored_usage_ok s count cost bytes w :
  session_ok s → count = cs_probe_count_used (ss_state s) → count ≤ max_probes budget →
  cs_cost_units_used (ss_state s) ≤ cost ≤ max_cost_units budget →
  session_ok {| ss_state := set_usage count cost bytes (ss_state s); ss_world := w;
                ss_dispatched := ss_dispatched s |}.
Proof. intros [] -> Hmp Hmc. split; try done; cbn -[dispatched_cost]; lia. Qed.

Lemma restored_invocations_ok s n ver r o w l count cost bytes :
  resolved n ver = Some r → session_ok s → l = ss_dispatched s →
  get_invocations (n, ver) (ss_state s) < rg_max_invocations r →
  count = cs_probe_count_used (ss_state s) →
  cs_cost_units_used (ss_state s) ≤ cost ≤ max_cost_units budget →
  session_ok {| ss_state := set_invocations (n, ver)
                  (get_invocations (n, ver) (ss_state s) + 1)
                  (set_offset o (set_usage count cost bytes (ss_state s)));
                ss_world := w; ss_dispatched := l |}.
Proof.
  intros Hr [] -> Hi -> Hc. split; try done; try (cbn -[dispatched_cost]; lia).
  - intros a b q Hq. cbn [ss_state]. rewrite get_set_invocations.
    destruct (decide ((a, b) = (n, ver))) as [[= -> ->]|_]; [|by apply so_invocations0].
    assert (q = r) as -> by congruence. lia.
  - intros j. cbn [ss_state ss_dispatched]. rewrite get_set_invocations.
    pose proof (so_invoked0 j). destruct (decide (j = _)); [subst; lia|done].
Qed.

Lemma restore_ok s0 s restored r v n ver :
  n = pr_capability_name request → ver = pr_capability_version request →
  resolved n ver = Some r → session_ok s → trail s = trail s0 →
  values_ok s0 v → (n, ver) ∈ enabled_identities envelope →
  Z.of_nat (length (ss_dispatched s)) < cs_probe_count_used (ss_state s) →
  screened r request (n, ver) (ss_state s) →
  wp (restore cfg restored (v_sequence v) request (n, ver)
        (get_invocations (n, ver) (ss_state s)) (oc_cost_units (rg_capability r)))
    (outcome_ok s0) s.
Proof.
  intros -> -> Hr Hs Ht [Hv _ _ _ _] He Hroom Hsc. unfold restore.
  apply wp_bind, wp_lift; [|by intros]. intros a Ha.
  pose proof (model_validate_audit_inv _ _ Ha) as (-> & _).
  apply wp_bind, wp_lift; [|by intros]. intros sha Hsha.
  apply wp_bind, wp_gets. apply wp_bind, wp_lift; [|by intros]. intros [] Hm.
  apply wp_bind, wp_lift; [|by intros]. intros [] Hagree.
  apply wp_bind, wp_lift; [|by intros]. intros validated Hval. inv_ok. bool_simpl.
  apply restored_mismatch_false in Hm as (Hseq & Hn & Hver & Hreq & Htgt & Hcount & Hcost &
    Hmp & Hmc & Hmb).
  apply restored_observation_ok in Hval as [Hsome Hval].
  apply wp_bind, wp_modify.
  set (s1 := {| ss_state := set_usage _ _ _ _ |}).
  pose proof (resolved_identity _ _ _ Hr) as (_ & _ & Hpos).
  pose proof (sc_invocations _ _ _ _ Hsc) as Hi.
  apply eqb_prop in Hagree.
  assert (session_ok s1 ∧ ∀ o w, session_ok {| ss_state := set_invocations
      (pr_capability_name request, pr_capability_version request)
      (get_invocations (pr_capability_name request, pr_capability_version request)
         (ss_state s) + 1) (set_offset o (ss_state s1));
      ss_world := w; ss_dispatched := ss_dispatched s |}) as [Hs1 Hok].
  { clear Hagree Hval. split; [apply (restored_usage_ok s); [done|done|done|lia]|].
    intros o w. by apply (restored_invocations_ok s _ _ r); try lia. }
  apply wp_bind, wp_passes; [apply passes_local|].
  intros [local|e] s2 Hq; [|split; [by eapply quiet_ok|done]].
  apply wp_bind, wp_gets. apply wp_bind, wp_modify. apply wp_bind, wp_modify.
  apply wp_bind, wp_modify. apply wp_bind.
  rewrite make_execution_ok by (by rewrite Hsome).
  apply wp_lift; [|done]. intros x [= <-]. apply wp_bind, wp_modify, wp_ret.
  cbn [ss_state ss_world ss_dispatched].
  destruct Hq as [Hd [o Ho]]. rewrite Ho, Hd.
  change (ss_dispatched s1) with (ss_dispatched s).
  match goal with |- outcome_ok _ (Ok ?x) {| ss_state := latch_terminal _ (append_audit _ ?st);
      ss_world := ?w; ss_dispatched := ?l |} =>
    apply (record_ok s0 {| ss_state := st; ss_world := w; ss_dispatched := l |} w x) end.
  - cbn [px_audit]. split; [done|by rewrite Hn, Hver| |by rewrite Htgt|lia|lia|done].
    intros n' ver' _ Hn' Hv'. cbn in Hn', Hv'. rewrite Hn in Hn'. rewrite Hver in Hv'.
    by simplify_eq.
  - split; [done|done|by cbn; rewrite Hsome|exact Hval|right; eauto|by right|by right].
  - apply Hok.
  - rewrite <-Ht. done.
  - cbn. congruence.
Qed.

Lemma screened_startable s r identity :
  Z.of_nat (length (ss_dispatched s)) < cs_probe_count_used (ss_state s) →
  screened r request identity (ss_state s) →
  startable r identity (get_invocations identity (ss_state s)) false s.
Proof. by intros. Qed.

Lemma dispatch_probe_ok s0 s r v :
  let n := pr_capability_name request in
  let ver := pr_capability_version request in
  resolved n ver = Some r → session_ok s → trail s = trail s0 →
  values_ok s0 v → enabled v →
  Z.of_nat (length (ss_dispatched s)) < cs_probe_count_used (ss_state s) →
  screened r request (n, ver) (ss_state s) →
  wp (dispatch_probe cfg r request v (n, ver)) (outcome_ok s0) s.
Proof.
  intros n ver Hr Hs Ht Hv He Hroom Hsc. unfold dispatch_probe.
  apply wp_bind, wp_gets. destruct (rg_handler r) as [handler|];
    [|by apply finish_observed_ok].
  destruct observer as [o|].
  2:{ eapply run_probe_ok; eauto. by apply screened_startable. }
  wp_pass @passes_ask as s1 Hq.
  pose proof (quiet_ok _ _ Hq Hs) as Hs1. pose proof (quiet_trail _ _ Hq) as Ht1.
  rewrite Ht in Ht1. pose proof (quiet_screened _ _ _ _ Hq Hsc) as Hsc1.
  assert (Z.of_nat (length (ss_dispatched s1)) < cs_probe_count_used (ss_state s1)) as Hroom1
    by (destruct Hq as [-> [off ->]]; done).
  assert (get_invocations (n, ver) (ss_state s) = get_invocations (n, ver) (ss_state s1))
    as Hinv by (destruct Hq as [_ [off ->]]; done).
  rewrite Hinv. clear s Hs Ht Hroom Hsc Hq Hinv.
  case_match.
  - apply wp_bind, wp_modify.
    destruct (charge_ok s1 (ss_world s1) r n ver Hr Hs1 Hroom1 Hsc1) as [Hs2 Hsl].
    eapply run_probe_ok; eauto.
  - apply wp_bind. eapply wp_mono.
    { eapply restore_ok; eauto. pose proof (resolved_identity _ _ _ Hr) as (Hn & Hver & _).
      fold n ver. rewrite <-Hn, <-Hver. apply Hsc1. }
    intros [x|e] s2 Hx; [by apply observed_ok|done].
  - by apply finish_observed_ok.
  - by apply wp_throw.
Qed.

Lemma execute_request_ok s0 s v :
  session_ok s → trail s = trail s0 → v_sequence v = cs_sequence (ss_state s0) →
  v_capability_name v = None → v_capability_version v = None →
  (∃ sha, probe_request_sha256 request = Ok sha ∧ v_request_sha256 v = Some sha) →
  Z.of_nat (length (ss_dispatched s)) < cs_probe_count_used (ss_state s) →
  wp (execute_request cfg request v) (outcome_ok s0) s.
Proof.
  intros Hs Ht Hv Hn Hver Hsha Hroom. unfold execute_request.
  assert (values_ok s0 v) as Hvals by (split; auto; by rewrite Hn, Hver).
  wp_pass passes_deadline as s1 Hq.
  pose proof (quiet_ok _ _ Hq Hs) as Hs1. pose proof (quiet_trail _ _ Hq) as Ht1.
  rewrite Ht in Ht1.
  assert (Z.of_nat (length (ss_dispatched s1)) < cs_probe_count_used (ss_state s1)) as Hroom1
    by (destruct Hq as [-> [off ->]]; done).
  clear s Hs Ht Hroom Hq. case_match; [by apply finish_observed_ok|].
  destruct (resolved _ _) as [r|] eqn:Hr; [|by apply finish_observed_ok].
  pose proof (resolved_identity _ _ _ Hr) as (Hrn & Hrv & _). rewrite Hrn, Hrv.
  apply wp_bind, wp_gets. apply wp_bind, wp_lift; [|by split].
  assert (values_ok s0 (with_identity (pr_capability_name request,
    pr_capability_version request) v)) as Hv' by (split; auto).
  intros [[outcome reason]|] Hsc.
  - apply finish_observed_ok; try done. by eapply screen_not_completed.
  - apply screen_none in Hsc. eapply dispatch_probe_ok; eauto.
    intros name version [= <-] [= <-]. cbn.
    rewrite <-Hrn, <-Hrv at 1. apply Hsc.
Qed.

(** The session with its next sequence number. *)
Definition begun (s : session W) : session W :=
  {| ss_state := set_sequence (cs_sequence (ss_state s) + 1) (ss_state s);
     ss_world := ss_world s; ss_dispatched := ss_dispatched s |}.

Lemma begun_ok s : session_ok s → session_ok (begun s).
Proof. intros []. by split. Qed.

(** Every probe of a session that has not latched keeps the invariant, and when
    it returns it has ended exactly one probe. *)
Lemma execute_ok s :
  session_ok s → cs_terminal_execution (ss_state s) = None →
  wp (execute cfg request) (outcome_ok (begun s)) s.
Proof.
  intros Hs Hterm. unfold execute. apply wp_bind, wp_gets. rewrite Hterm.
  apply wp_bind, wp_modify. fold (begun s).
  apply wp_bind, wp_gets. apply begun_ok in Hs.
  wp_pass @passes_ask as s1 Hq1.
  pose proof (quiet_ok _ _ Hq1 Hs) as Hs1. pose proof (quiet_trail _ _ Hq1) as Ht1.
  wp_pass @passes_ask as s2 Hq2.
  pose proof (quiet_ok _ _ Hq2 Hs1) as Hs2. pose proof (quiet_trail _ _ Hq2) as Ht2.
  rewrite Ht1 in Ht2. clear s1 Hs1 Ht1 Hq1 Hq2.
  assert (∀ t, values_ok (begun s) {| v_sequence := cs_sequence (ss_state (begun s));
    v_started_at := t; v_capability_name := None; v_capability_version := None;
    v_request_sha256 := None |}) as Hvals by (intros t; split; auto).
  case_match; [by apply finish_observed_ok|].
  apply wp_bind, wp_gets. case_match eqn:Hmax; [by apply finish_observed_ok|].
  apply Z.leb_gt in Hmax. apply wp_bind, wp_modify.
  set (s3 := {| ss_state := set_usage _ _ _ _ |}).
  assert (session_ok s3) as Hs3.
  { destruct Hs2. split; try done; cbn -[dispatched_cost]; lia. }
  assert (trail s3 = trail (begun s)) as Ht3 by done.
  case_match; [|by apply finish_observed_ok].
  apply execute_request_ok; try done; [by eauto|].
  cbn. pose proof (so_dispatched _ _ Hs2). lia.
Qed.

(** A latched session answers every probe with the execution it latched. *)
Lemma execute_latched s x :
  cs_terminal_execution (ss_state s) = Some x → execute cfg request s = (Ok x, s).
Proof.
  intros Hx. unfold execute, mbind, ctl_bind, gets. rewrite Hx. done.
Qed.

End facts.
