(* ===== verification/Session.v ===== *)
(** Probe sessions: what a controller does over a whole investigation.

    [probe_step] is one [execute], returning or raising, or a while in which the
    session's caller does something else; [probed] is a run of probes that all
    returned and that stopped at the first terminal one, as the investigation
    drivers do; [tally] bounds the probes it and its audit records count. *)

From S2P Require Export ControllerFacts.

#[local] Open Scope Z_scope.

Create HintDb sends.

Section session.
Context {rt : Runtime} {sec : Security} {sv : SchemaValidator} {od : ObservationDecoder}.
Context {W H : Type} {env : Environment W H}.

(** ** Dispatches of one call *)

(** [m] hands at most [n] probes to a handler. *)
Definition sends {A} (n : nat) (m : ctl W A) : Prop := ∀ s,
  ∃ l, (length l ≤ n)%nat ∧ ss_dispatched (m s).2 = ss_dispatched s ++ l.

Lemma sends_bind {A B} (a b n : nat) (m : ctl W A) (k : A → ctl W B) :
  sends a m → (∀ x, sends b (k x)) → (a + b ≤ n)%nat → sends n (mbind k m).
Proof.
  intros Hm Hk Hn s. destruct (Hm s) as (l & Hl & Hd).
  unfold mbind, ctl_bind. destruct (m s) as [[x|e] s'] eqn:E; cbn in *.
  - destruct (Hk x s') as (l' & Hl' & Hd'). exists (l ++ l'). rewrite length_app.
    split; [lia|]. by rewrite Hd', Hd, app_assoc.
  - exists l. split; [lia|done].
Qed.

Lemma sends_weaken {A} a n (m : ctl W A) : sends a m → (a ≤ n)%nat → sends n m.
Proof. intros Hm Hn s. destruct (Hm s) as (l & Hl & Hd). exists l. split; [lia|done]. Qed.

Lemma sends_quiet {A} n (m : ctl W A) : passes m → sends n m.
Proof.
  intros Hm s. exists []. rewrite app_nil_r. split; [cbn; lia|]. apply (Hm s).
Qed.

Lemma sends_modify n f : sends n (modify f).
Proof. intros s. exists []. rewrite app_nil_r. split; [cbn; lia|done]. Qed.

Lemma sends_note d : sends 1 (note_dispatch d).
Proof. intros s. by exists [d]. Qed.

Lemma sends_catch {A} a b n (m h : ctl W A) :
  sends a m → sends b h → (a + b ≤ n)%nat → sends n (catch_cancelled m h).
Proof.
  intros Hm Hh Hn s. destruct (Hm s) as (l & Hl & Hd). unfold catch_cancelled.
  destruct (m s) as [[x|e] s'] eqn:E; cbn in *; [exists l; split; [lia|done]|].
  destruct e; try (exists l; split; [lia|done]).
  destruct (Hh s') as (l' & Hl' & Hd'). exists (l ++ l'). rewrite length_app.
  split; [lia|]. by rewrite Hd', Hd, app_assoc.
Qed.

Lemma sends_bind0 {A B} (n : nat) (m : ctl W A) (k : A → ctl W B) :
  sends 0 m → (∀ x, sends n (k x)) → sends n (mbind k m).
Proof. intros Hm Hk. by eapply sends_bind. Qed.

#[local] Hint Resolve passes_ask passes_ask_result passes_gets passes_ret passes_throw passes_lift
  passes_local passes_elapsed passes_deadline passes_observer passes_deadlines passes_call
  : sends.

#[local] Ltac sends := repeat first
  [ apply sends_modify | apply sends_quiet; solve [eauto with sends]
  | apply sends_bind0; [|intros ?] | case_match | progress cbn [negb] ].

Context (cfg : ControllerConfig H).

Lemma sends_finish n v o r obs rej : sends n (finish cfg v o r obs rej).
Proof. unfold finish. sends. Qed.

Lemma sends_dispatched n rq v o r obs rej : sends n (finish_dispatched cfg rq v o r obs rej).
Proof. unfold finish_dispatched. apply sends_bind0; [apply sends_finish|intros x]. sends. Qed.

Lemma sends_observe n x : sends n (observe_execution (W := W) x).
Proof. unfold observe_execution. sends. Qed.

Lemma sends_observed n v o r : sends n (finish_observed cfg v o r).
Proof.
  unfold finish_observed. apply sends_bind0; [apply sends_finish|]. intros. apply sends_observe.
Qed.

Lemma sends_unsent n b rq v e : sends n (finish_unsent cfg b rq v e).
Proof. unfold finish_unsent. case_match; [apply sends_dispatched|apply sends_observed]. Qed.

Lemma sends_restore n r q rq i c k : sends n (restore cfg r q rq i c k).
Proof. unfold restore. sends. Qed.

Lemma sends_settle n rq v c d i : sends n (settle cfg rq v c d i).
Proof.
  unfold settle, settle_completed, settle_observation.
  repeat first [ apply sends_dispatched | progress sends ].
Qed.

Lemma sends_invoke h p t rq q c : sends 1 (invoke_once h p t rq q c).
Proof.
  unfold invoke_once. eapply sends_bind; [apply sends_note|intros _|].
  - sends.
  - done.
Qed.

Lemma sends_run r h rq v i c b : sends 1 (run_probe cfg r h rq v i c b).
Proof.
  unfold run_probe. apply sends_bind0; [sends|intros d].
  case_match; [apply sends_unsent|]. apply sends_bind0; [sends|intros ms].
  apply sends_bind0; [sends|intros _]. apply sends_bind0; [sends|intros t].
  case_match; [apply sends_unsent|]. apply sends_bind0; [sends|intros _].
  eapply sends_bind; [|intros x; apply (sends_settle 0)|].
  - eapply sends_catch; [apply sends_invoke| |].
    + apply (sends_bind0 0); [apply sends_unsent|]. intros x. sends.
    + done.
  - done.
Qed.

Lemma sends_execute rq : sends 1 (execute cfg rq).
Proof.
  assert (∀ r v i, sends 1 (dispatch_probe cfg r rq v i)) as Hd.
  { intros. unfold dispatch_probe. apply sends_bind0; [sends|intros n].
    case_match; [|apply sends_observed]. case_match; [|apply sends_run].
    apply sends_bind0; [sends|intros b]. destruct b.
    - apply sends_bind0; [sends|intros _]. apply sends_run.
    - apply sends_bind0; [apply sends_restore|intros x]. apply sends_observe.
    - apply sends_observed.
    - sends. }
  unfold execute, execute_request.
  repeat first [ apply Hd | apply sends_observed | apply sends_modify
    | apply sends_quiet; solve [eauto with sends]
    | apply sends_bind0; [|intros ?] | case_match ].
Qed.

(** ** Runs *)

(** One call of [execute], whatever it ends with; or the world moves on. *)
Inductive probe_step : session W → session W → Prop :=
  | probe_step_execute s request : probe_step s (execute cfg request s).2
  | probe_step_quiet s s' : quiet s s' → probe_step s s'.

(** Probes that all returned, none after a terminal one; the world moves on before,
    between and after them. *)
Inductive probed : session W → list (ProbeRequest * ProbeExecution) → session W → Prop :=
  | probed_nil s s' : quiet s s' → probed s [] s'
  | probed_cons s s0 request x s' l s'' :
      quiet s s0 → cs_terminal_execution (ss_state s0) = None →
      execute cfg request s0 = (Ok x, s') → probed s' l s'' →
      probed s ((request, x) :: l) s''.

Definition audits_of (l : list (ProbeRequest * ProbeExecution))
  : list ControllerAuditRecord := map (λ rx, px_audit rx.2) l.

(** ** The probe count *)

(** The probe count and every audit record's are at most [c]. *)
Definition tally (c : Z) (s : session W) : Prop :=
  cs_probe_count_used (ss_state s) ≤ c ∧
  Forall (λ a, ar_probe_count_used a ≤ c) (cs_audit (ss_state s)).

Lemma tally_more c c' s : c ≤ c' → tally c s → tally c' s.
Proof.
  intros Hc [H1 H2]. split; [lia|]. eapply Forall_impl; [exact H2|]. cbn. intros a Ha. lia.
Qed.

Lemma tally_quiet c s s' : quiet s s' → tally c s → tally c s'.
Proof. intros [_ [o Ho]]. unfold tally. by rewrite Ho. Qed.

(** [m] does not count above [c]. *)
Definition tallies {A} (c : Z) (m : ctl W A) : Prop :=
  ∀ s, tally c s → wp m (λ _ s', tally c s') s.

Lemma tallies_bind {A B} c (m : ctl W A) (k : A → ctl W B) :
  tallies c m → (∀ x, tallies c (k x)) → tallies c (mbind k m).
Proof.
  intros Hm Hk s Hs. apply wp_bind. eapply wp_mono; [by apply Hm|].
  intros [a|e] s' Hs'; [by apply Hk|done].
Qed.

Lemma tallies_quiet {A} c (m : ctl W A) : passes m → tallies c m.
Proof.
  intros Hm s Hs. eapply wp_mono; [apply Hm|]. intros r s' Hq. exact (tally_quiet c s s' Hq Hs).
Qed.

Lemma tallies_modify c f :
  (∀ st, cs_probe_count_used (f st) = cs_probe_count_used st ∧ cs_audit (f st) = cs_audit st) →
  tallies c (modify f).
Proof.
  intros Hf s [H1 H2]. apply wp_modify. destruct (Hf (ss_state s)) as [Hc Ha].
  split; cbn [ss_state]; by rewrite ?Hc, ?Ha.
Qed.

Lemma tallies_append c a : ar_probe_count_used a ≤ c → tallies c (modify (append_audit a)).
Proof.
  intros Ha s [H1 H2]. apply wp_modify. split; [exact H1|]. cbn.
  apply Forall_app. split; [done|]. by constructor.
Qed.

Lemma tallies_catch {A} c (m h : ctl W A) :
  tallies c m → tallies c h → tallies c (catch_cancelled m h).
Proof.
  intros Hm Hh s Hs. specialize (Hm s Hs). unfold wp, catch_cancelled in *.
  destruct (m s) as [[x|e] s'] eqn:E; cbn [fst snd] in *; [done|].
  destruct e; try done. by apply Hh.
Qed.

#[local] Ltac tallied := repeat first
  [ apply tallies_quiet; solve [eauto with sends]
  | apply tallies_append; assumption
  | apply tallies_modify; intros ?; done
  | apply tallies_bind; [|intros ?] | case_match | progress cbn [negb] ].

Lemma tallies_finish c v o r obs rej : tallies c (finish cfg v o r obs rej).
Proof.
  unfold finish. apply tallies_bind; [tallied|intros t]. apply tallies_bind; [tallied|intros e].
  intros s Hs. apply wp_bind, wp_gets. apply wp_bind, wp_lift; [|done].
  intros a (-> & _)%model_validate_audit_inv.
  eapply (tallies_bind c); [apply tallies_append; apply Hs| |exact Hs]. intros []. tallied.
Qed.

Lemma tallies_restore c r q rq i n k : tallies c (restore cfg r q rq i n k).
Proof.
  unfold restore. intros s Hs. apply wp_bind, wp_lift; [|done].
  intros a (-> & _)%model_validate_audit_inv. apply wp_bind, wp_lift; [|done]. intros sha _.
  apply wp_bind, wp_gets. apply wp_bind, wp_lift; [|done]. intros [] Hm.
  apply reject_if_ok in Hm. apply restored_mismatch_false in Hm as (_ & _ & _ & _ & _ & Hc & _).
  apply wp_bind, wp_lift; [|done]. intros [] _. apply wp_bind, wp_lift; [|done]. intros validated _.
  assert (ar_probe_count_used (rp_audit r) ≤ c) as Ha by (rewrite Hc; apply Hs).
  apply wp_bind, wp_modify. match goal with |- wp ?m _ _ => assert (tallies c m) as Hm end.
  - tallied.
  - apply Hm. by split; [|apply Hs].
Qed.

Lemma tallies_dispatched c rq v o r obs rej : tallies c (finish_dispatched cfg rq v o r obs rej).
Proof. unfold finish_dispatched. apply tallies_bind; [apply tallies_finish|intros x]. tallied. Qed.

Lemma tallies_observe c x : tallies c (observe_execution (W := W) x).
Proof. unfold observe_execution. tallied. Qed.

Lemma tallies_observed c v o r : tallies c (finish_observed cfg v o r).
Proof.
  unfold finish_observed. apply tallies_bind; [apply tallies_finish|]. intros. apply tallies_observe.
Qed.

Lemma tallies_unsent c b rq v e : tallies c (finish_unsent cfg b rq v e).
Proof. unfold finish_unsent. case_match; [apply tallies_dispatched|apply tallies_observed]. Qed.

Lemma tallies_settle c rq v k d i : tallies c (settle cfg rq v k d i).
Proof.
  unfold settle, settle_completed, settle_observation.
  repeat first [ apply tallies_dispatched | apply tallies_quiet; solve [eauto with sends]
    | apply tallies_modify; intros ?; done | apply tallies_bind; [|intros ?] | case_match
    | progress cbn [negb] ].
Qed.

Lemma tallies_invoke c h p t rq q k : tallies c (invoke_once h p t rq q k).
Proof.
  unfold invoke_once. apply tallies_bind; [|intros []; tallied].
  intros s Hs. exact Hs.
Qed.

Lemma tallies_run c r h rq v i k b : tallies c (run_probe cfg r h rq v i k b).
Proof.
  unfold run_probe. apply tallies_bind; [tallied|intros d].
  case_match; [apply tallies_unsent|]. apply tallies_bind; [tallied|intros ms].
  apply tallies_bind; [tallied|intros _]. apply tallies_bind; [tallied|intros t].
  case_match; [apply tallies_unsent|]. apply tallies_bind; [tallied|intros _].
  apply tallies_bind; [|intros x; apply tallies_settle].
  apply tallies_catch; [apply tallies_invoke|].
  apply tallies_bind; [apply tallies_unsent|]. intros x. tallied.
Qed.

(** A call counts one probe at most. *)
Lemma tally_execute c rq s : tally c s → wp (execute cfg rq) (λ _ s', tally (c + 1) s') s.
Proof.
  assert (∀ c r v i, tallies c (dispatch_probe cfg r rq v i)) as Hd.
  { intros. unfold dispatch_probe. apply tallies_bind; [tallied|intros n].
    case_match; [|apply tallies_observed]. case_match; [|apply tallies_run].
    apply tallies_bind; [tallied|intros b]. destruct b.
    - apply tallies_bind; [tallied|intros _]. apply tallies_run.
    - apply tallies_bind; [apply tallies_restore|intros x]. apply tallies_observe.
    - apply tallies_observed.
    - tallied. }
  assert (∀ c sha v, tallies c (execute_request cfg rq (with_request sha v))) as Hx.
  { intros. unfold execute_request.
    repeat first [ apply Hd | apply tallies_observed
      | apply tallies_quiet; solve [eauto with sends]
      | apply tallies_modify; intros ?; done | apply tallies_bind; [|intros ?] | case_match ]. }
  intros Hs. unfold execute. apply wp_bind, wp_gets.
  destruct (cs_terminal_execution _) as [x|]; [apply wp_ret; eapply tally_more, Hs; lia|].
  apply wp_bind, wp_modify. set (s1 := {| ss_state := set_sequence _ _ |}).
  assert (tally (c + 1) s1) as Hs1 by (eapply (tally_more c); [lia|exact Hs]).
  apply wp_bind, wp_gets. apply wp_bind, wp_ask. intros t w _.
  apply wp_bind, wp_ask. intros b w' _.
  destruct b; [by apply tallies_observed|].
  apply wp_bind, wp_gets. case_match; [by apply tallies_observed|].
  apply wp_bind, wp_modify. set (s2 := {| ss_state := set_usage _ _ _ _ |}).
  assert (tally (c + 1) s2) as Hs2.
  { destruct Hs as [H1 H2], Hs1 as [_ H3]. split; [cbn; lia|exact H3]. }
  destruct (probe_request_sha256 rq); [by apply Hx|by apply tallies_observed].
Qed.

(** So [n] probes count at most [n]. *)
Lemma probed_tally c s l s' :
  tally c s → probed s l s' → tally (c + Z.of_nat (length l)) s'.
Proof.
  intros Hs Hrun. revert c Hs. induction Hrun as [s s' Hq|s s0 request x s' l s'' Hq _ Hx _ IH];
    intros c Hs; apply (tally_quiet _ _ _ Hq) in Hs.
  - cbn. by rewrite Z.add_0_r.
  - pose proof (tally_execute c request s0 Hs) as Hw. unfold wp in Hw. rewrite Hx in Hw.
    cbn [fst snd] in Hw. specialize (IH _ Hw). cbn [length].
    by replace (c + Z.of_nat (S (length l))) with (c + 1 + Z.of_nat (length l)) by lia.
Qed.

End session.

Section runs.
Context {rt : Runtime} {sec : Security} {sv : SchemaValidator} {od : ObservationDecoder}.
Context {W H : Type} {env : Environment W H}.
Context (cfg : ControllerConfig H).
Context (Henv : validate_ExecutionEnvelope (cc_envelope cfg) = Ok tt).
Context (Hreg : capability_wf (cc_registry cfg)).

#[local] Abbreviation envelope := (cc_envelope cfg).

(** A session at the start of its controller. *)
Definition fresh_session (s : session W) : Prop :=
  session_ok cfg s ∧ cs_sequence (ss_state s) = 0 ∧ cs_audit (ss_state s) = [] ∧
  cs_terminal_execution (ss_state s) = None ∧ ss_dispatched s = [].

(** What time does not touch. *)
Lemma quiet_keeps (s s' : session W) : quiet s s' →
  cs_audit (ss_state s') = cs_audit (ss_state s) ∧
  cs_sequence (ss_state s') = cs_sequence (ss_state s) ∧
  cs_terminal_execution (ss_state s') = cs_terminal_execution (ss_state s).
Proof. intros [_ [o ->]]. done. Qed.

Lemma quiet_here (s : session W) : quiet s s.
Proof. destruct s. apply quiet_refl. Qed.

Lemma probe_step_ok s s' : session_ok cfg s → probe_step cfg s s' → session_ok cfg s'.
Proof.
  intros Hs Hstep. revert Hs. destruct Hstep as [s request|s s' Hq]; intros Hs;
    [|by eapply quiet_ok].
  destruct (cs_terminal_execution (ss_state s)) as [x|] eqn:Ht.
  - by rewrite (execute_latched cfg request s x Ht).
  - by destruct (execute_ok cfg request Hreg s Hs Ht) as [Hok _].
Qed.

Lemma probe_steps_ok s s' : session_ok cfg s → rtc (probe_step cfg) s s' → session_ok cfg s'.
Proof. intros Hs Hrun. induction Hrun; eauto using probe_step_ok. Qed.

Lemma probed_steps s l s' : probed cfg s l s' → rtc (probe_step cfg) s s'.
Proof.
  induction 1 as [s s' Hq|s s0 request x s1 l s2 Hq _ Hx _ IH].
  { apply rtc_once. by apply probe_step_quiet. }
  apply rtc_l with s0; [by apply probe_step_quiet|].
  apply rtc_l with s1; [|exact IH]. pose proof (probe_step_execute cfg s0 request) as Hs.
  by rewrite Hx in Hs.
Qed.

(** What a run of returning probes leaves behind. *)
Lemma probed_ok s l s' :
  session_ok cfg s → probed cfg s l s' →
  session_ok cfg s' ∧
  cs_audit (ss_state s') = cs_audit (ss_state s) ++ audits_of l ∧
  cs_sequence (ss_state s') = cs_sequence (ss_state s) + Z.of_nat (length l) ∧
  map ar_sequence (audits_of l)
    = map (λ i, cs_sequence (ss_state s) + Z.of_nat i) (seq 1 (length l)) ∧
  Forall (λ rx, execution_ok cfg rx.1 rx.2) l.
Proof.
  intros Hs Hrun. induction Hrun as [s s' Hq|s s0 request x s' l s'' Hq Ht Hx Hrun IH].
  - destruct (quiet_keeps _ _ Hq) as (-> & -> & _). cbn. rewrite app_nil_r.
    split_and!; [by eapply quiet_ok|done|lia|done|constructor].
  - destruct (quiet_keeps _ _ Hq) as (<- & <- & _). apply (quiet_ok cfg _ _ Hq) in Hs.
    clear s Hq. rename s0 into s.
    pose proof (execute_ok cfg request Hreg s Hs Ht) as Hex.
    unfold wp in Hex. rewrite Hx in Hex. cbn [fst snd] in Hex.
    destruct Hex as [Hs' [Ha Hseq Hnext _ Hok]]. cbn in Ha, Hseq, Hnext.
    destruct (IH Hs') as (Hs'' & Haud & Hlen & Hmap & Hall). split_and!.
    + done.
    + rewrite Haud, Ha. cbn. by rewrite <-app_assoc.
    + rewrite Hlen, Hnext. cbn. lia.
    + cbn [audits_of map length seq snd]. f_equal; [cbn in *; lia|].
      change (map (λ rx, px_audit rx.2) l) with (audits_of l). rewrite Hmap.
      rewrite <-(seq_shift (length l) 1), map_map. apply map_ext. intros i. rewrite Hnext. cbn. lia.
    + by constructor.
Qed.

Lemma fresh_probed s l s' :
  fresh_session s → probed cfg s l s' →
  session_ok cfg s' ∧ cs_audit (ss_state s') = audits_of l ∧
  map ar_sequence (audits_of l) = one_to (length (audits_of l)) ∧
  Forall (λ rx, execution_ok cfg rx.1 rx.2) l ∧ Forall (audit_ok cfg) (audits_of l).
Proof.
  intros (Hs & Hseq & Ha & _) Hrun.
  destruct (probed_ok s l s' Hs Hrun) as (Hs' & Haud & _ & Hmap & Hall).
  rewrite Ha in Haud. cbn in Haud. split_and!; [done|done| |done|].
  - rewrite Hmap, Hseq. unfold one_to, audits_of. rewrite length_map.
    apply map_ext. intros i. lia.
  - rewrite <-Haud. apply Hs'.
Qed.

(** A session that probes again has not ended. *)
Lemma probed_open s rx l s' :
  probed cfg s (rx :: l) s' → cs_terminal_execution (ss_state s) = None.
Proof.
  intros Hrun. inversion Hrun as [|? s0 ? ? ? ? ? Hq Ht]; subst.
  by destruct (quiet_keeps _ _ Hq) as (_ & _ & <-).
Qed.

(** Only the last probe of a run may be terminal. *)
Lemma probed_latch s l s' :
  session_ok cfg s → probed cfg s l s' → cs_terminal_execution (ss_state s) = None →
  cs_terminal_execution (ss_state s') =
    match last l with
    | Some rx => if is_terminal rx.2 then Some rx.2 else None
    | None => None
    end.
Proof.
  intros Hs Hrun. induction Hrun as [s s' Hq|s s0 request x s' l s'' Hq Ht Hx Hrun IH];
    intros Hn; [by destruct (quiet_keeps _ _ Hq) as (_ & _ & ->)|].
  apply (quiet_ok cfg _ _ Hq) in Hs. clear s Hq Hn. rename s0 into s.
  pose proof (execute_ok cfg request Hreg s Hs Ht) as Hex.
  unfold wp in Hex. rewrite Hx in Hex. cbn [fst snd] in Hex.
  destruct Hex as [Hs' [_ _ _ Hterm _]]. cbn in Hterm. rewrite Ht in Hterm.
  destruct l as [|rx l].
  - inversion Hrun as [? ? Hq|]; subst. destruct (quiet_keeps _ _ Hq) as (_ & _ & ->).
    cbn. by rewrite Hterm.
  - rewrite last_cons_cons. apply IH; [done|]. by eapply probed_open.
Qed.

End runs.

(** ** A new controller *)

Section construction.
Context {rt : Runtime} {sec : Security} {sv : SchemaValidator} {od : ObservationDecoder}.
Context {W H : Type} {env : Environment W H}.

Lemma new_controller_ok envelope registry token offset w cfg (s : session W) :
  capability_wf registry →
  new_controller (H := H) envelope registry token offset w = (Ok cfg, s) →
  cc_envelope cfg = envelope ∧ cc_session_token cfg = token ∧
  validate_ExecutionEnvelope (cc_envelope cfg) = Ok tt ∧ capability_wf (cc_registry cfg) ∧
  fresh_session cfg s.
Proof.
  intros Hreg. unfold new_controller.
  set (start := {| ss_state := initial_state offset |}).
  match goal with |- ?m _ = _ → _ => set (m0 := m) end. intros Hnew.
  assert (wp m0 (λ r s', ∀ c, r = Ok c →
    cc_envelope c = envelope ∧ cc_session_token c = token ∧
    cc_registry c = (capability_freeze registry).1 ∧
    validate_ExecutionEnvelope envelope = Ok tt ∧ quiet start s') start) as Hwp.
  { unfold m0. apply wp_bind, wp_lift; [|done]. intros [] Henv.
    apply wp_bind, wp_lift; [|done]. intros [] _.
    apply wp_bind, wp_passes; [apply passes_ask|]. intros [t|e] s1 Hq1; [|done].
    apply wp_bind, wp_passes; [apply passes_floor|]. intros [floor|e] s2 Hq2; [|done].
    apply wp_bind, wp_modify, wp_ret. intros c [= <-]. split_and!; try done.
    eapply quiet_trans; [|apply quiet_offset]. by eapply quiet_trans. }
  unfold wp in Hwp. rewrite Hnew in Hwp. cbn [fst snd] in Hwp.
  destruct (Hwp cfg eq_refl) as (He & Htok & Hr & Hv & Hq).
  rewrite He, Hr. assert (capability_wf (capability_freeze registry).1) as Hwf
    by (split; [apply seal_wf, Hreg|apply Hreg]).
  split_and!; [done|done|done|done|].
  destruct Hq as [Hd [o Hs]]. split.
  - unfold session_ok. rewrite Hd, Hs. cbn [ss_dispatched start].
    destruct (valid_envelope _ Hv) as (_ & _ & _ & _ & Hb & _).
    unfold valid_EvidenceBudget in Hb. bool_simpl. rewrite in_range_true in *.
    rewrite <-He in *.
    split; cbn; try lia; try constructor.
    + intros n v r Hres. apply resolve_registration in Hres as [_ Hm]; [|by rewrite Hr].
      apply make_registration_inv in Hm as (_ & _ & _ & Hm & _). cbn. lia.
    + intros i. unfold dispatches_of. rewrite filter_nil. cbn. lia.
  - rewrite Hd, Hs. done.
Qed.

(** No probe is counted yet. *)
Lemma new_controller_tally envelope registry token offset w cfg (s : session W) :
  new_controller (H := H) envelope registry token offset w = (Ok cfg, s) → tally 0 s.
Proof.
  intros Hnew. unfold new_controller in Hnew.
  match type of Hnew with ?m ?start = _ => assert (wp m (λ _ s', quiet start s') start) as Hwp end.
  { apply wp_bind, wp_lift; [|intros; apply quiet_here]. intros [] _.
    apply wp_bind, wp_lift; [|intros; apply quiet_here]. intros [] _.
    apply wp_bind, wp_passes; [apply passes_ask|]. intros [t|e] s1 Hq1; [|done].
    apply wp_bind, wp_passes; [apply passes_floor|]. intros [floor|e] s2 Hq2;
      [|by eapply quiet_trans].
    apply wp_bind, wp_modify, wp_ret.
    eapply quiet_trans; [|apply quiet_offset]. by eapply quiet_trans. }
  unfold wp in Hwp. rewrite Hnew in Hwp. cbn [fst snd] in Hwp.
  eapply tally_quiet; [exact Hwp|]. split; [done|constructor].
Qed.

End construction.

(** ** What a session promises *)

Section promises.
Context {rt : Runtime} {sec : Security} {sv : SchemaValidator} {od : ObservationDecoder}.
Context {W H : Type} {env : Environment W H}.

(** C25: the evidence budget bounds a session.  Whatever requests a controller
    executes, and however each call ends, the probes it hands to handlers are at
    most [max_probes], cost together at most [max_cost_units], are at most
    [max_invocations] per capability, and each is an enabled, registered,
    read-only capability bound to the envelope's own target and effects. *)
Theorem session_within_budget envelope (registry : @CapabilityRegistry H) token offset w cfg
  (s s' : session W) :
  capability_wf registry →
  new_controller envelope registry token offset w = (Ok cfg, s) →
  rtc (probe_step cfg) s s' →
  let budget := evidence_budget (en_context envelope) in
  let sent := ss_dispatched s' in
  Z.of_nat (length sent) ≤ max_probes budget ∧
  dispatched_cost sent ≤ max_cost_units budget ∧
  (∀ name version r, (capability_resolve (cc_registry cfg) name version).2 = Some r →
    dispatches_of (name, version) sent ≤ rg_max_invocations r) ∧
  ∀ d, d ∈ sent → probe_ok cfg d.
Proof.
  intros Hwf Hnew Hrun budget sent.
  apply new_controller_ok in Hnew as (He & _ & _ & Hreg & Hfresh & _); [|done].
  destruct (probe_steps_ok cfg Hreg s s' Hfresh Hrun) as [H1 H2 H3 H4 H5 H6 _ H8].
  unfold budget, sent. rewrite <-He. split_and!.
  - lia.
  - lia.
  - intros name version r Hr. specialize (H3 name version r Hr).
    specialize (H6 (name, version)). lia.
  - by apply Forall_forall.
Qed.

(** C35: one audit record per probe.  When every probe of a run returned, the
    audit trail is the list of their records, numbered from one without gaps;
    every record is valid and bound to the target, a completed one names an
    enabled capability, and only the last may have a terminal reason. *)
Theorem session_audit_contiguous envelope (registry : @CapabilityRegistry H) token offset w
  cfg (s s' : session W) xs :
  capability_wf registry →
  new_controller envelope registry token offset w = (Ok cfg, s) →
  probed cfg s xs s' →
  cs_audit (ss_state s') = audits_of xs ∧
  map ar_sequence (cs_audit (ss_state s')) = one_to (length xs) ∧
  Forall (audit_ok cfg) (cs_audit (ss_state s')) ∧
  (∀ i x y, audits_of xs !! i = Some x → audits_of xs !! S i = Some y →
    ar_stop_reason x ∉ TERMINAL_REASONS).
Proof.
  intros Hwf Hnew Hrun.
  apply new_controller_ok in Hnew as (_ & _ & _ & Hreg & Hfresh); [|done].
  destruct (fresh_probed cfg Hreg s xs s' Hfresh Hrun) as (_ & Haud & Hseq & _ & Hok).
  rewrite Haud. split_and!; [done| |done|].
  - rewrite Hseq. f_equal. apply length_map.
  - destruct Hfresh as (Hs & _ & _ & Ht & _). clear -Hreg Hs Ht Hrun.
    induction Hrun as [s s' Hq|s s0 request x s' l s'' Hq H0 Hx Hrun IH];
      intros i a b Ha Hb; [done|].
    apply (quiet_ok cfg _ _ Hq) in Hs. clear s Hq Ht. rename s0 into s, H0 into Ht.
    pose proof (execute_ok cfg request Hreg s Hs Ht) as Hex.
    unfold wp in Hex. rewrite Hx in Hex. cbn [fst snd] in Hex.
    destruct Hex as [Hs' [_ _ _ Hterm _]]. cbn in Hterm. rewrite Ht in Hterm.
    destruct l as [|rx l]; [by destruct i|].
    pose proof (probed_open cfg _ _ _ _ Hrun) as Hn.
    destruct i as [|i]; [|by apply (IH Hs' Hn i a b)].
    cbn in Ha. injection Ha as <-. rewrite Hn in Hterm.
    apply inb_false. unfold is_terminal in Hterm. by destruct (inb _ _).
Qed.

(** A probe is never retried.  One call of [execute], whatever it ends
    with, hands at most one probe to a handler. *)
Lemma execute_dispatches_once (cfg : ControllerConfig H) request (s : session W) :
  ∃ l, (length l ≤ 1)%nat ∧
    ss_dispatched (execute cfg request s).2 = ss_dispatched s ++ l.
Proof. apply sends_execute. Qed.

(** A terminal outcome is final.  Once a probe of a session ended with a
    terminal reason, every later call returns that same execution and changes
    nothing. *)
Lemma terminal_outcome_final envelope (registry : @CapabilityRegistry H) token offset w
  cfg (s s' : session W) xs request x :
  capability_wf registry →
  new_controller envelope registry token offset w = (Ok cfg, s) →
  probed cfg s (xs ++ [(request, x)]) s' →
  ar_stop_reason (px_audit x) ∈ TERMINAL_REASONS →
  ∀ request', execute cfg request' s' = (Ok x, s').
Proof.
  intros Hwf Hnew Hrun Hx request'.
  apply new_controller_ok in Hnew as (_ & _ & _ & Hreg & Hs & _ & _ & Ht & _); [|done].
  apply execute_latched. rewrite (probed_latch cfg Hreg _ _ _ Hs Hrun Ht).
  rewrite last_snoc. unfold is_terminal. by rewrite (proj2 (inb_true _ _) Hx).
Qed.

(** Decoding is the inverse of encoding: what pydantic documents of
    [model_validate_json] on a model's own dump. *)
Definition decoder_faithful : Prop := ∀ o o' : ProbeObservation,
  decode_observation (canonical_json_bytes o) = Ok o' →
  canonical_json_bytes o' = canonical_json_bytes o.

(** The controller's executions are what the pipeline expects.  An
    execution of a controller passes the pipeline's integrity check for the
    request it answers, and a completed one carries an observation that passes
    the recheck of its digest, size, text and identity. *)
Theorem execution_integrity envelope (registry : @CapabilityRegistry H) token offset w
  cfg (s s' : session W) xs request x sha p :
  capability_wf registry →
  new_controller envelope registry token offset w = (Ok cfg, s) →
  probed cfg s xs s' → (request, x) ∈ xs →
  decoder_faithful → probe_request_sha256 request = Ok sha →
  pl_envelope p = envelope → pl_controller_session p = Some token →
  let run := {| run_request := request; run_execution := x |} in
  integrity_valid p run sha = true ∧
  (ar_outcome (px_audit x) = Probe_COMPLETED →
    ∃ o, px_observation x = Some o ∧ observation_intact run o sha = true).
Proof.
  intros Hwf Hnew Hrun Hin Hdec Hsha Hp Hsession run.
  apply new_controller_ok in Hnew as (He & Htok & _ & Hreg & Hfresh); [|done].
  destruct (fresh_probed cfg Hreg s xs s' Hfresh Hrun) as (_ & _ & _ & Hex & Haud).
  unfold audits_of in Haud. rewrite Forall_map in Haud.
  rewrite Forall_forall in Hex, Haud.
  destruct (Hex _ Hin) as [H1 H2 H3 H4 H5 H6 H7].
  pose proof (Haud _ Hin) as Ha. cbn [fst snd] in *.
  assert (ar_request_sha256 (px_audit x) = None ∨ ar_request_sha256 (px_audit x) = Some sha)
    as Hreq by (destruct H5 as [|(sha' & Hs' & ->)]; [by left|right; congruence]).
  split.
  - unfold integrity_valid, run. cbn [run_request run_execution].
    rewrite !andb_true_iff, !orb_true_iff, !bool_decide_eq_true, inb_true, !is_none_true.
    unfold envelope_sha256, target_sha256_of. rewrite Hp, Hsession, H1, H2, He, Htok.
    pose proof (au_target _ _ Ha) as Ht. rewrite He in Ht.
    rewrite !elem_of_cons. split_and!; try done; tauto.
  - intros Hc. rewrite bool_decide_eq_true_2 in H3 by done. symmetry in H3.
    destruct (px_observation x) as [o|] eqn:Ho; [|done].
    exists o. split; [done|]. destruct (H4 o eq_refl) as (Hs & Hn & Hr & Hb & Ht).
    pose proof (au_valid _ _ Ha) as Hv. apply model_validate_audit_inv in Hv as (_ & Hv & _).
    destruct (completed_audit _ Hv Hc) as ([n Hname] & [v Hver] & [q Hq] & _).
    destruct H6 as [H6|H6]; [congruence|]. destruct H7 as [H7|H7]; [congruence|].
    destruct Hreq as [Hreq|Hreq]; [congruence|].
    unfold observation_intact, run. cbn [run_request run_execution].
    rewrite !andb_true_iff, !bool_decide_eq_true, Z.eqb_eq.
    split_and!; try done. destruct Ht as (raw & decoded & Hd & [->| ->]).
    + rewrite Hd. by apply Hdec.
    + rewrite (Hdec _ _ Hd), Hd. by apply Hdec.
Qed.

End promises.
