(* ===== verification/AdmissionProperties.v ===== *)
(** When the evidence pipeline raises, and what admission promises.

    An attempt is retained exactly when every check of the pipeline passed; a
    request that cannot be digested is the one way to make the pipeline raise. *)

From S2P Require Export CoreFacts.

#[local] Open Scope Z_scope.

(** ASCII text without controls, as the constants of the program and the
    hexadecimal digests are. *)
Definition is_printable (c : Ascii.ascii) : bool :=
  let n := Ascii.N_of_ascii c in (32 <=? n)%N && (n <=? 126)%N.

Class RuntimeLaws (rt : Runtime) := {
  printable_safe : ∀ s, string_forallb is_printable s = true →
    has_unsafe_category s = false;
  digest_hex : ∀ s, String.length (sha256_hex s) = 64%nat
    ∧ string_forallb is_hex_digit (sha256_hex s) = true;
}.

Section totality.
Context {rt : Runtime} {sec : Security} {od : ObservationDecoder} {laws : RuntimeLaws rt}.

(** A string the JSON validator takes. *)
Definition safe_text (s : string) : Prop := validate_unicode_text s = Ok tt.

Lemma printable_text s : string_forallb is_printable s = true → safe_text s.
Proof. intros Hs. unfold safe_text, validate_unicode_text. by rewrite printable_safe. Qed.

Lemma hex_printable s :
  string_forallb is_hex_digit s = true → string_forallb is_printable s = true.
Proof.
  induction s as [|c s IH]; [done|]. cbn [string_forallb].
  intros [Hc Hs]%andb_true_iff. rewrite IH by done. rewrite andb_true_r.
  revert Hc. unfold is_hex_digit, is_digit, is_printable. cbv zeta.
  rewrite !orb_true_iff, !andb_true_iff.
  rewrite !N.leb_le. lia.
Qed.

Lemma digest_printable s : string_forallb is_printable (sha256_hex s) = true.
Proof. apply hex_printable, digest_hex. Qed.

Lemma sha256_hex_valid s : validate_Sha256Digest (sha256_hex s) = Ok tt.
Proof.
  destruct (digest_hex s) as [Hl Hh]. unfold validate_Sha256Digest. by rewrite Hl, Hh.
Qed.

Lemma digest_text s : safe_text (sha256_hex s).
Proof. apply printable_text, digest_printable. Qed.

Lemma identifier_text s : validate_Identifier s = Ok tt → safe_text s.
Proof. unfold validate_Identifier. intros H. by inv_ok. Qed.

Lemma text_json s d : (d ≤ 12)%nat → safe_text s → validate_json d (JStr s) = Ok tt.
Proof.
  intros Hd Hs. cbn [validate_json]. rewrite (proj2 (Nat.ltb_ge _ _)) by done. exact Hs.
Qed.

Lemma text_bytes s : safe_text s → canonical_json_value_bytes (JStr s) = Ok (dumps (JStr s)).
Proof. intros Hs. unfold canonical_json_value_bytes. by rewrite text_json by (done || lia). Qed.

(** An optional digest field. *)
Definition safe_option (o : option string) : Prop :=
  match o with Some s => safe_text s | None => True end.

Lemma option_json o d :
  (d ≤ 12)%nat → safe_option o → validate_json d (to_json o) = Ok tt.
Proof.
  intros Hd Ho. destruct o as [s|]; cbn [to_json option_to_json string_to_json].
  - by apply text_json.
  - cbn [validate_json]. by rewrite (proj2 (Nat.ltb_ge _ _)).
Qed.

(** ** Evidence identifiers *)

(** Objects, one entry at a time. *)
Fixpoint validate_items (d : nat) (m : list (string * json)) : result py_error unit :=
  match m with
  | [] => Ok tt
  | (key, item) :: m' =>
      reject_if (bool_decide (key = "") || (128 <? py_len key)%Z)
        (ValueError "JSON object keys must be bounded and nonempty");;
      validate_unicode_text key;;
      validate_json d item;;
      validate_items d m'
  end.

Lemma object_json m :
  (length m ≤ 128)%nat → validate_json 0 (JObj m) = validate_items 1 m.
Proof.
  intros Hm. cbn [validate_json]. rewrite (proj2 (Nat.ltb_ge 128 _)) by done.
  cbn [reject_if mbind result_bind Nat.ltb Nat.leb].
  clear Hm. induction m as [|[k v] m IH]; [done|]. cbn [validate_items]. by rewrite IH.
Qed.

Lemma items_cons k v m :
  string_forallb is_printable k && negb (bool_decide (k = "") || (128 <? py_len k)) = true →
  validate_json 1 v = Ok tt → validate_items 1 ((k, v) :: m) = validate_items 1 m.
Proof.
  intros [Hk Hl]%andb_true_iff Hv. cbn [validate_items].
  apply negb_true_iff in Hl. rewrite Hl. cbn [reject_if mbind result_bind].
  rewrite (printable_text k Hk). cbn [mbind result_bind]. by rewrite Hv.
Qed.

Lemma outcome_text o : safe_text (ProbeOutcome_value o).
Proof. apply printable_text. by destruct o. Qed.

Definition id_payload (p : EvidencePipeline) (sequence : Z) (request raw : option string)
  (outcome : ProbeOutcome) : json :=
  JObj [("investigation_id", JStr (en_investigation_id (pl_envelope p)));
        ("outcome", JStr (ProbeOutcome_value outcome));
        ("probe_sequence", JInt sequence);
        ("raw_sha256", to_json raw);
        ("request_sha256", to_json request);
        ("target_sha256", JStr (target_sha256_of p))].

(** The identifier the pipeline gives an attempt. *)
Definition evidence_name (p : EvidencePipeline) (sequence : Z) (request raw : option string)
  (outcome : ProbeOutcome) : string :=
  "evidence:" +:+ sha256_hex (dumps (id_payload p sequence request raw outcome)).

Lemma evidence_id_ok p sequence request raw outcome :
  validate_ExecutionEnvelope (pl_envelope p) = Ok tt →
  1 ≤ sequence ≤ int64_max → safe_option request → safe_option raw →
  evidence_id_of p sequence request raw outcome
    = Ok (evidence_name p sequence request raw outcome).
Proof.
  intros Henv Hs Hrq Hraw. unfold evidence_id_of, canonical_json_value_bytes.
  fold (id_payload p sequence request raw outcome).
  assert (validate_json 0 (id_payload p sequence request raw outcome) = Ok tt) as ->;
    [|reflexivity].
  unfold id_payload. rewrite object_json by (cbn; lia).
  destruct (valid_envelope _ Henv) as (_ & _ & Hid & _).
  rewrite items_cons; [|reflexivity|by apply text_json; [lia|apply identifier_text]].
  rewrite items_cons; [|reflexivity|apply text_json; [lia|apply outcome_text]].
  rewrite items_cons; [|reflexivity|].
  2:{ cbn [validate_json]. unfold int64_max in Hs.
      rewrite (proj2 (Z.leb_le _ _)), (proj2 (Z.ltb_lt _ _)) by lia. reflexivity. }
  rewrite items_cons; [|reflexivity|by apply option_json; [lia|]].
  rewrite items_cons; [|reflexivity|by apply option_json; [lia|]].
  rewrite items_cons; [|reflexivity|apply text_json; [lia|apply digest_text]].
  reflexivity.
Qed.

(** ** Attempts *)

Definition rejectable (reason : EvidenceReason) : Prop :=
  reason ∉ ADMITTED_REASONS ++ WEAK_REASONS.

Lemma rejectable_decision id reason :
  rejectable reason →
  validate_reason_compatibility {| ed_evidence_id := id;
    ed_disposition := REJECTED_EVIDENCE; ed_reason := reason |} = Ok tt.
Proof.
  intros Hr. unfold validate_reason_compatibility. cbn [ed_disposition ed_reason].
  by rewrite (proj2 (inb_false _ _) Hr).
Qed.

Lemma rejectable_true reason :
  inb reason (ADMITTED_REASONS ++ WEAK_REASONS) = false → rejectable reason.
Proof. apply inb_false. Qed.

Lemma admission_failure_rejectable p request o e retrieved skew horizon reason :
  admission_failure p request o e retrieved skew horizon = Ok (Some reason) →
  rejectable reason.
Proof.
  unfold admission_failure. intros H. apply rejectable_true.
  repeat match type of H with
  | (if ?b then _ else _) = _ => destruct b; [by injection H as <-|]
  | (_ ← ?m; _) = _ => destruct m as [[]|]; cbn [mbind result_bind] in H;
      [by injection H as <-| |done]
  end. done.
Qed.

(** The evidence an attempt carries is valid and named like it. *)
Definition carries (evidence : option NormalizedEvidence) (id : string) : Prop :=
  ∀ e, evidence = Some e → model_validate_evidence e = Ok e ∧ ne_evidence_id e = id.

Lemma make_attempt_total a :
  1 ≤ at_probe_sequence a → validate_reason_compatibility (at_decision a) = Ok tt →
  carries (at_evidence a) (ed_evidence_id (at_decision a)) →
  make_attempt a = Ok a.
Proof.
  intros Hs Hd He. unfold make_attempt, model_validate_decision.
  rewrite (proj2 (Z.ltb_ge _ _)), Hd by done. cbn [reject_if mbind result_bind].
  destruct (at_evidence a) as [e|]; [|done].
  destruct (He e eq_refl) as [-> ->]. cbn [mbind result_bind]. by rewrite bool_decide_refl.
Qed.

(** What the pipeline needs of an audit record. *)
Definition audit_readable (audit : ControllerAuditRecord) : Prop :=
  1 ≤ ar_sequence audit ≤ int64_max ∧ safe_option (ar_request_sha256 audit).

Section pipeline.
Context (p : EvidencePipeline) (run : ProbeRun).
Context (Henv : validate_ExecutionEnvelope (pl_envelope p) = Ok tt).

#[local] Abbreviation audit := (px_audit (run_execution run)).
Context (Haud : audit_readable audit).

#[local] Abbreviation name raw :=
  (evidence_name p (ar_sequence audit) (ar_request_sha256 audit) raw (ar_outcome audit)).

Lemma rejected_total raw reason evidence :
  safe_option raw → rejectable reason → carries evidence (name raw) →
  is_Ok (rejected_attempt p audit raw reason evidence).
Proof.
  intros Hraw Hr He. destruct Haud as [Hs Hrq].
  unfold rejected_attempt. rewrite evidence_id_ok by done. cbn [mbind result_bind].
  assert (match evidence with
    | Some e => negb (bool_decide (ne_evidence_id e = name raw)) | None => false end = false)
    as ->.
  { destruct evidence as [e|]; [|done]. destruct (He e eq_refl) as [_ ->].
    by rewrite bool_decide_refl. }
  cbn [reject_if mbind result_bind]. unfold make_decision, model_validate_decision.
  rewrite rejectable_decision by done. cbn [mbind result_bind].
  rewrite make_attempt_total; [done|cbn; lia|by apply rejectable_decision|done].
Qed.

Lemma rejected_plain raw reason :
  safe_option raw → rejectable reason →
  is_Ok (rejected_attempt p audit raw reason None).
Proof. intros. by apply rejected_total. Qed.

Lemma text_map_values m key value :
  validate_text_map m = Ok tt → (key, value) ∈ m → safe_text value.
Proof.
  unfold validate_text_map. intros H Hin. inv_ok.
  match goal with Hx : Forall _ m |- _ => rename Hx into Hm end.
  rewrite Forall_forall in Hm. specialize (Hm _ Hin). cbn in Hm. inv_ok. unfold validate_NonEmptyText in *. by inv_ok.
Qed.

Lemma correlation_total correlation expected :
  validate_text_map correlation = Ok tt →
  (∀ key value, (key, value) ∈ expected → safe_text value) →
  is_Ok (correlation_mismatch correlation expected).
Proof.
  intros Hc. induction expected as [|[key value] rest IH]; intros He; [done|].
  cbn [correlation_mismatch]. destruct (dict_get key correlation) as [actual|] eqn:Hk; [|done].
  apply dict_get_elem in Hk.
  rewrite (text_bytes actual) by (by eapply text_map_values).
  rewrite (text_bytes value) by (eapply He; left). cbn [mbind result_bind].
  case_bool_decide; [|done]. apply IH. intros k v Hin. eapply He. by right.
Qed.

Lemma verdict_decision_ok id v :
  validate_reason_compatibility {| ed_evidence_id := id;
    ed_disposition := (verdict_decision v).1; ed_reason := (verdict_decision v).2 |} = Ok tt.
Proof. by destruct v. Qed.

Lemma admit_total descriptor raw byte_count o :
  safe_text raw → model_validate_rule_observation o = Ok o →
  is_Ok (admit_observation p run descriptor raw (name (Some raw)) byte_count o).
Proof.
  intros Hraw Ho. unfold admit_observation.
  destruct (freshness_of p _) as [[[skew horizon] window]|];
    [|by apply rejected_plain; [|apply rejectable_true]].
  set (e := normalized_evidence _ _ _ _ _ _ _ _).
  destruct (model_validate_evidence e) as [e'|] eqn:He;
    [|by apply rejected_plain; [|apply rejectable_true]].
  pose proof (model_validate_evidence_inv _ _ He) as [-> _].
  assert (carries (Some e) (name (Some raw))) as Hcar by (intros x [= <-]; done).
  assert (is_Ok (admission_failure p (run_request run) o e (ar_completed_at audit) skew
    horizon)) as [failure Hf]%is_Ok_inv.
  { unfold admission_failure. case_match; [done|]. case_match; [done|].
    edestruct (is_Ok_inv (correlation_mismatch (ne_correlation e)
      (correlation_fields (en_context (pl_envelope p))))) as [b ->]; [apply correlation_total|].
    - by apply model_validate_rule_observation_inv in Ho as (_ & _ & Hm & _).
    - intros key value. apply text_map_values.
      by destruct (valid_envelope _ Henv) as (_ & _ & _ & Hm & _).
    - cbn [mbind result_bind]. by repeat case_match. }
  rewrite Hf. cbn [mbind result_bind]. destruct failure as [reason|].
  - apply rejected_total; [done| |done].
    by eapply admission_failure_rejectable.
  - destruct (verdict_decision (rob_verdict o)) as [d r] eqn:Hv.
    pose proof (verdict_decision_ok (name (Some raw)) (rob_verdict o)) as Hd.
    rewrite Hv in Hd. unfold make_decision, model_validate_decision. cbn [fst snd] in Hd.
    rewrite Hd. cbn [mbind result_bind].
    rewrite make_attempt_total; [done|cbn; destruct Haud; lia|done|done].
Qed.

(** Every run whose request has a digest becomes an attempt. *)
Lemma normalize_total :
  is_Ok (probe_request_sha256 (run_request run)) → is_Ok (normalize_run p run).
Proof.
  intros [sha Hsha]%is_Ok_inv. unfold normalize_run. rewrite Hsha. cbn [mbind result_bind].
  case_match; [by apply rejected_plain; [|apply rejectable_true]|].
  case_match.
  { apply rejected_plain; [done|]. unfold failed_probe_reason.
    apply rejectable_true. by repeat case_match. }
  destruct (px_observation _) as [o|];
    [|by apply rejected_plain; [|apply rejectable_true]].
  assert (safe_option (Some (sha256_hex (vo_canonical_json o)))) as Hraw by apply digest_text.
  case_match; [by apply rejected_plain; [|apply rejectable_true]|].
  destruct Haud as [Hs Hrq]. rewrite evidence_id_ok by done. cbn [mbind result_bind].
  destruct (rule_resolve _ _).2 as [r|];
    [|by apply rejected_plain; [|apply rejectable_true]].
  destruct (apply_rule _ _ _ _ _) as [x|reason] eqn:Hrule.
  - apply admit_total; [apply digest_text|]. by eapply apply_rule_inl.
  - apply rejected_plain; [done|]. revert Hrule. unfold apply_rule.
    repeat (case_match; try done); intros [= <-];
      by first [apply rule_rejection_not_admitting|apply rejectable_true].
Qed.

End pipeline.

End totality.

Section properties.
Context {rt : Runtime} {sec : Security} {od : ObservationDecoder}.

(** The observation a run's target rule was given, and what the rule made of
    it: the part of admission before the freshness window. *)
Record observed_by_rule (p : EvidencePipeline) (run : ProbeRun) (sha : string)
  (observation : ValidatedObservation) (registration : TargetRuleRegistration)
  (o : RuleObservation) : Prop := {
  obr_request : probe_request_sha256 (run_request run) = Ok sha;
  obr_integrity : integrity_valid p run sha = true;
  obr_completed : ar_outcome (px_audit (run_execution run)) = Probe_COMPLETED;
  obr_observation : px_observation (run_execution run) = Some observation;
  obr_intact : observation_intact run observation sha = true;
  obr_rule : (rule_resolve (pl_registry p) (registry_key p (run_request run))).2
    = Some registration;
  obr_result : apply_rule p (run_request run) registration (vo_canonical_json observation)
    (ar_completed_at (px_audit (run_execution run))) = inl o;
}.

(** The evidence admission builds from a rule observation with freshness
    window [w]. *)
Definition evidence_of (p : EvidencePipeline) (run : ProbeRun)
  (registration : TargetRuleRegistration) (observation : ValidatedObservation)
  (id : string) (w : FreshnessWindow) (o : RuleObservation) : NormalizedEvidence :=
  normalized_evidence (tr_descriptor registration) (run_request run) id
    (sha256_hex (vo_canonical_json observation)) (vo_byte_count observation)
    (ar_completed_at (px_audit (run_execution run))) w o.

(** The checks on the evidence itself, as the documentation states them: exact
    target, operation and correlation, effects that were expected and asked
    for, and a time of observation inside the freshness bounds. *)
Record evidence_accepted (p : EvidencePipeline) (run : ProbeRun) (o : RuleObservation)
  (skew horizon : Z) (e : NormalizedEvidence) : Prop := {
  eac_valid : model_validate_evidence e = Ok e;
  eac_target : canonical_json_bytes (ne_target e)
    = canonical_json_bytes (en_target (pl_envelope p));
  eac_operation : ne_authority e = TARGET_STATE →
    rob_operation_id o = Some (en_operation_id (pl_envelope p));
  eac_correlation : ∀ key value,
    (key, value) ∈ correlation_fields (en_context (pl_envelope p)) →
    dict_get key (ne_correlation e) = Some value;
  eac_effects : effect_ids (ne_effect_assertions e) ⊆ expected_effect_ids (pl_envelope p);
  eac_relevant : effect_ids (ne_effect_assertions e)
    ⊆ pr_relevant_effect_ids (run_request run);
  eac_clock : ne_observed_at e - ep_retrieved_at (ne_provenance e) ≤ Z.max 0 skew;
  eac_invoked : en_invoked_at (pl_envelope p) - ne_observed_at e ≤ Z.max 0 skew;
  eac_age : ep_retrieved_at (ne_provenance e) - ne_observed_at e ≤ horizon;
}.

(** Every check of the pipeline passes for [run], up to evidence [e] under
    identifier [id]. *)
Record passes_admission (p : EvidencePipeline) (run : ProbeRun)
  (o : RuleObservation) (id : string) (e : NormalizedEvidence) : Prop := {
  pam_checks : ∃ sha observation registration skew horizon w,
    observed_by_rule p run sha observation registration o ∧
    freshness_of p (rob_observed_at o) = Ok (skew, horizon, w) ∧
    evidence_id_of p (ar_sequence (px_audit (run_execution run)))
      (ar_request_sha256 (px_audit (run_execution run)))
      (Some (sha256_hex (vo_canonical_json observation)))
      (ar_outcome (px_audit (run_execution run))) = Ok id ∧
    e = evidence_of p run registration observation id w o ∧
    evidence_accepted p run o skew horizon e;
}.

Lemma correlation_mismatch_none correlation expected :
  validate_text_map correlation = Ok tt →
  (∀ key value, (key, value) ∈ expected → dict_get key correlation = Some value) →
  correlation_mismatch correlation expected = Ok false.
Proof.
  intros Hc. induction expected as [|[key value] rest IH]; intros He; [done|].
  cbn [correlation_mismatch]. pose proof (He key value ltac:(left)) as Hk. rewrite Hk.
  apply dict_get_elem in Hk.
  rewrite (text_bytes value) by (by eapply text_map_values). cbn [mbind result_bind].
  rewrite bool_decide_refl. apply IH. intros k v Hin. apply He. by right.
Qed.

(** The admission checks pass exactly when the evidence is accepted. *)
Lemma admission_failure_spec p run o e skew horizon :
  model_validate_evidence e = Ok e → validate_text_map (ne_correlation e) = Ok tt →
  admission_failure p (run_request run) o e (ep_retrieved_at (ne_provenance e)) skew horizon
    = Ok None ↔ evidence_accepted p run o skew horizon e.
Proof.
  intros Hv Hm. split.
  - intros (? & ? & ? & ? & ? & ? & ? & ?)%admission_failure_none. split; try done; lia.
  - intros [_ Ht Ho Hc Hef Hr Hk Hi Ha]. unfold admission_failure.
    rewrite (bool_decide_eq_true_2 _ Ht). cbn [negb].
    assert (bool_decide (ne_authority e = TARGET_STATE)
      && negb (bool_decide (rob_operation_id o = Some (en_operation_id (pl_envelope p))))
      = false) as ->.
    { destruct (decide (ne_authority e = TARGET_STATE)) as [Hau|Hau].
      - rewrite (bool_decide_eq_true_2 _ (Ho Hau)). by rewrite andb_false_r.
      - by rewrite bool_decide_eq_false_2. }
    rewrite (correlation_mismatch_none _ _ Hm Hc). cbn [mbind result_bind].
    rewrite (proj2 (subsetb_true _ _) Hef), (proj2 (subsetb_true _ _) Hr). cbn [negb orb].
    destruct ((_ <? _) && _) eqn:E1; [bool_simpl; lia|].
    destruct ((_ && _) || _) eqn:E2; [|done].
    apply orb_true_iff in E2 as [E2|E2]; bool_simpl; lia.
Qed.

Lemma admit_observation_retained p run descriptor raw id n o a :
  model_validate_rule_observation o = Ok o →
  admit_observation p run descriptor raw id n o = Ok a →
  ed_disposition (at_decision a) ≠ REJECTED_EVIDENCE →
  ∃ skew horizon w, freshness_of p (rob_observed_at o) = Ok (skew, horizon, w) ∧
    evidence_accepted p run o skew horizon (normalized_evidence descriptor
      (run_request run) id raw n (ar_completed_at (px_audit (run_execution run))) w o).
Proof.
  intros Ho Ha Hd. unfold admit_observation in Ha.
  destruct (freshness_of _ _) as [[[skew horizon] w]|] eqn:Hf;
    [|by apply rejected_attempt_inv in Ha as (_&_&_&_&_&?&_)].
  destruct (model_validate_evidence _) as [e|] eqn:He;
    [|by apply rejected_attempt_inv in Ha as (_&_&_&_&_&?&_)].
  pose proof (model_validate_evidence_inv _ _ He) as [-> _].
  destruct (admission_failure _ _ _ _ _ _ _) as [[reason|]|] eqn:Hx; [| |done].
  { by apply rejected_attempt_inv in Ha as (_&_&_&_&_&?&_). }
  exists skew, horizon, w. split; [done|]. apply admission_failure_spec; [done| |done].
  by apply model_validate_rule_observation_inv in Ho as (_ & _ & Hm & _).
Qed.

Lemma normalize_run_passes p run a :
  normalize_run p run = Ok a → ed_disposition (at_decision a) ≠ REJECTED_EVIDENCE →
  ∃ o id e, passes_admission p run o id e.
Proof.
  unfold normalize_run. intros Ha Hd. inv_ok.
  match goal with Hx : probe_request_sha256 _ = Ok ?x |- _ => rename x into sha, Hx into Hsha end.
  assert (∀ raw reason,
    rejected_attempt p (px_audit (run_execution run)) raw reason None ≠ Ok a) as Hrej
    by (intros raw reason Hx; by apply rejected_attempt_inv in Hx as (_&_&_&_&_&?&_)).
  destruct (integrity_valid p run sha) eqn:Hi; [|by apply Hrej in Ha].
  cbn [negb] in Ha. case_bool_decide as Hc; [|by apply Hrej in Ha]. cbn [negb] in Ha.
  destruct (px_observation _) as [observation|] eqn:Hobs; [|by apply Hrej in Ha].
  destruct (observation_intact run observation sha) eqn:Hok; [|by apply Hrej in Ha].
  cbn [negb] in Ha. inv_ok.
  destruct (rule_resolve _ _).2 as [registration|] eqn:Hres; [|by apply Hrej in Ha].
  destruct (apply_rule _ _ _ _ _) as [o|reason] eqn:Hrule; [|by apply Hrej in Ha].
  pose proof (apply_rule_inl _ _ _ _ _ _ Hrule) as Ho.
  destruct (admit_observation_retained _ _ _ _ _ _ _ _ Ho Ha Hd)
    as (skew & horizon & w & Hf & Hacc).
  eexists o, _, _. split. exists sha, observation, registration, skew, horizon, w.
  split_and!; try done.
Qed.

(** The attempt admission makes of evidence it accepts. *)
Definition retained_attempt (p : EvidencePipeline) (run : ProbeRun) (o : RuleObservation)
  (id : string) (e : NormalizedEvidence) : EvidenceAttempt :=
  {| at_envelope_sha256 := envelope_sha256 p;
     at_controller_audit_sha256 := canonical_sha256 (px_audit (run_execution run));
     at_request_sha256 := ar_request_sha256 (px_audit (run_execution run));
     at_probe_sequence := ar_sequence (px_audit (run_execution run));
     at_raw_sha256 := Some (ro_sha256 (ne_raw_observation e));
     at_evidence := Some e;
     at_decision := {| ed_evidence_id := id;
       ed_disposition := (verdict_decision (rob_verdict o)).1;
       ed_reason := (verdict_decision (rob_verdict o)).2 |} |}.

Lemma passes_normalize_run p run o id e :
  1 ≤ ar_sequence (px_audit (run_execution run)) →
  passes_admission p run o id e → normalize_run p run = Ok (retained_attempt p run o id e).
Proof.
  intros Hseq [(sha & observation & registration & skew & horizon & w & [] & Hf & Hid & -> & Ha)].
  unfold normalize_run. rewrite obr_request0. cbn [mbind result_bind].
  rewrite obr_integrity0, (bool_decide_eq_true_2 _ obr_completed0), obr_observation0,
    obr_intact0. cbn [negb].
  rewrite Hid. cbn [mbind result_bind]. rewrite obr_rule0, obr_result0.
  unfold admit_observation. rewrite Hf. fold (evidence_of p run registration observation id w o).
  set (e := evidence_of _ _ _ _ _ _ _) in *.
  rewrite (eac_valid _ _ _ _ _ _ Ha).
  pose proof (apply_rule_inl _ _ _ _ _ _ obr_result0) as Ho.
  apply model_validate_rule_observation_inv in Ho as (_ & _ & Hm & _).
  assert (admission_failure p (run_request run) o e
    (ar_completed_at (px_audit (run_execution run))) skew horizon = Ok None) as ->
    by (apply (admission_failure_spec p run o e skew horizon); [apply Ha|done|done]).
  cbn [mbind result_bind].
  destruct (verdict_decision (rob_verdict o)) as [d r] eqn:Hv.
  pose proof (verdict_decision_ok id (rob_verdict o)) as Hd.
  rewrite Hv in Hd. cbn [fst snd] in Hd.
  unfold make_decision, model_validate_decision. rewrite Hd. cbn [mbind result_bind].
  rewrite make_attempt_total; [|done|done|].
  - unfold retained_attempt. by rewrite Hv.
  - intros x [= <-]. split; [apply Ha|done].
Qed.

(** C33: evidence is retained exactly when every check passes.  The attempt of
    a run is retained if and only if its request, execution and observation are
    intact, the target's rule accepted the observation, and the evidence has
    the envelope's exact target, operation and correlation, effects that were
    expected and asked for, and a time inside the freshness bounds; and then it
    carries that evidence with the decision of the rule's verdict. *)
Theorem admission_exact p run p' a :
  1 ≤ pl_next_sequence p → normalize p run = (p', Ok a) →
  (ed_disposition (at_decision a) ≠ REJECTED_EVIDENCE ↔
    ∃ o id e, passes_admission p' run o id e) ∧
  (∀ o id e, passes_admission p' run o id e → a = retained_attempt p' run o id e).
Proof.
  unfold normalize. intros Hp Hn.
  destruct (_ =? _) eqn:Hs; cbn [negb] in Hn; [|done]. injection Hn as <- Ha.
  apply Z.eqb_eq in Hs.
  assert (∀ o id e, passes_admission (advance p run) run o id e →
    a = retained_attempt (advance p run) run o id e) as Hret.
  { intros o id e Hpass. rewrite (passes_normalize_run _ _ o id e) in Ha
      by (try exact Hpass; by rewrite Hs).
    congruence. }
  split; [split|done].
  - intros Hd. by eapply normalize_run_passes.
  - intros (o & id & e & Hpass). rewrite (Hret o id e Hpass). cbn.
    by destruct (rob_verdict o).
Qed.

(** C34: the pipeline always answers.  Normalizing a run in sequence, whose
    request has a digest and whose audit record the controller could have made,
    never raises: every failure of the probe, the observation, the rule or the
    checks becomes a recorded attempt, bound to the envelope and the record. *)
Theorem pipeline_answers {laws : RuntimeLaws rt} p run :
  validate_ExecutionEnvelope (pl_envelope p) = Ok tt →
  registry_wf rule_key (pl_registry p) →
  ar_sequence (px_audit (run_execution run)) = pl_next_sequence p →
  audit_readable (px_audit (run_execution run)) →
  is_Ok (probe_request_sha256 (run_request run)) →
  ∃ a, normalize p run = (advance p run, Ok a) ∧
    attempt_ok (pl_envelope p) (px_audit (run_execution run)) a.
Proof.
  intros Henv Hr Hseq Haud Hsha. unfold normalize. rewrite Hseq, Z.eqb_refl. cbn [negb].
  destruct (is_Ok_inv _ (normalize_total (advance p run) run Henv Haud Hsha)) as [a Ha].
  exists a. rewrite Ha. split; [done|]. by apply (normalize_run_ok (advance p run)).
Qed.

(** C40: a request without a digest makes the pipeline raise.  Normalizing a run
    of it, in sequence, raises the error of the digest instead of recording a
    rejected attempt, and its sequence number is consumed, so that no later
    call accepts it. *)
Theorem undigestible_request_raises p run e :
  probe_request_sha256 (run_request run) = Raise e →
  ar_sequence (px_audit (run_execution run)) = pl_next_sequence p →
  normalize p run = (advance p run, Raise e) ∧
  ∀ run', run_execution run' = run_execution run →
    (normalize (advance p run) run').2
      = Raise (ValueError "probe runs must be normalized in contiguous order").
Proof.
  intros Hsha Hseq. split.
  - unfold normalize. rewrite Hseq, Z.eqb_refl. cbn [negb].
    unfold normalize_run. by rewrite Hsha.
  - intros run' Hrun. unfold normalize. rewrite Hrun, Hseq. cbn [pl_next_sequence advance].
    destruct (_ =? _) eqn:E; [|done]. apply Z.eqb_eq in E. lia.
Qed.

End properties.
