(* ===== verification/Investigation.v ===== *)
(** A whole investigation: probes of one controller, each processed by one
    evidence engine, and the report of the result.

    This is where the components meet: the controller's executions
    (Session.v) are what the pipeline needs to answer (AdmissionProperties.v), its
    attempts what the classifier needs (CoreFacts.v), and the evaluation what
    the report contract accepts (ReportRefinement.v).  [report_told] says what a
    report tells, in the terms of the specification of ClassificationProperties.v and
    of the retained attempts.  Back from a report, a committed effect
    is traced to the observation the rule read it in. *)

From S2P Require Export Session AdmissionProperties ClassificationProperties.

#[local] Open Scope Z_scope.

#[local] Instance engine_key_le_trans : Transitive engine_key_le.
Proof. intros x y z. unfold engine_key_le. lia. Qed.
#[local] Instance engine_key_le_total : Total engine_key_le.
Proof. intros x y. unfold engine_key_le. lia. Qed.

(** The engine fed with each probe in turn. *)
Section engine.
Context {rt : Runtime} {sec : Security} {sv : SchemaValidator} {od : ObservationDecoder}.
Context {laws : RuntimeLaws rt}.

Fixpoint process_all (g : EvidenceEngine) (runs : list ProbeRun)
  : EvidenceEngine * result py_error (list EvidenceAttempt) :=
  match runs with
  | [] => (g, Ok [])
  | run :: rest =>
      match process g run with
      | (g, Raise e) => (g, Raise e)
      | (g, Ok a) =>
          match process_all g rest with
          | (g, Ok l) => (g, Ok (a :: l))
          | (g, Raise e) => (g, Raise e)
          end
      end
  end.

(** The engine after [n] probes with attempts [l]. *)
Record engine_ok (env : ExecutionEnvelope) (audits : list ControllerAuditRecord)
  (l : list EvidenceAttempt) (g : EvidenceEngine) : Prop := {
  go_envelope : pl_envelope (eg_pipeline g) = env;
  go_registry : registry_wf rule_key (pl_registry (eg_pipeline g));
  go_next : pl_next_sequence (eg_pipeline g) = Z.of_nat (length l) + 1;
  go_attempts : eg_attempts g = zip (one_to (length l)) l;
  go_sequences : map ar_sequence audits = one_to (length audits);
  go_ok : Forall2 (attempt_ok env) audits l;
}.

Lemma one_to_S n : one_to (S n) = one_to n ++ [Z.of_nat (S n)].
Proof. unfold one_to. rewrite seq_S, map_app. done. Qed.

Lemma engine_attempts_eq env audits l g : engine_ok env audits l g → engine_attempts g = l.
Proof.
  intros []. unfold engine_attempts. rewrite go_attempts0.
  transitivity ((zip (one_to (length l)) l).*2);
    [|apply snd_zip; by rewrite length_one_to].
  f_equal. apply (merge_sort_id engine_key_le fst).
  - unfold engine_key_le. intros x y. lia.
  - change (map fst (zip (one_to (length l)) l)) with ((zip (one_to (length l)) l).*1).
    rewrite fst_zip by (by rewrite length_one_to). apply NoDup_one_to.
  - apply (StronglySorted_keys _ fst).
    + unfold engine_key_le. intros x y. lia.
    + change (map fst (zip (one_to (length l)) l)) with ((zip (one_to (length l)) l).*1).
      rewrite fst_zip, length_zip_with, length_one_to by (by rewrite length_one_to).
      by rewrite Nat.min_id.
Qed.

Lemma fresh_key n (l : list EvidenceAttempt) :
  dict_get (Z.of_nat (S n)) (zip (one_to n) l) = None.
Proof.
  destruct (dict_get _ _) as [a|] eqn:Ha; [|done].
  apply dict_get_elem in Ha. apply list_elem_of_lookup in Ha as [i Hi].
  rewrite lookup_zip_with in Hi. destruct (one_to n !! i) as [z|] eqn:Hz; [|done].
  cbn in Hi. destruct (l !! i); [|done]. cbn in Hi. injection Hi as -> _.
  pose proof (lookup_lt_Some _ _ _ Hz) as Hlt. rewrite length_one_to in Hlt.
  rewrite one_to_lookup in Hz by done. injection Hz as Hz. lia.
Qed.

Lemma dict_set_new {V} (k : Z) (v : V) d : dict_get k d = None → dict_set k v d = d ++ [(k, v)].
Proof.
  induction d as [|[j w] d IH]; cbn; [done|]. case_decide; [done|].
  intros ?. by rewrite IH.
Qed.

(** One more probe, in order, becomes one more attempt. *)
Lemma process_ok env audits l g run :
  engine_ok env audits l g → validate_ExecutionEnvelope env = Ok tt →
  is_Ok (probe_request_sha256 (run_request run)) →
  audit_readable (px_audit (run_execution run)) →
  ar_sequence (px_audit (run_execution run)) = Z.of_nat (S (length l)) →
  ∃ a g', process g run = (g', Ok a) ∧
    engine_ok env (audits ++ [px_audit (run_execution run)]) (l ++ [a]) g'.
Proof.
  intros [He Hr Hn Ha Hs Hok] Henv Hsha Hread Hseq. unfold process, normalize.
  rewrite Hseq, Hn, (proj2 (Z.eqb_eq _ _)) by lia. cbn [negb].
  assert (is_Ok (normalize_run (advance (eg_pipeline g) run) run)) as [a Hrun]%is_Ok_inv
    by (apply normalize_total; [by cbn; rewrite He|done|done]).
  rewrite Hrun.
  pose proof (normalize_run_ok (advance (eg_pipeline g) run) run a Hr Hrun) as Hatt.
  cbn [pl_envelope advance] in Hatt. rewrite He in Hatt.
  pose proof (ak_sequence _ _ _ Hatt) as Hkey. rewrite Hseq in Hkey.
  rewrite Hkey, Ha, fresh_key. eexists a, _. split; [done|].
  pose proof (Forall2_length _ _ _ Hok) as Hlen. split; cbn.
  - done.
  - done.
  - rewrite Hn, length_app. cbn. lia.
  - rewrite dict_set_new by apply fresh_key. rewrite length_app. cbn [length].
    rewrite Nat.add_1_r, one_to_S, zip_with_app by (by rewrite length_one_to). done.
  - rewrite map_app, Hs, length_app. cbn [map length]. rewrite Nat.add_1_r, one_to_S, Hseq.
    by rewrite Hlen.
  - apply Forall2_app; [done|]. by constructor.
Qed.

(** The runs of a list of executed requests. *)
Definition run_of (rx : ProbeRequest * ProbeExecution) : ProbeRun :=
  {| run_request := rx.1; run_execution := rx.2 |}.

Lemma process_all_ok env audits l g xs :
  engine_ok env audits l g → validate_ExecutionEnvelope env = Ok tt →
  Forall (λ rx, is_Ok (probe_request_sha256 rx.1)) xs →
  Forall audit_readable (audits_of xs) →
  map ar_sequence (audits ++ audits_of xs) = one_to (length (audits ++ audits_of xs)) →
  ∃ attempts g', process_all g (map run_of xs) = (g', Ok attempts) ∧
    engine_ok env (audits ++ audits_of xs) (l ++ attempts) g'.
Proof.
  intros Hg Henv Hsha. revert audits l g Hg. induction Hsha as [|rx xs Hrx _ IH];
    intros audits l g Hg Hread Hseq.
  { exists [], g. rewrite !app_nil_r. done. }
  apply Forall_cons in Hread as [Hr Hread].
  pose proof (Forall2_length _ _ _ (go_ok _ _ _ _ Hg)) as Hlen.
  assert (ar_sequence (px_audit rx.2) = Z.of_nat (S (length l))) as Hk.
  { assert (map ar_sequence (audits ++ audits_of (rx :: xs)) !! length audits
      = Some (ar_sequence (px_audit rx.2))) as Hi.
    { change (map ar_sequence ?k) with (ar_sequence <$> k).
      rewrite list_lookup_fmap, lookup_app_r, Nat.sub_diag by done. done. }
    rewrite Hseq, one_to_lookup, Hlen in Hi
      by (rewrite length_app; cbn; lia).
    by injection Hi. }
  destruct (process_ok env audits l g (run_of rx) Hg Henv Hrx Hr Hk) as (a & g1 & Hp & Hg1).
  specialize (IH _ _ _ Hg1 Hread).
  destruct IH as (attempts & g2 & Hall & Hg2).
  { rewrite <-app_assoc. exact Hseq. }
  cbn [map process_all]. rewrite Hp, Hall. exists (a :: attempts), g2. split; [done|].
  rewrite <-!app_assoc in Hg2. exact Hg2.
Qed.

Lemma new_engine_ok env registry :
  registry_wf rule_key registry → engine_ok env [] [] (new_engine env registry).
Proof. intros Hr. split; try done. by apply seal_wf. Qed.

End engine.

(** Where an engine's attempts come from. *)
Section traces.
Context {rt : Runtime} {sec : Security} {sv : SchemaValidator} {od : ObservationDecoder}.

Definition attempt_of (env : ExecutionEnvelope) (rules : TargetRuleRegistry)
  (run : ProbeRun) (a : EvidenceAttempt) : Prop :=
  ∃ p, pl_envelope p = env ∧ pl_registry p = rules ∧ normalize_run p run = Ok a.

Lemma process_attempt g run g' a :
  process g run = (g', Ok a) →
  attempt_of (pl_envelope (eg_pipeline g)) (pl_registry (eg_pipeline g)) run a ∧
  pl_envelope (eg_pipeline g') = pl_envelope (eg_pipeline g) ∧
  pl_registry (eg_pipeline g') = pl_registry (eg_pipeline g).
Proof.
  unfold process, normalize. destruct (negb _); [done|].
  destruct (normalize_run (advance (eg_pipeline g) run) run) as [b|] eqn:Hrun; [|done].
  destruct (dict_get _ _); [done|]. intros [= <- <-].
  split_and!; [|done..]. by exists (advance (eg_pipeline g) run).
Qed.

Lemma process_all_attempts g runs g' attempts :
  process_all g runs = (g', Ok attempts) →
  Forall2 (attempt_of (pl_envelope (eg_pipeline g)) (pl_registry (eg_pipeline g)))
    runs attempts.
Proof.
  revert g g' attempts. induction runs as [|run runs IH]; intros g g' attempts Hall; cbn in Hall.
  { injection Hall as <- <-. constructor. }
  destruct (process g run) as [g1 [a|]] eqn:Hp; [|done].
  destruct (process_all g1 runs) as [g2 [l|]] eqn:Hl; [|done]. injection Hall as <- <-.
  apply process_attempt in Hp as (Ha & He & Hr). constructor; [done|].
  rewrite <-He, <-Hr. by eapply IH.
Qed.

End traces.

(** ** The investigation *)

Section investigation.
Context {rt : Runtime} {sec : Security} {sv : SchemaValidator} {od : ObservationDecoder}.
Context {laws : RuntimeLaws rt}.
Context {W H : Type} {env : Environment W H}.
Context (cfg : ControllerConfig H) (s s' : session W).
Context (xs : list (ProbeRequest * ProbeExecution)).
Context (Henv : validate_ExecutionEnvelope (cc_envelope cfg) = Ok tt).
Context (Hreg : capability_wf (cc_registry cfg)).
Context (Hfresh : fresh_session cfg s) (Hrun : probed cfg s xs s').
Context (rules : TargetRuleRegistry) (Hrules : registry_wf rule_key rules).

#[local] Abbreviation envelope := (cc_envelope cfg).

Lemma session_audits_readable : Forall audit_readable (audits_of xs).
Proof.
  destruct (fresh_probed cfg Hreg s xs s' Hfresh Hrun) as (_ & _ & _ & Hex & Haud).
  unfold audits_of in *. rewrite Forall_map in *.
  rewrite Forall_forall in *. intros rx Hin.
  pose proof (Hex rx Hin) as Hx. pose proof (Haud rx Hin) as Ha. split.
  - pose proof (au_valid _ _ Ha) as Hv. unfold model_validate_audit in Hv. inv_ok. bool_simpl.
    rewrite in_range_true in *. lia.
  - destruct (ex_request _ _ _ Hx) as [->|(sha & Hsha & ->)]; [done|].
    cbn. unfold probe_request_sha256 in Hsha. inv_ok. subst. apply digest_text.
Qed.

(** The engine answers every probe of the session. *)
Lemma session_processed :
  Forall (λ rx, is_Ok (probe_request_sha256 rx.1)) xs →
  ∃ attempts g, process_all (new_engine envelope rules) (map run_of xs) = (g, Ok attempts) ∧
    engine_ok envelope (cs_audit (ss_state s')) attempts g.
Proof.
  intros Hsha.
  destruct (fresh_probed cfg Hreg s xs s' Hfresh Hrun) as (_ & -> & Hseq & _).
  destruct (process_all_ok envelope [] [] (new_engine envelope rules) xs)
    as (attempts & g & Hp & Hg); eauto using new_engine_ok, session_audits_readable.
Qed.

Lemma session_enabled : Forall (audit_enabled envelope) (cs_audit (ss_state s')).
Proof.
  destruct (fresh_probed cfg Hreg s xs s' Hfresh Hrun) as (_ & -> & _ & _ & Haud).
  eapply Forall_impl; [exact Haud|]. intros a Ha. apply Ha.
Qed.

(** The attempts of a processed session are evaluated, and the evaluation is
    the result the classifier computes. *)
Lemma session_evaluated attempts g :
  engine_ok envelope (cs_audit (ss_state s')) attempts g →
  NoDup (decision_ids attempts) → (length attempts ≤ 64)%nat →
  ∃ l, deduplicate_attempts attempts = Ok l ∧ Forall2 dedup_rel attempts l ∧
    evaluate g (cs_audit (ss_state s')) = Ok (core_result envelope l).
Proof.
  intros Hg Hids Hlen. pose proof Hg as [He _ _ _ Hseq Hok].
  destruct (deduplicate_ok envelope _ attempts [] Hok) as (l & Hded & Hrel).
  exists l. split; [done|]. split; [done|].
  unfold evaluate, evaluate_evidence. rewrite (engine_attempts_eq _ _ _ _ Hg), He, Henv.
  cbn [mbind result_bind]. rewrite (recheck_ok envelope _ attempts) by done.
  unfold deduplicate_attempts. rewrite Hded. cbn [mbind result_bind].
  apply (core_evaluation_ok envelope (cs_audit (ss_state s'))).
  - done.
  - by eapply dedup_attempts_ok.
  - apply session_enabled.
  - by rewrite (dedup_ids _ _ Hrel).
  - by rewrite <-(Forall2_length _ _ _ Hrel).
Qed.

(** The evaluation of a processed session becomes a report. *)
Lemma session_reported attempts g created updated rev :
  engine_ok envelope (cs_audit (ss_state s')) attempts g →
  NoDup (decision_ids attempts) → (length attempts ≤ 64)%nat →
  created ≤ updated → in_range 0 rev int64_max = true →
  ∃ l, deduplicate_attempts attempts = Ok l ∧ Forall2 dedup_rel attempts l ∧
    evaluate g (cs_audit (ss_state s')) = Ok (core_result envelope l) ∧
    ∀ advisory adv, report_advisory (map at_decision l) advisory = Ok adv →
      report g (cs_audit (ss_state s')) created updated rev advisory
        = Ok (core_report envelope (cs_audit (ss_state s')) l created updated rev adv).
Proof.
  intros Hg Hids Hlen Htime Hrev.
  destruct (session_evaluated attempts g Hg Hids Hlen) as (l & Hded & Hrel & Hev).
  exists l. split_and!; [done|done|done|]. intros advisory adv Hadv.
  unfold report. rewrite Hev, (go_envelope _ _ _ _ Hg). cbn [mbind result_bind].
  destruct (fresh_probed cfg Hreg s xs s' Hfresh Hrun) as (Hok & Haudit & Hseq & _ & Haud).
  apply build_report_ok; try done.
  - by eapply dedup_attempts_ok; [apply Hg|].
  - apply session_enabled.
  - rewrite Haudit. eapply Forall_impl; [exact Haud|]. intros a Ha. apply Ha.
  - rewrite Haudit. eapply Forall_impl; [exact Haud|]. intros a Ha. apply Ha.
  - apply Hg.
  - by rewrite (dedup_ids _ _ Hrel).
  - by rewrite <-(Forall2_length _ _ _ Hrel).
Qed.

(** The session's output is what the classifier's promises are about. *)
Lemma session_pipeline attempts g :
  engine_ok envelope (cs_audit (ss_state s')) attempts g →
  NoDup (decision_ids attempts) → (length attempts ≤ 64)%nat →
  pipeline_output envelope (cs_audit (ss_state s')) attempts.
Proof.
  intros Hg Hids Hlen. split; try done; [apply Hg|apply session_enabled|apply Hg].
Qed.

End investigation.

(** ** What a report says

    The contents of a report, told from the envelope, the audited probes and the
    retained attempts in the terms of what the admitted evidence says. *)

Section told.
Context {rt : Runtime} {sec : Security} {od : ObservationDecoder}.

(** The record [p] of a probe with the audit record [audit] and the attempt [a]. *)
Record probe_told (audit : ControllerAuditRecord) (a : EvidenceAttempt) (p : ProbeAuditRecord)
  : Prop := {
  pt_sequence : pa_probe_sequence p = ar_sequence audit;
  pt_capability : (pa_capability_name p, pa_capability_version p)
    = (ar_capability_name audit, ar_capability_version audit);
  pt_bound : (pa_request_sha256 p, pa_target_sha256 p)
    = (ar_request_sha256 audit, ar_target_sha256 audit);
  pt_ended : (pa_outcome p, pa_stop_reason p)
    = (ar_outcome audit, ProbeStopReason_value (ar_stop_reason audit));
  pt_times : (pa_started_at p, pa_completed_at p, pa_session_elapsed_ms p)
    = (ar_started_at audit, ar_completed_at audit, ar_session_elapsed_ms audit);
  pt_used : (pa_probe_count_used p, pa_cost_units_used p, pa_result_bytes_acquired p)
    = (ar_probe_count_used audit, ar_cost_units_used audit, ar_result_bytes_acquired audit);
  pt_result : (pa_result_sha256 p, pa_result_byte_count p)
    = (ar_result_sha256 audit, ar_result_byte_count audit);
  pt_evidence : pa_evidence_ids p = [ed_evidence_id (at_decision a)];
}.

Section findings.
Context (admitted : NormalizedEvidence → Prop) (effects : list ExpectedEffect).

(** The finding [f] of the expected effect [x]. *)
Record finding_told (x : ExpectedEffect) (f : EffectFinding) : Prop := {
  ft_effect : ef_effect_id f = ee_effect_id x ∧ ef_commit_scope f = ee_commit_scope x;
  ft_established : ef_state f = ESTABLISHED ↔ effect_established admitted x;
  ft_absent : ef_state f = NOT_ESTABLISHED ↔ effect_absent admitted x;
  ft_cited id : id ∈ ef_evidence_ids f ↔ ∃ e state, admitted e ∧
    asserts (ee_effect_id x) state e ∧ state ≠ UNVERIFIED ∧ ne_evidence_id e = id;
}.

Record proof_told (proof : DeterministicProof) : Prop := {
  ot_findings : Forall2 finding_told effects (dp_effect_findings proof);
  ot_conflict : dp_conflicting_authority proof = true ↔ authority_conflict admitted effects;
  ot_status status : dp_operation_status proof = Some status ↔
    ¬ authority_conflict admitted effects ∧ status_reported admitted status ∧
    ∀ other, status_reported admitted other → (status_rank other ≤ status_rank status)%nat;
  ot_admitted id : id ∈ dp_admitted_evidence_ids proof ↔
    ∃ e, admitted e ∧ ne_evidence_id e = id;
}.

(** What a missing proof is said to be missing for. *)
Inductive missing_for (decisions : list EvidenceDecision) (c : Classification) : string → Prop :=
  | missing_agreement :
      authority_conflict admitted effects → missing_for decisions c "conflicting_authority"
  | missing_terminal :
      ¬ authority_conflict admitted effects → c = PENDING →
      missing_for decisions c "authoritative-terminal-proof-required"
  | missing_scopes :
      ¬ authority_conflict admitted effects → c = PARTIAL →
      missing_for decisions c "authoritative-effect-proof-required"
  | missing_refused d :
      ¬ authority_conflict admitted effects → c = UNKNOWN →
      d ∈ decisions → ed_disposition d ≠ ADMITTED →
      (∀ d', d' ∈ decisions → ed_disposition d' ≠ ADMITTED →
        str_le (EvidenceReason_value (ed_reason d)) (EvidenceReason_value (ed_reason d'))) →
      missing_for decisions c (EvidenceReason_value (ed_reason d))
  | missing_all :
      ¬ authority_conflict admitted effects → c = UNKNOWN →
      (∀ d, d ∈ decisions → ed_disposition d = ADMITTED) →
      missing_for decisions c "authoritative-effect-proof-required".

Record missing_told (decisions : list EvidenceDecision) (c : Classification)
  (missing : list MissingEvidence) : Prop := {
  mt_none : c = COMMITTED ∨ c = NOT_COMMITTED → missing = [];
  mt_one : c ≠ COMMITTED → c ≠ NOT_COMMITTED → ∃ m, missing = [m] ∧
    sublist (me_effect_ids m) (map ee_effect_id effects) ∧
    (∀ id, id ∈ me_effect_ids m ↔
      ∃ x, x ∈ effects ∧ ee_effect_id x = id ∧ ¬ effect_established admitted x) ∧
    missing_for decisions c (me_reason m);
}.

End findings.

(** The reason a gate gives. *)
Definition gate_because (action : RequestedAction) (c : Classification) : ActionGateReason :=
  match action, c with
  | Action_CONTINUE, COMMITTED | Action_ESCALATE, COMMITTED => ALL_EFFECTS_ESTABLISHED
  | Action_CONTINUE, NOT_COMMITTED => OPERATION_NOT_COMMITTED
  | Action_CONTINUE, PARTIAL => INCOMPLETE_EFFECT_SET
  | Action_CONTINUE, PENDING | Action_RETRY, PENDING => OPERATION_ACTIVE
  | Action_CONTINUE, UNKNOWN => INSUFFICIENT_AUTHORITATIVE_EVIDENCE
  | Action_RETRY, COMMITTED | Action_RETRY, PARTIAL => DUPLICATE_EFFECT_RISK
  | Action_RETRY, NOT_COMMITTED => EXPLICIT_RETRY_POLICY_REQUIRED
  | Action_RETRY, UNKNOWN => AMBIGUOUS_DUPLICATE_RISK
  | Action_COMPENSATE, _ => COMPENSATION_OUT_OF_SCOPE_V1
  | Action_ESCALATE, NOT_COMMITTED => OPERATOR_REVIEW_AVAILABLE
  | Action_ESCALATE, _ => OPERATOR_INTERVENTION_REQUIRED
  | Action_OBSERVE, _ => READ_ONLY_FOLLOW_UP
  end.

Record gate_told (context : EnvelopeContext) (c : Classification) (action : RequestedAction)
  (g : ActionGateResult) : Prop := {
  gt_action : ag_requested_action g = action;
  gt_classification : ag_classification g = c;
  gt_policies : (ag_classification_policy_version g, ag_action_policy_version g)
    = (pr_classification (policies context), pr_action (policies context));
  gt_allowed : ag_allowed g = true ↔
    match action with
    | Action_CONTINUE => c = COMMITTED
    | Action_RETRY | Action_COMPENSATE => False
    | Action_ESCALATE => c ≠ COMMITTED
    | Action_OBSERVE => True
    end;
  gt_reason : ag_reason g = gate_because action c;
  gt_escalation : ag_escalation_required g = true ↔ c ≠ COMMITTED;
}.

Record report_told (envelope : ExecutionEnvelope) (audits : list ControllerAuditRecord)
  (retained : list EvidenceAttempt) (created updated : datetime) (revision : Z)
  (r : InvestigationReport) : Prop := {
  rt_identity : (ir_investigation_id r, ir_envelope_sha256 r, ir_status r)
    = (en_investigation_id envelope, canonical_sha256 envelope, Report_COMPLETED);
  rt_times : (ir_created_at r, ir_updated_at r, ir_revision r) = (created, updated, revision);
  rt_notes : (ir_limitations r, ir_advisory_explanation r)
    = (["No mutation was retried or compensated."], None);
  rt_probes : Forall3 probe_told audits retained (ir_probe_audit r);
  rt_evidence : ir_evidence r = omap at_evidence retained;
  rt_decisions : ir_evidence_decisions r = map at_decision retained;
  rt_proof : ∃ proof, ir_proof r = Some proof ∧
    proof_told (admitted_in retained) (en_expected_effects envelope) proof;
  rt_outcome : ∃ c, ir_classification r = Some c ∧
    outcome (admitted_in retained) (en_expected_effects envelope) c ∧
    Forall2 (gate_told (en_context envelope) c)
      [Action_CONTINUE; Action_RETRY; Action_COMPENSATE; Action_ESCALATE; Action_OBSERVE]
      (ir_action_gate r) ∧
    missing_told (admitted_in retained) (en_expected_effects envelope)
      (map at_decision retained) c (ir_missing_evidence r);
}.

Context (envelope : ExecutionEnvelope) (audits : list ControllerAuditRecord)
  (l : list EvidenceAttempt).
Context (Hl : pipeline_output envelope audits l).

#[local] Abbreviation A := (CoreFacts.admitted_evidence l).
#[local] Abbreviation effects := (en_expected_effects envelope).

Lemma probes_told : Forall3 probe_told audits l (map (report_audit l) audits).
Proof.
  assert (∀ k, k `suffix_of` l → ∀ as_, Forall2 (attempt_ok envelope) as_ k →
    Forall3 probe_told as_ k (map (report_audit l) as_)) as Hgo;
    [|exact (Hgo l ltac:(reflexivity) audits (po_attempts _ _ _ Hl))].
  intros k Hk as_ H. induction H as [|audit a as_ k Ha H IH]; [constructor|].
  cbn [map]. constructor; [|apply IH; etrans; [by exists [a]|exact Hk]].
  split; try reflexivity. cbn [report_audit pa_evidence_ids].
  rewrite <-(ak_sequence _ _ _ Ha).
  apply (ids_at envelope audits l (po_attempts _ _ _ Hl) (po_sequence _ _ _ Hl));
    [by destruct Hl|]. destruct Hk as [pre ->]. apply elem_of_app. right. left.
Qed.

Lemma core_finding_told x : finding_told (admitted_in l) x (finding_of A x).
Proof.
  split; [done|exact (established_state l x)|exact (absent_state l x)|]. intros id.
  destruct Hl as [Henv Hok Hen _ Hids Hlen].
  rewrite (finding_cited_elem _ (admitted_nodup envelope audits l Hok Hids)
    (admitted_distinct envelope audits l Hok)). split.
  - intros (s & (e & a & He%admitted_in_elem & Ha & Hx & Hs & Hid)%assertions_for_elem & Hn).
    exists e, s. split_and!; [done| |done..]. by exists a.
  - intros (e & s & He%admitted_in_elem & (a & Ha & Hx & Hs) & Hn & Hid). exists s.
    split; [|done]. apply assertions_for_elem. eauto 10.
Qed.

Lemma core_proof_told : proof_told (admitted_in l) effects (core_proof envelope l).
Proof.
  split.
  - cbn. unfold core_findings. apply Forall2_fmap_r, Forall_Forall2_diag, Forall_forall.
    intros x _. apply core_finding_told.
  - apply conflict_flag.
  - intros status. cbn [dp_operation_status core_proof]. rewrite core_status_eq.
    destruct (core_conflict envelope l) eqn:Hc.
    + split; [done|]. intros [Hn _]. destruct Hn. by apply conflict_flag.
    + rewrite status_of_proof. split; [|tauto]. intros Hs. split; [|done].
      exact (flag_false _ _ (conflict_flag effects l) Hc).
  - intros id. cbn [dp_admitted_evidence_ids core_proof].
    rewrite <-(admitted_ids_eq envelope audits l (po_attempts _ _ _ Hl)), list_elem_of_fmap.
    setoid_rewrite admitted_in_elem. naive_solver.
Qed.

Lemma refused_reason decisions text :
  text ∈ reported_reasons decisions ↔
  ∃ d, d ∈ decisions ∧ ed_disposition d ≠ ADMITTED ∧ EvidenceReason_value (ed_reason d) = text.
Proof.
  unfold reported_reasons. rewrite list_elem_of_fmap. setoid_rewrite list_elem_of_filter.
  naive_solver.
Qed.

Lemma core_missing_for :
  core_class envelope l ≠ COMMITTED → core_class envelope l ≠ NOT_COMMITTED →
  missing_for (admitted_in l) effects (map at_decision l) (core_class envelope l)
    (missing_reason (core_conflict envelope l) (core_class envelope l) (map at_decision l)).
Proof.
  intros Hnc Hnn. unfold missing_reason. pose proof (conflict_flag effects l) as Hconf.
  fold (core_conflict envelope l) in Hconf.
  destruct (core_conflict envelope l) eqn:Hc; [by apply (missing_agreement _ _ (map at_decision l)), Hconf|].
  apply flag_false in Hconf; [|done].
  destruct (core_class envelope l) eqn:Hcl; try done; cbn [bool_decide decide_rel decide].
  - by apply missing_scopes.
  - by apply missing_terminal.
  - change (bool_decide (UNKNOWN = PENDING)) with false.
    change (bool_decide (UNKNOWN = PARTIAL)) with false. cbv iota.
    destruct (sorted_strings _) as [|text r] eqn:Hs.
    + apply missing_all; [done..|]. intros d Hd.
      destruct (decide (ed_disposition d = ADMITTED)) as [|Hn]; [done|].
      pose proof (sorted_strings_perm (remove_dups (reported_reasons (map at_decision l)))) as Hp.
      rewrite Hs in Hp. apply Permutation_nil_l in Hp.
      assert (EvidenceReason_value (ed_reason d) ∈ remove_dups (reported_reasons (map at_decision l)))
        as Hin by (apply elem_of_remove_dups, refused_reason; eauto).
      rewrite <-Hp in Hin. by apply not_elem_of_nil in Hin.
    + apply sorted_head in Hs as [Hin Hmin].
      apply elem_of_remove_dups, refused_reason in Hin as (d & Hd & Hn & <-).
      apply missing_refused; [done..|]. intros d' Hd' Hn'. apply Hmin, elem_of_remove_dups.
      apply refused_reason. eauto.
Qed.

Lemma core_missing_told :
  missing_told (admitted_in l) effects (map at_decision l) (core_class envelope l)
    (core_missing envelope l).
Proof.
  unfold core_missing. split.
  - by intros [-> | ->].
  - intros Hnc Hnn. assert (inb (core_class envelope l) [COMMITTED; NOT_COMMITTED] = false) as ->.
    { apply inb_false. by intros [?|[?|?%not_elem_of_nil]%elem_of_cons]%elem_of_cons. }
    eexists. split; [done|]. cbn [me_effect_ids me_reason].
    assert (∀ k, sublist (unresolved_effects (map (finding_of A) k)) (map ee_effect_id k) ∧
      ∀ id, id ∈ unresolved_effects (map (finding_of A) k) ↔
        ∃ x, x ∈ k ∧ ee_effect_id x = id ∧ ¬ effect_established (admitted_in l) x) as Hgo.
    { intros k. unfold unresolved_effects. setoid_rewrite <-established_state. split.
      - induction k as [|x k IH]; [constructor|]. cbn [map]. rewrite filter_cons.
        case_decide; by constructor.
      - intros id. rewrite list_elem_of_fmap. setoid_rewrite list_elem_of_filter.
        setoid_rewrite list_elem_of_fmap. split.
        + intros (f & -> & Hf & (x & -> & Hx)). exists x. by split_and!.
        + intros (x & Hx & <- & Hn). exists (finding_of A x). split_and!; [done..|eauto]. }
    destruct (Hgo effects) as [Hsub Hids]. split_and!; [exact Hsub|exact Hids|].
    by apply core_missing_for.
Qed.

Lemma gates_told c :
  Forall2 (gate_told (en_context envelope) c)
    [Action_CONTINUE; Action_RETRY; Action_COMPENSATE; Action_ESCALATE; Action_OBSERVE]
    (map (gate_of c (pr_classification (policies (en_context envelope)))
      (pr_action (policies (en_context envelope)))) (gate_definitions c)).
Proof. repeat constructor; by destruct c. Qed.

Lemma core_report_told created updated revision :
  report_told envelope audits l created updated revision
    (core_report envelope audits l created updated revision None).
Proof.
  split; try reflexivity.
  - exact probes_told.
  - eexists. split; [reflexivity|]. exact core_proof_told.
  - eexists. split; [reflexivity|]. split_and!; [exact (classified effects l)|apply gates_told|].
    exact core_missing_told.
Qed.

End told.

(** ** The promise *)

Section promise.
Context {rt : Runtime} {sec : Security} {sv : SchemaValidator} {od : ObservationDecoder}.
Context {laws : RuntimeLaws rt}.
Context {W H : Type} {env : Environment W H}.

(** A probe of the session whose rule read the effect in [state], for the
    operation and the target of the envelope. *)
Record effect_read (envelope : ExecutionEnvelope) (rules : TargetRuleRegistry)
  (xs : list (ProbeRequest * ProbeExecution)) (effect_id : string)
  (state : EffectAssertionState) : Prop := {
  efr_probe : ∃ p rx sha observation registration o,
    rx ∈ xs ∧ pl_envelope p = envelope ∧ pl_registry p = (rule_freeze rules).1 ∧
    observed_by_rule p (run_of rx) sha observation registration o ∧
    rob_operation_id o = Some (en_operation_id envelope) ∧
    canonical_json_bytes (rob_target o) = canonical_json_bytes (en_target envelope) ∧
    ∃ a, a ∈ rob_effect_assertions o ∧ ea_effect_id a = effect_id ∧ ea_state a = state;
}.

(** Authoritative evidence of a session was read by a rule in one of its probes. *)
Lemma authoritative_read envelope rules audits attempts xs e effect_id state :
  Forall2 (attempt_of envelope (rule_freeze rules).1) (map run_of xs) attempts →
  Forall (λ rx, 1 ≤ ar_sequence (px_audit rx.2)) xs →
  authoritative envelope audits attempts e → asserts effect_id state e →
  effect_read envelope rules xs effect_id state.
Proof.
  intros Hall Hpos [(a & audit & Ha & _ & Hev & Hd & _) Hau _ _] (x & Hx & Hid & Hst).
  apply (Forall2_elem_r _ _ _ _ Hall) in Ha as (run & Hrun & p & Hp & Hr & Hn).
  apply list_elem_of_fmap in Hrun as (rx & -> & Hrx).
  rewrite Forall_forall in Hpos. specialize (Hpos rx Hrx).
  destruct (normalize_run_passes p (run_of rx) a Hn) as (o & id & e' & Hpass);
    [by rewrite Hd|].
  rewrite (passes_normalize_run p (run_of rx) o id e' Hpos Hpass) in Hn.
  injection Hn as <-. injection Hev as ->.
  destruct Hpass as [(sha & ob & reg & skew & horizon & w & Ho & _ & _ & -> & Hacc)].
  destruct Hacc as [_ Htgt Hop]. rewrite Hp in Htgt, Hop. split.
  exists p, rx, sha, ob, reg, o. split_and!; try done; [by apply Hop|by exists x].
Qed.

(** A report is made of distinct attempts, at most 64 of them. *)
Lemma report_bounds cfg (s s' : session W) xs rules attempts g created updated rev advisory r :
  validate_ExecutionEnvelope (cc_envelope cfg) = Ok tt → capability_wf (cc_registry cfg) →
  fresh_session cfg s → probed cfg s xs s' → registry_wf rule_key rules →
  engine_ok (cc_envelope cfg) (cs_audit (ss_state s')) attempts g →
  report g (cs_audit (ss_state s')) created updated rev advisory = Ok r →
  NoDup (decision_ids attempts) ∧ (length attempts ≤ 64)%nat ∧
  created ≤ updated ∧ 0 ≤ rev ≤ int64_max.
Proof.
  intros Henv Hreg Hfresh Hrun Hrules Hg Hrep. unfold report in Hrep.
  apply bind_ok in Hrep as (ev & Hev & Hrep). apply build_report_bounds in Hrep as [Hlen Htimes].
  unfold evaluate in Hev. rewrite (engine_attempts_eq _ _ _ _ Hg) in Hev.
  pose proof (evaluation_identifiers _ _ _ _ Hev) as Hids. split; [done|]. split; [|done].
  pose proof Hg as [He _ _ _ Hseq Hok]. unfold evaluate_evidence in Hev.
  apply bind_ok in Hev as ([] & _ & Hev). rewrite He, (recheck_ok (cc_envelope cfg) _ _ Hok Hseq Hids) in Hev.
  apply bind_ok in Hev as (l & Hded & Hev).
  destruct (deduplicate_ok (cc_envelope cfg) _ attempts [] Hok) as (l' & Hded' & Hrel).
  unfold deduplicate_attempts in Hded. rewrite Hded in Hded'. injection Hded' as <-.
  rewrite (Forall2_length _ _ _ Hrel). unfold core_evaluation in Hev. inv_ok.
  destruct (core_classification _ _) as [[? ?] ?]. inv_ok. subst ev. cbn in Hlen.
  by rewrite length_map in Hlen.
Qed.

(** C1: what becomes of an investigation.  Run any requests through a new controller
    with a sealed registry, as long as each request has a digest: the engine turns
    every execution into an attempt, in order.  A report is made of them exactly when
    the attempts have distinct identifiers, there are at most 64, the update does not
    precede the creation and the revision is in its range; otherwise the report
    raises.  The report tells the audited probes, the retained evidence and decisions
    and, in the terms of what the admitted evidence says and no others, the finding
    of each expected effect, the conflict of authority, the operation status, the one
    outcome, the five action gates and the missing evidence with its reason. *)
Theorem investigation_reported envelope (registry : @CapabilityRegistry H) token offset w
  cfg (s s' : session W) xs rules created updated rev :
  capability_wf registry → registry_wf rule_key rules →
  new_controller envelope registry token offset w = (Ok cfg, s) →
  probed cfg s xs s' →
  Forall (λ rx, is_Ok (probe_request_sha256 rx.1)) xs →
  let audits := cs_audit (ss_state s') in
  ∃ attempts g,
    process_all (new_engine envelope rules) (map run_of xs) = (g, Ok attempts) ∧
    length attempts = length xs ∧
    ((∃ r, report g audits created updated rev None = Ok r) ↔
      NoDup (decision_ids attempts) ∧ (length xs ≤ 64)%nat ∧
      created ≤ updated ∧ 0 ≤ rev ≤ int64_max) ∧
    ∀ r, report g audits created updated rev None = Ok r →
      ∃ retained, deduplicate_attempts attempts = Ok retained ∧
        report_told envelope audits retained created updated rev r.
Proof.
  intros Hwf Hrules Hnew Hrun Hsha audits.
  apply new_controller_ok in Hnew as (<- & _ & Henv & Hreg & Hfresh); [|done].
  destruct (session_processed cfg s s' xs Henv Hreg Hfresh Hrun rules Hrules Hsha)
    as (attempts & g & Hp & Hg).
  assert (length attempts = length xs) as Hlen.
  { pose proof (process_all_attempts _ _ _ _ Hp) as Hfrom.
    by rewrite <-(Forall2_length _ _ _ Hfrom), length_map. }
  assert (∀ r, report g audits created updated rev None = Ok r → NoDup (decision_ids attempts) ∧
    (length attempts ≤ 64)%nat ∧ created ≤ updated ∧ 0 ≤ rev ≤ int64_max) as Hbounds
    by (intros r Hr; by eapply report_bounds).
  assert (NoDup (decision_ids attempts) → (length attempts ≤ 64)%nat → created ≤ updated →
    0 ≤ rev ≤ int64_max → ∃ l, deduplicate_attempts attempts = Ok l ∧
      Forall2 dedup_rel attempts l ∧ report g audits created updated rev None
        = Ok (core_report (cc_envelope cfg) audits l created updated rev None)) as Hmade.
  { intros Hids H64 Ht Hr. destruct (session_reported cfg s s' xs Henv Hreg Hfresh Hrun attempts g
      created updated rev Hg Hids H64 Ht) as (l & Hded & Hrel & _ & Hrep); [by apply in_range_true|].
    exists l. split_and!; [done..|]. by apply Hrep. }
  exists attempts, g. split_and!; [done|done| |].
  - rewrite <-Hlen. split; [by intros (r & Hr%Hbounds)|]. intros (Hids & H64 & Ht & Hr).
    destruct (Hmade Hids H64 Ht Hr) as (l & _ & _ & Hrep). eauto.
  - intros r Hr. destruct (Hbounds r Hr) as (Hids & H64 & Ht & Hrv).
    destruct (Hmade Hids H64 Ht Hrv) as (l & Hded & Hrel & Hrep). exists l. split; [done|].
    rewrite Hrep in Hr. injection Hr as <-. apply core_report_told.
    destruct (session_pipeline cfg s s' xs Henv Hreg Hfresh Hrun attempts g Hg Hids H64).
    split; try done; [by eapply dedup_attempts_ok|by rewrite (dedup_ids _ _ Hrel)|].
    by rewrite <-(Forall2_length _ _ _ Hrel).
Qed.

(** C2: a report that says COMMITTED was read from the target.  When the report of
    a session classifies the operation COMMITTED, every expected effect was
    asserted established by the target's rule, for this operation and this
    exact target, from the intact observation of a completed probe of the
    session. *)
Theorem committed_report_read envelope (registry : @CapabilityRegistry H) token offset w
  cfg (s s' : session W) xs rules g attempts created updated rev advisory r x :
  capability_wf registry → registry_wf rule_key rules →
  new_controller envelope registry token offset w = (Ok cfg, s) →
  probed cfg s xs s' →
  Forall (λ rx, is_Ok (probe_request_sha256 rx.1)) xs → (length xs ≤ 64)%nat →
  process_all (new_engine envelope rules) (map run_of xs) = (g, Ok attempts) →
  report g (cs_audit (ss_state s')) created updated rev advisory = Ok r →
  ir_classification r = Some COMMITTED → x ∈ en_expected_effects envelope →
  effect_read envelope rules xs (ee_effect_id x) ESTABLISHED.
Proof.
  intros Hwf Hrules Hnew Hrun Hsha Hlen Hall Hrep Hc Hx.
  apply new_controller_ok in Hnew as (<- & _ & Henv & Hreg & Hfresh); [|done].
  destruct (session_processed cfg s s' xs Henv Hreg Hfresh Hrun rules Hrules Hsha)
    as (l & g' & Hall' & Hg).
  rewrite Hall in Hall'. injection Hall' as <- <-.
  pose proof (process_all_attempts _ _ _ _ Hall) as Hfrom. cbn in Hfrom.
  assert (length attempts = length xs) as Hn
    by (by rewrite <-(Forall2_length _ _ _ Hfrom), length_map).
  unfold report in Hrep. inv_ok.
  match goal with Hx : evaluate g _ = Ok ?e |- _ => rename e into ev, Hx into Hev end.
  assert (ce_classification ev = COMMITTED) as Hcl.
  { unfold build_report, model_validate_report in Hrep. inv_ok. subst r.
    cbn in Hc. by injection Hc. }
  unfold evaluate in Hev.
  rewrite (engine_attempts_eq _ _ _ _ Hg), (go_envelope _ _ _ _ Hg) in Hev.
  assert (NoDup (decision_ids attempts)) as Hids by by eapply evaluation_identifiers.
  pose proof (session_pipeline cfg s s' xs Henv Hreg Hfresh Hrun attempts g Hg Hids ltac:(lia))
    as Hpo.
  destruct (committed_read _ _ _ _ x Hpo Hev Hcl Hx) as (e & Ha & Has).
  eapply authoritative_read; [exact Hfrom| |exact Ha|exact Has].
  destruct (fresh_probed cfg Hreg s xs s' Hfresh Hrun) as (_ & _ & _ & _ & Haud).
  unfold audits_of in Haud. rewrite Forall_map in Haud.
  eapply Forall_impl; [exact Haud|]. intros rx Hau.
  by apply au_valid, model_validate_audit_inv in Hau as (_ & _ & ?).
Qed.

End promise.
