(* ===== verification/Samples.v ===== *)
(** A concrete laboratory, for the witnesses of the investigation's properties:
    a runtime whose digest is a small checksum, a decoder of the laboratory's
    own observations, one observation capability per answer, and the sessions
    they run. *)

From S2P Require Export Investigation.

#[local] Open Scope Z_scope.

(** ** The runtime *)

Definition checksum_step (n : N) (c : Ascii.ascii) : N :=
  N.land (33 * n + Ascii.N_of_ascii c) 4294967295.

Fixpoint checksum (n : N) (s : string) : N :=
  match s with
  | EmptyString => n
  | String c s' => checksum (checksum_step n c) s'
  end.

Fixpoint hex_text (digits : nat) (n : N) : string :=
  match digits with
  | O => ""
  | S d => hex_digit (n mod 16) +:+ hex_text d (n / 16)
  end.

#[export] Instance lab_runtime : Runtime :=
  {| sha256_hex := λ s, hex_text 64 (checksum 5381 s);
     float_repr := λ _, "0.0"; has_unsafe_category := λ _, false;
     pydantic_time := datetime_text; str_lower := λ s, s; str_strip := λ s, s |}.

#[export] Instance lab_security : Security :=
  {| is_sensitive_key := λ _, false; contains_sensitive_material := λ _, false;
     terminal_safe_text := λ s, s; redact_untrusted_text := λ s, s |}.

#[export] Instance lab_schemas : SchemaValidator :=
  {| META_SCHEMA_ID := "https://json-schema.org/draft/2020-12/schema";
     check_schema := λ _, true; schema_is_valid := λ _ _, true |}.

Lemma hex_digit_ok d : (d < 16)%N →
  string_forallb is_hex_digit (hex_digit d) = true ∧ String.length (hex_digit d) = 1%nat.
Proof.
  intros Hd. assert (d ∈ map N.of_nat (seq 0 16)) as Hin.
  { apply list_elem_of_fmap. exists (N.to_nat d). rewrite N2Nat.id. split; [done|].
    apply elem_of_seq. lia. }
  cbn in Hin. rewrite !elem_of_cons, elem_of_nil in Hin.
  destruct_or! Hin; subst d; [vm_compute; split; reflexivity..|done].
Qed.

Lemma forallb_append f a b :
  string_forallb f (a +:+ b) = string_forallb f a && string_forallb f b.
Proof.
  induction a as [|c a IH]; [done|].
  change (f c && string_forallb f (a +:+ b) = f c && string_forallb f a && string_forallb f b).
  by rewrite IH, andb_assoc.
Qed.

Lemma length_append a b : String.length (a +:+ b) = (String.length a + String.length b)%nat.
Proof.
  induction a as [|c a IH]; [done|]. change (S (String.length (a +:+ b)) = S (String.length a) + String.length b)%nat.
  rewrite IH. lia.
Qed.

Lemma hex_text_ok digits n :
  string_forallb is_hex_digit (hex_text digits n) = true
  ∧ String.length (hex_text digits n) = digits.
Proof.
  revert n. induction digits as [|d IH]; intros n; [done|].
  destruct (hex_digit_ok (n mod 16)) as [Hh Hl]; [by apply N.mod_lt|].
  destruct (IH (n / 16)%N) as [IHh IHl]. cbn [hex_text].
  rewrite forallb_append, Hh, IHh. split; [done|].
  by rewrite length_append, Hl, IHl.
Qed.

#[export] Instance lab_laws : RuntimeLaws lab_runtime.
Proof. split; [done|]. intros s. destruct (hex_text_ok 64 (checksum 5381 s)). done. Qed.

(** ** Observations and the rule that reads them *)

Definition lab_time : datetime := 1700000000 * second_us.

Definition lab_observation (answer : string) : ProbeObservation :=
  {| po_observed_at := lab_time; po_payload := [("state", JStr answer)] |}.

Definition lab_answers : list string :=
  ["committed"; "absent"; "partial"; "running"; "missing"].

Definition lab_text (answer : string) : string :=
  canonical_json_bytes (lab_observation answer).

#[export] Instance lab_decoder : ObservationDecoder :=
  {| decode_observation := λ text,
       match filter (λ answer, lab_text answer = text) lab_answers with
       | answer :: _ => Ok (lab_observation answer)
       | [] => Raise (ValueError "unknown observation")
       end |}.

Lemma lab_decoder_faithful : decoder_faithful.
Proof.
  intros o o'. unfold decode_observation, lab_decoder.
  destruct (filter _ lab_answers) as [|answer rest] eqn:Hf; [done|].
  intros [= <-]. change (lab_text answer = canonical_json_bytes o).
  assert (answer ∈ answer :: rest) as Hin by left.
  rewrite <-Hf in Hin. by apply list_elem_of_filter in Hin as [? _].
Qed.

Definition lab_target : TargetBinding :=
  {| tb_target_kind := "ledger"; tb_scope := [("tenant", JStr "t-1")];
     tb_resource := [("entry", JStr "42")] |}.

Definition assert_both (row mail : EffectAssertionState) : list EffectAssertion :=
  [{| ea_effect_id := "row"; ea_state := row |};
   {| ea_effect_id := "mail"; ea_state := mail |}].

(** What the rule concludes from each answer. *)
Definition lab_conclusion (answer : string)
  : list EffectAssertion * option OperationStatus * RuleVerdict :=
  if bool_decide (answer = "committed")
  then (assert_both ESTABLISHED ESTABLISHED, Some TERMINAL_COMMITTED, AUTHORITATIVE_EFFECTS)
  else if bool_decide (answer = "absent")
  then (assert_both NOT_ESTABLISHED NOT_ESTABLISHED, Some TERMINAL_NOT_COMMITTED,
        AUTHORITATIVE_NON_EXECUTION)
  else if bool_decide (answer = "partial")
  then (assert_both ESTABLISHED NOT_ESTABLISHED, None, AUTHORITATIVE_EFFECTS)
  else if bool_decide (answer = "running")
  then ([], Some ACTIVE, AUTHORITATIVE_PENDING)
  else ([], None, ABSENCE_ONLY).

Definition lab_rule_result (answer : string) : RuleObservation :=
  let '(assertions, status, verdict) := lab_conclusion answer in
  {| rob_target := lab_target; rob_source_record := "ledger entry";
     rob_observed_at := lab_time; rob_operation_id := Some "operation-1";
     rob_correlation := [("order", "7")]; rob_effect_assertions := assertions;
     rob_operation_status := status; rob_verdict := verdict |}.

Definition lab_rule (answer : string) : TargetRuleRegistration :=
  {| tr_descriptor := {| td_target_kind := "ledger"; td_capability_name := answer;
       td_capability_version := "v1"; td_authority_policy_version := "authority-v1";
       td_classification_policy_version := "classification-v1";
       td_source := "ledger-api"; td_adapter_version := "adapter-v1" |};
     tr_normalizer := λ i,
       match filter (λ a, lab_text a = ri_observation i) lab_answers with
       | a :: _ => RuleReturned (lab_rule_result a)
       | [] => RuleFailed
       end |}.

(** ** The envelope and the capabilities *)

Definition lab_effect (id scope : string) : ExpectedEffect :=
  {| ee_effect_id := id; ee_commit_scope := scope; ee_predicate := [("op", JStr "exists")];
     ee_description := "expected effect" |}.

Definition lab_arguments : json_object := [("amount", JInt 3)].

Definition lab_envelope : ExecutionEnvelope :=
  {| en_investigation_id := "investigation-1"; en_operation_id := "operation-1";
     en_target := lab_target; en_invoked_at := lab_time - 5 * second_us;
     en_ambiguity := {| ae_kind := TIMEOUT; ae_observed_at := lab_time; ae_detail := None |};
     en_expected_effects := [lab_effect "row" "database"; lab_effect "mail" "smtp"];
     en_context :=
       {| ec_invocation := {| oi_invocation_id := "call-1"; oi_function_call_id := None;
            oi_tool_name := "post-entry"; oi_tool_version := "v1";
            oi_arguments := lab_arguments;
            oi_arguments_sha256 := sha256_hex (dumps (JObj lab_arguments)) |};
          enabled_capabilities :=
            map (λ a, {| cr_name := a; cr_version := "v1" |}) lab_answers;
          correlation_fields := [("order", "7")];
          evidence_budget := {| max_probes := 2; max_elapsed_ms := 60000;
            max_total_result_bytes := 100000; max_cost_units := 10 |};
          ec_freshness := {| max_age_seconds := 60; clock_skew_seconds := 2 |};
          policies := {| pr_authority := "authority-v1";
            pr_classification := "classification-v1"; pr_action := "action-v1" |} |} |}.

Definition lab_schema : json_object :=
  [("$schema", JStr META_SCHEMA_ID); ("type", JStr "object");
   ("additionalProperties", JBool false); ("properties", JObj []); ("required", JArr [])].

(** A capability's handler is the answer it gives. *)
Definition lab_registration (answer : string) : CapabilityRegistration string :=
  {| rg_capability := {| oc_name := answer; oc_version := "v1";
       oc_argument_schema := lab_schema;
       oc_allowed_targets := [{| tc_target_kind := "ledger";
         tc_scope := tb_scope lab_target |}];
       oc_timeout_ms := 1000; oc_result_byte_ceiling := 1000; oc_cost_units := 1 |};
     rg_semantics := READ_ONLY; rg_enabled := true; rg_argument_byte_ceiling := 1000;
     rg_max_invocations := 3; rg_handler := Some answer |}.

#[export] Instance lab_environment : Environment unit string :=
  {| monotonic := λ w, (fzero, w); now := λ w, (lab_time, w); cancelled := λ w, (false, w);
     recording_interrupted := λ w, (false, w);
     wait_first := λ _ _ _ w, (Wait_handler_done, w);
     call_observation := λ answer _ w, (Handler_returned (Some (lab_observation answer)), w);
     observer := None |}.

(** The registries, built by their own operations. *)
Definition register_or {R V} (f : R → V → result registry_error R) (r : R) (v : V) : R :=
  match f r v with Ok r' => r' | Raise _ => r end.

Definition lab_registry : @CapabilityRegistry string :=
  foldl (register_or capability_register) empty_registry (map lab_registration lab_answers).
Definition lab_rules : TargetRuleRegistry :=
  foldl (register_or rule_register) empty_registry (map lab_rule lab_answers).

Lemma lab_registry_reached r l :
  Forall (λ v, make_registration v = Ok v) l →
  rtc (@capability_step lab_runtime lab_security lab_schemas string) r
    (foldl (register_or capability_register) r l).
Proof.
  intros Hl. revert r. induction Hl as [|v l Hv Hl IH]; intros r; [apply rtc_refl|].
  cbn [foldl]. destruct (capability_register r v) as [r'|] eqn:Hr;
    unfold register_or at 2; rewrite Hr; [|apply IH].
  eapply rtc_l; [|apply IH]. by eapply capability_step_register.
Qed.

Lemma lab_registry_run :
  rtc (@capability_step lab_runtime lab_security lab_schemas string) empty_registry
    lab_registry.
Proof. apply lab_registry_reached. repeat constructor. Qed.

Lemma lab_registry_wf : capability_wf lab_registry.
Proof. apply capability_reachable, lab_registry_run. Qed.

Lemma lab_rules_wf : registry_wf rule_key lab_rules.
Proof.
  assert (∀ l r, registry_wf rule_key r →
    registry_wf rule_key (foldl (register_or rule_register) r l)) as H;
    [|apply H, empty_wf].
  induction l as [|v l IH]; intros r Hr; [done|]. cbn [foldl]. apply IH.
  unfold register_or. destruct (rule_register r v) as [r'|] eqn:Hv; [|done].
  by eapply register_wf.
Qed.

(** ** Sessions *)

(** The investigation driver's loop: execute until the session is terminal. *)
Fixpoint run_requests `{Environment W H} (cfg : ControllerConfig H) (s : session W)
  (requests : list ProbeRequest) : list (ProbeRequest * ProbeExecution) * session W :=
  match requests with
  | [] => ([], s)
  | request :: rest =>
      match cs_terminal_execution (ss_state s), execute cfg request s with
      | None, (Ok x, s') => let '(xs, s'') := run_requests cfg s' rest in
                            ((request, x) :: xs, s'')
      | _, _ => ([], s)
      end
  end.

Lemma run_requests_probed `{Environment W H} (cfg : ControllerConfig H) (s : session W)
  requests :
  probed cfg s (run_requests cfg s requests).1 (run_requests cfg s requests).2.
Proof.
  revert s. induction requests as [|request rest IH]; intros s;
    [constructor; apply quiet_here|].
  cbn [run_requests]. destruct (cs_terminal_execution (ss_state s)) eqn:Ht;
    [constructor; apply quiet_here|].
  destruct (execute cfg request s) as [[x|e] s'] eqn:Hx; [|constructor; apply quiet_here].
  specialize (IH s'). destruct (run_requests cfg s' rest) as [xs s''].
  econstructor; [apply quiet_here|done..].
Qed.

Definition lab_request (answer : string) : ProbeRequest :=
  {| pr_capability_name := answer; pr_capability_version := "v1";
     pr_relevant_effect_ids := ["row"; "mail"]; pr_arguments := [];
     pr_rationale := "read the ledger" |}.

Definition lab_start : result exn (ControllerConfig string) * session unit :=
  new_controller lab_envelope lab_registry 7 0 tt.
Definition lab_config : ControllerConfig string :=
  match lab_start.1 with
  | Ok cfg => cfg
  | Raise _ => {| cc_envelope := lab_envelope; cc_registry := lab_registry;
                  cc_started_monotonic := fzero; cc_session_token := 0 |}
  end.

Definition lab_run (answers : list string)
  : list (ProbeRequest * ProbeExecution) * session unit :=
  run_requests lab_config lab_start.2 (map lab_request answers).

Lemma lab_started : lab_start = (Ok lab_config, lab_start.2).
Proof. vm_compute. reflexivity. Qed.

Lemma lab_probed answers : probed lab_config lab_start.2 (lab_run answers).1 (lab_run answers).2.
Proof. apply run_requests_probed. Qed.

(** The attempts the engine makes of a session, and their evaluation. *)
Definition lab_attempts (answers : list string) : list EvidenceAttempt :=
  match (process_all (new_engine lab_envelope lab_rules) (map run_of (lab_run answers).1)).2 with
  | Ok attempts => attempts
  | Raise _ => []
  end.
Definition lab_audits (answers : list string) : list ControllerAuditRecord :=
  cs_audit (ss_state (lab_run answers).2).
Definition lab_evaluation (answers : list string) : result py_error CoreEvaluation :=
  evaluate_evidence lab_envelope (lab_attempts answers) (lab_audits answers).

Lemma lab_digests answers :
  Forall (λ a, is_ok (probe_request_sha256 (lab_request a)) = true) lab_answers →
  Forall (λ a, a ∈ lab_answers) answers →
  Forall (λ rx, is_Ok (probe_request_sha256 rx.1)) (lab_run answers).1.
Proof.
  intros Hok Hin. unfold lab_run. generalize (lab_start.2). induction Hin as [|a l Ha _ IH];
    intros s; [constructor|].
  cbn [map run_requests]. destruct (cs_terminal_execution (ss_state s)); [constructor|].
  destruct (execute lab_config (lab_request a) s) as [[x|e] s']; [|constructor].
  specialize (IH s'). destruct (run_requests _ s' _) as [xs s'']. constructor; [|done].
  rewrite Forall_forall in Hok. specialize (Hok a Ha). cbn.
  destruct (probe_request_sha256 _); [by eexists|done].
Qed.

(** The laboratory's sessions meet the hypotheses of the classifier's promises. *)
Lemma lab_output answers :
  Forall (λ a, a ∈ lab_answers) answers →
  NoDup (decision_ids (lab_attempts answers)) →
  (length (lab_attempts answers) ≤ 64)%nat →
  pipeline_output lab_envelope (lab_audits answers) (lab_attempts answers).
Proof.
  intros Hin Hids Hlen.
  destruct (new_controller_ok _ _ _ _ _ _ _ lab_registry_wf lab_started)
    as (He & _ & Henv & Hreg & Hfresh).
  rewrite <-He. unfold lab_audits, lab_attempts in *.
  destruct (session_processed lab_config _ _ _ Henv Hreg Hfresh (lab_probed answers)
    lab_rules lab_rules_wf) as (attempts & g & Hp & Hg).
  { apply lab_digests; [|done]. by vm_compute; repeat constructor. }
  rewrite He in Hp. rewrite Hp in *. cbn [snd] in *.
  exact (session_pipeline lab_config _ _ _ Henv Hreg Hfresh (lab_probed answers)
    attempts g Hg Hids Hlen).
Qed.
