(* ===== verification/Planning.v ===== *)
(** The contracts of advisory planning (reconcile/contracts/planning.py): what a
    planner is told and what it may answer, and the sealed turn a planner returns
    (reconcile/adaptive.py).

    [construct_...] is a constructor called with typed values: the bounds of its
    fields and its model validator.  The output of a turn is kept as the model its
    canonical bytes are of. *)

From S2P Require Export Report Capabilities.

#[local] Open Scope Z_scope.

Definition ADAPTIVE_PLANNER_INPUT_VERSION : string := "reconcile/adaptive-planner-input/v1".
Definition ADAPTIVE_PLANNER_OUTPUT_VERSION : string := "reconcile/adaptive-planner-output/v1".

Inductive AdaptivePlannerPhase := ACQUIRE_EVIDENCE | EXPLAIN_EVIDENCE.

#[export] Instance AdaptivePlannerPhase_eq_dec : EqDecision AdaptivePlannerPhase.
Proof. solve_decision. Defined.

Definition AdaptivePlannerPhase_value (p : AdaptivePlannerPhase) : string :=
  match p with
  | ACQUIRE_EVIDENCE => "ACQUIRE_EVIDENCE" | EXPLAIN_EVIDENCE => "EXPLAIN_EVIDENCE"
  end.

(** ** What a planner is told *)

Record PlannerCapability := {
  cap_name : string;
  cap_version : string;
  cap_description : string;
  cap_argument_schema : json_object;
  cap_cost_units : Z;
  cap_remaining_invocations : Z;
}.

Record PlannerAdmittedEvidence := {
  pae_evidence_id : string;
  pae_capability_name : string;
  pae_capability_version : string;
  pae_reason : EvidenceReason;
  pae_effect_assertions : list EffectAssertion;
  pae_operation_status : option OperationStatus;
}.

Record PlannerWeakEvidence := {
  pwe_evidence_id : string;
  pwe_capability_name : string;
  pwe_capability_version : string;
  pwe_reason : EvidenceReason;
  pwe_relevant_effect_ids : list string;
}.

Record PlannerRejectedEvidence := {
  pre_evidence_id : string;
  pre_capability_name : option string;
  pre_capability_version : option string;
  pre_reason : EvidenceReason;
  pre_relevant_effect_ids : list string;
}.

Record PlannerMissingEvidence := { pme_effect_id : string; pme_reason : string }.

Record PlannerRemainingBudget := {
  pb_probes : Z;
  pb_elapsed_ms : Z;
  pb_result_bytes : Z;
  pb_cost_units : Z;
  pb_deadline_at : datetime;
}.

Record PlannerVersionMetadata := {
  pvm_provider_name : string;
  pvm_model_name : string;
  pvm_adk_version : string;
  pvm_genai_version : string;
  pvm_prompt_version : string;
  pvm_capability_catalog_version : string;
  pvm_authority_policy_version : string;
  pvm_classification_policy_version : string;
  pvm_action_policy_version : string;
}.

Record AdaptivePlannerInput := {
  api_phase : AdaptivePlannerPhase;
  api_envelope : ExecutionEnvelope;
  api_capabilities : list PlannerCapability;
  api_admitted_evidence : list PlannerAdmittedEvidence;
  api_weak_evidence : list PlannerWeakEvidence;
  api_rejected_evidence : list PlannerRejectedEvidence;
  api_missing_evidence : list PlannerMissingEvidence;
  api_prior_executable_request_hashes : list string;
  api_remaining_budget : PlannerRemainingBudget;
  api_versions : PlannerVersionMetadata;
}.

(** ** What a planner may answer *)

Record PlannerStopAdvice := { psa_recommend_stop : bool; psa_reason : string }.

Record PlannerMissingEvidenceNote := { pmn_effect_ids : list string; pmn_note : string }.

Record PlannerCitationRefs := {
  pcr_admitted_evidence_ids : list string;
  pcr_weak_evidence_ids : list string;
  pcr_rejected_evidence_ids : list string;
  pcr_missing_effect_ids : list string;
}.

Record PlannerExplanation := {
  pex_summary : string;
  pex_admitted_evidence : option string;
  pex_weak_evidence : option string;
  pex_rejected_evidence : option string;
  pex_missing_evidence : option string;
  pex_citations : PlannerCitationRefs;
}.

(** [apo_acquisition_summary] is the one field of [PlannerAcquisitionAdvice]. *)
Record AdaptivePlannerOutput := {
  apo_probe_proposals : list ProbeRequest;
  apo_acquisition_summary : string;
  apo_stop_advice : PlannerStopAdvice;
  apo_missing_evidence_notes : list PlannerMissingEvidenceNote;
  apo_explanation : PlannerExplanation;
}.

(** ** Validators *)

Section validators.
Context {rt : Runtime} {sec : Security} {sv : SchemaValidator}.

Definition _TARGET_COORDINATE_TOKENS : list string :=
  ["address"; "bucket"; "database"; "document"; "domain"; "endpoint"; "host"; "hostname";
   "method"; "object"; "path"; "port"; "project"; "resource"; "scope"; "target"; "uri"; "url"].

(** [_require_unique] *)
Definition all_unique `{EqDecision A} (values : list A) (label : string) : result py_error unit :=
  reject_if (has_dup values) (ValueError (label +:+ " must be unique")).

(** [_validate_argument_schema] *)
Definition _validate_argument_schema (value : json_object) : result py_error unit :=
  reject_if (negb (bool_decide (dict_get "type" value = Some (JStr "object"))))
    (ValueError "planner capability schemas must describe an object");;
  reject_if (negb (bool_decide (dict_get "additionalProperties" value = Some (JBool false))))
    (ValueError "planner capability schemas must reject extra properties");;
  reject_if (negb (bool_decide (dict_get "$schema" value = Some (JStr META_SCHEMA_ID))))
    (ValueError "planner capability schemas must declare JSON Schema 2020-12");;
  reject_if (negb (check_schema (JObj value)))
    (ValueError "planner capability schema is invalid");;
  reject_schema_indirection true (JObj value);;
  reject_sensitive_keys (JObj value);;
  let coordinates :=
    filter (λ t, t ∈ iter_object_keys (JObj value)) _TARGET_COORDINATE_TOKENS in
  reject_if (negb (bool_decide (coordinates = [])))
    (ValueError ("target coordinates are controller-owned: "
                 +:+ String.concat ", " (sorted_strings coordinates))).

Definition validate_ShortText (value : string) : result py_error unit :=
  reject_if (negb (in_range 1 (py_len value) 512))
    (ValueError "text length is outside its bounds");;
  validate_unicode_text value.

(** [PlannerCapability(...)] *)
Definition construct_capability (self : PlannerCapability) : result py_error unit :=
  validate_Identifier (cap_name self);;
  validate_Identifier (cap_version self);;
  validate_ShortText (cap_description self);;
  validate_json 0 (JObj (cap_argument_schema self));;
  reject_if (negb (in_range 1 (cap_cost_units self) int64_max
                   && in_range 0 (cap_remaining_invocations self) 64))
    (ValueError "planner capability field is outside its bounds");;
  _validate_argument_schema (cap_argument_schema self).

(** The length of a list field and its [Identifier]s. *)
Definition identifiers_within (least : Z) (values : list string) : result py_error unit :=
  reject_if (negb (in_range least (Z.of_nat (length values)) 64))
    (ValueError "identifiers are outside their bounds");;
  for_each validate_Identifier values.

Definition construct_admitted (self : PlannerAdmittedEvidence) : result py_error unit :=
  for_each validate_Identifier
    [pae_evidence_id self; pae_capability_name self; pae_capability_version self];;
  reject_if (64 <? length (pae_effect_assertions self))%nat
    (ValueError "too many effect assertions");;
  reject_if (negb (inb (pae_reason self) ADMITTED_REASONS))
    (ValueError "admitted evidence requires an admitted reason");;
  all_unique (map ea_effect_id (pae_effect_assertions self)) "admitted effect identifiers";;
  reject_if (bool_decide (pae_effect_assertions self = [])
             && is_none (pae_operation_status self))
    (ValueError "admitted evidence must summarize a status or effect").

Definition construct_weak (self : PlannerWeakEvidence) : result py_error unit :=
  for_each validate_Identifier
    [pwe_evidence_id self; pwe_capability_name self; pwe_capability_version self];;
  identifiers_within 1 (pwe_relevant_effect_ids self);;
  reject_if (negb (inb (pwe_reason self) WEAK_REASONS))
    (ValueError "weak evidence requires a weak reason");;
  all_unique (pwe_relevant_effect_ids self) "weak evidence effect identifiers".

Definition construct_rejected (self : PlannerRejectedEvidence) : result py_error unit :=
  validate_Identifier (pre_evidence_id self);;
  for_each validate_Identifier (omap id [pre_capability_name self; pre_capability_version self]);;
  identifiers_within 1 (pre_relevant_effect_ids self);;
  reject_if (negb (Bool.eqb (is_none (pre_capability_name self))
                            (is_none (pre_capability_version self))))
    (ValueError "rejected capability identity must be complete");;
  reject_if (inb (pre_reason self) (ADMITTED_REASONS ++ WEAK_REASONS))
    (ValueError "rejected evidence requires a rejection reason");;
  all_unique (pre_relevant_effect_ids self) "rejected evidence effect identifiers".

Definition construct_missing (self : PlannerMissingEvidence) : result py_error unit :=
  validate_Identifier (pme_effect_id self);; validate_Identifier (pme_reason self).

Definition construct_remaining_budget (self : PlannerRemainingBudget) : result py_error unit :=
  reject_if (negb (in_range 0 (pb_probes self) 64
      && in_range 0 (pb_elapsed_ms self) int64_max
      && in_range 0 (pb_result_bytes self) int64_max
      && in_range 0 (pb_cost_units self) int64_max))
    (ValueError "remaining budget is outside its bounds").

Definition construct_versions (self : PlannerVersionMetadata) : result py_error unit :=
  for_each validate_Identifier
    [pvm_provider_name self; pvm_model_name self; pvm_adk_version self;
     pvm_genai_version self; pvm_prompt_version self; pvm_capability_catalog_version self;
     pvm_authority_policy_version self; pvm_classification_policy_version self;
     pvm_action_policy_version self].

Definition catalog_identities (self : AdaptivePlannerInput) : list (string * string) :=
  map (λ c, (cap_name c, cap_version c)) (api_capabilities self).

Definition summarized_evidence_ids (self : AdaptivePlannerInput) : list string :=
  map pae_evidence_id (api_admitted_evidence self)
  ++ map pwe_evidence_id (api_weak_evidence self)
  ++ map pre_evidence_id (api_rejected_evidence self).

Definition referenced_effect_ids (self : AdaptivePlannerInput) : list string :=
  map pme_effect_id (api_missing_evidence self)
  ++ concat (map (λ e, map ea_effect_id (pae_effect_assertions e)) (api_admitted_evidence self))
  ++ concat (map pwe_relevant_effect_ids (api_weak_evidence self))
  ++ concat (map pre_relevant_effect_ids (api_rejected_evidence self)).

(** [AdaptivePlannerInput.validate_input] *)
Definition validate_input (self : AdaptivePlannerInput) : result py_error unit :=
  let envelope := api_envelope self in
  let catalog := catalog_identities self in
  all_unique catalog "planner capability identities";;
  let enabled := map (λ r, (cr_name r, cr_version r))
    (enabled_capabilities (en_context envelope)) in
  reject_if (negb (subsetb catalog enabled && subsetb enabled catalog))
    (ValueError "planner capabilities must match the enabled catalog");;
  all_unique (summarized_evidence_ids self) "planner evidence identifiers";;
  all_unique (api_prior_executable_request_hashes self) "prior executable request hashes";;
  all_unique (map pme_effect_id (api_missing_evidence self)) "missing effect identifiers";;
  reject_if (negb (subsetb (referenced_effect_ids self) (expected_effect_ids envelope)))
    (ValueError "planner summaries reference an unexpected effect");;
  reject_if (negb (subsetb
      (map (λ e, (pae_capability_name e, pae_capability_version e)) (api_admitted_evidence self)
       ++ map (λ e, (pwe_capability_name e, pwe_capability_version e)) (api_weak_evidence self))
      catalog))
    (ValueError "planner evidence references an unknown capability");;
  reject_if (existsb (λ e, is_some (pre_capability_name e)
      && negb (existsb (λ c, bool_decide (pre_capability_name e = Some c.1
                                          ∧ pre_capability_version e = Some c.2)) catalog))
      (api_rejected_evidence self))
    (ValueError "rejected evidence references an unknown capability");;
  let maximum := evidence_budget (en_context envelope) in
  let remaining := api_remaining_budget self in
  reject_if ((max_probes maximum <? pb_probes remaining)
             || (max_elapsed_ms maximum <? pb_elapsed_ms remaining)
             || (max_total_result_bytes maximum <? pb_result_bytes remaining)
             || (max_cost_units maximum <? pb_cost_units remaining))
    (ValueError "remaining planner budget exceeds the execution envelope");;
  reject_if (pb_deadline_at remaining <? en_invoked_at envelope)
    (ValueError "planner deadline cannot precede invocation");;
  let policies := policies (en_context envelope) in
  let versions := api_versions self in
  reject_if (negb (bool_decide (pvm_authority_policy_version versions = pr_authority policies)
      && bool_decide (pvm_classification_policy_version versions = pr_classification policies)
      && bool_decide (pvm_action_policy_version versions = pr_action policies)))
    (ValueError "planner policy versions must match the envelope").

(** [AdaptivePlannerInput(...)] of parts that are constructed already. *)
Definition construct_input (self : AdaptivePlannerInput) : result py_error unit :=
  reject_if (negb (in_range 1 (Z.of_nat (length (api_capabilities self))) 64)
             || (64 <? length (api_admitted_evidence self))%nat
             || (64 <? length (api_weak_evidence self))%nat
             || (64 <? length (api_rejected_evidence self))%nat
             || (64 <? length (api_missing_evidence self))%nat
             || (64 <? length (api_prior_executable_request_hashes self))%nat)
    (ValueError "planner input collection is outside its bounds");;
  for_each validate_Sha256Digest (api_prior_executable_request_hashes self);;
  validate_input self.

(** [PlannerCitationRefs.validate_references] *)
Definition validate_citations (self : PlannerCitationRefs) : result py_error unit :=
  for_each (λ values, identifiers_within 0 values)
    [pcr_admitted_evidence_ids self; pcr_weak_evidence_ids self;
     pcr_rejected_evidence_ids self; pcr_missing_effect_ids self];;
  all_unique (pcr_admitted_evidence_ids self) "admitted citation identifiers";;
  all_unique (pcr_weak_evidence_ids self) "weak citation identifiers";;
  all_unique (pcr_rejected_evidence_ids self) "rejected citation identifiers";;
  all_unique (pcr_missing_effect_ids self) "missing citation identifiers";;
  let evidence_ids := pcr_admitted_evidence_ids self ++ pcr_weak_evidence_ids self
    ++ pcr_rejected_evidence_ids self in
  all_unique evidence_ids "cross-category evidence citation identifiers";;
  reject_if (bool_decide (evidence_ids = [])
             && bool_decide (pcr_missing_effect_ids self = []))
    (ValueError "planner explanations require at least one citation").

(** The categories of an explanation: what it cites and what it says. *)
Definition explanation_sections (self : PlannerExplanation)
  : list (list string * option string) :=
  let citations := pex_citations self in
  [(pcr_admitted_evidence_ids citations, pex_admitted_evidence self);
   (pcr_weak_evidence_ids citations, pex_weak_evidence self);
   (pcr_rejected_evidence_ids citations, pex_rejected_evidence self);
   (pcr_missing_effect_ids citations, pex_missing_evidence self)].

(** [PlannerExplanation.validate_sections] *)
Definition validate_sections (self : PlannerExplanation) : result py_error unit :=
  reject_if (existsb (λ s, negb (bool_decide (s.1 = [])) && is_none s.2)
               (explanation_sections self))
    (ValueError "each cited category requires its explanation section");;
  reject_if (existsb (λ s, bool_decide (s.1 = []) && is_some s.2)
               (explanation_sections self))
    (ValueError "each explanation section requires citations in its category").

(** [AdaptivePlannerOutput] of fields that pydantic read. *)
Definition validate_output (self : AdaptivePlannerOutput) : result py_error unit :=
  reject_if (8 <? length (apo_probe_proposals self))%nat (ValueError "too many proposals");;
  for_each validate_request (apo_probe_proposals self);;
  validate_ShortText (apo_acquisition_summary self);;
  validate_ShortText (psa_reason (apo_stop_advice self));;
  reject_if (64 <? length (apo_missing_evidence_notes self))%nat (ValueError "too many notes");;
  for_each (λ note, identifiers_within 1 (pmn_effect_ids note);;
    validate_ShortText (pmn_note note);;
    all_unique (pmn_effect_ids note) "missing-note effect identifiers")
    (apo_missing_evidence_notes self);;
  validate_ShortText (pex_summary (apo_explanation self));;
  for_each validate_ShortText (omap snd (explanation_sections (apo_explanation self)));;
  validate_citations (pex_citations (apo_explanation self));;
  validate_sections (apo_explanation self).

End validators.

(** ** Wire forms *)

#[export] Instance PlannerCapability_json : ToJson PlannerCapability := λ m, JObj
  [("name", JStr (cap_name m)); ("version", JStr (cap_version m));
   ("description", JStr (cap_description m)); ("read_only", JBool true);
   ("argument_schema", JObj (cap_argument_schema m));
   ("cost_units", JInt (cap_cost_units m));
   ("remaining_invocations", JInt (cap_remaining_invocations m))].

Definition reason_json (r : EvidenceReason) : json := JStr (EvidenceReason_value r).

#[export] Instance PlannerAdmittedEvidence_json : ToJson PlannerAdmittedEvidence := λ m, JObj
  [("evidence_id", JStr (pae_evidence_id m));
   ("capability_name", JStr (pae_capability_name m));
   ("capability_version", JStr (pae_capability_version m));
   ("reason", reason_json (pae_reason m));
   ("effect_assertions", to_json (pae_effect_assertions m));
   ("operation_status", match pae_operation_status m with
      | Some status => JStr (OperationStatus_value status) | None => JNull end)].

#[export] Instance PlannerWeakEvidence_json : ToJson PlannerWeakEvidence := λ m, JObj
  [("evidence_id", JStr (pwe_evidence_id m));
   ("capability_name", JStr (pwe_capability_name m));
   ("capability_version", JStr (pwe_capability_version m));
   ("reason", reason_json (pwe_reason m));
   ("relevant_effect_ids", to_json (pwe_relevant_effect_ids m))].

#[export] Instance PlannerRejectedEvidence_json : ToJson PlannerRejectedEvidence := λ m, JObj
  [("evidence_id", JStr (pre_evidence_id m));
   ("capability_name", to_json (pre_capability_name m));
   ("capability_version", to_json (pre_capability_version m));
   ("reason", reason_json (pre_reason m));
   ("relevant_effect_ids", to_json (pre_relevant_effect_ids m))].

#[export] Instance PlannerMissingEvidence_json : ToJson PlannerMissingEvidence := λ m, JObj
  [("effect_id", JStr (pme_effect_id m)); ("reason", JStr (pme_reason m))].

#[export] Instance PlannerRemainingBudget_json : ToJson PlannerRemainingBudget := λ m, JObj
  [("probes", JInt (pb_probes m)); ("elapsed_ms", JInt (pb_elapsed_ms m));
   ("result_bytes", JInt (pb_result_bytes m)); ("cost_units", JInt (pb_cost_units m));
   ("deadline_at", time_json (pb_deadline_at m))].

#[export] Instance PlannerVersionMetadata_json : ToJson PlannerVersionMetadata := λ m, JObj
  [("provider_name", JStr (pvm_provider_name m)); ("model_name", JStr (pvm_model_name m));
   ("adk_version", JStr (pvm_adk_version m)); ("genai_version", JStr (pvm_genai_version m));
   ("prompt_version", JStr (pvm_prompt_version m));
   ("capability_catalog_version", JStr (pvm_capability_catalog_version m));
   ("authority_policy_version", JStr (pvm_authority_policy_version m));
   ("classification_policy_version", JStr (pvm_classification_policy_version m));
   ("action_policy_version", JStr (pvm_action_policy_version m));
   ("input_schema_version", JStr ADAPTIVE_PLANNER_INPUT_VERSION);
   ("output_schema_version", JStr ADAPTIVE_PLANNER_OUTPUT_VERSION)].

#[export] Instance AdaptivePlannerInput_json : ToJson AdaptivePlannerInput := λ m, JObj
  [("schema_version", JStr ADAPTIVE_PLANNER_INPUT_VERSION);
   ("phase", JStr (AdaptivePlannerPhase_value (api_phase m)));
   ("envelope", to_json (api_envelope m)); ("capabilities", to_json (api_capabilities m));
   ("admitted_evidence", to_json (api_admitted_evidence m));
   ("weak_evidence", to_json (api_weak_evidence m));
   ("rejected_evidence", to_json (api_rejected_evidence m));
   ("missing_evidence", to_json (api_missing_evidence m));
   ("prior_executable_request_hashes", to_json (api_prior_executable_request_hashes m));
   ("remaining_budget", to_json (api_remaining_budget m));
   ("versions", to_json (api_versions m))].

#[export] Instance PlannerCitationRefs_json : ToJson PlannerCitationRefs := λ m, JObj
  [("admitted_evidence_ids", to_json (pcr_admitted_evidence_ids m));
   ("weak_evidence_ids", to_json (pcr_weak_evidence_ids m));
   ("rejected_evidence_ids", to_json (pcr_rejected_evidence_ids m));
   ("missing_effect_ids", to_json (pcr_missing_effect_ids m))].

#[export] Instance PlannerExplanation_json : ToJson PlannerExplanation := λ m, JObj
  [("summary", JStr (pex_summary m));
   ("admitted_evidence", to_json (pex_admitted_evidence m));
   ("weak_evidence", to_json (pex_weak_evidence m));
   ("rejected_evidence", to_json (pex_rejected_evidence m));
   ("missing_evidence", to_json (pex_missing_evidence m));
   ("citations", to_json (pex_citations m))].

#[export] Instance PlannerMissingEvidenceNote_json : ToJson PlannerMissingEvidenceNote :=
  λ m, JObj [("effect_ids", to_json (pmn_effect_ids m)); ("note", JStr (pmn_note m))].

#[export] Instance AdaptivePlannerOutput_json : ToJson AdaptivePlannerOutput := λ m, JObj
  [("schema_version", JStr ADAPTIVE_PLANNER_OUTPUT_VERSION);
   ("probe_proposals", to_json (apo_probe_proposals m));
   ("acquisition_advice", JObj [("summary", JStr (apo_acquisition_summary m))]);
   ("stop_advice", JObj [("recommend_stop", JBool (psa_recommend_stop (apo_stop_advice m)));
                         ("reason", JStr (psa_reason (apo_stop_advice m)))]);
   ("missing_evidence_notes", to_json (apo_missing_evidence_notes m));
   ("explanation", to_json (apo_explanation m))].

(** ** Turns *)

(** The sanitised failures of a model provider (reconcile/adaptive.py). *)
Inductive PlannerFailureKind := Planner_UNAVAILABLE | Planner_TIMEOUT | Planner_SCHEMA_INVALID.

#[export] Instance PlannerFailureKind_eq_dec : EqDecision PlannerFailureKind.
Proof. solve_decision. Defined.

Definition PlannerFailureKind_value (f : PlannerFailureKind) : string :=
  match f with
  | Planner_UNAVAILABLE => "unavailable" | Planner_TIMEOUT => "timeout"
  | Planner_SCHEMA_INVALID => "schema_invalid"
  end.

Record AdvisoryPlannerMetadata := {
  md_provider_name : string;
  md_configured_model : string;
  md_reported_model : option string;
  md_adk_version : string;
  md_genai_version : string;
  md_prompt_version : string;
  md_prompt_sha256 : string;
  md_input_schema_version : string;
  md_output_schema_version : string;
  md_reported_model_raw_sha256 : option string;
}.

Record AdvisoryPlannerUsage := {
  au_prompt_tokens : Z;
  au_output_tokens : Z;
  au_total_tokens : Z;
}.

#[export] Instance AdvisoryPlannerUsage_eq_dec : EqDecision AdvisoryPlannerUsage.
Proof. solve_decision. Defined.

(** [AdvisoryPlannerTurn]: its output as canonical bytes. *)
Record AdvisoryPlannerTurn := {
  tn_output : option string;
  tn_failure : option PlannerFailureKind;
  tn_metadata : AdvisoryPlannerMetadata;
  tn_input_sha256 : string;
  tn_output_sha256 : option string;
  tn_usage : option AdvisoryPlannerUsage;
}.

Section turns.
Context {rt : Runtime} {sec : Security}.

(** [_validate_identifier] and [_validate_sha256] of the drivers. *)
Definition _validate_identifier (value label : string) : result py_error unit :=
  reject_if (negb (in_range 1 (py_len value) 128) || negb (identifier_pattern value)
             || contains_sensitive_material value)
    (ValueError (label +:+ " must be a bounded identifier")).
Definition _validate_sha256 (value label : string) : result py_error unit :=
  reject_if (negb (is_ok (validate_Sha256Digest value)))
    (ValueError (label +:+ " must be a SHA-256 digest")).

(** [AdvisoryPlannerMetadata(...)]: the raw digest is filled in. *)
Definition make_metadata (self : AdvisoryPlannerMetadata)
  : result py_error AdvisoryPlannerMetadata :=
  _validate_identifier (md_provider_name self) "planner provider";;
  _validate_identifier (md_configured_model self) "configured planner model";;
  _validate_identifier (md_adk_version self) "ADK version";;
  _validate_identifier (md_genai_version self) "GenAI version";;
  _validate_identifier (md_prompt_version self) "planner prompt version";;
  raw_sha256 ← match md_reported_model self with
    | None => Ok (md_reported_model_raw_sha256 self)
    | Some reported =>
        _validate_identifier reported "reported planner model";;
        Ok (Some (default (sha256_hex reported) (md_reported_model_raw_sha256 self)))
    end;
  match raw_sha256 with
  | Some raw => _validate_sha256 raw "raw reported planner model digest"
  | None => Ok tt
  end;;
  reject_if (is_none (md_reported_model self) && is_some raw_sha256)
    (ValueError "reported planner model and its raw digest must appear together");;
  _validate_sha256 (md_prompt_sha256 self) "planner prompt digest";;
  reject_if (negb (bool_decide (md_input_schema_version self = ADAPTIVE_PLANNER_INPUT_VERSION)))
    (ValueError "planner input schema version is unsupported");;
  reject_if (negb (bool_decide (md_output_schema_version self = ADAPTIVE_PLANNER_OUTPUT_VERSION)))
    (ValueError "planner output schema version is unsupported");;
  Ok {| md_provider_name := md_provider_name self;
        md_configured_model := md_configured_model self;
        md_reported_model := md_reported_model self; md_adk_version := md_adk_version self;
        md_genai_version := md_genai_version self;
        md_prompt_version := md_prompt_version self;
        md_prompt_sha256 := md_prompt_sha256 self;
        md_input_schema_version := md_input_schema_version self;
        md_output_schema_version := md_output_schema_version self;
        md_reported_model_raw_sha256 := raw_sha256 |}.

(** [AdvisoryPlannerUsage(...)] *)
Definition make_usage (self : AdvisoryPlannerUsage) : result py_error AdvisoryPlannerUsage :=
  reject_if (existsb (λ value, negb (in_range 0 value int64_max))
      [au_prompt_tokens self; au_output_tokens self; au_total_tokens self])
    (ValueError "planner token counts must be nonnegative integers");;
  reject_if (negb (au_total_tokens self =? au_prompt_tokens self + au_output_tokens self))
    (ValueError "planner total tokens must equal prompt plus output tokens");;
  Ok self.

(** A turn, with the model its output bytes are of. *)
Record planner_turn := {
  pt_turn : AdvisoryPlannerTurn;
  pt_output : option AdaptivePlannerOutput;
}.

(** [AdvisoryPlannerTurn(...)] *)
Definition make_turn (output : option AdaptivePlannerOutput)
  (failure : option PlannerFailureKind) (metadata : AdvisoryPlannerMetadata)
  (input_sha256 : string) (output_sha256 : option string)
  (usage : option AdvisoryPlannerUsage) : result py_error planner_turn :=
  _validate_sha256 input_sha256 "planner input digest";;
  match output_sha256 with
  | Some digest => _validate_sha256 digest "planner output digest"
  | None => Ok tt
  end;;
  reject_if (negb (Bool.eqb (is_some output) (is_none failure)))
    (ValueError "planner turn must contain exactly one output or failure");;
  reject_if (is_some output && is_none usage)
    (ValueError "successful planner turns require measured usage");;
  let output_bytes := canonical_json_bytes <$> output in
  reject_if match output_bytes with
            | Some bytes => negb (bool_decide (output_sha256 = Some (sha256_hex bytes)))
            | None => false
            end
    (ValueError "planner output digest does not match output");;
  Ok {| pt_turn := {| tn_output := output_bytes; tn_failure := failure;
          tn_metadata := metadata; tn_input_sha256 := input_sha256;
          tn_output_sha256 := output_sha256; tn_usage := usage |};
        pt_output := output |}.

End turns.
