(* ===== verification/Progress.v ===== *)
(** Progress of an investigation (reconcile/progress.py) and what its drivers
    share: the events with their validators, the caller's side of a driver, the
    cancellable probe and the digest of what is known so far.

    [Driver] is the driver's caller: the emitter, which may raise, the wall clock of
    the events, and the cancellation event with [ProbeController.cancel].  The
    buffered [ProgressDispatcher] is not modelled.

    The lemmas after the definitions say that a cancellable probe is a probe, that
    an event of a driver passes its validator, and what one more processed probe
    makes known. *)

From S2P Require Export Planning Investigation.

#[local] Open Scope Z_scope.

Inductive ComparisonStrategyKind := Comparison_FIXED | Comparison_ADAPTIVE.
Inductive StrategyProgressStage := Strategy_STARTED | Strategy_COMPLETED.
Inductive ProbeProgressStage := ProbeStage_REQUESTED | ProbeStage_COMPLETED.

#[export] Instance StrategyProgressStage_eq_dec : EqDecision StrategyProgressStage.
Proof. solve_decision. Defined.
#[export] Instance ProbeProgressStage_eq_dec : EqDecision ProbeProgressStage.
Proof. solve_decision. Defined.

Inductive AdvisoryProgressStage := Advisory_REQUESTED | Advisory_COMPLETED.

#[export] Instance AdvisoryProgressStage_eq_dec : EqDecision AdvisoryProgressStage.
Proof. solve_decision. Defined.

(** [ProposalDisposition] of adaptive.py; [ProgressProposalDisposition] has the same
    members, and [ProgressPlannerFailure] those of [PlannerFailureKind]. *)
Inductive ProposalDisposition :=
  | Proposal_SELECTED | Proposal_DEFERRED | Proposal_DUPLICATE
  | Proposal_UNSUPPORTED_CAPABILITY | Proposal_INVALID_EFFECT_REFERENCE
  | Proposal_INVALID_ARGUMENTS | Proposal_UNAVAILABLE | Proposal_BUDGET_EXCEEDED
  | Proposal_IGNORED_EXPLANATION_PHASE.

#[export] Instance ProposalDisposition_eq_dec : EqDecision ProposalDisposition.
Proof. solve_decision. Defined.

Definition ProposalDisposition_value (d : ProposalDisposition) : string :=
  match d with
  | Proposal_SELECTED => "selected" | Proposal_DEFERRED => "deferred"
  | Proposal_DUPLICATE => "duplicate"
  | Proposal_UNSUPPORTED_CAPABILITY => "unsupported_capability"
  | Proposal_INVALID_EFFECT_REFERENCE => "invalid_effect_reference"
  | Proposal_INVALID_ARGUMENTS => "invalid_arguments"
  | Proposal_UNAVAILABLE => "unavailable" | Proposal_BUDGET_EXCEEDED => "budget_exceeded"
  | Proposal_IGNORED_EXPLANATION_PHASE => "ignored_explanation_phase"
  end.

Record StrategyProgress := {
  sg_occurred_at : datetime;
  sg_investigation_id : string;
  sg_strategy : ComparisonStrategyKind;
  sg_stage : StrategyProgressStage;
  sg_stop_reason : option string;
  sg_classification : option Classification;
  sg_continue_allowed : option bool;
  sg_escalation_required : option bool;
  sg_missing_effect_ids : list string;
}.

Record AdvisoryProposalProgress := {
  ap_proposal_sequence : Z;
  ap_capability_name : string;
  ap_capability_version : string;
  ap_request_sha256 : string;
  ap_relevant_effect_ids : list string;
  ap_disposition : ProposalDisposition;
}.

Record AdvisoryProgress := {
  vg_occurred_at : datetime;
  vg_investigation_id : string;
  vg_stage : AdvisoryProgressStage;
  vg_phase : AdaptivePlannerPhase;
  vg_turn_sequence : Z;
  vg_input_sha256 : string;
  vg_output_sha256 : option string;
  vg_failure : option PlannerFailureKind;
  vg_cancelled : bool;
  vg_proposals : list AdvisoryProposalProgress;
  vg_selected_request_sha256 : option string;
  vg_planner_recommended_stop : option bool;
}.

Record ProbeProgress := {
  pg_occurred_at : datetime;
  pg_investigation_id : string;
  pg_strategy : ComparisonStrategyKind;
  pg_stage : ProbeProgressStage;
  pg_attempt_sequence : Z;
  pg_capability_name : option string;
  pg_capability_version : option string;
  pg_request_sha256 : option string;
  pg_relevant_effect_ids : list string;
  pg_controller_sequence : option Z;
  pg_controller_sequence_reused : option bool;
  pg_outcome : option ProbeOutcome;
  pg_controller_stop_reason : option ProbeStopReason;
  pg_session_elapsed_ms : option Z;
  pg_probe_count_used : option Z;
  pg_cost_units_used : option Z;
  pg_result_bytes_acquired : option Z;
  pg_result_sha256 : option string;
  pg_result_byte_count : option Z;
  pg_evidence_ids : list string;
}.

Record EvidenceProgress := {
  eg_occurred_at : datetime;
  eg_investigation_id : string;
  eg_strategy : ComparisonStrategyKind;
  eg_attempt_sequence : Z;
  eg_controller_sequence : Z;
  eg_evidence_id : string;
  eg_disposition : EvidenceDisposition;
  eg_reason : EvidenceReason;
  eg_classification : Classification;
  eg_continue_allowed : bool;
  eg_escalation_required : bool;
  eg_missing_effect_ids : list string;
}.

Inductive InvestigationProgress :=
  | Progress_strategy (event : StrategyProgress)
  | Progress_advisory (event : AdvisoryProgress)
  | Progress_probe (event : ProbeProgress)
  | Progress_evidence (event : EvidenceProgress).

(** ** Validators *)

Definition counter_valid (o : option Z) : bool :=
  match o with Some n => in_range 0 n int64_max | None => true end.

(** [StrategyProgress(...)] *)
Definition construct_strategy_progress (self : StrategyProgress) : result py_error unit :=
  let completed := bool_decide (sg_stage self = Strategy_COMPLETED) in
  reject_if (64 <? length (sg_missing_effect_ids self))%nat
    (ValueError "too many missing effects");;
  reject_if (negb (Bool.eqb completed
      (is_some (sg_stop_reason self) && is_some (sg_classification self)
       && is_some (sg_continue_allowed self) && is_some (sg_escalation_required self))))
    (ValueError "completed strategy progress requires terminal state");;
  reject_if (negb completed && negb (bool_decide (sg_missing_effect_ids self = [])))
    (ValueError "started strategy progress cannot contain missing effects");;
  reject_if (has_dup (sg_missing_effect_ids self))
    (ValueError "missing effect identities must be unique").

(** [AdvisoryProposalProgress(...)] *)
Definition construct_proposal_progress (self : AdvisoryProposalProgress) : result py_error unit :=
  reject_if (negb (in_range 1 (ap_proposal_sequence self) 8
      && in_range 1 (Z.of_nat (length (ap_relevant_effect_ids self))) 64))
    (ValueError "a field is invalid");;
  reject_if (has_dup (ap_relevant_effect_ids self))
    (ValueError "relevant effect identities must be unique").

(** [AdvisoryProgress(...)] *)
Definition construct_advisory_progress (self : AdvisoryProgress) : result py_error unit :=
  let advised := negb (bool_decide (vg_proposals self = []%list
                                    ∧ vg_selected_request_sha256 self = None
                                    ∧ vg_planner_recommended_stop self = None)) in
  reject_if (negb (in_range 1 (vg_turn_sequence self) 65)
             || (8 <? length (vg_proposals self))%nat)
    (ValueError "a field is invalid");;
  if bool_decide (vg_stage self = Advisory_REQUESTED) then
    reject_if (is_some (vg_output_sha256 self) || is_some (vg_failure self)
               || vg_cancelled self || advised)
      (ValueError "requested advisory progress cannot contain a result")
  else if vg_cancelled self then
    reject_if (is_some (vg_output_sha256 self) || is_some (vg_failure self) || advised)
      (ValueError "cancelled advisory progress cannot contain output")
  else if is_some (vg_failure self) then
    reject_if advised (ValueError "failed advisory progress cannot contain advice")
  else
    reject_if (is_none (vg_output_sha256 self) || is_none (vg_planner_recommended_stop self))
      (ValueError "successful advisory progress requires validated output");;
    let selected :=
      filter (λ p, ap_disposition p = Proposal_SELECTED) (vg_proposals self) in
    reject_if (negb (bool_decide (map ap_proposal_sequence (vg_proposals self)
                                  = one_to (length (vg_proposals self)))))
      (ValueError "advisory proposal progress must be ordered");;
    reject_if (negb (Bool.eqb (is_some (vg_selected_request_sha256 self))
                              (length selected =? 1)%nat))
      (ValueError "selected advisory progress is inconsistent");;
    match selected with
    | [proposal] =>
        reject_if (negb (bool_decide (vg_selected_request_sha256 self
                                      = Some (ap_request_sha256 proposal))))
          (ValueError "selected advisory progress digest is inconsistent")
    | _ => Ok tt
    end.

(** [ProbeProgress(...)] *)
Definition construct_probe_progress (self : ProbeProgress) : result py_error unit :=
  let completed := bool_decide (pg_stage self = ProbeStage_COMPLETED) in
  reject_if (negb (in_range 1 (pg_attempt_sequence self) 64
      && in_range 1 (Z.of_nat (length (pg_relevant_effect_ids self))) 64
      && match pg_controller_sequence self with
         | Some n => in_range 1 n int64_max | None => true end
      && counter_valid (pg_session_elapsed_ms self) && counter_valid (pg_probe_count_used self)
      && counter_valid (pg_cost_units_used self) && counter_valid (pg_result_bytes_acquired self)
      && counter_valid (pg_result_byte_count self)
      && (length (pg_evidence_ids self) <=? 1)%nat))
    (ValueError "a field is invalid");;
  reject_if (negb (Bool.eqb (is_none (pg_capability_name self))
                            (is_none (pg_capability_version self))))
    (ValueError "probe capability identity must be complete");;
  reject_if (has_dup (pg_relevant_effect_ids self))
    (ValueError "relevant effect identities must be unique");;
  reject_if (negb (Bool.eqb completed
      (is_some (pg_controller_sequence self) && is_some (pg_controller_sequence_reused self)
       && is_some (pg_outcome self) && is_some (pg_controller_stop_reason self)
       && is_some (pg_session_elapsed_ms self) && is_some (pg_probe_count_used self)
       && is_some (pg_cost_units_used self) && is_some (pg_result_bytes_acquired self))))
    (ValueError "completed probe progress requires a controller result");;
  reject_if (negb completed
      && (is_none (pg_capability_name self) || is_none (pg_request_sha256 self)
          || bool_decide (pg_relevant_effect_ids self = [])))
    (ValueError "requested probe progress requires sanitized request data");;
  reject_if (negb (Bool.eqb completed (length (pg_evidence_ids self) =? 1)%nat))
    (ValueError "completed probe progress requires one evidence identity");;
  reject_if (negb completed
      && (is_some (pg_result_sha256 self) || is_some (pg_result_byte_count self)))
    (ValueError "requested probe progress cannot contain result identity");;
  if completed && bool_decide (pg_outcome self = Some Probe_COMPLETED) then
    reject_if (is_none (pg_capability_name self) || is_none (pg_request_sha256 self)
               || is_none (pg_result_sha256 self) || is_none (pg_result_byte_count self))
      (ValueError "completed outcomes require bounded result identity")
  else
    reject_if (completed
               && (is_some (pg_result_sha256 self) || is_some (pg_result_byte_count self)))
      (ValueError "noncompleted outcomes cannot contain result identity").

(** [EvidenceProgress(...)] *)
Definition construct_evidence_progress (self : EvidenceProgress) : result py_error unit :=
  reject_if (negb (in_range 1 (eg_attempt_sequence self) 64
      && in_range 1 (eg_controller_sequence self) int64_max)
      || (64 <? length (eg_missing_effect_ids self))%nat)
    (ValueError "a field is invalid");;
  reject_if (has_dup (eg_missing_effect_ids self))
    (ValueError "missing effect identities must be unique").

Definition construct_progress (event : InvestigationProgress) : result py_error unit :=
  match event with
  | Progress_strategy event => construct_strategy_progress event
  | Progress_advisory event =>
      for_each construct_proposal_progress (vg_proposals event);;
      construct_advisory_progress event
  | Progress_probe event => construct_probe_progress event
  | Progress_evidence event => construct_evidence_progress event
  end.

(** ** Events *)

Definition strategy_started (envelope : ExecutionEnvelope) (strategy : ComparisonStrategyKind)
  (occurred_at : datetime) : InvestigationProgress :=
  Progress_strategy
    {| sg_occurred_at := occurred_at; sg_investigation_id := en_investigation_id envelope;
       sg_strategy := strategy; sg_stage := Strategy_STARTED; sg_stop_reason := None;
       sg_classification := None; sg_continue_allowed := None;
       sg_escalation_required := None; sg_missing_effect_ids := [] |}.

Definition strategy_completed (envelope : ExecutionEnvelope)
  (strategy : ComparisonStrategyKind) (stop_reason : string)
  (state : Classification * bool * bool * list string) (occurred_at : datetime)
  : InvestigationProgress :=
  let '(classification, continue_allowed, escalation_required, missing) := state in
  Progress_strategy
    {| sg_occurred_at := occurred_at; sg_investigation_id := en_investigation_id envelope;
       sg_strategy := strategy; sg_stage := Strategy_COMPLETED;
       sg_stop_reason := Some stop_reason; sg_classification := Some classification;
       sg_continue_allowed := Some continue_allowed;
       sg_escalation_required := Some escalation_required;
       sg_missing_effect_ids := missing |}.

Definition probe_requested (envelope : ExecutionEnvelope) (strategy : ComparisonStrategyKind)
  (attempt_sequence : Z) (request : ProbeRequest) (identity : string)
  (occurred_at : datetime) : InvestigationProgress :=
  Progress_probe
    {| pg_occurred_at := occurred_at; pg_investigation_id := en_investigation_id envelope;
       pg_strategy := strategy; pg_stage := ProbeStage_REQUESTED;
       pg_attempt_sequence := attempt_sequence;
       pg_capability_name := Some (pr_capability_name request);
       pg_capability_version := Some (pr_capability_version request);
       pg_request_sha256 := Some identity;
       pg_relevant_effect_ids := pr_relevant_effect_ids request;
       pg_controller_sequence := None; pg_controller_sequence_reused := None;
       pg_outcome := None; pg_controller_stop_reason := None; pg_session_elapsed_ms := None;
       pg_probe_count_used := None; pg_cost_units_used := None;
       pg_result_bytes_acquired := None; pg_result_sha256 := None;
       pg_result_byte_count := None; pg_evidence_ids := [] |}.

Definition probe_completed (envelope : ExecutionEnvelope) (strategy : ComparisonStrategyKind)
  (attempt_sequence : Z) (request : ProbeRequest) (audit : ControllerAuditRecord)
  (sequence_reused : bool) (evidence_id : string) (occurred_at : datetime)
  : InvestigationProgress :=
  Progress_probe
    {| pg_occurred_at := occurred_at; pg_investigation_id := en_investigation_id envelope;
       pg_strategy := strategy; pg_stage := ProbeStage_COMPLETED;
       pg_attempt_sequence := attempt_sequence;
       pg_capability_name := ar_capability_name audit;
       pg_capability_version := ar_capability_version audit;
       pg_request_sha256 := ar_request_sha256 audit;
       pg_relevant_effect_ids := pr_relevant_effect_ids request;
       pg_controller_sequence := Some (ar_sequence audit);
       pg_controller_sequence_reused := Some sequence_reused;
       pg_outcome := Some (ar_outcome audit);
       pg_controller_stop_reason := Some (ar_stop_reason audit);
       pg_session_elapsed_ms := Some (ar_session_elapsed_ms audit);
       pg_probe_count_used := Some (ar_probe_count_used audit);
       pg_cost_units_used := Some (ar_cost_units_used audit);
       pg_result_bytes_acquired := Some (ar_result_bytes_acquired audit);
       pg_result_sha256 := ar_result_sha256 audit;
       pg_result_byte_count :=
         if bool_decide (ar_outcome audit = Probe_COMPLETED) then ar_result_byte_count audit
         else None;
       pg_evidence_ids := [evidence_id] |}.

Definition evidence_known (envelope : ExecutionEnvelope) (strategy : ComparisonStrategyKind)
  (attempt_sequence : Z) (audit : ControllerAuditRecord) (decision : EvidenceDecision)
  (state : Classification * bool * bool * list string) (occurred_at : datetime)
  : InvestigationProgress :=
  let '(classification, continue_allowed, escalation_required, missing) := state in
  Progress_evidence
    {| eg_occurred_at := occurred_at; eg_investigation_id := en_investigation_id envelope;
       eg_strategy := strategy; eg_attempt_sequence := attempt_sequence;
       eg_controller_sequence := ar_sequence audit;
       eg_evidence_id := ed_evidence_id decision;
       eg_disposition := ed_disposition decision; eg_reason := ed_reason decision;
       eg_classification := classification; eg_continue_allowed := continue_allowed;
       eg_escalation_required := escalation_required; eg_missing_effect_ids := missing |}.

(** ** The caller of a driver *)

Class Driver (W : Type) := {
  progress_emitter : option (InvestigationProgress → W → result exn unit * W);
  progress_occurred_at : W → datetime * W;
  cancellation_event : option (W → bool * W);
  cancel_controller : W → W;
}.

Section driver.
Context {rt : Runtime} {sec : Security} {sv : SchemaValidator} {od : ObservationDecoder}.
Context {W H : Type} {env : Environment W H} {dr : Driver W}.

(** [if progress_emitter is not None: progress_emitter(...)] of an event with its
    [_progress_occurred_at()]. *)
Definition emit (event : datetime → InvestigationProgress) : ctl W unit :=
  match progress_emitter with
  | None => mret tt
  | Some emitter =>
      occurred_at ← ask progress_occurred_at;
      lift (construct_progress (event occurred_at));;
      ask_result (emitter (event occurred_at))
  end.

(** [controller.cancel()] *)
Definition cancel : ctl W unit := ask (λ w, (tt, cancel_controller w)).

(** [cancellation_event is not None and cancellation_event.is_set()] *)
Definition cancellation_requested : ctl W bool :=
  match cancellation_event with None => mret false | Some is_set => ask is_set end.

(** [_execute_with_cancellation].  A cancellation while the probe runs is seen by the
    environment of [execute], in its race and its [cancelled]; one the probe did not
    see is passed on to the controller when it has ended. *)
Definition _execute_with_cancellation (cfg : ControllerConfig H) (request : ProbeRequest)
  : ctl W ProbeExecution :=
  set ← cancellation_requested;
  if set : bool then cancel;; execute cfg request
  else
    execution ← execute cfg request;
    set ← cancellation_requested;
    (if set : bool then cancel else mret tt);;
    mret execution.

(** [engine.process(...)], then [engine.evaluate(controller.audit_trail)] with the last
    attempt's decision. *)
Definition processed_probe (engine : EvidenceEngine) (request : ProbeRequest)
  (execution : ProbeExecution) : ctl W (EvidenceEngine * CoreEvaluation * EvidenceDecision) :=
  let '(engine, outcome) :=
    process engine {| run_request := request; run_execution := execution |} in
  _ ← lift outcome;
  audit_trail ← gets cs_audit;
  evaluation ← lift (evaluate engine audit_trail);
  match last (ce_attempts evaluation) with
  | None => throw (Exn_error (RuntimeError "IndexError: tuple index out of range"))
  | Some attempt => mret (engine, evaluation, at_decision attempt)
  end.

End driver.

(** ** What is known so far *)

Section state.
Context {rt : Runtime} {sec : Security}.

Definition progress_material (evaluation : CoreEvaluation) : json :=
  let proof := ce_proof evaluation in
  JObj [("classification", JStr (Classification_value (ce_classification evaluation)));
        ("conflicting_authority", JBool (dp_conflicting_authority proof));
        ("effects", JArr (map (λ finding,
           JObj [("commit_scope", JStr (ef_commit_scope finding));
                 ("effect_id", JStr (ef_effect_id finding));
                 ("state", JStr (EffectAssertionState_value (ef_state finding)))])
           (dp_effect_findings proof)));
        ("operation_status", match dp_operation_status proof with
           | Some status => JStr (OperationStatus_value status) | None => JNull end)].

Definition _progress_sha256 (evaluation : CoreEvaluation) : result py_error string :=
  payload ← canonical_json_value_bytes (progress_material evaluation);
  Ok (sha256_hex payload).

(** The identifiers of the effects evidence is missing for, sorted. *)
Definition missing_effect_ids (missing : list MissingEvidence) : list string :=
  sorted_strings (remove_dups (concat (map me_effect_ids missing))).

Definition _progress_state (classification : option Classification)
  (action_gates : list ActionGateResult) (missing : list MissingEvidence)
  : result py_error (Classification * bool * bool * list string) :=
  match classification with
  | None => Raise (RuntimeError "progress requires a deterministic classification")
  | Some classification =>
      match filter (λ gate, ag_requested_action gate = Action_CONTINUE) action_gates with
      | [] => Raise (RuntimeError "progress requires a deterministic continuation gate")
      | continuation :: _ =>
          Ok (classification, ag_allowed continuation, ag_escalation_required continuation,
              missing_effect_ids missing)
      end
  end.

End state.

Section emission.
Context {rt : Runtime} {sec : Security} {W : Type} {dr : Driver W}.

(** An event that carries the [_progress_state(...)] of a report or evaluation. *)
Definition emit_state (classification : option Classification)
  (action_gates : list ActionGateResult) (missing : list MissingEvidence)
  (event : Classification * bool * bool * list string → datetime → InvestigationProgress)
  : ctl W unit :=
  match progress_emitter with
  | None => mret tt
  | Some _ =>
      state ← lift (_progress_state classification action_gates missing);
      emit (event state)
  end.

(** The two events of a processed probe. *)
Definition emit_processed (envelope : ExecutionEnvelope) (strategy : ComparisonStrategyKind)
  (attempt_sequence : Z) (request : ProbeRequest) (audit : ControllerAuditRecord)
  (decision : EvidenceDecision) (evaluation : CoreEvaluation) : ctl W unit :=
  emit (probe_completed envelope strategy attempt_sequence request audit false
          (ed_evidence_id decision));;
  emit_state (Some (ce_classification evaluation)) (ce_action_gates evaluation)
    (ce_missing_evidence evaluation)
    (evidence_known envelope strategy attempt_sequence audit decision).

(** The event of a probe that answered with an earlier sequence. *)
Definition emit_reused (envelope : ExecutionEnvelope) (strategy : ComparisonStrategyKind)
  (attempt_sequence : Z) (request : ProbeRequest) (audit : ControllerAuditRecord)
  (attempts : list EvidenceAttempt) : ctl W unit :=
  match progress_emitter with
  | None => mret tt
  | Some _ =>
      match filter (λ a, at_probe_sequence a = ar_sequence audit) attempts with
      | [] => throw (Exn_error (RuntimeError "reused controller progress lost its evidence"))
      | previous_attempt :: _ =>
          emit (probe_completed envelope strategy attempt_sequence request audit true
                  (ed_evidence_id (at_decision previous_attempt)))
      end
  end.

End emission.

(** ** Sessions that go on *)

Section session.
Context {rt : Runtime} {sec : Security} {sv : SchemaValidator} {od : ObservationDecoder}.
Context {W H : Type} {env : Environment W H} (cfg : ControllerConfig H).
Implicit Types s : session W.

Lemma probed_quiet s xs s1 s2 : probed cfg s xs s1 → quiet s1 s2 → probed cfg s xs s2.
Proof.
  induction 1 as [s s1 Hq|s s0 request x s1 xs s1' Hq Ht Hx _ IH]; intros Hq2.
  - constructor. by eapply quiet_trans.
  - econstructor; eauto.
Qed.

Lemma probed_snoc s xs s1 request x s2 :
  probed cfg s xs s1 → cs_terminal_execution (ss_state s1) = None →
  execute cfg request s1 = (Ok x, s2) → probed cfg s (xs ++ [(request, x)]) s2.
Proof.
  induction 1 as [s s1 Hq|s s0 request' x' s1 xs s1' Hq Ht Hx' _ IH]; intros Hn Hx.
  - econstructor; [done..|]. constructor. apply quiet_here.
  - econstructor; eauto.
Qed.

Lemma quiet_audit s s' : quiet s s' → cs_audit (ss_state s') = cs_audit (ss_state s).
Proof. intros [_ [o ->]]. done. Qed.
Lemma quiet_open s s' : quiet s s' →
  cs_terminal_execution (ss_state s') = cs_terminal_execution (ss_state s).
Proof. intros [_ [o ->]]. done. Qed.

(** ** The caller's side *)

Context {dr : Driver W}.

(** The exceptions of an emitter. *)
Definition emitter_raises (e : exn) : Prop :=
  ∃ emitter event w w', progress_emitter = Some emitter ∧ emitter event w = (Raise e, w').

Lemma wp_emit event (Q : result exn unit → session W → Prop) s :
  (∀ t, construct_progress (event t) = Ok tt) →
  (∀ s', quiet s s' → Q (Ok tt) s') →
  (∀ e s', quiet s s' → emitter_raises e → Q (Raise e) s') →
  wp (emit event) Q s.
Proof.
  intros Hok Hr He. unfold emit. destruct progress_emitter as [emitter|] eqn:Hem;
    [|apply wp_ret, Hr, quiet_here].
  apply wp_bind, wp_ask. intros t w _. apply wp_bind, wp_lift; [|by rewrite Hok].
  intros [] _. apply wp_ask_result. intros [[]|e] w' Hw.
  - apply Hr. split; [done|]. exists (cs_elapsed_offset_ms (ss_state s)). by destruct (ss_state s).
  - apply He; [|by exists emitter, (event t), w, w'].
    split; [done|]. exists (cs_elapsed_offset_ms (ss_state s)). by destruct (ss_state s).
Qed.

Lemma wp_emit_state c gates missing event (Q : result exn unit → session W → Prop) s :
  (∃ state, _progress_state c gates missing = Ok state ∧
     ∀ t, construct_progress (event state t) = Ok tt) →
  (∀ s', quiet s s' → Q (Ok tt) s') →
  (∀ e s', quiet s s' → emitter_raises e → Q (Raise e) s') →
  wp (emit_state c gates missing event) Q s.
Proof.
  intros (state & Hst & Hok) Hr He. unfold emit_state.
  destruct progress_emitter as [emitter|] eqn:Hem; [|apply wp_ret, Hr, quiet_here].
  apply wp_bind, wp_lift; [|by rewrite Hst]. intros state' Hs. rewrite Hst in Hs.
  injection Hs as <-. by apply wp_emit.
Qed.

Lemma quiet_world s w :
  quiet s {| ss_state := ss_state s; ss_world := w; ss_dispatched := ss_dispatched s |}.
Proof. split; [done|]. exists (cs_elapsed_offset_ms (ss_state s)). by destruct (ss_state s). Qed.

Lemma wp_requested (Q : result exn bool → session W → Prop) s :
  (∀ b s', quiet s s' → Q (Ok b) s') → wp cancellation_requested Q s.
Proof.
  intros Hq. unfold cancellation_requested. destruct cancellation_event.
  - apply wp_ask. intros b w _. apply Hq, quiet_world.
  - apply wp_ret, Hq, quiet_here.
Qed.

(** A cancellable probe is a probe. *)
Lemma wp_execution request (Q : result exn ProbeExecution → session W → Prop) s :
  (∀ s1 x s2 s3, quiet s s1 → execute cfg request s1 = (Ok x, s2) → quiet s2 s3 → Q (Ok x) s3) →
  (∀ s1 e s2, quiet s s1 → execute cfg request s1 = (Raise e, s2) → Q (Raise e) s2) →
  wp (_execute_with_cancellation cfg request) Q s.
Proof.
  intros Hok He. unfold _execute_with_cancellation. apply wp_bind, wp_requested.
  intros [] s1 Hq1.
  - apply wp_bind, wp_ask. intros [] w _.
    pose proof (quiet_trans _ _ _ Hq1 (quiet_world s1 w)) as Hq.
    unfold wp. destruct (execute cfg request _) as [[x|e] s2] eqn:Hx; cbn [fst snd].
    + eapply Hok; [exact Hq|exact Hx|apply quiet_here].
    + eapply He; [exact Hq|exact Hx].
  - apply wp_bind. unfold wp at 1.
    destruct (execute cfg request s1) as [[x|e] s2] eqn:Hx; cbn [fst snd];
      [|by eapply He].
    apply wp_bind, wp_requested. intros b s3 Hq3. apply wp_bind.
    destruct b; [apply wp_ask; intros [] w _|apply wp_ret]; apply wp_ret.
    + eapply Hok; [exact Hq1|exact Hx|]. eapply quiet_trans; [exact Hq3|apply quiet_world].
    + by eapply Hok.
Qed.

End session.

(** ** What is known so far *)

Section known.
Context {rt : Runtime} {sec : Security} {sv : SchemaValidator} {od : ObservationDecoder}.
Context {laws : RuntimeLaws rt}.

(** The effects' identifiers are the [Identifier]s of a validated envelope. *)
Definition effects_identified (env : ExecutionEnvelope) : Prop :=
  Forall (λ x, validate_Identifier (ee_effect_id x) = Ok tt
               ∧ validate_Identifier (ee_commit_scope x) = Ok tt) (en_expected_effects env).

Lemma text_member depth key s :
  string_forallb is_printable key && negb (bool_decide (key = "") || (128 <? py_len key)) = true →
  (depth ≤ 11)%nat → safe_text s → member_valid depth (key, JStr s).
Proof.
  intros [Hk Hl]%andb_true_iff Hd Hs. apply negb_true_iff in Hl.
  split_and!; [done|by apply printable_text|]. apply text_json; [lia|done].
Qed.

Lemma finding_json depth finding : (depth ≤ 11)%nat →
  safe_text (ef_effect_id finding) → safe_text (ef_commit_scope finding) →
  validate_json depth (JObj [("commit_scope", JStr (ef_commit_scope finding));
    ("effect_id", JStr (ef_effect_id finding));
    ("state", JStr (EffectAssertionState_value (ef_state finding)))]) = Ok tt.
Proof.
  intros Hd Hi Hc. apply validate_json_object. split; [lia|]. split; [cbn; lia|].
  repeat apply Forall_cons_2; try apply Forall_nil_2.
  1-2: by apply text_member; [reflexivity|lia|].
  apply text_member; [reflexivity|lia|apply printable_text]. by destruct (ef_state finding).
Qed.

Lemma progress_digest env l :
  effects_identified env → is_Ok (_progress_sha256 (core_result env l)).
Proof.
  intros He. unfold _progress_sha256, canonical_json_value_bytes.
  assert (validate_json 0 (progress_material (core_result env l)) = Ok tt) as ->; [|done].
  apply validate_json_object. split; [lia|]. split; [cbn; lia|].
  repeat apply Forall_cons_2; try apply Forall_nil_2.
  - apply text_member; [reflexivity|lia|apply printable_text]. by destruct (ce_classification _).
  - split_and!; [reflexivity|by apply printable_text|reflexivity].
  - split_and!; [reflexivity|by apply printable_text|]. apply validate_json_array.
    split; [lia|]. cbn [dp_effect_findings ce_proof core_result core_proof].
    unfold core_findings. rewrite !Forall_map. eapply Forall_impl; [exact He|].
    intros x [Hi Hc]. apply finding_json; [lia|by apply identifier_text..].
  - split_and!; [reflexivity|by apply printable_text|].
    destruct (dp_operation_status _) as [status|]; [|reflexivity].
    apply text_json; [lia|apply printable_text]. by destruct status.
Qed.

Lemma remove_dups_length (l : list string) : (length (remove_dups l) ≤ length l)%nat.
Proof. induction l as [|x l IH]; cbn; [done|]. case_decide; cbn; lia. Qed.

Lemma missing_ids env l :
  validate_ExecutionEnvelope env = Ok tt →
  NoDup (missing_effect_ids (core_missing env l))
  ∧ (length (missing_effect_ids (core_missing env l)) ≤ 64)%nat.
Proof.
  intros Henv. destruct (valid_envelope env Henv) as (_ & Hlen & _).
  unfold missing_effect_ids. rewrite sorted_strings_perm.
  split; [apply NoDup_remove_dups|]. unfold core_missing.
  destruct (inb _ _); [cbn; lia|]. cbn [map concat]. rewrite app_nil_r. cbn [me_effect_ids].
  etrans; [apply remove_dups_length|]. unfold unresolved_effects.
  rewrite length_map. etrans; [apply length_filter|].
  unfold core_findings. rewrite length_map. lia.
Qed.

(** The state of an evaluation, or of the report made of it. *)
Lemma progress_state_ok env l :
  ∃ allowed escalation,
    _progress_state (Some (core_class env l)) (ce_action_gates (core_result env l))
      (core_missing env l)
    = Ok (core_class env l, allowed, escalation, missing_effect_ids (core_missing env l)).
Proof.
  unfold _progress_state. cbn [ce_action_gates core_result]. unfold gate_definitions.
  cbn [map]. rewrite filter_cons_True by done. by eexists _, _.
Qed.

(** ** Events *)

Lemma request_effects request : validate_request request = Ok tt →
  in_range 1 (Z.of_nat (length (pr_relevant_effect_ids request))) 64 = true
  ∧ has_dup (pr_relevant_effect_ids request) = false
  ∧ bool_decide (pr_relevant_effect_ids request = []) = false.
Proof.
  unfold validate_request. intros Hr. inv_ok. bool_simpl. split_and!; [done..|].
  apply bool_decide_eq_false_2. intros He. by rewrite He in *.
Qed.

Lemma requested_event env strategy n request identity t :
  validate_request request = Ok tt → 1 ≤ n ≤ 64 →
  construct_progress (probe_requested env strategy n request identity t) = Ok tt.
Proof.
  intros (Hl & Hd & Hn0)%request_effects Hn.
  cbn [construct_progress probe_requested]. unfold construct_probe_progress.
  cbn -[in_range int64_max has_dup length].
  rewrite Hl, Hd, Hn0, (proj2 (in_range_true 1 n 64)) by done. done.
Qed.

Lemma audit_counters a : model_validate_audit a = Ok a →
  in_range 1 (ar_sequence a) int64_max = true
  ∧ in_range 0 (ar_session_elapsed_ms a) int64_max = true
  ∧ in_range 0 (ar_probe_count_used a) int64_max = true
  ∧ in_range 0 (ar_cost_units_used a) int64_max = true
  ∧ in_range 0 (ar_result_bytes_acquired a) int64_max = true
  ∧ counter_valid (ar_result_byte_count a) = true.
Proof. unfold model_validate_audit. intros H. inv_ok. bool_simpl. done. Qed.

Lemma completed_event cfg_env strategy n request a reused id t :
  validate_request request = Ok tt → 1 ≤ n ≤ 64 → model_validate_audit a = Ok a →
  is_none (ar_capability_name a) = is_none (ar_capability_version a) →
  construct_progress (probe_completed cfg_env strategy n request a reused id t) = Ok tt.
Proof.
  intros (Hl & Hd & _)%request_effects Hn Hv Hid.
  destruct (audit_counters a Hv) as (H1 & H2 & H3 & H4 & H5 & H6).
  apply model_validate_audit_inv in Hv as (_ & Hv & _).
  cbn [construct_progress probe_completed]. unfold construct_probe_progress.
  cbn -[in_range int64_max has_dup length counter_valid].
  rewrite Hl, Hd, (proj2 (in_range_true 1 n 64)) by done.
  unfold counter_valid at 1 2 3 4. rewrite H1, H2, H3, H4, H5.
  assert (bool_decide (Some (ar_outcome a) = Some Probe_COMPLETED)
    = bool_decide (ar_outcome a = Probe_COMPLETED)) as ->
    by (apply bool_decide_ext; split; [by intros [= ->]|by intros ->]).
  rewrite Hid, eqb_reflx. unfold validate_timestamps in Hv. inv_ok. revert Hv.
  case_bool_decide as Hc; intros Hv; inv_ok; bool_simpl.
  - rewrite H6. repeat match goal with Hx : is_none _ = false |- _ => rewrite Hx end.
    by rewrite bool_decide_refl.
  - by rewrite bool_decide_refl, Hv, !Bool.eqb_reflx.
Qed.

Lemma known_event env l strategy n a decision allowed escalation t :
  validate_ExecutionEnvelope env = Ok tt → 1 ≤ n ≤ 64 → 1 ≤ ar_sequence a ≤ int64_max →
  construct_progress (evidence_known env strategy n a decision
    (core_class env l, allowed, escalation, missing_effect_ids (core_missing env l)) t) = Ok tt.
Proof.
  intros Henv Hn Ha. destruct (missing_ids env l Henv) as [Hd Hl].
  cbn [construct_progress evidence_known]. unfold construct_evidence_progress.
  cbn [eg_attempt_sequence eg_controller_sequence eg_missing_effect_ids].
  rewrite (proj2 (in_range_true 1 n 64)), (proj2 (in_range_true _ _ _)),
    (proj2 (has_dup_false _)), (proj2 (Nat.ltb_ge _ _)) by done. done.
Qed.

Lemma ended_event env l strategy reason allowed escalation t :
  validate_ExecutionEnvelope env = Ok tt →
  construct_progress (strategy_completed env strategy reason
    (core_class env l, allowed, escalation, missing_effect_ids (core_missing env l)) t) = Ok tt.
Proof.
  intros Henv. destruct (missing_ids env l Henv) as [Hd Hl].
  cbn [construct_progress strategy_completed]. unfold construct_strategy_progress.
  cbn [sg_missing_effect_ids sg_stage sg_stop_reason sg_classification sg_continue_allowed
    sg_escalation_required].
  rewrite (proj2 (has_dup_false _)), (proj2 (Nat.ltb_ge _ _)) by done. done.
Qed.

End known.

(** ** A run of probes, processed as they return *)

Section pursuit.
Context {rt : Runtime} {sec : Security} {sv : SchemaValidator} {od : ObservationDecoder}.
Context {laws : RuntimeLaws rt}.
Context {W H : Type} {env : Environment W H} {dr : Driver W}.
Context (cfg : ControllerConfig H) (s0 : session W).
Context (Henv : validate_ExecutionEnvelope (cc_envelope cfg) = Ok tt).
Context (Hreg : capability_wf (cc_registry cfg)) (Hfresh : fresh_session cfg s0).
Context (rules : TargetRuleRegistry) (Hrules : registry_wf rule_key rules).

#[local] Abbreviation envelope := (cc_envelope cfg).

(** The probes [xs] returned and became the attempts of [g]. *)
Record pursued (s : session W) (g : EvidenceEngine)
  (xs : list (ProbeRequest * ProbeExecution)) (attempts : list EvidenceAttempt) : Prop := {
  pu_probed : probed cfg s0 xs s;
  pu_digests : Forall (λ rx, is_Ok (probe_request_sha256 rx.1)) xs;
  pu_processed : process_all (new_engine envelope rules) (map run_of xs) = (g, Ok attempts);
  pu_engine : engine_ok envelope (cs_audit (ss_state s)) attempts g;
  pu_ids : NoDup (decision_ids attempts);
}.

Lemma pursued_start : pursued s0 (new_engine envelope rules) [] [].
Proof.
  split; try done; [constructor; apply quiet_here| |constructor].
  destruct Hfresh as (_ & _ & -> & _). by apply new_engine_ok.
Qed.

Lemma pursued_quiet s s' g xs attempts :
  quiet s s' → pursued s g xs attempts → pursued s' g xs attempts.
Proof.
  intros Hq []. split; try done; [by eapply probed_quiet|by rewrite (quiet_audit _ _ Hq)].
Qed.

Lemma process_all_snoc g xs run g1 l :
  process_all g xs = (g1, Ok l) →
  process_all g (xs ++ [run]) = match process g1 run with
    | (g2, Ok a) => (g2, Ok (l ++ [a])) | (g2, Raise e) => (g2, Raise e) end.
Proof.
  revert g l. induction xs as [|x xs IH]; intros g l Hall; cbn in Hall |- *.
  - injection Hall as <- <-. by destruct (process g run) as [? [?|?]].
  - destruct (process g x) as [g' [a|]]; [|done].
    destruct (process_all g' xs) as [g'' [l'|]] eqn:Hl; [|done]. injection Hall as -> <-.
    rewrite (IH _ _ Hl). by destruct (process g1 run) as [? [?|?]].
Qed.

(** The length of a run and the sequence of its next probe. *)
Lemma pursued_length s g xs attempts : pursued s g xs attempts →
  length attempts = length xs ∧ cs_audit (ss_state s) = audits_of xs.
Proof.
  intros [Hp _ _ Hg _]. destruct (fresh_probed cfg Hreg _ _ _ Hfresh Hp) as (_ & Ha & _).
  split; [|done]. rewrite <-(Forall2_length _ _ _ (go_ok _ _ _ _ Hg)), Ha. apply length_map.
Qed.

(** One more probe. *)
Lemma pursued_probe s g xs attempts request x s' s'' :
  pursued s g xs attempts → cs_terminal_execution (ss_state s) = None →
  is_Ok (probe_request_sha256 request) →
  execute cfg request s = (Ok x, s') → quiet s' s'' →
  ar_sequence (px_audit x) = Z.of_nat (S (length xs)) ∧ audit_ok cfg (px_audit x) ∧
  ∃ a g', process g (run_of (request, x)) = (g', Ok a) ∧
    process_all (new_engine envelope rules) (map run_of (xs ++ [(request, x)]))
      = (g', Ok (attempts ++ [a])) ∧
    engine_ok envelope (cs_audit (ss_state s'')) (attempts ++ [a]) g' ∧
    (NoDup (decision_ids (attempts ++ [a])) →
      pursued s'' g' (xs ++ [(request, x)]) (attempts ++ [a])).
Proof.
  intros Hp Ht Hsha Hx Hq. destruct (pursued_length _ _ _ _ Hp) as [Hlen Haud].
  destruct Hp as [Hrun Hd Hall Hg Hids].
  pose proof (probed_quiet _ _ _ _ _ (probed_snoc _ _ _ _ _ _ _ Hrun Ht Hx) Hq) as Hrun'.
  destruct (fresh_probed cfg Hreg _ _ _ Hfresh Hrun') as (_ & Ha' & Hseq & _ & Hok).
  unfold audits_of in Ha', Hseq, Hok. rewrite map_app in Ha', Hseq, Hok.
  apply Forall_app in Hok as [_ Hok]. apply Forall_inv in Hok. cbn [snd] in Hok.
  assert (ar_sequence (px_audit x) = Z.of_nat (S (length xs))) as Hn.
  { rewrite map_app, length_app, length_map in Hseq. cbn [map length snd] in Hseq.
    rewrite Nat.add_1_r, one_to_S in Hseq. by apply app_inj_tail in Hseq as [_ ?]. }
  split; [done|]. split; [exact Hok|].
  pose proof (session_audits_readable cfg _ _ _ Hreg Hfresh Hrun') as Hread.
  unfold audits_of in Hread. rewrite map_app in Hread.
  apply Forall_app in Hread as [_ Hread]. apply Forall_inv in Hread.
  destruct (process_ok envelope _ _ _ (run_of (request, x)) Hg Henv Hsha Hread)
    as (a & g' & Hproc & Hg'); [by rewrite Hlen|].
  assert (process_all (new_engine envelope rules) (map run_of (xs ++ [(request, x)]))
    = (g', Ok (attempts ++ [a]))) as Hall'
    by (rewrite map_app; cbn [map]; by rewrite (process_all_snoc _ _ _ _ _ Hall), Hproc).
  assert (engine_ok envelope (cs_audit (ss_state s'')) (attempts ++ [a]) g') as Hg''
    by (rewrite Ha'; rewrite Haud in Hg'; exact Hg').
  exists a, g'. split_and!; [done|done|done|]. intros Hids'. split; try done.
  apply Forall_app. split; [done|]. by constructor.
Qed.

(** Two attempts of the probes have one identifier. *)
Definition identifiers_collide (xs : list (ProbeRequest * ProbeExecution)) : Prop :=
  ∃ g attempts, process_all (new_engine envelope rules) (map run_of xs) = (g, Ok attempts)
    ∧ ¬ NoDup (decision_ids attempts).

Definition collision_error : exn :=
  Exn_error (ValueError "evidence attempt identifiers must be unique").

(** The engine's answer to the probe that just returned. *)
Lemma wp_processed_probe s g xs attempts request x s' s''
  (Q : result exn (EvidenceEngine * CoreEvaluation * EvidenceDecision) → session W → Prop) :
  pursued s g xs attempts → cs_terminal_execution (ss_state s) = None →
  is_Ok (probe_request_sha256 request) → (length xs < 64)%nat →
  execute cfg request s = (Ok x, s') → quiet s' s'' →
  (∀ a a' g' l, pursued s'' g' (xs ++ [(request, x)]) (attempts ++ [a]) →
    deduplicate_attempts (attempts ++ [a]) = Ok l → last l = Some a' →
    Q (Ok (g', core_result envelope l, at_decision a')) s'') →
  (identifiers_collide (xs ++ [(request, x)]) → Q (Raise collision_error) s'') →
  wp (processed_probe g request x) Q s''.
Proof.
  intros Hp Ht Hsha H64 Hx Hq Hok He.
  destruct (pursued_length _ _ _ _ Hp) as [Hlen _].
  destruct (pursued_probe _ _ _ _ _ _ _ _ Hp Ht Hsha Hx Hq) as (_ & _ & a & g' & Hproc & Hall & Hg & Hnext).
  unfold processed_probe. change {| run_request := request; run_execution := x |}
    with (run_of (request, x)). rewrite Hproc.
  apply wp_bind, wp_lift; [|done]. intros _ _. apply wp_bind, wp_gets.
  destruct (decide (NoDup (decision_ids (attempts ++ [a])))) as [Hids|Hids].
  - pose proof (Hnext Hids) as Hp'.
    destruct (session_evaluated cfg s0 s'' _ Henv Hreg Hfresh (pu_probed _ _ _ _ Hp')
      _ _ (pu_engine _ _ _ _ Hp') Hids) as (l & Hded & Hrel & Hev).
    { rewrite length_app. cbn. lia. }
    apply wp_bind, wp_lift; [|by rewrite Hev]. intros ev Hev'.
    rewrite Hev in Hev'. injection Hev' as <-. cbn [ce_attempts core_result].
    destruct (last l) as [a'|] eqn:Hlast; [by apply wp_ret; eapply Hok|].
    apply last_None in Hlast as ->. apply Forall2_length in Hrel. rewrite length_app in Hrel.
    cbn in Hrel. lia.
  - assert (identifiers_collide (xs ++ [(request, x)])) as Hc by by exists g', (attempts ++ [a]).
    assert (evaluate g' (cs_audit (ss_state s''))
      = Raise (ValueError "evidence attempt identifiers must be unique")) as ->.
    { unfold evaluate, evaluate_evidence.
      rewrite (engine_attempts_eq _ _ _ _ Hg), (go_envelope _ _ _ _ Hg), Henv.
      cbn [mbind result_bind].
      rewrite (recheck_collides envelope); [done|apply Hg|apply Hg|done]. }
    apply wp_bind, wp_lift; [done|]. intros e [= <-]. by apply He.
Qed.

(** The events of a processed probe. *)
Lemma wp_emit_processed strategy n request x l a' (Q : result exn unit → session W → Prop) s :
  validate_request request = Ok tt → 1 ≤ n ≤ 64 → audit_ok cfg (px_audit x) →
  (∀ s', quiet s s' → Q (Ok tt) s') →
  (∀ e s', emitter_raises e → Q (Raise e) s') →
  wp (emit_processed envelope strategy n request (px_audit x) (at_decision a')
        (core_result envelope l)) Q s.
Proof.
  intros Hr Hn Ha Hok He. unfold emit_processed. apply wp_bind, wp_emit.
  - intros t. apply completed_event; [done|lia|apply Ha|apply Ha].
  - intros s1 Hq1. apply wp_emit_state.
    + destruct (progress_state_ok envelope l) as (allowed & escalation & Hst).
      eexists. split; [exact Hst|]. intros t. apply known_event; [done|lia|].
      pose proof (au_valid _ _ Ha) as Hv. apply audit_counters in Hv as (Hv & _).
      by apply in_range_true.
    + intros s2 Hq2. apply Hok. by eapply quiet_trans.
    + intros e s2 _ ?. by apply He.
  - intros e s1 _ ?. by apply He.
Qed.

End pursuit.
