(* ===== verification/Baseline.v ===== *)
(** Fixed probe plans (reconcile/baseline.py): [execute_fixed_plan] runs the steps
    of a plan through one controller and one evidence engine, decides after each
    probe whether to stop, and measures the run.

    A sealed step or report is the validated model itself, so decoding its bytes
    again is its validation.  The clock of the controller and of the report is the
    [Environment]; a Python set of sequences is a list without duplicates. *)

From S2P Require Export Planning Progress.

#[local] Open Scope Z_scope.

Inductive FixedBaselineStopReason :=
  | Fixed_SUFFICIENT_EVIDENCE | Fixed_PLAN_EXHAUSTED | Fixed_BUDGET_EXHAUSTED
  | Fixed_DEADLINE_EXHAUSTED | Fixed_CANCELLED | Fixed_REQUIRED_CAPABILITY_UNAVAILABLE
  | Fixed_REQUIRED_PROBE_FAILED | Fixed_NON_PROGRESS.

#[export] Instance FixedBaselineStopReason_eq_dec : EqDecision FixedBaselineStopReason.
Proof. solve_decision. Defined.

Definition FixedBaselineStopReason_value (r : FixedBaselineStopReason) : string :=
  match r with
  | Fixed_SUFFICIENT_EVIDENCE => "sufficient_evidence"
  | Fixed_PLAN_EXHAUSTED => "plan_exhausted"
  | Fixed_BUDGET_EXHAUSTED => "budget_exhausted"
  | Fixed_DEADLINE_EXHAUSTED => "deadline_exhausted"
  | Fixed_CANCELLED => "cancelled"
  | Fixed_REQUIRED_CAPABILITY_UNAVAILABLE => "required_capability_unavailable"
  | Fixed_REQUIRED_PROBE_FAILED => "required_probe_failed"
  | Fixed_NON_PROGRESS => "non_progress"
  end.

Record FixedProbeStep := {
  fs_request : ProbeRequest;
  fs_required : bool;
}.

Record FixedProbePlan := {
  fp_name : string;
  fp_version : string;
  fp_steps : list FixedProbeStep;
  fp_sufficient_classifications : list Classification;
  fp_sha256 : string;
}.

Record FixedBaselineResult := {
  fb_report : InvestigationReport;
  fb_plan_name : string;
  fb_plan_version : string;
  fb_plan_sha256 : string;
  fb_stop_reason : FixedBaselineStopReason;
  fb_planned_probe_count : Z;
  fb_attempted_probe_count : Z;
  fb_probe_count_used : Z;
  fb_cost_units_used : Z;
  fb_result_bytes_acquired : Z;
  fb_total_elapsed_ms : Z;
  fb_sufficient_probe_sequence : option Z;
  fb_time_to_sufficient_evidence_ms : option Z;
  fb_unsupported_probe_count : Z;
  fb_unavailable_probe_count : Z;
  fb_redundant_probe_count : Z;
  fb_duplicate_probe_count : Z;
  fb_model_invocation_count : Z;
}.

Definition _UNSUPPORTED_REASONS : list ProbeStopReason :=
  [Stop_INVALID_REQUEST; Stop_UNKNOWN_CAPABILITY; Stop_CAPABILITY_DISABLED;
   Stop_CAPABILITY_NOT_ENABLED; Stop_CAPABILITY_MUTATING;
   Stop_CAPABILITY_SEMANTICS_AMBIGUOUS; Stop_TARGET_KIND_MISMATCH;
   Stop_TARGET_SCOPE_MISMATCH; Stop_INVALID_EFFECT_REFERENCE; Stop_INVALID_ARGUMENTS;
   Stop_ARGUMENTS_TOO_LARGE; Stop_TARGET_PARAMETER_INJECTION; Stop_CORRELATION_MISMATCH].
Definition _BUDGET_REASONS : list ProbeStopReason :=
  [Stop_PROBE_COUNT_EXHAUSTED; Stop_CAPABILITY_PROBE_LIMIT_EXHAUSTED;
   Stop_COST_BUDGET_EXHAUSTED; Stop_TOTAL_RESULT_BYTES_EXHAUSTED; Stop_RESULT_TOO_LARGE].
Definition _DEADLINE_REASONS : list ProbeStopReason :=
  [Stop_ELAPSED_BUDGET_EXHAUSTED; Stop_PROBE_TIMEOUT].

(** [set.add] *)
Definition set_add `{EqDecision A} (x : A) (l : list A) : list A :=
  if inb x l then l else x :: l.
Definition set_add_if `{EqDecision A} (guard : bool) (x : A) (l : list A) : list A :=
  if guard then set_add x l else l.

Section plans.
Context {rt : Runtime} {sec : Security}.

(** [FixedProbeStep(...)] *)
Definition make_step (request : ProbeRequest) (required : bool) : result py_error FixedProbeStep :=
  validate_request request;;
  Ok {| fs_request := request; fs_required := required |}.

(** [sorted(..., key=lambda item: item.value)] *)
Definition classification_le (x y : Classification) : Prop :=
  str_le (Classification_value x) (Classification_value y).
#[export] Instance classification_le_dec x y : Decision (classification_le x y).
Proof. unfold classification_le. apply _. Defined.

Definition step_material (step : FixedProbeStep) : json :=
  JObj [("request", to_json (fs_request step)); ("required", JBool (fs_required step))].

(** [FixedProbePlan(...)] *)
Definition make_plan (name version : string) (steps : list FixedProbeStep)
  (sufficient_classifications : list Classification) : result py_error FixedProbePlan :=
  _validate_identifier name "fixed plan name";;
  _validate_identifier version "fixed plan version";;
  reject_if (negb (in_range 1 (Z.of_nat (length steps)) 64))
    (ValueError "a fixed plan requires one to 64 ordered steps");;
  reject_if (inb UNKNOWN sufficient_classifications)
    (ValueError "UNKNOWN cannot be declared sufficient evidence");;
  reject_if (has_dup sufficient_classifications)
    (ValueError "sufficient classifications must be unique");;
  let classifications := merge_sort classification_le sufficient_classifications in
  payload ← canonical_json_value_bytes (JObj
    [("name", JStr name); ("steps", JArr (map step_material steps));
     ("sufficient_classifications",
       JArr (map (λ c, JStr (Classification_value c)) classifications));
     ("version", JStr version)]);
  Ok {| fp_name := name; fp_version := version; fp_steps := steps;
        fp_sufficient_classifications := classifications;
        fp_sha256 := sha256_hex payload |}.

(** [FixedBaselineResult(...)] *)
Definition make_result (self : FixedBaselineResult) (plan : FixedProbePlan)
  : result py_error FixedBaselineResult :=
  let attempted := fb_attempted_probe_count self in
  let sufficient := bool_decide (fb_stop_reason self = Fixed_SUFFICIENT_EVIDENCE) in
  reject_if (existsb (λ value, value <? 0)
      [attempted; fb_probe_count_used self; fb_cost_units_used self;
       fb_result_bytes_acquired self; fb_total_elapsed_ms self;
       fb_unsupported_probe_count self; fb_unavailable_probe_count self;
       fb_redundant_probe_count self; fb_duplicate_probe_count self])
    (ValueError "fixed baseline measurements must be nonnegative integers");;
  reject_if (Z.of_nat (length (fp_steps plan)) <? attempted)
    (ValueError "attempted probes cannot exceed fixed plan steps");;
  reject_if (existsb (λ value, attempted <? value)
      [fb_unsupported_probe_count self; fb_unavailable_probe_count self;
       fb_redundant_probe_count self; fb_duplicate_probe_count self])
    (ValueError "probe disposition counts cannot exceed attempts");;
  reject_if (negb (Bool.eqb sufficient (is_some (fb_sufficient_probe_sequence self))))
    (ValueError "sufficient stop reason and sequence must agree");;
  reject_if (negb (Bool.eqb sufficient (is_some (fb_time_to_sufficient_evidence_ms self))))
    (ValueError "sufficient stop reason and timing must agree");;
  reject_if match fb_sufficient_probe_sequence self with
            | Some sequence => negb (in_range 1 sequence attempted) | None => false end
    (ValueError "sufficient probe sequence is outside attempted probes");;
  reject_if match fb_time_to_sufficient_evidence_ms self with
            | Some time => fb_total_elapsed_ms self <? time | None => false end
    (ValueError "sufficiency time cannot exceed total elapsed time");;
  report ← model_validate_report (fb_report self);
  reject_if (is_none (ir_classification report))
    (ValueError "a fixed baseline report requires a classification");;
  Ok self.

(** [additional_limitations] of a driver's caller. *)
Definition check_limitations (additional_limitations : list string) : result py_error unit :=
  reject_if (63 <? length additional_limitations)%nat
    (ValueError "additional limitations must be a bounded immutable tuple");;
  for_each (λ limitation,
    reject_if (negb (in_range 1 (py_len limitation) 4096))
      (ValueError "each additional limitation must be bounded and nonempty");;
    reject_if (negb (valid_utf8 limitation))
      (ValueError "additional limitations must contain Unicode scalar values"))
    additional_limitations.

(** [InvestigationReport.model_validate] of the report with more limitations, which
    sanitizes its texts again. *)
Definition with_limitations (report : InvestigationReport)
  (additional_limitations : list string) : result py_error InvestigationReport :=
  match additional_limitations with
  | [] => Ok report
  | _ =>
      limitations ← mapM validate_SanitizedText
        (ir_limitations report ++ additional_limitations);
      advisory ← match ir_advisory_explanation report with
        | Some advisory => advisory ← model_validate_advisory advisory; Ok (Some advisory)
        | None => Ok None
        end;
      model_validate_report
        {| ir_investigation_id := ir_investigation_id report;
           ir_envelope_sha256 := ir_envelope_sha256 report;
           ir_status := ir_status report; ir_probe_audit := ir_probe_audit report;
           ir_evidence := ir_evidence report;
           ir_evidence_decisions := ir_evidence_decisions report;
           ir_proof := ir_proof report; ir_classification := ir_classification report;
           ir_action_gate := ir_action_gate report;
           ir_missing_evidence := ir_missing_evidence report;
           ir_limitations := limitations; ir_advisory_explanation := advisory;
           ir_created_at := ir_created_at report; ir_updated_at := ir_updated_at report;
           ir_revision := ir_revision report |}
  end.

End plans.

(** ** One run of a plan *)

(** What the loop keeps beside the controller. *)
Record fixed_run := {
  fr_engine : EvidenceEngine;
  fr_processed : list Z;
  fr_request_progress : list (string * string);
  fr_unsupported : list Z;
  fr_unavailable : list Z;
  fr_redundant : list Z;
  fr_duplicate : list Z;
}.

Definition new_fixed_run (engine : EvidenceEngine) : fixed_run :=
  {| fr_engine := engine; fr_processed := []; fr_request_progress := [];
     fr_unsupported := []; fr_unavailable := []; fr_redundant := []; fr_duplicate := [] |}.

(** How the loop ends: the stop reason of a [break], and the sequence and time of the
    probe that sufficed. *)
Record fixed_ending := {
  fe_run : fixed_run;
  fe_stop_reason : option FixedBaselineStopReason;
  fe_sufficient : option (Z * Z);
}.

(** The measurements of one processed probe. *)
Definition measured (run : fixed_run) (engine : EvidenceEngine)
  (audit : ControllerAuditRecord) (decision : EvidenceDecision) (identity : string)
  (repeated unchanged : bool) (progress : string) : fixed_run :=
  let sequence := ar_sequence audit in
  {| fr_engine := engine;
     fr_processed := set_add sequence (fr_processed run);
     fr_request_progress := dict_set identity progress (fr_request_progress run);
     fr_unsupported := set_add_if
       (inb (ar_stop_reason audit) _UNSUPPORTED_REASONS
        || bool_decide (ed_reason decision = UNSUPPORTED_CAPABILITY))
       sequence (fr_unsupported run);
     fr_unavailable := set_add_if
       (bool_decide (ar_stop_reason audit = Stop_CAPABILITY_UNAVAILABLE))
       sequence (fr_unavailable run);
     fr_redundant := set_add_if (repeated && unchanged) sequence
       (set_add_if (bool_decide (ed_reason decision = DUPLICATE_CANDIDATES))
          sequence (fr_redundant run));
     fr_duplicate := set_add_if repeated sequence (fr_duplicate run) |}.

(** The measurements of a probe that answered with an earlier sequence. *)
Definition reused (run : fixed_run) (audit : ControllerAuditRecord) (repeated : bool)
  : fixed_run :=
  {| fr_engine := fr_engine run; fr_processed := fr_processed run;
     fr_request_progress := fr_request_progress run;
     fr_unsupported := fr_unsupported run; fr_unavailable := fr_unavailable run;
     fr_redundant := set_add_if repeated (ar_sequence audit) (fr_redundant run);
     fr_duplicate := set_add_if repeated (ar_sequence audit) (fr_duplicate run) |}.

(** The [break]s after a processed probe, in their order. *)
Definition stop_after (plan : FixedProbePlan) (step : FixedProbeStep)
  (audit : ControllerAuditRecord) (decision : EvidenceDecision)
  (classification : Classification) (stalled : bool) : option FixedBaselineStopReason :=
  if inb classification (fp_sufficient_classifications plan)
  then Some Fixed_SUFFICIENT_EVIDENCE
  else if fs_required step && bool_decide (ar_stop_reason audit = Stop_CAPABILITY_UNAVAILABLE)
  then Some Fixed_REQUIRED_CAPABILITY_UNAVAILABLE
  else if fs_required step
          && (inb (ar_stop_reason audit) _UNSUPPORTED_REASONS
              || inb (ar_outcome audit) [Probe_REJECTED; Probe_MALFORMED]
              || bool_decide (ed_reason decision = UNSUPPORTED_CAPABILITY))
  then Some Fixed_REQUIRED_PROBE_FAILED
  else if inb (ar_stop_reason audit) _BUDGET_REASONS then Some Fixed_BUDGET_EXHAUSTED
  else if inb (ar_stop_reason audit) _DEADLINE_REASONS then Some Fixed_DEADLINE_EXHAUSTED
  else if bool_decide (ar_stop_reason audit = Stop_PROBE_CANCELLED) then Some Fixed_CANCELLED
  else if stalled then Some Fixed_NON_PROGRESS
  else None.

(** ** The executor *)

Section executor.
Context {rt : Runtime} {sec : Security} {sv : SchemaValidator} {od : ObservationDecoder}.
Context {W H : Type} {env : Environment W H} {dr : Driver W}.

(** One turn of the loop. *)
Definition execute_step (cfg : ControllerConfig H) (plan : FixedProbePlan)
  (attempt_sequence : Z) (step : FixedProbeStep) (run : fixed_run) : ctl W fixed_ending :=
  let envelope := cc_envelope cfg in
  let request := fs_request step in
  request_identity ← lift (probe_request_sha256 request);
  let previous_progress := dict_get request_identity (fr_request_progress run) in
  let repeated_request := is_some previous_progress in
  emit (probe_requested envelope Comparison_FIXED attempt_sequence request request_identity);;
  execution ← _execute_with_cancellation cfg request;
  let audit := px_audit execution in
  if inb (ar_sequence audit) (fr_processed run) then
    emit_reused envelope Comparison_FIXED attempt_sequence request audit
      (engine_attempts (fr_engine run));;
    mret {| fe_run := reused run audit repeated_request;
            fe_stop_reason := Some Fixed_NON_PROGRESS; fe_sufficient := None |}
  else
    known ← processed_probe (fr_engine run) request execution;
    let '(engine, evaluation, decision) := known in
    emit_processed envelope Comparison_FIXED attempt_sequence request audit decision evaluation;;
    progress ← lift (_progress_sha256 evaluation);
    let stalled := bool_decide (previous_progress = Some progress) in
    let stop := stop_after plan step audit decision (ce_classification evaluation) stalled in
    mret {| fe_run := measured run engine audit decision request_identity repeated_request
                        stalled progress;
            fe_stop_reason := stop;
            fe_sufficient :=
              if bool_decide (stop = Some Fixed_SUFFICIENT_EVIDENCE)
              then Some (ar_sequence audit, ar_session_elapsed_ms audit) else None |}.

(** [for attempt_sequence, step in enumerate(plan.steps, start=1)] *)
Fixpoint execute_steps (cfg : ControllerConfig H) (plan : FixedProbePlan)
  (attempt_sequence : Z) (steps : list FixedProbeStep) (run : fixed_run)
  : ctl W fixed_ending :=
  match steps with
  | [] => mret {| fe_run := run; fe_stop_reason := None; fe_sufficient := None |}
  | step :: rest =>
      ending ← execute_step cfg plan attempt_sequence step run;
      match fe_stop_reason ending with
      | Some _ => mret ending
      | None => execute_steps cfg plan (attempt_sequence + 1) rest (fe_run ending)
      end
  end.

(** The result's measurements, before they are checked. *)
Definition result_of (report : InvestigationReport) (plan : FixedProbePlan)
  (stop_reason : FixedBaselineStopReason) (ending : fixed_ending) (attempted : Z)
  (final : ControllerAuditRecord) : FixedBaselineResult :=
  let run := fe_run ending in
  {| fb_report := report; fb_plan_name := fp_name plan; fb_plan_version := fp_version plan;
     fb_plan_sha256 := fp_sha256 plan; fb_stop_reason := stop_reason;
     fb_planned_probe_count := Z.of_nat (length (fp_steps plan));
     fb_attempted_probe_count := attempted;
     fb_probe_count_used := ar_probe_count_used final;
     fb_cost_units_used := ar_cost_units_used final;
     fb_result_bytes_acquired := ar_result_bytes_acquired final;
     fb_total_elapsed_ms := ar_session_elapsed_ms final;
     fb_sufficient_probe_sequence := fst <$> fe_sufficient ending;
     fb_time_to_sufficient_evidence_ms := snd <$> fe_sufficient ending;
     fb_unsupported_probe_count := Z.of_nat (length (fr_unsupported run));
     fb_unavailable_probe_count := Z.of_nat (length (fr_unavailable run));
     fb_redundant_probe_count := Z.of_nat (length (fr_redundant run));
     fb_duplicate_probe_count := Z.of_nat (length (fr_duplicate run));
     fb_model_invocation_count := 0 |}.

(** From the end of the loop to the result. *)
Definition conclude_plan (cfg : ControllerConfig H) (plan : FixedProbePlan) (revision : Z)
  (additional_limitations : list string) (ending : fixed_ending)
  : ctl W FixedBaselineResult :=
  let envelope := cc_envelope cfg in
  let stop_reason := default Fixed_PLAN_EXHAUSTED (fe_stop_reason ending) in
  audit_trail ← gets cs_audit;
  match last audit_trail with
  | None => throw (Exn_error
      (RuntimeError "a nonempty fixed plan produced no controller audit"))
  | Some final_audit =>
      updated_at ← ask now;
      report ← lift (report (fr_engine (fe_run ending)) audit_trail
        (ae_observed_at (en_ambiguity envelope)) updated_at revision None);
      report ← lift (with_limitations report additional_limitations);
      result ← lift (make_result (result_of report plan stop_reason ending
        (Z.of_nat (length audit_trail)) final_audit) plan);
      emit_state (ir_classification report) (ir_action_gate report)
        (ir_missing_evidence report)
        (strategy_completed envelope Comparison_FIXED (FixedBaselineStopReason_value stop_reason));;
      mret result
  end.

(** What [execute_fixed_plan] does with its controller. *)
Definition drive_plan (cfg : ControllerConfig H) (rules : TargetRuleRegistry)
  (plan : FixedProbePlan) (revision : Z) (additional_limitations : list string)
  : ctl W FixedBaselineResult :=
  emit (strategy_started (cc_envelope cfg) Comparison_FIXED);;
  ending ← execute_steps cfg plan 1 (fp_steps plan)
    (new_fixed_run (new_engine (cc_envelope cfg) rules));
  conclude_plan cfg plan revision additional_limitations ending.

Definition execute_fixed_plan (envelope : ExecutionEnvelope)
  (capabilities : @CapabilityRegistry H) (rules : TargetRuleRegistry) (plan : FixedProbePlan)
  (revision : Z) (additional_limitations : list string) (elapsed_offset_ms : Z)
  (session_token : nat) (w : W) : result exn FixedBaselineResult * session W :=
  let start := {| ss_state := initial_state elapsed_offset_ms; ss_world := w;
                  ss_dispatched := [] |} in
  match (reject_if (revision <? 0) (ValueError "report revision must be a nonnegative integer");;
         check_limitations additional_limitations;;
         validate_ExecutionEnvelope envelope) with
  | Raise e => (Raise (Exn_error e), start)
  | Ok _ =>
      match new_controller envelope capabilities session_token elapsed_offset_ms w with
      | (Raise e, s) => (Raise e, s)
      | (Ok cfg, s) => drive_plan cfg rules plan revision additional_limitations s
      end
  end.

End executor.
