(* ===== verification/BaselineProperties.v ===== *)
(** What a fixed plan does: its probes are the plan's own, in order; it ends in a
    result or for one of the named reasons; and what the result says of the run. *)

From S2P Require Export Baseline.

#[local] Open Scope Z_scope.

(** ** Counting sequences *)

(** A set of the sequences of [n] probes. *)
Definition counted (n : nat) (l : list Z) : Prop :=
  NoDup l ∧ Forall (λ i, 1 ≤ i ≤ Z.of_nat n) l.

Lemma counted_nil n : counted n [].
Proof. split; constructor. Qed.

Lemma counted_more n l : counted n l → counted (S n) l.
Proof. intros [Hd Hl]. split; [done|]. eapply Forall_impl; [exact Hl|]. cbn. lia. Qed.

Lemma counted_add_if n guard l :
  counted (S n) l → counted (S n) (set_add_if guard (Z.of_nat (S n)) l).
Proof.
  intros Hc. destruct guard; [|done]. unfold set_add_if, set_add.
  destruct (inb _ l) eqn:Hin; [done|]. destruct Hc as [Hd Hl].
  split; [constructor; [by apply inb_false|done]|constructor; [lia|done]].
Qed.

Lemma counted_length n l : counted n l → (length l ≤ n)%nat.
Proof.
  intros [Hd Hl]. assert (l ⊆ map Z.of_nat (seq 1 n)) as Hsub.
  { intros i Hi. rewrite Forall_forall in Hl. specialize (Hl i Hi).
    apply list_elem_of_fmap. exists (Z.to_nat i). split; [lia|]. apply elem_of_seq. lia. }
  apply (NoDup_submseteq _ _ Hd), submseteq_length in Hsub.
  by rewrite length_map, length_seq in Hsub.
Qed.

(** ** Turns of the loop *)

Section turns.
Context {rt : Runtime} {sec : Security} {sv : SchemaValidator} {od : ObservationDecoder}.
Context {laws : RuntimeLaws rt}.

(** What is known after the first [n] of the probes [xs]. *)
Definition evaluation_after (envelope : ExecutionEnvelope) (rules : TargetRuleRegistry)
  (xs : list (ProbeRequest * ProbeExecution)) (n : nat) (ev : CoreEvaluation) : Prop :=
  ∃ g attempts l,
    process_all (new_engine envelope rules) (map run_of (take n xs)) = (g, Ok attempts) ∧
    deduplicate_attempts attempts = Ok l ∧ ev = core_result envelope l.

Lemma evaluation_after_app envelope rules xs ys n ev : (n ≤ length xs)%nat →
  evaluation_after envelope rules (xs ++ ys) n ev ↔ evaluation_after envelope rules xs n ev.
Proof. intros Hn. unfold evaluation_after. by rewrite take_app_le. Qed.

Lemma evaluation_after_all envelope rules xs g attempts l :
  process_all (new_engine envelope rules) (map run_of xs) = (g, Ok attempts) →
  deduplicate_attempts attempts = Ok l →
  evaluation_after envelope rules xs (length xs) (core_result envelope l).
Proof. intros Hall Hl. exists g, attempts, l. by rewrite take_ge by lia. Qed.

(** An earlier probe of [xs] had the request [id], and the same was known after it
    as after [ev]. *)
Definition known_before envelope rules (xs : list (ProbeRequest * ProbeExecution))
  (id progress : string) : Prop :=
  ∃ n request x ev, xs !! n = Some (request, x) ∧ probe_request_sha256 request = Ok id ∧
    evaluation_after envelope rules xs (S n) ev ∧ _progress_sha256 ev = Ok progress.

Lemma known_before_app envelope rules xs ys id progress :
  known_before envelope rules xs id progress →
  known_before envelope rules (xs ++ ys) id progress.
Proof.
  intros (n & request & x & ev & Hn & Hid & Hev & Hp).
  pose proof (lookup_lt_Some _ _ _ Hn). exists n, request, x, ev.
  split_and!; [by rewrite lookup_app_l|done| |done]. by apply evaluation_after_app.
Qed.

(** Why a plan may stop after the probe of [step]. *)
Definition stopped_for (envelope : ExecutionEnvelope) (rules : TargetRuleRegistry)
  (plan : FixedProbePlan) (xs : list (ProbeRequest * ProbeExecution))
  (step : FixedProbeStep) (x : ProbeExecution) (ev : CoreEvaluation)
  (reason : FixedBaselineStopReason) : Prop :=
  let stop_reason := ar_stop_reason (px_audit x) in
  let unsupported := ∃ a, last (ce_attempts ev) = Some a
    ∧ ed_reason (at_decision a) = UNSUPPORTED_CAPABILITY in
  match reason with
  | Fixed_SUFFICIENT_EVIDENCE => ce_classification ev ∈ fp_sufficient_classifications plan
  | Fixed_PLAN_EXHAUSTED =>
      length xs = length (fp_steps plan) ∧ stop_reason ∉ TERMINAL_REASONS
  | Fixed_BUDGET_EXHAUSTED => stop_reason ∈ _BUDGET_REASONS
  | Fixed_DEADLINE_EXHAUSTED => stop_reason ∈ _DEADLINE_REASONS
  | Fixed_CANCELLED => stop_reason = Stop_PROBE_CANCELLED
  | Fixed_REQUIRED_CAPABILITY_UNAVAILABLE =>
      fs_required step = true ∧ stop_reason = Stop_CAPABILITY_UNAVAILABLE
  | Fixed_REQUIRED_PROBE_FAILED =>
      fs_required step = true ∧
      (stop_reason ∈ _UNSUPPORTED_REASONS ∨ unsupported
       ∨ ar_outcome (px_audit x) ∈ [Probe_REJECTED; Probe_MALFORMED])
  | Fixed_NON_PROGRESS =>
      ∃ ys id progress, xs = ys ++ [(fs_request step, x)] ∧
        probe_request_sha256 (fs_request step) = Ok id ∧
        _progress_sha256 ev = Ok progress ∧ known_before envelope rules ys id progress
  end.

(** A terminal probe always stops the plan. *)
Lemma stop_after_none plan step a decision c stalled :
  stop_after plan step a decision c stalled = None →
  (c ∉ fp_sufficient_classifications plan) ∧ (ar_stop_reason a ∉ TERMINAL_REASONS).
Proof.
  unfold stop_after. intros Hs.
  destruct (inb c _) eqn:Hc; [done|]. split; [by apply inb_false|].
  do 2 (destruct (fs_required step && _); [done|]).
  destruct (inb _ _BUDGET_REASONS) eqn:Hb; [done|].
  destruct (inb _ _DEADLINE_REASONS) eqn:Hd; [done|]. case_bool_decide as Hp; [done|].
  clear -Hb Hd Hp. intros Ht. apply inb_true in Ht.
  destruct (ar_stop_reason a); done.
Qed.

Lemma stop_after_sufficient plan step a decision c stalled :
  stop_after plan step a decision c stalled = Some Fixed_SUFFICIENT_EVIDENCE
  ↔ c ∈ fp_sufficient_classifications plan.
Proof.
  rewrite <-inb_true. unfold stop_after. destruct (inb c _); [done|].
  split; [|done]. repeat case_match; done.
Qed.

Lemma stop_after_holds envelope rules plan ys step x ev a id progress stalled reason :
  stop_after plan step (px_audit x) (at_decision a) (ce_classification ev) stalled
    = Some reason →
  last (ce_attempts ev) = Some a →
  probe_request_sha256 (fs_request step) = Ok id → _progress_sha256 ev = Ok progress →
  (stalled = true → known_before envelope rules ys id progress) →
  stopped_for envelope rules plan (ys ++ [(fs_request step, x)]) step x ev reason.
Proof.
  intros Hs Ha Hid Hp Hst. unfold stop_after in Hs.
  destruct (inb _ (fp_sufficient_classifications plan)) eqn:Hc.
  { injection Hs as <-. by apply inb_true. }
  destruct (fs_required step && _) eqn:H1.
  { injection Hs as <-. bool_simpl. done. }
  destruct (fs_required step && _) eqn:H2 in Hs.
  { injection Hs as <-. bool_simpl. split; [done|].
    rewrite !orb_true_iff, !inb_true, bool_decide_eq_true in *. naive_solver. }
  destruct (inb _ _BUDGET_REASONS) eqn:Hb; [injection Hs as <-; by apply inb_true|].
  destruct (inb _ _DEADLINE_REASONS) eqn:Hd; [injection Hs as <-; by apply inb_true|].
  case_bool_decide as Hca; [by injection Hs as <-|].
  destruct stalled; [|done]. injection Hs as <-. exists ys, id, progress. auto.
Qed.

End turns.

(** ** The loop *)

Section loop.
Context {rt : Runtime} {sec : Security} {sv : SchemaValidator} {od : ObservationDecoder}.
Context {laws : RuntimeLaws rt}.
Context {W H : Type} {env : Environment W H} {dr : Driver W}.
Context (cfg : ControllerConfig H) (s0 : session W).
Context (Henv : validate_ExecutionEnvelope (cc_envelope cfg) = Ok tt).
Context (Hreg : capability_wf (cc_registry cfg)) (Hfresh : fresh_session cfg s0).
Context (rules : TargetRuleRegistry) (Hrules : registry_wf rule_key rules).
Context (plan : FixedProbePlan) (Heffects : effects_identified (cc_envelope cfg)).
Context (Hsteps : Forall (λ step, validate_request (fs_request step) = Ok tt) (fp_steps plan)).
Context (Hdigests : Forall (λ step, is_Ok (probe_request_sha256 (fs_request step))) (fp_steps plan)).
Context (H64 : (length (fp_steps plan) ≤ 64)%nat).

#[local] Abbreviation envelope := (cc_envelope cfg).
#[local] Abbreviation known_after := (evaluation_after envelope rules).

(** Why the loop raises. *)
Inductive plan_raised : exn → Prop :=
  | raised_emitter e : emitter_raises e → plan_raised e
  | raised_probe xs s1 request e s2 :
      probed cfg s0 xs s1 → map fst xs ++ [request] `prefix_of` map fs_request (fp_steps plan) →
      execute cfg request s1 = (Raise e, s2) → plan_raised e
  | raised_identifiers xs s1 :
      probed cfg s0 xs s1 → map fst xs `prefix_of` map fs_request (fp_steps plan) →
      identifiers_collide cfg rules xs → plan_raised collision_error.

(** The loop between two turns. *)
Record followed (s : session W) (run : fixed_run)
  (xs : list (ProbeRequest * ProbeExecution)) (attempts : list EvidenceAttempt) : Prop := {
  fo_pursued : pursued cfg s0 rules s (fr_engine run) xs attempts;
  fo_counted : Forall (counted (length xs))
    [fr_processed run; fr_unsupported run; fr_unavailable run; fr_redundant run;
     fr_duplicate run];
  fo_known : ∀ id progress, dict_get id (fr_request_progress run) = Some progress →
    known_before envelope rules xs id progress;
}.

(** A turn of the loop that returned. *)
Record turned (step : FixedProbeStep) (xs : list (ProbeRequest * ProbeExecution))
  (ending : fixed_ending) (s : session W) (x : ProbeExecution) (ev : CoreEvaluation) : Prop := {
  tu_followed : ∃ attempts, followed s (fe_run ending) (xs ++ [(fs_request step, x)]) attempts;
  tu_known : known_after (xs ++ [(fs_request step, x)]) (S (length xs)) ev;
  tu_open : fe_stop_reason ending = None →
    cs_terminal_execution (ss_state s) = None ∧ ar_stop_reason (px_audit x) ∉ TERMINAL_REASONS;
  tu_stopped : ∀ reason, fe_stop_reason ending = Some reason →
    stopped_for envelope rules plan (xs ++ [(fs_request step, x)]) step x ev reason;
  tu_sufficient : fe_stop_reason ending = Some Fixed_SUFFICIENT_EVIDENCE
    ↔ ce_classification ev ∈ fp_sufficient_classifications plan;
  tu_exhausted : fe_stop_reason ending ≠ Some Fixed_PLAN_EXHAUSTED;
  tu_time : fe_sufficient ending =
    if bool_decide (fe_stop_reason ending = Some Fixed_SUFFICIENT_EVIDENCE)
    then Some (ar_sequence (px_audit x), ar_session_elapsed_ms (px_audit x)) else None;
}.

Lemma stop_after_exhausted step a decision c stalled :
  stop_after plan step a decision c stalled ≠ Some Fixed_PLAN_EXHAUSTED.
Proof. unfold stop_after. repeat case_match; done. Qed.

Lemma measured_followed s s' run engine xs attempts attempts' request x decision id repeated
  stalled ev progress :
  followed s run xs attempts →
  pursued cfg s0 rules s' engine (xs ++ [(request, x)]) attempts' →
  ar_sequence (px_audit x) = Z.of_nat (S (length xs)) →
  probe_request_sha256 request = Ok id →
  known_after (xs ++ [(request, x)]) (S (length xs)) ev →
  _progress_sha256 ev = Ok progress →
  followed s' (measured run engine (px_audit x) decision id repeated stalled progress)
    (xs ++ [(request, x)]) attempts'.
Proof.
  intros [_ Hc Hk] Hp Hseq Hid Hev Hprog. split; [done| |].
  - rewrite length_app. cbn [length]. rewrite Nat.add_1_r.
    cbn [measured fr_processed fr_unsupported fr_unavailable fr_redundant fr_duplicate].
    rewrite Hseq. change (set_add (Z.of_nat (S (length xs))) (fr_processed run))
      with (set_add_if true (Z.of_nat (S (length xs))) (fr_processed run)).
    apply (Forall_impl _ (counted (S (length xs)))) in Hc; [|intros; by apply counted_more].
    rewrite !Forall_cons in Hc. destruct Hc as (H1 & H2 & H3 & H4 & H5 & _).
    repeat apply Forall_cons_2; try apply Forall_nil_2; by repeat apply counted_add_if.
  - intros id' p. cbn [measured fr_request_progress].
    destruct (decide (id' = id)) as [->|Hd].
    + rewrite dict_get_set_eq. intros [= <-]. exists (length xs), request, x, ev.
      rewrite lookup_app_r, Nat.sub_diag by done. done.
    + rewrite dict_get_set_ne by done. intros Hg. by apply known_before_app, Hk.
Qed.

Lemma wp_turn done step rest run s xs attempts
  (Q : result exn fixed_ending → session W → Prop) :
  fp_steps plan = done ++ step :: rest → map fst xs = map fs_request done →
  followed s run xs attempts → cs_terminal_execution (ss_state s) = None →
  (∀ ending s' x ev, turned step xs ending s' x ev → Q (Ok ending) s') →
  (∀ e s', plan_raised e → Q (Raise e) s') →
  wp (execute_step cfg plan (Z.of_nat (S (length xs))) step run) Q s.
Proof.
  intros Hplan Hxs Hf Ht Hok Hraise.
  assert (length xs = length done) as Hlen
    by (by rewrite <-(length_map fst), Hxs, length_map).
  assert (length (fp_steps plan) = length done + S (length rest))%nat as Hall
    by (by rewrite Hplan, length_app).
  assert (step ∈ fp_steps plan) as Hin by (rewrite Hplan; set_solver).
  assert (map fst xs ++ [fs_request step] `prefix_of` map fs_request (fp_steps plan)) as Hpre.
  { exists (map fs_request rest). by rewrite Hxs, Hplan, map_app, <-app_assoc. }
  assert (validate_request (fs_request step) = Ok tt) as Hreq
    by (rewrite Forall_forall in Hsteps; by apply Hsteps).
  assert (is_Ok (probe_request_sha256 (fs_request step))) as [id0 Hid0]%is_Ok_inv
    by (rewrite Forall_forall in Hdigests; by apply Hdigests).
  unfold execute_step. apply wp_bind, wp_lift; [|by rewrite Hid0].
  intros id Hid. apply wp_bind, wp_emit.
  { intros t. apply requested_event; [done|lia]. }
  2: { intros e s1 _ He. by apply Hraise, raised_emitter. }
  intros s1 Hq1. destruct Hf as [Hp Hc Hk]. apply (pursued_quiet _ _ _ _ _ _ _ _ Hq1) in Hp.
  rewrite <-(quiet_open _ _ Hq1) in Ht. clear s Hq1.
  apply wp_bind, wp_execution.
  2: { intros s2 e s3 Hq2 Hx. apply Hraise. eapply raised_probe; [|exact Hpre|exact Hx].
       eapply probed_quiet; [|exact Hq2]. apply Hp. }
  intros s2 x s3 s4 Hq2 Hx Hq4. apply (pursued_quiet _ _ _ _ _ _ _ _ Hq2) in Hp.
  rewrite <-(quiet_open _ _ Hq2) in Ht. clear s1 Hq2.
  destruct (pursued_probe cfg s0 Henv Hreg Hfresh rules _ _ _ _ _ _ _ _ Hp Ht
    ltac:(by rewrite Hid) Hx Hq4) as (Hseq & Haud & _).
  assert (inb (ar_sequence (px_audit x)) (fr_processed run) = false) as ->.
  { apply inb_false. rewrite Hseq. intros Hr. apply Forall_inv in Hc as [_ Hc].
    rewrite Forall_forall in Hc. specialize (Hc _ Hr). cbn in Hc. lia. }
  apply wp_bind. eapply (wp_processed_probe cfg s0 Henv Hreg Hfresh rules);
    [exact Hp|exact Ht|by rewrite Hid|lia|exact Hx|exact Hq4| |].
  2: { intros Hcol. apply Hraise. eapply raised_identifiers; [| |exact Hcol].
       - eapply probed_quiet; [|exact Hq4]. eapply probed_snoc; [apply Hp|done|exact Hx].
       - by rewrite map_app. }
  intros a a' g' l Hp' Hded Hlast. apply wp_bind, (wp_emit_processed cfg Henv); [done|lia|done| |].
  2: { intros e s5 He. by apply Hraise, raised_emitter. }
  intros s5 Hq5. apply (pursued_quiet _ _ _ _ _ _ _ _ Hq5) in Hp'.
  destruct (is_Ok_inv _ (progress_digest envelope l Heffects)) as [progress Hprog].
  apply wp_bind, wp_lift; [|by rewrite Hprog]. intros p Hp0. rewrite Hprog in Hp0.
  injection Hp0 as <-. apply wp_ret.
  assert (known_after (xs ++ [(fs_request step, x)]) (S (length xs)) (core_result envelope l))
    as Hev.
  { pose proof (evaluation_after_all _ _ _ _ _ _ (pu_processed _ _ _ _ _ _ _ Hp') Hded) as Hev.
    by rewrite length_app, Nat.add_1_r in Hev. }
  set (stalled := bool_decide _).
  eapply (Hok _ _ x (core_result envelope l)). split; cbn [fe_run fe_stop_reason fe_sufficient].
  - exists (attempts ++ [a]).
    apply (measured_followed s2 _ run g' xs attempts _ _ _ _ _ _ _ (core_result envelope l));
      [by split|exact Hp'|done..].
  - done.
  - intros [_ Hnt]%stop_after_none. split; [|done].
    rewrite (quiet_open _ _ Hq5), (quiet_open _ _ Hq4).
    pose proof (probed_snoc _ _ _ _ _ _ _ (pu_probed _ _ _ _ _ _ _ Hp) Ht Hx) as Hrun.
    destruct Hfresh as (Hs0 & _ & _ & Hn0 & _).
    rewrite (probed_latch cfg Hreg _ _ _ Hs0 Hrun Hn0), last_snoc. unfold is_terminal.
    by rewrite (proj2 (inb_false _ _) Hnt).
  - intros reason Hs. eapply stop_after_holds; [exact Hs|exact Hlast|exact Hid|exact Hprog|].
    intros Hst. apply Hk. by apply bool_decide_eq_true in Hst.
  - apply stop_after_sufficient.
  - apply stop_after_exhausted.
  - done.
Qed.

(** The loop, when it returned: [ys] are its probes before the last one. *)
Record ended (ending : fixed_ending) (s : session W)
  (ys : list (ProbeRequest * ProbeExecution)) (step : FixedProbeStep) (x : ProbeExecution)
  (ev : CoreEvaluation) : Prop := {
  ed_followed : ∃ attempts, followed s (fe_run ending) (ys ++ [(fs_request step, x)]) attempts;
  ed_planned : ∃ done rest, fp_steps plan = done ++ step :: rest
    ∧ map fst ys = map fs_request done;
  ed_known : known_after (ys ++ [(fs_request step, x)]) (S (length ys)) ev;
  ed_insufficient : ∀ n ev', (0 < n ≤ length ys)%nat → known_after ys n ev' →
    ce_classification ev' ∉ fp_sufficient_classifications plan;
  ed_stopped : stopped_for envelope rules plan (ys ++ [(fs_request step, x)]) step x ev
    (default Fixed_PLAN_EXHAUSTED (fe_stop_reason ending));
  ed_sufficient : default Fixed_PLAN_EXHAUSTED (fe_stop_reason ending) = Fixed_SUFFICIENT_EVIDENCE
    ↔ ce_classification ev ∈ fp_sufficient_classifications plan;
  ed_time : fe_sufficient ending =
    if bool_decide (default Fixed_PLAN_EXHAUSTED (fe_stop_reason ending)
                    = Fixed_SUFFICIENT_EVIDENCE)
    then Some (ar_sequence (px_audit x), ar_session_elapsed_ms (px_audit x)) else None;
}.

(** A turn that stopped ends the loop. *)
Lemma turned_ended done step rest xs ending s x ev reason :
  fp_steps plan = done ++ step :: rest → map fst xs = map fs_request done →
  (∀ n ev', (0 < n ≤ length xs)%nat → known_after xs n ev' →
    ce_classification ev' ∉ fp_sufficient_classifications plan) →
  turned step xs ending s x ev → fe_stop_reason ending = Some reason →
  ended ending s xs step x ev.
Proof.
  intros Hplan Hxs Hins [H1 H2 _ H4 H5 _ H7] Hr. split; try done.
  - by exists done, rest.
  - rewrite Hr. by apply H4.
  - rewrite <-H5, Hr. cbn. split; [by intros ->|by intros [= ->]].
  - rewrite H7, Hr. cbn. by rewrite (bool_decide_ext (Some reason = _) (reason = Fixed_SUFFICIENT_EVIDENCE))
      by (split; [by intros [= ->]|by intros ->]).
Qed.

(** So does the last step of the plan. *)
Lemma turned_exhausted done step xs ending s x ev :
  fp_steps plan = done ++ [step] → map fst xs = map fs_request done →
  (∀ n ev', (0 < n ≤ length xs)%nat → known_after xs n ev' →
    ce_classification ev' ∉ fp_sufficient_classifications plan) →
  turned step xs ending s x ev → fe_stop_reason ending = None →
  ended {| fe_run := fe_run ending; fe_stop_reason := None; fe_sufficient := None |}
    s xs step x ev.
Proof.
  intros Hplan Hxs Hins [H1 H2 H3 _ H5 _ _] Hr.
  split; try done; cbn [fe_stop_reason default].
  - by exists done, [].
  - split; [|by apply H3]. rewrite Hplan, !length_app, <-(length_map fst xs), Hxs, length_map.
    done.
  - rewrite <-H5, Hr. done.
Qed.

(** An insufficient turn goes on. *)
Lemma turned_insufficient step xs ending s x ev n ev' :
  (∀ n ev', (0 < n ≤ length xs)%nat → known_after xs n ev' →
    ce_classification ev' ∉ fp_sufficient_classifications plan) →
  turned step xs ending s x ev → fe_stop_reason ending = None →
  (0 < n ≤ length (xs ++ [(fs_request step, x)]))%nat →
  known_after (xs ++ [(fs_request step, x)]) n ev' →
  ce_classification ev' ∉ fp_sufficient_classifications plan.
Proof.
  intros Hins [_ H2 _ _ H5 _ _] Hr Hn Hev. rewrite length_app in Hn. cbn in Hn.
  destruct (decide (n = S (length xs))) as [->|Hne].
  - destruct Hev as (g & a & l & Ha & Hl & ->), H2 as (g' & a' & l' & Ha' & Hl' & ->).
    rewrite Ha in Ha'. injection Ha' as <- <-. rewrite Hl in Hl'. injection Hl' as <-.
    rewrite <-H5, Hr. done.
  - apply evaluation_after_app in Hev; [|lia]. apply (Hins n); [lia|done].
Qed.

Lemma wp_steps (Q : result exn fixed_ending → session W → Prop) rest done step run s xs attempts :
  fp_steps plan = done ++ step :: rest → map fst xs = map fs_request done →
  followed s run xs attempts → cs_terminal_execution (ss_state s) = None →
  (∀ n ev', (0 < n ≤ length xs)%nat → known_after xs n ev' →
    ce_classification ev' ∉ fp_sufficient_classifications plan) →
  (∀ ending s' ys step' x ev, ended ending s' ys step' x ev → Q (Ok ending) s') →
  (∀ e s', plan_raised e → Q (Raise e) s') →
  wp (execute_steps cfg plan (Z.of_nat (S (length xs))) (step :: rest) run) Q s.
Proof.
  revert done step run s xs attempts.
  induction rest as [|step' rest IH]; intros done step run s xs attempts Hplan Hxs Hf Ht Hins Hok He;
    cbn [execute_steps]; (eapply wp_bind, (wp_turn done);
      [exact Hplan|exact Hxs|exact Hf|exact Ht| |exact He]); intros ending s' x ev Hturn;
    destruct (fe_stop_reason ending) as [reason|] eqn:Hr.
  1, 3: eapply wp_ret, Hok, turned_ended; done.
  - eapply wp_ret, Hok, turned_exhausted; done.
  - replace (Z.of_nat (S (length xs)) + 1)
      with (Z.of_nat (S (length (xs ++ [(fs_request step, x)]))))
      by (rewrite length_app; cbn; lia).
    destruct (tu_followed _ _ _ _ _ _ Hturn) as [attempts' Hf'].
    apply (IH (done ++ [step]) step' (fe_run ending) s' _ attempts'); try done.
    + by rewrite Hplan, <-app_assoc.
    + by rewrite !map_app, Hxs.
    + by apply (tu_open _ _ _ _ _ _ Hturn).
    + intros n ev' Hn Hev. by eapply turned_insufficient.
Qed.

(** ** The end of a plan *)

Context (revision : Z) (Hrevision : 0 ≤ revision) (more : list string).
Context (Hmore : (length more ≤ 63)%nat).

(** Why an execution with a controller raises: a step raised; or, when the probes
    are done, the revision is too long, the clock then reads a time before the
    ambiguity was observed, or a limitation cannot be sanitized. *)
Inductive plan_fails : exn → Prop :=
  | fails_raised e : plan_raised e → plan_fails e
  | fails_revision :
      int64_max < revision → plan_fails (Exn_error (ValueError "revision is outside its range"))
  | fails_clock xs s1 updated_at w :
      probed cfg s0 xs s1 → map fst xs `prefix_of` map fs_request (fp_steps plan) →
      now (ss_world s1) = (updated_at, w) → revision ≤ int64_max →
      updated_at < ae_observed_at (en_ambiguity envelope) →
      plan_fails (Exn_error (ValueError "report update cannot precede creation"))
  | fails_limitation limitation e :
      limitation ∈ "No mutation was retried or compensated." :: more →
      validate_SanitizedText limitation = Raise e → plan_fails (Exn_error e).

Lemma report_valid g audits created updated r :
  report g audits created updated revision None = Ok r →
  created ≤ updated ∧ revision ≤ int64_max ∧ model_validate_report r = Ok r.
Proof.
  unfold report, build_report. intros Hr. inv_ok. pose proof Hr as Hv.
  unfold model_validate_report in Hv. inv_ok. subst r. split_and!; [| |exact Hr].
  all: unfold model_validate_report, validate_bounds, validate_references, validate_status in Hr;
    inv_ok; bool_simpl; cbn [ir_updated_at ir_created_at ir_revision] in *;
    rewrite in_range_true in *; lia.
Qed.

(** Limitations change nothing else, and the report stays valid. *)
Lemma with_limitations_ok r r' :
  model_validate_report r = Ok r → ir_advisory_explanation r = None →
  with_limitations r more = Ok r' →
  model_validate_report r' = Ok r' ∧ ir_classification r' = ir_classification r ∧
  ir_action_gate r' = ir_action_gate r ∧ ir_missing_evidence r' = ir_missing_evidence r.
Proof.
  intros Hr Ha. unfold with_limitations. destruct more; [by intros [= <-]|].
  rewrite Ha. intros Hw. inv_ok. pose proof Hw as Hv. unfold model_validate_report in Hv.
  inv_ok. subst r'. done.
Qed.

(** They are refused for a text that cannot be sanitized. *)
Lemma with_limitations_refused r err :
  model_validate_report r = Ok r → ir_advisory_explanation r = None →
  ir_limitations r = ["No mutation was retried or compensated."] → with_limitations r more = Raise err →
  ∃ limitation, limitation ∈ "No mutation was retried or compensated." :: more ∧
    validate_SanitizedText limitation = Raise err.
Proof.
  intros Hr Ha Hl. pose proof Hmore as Hlen. unfold with_limitations.
  destruct more as [|m rest]; [done|].
  rewrite Ha, Hl. cbn [app]. destruct (mapM validate_SanitizedText _) as [limits|e] eqn:Hm.
  - cbn [mbind result_bind]. intros Hw. exfalso. apply mapM_Ok, Forall2_length in Hm.
    cbn [length] in Hm, Hlen. pose proof (model_validate_limited r r limits Hr ltac:(lia)) as Hv.
    unfold limited in Hv. by rewrite Ha, Hw in Hv.
  - intros [= <-]. by eapply mapM_Raise.
Qed.

(** The measurements are accepted by the result. *)
Lemma result_made ending s ys step x ev report :
  ended ending s ys step x ev → audit_ok cfg (px_audit x) →
  ar_sequence (px_audit x) = Z.of_nat (S (length ys)) →
  model_validate_report report = Ok report → is_some (ir_classification report) = true →
  let result := result_of report plan (default Fixed_PLAN_EXHAUSTED (fe_stop_reason ending))
    ending (Z.of_nat (S (length ys))) (px_audit x) in
  make_result result plan = Ok result.
Proof.
  intros [(attempts & Hf) (done_ & rest & Hplan & Hys) _ _ _ _ Ht] Ha Hseq Hv Hc result.
  assert (S (length ys) ≤ length (fp_steps plan))%nat as Hlen.
  { rewrite Hplan, length_app. cbn. rewrite <-(length_map fst ys), Hys, length_map. lia. }
  pose proof (audit_counters _ (au_valid _ _ Ha)) as (_ & H1 & H2 & H3 & H4 & _).
  rewrite in_range_true in *. pose proof (fo_counted _ _ _ _ Hf) as Hcount.
  rewrite !Forall_cons, length_app in Hcount. cbn [length] in Hcount.
  destruct Hcount as (_ & C1%counted_length & C2%counted_length & C3%counted_length
    & C4%counted_length & _).
  unfold make_result, result, result_of.
  cbn -[existsb Z.of_nat Bool.eqb bool_decide int64_max].
  rewrite Ht, Hv. cbn [existsb].
  rewrite !(proj2 (Z.ltb_ge _ _)) by lia. cbn -[bool_decide Z.of_nat].
  case_bool_decide; cbn -[Z.of_nat].
  - rewrite Hseq, (proj2 (in_range_true _ _ _)) by lia. cbn -[Z.of_nat].
    rewrite (proj2 (Z.ltb_ge _ _)) by lia. cbn. unfold is_some in Hc.
    apply negb_true_iff in Hc. by rewrite Hc.
  - unfold is_some in Hc. apply negb_true_iff in Hc. by rewrite Hc.
Qed.

(** What a result says of its session: [ys] are the probes before the last one, which
    is [x], the answer to [step]. *)
Record plan_answer (s : session W) (ys : list (ProbeRequest * ProbeExecution))
  (step : FixedProbeStep) (x : ProbeExecution) (retained : list EvidenceAttempt)
  (result : FixedBaselineResult) : Prop := {
  pa_probed : probed cfg s0 (ys ++ [(fs_request step, x)]) s;
  pa_planned : ∃ done rest, fp_steps plan = done ++ step :: rest
    ∧ map fst ys = map fs_request done;
  pa_processed : ∃ g attempts, process_all (new_engine envelope rules)
      (map run_of (ys ++ [(fs_request step, x)])) = (g, Ok attempts)
    ∧ deduplicate_attempts attempts = Ok retained;
  pa_report : ∃ updated_at,
    with_limitations (core_report envelope (audits_of (ys ++ [(fs_request step, x)])) retained
      (ae_observed_at (en_ambiguity envelope)) updated_at revision None) more
    = Ok (fb_report result);
  pa_plan : fb_plan_sha256 result = fp_sha256 plan
    ∧ fb_planned_probe_count result = Z.of_nat (length (fp_steps plan));
  pa_measured : fb_attempted_probe_count result = Z.of_nat (S (length ys))
    ∧ fb_probe_count_used result = ar_probe_count_used (px_audit x)
    ∧ fb_cost_units_used result = ar_cost_units_used (px_audit x)
    ∧ fb_result_bytes_acquired result = ar_result_bytes_acquired (px_audit x)
    ∧ fb_total_elapsed_ms result = ar_session_elapsed_ms (px_audit x);
  pa_insufficient : ∀ n ev, (0 < n ≤ length ys)%nat → known_after ys n ev →
    ce_classification ev ∉ fp_sufficient_classifications plan;
  pa_sufficient : fb_stop_reason result = Fixed_SUFFICIENT_EVIDENCE
    ↔ core_class envelope retained ∈ fp_sufficient_classifications plan;
  pa_stopped : stopped_for envelope rules plan (ys ++ [(fs_request step, x)]) step x
    (core_result envelope retained) (fb_stop_reason result);
  pa_time : fb_sufficient_probe_sequence result =
    if bool_decide (fb_stop_reason result = Fixed_SUFFICIENT_EVIDENCE)
    then Some (Z.of_nat (S (length ys))) else None;
}.

Lemma ended_retained ending s ys step x ev :
  ended ending s ys step x ev →
  ∃ attempts retained, pursued cfg s0 rules s (fr_engine (fe_run ending))
      (ys ++ [(fs_request step, x)]) attempts ∧
    deduplicate_attempts attempts = Ok retained ∧ ev = core_result envelope retained.
Proof.
  intros [(attempts & Hf) _ (g & a & l & Ha & Hl & ->) _ _ _ _].
  pose proof (pu_processed _ _ _ _ _ _ _ (fo_pursued _ _ _ _ Hf)) as Ha'.
  rewrite take_ge in Ha by (rewrite length_app; cbn; lia).
  rewrite Ha in Ha'. injection Ha' as -> ->. exists attempts, l.
  split_and!; [apply Hf|done|done].
Qed.

Lemma ended_quiet ending s s' ys step x ev :
  quiet s s' → ended ending s ys step x ev → ended ending s' ys step x ev.
Proof.
  intros Hq [(attempts & [Hp Hc Hk]) H2 H3 H4 H5 H6 H7]. split; try done.
  exists attempts. split; [by eapply pursued_quiet|done|done].
Qed.

Lemma ended_last ending s ys step x ev :
  ended ending s ys step x ev →
  cs_audit (ss_state s) = audits_of (ys ++ [(fs_request step, x)]) ∧
  ar_sequence (px_audit x) = Z.of_nat (S (length ys)) ∧ audit_ok cfg (px_audit x).
Proof.
  intros (attempts & l & Hp & _)%ended_retained.
  destruct (pursued_length _ _ Hreg Hfresh _ _ _ _ _ Hp) as [_ Ha].
  destruct (fresh_probed cfg Hreg _ _ _ Hfresh (pu_probed _ _ _ _ _ _ _ Hp))
    as (_ & _ & Hseq & _ & Hok).
  unfold audits_of in Hseq, Hok. rewrite map_app in Hseq, Hok.
  apply Forall_app in Hok as [_ Hok]. apply Forall_inv in Hok.
  split_and!; [done| |exact Hok].
  rewrite map_app, length_app, length_map in Hseq. cbn [map length snd] in Hseq.
  rewrite Nat.add_1_r, one_to_S in Hseq. by apply app_inj_tail in Hseq as [_ ?].
Qed.

Lemma ended_answer ending s ys step x ev retained updated_at report :
  ended ending s ys step x ev → ev = core_result envelope retained →
  (∃ g attempts, process_all (new_engine envelope rules)
      (map run_of (ys ++ [(fs_request step, x)])) = (g, Ok attempts)
    ∧ deduplicate_attempts attempts = Ok retained) →
  with_limitations (core_report envelope (audits_of (ys ++ [(fs_request step, x)])) retained
    (ae_observed_at (en_ambiguity envelope)) updated_at revision None) more = Ok report →
  plan_answer s ys step x retained (result_of report plan
    (default Fixed_PLAN_EXHAUSTED (fe_stop_reason ending)) ending
    (Z.of_nat (S (length ys))) (px_audit x)).
Proof.
  intros Hend -> Hall Hrep. pose proof (ended_last _ _ _ _ _ _ Hend) as (_ & Hseq & _).
  destruct Hend as [(attempts & Hf) H2 H3 H4 H5 H6 H7]. split; try done.
  - apply Hf.
  - by exists updated_at.
  - cbn. rewrite H7. case_bool_decide; [by rewrite Hseq|done].
Qed.

Lemma wp_conclude ending s ys step x ev (Q : result exn FixedBaselineResult → session W → Prop) :
  ended ending s ys step x ev →
  (∀ result retained s', plan_answer s' ys step x retained result → Q (Ok result) s') →
  (∀ e s', plan_fails e → Q (Raise e) s') →
  wp (conclude_plan cfg plan revision more ending) Q s.
Proof.
  intros Hend Hok He. destruct (ended_last _ _ _ _ _ _ Hend) as (Ha & Hseq & Haud).
  destruct (ended_retained _ _ _ _ _ _ Hend) as (attempts & l & Hp & Hded & Hev).
  destruct (pursued_length _ _ Hreg Hfresh _ _ _ _ _ Hp) as [Hlen _].
  assert (length attempts ≤ 64)%nat as Hle.
  { destruct (ed_planned _ _ _ _ _ _ Hend) as (done_ & rest & Hplan & Hys).
    rewrite Hlen, length_app, <-(length_map fst ys), Hys, length_map. cbn.
    rewrite Hplan, length_app in H64. cbn in H64. lia. }
  unfold conclude_plan. apply wp_bind, wp_gets. rewrite Ha.
  unfold audits_of at 1. rewrite map_app. cbn [map]. rewrite last_snoc. cbn [snd].
  apply wp_bind, wp_ask. intros updated_at w Hnow.
  pose proof (quiet_world s w) as Hq. set (s1 := {| ss_world := w |}) in *.
  destruct (decide (ae_observed_at (en_ambiguity envelope) ≤ updated_at ∧ revision ≤ int64_max))
    as [[Htime Hrev]|Hbad].
  2: { apply (pursued_quiet _ _ _ _ _ _ _ _ Hq) in Hp as Hp1.
       destruct (session_reported cfg s0 s1 _ Henv Hreg Hfresh (pu_probed _ _ _ _ _ _ _ Hp1) _ _
         0 0 0 (pu_engine _ _ _ _ _ _ _ Hp1) (pu_ids _ _ _ _ _ _ _ Hp1) Hle
         (Z.le_refl 0) eq_refl) as (l0 & _ & _ & _ & Hrep0).
       specialize (Hrep0 None None eq_refl). rewrite (quiet_audit _ _ Hq), Ha in Hrep0.
       destruct (ed_planned _ _ _ _ _ _ Hend) as (done_ & rest & Hplan & Hys).
       apply wp_bind, wp_lift.
       - intros r Hr. apply report_valid in Hr. tauto.
       - intros e Hx. rewrite (report_retimed _ _ _ _ _ _ _ _ _ _ Hrep0) in Hx.
         unfold times_checked in Hx. destruct (in_range 0 revision int64_max) eqn:Hin.
         + apply in_range_true in Hin. cbn [negb reject_if mbind result_bind] in Hx.
           destruct (updated_at <? _) eqn:Hlt; [|done]. injection Hx as <-. apply Z.ltb_lt in Hlt.
           apply He. eapply (fails_clock _ s); [apply Hp| |exact Hnow|lia|exact Hlt].
           rewrite map_app, Hys, Hplan, map_app. apply prefix_app.
           cbn [map fst]. by exists (map fs_request rest).
         + injection Hx as <-. apply He, fails_revision. apply Z.nle_gt. intros Hn.
           rewrite (proj2 (in_range_true _ _ _)) in Hin by lia. done. }
  apply (pursued_quiet _ _ _ _ _ _ _ _ Hq) in Hp. apply (ended_quiet _ _ _ _ _ _ _ Hq) in Hend.
  destruct (session_reported cfg s0 s1 _ Henv Hreg Hfresh (pu_probed _ _ _ _ _ _ _ Hp) _ _
    (ae_observed_at (en_ambiguity envelope)) updated_at revision
    (pu_engine _ _ _ _ _ _ _ Hp) (pu_ids _ _ _ _ _ _ _ Hp) Hle Htime
    ltac:(apply in_range_true; lia)) as (l' & Hded' & _ & _ & Hrep).
  rewrite Hded in Hded'. injection Hded' as <-. specialize (Hrep None None eq_refl).
  rewrite (quiet_audit _ _ Hq), Ha in Hrep.
  apply wp_bind, wp_lift; [|by rewrite Hrep]. intros r Hr. rewrite Hrep in Hr.
  injection Hr as <-. apply report_valid in Hrep as (_ & _ & Hval).
  apply wp_bind, wp_lift.
  2: { intros e (limitation & Hin & Hx)%with_limitations_refused; [|done..].
       by eapply He, fails_limitation. }
  intros r Hr.
  destruct (with_limitations_ok _ _ Hval eq_refl Hr) as (Hvr & Hc & Hg & Hm).
  assert (Z.of_nat (length (audits_of (ys ++ [(fs_request step, x)])))
    = Z.of_nat (S (length ys))) as -> by (unfold audits_of; rewrite length_map, length_app; cbn; lia).
  apply wp_bind, wp_lift; rewrite (result_made ending s1 ys step x ev r) by (rewrite ?Hc; done);
    [|done]. intros result [= <-].
  apply wp_bind, wp_emit_state.
  - rewrite Hc, Hg, Hm. destruct (progress_state_ok envelope l) as (allowed & escalation & Hst).
    eexists. split; [exact Hst|]. intros t. by apply ended_event.
  - intros s2 Hq2. apply wp_ret. eapply (Hok _ l), (ended_answer _ _ _ _ _ _ _ updated_at);
      [by eapply ended_quiet|done| |exact Hr].
    exists (fr_engine (fe_run ending)), attempts. split; [apply Hp|done].
  - intros e s2 _ Hem. by apply He, fails_raised, raised_emitter.
Qed.

Lemma wp_drive (Q : result exn FixedBaselineResult → session W → Prop) :
  fp_steps plan ≠ [] →
  (∀ result ys step x retained s', plan_answer s' ys step x retained result → Q (Ok result) s') →
  (∀ e s', plan_fails e → Q (Raise e) s') →
  wp (drive_plan cfg rules plan revision more) Q s0.
Proof.
  intros Hne Hok He. unfold drive_plan. apply wp_bind, wp_emit.
  - done.
  - intros s1 Hq. assert (∃ step rest, fp_steps plan = step :: rest) as (step & rest & Hplan)
      by (destruct (fp_steps plan); eauto; done).
    apply wp_bind. change 1 with (Z.of_nat (S (length (@nil (ProbeRequest * ProbeExecution))))).
    replace (fp_steps plan) with (step :: rest) by done.
    eapply (wp_steps _ rest [] step _ s1 [] []); try done.
    + split; [|repeat constructor|done].
      eapply pursued_quiet; [exact Hq|by apply pursued_start].
    + rewrite (quiet_open _ _ Hq). apply Hfresh.
    + cbn. lia.
    + intros ending s2 ys step' x ev Hend. eapply wp_conclude; [exact Hend| |exact He].
      intros result retained s3 Hans. by eapply Hok.
    + intros e s2 Hr. by apply He, fails_raised.
  - intros e s1 _ Hem. by apply He, fails_raised, raised_emitter.
Qed.

End loop.

(** ** The promises *)

Section promises.
Context {rt : Runtime} {sec : Security} {sv : SchemaValidator} {od : ObservationDecoder}.
Context {laws : RuntimeLaws rt}.
Context {W H : Type} {env : Environment W H} {dr : Driver W}.

(** A plan made by the constructors of its steps and its own. *)
Definition sealed_plan (plan : FixedProbePlan) : Prop :=
  ∃ name version steps classifications,
    make_plan name version steps classifications = Ok plan ∧
    Forall (λ step, ∃ request required, make_step request required = Ok step) steps.

(** What a request's entry in a plan's digest says of the request's own. *)
Lemma entry_digest depth step :
  validate_request (fs_request step) = Ok tt →
  validate_json depth (step_material step) = Ok tt →
  is_Ok (probe_request_sha256 (fs_request step)).
Proof.
  intros Hr Hm. unfold step_material in Hm. apply validate_json_object in Hm as (_ & _ & Hm).
  apply Forall_inv in Hm as (_ & _ & Hm). cbn [snd] in Hm.
  unfold to_json, ProbeRequest_json in Hm. apply validate_json_object in Hm as (_ & _ & Hm).
  rewrite !Forall_cons in Hm. destruct Hm as (_ & Hn & Hv & He & Ha & _).
  unfold probe_request_sha256, canonical_json_value_bytes. rewrite Hr. cbn [mbind result_bind].
  assert (validate_json 0 (probe_request_identity (fs_request step)) = Ok tt) as ->; [|done].
  destruct Hn as (_ & _ & Hn), Hv as (_ & _ & Hv), He as (_ & _ & He), Ha as (_ & _ & Ha).
  cbn [snd] in *. unfold to_json, list_to_json in He. apply validate_json_array in He as [_ He].
  apply validate_json_object. split; [lia|]. split; [cbn; lia|].
  repeat apply Forall_cons_2; try apply Forall_nil_2;
    (split_and!; [reflexivity|by apply printable_text|cbn [snd]]).
  - eapply validate_json_shallower, Ha. lia.
  - eapply validate_json_shallower, Hn. lia.
  - eapply validate_json_shallower, Hv. lia.
  - apply validate_json_array. split; [lia|]. rewrite sorted_strings_perm.
    rewrite Forall_map in He |- *. eapply Forall_impl; [exact He|]. intros id Hid.
    eapply validate_json_shallower, Hid. lia.
Qed.

Lemma sealed_steps plan : sealed_plan plan →
  fp_steps plan ≠ [] ∧ (length (fp_steps plan) ≤ 64)%nat ∧
  Forall (λ step, validate_request (fs_request step) = Ok tt) (fp_steps plan) ∧
  Forall (λ step, is_Ok (probe_request_sha256 (fs_request step))) (fp_steps plan).
Proof.
  intros (name & version & steps & cs & Hmake & Hsteps). unfold make_plan in Hmake.
  inv_ok. bool_simpl. subst plan. cbn [fp_steps]. rewrite in_range_true in *.
  assert (Forall (λ step, validate_request (fs_request step) = Ok tt) steps) as Hreq.
  { eapply Forall_impl; [exact Hsteps|]. intros step (request & required & Hmade).
    unfold make_step in Hmade. inv_ok. by subst step. }
  split_and!; [intros ->; cbn in *; lia|lia|done|].
  match goal with Hx : canonical_json_value_bytes _ = Ok _ |- _ => rename Hx into Hm end.
  unfold canonical_json_value_bytes in Hm. inv_ok.
  match goal with Hx : validate_json 0 _ = Ok _ |- _ => rename Hx into Hv end.
  apply validate_json_object in Hv as (_ & _ & Hv). apply Forall_cons in Hv as [_ Hv].
  apply Forall_inv in Hv as (_ & _ & Hv). apply validate_json_array in Hv as [_ Hv].
  rewrite Forall_map in Hv. rewrite Forall_forall in Hv, Hreq |- *. intros step Hin.
  by eapply entry_digest; [apply Hreq|apply Hv].
Qed.

Lemma execute_fixed_plan_ok envelope (registry : @CapabilityRegistry H) rules plan revision more
  offset token w r s :
  capability_wf registry → registry_wf rule_key rules → sealed_plan plan →
  effects_identified envelope →
  execute_fixed_plan envelope registry rules plan revision more offset token w = (r, s) →
  match r with
  | Ok result => ∃ cfg s0 ys step x retained,
      new_controller envelope registry token offset w = (Ok cfg, s0) ∧
      plan_answer cfg s0 rules plan revision more s ys step x retained result
  | Raise e =>
      (∃ err, e = Exn_error err ∧
        ((revision < 0 ∧ err = ValueError "report revision must be a nonnegative integer")
         ∨ check_limitations more = Raise err
         ∨ validate_ExecutionEnvelope envelope = Raise err)) ∨
      (∃ s0, new_controller (H := H) envelope registry token offset w = (Raise e, s0)) ∨
      ∃ cfg s0, new_controller envelope registry token offset w = (Ok cfg, s0) ∧
        plan_fails cfg s0 rules plan revision more e
  end.
Proof.
  intros Hwf Hrules (Hne & H64 & Hsteps & Hdig)%sealed_steps Heff Hrun. unfold execute_fixed_plan in Hrun.
  destruct (revision <? 0) eqn:Hrev; cbn [reject_if mbind result_bind] in Hrun.
  { apply Z.ltb_lt in Hrev. injection Hrun as <- <-. left. eexists. split; [done|]. by left. }
  apply Z.ltb_ge in Hrev.
  destruct (check_limitations more) as [[]|err] eqn:Hmore; cbn [mbind result_bind] in Hrun;
    [|injection Hrun as <- <-; left; eexists; split; [done|]; auto].
  assert (length more ≤ 63)%nat as H63.
  { unfold check_limitations in Hmore. apply reject_then_ok in Hmore as [Hlen _].
    by apply Nat.ltb_ge in Hlen. }
  destruct (validate_ExecutionEnvelope envelope) as [[]|err] eqn:Henv;
    [|injection Hrun as <- <-; left; eexists; split; [done|]; auto].
  destruct (new_controller envelope registry token offset w) as [[cfg|e] s0] eqn:Hnew;
    [|injection Hrun as <- <-; right; left; by exists s0].
  pose proof (new_controller_ok _ _ _ _ _ _ _ Hwf Hnew) as (He & _ & Hv & Hreg & Hfresh).
  assert (wp (drive_plan cfg rules plan revision more) (λ r s, match r with
    | Ok result => ∃ ys step x retained,
        plan_answer cfg s0 rules plan revision more s ys step x retained result
    | Raise e => plan_fails cfg s0 rules plan revision more e end) s0) as Hwp.
  { apply (wp_drive cfg s0 Hv Hreg Hfresh rules Hrules plan); rewrite ?He; try done. eauto 10. }
  unfold wp in Hwp. rewrite Hrun in Hwp. cbn [fst snd] in Hwp. destruct r as [result|e].
  - destruct Hwp as (ys & step & x & retained & Hans). by exists cfg, s0, ys, step, x, retained.
  - right; right. by exists cfg, s0.
Qed.

(** C6: what the result of a fixed plan says of its run.  The probes of the session
    are a prefix of the plan's steps, in order; the engine processed them all; the
    report is the one the classifier's specification gives for them, with the
    caller's limitations added; the counters are the last audit record's.  The plan
    stopped at the first probe after which the classification was sufficient, if
    there was one, and otherwise for a reason that held after its last probe. *)
Theorem fixed_plan_answers envelope (registry : @CapabilityRegistry H) rules plan revision more
  offset token w result s :
  capability_wf registry → registry_wf rule_key rules → sealed_plan plan →
  effects_identified envelope →
  execute_fixed_plan envelope registry rules plan revision more offset token w
    = (Ok result, s) →
  ∃ cfg s0 ys step x retained,
    new_controller envelope registry token offset w = (Ok cfg, s0) ∧
    plan_answer cfg s0 rules plan revision more s ys step x retained result.
Proof.
  intros Hwf Hrules Hplan Heff Hrun.
  exact (execute_fixed_plan_ok _ _ _ _ _ _ _ _ _ _ _ Hwf Hrules Hplan Heff Hrun).
Qed.

(** C7: a fixed plan fails only for a reason outside it, and with the error of that
    reason.  An execution that raises was given a bad argument, whose check raises
    just that, or its controller could not be made; or it raises what the emitter
    raised, what a probe of the plan raised, or that two attempts of its probes have
    one identifier; or, the revision having more than 63 bits, that it is out of
    range; or, the clock read after its probes being earlier than the observation of
    the ambiguity, that the update precedes the creation; or what sanitizing a
    limitation raises. *)
Theorem fixed_plan_failures envelope (registry : @CapabilityRegistry H) rules plan revision more
  offset token w e s :
  capability_wf registry → registry_wf rule_key rules → sealed_plan plan →
  effects_identified envelope →
  execute_fixed_plan envelope registry rules plan revision more offset token w
    = (Raise e, s) →
  (∃ err, e = Exn_error err ∧
    ((revision < 0 ∧ err = ValueError "report revision must be a nonnegative integer")
     ∨ check_limitations more = Raise err
     ∨ validate_ExecutionEnvelope envelope = Raise err)) ∨
  (∃ s0, new_controller (H := H) envelope registry token offset w = (Raise e, s0)) ∨
  ∃ cfg s0, new_controller envelope registry token offset w = (Ok cfg, s0) ∧
    plan_fails cfg s0 rules plan revision more e.
Proof.
  intros Hwf Hrules Hplan Heff Hrun.
  exact (execute_fixed_plan_ok _ _ _ _ _ _ _ _ _ _ _ Hwf Hrules Hplan Heff Hrun).
Qed.

End promises.
