(* ===== verification/Adaptive.v ===== *)
(** Adaptive investigations (reconcile/adaptive.py): a planner proposes probes, and
    deterministic policy selects one per turn, runs it through the controller and
    the evidence engine of one session, and decides when to stop.

    [Planner] is the advisory provider: its metadata and how the wait for one
    [plan] ends.  [Plan_cancelled] is the cancellation event, set before the plan
    returned.  A Python set of sequences is a list without duplicates; the strict
    JSON Schema validator is the controller's. *)

From S2P Require Export Baseline.

#[local] Open Scope Z_scope.

Definition _MAX_TURNS : Z := 64.
Definition _NON_PROGRESS_LIMIT : Z := 2.
Definition _CAPABILITY_CATALOG_VERSION : string := "adaptive-catalog-v1".

Inductive AdaptiveStopReason :=
  | Adaptive_SUFFICIENT_EVIDENCE | Adaptive_NO_VALID_PROPOSAL | Adaptive_MAX_TURNS
  | Adaptive_BUDGET_EXHAUSTED | Adaptive_DEADLINE_EXHAUSTED | Adaptive_CANCELLED
  | Adaptive_REQUIRED_CAPABILITY_UNAVAILABLE | Adaptive_REQUIRED_PROBE_FAILED
  | Adaptive_NON_PROGRESS | Adaptive_PLANNER_UNAVAILABLE | Adaptive_PLANNER_TIMEOUT
  | Adaptive_PLANNER_SCHEMA_INVALID | Adaptive_CAPABILITY_CATALOG_UNSAFE.

#[export] Instance AdaptiveStopReason_eq_dec : EqDecision AdaptiveStopReason.
Proof. solve_decision. Defined.

Definition AdaptiveStopReason_value (r : AdaptiveStopReason) : string :=
  match r with
  | Adaptive_SUFFICIENT_EVIDENCE => "sufficient_evidence"
  | Adaptive_NO_VALID_PROPOSAL => "no_valid_proposal"
  | Adaptive_MAX_TURNS => "max_turns"
  | Adaptive_BUDGET_EXHAUSTED => "budget_exhausted"
  | Adaptive_DEADLINE_EXHAUSTED => "deadline_exhausted"
  | Adaptive_CANCELLED => "cancelled"
  | Adaptive_REQUIRED_CAPABILITY_UNAVAILABLE => "required_capability_unavailable"
  | Adaptive_REQUIRED_PROBE_FAILED => "required_probe_failed"
  | Adaptive_NON_PROGRESS => "non_progress"
  | Adaptive_PLANNER_UNAVAILABLE => "planner_unavailable"
  | Adaptive_PLANNER_TIMEOUT => "planner_timeout"
  | Adaptive_PLANNER_SCHEMA_INVALID => "planner_schema_invalid"
  | Adaptive_CAPABILITY_CATALOG_UNSAFE => "capability_catalog_unsafe"
  end.

Record AdaptiveInvestigationPolicy := {
  aip_name : string;
  aip_version : string;
  aip_sufficient_classifications : list Classification;
  aip_required_capabilities : list CapabilityRef;
  aip_max_turns : Z;
  aip_planner_timeout_ms : Z;
  aip_include_explanation : bool;
  aip_sha256 : string;
}.

Record ProposalRecord := {
  pl_proposal_sequence : Z;
  pl_capability_name : string;
  pl_capability_version : string;
  pl_request_sha256 : string;
  pl_disposition : ProposalDisposition;
}.

Record AdaptiveTurnRecord := {
  tr_turn_sequence : Z;
  tr_phase : AdaptivePlannerPhase;
  tr_input_sha256 : string;
  tr_output_sha256 : option string;
  tr_failure : option PlannerFailureKind;
  tr_cancelled : bool;
  tr_metadata : AdvisoryPlannerMetadata;
  tr_usage : option AdvisoryPlannerUsage;
  tr_proposals : list ProposalRecord;
  tr_selected_request_sha256 : option string;
  tr_planner_recommended_stop : option bool;
}.

Record AdaptiveInvestigationResult := {
  air_report : InvestigationReport;
  air_policy_name : string;
  air_policy_version : string;
  air_policy_sha256 : string;
  air_capability_catalog_sha256 : string;
  air_stop_reason : AdaptiveStopReason;
  air_acquisition_turn_count : Z;
  air_model_invocation_count : Z;
  air_proposal_count : Z;
  air_attempted_probe_count : Z;
  air_probe_count_used : Z;
  air_cost_units_used : Z;
  air_result_bytes_acquired : Z;
  air_total_elapsed_ms : Z;
  air_sufficient_probe_sequence : option Z;
  air_time_to_sufficient_evidence_ms : option Z;
  air_unsupported_proposal_count : Z;
  air_invalid_proposal_count : Z;
  air_duplicate_proposal_count : Z;
  air_unavailable_probe_count : Z;
  air_redundant_probe_count : Z;
  air_planner_metadata : AdvisoryPlannerMetadata;
  air_reported_models : list string;
  air_policies : string * string * string;
  air_token_counts : option (Z * Z * Z);
  air_explanation_valid : option bool;
  air_transcript_sha256 : string;
  air_turns : list AdaptiveTurnRecord;
}.

(** ** Constructors *)

Section constructors.
Context {rt : Runtime} {sec : Security}.

Definition capability_ref_le (x y : CapabilityRef) : Prop :=
  str_le (canonical_json_bytes x) (canonical_json_bytes y).
#[export] Instance capability_ref_le_dec x y : Decision (capability_ref_le x y).
Proof. unfold capability_ref_le. apply _. Defined.

Definition ref_identity (r : CapabilityRef) : string * string := (cr_name r, cr_version r).

(** [AdaptiveInvestigationPolicy(...)] *)
Definition make_policy (name version : string) (sufficient_classifications : list Classification)
  (required_capabilities : list CapabilityRef) (max_turns planner_timeout_ms : Z)
  (include_explanation : bool) : result py_error AdaptiveInvestigationPolicy :=
  _validate_identifier name "adaptive policy name";;
  _validate_identifier version "adaptive policy version";;
  reject_if (inb UNKNOWN sufficient_classifications)
    (ValueError "UNKNOWN cannot be declared sufficient evidence");;
  reject_if (has_dup sufficient_classifications)
    (ValueError "sufficient classifications must be unique");;
  let classifications := merge_sort classification_le sufficient_classifications in
  let required := merge_sort capability_ref_le required_capabilities in
  reject_if (has_dup (map ref_identity required))
    (ValueError "required capability identities must be unique");;
  reject_if (negb (in_range 1 max_turns _MAX_TURNS))
    (ValueError "adaptive policy requires one to 64 acquisition turns");;
  reject_if (negb (in_range 1 planner_timeout_ms int64_max))
    (ValueError "planner timeout must be a positive signed 64-bit integer");;
  payload ← canonical_json_value_bytes (JObj
    [("include_explanation", JBool include_explanation); ("max_turns", JInt max_turns);
     ("name", JStr name); ("planner_timeout_ms", JInt planner_timeout_ms);
     ("required_capabilities", JArr (map to_json required));
     ("sufficient_classifications",
       JArr (map (λ c, JStr (Classification_value c)) classifications));
     ("version", JStr version)]);
  Ok {| aip_name := name; aip_version := version;
        aip_sufficient_classifications := classifications;
        aip_required_capabilities := required; aip_max_turns := max_turns;
        aip_planner_timeout_ms := planner_timeout_ms;
        aip_include_explanation := include_explanation; aip_sha256 := sha256_hex payload |}.

(** [ProposalRecord(...)] *)
Definition make_proposal_record (self : ProposalRecord) : result py_error ProposalRecord :=
  reject_if (negb (in_range 1 (pl_proposal_sequence self) 8))
    (ValueError "proposal sequence must be between one and eight");;
  _validate_identifier (pl_capability_name self) "proposal capability name";;
  _validate_identifier (pl_capability_version self) "proposal capability version";;
  _validate_sha256 (pl_request_sha256 self) "proposal request digest";;
  Ok self.

Definition validate_opt_sha256 (value : option string) (label : string)
  : result py_error unit :=
  match value with Some digest => _validate_sha256 digest label | None => Ok tt end.

(** [AdaptiveTurnRecord(...)] *)
Definition make_turn_record (self : AdaptiveTurnRecord) : result py_error AdaptiveTurnRecord :=
  let proposals := tr_proposals self in
  let selected := filter (λ p, pl_disposition p = Proposal_SELECTED) proposals in
  let advised := is_some (tr_planner_recommended_stop self) in
  reject_if (tr_turn_sequence self <? 1)
    (ValueError "adaptive turn sequence must be positive");;
  _validate_sha256 (tr_input_sha256 self) "adaptive turn input digest";;
  validate_opt_sha256 (tr_output_sha256 self) "adaptive turn output digest";;
  reject_if (negb (bool_decide (map pl_proposal_sequence proposals = one_to (length proposals))))
    (ValueError "proposal records must be contiguous and ordered");;
  match tr_selected_request_sha256 self with
  | Some digest =>
      _validate_sha256 digest "selected proposal digest";;
      reject_if (negb (bool_decide (map pl_request_sha256 selected = [digest])))
        (ValueError "selected proposal metadata is inconsistent")
  | None =>
      reject_if (negb (bool_decide (selected = [])))
        (ValueError "selected proposal requires a selected digest")
  end;;
  reject_if (tr_cancelled self
      && (is_some (tr_output_sha256 self) || is_some (tr_failure self)
          || is_some (tr_usage self) || negb (bool_decide (proposals = [])) || advised))
    (ValueError "cancelled planner turns cannot contain provider output");;
  reject_if (negb (tr_cancelled self) && is_none (tr_failure self)
      && (is_none (tr_output_sha256 self) || is_none (tr_usage self) || negb advised))
    (ValueError "successful planner metadata must be complete");;
  reject_if (is_some (tr_failure self)
      && (negb (bool_decide (proposals = [])) || is_some (tr_selected_request_sha256 self)
          || advised))
    (ValueError "failed planner turns cannot contain proposals or advice");;
  (if bool_decide (tr_phase self = EXPLAIN_EVIDENCE) then
     reject_if (existsb (λ p, negb (bool_decide
         (pl_disposition p = Proposal_IGNORED_EXPLANATION_PHASE))) proposals)
       (ValueError "explanation turns cannot select probe proposals")
   else
     reject_if (existsb (λ p, bool_decide
         (pl_disposition p = Proposal_IGNORED_EXPLANATION_PHASE)) proposals)
       (ValueError "acquisition turns cannot use explanation dispositions"));;
  Ok self.

Definition opt_json {A} (f : A → json) (o : option A) : json :=
  match o with Some x => f x | None => JNull end.

(** [_turn_material] *)
Definition _turn_material (turn : AdaptiveTurnRecord) : json :=
  let metadata := tr_metadata turn in
  JObj
  [("cancelled", JBool (tr_cancelled turn));
   ("failure", opt_json (λ f, JStr (PlannerFailureKind_value f)) (tr_failure turn));
   ("input_sha256", JStr (tr_input_sha256 turn));
   ("metadata", JObj
     [("adk_version", JStr (md_adk_version metadata));
      ("configured_model", JStr (md_configured_model metadata));
      ("genai_version", JStr (md_genai_version metadata));
      ("input_schema_version", JStr (md_input_schema_version metadata));
      ("output_schema_version", JStr (md_output_schema_version metadata));
      ("prompt_sha256", JStr (md_prompt_sha256 metadata));
      ("prompt_version", JStr (md_prompt_version metadata));
      ("provider_name", JStr (md_provider_name metadata));
      ("reported_model", opt_json JStr (md_reported_model metadata))]);
   ("output_sha256", opt_json JStr (tr_output_sha256 turn));
   ("phase", JStr (AdaptivePlannerPhase_value (tr_phase turn)));
   ("planner_recommended_stop", opt_json JBool (tr_planner_recommended_stop turn));
   ("proposals", JArr (map (λ p, JObj
     [("capability_name", JStr (pl_capability_name p));
      ("capability_version", JStr (pl_capability_version p));
      ("disposition", JStr (ProposalDisposition_value (pl_disposition p)));
      ("proposal_sequence", JInt (pl_proposal_sequence p));
      ("request_sha256", JStr (pl_request_sha256 p))]) (tr_proposals turn)));
   ("selected_request_sha256", opt_json JStr (tr_selected_request_sha256 turn));
   ("turn_sequence", JInt (tr_turn_sequence turn));
   ("usage", opt_json (λ u, JObj
     [("output_tokens", JInt (au_output_tokens u)); ("prompt_tokens", JInt (au_prompt_tokens u));
      ("total_tokens", JInt (au_total_tokens u))]) (tr_usage turn))].

(** [_transcript_sha256] *)
Definition _transcript_sha256 (turns : list AdaptiveTurnRecord) : result py_error string :=
  payload ← canonical_json_value_bytes (JArr (map _turn_material turns));
  Ok (sha256_hex payload).

Definition acquisition_turns (turns : list AdaptiveTurnRecord) : Z :=
  Z.of_nat (length (filter (λ t, tr_phase t = ACQUIRE_EVIDENCE) turns)).
Definition proposal_total (turns : list AdaptiveTurnRecord) : Z :=
  Z.of_nat (length (concat (map tr_proposals turns))).

(** [AdaptiveInvestigationResult(...)] *)
Definition make_adaptive_result (self : AdaptiveInvestigationResult)
  : result py_error AdaptiveInvestigationResult :=
  let turns := air_turns self in
  let attempted := air_attempted_probe_count self in
  let sufficient := bool_decide (air_stop_reason self = Adaptive_SUFFICIENT_EVIDENCE) in
  _validate_sha256 (air_capability_catalog_sha256 self) "capability catalog digest";;
  _validate_sha256 (air_transcript_sha256 self) "adaptive transcript digest";;
  reject_if (existsb (λ value, value <? 0)
      [air_acquisition_turn_count self; air_model_invocation_count self;
       air_proposal_count self; attempted; air_probe_count_used self;
       air_cost_units_used self; air_result_bytes_acquired self; air_total_elapsed_ms self;
       air_unsupported_proposal_count self; air_invalid_proposal_count self;
       air_duplicate_proposal_count self; air_unavailable_probe_count self;
       air_redundant_probe_count self])
    (ValueError "adaptive measurements must be nonnegative integers");;
  reject_if (negb (air_model_invocation_count self =? Z.of_nat (length turns)))
    (ValueError "planner invocation count must match transcript turns");;
  reject_if (negb (air_acquisition_turn_count self =? acquisition_turns turns))
    (ValueError "acquisition turn count must match the transcript");;
  reject_if (negb (air_proposal_count self =? proposal_total turns))
    (ValueError "proposal count must match the transcript");;
  reject_if (attempted <? air_probe_count_used self)
    (ValueError "controller probe use cannot exceed adaptive attempts");;
  reject_if (existsb (λ value, air_proposal_count self <? value)
      [air_unsupported_proposal_count self; air_invalid_proposal_count self;
       air_duplicate_proposal_count self])
    (ValueError "proposal findings cannot exceed proposal count");;
  reject_if (existsb (λ value, attempted <? value)
      [air_unavailable_probe_count self; air_redundant_probe_count self])
    (ValueError "probe findings cannot exceed adaptive attempts");;
  transcript ← _transcript_sha256 turns;
  reject_if (negb (bool_decide (air_transcript_sha256 self = transcript)))
    (ValueError "adaptive transcript digest does not match turns");;
  reject_if match air_sufficient_probe_sequence self with
            | Some sequence => negb (in_range 1 sequence attempted) | None => false end
    (ValueError "sufficient probe sequence is outside adaptive attempts");;
  reject_if (negb (Bool.eqb sufficient (is_some (air_sufficient_probe_sequence self))))
    (ValueError "sufficiency reason and probe sequence must agree");;
  reject_if (negb (Bool.eqb sufficient (is_some (air_time_to_sufficient_evidence_ms self))))
    (ValueError "sufficiency reason and timing must agree");;
  reject_if match air_time_to_sufficient_evidence_ms self with
            | Some time => air_total_elapsed_ms self <? time | None => false end
    (ValueError "sufficiency time cannot exceed total elapsed time");;
  reject_if match air_token_counts self with
            | Some (prompt, output, total) =>
                (prompt <? 0) || (output <? 0) || (total <? 0)
                || negb (total =? prompt + output)
            | None => false
            end
    (ValueError "adaptive token counts are inconsistent");;
  let '(authority, classification, action) := air_policies self in
  _validate_identifier authority "authority policy version";;
  _validate_identifier classification "classification policy version";;
  _validate_identifier action "action policy version";;
  report ← model_validate_report (air_report self);
  reject_if (is_none (ir_classification report))
    (ValueError "a completed adaptive report requires a classification");;
  Ok self.

(** The model names the turns reported, sorted. *)
Definition reported_models (turns : list AdaptiveTurnRecord) : list string :=
  sorted_strings (remove_dups (omap (λ t, md_reported_model (tr_metadata t)) turns)).

End constructors.

(** ** The catalog *)

Record _CatalogEntry (H : Type) := {
  ce_registration : CapabilityRegistration H;
  ce_descriptor : PlannerCapability;
}.
Arguments ce_registration {H} _.
Arguments ce_descriptor {H} _.

(** Capabilities are named by name and version; their tuples are ordered. *)
Definition identity_le (x y : string * string) : Prop :=
  strings_leb [x.1; x.2] [y.1; y.2] = true.
#[export] Instance identity_le_dec x y : Decision (identity_le x y).
Proof. unfold identity_le. apply _. Defined.

Abbreviation catalog_of H := (list ((string * string) * _CatalogEntry H)).

Section catalog.
Context {rt : Runtime} {sec : Security} {sv : SchemaValidator} {H : Type}.

Definition registration_identity (r : CapabilityRegistration H) : string * string :=
  (oc_name (rg_capability r), oc_version (rg_capability r)).

(** The registration of an enabled identity, when it can be probed. *)
Definition executable_registration (registrations : list ((string * string) * CapabilityRegistration H))
  (identity : string * string) : option (CapabilityRegistration H) :=
  match dict_get identity registrations with
  | Some registration =>
      if rg_enabled registration && bool_decide (rg_semantics registration = READ_ONLY)
         && is_some (rg_handler registration)
      then Some registration else None
  | None => None
  end.

(** [any(constraint.target_kind == ... and canonical(constraint.scope) == target_scope)] *)
Definition target_allowed (envelope : ExecutionEnvelope) (target_scope : string)
  (registration : CapabilityRegistration H) : result py_error bool :=
  any_scope target_scope
    (filter (λ c, tc_target_kind c = tb_target_kind (en_target envelope))
       (oc_allowed_targets (rg_capability registration))).

Definition describe (envelope : ExecutionEnvelope) (registration : CapabilityRegistration H)
  : PlannerCapability :=
  let capability := rg_capability registration in
  {| cap_name := oc_name capability; cap_version := oc_version capability;
     cap_description := "Read-only observation capability " +:+ oc_name capability +:+ ".";
     cap_argument_schema := oc_argument_schema capability;
     cap_cost_units := oc_cost_units capability;
     cap_remaining_invocations := Z.min (rg_max_invocations registration)
       (max_probes (evidence_budget (en_context envelope))) |}.

(** The loop over the enabled identities, in order. *)
Fixpoint catalog_entries (envelope : ExecutionEnvelope) (target_scope : string)
  (registrations : list ((string * string) * CapabilityRegistration H))
  (identities : list (string * string)) : result py_error (catalog_of H) :=
  match identities with
  | [] => Ok []
  | identity :: rest =>
      match executable_registration registrations identity with
      | None => catalog_entries envelope target_scope registrations rest
      | Some registration =>
          allowed ← target_allowed envelope target_scope registration;
          if negb (allowed : bool)
          then catalog_entries envelope target_scope registrations rest
          else
            let descriptor := describe envelope registration in
            construct_capability descriptor;;
            entries ← catalog_entries envelope target_scope registrations rest;
            Ok ((identity, {| ce_registration := registration;
                              ce_descriptor := descriptor |}) :: entries)
      end
  end.

(** [sorted(mapping)] of a mapping whose keys are identities. *)
Definition sorted_entries (entries : catalog_of H) : catalog_of H :=
  omap (λ identity, entry ← dict_get identity entries; Some (identity, entry))
    (merge_sort identity_le (dict_keys entries)).

(** [_catalog_sha256] *)
Definition _catalog_sha256 (entries : catalog_of H) : result py_error string :=
  payload ← canonical_json_value_bytes
    (JArr (map (λ e, to_json (ce_descriptor e.2)) (sorted_entries entries)));
  Ok (sha256_hex payload).

(** [_catalog], with the frozen registry. *)
Definition _catalog (envelope : ExecutionEnvelope) (registry : @CapabilityRegistry H)
  : result py_error (catalog_of H * bool * string) :=
  let registrations :=
    dict_of (map (λ r, (registration_identity r, r)) (capability_freeze registry).2) in
  let enabled := remove_dups (capability_identities (en_context envelope)) in
  target_scope ← canonical_json_value_bytes (JObj (tb_scope (en_target envelope)));
  entries ← catalog_entries envelope target_scope registrations
    (merge_sort identity_le enabled);
  digest ← _catalog_sha256 entries;
  Ok (entries, subsetb enabled (dict_keys entries) && subsetb (dict_keys entries) enabled,
      digest).

(** [_turn_capabilities] *)
Definition turn_capability (selected_counts : list ((string * string) * Z))
  (identity : string * string) (descriptor : PlannerCapability) : PlannerCapability :=
  {| cap_name := cap_name descriptor; cap_version := cap_version descriptor;
     cap_description := cap_description descriptor;
     cap_argument_schema := cap_argument_schema descriptor;
     cap_cost_units := cap_cost_units descriptor;
     cap_remaining_invocations := Z.max 0 (cap_remaining_invocations descriptor
       - default 0 (dict_get identity selected_counts)) |}.

Definition _turn_capabilities (catalog : catalog_of H)
  (selected_counts : list ((string * string) * Z)) : result py_error (list PlannerCapability) :=
  mapM (λ e, let descriptor := turn_capability selected_counts e.1 (ce_descriptor e.2) in
             construct_capability descriptor;; Ok descriptor) (sorted_entries catalog).

End catalog.

(** ** The planner *)

(** How the wait for one [planner.plan(...)] ends.  A value of another type than a
    turn is [Plan_returned None]. *)
Inductive plan_ending :=
  | Plan_cancelled | Plan_timed_out | Plan_interrupted
  | Plan_raised (timeout_error : bool)
  | Plan_returned (turn : option planner_turn).

(** [planner_metadata] is [None] when the planner has no exact metadata or no
    [plan]; the second argument of [plan_first] is [timeout_ms]. *)
Class Planner (W : Type) := {
  planner_metadata : option AdvisoryPlannerMetadata;
  plan_first : AdaptivePlannerInput → Z → W → plan_ending * W;
}.

(** [_PlannerCall] *)
Record _PlannerCall := {
  pcl_turn : option planner_turn;
  pcl_failure : option PlannerFailureKind;
  pcl_cancelled : bool;
}.

(** [_ProposalSelection] *)
Record _ProposalSelection := {
  sel_request : option ProbeRequest;
  sel_records : list ProposalRecord;
}.

Section planning.
Context {rt : Runtime} {sec : Security} {sv : SchemaValidator} {od : ObservationDecoder}.
Context {W H : Type} {env : Environment W H} {pn : Planner W}.

(** [min(max(0, int((clock.monotonic() - started_monotonic) * 1_000)), 2**63 - 1)] *)
Definition elapsed_since (started : spec_float) : ctl W Z :=
  t ← ask monotonic;
  ms ← lift (int_of_float (fmul (fsub t started) (float_of_int 1000)));
  mret (Z.min (Z.max 0 ms) int64_max).

(** [_remaining_budget] *)
Definition _remaining_budget (envelope : ExecutionEnvelope) (started : spec_float)
  : ctl W PlannerRemainingBudget :=
  let maximum := evidence_budget (en_context envelope) in
  audit ← gets cs_audit;
  let final := last audit in
  let used := λ f, default 0 (f <$> final) in
  elapsed_ms ← elapsed_since started;
  let remaining_elapsed := Z.max 0 (max_elapsed_ms maximum - elapsed_ms) in
  t ← ask now;
  delta ← lift (check_timedelta (remaining_elapsed * 1000));
  deadline_at ← lift (datetime_add t delta);
  let budget :=
    {| pb_probes := Z.max 0 (max_probes maximum - used ar_probe_count_used);
       pb_elapsed_ms := remaining_elapsed;
       pb_result_bytes :=
         Z.max 0 (max_total_result_bytes maximum - used ar_result_bytes_acquired);
       pb_cost_units := Z.max 0 (max_cost_units maximum - used ar_cost_units_used);
       pb_deadline_at := Z.max deadline_at (en_invoked_at envelope) |} in
  lift (construct_remaining_budget budget);;
  mret budget.

(** The summary of one attempt, in its category. *)
Inductive evidence_summary :=
  | Summary_admitted (e : PlannerAdmittedEvidence)
  | Summary_weak (e : PlannerWeakEvidence)
  | Summary_rejected (e : PlannerRejectedEvidence).

Definition summarize_attempt (request_by_sequence : list (Z * ProbeRequest))
  (catalog : catalog_of H) (expected_effect_ids : list string) (attempt : EvidenceAttempt)
  : result py_error evidence_summary :=
  let decision := at_decision attempt in
  let request := dict_get (at_probe_sequence attempt) request_by_sequence in
  match ed_disposition decision with
  | ADMITTED =>
      match at_evidence attempt with
      | None => Raise (RuntimeError "admitted evidence lost its normalized summary")
      | Some evidence =>
          let summary :=
            {| pae_evidence_id := ed_evidence_id decision;
               pae_capability_name := ne_capability_name evidence;
               pae_capability_version := ne_capability_version evidence;
               pae_reason := ed_reason decision;
               pae_effect_assertions := ne_effect_assertions evidence;
               pae_operation_status := ne_operation_status evidence |} in
          construct_admitted summary;; Ok (Summary_admitted summary)
      end
  | WEAK =>
      match at_evidence attempt with
      | None => Raise (RuntimeError "weak evidence lost its normalized summary")
      | Some evidence =>
          let asserted := map ea_effect_id (ne_effect_assertions evidence) in
          let summary :=
            {| pwe_evidence_id := ed_evidence_id decision;
               pwe_capability_name := ne_capability_name evidence;
               pwe_capability_version := ne_capability_version evidence;
               pwe_reason := ed_reason decision;
               pwe_relevant_effect_ids :=
                 match asserted, request with
                 | [], Some request => pr_relevant_effect_ids request
                 | _, _ => asserted
                 end |} in
          construct_weak summary;; Ok (Summary_weak summary)
      end
  | REJECTED_EVIDENCE =>
      let known := match request with
        | Some request => inb (pr_capability_name request, pr_capability_version request)
                            (dict_keys catalog)
        | None => false
        end in
      let named := λ f, if known then f <$> request else None in
      let summary :=
        {| pre_evidence_id := ed_evidence_id decision;
           pre_capability_name := named pr_capability_name;
           pre_capability_version := named pr_capability_version;
           pre_reason := ed_reason decision;
           pre_relevant_effect_ids :=
             match request with
             | Some request => pr_relevant_effect_ids request
             | None => expected_effect_ids
             end |} in
      construct_rejected summary;; Ok (Summary_rejected summary)
  end.

(** [missing_by_effect]: the least reason of each effect. *)
Definition missing_by_effect (missing : list MissingEvidence) : list (string * string) :=
  fold_left (λ d item, fold_left (λ d effect_id,
    match dict_get effect_id d with
    | Some current => if str_leb current (me_reason item) then d
                      else dict_set effect_id (me_reason item) d
    | None => dict_set effect_id (me_reason item) d
    end) (me_effect_ids item) d) missing [].

(** [sorted(..., key=lambda item: item.evidence_id)] *)
Definition key_le {A} (key : A → string) (x y : A) : Prop := str_le (key x) (key y).
#[export] Instance key_le_dec {A} (key : A → string) x y : Decision (key_le key x y).
Proof. unfold key_le. apply _. Defined.

Record evidence_summaries := {
  es_admitted : list PlannerAdmittedEvidence;
  es_weak : list PlannerWeakEvidence;
  es_rejected : list PlannerRejectedEvidence;
  es_missing : list PlannerMissingEvidence;
}.

(** [_evidence_summaries] *)
Definition _evidence_summaries (evaluation : CoreEvaluation)
  (request_by_sequence : list (Z * ProbeRequest)) (catalog : catalog_of H)
  (expected_effect_ids : list string) : result py_error evidence_summaries :=
  summaries ← mapM (summarize_attempt request_by_sequence catalog expected_effect_ids)
    (ce_attempts evaluation);
  let by_effect := missing_by_effect (ce_missing_evidence evaluation) in
  missing ← mapM (λ effect_id,
      let item := {| pme_effect_id := effect_id;
                     pme_reason := default EmptyString (dict_get effect_id by_effect) |} in
      construct_missing item;; Ok item) (sorted_strings (dict_keys by_effect));
  Ok {| es_admitted := merge_sort (key_le pae_evidence_id)
          (omap (λ s, match s with Summary_admitted e => Some e | _ => None end) summaries);
        es_weak := merge_sort (key_le pwe_evidence_id)
          (omap (λ s, match s with Summary_weak e => Some e | _ => None end) summaries);
        es_rejected := merge_sort (key_le pre_evidence_id)
          (omap (λ s, match s with Summary_rejected e => Some e | _ => None end) summaries);
        es_missing := missing |}.

Definition planner_versions (envelope : ExecutionEnvelope)
  (metadata : AdvisoryPlannerMetadata) : PlannerVersionMetadata :=
  let policies := policies (en_context envelope) in
  {| pvm_provider_name := md_provider_name metadata;
     pvm_model_name := md_configured_model metadata;
     pvm_adk_version := md_adk_version metadata;
     pvm_genai_version := md_genai_version metadata;
     pvm_prompt_version := md_prompt_version metadata;
     pvm_capability_catalog_version := _CAPABILITY_CATALOG_VERSION;
     pvm_authority_policy_version := pr_authority policies;
     pvm_classification_policy_version := pr_classification policies;
     pvm_action_policy_version := pr_action policies |}.

(** [_planner_input] *)
Definition _planner_input (phase : AdaptivePlannerPhase) (envelope : ExecutionEnvelope)
  (catalog : catalog_of H) (selected_counts : list ((string * string) * Z))
  (evaluation : CoreEvaluation) (request_by_sequence : list (Z * ProbeRequest))
  (prior_request_hashes : list string) (remaining_budget : PlannerRemainingBudget)
  (metadata : AdvisoryPlannerMetadata) : result py_error AdaptivePlannerInput :=
  summaries ← _evidence_summaries evaluation request_by_sequence catalog
    (sorted_strings (expected_effect_ids envelope));
  capabilities ← _turn_capabilities catalog selected_counts;
  let versions := planner_versions envelope metadata in
  construct_versions versions;;
  let planner_input :=
    {| api_phase := phase; api_envelope := envelope; api_capabilities := capabilities;
       api_admitted_evidence := es_admitted summaries;
       api_weak_evidence := es_weak summaries;
       api_rejected_evidence := es_rejected summaries;
       api_missing_evidence := es_missing summaries;
       api_prior_executable_request_hashes := prior_request_hashes;
       api_remaining_budget := remaining_budget; api_versions := versions |} in
  construct_input planner_input;;
  Ok planner_input.

(** [except (TypeError, ValueError)] *)
Definition is_input_error (e : py_error) : bool :=
  match e with TypeError _ | ValueError _ => true | _ => false end.

(** [_call_planner] *)
Definition _call_planner (planner_input : AdaptivePlannerInput) (timeout_ms : Z)
  : ctl W _PlannerCall :=
  ending ← ask (plan_first planner_input timeout_ms);
  let failed := λ failure,
    {| pcl_turn := None; pcl_failure := Some failure; pcl_cancelled := false |} in
  match ending with
  | Plan_interrupted => throw Exn_cancelled
  | Plan_cancelled => mret {| pcl_turn := None; pcl_failure := None; pcl_cancelled := true |}
  | Plan_timed_out | Plan_raised true => mret (failed Planner_TIMEOUT)
  | Plan_raised false => mret (failed Planner_UNAVAILABLE)
  | Plan_returned None => mret (failed Planner_SCHEMA_INVALID)
  | Plan_returned (Some turn) =>
      mret {| pcl_turn := Some turn; pcl_failure := None; pcl_cancelled := false |}
  end.

(** [_metadata_matches] *)
Definition _metadata_matches (configured returned : AdvisoryPlannerMetadata) : bool :=
  bool_decide (md_provider_name configured = md_provider_name returned)
  && bool_decide (md_configured_model configured = md_configured_model returned)
  && bool_decide (md_adk_version configured = md_adk_version returned)
  && bool_decide (md_genai_version configured = md_genai_version returned)
  && bool_decide (md_prompt_version configured = md_prompt_version returned)
  && bool_decide (md_prompt_sha256 configured = md_prompt_sha256 returned)
  && bool_decide (md_input_schema_version configured = md_input_schema_version returned)
  && bool_decide (md_output_schema_version configured = md_output_schema_version returned).

(** [_validated_turn]: a turn, a failure or a cancellation. *)
Inductive validated_turn :=
  | Turn_cancelled | Turn_failed (failure : PlannerFailureKind)
  | Turn_valid (turn : planner_turn).

Definition _validated_turn (call : _PlannerCall) (configured : AdvisoryPlannerMetadata)
  (input_sha256 : string) : validated_turn :=
  if pcl_cancelled call then Turn_cancelled
  else match pcl_failure call, pcl_turn call with
  | Some failure, _ => Turn_failed failure
  | None, None => Turn_failed Planner_SCHEMA_INVALID
  | None, Some turn =>
      if negb (bool_decide (tn_input_sha256 (pt_turn turn) = input_sha256))
         || negb (_metadata_matches configured (tn_metadata (pt_turn turn)))
      then Turn_failed Planner_SCHEMA_INVALID
      else match tn_failure (pt_turn turn) with
           | Some failure => Turn_failed failure
           | None => Turn_valid turn
           end
  end.

End planning.

(** ** Selection *)

(** What the proposals of a turn are held against. *)
Record selection_context (H : Type) := {
  sx_catalog : catalog_of H;
  sx_remaining : PlannerRemainingBudget;
  sx_selected_counts : list ((string * string) * Z);
  sx_expected_effect_ids : list string;
  sx_correlation_fields : list (string * string);
  sx_prior_request_hashes : list string;
}.
Arguments sx_catalog {H} _.
Arguments sx_remaining {H} _.
Arguments sx_selected_counts {H} _.
Arguments sx_expected_effect_ids {H} _.
Arguments sx_correlation_fields {H} _.
Arguments sx_prior_request_hashes {H} _.

(** Cost, name, version, digest and index of a valid proposal, ordered as tuples. *)
Definition candidate : Type := Z * string * string * string * nat.
Definition candidate_ltb (x y : candidate) : bool :=
  let '(c, n, v, d, i) := x in
  let '(c', n', v', d', i') := y in
  (c <? c') || ((c =? c')
    && (if bool_decide ([n; v; d] = [n'; v'; d']) then (i <? i')%nat
        else strings_leb [n; v; d] [n'; v'; d'])).

(** [min(valid)] *)
Definition min_candidate (valid : list candidate) : option candidate :=
  match valid with
  | [] => None
  | x :: rest => Some (fold_left (λ least y, if candidate_ltb y least then y else least) rest x)
  end.

Section selection.
Context {rt : Runtime} {sec : Security} {sv : SchemaValidator} {H : Type}.

Definition request_capability (request : ProbeRequest) : string * string :=
  (pr_capability_name request, pr_capability_version request).

(** [_proposal_disposition] *)
Definition _proposal_disposition (sx : selection_context H) (request : ProbeRequest)
  : result py_error (option ProposalDisposition) :=
  let identity := request_capability request in
  match dict_get identity (sx_catalog sx) with
  | None => Ok (Some Proposal_UNSUPPORTED_CAPABILITY)
  | Some entry =>
      let descriptor := ce_descriptor entry in
      let remaining := sx_remaining sx in
      if negb (subsetb (pr_relevant_effect_ids request) (sx_expected_effect_ids sx))
      then Ok (Some Proposal_INVALID_EFFECT_REFERENCE)
      else if (cap_remaining_invocations descriptor
               <=? default 0 (dict_get identity (sx_selected_counts sx)))
              || (pb_probes remaining =? 0)
      then Ok (Some Proposal_UNAVAILABLE)
      else if (pb_cost_units remaining <? cap_cost_units descriptor)
              || (pb_result_bytes remaining =? 0)
      then Ok (Some Proposal_BUDGET_EXCEEDED)
      else match canonical_json_value_bytes (JObj (pr_arguments request)) with
      | Raise (TypeError _) | Raise (ValueError _) => Ok (Some Proposal_INVALID_ARGUMENTS)
      | Raise e => Raise e
      | Ok arguments_payload =>
          if rg_argument_byte_ceiling (ce_registration entry)
             <? Z.of_nat (String.length arguments_payload)
          then Ok (Some Proposal_INVALID_ARGUMENTS)
          else if negb (schema_is_valid (JObj (cap_argument_schema descriptor))
                          (JObj (pr_arguments request)))
          then Ok (Some Proposal_INVALID_ARGUMENTS)
          else if contains_target_coordinate_value (JObj (pr_arguments request))
          then Ok (Some Proposal_INVALID_ARGUMENTS)
          else
            conflict ← correlation_conflict (pr_arguments request) (sx_correlation_fields sx);
            Ok (if conflict : bool then Some Proposal_INVALID_ARGUMENTS else None)
      end
  end.

(** A proposal with its index and digest. *)
Definition proposal : Type := nat * ProbeRequest * string.

(** [representatives]: of the new proposals with one digest, the one with the least
    canonical text. *)
Definition add_representative (sx : selection_context H)
  (representatives : list (string * (nat * ProbeRequest))) (p : proposal)
  : list (string * (nat * ProbeRequest)) :=
  let '(index, request, digest) := p in
  if inb digest (sx_prior_request_hashes sx) then representatives
  else match dict_get digest representatives with
  | None => dict_set digest (index, request) representatives
  | Some (_, current) =>
      if str_leb (canonical_json_bytes current) (canonical_json_bytes request)
      then representatives else dict_set digest (index, request) representatives
  end.

Definition representatives_of (sx : selection_context H) (proposals : list proposal)
  : list (string * (nat * ProbeRequest)) :=
  fold_left (add_representative sx) proposals [].

(** The disposition of one proposal; [None] when it is valid. *)
Definition proposal_verdict (sx : selection_context H)
  (representatives : list (string * (nat * ProbeRequest))) (p : proposal)
  : result py_error (option ProposalDisposition) :=
  let '(index, request, digest) := p in
  if inb digest (sx_prior_request_hashes sx)
     || negb (bool_decide (fst <$> dict_get digest representatives = Some index))
  then Ok (Some Proposal_DUPLICATE)
  else _proposal_disposition sx request.

Definition proposal_candidate (sx : selection_context H)
  (pv : proposal * option ProposalDisposition) : option candidate :=
  let '(index, request, digest) := pv.1 in
  match pv.2, dict_get (request_capability request) (sx_catalog sx) with
  | None, Some entry =>
      Some (cap_cost_units (ce_descriptor entry), pr_capability_name request,
            pr_capability_version request, digest, index)
  | _, _ => None
  end.

Definition selected_record (selected_index : option nat)
  (pv : proposal * option ProposalDisposition) : ProposalRecord :=
  let '(index, request, digest) := pv.1 in
  {| pl_proposal_sequence := Z.of_nat (S index);
     pl_capability_name := pr_capability_name request;
     pl_capability_version := pr_capability_version request;
     pl_request_sha256 := digest;
     pl_disposition := match pv.2 with
       | Some disposition => disposition
       | None => if bool_decide (selected_index = Some index) then Proposal_SELECTED
                 else Proposal_DEFERRED
       end |}.

(** [_select_proposal] *)
Definition _select_proposal (sx : selection_context H) (requests : list ProbeRequest)
  : result py_error _ProposalSelection :=
  if bool_decide (length requests = 0%nat) then Ok {| sel_request := None; sel_records := [] |}
  else
    digests ← mapM probe_request_sha256 requests;
    let proposals := zip (zip (seq 0 (length requests)) requests) digests in
    let representatives := representatives_of sx proposals in
    verdicts ← mapM (proposal_verdict sx representatives) proposals;
    let judged := zip proposals verdicts in
    let selected_index := snd <$> min_candidate (omap (proposal_candidate sx) judged) in
    records ← mapM (λ pv, make_proposal_record (selected_record selected_index pv)) judged;
    Ok {| sel_request := index ← selected_index; requests !! index; sel_records := records |}.

End selection.

(** ** Turns *)

(** [_failure_stop_reason] *)
Definition _failure_stop_reason (failure : PlannerFailureKind) : AdaptiveStopReason :=
  match failure with
  | Planner_UNAVAILABLE => Adaptive_PLANNER_UNAVAILABLE
  | Planner_TIMEOUT => Adaptive_PLANNER_TIMEOUT
  | Planner_SCHEMA_INVALID => Adaptive_PLANNER_SCHEMA_INVALID
  end.

Section records.
Context {rt : Runtime} {sec : Security}.

(** [_failure_turn_record] *)
Definition _failure_turn_record (sequence : Z) (phase : AdaptivePlannerPhase)
  (input_sha256 : string) (metadata : AdvisoryPlannerMetadata)
  (failure : option PlannerFailureKind) (cancelled : bool) (output_sha256 : option string)
  (usage : option AdvisoryPlannerUsage) : result py_error AdaptiveTurnRecord :=
  make_turn_record
    {| tr_turn_sequence := sequence; tr_phase := phase; tr_input_sha256 := input_sha256;
       tr_output_sha256 := output_sha256; tr_failure := failure; tr_cancelled := cancelled;
       tr_metadata := metadata; tr_usage := usage; tr_proposals := [];
       tr_selected_request_sha256 := None; tr_planner_recommended_stop := None |}.

(** The record of a turn that failed: its metadata is the returned turn's when that
    matches what was configured. *)
Definition failed_record (sequence : Z) (phase : AdaptivePlannerPhase) (input_sha256 : string)
  (configured : AdvisoryPlannerMetadata) (call : _PlannerCall) (failure : PlannerFailureKind)
  : result py_error AdaptiveTurnRecord :=
  let returned := pt_turn <$> pcl_turn call in
  let metadata := match returned with
    | Some turn => if _metadata_matches configured (tn_metadata turn) then tn_metadata turn
                   else configured
    | None => configured
    end in
  _failure_turn_record sequence phase input_sha256 metadata (Some failure) false
    (turn ← returned; tn_output_sha256 turn) (turn ← returned; tn_usage turn).

(** The record of a turn that succeeded. *)
Definition valid_record (sequence : Z) (phase : AdaptivePlannerPhase) (input_sha256 : string)
  (turn : AdvisoryPlannerTurn) (output : AdaptivePlannerOutput)
  (proposals : list ProposalRecord) (selected_request_sha256 : option string)
  : result py_error AdaptiveTurnRecord :=
  make_turn_record
    {| tr_turn_sequence := sequence; tr_phase := phase; tr_input_sha256 := input_sha256;
       tr_output_sha256 := tn_output_sha256 turn; tr_failure := None; tr_cancelled := false;
       tr_metadata := tn_metadata turn; tr_usage := tn_usage turn;
       tr_proposals := proposals; tr_selected_request_sha256 := selected_request_sha256;
       tr_planner_recommended_stop :=
         Some (psa_recommend_stop (apo_stop_advice output)) |}.

(** The records of the proposals of an explanation turn. *)
Definition ignored_records (requests : list ProbeRequest)
  : result py_error (list ProposalRecord) :=
  mapM (λ ir : nat * ProbeRequest,
    let '(index, request) := ir in
    digest ← probe_request_sha256 request;
    make_proposal_record
      {| pl_proposal_sequence := Z.of_nat (S index);
         pl_capability_name := pr_capability_name request;
         pl_capability_version := pr_capability_version request;
         pl_request_sha256 := digest;
         pl_disposition := Proposal_IGNORED_EXPLANATION_PHASE |})
    (zip (seq 0 (length requests)) requests).

(** [_advisory_explanation] *)
Definition _advisory_explanation (output : AdaptivePlannerOutput)
  (planner_input : AdaptivePlannerInput)
  : result py_error (option AdvisoryExplanation * bool) :=
  let explanation := apo_explanation output in
  let citations := pex_citations explanation in
  let valid :=
    subsetb (pcr_admitted_evidence_ids citations)
      (map pae_evidence_id (api_admitted_evidence planner_input))
    && subsetb (pcr_weak_evidence_ids citations)
      (map pwe_evidence_id (api_weak_evidence planner_input))
    && subsetb (pcr_rejected_evidence_ids citations)
      (map pre_evidence_id (api_rejected_evidence planner_input))
    && subsetb (pcr_missing_effect_ids citations)
      (map pme_effect_id (api_missing_evidence planner_input))
    && forallb (λ s, Bool.eqb (negb (bool_decide (s.1 = []))) (is_some s.2))
      (explanation_sections explanation) in
  let retained_citations :=
    pcr_admitted_evidence_ids citations ++ pcr_weak_evidence_ids citations in
  if negb valid || bool_decide (retained_citations = []) then Ok (None, false)
  else
    let labelled := λ label text, (λ text, label +:+ ": " +:+ text) <$> text in
    let sections := pex_summary explanation :: omap id
      [labelled "Admitted evidence" (pex_admitted_evidence explanation);
       labelled "Weak evidence" (pex_weak_evidence explanation);
       labelled "Rejected evidence" (pex_rejected_evidence explanation);
       labelled "Missing evidence" (pex_missing_evidence explanation)] in
    explanation ← model_validate_advisory
      {| ax_text := String.concat (String (Ascii.ascii_of_nat 10) EmptyString) sections;
         ax_cited_evidence_ids := retained_citations |};
    Ok (Some explanation, true).

(** The event of [_emit_advisory_requested]. *)
Definition advisory_requested (envelope : ExecutionEnvelope) (phase : AdaptivePlannerPhase)
  (turn_sequence : Z) (input_sha256 : string) (occurred_at : datetime)
  : InvestigationProgress :=
  Progress_advisory
    {| vg_occurred_at := occurred_at; vg_investigation_id := en_investigation_id envelope;
       vg_stage := Advisory_REQUESTED; vg_phase := phase; vg_turn_sequence := turn_sequence;
       vg_input_sha256 := input_sha256; vg_output_sha256 := None; vg_failure := None;
       vg_cancelled := false; vg_proposals := []; vg_selected_request_sha256 := None;
       vg_planner_recommended_stop := None |}.

(** The event of [_emit_advisory_completed]. *)
Definition proposal_progress (record : ProposalRecord) (request : ProbeRequest)
  : AdvisoryProposalProgress :=
  {| ap_proposal_sequence := pl_proposal_sequence record;
     ap_capability_name := pl_capability_name record;
     ap_capability_version := pl_capability_version record;
     ap_request_sha256 := pl_request_sha256 record;
     ap_relevant_effect_ids := pr_relevant_effect_ids request;
     ap_disposition := pl_disposition record |}.

Definition advisory_completed (envelope : ExecutionEnvelope) (turn : AdaptiveTurnRecord)
  (proposal_requests : list ProbeRequest) (occurred_at : datetime) : InvestigationProgress :=
  Progress_advisory
    {| vg_occurred_at := occurred_at; vg_investigation_id := en_investigation_id envelope;
       vg_stage := Advisory_COMPLETED; vg_phase := tr_phase turn;
       vg_turn_sequence := tr_turn_sequence turn; vg_input_sha256 := tr_input_sha256 turn;
       vg_output_sha256 := tr_output_sha256 turn; vg_failure := tr_failure turn;
       vg_cancelled := tr_cancelled turn;
       vg_proposals := zip_with proposal_progress (tr_proposals turn) proposal_requests;
       vg_selected_request_sha256 := tr_selected_request_sha256 turn;
       vg_planner_recommended_stop := tr_planner_recommended_stop turn |}.

End records.

(** ** One run *)

(** What stays the same during a run: the planner's catalog, the capabilities its
    probes must not fail, and the time the run started. *)
Record adaptive_setup (H : Type) := {
  ax_config : ControllerConfig H;
  ax_policy : AdaptiveInvestigationPolicy;
  ax_metadata : AdvisoryPlannerMetadata;
  ax_started : spec_float;
  ax_catalog : catalog_of H;
  ax_required : list (string * string);
}.
Arguments ax_config {H} _.
Arguments ax_policy {H} _.
Arguments ax_metadata {H} _.
Arguments ax_started {H} _.
Arguments ax_catalog {H} _.
Arguments ax_required {H} _.

(** What the loop keeps beside the controller. *)
Record adaptive_run := {
  rn_engine : EvidenceEngine;
  rn_evaluation : CoreEvaluation;
  rn_turns : list AdaptiveTurnRecord;
  rn_request_by_sequence : list (Z * ProbeRequest);
  rn_prior_request_hashes : list string;
  rn_selected_counts : list ((string * string) * Z);
  rn_processed : list Z;
  rn_unavailable : list Z;
  rn_redundant : list Z;
  rn_unchanged : Z;
}.

(** How far the loop is: the stop reason of a [break], the sequence and time of the
    probe that sufficed, and whether the planner failed. *)
Record adaptive_ending := {
  nd_run : adaptive_run;
  nd_stop_reason : option AdaptiveStopReason;
  nd_sufficient : option (Z * Z);
  nd_planner_failed : bool;
}.

Definition going_on (run : adaptive_run) : adaptive_ending :=
  {| nd_run := run; nd_stop_reason := None; nd_sufficient := None;
     nd_planner_failed := false |}.
Definition stopping (run : adaptive_run) (reason : AdaptiveStopReason) : adaptive_ending :=
  {| nd_run := run; nd_stop_reason := Some reason; nd_sufficient := None;
     nd_planner_failed := false |}.

Definition add_turn (turn : AdaptiveTurnRecord) (run : adaptive_run) : adaptive_run :=
  {| rn_engine := rn_engine run; rn_evaluation := rn_evaluation run;
     rn_turns := rn_turns run ++ [turn];
     rn_request_by_sequence := rn_request_by_sequence run;
     rn_prior_request_hashes := rn_prior_request_hashes run;
     rn_selected_counts := rn_selected_counts run; rn_processed := rn_processed run;
     rn_unavailable := rn_unavailable run; rn_redundant := rn_redundant run;
     rn_unchanged := rn_unchanged run |}.

(** A request that is about to be executed. *)
Definition add_request (request_sha256 : string) (identity : string * string)
  (run : adaptive_run) : adaptive_run :=
  {| rn_engine := rn_engine run; rn_evaluation := rn_evaluation run;
     rn_turns := rn_turns run; rn_request_by_sequence := rn_request_by_sequence run;
     rn_prior_request_hashes := rn_prior_request_hashes run ++ [request_sha256];
     rn_selected_counts :=
       dict_set identity (default 0 (dict_get identity (rn_selected_counts run)) + 1)
         (rn_selected_counts run);
     rn_processed := rn_processed run; rn_unavailable := rn_unavailable run;
     rn_redundant := rn_redundant run; rn_unchanged := rn_unchanged run |}.

Definition add_redundant (sequence : Z) (run : adaptive_run) : adaptive_run :=
  {| rn_engine := rn_engine run; rn_evaluation := rn_evaluation run;
     rn_turns := rn_turns run; rn_request_by_sequence := rn_request_by_sequence run;
     rn_prior_request_hashes := rn_prior_request_hashes run;
     rn_selected_counts := rn_selected_counts run; rn_processed := rn_processed run;
     rn_unavailable := rn_unavailable run;
     rn_redundant := set_add sequence (rn_redundant run); rn_unchanged := rn_unchanged run |}.

(** A probe that was processed. *)
Definition add_probe (request : ProbeRequest) (audit : ControllerAuditRecord)
  (engine : EvidenceEngine) (evaluation : CoreEvaluation) (decision : EvidenceDecision)
  (unchanged : bool) (run : adaptive_run) : adaptive_run :=
  let sequence := ar_sequence audit in
  {| rn_engine := engine; rn_evaluation := evaluation; rn_turns := rn_turns run;
     rn_request_by_sequence := dict_set sequence request (rn_request_by_sequence run);
     rn_prior_request_hashes := rn_prior_request_hashes run;
     rn_selected_counts := rn_selected_counts run;
     rn_processed := set_add sequence (rn_processed run);
     rn_unavailable := set_add_if
       (bool_decide (ar_stop_reason audit = Stop_CAPABILITY_UNAVAILABLE))
       sequence (rn_unavailable run);
     rn_redundant := set_add_if (bool_decide (ed_reason decision = DUPLICATE_CANDIDATES))
       sequence (rn_redundant run);
     rn_unchanged := if unchanged then rn_unchanged run + 1 else 0 |}.

(** The stop reason after the bootstrap probe. *)
Definition stop_after_bootstrap (policy : AdaptiveInvestigationPolicy)
  (audit : ControllerAuditRecord) (decision : EvidenceDecision)
  (classification : Classification) : option AdaptiveStopReason :=
  if inb classification (aip_sufficient_classifications policy)
  then Some Adaptive_SUFFICIENT_EVIDENCE
  else if bool_decide (ar_stop_reason audit = Stop_CAPABILITY_UNAVAILABLE)
  then Some Adaptive_REQUIRED_CAPABILITY_UNAVAILABLE
  else if inb (ar_stop_reason audit) _UNSUPPORTED_REASONS
          || inb (ar_outcome audit) [Probe_REJECTED; Probe_MALFORMED]
          || bool_decide (ed_reason decision = UNSUPPORTED_CAPABILITY)
  then Some Adaptive_REQUIRED_PROBE_FAILED
  else if inb (ar_stop_reason audit) _BUDGET_REASONS then Some Adaptive_BUDGET_EXHAUSTED
  else if inb (ar_stop_reason audit) _DEADLINE_REASONS then Some Adaptive_DEADLINE_EXHAUSTED
  else if bool_decide (ar_stop_reason audit = Stop_PROBE_CANCELLED)
  then Some Adaptive_CANCELLED
  else None.

(** The [break]s after the probe of a turn, in their order. *)
Definition stop_after_turn (policy : AdaptiveInvestigationPolicy) (required : bool)
  (audit : ControllerAuditRecord) (decision : EvidenceDecision)
  (classification : Classification) (unchanged_progress_count : Z)
  : option AdaptiveStopReason :=
  if inb classification (aip_sufficient_classifications policy)
  then Some Adaptive_SUFFICIENT_EVIDENCE
  else if required && bool_decide (ar_stop_reason audit = Stop_CAPABILITY_UNAVAILABLE)
  then Some Adaptive_REQUIRED_CAPABILITY_UNAVAILABLE
  else if required
          && (inb (ar_stop_reason audit) _UNSUPPORTED_REASONS
              || inb (ar_outcome audit) [Probe_REJECTED; Probe_MALFORMED]
              || bool_decide (ed_reason decision = UNSUPPORTED_CAPABILITY)
              || (bool_decide (ar_outcome audit = Probe_COMPLETED)
                  && bool_decide (ed_disposition decision = REJECTED_EVIDENCE)))
  then Some Adaptive_REQUIRED_PROBE_FAILED
  else if inb (ar_stop_reason audit) _BUDGET_REASONS then Some Adaptive_BUDGET_EXHAUSTED
  else if inb (ar_stop_reason audit) _DEADLINE_REASONS then Some Adaptive_DEADLINE_EXHAUSTED
  else if bool_decide (ar_stop_reason audit = Stop_PROBE_CANCELLED)
  then Some Adaptive_CANCELLED
  else if inb (ar_stop_reason audit) _UNSUPPORTED_REASONS
  then Some Adaptive_NO_VALID_PROPOSAL
  else if _NON_PROGRESS_LIMIT <=? unchanged_progress_count then Some Adaptive_NON_PROGRESS
  else None.

(** The end of a loop's turn with its probe. *)
Definition probe_ending (run : adaptive_run) (audit : ControllerAuditRecord)
  (stop_reason : option AdaptiveStopReason) : adaptive_ending :=
  {| nd_run := run; nd_stop_reason := stop_reason;
     nd_sufficient :=
       if bool_decide (stop_reason = Some Adaptive_SUFFICIENT_EVIDENCE)
       then Some (ar_sequence audit, ar_session_elapsed_ms audit) else None;
     nd_planner_failed := false |}.

(** ** The executor *)

Section executor.
Context {rt : Runtime} {sec : Security} {sv : SchemaValidator} {od : ObservationDecoder}.
Context {W H : Type} {env : Environment W H} {dr : Driver W} {pn : Planner W}.

(** An advisory event; its time is read whether or not there is an emitter. *)
Definition emit_advisory (event : datetime → InvestigationProgress) : ctl W unit :=
  occurred_at ← ask progress_occurred_at;
  match progress_emitter with
  | None => mret tt
  | Some emitter =>
      lift (construct_progress (event occurred_at));;
      ask_result (emitter (event occurred_at))
  end.

(** [_emit_advisory_requested] *)
Definition _emit_advisory_requested (envelope : ExecutionEnvelope)
  (phase : AdaptivePlannerPhase) (turn_sequence : Z) (input_sha256 : string) : ctl W unit :=
  emit_advisory (advisory_requested envelope phase turn_sequence input_sha256).

(** [_emit_advisory_completed] *)
Definition _emit_advisory_completed (envelope : ExecutionEnvelope) (turn : AdaptiveTurnRecord)
  (proposal_requests : list ProbeRequest) : ctl W unit :=
  occurred_at ← ask progress_occurred_at;
  match progress_emitter with
  | None => mret tt
  | Some emitter =>
      lift (reject_if (negb (length proposal_requests =? length (tr_proposals turn))%nat)
              (RuntimeError "advisory progress lost its sanitized proposals"));;
      let event := advisory_completed envelope turn proposal_requests occurred_at in
      lift (construct_progress event);;
      ask_result (emitter event)
  end.

(** What the planner answered to one input. *)
Record consultation := {
  ct_input_sha256 : string;
  ct_call : _PlannerCall;
  ct_turn : validated_turn;
}.

(** The planner is asked: its input's digest, the event, the call, the validation. *)
Definition consult (ax : adaptive_setup H) (sequence : Z) (planner_input : AdaptivePlannerInput)
  : ctl W consultation :=
  let input_sha256 := sha256_hex (canonical_json_bytes planner_input) in
  _emit_advisory_requested (cc_envelope (ax_config ax)) (api_phase planner_input) sequence
    input_sha256;;
  call ← _call_planner planner_input (Z.min (aip_planner_timeout_ms (ax_policy ax))
                                        (pb_elapsed_ms (api_remaining_budget planner_input)));
  mret {| ct_input_sha256 := input_sha256; ct_call := call;
          ct_turn := _validated_turn call (ax_metadata ax) input_sha256 |}.

(** A recorded turn. *)
Definition record_turn (ax : adaptive_setup H) (record : result py_error AdaptiveTurnRecord)
  (proposal_requests : list ProbeRequest) (run : adaptive_run) : ctl W adaptive_run :=
  record ← lift record;
  _emit_advisory_completed (cc_envelope (ax_config ax)) record proposal_requests;;
  mret (add_turn record run).

(** [len(turns) + 1] *)
Definition next_turn (run : adaptive_run) : Z := Z.of_nat (S (length (rn_turns run))).

(** The turns that gave no output. *)
Definition record_cancelled (ax : adaptive_setup H) (phase : AdaptivePlannerPhase)
  (consulted : consultation) (run : adaptive_run) : ctl W adaptive_run :=
  record_turn ax
    (_failure_turn_record (next_turn run) phase (ct_input_sha256 consulted) (ax_metadata ax)
       None true None None) [] run.
Definition record_failed (ax : adaptive_setup H) (phase : AdaptivePlannerPhase)
  (consulted : consultation) (failure : PlannerFailureKind) (run : adaptive_run)
  : ctl W adaptive_run :=
  record_turn ax
    (failed_record (next_turn run) phase (ct_input_sha256 consulted) (ax_metadata ax)
       (ct_call consulted) failure) [] run.

(** [any(selected_counts.get(identity, 0) >= planner_catalog[identity]... )] *)
Fixpoint any_spent (catalog : catalog_of H) (selected_counts : list ((string * string) * Z))
  (identities : list (string * string)) : result py_error bool :=
  match identities with
  | [] => Ok false
  | identity :: rest =>
      match dict_get identity catalog with
      | None => Raise (KeyError identity.1)
      | Some entry =>
          if cap_remaining_invocations (ce_descriptor entry)
             <=? default 0 (dict_get identity selected_counts)
          then Ok true else any_spent catalog selected_counts rest
      end
  end.

(** Whether a turn may begin: a reason to stop, or what is left to spend. *)
Definition begin_turn (ax : adaptive_setup H) (run : adaptive_run)
  : ctl W (AdaptiveStopReason + PlannerRemainingBudget) :=
  if inb (ce_classification (rn_evaluation run)) (aip_sufficient_classifications (ax_policy ax))
  then mret (inl Adaptive_SUFFICIENT_EVIDENCE)
  else
    set ← cancellation_requested;
    if set : bool then cancel;; mret (inl Adaptive_CANCELLED)
    else
      remaining ← _remaining_budget (cc_envelope (ax_config ax)) (ax_started ax);
      if pb_elapsed_ms remaining =? 0 then mret (inl Adaptive_DEADLINE_EXHAUSTED)
      else if (pb_probes remaining =? 0) || (pb_cost_units remaining =? 0)
              || (pb_result_bytes remaining =? 0)
      then mret (inl Adaptive_BUDGET_EXHAUSTED)
      else
        spent ← lift (any_spent (ax_catalog ax) (rn_selected_counts run) (ax_required ax));
        if spent : bool then mret (inl Adaptive_REQUIRED_CAPABILITY_UNAVAILABLE)
        else mret (inr remaining).

Definition run_input (ax : adaptive_setup H) (phase : AdaptivePlannerPhase)
  (remaining : PlannerRemainingBudget) (run : adaptive_run)
  : result py_error AdaptivePlannerInput :=
  _planner_input phase (cc_envelope (ax_config ax)) (ax_catalog ax) (rn_selected_counts run)
    (rn_evaluation run) (rn_request_by_sequence run) (rn_prior_request_hashes run) remaining
    (ax_metadata ax).

(** [_planner_input(...)] of an acquisition turn. *)
Definition acquisition_input (ax : adaptive_setup H) (remaining : PlannerRemainingBudget)
  (run : adaptive_run) : result py_error AdaptivePlannerInput :=
  match run_input ax ACQUIRE_EVIDENCE remaining run with
  | Raise e => Raise (if is_input_error e
                      then RuntimeError "adaptive planner input construction failed" else e)
  | Ok planner_input => Ok planner_input
  end.

Definition selection_of (ax : adaptive_setup H) (remaining : PlannerRemainingBudget)
  (run : adaptive_run) : selection_context H :=
  let envelope := cc_envelope (ax_config ax) in
  {| sx_catalog := ax_catalog ax; sx_remaining := remaining;
     sx_selected_counts := rn_selected_counts run;
     sx_expected_effect_ids := expected_effect_ids envelope;
     sx_correlation_fields := correlation_fields (en_context envelope);
     sx_prior_request_hashes := rn_prior_request_hashes run |}.

(** A turn's request is executed: its digest is remembered, the event is emitted, the
    controller is called. *)
Record executing := {
  ex_run : adaptive_run;
  ex_previous_progress : string;
  ex_execution : ProbeExecution;
}.

Definition start_probe (ax : adaptive_setup H) (attempt_sequence : Z) (request : ProbeRequest)
  (run : adaptive_run) : ctl W executing :=
  request_sha256 ← lift (probe_request_sha256 request);
  let run := add_request request_sha256 (request_capability request) run in
  previous_progress ← lift (_progress_sha256 (rn_evaluation run));
  emit (probe_requested (cc_envelope (ax_config ax)) Comparison_ADAPTIVE attempt_sequence
          request request_sha256);;
  execution ← _execute_with_cancellation (ax_config ax) request;
  mret {| ex_run := run; ex_previous_progress := previous_progress;
          ex_execution := execution |}.

(** The evidence of an execution, and whether anything became known by it. *)
Definition finish_probe (ax : adaptive_setup H) (attempt_sequence : Z) (request : ProbeRequest)
  (executed : executing) : ctl W (adaptive_run * EvidenceDecision) :=
  let run := ex_run executed in
  let audit := px_audit (ex_execution executed) in
  known ← processed_probe (rn_engine run) request (ex_execution executed);
  let '(engine, evaluation, decision) := known in
  emit_processed (cc_envelope (ax_config ax)) Comparison_ADAPTIVE attempt_sequence request
    audit decision evaluation;;
  progress ← lift (_progress_sha256 evaluation);
  mret (add_probe request audit engine evaluation decision
          (bool_decide (progress = ex_previous_progress executed)) run, decision).

(** The bootstrap probe. *)
Definition bootstrap_probe (ax : adaptive_setup H) (request : ProbeRequest) (run : adaptive_run)
  : ctl W adaptive_ending :=
  executed ← start_probe ax 1 request run;
  let audit := px_audit (ex_execution executed) in
  finished ← finish_probe ax 1 request executed;
  let '(run, decision) := finished in
  mret (probe_ending run audit
    (stop_after_bootstrap (ax_policy ax) audit decision
       (ce_classification (rn_evaluation run)))).

(** The probe a turn selected. *)
Definition selected_probe (ax : adaptive_setup H) (request : ProbeRequest) (run : adaptive_run)
  : ctl W adaptive_ending :=
  let attempt_sequence := Z.of_nat (S (length (rn_prior_request_hashes run))) in
  executed ← start_probe ax attempt_sequence request run;
  let audit := px_audit (ex_execution executed) in
  if inb (ar_sequence audit) (rn_processed (ex_run executed)) then
    emit_reused (cc_envelope (ax_config ax)) Comparison_ADAPTIVE attempt_sequence request audit
      (engine_attempts (rn_engine (ex_run executed)));;
    mret (stopping (add_redundant (ar_sequence audit) (ex_run executed)) Adaptive_NON_PROGRESS)
  else
    finished ← finish_probe ax attempt_sequence request executed;
    let '(run, decision) := finished in
    let stop_reason :=
      stop_after_turn (ax_policy ax) (inb (request_capability request) (ax_required ax)) audit
        decision (ce_classification (rn_evaluation run)) (rn_unchanged run) in
    mret (probe_ending
      (if bool_decide (stop_reason = Some Adaptive_NON_PROGRESS)
       then add_redundant (ar_sequence audit) run else run) audit stop_reason).

(** Why a turn without a selection stops. *)
Definition unselected (records : list ProposalRecord) : AdaptiveStopReason :=
  if negb (bool_decide (records = []))
     && forallb (λ p, bool_decide (pl_disposition p = Proposal_DUPLICATE)) records
  then Adaptive_NON_PROGRESS else Adaptive_NO_VALID_PROPOSAL.

(** A turn whose planner answered. *)
Definition answered_turn (ax : adaptive_setup H) (remaining : PlannerRemainingBudget)
  (consulted : consultation) (turn : planner_turn) (run : adaptive_run)
  : ctl W adaptive_ending :=
  match pt_output turn with
  | None => throw (Exn_error (RuntimeError "validated planner success lost its output"))
  | Some output =>
      selection ← lift (_select_proposal (selection_of ax remaining run)
                          (apo_probe_proposals output));
      selected_request_sha256 ← lift match sel_request selection with
        | None => Ok None
        | Some request => digest ← probe_request_sha256 request; Ok (Some digest)
        end;
      run ← record_turn ax
        (valid_record (next_turn run) ACQUIRE_EVIDENCE (ct_input_sha256 consulted)
           (pt_turn turn) output (sel_records selection) selected_request_sha256)
        (apo_probe_proposals output) run;
      match sel_request selection with
      | None => mret (stopping run (unselected (sel_records selection)))
      | Some request => selected_probe ax request run
      end
  end.

(** One turn of the loop. *)
Definition acquisition_turn (ax : adaptive_setup H) (run : adaptive_run)
  : ctl W adaptive_ending :=
  begun ← begin_turn ax run;
  match begun with
  | inl reason => mret (stopping run reason)
  | inr remaining =>
      planner_input ← lift (acquisition_input ax remaining run);
      consulted ← consult ax (next_turn run) planner_input;
      match ct_turn consulted with
      | Turn_cancelled =>
          cancel;;
          run ← record_cancelled ax ACQUIRE_EVIDENCE consulted run;
          mret (stopping run Adaptive_CANCELLED)
      | Turn_failed failure =>
          run ← record_failed ax ACQUIRE_EVIDENCE consulted failure run;
          mret {| nd_run := run; nd_stop_reason := Some (_failure_stop_reason failure);
                  nd_sufficient := None; nd_planner_failed := true |}
      | Turn_valid turn => answered_turn ax remaining consulted turn run
      end
  end.

(** [for _ in range(policy.max_turns)] *)
Fixpoint acquisition_loop (ax : adaptive_setup H) (turns : nat) (ending : adaptive_ending)
  : ctl W adaptive_ending :=
  match turns, nd_stop_reason ending with
  | S turns, None =>
      ending ← acquisition_turn ax (nd_run ending);
      acquisition_loop ax turns ending
  | _, _ => mret ending
  end.

(** What the explanation phase leaves: the turns, the explanation and whether it was
    valid. *)
Record explained := {
  xp_run : adaptive_run;
  xp_explanation : option AdvisoryExplanation;
  xp_valid : option bool;
}.

(** An explanation turn whose planner answered. *)
Definition explaining_turn (ax : adaptive_setup H) (planner_input : AdaptivePlannerInput)
  (consulted : consultation) (turn : planner_turn) (run : adaptive_run) : ctl W explained :=
  match pt_output turn with
  | None => throw (Exn_error (RuntimeError "validated explanation lost its output"))
  | Some output =>
      ignored ← lift (ignored_records (apo_probe_proposals output));
      run ← record_turn ax
        (valid_record (next_turn run) EXPLAIN_EVIDENCE (ct_input_sha256 consulted)
           (pt_turn turn) output ignored None) (apo_probe_proposals output) run;
      advised ← lift (_advisory_explanation output planner_input);
      mret {| xp_run := run; xp_explanation := advised.1; xp_valid := Some advised.2 |}
  end.

(** The explanation phase. *)
Definition explain (ax : adaptive_setup H) (run : adaptive_run) : ctl W explained :=
  let unexplained := λ run valid,
    {| xp_run := run; xp_explanation := None; xp_valid := valid |} in
  remaining ← _remaining_budget (cc_envelope (ax_config ax)) (ax_started ax);
  if pb_elapsed_ms remaining <=? 0 then mret (unexplained run None)
  else match run_input ax EXPLAIN_EVIDENCE remaining run with
  | Raise e => if is_input_error e then mret (unexplained run (Some false))
               else throw (Exn_error e)
  | Ok planner_input =>
      consulted ← consult ax (next_turn run) planner_input;
      match ct_turn consulted with
      | Turn_cancelled =>
          run ← record_cancelled ax EXPLAIN_EVIDENCE consulted run;
          mret (unexplained run (Some false))
      | Turn_failed failure =>
          run ← record_failed ax EXPLAIN_EVIDENCE consulted failure run;
          mret (unexplained run (Some false))
      | Turn_valid turn => explaining_turn ax planner_input consulted turn run
      end
  end.

(** Whether the ended loop is explained. *)
Definition explain_phase (ax : adaptive_setup H) (catalog_safe : bool)
  (stop_reason : AdaptiveStopReason) (ending : adaptive_ending) : ctl W explained :=
  let unexplained :=
    {| xp_run := nd_run ending; xp_explanation := None; xp_valid := None |} in
  if aip_include_explanation (ax_policy ax) && catalog_safe
     && negb (nd_planner_failed ending) && negb (bool_decide (stop_reason = Adaptive_CANCELLED))
  then
    set ← cancellation_requested;
    if set : bool then mret unexplained else explain ax (nd_run ending)
  else mret unexplained.

(** The tokens of all turns, when every turn measured them. *)
Definition token_counts (turns : list AdaptiveTurnRecord) : option (Z * Z * Z) :=
  usages ← mapM tr_usage turns;
  let prompt_tokens := fold_right Z.add 0 (map au_prompt_tokens usages) in
  let output_tokens := fold_right Z.add 0 (map au_output_tokens usages) in
  Some (prompt_tokens, output_tokens, prompt_tokens + output_tokens).

Definition disposed_proposals (dispositions : list ProposalDisposition) (turns : list AdaptiveTurnRecord)
  : Z :=
  Z.of_nat (length (filter (λ p, pl_disposition p ∈ dispositions)
    (concat (map tr_proposals turns)))).

(** The result's measurements, before they are checked. *)
Definition adaptive_result (ax : adaptive_setup H) (catalog_sha256 : string)
  (stop_reason : AdaptiveStopReason) (sufficient : option (Z * Z)) (x : explained)
  (audit_trail : list ControllerAuditRecord) (report : InvestigationReport)
  (total_elapsed_ms : Z) (transcript_sha256 : string) : AdaptiveInvestigationResult :=
  let policy := ax_policy ax in
  let policies := policies (en_context (cc_envelope (ax_config ax))) in
  let run := xp_run x in
  let turns := rn_turns run in
  let used := λ f, default 0 (f <$> last audit_trail) in
  {| air_report := report; air_policy_name := aip_name policy;
     air_policy_version := aip_version policy; air_policy_sha256 := aip_sha256 policy;
     air_capability_catalog_sha256 := catalog_sha256; air_stop_reason := stop_reason;
     air_acquisition_turn_count := acquisition_turns turns;
     air_model_invocation_count := Z.of_nat (length turns);
     air_proposal_count := proposal_total turns;
     air_attempted_probe_count := Z.of_nat (length audit_trail);
     air_probe_count_used := used ar_probe_count_used;
     air_cost_units_used := used ar_cost_units_used;
     air_result_bytes_acquired := used ar_result_bytes_acquired;
     air_total_elapsed_ms := total_elapsed_ms;
     air_sufficient_probe_sequence := fst <$> sufficient;
     air_time_to_sufficient_evidence_ms := snd <$> sufficient;
     air_unsupported_proposal_count := disposed_proposals [Proposal_UNSUPPORTED_CAPABILITY] turns;
     air_invalid_proposal_count :=
       disposed_proposals [Proposal_INVALID_ARGUMENTS; Proposal_INVALID_EFFECT_REFERENCE] turns;
     air_duplicate_proposal_count := disposed_proposals [Proposal_DUPLICATE] turns;
     air_unavailable_probe_count := Z.of_nat (length (rn_unavailable run));
     air_redundant_probe_count := Z.of_nat (length (rn_redundant run));
     air_planner_metadata := ax_metadata ax; air_reported_models := reported_models turns;
     air_policies := (pr_authority policies, pr_classification policies, pr_action policies);
     air_token_counts := token_counts turns; air_explanation_valid := xp_valid x;
     air_transcript_sha256 := transcript_sha256; air_turns := turns |}.

(** From the end of the explanation phase to the result. *)
Definition conclude_adaptive (ax : adaptive_setup H) (revision : Z)
  (additional_limitations : list string) (catalog_sha256 : string)
  (stop_reason : AdaptiveStopReason) (sufficient : option (Z * Z)) (x : explained)
  : ctl W AdaptiveInvestigationResult :=
  let envelope := cc_envelope (ax_config ax) in
  let observed_at := ae_observed_at (en_ambiguity envelope) in
  audit_trail ← gets cs_audit;
  t ← ask now;
  report ← lift (report (rn_engine (xp_run x)) audit_trail observed_at (Z.max t observed_at)
    revision (xp_explanation x));
  report ← lift (with_limitations report additional_limitations);
  elapsed ← elapsed_since (ax_started ax);
  let total_elapsed_ms := match last audit_trail with
    | Some final_audit => Z.max elapsed (ar_session_elapsed_ms final_audit)
    | None => elapsed
    end in
  transcript_sha256 ← lift (_transcript_sha256 (rn_turns (xp_run x)));
  result ← lift (make_adaptive_result (adaptive_result ax catalog_sha256 stop_reason sufficient
    x audit_trail report total_elapsed_ms transcript_sha256));
  emit_state (ir_classification report) (ir_action_gate report) (ir_missing_evidence report)
    (strategy_completed envelope Comparison_ADAPTIVE (AdaptiveStopReason_value stop_reason));;
  mret result.

(** The catalog of a run: the planner's, with one invocation left of the bootstrap
    capability, its digest, and whether the two catalogs are as they should be. *)
Record run_catalog := {
  rc_known : list (string * string);
  rc_planner : catalog_of H;
  rc_safe : bool;
  rc_conditional_safe : bool;
  rc_sha256 : string;
}.

Definition one_invocation (entry : _CatalogEntry H) : _CatalogEntry H :=
  let descriptor := ce_descriptor entry in
  {| ce_registration := ce_registration entry;
     ce_descriptor :=
       {| cap_name := cap_name descriptor; cap_version := cap_version descriptor;
          cap_description := cap_description descriptor;
          cap_argument_schema := cap_argument_schema descriptor;
          cap_cost_units := cap_cost_units descriptor; cap_remaining_invocations := 1 |} |}.

Definition catalog_for (envelope : ExecutionEnvelope) (capabilities : @CapabilityRegistry H)
  (bootstrap_request : option ProbeRequest) : result py_error run_catalog :=
  made ← _catalog envelope capabilities;
  let '(catalog, catalog_safe, catalog_sha256) := made in
  match bootstrap_request with
  | None =>
      Ok {| rc_known := dict_keys catalog; rc_planner := catalog; rc_safe := catalog_safe;
            rc_conditional_safe := true; rc_sha256 := catalog_sha256 |}
  | Some request =>
      let identity := request_capability request in
      let planner_catalog := match dict_get identity catalog with
        | Some entry => dict_set identity (one_invocation entry) catalog
        | None => catalog
        end in
      digest ← _catalog_sha256 planner_catalog;
      Ok {| rc_known := dict_keys catalog; rc_planner := planner_catalog;
            rc_safe := catalog_safe;
            rc_conditional_safe := inb identity (dict_keys catalog)
              && (length planner_catalog =? 2)%nat;
            rc_sha256 := digest |}
  end.

(** The checks before the first probe. *)
Definition opening (ax : adaptive_setup H) (catalog : run_catalog) (run : adaptive_run)
  : ctl W adaptive_ending :=
  let required := map ref_identity (aip_required_capabilities (ax_policy ax)) in
  set ← cancellation_requested;
  if set : bool then cancel;; mret (stopping run Adaptive_CANCELLED)
  else if negb (subsetb required (rc_known catalog))
  then mret (stopping run Adaptive_REQUIRED_CAPABILITY_UNAVAILABLE)
  else if negb (rc_safe catalog) || negb (rc_conditional_safe catalog)
  then mret (stopping run Adaptive_CAPABILITY_CATALOG_UNSAFE)
  else mret (going_on run).

Definition new_adaptive_run (engine : EvidenceEngine) (evaluation : CoreEvaluation)
  : adaptive_run :=
  {| rn_engine := engine; rn_evaluation := evaluation; rn_turns := [];
     rn_request_by_sequence := []; rn_prior_request_hashes := []; rn_selected_counts := [];
     rn_processed := []; rn_unavailable := []; rn_redundant := []; rn_unchanged := 0 |}.

(** What the executor does with its controller. *)
Definition drive_adaptive (ax : adaptive_setup H) (rules : TargetRuleRegistry)
  (catalog : run_catalog) (revision : Z) (additional_limitations : list string)
  (bootstrap_request : option ProbeRequest) : ctl W AdaptiveInvestigationResult :=
  let envelope := cc_envelope (ax_config ax) in
  let engine := new_engine envelope rules in
  evaluation ← lift (evaluate engine []);
  emit (strategy_started envelope Comparison_ADAPTIVE);;
  opened ← opening ax catalog (new_adaptive_run engine evaluation);
  booted ← match nd_stop_reason opened, bootstrap_request with
    | None, Some request => bootstrap_probe ax request (nd_run opened)
    | _, _ => mret opened
    end;
  ending ← acquisition_loop ax (Z.to_nat (aip_max_turns (ax_policy ax))) booted;
  let stop_reason := default Adaptive_MAX_TURNS (nd_stop_reason ending) in
  x ← explain_phase ax (rc_safe catalog) stop_reason ending;
  conclude_adaptive ax revision additional_limitations (rc_sha256 catalog) stop_reason
    (nd_sufficient ending) x.

(** The checks of the arguments, with the planner's metadata. *)
Definition check_arguments (envelope : ExecutionEnvelope) (policy : AdaptiveInvestigationPolicy)
  (revision : Z) (additional_limitations : list string)
  (bootstrap_request : option ProbeRequest) : result py_error AdvisoryPlannerMetadata :=
  match bootstrap_request with
  | None => Ok tt
  | Some request =>
      reject_if (negb (aip_max_turns policy =? 1) || aip_include_explanation policy)
        (ValueError "conditional execution requires one acquisition turn without explanation");;
      validate_request request
  end;;
  match planner_metadata with
  | None => Raise (TypeError "adaptive planner does not satisfy the strict protocol")
  | Some configured =>
      reject_if (revision <? 0) (ValueError "report revision must be a nonnegative integer");;
      check_limitations additional_limitations;;
      validate_ExecutionEnvelope envelope;;
      Ok configured
  end.

(** The setup of a run, whose controller is made. *)
Definition setup_of (cfg : ControllerConfig H) (policy : AdaptiveInvestigationPolicy)
  (metadata : AdvisoryPlannerMetadata) (started : spec_float) (catalog : run_catalog)
  (bootstrap_request : option ProbeRequest) : adaptive_setup H :=
  let required := map ref_identity (aip_required_capabilities policy) in
  {| ax_config := cfg; ax_policy := policy; ax_metadata := metadata; ax_started := started;
     ax_catalog := rc_planner catalog;
     ax_required := match bootstrap_request with
       | None => required
       | Some request => filter (λ identity, identity ≠ request_capability request) required
       end |}.

(** [_execute_adaptive_investigation] *)
Definition _execute_adaptive_investigation (envelope : ExecutionEnvelope)
  (capabilities : @CapabilityRegistry H) (rules : TargetRuleRegistry)
  (policy : AdaptiveInvestigationPolicy) (revision : Z) (additional_limitations : list string)
  (bootstrap_request : option ProbeRequest) (session_token : nat) (w : W)
  : result exn AdaptiveInvestigationResult * session W :=
  let start := λ w, {| ss_state := initial_state 0; ss_world := w; ss_dispatched := [] |} in
  match check_arguments envelope policy revision additional_limitations bootstrap_request with
  | Raise e => (Raise (Exn_error e), start w)
  | Ok metadata =>
      let '(started, w) := monotonic w in
      match catalog_for envelope capabilities bootstrap_request with
      | Raise e => (Raise (Exn_error e), start w)
      | Ok catalog =>
          match new_controller envelope capabilities session_token 0 w with
          | (Raise e, s) => (Raise e, s)
          | (Ok cfg, s) =>
              drive_adaptive (setup_of cfg policy metadata started catalog bootstrap_request)
                rules catalog revision additional_limitations bootstrap_request s
          end
      end
  end.

Definition execute_adaptive_investigation (envelope : ExecutionEnvelope)
  (capabilities : @CapabilityRegistry H) (rules : TargetRuleRegistry)
  (policy : AdaptiveInvestigationPolicy) (revision : Z) (additional_limitations : list string)
  : nat → W → result exn AdaptiveInvestigationResult * session W :=
  _execute_adaptive_investigation envelope capabilities rules policy revision
    additional_limitations None.

Definition execute_conditional_adaptive_investigation (envelope : ExecutionEnvelope)
  (capabilities : @CapabilityRegistry H) (rules : TargetRuleRegistry)
  (policy : AdaptiveInvestigationPolicy) (bootstrap_request : ProbeRequest) (revision : Z)
  (additional_limitations : list string)
  : nat → W → result exn AdaptiveInvestigationResult * session W :=
  _execute_adaptive_investigation envelope capabilities rules policy revision
    additional_limitations (Some bootstrap_request).

End executor.
