(* ===== verification/AdaptiveProperties.v ===== *)
(** What an adaptive investigation does: the planner proposes, and only proposals
    that pass deterministic policy are probed; what the result says of the run; and
    why a run raises. *)

From S2P Require Export Adaptive BaselineProperties.

#[local] Open Scope Z_scope.

(** ** Selection *)

Lemma min_candidate_elem l c : min_candidate l = Some c → c ∈ l.
Proof.
  destruct l as [|x l]; [done|]. cbn [min_candidate]. intros [= <-].
  assert (∀ k y, fold_left (λ least z, if candidate_ltb z least then z else least) k y ∈ y :: k)
    as Hfold; [|apply Hfold].
  induction k as [|z k IH]; intros y; [left|]. cbn [fold_left].
  destruct (candidate_ltb z y).
  - right. apply IH.
  - specialize (IH y). apply elem_of_cons in IH as [->|IH]; [left|]. do 2 right. exact IH.
Qed.

(** The least candidate costs least. *)
Lemma min_candidate_cost l c x : min_candidate l = Some c → x ∈ l → c.1.1.1.1 ≤ x.1.1.1.1.
Proof.
  destruct l as [|y l]; [done|]. cbn [min_candidate]. intros [= <-] Hx.
  assert (∀ k y, (∀ z, z ∈ y :: k →
    (fold_left (λ least z, if candidate_ltb z least then z else least) k y).1.1.1.1 ≤ z.1.1.1.1))
    as Hfold; [|by apply Hfold].
  clear. induction k as [|w k IH]; intros y z Hz; [apply list_elem_of_singleton in Hz as ->; apply Z.le_refl|].
  cbn [fold_left].
  assert ((if candidate_ltb w y then w else y).1.1.1.1 ≤ y.1.1.1.1
    ∧ (if candidate_ltb w y then w else y).1.1.1.1 ≤ w.1.1.1.1) as [H1 H2].
  { destruct w as [[[[c n] v] d] i], y as [[[[c' n'] v'] d'] i']. cbn [candidate_ltb].
    destruct (Z.ltb_spec c c') as [Hc|Hc]; cbn [orb fst]; [lia|].
    destruct (c =? c') eqn:Heq; cbn [andb].
    - apply Z.eqb_eq in Heq. case_match; cbn [fst]; lia.
    - cbn [fst]. lia. }
  apply elem_of_cons in Hz as [->|[->|Hz]%elem_of_cons].
  - etrans; [apply IH; left|done].
  - etrans; [apply IH; left|done].
  - apply IH. by right.
Qed.

Lemma min_candidate_none l : min_candidate l = None → l = [].
Proof. by destruct l. Qed.

Section selection.
Context {rt : Runtime} {sec : Security} {sv : SchemaValidator} {H : Type}.
Implicit Types sx : selection_context H.

(** The proposals of a turn with their digests, and their verdicts. *)
Record judged_as sx (requests : list ProbeRequest) (digests : list string)
  (verdicts : list (option ProposalDisposition)) : Prop := {
  ja_digests : Forall2 (λ r d, probe_request_sha256 r = Ok d) requests digests;
  ja_verdicts : Forall2 (λ p v, proposal_verdict sx
      (representatives_of sx (zip (zip (seq 0 (length requests)) requests) digests)) p = Ok v)
    (zip (zip (seq 0 (length requests)) requests) digests) verdicts;
}.

Lemma proposal_lookup (requests : list ProbeRequest) (digests : list string) k p :
  zip (zip (seq 0 (length requests)) requests) digests !! k = Some p →
  p.1.1 = k ∧ requests !! k = Some p.1.2 ∧ digests !! k = Some p.2.
Proof.
  rewrite lookup_zip_with. intros Hp.
  destruct (zip (seq 0 (length requests)) requests !! k) as [q|] eqn:Hq; [|done].
  rewrite lookup_zip_with in Hq. cbn in Hp. destruct (digests !! k) as [d|]; [|done].
  injection Hp as <-. destruct (seq 0 (length requests) !! k) as [i|] eqn:Hi; [|done].
  cbn in Hq. destruct (requests !! k) as [r|]; [|done]. injection Hq as <-.
  apply lookup_seq in Hi as [-> _]. done.
Qed.

Lemma select_judged sx requests sel : _select_proposal sx requests = Ok sel →
  requests ≠ [] → ∃ digests verdicts, judged_as sx requests digests verdicts ∧
    let judged := zip (zip (zip (seq 0 (length requests)) requests) digests) verdicts in
    let selected := snd <$> min_candidate (omap (proposal_candidate sx) judged) in
    Forall2 (λ pv r, make_proposal_record (selected_record selected pv) = Ok r)
      judged (sel_records sel) ∧
    sel_request sel = mbind (λ index, requests !! index) selected.
Proof.
  unfold _select_proposal. intros Hsel Hne. rewrite bool_decide_eq_false_2 in Hsel
    by (by destruct requests).
  apply bind_ok in Hsel as (digests & Hd & Hsel). apply bind_ok in Hsel as (verdicts & Hv & Hsel).
  apply bind_ok in Hsel as (records & Hr & [= <-]).
  exists digests, verdicts. split; [split|]; [by apply mapM_Ok..|]. split; [|done].
  by apply mapM_Ok in Hr.
Qed.

(** The proposal at the selected index. *)
Lemma selected_lookup sx requests digests verdicts k :
  judged_as sx requests digests verdicts →
  let judged := zip (zip (zip (seq 0 (length requests)) requests) digests) verdicts in
  (snd <$> min_candidate (omap (proposal_candidate sx) judged)) = Some k →
  ∃ r d entry, requests !! k = Some r ∧ probe_request_sha256 r = Ok d ∧
    judged !! k = Some (k, r, d, None) ∧
    dict_get (request_capability r) (sx_catalog sx) = Some entry ∧
    (d ∉ sx_prior_request_hashes sx) ∧ _proposal_disposition sx r = Ok None.
Proof.
  intros [Hd Hv] judged Hs. destruct (min_candidate _) as [c|] eqn:Hmin; [|done].
  injection Hs as <-. apply min_candidate_elem, list_elem_of_omap in Hmin as ([p v] & Hpv & Hc).
  apply list_elem_of_lookup in Hpv as [k Hk]. pose proof Hk as Hjk.
  unfold judged in Hk. rewrite lookup_zip_with in Hk.
  destruct (zip _ digests !! k) as [p'|] eqn:Hp; [|done]. cbn in Hk.
  destruct (verdicts !! k) as [v'|] eqn:Hvk; [|done]. injection Hk as -> ->.
  destruct (proposal_lookup _ _ _ _ Hp) as (Hi & Hr & Hdig). destruct p as [[i r] d].
  cbn [fst snd] in *. subst i. unfold proposal_candidate in Hc. cbn [fst snd] in Hc.
  destruct v; [done|]. destruct (dict_get _ _) as [entry|] eqn:He; [|done].
  injection Hc as <-. cbn [snd].
  destruct (Forall2_lookup_l _ _ _ _ _ Hd Hr) as (d' & Hd' & Hsha). rewrite Hdig in Hd'.
  injection Hd' as <-.
  destruct (Forall2_lookup_l _ _ _ _ _ Hv Hp) as (v' & Hv' & Hverdict).
  rewrite Hvk in Hv'. injection Hv' as <-. unfold proposal_verdict in Hverdict.
  destruct (inb d _) eqn:Hin; [done|]. destruct (negb _); [done|]. cbn [orb] in Hverdict.
  apply inb_false in Hin. exists r, d, entry. done.
Qed.

(** A selected proposal is a new one that passed every check. *)
Lemma selected_valid sx requests sel request :
  _select_proposal sx requests = Ok sel → sel_request sel = Some request →
  request ∈ requests ∧ _proposal_disposition sx request = Ok None ∧
  (∃ entry, dict_get (request_capability request) (sx_catalog sx) = Some entry) ∧
  ∃ digest, probe_request_sha256 request = Ok digest ∧ digest ∉ sx_prior_request_hashes sx.
Proof.
  intros Hsel Hreq. destruct (decide (requests = [])) as [->|Hne].
  { unfold _select_proposal in Hsel. cbn in Hsel. injection Hsel as <-. done. }
  destruct (select_judged _ _ _ Hsel Hne) as (digests & verdicts & Hj & _ & Hs).
  rewrite Hreq in Hs. destruct (snd <$> min_candidate _) as [k|] eqn:Hk; [|done].
  cbn in Hs. destruct (selected_lookup _ _ _ _ _ Hj Hk)
    as (r & d & entry & Hr & Hsha & _ & He & Hd & Hdisp).
  rewrite Hr in Hs. injection Hs as ->.
  split_and!; [by eapply list_elem_of_lookup_2|done|eauto|eauto].
Qed.

(** ** The records of a selection *)

Lemma make_proposal_record_inv p r : make_proposal_record p = Ok r → r = p.
Proof. unfold make_proposal_record. intros Hm. by inv_ok. Qed.

Lemma disposition_judged sx request d : _proposal_disposition sx request = Ok (Some d) →
  d ∉ [Proposal_SELECTED; Proposal_DEFERRED; Proposal_IGNORED_EXPLANATION_PHASE].
Proof.
  unfold _proposal_disposition. intros Hd.
  repeat case_match; simplify_eq/=; try apply bind_ok in Hd as (? & _ & Hd);
    repeat case_match; simplify_eq/=; rewrite !not_elem_of_cons;
    split_and!; try done; apply not_elem_of_nil.
Qed.

Lemma verdict_judged sx representatives p d : proposal_verdict sx representatives p = Ok (Some d) →
  d ∉ [Proposal_SELECTED; Proposal_DEFERRED; Proposal_IGNORED_EXPLANATION_PHASE].
Proof.
  unfold proposal_verdict. destruct p as [[i r] digest]. case_match; [|apply disposition_judged].
  intros [= <-]. rewrite !not_elem_of_cons. split_and!; try done. apply not_elem_of_nil.
Qed.

Lemma lookup_map {A B} (f : A → B) l k : map f l !! k = f <$> l !! k.
Proof. apply (list_lookup_fmap f). Qed.

Lemma filter_none {A} (P : A → Prop) `{!∀ x, Decision (P x)} l :
  (∀ j y, l !! j = Some y → ¬ P y) → filter P l = [].
Proof.
  induction l as [|y l IH]; intros Hu; [done|].
  rewrite filter_cons_False by (by apply (Hu 0%nat)). apply IH. intros j z. apply (Hu (S j)).
Qed.

Lemma filter_unique {A} (P : A → Prop) `{!∀ x, Decision (P x)} l k x :
  l !! k = Some x → P x → (∀ j y, l !! j = Some y → P y → j = k) → filter P l = [x].
Proof.
  revert k. induction l as [|y l IH]; intros [|k] Hk Hx Hu; try done.
  - injection Hk as ->. rewrite filter_cons_True by done. f_equal.
    apply filter_none. intros j z Hz HP. by specialize (Hu (S j) z Hz HP).
  - rewrite filter_cons_False by (intros HP; by specialize (Hu 0%nat y eq_refl HP)).
    apply (IH k); [done|done|]. intros j z Hz HP. specialize (Hu (S j) z Hz HP). lia.
Qed.

(** The record of each proposal, at its index. *)
Lemma select_lookup sx requests sel : _select_proposal sx requests = Ok sel →
  requests ≠ [] → ∃ digests verdicts, judged_as sx requests digests verdicts ∧
    let judged := zip (zip (zip (seq 0 (length requests)) requests) digests) verdicts in
    let selected := snd <$> min_candidate (omap (proposal_candidate sx) judged) in
    sel_records sel = map (selected_record selected) judged ∧
    sel_request sel = mbind (λ index, requests !! index) selected ∧
    length judged = length requests ∧
    ∀ k pv, judged !! k = Some pv → ∃ r d v, pv = (k, r, d, v) ∧ requests !! k = Some r ∧
      (∀ disposition, v = Some disposition → disposition
        ∉ [Proposal_SELECTED; Proposal_DEFERRED; Proposal_IGNORED_EXPLANATION_PHASE]).
Proof.
  intros Hsel Hne. destruct (select_judged _ _ _ Hsel Hne) as (digests & verdicts & Hj & Hr & Hs).
  exists digests, verdicts. split; [done|]. intros judged selected. split_and!.
  - clear -Hr. fold judged in Hr. fold selected in Hr. revert Hr.
    generalize (sel_records sel), judged. intros records l Hl.
    induction Hl as [|pv r l k Hm _ IH]; [done|]. cbn [map].
    apply make_proposal_record_inv in Hm as ->. by rewrite IH.
  - exact Hs.
  - destruct Hj as [Hd Hv]. apply Forall2_length in Hd, Hv. unfold judged.
    rewrite length_zip_with, <-Hv, !length_zip_with, length_seq. lia.
  - intros k pv Hk. unfold judged in Hk. rewrite lookup_zip_with in Hk.
    destruct (zip _ digests !! k) as [p|] eqn:Hp; [|done]. cbn in Hk.
    destruct (verdicts !! k) as [v|] eqn:Hvk; [|done]. injection Hk as <-.
    destruct (proposal_lookup _ _ _ _ Hp) as (Hi & Hr' & Hdig). destruct p as [[i r] d].
    cbn [fst snd] in *. subst i. exists r, d, v. split_and!; [done|done|].
    intros disposition ->. destruct Hj as [_ Hv].
    destruct (Forall2_lookup_l _ _ _ _ _ Hv Hp) as (v' & Hv' & Hverdict).
    rewrite Hvk in Hv'. injection Hv' as <-. by eapply verdict_judged.
Qed.

Lemma select_records sx requests sel : _select_proposal sx requests = Ok sel →
  map pl_proposal_sequence (sel_records sel) = one_to (length requests) ∧
  Forall (λ p, pl_disposition p ≠ Proposal_IGNORED_EXPLANATION_PHASE) (sel_records sel) ∧
  let selected := filter (λ p, pl_disposition p = Proposal_SELECTED) (sel_records sel) in
  match sel_request sel with
  | Some r => ∃ d, probe_request_sha256 r = Ok d ∧ map pl_request_sha256 selected = [d]
  | None => selected = []
  end.
Proof.
  intros Hsel. destruct (decide (requests = [])) as [->|Hne].
  { unfold _select_proposal in Hsel. cbn in Hsel. injection Hsel as <-. done. }
  destruct (select_lookup _ _ _ Hsel Hne) as (digests & verdicts & Hj & Hrec & Hreq & Hlen & Hat).
  set (judged := zip (zip (zip _ requests) digests) verdicts) in *.
  set (selected := snd <$> min_candidate _) in *.
  assert (∀ k p, sel_records sel !! k = Some p → ∃ r d v, judged !! k = Some (k, r, d, v) ∧
    p = selected_record selected (k, r, d, v) ∧ requests !! k = Some r ∧
    (pl_disposition p = Proposal_SELECTED ↔ selected = Some k) ∧
    pl_disposition p ≠ Proposal_IGNORED_EXPLANATION_PHASE) as Hp.
  { intros k p Hk. rewrite Hrec in Hk. rewrite lookup_map in Hk.
    apply fmap_Some in Hk as (pv & Hjk & ->).
    destruct (Hat _ _ Hjk) as (r & d & v & -> & Hr & Hv).
    exists r, d, v. split_and!; [done|done|done| |]; unfold selected_record; cbn [pl_disposition fst snd].
    - destruct v as [v|].
      + specialize (Hv v eq_refl). split; [intros ->; set_solver|]. intros Hs.
        destruct (selected_lookup _ _ _ _ _ Hj Hs) as (r' & d' & entry & _ & _ & Hjk' & _).
        by pose proof (eq_trans (eq_sym Hjk) Hjk').
      + case_bool_decide; done.
    - destruct v as [v|]; [specialize (Hv v eq_refl); set_solver|]. by case_bool_decide. }
  split_and!.
  - apply list_eq. intros k. unfold one_to.
    rewrite !lookup_map.
    destruct (sel_records sel !! k) as [p|] eqn:Hk.
    + destruct (Hp _ _ Hk) as (r & d & v & _ & -> & Hr & _). cbn.
      rewrite lookup_seq_lt by (by apply lookup_lt_Some in Hr). cbn. by rewrite Nat.add_1_r || done.
    + apply lookup_ge_None in Hk. rewrite Hrec, length_map in Hk.
      rewrite lookup_seq_ge by (by rewrite <-Hlen). done.
  - apply Forall_lookup. intros k p Hk. by destruct (Hp _ _ Hk) as (? & ? & ? & _ & _ & _ & _ & ?).
  - destruct selected as [k|] eqn:Hs.
    + destruct (selected_lookup _ _ _ _ _ Hj Hs) as (r & d & entry & Hr & Hsha & Hjk & _).
      cbn in Hreq. rewrite Hr in Hreq. rewrite Hreq. exists d.
      split; [done|].
      assert (sel_records sel !! k = Some (selected_record (Some k) (k, r, d, None))) as Hk.
      { rewrite Hrec, lookup_map. apply fmap_Some. by exists (k, r, d, None). }
      rewrite (filter_unique _ _ k _ Hk); [done| |].
      * by apply (Hp _ _ Hk) || (cbn; by rewrite bool_decide_refl).
      * intros j y Hy HP. destruct (Hp _ _ Hy) as (? & ? & ? & _ & _ & _ & Hiff & _).
        apply Hiff in HP. by injection HP.
    + cbn in Hreq. rewrite Hreq. apply filter_none. intros j y Hy HP.
      destruct (Hp _ _ Hy) as (? & ? & ? & _ & _ & _ & Hiff & _). by apply Hiff in HP.
Qed.

Lemma select_made sx requests sel : _select_proposal sx requests = Ok sel →
  Forall (λ p, make_proposal_record p = Ok p) (sel_records sel) ∧
  length (sel_records sel) = length requests.
Proof.
  intros Hsel. split.
  - destruct (decide (requests = [])) as [->|Hne].
    { unfold _select_proposal in Hsel. cbn in Hsel. injection Hsel as <-. constructor. }
    destruct (select_judged _ _ _ Hsel Hne) as (digests & verdicts & _ & Hr & _).
    induction Hr as [|pv r l k Hm _ IH]; constructor; [|done].
    by pose proof (make_proposal_record_inv _ _ Hm) as ->.
  - destruct (select_records _ _ _ Hsel) as [Hn _]. apply (f_equal length) in Hn.
    unfold one_to in Hn. by rewrite !length_map, length_seq in Hn.
Qed.

(** What a selection says of its proposals. *)
Record selected_from sx (requests : list ProbeRequest) (request : ProbeRequest)
  (records : list ProposalRecord) : Prop := {
  sf_proposed : request ∈ requests;
  sf_valid : _proposal_disposition sx request = Ok None;
  sf_entry : is_Some (dict_get (request_capability request) (sx_catalog sx));
  sf_new : ∃ d, probe_request_sha256 request = Ok d ∧ (d ∉ sx_prior_request_hashes sx) ∧
    map pl_request_sha256 (filter (λ p, pl_disposition p = Proposal_SELECTED) records) = [d];
  sf_least : ∀ k other record entry entry', requests !! k = Some other →
    records !! k = Some record → pl_disposition record = Proposal_DEFERRED →
    dict_get (request_capability request) (sx_catalog sx) = Some entry →
    dict_get (request_capability other) (sx_catalog sx) = Some entry' →
    cap_cost_units (ce_descriptor entry) ≤ cap_cost_units (ce_descriptor entry');
}.

(** A deferred proposal was a candidate. *)
Lemma deferred_candidate sx requests digests verdicts selected k r d v entry :
  let judged := zip (zip (zip (seq 0 (length requests)) requests) digests) verdicts in
  judged !! k = Some (k, r, d, v) →
  (∀ disposition, v = Some disposition →
     disposition ∉ [Proposal_SELECTED; Proposal_DEFERRED; Proposal_IGNORED_EXPLANATION_PHASE]) →
  pl_disposition (selected_record selected (k, r, d, v)) ∈ [Proposal_SELECTED; Proposal_DEFERRED] →
  dict_get (request_capability r) (sx_catalog sx) = Some entry →
  (cap_cost_units (ce_descriptor entry), pr_capability_name r, pr_capability_version r, d, k)
    ∈ omap (proposal_candidate sx) judged.
Proof.
  intros judged Hk Hv Hdef He. apply list_elem_of_omap. exists (k, r, d, v).
  split; [by eapply list_elem_of_lookup_2|]. unfold proposal_candidate, selected_record in *.
  cbn [fst snd pl_disposition] in *. destruct v as [disposition|]; [|by rewrite He].
  specialize (Hv _ eq_refl). exfalso. apply Hv. rewrite !elem_of_cons in Hdef |- *.
  destruct Hdef as [?|[?|?%elem_of_nil]]; [by left|by right; left|done].
Qed.

(** A judged proposal without a verdict has a catalog entry. *)
Lemma judged_entry sx requests digests verdicts k r d :
  judged_as sx requests digests verdicts →
  zip (zip (zip (seq 0 (length requests)) requests) digests) verdicts !! k = Some (k, r, d, None) →
  is_Some (dict_get (request_capability r) (sx_catalog sx)).
Proof.
  intros [_ Hv] Hk. rewrite lookup_zip_with in Hk.
  destruct (zip _ digests !! k) as [p|] eqn:Hp; [|done]. cbn in Hk.
  destruct (verdicts !! k) as [v|] eqn:Hvk; [|done]. injection Hk as -> ->.
  destruct (Forall2_lookup_l _ _ _ _ _ Hv Hp) as (v & Hv' & Hverdict).
  rewrite Hvk in Hv'. injection Hv' as <-. unfold proposal_verdict in Hverdict.
  case_match; [done|]. unfold _proposal_disposition in Hverdict.
  destruct (dict_get (request_capability r) (sx_catalog sx)); [by eexists|done].
Qed.

(** C5: what is selected among a turn's proposals.  The records number the proposals.
    A selected proposal is one of them, passed every check of the policy, has a
    digest no earlier request had, and is the only one recorded as selected; no
    proposal that was deferred for it costs less.  When none is selected, none
    passed: every record carries the reason its proposal was turned down. *)
Theorem selection_sound sx requests sel :
  _select_proposal sx requests = Ok sel →
  map pl_proposal_sequence (sel_records sel) = one_to (length requests) ∧
  match sel_request sel with
  | Some request => selected_from sx requests request (sel_records sel)
  | None => Forall (λ p, pl_disposition p ∉ [Proposal_SELECTED; Proposal_DEFERRED])
      (sel_records sel)
  end.
Proof.
  intros Hsel. destruct (select_records _ _ _ Hsel) as (Hn & _ & Hrec). split; [exact Hn|].
  destruct (decide (requests = [])) as [->|Hne].
  { unfold _select_proposal in Hsel. cbn in Hsel. injection Hsel as <-. constructor. }
  destruct (select_lookup _ _ _ Hsel Hne) as (digests & verdicts & Hj & Hmap & Hreq & Hlen & Hat).
  set (judged := zip (zip (zip _ requests) digests) verdicts) in *.
  destruct (min_candidate (omap (proposal_candidate sx) judged)) as [c|] eqn:Hmin.
  - destruct (selected_lookup _ _ _ _ c.2 Hj ltac:(by fold judged; rewrite Hmin))
      as (r & d & entry & Hr & Hsha & Hjk & He & Hnew & Hdisp).
    cbn in Hreq. rewrite Hr in Hreq. rewrite Hreq in Hrec |- *. cbn [fmap option_fmap option_map] in Hmap.
    destruct Hrec as (d' & Hd' & Hone). rewrite Hsha in Hd'. injection Hd' as <-.
    split; [by eapply list_elem_of_lookup_2|done|by eexists|by exists d|].
    intros k other record e e' Hk Hrk Hdef He1 He2. rewrite He in He1. injection He1 as <-.
    rewrite Hmap, lookup_map in Hrk. apply fmap_Some in Hrk as (pv & Hpv & ->).
    destruct (Hat _ _ Hpv) as (r' & d' & v & -> & Hr' & Hv).
    rewrite Hk in Hr'. injection Hr' as <-.
    assert ((cap_cost_units (ce_descriptor e'), pr_capability_name other,
      pr_capability_version other, d', k) ∈ omap (proposal_candidate sx) judged) as Hin.
    { eapply deferred_candidate; [exact Hpv|exact Hv| |exact He2]. rewrite Hdef. right. left. }
    assert (c = (cap_cost_units (ce_descriptor entry), pr_capability_name r,
      pr_capability_version r, d, c.2)) as Hc.
    { pose proof (min_candidate_elem _ _ Hmin) as Hcin.
      apply list_elem_of_omap in Hcin as ([[[i q] dq] vq] & Hq & Hcand).
      apply list_elem_of_lookup in Hq as [n Hq]. destruct (Hat _ _ Hq) as (q' & dq' & vq' & [= -> -> -> ->] & Hqr & _).
      unfold proposal_candidate in Hcand. cbn [fst snd] in Hcand.
      destruct vq'; [done|]. destruct (dict_get (request_capability q') _) as [eq|] eqn:Heq; [|done].
      injection Hcand as <-. cbn [snd] in Hr. rewrite Hqr in Hr. injection Hr as ->.
      cbn [snd] in Hjk. pose proof (eq_trans (eq_sym Hq) Hjk) as [= ->].
      rewrite Heq in He. by injection He as ->. }
    pose proof (min_candidate_cost _ _ _ Hmin Hin) as Hle. rewrite Hc in Hle. exact Hle.
  - cbn in Hreq. rewrite Hreq. apply min_candidate_none in Hmin.
    apply Forall_lookup. intros k p Hk Hin. rewrite Hmap, lookup_map in Hk.
    apply fmap_Some in Hk as (pv & Hpv & ->). destruct (Hat _ _ Hpv) as (r & d & v & -> & Hr & Hv).
    destruct v as [v|].
    + specialize (Hv _ eq_refl). cbn in Hin. rewrite !not_elem_of_cons in Hv.
      rewrite !elem_of_cons in Hin. destruct Hv as (? & ? & _), Hin as [?|[?|?%elem_of_nil]]; done.
    + destruct (judged_entry _ _ _ _ _ _ _ Hj Hpv) as [entry He].
      pose proof (deferred_candidate sx requests digests verdicts None k r d None entry Hpv Hv) as Hc.
      fold judged in Hc. rewrite Hmin in Hc. eapply not_elem_of_nil, Hc; [|exact He].
      cbn. right. left.
Qed.

(** ** A selection is made *)

Context {laws : RuntimeLaws rt}.

(** The identifiers of a request are its [Identifier] fields. *)
Definition request_identified (r : ProbeRequest) : Prop :=
  validate_Identifier (pr_capability_name r) = Ok tt ∧
  validate_Identifier (pr_capability_version r) = Ok tt.

Lemma adaptive_identifier s label :
  validate_Identifier s = Ok tt → _validate_identifier s label = Ok tt.
Proof.
  unfold validate_Identifier, validate_secret_free_identifier, _validate_identifier.
  intros Hv. inv_ok. bool_simpl. unfold in_range.
  rewrite !(proj2 (Z.leb_le _ _)) by lia. cbn.
  repeat match goal with Hx : ?b = _ |- context [?b] => rewrite Hx end. done.
Qed.

Lemma sha256_valid s label : _validate_sha256 (sha256_hex s) label = Ok tt.
Proof. unfold _validate_sha256. by rewrite sha256_hex_valid. Qed.

Lemma digest_sha256 request d label : probe_request_sha256 request = Ok d →
  _validate_sha256 d label = Ok tt.
Proof.
  unfold probe_request_sha256. intros Hd. inv_ok. subst d. apply sha256_valid.
Qed.

Lemma record_made request d k disposition :
  request_identified request → probe_request_sha256 request = Ok d → (k < 8)%nat →
  let record := {| pl_proposal_sequence := Z.of_nat (S k);
    pl_capability_name := pr_capability_name request;
    pl_capability_version := pr_capability_version request;
    pl_request_sha256 := d; pl_disposition := disposition |} in
  make_proposal_record record = Ok record.
Proof.
  intros [Hn Hv] Hd Hk record. unfold make_proposal_record, record.
  cbn [pl_proposal_sequence pl_capability_name pl_capability_version pl_request_sha256].
  rewrite (proj2 (in_range_true _ _ _)) by lia.
  by rewrite (adaptive_identifier _ _ Hn), (adaptive_identifier _ _ Hv), (digest_sha256 _ _ _ Hd).
Qed.

(** The arguments of a digestible request have canonical bytes, and so has each. *)
Lemma digest_arguments request d : probe_request_sha256 request = Ok d →
  validate_json 1 (JObj (pr_arguments request)) = Ok tt.
Proof.
  unfold probe_request_sha256, canonical_json_value_bytes. intros Hd. inv_ok.
  match goal with Hx : validate_json 0 _ = Ok _ |- _ => rename Hx into Hj end.
  apply validate_json_object in Hj as (_ & _ & Hj). unfold probe_request_identity in Hj.
  rewrite !Forall_cons in Hj. destruct_and! Hj.
  repeat match goal with Hm : member_valid _ _ |- _ => destruct Hm as (_ & _ & Hm); cbn [snd] in Hm end.
  done.
Qed.

Lemma conflict_total arguments fields d :
  validate_json d (JObj arguments) = Ok tt → Forall (λ kv, safe_text kv.2) fields →
  ∃ b, correlation_conflict arguments fields = Ok b.
Proof.
  intros Ha Hf. apply validate_json_object in Ha as (_ & _ & Ha).
  induction Hf as [|[k e] fields He _ IH]; [by eexists|]. cbn [correlation_conflict].
  destruct (dict_get k arguments) as [v|] eqn:Hv; [|done].
  apply dict_get_elem in Hv. rewrite Forall_forall in Ha.
  destruct (Ha _ Hv) as (_ & _ & Hj). cbn [snd] in Hj, He.
  assert (canonical_json_value_bytes v = Ok (dumps v)) as ->.
  { unfold canonical_json_value_bytes.
    by rewrite (validate_json_shallower v (S d) 0 ltac:(lia) Hj). }
  cbn [mbind result_bind]. rewrite text_bytes by done. cbn [mbind result_bind].
  case_match; [done|by eexists].
Qed.

Lemma disposition_total sx request d :
  probe_request_sha256 request = Ok d →
  Forall (λ kv, safe_text kv.2) (sx_correlation_fields sx) →
  ∃ v, _proposal_disposition sx request = Ok v.
Proof.
  intros Hd Hf. apply digest_arguments in Hd. unfold _proposal_disposition.
  destruct (dict_get _ _); [|by eexists]. repeat (case_match; [by eexists|]).
  assert (canonical_json_value_bytes (JObj (pr_arguments request))
    = Ok (dumps (JObj (pr_arguments request)))) as ->.
  { unfold canonical_json_value_bytes. by rewrite (validate_json_shallower _ 1 0 ltac:(lia) Hd). }
  repeat (case_match; [by eexists|]).
  destruct (conflict_total _ _ _ Hd Hf) as [b ->]. by eexists.
Qed.

Lemma mapM_total {E A B} (f : A → result E B) l :
  Forall (λ x, ∃ y, f x = Ok y) l → ∃ k, mapM f l = Ok k.
Proof.
  induction 1 as [|x l [y Hy] _ [k Hk]]; [by eexists|]. cbn [mapM]. rewrite Hy. cbn.
  rewrite Hk. by eexists.
Qed.

Lemma select_total sx requests :
  Forall request_identified requests → (length requests ≤ 8)%nat →
  Forall (λ r, is_Ok (probe_request_sha256 r)) requests →
  Forall (λ kv, safe_text kv.2) (sx_correlation_fields sx) →
  ∃ sel, _select_proposal sx requests = Ok sel.
Proof.
  intros Hid H8 Hd Hf. unfold _select_proposal. case_match; [by eexists|].
  destruct (mapM_total probe_request_sha256 requests) as [digests Hdig].
  { eapply Forall_impl; [exact Hd|]. intros r Hr. by apply is_Ok_inv. }
  rewrite Hdig. cbn [mbind result_bind]. apply mapM_Ok in Hdig.
  set (proposals := zip _ digests). set (verdict := proposal_verdict sx _).
  assert (∀ k p, proposals !! k = Some p → p.1.1 = k ∧ requests !! k = Some p.1.2
    ∧ probe_request_sha256 p.1.2 = Ok p.2) as Hp.
  { intros k p Hk. destruct (proposal_lookup _ _ _ _ Hk) as (Hi & Hr & Hd').
    split_and!; [done|done|].
    destruct (Forall2_lookup_l _ _ _ _ _ Hdig Hr) as (d & Hd0 & Hsha).
    rewrite Hd' in Hd0. by injection Hd0 as <-. }
  destruct (mapM_total verdict proposals) as [verdicts Hv].
  { apply Forall_lookup. intros k [[i r] d] Hk. destruct (Hp _ _ Hk) as (_ & _ & Hsha).
    unfold verdict, proposal_verdict. case_match; [by eexists|]. by eapply disposition_total. }
  rewrite Hv. cbn [mbind result_bind]. apply mapM_Ok in Hv.
  match goal with |- context [mapM ?f ?l] => destruct (mapM_total f l) as [records Hrec] end.
  - apply Forall_lookup. intros k pv Hk. rewrite lookup_zip_with in Hk.
    destruct (proposals !! k) as [[[i r] d]|] eqn:Hpk; [|done]. cbn in Hk.
    destruct (verdicts !! k); [|done]. injection Hk as <-.
    destruct (Hp _ _ Hpk) as (Hi & Hr & Hsha). cbn in Hi, Hr, Hsha. subst i.
    eexists. apply record_made; [|done|].
    + rewrite Forall_lookup in Hid. by eapply Hid.
    + apply lookup_lt_Some in Hr. lia.
  - rewrite Hrec. by eexists.
Qed.

End selection.

(** ** Records of turns *)

Section records.
Context {rt : Runtime} {sec : Security} {laws : RuntimeLaws rt}.

Definition metadata_ok (m : AdvisoryPlannerMetadata) : Prop :=
  ∃ given, make_metadata given = Ok m.

(** A record whose parts were made by their constructors. *)
Record turn_ok (t : AdaptiveTurnRecord) : Prop := {
  to_record : make_turn_record t = Ok t;
  to_sequence : tr_turn_sequence t ≤ 65;
  to_metadata : metadata_ok (tr_metadata t);
  to_usage : ∀ u, tr_usage t = Some u → make_usage u = Ok u;
  to_proposals : Forall (λ p, make_proposal_record p = Ok p) (tr_proposals t);
}.

Lemma identifier_printable s : identifier_pattern s = true →
  string_forallb is_printable s = true.
Proof.
  assert (∀ c, is_alnum c = true → is_printable c = true) as Ha.
  { intros c. unfold is_alnum, is_lower, is_upper, is_digit, is_printable. cbv zeta.
    rewrite !orb_true_iff, !andb_true_iff, !N.leb_le. lia. }
  assert (∀ c, is_identifier_char c = true → is_printable c = true) as Hi.
  { intros c. unfold is_identifier_char. rewrite orb_true_iff, inb_true.
    intros [Hc|Hc]; [by apply Ha|]. unfold is_printable. cbv zeta.
    rewrite !elem_of_cons, elem_of_nil in Hc. rewrite andb_true_iff, !N.leb_le. lia. }
  destruct s as [|c s]; [done|]. cbn [identifier_pattern string_forallb].
  rewrite !andb_true_iff. intros [Hc Hs]. split; [by apply Ha|].
  induction s as [|c' s IH]; [done|]. cbn [string_forallb] in Hs |- *.
  apply andb_true_iff in Hs as [Hc' Hs]. by rewrite (Hi _ Hc'), IH.
Qed.

Lemma named_text s label : _validate_identifier s label = Ok tt → safe_text s.
Proof.
  unfold _validate_identifier. intros Hv. apply reject_if_ok in Hv. bool_simpl.
  by apply printable_text, identifier_printable.
Qed.

Lemma sha256_text s label : _validate_sha256 s label = Ok tt → safe_text s.
Proof.
  unfold _validate_sha256. intros Hv. apply reject_if_ok in Hv.
  destruct (validate_Sha256Digest s) as [[]|] eqn:Hs; [|done].
  unfold validate_Sha256Digest in Hs. apply reject_if_ok in Hs. bool_simpl.
  by apply printable_text, hex_printable.
Qed.

Lemma member_ok depth key v :
  string_forallb is_printable key && negb (bool_decide (key = "") || (128 <? py_len key)) = true →
  validate_json (S depth) v = Ok tt → member_valid depth (key, v).
Proof.
  intros [Hk Hl]%andb_true_iff Hv. apply negb_true_iff in Hl.
  split_and!; [done|by apply printable_text|done].
Qed.

Lemma int_json depth z : (depth ≤ 12)%nat → 0 ≤ z ≤ int64_max →
  validate_json depth (JInt z) = Ok tt.
Proof.
  intros Hd Hz. cbn [validate_json]. rewrite (proj2 (Nat.ltb_ge _ _)) by done. cbn.
  rewrite (proj2 (Z.leb_le _ _)), (proj2 (Z.ltb_lt _ _)) by (unfold int64_max in *; lia). done.
Qed.

Lemma atom_json depth v : (depth ≤ 12)%nat → (v = JNull ∨ ∃ b, v = JBool b) →
  validate_json depth v = Ok tt.
Proof.
  intros Hd Hv. destruct Hv as [->|[b ->]]; cbn [validate_json];
    by rewrite (proj2 (Nat.ltb_ge _ _)).
Qed.

Lemma opt_json_ok {A} (f : A → json) o depth : (depth ≤ 12)%nat →
  (∀ x, o = Some x → validate_json depth (f x) = Ok tt) →
  validate_json depth (opt_json f o) = Ok tt.
Proof.
  intros Hd Ho. destruct o as [x|]; [by apply Ho|]. apply atom_json; [done|by left].
Qed.

Lemma metadata_texts m : metadata_ok m →
  safe_text (md_provider_name m) ∧ safe_text (md_configured_model m) ∧
  (∀ r, md_reported_model m = Some r → safe_text r) ∧ safe_text (md_adk_version m) ∧
  safe_text (md_genai_version m) ∧ safe_text (md_prompt_version m) ∧
  safe_text (md_prompt_sha256 m) ∧
  md_input_schema_version m = ADAPTIVE_PLANNER_INPUT_VERSION ∧
  md_output_schema_version m = ADAPTIVE_PLANNER_OUTPUT_VERSION.
Proof.
  intros [given Hm]. unfold make_metadata in Hm. inv_ok. bool_simpl. subst m. cbn.
  split_and!; eauto using named_text, sha256_text.
  intros reported Hrep. rewrite Hrep in *. inv_ok. eauto using named_text.
Qed.

#[local] Ltac members := apply validate_json_object; split; [lia|]; split; [cbn; lia|];
  repeat apply Forall_cons_2; try apply Forall_nil_2; (apply member_ok; [reflexivity|]).

Lemma metadata_json m depth : metadata_ok m → (depth ≤ 11)%nat →
  validate_json depth (JObj
     [("adk_version", JStr (md_adk_version m));
      ("configured_model", JStr (md_configured_model m));
      ("genai_version", JStr (md_genai_version m));
      ("input_schema_version", JStr (md_input_schema_version m));
      ("output_schema_version", JStr (md_output_schema_version m));
      ("prompt_sha256", JStr (md_prompt_sha256 m));
      ("prompt_version", JStr (md_prompt_version m));
      ("provider_name", JStr (md_provider_name m));
      ("reported_model", opt_json JStr (md_reported_model m))]) = Ok tt.
Proof.
  intros (H1 & H2 & H3 & H4 & H5 & H6 & H7 & -> & ->)%metadata_texts Hd.
  members; try (apply text_json; [lia|]); try done; try by apply printable_text.
  apply opt_json_ok; [lia|]. intros r Hr. apply text_json; [lia|]. by apply H3.
Qed.

Lemma proposal_json p depth : make_proposal_record p = Ok p → (depth ≤ 11)%nat →
  validate_json depth (JObj
     [("capability_name", JStr (pl_capability_name p));
      ("capability_version", JStr (pl_capability_version p));
      ("disposition", JStr (ProposalDisposition_value (pl_disposition p)));
      ("proposal_sequence", JInt (pl_proposal_sequence p));
      ("request_sha256", JStr (pl_request_sha256 p))]) = Ok tt.
Proof.
  unfold make_proposal_record. intros Hp Hd. inv_ok. bool_simpl. rewrite in_range_true in *.
  members; try (apply text_json; [lia|]); eauto using named_text, sha256_text.
  - apply printable_text. by destruct (pl_disposition p).
  - apply int_json; [lia|]. unfold int64_max. lia.
Qed.

Lemma usage_json u depth : make_usage u = Ok u → (depth ≤ 11)%nat →
  validate_json depth (JObj
    [("output_tokens", JInt (au_output_tokens u)); ("prompt_tokens", JInt (au_prompt_tokens u));
     ("total_tokens", JInt (au_total_tokens u))]) = Ok tt.
Proof.
  unfold make_usage. intros Hu Hd. inv_ok. bool_simpl. cbn [existsb] in *. bool_simpl.
  rewrite !in_range_true in *. members; (apply int_json; [lia|done]).
Qed.

Lemma record_texts t : make_turn_record t = Ok t →
  1 ≤ tr_turn_sequence t ∧ safe_text (tr_input_sha256 t) ∧
  (∀ d, tr_output_sha256 t = Some d → safe_text d) ∧
  (∀ d, tr_selected_request_sha256 t = Some d → safe_text d).
Proof.
  unfold make_turn_record. intros Ht. apply reject_then_ok in Ht as [Hs Ht].
  apply Z.ltb_ge in Hs. apply bind_ok in Ht as ([] & Hi & Ht).
  apply bind_ok in Ht as ([] & Ho & Ht). apply reject_then_ok in Ht as [_ Ht].
  apply bind_ok in Ht as ([] & Hsel & _).
  split_and!; [done|by eapply sha256_text| |].
  - intros d Hd. rewrite Hd in Ho. by eapply sha256_text.
  - intros d Hd. rewrite Hd in Hsel. apply bind_ok in Hsel as ([] & Hsel & _).
    by eapply sha256_text.
Qed.

Lemma turn_json t depth : turn_ok t → (depth ≤ 9)%nat →
  validate_json depth (_turn_material t) = Ok tt.
Proof.
  intros [Hr Hs Hm Hu Hp] Hd. destruct (record_texts t Hr) as (H1 & H2 & H3 & H4).
  unfold _turn_material. members.
  - apply atom_json; [lia|]. right. by eexists.
  - apply opt_json_ok; [lia|]. intros f _. apply text_json; [lia|].
    apply printable_text. by destruct f.
  - apply text_json; [lia|done].
  - apply metadata_json; [done|lia].
  - apply opt_json_ok; [lia|]. intros d Ho. apply text_json; [lia|by apply H3].
  - apply text_json; [lia|]. apply printable_text. by destruct (tr_phase t).
  - apply opt_json_ok; [lia|]. intros b _. apply atom_json; [lia|]. right. by eexists.
  - apply validate_json_array. split; [lia|]. apply Forall_map.
    eapply Forall_impl; [exact Hp|]. intros p Hpr. apply proposal_json; [done|lia].
  - apply opt_json_ok; [lia|]. intros d Ho. apply text_json; [lia|by apply H4].
  - apply int_json; [lia|]. unfold int64_max. lia.
  - apply opt_json_ok; [lia|]. intros u Ho. apply usage_json; [by apply Hu|lia].
Qed.

Lemma transcript_made turns : Forall turn_ok turns → is_Ok (_transcript_sha256 turns).
Proof.
  intros Ht. unfold _transcript_sha256, canonical_json_value_bytes.
  assert (validate_json 0 (JArr (map _turn_material turns)) = Ok tt) as ->; [|done].
  apply validate_json_array. split; [lia|]. apply Forall_map.
  eapply Forall_impl; [exact Ht|]. intros t Hok. apply turn_json; [done|lia].
Qed.

(** ** Recorded turns and their events *)

Lemma opt_sha256_valid o label :
  (∀ d, o = Some d → _validate_sha256 d label = Ok tt) → validate_opt_sha256 o label = Ok tt.
Proof. intros Ho. destruct o; [by apply Ho|done]. Qed.

(** A turn without output. *)
Lemma failure_made sequence phase input metadata failure cancelled output usage :
  1 ≤ sequence → _validate_sha256 input "adaptive turn input digest" = Ok tt →
  (∀ d label, output = Some d → _validate_sha256 d label = Ok tt) →
  (if cancelled : bool then output = None ∧ failure = None ∧ usage = None
   else is_Some failure) →
  ∃ t, _failure_turn_record sequence phase input metadata failure cancelled output usage = Ok t
    ∧ make_turn_record t = Ok t ∧ tr_turn_sequence t = sequence ∧ tr_phase t = phase ∧
    tr_metadata t = metadata ∧ tr_usage t = usage ∧ tr_proposals t = [] ∧
    tr_selected_request_sha256 t = None ∧ tr_failure t = failure ∧ tr_cancelled t = cancelled.
Proof.
  intros Hs Hi Ho Hc. unfold _failure_turn_record. set (t := {| tr_turn_sequence := _ |}).
  assert (make_turn_record t = Ok t) as Ht; [|exists t; split_and!; done].
  unfold make_turn_record, t. cbn -[_validate_sha256 validate_opt_sha256 Z.ltb].
  rewrite (proj2 (Z.ltb_ge _ _)) by done. cbn [reject_if mbind result_bind].
  rewrite Hi, opt_sha256_valid by eauto. cbn.
  destruct cancelled; [destruct Hc as (-> & -> & ->)|destruct Hc as [f ->]; cbn];
    by destruct phase.
Qed.

(** A turn with an output: [ignored] are its proposals when it explains. *)
Lemma valid_made sequence phase input turn output proposals selected :
  1 ≤ sequence → _validate_sha256 input "adaptive turn input digest" = Ok tt →
  is_Some (tn_usage turn) → (∃ d, tn_output_sha256 turn = Some d ∧
    _validate_sha256 d "adaptive turn output digest" = Ok tt) →
  map pl_proposal_sequence proposals = one_to (length proposals) →
  let chosen := filter (λ p, pl_disposition p = Proposal_SELECTED) proposals in
  match selected with
  | Some d => _validate_sha256 d "selected proposal digest" = Ok tt
      ∧ map pl_request_sha256 chosen = [d]
  | None => chosen = []
  end →
  Forall (λ p, pl_disposition p = Proposal_IGNORED_EXPLANATION_PHASE
               ↔ phase = EXPLAIN_EVIDENCE) proposals →
  ∃ t, valid_record sequence phase input turn output proposals selected = Ok t ∧
    make_turn_record t = Ok t ∧ tr_turn_sequence t = sequence ∧ tr_phase t = phase ∧
    tr_metadata t = tn_metadata turn ∧ tr_usage t = tn_usage turn ∧
    tr_proposals t = proposals ∧ tr_selected_request_sha256 t = selected ∧
    tr_failure t = None.
Proof.
  intros Hs Hi [u Hu] (d & Hd & Hdv) Hn chosen Hsel Hph. unfold valid_record.
  set (t := {| tr_turn_sequence := _ |}).
  assert (make_turn_record t = Ok t) as Ht; [|exists t; split_and!; done].
  unfold make_turn_record, t.
  cbn [tr_turn_sequence tr_phase tr_input_sha256 tr_output_sha256 tr_failure tr_cancelled
    tr_metadata tr_usage tr_proposals tr_selected_request_sha256 tr_planner_recommended_stop].
  rewrite (proj2 (Z.ltb_ge _ _)) by done. rewrite Hi, Hd, Hu. cbn [reject_if mbind result_bind].
  rewrite opt_sha256_valid by (by intros ? [= <-]).
  cbn [mbind result_bind]. rewrite Hn, bool_decide_refl. cbn [negb reject_if mbind result_bind].
  fold chosen. assert (match selected with
    | Some digest => _validate_sha256 digest "selected proposal digest";;
        reject_if (negb (bool_decide (map pl_request_sha256 chosen = [digest])))
          (ValueError "selected proposal metadata is inconsistent")
    | None => reject_if (negb (bool_decide (chosen = [])))
        (ValueError "selected proposal requires a selected digest") end = Ok tt) as ->.
  { destruct selected as [digest|].
    - destruct Hsel as [-> ->]. by rewrite bool_decide_refl.
    - by rewrite Hsel. }
  cbn -[existsb]. case_bool_decide as Hp; subst.
  - destruct (existsb _ proposals) eqn:He; [|done]. exfalso.
    apply existsb_exists in He as (p & Hin & Hx). apply negb_true_iff, bool_decide_eq_false in Hx.
    apply list_elem_of_In in Hin. rewrite Forall_forall in Hph. by apply Hx, Hph.
  - destruct (existsb _ proposals) eqn:He; [|done]. exfalso.
    apply existsb_exists in He as (p & Hin & Hx). apply bool_decide_eq_true in Hx.
    apply list_elem_of_In in Hin. rewrite Forall_forall in Hph. by apply Hp, (Hph p).
Qed.

Lemma requested_advice envelope phase sequence input t : 1 ≤ sequence ≤ 65 →
  construct_progress (advisory_requested envelope phase sequence input t) = Ok tt.
Proof.
  intros Hs. cbn [construct_progress advisory_requested vg_proposals for_each mbind result_bind].
  unfold construct_advisory_progress. cbn -[in_range].
  by rewrite (proj2 (in_range_true 1 sequence 65)).
Qed.

Lemma proposals_progress proposals requests : length requests = length proposals →
  map ap_proposal_sequence (zip_with proposal_progress proposals requests)
    = map pl_proposal_sequence proposals ∧
  map ap_request_sha256 (filter (λ p, ap_disposition p = Proposal_SELECTED)
      (zip_with proposal_progress proposals requests))
    = map pl_request_sha256 (filter (λ p, pl_disposition p = Proposal_SELECTED) proposals).
Proof.
  revert requests. induction proposals as [|p proposals IH]; intros [|r requests] Hl; try done.
  destruct (IH requests) as [H1 H2]; [by injection Hl|]. cbn [zip_with].
  cbn [map]. rewrite H1. split; [done|]. rewrite !filter_cons.
  cbn [proposal_progress ap_disposition]. case_decide; cbn [map]; by rewrite H2.
Qed.

(** What the constructor of a record checks. *)
Record shaped (t : AdaptiveTurnRecord) : Prop := {
  sh_sequence : 1 ≤ tr_turn_sequence t;
  sh_ordered : map pl_proposal_sequence (tr_proposals t) = one_to (length (tr_proposals t));
  sh_selected : map pl_request_sha256
      (filter (λ p, pl_disposition p = Proposal_SELECTED) (tr_proposals t))
    = option_list (tr_selected_request_sha256 t);
  sh_cancelled : tr_cancelled t = true → tr_output_sha256 t = None ∧ tr_failure t = None ∧
    tr_proposals t = [] ∧ tr_planner_recommended_stop t = None;
  sh_answered : tr_cancelled t = false → tr_failure t = None →
    is_Some (tr_output_sha256 t) ∧ is_Some (tr_planner_recommended_stop t);
  sh_failed : is_Some (tr_failure t) → tr_proposals t = [] ∧
    tr_planner_recommended_stop t = None;
}.

Lemma record_shaped t : make_turn_record t = Ok t → shaped t.
Proof.
  intros Hr. destruct (record_texts t Hr) as (H1 & _). unfold make_turn_record in Hr.
  apply reject_then_ok in Hr as [_ Hr]. apply bind_ok in Hr as ([] & _ & Hr).
  apply bind_ok in Hr as ([] & _ & Hr). apply reject_then_ok in Hr as [Hn Hr].
  apply bind_ok in Hr as ([] & Hsel & Hr). apply reject_then_ok in Hr as [Hc Hr].
  apply reject_then_ok in Hr as [Hv Hr]. apply reject_then_ok in Hr as [Hf _].
  split; [done|by bool_simpl| | | |].
  - destruct (tr_selected_request_sha256 t) as [d|].
    + apply bind_ok in Hsel as ([] & _ & Hsel). apply reject_if_ok in Hsel. by bool_simpl.
    + apply reject_if_ok in Hsel. bool_simpl. by rewrite Hsel.
  - intros Ht. rewrite Ht in Hc. clear -Hc.
    destruct (tr_output_sha256 t), (tr_failure t), (tr_planner_recommended_stop t);
      cbn in Hc; bool_simpl; done.
  - intros Ht Hx. rewrite Ht, Hx in Hv. clear -Hv.
    destruct (tr_output_sha256 t), (tr_planner_recommended_stop t); cbn in Hv; eauto;
      bool_simpl; done.
  - intros [f Hx]. rewrite Hx in Hf. clear -Hf.
    destruct (tr_planner_recommended_stop t); cbn in Hf; bool_simpl; done.
Qed.

(** No proposals, nothing selected. *)
Lemma shaped_unselected t : shaped t → tr_proposals t = [] → tr_selected_request_sha256 t = None.
Proof.
  intros Ht Hp. pose proof (sh_selected t Ht) as Hs. rewrite Hp in Hs.
  by destruct (tr_selected_request_sha256 t).
Qed.

Lemma completed_advice envelope t requests time :
  turn_ok t → length requests = length (tr_proposals t) → (length requests ≤ 8)%nat →
  Forall (λ r, validate_request r = Ok tt) requests →
  construct_progress (advisory_completed envelope t requests time) = Ok tt.
Proof.
  intros [Hr Hs Hm Hu Hp] Hl H8 Hq.
  cbn [construct_progress advisory_completed vg_proposals].
  assert (for_each construct_proposal_progress
    (zip_with proposal_progress (tr_proposals t) requests) = Ok tt) as ->.
  { apply for_each_ok. clear -Hl Hq Hp. revert requests Hl Hq.
    induction Hp as [|p proposals Hp _ IH]; intros [|r requests] Hl Hq; try done.
    apply Forall_cons in Hq as [Hv Hq]. constructor; [|apply IH; [by injection Hl|done]].
    unfold make_proposal_record in Hp. inv_ok. bool_simpl.
    destruct (request_effects r Hv) as (Hle & Hd & _). unfold construct_proposal_progress.
    cbn [proposal_progress ap_proposal_sequence ap_relevant_effect_ids].
    by rewrite Hle, Hd, (proj2 (in_range_true 1 _ 8)) by (by apply in_range_true). }
  cbn [mbind result_bind]. destruct (proposals_progress _ _ Hl) as [Hseq Hsha].
  pose proof (record_shaped t Hr) as Ht. pose proof (sh_sequence t Ht) as H1.
  unfold construct_advisory_progress.
  cbn [vg_stage vg_turn_sequence vg_proposals vg_cancelled vg_output_sha256 vg_failure
    vg_selected_request_sha256 vg_planner_recommended_stop].
  rewrite (proj2 (in_range_true 1 _ 65)) by done. rewrite length_zip_with.
  rewrite (proj2 (Nat.ltb_ge _ _)) by lia. cbn [negb orb reject_if mbind result_bind].
  rewrite bool_decide_eq_false_2 by done.
  destruct (tr_cancelled t) eqn:Hc.
  { destruct (sh_cancelled t Ht Hc) as (-> & -> & Hn & ->).
    rewrite (shaped_unselected t Ht Hn), Hn. done. }
  destruct (tr_failure t) as [f|] eqn:Hf.
  { destruct (sh_failed t Ht ltac:(eauto)) as (Hn & ->).
    rewrite (shaped_unselected t Ht Hn), Hn. done. }
  destruct (sh_answered t Ht Hc Hf) as [[o ->] [b ->]]. cbn [is_some is_none negb orb reject_if mbind result_bind].
  rewrite Hseq, (sh_ordered t Ht), Hl, Nat.min_id, bool_decide_refl.
  cbn [negb reject_if mbind result_bind]. rewrite (sh_selected t Ht) in Hsha.
  destruct (filter _ (zip_with _ _ _)) as [|q [|q' l]];
    destruct (tr_selected_request_sha256 t) as [d|]; try done.
  cbn in Hsha. injection Hsha as Hq0. cbn. by rewrite Hq0, bool_decide_refl.
Qed.

End records.

(** ** The planner's side *)

Section planner.
Context {rt : Runtime} {sec : Security} {W : Type} {pn : Planner W}.

(** A turn is made by its constructor, of an output that pydantic validated, of made
    metadata and of a made usage. *)
Definition turn_made (turn : planner_turn) : Prop :=
  ∃ output failure metadata input_sha256 output_sha256 usage,
    make_turn output failure metadata input_sha256 output_sha256 usage = Ok turn ∧
    (∀ o, output = Some o → validate_output o = Ok tt
      ∧ Forall request_identified (apo_probe_proposals o)) ∧
    metadata_ok metadata ∧ (∀ u, usage = Some u → make_usage u = Ok u).

(** What [plan] is annotated to return, and the metadata of a planner. *)
Class PlannerLaws := {
  plan_made : ∀ planner_input timeout_ms w turn w',
    plan_first planner_input timeout_ms w = (Plan_returned (Some turn), w') → turn_made turn;
  metadata_made : ∀ metadata, planner_metadata = Some metadata → metadata_ok metadata;
}.

(** A request some turn of the planner proposed. *)
Definition proposed (request : ProbeRequest) : Prop :=
  ∃ planner_input timeout_ms w turn w' output,
    plan_first planner_input timeout_ms w = (Plan_returned (Some turn), w') ∧
    pt_output turn = Some output ∧ request ∈ apo_probe_proposals output.

Lemma turn_parts turn : turn_made turn →
  metadata_ok (tn_metadata (pt_turn turn)) ∧
  (∀ u, tn_usage (pt_turn turn) = Some u → make_usage u = Ok u) ∧
  (∀ d label, tn_output_sha256 (pt_turn turn) = Some d → _validate_sha256 d label = Ok tt) ∧
  (tn_failure (pt_turn turn) = None → ∃ output, pt_output turn = Some output ∧
    is_Some (tn_usage (pt_turn turn)) ∧ is_Some (tn_output_sha256 (pt_turn turn)) ∧
    (length (apo_probe_proposals output) ≤ 8)%nat ∧
    Forall (λ r, validate_request r = Ok tt) (apo_probe_proposals output) ∧
    Forall request_identified (apo_probe_proposals output)).
Proof.
  intros (output & failure & metadata & input & osha & usage & Hm & Ho & Hmd & Hu).
  unfold make_turn in Hm. apply bind_ok in Hm as ([] & _ & Hm).
  apply bind_ok in Hm as ([] & Hs & Hm). apply reject_then_ok in Hm as [Hx Hm].
  apply reject_then_ok in Hm as [Hy Hm]. apply reject_then_ok in Hm as [Hz [= <-]].
  cbn [pt_turn pt_output tn_metadata tn_usage tn_output_sha256 tn_failure].
  split_and!; [done|done| |].
  - intros d label ->. unfold _validate_sha256 in *. by destruct (is_ok _).
  - intros ->. destruct output as [output|]; [|done]. exists output.
    destruct (Ho _ eq_refl) as [Hv Hi]. destruct usage as [u|]; [|done].
    cbn [fmap option_fmap option_map] in Hz. bool_simpl.
    unfold validate_output in Hv. apply reject_then_ok in Hv as [H8 Hv].
    apply bind_ok in Hv as ([] & Hr & _). apply for_each_ok in Hr. apply Nat.ltb_ge in H8.
    split_and!; try done; eauto.
Qed.

End planner.

(** ** What the planner is told *)

Section told.
Context {rt : Runtime} {sec : Security} {sv : SchemaValidator} {od : ObservationDecoder}.
Context {H : Type}.

(** Nothing is known before the first probe. *)
Lemma start_unknown env :
  validate_ExecutionEnvelope env = Ok tt → core_class env [] = UNKNOWN.
Proof.
  intros (_ & Hn & _)%valid_envelope. unfold core_class, core_classification, admitted_evidence.
  change ((admitted_pairs []).*2) with (@nil NormalizedEvidence).
  assert (∀ s, s ≠ UNVERIFIED → effects_in_state s [] (en_expected_effects env) = []) as Hs.
  { intros s Hs. unfold effects_in_state. clear Hn.
    induction (en_expected_effects env) as [|x l IH]; [done|].
    rewrite filter_cons_False; [done|]. change (UNVERIFIED ≠ s). done. }
  rewrite !Hs by done.
  assert (scopes_within (effect_scopes (en_expected_effects env)) [] = []) as Hw.
  { unfold scopes_within. apply filter_none. intros k scope Hk Hsub.
    apply list_elem_of_lookup_2 in Hk. unfold scopes_of in Hk. rewrite elem_of_remove_dups in Hk.
    apply list_elem_of_fmap in Hk as (x & -> & Hx). apply subsetb_true in Hsub.
    apply (not_elem_of_nil x.1), Hsub. unfold effects_of_scope. apply list_elem_of_fmap.
    exists x. split; [done|]. by apply list_elem_of_filter. }
  unfold is_partial. rewrite Hw. cbn [length].
  rewrite (proj2 (Nat.eqb_neq 0 _)) by lia.
  assert (existsb (λ x, contradictory (states_for (ee_effect_id x) [])) (en_expected_effects env)
    = false) as ->.
  { apply existsb_false_iff. done. }
  cbn. by rewrite !andb_false_r.
Qed.

(** The evidence a planner is told of is that of the evaluation. *)
Lemma summaries_cite evaluation requests (catalog : catalog_of H) ids es :
  _evidence_summaries evaluation requests catalog ids = Ok es →
  (∀ i, i ∈ map pae_evidence_id (es_admitted es) → ∃ a, a ∈ ce_attempts evaluation ∧
     ed_evidence_id (at_decision a) = i ∧ ed_disposition (at_decision a) = ADMITTED) ∧
  (∀ i, i ∈ map pwe_evidence_id (es_weak es) → ∃ a, a ∈ ce_attempts evaluation ∧
     ed_evidence_id (at_decision a) = i ∧ ed_disposition (at_decision a) = WEAK).
Proof.
  unfold _evidence_summaries. intros Hs. apply bind_ok in Hs as (summaries & Hsum & Hs).
  apply bind_ok in Hs as (missing & _ & [= <-]). apply mapM_Ok in Hsum. cbn [es_admitted es_weak].
  split; intros i Hi; apply list_elem_of_fmap in Hi as (e & -> & He);
    rewrite merge_sort_Permutation in He; apply list_elem_of_omap in He as (summary & Hin & He);
    destruct (Forall2_elem_r _ _ _ _ Hsum Hin) as (a & Ha & Hsa); exists a; (split; [done|]);
    unfold summarize_attempt in Hsa; destruct summary; simplify_eq;
    repeat case_match; inv_ok; simplify_eq/=; done.
Qed.

Lemma input_cites phase env (catalog : catalog_of H) counts evaluation requests hashes budget
  metadata planner_input :
  _planner_input phase env catalog counts evaluation requests hashes budget metadata
    = Ok planner_input →
  ∀ i, i ∈ map pae_evidence_id (api_admitted_evidence planner_input)
           ++ map pwe_evidence_id (api_weak_evidence planner_input) →
  ∃ a, a ∈ ce_attempts evaluation ∧ ed_evidence_id (at_decision a) = i ∧
    (ed_disposition (at_decision a) = ADMITTED ∨ ed_disposition (at_decision a) = WEAK).
Proof.
  unfold _planner_input. intros Hin. apply bind_ok in Hin as (es & Hes & Hin).
  apply bind_ok in Hin as (capabilities & _ & Hin). apply bind_ok in Hin as ([] & _ & Hin).
  apply bind_ok in Hin as ([] & _ & [= <-]). cbn [api_admitted_evidence api_weak_evidence].
  destruct (summaries_cite _ _ _ _ _ Hes) as [Ha Hw]. intros i [Hi|Hi]%elem_of_app.
  - destruct (Ha i Hi) as (a & ? & ? & ?). eauto.
  - destruct (Hw i Hi) as (a & ? & ? & ?). eauto.
Qed.

(** An explanation cites what the planner was told. *)
Lemma advice_cites output planner_input e b :
  _advisory_explanation output planner_input = Ok (e, b) →
  (b = true ↔ is_Some e) ∧
  ∀ x i, e = Some x → i ∈ ax_cited_evidence_ids x →
    i ∈ map pae_evidence_id (api_admitted_evidence planner_input)
        ++ map pwe_evidence_id (api_weak_evidence planner_input).
Proof.
  unfold _advisory_explanation. cbv zeta. destruct (negb _ || _) eqn:Hv.
  { intros [= <- <-]. split; [|done]. split; [done|]. by intros [? ?]. }
  intros Hx. apply bind_ok in Hx as (x & Hx & [= <- <-]). split; [by split|].
  intros x' i [= <-] Hi. unfold model_validate_advisory in Hx.
  apply bind_ok in Hx as (text & _ & Hx). apply bind_ok in Hx as ([] & _ & [= <-]).
  cbn [ax_cited_evidence_ids] in Hi. apply orb_false_iff in Hv as [Hv _].
  apply negb_false_iff in Hv. rewrite !andb_true_iff, !subsetb_true in Hv.
  destruct Hv as ((((Hv1 & Hv2) & _) & _) & _).
  apply elem_of_app in Hi as [Hi|Hi]; apply elem_of_app; [left|right]; auto.
Qed.

End told.

(** ** The loop *)

(** How often each capability was selected. *)
Definition counts_of (requests : list ProbeRequest) : list ((string * string) * Z) :=
  fold_left (λ d r, dict_set (request_capability r)
    (default 0 (dict_get (request_capability r) d) + 1) d) requests [].

Lemma counts_of_snoc requests r : counts_of (requests ++ [r]) =
  dict_set (request_capability r)
    (default 0 (dict_get (request_capability r) (counts_of requests)) + 1) (counts_of requests).
Proof. unfold counts_of. by rewrite fold_left_app. Qed.

Section loop.
Context {rt : Runtime} {sec : Security} {sv : SchemaValidator} {od : ObservationDecoder}.
Context {laws : RuntimeLaws rt}.
Context {W H : Type} {env : Environment W H} {dr : Driver W} {pn : Planner W}.
Context (ax : adaptive_setup H) (s0 : session W).
#[local] Abbreviation cfg := (ax_config ax).
#[local] Abbreviation envelope := (cc_envelope cfg).
#[local] Abbreviation policy := (ax_policy ax).
Context (Henv : validate_ExecutionEnvelope envelope = Ok tt).
Context (Hreg : capability_wf (cc_registry cfg)) (Hfresh : fresh_session cfg s0).
Context (rules : TargetRuleRegistry) (Hrules : registry_wf rule_key rules).
Context (Heffects : effects_identified envelope).
#[local] Abbreviation known_after := (evaluation_after envelope rules).

(** What the last audit record leaves of the envelope's budget. *)
Definition left_after (audits : list ControllerAuditRecord) (b : PlannerRemainingBudget)
  : Prop :=
  let maximum := evidence_budget (en_context envelope) in
  let used := λ f, default 0 (f <$> last audits) in
  pb_probes b = Z.max 0 (max_probes maximum - used ar_probe_count_used) ∧
  pb_result_bytes b =
    Z.max 0 (max_total_result_bytes maximum - used ar_result_bytes_acquired) ∧
  pb_cost_units b = Z.max 0 (max_cost_units maximum - used ar_cost_units_used).

(** After the probes [prior], [request] was proposed, passed every check, and is none
    of them. *)
Definition chosen (prior : list (ProbeRequest * ProbeExecution)) (request : ProbeRequest)
  : Prop :=
  proposed request ∧ ∃ remaining hashes,
    left_after (audits_of prior) remaining ∧
    Forall2 (λ rx d, probe_request_sha256 rx.1 = Ok d) prior hashes ∧
    (∃ digest, probe_request_sha256 request = Ok digest ∧ digest ∉ hashes) ∧
    let sx := {| sx_catalog := ax_catalog ax; sx_remaining := remaining;
                 sx_selected_counts := counts_of (map fst prior);
                 sx_expected_effect_ids := expected_effect_ids envelope;
                 sx_correlation_fields := correlation_fields (en_context envelope);
                 sx_prior_request_hashes := hashes |} in
    _proposal_disposition sx request = Ok None ∧
    ∃ entry, dict_get (request_capability request) (ax_catalog ax) = Some entry.

(** The probe after the first [n] of [xs] made nothing known. *)
Definition stalled (xs : list (ProbeRequest * ProbeExecution)) (n : nat) : Prop :=
  ∃ ev ev' p, known_after xs n ev ∧ known_after xs (S n) ev' ∧
    _progress_sha256 ev = Ok p ∧ _progress_sha256 ev' = Ok p.

(** What the run knows of the probes [xs] that returned. *)
Record probing (s : session W) (run : adaptive_run)
  (xs : list (ProbeRequest * ProbeExecution)) (attempts : list EvidenceAttempt) : Prop := {
  ai_pursued : pursued cfg s0 rules s (rn_engine run) xs attempts;
  ai_known : ∃ l, deduplicate_attempts attempts = Ok l
    ∧ rn_evaluation run = core_result envelope l;
  ai_hashes : Forall2 (λ rx d, probe_request_sha256 rx.1 = Ok d) xs
    (rn_prior_request_hashes run);
  ai_distinct : NoDup (rn_prior_request_hashes run);
  ai_counts : rn_selected_counts run = counts_of (map fst xs);
  ai_counted : Forall (counted (length xs))
    [rn_processed run; rn_unavailable run; rn_redundant run];
  ai_unchanged : 0 ≤ rn_unchanged run ∧ ∀ i, Z.of_nat i < rn_unchanged run →
    ∃ n, length xs = (n + S i)%nat ∧ stalled xs n;
}.

(** What its turns say of them: [boot] is what was probed before the first turn. *)
Record advised (boot : list ProbeRequest) (run : adaptive_run)
  (xs : list (ProbeRequest * ProbeExecution)) : Prop := {
  ad_boot : map fst (take (length boot) xs) = boot;
  ad_selected : drop (length boot) (rn_prior_request_hashes run)
    = omap tr_selected_request_sha256 (rn_turns run);
  ad_turns : Forall (λ t, turn_ok t ∧ tr_phase t = ACQUIRE_EVIDENCE) (rn_turns run);
  ad_numbered : map tr_turn_sequence (rn_turns run) = one_to (length (rn_turns run));
  ad_chosen : ∀ n request x, (length boot ≤ n)%nat → xs !! n = Some (request, x) →
    chosen (take n xs) request;
}.

Lemma probing_quiet s s' run xs attempts :
  quiet s s' → probing s run xs attempts → probing s' run xs attempts.
Proof. intros Hq []. split; try done. by eapply pursued_quiet. Qed.

Lemma probing_start ev :
  evaluate (new_engine envelope rules) [] = Ok ev →
  let run := new_adaptive_run (new_engine envelope rules) ev in
  probing s0 run [] [] ∧ advised [] run [].
Proof.
  intros Hev run. pose proof (pursued_start cfg s0 Hfresh rules Hrules) as Hp.
  split; [|by split; try done; constructor]. split; try done; try (by constructor).
  - destruct (session_evaluated cfg s0 s0 [] Henv Hreg Hfresh (pu_probed _ _ _ _ _ _ _ Hp)
      [] _ (pu_engine _ _ _ _ _ _ _ Hp)) as (l & Hl & _ & He); [constructor|cbn; lia|].
    exists l. split; [done|]. destruct Hfresh as (_ & _ & Ha & _). rewrite Ha, Hev in He.
    by injection He.
  - repeat constructor; apply counted_nil.
  - cbn. split; [done|]. intros i Hi. lia.
Qed.

(** ** Why a run raises *)

Inductive adaptive_raised : exn → Prop :=
  | araised_emitter e : emitter_raises e → adaptive_raised e
  | araised_probe xs s1 request e s2 :
      probed cfg s0 xs s1 → execute cfg request s1 = (Raise e, s2) → adaptive_raised e
  | araised_identifiers xs s1 :
      probed cfg s0 xs s1 → identifiers_collide cfg rules xs → adaptive_raised collision_error
  | araised_interrupted planner_input timeout_ms w w' :
      plan_first planner_input timeout_ms w = (Plan_interrupted, w') →
      adaptive_raised Exn_cancelled
  | araised_undigestible request err :
      proposed request → probe_request_sha256 request = Raise err →
      adaptive_raised (Exn_error err)
  | araised_elapsed w t w' err : monotonic w = (t, w') →
      int_of_float (fmul (fsub t (ax_started ax)) (float_of_int 1000)) = Raise err →
      adaptive_raised (Exn_error err)
  | araised_deadline ms w t w' err : now w = (t, w') →
      0 ≤ ms ≤ max_elapsed_ms (evidence_budget (en_context envelope)) →
      (delta ← check_timedelta (ms * 1000); datetime_add t delta) = Raise err →
      adaptive_raised (Exn_error err)
  | araised_input s1 run xs attempts remaining err :
      probing s1 run xs attempts → run_input ax ACQUIRE_EVIDENCE remaining run = Raise err →
      adaptive_raised (Exn_error (if is_input_error err
        then RuntimeError "adaptive planner input construction failed" else err))
  | araised_explanation s1 run xs attempts remaining err :
      probing s1 run xs attempts → run_input ax EXPLAIN_EVIDENCE remaining run = Raise err →
      is_input_error err = false → adaptive_raised (Exn_error err)
  | araised_advice planner_input timeout_ms w turn w' output err :
      plan_first planner_input timeout_ms w = (Plan_returned (Some turn), w') →
      pt_output turn = Some output → _advisory_explanation output planner_input = Raise err →
      adaptive_raised (Exn_error err).

(** A run without raising, or a reason to raise. *)
#[local] Abbreviation or_raised P :=
  (λ r s', match r with Ok a => P a s' | Raise e => adaptive_raised e end).

Lemma wp_weaken {A} (m : ctl W A) P (Q : result exn A → session W → Prop) s :
  wp m (or_raised P) s → (∀ a s', P a s' → Q (Ok a) s') →
  (∀ e s', adaptive_raised e → Q (Raise e) s') → wp m Q s.
Proof. intros Hm Hok He. eapply wp_mono; [exact Hm|]. intros [a|e] s'; auto. Qed.

Lemma wp_advisory event s :
  (∀ t, construct_progress (event t) = Ok tt) →
  wp (emit_advisory event) (or_raised (λ _ s', quiet s s')) s.
Proof.
  intros Hok. unfold emit_advisory. apply wp_bind, wp_ask. intros t w _.
  destruct progress_emitter as [emitter|] eqn:Hem; [|apply wp_ret, quiet_world].
  apply wp_bind, wp_lift; [|by rewrite Hok]. intros [] _. apply wp_ask_result.
  intros [[]|e] w' Hw; [apply (quiet_world s w')|].
  apply araised_emitter. by exists emitter, (event t), w, w'.
Qed.

Lemma wp_completed t requests s :
  turn_ok t → length requests = length (tr_proposals t) → (length requests ≤ 8)%nat →
  Forall (λ r, validate_request r = Ok tt) requests →
  wp (_emit_advisory_completed envelope t requests) (or_raised (λ _ s', quiet s s')) s.
Proof.
  intros Ht Hl H8 Hr. unfold _emit_advisory_completed. apply wp_bind, wp_ask. intros time w _.
  destruct progress_emitter as [emitter|] eqn:Hem; [|apply wp_ret, quiet_world].
  rewrite Hl, Nat.eqb_refl. apply wp_bind, wp_lift; [|done]. intros [] _.
  apply wp_bind, wp_lift; [|by rewrite completed_advice]. intros [] _.
  apply wp_ask_result. intros [[]|e] w' Hw; [apply (quiet_world s w')|].
  apply araised_emitter. by eexists emitter, _, w, w'.
Qed.

(** The clock was read when the session was [ms] old. *)
Definition elapsed_read (ms : Z) : Prop :=
  ∃ w t w' raw, monotonic w = (t, w') ∧
    int_of_float (fmul (fsub t (ax_started ax)) (float_of_int 1000)) = Ok raw ∧
    ms = Z.min (Z.max 0 raw) int64_max.

(** What is left of the time of the envelope's budget, at some reading of the clock,
    is nothing. *)
Definition time_spent : Prop :=
  ∃ ms, elapsed_read ms ∧ max_elapsed_ms (evidence_budget (en_context envelope)) ≤ ms.

(** The cancellation event was set when it was looked at. *)
Definition cancellation_seen : Prop :=
  ∃ is_set w w', cancellation_event = Some is_set ∧ is_set w = (true, w').

Lemma wp_cancellation s :
  wp cancellation_requested
    (or_raised (λ b s', quiet s s' ∧ (b = true → cancellation_seen))) s.
Proof.
  unfold cancellation_requested. destruct cancellation_event as [is_set|] eqn:He.
  - apply wp_ask. intros b w Hb. split; [apply quiet_world|]. intros ->.
    exists is_set, (ss_world s), w. by split.
  - apply wp_ret. split; [apply quiet_here|done].
Qed.

Lemma wp_elapsed s :
  wp (elapsed_since (ax_started ax))
    (or_raised (λ ms s', quiet s s' ∧ 0 ≤ ms ≤ int64_max ∧ elapsed_read ms)) s.
Proof.
  unfold elapsed_since. apply wp_bind, wp_ask. intros t w Ht.
  apply wp_bind, wp_lift; [|intros err He; by eapply araised_elapsed].
  intros ms Hms. apply wp_ret. split; [apply quiet_world|]. split; [unfold int64_max; lia|].
  by exists (ss_world s), t, w, ms.
Qed.

(** The parts of a record's budget are what the last audit left. *)
Lemma budget_bounds : let b := evidence_budget (en_context envelope) in
  0 ≤ max_probes b ≤ 64 ∧ 0 ≤ max_elapsed_ms b ≤ int64_max ∧
  0 ≤ max_total_result_bytes b ≤ int64_max ∧ 0 ≤ max_cost_units b ≤ int64_max.
Proof.
  destruct (valid_envelope envelope Henv) as (_ & _ & _ & _ & Hb & _).
  unfold valid_EvidenceBudget in Hb. bool_simpl. rewrite !in_range_true in *.
  unfold int64_max in *. lia.
Qed.

Lemma wp_remaining xs s : probed cfg s0 xs s →
  wp (_remaining_budget envelope (ax_started ax))
    (or_raised (λ b s', quiet s s' ∧ left_after (audits_of xs) b ∧
      (pb_elapsed_ms b = 0 → time_spent))) s.
Proof.
  intros Hp. destruct (fresh_probed cfg Hreg _ _ _ Hfresh Hp) as (_ & Ha & _ & _ & Hok).
  unfold _remaining_budget. apply wp_bind, wp_gets. rewrite Ha.
  apply wp_bind. eapply wp_weaken; [apply wp_elapsed| |done]. intros ms s1 (Hq1 & Hms & Hread).
  destruct budget_bounds as (H1 & H2 & H3 & H4).
  apply wp_bind, wp_ask. intros t w Ht.
  assert (0 ≤ Z.max 0 (max_elapsed_ms (evidence_budget (en_context envelope)) - ms)
    ≤ max_elapsed_ms (evidence_budget (en_context envelope))) as Hleft by lia.
  apply wp_bind, wp_lift;
    [|intros err He; eapply (araised_deadline _ _ t w err Ht Hleft); by rewrite He].
  intros delta Hd. apply wp_bind, wp_lift;
    [|intros err He; eapply (araised_deadline _ _ t w err Ht Hleft); rewrite Hd; exact He].
  intros deadline _. set (b := {| pb_probes := _ |}).
  assert (construct_remaining_budget b = Ok tt) as Hb.
  { unfold construct_remaining_budget, b. cbn [pb_probes pb_elapsed_ms pb_result_bytes pb_cost_units].
    assert (∀ f, (∀ a, a ∈ audits_of xs → 0 ≤ f a) → 0 ≤ default 0 (f <$> last (audits_of xs))) as Hl.
    { intros f Hf. destruct (last (audits_of xs)) as [a|] eqn:Hlast; [|done]. cbn.
      by apply Hf, last_Some_elem_of. }
    rewrite Forall_forall in Hok.
    assert (∀ a, a ∈ audits_of xs → 0 ≤ ar_probe_count_used a ∧ 0 ≤ ar_cost_units_used a
      ∧ 0 ≤ ar_result_bytes_acquired a) as Hc.
    { intros a Hin. destruct (audit_counters _ (au_valid _ _ (Hok a Hin))) as (_ & _ & C1 & C2 & C3 & _).
      rewrite in_range_true in *. lia. }
    pose proof (Hl ar_probe_count_used ltac:(intros a Hin; by apply Hc)).
    pose proof (Hl ar_cost_units_used ltac:(intros a Hin; by apply Hc)).
    pose proof (Hl ar_result_bytes_acquired ltac:(intros a Hin; by apply Hc)).
    rewrite !(proj2 (in_range_true _ _ _)) by lia. done. }
  apply wp_bind, wp_lift; [|by rewrite Hb]. intros [] _. apply wp_ret.
  split_and!; [by eapply quiet_trans; [exact Hq1|apply quiet_world]|done|].
  cbn. intros Hz. exists ms. split; [done|lia].
Qed.

(** ** Asking the planner *)

Context {pl : PlannerLaws (W := W)} (Hmeta : metadata_ok (ax_metadata ax)).

(** What a consultation gives. *)
Record consulted_ok (planner_input : AdaptivePlannerInput) (ct : consultation) : Prop := {
  co_input : ∀ label, _validate_sha256 (ct_input_sha256 ct) label = Ok tt;
  co_turn : ct_turn ct = _validated_turn (ct_call ct) (ax_metadata ax) (ct_input_sha256 ct);
  co_made : ∀ turn, pcl_turn (ct_call ct) = Some turn → turn_made turn;
  co_proposed : ∀ turn output r, pcl_turn (ct_call ct) = Some turn →
    pt_output turn = Some output → r ∈ apo_probe_proposals output → proposed r;
  co_planned : ∀ turn, pcl_turn (ct_call ct) = Some turn →
    ∃ timeout_ms w w', plan_first planner_input timeout_ms w = (Plan_returned (Some turn), w');
}.

Lemma wp_consult sequence planner_input s : 1 ≤ sequence ≤ 65 →
  wp (consult ax sequence planner_input) (or_raised (λ ct s', quiet s s' ∧ consulted_ok planner_input ct)) s.
Proof.
  intros Hseq. unfold consult, _emit_advisory_requested. apply wp_bind.
  eapply wp_weaken; [apply wp_advisory; intros t; by apply requested_advice| |done].
  intros [] s1 Hq1. apply wp_bind. unfold _call_planner. apply wp_bind, wp_ask.
  set (timeout := Z.min _ _). intros ending w Hplan.
  pose proof (quiet_trans _ _ _ Hq1 (quiet_world s1 w)) as Hq.
  destruct ending as [| | |b|[turn|]]; try (apply wp_ret, wp_ret; split; [done|];
    split; [intros label; apply sha256_valid|done..]).
  - apply wp_throw. by eapply araised_interrupted.
  - destruct b; apply wp_ret, wp_ret; split; try done;
      (split; [intros label; apply sha256_valid|done..]).
  - apply wp_ret, wp_ret. split; [done|]. split; [intros label; apply sha256_valid|done| | |].
    + intros turn' [= <-]. by eapply plan_made.
    + intros turn' output r [= <-] Ho Hr. by exists planner_input, timeout, (ss_world s1), turn, w, output.
    + intros turn' [= <-]. by exists timeout, (ss_world s1), w.
Qed.

Lemma validated_valid call input turn :
  _validated_turn call (ax_metadata ax) input = Turn_valid turn →
  pcl_turn call = Some turn ∧ tn_failure (pt_turn turn) = None.
Proof.
  unfold _validated_turn. intros Hv. repeat case_match; simplify_eq/=; done.
Qed.

Lemma wp_record_turn t requests run s :
  turn_ok t → length requests = length (tr_proposals t) → (length requests ≤ 8)%nat →
  Forall (λ r, validate_request r = Ok tt) requests →
  wp (record_turn ax (Ok t) requests run)
    (or_raised (λ run' s', quiet s s' ∧ run' = add_turn t run)) s.
Proof.
  intros Ht Hl H8 Hr. unfold record_turn. apply wp_bind, wp_lift; [|done].
  intros ? [= <-]. apply wp_bind. eapply wp_weaken; [by apply wp_completed| |done].
  intros [] s' Hq. by apply wp_ret.
Qed.

(** A turn without proposals. *)
Definition silent (phase : AdaptivePlannerPhase) (failure : option PlannerFailureKind)
  (run : adaptive_run) (t : AdaptiveTurnRecord) : Prop :=
  turn_ok t ∧ tr_phase t = phase ∧ tr_turn_sequence t = next_turn run ∧
  tr_selected_request_sha256 t = None ∧ tr_proposals t = [] ∧ tr_failure t = failure.

Lemma wp_record_cancelled planner_input phase ct run s :
  consulted_ok planner_input ct → (length (rn_turns run) ≤ 64)%nat →
  wp (record_cancelled ax phase ct run) (or_raised (λ run' s', quiet s s' ∧
    ∃ t, silent phase None run t ∧ tr_cancelled t = true ∧ run' = add_turn t run)) s.
Proof.
  intros Hc Hn. unfold record_cancelled.
  destruct (failure_made (next_turn run) phase (ct_input_sha256 ct) (ax_metadata ax) None true
    None None) as (t & Ht & Hr & Hs & Hp & Hm & Hu & Hpr & Hsel & Hf & Hcn);
    [unfold next_turn; lia|by apply Hc|done|done|].
  rewrite Ht. assert (turn_ok t) as Hok.
  { split; [done|rewrite Hs; unfold next_turn; lia|by rewrite Hm|by rewrite Hu|by rewrite Hpr]. }
  eapply wp_weaken; [apply wp_record_turn; [done|by rewrite Hpr|cbn; lia|done]| |done].
  intros run' s' [Hq ->]. split; [done|]. exists t. split; [by split_and!|done].
Qed.

Lemma wp_record_failed planner_input phase ct failure run s :
  consulted_ok planner_input ct → (length (rn_turns run) ≤ 64)%nat →
  wp (record_failed ax phase ct failure run) (or_raised (λ run' s', quiet s s' ∧
    ∃ t, silent phase (Some failure) run t ∧ run' = add_turn t run)) s.
Proof.
  intros Hc Hn. unfold record_failed, failed_record.
  set (metadata := match pt_turn <$> pcl_turn (ct_call ct) with Some _ => _ | None => _ end).
  set (output := (pt_turn <$> pcl_turn (ct_call ct)) ≫= (λ turn, tn_output_sha256 turn)).
  set (usage := (pt_turn <$> pcl_turn (ct_call ct)) ≫= (λ turn, tn_usage turn)).
  assert (metadata_ok metadata ∧ (∀ d label, output = Some d → _validate_sha256 d label = Ok tt)
    ∧ ∀ u, usage = Some u → make_usage u = Ok u) as (Hmd & Ho & Hus).
  { unfold metadata, output, usage. destruct (pcl_turn (ct_call ct)) as [turn|] eqn:Hturn; [|done].
    destruct (turn_parts turn (co_made _ _ Hc _ Hturn)) as (H1 & H2 & H3 & _). cbn.
    split_and!; [by case_match|done|done]. }
  destruct (failure_made (next_turn run) phase (ct_input_sha256 ct) metadata (Some failure) false
    output usage) as (t & Ht & Hr & Hs & Hp & Hm & Hu & Hpr & Hsel & Hf & Hcn);
    [unfold next_turn; lia|by apply Hc|done|done|].
  rewrite Ht. assert (turn_ok t) as Hok.
  { split; [done|rewrite Hs; unfold next_turn; lia|by rewrite Hm|by rewrite Hu|by rewrite Hpr]. }
  eapply wp_weaken; [apply wp_record_turn; [done|by rewrite Hpr|cbn; lia|done]| |done].
  intros run' s' [Hq ->]. split; [done|]. exists t. by split_and!.
Qed.

(** ** Probing *)

(** The request's execution has just returned. *)
Record executed_ok (run : adaptive_run) (xs : list (ProbeRequest * ProbeExecution))
  (attempts : list EvidenceAttempt) (request : ProbeRequest) (digest : string)
  (e : executing) (s1 s2 s' : session W) : Prop := {
  xo_probing : probing s1 run xs attempts;
  xo_open : cs_terminal_execution (ss_state s1) = None;
  xo_digest : probe_request_sha256 request = Ok digest;
  xo_executed : execute cfg request s1 = (Ok (ex_execution e), s2);
  xo_quiet : quiet s2 s';
  xo_run : ex_run e = add_request digest (request_capability request) run;
  xo_previous : _progress_sha256 (rn_evaluation run) = Ok (ex_previous_progress e);
}.

Lemma digest_validated request d :
  probe_request_sha256 request = Ok d → validate_request request = Ok tt.
Proof. unfold probe_request_sha256. intros Hd. by inv_ok. Qed.

Lemma wp_start_probe s run xs attempts request digest :
  probing s run xs attempts → cs_terminal_execution (ss_state s) = None →
  probe_request_sha256 request = Ok digest → (length xs < 64)%nat →
  wp (start_probe ax (Z.of_nat (S (length xs))) request run)
    (or_raised (λ e s', ∃ s1 s2, executed_ok run xs attempts request digest e s1 s2 s')) s.
Proof.
  intros Hp Ht Hd H64. unfold start_probe. apply wp_bind, wp_lift; [|by rewrite Hd].
  intros d Hd'. rewrite Hd in Hd'. injection Hd' as <-.
  destruct (ai_known _ _ _ _ Hp) as (l & _ & Hev).
  destruct (is_Ok_inv _ (progress_digest envelope l Heffects)) as [progress Hprog].
  apply wp_bind, wp_lift; [|by cbn [add_request rn_evaluation]; rewrite Hev, Hprog].
  intros previous Hprev. cbn [add_request rn_evaluation] in Hprev.
  apply wp_bind, wp_emit.
  { intros t. apply requested_event; [by eapply digest_validated|lia]. }
  2: { intros e s1 _ He. by apply araised_emitter. }
  intros s1 Hq1. apply (probing_quiet _ _ _ _ _ Hq1) in Hp. rewrite <-(quiet_open _ _ Hq1) in Ht.
  apply wp_bind, wp_execution.
  - intros s2 x s3 s4 Hq2 Hx Hq4. apply wp_ret. exists s2, s3.
    split; try done; [by eapply probing_quiet|by rewrite (quiet_open _ _ Hq2)].
  - intros s2 e s3 Hq2 Hx. eapply araised_probe; [|exact Hx].
    eapply probed_quiet; [|exact Hq2]. apply Hp.
Qed.

(** The first probe with a sequence is not a processed one. *)
Lemma executed_sequence run xs attempts request digest e s1 s2 s' :
  executed_ok run xs attempts request digest e s1 s2 s' →
  ar_sequence (px_audit (ex_execution e)) = Z.of_nat (S (length xs)) ∧
  audit_ok cfg (px_audit (ex_execution e)) ∧
  inb (ar_sequence (px_audit (ex_execution e))) (rn_processed (ex_run e)) = false.
Proof.
  intros [Hp Ht Hd Hx Hq Hr].
  destruct (pursued_probe cfg s0 Henv Hreg Hfresh rules _ _ _ _ _ _ _ _
    (ai_pursued _ _ _ _ Hp) Ht ltac:(by rewrite Hd) Hx Hq) as (Hseq & Haud & _).
  split_and!; [done|done|]. apply inb_false. rewrite Hseq, Hr. cbn [add_request rn_processed].
  intros Hin. pose proof (Forall_inv (ai_counted _ _ _ _ Hp)) as [_ Hc].
  rewrite Forall_forall in Hc. specialize (Hc _ Hin). cbn in Hc. lia.
Qed.

(** A probe that was processed: what is known after it, and whether the controller
    goes on. *)
Record probed_on (run : adaptive_run) (xs : list (ProbeRequest * ProbeExecution))
  (request : ProbeRequest) (digest : string) (x : ProbeExecution)
  (run' : adaptive_run) (decision : EvidenceDecision) (s' : session W) : Prop := {
  po_probing : ∃ attempts, probing s' run' (xs ++ [(request, x)]) attempts;
  po_turns : rn_turns run' = rn_turns run;
  po_hashes : rn_prior_request_hashes run' = rn_prior_request_hashes run ++ [digest];
  po_known : known_after (xs ++ [(request, x)]) (S (length xs)) (rn_evaluation run');
  po_open : ar_stop_reason (px_audit x) ∉ TERMINAL_REASONS →
    cs_terminal_execution (ss_state s') = None;
}.

Lemma wp_finish_probe s1 s2 s run xs attempts request digest e :
  executed_ok run xs attempts request digest e s1 s2 s →
  digest ∉ rn_prior_request_hashes run → (length xs < 64)%nat →
  wp (finish_probe ax (Z.of_nat (S (length xs))) request e)
    (or_raised (λ rd s', probed_on run xs request digest (ex_execution e) rd.1 rd.2 s')) s.
Proof.
  intros Hex Hnew H64. destruct (executed_sequence _ _ _ _ _ _ _ _ _ Hex) as (Hseq & Haud & _).
  destruct Hex as [[Hp (l0 & Hded0 & Hev0) Hh Hdist Hcnt Hc [Hu0 Hu]] Ht Hd Hx Hq Hr Hprev]. unfold finish_probe.
  set (x := ex_execution e) in *. rewrite Hr.
  apply wp_bind. eapply (wp_processed_probe cfg s0 Henv Hreg Hfresh rules);
    [exact Hp|exact Ht|by rewrite Hd|done|exact Hx|exact Hq| |].
  2: { intros Hcol. eapply araised_identifiers; [|exact Hcol].
       eapply probed_quiet; [|exact Hq]. eapply probed_snoc; [apply Hp|done|exact Hx]. }
  intros a a' g' l Hp' Hded Hlast. apply wp_bind.
  eapply (wp_emit_processed cfg Henv); [by eapply digest_validated|lia|done| |].
  2: { intros err s5 He. by apply araised_emitter. }
  intros s5 Hq5. apply (pursued_quiet _ _ _ _ _ _ _ _ Hq5) in Hp'.
  destruct (is_Ok_inv _ (progress_digest envelope l Heffects)) as [progress Hprog].
  apply wp_bind, wp_lift; [|by rewrite Hprog]. intros p Hp0. apply wp_ret. cbn [fst snd].
  pose proof (evaluation_after_all _ _ _ _ _ _ (pu_processed _ _ _ _ _ _ _ Hp) Hded0) as Hev1.
  pose proof (evaluation_after_all _ _ _ _ _ _ (pu_processed _ _ _ _ _ _ _ Hp') Hded) as Hev.
  rewrite length_app, Nat.add_1_r in Hev.
  split; [|done|done|exact Hev|].
  - exists (attempts ++ [a]).
    split; [exact Hp'|by exists l| | | | |];
      cbn [add_probe add_request rn_prior_request_hashes rn_selected_counts rn_processed
        rn_unavailable rn_redundant rn_unchanged].
    + apply Forall2_app; [exact Hh|]. by constructor.
    + apply NoDup_app. split_and!; [done| |apply NoDup_singleton].
      intros d Hin ->%list_elem_of_singleton. done.
    + rewrite map_app. cbn [map fst]. by rewrite counts_of_snoc, Hcnt.
    + rewrite length_app, Nat.add_1_r, Hseq.
      change (set_add (Z.of_nat (S (length xs))) (rn_processed run))
        with (set_add_if true (Z.of_nat (S (length xs))) (rn_processed run)).
      apply (Forall_impl _ (counted (S (length xs)))) in Hc; [|intros; by apply counted_more].
      rewrite !Forall_cons in Hc. destruct Hc as (C1 & C2 & C3 & _).
      repeat apply Forall_cons_2; try apply Forall_nil_2; by apply counted_add_if.
    + case_bool_decide as Hsame; [|split; [lia|intros i Hi; lia]]. split; [lia|].
      rewrite length_app. intros [|i] Hi.
      * exists (length xs). split; [cbn; lia|]. exists (rn_evaluation run), (core_result envelope l), p.
        split_and!; [|done|by rewrite Hprev, Hsame|done].
        rewrite Hev0. by apply evaluation_after_app.
      * destruct (Hu i ltac:(lia)) as (n & Hn & ev & ev' & q & H1 & H2 & H3).
        exists n. split; [cbn; lia|]. exists ev, ev', q.
        split_and!; [by apply evaluation_after_app; [lia|]..|apply H3|apply H3].
  - intros Hnt. rewrite (quiet_open _ _ Hq5), (quiet_open _ _ Hq).
    pose proof (probed_snoc _ _ _ _ _ _ _ (pu_probed _ _ _ _ _ _ _ Hp) Ht Hx) as Hrun.
    destruct Hfresh as (Hs0 & _ & _ & Hn0 & _).
    rewrite (probed_latch cfg Hreg _ _ _ Hs0 Hrun Hn0), last_snoc. unfold is_terminal.
    by rewrite (proj2 (inb_false _ _) Hnt).
Qed.

(** ** Turns of the loop *)

Context (Hpolicy : UNKNOWN ∉ aip_sufficient_classifications policy).

#[local] Abbreviation sufficient := (aip_sufficient_classifications policy).

(** What the audit record of the last probe says when the run stops for [reason]
    after it. *)
Definition audit_says (a : ControllerAuditRecord) (reason : AdaptiveStopReason) : Prop :=
  match reason with
  | Adaptive_BUDGET_EXHAUSTED => ar_stop_reason a ∈ _BUDGET_REASONS
  | Adaptive_DEADLINE_EXHAUSTED => ar_stop_reason a ∈ _DEADLINE_REASONS
  | Adaptive_REQUIRED_CAPABILITY_UNAVAILABLE => ar_stop_reason a = Stop_CAPABILITY_UNAVAILABLE
  | Adaptive_CANCELLED => ar_stop_reason a = Stop_PROBE_CANCELLED
  | _ => True
  end.

(** What holds when a run stops for [reason]. *)
Definition stopped_because (xs : list (ProbeRequest * ProbeExecution)) (turns : list AdaptiveTurnRecord)
  (ev : CoreEvaluation) (reason : AdaptiveStopReason) : Prop :=
  let last_failed := λ failure,
    ∃ t, last turns = Some t ∧ tr_failure t = Some failure in
  let last_audit := λ P : ControllerAuditRecord → Prop,
    ∃ a, last (audits_of xs) = Some a ∧ P a in
  match reason with
  | Adaptive_SUFFICIENT_EVIDENCE => ce_classification ev ∈ sufficient
  | Adaptive_MAX_TURNS =>
      length turns = Z.to_nat (aip_max_turns policy)
  | Adaptive_PLANNER_UNAVAILABLE => last_failed Planner_UNAVAILABLE
  | Adaptive_PLANNER_TIMEOUT => last_failed Planner_TIMEOUT
  | Adaptive_PLANNER_SCHEMA_INVALID => last_failed Planner_SCHEMA_INVALID
  | Adaptive_BUDGET_EXHAUSTED =>
      last_audit (λ a, audit_says a reason) ∨
      ∃ b, left_after (audits_of xs) b ∧
        (pb_probes b = 0 ∨ pb_cost_units b = 0 ∨ pb_result_bytes b = 0)
  | Adaptive_NON_PROGRESS =>
      (∃ t, last turns = Some t ∧ tr_selected_request_sha256 t = None ∧
         tr_proposals t ≠ [] ∧
         Forall (λ p, pl_disposition p = Proposal_DUPLICATE) (tr_proposals t)) ∨
      ∃ n, length xs = S (S n) ∧ stalled xs n ∧ stalled xs (S n)
  | Adaptive_NO_VALID_PROPOSAL =>
      last_audit (λ a, ar_stop_reason a ∈ _UNSUPPORTED_REASONS) ∨
      ∃ t, last turns = Some t ∧ tr_selected_request_sha256 t = None
        ∧ tr_failure t = None
  | Adaptive_REQUIRED_PROBE_FAILED =>
      ∃ request x, last xs = Some (request, x) ∧
        (request_capability request ∈ ax_required ax ∨ xs = [(request, x)])
  | Adaptive_REQUIRED_CAPABILITY_UNAVAILABLE =>
      last_audit (λ a, audit_says a reason) ∨
      any_spent (ax_catalog ax) (counts_of (map fst xs)) (ax_required ax) = Ok true ∨
      (xs = [] ∧ turns = [])
  | Adaptive_DEADLINE_EXHAUSTED => last_audit (λ a, audit_says a reason) ∨ time_spent
  | Adaptive_CANCELLED =>
      last_audit (λ a, audit_says a reason) ∨ cancellation_seen ∨
      ∃ t, last turns = Some t ∧ tr_cancelled t = true
  | Adaptive_CAPABILITY_CATALOG_UNSAFE => xs = [] ∧ turns = []
  end.

#[local] Abbreviation run_stopped xs run reason :=
  (stopped_because xs (rn_turns run) (rn_evaluation run) reason).

(** The run after [k] turns, unless it stopped before. *)
Record stage (boot : list ProbeRequest) (k : nat) (ending : adaptive_ending) (s : session W)
  (xs : list (ProbeRequest * ProbeExecution)) : Prop := {
  st_probing : ∃ attempts, probing s (nd_run ending) xs attempts;
  st_advised : advised boot (nd_run ending) xs;
  st_turns : (length (rn_turns (nd_run ending)) ≤ k)%nat;
  st_open : nd_stop_reason ending = None →
    cs_terminal_execution (ss_state s) = None ∧ length (rn_turns (nd_run ending)) = k ∧
    length xs = (length boot + k)%nat;
  st_length : (length xs ≤ length boot + k)%nat;
  st_insufficient : ∀ n ev, (0 < n < length xs)%nat → known_after xs n ev →
    ce_classification ev ∉ sufficient;
  st_sufficient : nd_stop_reason ending = Some Adaptive_SUFFICIENT_EVIDENCE
    ↔ ce_classification (rn_evaluation (nd_run ending)) ∈ sufficient;
  st_time : nd_sufficient ending =
    if bool_decide (nd_stop_reason ending = Some Adaptive_SUFFICIENT_EVIDENCE)
    then (λ a, (Z.of_nat (length xs), ar_session_elapsed_ms a)) <$> last (audits_of xs)
    else None;
  st_stopped : ∀ reason, nd_stop_reason ending = Some reason →
    reason ≠ Adaptive_MAX_TURNS ∧ run_stopped xs (nd_run ending) reason;
}.

Lemma stop_reasons_terminal a :
  inb (ar_stop_reason a) _BUDGET_REASONS = false →
  inb (ar_stop_reason a) _DEADLINE_REASONS = false →
  ar_stop_reason a ≠ Stop_PROBE_CANCELLED → ar_stop_reason a ∉ TERMINAL_REASONS.
Proof. intros Hb Hd Hp Ht. apply inb_true in Ht. by destruct (ar_stop_reason a). Qed.

(** A reason is one of the listed ones. *)
#[local] Ltac stops := repeat match goal with |- _ ∧ _ => split end; try done; try (by split);
  try (intros ? [= <-]; cbn [audit_says]; first [done|by apply inb_true]).

Lemma bootstrap_stops a decision c reason :
  stop_after_bootstrap policy a decision c = reason →
  (reason = None → ar_stop_reason a ∉ TERMINAL_REASONS) ∧
  (reason = Some Adaptive_SUFFICIENT_EVIDENCE ↔ c ∈ sufficient) ∧
  (∀ r, reason = Some r → audit_says a r) ∧
  (∀ r, reason = Some r → r ∈ [Adaptive_SUFFICIENT_EVIDENCE; Adaptive_BUDGET_EXHAUSTED;
    Adaptive_REQUIRED_CAPABILITY_UNAVAILABLE; Adaptive_REQUIRED_PROBE_FAILED;
    Adaptive_DEADLINE_EXHAUSTED; Adaptive_CANCELLED]).
Proof.
  unfold stop_after_bootstrap. intros <-. rewrite <-!inb_true.
  destruct (inb c sufficient); [stops|]. case_bool_decide; [stops|].
  destruct (_ || _ || _); [stops|]. destruct (inb _ _BUDGET_REASONS) eqn:Hb; [stops|].
  destruct (inb _ _DEADLINE_REASONS) eqn:Hd; [stops|]. case_bool_decide; [stops|].
  stops. intros _. rewrite inb_true. by apply stop_reasons_terminal.
Qed.

Lemma turn_stops required a decision c unchanged reason :
  stop_after_turn policy required a decision c unchanged = reason →
  (reason = None → ar_stop_reason a ∉ TERMINAL_REASONS) ∧
  (reason = Some Adaptive_SUFFICIENT_EVIDENCE ↔ c ∈ sufficient) ∧
  (∀ r, reason = Some r → audit_says a r) ∧
  (reason = Some Adaptive_NO_VALID_PROPOSAL → ar_stop_reason a ∈ _UNSUPPORTED_REASONS) ∧
  (reason = Some Adaptive_NON_PROGRESS → 2 ≤ unchanged) ∧
  (reason = Some Adaptive_REQUIRED_PROBE_FAILED → required = true) ∧
  (∀ r, reason = Some r → r ∈ [Adaptive_SUFFICIENT_EVIDENCE; Adaptive_BUDGET_EXHAUSTED;
    Adaptive_REQUIRED_CAPABILITY_UNAVAILABLE; Adaptive_REQUIRED_PROBE_FAILED;
    Adaptive_DEADLINE_EXHAUSTED; Adaptive_CANCELLED; Adaptive_NO_VALID_PROPOSAL;
    Adaptive_NON_PROGRESS]).
Proof.
  unfold stop_after_turn. intros <-. rewrite <-!inb_true.
  destruct (inb c sufficient); [stops|]. destruct (required && _) eqn:Hcap.
  { apply andb_true_iff in Hcap as [_ Hcap%bool_decide_eq_true]. stops. }
  clear Hcap.
  destruct (required && _) eqn:Hrq; [apply andb_true_iff in Hrq as [Hreq _]; stops|clear Hrq].
  destruct (inb _ _BUDGET_REASONS) eqn:Hb; [stops|].
  destruct (inb _ _DEADLINE_REASONS) eqn:Hd; [stops|].
  case_bool_decide; [stops|]. destruct (inb (ar_stop_reason a) _UNSUPPORTED_REASONS) eqn:Hu; [stops|].
  destruct (_NON_PROGRESS_LIMIT <=? unchanged) eqn:Hn.
  - apply Z.leb_le in Hn. unfold _NON_PROGRESS_LIMIT in Hn. stops.
  - stops. intros _. rewrite inb_true. by apply stop_reasons_terminal.
Qed.

Lemma audits_snoc xs request x :
  last (audits_of (xs ++ [(request, x)])) = Some (px_audit x).
Proof. unfold audits_of. rewrite map_app. apply last_snoc. Qed.

(** The next record of a turn. *)
Definition next_record (run : adaptive_run) (t : AdaptiveTurnRecord) : Prop :=
  turn_ok t ∧ tr_phase t = ACQUIRE_EVIDENCE ∧ tr_turn_sequence t = next_turn run.

Lemma numbered_next run t : next_record run t →
  map tr_turn_sequence (rn_turns run) = one_to (length (rn_turns run)) →
  map tr_turn_sequence (rn_turns run ++ [t]) = one_to (length (rn_turns run ++ [t])).
Proof.
  intros (_ & _ & Hs) Hn. rewrite map_app, Hn, length_app. cbn [map length].
  rewrite Nat.add_1_r, one_to_S, Hs. done.
Qed.

Lemma probing_turn s run xs attempts t :
  probing s run xs attempts → probing s (add_turn t run) xs attempts.
Proof. intros []. by split. Qed.

(** A turn that selected nothing. *)
Lemma advised_turn boot run xs t : advised boot run xs → next_record run t →
  tr_selected_request_sha256 t = None → advised boot (add_turn t run) xs.
Proof.
  intros [Hb Hs Ht Hn Hc] Hr Hsel. split; cbn [add_turn rn_turns rn_prior_request_hashes]; try done.
  - rewrite omap_app, Hs. cbn. by rewrite Hsel, app_nil_r.
  - apply Forall_app. split; [done|]. constructor; [|done]. split; apply Hr.
  - by apply numbered_next.
Qed.

(** A turn that selected a probe. *)
Lemma advised_probe boot run run' xs t request x d : advised boot run xs → next_record run t →
  length (rn_prior_request_hashes run) = length xs →
  tr_selected_request_sha256 t = Some d → chosen xs request →
  rn_turns run' = rn_turns run ++ [t] →
  rn_prior_request_hashes run' = rn_prior_request_hashes run ++ [d] →
  advised boot run' (xs ++ [(request, x)]).
Proof.
  intros [Hb Hs Ht Hn Hc] Hr Hlen Hsel Hch Hturns Hhash.
  assert (length boot ≤ length xs)%nat as Hbl.
  { apply (f_equal length) in Hb. rewrite length_map, length_take in Hb. lia. }
  split; rewrite ?Hturns, ?Hhash.
  - by rewrite take_app_le.
  - rewrite drop_app_le, Hs, omap_app by lia. cbn. by rewrite Hsel.
  - apply Forall_app. split; [done|]. constructor; [|done]. split; apply Hr.
  - by apply numbered_next.
  - intros n request' x' Hbn Hx. destruct (decide (n < length xs)%nat) as [Hlt|Hge].
    + rewrite lookup_app_l in Hx by done. rewrite take_app_le by lia. by eapply Hc.
    + rewrite lookup_app_r in Hx by lia. assert (n = length xs) as ->.
      { apply lookup_lt_Some in Hx. cbn in Hx. lia. }
      rewrite Nat.sub_diag in Hx. injection Hx as <- <-. by rewrite take_app_length.
Qed.

Lemma probing_redundant s run xs attempts : (0 < length xs)%nat →
  probing s run xs attempts → probing s (add_redundant (Z.of_nat (length xs)) run) xs attempts.
Proof.
  intros Hl [H1 H2 H3 H4 H5 Hc H7]. split; try done.
  cbn [add_redundant rn_processed rn_unavailable rn_redundant].
  rewrite !Forall_cons in *. destruct Hc as (C1 & C2 & C3 & _). split_and!; try done.
  destruct (length xs) as [|n]; [lia|]. by apply (counted_add_if n true).
Qed.

(** What is known after all the probes. *)
Lemma probing_known s run xs attempts n ev : probing s run xs attempts →
  n = length xs → known_after xs n ev → ev = rn_evaluation run.
Proof.
  intros Hp -> (g & a & l & Ha & Hl & ->). destruct (ai_known _ _ _ _ Hp) as (l' & Hl' & ->).
  pose proof (pu_processed _ _ _ _ _ _ _ (ai_pursued _ _ _ _ Hp)) as Ha'.
  rewrite take_ge in Ha by lia. rewrite Ha in Ha'. injection Ha' as _ ->.
  rewrite Hl in Hl'. by injection Hl' as ->.
Qed.

(** The stage of a run whose last probe was processed. *)
Lemma probe_stage boot k run run' s xs request digest x decision stop_reason redundant :
  probed_on run xs request digest x run' decision s →
  advised boot run' (xs ++ [(request, x)]) →
  ar_sequence (px_audit x) = Z.of_nat (S (length xs)) →
  (∀ n ev, (0 < n ≤ length xs)%nat → known_after xs n ev → ce_classification ev ∉ sufficient) →
  (length (rn_turns run') = k)%nat → (length (xs ++ [(request, x)]) = length boot + k)%nat →
  (stop_reason = None → ar_stop_reason (px_audit x) ∉ TERMINAL_REASONS) →
  (stop_reason = Some Adaptive_SUFFICIENT_EVIDENCE
    ↔ ce_classification (rn_evaluation run') ∈ sufficient) →
  (∀ reason, stop_reason = Some reason → reason ≠ Adaptive_MAX_TURNS ∧
    run_stopped (xs ++ [(request, x)]) run' reason) →
  let final := if redundant : bool then add_redundant (ar_sequence (px_audit x)) run' else run' in
  stage boot k (probe_ending final (px_audit x) stop_reason) s (xs ++ [(request, x)]).
Proof.
  intros [[attempts Hp] _ _ Hev Hopen] Had Hseq Hins Hk Hlen Hnt Hsuf Hstop final.
  assert (length (xs ++ [(request, x)]) = S (length xs)) as Hl
    by (rewrite length_app; cbn; lia).
  assert (probing s final (xs ++ [(request, x)]) attempts) as Hf.
  { unfold final. destruct redundant; [|done]. rewrite Hseq, <-Hl.
    apply probing_redundant; [lia|done]. }
  assert (advised boot final (xs ++ [(request, x)])) as Haf.
  { unfold final. destruct redundant; [|done]. by destruct Had. }
  assert (rn_turns final = rn_turns run' ∧ rn_evaluation final = rn_evaluation run')
    as [Ht He] by (unfold final; by destruct redundant).
  split; cbn [probe_ending nd_run nd_stop_reason nd_sufficient]; rewrite ?Ht, ?He; try done.
  - by exists attempts.
  - lia.
  - intros Hs. split_and!; [by apply Hopen, Hnt|done|done].
  - lia.
  - intros n ev Hn Hknown. rewrite Hl in Hn. apply evaluation_after_app in Hknown; [|lia].
    by apply (Hins n); [lia|].
  - rewrite audits_snoc, Hl, Hseq. done.
Qed.

(** The two probes before the last of a run that did not progress. *)
Lemma unchanged_stalled s run xs attempts : probing s run xs attempts → 2 ≤ rn_unchanged run →
  ∃ n, length xs = S (S n) ∧ stalled xs n ∧ stalled xs (S n).
Proof.
  intros Hp Hu. destruct (ai_unchanged _ _ _ _ Hp) as [_ Hst].
  destruct (Hst 0%nat ltac:(lia)) as (n & Hn & Hs), (Hst 1%nat ltac:(lia)) as (m & Hm & Hs').
  assert (n = S m) as -> by lia. exists m. split_and!; [lia|done|done].
Qed.

Lemma wp_selected_probe boot k s run t xs attempts request d :
  probing s run xs attempts → advised boot run xs →
  cs_terminal_execution (ss_state s) = None →
  length (rn_turns run) = k → length xs = (length boot + k)%nat → (length xs < 64)%nat →
  (∀ n ev, (0 < n ≤ length xs)%nat → known_after xs n ev → ce_classification ev ∉ sufficient) →
  next_record run t → tr_selected_request_sha256 t = Some d →
  probe_request_sha256 request = Ok d → (d ∉ rn_prior_request_hashes run) → chosen xs request →
  wp (selected_probe ax request (add_turn t run))
    (or_raised (λ ending s', ∃ xs', stage boot (S k) ending s' xs')) s.
Proof.
  intros Hp Had Hopen Hk Hlen H64 Hins Hrec Hsel Hd Hnew Hch.
  pose proof (Forall2_length _ _ _ (ai_hashes _ _ _ _ Hp)) as Hhl.
  unfold selected_probe. cbn [add_turn rn_prior_request_hashes]. rewrite <-Hhl.
  apply wp_bind. eapply wp_weaken;
    [exact (wp_start_probe s (add_turn t run) xs attempts request d
       (probing_turn _ _ _ _ t Hp) Hopen Hd H64)| |done].
  intros e s' (s1 & s2 & Hex). cbn beta.
  destruct (executed_sequence _ _ _ _ _ _ _ _ _ Hex) as (Hseq & _ & ->).
  apply wp_bind. eapply wp_weaken;
    [exact (wp_finish_probe _ _ _ _ _ _ _ _ _ Hex Hnew H64)| |done].
  intros [run' decision] s'' Hon. cbn [fst snd] in Hon. apply wp_ret.
  set (stop := stop_after_turn _ _ _ _ _ _).
  destruct (turn_stops _ _ _ _ _ stop eq_refl) as (H1 & H2 & H3 & H4 & H5 & H5' & H6).
  pose proof (po_turns _ _ _ _ _ _ _ _ Hon) as Hturns. cbn [add_turn rn_turns] in Hturns.
  assert (advised boot run' (xs ++ [(request, ex_execution e)])) as Had'.
  { apply (advised_probe boot run run' xs t request (ex_execution e) d);
      try done. apply Hon. }
  exists (xs ++ [(request, ex_execution e)]).
  pose proof (length_app xs [(request, ex_execution e)]) as Hlx. cbn [length] in Hlx.
  apply (probe_stage boot (S k) _ run' s'' xs request d (ex_execution e) decision stop
    (bool_decide (stop = Some Adaptive_NON_PROGRESS)) Hon Had' Hseq Hins); [|lia|done|done|].
  - rewrite Hturns, length_app. cbn. lia.
  - intros reason Hr. specialize (H6 _ Hr). apply inb_true in H6.
    split; [intros ->; vm_compute in H6; discriminate|].
    assert (last (audits_of (xs ++ [(request, ex_execution e)]))
      = Some (px_audit (ex_execution e))) as Hlast by apply audits_snoc.
    assert (∃ a, last (audits_of (xs ++ [(request, ex_execution e)])) = Some a ∧ audit_says a reason)
      as Hsays by (exists (px_audit (ex_execution e)); split; [done|by apply H3]).
    destruct reason; try (vm_compute in H6; discriminate H6); cbn [stopped_because];
      try (by left).
    + by apply H2.
    + left. exists (px_audit (ex_execution e)). split; [done|by apply H4].
    + exists request, (ex_execution e). split; [apply last_snoc|]. left.
      apply inb_true. by apply H5'.
    + right. destruct (po_probing _ _ _ _ _ _ _ _ Hon) as [attempts' Hp'].
      eapply unchanged_stalled; [exact Hp'|]. by apply H5.
Qed.

(** The bootstrap probe. *)
Lemma wp_bootstrap s run request d attempts :
  probing s run [] attempts → cs_terminal_execution (ss_state s) = None →
  rn_turns run = [] → probe_request_sha256 request = Ok d →
  wp (bootstrap_probe ax request run)
    (or_raised (λ ending s', ∃ xs', stage [request] 0 ending s' xs')) s.
Proof.
  intros Hp Hopen Hk Hd. unfold bootstrap_probe.
  pose proof (Forall2_length _ _ _ (ai_hashes _ _ _ _ Hp)) as Hhl. symmetry in Hhl.
  apply nil_length_inv in Hhl.
  assert (length (@nil (ProbeRequest * ProbeExecution)) < 64)%nat as H64 by (cbn; lia).
  assert (d ∉ rn_prior_request_hashes run) as Hnew by (rewrite Hhl; apply not_elem_of_nil).
  apply wp_bind. eapply wp_weaken;
    [exact (wp_start_probe s run [] attempts request d Hp Hopen Hd H64)| |done].
  intros e s' (s1 & s2 & Hex). cbn beta.
  destruct (executed_sequence _ _ _ _ _ _ _ _ _ Hex) as (Hseq & _ & _).
  apply wp_bind. eapply wp_weaken;
    [exact (wp_finish_probe _ _ _ _ _ _ _ _ _ Hex Hnew H64)| |done].
  intros [run' decision] s'' Hon. cbn [fst snd] in Hon. apply wp_ret.
  set (stop := stop_after_bootstrap _ _ _ _).
  destruct (bootstrap_stops _ _ _ stop eq_refl) as (H1 & H2 & H3 & H4).
  pose proof (po_turns _ _ _ _ _ _ _ _ Hon) as Hturns. rewrite Hk in Hturns.
  assert (advised [request] run' [(request, ex_execution e)]) as Had.
  { split; rewrite ?Hturns, ?(po_hashes _ _ _ _ _ _ _ _ Hon), ?Hhl; try done; try by constructor.
    intros i r x Hi Hx. apply lookup_lt_Some in Hx. cbn in *. lia. }
  exists [(request, ex_execution e)].
  apply (probe_stage [request] 0 run run' s'' [] request d (ex_execution e) decision stop false
    Hon Had Hseq); [|by rewrite Hturns|done|done|done|].
  - cbn. lia.
  - intros reason Hr. specialize (H4 _ Hr). apply inb_true in H4.
    split; [intros ->; vm_compute in H4; discriminate|].
    assert (∃ a, last (audits_of [(request, ex_execution e)]) = Some a ∧ audit_says a reason)
      as Hsays by (exists (px_audit (ex_execution e)); split; [done|by apply H3]).
    destruct reason; try (vm_compute in H4; discriminate H4); cbn [stopped_because];
      try (by left).
    + by apply H2.
    + exists request, (ex_execution e). split; [done|by right].
Qed.

(** A run that stops without a probe. *)
Lemma stopped_stage boot k run s xs attempts reason failed :
  probing s run xs attempts → advised boot run xs → (length (rn_turns run) ≤ k)%nat →
  (length xs ≤ length boot + k)%nat →
  (∀ n ev, (0 < n ≤ length xs)%nat → known_after xs n ev → ce_classification ev ∉ sufficient) →
  ce_classification (rn_evaluation run) ∉ sufficient →
  (reason ∉ [Adaptive_SUFFICIENT_EVIDENCE; Adaptive_MAX_TURNS]) →
  run_stopped xs run reason →
  stage boot k {| nd_run := run; nd_stop_reason := Some reason; nd_sufficient := None;
                  nd_planner_failed := failed |} s xs.
Proof.
  intros Hp Had Hk Hlen Hins Hc [Hr1 [Hr2 _]%not_elem_of_cons]%not_elem_of_cons Hb.
  split; cbn [nd_run nd_stop_reason nd_sufficient]; try done.
  - by exists attempts.
  - intros n ev Hn. apply Hins. lia.
  - split; [by intros [= ->]|done].
  - by rewrite bool_decide_eq_false_2 by (by intros [= ->]).
  - by intros ? [= <-].
Qed.

(** A run that goes on. *)
Lemma stage_open boot k ending s xs :
  stage boot k ending s xs → nd_stop_reason ending = None →
  cs_terminal_execution (ss_state s) = None ∧ length (rn_turns (nd_run ending)) = k ∧
  length xs = (length boot + k)%nat ∧
  (ce_classification (rn_evaluation (nd_run ending)) ∉ sufficient) ∧
  ∀ n ev, (0 < n ≤ length xs)%nat → known_after xs n ev → ce_classification ev ∉ sufficient.
Proof.
  intros [[attempts Hp] Had Hk Hopen Hlen Hins Hsuf _ _] Hr. rewrite Hr in Hsuf.
  destruct (Hopen Hr) as (Ht & Hk' & Hl).
  assert (ce_classification (rn_evaluation (nd_run ending)) ∉ sufficient) as Hc
    by (rewrite <-Hsuf; done).
  split_and!; [done..|]. intros n ev Hn Hev. destruct (decide (n = length xs)) as [He|Hne].
  - by rewrite (probing_known _ _ _ _ _ _ Hp He Hev).
  - apply (Hins n); [lia|done].
Qed.

(** A stopped run is at every later stage. *)
Lemma stage_later boot k k' ending s xs reason : (k ≤ k')%nat →
  nd_stop_reason ending = Some reason → stage boot k ending s xs → stage boot k' ending s xs.
Proof.
  intros Hk Hr [H1 H2 H3 H4 H5 H6 H7 H8 H9]. split; try done; [lia| |lia].
  by rewrite Hr.
Qed.

Lemma correlation_texts :
  Forall (λ kv, safe_text kv.2) (correlation_fields (en_context envelope)).
Proof.
  destruct (valid_envelope _ Henv) as (_ & _ & _ & Hm & _).
  apply Forall_forall. intros [key value] Hin. by eapply text_map_values.
Qed.

Lemma mapM_raises {A B} (f : A → result py_error B) l err :
  mapM f l = Raise err → ∃ x, x ∈ l ∧ f x = Raise err.
Proof.
  induction l as [|x l IH]; [done|]. cbn [mapM]. destruct (f x) as [y|e] eqn:Hx; cbn.
  - destruct (mapM f l) as [k|e]; [done|]. intros [= ->].
    destruct IH as (z & Hz & Hf); [done|]. exists z. split; [by right|done].
  - intros [= ->]. exists x. split; [left|done].
Qed.

(** A selection raises only when a proposal has no digest. *)
Lemma select_raises (sx : selection_context H) requests err :
  Forall request_identified requests → (length requests ≤ 8)%nat →
  Forall (λ kv, safe_text kv.2) (sx_correlation_fields sx) →
  _select_proposal sx requests = Raise err →
  ∃ request, request ∈ requests ∧ probe_request_sha256 request = Raise err.
Proof.
  intros Hid H8 Hf Hsel. destruct (mapM probe_request_sha256 requests) as [digests|e] eqn:Hd.
  - apply mapM_Ok in Hd. destruct (select_total sx requests Hid H8) as [sel Hs]; [|done|].
    + apply Forall_lookup. intros k r Hr. destruct (Forall2_lookup_l _ _ _ _ _ Hd Hr)
        as (d & _ & ->). done.
    + by rewrite Hsel in Hs.
  - unfold _select_proposal in Hsel. case_match; [done|]. rewrite Hd in Hsel.
    injection Hsel as ->. by apply mapM_raises.
Qed.

(** Why a turn that selected nothing stops. *)
Lemma unselected_because xs run t records :
  tr_proposals t = records → tr_selected_request_sha256 t = None → tr_failure t = None →
  (unselected records ∉ [Adaptive_SUFFICIENT_EVIDENCE; Adaptive_MAX_TURNS]) ∧
  run_stopped xs (add_turn t run) (unselected records).
Proof.
  intros Hp Hs Hf. assert (last (rn_turns (add_turn t run)) = Some t) as Hl by apply last_snoc.
  unfold unselected. destruct (negb (bool_decide (records = [])) && _) eqn:Hdup.
  - apply andb_true_iff in Hdup as [Hne Hall]. apply negb_true_iff, bool_decide_eq_false in Hne.
    rewrite forallb_forall in Hall. split; [by apply inb_false|].
    left. exists t. rewrite Hp. split_and!; try done.
    apply Forall_forall. intros p Hin. apply list_elem_of_In in Hin.
    by apply Hall, bool_decide_eq_true in Hin.
  - split; [by apply inb_false|]. right. by exists t.
Qed.

(** A selected proposal is one that may be probed. *)
Lemma selected_chosen s run xs attempts remaining requests sel request :
  probing s run xs attempts → left_after (audits_of xs) remaining →
  Forall proposed requests →
  _select_proposal (selection_of ax remaining run) requests = Ok sel →
  sel_request sel = Some request →
  chosen xs request ∧ ∃ d, probe_request_sha256 request = Ok d ∧ d ∉ rn_prior_request_hashes run.
Proof.
  intros Hp Hleft Hprop Hsel Hreq.
  destruct (selected_valid _ _ _ _ Hsel Hreq) as (Hin & Hdisp & Hent & Hdig).
  split; [|exact Hdig]. rewrite Forall_forall in Hprop. split; [by apply Hprop|].
  exists remaining, (rn_prior_request_hashes run).
  split_and!; [done|apply Hp|exact Hdig|].
  unfold selection_of in Hdisp, Hent. rewrite (ai_counts _ _ _ _ Hp) in Hdisp.
  split; [exact Hdisp|exact Hent].
Qed.

(** The record of a turn that was answered. *)
Lemma answered_record planner_input ct turn output run requests sel remaining :
  consulted_ok planner_input ct → turn_made turn → tn_failure (pt_turn turn) = None →
  (length (rn_turns run) ≤ 64)%nat → pt_output turn = Some output →
  apo_probe_proposals output = requests →
  _select_proposal (selection_of ax remaining run) requests = Ok sel →
  ∃ t selected,
    match sel_request sel with
    | None => Ok None
    | Some request => digest ← probe_request_sha256 request; Ok (Some digest)
    end = Ok selected ∧
    valid_record (next_turn run) ACQUIRE_EVIDENCE (ct_input_sha256 ct) (pt_turn turn) output
      (sel_records sel) selected = Ok t ∧
    next_record run t ∧ tr_selected_request_sha256 t = selected ∧
    tr_proposals t = sel_records sel ∧ tr_failure t = None ∧
    (∀ request, sel_request sel = Some request →
       ∃ d, selected = Some d ∧ probe_request_sha256 request = Ok d) ∧
    (sel_request sel = None → selected = None).
Proof.
  intros Hc Hmade Hfail H64 Hout <- Hsel.
  destruct (turn_parts turn Hmade) as (Hmd & Hu & Hd & Hok).
  destruct (Hok Hfail) as (output' & Hout' & Husage & [osha Hosha] & H8 & Hval & Hid).
  rewrite Hout in Hout'. injection Hout' as <-.
  destruct (select_records _ _ _ Hsel) as (Hseq & Hnig & Hs).
  destruct (select_made _ _ _ Hsel) as [Hmaderec Hlen]. rewrite <-Hlen in Hseq.
  assert (∃ selected, match sel_request sel with
      | None => Ok None
      | Some request => digest ← probe_request_sha256 request; Ok (Some digest)
      end = Ok selected ∧
    (∀ request, sel_request sel = Some request →
       ∃ d, selected = Some d ∧ probe_request_sha256 request = Ok d) ∧
    (sel_request sel = None → selected = None) ∧
    match selected with
    | Some d => _validate_sha256 d "selected proposal digest" = Ok tt ∧
        map pl_request_sha256 (filter (λ p, pl_disposition p = Proposal_SELECTED)
          (sel_records sel)) = [d]
    | None => filter (λ p, pl_disposition p = Proposal_SELECTED) (sel_records sel) = []
    end) as (selected & Hm & Hsome & Hnone & Hdig).
  { destruct (sel_request sel) as [request|].
    - destruct Hs as (d & Hsha & Hone). exists (Some d). rewrite Hsha. split_and!; try done.
      + intros ? [= <-]. by exists d.
      + by eapply digest_sha256.
    - by exists None. }
  destruct (valid_made (next_turn run) ACQUIRE_EVIDENCE (ct_input_sha256 ct) (pt_turn turn) output
    (sel_records sel) selected) as (t & Ht & Hr & Hsq & Hph & Hmt & Hut & Hpt & Hst & Hft);
    [unfold next_turn; lia|by apply Hc|done| |done|exact Hdig| |].
  - exists osha. split; [done|by apply Hd].
  - eapply Forall_impl; [exact Hnig|]. intros p Hp. by split.
  - exists t, selected. split_and!; try done.
    split_and!; [|done|done]. split; [done|rewrite Hsq; unfold next_turn; lia|by rewrite Hmt
      |by rewrite Hut|by rewrite Hpt].
Qed.

(** What a turn of the loop starts from. *)
Definition ready (boot : list ProbeRequest) (k : nat) (run : adaptive_run) (s : session W)
  (xs : list (ProbeRequest * ProbeExecution)) : Prop :=
  (∃ attempts, probing s run xs attempts) ∧ advised boot run xs ∧
  cs_terminal_execution (ss_state s) = None ∧ length (rn_turns run) = k ∧
  length xs = (length boot + k)%nat ∧ (length xs < 64)%nat ∧
  (ce_classification (rn_evaluation run) ∉ sufficient) ∧
  ∀ n ev, (0 < n ≤ length xs)%nat → known_after xs n ev → ce_classification ev ∉ sufficient.

Lemma ready_quiet boot k run s s' xs : quiet s s' → ready boot k run s xs → ready boot k run s' xs.
Proof.
  intros Hq ((attempts & Hp) & Ha & Ht & Hrest). split_and!; [|done| |apply Hrest..].
  - exists attempts. by eapply probing_quiet.
  - by rewrite (quiet_open _ _ Hq).
Qed.

(** A turn that ends without a probe. *)
Lemma ready_stopped boot k run s xs t reason failed :
  ready boot k run s xs → next_record run t → tr_selected_request_sha256 t = None →
  (reason ∉ [Adaptive_SUFFICIENT_EVIDENCE; Adaptive_MAX_TURNS]) →
  run_stopped xs (add_turn t run) reason →
  stage boot (S k) {| nd_run := add_turn t run; nd_stop_reason := Some reason;
    nd_sufficient := None; nd_planner_failed := failed |} s xs.
Proof.
  intros ((attempts & Hp) & Ha & Ht & Hk & Hl & H64 & Hc & Hins) Hr Hs Hreason Hb.
  apply (stopped_stage boot (S k) _ s xs attempts); try done.
  - by apply probing_turn.
  - by apply advised_turn.
  - cbn [add_turn rn_turns]. rewrite length_app. cbn. lia.
  - lia.
Qed.

Lemma wp_answered boot k run s xs remaining planner_input ct turn :
  ready boot k run s xs → left_after (audits_of xs) remaining → consulted_ok planner_input ct →
  (k ≤ 64)%nat → ct_turn ct = Turn_valid turn →
  wp (answered_turn ax remaining ct turn run)
    (or_raised (λ ending s', ∃ xs', stage boot (S k) ending s' xs')) s.
Proof.
  intros Hready Hleft Hc Hk64 Hv. rewrite (co_turn _ _ Hc) in Hv.
  apply validated_valid in Hv as [Hturn Hfail]. pose proof (co_made _ _ Hc _ Hturn) as Hmade.
  destruct (turn_parts turn Hmade) as (_ & _ & _ & Hok).
  destruct (Hok Hfail) as (output & Hout & _ & _ & H8 & Hval & Hid).
  assert (Forall proposed (apo_probe_proposals output)) as Hprop.
  { apply Forall_forall. intros r Hr. by eapply (co_proposed _ _ Hc). }
  unfold answered_turn. rewrite Hout. apply wp_bind, wp_lift.
  2: { intros err He. apply select_raises in He as (request & Hin & He); [|done|done|].
       - apply (araised_undigestible request); [|done]. rewrite Forall_forall in Hprop.
         by apply Hprop.
       - apply correlation_texts. }
  intros sel Hsel. pose proof Hready as ((attempts & Hp) & Had & Hopen & Hk & Hl & H64 & Hcl & Hins).
  destruct (answered_record planner_input ct turn output run _ sel remaining Hc Hmade Hfail ltac:(lia) Hout
    eq_refl Hsel) as (t & selected & Hm & Hrec & Hnext & Hts & Htp & Htf & Hsome & Hnone).
  apply wp_bind, wp_lift; [|by rewrite Hm]. intros selected' Hm'. rewrite Hm in Hm'.
  injection Hm' as <-. rewrite Hrec. apply wp_bind. destruct (select_made _ _ _ Hsel) as [_ Hlen].
  eapply wp_weaken; [apply (wp_record_turn t); [apply Hnext|by rewrite Htp|done|done]| |done].
  intros run' s' [Hq ->]. apply (ready_quiet _ _ _ _ _ _ Hq) in Hready.
  destruct (sel_request sel) as [request|] eqn:Hreq.
  - destruct (Hsome _ eq_refl) as (d & -> & Hd).
    destruct (selected_chosen _ _ _ _ _ _ _ _ Hp Hleft Hprop Hsel Hreq) as (Hch & d' & Hd' & Hnew).
    rewrite Hd in Hd'. injection Hd' as <-.
    destruct Hready as ((attempts' & Hp') & _ & Hopen' & _).
    by apply (wp_selected_probe boot k s' run t xs attempts' request d).
  - apply wp_ret. exists xs. specialize (Hnone eq_refl). rewrite Hnone in Hts.
    destruct (unselected_because xs run t _ Htp Hts Htf) as [Hr Hb].
    by apply ready_stopped.
Qed.

(** ** The explanation *)

(** The records of ignored proposals. *)
Lemma ignored_made requests records : ignored_records requests = Ok records →
  map pl_proposal_sequence records = one_to (length records) ∧
  length records = length requests ∧
  Forall (λ p, make_proposal_record p = Ok p
               ∧ pl_disposition p = Proposal_IGNORED_EXPLANATION_PHASE) records.
Proof.
  unfold ignored_records. intros Hrec%mapM_Ok.
  assert (∀ k p, records !! k = Some p → pl_proposal_sequence p = Z.of_nat (S k) ∧
    make_proposal_record p = Ok p ∧ pl_disposition p = Proposal_IGNORED_EXPLANATION_PHASE) as Hp.
  { intros k p Hk. destruct (Forall2_lookup_r _ _ _ _ _ Hrec Hk) as ([i r] & Hir & Hm).
    rewrite lookup_zip_with in Hir. destruct (seq 0 (length requests) !! k) as [j|] eqn:Hj; [|done].
    cbn in Hir. destruct (requests !! k); [|done]. injection Hir as -> ->.
    apply lookup_seq in Hj as [-> _]. apply bind_ok in Hm as (d & _ & Hm).
    pose proof (make_proposal_record_inv _ _ Hm) as ->. done. }
  split_and!.
  - apply list_eq. intros k. unfold one_to. rewrite !lookup_map.
    destruct (records !! k) as [p|] eqn:Hk.
    + rewrite lookup_seq_lt by (by apply lookup_lt_Some in Hk). cbn.
      destruct (Hp _ _ Hk) as [-> _]. done.
    + apply lookup_ge_None in Hk. rewrite lookup_seq_ge by done. done.
  - apply Forall2_length in Hrec. rewrite <-Hrec, length_zip_with, length_seq. lia.
  - apply Forall_lookup. intros k p Hk. by apply (Hp k).
Qed.

Lemma ignored_raises requests err :
  Forall request_identified requests → (length requests ≤ 8)%nat →
  ignored_records requests = Raise err →
  ∃ request, request ∈ requests ∧ probe_request_sha256 request = Raise err.
Proof.
  intros Hid H8 Hrec. unfold ignored_records in Hrec.
  apply mapM_raises in Hrec as ([i r] & Hin & Hm). apply list_elem_of_lookup in Hin as [k Hk].
  rewrite lookup_zip_with in Hk. destruct (seq 0 (length requests) !! k) as [j|] eqn:Hj; [|done].
  cbn in Hk. destruct (requests !! k) as [r'|] eqn:Hr; [|done]. injection Hk as -> ->.
  apply lookup_seq in Hj as [-> Hlt]. exists r. split; [by eapply list_elem_of_lookup_2|].
  destruct (probe_request_sha256 r) as [d|e] eqn:Hd; cbn [mbind result_bind] in Hm;
    [|by injection Hm as ->].
  assert (request_identified r) as Hr' by (rewrite Forall_lookup in Hid; by eapply Hid).
  by rewrite (record_made r d _ _ Hr' Hd) in Hm by lia.
Qed.

(** What the explanation phase adds to a run. *)
Record explained_of (run : adaptive_run) (x : explained) : Prop := {
  xe_run : xp_run x = run ∨ ∃ t, xp_run x = add_turn t run ∧ turn_ok t ∧
    tr_phase t = EXPLAIN_EVIDENCE ∧ tr_turn_sequence t = next_turn run ∧
    tr_selected_request_sha256 t = None;
  xe_valid : xp_valid x = Some true ↔ is_Some (xp_explanation x);
  xe_cited : ∀ e i, xp_explanation x = Some e → i ∈ ax_cited_evidence_ids e →
    ∃ a, a ∈ ce_attempts (rn_evaluation run) ∧ ed_evidence_id (at_decision a) = i ∧
      (ed_disposition (at_decision a) = ADMITTED ∨ ed_disposition (at_decision a) = WEAK);
}.

Lemma unexplained_of run valid : valid ≠ Some true →
  explained_of run {| xp_run := run; xp_explanation := None; xp_valid := valid |}.
Proof. intros Hv. split; cbn; [by left| |done]. split; [done|by intros [? ?]]. Qed.

Lemma silent_explained run t failure : silent EXPLAIN_EVIDENCE failure run t →
  explained_of run {| xp_run := add_turn t run; xp_explanation := None; xp_valid := Some false |}.
Proof.
  intros (H1 & H2 & H3 & H4 & _). split; cbn; [right; by exists t| |done].
  split; [done|by intros [? ?]].
Qed.

Lemma wp_explaining remaining planner_input ct turn run s :
  run_input ax EXPLAIN_EVIDENCE remaining run = Ok planner_input →
  consulted_ok planner_input ct → ct_turn ct = Turn_valid turn →
  (length (rn_turns run) ≤ 64)%nat →
  wp (explaining_turn ax planner_input ct turn run)
    (or_raised (λ x s', quiet s s' ∧ explained_of run x)) s.
Proof.
  intros Hin Hc Hv H64. rewrite (co_turn _ _ Hc) in Hv.
  apply validated_valid in Hv as [Hturn Hfail]. pose proof (co_made _ _ Hc _ Hturn) as Hmade.
  destruct (turn_parts turn Hmade) as (Hmd & Hu & Hd & Hok).
  destruct (Hok Hfail) as (output & Hout & Husage & [osha Hosha] & H8 & Hval & Hid).
  unfold explaining_turn. rewrite Hout. apply wp_bind, wp_lift.
  2: { intros err He. apply ignored_raises in He as (request & Hr & He); [|done|done].
       apply (araised_undigestible request); [|done]. by eapply (co_proposed _ _ Hc). }
  intros ignored Hig. destruct (ignored_made _ _ Hig) as (Hseq & Hlen & Hall).
  destruct (valid_made (next_turn run) EXPLAIN_EVIDENCE (ct_input_sha256 ct) (pt_turn turn) output
    ignored None) as (t & Ht & Hr & Hsq & Hph & Hmt & Hut & Hpt & Hst & Hft);
    [unfold next_turn; lia|by apply Hc|done| |done| | |].
  - exists osha. split; [done|by apply Hd].
  - apply filter_none. intros k p Hk Hp. rewrite Forall_lookup in Hall.
    destruct (Hall _ _ Hk) as [_ Hp']. congruence.
  - eapply Forall_impl; [exact Hall|]. intros p [_ Hp]. by split.
  - assert (turn_ok t) as Htok.
    { split; [done|rewrite Hsq; unfold next_turn; lia|by rewrite Hmt|by rewrite Hut|].
      rewrite Hpt. eapply Forall_impl; [exact Hall|]. by intros p [? _]. }
    rewrite Ht. apply wp_bind. eapply wp_weaken;
      [apply (wp_record_turn t); [done|by rewrite Hpt|done|done]| |done].
    intros run' s' [Hq ->]. destruct (co_planned _ _ Hc _ Hturn) as (timeout & w & w' & Hplan).
    apply wp_bind, wp_lift; [|intros err He; by eapply araised_advice].
    intros [e b] Hadv. apply wp_ret. split; [done|]. destruct (advice_cites _ _ _ _ Hadv) as [Hb Hcite].
    split; cbn [xp_run xp_valid xp_explanation fst snd].
    + right. by exists t.
    + rewrite <-Hb. split; [by intros [= ->]|by intros ->].
    + intros x i -> Hi. eapply input_cites; [exact Hin|]. by eapply Hcite.
Qed.

Lemma wp_explain run s xs attempts :
  probing s run xs attempts → (length (rn_turns run) ≤ 64)%nat →
  wp (explain ax run) (or_raised (λ x s', quiet s s' ∧ explained_of run x)) s.
Proof.
  intros Hp H64. unfold explain. apply wp_bind.
  eapply wp_weaken; [apply wp_remaining, Hp| |done]. intros remaining s1 (Hq1 & _ & _).
  case_match; [apply wp_ret; split; [done|by apply unexplained_of]|].
  destruct (run_input ax EXPLAIN_EVIDENCE remaining run) as [planner_input|err] eqn:Hin.
  2: { destruct (is_input_error err) eqn:Herr.
       - apply wp_ret. split; [done|by apply unexplained_of].
       - apply wp_throw. by eapply araised_explanation. }
  apply wp_bind. eapply wp_weaken; [apply wp_consult; unfold next_turn; lia| |done].
  intros ct s2 [Hq2 Hct]. pose proof (quiet_trans _ _ _ Hq1 Hq2) as Hq.
  destruct (ct_turn ct) as [|failure|turn] eqn:Hv.
  - apply wp_bind. eapply wp_weaken; [eapply wp_record_cancelled; [done|lia]| |done].
    intros run' s3 (Hq3 & t & Ht & _ & ->). apply wp_ret.
    split; [by eapply quiet_trans|by eapply silent_explained].
  - apply wp_bind. eapply wp_weaken; [eapply wp_record_failed; [done|lia]| |done].
    intros run' s3 (Hq3 & t & Ht & ->). apply wp_ret.
    split; [by eapply quiet_trans|by eapply silent_explained].
  - eapply wp_weaken; [by eapply wp_explaining| |done]. intros x s3 [Hq3 Hx].
    split; [by eapply quiet_trans|done].
Qed.

Lemma wp_explain_phase safe reason ending s xs attempts :
  probing s (nd_run ending) xs attempts → (length (rn_turns (nd_run ending)) ≤ 64)%nat →
  wp (explain_phase ax safe reason ending)
    (or_raised (λ x s', quiet s s' ∧ explained_of (nd_run ending) x)) s.
Proof.
  intros Hp H64. unfold explain_phase. case_match.
  - apply wp_bind, wp_requested. intros b s1 Hq1. destruct b.
    + apply wp_ret. split; [done|by apply unexplained_of].
    + apply (probing_quiet _ _ _ _ _ Hq1) in Hp.
      eapply wp_weaken; [by eapply wp_explain| |done]. intros x s2 [Hq2 Hx].
      split; [by eapply quiet_trans|done].
  - apply wp_ret. split; [apply quiet_here|by apply unexplained_of].
Qed.

(** ** The end of a run *)

Context (revision : Z) (Hrevision : 0 ≤ revision) (more : list string).
Context (Hzero : tally 0 s0).

(** Why an execution with a controller raises. *)
Inductive adaptive_fails : exn → Prop :=
  | afails_raised e : adaptive_raised e → adaptive_fails e
  | afails_revision :
      int64_max < revision →
      adaptive_fails (Exn_error (ValueError "revision is outside its range"))
  | afails_advisory retained advisory err :
      report_advisory (map at_decision retained) (Some advisory) = Raise err →
      adaptive_fails (Exn_error err)
  | afails_limitation report err :
      with_limitations report more = Raise err → adaptive_fails (Exn_error err).

(** What a result says of its session: [boot] is the bootstrap request, if there is
    one and it was probed, and [xs] are the probes. *)
Record adaptive_answer (boot : list ProbeRequest) (s : session W)
  (xs : list (ProbeRequest * ProbeExecution)) (retained : list EvidenceAttempt)
  (result : AdaptiveInvestigationResult) : Prop := {
  aa_probed : probed cfg s0 xs s;
  aa_boot : map fst (take (length boot) xs) = boot;
  aa_chosen : ∀ n request x, (length boot ≤ n)%nat → xs !! n = Some (request, x) →
    chosen (take n xs) request;
  aa_selected : ∃ hashes, Forall2 (λ rx d, probe_request_sha256 rx.1 = Ok d) xs hashes ∧
    NoDup hashes ∧ drop (length boot) hashes = omap tr_selected_request_sha256 (air_turns result);
  aa_turns : map tr_turn_sequence (air_turns result) = one_to (length (air_turns result)) ∧
    air_acquisition_turn_count result ≤ aip_max_turns policy ∧
    _transcript_sha256 (air_turns result) = Ok (air_transcript_sha256 result);
  aa_processed : ∃ g attempts, process_all (new_engine envelope rules) (map run_of xs)
      = (g, Ok attempts) ∧ deduplicate_attempts attempts = Ok retained;
  aa_report : ∃ updated_at advisory adv, ae_observed_at (en_ambiguity envelope) ≤ updated_at ∧
    report_advisory (map at_decision retained) advisory = Ok adv ∧
    (is_Some adv ↔ air_explanation_valid result = Some true) ∧
    with_limitations (core_report envelope (audits_of xs) retained
      (ae_observed_at (en_ambiguity envelope)) updated_at revision adv) more
    = Ok (air_report result);
  aa_measured : let used := λ f, default 0 (f <$> last (audits_of xs)) in
    air_attempted_probe_count result = Z.of_nat (length xs) ∧
    air_probe_count_used result = used ar_probe_count_used ∧
    air_cost_units_used result = used ar_cost_units_used ∧
    air_result_bytes_acquired result = used ar_result_bytes_acquired;
  aa_insufficient : ∀ n ev, (0 < n < length xs)%nat → known_after xs n ev →
    ce_classification ev ∉ sufficient;
  aa_sufficient : air_stop_reason result = Adaptive_SUFFICIENT_EVIDENCE
    ↔ core_class envelope retained ∈ sufficient;
  aa_stopped : stopped_because xs
    (filter (λ t, tr_phase t = ACQUIRE_EVIDENCE) (air_turns result))
    (core_result envelope retained) (air_stop_reason result);
  aa_time : air_sufficient_probe_sequence result =
    if bool_decide (air_stop_reason result = Adaptive_SUFFICIENT_EVIDENCE)
    then Some (Z.of_nat (length xs)) else None;
}.

Lemma stage_quiet boot k ending s s' xs :
  quiet s s' → stage boot k ending s xs → stage boot k ending s' xs.
Proof.
  intros Hq [[attempts Hp] H2 H3 H4 H5 H6 H7 H8 H9]. split; try done.
  - exists attempts. by eapply probing_quiet.
  - by rewrite (quiet_open _ _ Hq).
Qed.

(** The acquisition turns of an explained run. *)
Lemma explained_turns boot run xs x : advised boot run xs → explained_of run x →
  filter (λ t, tr_phase t = ACQUIRE_EVIDENCE) (rn_turns (xp_run x)) = rn_turns run ∧
  Forall turn_ok (rn_turns (xp_run x)) ∧
  map tr_turn_sequence (rn_turns (xp_run x)) = one_to (length (rn_turns (xp_run x))) ∧
  omap tr_selected_request_sha256 (rn_turns (xp_run x))
    = omap tr_selected_request_sha256 (rn_turns run) ∧
  rn_engine (xp_run x) = rn_engine run ∧ rn_evaluation (xp_run x) = rn_evaluation run ∧
  rn_unavailable (xp_run x) = rn_unavailable run ∧ rn_redundant (xp_run x) = rn_redundant run.
Proof.
  intros [_ _ Ht Hn _] [Hx _ _].
  assert (filter (λ t, tr_phase t = ACQUIRE_EVIDENCE) (rn_turns run) = rn_turns run) as Hf.
  { clear -Ht. induction Ht as [|t l [_ Hp] _ IH]; [done|]. by rewrite filter_cons_True, IH. }
  assert (Forall turn_ok (rn_turns run)) as Hok
    by (eapply Forall_impl; [exact Ht|]; by intros t [? _]).
  destruct Hx as [->|(t & -> & H1 & H2 & H3 & H4)]; [by split_and!|].
  cbn [add_turn rn_turns rn_engine rn_evaluation rn_unavailable rn_redundant].
  split_and!; try done.
  - rewrite filter_app, Hf, filter_cons_False, app_nil_r; [done|]. by rewrite H2.
  - apply Forall_app. split; [done|]. by constructor.
  - rewrite map_app, Hn, length_app. cbn [map length]. by rewrite Nat.add_1_r, one_to_S, H3.
  - rewrite omap_app. cbn. by rewrite H4, app_nil_r.
Qed.

(** The reason of an ended loop. *)
Lemma stage_reason boot ending s xs reason :
  stage boot (Z.to_nat (aip_max_turns policy)) ending s xs →
  reason = default Adaptive_MAX_TURNS (nd_stop_reason ending) →
  run_stopped xs (nd_run ending) reason ∧
  (reason = Adaptive_SUFFICIENT_EVIDENCE
    ↔ ce_classification (rn_evaluation (nd_run ending)) ∈ sufficient) ∧
  nd_sufficient ending =
    if bool_decide (reason = Adaptive_SUFFICIENT_EVIDENCE)
    then (λ a, (Z.of_nat (length xs), ar_session_elapsed_ms a)) <$> last (audits_of xs)
    else None.
Proof.
  intros [_ _ _ H4 _ _ H7 H8 H9] ->. destruct (nd_stop_reason ending) as [reason|] eqn:Hr.
  - cbn [default from_option id]. split_and!; [by apply H9| |].
    + rewrite <-H7. split; [by intros ->|by intros [= ->]].
    + rewrite H8. by rewrite (bool_decide_ext (Some reason = _) (reason = Adaptive_SUFFICIENT_EVIDENCE))
        by (split; [by intros [= ->]|by intros ->]).
  - cbn [default from_option id]. split_and!; [by apply H4| |].
    + rewrite <-H7. done.
    + by rewrite H8.
Qed.

(** The advisory explanation of a report. *)
Lemma report_advised g audits created updated rev created' updated' rev' r ev advisory err :
  report g audits created' updated' rev' None = Ok r → evaluate g audits = Ok ev →
  report_advisory (ce_decisions ev) advisory = Raise err →
  report g audits created updated rev advisory = Raise err.
Proof.
  unfold report. intros Hr Hev Hadv. rewrite Hev in Hr |- *. cbn [mbind result_bind] in *.
  unfold build_report in *. apply bind_ok in Hr as ([] & Hv & Hr). rewrite Hv. cbn [mbind result_bind].
  apply bind_ok in Hr as ([] & Hc & Hr). rewrite Hc. cbn [mbind result_bind].
  apply bind_ok in Hr as (audit & Ha & Hr). rewrite Ha. cbn [mbind result_bind].
  by rewrite Hadv.
Qed.

(** An explanation that cites retained evidence is kept. *)
Lemma advisory_kept decisions x adv :
  (∀ i, i ∈ ax_cited_evidence_ids x → ∃ d, d ∈ decisions ∧ ed_evidence_id d = i ∧
    (ed_disposition d = ADMITTED ∨ ed_disposition d = WEAK)) →
  report_advisory decisions (Some x) = Ok adv → is_Some adv.
Proof.
  intros Hc. unfold report_advisory. intros Hadv. apply bind_ok in Hadv as (x' & Hx & Hadv).
  unfold model_validate_advisory in Hx. apply bind_ok in Hx as (text & _ & Hx).
  apply bind_ok in Hx as ([] & _ & [= <-]). cbn [ax_cited_evidence_ids] in Hadv.
  rewrite (proj2 (subsetb_true _ _)) in Hadv.
  - apply bind_ok in Hadv as (x'' & _ & [= <-]). done.
  - intros i Hi. destruct (Hc i Hi) as (d & Hd & <- & Hdisp).
    apply list_elem_of_fmap. exists d. split; [done|]. by apply list_elem_of_filter.
Qed.

(** What is measured of the probes. *)
Lemma probes_measured s run xs attempts : probing s run xs attempts →
  let used := λ f, default 0 (f <$> last (audits_of xs)) in
  0 ≤ used ar_probe_count_used ≤ Z.of_nat (length xs) ∧ 0 ≤ used ar_cost_units_used ∧
  0 ≤ used ar_result_bytes_acquired ∧ 0 ≤ used ar_session_elapsed_ms.
Proof.
  intros Hp used. pose proof (pu_probed _ _ _ _ _ _ _ (ai_pursued _ _ _ _ Hp)) as Hrun.
  destruct (fresh_probed cfg Hreg _ _ _ Hfresh Hrun) as (_ & Ha & _ & _ & Hok).
  destruct (probed_tally cfg _ _ _ _ Hzero Hrun) as [_ Ht].
  rewrite Ha in Ht. unfold used. destruct (last (audits_of xs)) as [a|] eqn:Hl; cbn; [|lia].
  apply last_Some_elem_of in Hl. rewrite Forall_forall in Hok, Ht.
  specialize (Ht _ Hl). destruct (audit_counters _ (au_valid _ _ (Hok _ Hl))) as (_ & H1 & H2 & H3 & H4 & _).
  rewrite in_range_true in *. cbn in Ht. lia.
Qed.

Lemma reject_pass {A} b (e : py_error) (k : result py_error A) :
  b = false → (reject_if b e;; k) = k.
Proof. by intros ->. Qed.

Lemma length_filter_le {A} (P : A → Prop) `{!∀ x, Decision (P x)} l :
  (length (filter P l) ≤ length l)%nat.
Proof. induction l as [|x l IH]; [done|]. rewrite filter_cons. case_decide; cbn; lia. Qed.

Lemma tokens_counted turns p o t : Forall turn_ok turns → token_counts turns = Some (p, o, t) →
  0 ≤ p ∧ 0 ≤ o ∧ t = p + o.
Proof.
  unfold token_counts. intros Ht Hc. destruct (mapM tr_usage turns) as [usages|] eqn:Hu; [|done].
  cbn in Hc. injection Hc as <- <- <-. apply mapM_Some in Hu.
  assert (Forall (λ u, 0 ≤ au_prompt_tokens u ∧ 0 ≤ au_output_tokens u) usages) as Hall.
  { clear -Ht Hu. induction Hu as [|turn u turns usages Hu _ IH]; [done|].
    apply Forall_cons in Ht as [Hturn Ht]. constructor; [|by apply IH].
    pose proof (to_usage _ Hturn _ Hu) as Hm. unfold make_usage in Hm. inv_ok. bool_simpl.
    cbn [existsb] in *. bool_simpl. rewrite !in_range_true in *. lia. }
  clear -Hall. induction Hall as [|u l [H1 H2] _ IH]; cbn; [done|]. cbn in IH. lia.
Qed.

(** Without a probe nothing is known. *)
Lemma probing_nothing s run attempts : probing s run [] attempts →
  ce_classification (rn_evaluation run) ∉ sufficient.
Proof.
  intros Hp. destruct (ai_known _ _ _ _ Hp) as (l & Hl & ->).
  pose proof (pu_processed _ _ _ _ _ _ _ (ai_pursued _ _ _ _ Hp)) as Ha. cbn in Ha.
  injection Ha as _ <-. cbn in Hl. injection Hl as <-.
  cbn [core_result ce_classification]. by rewrite start_unknown.
Qed.

(** The policy versions are the [Identifier]s of a validated envelope. *)
Definition policies_identified (env : ExecutionEnvelope) : Prop :=
  let p := policies (en_context env) in
  validate_Identifier (pr_authority p) = Ok tt ∧ validate_Identifier (pr_classification p) = Ok tt ∧
  validate_Identifier (pr_action p) = Ok tt.

Lemma adaptive_made boot ending s xs x reason sha transcript elapsed report :
  stage boot (Z.to_nat (aip_max_turns policy)) ending s xs → explained_of (nd_run ending) x →
  reason = default Adaptive_MAX_TURNS (nd_stop_reason ending) →
  _validate_sha256 sha "capability catalog digest" = Ok tt → policies_identified envelope →
  0 ≤ elapsed → _transcript_sha256 (rn_turns (xp_run x)) = Ok transcript →
  model_validate_report report = Ok report → is_some (ir_classification report) = true →
  let total := match last (audits_of xs) with
    | Some final_audit => Z.max elapsed (ar_session_elapsed_ms final_audit) | None => elapsed end in
  let result := adaptive_result ax sha reason (nd_sufficient ending) x (audits_of xs) report total
    transcript in
  make_adaptive_result result = Ok result.
Proof.
  intros Hst Hx Hr Hsha (Hp1 & Hp2 & Hp3) He Htr Hrep Hcls total result.
  destruct (stage_reason _ _ _ _ _ Hst Hr) as (_ & Hsuf & Htime).
  destruct (st_probing _ _ _ _ _ Hst) as [attempts Hp].
  destruct (explained_turns _ _ _ _ (st_advised _ _ _ _ _ Hst) Hx)
    as (_ & Htok & _ & _ & _ & _ & Hun & Hre).
  destruct (probes_measured _ _ _ _ Hp) as (M1 & M2 & M3 & M4).
  pose proof (ai_counted _ _ _ _ Hp) as Hc. rewrite !Forall_cons in Hc.
  destruct Hc as (_ & C1%counted_length & C2%counted_length & _).
  assert (_validate_sha256 transcript "adaptive transcript digest" = Ok tt) as Htv.
  { unfold _transcript_sha256 in Htr. inv_ok. subst transcript. apply sha256_valid. }
  assert (0 ≤ total) as Htot by (unfold total; destruct (last (audits_of xs)); lia).
  assert (length (audits_of xs) = length xs) as Hlen by (unfold audits_of; apply length_map).
  assert (∀ l, disposed_proposals l (rn_turns (xp_run x)) ≤ proposal_total (rn_turns (xp_run x)))
    as Hdisp.
  { intros l. unfold disposed_proposals, proposal_total. apply Nat2Z.inj_le, length_filter_le. }
  unfold make_adaptive_result.
  cbn [result adaptive_result air_turns air_attempted_probe_count air_stop_reason
    air_capability_catalog_sha256 air_transcript_sha256 air_acquisition_turn_count
    air_model_invocation_count air_proposal_count air_probe_count_used air_cost_units_used
    air_result_bytes_acquired air_total_elapsed_ms air_unsupported_proposal_count
    air_invalid_proposal_count air_duplicate_proposal_count air_unavailable_probe_count
    air_redundant_probe_count air_sufficient_probe_sequence air_time_to_sufficient_evidence_ms
    air_token_counts air_policies air_report].
  rewrite Hsha, Htv, Hlen, Hun, Hre. cbn [mbind result_bind].
  rewrite reject_pass.
  2: { cbn [existsb]. unfold acquisition_turns, proposal_total, disposed_proposals in *.
       rewrite !(proj2 (Z.ltb_ge _ _)) by lia. done. }
  rewrite !Z.eqb_refl. cbn [negb reject_if mbind result_bind].
  rewrite reject_pass by (apply Z.ltb_ge; lia).
  rewrite reject_pass.
  2: { cbn [existsb]. by rewrite !(proj2 (Z.ltb_ge _ _)) by apply Hdisp. }
  rewrite reject_pass.
  2: { cbn [existsb]. by rewrite !(proj2 (Z.ltb_ge _ _)) by lia. }
  rewrite Htr. cbn [mbind result_bind]. rewrite bool_decide_refl. cbn [negb reject_if mbind result_bind].
  assert (bool_decide (reason = Adaptive_SUFFICIENT_EVIDENCE) = true
    ↔ ce_classification (rn_evaluation (nd_run ending)) ∈ sufficient) as Hsr
    by (by rewrite bool_decide_eq_true).
  revert Htime Hsr. generalize (bool_decide (reason = Adaptive_SUFFICIENT_EVIDENCE)).
  intros sufficient_reason Htime Hsr.
  assert ((nd_sufficient ending = if sufficient_reason then
    Some (Z.of_nat (length xs), default 0 (ar_session_elapsed_ms <$> last (audits_of xs))) else None)
    ∧ (sufficient_reason = true → (0 < length xs)%nat) ∧
    default 0 (ar_session_elapsed_ms <$> last (audits_of xs)) ≤ total) as (Hnd & Hpos & Hle).
  { split_and!.
    - rewrite Htime. destruct sufficient_reason eqn:Hs; [|done].
      destruct (last (audits_of xs)) eqn:Hl; [done|]. exfalso.
      apply last_None in Hl. unfold audits_of in Hl. apply map_eq_nil in Hl as ->.
      by apply (probing_nothing _ _ _ Hp), Hsr.
    - intros Hs%Hsr. destruct xs; [|cbn; lia]. by apply (probing_nothing _ _ _ Hp) in Hs.
    - unfold total. destruct (last (audits_of xs)); cbn; lia. }
  rewrite Hnd. clear Hnd Htime.
  rewrite reject_pass.
  2: { destruct sufficient_reason; [|done]. cbn. specialize (Hpos eq_refl).
       by rewrite (proj2 (in_range_true _ _ _)) by lia. }
  rewrite reject_pass by (by destruct sufficient_reason).
  rewrite reject_pass by (by destruct sufficient_reason).
  rewrite reject_pass.
  2: { destruct sufficient_reason; [|done]. cbn -[total]. by apply Z.ltb_ge. }
  rewrite reject_pass.
  2: { destruct (token_counts _) as [[[p o] t]|] eqn:Htok'; [|done].
       destruct (tokens_counted _ _ _ _ Htok Htok') as (T1 & T2 & ->).
       rewrite Z.eqb_refl, !(proj2 (Z.ltb_ge _ _)) by lia. done. }
  rewrite !adaptive_identifier, Hrep by done. cbn [mbind result_bind].
  rewrite reject_pass; [done|]. unfold is_some in Hcls. by apply negb_true_iff in Hcls.
Qed.

(** Limitations change nothing else. *)
Lemma limitations_ok r r' :
  model_validate_report r = Ok r → with_limitations r more = Ok r' →
  model_validate_report r' = Ok r' ∧ ir_classification r' = ir_classification r ∧
  ir_action_gate r' = ir_action_gate r ∧ ir_missing_evidence r' = ir_missing_evidence r.
Proof.
  intros Hr. unfold with_limitations. destruct more; [by intros [= <-]|].
  intros Hw. apply bind_ok in Hw as (limitations & _ & Hw). apply bind_ok in Hw as (adv & _ & Hw).
  pose proof Hw as Hv. unfold model_validate_report in Hv. inv_ok. by subst r'.
Qed.

Lemma report_checked g audits created updated r advisory :
  report g audits created updated revision advisory = Ok r →
  revision ≤ int64_max ∧ model_validate_report r = Ok r.
Proof.
  unfold report, build_report. intros Hr. inv_ok. pose proof Hr as Hv.
  unfold model_validate_report in Hv. inv_ok. subst r. split; [|exact Hr].
  unfold model_validate_report, validate_bounds, validate_references, validate_status in Hr.
  inv_ok. bool_simpl. cbn [ir_revision] in *. rewrite in_range_true in *. lia.
Qed.

(** The report of an ended run. *)
Lemma wp_reported boot k ending s xs x t (Q : result exn InvestigationReport → session W → Prop) :
  stage boot k ending s xs → explained_of (nd_run ending) x → (length xs ≤ 64)%nat →
  (∀ l adv report, rn_evaluation (nd_run ending) = core_result envelope l →
     (∃ g attempts, process_all (new_engine envelope rules) (map run_of xs) = (g, Ok attempts)
        ∧ deduplicate_attempts attempts = Ok l) →
     report_advisory (map at_decision l) (xp_explanation x) = Ok adv →
     (is_Some adv ↔ xp_valid x = Some true) →
     report = core_report envelope (audits_of xs) l (ae_observed_at (en_ambiguity envelope))
       (Z.max t (ae_observed_at (en_ambiguity envelope))) revision adv →
     model_validate_report report = Ok report → Q (Ok report) s) →
  (∀ e, adaptive_fails e → Q (Raise e) s) →
  wp (lift (report (rn_engine (xp_run x)) (audits_of xs) (ae_observed_at (en_ambiguity envelope))
    (Z.max t (ae_observed_at (en_ambiguity envelope))) revision (xp_explanation x))) Q s.
Proof.
  intros Hst Hx H64 Hok He. destruct (st_probing _ _ _ _ _ Hst) as [attempts Hp].
  destruct (explained_turns _ _ _ _ (st_advised _ _ _ _ _ Hst) Hx)
    as (_ & _ & _ & _ & Heng & _ & _ & _). rewrite Heng.
  pose proof (ai_pursued _ _ _ _ Hp) as Hpu.
  destruct (pursued_length _ _ Hreg Hfresh _ _ _ _ _ Hpu) as [Hlen Ha].
  destruct (ai_known _ _ _ _ Hp) as (l & Hded & Hev).
  set (observed := ae_observed_at (en_ambiguity envelope)) in *.
  destruct (decide (revision ≤ int64_max)) as [Hrev|Hrev].
  2: { destruct (session_reported cfg s0 s _ Henv Hreg Hfresh (pu_probed _ _ _ _ _ _ _ Hpu) _ _
         observed observed 0 (pu_engine _ _ _ _ _ _ _ Hpu) (pu_ids _ _ _ _ _ _ _ Hpu)
         ltac:(lia) ltac:(lia) eq_refl) as (l' & _ & _ & Hevl & Hrep). rewrite Ha in Hevl, Hrep.
       apply wp_lift; [intros r [Hr _]%report_checked; lia|]. intros e Hx'.
       destruct (report_advisory (map at_decision l') (xp_explanation x)) as [adv|err] eqn:Hadv.
       - rewrite (report_retimed _ _ _ _ _ _ _ _ _ _ (Hrep _ _ Hadv)) in Hx'.
         unfold times_checked in Hx'. destruct (in_range 0 revision int64_max) eqn:Hin;
           [apply in_range_true in Hin; lia|]. injection Hx' as <-. apply He, afails_revision. lia.
       - destruct (xp_explanation x) as [e'|] eqn:Hxe; [|done].
         rewrite (report_advised _ _ _ _ _ _ _ _ _ _ (Some e') err (Hrep None None eq_refl) Hevl Hadv)
           in Hx'. injection Hx' as <-. by eapply He, afails_advisory. }
  destruct (session_reported cfg s0 s _ Henv Hreg Hfresh (pu_probed _ _ _ _ _ _ _ Hpu) _ _
    observed (Z.max t observed) revision (pu_engine _ _ _ _ _ _ _ Hpu) (pu_ids _ _ _ _ _ _ _ Hpu)
    ltac:(lia) ltac:(lia) ltac:(apply in_range_true; lia)) as (l' & Hded' & _ & Hevl & Hrep).
  rewrite Hded in Hded'. injection Hded' as <-. rewrite Ha in Hevl, Hrep.
  destruct (report_advisory (map at_decision l) (xp_explanation x)) as [adv|err] eqn:Hadv.
  - rewrite (Hrep _ _ Hadv). apply wp_lift; [|done]. intros r [= <-].
    pose proof (Hrep _ _ Hadv) as [_ Hval]%report_checked.
    apply (Hok l adv); try done; [by exists (rn_engine (nd_run ending)), attempts; split; [apply Hpu|]|].
    rewrite (xe_valid _ _ Hx). destruct (xp_explanation x) as [e|] eqn:Hxe.
    + split; [done|]. intros _. eapply advisory_kept; [|exact Hadv]. intros i Hi.
      destruct (xe_cited _ _ Hx e i Hxe Hi) as (a & Hin & Hid & Hd). rewrite Hev in Hin.
      exists (at_decision a). split_and!; [|done|done]. apply list_elem_of_fmap. by exists a.
    + cbn in Hadv. injection Hadv as <-. done.
  - destruct (xp_explanation x) as [e|] eqn:Hxe; [|done].
    rewrite (report_advised _ _ _ _ _ _ _ _ _ _ (Some e) err (Hrep None None eq_refl) Hevl Hadv).
    apply wp_lift; [done|]. intros ? [= <-]. by eapply He, afails_advisory.
Qed.

(** The result of an ended run. *)
Lemma ended_adaptive boot ending s s' xs x reason sha transcript elapsed report l adv updated_at :
  stage boot (Z.to_nat (aip_max_turns policy)) ending s xs → explained_of (nd_run ending) x →
  reason = default Adaptive_MAX_TURNS (nd_stop_reason ending) → quiet s s' →
  _transcript_sha256 (rn_turns (xp_run x)) = Ok transcript →
  0 ≤ aip_max_turns policy →
  rn_evaluation (nd_run ending) = core_result envelope l →
  (∃ g attempts, process_all (new_engine envelope rules) (map run_of xs) = (g, Ok attempts)
     ∧ deduplicate_attempts attempts = Ok l) →
  ae_observed_at (en_ambiguity envelope) ≤ updated_at →
  report_advisory (map at_decision l) (xp_explanation x) = Ok adv →
  (is_Some adv ↔ xp_valid x = Some true) →
  with_limitations (core_report envelope (audits_of xs) l (ae_observed_at (en_ambiguity envelope))
    updated_at revision adv) more = Ok report →
  adaptive_answer boot s' xs l (adaptive_result ax sha reason (nd_sufficient ending) x
    (audits_of xs) report elapsed transcript).
Proof.
  intros Hst Hx Hr Hq Htr Hmax Hev Hpro Hup Hadv Hval Hrep.
  destruct (stage_reason _ _ _ _ _ Hst Hr) as (Hstop & Hsuf & Htime).
  destruct (st_probing _ _ _ _ _ Hst) as [attempts Hp].
  pose proof (st_advised _ _ _ _ _ Hst) as Had.
  destruct (explained_turns _ _ _ _ Had Hx) as (Hf & _ & Hn & Hsel & _).
  rewrite Hev in Hstop, Hsuf.
  split; cbn [adaptive_result air_turns air_attempted_probe_count air_stop_reason
    air_transcript_sha256 air_acquisition_turn_count air_probe_count_used air_cost_units_used
    air_result_bytes_acquired air_sufficient_probe_sequence air_explanation_valid air_report].
  - eapply probed_quiet; [|exact Hq]. apply (ai_pursued _ _ _ _ Hp).
  - apply Had.
  - apply Had.
  - exists (rn_prior_request_hashes (nd_run ending)). rewrite Hsel.
    split_and!; [apply Hp|apply Hp|apply Had].
  - split_and!; [done| |done]. unfold acquisition_turns. rewrite Hf.
    pose proof (st_turns _ _ _ _ _ Hst). lia.
  - exact Hpro.
  - by exists updated_at, (xp_explanation x), adv.
  - split_and!; [|done..]. unfold audits_of. by rewrite length_map.
  - apply Hst.
  - exact Hsuf.
  - by rewrite Hf.
  - rewrite Htime. case_bool_decide as Hs; [|done]. apply Hsuf in Hs.
    destruct (last (audits_of xs)) as [a|] eqn:Hl; [done|]. exfalso.
    apply last_None in Hl. unfold audits_of in Hl. apply map_eq_nil in Hl as ->.
    apply (probing_nothing _ _ _ Hp). by rewrite Hev.
Qed.

Lemma wp_ended boot ending s xs x reason sha
  (Q : result exn AdaptiveInvestigationResult → session W → Prop) :
  stage boot (Z.to_nat (aip_max_turns policy)) ending s xs → explained_of (nd_run ending) x →
  reason = default Adaptive_MAX_TURNS (nd_stop_reason ending) → (length xs ≤ 64)%nat →
  0 ≤ aip_max_turns policy → _validate_sha256 sha "capability catalog digest" = Ok tt →
  policies_identified envelope →
  (∀ result retained s', adaptive_answer boot s' xs retained result → Q (Ok result) s') →
  (∀ e s', adaptive_fails e → Q (Raise e) s') →
  wp (conclude_adaptive ax revision more sha reason (nd_sufficient ending) x) Q s.
Proof.
  intros Hst Hx Hr H64 Hmax Hsha Hpol Hok He. unfold conclude_adaptive.
  destruct (st_probing _ _ _ _ _ Hst) as [attempts Hp].
  destruct (pursued_length _ _ Hreg Hfresh _ _ _ _ _ (ai_pursued _ _ _ _ Hp)) as [_ Ha].
  apply wp_bind, wp_gets. rewrite Ha. apply wp_bind, wp_ask. intros t w _.
  pose proof (quiet_world s w) as Hq1. apply (stage_quiet _ _ _ _ _ _ Hq1) in Hst.
  apply wp_bind. eapply wp_reported; [exact Hst|exact Hx|exact H64| |by intros e; apply He].
  intros l adv report Hev Hpro Hadv Hval -> Hrv.
  apply wp_bind, wp_lift; [|intros e Hl; by eapply He, afails_limitation].
  intros report Hlim. destruct (limitations_ok _ _ Hrv Hlim) as (Hrv' & Hc & Hg & Hm).
  apply wp_bind. eapply wp_weaken; [apply wp_elapsed| |intros e s' Hx'; by apply He, afails_raised].
  intros elapsed s2 [Hq2 Helapsed].
  destruct (explained_turns _ _ _ _ (st_advised _ _ _ _ _ Hst) Hx) as (_ & Htok & _).
  destruct (is_Ok_inv _ (transcript_made _ Htok)) as [transcript Htr].
  apply wp_bind, wp_lift; [|by rewrite Htr]. intros transcript' Htr'. rewrite Htr in Htr'.
  injection Htr' as <-. pose proof (adaptive_made boot ending _ xs x reason sha transcript elapsed
    report Hst Hx Hr Hsha Hpol ltac:(lia) Htr Hrv' ltac:(by rewrite Hc)) as Hmade. cbv zeta in Hmade.
  apply wp_bind, wp_lift; [|by rewrite Hmade]. intros result Hres. rewrite Hmade in Hres.
  injection Hres as <-. apply wp_bind, wp_emit_state.
  - rewrite Hc, Hg, Hm. destruct (progress_state_ok envelope l) as (allowed & escalation & Hps).
    eexists. split; [exact Hps|]. intros t'. by apply ended_event.
  - intros s3 Hq3. apply wp_ret. eapply (Hok _ l), ended_adaptive; [exact Hst|exact Hx|exact Hr| |exact Htr|exact Hmax|
      exact Hev|exact Hpro| |exact Hadv|exact Hval|exact Hlim]; [by eapply quiet_trans|lia].
  - intros e s3 _ Hem. by apply He, afails_raised, araised_emitter.
Qed.

(** ** A turn, and the loop *)

(** The required capabilities are in the catalog. *)
Definition required_known : Prop :=
  Forall (λ i, is_Some (dict_get i (ax_catalog ax))) (ax_required ax).

Lemma any_spent_ok counts :
  required_known → is_Ok (any_spent (ax_catalog ax) counts (ax_required ax)).
Proof.
  unfold required_known. generalize (ax_required ax). intros l Hl.
  induction Hl as [|i l [entry He] _ IH]; [done|]. cbn [any_spent]. rewrite He.
  by case_match.
Qed.

Lemma wp_begin boot k run s xs : required_known → ready boot k run s xs →
  wp (begin_turn ax run) (or_raised (λ begun s', quiet s s' ∧
    match begun with
    | inl reason => (reason ∉ [Adaptive_SUFFICIENT_EVIDENCE; Adaptive_MAX_TURNS])
        ∧ run_stopped xs run reason
    | inr remaining => left_after (audits_of xs) remaining
    end)) s.
Proof.
  intros Hknown ((attempts & Hp) & Had & Hopen & Hk & Hl & H64 & Hc & Hins). unfold begin_turn.
  rewrite (proj2 (inb_false _ _) Hc). apply wp_bind.
  eapply wp_weaken; [apply wp_cancellation| |done]. intros b s1 [Hq1 Hseen].
  destruct b.
  { apply wp_bind, wp_ask. intros [] w _. apply wp_ret.
    split; [by eapply quiet_trans; [exact Hq1|apply quiet_world]|].
    split; [by apply inb_false|]. right; left. by apply Hseen. }
  apply (probing_quiet _ _ _ _ _ Hq1) in Hp. apply wp_bind.
  eapply wp_weaken; [apply wp_remaining, Hp| |done]. intros remaining s2 (Hq2 & Hleft & Htime).
  pose proof (quiet_trans _ _ _ Hq1 Hq2) as Hq.
  destruct (pb_elapsed_ms remaining =? 0) eqn:Hz.
  { apply wp_ret. split; [done|]. split; [by apply inb_false|]. right.
    by apply Htime, Z.eqb_eq. }
  destruct (_ || _ || _) eqn:Hout.
  { apply wp_ret. split; [done|]. split; [by apply inb_false|]. right. exists remaining.
    split; [done|]. rewrite !orb_true_iff, !Z.eqb_eq in Hout. tauto. }
  destruct (is_Ok_inv _ (any_spent_ok (rn_selected_counts run) Hknown)) as [spent Hspent].
  apply wp_bind, wp_lift; [|by rewrite Hspent]. intros b Hb. destruct b; apply wp_ret.
  - split; [done|]. split; [by apply inb_false|]. right; left.
    by rewrite <-(ai_counts _ _ _ _ Hp).
  - by split.
Qed.

Lemma wp_acquisition_turn boot k run s xs : required_known → ready boot k run s xs → (k ≤ 64)%nat →
  wp (acquisition_turn ax run) (or_raised (λ ending s', ∃ xs', stage boot (S k) ending s' xs')) s.
Proof.
  intros Hknown Hready H64. unfold acquisition_turn. apply wp_bind.
  eapply wp_weaken; [by eapply wp_begin| |done]. intros begun s1 [Hq1 Hbegun].
  apply (ready_quiet _ _ _ _ _ _ Hq1) in Hready.
  pose proof Hready as ((attempts & Hp) & Had & Hopen & Hk & Hl & _ & Hc & Hins).
  destruct begun as [reason|remaining].
  { apply wp_ret. destruct Hbegun as [Hr Hb]. exists xs.
    apply (stopped_stage boot (S k) run s1 xs attempts reason); try done; lia. }
  apply wp_bind, wp_lift.
  2: { intros err He. unfold acquisition_input in He.
       destruct (run_input ax ACQUIRE_EVIDENCE remaining run) as [|e] eqn:Hin; [done|].
       injection He as <-. by eapply araised_input. }
  intros planner_input _. apply wp_bind.
  eapply wp_weaken; [apply wp_consult; unfold next_turn; lia| |done].
  intros ct s2 [Hq2 Hct]. apply (ready_quiet _ _ _ _ _ _ Hq2) in Hready.
  destruct (ct_turn ct) as [|failure|turn] eqn:Hv.
  - apply wp_bind, wp_ask. intros [] w _. pose proof (quiet_world s2 w) as Hq3.
    apply (ready_quiet _ _ _ _ _ _ Hq3) in Hready. apply wp_bind.
    eapply wp_weaken; [eapply wp_record_cancelled; [done|lia]| |done].
    intros run' s3 (Hq4 & t & (H1 & H2 & H3 & H4 & H5 & H6) & Hcn & ->). apply wp_ret.
    exists xs. apply ready_stopped; [by eapply ready_quiet|by split_and!|done|by apply inb_false|].
    do 2 right. exists t. split; [apply last_snoc|done].
  - apply wp_bind. eapply wp_weaken; [eapply wp_record_failed; [done|lia]| |done].
    intros run' s3 (Hq4 & t & (H1 & H2 & H3 & H4 & H5 & H6) & ->). apply wp_ret.
    exists xs. apply ready_stopped; [by eapply ready_quiet|by split_and!|done| |].
    + by destruct failure; apply inb_false.
    + assert (last (rn_turns (add_turn t run)) = Some t) by apply last_snoc.
      destruct failure; by exists t.
  - by eapply wp_answered.
Qed.

(** The loop of at most [turns] turns. *)
Lemma wp_loop boot turns : required_known → ∀ k ending s xs,
  stage boot k ending s xs → (length boot + k + turns ≤ 64)%nat →
  wp (acquisition_loop ax turns ending)
    (or_raised (λ ending' s', ∃ xs', stage boot (k + turns) ending' s' xs')) s.
Proof.
  intros Hknown. induction turns as [|turns IH]; intros k ending s xs Hst H64.
  { cbn [acquisition_loop]. apply wp_ret. rewrite Nat.add_0_r. by exists xs. }
  cbn [acquisition_loop]. destruct (nd_stop_reason ending) as [reason|] eqn:Hr.
  { apply wp_ret. exists xs. eapply stage_later; [|exact Hr|exact Hst]. lia. }
  destruct (stage_open _ _ _ _ _ Hst Hr) as (Hopen & Hk & Hl & Hc & Hins).
  apply wp_bind. eapply wp_weaken; [apply (wp_acquisition_turn boot k _ s xs Hknown)| |done].
  - split_and!; try done; [apply Hst|apply Hst|lia].
  - lia.
  - intros ending' s' (xs' & Hst'). rewrite <-Nat.add_succ_comm.
    apply (IH _ _ _ xs'); [done|lia].
Qed.

(** A loop that has stopped does nothing. *)
Lemma loop_stopped turns ending reason :
  nd_stop_reason ending = Some reason → acquisition_loop ax turns ending = mret ending.
Proof. intros Hr. destruct turns; [done|]. cbn [acquisition_loop]. by rewrite Hr. Qed.

(** ** The whole run *)

(** The checks before the first probe. *)
Lemma wp_opening catalog run s ev :
  probing s run [] [] → advised [] run [] → cs_terminal_execution (ss_state s) = None →
  rn_turns run = [] → rn_evaluation run = ev →
  (∀ i, i ∈ rc_known catalog → is_Some (dict_get i (ax_catalog ax))) →
  ax_required ax ⊆ map ref_identity (aip_required_capabilities policy) →
  wp (opening ax catalog run) (or_raised (λ ending s', stage [] 0 ending s' [] ∧
    nd_run ending = run ∧ (nd_stop_reason ending = None → required_known))) s.
Proof.
  intros Hp Had Hopen Hturns Hev Hcat Hsub. pose proof (probing_nothing _ _ _ Hp) as Hc.
  assert (∀ s' reason, quiet s s' →
    (reason ∉ [Adaptive_SUFFICIENT_EVIDENCE; Adaptive_MAX_TURNS]) → run_stopped [] run reason →
    stage [] 0 (stopping run reason) s' []) as Hstop.
  { intros s' reason Hq Hr Hb. apply (stopped_stage [] 0 run s' [] [] reason); try done.
    - by eapply probing_quiet.
    - by rewrite Hturns.
    - intros n ev' Hn. cbn in Hn. lia. }
  unfold opening. apply wp_bind. eapply wp_weaken; [apply wp_cancellation| |done].
  intros b s1 [Hq1 Hseen]. destruct b.
  { apply wp_bind, wp_ask. intros [] w _. apply wp_ret. split_and!; [|done|done].
    apply Hstop; [by eapply quiet_trans; [exact Hq1|apply quiet_world]|by apply inb_false|].
    right; left. by apply Hseen. }
  destruct (subsetb _ (rc_known catalog)) eqn:Hknown; cbn [negb].
  2: { apply wp_ret. split_and!; [|done|done]. apply Hstop; [done|by apply inb_false|].
       do 2 right. by rewrite Hturns. }
  case_match.
  { apply wp_ret. split_and!; [|done|done]. apply Hstop; [done|by apply inb_false|done]. }
  apply wp_ret. split_and!; [|done|].
  - split; cbn [going_on nd_run nd_stop_reason nd_sufficient]; try done.
    + exists []. by eapply probing_quiet.
    + by rewrite Hturns.
    + intros _. rewrite (quiet_open _ _ Hq1), Hturns. done.
    + intros n ev' Hn. cbn in Hn. lia.
  - intros _. apply Forall_forall. intros i Hi. apply Hcat.
    apply subsetb_true in Hknown. by apply Hknown, Hsub.
Qed.

Lemma start_evaluated : ∃ ev, evaluate (new_engine envelope rules) [] = Ok ev.
Proof.
  pose proof (pursued_start cfg s0 Hfresh rules Hrules) as Hp.
  destruct (session_evaluated cfg s0 s0 [] Henv Hreg Hfresh (pu_probed _ _ _ _ _ _ _ Hp)
    [] _ (pu_engine _ _ _ _ _ _ _ Hp)) as (l & _ & _ & He); [constructor|cbn; lia|].
  destruct Hfresh as (_ & _ & Ha & _). rewrite Ha in He. by eexists.
Qed.

(** The end of a run, from the end of its loop. *)
Lemma wp_finished boot ending s xs safe sha
  (Q : result exn AdaptiveInvestigationResult → session W → Prop) :
  stage boot (Z.to_nat (aip_max_turns policy)) ending s xs → (length xs ≤ 64)%nat →
  0 ≤ aip_max_turns policy ≤ 64 → _validate_sha256 sha "capability catalog digest" = Ok tt →
  policies_identified envelope →
  (∀ result retained s', adaptive_answer boot s' xs retained result → Q (Ok result) s') →
  (∀ e s', adaptive_fails e → Q (Raise e) s') →
  let reason := default Adaptive_MAX_TURNS (nd_stop_reason ending) in
  wp (x ← explain_phase ax safe reason ending;
      conclude_adaptive ax revision more sha reason (nd_sufficient ending) x) Q s.
Proof.
  intros Hst H64 Hmax Hsha Hpol Hok He reason. apply wp_bind.
  destruct (st_probing _ _ _ _ _ Hst) as [attempts Hp].
  eapply wp_weaken; [eapply wp_explain_phase; [exact Hp|]| |].
  - pose proof (st_turns _ _ _ _ _ Hst). lia.
  - intros x s' [Hq Hx]. apply (stage_quiet _ _ _ _ _ _ Hq) in Hst.
    by eapply (wp_ended boot ending s' xs x); try done; lia.
  - intros e s' Hr. by apply He, afails_raised.
Qed.

Lemma wp_drive_adaptive catalog bootstrap
  (Q : result exn AdaptiveInvestigationResult → session W → Prop) :
  (∀ i, i ∈ rc_known catalog → is_Some (dict_get i (ax_catalog ax))) →
  ax_required ax ⊆ map ref_identity (aip_required_capabilities policy) →
  1 ≤ aip_max_turns policy ≤ 64 → (is_Some bootstrap → aip_max_turns policy = 1) →
  _validate_sha256 (rc_sha256 catalog) "capability catalog digest" = Ok tt →
  policies_identified envelope →
  (∀ result boot xs retained s', boot = option_list bootstrap ∨ (boot = [] ∧ xs = []) →
     adaptive_answer boot s' xs retained result → Q (Ok result) s') →
  (∀ e s', adaptive_fails e ∨ (∃ request err, bootstrap = Some request ∧ e = Exn_error err
     ∧ probe_request_sha256 request = Raise err) → Q (Raise e) s') →
  wp (drive_adaptive ax rules catalog revision more bootstrap) Q s0.
Proof.
  intros Hcat Hsub Hmax Hone Hsha Hpol Hok He. unfold drive_adaptive.
  destruct start_evaluated as [ev Hev]. apply wp_bind, wp_lift; [|by rewrite Hev].
  intros ev' Hev'. rewrite Hev in Hev'. injection Hev' as <-.
  destruct (probing_start _ Hev) as [Hp Had]. set (run := new_adaptive_run _ _) in *.
  apply wp_bind, wp_emit; [done| |intros e s _ Hem; by apply He; left; apply afails_raised, araised_emitter].
  intros s1 Hq1. apply (probing_quiet _ _ _ _ _ Hq1) in Hp.
  assert (cs_terminal_execution (ss_state s1) = None) as Hopen
    by (rewrite (quiet_open _ _ Hq1); apply Hfresh).
  apply wp_bind. eapply wp_weaken; [by eapply (wp_opening catalog run s1)| |].
  2: { intros e s Hr. apply He. left. by apply afails_raised. }
  intros opened s2 (Hst & Hrun & Hknown). apply wp_bind.
  assert (∀ boot ending s xs, stage boot (Z.to_nat (aip_max_turns policy)) ending s xs →
    (length boot ≤ length (option_list bootstrap))%nat →
    boot = option_list bootstrap ∨ (boot = [] ∧ xs = []) →
    let reason := default Adaptive_MAX_TURNS (nd_stop_reason ending) in
    wp (x ← explain_phase ax (rc_safe catalog) reason ending;
      conclude_adaptive ax revision more (rc_sha256 catalog) reason (nd_sufficient ending) x) Q s)
    as Hfin.
  { intros boot ending s xs Hs Hl Hboot reason.
    eapply wp_finished; [exact Hs| |lia|exact Hsha|exact Hpol| |].
    - pose proof (st_length _ _ _ _ _ Hs) as Hxs.
      destruct bootstrap; cbn in Hl; [rewrite (Hone ltac:(done)) in Hxs|]; lia.
    - intros result retained s' Ha. by eapply Hok.
    - intros e s' Hf. apply He. by left. }
  assert (∀ boot k ending s xs, required_known → stage boot k ending s xs →
    (length boot ≤ length (option_list bootstrap))%nat → boot = option_list bootstrap → k = 0%nat →
    wp (ending ← acquisition_loop ax (Z.to_nat (aip_max_turns policy)) ending;
      let stop_reason := default Adaptive_MAX_TURNS (nd_stop_reason ending) in
      x ← explain_phase ax (rc_safe catalog) stop_reason ending;
      conclude_adaptive ax revision more (rc_sha256 catalog) stop_reason (nd_sufficient ending) x) Q s)
    as Hloop.
  { intros boot k ending s xs Hk Hs Hl Hboot ->. apply wp_bind.
    eapply wp_weaken; [apply (wp_loop boot _ Hk 0 ending s xs Hs)| |].
    - destruct bootstrap; cbn in Hl; [rewrite (Hone ltac:(done))|]; lia.
    - intros ending' s' (xs' & Hs'). eapply Hfin; [exact Hs'|exact Hl|by left].
    - intros e s' Hr. apply He. left. by apply afails_raised. }
  destruct (nd_stop_reason opened) as [reason|] eqn:Hstop.
  { apply wp_ret, wp_bind. rewrite (loop_stopped _ _ _ Hstop). apply wp_ret.
    eapply (Hfin [] opened s2 []); [|cbn; lia|by right].
    eapply stage_later; [|exact Hstop|exact Hst]. lia. }
  specialize (Hknown eq_refl). destruct bootstrap as [request|].
  2: { apply wp_ret. by eapply (Hloop [] 0%nat opened s2 []). }
  destruct (probe_request_sha256 request) as [d|err] eqn:Hd.
  - destruct (st_probing _ _ _ _ _ Hst) as [attempts Hp2].
    destruct (stage_open _ _ _ _ _ Hst Hstop) as (Hopen2 & _). rewrite Hrun in *.
    eapply wp_weaken; [by eapply (wp_bootstrap s2 run request d attempts)| |].
    + intros ending s3 (xs & Hs3). by eapply (Hloop [request]).
    + intros e s3 Hr. apply He. left. by apply afails_raised.
  - unfold bootstrap_probe, start_probe. apply wp_bind, wp_bind, wp_lift; [by rewrite Hd|].
    intros e Hde. apply He. right. exists request, err. rewrite Hd in Hde. by injection Hde as ->.
Qed.

End loop.

(** ** The promises *)

Section promises.
Context {rt : Runtime} {sec : Security} {sv : SchemaValidator} {od : ObservationDecoder}.
Context {laws : RuntimeLaws rt}.
Context {W H : Type} {env : Environment W H} {dr : Driver W} {pn : Planner W}.
Context {pl : PlannerLaws (W := W)}.

(** A policy made by its constructor. *)
Definition sealed_policy (policy : AdaptiveInvestigationPolicy) : Prop :=
  ∃ name version classifications required max_turns timeout_ms explained,
    make_policy name version classifications required max_turns timeout_ms explained = Ok policy.

Lemma sealed_bounds policy : sealed_policy policy →
  (UNKNOWN ∉ aip_sufficient_classifications policy) ∧ 1 ≤ aip_max_turns policy ≤ 64.
Proof.
  intros (name & version & cs & required & turns & timeout & expl & Hm). unfold make_policy in Hm.
  inv_ok. bool_simpl. subst policy. cbn. rewrite in_range_true in *. unfold _MAX_TURNS in *.
  split; [|lia]. rewrite merge_sort_Permutation. by apply inb_false.
Qed.

Lemma catalog_for_ok envelope (registry : @CapabilityRegistry H) bootstrap catalog :
  catalog_for envelope registry bootstrap = Ok catalog →
  (∀ i, i ∈ rc_known catalog → is_Some (dict_get i (rc_planner catalog))) ∧
  ∀ label, _validate_sha256 (rc_sha256 catalog) label = Ok tt.
Proof.
  unfold catalog_for. intros Hc. apply bind_ok in Hc as ([[entries safe] digest] & Hmade & Hc).
  assert (∀ (l : catalog_of H) d label, _catalog_sha256 l = Ok d → _validate_sha256 d label = Ok tt)
    as Hsha.
  { unfold _catalog_sha256. intros l d label Hd. inv_ok. subst d. apply sha256_valid. }
  destruct bootstrap as [request|].
  - apply bind_ok in Hc as (d & Hd & [= <-]). cbn. split; [|intros label; by eapply Hsha].
    intros i Hi. apply dict_get_is_some in Hi.
    destruct (dict_get (request_capability request) entries) as [entry|] eqn:He; [|done].
    destruct (decide (i = request_capability request)) as [->|Hne].
    + rewrite dict_get_set_eq. done.
    + by rewrite dict_get_set_ne.
  - injection Hc as <-. cbn. split; [intros i; apply dict_get_is_some|].
    unfold _catalog in Hmade. apply bind_ok in Hmade as (scope & _ & Hmade).
    apply bind_ok in Hmade as (entries' & _ & Hmade).
    apply bind_ok in Hmade as (digest' & Hd & [= _ _ <-]). intros label. by eapply Hsha.
Qed.

(** How a run is set up: its arguments pass, its catalog and its controller are made. *)
Definition set_up envelope (registry : @CapabilityRegistry H) policy revision more bootstrap
  token w (ax : adaptive_setup H) (s0 : session W) : Prop :=
  ∃ metadata started w' catalog cfg,
    check_arguments envelope policy revision more bootstrap = Ok metadata ∧
    monotonic w = (started, w') ∧ catalog_for envelope registry bootstrap = Ok catalog ∧
    new_controller envelope registry token 0 w' = (Ok cfg, s0) ∧
    ax = setup_of cfg policy metadata started catalog bootstrap.

Lemma arguments_checked envelope policy revision more bootstrap metadata :
  check_arguments envelope policy revision more bootstrap = Ok metadata →
  planner_metadata = Some metadata ∧ 0 ≤ revision ∧
  (is_Some bootstrap → aip_max_turns policy = 1).
Proof.
  unfold check_arguments. intros Hc. apply bind_ok in Hc as ([] & Hb & Hc).
  destruct planner_metadata as [configured|]; [|done]. apply reject_then_ok in Hc as [Hr Hc].
  inv_ok. subst. apply Z.ltb_ge in Hr. split_and!; [done|done|]. intros [request ->].
  apply reject_then_ok in Hb as [Hb _]. bool_simpl. lia.
Qed.

Lemma execute_adaptive_ok envelope (registry : @CapabilityRegistry H) rules policy revision more
  bootstrap token w r s :
  capability_wf registry → registry_wf rule_key rules → sealed_policy policy →
  effects_identified envelope → policies_identified envelope →
  _execute_adaptive_investigation envelope registry rules policy revision more bootstrap token w
    = (r, s) →
  match r with
  | Ok result => ∃ ax s0 boot xs retained,
      set_up envelope registry policy revision more bootstrap token w ax s0 ∧
      (boot = option_list bootstrap ∨ (boot = [] ∧ xs = [])) ∧
      adaptive_answer ax s0 rules revision more boot s xs retained result
  | Raise e =>
      (∃ err, e = Exn_error err ∧
        (check_arguments envelope policy revision more bootstrap = Raise err ∨
         catalog_for envelope registry bootstrap = Raise err ∨
         ∃ request, bootstrap = Some request ∧ probe_request_sha256 request = Raise err)) ∨
      (∃ w' s0, new_controller (H := H) envelope registry token 0 w' = (Raise e, s0)) ∨
      ∃ ax s0, set_up envelope registry policy revision more bootstrap token w ax s0 ∧
        adaptive_fails ax s0 rules revision more e
  end.
Proof.
  intros Hwf Hrules [Hunk Hmax]%sealed_bounds Heff Hpol Hrun.
  unfold _execute_adaptive_investigation in Hrun.
  destruct (check_arguments envelope policy revision more bootstrap) as [metadata|err] eqn:Hargs;
    [|injection Hrun as <- <-; left; eexists; split; [done|]; by left].
  destruct (arguments_checked _ _ _ _ _ _ Hargs) as (Hmeta & Hrev & Hone).
  destruct (monotonic w) as [started w'] eqn:Hclock.
  destruct (catalog_for envelope registry bootstrap) as [catalog|err] eqn:Hcat;
    [|injection Hrun as <- <-; left; eexists; split; [done|]; auto].
  destruct (catalog_for_ok _ _ _ _ Hcat) as [Hknown Hsha].
  destruct (new_controller envelope registry token 0 w') as [[cfg|e] s0] eqn:Hnew;
    [|injection Hrun as <- <-; right; left; by exists w', s0].
  pose proof (new_controller_ok _ _ _ _ _ _ _ Hwf Hnew) as (He & _ & Hv & Hreg & Hfresh).
  pose proof (new_controller_tally _ _ _ _ _ _ _ Hnew) as Htally.
  set (ax := setup_of cfg policy metadata started catalog bootstrap) in *.
  assert (set_up envelope registry policy revision more bootstrap token w ax s0) as Hset
    by (by exists metadata, started, w', catalog, cfg).
  assert (wp (drive_adaptive ax rules catalog revision more bootstrap) (λ r s, match r with
    | Ok result => ∃ boot xs retained, (boot = option_list bootstrap ∨ (boot = [] ∧ xs = [])) ∧
        adaptive_answer ax s0 rules revision more boot s xs retained result
    | Raise e => adaptive_fails ax s0 rules revision more e ∨
        ∃ request err, bootstrap = Some request ∧ e = Exn_error err
          ∧ probe_request_sha256 request = Raise err end) s0) as Hwp.
  { apply wp_drive_adaptive; cbn [ax setup_of ax_config ax_policy ax_metadata ax_catalog ax_required];
      rewrite ?He; rewrite ?He in Hv; try done.
    - by apply metadata_made.
    - destruct bootstrap; [|done]. intros i [_ Hi]%list_elem_of_filter. done.
    - intros result boot xs retained s' Hb Ha. eauto. }
  unfold wp in Hwp. rewrite Hrun in Hwp. cbn [fst snd] in Hwp. destruct r as [result|e].
  - destruct Hwp as (boot & xs & retained & Hb & Ha). by exists ax, s0, boot, xs, retained.
  - destruct Hwp as [Hf|(request & err & Hb & -> & Hd)].
    + right; right. by exists ax, s0.
    + left. exists err. split; [done|]. right; right. by exists request.
Qed.

(** C3: what the result of an adaptive investigation says of its run.  After the
    bootstrap request, if there is one, every probe of the session was proposed by
    the planner, passed the policy against what the probes before it had left of
    the budget, and was new; the digests the turns selected are theirs, in order.
    The engine processed them all, and the report is the one the classifier's
    specification gives for them, with the caller's limitations and, when the
    explanation was valid, an advisory that cites retained evidence.  The turns are
    numbered, at most as many as the policy allows acquired evidence, and the
    transcript digest is theirs.  The run went on only while the classification
    was insufficient, and stopped for a reason that held. *)
Theorem adaptive_answers envelope (registry : @CapabilityRegistry H) rules policy revision more
  bootstrap token w result s :
  capability_wf registry → registry_wf rule_key rules → sealed_policy policy →
  effects_identified envelope → policies_identified envelope →
  _execute_adaptive_investigation envelope registry rules policy revision more bootstrap token w
    = (Ok result, s) →
  ∃ ax s0 boot xs retained,
    set_up envelope registry policy revision more bootstrap token w ax s0 ∧
    (boot = option_list bootstrap ∨ (boot = [] ∧ xs = [])) ∧
    adaptive_answer ax s0 rules revision more boot s xs retained result.
Proof.
  intros Hwf Hrules Hpolicy Heff Hpol Hrun.
  exact (execute_adaptive_ok _ _ _ _ _ _ _ _ _ _ _ Hwf Hrules Hpolicy Heff Hpol Hrun).
Qed.

(** C4: an adaptive investigation fails only for a reason outside its bookkeeping.
    One that raises was given a bad argument or a bootstrap request without a digest,
    or its catalog or its controller could not be made; or the emitter, a probe or
    the planner's wait raised, two attempts have one identifier, a proposal has no
    digest, a reading of the clock is no date, the planner's input or advice broke a
    bound, the revision has more than 63 bits, or the report refuses the advisory or
    a limitation of the caller.  No record of a turn, no measurement and no check of
    the result fails. *)
Theorem adaptive_failures envelope (registry : @CapabilityRegistry H) rules policy revision more
  bootstrap token w e s :
  capability_wf registry → registry_wf rule_key rules → sealed_policy policy →
  effects_identified envelope → policies_identified envelope →
  _execute_adaptive_investigation envelope registry rules policy revision more bootstrap token w
    = (Raise e, s) →
  (∃ err, e = Exn_error err ∧
    (check_arguments envelope policy revision more bootstrap = Raise err ∨
     catalog_for envelope registry bootstrap = Raise err ∨
     ∃ request, bootstrap = Some request ∧ probe_request_sha256 request = Raise err)) ∨
  (∃ w' s0, new_controller (H := H) envelope registry token 0 w' = (Raise e, s0)) ∨
  ∃ ax s0, set_up envelope registry policy revision more bootstrap token w ax s0 ∧
    adaptive_fails ax s0 rules revision more e.
Proof.
  intros Hwf Hrules Hpolicy Heff Hpol Hrun.
  exact (execute_adaptive_ok _ _ _ _ _ _ _ _ _ _ _ Hwf Hrules Hpolicy Heff Hpol Hrun).
Qed.

End promises.
