(* ===== verification/Witnesses.v ===== *)
(** The witnesses of the properties of investigations, fixed plans and adaptive
    investigations, at the laboratory of Samples.v: each applies its theorem where its hypotheses hold. *)

From S2P Require Export Samples BaselineProperties AdaptiveProperties.

#[local] Open Scope Z_scope.

Lemma ok_such {E A} (m : result E A) (f : A → bool) :
  match m with Ok a => f a | Raise _ => false end = true → ∃ a, m = Ok a ∧ f a = true.
Proof. destruct m as [a|]; [|done]. eauto. Qed.

Lemma some_such {A} (m : option A) (f : A → bool) :
  match m with Some a => f a | None => false end = true → ∃ a, m = Some a ∧ f a = true.
Proof. destruct m as [a|]; [|done]. eauto. Qed.

Lemma lab_valid answers :
  forallb (λ a, bool_decide (a ∈ lab_answers)) answers
  && bool_decide (NoDup (decision_ids (lab_attempts answers)))
  && (length (lab_attempts answers) <=? 64)%nat = true →
  pipeline_output lab_envelope (lab_audits answers) (lab_attempts answers).
Proof.
  rewrite !andb_true_iff, bool_decide_eq_true, Nat.leb_le.
  intros [[Hin Hids] Hlen]. apply lab_output; [|done..].
  apply Forall_forall. intros a Ha. rewrite forallb_forall in Hin.
  specialize (Hin a). rewrite bool_decide_eq_true in Hin. apply Hin. by apply list_elem_of_In.
Qed.

Lemma lab_known answers :
  forallb (λ a, bool_decide (a ∈ lab_answers)) answers = true →
  Forall (λ rx, is_Ok (probe_request_sha256 rx.1)) (lab_run answers).1.
Proof.
  intros Hin. apply lab_digests; [by vm_compute; repeat constructor|].
  apply Forall_forall. intros a Ha. rewrite forallb_forall in Hin.
  specialize (Hin a). rewrite bool_decide_eq_true in Hin. apply Hin. by apply list_elem_of_In.
Qed.

#[local] Opaque evaluate_evidence execute process_all report lab_registry lab_run lab_attempts lab_audits lab_start lab_config.

(** ** Classification *)

Lemma committed_sound_witness :
  ∃ e, authoritative lab_envelope (lab_audits ["committed"]) (lab_attempts ["committed"]) e
    ∧ asserts "mail" ESTABLISHED e.
Proof.
  destruct (ok_such (lab_evaluation ["committed"])
    (λ ev, bool_decide (ce_classification ev = COMMITTED))) as (ev & Hev & Hc);
    [vm_compute; reflexivity|]. apply bool_decide_eq_true in Hc.
  apply (committed_sound lab_envelope (lab_audits ["committed"]) (lab_attempts ["committed"])
    ev (lab_effect "mail" "smtp")); [|exact Hev|exact Hc|right; left].
  apply lab_valid. vm_compute. reflexivity.
Defined.

Lemma not_committed_sound_witness :
  ∃ e, authoritative lab_envelope (lab_audits ["absent"]) (lab_attempts ["absent"]) e
    ∧ ne_operation_status e = Some TERMINAL_NOT_COMMITTED.
Proof.
  destruct (ok_such (lab_evaluation ["absent"])
    (λ ev, bool_decide (ce_classification ev = NOT_COMMITTED))) as (ev & Hev & Hc);
    [vm_compute; reflexivity|]. apply bool_decide_eq_true in Hc.
  apply (not_committed_sound lab_envelope (lab_audits ["absent"]) (lab_attempts ["absent"]) ev);
    [|exact Hev|exact Hc].
  apply lab_valid. vm_compute. reflexivity.
Defined.

Lemma classification_exact_witness :
  ∃ ev, lab_evaluation ["partial"] = Ok ev ∧
    outcome (admitted_in (ce_attempts ev)) (en_expected_effects lab_envelope) PARTIAL.
Proof.
  destruct (ok_such (lab_evaluation ["partial"])
    (λ ev, bool_decide (ce_classification ev = PARTIAL))) as (ev & Hev & Hc);
    [vm_compute; reflexivity|]. apply bool_decide_eq_true in Hc. exists ev. split; [exact Hev|].
  exact (proj2 (classification_exact lab_envelope (lab_attempts ["partial"])
    (lab_audits ["partial"]) ev PARTIAL Hev) Hc).
Defined.

Lemma partial_sound_witness :
  ∃ ev f, lab_evaluation ["partial"] = Ok ev ∧
    f ∈ dp_effect_findings (ce_proof ev) ∧ ef_state f = NOT_ESTABLISHED.
Proof.
  destruct (ok_such (lab_evaluation ["partial"])
    (λ ev, bool_decide (ce_classification ev = PARTIAL))) as (ev & Hev & Hc);
    [vm_compute; reflexivity|]. apply bool_decide_eq_true in Hc. exists ev.
  destruct (partial_sound lab_envelope (lab_audits ["partial"]) (lab_attempts ["partial"]) ev)
    as (_ & (f & Hf & Hs) & _); [|exact Hev|exact Hc|].
  - apply lab_valid. vm_compute. reflexivity.
  - exists f. split; [exact Hev|]. split; [exact Hf|exact Hs].
Defined.

Lemma evaluation_order_independent_witness :
  evaluate_evidence lab_envelope (reverse (lab_attempts ["committed"; "missing"]))
      (reverse (lab_audits ["committed"; "missing"]))
  = evaluate_evidence lab_envelope (lab_attempts ["committed"; "missing"])
      (lab_audits ["committed"; "missing"]).
Proof.
  exact (evaluation_order_independent lab_envelope
    (reverse (lab_attempts ["committed"; "missing"])) (lab_attempts ["committed"; "missing"])
    (reverse (lab_audits ["committed"; "missing"])) (lab_audits ["committed"; "missing"])
    (reverse_Permutation _) (reverse_Permutation _)).
Defined.

Lemma action_gates_safe_witness :
  ∃ ev, lab_evaluation ["running"] = Ok ev ∧
    map ag_requested_action (ce_action_gates ev) = all_actions.
Proof.
  destruct (ok_such (lab_evaluation ["running"]) (λ _, true)) as (ev & Hev & _);
    [vm_compute; reflexivity|].
  exists ev. split; [exact Hev|].
  apply (action_gates_safe lab_envelope (lab_attempts ["running"]) (lab_audits ["running"]) ev
    Hev).
Defined.

Lemma retained_sources_unique_witness :
  ∃ ev b, lab_evaluation ["committed"; "committed"] = Ok ev ∧ ce_attempts ev !! 1%nat = Some b ∧
    ed_reason (at_decision b) = DUPLICATE_CANDIDATES.
Proof.
  destruct (ok_such (lab_evaluation ["committed"; "committed"]) (λ ev,
    match ce_attempts ev with
    | [a; b] => match at_evidence a, at_raw_sha256 a, at_evidence b, at_raw_sha256 b with
        | Some e, Some r, Some e', Some r' => bool_decide (dedup_key a e r = dedup_key b e' r')
        | _, _, _, _ => false end
    | _ => false end)) as (ev & Hev & Hk); [vm_compute; reflexivity|].
  destruct (ce_attempts ev) as [|a [|b [|]]] eqn:Hl; try discriminate Hk.
  destruct (at_evidence a) as [e|] eqn:He; [|discriminate Hk].
  destruct (at_raw_sha256 a) as [r|] eqn:Hr; [|discriminate Hk].
  destruct (at_evidence b) as [e'|] eqn:He'; [|discriminate Hk].
  destruct (at_raw_sha256 b) as [r'|] eqn:Hr'; [|discriminate Hk].
  apply bool_decide_eq_true in Hk. exists ev, b.
  assert (ce_attempts ev !! 0%nat = Some a ∧ ce_attempts ev !! 1%nat = Some b) as [Ha Hb]
    by (rewrite Hl; split; reflexivity).
  assert (keyed a (dedup_key a e r)) as Hka by (exists e, r; split_and!; [exact He|exact Hr|reflexivity]).
  assert (keyed b (dedup_key a e r)) as Hkb.
  { exists e', r'. split_and!; [exact He'|exact Hr'|symmetry; exact Hk]. }
  destruct (retained_sources_unique lab_envelope (lab_audits ["committed"; "committed"])
    (lab_attempts ["committed"; "committed"]) ev 0 1 a b (dedup_key a e r) Hev
    (le_n 1) Ha Hb Hka Hkb) as [_ Hd].
  split; [exact Hev|]. split; [exact Hb|exact Hd].
Defined.

(** ** The capability registry *)

Lemma capability_registry_sealed_witness :
  ∃ v, (capability_resolve lab_registry "partial" "v1").2 = Some v ∧
    is_Some (rg_handler v).
Proof.
  destruct (some_such (capability_resolve lab_registry "partial" "v1").2
    (λ v, rg_enabled v && bool_decide (rg_semantics v = READ_ONLY))) as (v & Hv & He);
    [vm_compute; reflexivity|].
  apply andb_true_iff in He as [He Hs]. apply bool_decide_eq_true in Hs. exists v.
  split; [exact Hv|].
  destruct (capability_registry_sealed lab_registry lab_registry "partial" "v1" v
    lab_registry_run (rtc_refl _ _) Hv) as (_ & Hh & _).
  apply Hh. split; [exact He|exact Hs].
Defined.

(** ** Sessions *)

Lemma session_within_budget_witness :
  Z.of_nat (length (ss_dispatched (lab_run ["committed"; "absent"; "partial"]).2)) ≤ 2.
Proof.
  destruct (session_within_budget lab_envelope lab_registry 7 0 tt lab_config lab_start.2
    (lab_run ["committed"; "absent"; "partial"]).2 lab_registry_wf lab_started
    (probed_steps _ _ _ _ (lab_probed _))) as [Hn _]. exact Hn.
Defined.

Lemma session_audit_contiguous_witness :
  map ar_sequence (lab_audits ["committed"; "absent"; "partial"]) = [1; 2; 3].
Proof.
  destruct (session_audit_contiguous lab_envelope lab_registry 7 0 tt lab_config lab_start.2
    (lab_run ["committed"; "absent"; "partial"]).2
    (lab_run ["committed"; "absent"; "partial"]).1 lab_registry_wf lab_started)
    as (_ & Hs & _); [apply lab_probed|].
  transitivity (one_to (length (lab_run ["committed"; "absent"; "partial"]).1));
    [exact Hs|vm_compute; reflexivity].
Defined.

(** The third probe of a session of two is refused, and ends it. *)
Lemma terminal_outcome_final_witness :
  ∃ x, ar_stop_reason (px_audit x) ∈ TERMINAL_REASONS ∧
    execute lab_config (lab_request "missing") (lab_run ["committed"; "absent"; "partial"]).2
      = (Ok x, (lab_run ["committed"; "absent"; "partial"]).2).
Proof.
  destruct (some_such (last (lab_run ["committed"; "absent"; "partial"]).1)
    (λ rx, inb (ar_stop_reason (px_audit rx.2)) TERMINAL_REASONS)) as ([rq x] & Hl & Ht);
    [vm_compute; reflexivity|].
  apply last_Some in Hl as [xs Hxs]. apply inb_true in Ht. exists x. split; [exact Ht|].
  apply (terminal_outcome_final lab_envelope lab_registry 7 0 tt lab_config lab_start.2
    (lab_run ["committed"; "absent"; "partial"]).2 xs rq x lab_registry_wf lab_started);
    [|exact Ht].
  rewrite <-Hxs. apply lab_probed.
Defined.

Definition lab_pipeline : EvidencePipeline :=
  {| pl_envelope := lab_envelope; pl_registry := (rule_freeze lab_rules).1;
     pl_next_sequence := 1; pl_controller_session := Some 7%nat |}.

(** A probe of the session, with the digest of its request. *)
Lemma lab_probe answers f :
  match (lab_run answers).1 with
  | (rq, x) :: _ => match probe_request_sha256 rq with Ok _ => f rq x | Raise _ => false end
  | [] => false end = true →
  ∃ rq x xs sha, (lab_run answers).1 = (rq, x) :: xs ∧ probe_request_sha256 rq = Ok sha ∧
    f rq x = true.
Proof.
  destruct (lab_run answers).1 as [|[rq x] xs]; [done|].
  destruct (probe_request_sha256 rq) as [sha|] eqn:Hs; [|done]. eauto 10.
Qed.

Lemma execution_integrity_witness :
  ∃ rq x sha o, probe_request_sha256 rq = Ok sha ∧
    integrity_valid lab_pipeline {| run_request := rq; run_execution := x |} sha = true ∧
    observation_intact {| run_request := rq; run_execution := x |} o sha = true.
Proof.
  destruct (lab_probe ["committed"]
    (λ _ x, bool_decide (ar_outcome (px_audit x) = Probe_COMPLETED)))
    as (rq & x & xs & sha & Hr & Hs & Hc); [vm_compute; reflexivity|].
  apply bool_decide_eq_true in Hc.
  destruct (execution_integrity lab_envelope lab_registry 7 0 tt lab_config lab_start.2
    (lab_run ["committed"]).2 (lab_run ["committed"]).1 rq x sha lab_pipeline
    lab_registry_wf lab_started (lab_probed ["committed"])) as [Hi Ho];
    [rewrite Hr; left|exact lab_decoder_faithful|exact Hs|reflexivity|reflexivity|].
  destruct (Ho Hc) as (o & _ & Hok). exists rq, x, sha, o.
  split; [exact Hs|]. split; [exact Hi|exact Hok].
Defined.

(** ** Admission *)

Definition lab_fresh : EvidencePipeline := new_pipeline lab_envelope lab_rules.

Lemma lab_normalized answers (f : EvidenceAttempt → bool) :
  match map run_of (lab_run answers).1 with
  | run :: _ => match (normalize lab_fresh run).2 with Ok a => f a | Raise _ => false end
  | [] => false end = true →
  ∃ run p' a, normalize lab_fresh run = (p', Ok a) ∧ f a = true.
Proof.
  destruct (map run_of (lab_run answers).1) as [|run l]; [done|].
  destruct (normalize lab_fresh run) as [p' [a|]] eqn:Hn; [|done]. cbn. eauto 10.
Qed.

Lemma admission_exact_witness :
  ∃ p run o id e, passes_admission p run o id e.
Proof.
  destruct (lab_normalized ["partial"]
    (λ a, negb (bool_decide (ed_disposition (at_decision a) = REJECTED_EVIDENCE))))
    as (run & p' & a & Hn & Hd); [vm_compute; reflexivity|].
  apply negb_true_iff, bool_decide_eq_false in Hd.
  destruct (admission_exact lab_fresh run p' a) as [[Hpass _] _];
    [apply Z.le_refl|exact Hn|].
  exists p', run. exact (Hpass Hd).
Defined.

Lemma pipeline_answers_witness :
  ∃ run a, normalize lab_fresh run = (advance lab_fresh run, Ok a).
Proof.
  destruct (lab_probe ["absent"] (λ _ x, ar_sequence (px_audit x) =? 1))
    as (rq & x & xs & sha & Hr & Hs & Hq); [vm_compute; reflexivity|].
  apply Z.eqb_eq in Hq. exists (run_of (rq, x)).
  destruct (pipeline_answers lab_fresh (run_of (rq, x))) as (a & Ha & _);
    [vm_compute; reflexivity|apply seal_wf, lab_rules_wf|exact Hq| |cbn [run_request run_of fst]; rewrite Hs; exact I|].
  - destruct (new_controller_ok _ _ _ _ _ _ _ lab_registry_wf lab_started)
      as (_ & _ & _ & Hreg & Hfresh).
    pose proof (session_audits_readable lab_config _ _ _ Hreg Hfresh
      (lab_probed ["absent"])) as Hread.
    rewrite Hr in Hread. apply Forall_cons in Hread as [Hread _]. exact Hread.
  - exists a. exact Ha.
Defined.

(** Arguments nested [n] deep. *)
Fixpoint nested (n : nat) : json :=
  match n with O => JInt 0 | S n => JObj [("a", nested n)] end.

Definition deep_request : ProbeRequest :=
  {| pr_capability_name := "committed"; pr_capability_version := "v1";
     pr_relevant_effect_ids := ["row"]; pr_arguments := [("a", nested 11)];
     pr_rationale := "read the ledger" |}.

(** A request its own contract accepts, but that has no digest. *)
Lemma undigestible_request_raises_witness :
  validate_request deep_request = Ok tt ∧
  ∃ x s' e, execute lab_config deep_request lab_start.2 = (Ok x, s') ∧
    ar_stop_reason (px_audit x) = Stop_INVALID_REQUEST ∧
    (normalize lab_fresh (run_of (deep_request, x))).2 = Raise e.
Proof.
  split; [vm_compute; reflexivity|].
  destruct (probe_request_sha256 deep_request) as [sha|e] eqn:He;
    [exfalso; revert He; vm_compute; discriminate|].
  destruct (execute lab_config deep_request lab_start.2) as [r s'] eqn:Hx.
  assert (match r with
    | Ok x => bool_decide (ar_stop_reason (px_audit x) = Stop_INVALID_REQUEST)
              && (ar_sequence (px_audit x) =? 1)
    | Raise _ => false end = true) as Hr.
  { change r with (r, s').1. rewrite <-Hx. vm_compute. reflexivity. }
  destruct r as [x|]; [|discriminate Hr]. apply andb_true_iff in Hr as [Hr Hq].
  apply bool_decide_eq_true in Hr. apply Z.eqb_eq in Hq.
  exists x, s', e. split; [reflexivity|]. split; [exact Hr|].
  destruct (undigestible_request_raises lab_fresh (run_of (deep_request, x)) e He Hq)
    as [Hn _].
  rewrite Hn. reflexivity.
Defined.

(** ** Investigations *)

Lemma lab_attempts_eq answers g attempts :
  process_all (new_engine lab_envelope lab_rules) (map run_of (lab_run answers).1)
    = (g, Ok attempts) → attempts = lab_attempts answers.
Proof. intros Hp. Transparent lab_attempts. unfold lab_attempts. by rewrite Hp. Qed.

#[local] Opaque lab_attempts.

Lemma investigation_reported_witness :
  ∃ g r retained, report g (lab_audits ["committed"; "missing"]) lab_time lab_time 1 None = Ok r ∧
    report_told lab_envelope (lab_audits ["committed"; "missing"]) retained lab_time lab_time 1 r.
Proof.
  destruct (investigation_reported lab_envelope lab_registry 7 0 tt lab_config lab_start.2
    (lab_run ["committed"; "missing"]).2 (lab_run ["committed"; "missing"]).1 lab_rules
    lab_time lab_time 1 lab_registry_wf lab_rules_wf lab_started
    (lab_probed ["committed"; "missing"])) as (attempts & g & Hp & _ & [_ Hmade] & Htold);
    [apply lab_known; vm_compute; reflexivity|].
  destruct Hmade as (r & Hr).
  - split; [|split; [apply Nat.leb_le; vm_compute; reflexivity|split; [apply Z.le_refl|]]].
    + rewrite (lab_attempts_eq _ _ _ Hp).
      apply (bool_decide_eq_true (NoDup (decision_ids (lab_attempts ["committed"; "missing"])))).
      vm_compute. reflexivity.
    + apply in_range_true. vm_compute. reflexivity.
  - destruct (Htold r Hr) as (retained & _ & Hrt). exists g, r, retained. exact (conj Hr Hrt).
Defined.

Definition lab_outcome (answers : list string) : option Classification :=
  let '(g, r) := process_all (new_engine lab_envelope lab_rules)
    (map run_of (lab_run answers).1) in
  match r with
  | Ok _ => match report g (lab_audits answers) lab_time lab_time 1 None with
            | Ok r => ir_classification r | Raise _ => None end
  | Raise _ => None
  end.

Lemma committed_report_read_witness :
  effect_read lab_envelope lab_rules (lab_run ["committed"]).1 "row" ESTABLISHED.
Proof.
  assert (lab_outcome ["committed"] = Some COMMITTED) as Ho by (vm_compute; reflexivity).
  revert Ho. unfold lab_outcome.
  destruct (process_all _ _) as [g [attempts|]] eqn:Hp; [|intros Ho; discriminate Ho].
  destruct (report _ _ _ _ _ _) as [r|] eqn:Hr; [|intros Ho; discriminate Ho]. intros Hc.
  apply (committed_report_read lab_envelope lab_registry 7 0 tt lab_config lab_start.2
    (lab_run ["committed"]).2 (lab_run ["committed"]).1 lab_rules g attempts
    lab_time lab_time 1 None r (lab_effect "row" "database") lab_registry_wf lab_rules_wf
    lab_started (lab_probed ["committed"])); [| |exact Hp|exact Hr|exact Hc|left].
  - apply lab_known. vm_compute. reflexivity.
  - apply Nat.leb_le. vm_compute. reflexivity.
Defined.

(** ** Fixed plans *)

(** A driver that hears every event, and one that loses its caller at a completed
    probe. *)
Definition lab_driver : Driver unit :=
  {| progress_emitter := Some (λ _ w, (Ok tt, w)); progress_occurred_at := λ w, (lab_time, w);
     cancellation_event := Some (λ w, (false, w)); cancel_controller := λ w, w |}.
Definition lost_driver : Driver unit :=
  {| progress_emitter := Some (λ event w,
       (match event with
        | Progress_probe p => if bool_decide (pg_stage p = ProbeStage_COMPLETED)
            then Raise (Exn_error (RuntimeError "the caller has gone")) else Ok tt
        | _ => Ok tt end, w));
     progress_occurred_at := λ w, (lab_time, w); cancellation_event := None;
     cancel_controller := λ w, w |}.

Definition lab_steps (answers : list string) : list FixedProbeStep :=
  map (λ a, {| fs_request := lab_request a; fs_required := true |}) answers.

(** A plan of three probes that stops at COMMITTED or NOT_COMMITTED. *)
Definition lab_plan : FixedProbePlan :=
  match make_plan "lab-plan" "v1" (lab_steps ["missing"; "committed"; "absent"])
    [COMMITTED; NOT_COMMITTED] with
  | Ok plan => plan
  | Raise _ => {| fp_name := EmptyString; fp_version := EmptyString; fp_steps := [];
                  fp_sufficient_classifications := []; fp_sha256 := EmptyString |}
  end.

Lemma lab_made answers :
  forallb (λ a, is_ok (validate_request (lab_request a))) answers = true →
  Forall (λ step, ∃ request required, make_step request required = Ok step)
    (lab_steps answers).
Proof.
  rewrite forallb_forall. intros Hok. apply Forall_map, Forall_forall. intros a Ha.
  exists (lab_request a), true. apply list_elem_of_In, Hok in Ha. unfold make_step.
  by destruct (validate_request (lab_request a)) as [[]|].
Qed.

Lemma lab_sealed : sealed_plan lab_plan.
Proof.
  exists "lab-plan", "v1", (lab_steps ["missing"; "committed"; "absent"]),
    [COMMITTED; NOT_COMMITTED].
  split; [vm_compute; reflexivity|]. apply lab_made. vm_compute. reflexivity.
Qed.

Lemma lab_effects : effects_identified lab_envelope.
Proof. repeat constructor. Qed.

Definition run_plan (dr : Driver unit) : result exn FixedBaselineResult * session unit :=
  execute_fixed_plan (dr := dr) lab_envelope lab_registry lab_rules lab_plan 1 [] 0 7 tt.

Definition plan_summary (r : result exn FixedBaselineResult)
  : option (FixedBaselineStopReason * Z * option Z * option Classification) :=
  match r with
  | Ok result => Some (fb_stop_reason result, fb_attempted_probe_count result,
      fb_sufficient_probe_sequence result, ir_classification (fb_report result))
  | Raise _ => None
  end.

Example lab_plan_result :
  plan_summary (run_plan lab_driver).1
  = Some (Fixed_SUFFICIENT_EVIDENCE, 2, Some 2, Some COMMITTED).
Proof. vm_compute. reflexivity. Qed.

Lemma fixed_plan_answers_witness :
  ∃ result s cfg s0 ys step x retained,
    run_plan lab_driver = (Ok result, s) ∧
    fb_stop_reason result = Fixed_SUFFICIENT_EVIDENCE ∧
    plan_answer cfg s0 lab_rules lab_plan 1 [] s ys step x retained result.
Proof.
  pose proof lab_plan_result as Hsum.
  destruct (run_plan lab_driver) as [[result|e] s] eqn:Hrun; [|discriminate Hsum].
  cbn [fst plan_summary] in Hsum. injection Hsum as Hreason _ _ _.
  destruct (fixed_plan_answers (dr := lab_driver) lab_envelope lab_registry lab_rules lab_plan
    1 [] 0 7 tt result s lab_registry_wf lab_rules_wf lab_sealed lab_effects Hrun)
    as (cfg & s0 & ys & step & x & retained & _ & Hans).
  exists result, s, cfg, s0, ys, step, x, retained.
  split; [reflexivity|]. split; [exact Hreason|exact Hans].
Defined.

Example lost_plan_result : is_ok (run_plan lost_driver).1 = false.
Proof. vm_compute. reflexivity. Qed.

Lemma fixed_plan_failures_witness :
  ∃ e s, run_plan lost_driver = (Raise e, s) ∧
    ((∃ err, e = Exn_error err ∧
        ((1 < 0 ∧ err = ValueError "report revision must be a nonnegative integer")
         ∨ check_limitations [] = Raise err ∨ validate_ExecutionEnvelope lab_envelope = Raise err)) ∨
     (∃ s0, new_controller (H := string) lab_envelope lab_registry 7 0 tt = (Raise e, s0)) ∨
     ∃ cfg s0, new_controller lab_envelope lab_registry 7 0 tt = (Ok cfg, s0) ∧
       plan_fails (dr := lost_driver) cfg s0 lab_rules lab_plan 1 [] e).
Proof.
  pose proof lost_plan_result as Hfail.
  destruct (run_plan lost_driver) as [[result|e] s] eqn:Hrun; [discriminate Hfail|].
  exists e, s. split; [reflexivity|].
  exact (fixed_plan_failures (dr := lost_driver) lab_envelope lab_registry lab_rules lab_plan
    1 [] 0 7 tt e s lab_registry_wf lab_rules_wf lab_sealed lab_effects Hrun).
Defined.

(** ** An adaptive investigation of the laboratory *)

(** A planner that proposes one probe at first and three from then on, and explains
    with the evidence it is told was admitted. *)
Definition lab_metadata_given : AdvisoryPlannerMetadata :=
  {| md_provider_name := "lab"; md_configured_model := "lab-model"; md_reported_model := None;
     md_reported_model_raw_sha256 := None; md_adk_version := "1"; md_genai_version := "1";
     md_prompt_version := "v1"; md_prompt_sha256 := sha256_hex EmptyString;
     md_input_schema_version := ADAPTIVE_PLANNER_INPUT_VERSION;
     md_output_schema_version := ADAPTIVE_PLANNER_OUTPUT_VERSION |}.
Definition lab_metadata : AdvisoryPlannerMetadata :=
  match make_metadata lab_metadata_given with Ok m => m | Raise _ => lab_metadata_given end.
Definition lab_usage : AdvisoryPlannerUsage :=
  {| au_prompt_tokens := 90; au_output_tokens := 10; au_total_tokens := 100 |}.

Definition lab_advice (answers cited missing : list string) : AdaptivePlannerOutput :=
  {| apo_probe_proposals := map lab_request answers; apo_acquisition_summary := "Read the order.";
     apo_stop_advice := {| psa_recommend_stop := false; psa_reason := "More is needed." |};
     apo_missing_evidence_notes := [];
     apo_explanation :=
       {| pex_summary := "What was read.";
          pex_admitted_evidence :=
            if bool_decide (cited = []) then None else Some "The order was read.";
          pex_weak_evidence := None; pex_rejected_evidence := None;
          pex_missing_evidence :=
            if bool_decide (missing = []) then None else Some "The order is not known.";
          pex_citations := {| pcr_admitted_evidence_ids := cited; pcr_weak_evidence_ids := [];
            pcr_rejected_evidence_ids := []; pcr_missing_effect_ids := missing |} |} |}.

Definition lab_turn (planner_input : AdaptivePlannerInput) (output : AdaptivePlannerOutput)
  : option planner_turn :=
  match validate_output output with
  | Raise _ => None
  | Ok _ =>
      match make_turn (Some output) None lab_metadata (sha256_hex (canonical_json_bytes planner_input))
        (Some (sha256_hex (canonical_json_bytes output))) (Some lab_usage) with
      | Ok turn => Some turn | Raise _ => None end
  end.

(** The probes the planner proposes. *)
Definition lab_answers_to_try (phase : AdaptivePlannerPhase) (prior : list string) : list string :=
  match phase, prior with
  | EXPLAIN_EVIDENCE, _ => []
  | ACQUIRE_EVIDENCE, [] => ["missing"]
  | ACQUIRE_EVIDENCE, _ => ["missing"; "running"; "committed"]
  end.

Definition lab_planner : Planner unit :=
  {| planner_metadata := Some lab_metadata;
     plan_first := λ planner_input _ w,
       (Plan_returned (lab_turn planner_input
          (lab_advice
             (lab_answers_to_try (api_phase planner_input) (api_prior_executable_request_hashes planner_input))
             (map pae_evidence_id (api_admitted_evidence planner_input))
             (map pme_effect_id (api_missing_evidence planner_input)))), w) |}.

Definition lab_policy : AdaptiveInvestigationPolicy :=
  match make_policy "lab-policy" "v1" [COMMITTED; NOT_COMMITTED] [] 4 1000 true with
  | Ok policy => policy
  | Raise _ => {| aip_name := EmptyString; aip_version := EmptyString;
      aip_sufficient_classifications := []; aip_required_capabilities := [];
      aip_max_turns := 0; aip_planner_timeout_ms := 0; aip_include_explanation := false;
      aip_sha256 := EmptyString |}
  end.

Definition run_adaptive (dr : Driver unit) : result exn AdaptiveInvestigationResult * session unit :=
  execute_adaptive_investigation (dr := dr) (pn := lab_planner) lab_envelope lab_registry lab_rules
    lab_policy 1 ["Laboratory run."] 7 tt.

Definition adaptive_summary (r : result exn AdaptiveInvestigationResult) :=
  match r with
  | Ok result => Some (air_stop_reason result, air_attempted_probe_count result,
      air_model_invocation_count result, air_duplicate_proposal_count result,
      air_sufficient_probe_sequence result, air_explanation_valid result,
      ir_classification (air_report result))
  | Raise e => None
  end.

Example lab_adaptive_result :
  adaptive_summary (run_adaptive lab_driver).1
  = Some (Adaptive_SUFFICIENT_EVIDENCE, 2, 3, 1, Some 2, Some true, Some COMMITTED).
Proof. vm_compute. reflexivity. Qed.

Lemma lab_answers_identified phase prior :
  Forall request_identified (map lab_request (lab_answers_to_try phase prior)).
Proof. destruct phase, prior; repeat constructor. Qed.

Lemma lab_metadata_made : metadata_ok lab_metadata.
Proof. exists lab_metadata_given. vm_compute. reflexivity. Qed.

Lemma lab_usage_made : make_usage lab_usage = Ok lab_usage.
Proof. vm_compute. reflexivity. Qed.

Lemma lab_turn_made planner_input output turn :
  Forall request_identified (apo_probe_proposals output) →
  lab_turn planner_input output = Some turn → turn_made turn.
Proof.
  intros Hid Hturn. unfold lab_turn in Hturn.
  destruct (validate_output output) as [[]|] eqn:Hv; [|discriminate Hturn].
  destruct (make_turn (Some output) None lab_metadata _ _ _) as [t|] eqn:Hm; [|discriminate Hturn].
  assert (t = turn) as -> by congruence.
  eexists _, _, _, _, _, _. split; [exact Hm|]. split_and!.
  - intros o Ho. assert (output = o) as <- by congruence. done.
  - exact lab_metadata_made.
  - intros u Hu. assert (lab_usage = u) as <- by congruence. exact lab_usage_made.
Qed.

Lemma returned_turn {W} (t turn : option planner_turn) (w w' : W) :
  (Plan_returned t, w) = (Plan_returned turn, w') → t = turn.
Proof. congruence. Qed.

Lemma lab_planner_laws : PlannerLaws (pn := lab_planner).
Proof.
  split.
  - intros planner_input timeout_ms w turn w' Hplan. apply returned_turn in Hplan.
    revert Hplan. apply lab_turn_made, lab_answers_identified.
  - intros m Hm. change (Some lab_metadata = Some m) in Hm.
    assert (lab_metadata = m) as <- by congruence. exact lab_metadata_made.
Qed.

Lemma lab_policy_sealed : sealed_policy lab_policy.
Proof.
  exists "lab-policy", "v1", [COMMITTED; NOT_COMMITTED], [], 4, 1000, true.
  vm_compute. reflexivity.
Qed.

Lemma lab_policies : policies_identified lab_envelope.
Proof. split_and!; vm_compute; reflexivity. Qed.

Lemma adaptive_answers_witness :
  ∃ result s ax s0 xs retained,
    run_adaptive lab_driver = (Ok result, s) ∧
    air_stop_reason result = Adaptive_SUFFICIENT_EVIDENCE ∧ length xs = 2%nat ∧
    adaptive_answer (dr := lab_driver) (pn := lab_planner) ax s0 lab_rules 1 ["Laboratory run."]
      [] s xs retained result.
Proof.
  pose proof lab_adaptive_result as Hsum.
  destruct (run_adaptive lab_driver) as [[result|e] s] eqn:Hrun; [|discriminate Hsum].
  cbn [fst adaptive_summary] in Hsum. injection Hsum as Hreason Hcount _ _ _ _ _.
  destruct (adaptive_answers (dr := lab_driver) (pn := lab_planner) (pl := lab_planner_laws)
    lab_envelope lab_registry lab_rules lab_policy 1 ["Laboratory run."] None 7 tt result s
    lab_registry_wf lab_rules_wf lab_policy_sealed lab_effects lab_policies Hrun)
    as (ax & s0 & boot & xs & retained & _ & Hboot & Hans).
  assert (boot = []) as -> by (by destruct Hboot as [->|[-> _]]).
  destruct (aa_measured _ _ _ _ _ _ _ _ _ _ Hans) as (Hlen & _).
  exists result, s, ax, s0, xs, retained.
  split; [reflexivity|]. split; [exact Hreason|]. split; [lia|exact Hans].
Defined.

Example lost_adaptive_result : is_ok (run_adaptive lost_driver).1 = false.
Proof. vm_compute. reflexivity. Qed.

Lemma adaptive_failures_witness :
  ∃ e s, run_adaptive lost_driver = (Raise e, s) ∧
    ((∃ err, e = Exn_error err ∧
       (check_arguments (pn := lab_planner) lab_envelope lab_policy 1 ["Laboratory run."] None
          = Raise err ∨
        catalog_for lab_envelope lab_registry None = Raise err ∨
        ∃ request, None = Some request ∧ probe_request_sha256 request = Raise err)) ∨
     (∃ w' s0, new_controller (H := string) lab_envelope lab_registry 7 0 w' = (Raise e, s0)) ∨
     ∃ ax s0, set_up (pn := lab_planner) lab_envelope lab_registry lab_policy 1
         ["Laboratory run."] None 7 tt ax s0 ∧
       adaptive_fails (dr := lost_driver) (pn := lab_planner) ax s0 lab_rules 1
         ["Laboratory run."] e).
Proof.
  pose proof lost_adaptive_result as Hfail.
  destruct (run_adaptive lost_driver) as [[result|e] s] eqn:Hrun; [discriminate Hfail|].
  exists e, s. split; [reflexivity|].
  exact (adaptive_failures (dr := lost_driver) (pn := lab_planner) (pl := lab_planner_laws)
    lab_envelope lab_registry lab_rules lab_policy 1 ["Laboratory run."] None 7 tt e s
    lab_registry_wf lab_rules_wf lab_policy_sealed lab_effects lab_policies Hrun).
Defined.

(** The second turn of that run: a duplicate and two proposals that cost the same. *)
Definition lab_digest (answer : string) : string :=
  match probe_request_sha256 (lab_request answer) with Ok d => d | Raise _ => EmptyString end.
Definition lab_selection : selection_context string :=
  {| sx_catalog := match _catalog lab_envelope lab_registry with
       | Ok (entries, _, _) => entries | Raise _ => [] end;
     sx_remaining := {| pb_probes := 5; pb_elapsed_ms := 1000; pb_result_bytes := 1000;
                        pb_cost_units := 5; pb_deadline_at := lab_time |};
     sx_selected_counts := []; sx_expected_effect_ids := expected_effect_ids lab_envelope;
     sx_correlation_fields := correlation_fields (en_context lab_envelope);
     sx_prior_request_hashes := [lab_digest "missing"] |}.
Definition lab_proposals : list ProbeRequest := map lab_request ["missing"; "running"; "committed"].

Example lab_selection_result :
  match _select_proposal lab_selection lab_proposals with
  | Ok sel => (is_some (sel_request sel), map pl_disposition (sel_records sel))
  | Raise _ => (false, [])
  end = (true, [Proposal_DUPLICATE; Proposal_DEFERRED; Proposal_SELECTED]).
Proof. vm_compute. reflexivity. Qed.

Lemma selection_sound_witness :
  ∃ sel request, _select_proposal lab_selection lab_proposals = Ok sel ∧
    sel_request sel = Some request ∧
    selected_from lab_selection lab_proposals request (sel_records sel).
Proof.
  pose proof lab_selection_result as Hres.
  destruct (_select_proposal lab_selection lab_proposals) as [sel|] eqn:Hsel; [|discriminate Hres].
  destruct (selection_sound lab_selection lab_proposals sel Hsel) as [_ Hsound].
  destruct (sel_request sel) as [request|] eqn:Hreq; [|discriminate Hres].
  exists sel, request. split; [reflexivity|]. split; [exact Hreq|exact Hsound].
Defined.
