(* ===== verification/RecoveryWitnesses.v ===== *)
(** A concrete release - a chain that stages a Cloud Run revision, promotes it and
    records the release, with finished investigations of its nodes - and the
    witnesses of the recovery properties at it. *)

From S2P Require Export Samples RecoveryProperties RecoveryConflicts Witnesses.

#[local] Open Scope Z_scope.

(** ** The chain *)

Definition lab_release : string := "release-7".
Definition lab_revision : string :=
  match deterministic_stage_revision "checkout" lab_release with
  | Ok revision_ => revision_ | Raise _ => "" end.

Definition lab_service : TargetBinding :=
  {| tb_target_kind := CLOUD_RUN_SERVICE_TARGET_KIND;
     tb_scope := [("project", JStr "project-1"); ("location", JStr "us-central1")];
     tb_resource := [("service", JStr "checkout")] |}.
Definition lab_document : TargetBinding :=
  {| tb_target_kind := FIRESTORE_DOCUMENT_TARGET_KIND;
     tb_scope := [("project", JStr "project-1"); ("database", JStr "releases")];
     tb_resource := [("document", JStr "releases/release-7")] |}.

Definition lab_image : string := "sha256:" +:+ sha256_hex "image".
Definition lab_payload : string := sha256_hex "payload".

Definition stage_arguments : json_object :=
  [("release_id", JStr lab_release); ("image_digest", JStr lab_image);
   ("configuration_sha256", JStr (sha256_hex "configuration"))].
Definition promote_arguments : json_object :=
  [("release_id", JStr lab_release); ("revision", JStr lab_revision); ("percent", JInt 100)].
Definition record_arguments : json_object :=
  [("release_id", JStr lab_release); ("payload_sha256", JStr lab_payload)].

Definition release_effect (scope : string) (predicate : json_object) : ExpectedEffect :=
  {| ee_effect_id := scope; ee_commit_scope := scope; ee_predicate := predicate;
     ee_description := "expected release effect" |}.

Definition stage_effects : list ExpectedEffect :=
  match stage_predicates lab_release lab_revision stage_arguments with
  | Ok l => map (λ p, release_effect p.1 p.2) l | Raise _ => [] end.
Definition promote_effects : list ExpectedEffect :=
  [release_effect PROMOTION_TRAFFIC_EFFECT_SCOPE
     [("release_id", JStr lab_release); ("revision", JStr lab_revision);
      ("percent", JInt 100)]].
Definition record_effects : list ExpectedEffect :=
  [release_effect FIRESTORE_RECORD_EFFECT_SCOPE record_arguments].

Definition release_envelope (name : string) (profile : RecoveryActionProfile)
  (target : TargetBinding) (arguments : json_object) (effects : list ExpectedEffect)
  : ExecutionEnvelope :=
  {| en_investigation_id := "investigation-" +:+ name;
     en_operation_id := "operation-" +:+ name; en_target := target;
     en_invoked_at := lab_time - 60 * second_us;
     en_ambiguity := {| ae_kind := TIMEOUT; ae_observed_at := lab_time - 30 * second_us;
                        ae_detail := None |};
     en_expected_effects := effects;
     en_context :=
       {| ec_invocation := {| oi_invocation_id := "call-" +:+ name; oi_function_call_id := None;
            oi_tool_name := rp_tool_name profile; oi_tool_version := rp_tool_version profile;
            oi_arguments := arguments;
            oi_arguments_sha256 := sha256_hex (dumps (JObj arguments)) |};
          enabled_capabilities :=
            map (λ c, {| cr_name := rcap_name c; cr_version := rcap_version c |})
              (rp_evidence_capabilities profile);
          correlation_fields := [("release_id", lab_release)];
          evidence_budget := {| max_probes := 4; max_elapsed_ms := 60000;
            max_total_result_bytes := 100000; max_cost_units := 10 |};
          ec_freshness := {| max_age_seconds := 600; clock_skew_seconds := 2 |};
          policies := {| pr_authority := "authority-v1";
            pr_classification := "classification-v1"; pr_action := "action-v1" |} |} |}.

Definition release_action (profile : RecoveryActionProfile) (target : TargetBinding)
  (arguments : json_object) (effects : list ExpectedEffect) : SemanticActionIdentity :=
  let digests := map canonical_sha256 effects in
  {| sa_key_version := "semantic-action-v1"; sa_tool_name := rp_tool_name profile;
     sa_tool_version := rp_tool_version profile; sa_semantic_arguments := arguments;
     sa_target := target; sa_expected_effect_sha256s := digests;
     sa_action_profile_version := rp_profile_version profile;
     sa_semantic_action_sha256 :=
       match semantic_action_sha256 "semantic-action-v1" (rp_tool_name profile)
               (rp_tool_version profile) arguments target digests
               (rp_profile_version profile) with
       | Ok digest => digest | Raise _ => "" end |}.

Definition release_node (name : string) (profile : RecoveryActionProfile)
  (target : TargetBinding) (arguments : json_object) (effects : list ExpectedEffect)
  (depends_on : list string) : RecoveryActionNode :=
  let envelope := release_envelope name profile target arguments effects in
  {| rn_node_id := name; rn_chain_profile_version := RECOVERY_CHAIN_PROFILE_VERSION;
     rn_semantic_action := release_action profile target arguments effects;
     rn_depends_on := depends_on;
     rn_envelope := {| er_investigation_id := en_investigation_id envelope;
                       er_operation_id := en_operation_id envelope;
                       er_envelope_sha256 := canonical_sha256 envelope |} |}.

Definition promote_envelope : ExecutionEnvelope :=
  release_envelope "promote" PROMOTE_CLOUD_RUN_TRAFFIC_PROFILE lab_service promote_arguments
    promote_effects.
Definition record_envelope : ExecutionEnvelope :=
  release_envelope "record" CREATE_FIRESTORE_RELEASE_RECORD_PROFILE lab_document
    record_arguments record_effects.

Definition lab_chain : RecoveryChain :=
  {| rc_chain_id := "chain-1"; rc_chain_profile_version := RECOVERY_CHAIN_PROFILE_VERSION;
     rc_nodes :=
       [release_node "stage" STAGE_CLOUD_RUN_REVISION_PROFILE lab_service stage_arguments
          stage_effects [];
        release_node "promote" PROMOTE_CLOUD_RUN_TRAFFIC_PROFILE lab_service
          promote_arguments promote_effects ["stage"];
        release_node "record" CREATE_FIRESTORE_RELEASE_RECORD_PROFILE lab_document
          record_arguments record_effects ["promote"]];
     rc_created_at := lab_time - 120 * second_us |}.

(** ** Finished investigations *)

(** The controller's record of a completed probe and the attempt made of it. *)
Definition release_audit (envelope : ExecutionEnvelope)
  (item : Z * (NormalizedEvidence * EvidenceReason)) : ControllerAuditRecord :=
  let '(sequence, (evidence, _)) := item in
  {| ar_sequence := sequence; ar_capability_name := Some (ne_capability_name evidence);
     ar_capability_version := Some (ne_capability_version evidence); ar_request_sha256 := Some (sha256_hex "request");
     ar_target_sha256 := canonical_sha256 (en_target envelope);
     ar_outcome := Probe_COMPLETED; ar_stop_reason := Stop_PROBE_COMPLETED;
     ar_started_at := lab_time; ar_completed_at := lab_time; ar_session_elapsed_ms := 0;
     ar_probe_count_used := sequence; ar_cost_units_used := sequence;
     ar_result_bytes_acquired := 10 * sequence; ar_result_sha256 := Some (ro_sha256 (ne_raw_observation evidence));
     ar_result_byte_count := Some 10 |}.

Definition release_attempt (envelope : ExecutionEnvelope)
  (item : Z * (NormalizedEvidence * EvidenceReason)) : EvidenceAttempt :=
  let '(sequence, (evidence, reason)) := item in
  {| at_envelope_sha256 := canonical_sha256 envelope;
     at_controller_audit_sha256 := canonical_sha256 (release_audit envelope item);
     at_request_sha256 := Some (sha256_hex "request"); at_probe_sequence := sequence;
     at_raw_sha256 := Some (ro_sha256 (ne_raw_observation evidence));
     at_evidence := Some evidence;
     at_decision := {| ed_evidence_id := ne_evidence_id evidence; ed_disposition := ADMITTED;
                       ed_reason := reason |} |}.

Definition release_evidence (id : string) (capability : RecoveryCapability)
  (source adapter record : string) (target : TargetBinding)
  (correlation : list (string * string)) (assertions : list EffectAssertion)
  (status : option OperationStatus) : NormalizedEvidence :=
  {| ne_evidence_id := id; ne_capability_name := rcap_name capability;
     ne_capability_version := rcap_version capability; ne_target := target;
     ne_provenance := {| ep_source := source; ep_source_record := record;
       ep_adapter_version := adapter; ep_retrieved_at := lab_time |};
     ne_observed_at := lab_time;
     ne_freshness := {| valid_from := lab_time; valid_until := lab_time + 600 * second_us |};
     ne_correlation := correlation; ne_authority := TARGET_STATE;
     ne_authority_policy_version := "authority-v1"; ne_effect_assertions := assertions;
     ne_operation_status := status;
     ne_raw_observation := {| ro_sha256 := sha256_hex id;
       ro_reference := "observation:" +:+ id; ro_byte_count := 10 |} |}.

(** A reading of the service with the given traffic share on the revision. *)
Definition service_reading (id percent : string) (state : EffectAssertionState)
  : NormalizedEvidence * EvidenceReason :=
  (release_evidence id SERVICE_GET "google-cloud-run-v2" "reconcile-cloud-run-v2-v1"
     "projects/project-1/locations/us-central1/services/checkout" lab_service
     [("observation_schema", "cloud-run-service-observation-v1"); ("release_id", lab_release);
      ("revision", lab_revision); ("service_etag", "etag-" +:+ percent); ("generation", "4");
      ("observed_generation", "4"); ("reconciling", "false");
      ("terminal_condition", "SUCCEEDED"); ("revision_traffic_percent", percent)]
     [{| ea_effect_id := PROMOTION_TRAFFIC_EFFECT_SCOPE; ea_state := state |}] None,
   AUTHORITATIVE_EXACT_CORRELATION).

(** A receipt that the record's call never reached the provider. *)
Definition suppressed_receipt : NormalizedEvidence * EvidenceReason :=
  (release_evidence "evidence:receipt" DISPATCH_RECEIPT_GET "reconcile-dispatcher"
     "reconcile-dispatch-receipt-v1" "dispatch-receipts/receipt-1" lab_document
     [("observation_schema", "dispatch-receipt-observation-v1"); ("release_id", lab_release);
      ("semantic_action_sha256", sa_semantic_action_sha256
         (release_action CREATE_FIRESTORE_RELEASE_RECORD_PROFILE lab_document
            record_arguments record_effects));
      ("receipt_id", "receipt-1"); ("provider_contact", "false");
      ("outcome", "SUPPRESSED_BEFORE_DISPATCH")]
     [{| ea_effect_id := FIRESTORE_RECORD_EFFECT_SCOPE; ea_state := NOT_ESTABLISHED |}]
     (Some TERMINAL_NOT_COMMITTED),
   AUTHORITATIVE_AFFIRMATIVE_NON_EXECUTION).

Definition numbered {A} (l : list A) : list (Z * A) := zip (one_to (length l)) l.

(** Classify, report and verify one node's investigation. *)
Definition release_evaluation (envelope : ExecutionEnvelope)
  (readings : list (NormalizedEvidence * EvidenceReason)) : result py_error CoreEvaluation :=
  evaluate_evidence envelope (map (release_attempt envelope) (numbered readings))
    (map (release_audit envelope) (numbered readings)).

Definition release_report (envelope : ExecutionEnvelope) 
  (readings : list (NormalizedEvidence * EvidenceReason)) (evaluation : CoreEvaluation)
  : result py_error InvestigationReport :=
  build_report envelope (map (release_audit envelope) (numbered readings)) evaluation
    lab_time lab_time 1 None.

Definition verify_release (node_id : string) (envelope : ExecutionEnvelope)
  (readings : list (NormalizedEvidence * EvidenceReason))
  (successor_envelope : option ExecutionEnvelope)
  : result recovery_error (CoreEvaluation * InvestigationReport * RecoveryVerificationResult) :=
  evaluation ← contract (release_evaluation envelope readings);
  report ← contract (release_report envelope readings evaluation);
  verified ← verify_recovery lab_chain node_id envelope report evaluation
    (lab_time + second_us) successor_envelope;
  Ok (evaluation, report, verified).

Lemma verify_release_inv node_id envelope readings successor_envelope x y z :
  verify_release node_id envelope readings successor_envelope = Ok (x, y, z) →
  verify_recovery lab_chain node_id envelope y x (lab_time + second_us) successor_envelope
    = Ok z.
Proof.
  unfold verify_release.
  intros (evaluation & _ & (report & _ & (verified & Hv & H)%bind_ok)%bind_ok)%bind_ok.
  injection H as <- <- <-. exact Hv.
Qed.

Definition is_certified (action : PermitAction)
  (v : CoreEvaluation * InvestigationReport * RecoveryVerificationResult) : bool :=
  match v.2 with
  | CertificateResult c =>
      bool_decide (option_map ct_action (vc_transition c) = Some action)
  | WitnessResult _ => false
  end.

Definition is_witnessed
  (v : CoreEvaluation * InvestigationReport * RecoveryVerificationResult) : bool :=
  match v.2 with
  | CertificateResult _ => false
  | WitnessResult w => dp_conflicting_authority (ce_proof v.1.1)
  end.

(** The promotion that took all traffic, and the record that never left. *)
Definition promoted : list (NormalizedEvidence * EvidenceReason) :=
  [service_reading "evidence:1" "100" ESTABLISHED].
Definition unrecorded : list (NormalizedEvidence * EvidenceReason) := [suppressed_receipt].
Definition contradicted : list (NormalizedEvidence * EvidenceReason) :=
  [service_reading "evidence:1" "100" ESTABLISHED;
   service_reading "evidence:2" "0" NOT_ESTABLISHED].

Lemma certified_release action node_id envelope readings successor_envelope :
  match verify_release node_id envelope readings successor_envelope with
  | Ok v => is_certified action v | Raise _ => false end = true →
  ∃ ev report c t,
    verify_recovery lab_chain node_id envelope report ev (lab_time + second_us)
      successor_envelope = Ok (CertificateResult c) ∧
    vc_transition c = Some t ∧ ct_action t = action.
Proof.
  intros ([[ev report] v] & Hv & Hc)%ok_such. apply verify_release_inv in Hv.
  unfold is_certified in Hc. cbn [snd] in Hc. destruct v as [c|]; [|discriminate Hc].
  destruct (vc_transition c) as [t|] eqn:Ht; apply bool_decide_eq_true in Hc;
    [|discriminate Hc].
  injection Hc as Ha. exists ev, report, c, t.
  split; [exact Hv|]. split; [exact Ht|exact Ha].
Qed.

#[local] Opaque verify_recovery lab_chain promote_envelope record_envelope promoted
  unrecorded contradicted.

Lemma certificate_sound_witness :
  ∃ ev report c, verify_recovery lab_chain "promote" promote_envelope report ev
      (lab_time + second_us) (Some record_envelope) = Ok (CertificateResult c) ∧
    ir_classification report = Some (vc_classification c) ∧
    dp_conflicting_authority (ce_proof ev) = false.
Proof.
  destruct (certified_release CONTINUE "promote" promote_envelope promoted
    (Some record_envelope)) as (ev & report & c & t & Hv & _); [vm_compute; reflexivity|].
  exists ev, report, c. split; [exact Hv|].
  destruct (certificate_sound lab_chain "promote" promote_envelope report ev
    (lab_time + second_us) (Some record_envelope) c Hv) as (_ & _ & _ & _ & Hr & _ & Hc & _).
  split; [exact Hr|exact Hc].
Defined.

Lemma retry_certified_witness :
  ∃ ev, ce_classification ev = NOT_COMMITTED ∧
    ∃ admitted, RecoveryVerification.admitted_evidence record_envelope ev = Ok admitted ∧
      admitted ≠ [] ∧
      Forall (effect_settled admitted NOT_ESTABLISHED) (en_expected_effects record_envelope).
Proof.
  destruct (certified_release RETRY "record" record_envelope unrecorded None)
    as (ev & report & c & t & Hv & Ht & Ha); [vm_compute; reflexivity|].
  destruct (retry_certified lab_chain "record" record_envelope report ev
    (lab_time + second_us) None c t Hv Ht Ha)
    as (node & admitted & _ & _ & _ & _ & _ & _ & Hcl & Hadm & Hne & _ & He).
  exists ev. split; [exact Hcl|]. exists admitted. split; [exact Hadm|].
  split; [exact Hne|exact He].
Defined.

Lemma continue_certified_witness :
  ∃ ev admitted, ce_classification ev = COMMITTED ∧
    Forall (effect_settled admitted ESTABLISHED) (en_expected_effects promote_envelope).
Proof.
  destruct (certified_release CONTINUE "promote" promote_envelope promoted
    (Some record_envelope)) as (ev & report & c & t & Hv & Ht & Ha);
    [vm_compute; reflexivity|].
  destruct (continue_certified lab_chain "promote" promote_envelope report ev
    (lab_time + second_us) (Some record_envelope) c t Hv Ht Ha)
    as (node & profile & admitted & supporting & env & target & tp &
        _ & _ & _ & Hcl & _ & _ & He & _).
  exists ev, admitted. split; [exact Hcl|exact He].
Defined.

Lemma witness_ambiguous_witness :
  ∃ w h k a b, aw_possible_histories w = [h; k] ∧ ph_history_id h ≠ ph_history_id k ∧
    a ≠ b ∧ aw_conflicting_evidence_ids w = [a; b].
Proof.
  destruct (ok_such (verify_release "promote" promote_envelope contradicted
    (Some record_envelope)) is_witnessed) as ([[ev report] v] & Hv & Hw);
    [vm_compute; reflexivity|].
  apply verify_release_inv in Hv. unfold is_witnessed in Hw. cbn [fst snd] in Hw.
  destruct v as [c|w]; [discriminate Hw|].
  destruct (witness_ambiguous lab_chain "promote" promote_envelope report ev
    (lab_time + second_us) (Some record_envelope) w Hv)
    as (admitted & h & k & _ & Hh & Hid & _ & _ & _ & Hc).
  destruct (Hc Hw) as (a & b & Hab & Hcf & _).
  exists w, h, k, a, b. split_and!; [exact Hh|exact Hid|exact Hab|exact Hcf].
Defined.

#[local] Opaque lab_attempts lab_audits.

Lemma conflict_exact_witness :
  ∃ ev admitted, lab_evaluation ["committed"; "absent"] = Ok ev ∧
    RecoveryVerification.admitted_evidence lab_envelope ev = Ok admitted ∧
    generic_conflict_pairs ev admitted ≠ [].
Proof.
  destruct (ok_such (lab_evaluation ["committed"; "absent"]) (λ ev,
    dp_conflicting_authority (ce_proof ev)
    && match RecoveryVerification.admitted_evidence lab_envelope ev with
       | Ok _ => true | Raise _ => false end)) as (ev & Hev & Hc); [vm_compute; reflexivity|].
  apply andb_true_iff in Hc as [Hc Had].
  destruct (RecoveryVerification.admitted_evidence lab_envelope ev) as [admitted|] eqn:Hadm;
    [|discriminate Had].
  exists ev, admitted. split; [exact Hev|]. split; [exact Hadm|].
  destruct (conflict_exact lab_envelope (lab_audits ["committed"; "absent"])
    (lab_attempts ["committed"; "absent"]) ev admitted) as [Hiff _]; [|exact Hev|exact Hadm|].
  - apply lab_valid. vm_compute. reflexivity.
  - apply Hiff, Hc.
Defined.
