(* ===== verification/Proc.v ===== *)
(** Asynchronous procedures: what an [async def] of the hosted services is.

    A procedure returns, raises, or awaits one operation of its environment and
    continues with the response.  [catch] is [try ... except].  Many procedures
    run against one environment: a step of the [pool] lets one of them perform
    its next operation, or lets the environment act by itself, so every
    interleaving of the awaits is a run.

    [wp] is what a procedure guarantees whatever the others do: each operation
    it performs keeps the invariant of the environment, given knowledge that
    only grows; [pool_adequate] is that this holds of every reachable pool. *)

From S2P Require Export Prelude.

Section proc.
Context {E : Type → Type} {X : Type}.

Inductive proc (A : Type) : Type :=
  | Done (r : result X A)
  | Call (R : Type) (op : E R) (k : R → proc A).

End proc.
Arguments proc E X A : clear implicits.
Arguments Done {E X A} r.
Arguments Call {E X A R} op k.

Section monad.
Context {E : Type → Type} {X : Type}.

#[export] Instance proc_ret : MRet (proc E X) := λ A a, Done (Ok a).

Fixpoint proc_bind_rec {A B} (f : A → proc E X B) (m : proc E X A) : proc E X B :=
  match m with
  | Done (Ok a) => f a
  | Done (Raise e) => Done (Raise e)
  | Call op k => Call op (λ r, proc_bind_rec f (k r))
  end.
#[export] Instance proc_bind : MBind (proc E X) := λ A B, proc_bind_rec.

(** [try: m except error: handler(error)] *)
Fixpoint catch {A} (m : proc E X A) (handler : X → proc E X A) : proc E X A :=
  match m with
  | Done (Ok a) => Done (Ok a)
  | Done (Raise e) => handler e
  | Call op k => Call op (λ r, catch (k r) handler)
  end.

(** [raise error], a computation without awaits, and one await. *)
Definition raise {A} (e : X) : proc E X A := Done (Raise e).
Definition lift {A} (r : result X A) : proc E X A := Done r.
Definition perform {A} (op : E (result X A)) : proc E X A := Call op Done.
Definition await {A} (op : E A) : proc E X A := Call op (λ a, Done (Ok a)).

(** Awaits one after the other. *)
Fixpoint gather {A B} (f : A → proc E X B) (l : list A) : proc E X (list B) :=
  match l with
  | [] => mret []
  | x :: l' => b ← f x; bs ← gather f l'; mret (b :: bs)
  end.

End monad.

(** ** What a procedure can return

    Over every environment: [may_return m a] when some responses to its
    operations make [m] return [a]. *)

Section returns.
Context {E : Type → Type} {X : Type}.

Fixpoint may_return {A} (m : proc E X A) (a : A) : Prop :=
  match m with
  | Done (Ok b) => b = a
  | Done (Raise _) => False
  | Call op k => ∃ r, may_return (k r) a
  end.

Lemma may_return_bind {A B} (m : proc E X A) (f : A → proc E X B) b :
  may_return (m ≫= f) b ↔ ∃ a, may_return m a ∧ may_return (f a) b.
Proof.
  change (m ≫= f) with (proc_bind_rec f m).
  induction m as [[a|e]|R op k IH]; cbn.
  - naive_solver.
  - naive_solver.
  - setoid_rewrite IH. naive_solver.
Qed.

Lemma may_return_lift {A} (r : result X A) a :
  may_return (lift r : proc E X A) a → r = Ok a.
Proof. destruct r; cbn; naive_solver. Qed.

Lemma may_return_ret {A} (a b : A) : may_return (mret a : proc E X A) b → a = b.
Proof. done. Qed.

Lemma may_return_raise {A} (e : X) (a : A) : ¬ may_return (raise e : proc E X A) a.
Proof. exact (λ H, H). Qed.

End returns.

(** ** Pools *)

Section pool.
Context {E : Type → Type} {X W A : Type}.
Context (respond : ∀ R, W → E R → R → W → Prop) (background : W → W → Prop).

Abbreviation pool := (W * list (proc E X A))%type.

Inductive pool_step : pool → pool → Prop :=
  | pool_client w ps i R (op : E R) k r w' :
      ps !! i = Some (Call op k) → respond R w op r w' →
      pool_step (w, ps) (w', <[i := k r]> ps)
  | pool_background w w' ps :
      background w w' → pool_step (w, ps) (w', ps).

(** A client that ended with a value may return it. *)
Lemma pool_may_return p q i m a :
  rtc pool_step p q → p.2 !! i = Some m → q.2 !! i = Some (Done (Ok a)) → may_return m a.
Proof.
  intros Hrun. revert m. induction Hrun as [p|p p' q Hstep _ IH]; intros m Hm Ha.
  - rewrite Hm in Ha. by injection Ha as ->.
  - destruct Hstep as [w ps j R op k r w' Hj Hr|w w' ps Hb]; cbn in *.
    + destruct (decide (j = i)) as [->|Hne].
      * rewrite Hm in Hj. injection Hj as ->. exists r. apply IH; [|done].
        rewrite list_lookup_insert_eq; [done|]. by eapply lookup_lt_Some.
      * apply IH; [|done]. by rewrite list_lookup_insert_ne.
    + by apply IH.
Qed.

End pool.

(** ** Guarantees *)

Section wp.
Context {E : Type → Type} {X W K : Type}.
Context (respond : ∀ R, W → E R → R → W → Prop) (background : W → W → Prop).
(** What is known of the past, and what holds of an environment of that past. *)
Context (grows : relation K) `{!PreOrder grows} (inv : W → K → Prop).

Fixpoint wp {A} (m : proc E X A) (Q : K → result X A → Prop) (κ : K) : Prop :=
  match m with
  | Done r => ∀ κ', grows κ κ' → Q κ' r
  | Call op k => ∀ κ' w r w', grows κ κ' → inv w κ' → respond _ w op r w' →
      ∃ κ'', grows κ' κ'' ∧ inv w' κ'' ∧ wp (k r) Q κ''
  end.

Lemma wp_grows {A} (m : proc E X A) Q κ κ' : grows κ κ' → wp m Q κ → wp m Q κ'.
Proof.
  intros Hg. destruct m as [r|R op k]; cbn; intros H.
  - intros κ2 Hg2. apply H. by transitivity κ'.
  - intros κ2 w r w' Hg2. apply H. by transitivity κ'.
Qed.

Lemma after_mono {A} (m : proc E X A) (P Q : K → result X A → Prop) κ :
  wp m P κ → (∀ κ' r, grows κ κ' → P κ' r → Q κ' r) → wp m Q κ.
Proof.
  revert κ. induction m as [r|R op k IH]; cbn; intros κ H HPQ.
  - intros κ' Hg. apply HPQ; [done|]. by apply H.
  - intros κ' w r w' Hg Hi Hr. destruct (H κ' w r w' Hg Hi Hr) as (κ'' & Hg' & Hi' & Hw).
    exists κ''. split_and!; [done..|]. apply IH; [done|]. intros κ3 r3 Hg3. apply HPQ.
    transitivity κ'; [done|]. by transitivity κ''.
Qed.

Lemma after_bind {A B} (m : proc E X A) (f : A → proc E X B) Q κ :
  wp m (λ κ' r, match r with Ok a => wp (f a) Q κ' | Raise e => Q κ' (Raise e) end) κ →
  wp (m ≫= f) Q κ.
Proof.
  change (m ≫= f) with (proc_bind_rec f m).
  revert κ. induction m as [[a|e]|R op k IH]; intros κ; cbn [wp proc_bind_rec].
  - intros H. by apply (H κ).
  - intros H κ' Hg. by apply H.
  - intros H κ' w r w' Hg Hi Hr. destruct (H κ' w r w' Hg Hi Hr) as (κ'' & ? & ? & ?).
    eauto 10.
Qed.

Lemma after_catch {A} (m : proc E X A) (h : X → proc E X A) Q κ :
  wp m (λ κ' r, match r with Ok a => wp (Done (Ok a)) Q κ' | Raise e => wp (h e) Q κ' end) κ →
  wp (catch m h) Q κ.
Proof.
  revert κ. induction m as [[a|e]|R op k IH]; intros κ; cbn [wp catch].
  - intros H κ' Hg. apply (H κ); done.
  - intros H. by apply (H κ).
  - intros H κ' w r w' Hg Hi Hr. destruct (H κ' w r w' Hg Hi Hr) as (κ'' & ? & ? & ?).
    eauto 10.
Qed.

Lemma wp_done {A} (r : result X A) (Q : K → result X A → Prop) κ :
  (∀ κ', grows κ κ' → Q κ' r) → wp (Done r) Q κ.
Proof. done. Qed.

(** An operation that leaves the environment as it is. *)
Lemma wp_call {A R} (op : E R) (k : R → proc E X A) Q κ :
  (∀ κ' w r w', grows κ κ' → inv w κ' → respond _ w op r w' →
    ∃ κ'', grows κ' κ'' ∧ inv w' κ'' ∧ wp (k r) Q κ'') →
  wp (Call op k) Q κ.
Proof. done. Qed.

Lemma wp_gather {A B} (f : A → proc E X B) (I : A → K → B → Prop) l κ :
  (∀ a κ κ' b, grows κ κ' → I a κ b → I a κ' b) →
  (∀ a κ', a ∈ l → grows κ κ' →
     wp (f a) (λ κ2 r, match r with Ok b => I a κ2 b | Raise _ => True end) κ') →
  wp (gather f l)
    (λ κ2 r, match r with Ok bs => Forall2 (λ a b, I a κ2 b) l bs | Raise _ => True end) κ.
Proof.
  intros Hmono. revert κ. induction l as [|a l IH]; intros κ Hf; cbn [gather].
  - intros κ' _. constructor.
  - apply after_bind. eapply after_mono; [apply (Hf a κ); [by left|done]|].
    intros κ1 [b|e] Hg1 Hb; [|done]. apply after_bind.
    eapply after_mono; [apply IH|].
    + intros a' κ' Ha Hg. apply Hf; [by right|]. by transitivity κ1.
    + intros κ2 [bs|e] Hg2 Hbs; [|done]. intros κ3 Hg3. constructor.
      * apply (Hmono a κ1); [by transitivity κ2|done].
      * eapply Forall2_impl; [exact Hbs|]. intros a' b'. by apply Hmono.
Qed.

(** ** Adequacy *)

Context {A : Type} (Q : nat → K → result X A → Prop).

Definition pool_ok (p : W * list (proc E X A)) (κ : K) : Prop :=
  inv p.1 κ ∧ ∀ i m, p.2 !! i = Some m → wp m (Q i) κ.

Hypothesis background_inv : ∀ w κ w', inv w κ → background w w' →
  ∃ κ', grows κ κ' ∧ inv w' κ'.

Lemma pool_step_ok p p' κ :
  pool_ok p κ → pool_step respond background p p' → ∃ κ', grows κ κ' ∧ pool_ok p' κ'.
Proof.
  intros [Hi Hw] Hstep. destruct Hstep as [w ps i R op k r w' Hp Hr|w w' ps Hb]; cbn in *.
  - destruct (Hw i _ Hp κ w r w' ltac:(reflexivity) Hi Hr) as (κ' & Hg & Hi' & Hk).
    exists κ'. split; [done|]. split; [done|]. intros j m Hj. cbn in Hj.
    apply list_lookup_insert_Some in Hj as [(<- & <- & _)|(Hne & Hj)]; [done|].
    eapply wp_grows; [done|]. by apply Hw.
  - destruct (background_inv w κ w' Hi Hb) as (κ' & Hg & Hi'). exists κ'.
    split; [done|]. split; [done|]. intros j m Hj. eapply wp_grows; [done|]. by apply Hw.
Qed.

Lemma pool_adequate p p' κ :
  pool_ok p κ → rtc (pool_step respond background) p p' →
  ∃ κ', grows κ κ' ∧ pool_ok p' κ'.
Proof.
  intros Hok Hrun. revert κ Hok. induction Hrun as [p|p q p' Hs _ IH]; intros κ Hok.
  - exists κ. by split.
  - destruct (pool_step_ok p q κ Hok Hs) as (κ1 & Hg1 & Hok1).
    destruct (IH κ1 Hok1) as (κ2 & Hg2 & Hok2). exists κ2. split; [by etrans|done].
Qed.

End wp.

(** * Partial correctness *)

Section yields.
Context {E : Type → Type} {X W K : Type}.
Context (respond : ∀ R, W → E R → R → W → Prop).
Context (grows : relation K) `{!PreOrder grows} (inv : W → K → Prop).

(** Whatever the others do, a value [m] returns satisfies [P] from then on. *)
Definition yields {A} (m : proc E X A) (P : K → A → Prop) (κ : K) : Prop :=
  wp respond grows inv m (λ κ' r, match r with Ok a => P κ' a | Raise _ => True end) κ.

Definition lasting {A} (P : K → A → Prop) : Prop :=
  ∀ κ κ' a, grows κ κ' → P κ a → P κ' a.

Lemma yields_mono {A} (m : proc E X A) (P Q : K → A → Prop) κ :
  yields m P κ → (∀ κ' a, grows κ κ' → P κ' a → Q κ' a) → yields m Q κ.
Proof.
  intros Hm HPQ. eapply after_mono; [exact _|exact Hm|]. intros κ' [a|e] Hg Ha; [|done].
  by apply HPQ.
Qed.

Lemma yields_grows {A} (m : proc E X A) P κ κ' : grows κ κ' → yields m P κ → yields m P κ'.
Proof. intros Hg Hm. eapply wp_grows; [exact _|exact Hg|exact Hm]. Qed.

Lemma yields_bind {A B} (m : proc E X A) (f : A → proc E X B) (P : K → A → Prop) Q κ :
  yields m P κ → (∀ κ' a, grows κ κ' → P κ' a → yields (f a) Q κ') → yields (m ≫= f) Q κ.
Proof.
  intros Hm Hf. apply after_bind; [exact _|]. eapply after_mono; [exact _|exact Hm|].
  intros κ' [a|e] Hg Ha; [|done]. by apply Hf.
Qed.

Lemma yields_catch {A} (m : proc E X A) handler (P : K → A → Prop) κ :
  lasting P → yields m P κ →
  (∀ e κ', grows κ κ' → yields (handler e) P κ') → yields (catch m handler) P κ.
Proof.
  intros HP Hm Hh. apply after_catch; [exact _|]. eapply after_mono; [exact _|exact Hm|].
  intros κ' [a|e] Hg Ha; [|by apply Hh]. intros κ2 Hg2. by apply (HP κ').
Qed.

Lemma yields_ret {A} (a : A) (P : K → A → Prop) κ :
  (∀ κ', grows κ κ' → P κ' a) → yields (mret a) P κ.
Proof. intros HP κ' Hg. by apply HP. Qed.

Lemma yields_raise {A} e (P : K → A → Prop) κ : yields (raise e) P κ.
Proof. intros κ' _. exact I. Qed.

Lemma yields_lift {A} (r : result X A) (P : K → A → Prop) κ :
  (∀ a κ', r = Ok a → grows κ κ' → P κ' a) → yields (lift r) P κ.
Proof. intros HP κ' Hg. destruct r as [a|e]; [by apply HP|exact I]. Qed.

(** Every operation keeps the invariant: then every procedure yields something. *)
Lemma yields_any {A} (m : proc E X A) κ :
  (∀ R (op : E R) κ w r w', inv w κ → respond R w op r w' →
     ∃ κ', grows κ κ' ∧ inv w' κ') →
  yields m (λ _ _, True) κ.
Proof.
  intros Hop. unfold yields. revert κ.
  induction m as [[a|e]|R op k IH]; intros κ; cbn [wp]; [done..|].
  intros κ' w r w' _ Hi Hr. destruct (Hop _ _ _ _ _ _ Hi Hr) as (κ2 & Hg & Hi').
  exists κ2. split; [done|]. split; [done|]. apply IH.
Qed.

End yields.

(** * Traces

    A run with the operations it performed, and by which procedure.  [safe] is [wp]
    with a licence for every operation; [at_most] bounds the operations of a kind
    that one procedure performs, whatever the responses. *)

Inductive event (E : Type → Type) := Performed (client : nat) (R : Type) (op : E R).
Arguments Performed {E} client {R} op.

Definition event_client {E} (e : event E) : nat := match e with Performed i _ => i end.

Section traces.
Context {E : Type → Type} {X W K A : Type}.
Context (respond : ∀ R, W → E R → R → W → Prop) (background : W → W → Prop).

Inductive pool_run :
  W * list (proc E X A) → list (event E) → W * list (proc E X A) → Prop :=
  | run_end p : pool_run p [] p
  | run_client w ps i R (op : E R) k r w' trace q :
      ps !! i = Some (Call op k) → respond R w op r w' →
      pool_run (w', <[i := k r]> ps) trace q →
      pool_run (w, ps) (Performed i op :: trace) q
  | run_background w w' ps trace q :
      background w w' → pool_run (w', ps) trace q → pool_run (w, ps) trace q.

Lemma pool_run_steps p trace q : pool_run p trace q → rtc (pool_step respond background) p q.
Proof.
  induction 1 as [p|w ps i R op k r w' trace q Hi Hr _ IH|w w' ps trace q Hb _ IH]; [done|..].
  - eapply rtc_l; [by eapply pool_client|done].
  - eapply rtc_l; [by eapply pool_background|done].
Qed.

(** ** How often *)

Section counting.
Context (kind : ∀ R, E R → bool).

Definition of_kind (e : event E) : bool := match e with Performed _ op => kind _ op end.

(** [m] performs at most [n] operations of the kind, and ends with [P] of what is
    left of them. *)
Fixpoint at_most {B} (n : nat) (m : proc E X B) (P : nat → result X B → Prop) : Prop :=
  match m with
  | Done r => P n r
  | Call op k =>
      if kind _ op then match n with O => False | S n' => ∀ r, at_most n' (k r) P end
      else ∀ r, at_most n (k r) P
  end.

Lemma at_most_mono {B} n (m : proc E X B) (P Q : nat → result X B → Prop) :
  at_most n m P → (∀ n' r, P n' r → Q n' r) → at_most n m Q.
Proof.
  intros Hm HPQ. revert n Hm. induction m as [r|R op k IH]; intros n; cbn; [apply HPQ|].
  destruct (kind _ op); [destruct n as [|n]; [done|]|]; intros H r; by apply IH.
Qed.

Lemma at_most_le {B} n n' (m : proc E X B) (P : nat → result X B → Prop) :
  (n ≤ n')%nat → (∀ k k' r, (k ≤ k')%nat → P k r → P k' r) → at_most n m P → at_most n' m P.
Proof.
  intros Hn HP. revert n n' Hn. induction m as [r|R op k IH]; intros n n' Hn; cbn; [by apply HP|].
  destruct (kind _ op).
  - destruct n as [|n]; [done|]. destruct n' as [|n']; [lia|]. intros H r.
    apply (IH r n); [lia|done].
  - intros H r. by apply (IH r n).
Qed.

Lemma at_most_bind {B C} n (m : proc E X B) (f : B → proc E X C) P :
  at_most n m (λ n' r, match r with Ok b => at_most n' (f b) P | Raise e => P n' (Raise e) end) →
  at_most n (m ≫= f) P.
Proof.
  change (m ≫= f) with (proc_bind_rec f m). revert n.
  induction m as [[b|e]|R op k IH]; intros n; cbn; [done..|].
  destruct (kind _ op); [destruct n as [|n]; [done|]|]; intros H r; by apply IH.
Qed.

(** Each procedure performs its share. *)
Lemma run_at_most p trace q i n m P :
  pool_run p trace q → p.2 !! i = Some m → at_most n m P →
  (length (List.filter (λ e, of_kind e && (event_client e =? i)%nat) trace) ≤ n)%nat.
Proof.
  intros Hrun. revert m n.
  induction Hrun as [p|w ps j R op k r w' trace q Hj Hr _ IH|w w' ps trace q Hb _ IH];
    intros m n Hm Hn; cbn [List.filter length]; [lia| |by eapply IH].
  cbn [of_kind event_client snd] in *. destruct (Nat.eqb_spec j i) as [->|Hne].
  - rewrite Hm in Hj. injection Hj as ->. cbn [at_most] in Hn. rewrite andb_true_r.
    assert ((<[i := k r]> ps) !! i = Some (k r)) as Hk
      by (apply list_lookup_insert_eq; by eapply lookup_lt_Some).
    destruct (kind _ op).
    + destruct n as [|n]; [done|]. cbn. apply le_n_S. by eapply IH.
    + by eapply IH.
  - rewrite andb_false_r. eapply IH; [|done]. by rewrite list_lookup_insert_ne.
Qed.

End counting.

(** ** Under which licence *)

Context (grows : relation K) `{!PreOrder grows} (inv : W → K → Prop).

Fixpoint safe (licence : K → ∀ R, E R → Prop) {B} (m : proc E X B)
  (Q : K → result X B → Prop) (κ : K) : Prop :=
  match m with
  | Done r => ∀ κ', grows κ κ' → Q κ' r
  | Call op k => (∀ κ', grows κ κ' → licence κ' _ op) ∧
      ∀ κ' w r w', grows κ κ' → inv w κ' → respond _ w op r w' →
      ∃ κ'', grows κ' κ'' ∧ inv w' κ'' ∧ safe licence (k r) Q κ''
  end.

Lemma safe_grows L {B} (m : proc E X B) Q κ κ' : grows κ κ' → safe L m Q κ → safe L m Q κ'.
Proof.
  intros Hg. destruct m as [r|R op k]; cbn.
  - intros H κ2 Hg2. apply H. by transitivity κ'.
  - intros [Hl H]. split; [intros κ2 Hg2; apply Hl; by transitivity κ'|].
    intros κ2 w r w' Hg2. apply H. by transitivity κ'.
Qed.

Lemma safe_mono L {B} (m : proc E X B) (P Q : K → result X B → Prop) κ :
  safe L m P κ → (∀ κ' r, grows κ κ' → P κ' r → Q κ' r) → safe L m Q κ.
Proof.
  revert κ. induction m as [r|R op k IH]; cbn; intros κ H HPQ.
  - intros κ' Hg. apply HPQ; [done|]. by apply H.
  - destruct H as [Hl H]. split; [done|]. intros κ' w r w' Hg Hi Hr.
    destruct (H κ' w r w' Hg Hi Hr) as (κ'' & Hg' & Hi' & Hw).
    exists κ''. split_and!; [done..|]. apply IH; [done|]. intros κ3 r3 Hg3. apply HPQ.
    transitivity κ'; [done|]. by transitivity κ''.
Qed.

Lemma safe_bind L {B C} (m : proc E X B) (f : B → proc E X C) Q κ :
  safe L m (λ κ' r, match r with Ok b => safe L (f b) Q κ' | Raise e => Q κ' (Raise e) end) κ →
  safe L (m ≫= f) Q κ.
Proof.
  change (m ≫= f) with (proc_bind_rec f m).
  revert κ. induction m as [[b|e]|R op k IH]; intros κ; cbn [safe proc_bind_rec].
  - intros H. by apply (H κ).
  - intros H κ' Hg. by apply H.
  - intros [Hl H]. split; [done|]. intros κ' w r w' Hg Hi Hr.
    destruct (H κ' w r w' Hg Hi Hr) as (κ'' & ? & ? & ?). eauto 10.
Qed.

Context (Q : nat → K → result X A → Prop) (licence : nat → K → ∀ R, E R → Prop).

Hypothesis licence_lasts : ∀ i κ κ' R (op : E R),
  grows κ κ' → licence i κ R op → licence i κ' R op.
Hypothesis background_inv : ∀ w κ w', inv w κ → background w w' →
  ∃ κ', grows κ κ' ∧ inv w' κ'.

Definition licensed (κ : K) (e : event E) : Prop :=
  match e with Performed i op => licence i κ _ op end.

Lemma run_licensed p trace q κ :
  pool_run p trace q → inv p.1 κ → (∀ i m, p.2 !! i = Some m → safe (licence i) m (Q i) κ) →
  ∃ κ', grows κ κ' ∧ inv q.1 κ' ∧ Forall (licensed κ') trace
    ∧ ∀ i m, q.2 !! i = Some m → safe (licence i) m (Q i) κ'.
Proof.
  intros Hrun. revert κ.
  induction Hrun as [p|w ps i R op k r w' trace q Hi Hr _ IH|w w' ps trace q Hb _ IH];
    intros κ Hinv Hsafe; cbn [fst snd] in *.
  - exists κ. split_and!; [done..|constructor|done].
  - destruct (Hsafe i _ Hi) as [Hl Hc].
    destruct (Hc κ w r w' ltac:(reflexivity) Hinv Hr) as (κ1 & Hg1 & Hinv1 & Hk).
    destruct (IH κ1 Hinv1) as (κ2 & Hg2 & Hinv2 & Htr & Hq).
    + intros j m Hj. apply list_lookup_insert_Some in Hj as [(<- & <- & _)|(Hne & Hj)]; [done|].
      eapply safe_grows; [exact Hg1|]. by apply Hsafe.
    + exists κ2. assert (grows κ κ2) by by etrans. split_and!; [done..| |done].
      constructor; [|done]. cbn. eapply licence_lasts; [|by apply (Hl κ)]. done.
  - destruct (background_inv w κ w' Hinv Hb) as (κ1 & Hg1 & Hinv1).
    destruct (IH κ1 Hinv1) as (κ2 & Hg2 & Hinv2 & Htr & Hq).
    + intros j m Hj. eapply safe_grows; [exact Hg1|]. by apply Hsafe.
    + exists κ2. split_and!; [by etrans|done..].
Qed.

End traces.
