(* ===== verification/Exceptions.v ===== *)
(** The exceptions the permit authority, the hosted stores and the metered model
    provider raise, and the operations an asynchronous procedure of the stores
    awaits.

    An exception of the Firestore SDK is [ContentionError] when it is one of
    [_KNOWN_CONTENTION] of reconcile/hosted/firestore_cas.py and
    [ProviderError] otherwise, a time-out included. *)

From S2P Require Export Proc Decoding Permit.

#[local] Open Scope Z_scope.

Inductive FirestoreCasErrorCode :=
  | Cas_CONFLICT | Cas_CORRUPT_DOCUMENT | Cas_OUTCOME_UNKNOWN | Cas_PROVIDER_UNAVAILABLE.

(** [PermitStoreError] and its subclasses (reconcile/persistence/permits.py). *)
Inductive permit_store_error :=
  | PermitNotFound (permit_id : string)
  | PermitConflict (permit_id : string)
  | PermitCorruptState (permit_id : option string)
  | PermitStoreUnavailable
  | PermitStoreOutcomeUnknown
  | PermitClaimDenied (permit_id : string) (reason : PermitDenialReason)
  | PermitCompletionDenied (permit_id : string) (reason : PermitDenialReason).

Inductive exception :=
  | CancelledError
  | ContentionError
  | ProviderError
  | FirestoreCasError (code : FirestoreCasErrorCode)
  | AmbiguousWrite
  | PermitStoreError (error : permit_store_error)
  | PermitAuthorityError (message : string)
  | HostedProviderLedgerError
  | TimeoutError
  | GuardedInputTokenLimitExceeded
  | PyError (error : py_error).

(** Python code of this development that raises built-in exceptions, run inside
    a procedure. *)
Definition checked {A} (r : result py_error A) : result exception A := map_error PyError r.

(** ** Operations of the environment *)

(** The data of one document: a map of its fields. *)
Abbreviation document_data := (gmap string json).

(** One write of a batch: [batch.create] and [batch.update] with a
    [last_update_time] option. *)
Inductive write :=
  | CreateWrite (path : string) (data : document_data)
  | UpdateWrite (path : string) (data : document_data) (last_update_time : Z).

Definition write_path (w : write) : string :=
  match w with CreateWrite p _ | UpdateWrite p _ _ => p end.

(** A timestamp of the provider: a [datetime] with an offset, normalised to UTC;
    one without, or another object; [None]. *)
Inductive provider_time := AwareTime (t : datetime) | NaiveTime | NoTime.

(** What [reference.get()] returns. *)
Record provider_snapshot := {
  ps_reference_path : string;
  ps_exists : bool;
  ps_read_time : provider_time;
  ps_data : option document_data;
  ps_update_time : provider_time;
}.

(** What a procedure awaits: the SDK's client ([self._client_factory]), a
    document reference and its path, a batch, one staged write, a strong read,
    a commit and its update times; [uuid4], the clock and the claim
    identifiers of the permit authority ([None] is a clock without an offset). *)
Inductive hosted_op : Type → Type :=
  | AcquireClient : hosted_op (result exception unit)
  | MakeReference (collection key : string) : hosted_op (result exception string)
  | NewBatch : hosted_op (result exception unit)
  | StageWrite (w : write) : hosted_op (result exception unit)
  | GetDocument (path : string) : hosted_op (result exception provider_snapshot)
  | CommitBatch (writes : list write) : hosted_op (result exception (list provider_time))
  | NewUuid : hosted_op string
  | ReadClock : hosted_op (option datetime)
  | NewClaimId : hosted_op string.

Abbreviation hosted A := (proc hosted_op exception A).
