(* ===== verification/FirestoreService.v ===== *)
(** The Firestore database the hosted stores write to, as they rely on it, and
    the discipline of compare-and-swap writers.

    [Firestore] is the service: what is stored at a path, the batches that were
    sent and whose outcome is undecided, and how it responds.  [FirestoreLaws]
    states what Google documents and the code relies on: a commit applies all
    its writes or none, each under its precondition; a contention error means it
    was not applied; any other error leaves it applied, refused, or to be
    applied later; an update time of a document only increases; a read returns
    what is stored; a UUID is new.  [AbsentReads], assumed by itself where
    absence is answered, says that a read that finds nothing is of a missing document.

    Writers that follow a [protocol] - they create what it admits and replace a
    version they have read by one it lets it advance to, under an identifier they
    drew - keep the versions of a path in one chain, whatever the interleaving and
    whatever fails.  [history] is what a writer knows: the versions that were once
    stored, and who drew which identifier. *)

From S2P Require Export Exceptions.

#[local] Open Scope Z_scope.

(** ** The service *)

Class Firestore := {
  fs_state : Type;
  stored : fs_state → string → option (document_data * Z);
  pending : fs_state → list write → Prop;
  used_ids : fs_state → string → Prop;
  respond : ∀ R, fs_state → hosted_op R → R → fs_state → Prop;
  background : fs_state → fs_state → Prop;
}.

(** What a write leaves at its path: an update merges the top-level fields. *)
Definition write_result (old : option (document_data * Z)) (w : write) : document_data :=
  match w, old with
  | CreateWrite _ d, _ => d
  | UpdateWrite _ d _, Some (d0, _) => d ∪ d0
  | UpdateWrite _ d _, None => d
  end.

(** The precondition of a write. *)
Definition precondition (old : option (document_data * Z)) (w : write) : Prop :=
  match w with
  | CreateWrite _ _ => old = None
  | UpdateWrite _ _ t => ∃ d, old = Some (d, t)
  end.

Section contents.
Context {fs : Firestore}.

(** The batch [ws] was applied atomically with the update times [ts]. *)
Record applied (ws : list write) (ts : list Z) (s s' : fs_state) : Prop := {
  applied_written : Forall2 (λ w t,
    precondition (stored s (write_path w)) w
    ∧ stored s' (write_path w) = Some (write_result (stored s (write_path w)) w, t)
    ∧ (∀ d0 t0, stored s (write_path w) = Some (d0, t0) → t0 < t)) ws ts;
  applied_elsewhere : ∀ p, p ∉ map write_path ws → stored s' p = stored s p;
}.

Record unchanged (s s' : fs_state) : Prop := {
  unchanged_stored : ∀ p, stored s' p = stored s p;
  unchanged_pending : ∀ ws, pending s' ws → pending s ws;
  unchanged_ids : ∀ id, used_ids s id → used_ids s' id;
}.

(** Nothing but the contents of the paths of [ws] changed, or a batch became
    undecided. *)
Definition pending_from (extra : list write → Prop) (s s' : fs_state) : Prop :=
  (∀ ws, pending s' ws → pending s ws ∨ extra ws)
  ∧ (∀ id, used_ids s id → used_ids s' id).

End contents.

(** The operations that do not reach the database. *)
Definition local_op {R} (op : hosted_op R) : bool :=
  match op with
  | CommitBatch _ | NewUuid => false
  | _ => true
  end.

Class FirestoreLaws (fs : Firestore) : Prop := {
  respond_local R (op : hosted_op R) s r s' :
    respond R s op r s' → local_op op = true → unchanged s s';
  respond_get s path snap s' :
    respond _ s (GetDocument path) (Ok snap) s' →
    ∀ d t, ps_exists snap = true → ps_data snap = Some d → ps_update_time snap = AwareTime t →
      ps_reference_path snap = path → stored s path = Some (d, t);
  respond_uuid s id s' :
    respond _ s NewUuid id s' →
    unchanged s s' ∧ ¬ used_ids s id ∧ used_ids s' id;
  respond_commit_ok s ws rs s' :
    respond _ s (CommitBatch ws) (Ok rs) s' → NoDup (map write_path ws) →
    ∃ ts, applied ws ts s s' ∧ pending_from (λ _, False) s s'
      ∧ ∀ ts', rs = map AwareTime ts' → ts' = ts;
  respond_commit_contention s ws s' :
    respond _ s (CommitBatch ws) (Raise ContentionError) s' → unchanged s s';
  respond_commit_error s ws e s' :
    respond _ s (CommitBatch ws) (Raise e) s' → NoDup (map write_path ws) →
    pending_from (λ ws', ws' = ws) s s'
    ∧ ((∀ p, stored s' p = stored s p) ∨ ∃ ts, applied ws ts s s');
  background_applies s s' :
    background s s' →
    pending_from (λ _, False) s s'
    ∧ ((∀ p, stored s' p = stored s p)
       ∨ ∃ ws ts, pending s ws ∧ applied ws ts s s');
}.

(** A read that finds no document is of a path that holds none. *)
Class AbsentReads (fs : Firestore) : Prop :=
  respond_absent s path snap s' :
    respond _ s (GetDocument path) (Ok snap) s' →
    ps_exists snap = false → ps_reference_path snap = path → stored s path = None.

(** ** Histories *)

Record history := {
  versions : string → Z → document_data → Prop;
  drew : string → nat → Prop;
}.

(** A later history knows more, and the versions it adds are newer. *)
Record grows (h h' : history) : Prop := {
  grows_versions : ∀ p t d, versions h p t d → versions h' p t d;
  grows_drew : ∀ id i, drew h id i → drew h' id i;
  grows_newer : ∀ p t d, versions h' p t d →
    versions h p t d ∨ ∀ t0 d0, versions h p t0 d0 → t0 < t;
}.

#[export] Instance grows_preorder : PreOrder grows.
Proof.
  split; [by split; auto|]. intros a b c [Hv Hd Hn] [Hv' Hd' Hn']. split; [eauto..|].
  intros p t d [Hb|Hlt]%Hn'; [by apply Hn|]. right. intros t0 d0 Ha. by eapply Hlt, Hv.
Qed.

(** Nothing [h] knows of the path is newer than [t]. *)
Definition recent (h : history) (p : string) (t : Z) : Prop :=
  ∀ t0 d0, versions h p t0 d0 → t0 ≤ t.

Lemma recent_since h h' p t : grows h h' → recent h' p t → recent h p t.
Proof. intros [Hv _ _] Hr t0 d0 H0. by eapply Hr, Hv. Qed.

(** Nobody had drawn the identifier. *)
Definition undrawn (h : history) (id : string) : Prop := ∀ i, ¬ drew h id i.

Lemma undrawn_since h h' id : grows h h' → undrawn h' id → undrawn h id.
Proof. intros [_ Hd _] Hu i Hi. by eapply Hu, Hd. Qed.

(** What writers may create at a path, what a version may become, and under which
    identifier a document was written. *)
Class protocol := {
  creates : string → document_data → Prop;
  advances : string → document_data → document_data → Prop;
  marked : document_data → string → Prop;
}.

Section protocol.
Context {fs : Firestore} {laws : FirestoreLaws fs} {pr : protocol}.

(** The document carries an identifier somebody drew. *)
Definition drawn (h : history) (d : document_data) : Prop := ∃ id i, marked d id ∧ drew h id i.

Lemma drawn_grows h h' d : grows h h' → drawn h d → drawn h' d.
Proof. intros [_ Hd _] (id & i & Hm & Hi). exists id, i. auto. Qed.

(** A write the protocol allows to a writer that knows [h]. *)
Definition allowed (h : history) (w : write) : Prop :=
  match w with
  | CreateWrite p d => creates p d ∧ drawn h d
  | UpdateWrite p d t => ∃ d0, versions h p t d0 ∧ advances p d0 (d ∪ d0) ∧ drawn h (d ∪ d0)
  end.

Record chained (s : fs_state) (h : history) : Prop := {
  chain_current p d t : stored s p = Some (d, t) → versions h p t d;
  chain_one p t d d' : versions h p t d → versions h p t d' → d = d';
  chain_latest p t d : versions h p t d →
    ∃ d' t', stored s p = Some (d', t') ∧ t ≤ t';
  chain_origin p t d : versions h p t d → ∃ d0, creates p d0 ∧ rtc (advances p) d0 d;
  chain_order p t d t' d' : versions h p t d → versions h p t' d' → t < t' →
    tc (advances p) d d';
  chain_pending ws : pending s ws → Forall (allowed h) ws ∧ NoDup (map write_path ws);
  chain_drawn p t d : versions h p t d → drawn h d;
  chain_drew id i : drew h id i → used_ids s id;
  chain_drew_once id i j : drew h id i → drew h id j → i = j;
}.

Lemma allowed_grows h h' w : grows h h' → allowed h w → allowed h' w.
Proof.
  intros Hg. destruct w as [p d|p d t]; cbn.
  - intros [Hc Hd]. split; [done|]. by eapply drawn_grows.
  - intros (d0 & Hv & Ha & Hd). exists d0.
    split_and!; [by eapply grows_versions|done|by eapply drawn_grows].
Qed.

(** The history after a batch: its writes are versions. *)
Definition record_versions (h : history) (s' : fs_state) : history :=
  {| versions p t d := versions h p t d ∨ stored s' p = Some (d, t); drew := drew h |}.

Lemma unchanged_chained s s' h : unchanged s s' → chained s h → chained s' h.
Proof.
  intros [Hs Hp Hi] []. split; eauto.
  - intros p d t. rewrite Hs. eauto.
  - intros p t d Hv. rewrite Hs. eauto.
Qed.

Lemma applied_at ws ts s s' w :
  applied ws ts s s' → w ∈ ws →
  ∃ t, precondition (stored s (write_path w)) w
    ∧ stored s' (write_path w) = Some (write_result (stored s (write_path w)) w, t)
    ∧ (∀ d0 t0, stored s (write_path w) = Some (d0, t0) → t0 < t).
Proof.
  intros [Hw _] Hin. apply list_elem_of_lookup in Hin as [i Hi].
  destruct (Forall2_lookup_l _ _ _ _ _ Hw Hi) as (t & _ & Ht). by exists t.
Qed.

(** An allowed batch on a chained database: each path is left alone, or gets
    one new version that the protocol lets its old one become. *)
Lemma applied_cases ws ts s s' h p :
  chained s h → applied ws ts s s' → Forall (allowed h) ws →
  stored s' p = stored s p
  ∨ ∃ d t, stored s' p = Some (d, t) ∧
      ((stored s p = None ∧ creates p d)
       ∨ ∃ d0 t0, stored s p = Some (d0, t0) ∧ advances p d0 d ∧ t0 < t)
      ∧ drawn h d.
Proof.
  intros Hc Ha Hall. destruct (decide (p ∈ map write_path ws)) as [Hin|Hout];
    [|left; by apply (applied_elsewhere _ _ _ _ Ha)].
  apply list_elem_of_fmap in Hin as (w & -> & Hw). right.
  destruct (applied_at _ _ _ _ w Ha Hw) as (t & Hpre & Hs & Ht).
  rewrite Forall_forall in Hall. specialize (Hall w Hw).
  destruct w as [p d|p d t0]; cbn in *.
  - destruct Hall as [Hcr Hd]. exists d, t. split; [done|]. split; [by left|done].
  - destruct Hpre as [d1 Hd1]. rewrite Hd1 in Hs. exists (d ∪ d1), t. split; [done|].
    destruct Hall as (d0 & Hv & Hadv & Hd).
    assert (d1 = d0) as -> by (eapply (chain_one _ _ Hc p t0); eauto using chain_current).
    split; [|done]. right. exists d0, t0. split; [done|]. split; [done|eauto].
Qed.

(** The new versions of an applied batch. *)
Lemma applied_new ws ts s s' h p t d :
  chained s h → applied ws ts s s' → Forall (allowed h) ws → stored s' p = Some (d, t) →
  versions h p t d
  ∨ (∀ t0 d0, versions h p t0 d0 → t0 < t ∧ tc (advances p) d0 d)
    ∧ (∃ d0, creates p d0 ∧ rtc (advances p) d0 d) ∧ drawn h d.
Proof.
  intros Hc Ha Hall Hs. destruct (applied_cases ws ts s s' h p Hc Ha Hall)
    as [Heq|(d' & t' & Heq & Hcase & Hd)].
  { left. eapply chain_current; [done|]. by rewrite <-Heq. }
  right. rewrite Hs in Heq. injection Heq as <- <-.
  destruct Hcase as [[Hnone Hcr]|(d0 & t0 & Hold & Hadv & Hlt)].
  - split; [|split; [by exists d; split|done]]. intros t1 d1 Hv.
    destruct (chain_latest _ _ Hc _ _ _ Hv) as (? & ? & Hcon & _). congruence.
  - pose proof (chain_current _ _ Hc _ _ _ Hold) as Hv0. split.
    + intros t1 d1 Hv. destruct (chain_latest _ _ Hc _ _ _ Hv) as (d2 & t2 & Hcur & Hle).
      rewrite Hold in Hcur. injection Hcur as <- <-. split; [lia|].
      destruct (decide (t1 = t0)) as [->|Hne].
      * rewrite (chain_one _ _ Hc p t0 d1 d0) by done. by apply tc_once.
      * eapply tc_r; [|exact Hadv]. eapply (chain_order _ _ Hc); [exact Hv|exact Hv0|lia].
    + split; [|done]. destruct (chain_origin _ _ Hc _ _ _ Hv0) as (d1 & Hcr & Hr).
      exists d1. split; [done|]. by eapply rtc_r.
Qed.

Lemma record_grows ws ts s s' h :
  chained s h → applied ws ts s s' → Forall (allowed h) ws → grows h (record_versions h s').
Proof.
  intros Hc Ha Hall. split; cbn; [by left|done|]. intros p t d [Hv|Hs]; [by left|].
  destruct (applied_new _ _ _ _ _ _ _ _ Hc Ha Hall Hs) as [Hv|[Hlt _]]; [by left|].
  right. intros t0 d0 H0. by destruct (Hlt _ _ H0).
Qed.

Lemma applied_chained ws ts s s' h :
  chained s h → applied ws ts s s' → Forall (allowed h) ws →
  (∀ ws', pending s' ws' → Forall (allowed h) ws' ∧ NoDup (map write_path ws')) →
  (∀ id, used_ids s id → used_ids s' id) →
  chained s' (record_versions h s').
Proof.
  intros Hc Ha Hall Hp Hi.
  pose proof (λ p t d, applied_new _ _ _ _ _ p t d Hc Ha Hall) as Hnew.
  split; cbn.
  - intros p d t Hs. by right.
  - intros p t d d' [Hv|Hs] [Hv'|Hs'].
    + by eapply chain_one.
    + destruct (Hnew _ _ _ Hs') as [Hv'|[Hlt _]]; [by eapply chain_one|].
      destruct (Hlt _ _ Hv) as [? _]. lia.
    + destruct (Hnew _ _ _ Hs) as [Hv|[Hlt _]]; [by eapply chain_one|].
      destruct (Hlt _ _ Hv') as [? _]. lia.
    + congruence.
  - intros p t d [Hv|Hs]; [|by exists d, t].
    destruct (chain_latest _ _ Hc _ _ _ Hv) as (d0 & t0 & Hcur & Hle).
    destruct (applied_cases ws ts s s' h p Hc Ha Hall) as [Heq|(d' & t' & Heq & Hcase & _)].
    + rewrite Heq. eauto.
    + exists d', t'. split; [done|].
      destruct Hcase as [[? _]|(d1 & t1 & Hold & _ & Hlt)]; [congruence|].
      rewrite Hcur in Hold. injection Hold as <- <-. lia.
  - intros p t d [Hv|Hs]; [by eapply chain_origin|].
    destruct (Hnew _ _ _ Hs) as [Hv|(_ & Ho & _)]; [by eapply chain_origin|done].
  - intros p t d t' d' [Hv|Hs] [Hv'|Hs'] Hlt.
    + by eapply chain_order.
    + destruct (Hnew _ _ _ Hs') as [Hv'|[Hadv _]]; [by eapply chain_order|].
      by destruct (Hadv _ _ Hv) as [_ ?].
    + destruct (Hnew _ _ _ Hs) as [Hv|[Hadv _]]; [by eapply chain_order|].
      destruct (Hadv _ _ Hv') as [? _]. lia.
    + rewrite Hs in Hs'. injection Hs' as <- <-. lia.
  - intros ws' Hws'. destruct (Hp _ Hws') as [Hal Hn]. split; [|done].
    eapply Forall_impl; [exact Hal|]. intros w. apply allowed_grows. by eapply record_grows.
  - intros p t d [Hv|Hs]; [exact (chain_drawn _ _ Hc _ _ _ Hv)|].
    destruct (Hnew _ _ _ Hs) as [Hv|(_ & _ & Hd)]; [exact (chain_drawn _ _ Hc _ _ _ Hv)|done].
  - intros id i Hd. eapply Hi, chain_drew; done.
  - by eapply chain_drew_once.
Qed.

(** ** What each operation guarantees *)

Definition guarantees {A} (m : hosted A) (Q : history → result exception A → Prop)
  (h : history) : Prop := wp respond grows chained m Q h.

Definition knows_version (h : history) (p : string) (t : Z) (d : document_data) : Prop :=
  versions h p t d ∧ ∃ d0, creates p d0 ∧ rtc (advances p) d0 d.

(** A document that was read, at a time when [h0] was known already. *)
Definition snapshot_known (h0 h : history) (p : string) (snap : provider_snapshot) : Prop :=
  ∀ d t, ps_exists snap = true → ps_data snap = Some d → ps_update_time snap = AwareTime t →
    ps_reference_path snap = p → knows_version h p t d ∧ recent h0 p t.

(** When missing documents read as missing, a path read as missing had no version. *)
Definition absence_known (h0 : history) (p : string) (snap : provider_snapshot) : Prop :=
  AbsentReads fs → ps_exists snap = false → ps_reference_path snap = p →
  ∀ t d, ¬ versions h0 p t d.

(** A write that was applied at a known time is a version. *)
Definition write_known (h : history) (w : write) (t : Z) : Prop :=
  match w with
  | CreateWrite p d => versions h p t d
  | UpdateWrite p d t0 => ∃ d0, knows_version h p t0 d0 ∧ versions h p t (d ∪ d0)
  end.

Lemma knows_grows h h' p t d : grows h h' → knows_version h p t d → knows_version h' p t d.
Proof. intros Hg [? ?]. split; [by eapply grows_versions|done]. Qed.

Lemma write_known_grows h h' w t : grows h h' → write_known h w t → write_known h' w t.
Proof.
  intros Hg. destruct w; cbn; [by apply grows_versions|]. intros (d0 & ? & ?).
  exists d0. split; [by eapply knows_grows|by eapply grows_versions].
Qed.

Lemma g_local {R A} (op : hosted_op R) (k : R → hosted A) Q h :
  local_op op = true → (∀ h' r, grows h h' → guarantees (k r) Q h') →
  guarantees (Call op k) Q h.
Proof.
  intros Hop Hk h' s r s' Hg Hi Hr. exists h'. split; [done|]. split; [|by apply Hk].
  by eapply unchanged_chained; [eapply respond_local|].
Qed.

Lemma g_get {A} p (k : result exception provider_snapshot → hosted A) Q h :
  (∀ h' r, grows h h' →
     match r with
     | Ok snap => snapshot_known h h' p snap ∧ absence_known h p snap
     | Raise _ => True end →
     guarantees (k r) Q h') →
  guarantees (Call (GetDocument p) k) Q h.
Proof.
  intros Hk h' s r s' Hg Hi Hr. exists h'. split; [done|]. split.
  - by eapply unchanged_chained; [eapply respond_local|].
  - apply Hk; [done|]. destruct r as [snap|e]; [|done]. split.
    2: { intros Habs He Hp t d Hv. pose proof (Habs _ _ _ _ Hr He Hp) as Hnone.
      destruct (chain_latest _ _ Hi p t d) as (d1 & t1 & Hcur & _); [by eapply grows_versions|].
      by rewrite Hnone in Hcur. }
    intros d t He Hd Ht Hp. pose proof (respond_get _ _ _ _ Hr d t He Hd Ht Hp) as Hs.
    pose proof (chain_current _ _ Hi _ _ _ Hs) as Hv.
    split; [split; [done|by eapply chain_origin]|]. intros t0 d0 H0.
    destruct (chain_latest _ _ Hi p t0 d0) as (d1 & t1 & Hcur & Hle); [by eapply grows_versions|].
    rewrite Hs in Hcur. injection Hcur as <- <-. done.
Qed.

Definition with_id (h : history) (id : string) (i : nat) : history :=
  {| versions := versions h; drew id' j := drew h id' j ∨ (id' = id ∧ j = i) |}.

Lemma g_uuid {A} i (k : string → hosted A) Q h :
  (∀ h' id, grows h h' → drew h' id i → undrawn h id → guarantees (k id) Q h') →
  guarantees (Call NewUuid k) Q h.
Proof.
  intros Hk h' s id s' Hg Hi Hr. destruct (respond_uuid _ _ _ Hr) as (Hu & Hnew & Hused).
  assert (grows h' (with_id h' id i)) as Hg' by (split; cbn; auto).
  exists (with_id h' id i). split; [done|]. split.
  - pose proof (unchanged_chained _ _ _ Hu Hi) as []. split; cbn; eauto.
    + intros ws Hws. destruct (chain_pending0 ws Hws) as [Ha Hn]. split; [|done].
      eapply Forall_impl; [exact Ha|]. intros w. by apply allowed_grows.
    + intros p t d Hv. eapply drawn_grows; [exact Hg'|by eapply chain_drawn0].
    + intros id' j [Hd|[-> ->]]; eauto.
    + intros id' j j' [Hd|[-> ->]] [Hd'|[? ->]]; subst; eauto;
        destruct Hnew; by eapply chain_drew.
  - apply Hk; [by etrans|by right|]. intros j Hj. destruct Hnew.
    eapply chain_drew; [exact Hi|by eapply grows_drew].
Qed.

Lemma applied_known ws ts s s' h :
  chained s h → applied ws ts s s' → Forall2 (write_known (record_versions h s')) ws ts.
Proof.
  intros Hc Ha. pose proof (applied_written _ _ _ _ Ha) as Hw.
  eapply Forall2_impl; [exact Hw|]. intros w t (Hpre & Hs & _).
  destruct w as [p d|p d t0]; cbn in *; [by right|]. destruct Hpre as [d0 Hd0].
  exists d0. rewrite Hd0 in Hs. pose proof (chain_current _ _ Hc _ _ _ Hd0) as Hv.
  split; [|by right]. split; [by left|by eapply chain_origin].
Qed.

Lemma pending_from_chained ws s s' h :
  chained s h → Forall (allowed h) ws → NoDup (map write_path ws) →
  pending_from (λ ws', ws' = ws) s s' →
  ∀ ws', pending s' ws' → Forall (allowed h) ws' ∧ NoDup (map write_path ws').
Proof.
  intros Hc Ha Hn [Hp _] ws' [Hws| ->]%Hp; [by eapply chain_pending|done].
Qed.

Lemma same_stored_chained s s' h :
  chained s h → (∀ p, stored s' p = stored s p) →
  (∀ ws', pending s' ws' → Forall (allowed h) ws' ∧ NoDup (map write_path ws')) →
  (∀ id, used_ids s id → used_ids s' id) → chained s' h.
Proof.
  intros [] Hs Hp Hi. split; eauto.
  - intros p d t. rewrite Hs. eauto.
  - intros p t d Hv. rewrite Hs. eauto.
Qed.

Lemma g_commit {A} ws (k : result exception (list provider_time) → hosted A) Q h :
  Forall (allowed h) ws → NoDup (map write_path ws) →
  (∀ h' r, grows h h' →
     match r with
     | Ok rs => ∀ ts, rs = map AwareTime ts → Forall2 (write_known h') ws ts
     | Raise _ => True
     end → guarantees (k r) Q h') →
  guarantees (Call (CommitBatch ws) k) Q h.
Proof.
  intros Hall Hn Hk h' s r s' Hg Hi Hr.
  assert (Forall (allowed h') ws) as Hall'
    by (eapply Forall_impl; [exact Hall|]; intros w; by apply allowed_grows).
  destruct r as [rs|e].
  - destruct (respond_commit_ok _ _ _ _ Hr Hn) as (ts & Ha & Hp & Hts).
    exists (record_versions h' s'). pose proof (record_grows _ _ _ _ _ Hi Ha Hall') as Hg'.
    split; [done|]. split.
    + eapply applied_chained; [done..| |by destruct Hp].
      intros ws' Hws'. destruct Hp as [Hp _]. destruct (Hp _ Hws') as [?|[]].
      by eapply chain_pending.
    + apply Hk; [by etrans|]. intros ts' ->. rewrite (Hts ts' eq_refl).
      by eapply applied_known.
  - destruct (respond_commit_error _ _ _ _ Hr Hn) as [Hp [Hs|(ts & Ha)]].
    + exists h'. split; [done|]. split; [|by apply Hk].
      eapply same_stored_chained; [done..| |by destruct Hp]. by eapply pending_from_chained.
    + exists (record_versions h' s'). pose proof (record_grows _ _ _ _ _ Hi Ha Hall') as Hg'.
      split; [done|]. split; [|by apply Hk; [etrans|]].
      eapply applied_chained; [done..| |by destruct Hp]. by eapply pending_from_chained.
Qed.

Lemma background_chained s h s' :
  chained s h → background s s' → ∃ h', grows h h' ∧ chained s' h'.
Proof.
  intros Hi Hb. destruct (background_applies _ _ Hb) as [[Hp Hid] Hcase].
  assert (∀ ws', pending s' ws' → Forall (allowed h) ws' ∧ NoDup (map write_path ws')) as Hpe.
  { intros ws' Hws'. destruct (Hp _ Hws') as [?|[]]. by eapply chain_pending. }
  destruct Hcase as [Hs|(ws & ts & Hws & Ha)].
  - exists h. split; [done|]. by eapply same_stored_chained.
  - exists (record_versions h s'). destruct (chain_pending _ _ Hi _ Hws) as [Hall _].
    split; [by eapply record_grows|by eapply applied_chained].
Qed.

(** ** What is known when a procedure returns

    [returns m Q h]: from [h] on, [m] keeps the discipline, and when it returns
    [a], [Q h' a] holds of the history [h'] there and of every later one. *)

Definition returns {A} (m : hosted A) (Q : history → A → Prop) (h : history) : Prop :=
  guarantees m (λ h' r, match r with
    | Ok a => ∀ h'', grows h' h'' → Q h'' a | Raise _ => True end) h.

Lemma r_grows {A} (m : hosted A) Q h h' : grows h h' → returns m Q h → returns m Q h'.
Proof. apply wp_grows, _. Qed.

Lemma r_mono {A} (m : hosted A) (P Q : history → A → Prop) h :
  returns m P h → (∀ h' a, grows h h' → P h' a → Q h' a) → returns m Q h.
Proof.
  intros Hm HPQ. eapply after_mono; [apply _|exact Hm|]. intros h' [a|e] Hg HP; [|done].
  intros h'' Hg'. apply HPQ; [by etrans|auto].
Qed.

Lemma r_ret {A} (a : A) Q h : (∀ h', grows h h' → Q h' a) → returns (mret a) Q h.
Proof. intros HQ h' Hg h'' Hg'. apply HQ. by etrans. Qed.

Lemma r_raise {A} e (Q : history → A → Prop) h : returns (raise e) Q h.
Proof. by intros h' Hg. Qed.

Lemma r_lift {A} (r : result exception A) Q h :
  (∀ a h', r = Ok a → grows h h' → Q h' a) → returns (lift r) Q h.
Proof. destruct r as [a|e]; intros HQ; [apply r_ret; auto|apply r_raise]. Qed.

Lemma r_bind {A B} (m : hosted A) (f : A → hosted B) Q h :
  returns m (λ h' a, returns (f a) Q h') h → returns (m ≫= f) Q h.
Proof.
  intros Hm. apply after_bind; [apply _|]. eapply after_mono; [apply _|exact Hm|].
  intros h' [a|e] Hg Ha; [by apply Ha|done].
Qed.

Lemma r_catch {A} (m : hosted A) (handler : exception → hosted A) Q h :
  returns m Q h → (∀ e h', grows h h' → returns (handler e) Q h') →
  returns (catch m handler) Q h.
Proof.
  intros Hm Hh. apply after_catch; [apply _|]. eapply after_mono; [apply _|exact Hm|].
  intros h' [a|e] Hg Ha; [|by apply Hh].
  intros h'' Hg' h3 Hg3. apply Ha. by etrans.
Qed.

Lemma r_local {A} (op : hosted_op (result exception A)) Q h :
  local_op op = true → (∀ h' a, grows h h' → Q h' a) → returns (perform op) Q h.
Proof.
  intros Hop HQ. apply g_local; [done|]. intros h' [a|e] Hg; [|done].
  intros h'' Hg' h3 Hg3. apply HQ. etrans; [done|]. by etrans.
Qed.

Lemma r_await {A} (op : hosted_op A) Q h :
  local_op op = true → (∀ h' a, grows h h' → Q h' a) → returns (await op) Q h.
Proof.
  intros Hop HQ. apply g_local; [done|]. intros h' a Hg h'' Hg' h3 Hg3.
  apply HQ. etrans; [done|]. by etrans.
Qed.

Lemma r_get p h :
  returns (perform (GetDocument p))
    (λ h' snap, snapshot_known h h' p snap ∧ absence_known h p snap) h.
Proof.
  apply g_get. intros h' [snap|e] Hg Hr; [|done]. destruct Hr as [Hs Ha]. intros h'' Hg' h3 Hg3.
  split; [|exact Ha]. intros d t He Hd Ht Hp.
  destruct (Hs d t He Hd Ht Hp) as [Hv Hr]. split; [|done]. eapply knows_grows; [|exact Hv]. by etrans.
Qed.

Lemma r_uuid i h : returns (await NewUuid) (λ h' id, drew h' id i ∧ undrawn h id) h.
Proof.
  apply (g_uuid i). intros h' id Hg Hd Hu h'' Hg' h3 Hg3.
  split; [|done]. eapply grows_drew; [|exact Hd]. by etrans.
Qed.

Lemma r_commit ws h :
  Forall (allowed h) ws → NoDup (map write_path ws) →
  returns (perform (CommitBatch ws)) (λ h' rs,
    ∀ ts, rs = map AwareTime ts → Forall2 (write_known h') ws ts) h.
Proof.
  intros Ha Hn. apply g_commit; [done..|]. intros h' [rs|e] Hg Hr; [|done].
  intros h'' Hg' h3 Hg3 ts Hts. eapply Forall2_impl; [by apply Hr|].
  intros w t. apply write_known_grows. by etrans.
Qed.

(** ** Many writers *)

(** A database nobody has written to yet. *)
Definition fresh_database (s : fs_state) : Prop :=
  (∀ p, stored s p = None) ∧ (∀ ws, ¬ pending s ws).

Definition no_history : history :=
  {| versions _ _ _ := False; drew _ _ := False |}.

Lemma fresh_chained s : fresh_database s → chained s no_history.
Proof. intros [Hs Hp]. split; cbn; try done; [intros ???; by rewrite Hs|by intros ? []%Hp]. Qed.

(** Procedures that guarantee [Q] on an empty database: after any interleaving
    the versions of every path are chained, and each procedure that ended
    satisfies [Q]. *)
Lemma writers_adequate {A} (clients : list (hosted A))
  (Q : nat → history → result exception A → Prop) s0 s ps :
  fresh_database s0 →
  (∀ i m, clients !! i = Some m → guarantees m (Q i) no_history) →
  rtc (pool_step respond background) (s0, clients) (s, ps) →
  ∃ h, chained s h ∧ ∀ i r, ps !! i = Some (Done r) → Q i h r.
Proof.
  intros Hf Hg Hrun.
  destruct (pool_adequate respond background grows chained Q background_chained
    (s0, clients) (s, ps) no_history) as (h & _ & Hc & Hq); [|done|].
  - split; [by apply fresh_chained|done].
  - exists h. split; [done|]. intros i r Hi. by apply (Hq i _ Hi h).
Qed.

(** The same for the clients that make [calls] and return what [run] does. *)
Lemma calls_return {C A} (run : C → hosted A) (P : nat → C → history → A → Prop) calls s0 s ps :
  fresh_database s0 →
  (∀ i c h, returns (run c) (P i c) h) →
  rtc (pool_step respond background) (s0, map run calls) (s, ps) →
  ∃ h, chained s h ∧ ∀ i c r, calls !! i = Some c → ps !! i = Some (Done (Ok r)) → P i c h r.
Proof.
  intros Hf HP Hrun.
  destruct (writers_adequate (map run calls) (λ i h r, ∀ c, calls !! i = Some c →
    match r with Ok a => ∀ h', grows h h' → P i c h' a | Raise _ => True end)
    s0 s ps Hf) as (h & Hc & Hq); [|done|].
  - intros i m Hm. rewrite list_lookup_fmap in Hm. apply fmap_Some in Hm as (c & Hc & ->).
    eapply after_mono; [apply _|apply (HP i c)|]. intros h' [a|e] _ Ha c' Hc'; [|done].
    by replace c' with c by congruence.
  - exists h. split; [done|]. intros i c r Hi Hr. by apply (Hq i _ Hr c Hi h).
Qed.

End protocol.
