(* ===== verification/FirestoreCas.v ===== *)
(** Compare-and-swap documents in Firestore (reconcile/hosted/firestore_cas.py):
    the fixed wrapper around one canonical payload, its document path, and
    [GoogleFirestoreCasStore]'s reads, creates and conditional updates with the
    resolution of ambiguous commits.

    The SDK's client, references and batches are operations that may fail; a
    batch's writes are the list its commit is given.  The lock and the cache of
    [_client] are one operation.  The reads [asyncio.gather] starts together are
    awaited in order. *)

From S2P Require Export Exceptions JsonRoundTrip.

#[local] Open Scope Z_scope.

Definition FIRESTORE_CAS_DOCUMENT_VERSION : string := "reconcile/firestore-cas-document/v1".
Definition FIRESTORE_CAS_PAYLOAD_BYTE_CEILING : Z := 900000.
Definition FIRESTORE_CAS_AMBIGUOUS_READ_CONCURRENCY : nat := 32.

Definition _WRAPPER_FIELDS : gset string :=
  {["schema_version"; "kind"; "logical_id"; "revision"; "mutation_id";
    "canonical_payload"; "payload_sha256"]}.

Definition _RECOVERY_MIGRATION_SOURCE_VERSIONS : list string :=
  ["reconcile/firestore-recovery-state/v1"; "reconcile/recovery-run-aggregate/v1"].
Definition _RECOVERY_MIGRATION_TARGET_VERSION : string :=
  "reconcile/firestore-recovery-state/v2".

Inductive FirestoreCasCollection :=
  | C_RUNTIME | C_SCENARIO | C_SCENARIO_INDEX | C_PROVIDER_CANDIDATE | C_ACTION_PERMIT
  | C_RECOVERY_RUN | C_RECOVERY_RUN_EVENT | C_OPERATIONAL_EVENT.

#[export] Instance FirestoreCasCollection_eq_dec : EqDecision FirestoreCasCollection.
Proof. solve_decision. Defined.

Definition FirestoreCasCollection_value (c : FirestoreCasCollection) : string :=
  match c with
  | C_RUNTIME => "reconcile-p5-runtime-v1"
  | C_SCENARIO => "reconcile-p5-scenario-v1"
  | C_SCENARIO_INDEX => "reconcile-p5-scenario-index-v1"
  | C_PROVIDER_CANDIDATE => "reconcile-p5-provider-candidates-v1"
  | C_ACTION_PERMIT => "reconcile-action-permits-v1"
  | C_RECOVERY_RUN => "reconcile-recovery-runs-v1"
  | C_RECOVERY_RUN_EVENT => "reconcile-recovery-run-events-v1"
  | C_OPERATIONAL_EVENT => "reconcile-operational-events-v1"
  end.

Record FirestoreCasDocument := {
  fd_kind : FirestoreCasCollection;
  fd_logical_id : string;
  fd_revision : Z;
  fd_mutation_id : string;
  fd_canonical_payload : string;
  fd_payload_sha256 : string;
}.

#[export] Instance FirestoreCasDocument_eq_dec : EqDecision FirestoreCasDocument.
Proof. solve_decision. Defined.

Record FirestoreCasSnapshot := {
  sn_collection : FirestoreCasCollection;
  sn_document_key : string;
  sn_document : FirestoreCasDocument;
  sn_update_time : datetime;
}.

(** ** Documents *)

Section documents.
Context {rt : Runtime} {sec : Security} {fp : FloatParser}.

Definition _canonical_payload_text (value : string) : result py_error string :=
  reject_if (negb (valid_utf8 value)) (ValueError "canonical payload is not UTF-8");;
  let size := Z.of_nat (String.length value) in
  reject_if ((size =? 0) || (FIRESTORE_CAS_PAYLOAD_BYTE_CEILING <? size))
    (ValueError "canonical payload is outside its byte bounds");;
  canonical ← map_error (λ _, ValueError "canonical payload is invalid")
    (decoded ← loads value;
     reject_if (match decoded with JObj _ => false | _ => true end)
       (ValueError "canonical payload must be a JSON object");;
     canonical_json_value_bytes decoded);
  reject_if (negb (bool_decide (canonical = value)))
    (ValueError "canonical payload is not in canonical form");;
  Ok value.

Definition _canonical_payload_schema_version (document : FirestoreCasDocument)
  : result py_error string :=
  payload ← map_error (λ _, ValueError "Firestore CAS payload schema version is unavailable")
    (loads (fd_canonical_payload document));
  match payload with
  | JObj m =>
      match dict_get "schema_version" m with
      | Some (JStr version) => Ok version
      | Some _ => Raise (ValueError "Firestore CAS payload schema version is invalid")
      | None => Raise (ValueError "Firestore CAS payload schema version is unavailable")
      end
  | _ => Raise (ValueError "Firestore CAS payload schema version is unavailable")
  end.

(** [FirestoreCasDocument.validate_payload] *)
Definition validate_payload (self : FirestoreCasDocument) : result py_error unit :=
  canonical ← _canonical_payload_text (fd_canonical_payload self);
  reject_if (negb (bool_decide (sha256_hex canonical = fd_payload_sha256 self)))
    (ValueError "canonical payload digest does not match").

(** [FirestoreCasDocument(...)]: the field types, then the validator. *)
Definition construct_document (d : FirestoreCasDocument) : result py_error FirestoreCasDocument :=
  validate_Identifier (fd_logical_id d);;
  reject_if (negb (in_range 0 (fd_revision d) int64_max)) (ValueError "revision is outside its range");;
  validate_Identifier (fd_mutation_id d);;
  validate_Sha256Digest (fd_payload_sha256 d);;
  validate_payload d;;
  Ok d.

(** [_logical_id] *)
Definition _logical_id (value : string) : result py_error string :=
  map_error (λ _, ValueError "Firestore CAS logical identifier is invalid")
    (validate_Identifier value);;
  Ok value.

(** The key and the path of an identity, once it is known to be one. *)
Definition key_text (collection : FirestoreCasCollection) (identity : string) : string :=
  sha256_hex (FirestoreCasCollection_value collection +:+ byte_string 0 +:+ identity).
Definition path_text (collection : FirestoreCasCollection) (identity : string) : string :=
  FirestoreCasCollection_value collection +:+ "/" +:+ key_text collection identity.

Definition firestore_cas_document_key (collection : FirestoreCasCollection)
  (logical_id : string) : result py_error string :=
  identity ← _logical_id logical_id;
  Ok (key_text collection identity).

Definition firestore_cas_document_path (collection : FirestoreCasCollection)
  (logical_id : string) : result py_error string :=
  key ← firestore_cas_document_key collection logical_id;
  Ok (FirestoreCasCollection_value collection +:+ "/" +:+ key).

Definition build_firestore_cas_document (collection : FirestoreCasCollection)
  (logical_id : string) (revision : Z) (mutation_id canonical_payload : string)
  : result py_error FirestoreCasDocument :=
  identity ← _logical_id logical_id;
  payload ← _canonical_payload_text canonical_payload;
  construct_document
    {| fd_kind := collection; fd_logical_id := identity; fd_revision := revision;
       fd_mutation_id := mutation_id; fd_canonical_payload := payload;
       fd_payload_sha256 := sha256_hex payload |}.

(** [path.rsplit("/", 1)[1]] *)
Fixpoint has_slash (s : string) : bool :=
  match s with EmptyString => false | String c r => (char_code c =? 47)%N || has_slash r end.
Fixpoint last_segment (s : string) : string :=
  match s with
  | EmptyString => ""
  | String c r =>
      if has_slash r then last_segment r
      else if (char_code c =? 47)%N then r else s
  end.

(** [_DOCUMENT_KEY_PATTERN.fullmatch] *)
Definition document_key_pattern (s : string) : bool :=
  (String.length s =? 64)%nat && string_forallb is_hex_digit s.

(** [FirestoreCasSnapshot.__post_init__] *)
Definition construct_snapshot (s : FirestoreCasSnapshot) : result py_error FirestoreCasSnapshot :=
  expected_key ← firestore_cas_document_key (sn_collection s) (fd_logical_id (sn_document s));
  reject_if (negb (bool_decide (fd_kind (sn_document s) = sn_collection s))
             || negb (document_key_pattern (sn_document_key s))
             || negb (bool_decide (sn_document_key s = expected_key)))
    (ValueError "Firestore CAS snapshot target is invalid");;
  Ok s.

(** ** Stored data *)

(** [document.model_dump(mode="json")] *)
Definition document_fields (d : FirestoreCasDocument) : json_object :=
  [("schema_version", JStr FIRESTORE_CAS_DOCUMENT_VERSION);
   ("kind", JStr (FirestoreCasCollection_value (fd_kind d)));
   ("logical_id", JStr (fd_logical_id d));
   ("revision", JInt (fd_revision d));
   ("mutation_id", JStr (fd_mutation_id d));
   ("canonical_payload", JStr (fd_canonical_payload d));
   ("payload_sha256", JStr (fd_payload_sha256 d))].

(** [_document_data] *)
Definition data_of (d : FirestoreCasDocument) : document_data :=
  list_to_map (document_fields d).
Definition _document_data (d : FirestoreCasDocument) : result exception document_data :=
  let data := data_of d in
  reject_if (negb (bool_decide (dom data = _WRAPPER_FIELDS)))
    (FirestoreCasError Cas_CORRUPT_DOCUMENT);;
  Ok data.

Definition _aware_utc (value : provider_time) : result py_error datetime :=
  match value with
  | AwareTime t => Ok t
  | _ => Raise (ValueError "provider timestamp is invalid")
  end.

Definition stored_text (name : string) (data : document_data) : result py_error string :=
  match data !! name with
  | Some (JStr s) => Ok s
  | _ => Raise (ValueError "a wrapper field is not text")
  end.

(** [FirestoreCasDocument.model_validate(normalized)], the kind set to the
    collection that was asked for. *)
Definition validate_wrapper (collection : FirestoreCasCollection) (data : document_data)
  : result py_error FirestoreCasDocument :=
  version ← stored_text "schema_version" data;
  reject_if (negb (bool_decide (version = FIRESTORE_CAS_DOCUMENT_VERSION)))
    (ValueError "wrapper version is unsupported");;
  logical_id ← stored_text "logical_id" data;
  revision ← match data !! "revision" with
             | Some (JInt z) => Ok z
             | _ => Raise (ValueError "revision is not an integer") end;
  mutation_id ← stored_text "mutation_id" data;
  payload ← stored_text "canonical_payload" data;
  digest ← stored_text "payload_sha256" data;
  construct_document
    {| fd_kind := collection; fd_logical_id := logical_id; fd_revision := revision;
       fd_mutation_id := mutation_id; fd_canonical_payload := payload;
       fd_payload_sha256 := digest |}.

(** [_decode_snapshot] *)
Definition _decode_snapshot (snapshot : provider_snapshot)
  (collection : FirestoreCasCollection) (logical_id expected_path : string)
  : result exception (option FirestoreCasSnapshot) :=
  map_error (λ _ : py_error, FirestoreCasError Cas_CORRUPT_DOCUMENT)
    (reject_if (negb (bool_decide (ps_reference_path snapshot = expected_path)))
       (ValueError "provider reference path does not match");;
     _aware_utc (ps_read_time snapshot);;
     if ps_exists snapshot then
       match ps_data snapshot with
       | None => Raise (ValueError "provider document wrapper is not exact")
       | Some data =>
           reject_if (negb (bool_decide (dom data = _WRAPPER_FIELDS)))
             (ValueError "provider document wrapper is not exact");;
           reject_if (negb (bool_decide
               (data !! "kind" = Some (JStr (FirestoreCasCollection_value collection)))))
             (ValueError "provider document kind does not match");;
           document ← validate_wrapper collection data;
           reject_if (negb (bool_decide (fd_logical_id document = logical_id)))
             (ValueError "provider document identity does not match");;
           update_time ← _aware_utc (ps_update_time snapshot);
           snap ← construct_snapshot
             {| sn_collection := collection; sn_document_key := last_segment expected_path;
                sn_document := document; sn_update_time := update_time |};
           Ok (Some snap)
       end
     else
       reject_if (is_some (ps_data snapshot)
                  || match ps_update_time snapshot with NoTime => false | _ => true end)
         (ValueError "missing provider document is malformed");;
       Ok None).

(** ** The store *)

(** [try: ... except asyncio.CancelledError: raise
    except Exception: raise error] *)
Definition except_raise {A} (error : exception) (m : hosted A) : hosted A :=
  catch m (λ e, match e with CancelledError => raise CancelledError | _ => raise error end).

Definition unavailable : exception := FirestoreCasError Cas_PROVIDER_UNAVAILABLE.
Definition outcome_unknown : exception := FirestoreCasError Cas_OUTCOME_UNKNOWN.

Definition _client : hosted unit := except_raise unavailable (perform AcquireClient).

Definition _reference (collection : FirestoreCasCollection) (logical_id : string)
  : hosted string :=
  expected_path ← lift (checked (firestore_cas_document_path collection logical_id));
  path ← except_raise unavailable
    (perform (MakeReference (FirestoreCasCollection_value collection)
                            (last_segment expected_path)));
  if bool_decide (path = expected_path) then mret path
  else raise (FirestoreCasError Cas_CORRUPT_DOCUMENT).

(** [GoogleFirestoreCasStore.read] *)
Definition cas_read (collection : FirestoreCasCollection) (logical_id : string)
  : hosted (option FirestoreCasSnapshot) :=
  identity ← lift (checked (_logical_id logical_id));
  _client;;
  reference ← _reference collection identity;
  snapshot ← except_raise unavailable (perform (GetDocument reference));
  lift (_decode_snapshot snapshot collection identity reference).

Definition _new_batch : hosted unit := except_raise unavailable (perform NewBatch).

(** [batch.create(reference, _document_data(document))] and
    [batch.update(reference, _document_data(replacement), option=...)] *)
Definition stage_create (reference : string) (document : FirestoreCasDocument)
  : hosted write :=
  except_raise unavailable
    (data ← lift (_document_data document);
     perform (StageWrite (CreateWrite reference data));;
     mret (CreateWrite reference data)).
Definition stage_update (reference : string) (document : FirestoreCasDocument)
  (last_update_time : datetime) : hosted write :=
  except_raise unavailable
    (data ← lift (_document_data document);
     perform (StageWrite (UpdateWrite reference data last_update_time));;
     mret (UpdateWrite reference data last_update_time)).

Fixpoint aware_times (results : list provider_time) : option (list datetime) :=
  match results with
  | [] => Some []
  | AwareTime t :: results' => cons t <$> aware_times results'
  | _ :: _ => None
  end.

(** [_commit] *)
Definition _commit (batch : list write) (expected_writes : nat) : hosted (list datetime) :=
  lift (reject_if (negb (in_range 1 (Z.of_nat expected_writes) 500))
          (PyError (ValueError "Firestore CAS commit size is invalid")));;
  results ← catch (perform (CommitBatch batch))
    (λ e, match e with
          | CancelledError => raise CancelledError
          | ContentionError => raise (FirestoreCasError Cas_CONFLICT)
          | _ => raise AmbiguousWrite
          end);
  if (length results =? expected_writes)%nat then
    match aware_times results with
    | Some times => mret times
    | None => raise AmbiguousWrite
    end
  else raise AmbiguousWrite.

(** [try: ... = await self._commit(batch) except _AmbiguousWrite: ...] *)
Definition commit_or_ambiguous (batch : list write) (expected_writes : nat)
  : hosted (option (list datetime)) :=
  catch (times ← _commit batch expected_writes; mret (Some times))
    (λ e, match e with AmbiguousWrite => mret None | _ => raise e end).

(** [_documents_equal] *)
Definition _documents_equal (left right : FirestoreCasDocument) : bool :=
  bool_decide (left = right)
  && bool_decide (fd_mutation_id left = fd_mutation_id right).

Definition _resolve_ambiguous (document : FirestoreCasDocument)
  : hosted FirestoreCasSnapshot :=
  current ← except_raise outcome_unknown
    (cas_read (fd_kind document) (fd_logical_id document));
  match current with
  | Some snap =>
      if _documents_equal (sn_document snap) document then mret snap
      else raise outcome_unknown
  | None => raise outcome_unknown
  end.

Definition _resolve_ambiguous_pair (first second : FirestoreCasDocument)
  : hosted (FirestoreCasSnapshot * FirestoreCasSnapshot) :=
  current ← except_raise outcome_unknown
    (first_current ← cas_read (fd_kind first) (fd_logical_id first);
     second_current ← cas_read (fd_kind second) (fd_logical_id second);
     mret (first_current, second_current));
  match current with
  | (Some a, Some b) =>
      if _documents_equal (sn_document a) first && _documents_equal (sn_document b) second
      then mret (a, b) else raise outcome_unknown
  | _ => raise outcome_unknown
  end.

(** Every snapshot is there and holds the document that was written. *)
Definition all_resolved (current : list (option FirestoreCasSnapshot))
  (documents : list FirestoreCasDocument) : option (list FirestoreCasSnapshot) :=
  if forallb (λ '(snapshot, document), match snapshot with
                | Some snap => _documents_equal (sn_document snap) document
                | None => false end) (zip current documents)
  then Some (omap id current) else None.

Definition _resolve_ambiguous_many (documents : list FirestoreCasDocument)
  : hosted (list FirestoreCasSnapshot) :=
  current ← except_raise outcome_unknown
    (gather (λ document, cas_read (fd_kind document) (fd_logical_id document)) documents);
  match all_resolved current documents with
  | Some snaps => mret snaps
  | None => raise outcome_unknown
  end.

(** The snapshot of a write that was acknowledged. *)
Definition written_snapshot (reference : string) (document : FirestoreCasDocument)
  (update_time : datetime) : result exception FirestoreCasSnapshot :=
  checked (construct_snapshot
    {| sn_collection := fd_kind document; sn_document_key := last_segment reference;
       sn_document := document; sn_update_time := update_time |}).

Fixpoint written_snapshots (l : list (string * (FirestoreCasDocument * datetime)))
  : result exception (list FirestoreCasSnapshot) :=
  match l with
  | [] => Ok []
  | (reference, (document, update_time)) :: l' =>
      snap ← written_snapshot reference document update_time;
      snaps ← written_snapshots l';
      Ok (snap :: snaps)
  end.

(** The end of a single write: its acknowledged snapshot, or the resolution. *)
Definition finish_write (reference : string) (document : FirestoreCasDocument)
  (w : write) : hosted FirestoreCasSnapshot :=
  outcome ← commit_or_ambiguous [w] 1;
  match outcome with
  | Some [update_time] => lift (written_snapshot reference document update_time)
  | Some _ => raise (PyError (ValueError "wrong number of values to unpack"))
  | None => _resolve_ambiguous document
  end.

(** [GoogleFirestoreCasStore.create] *)
Definition cas_create (document : FirestoreCasDocument) : hosted FirestoreCasSnapshot :=
  _client;;
  reference ← _reference (fd_kind document) (fd_logical_id document);
  _new_batch;;
  w ← stage_create reference document;
  finish_write reference document w.

(** The guard of [update]. *)
Definition advances_target (current : FirestoreCasSnapshot)
  (replacement : FirestoreCasDocument) : bool :=
  bool_decide (fd_kind replacement = sn_collection current)
  && bool_decide (fd_logical_id replacement = fd_logical_id (sn_document current))
  && (fd_revision replacement =? fd_revision (sn_document current) + 1)
  && negb (bool_decide (fd_mutation_id replacement = fd_mutation_id (sn_document current))).

(** [GoogleFirestoreCasStore.update] *)
Definition cas_update (current : FirestoreCasSnapshot) (replacement : FirestoreCasDocument)
  : hosted FirestoreCasSnapshot :=
  lift (reject_if (negb (advances_target current replacement))
    (PyError (ValueError "Firestore CAS replacement does not advance its target")));;
  _client;;
  reference ← _reference (fd_kind replacement) (fd_logical_id replacement);
  _new_batch;;
  w ← stage_update reference replacement (sn_update_time current);
  finish_write reference replacement w.

(** [GoogleFirestoreCasStore.rewrite_recovery_run] *)
Definition cas_rewrite_recovery_run (current : FirestoreCasSnapshot)
  (replacement : FirestoreCasDocument) : hosted FirestoreCasSnapshot :=
  lift (reject_if
    (negb (bool_decide (sn_collection current = C_RECOVERY_RUN)
           && bool_decide (fd_kind replacement = sn_collection current)
           && bool_decide (fd_logical_id replacement = fd_logical_id (sn_document current))
           && (fd_revision replacement =? fd_revision (sn_document current))
           && negb (bool_decide
                (fd_mutation_id replacement = fd_mutation_id (sn_document current)))))
    (PyError (ValueError "Firestore recovery rewrite changed its logical identity")));;
  source_version ← lift (checked (_canonical_payload_schema_version (sn_document current)));
  target_version ← lift (checked (_canonical_payload_schema_version replacement));
  lift (reject_if (negb (inb source_version _RECOVERY_MIGRATION_SOURCE_VERSIONS)
                   || negb (bool_decide (target_version = _RECOVERY_MIGRATION_TARGET_VERSION)))
    (PyError (ValueError "Firestore recovery rewrite is not a supported migration")));;
  _client;;
  reference ← _reference (fd_kind replacement) (fd_logical_id replacement);
  _new_batch;;
  w ← stage_update reference replacement (sn_update_time current);
  finish_write reference replacement w.

(** The paths and mutation identifiers of a batch must differ. *)
Definition distinct_identities (documents : list FirestoreCasDocument)
  (message : string) : result py_error unit :=
  let fix paths l := match l with
    | [] => Ok []
    | d :: l' =>
        path ← firestore_cas_document_path (fd_kind d) (fd_logical_id d);
        rest ← paths l'; Ok (path :: rest)
    end in
  all_paths ← paths documents;
  reject_if (has_dup (A := string) all_paths || has_dup (map fd_mutation_id documents))
    (ValueError message).

(** The end of a batch: the acknowledged snapshots, or the resolution. *)
Definition finish_batch (references : list string)
  (documents : list FirestoreCasDocument) (batch : list write)
  : hosted (list FirestoreCasSnapshot) :=
  outcome ← commit_or_ambiguous batch (length documents);
  match outcome with
  | Some update_times =>
      lift (written_snapshots (zip references (zip documents update_times)))
  | None => _resolve_ambiguous_many documents
  end.

(** [GoogleFirestoreCasStore.create_many] *)
Definition cas_create_many (documents : list FirestoreCasDocument)
  : hosted (list FirestoreCasSnapshot) :=
  lift (reject_if (negb (in_range 1 (Z.of_nat (length documents)) 500))
    (PyError (TypeError "Firestore CAS create documents must be an exact tuple")));;
  lift (checked (distinct_identities documents
    "Firestore CAS create identities must be distinct"));;
  _client;;
  references ← gather (λ d, _reference (fd_kind d) (fd_logical_id d)) documents;
  _new_batch;;
  batch ← gather (λ '(reference, document), stage_create reference document)
    (zip references documents);
  finish_batch references documents batch.

(** [GoogleFirestoreCasStore.create_pair] *)
Definition cas_create_pair (first second : FirestoreCasDocument)
  : hosted (FirestoreCasSnapshot * FirestoreCasSnapshot) :=
  created ← cas_create_many [first; second];
  match created with
  | a :: b :: _ => mret (a, b)
  | _ => raise (PyError (KeyError "tuple index out of range"))
  end.

(** [GoogleFirestoreCasStore.update_and_create_many] *)
Definition cas_update_and_create_many (current : FirestoreCasSnapshot)
  (replacement : FirestoreCasDocument) (created : list FirestoreCasDocument)
  : hosted (list FirestoreCasSnapshot) :=
  lift (reject_if (negb (in_range 1 (Z.of_nat (length created)) 499))
    (PyError (TypeError "Firestore CAS companion documents must be an exact tuple")));;
  lift (reject_if (negb (advances_target current replacement))
    (PyError (ValueError "Firestore CAS replacement does not advance its target")));;
  let documents := replacement :: created in
  lift (checked (distinct_identities documents
    "Firestore CAS mutation identities must be distinct"));;
  _client;;
  references ← gather (λ d, _reference (fd_kind d) (fd_logical_id d)) documents;
  _new_batch;;
  match references with
  | [] => raise unavailable
  | reference :: companions =>
      w ← stage_update reference replacement (sn_update_time current);
      ws ← gather (λ '(reference, document), stage_create reference document)
        (zip companions created);
      finish_batch references documents (w :: ws)
  end.

(** [new_firestore_cas_mutation_id] *)
Definition new_firestore_cas_mutation_id : hosted string :=
  uuid ← await NewUuid; mret ("mutation-" +:+ uuid).

End documents.
