(* ===== verification/FirestoreCasFacts.v ===== *)
(** What the compare-and-swap store guarantees to a writer that follows a
    protocol: a document it read is a version of its path, and a document it
    wrote - acknowledged, or found again after an ambiguous commit - is one.  First,
    the text the encoder writes for a JSON object is the payload text the store
    accepts.  Last, over records kept one to a document: each call that returned took
    effect at one point between two states of the stored record, and the points of all
    calls on a record are in one order ([linear], [calls_linear]). *)

From S2P Require Export FirestoreCas Decoding FirestoreService.

#[local] Open Scope Z_scope.

Section canonical.
Context {rt : Runtime} {sec : Security} {fp : FloatParser}.

(** ** A reloaded value is as valid *)

Lemma validate_json_reload depth v :
  validate_json depth v = Ok tt → validate_json depth (reload v) = Ok tt.
Proof.
  revert depth. induction v as [|b|z|f|s|l IH|m IH] using json_ind'; intros depth; try done.
  - cbn [reload]. rewrite !validate_json_array, Forall_map. intros [Hd Hl].
    split; [done|]. rewrite Forall_forall in *. auto.
  - rewrite reload_is, !validate_json_object. intros (Hd & Hlen & Hm).
    rewrite (reloaded_perm m), length_map, Forall_map. split_and!; [done..|].
    rewrite Forall_forall in *. intros kv Hkv. destruct (Hm kv Hkv) as (? & ? & ?).
    split_and!; [done..|]. by apply IH.
Qed.

(** ** Text written twice is written the same *)

(** Sorting entries forgets the order they came in. *)
Lemma entry_sort_perm (m n : json_object) :
  NoDup (map fst m) → m ≡ₚ n → merge_sort entry_le m = merge_sort entry_le n.
Proof.
  assert (Transitive entry_le) by (intros x y z; unfold entry_le; by etransitivity).
  assert (Total entry_le) by (intros x y; unfold entry_le; apply total, _).
  intros Hn. apply (merge_sort_ext entry_le fst); [|done].
  intros x y. unfold entry_le. apply (anti_symm str_le).
Qed.

Lemma dumps_reload v : plain_json v = true → dumps (reload v) = dumps v.
Proof.
  induction v as [|b|z|f|s|l IH|m IH] using json_ind'; intros Hp; try done.
  - cbn in *. rewrite forallb_forall in Hp. do 3 f_equal. rewrite map_map.
    apply map_ext_in. intros x Hx. rewrite Forall_forall in IH.
    apply IH; [by apply list_elem_of_In|auto].
  - pose proof Hp as Hp'. cbn in Hp'. apply andb_true_iff in Hp' as [Hn%bool_decide_eq_true Hl].
    rewrite reload_is.
    assert (NoDup (map fst (reloaded m))) as Hn' by (rewrite (reloaded_perm m); by rewrite map_map).
    rewrite !dumps_obj by done. do 3 f_equal.
    assert (merge_sort entry_le (reloaded m)
      = map (λ kv, (kv.1, reload kv.2)) (merge_sort entry_le m)) as ->.
    { pose proof (reload_obj m Hn) as Hr. rewrite reload_is in Hr. injection Hr as Hr.
      rewrite <-Hr. apply entry_sort_perm; [|apply reloaded_perm].
      by rewrite (reloaded_perm m), map_map. }
    rewrite map_map. apply map_ext_in. intros kv Hkv. unfold dump_member. cbn [fst snd].
    do 2 f_equal. rewrite Forall_forall in IH. rewrite forallb_forall in Hl.
    apply list_elem_of_In in Hkv. rewrite merge_sort_Permutation in Hkv.
    apply IH; [done|]. apply Hl. by apply list_elem_of_In.
Qed.


(** ** Properties *)

(** The canonical bytes of a JSON object are a canonical payload.  When the
    encoder writes an object whose integers fit 64 bits, that holds no floats
    and no duplicate keys and whose text is valid, the bytes read back as that
    object with its keys in order, and a document accepts them unchanged when
    they fit its ceiling. *)
Lemma canonical_payload_roundtrip m text :
  plain_json (JObj m) = true → encodable (JObj m) = true →
  canonical_json_value_bytes (JObj m) = Ok text →
  Z.of_nat (String.length text) <= FIRESTORE_CAS_PAYLOAD_BYTE_CEILING →
  loads text = Ok (reload (JObj m)) ∧ _canonical_payload_text text = Ok text.
Proof.
  intros Hp He Ht Hsize. unfold canonical_json_value_bytes in Ht.
  apply bind_ok in Ht as ([] & Hv & Ht). assert (dumps (JObj m) = text) as <- by congruence.
  clear Ht.
  assert (loads (dumps (JObj m)) = Ok (reload (JObj m))) as Hl by by apply loads_dumps.
  split; [exact Hl|]. unfold _canonical_payload_text.
  rewrite valid_dumps, Hl by done. cbn [negb reject_if mbind result_bind].
  assert ((Z.of_nat (String.length (dumps (JObj m))) =? 0) = false) as ->.
  { apply Z.eqb_neq. intros H0. destruct (dumps_head _ Hp) as (c & r & Hd & _).
    rewrite Hd in H0. cbn in H0. lia. }
  rewrite (proj2 (Z.ltb_ge _ _)) by done. cbn [orb reject_if].
  rewrite reload_is. cbn [reject_if mbind result_bind map_error]. rewrite <-reload_is.
  unfold canonical_json_value_bytes. rewrite validate_json_reload by done.
  cbn [mbind result_bind map_error]. rewrite dumps_reload by done.
  by rewrite bool_decide_refl.
Qed.

End canonical.

(** ** Documents *)

Section documents.
Context {rt : Runtime} {sec : Security} {fp : FloatParser}.

Lemma construct_document_inv d e : construct_document d = Ok e → e = d.
Proof. unfold construct_document. intros H. inv_ok. done. Qed.

Lemma data_of_dom d : dom (data_of d) = _WRAPPER_FIELDS.
Proof.
  unfold data_of. rewrite dom_list_to_map_L. cbn [document_fields fmap list_fmap fst].
  unfold _WRAPPER_FIELDS. cbn [list_to_set]. by rewrite (right_id_L ∅ (∪)).
Qed.

Lemma document_data_ok d : _document_data d = Ok (data_of d).
Proof.
  unfold _document_data. by rewrite (bool_decide_eq_true_2 _ (data_of_dom d)).
Qed.

Lemma stored_text_inv name data s :
  stored_text name data = Ok s → data !! name = Some (JStr s).
Proof. unfold stored_text. destruct (data !! name) as [[]|]; congruence. Qed.

Lemma wrapper_kind d : data_of d !! "kind" = Some (JStr (FirestoreCasCollection_value (fd_kind d))).
Proof. done. Qed.

Lemma document_fields_names d : map fst (document_fields d) =
  ["schema_version"; "kind"; "logical_id"; "revision"; "mutation_id"; "canonical_payload";
   "payload_sha256"].
Proof. done. Qed.

Lemma data_lookup d i k v :
  document_fields d !! i = Some (k, v) → data_of d !! k = Some v.
Proof.
  intros Hi. unfold data_of. apply elem_of_list_to_map_1.
  - change (NoDup (map fst (document_fields d))). rewrite document_fields_names.
    apply has_dup_false. reflexivity.
  - by eapply list_elem_of_lookup_2.
Qed.

Lemma validate_wrapper_data d :
  validate_wrapper (fd_kind d) (data_of d) = construct_document d.
Proof.
  unfold validate_wrapper, stored_text. cbn [data_of document_fields].
  rewrite (data_lookup d 0 "schema_version" (JStr FIRESTORE_CAS_DOCUMENT_VERSION)) by done.
  rewrite (data_lookup d 2 "logical_id" (JStr (fd_logical_id d))) by done.
  rewrite (data_lookup d 3 "revision" (JInt (fd_revision d))) by done.
  rewrite (data_lookup d 4 "mutation_id" (JStr (fd_mutation_id d))) by done.
  rewrite (data_lookup d 5 "canonical_payload" (JStr (fd_canonical_payload d))) by done.
  rewrite (data_lookup d 6 "payload_sha256" (JStr (fd_payload_sha256 d))) by done.
  cbn [mbind result_bind]. rewrite bool_decide_refl. cbn. by destruct d.
Qed.

(** Exact data that validates is the data of its document. *)
Lemma validate_wrapper_inv c data d :
  dom data = _WRAPPER_FIELDS → data !! "kind" = Some (JStr (FirestoreCasCollection_value c)) →
  validate_wrapper c data = Ok d →
  data = data_of d ∧ fd_kind d = c ∧ construct_document d = Ok d.
Proof.
  intros Hd Hk H. unfold validate_wrapper in H.
  apply bind_ok in H as (v & Hv & H). apply reject_then_ok in H as [Hver H].
  apply negb_false_iff, bool_decide_eq_true in Hver. subst v.
  apply bind_ok in H as (lid & Hlid & H). apply bind_ok in H as (rev & Hrev & H).
  apply bind_ok in H as (mid & Hmid & H). apply bind_ok in H as (pay & Hpay & H).
  apply bind_ok in H as (dig & Hdig & H).
  pose proof (construct_document_inv _ _ H) as ->.
  split; [|by split].
  repeat match goal with H : stored_text _ _ = Ok _ |- _ => apply stored_text_inv in H end.
  assert (data !! "revision" = Some (JInt rev)) as Hr.
  { destruct (data !! "revision") as [[]|]; congruence. }
  clear H Hrev. apply map_eq. intros k.
  destruct (decide (k ∈ _WRAPPER_FIELDS)) as [Hin|Hout].
  - unfold _WRAPPER_FIELDS in Hin. rewrite !elem_of_union, !elem_of_singleton in Hin.
    destruct_or! Hin; subst k; [by rewrite Hv|by rewrite Hk|by rewrite Hlid|by rewrite Hr
      |by rewrite Hmid|by rewrite Hpay|by rewrite Hdig].
  - rewrite <-Hd in Hout. apply not_elem_of_dom in Hout as Hnone. rewrite Hnone.
    symmetry. apply not_elem_of_dom. by rewrite data_of_dom, <-Hd.
Qed.

(** An update of exact data by exact data replaces it. *)
Lemma data_of_union d d0 : dom d0 = _WRAPPER_FIELDS → data_of d ∪ d0 = data_of d.
Proof.
  intros Hd. apply map_eq. intros k. destruct (data_of d !! k) as [v|] eqn:Hk.
  - by apply lookup_union_Some_l.
  - rewrite lookup_union_r by done. apply not_elem_of_dom.
    apply not_elem_of_dom in Hk. by rewrite Hd, <-(data_of_dom d).
Qed.

Lemma construct_snapshot_inv s s' : construct_snapshot s = Ok s' →
  s' = s ∧ fd_kind (sn_document s) = sn_collection s.
Proof.
  unfold construct_snapshot. intros (k & _ & [Hg H]%reject_then_ok)%bind_ok.
  injection H as <-. split; [done|]. by apply orb_false_iff in Hg as [[?%negb_false_iff%bool_decide_eq_true _]%orb_false_iff _].
Qed.

Lemma document_path_inv c id p : firestore_cas_document_path c id = Ok p → p = path_text c id.
Proof.
  unfold firestore_cas_document_path, firestore_cas_document_key, _logical_id.
  intros H. inv_ok. by subst.
Qed.

Lemma logical_id_inv id id' : _logical_id id = Ok id' → id' = id.
Proof. unfold _logical_id. intros H. inv_ok. done. Qed.

Lemma checked_ok {A} (r : result py_error A) a : checked r = Ok a → r = Ok a.
Proof. destruct r; cbn; congruence. Qed.

Lemma aware_times_inv rs ts : aware_times rs = Some ts → rs = map AwareTime ts.
Proof.
  revert ts. induction rs as [|[t| |] rs IH]; intros ts; cbn; [by intros [= <-]| |done|done].
  destruct (aware_times rs) as [ts'|]; cbn; [|done]. intros [= <-]. cbn. by rewrite (IH ts').
Qed.

End documents.

(** ** Reads and writes *)

Section store.
Context {rt : Runtime} {sec : Security} {fp : FloatParser}.
Context {fs : Firestore} {laws : FirestoreLaws fs} {pr : protocol}.

Lemma r_except {A} e (m : hosted A) Q h :
  returns m Q h → returns (except_raise e m) Q h.
Proof.
  intros Hm. apply r_catch; [done|]. intros e' h' _. destruct e'; apply r_raise.
Qed.

(** A document known to be a version of its path. *)
Definition document_known (h : history) (t : Z) (d : FirestoreCasDocument) : Prop :=
  versions h (path_text (fd_kind d) (fd_logical_id d)) t (data_of d).

Lemma document_known_grows h h' t d :
  grows h h' → document_known h t d → document_known h' t d.
Proof. intros [Hv _]. apply Hv. Qed.

(** A snapshot that was read when [h0] was known already. *)
Definition snapshot_of (h0 h : history) (c : FirestoreCasCollection) (id : string)
  (s : FirestoreCasSnapshot) : Prop :=
  sn_collection s = c ∧ fd_kind (sn_document s) = c ∧ fd_logical_id (sn_document s) = id
  ∧ construct_document (sn_document s) = Ok (sn_document s)
  ∧ knows_version h (path_text c id) (sn_update_time s) (data_of (sn_document s))
  ∧ recent h0 (path_text c id) (sn_update_time s).

Lemma decode_snapshot_known h0 h snap c id s :
  snapshot_known h0 h (path_text c id) snap →
  _decode_snapshot snap c id (path_text c id) = Ok (Some s) → snapshot_of h0 h c id s.
Proof.
  intros Hk H. unfold _decode_snapshot in H.
  destruct (_ ≫= _) as [o|?] eqn:Hb in H; [|discriminate H]. cbn in H. injection H as ->.
  apply reject_then_ok in Hb as [Hp Hb]. apply negb_false_iff, bool_decide_eq_true in Hp.
  apply bind_ok in Hb as (rt0 & _ & Hb).
  destruct (ps_exists snap) eqn:He; [|by apply reject_then_ok in Hb as [_ Hb]].
  destruct (ps_data snap) as [data|] eqn:Hd; [|discriminate Hb].
  apply reject_then_ok in Hb as [Hdom Hb]. apply negb_false_iff, bool_decide_eq_true in Hdom.
  apply reject_then_ok in Hb as [Hkind Hb]. apply negb_false_iff, bool_decide_eq_true in Hkind.
  apply bind_ok in Hb as (doc & Hdoc & Hb).
  apply reject_then_ok in Hb as [Hid Hb]. apply negb_false_iff, bool_decide_eq_true in Hid.
  apply bind_ok in Hb as (t & Ht & Hb). apply bind_ok in Hb as (s' & Hs & Hb).
  injection Hb as ->. apply construct_snapshot_inv in Hs as [-> _].
  destruct (validate_wrapper_inv c data doc Hdom Hkind Hdoc) as (-> & Hc & Hv).
  unfold snapshot_of. cbn. split; [done|]. split; [done|]. split; [done|]. split; [done|].
  apply Hk; try done. destruct (ps_update_time snap); cbn in Ht; congruence.
Qed.

Lemma r_client h : returns _client (λ _ _, True) h.
Proof. apply r_except, r_local; done. Qed.

Lemma r_new_batch h : returns _new_batch (λ _ _, True) h.
Proof. apply r_except, r_local; done. Qed.

Lemma r_reference c id h :
  returns (_reference c id) (λ _ p, p = path_text c id) h.
Proof.
  apply r_bind, r_lift. intros p h1 Hp%checked_ok%document_path_inv _. subst p.
  apply r_bind. eapply r_mono; [apply r_except, (r_local _ (λ _ _, True)); done|].
  intros h2 p _ _. cbn. case_bool_decide; [by apply r_ret|apply r_raise].
Qed.

Lemma decode_snapshot_absent h0 snap c id :
  absence_known h0 (path_text c id) snap →
  _decode_snapshot snap c id (path_text c id) = Ok None →
  AbsentReads fs → ∀ t d, ¬ versions h0 (path_text c id) t d.
Proof.
  intros Hk H Habs. unfold _decode_snapshot in H.
  destruct (_ ≫= _) as [o|?] eqn:Hb in H; [|discriminate H]. cbn in H. injection H as ->.
  apply reject_then_ok in Hb as [Hp Hb]. apply negb_false_iff, bool_decide_eq_true in Hp.
  apply bind_ok in Hb as (rt0 & _ & Hb).
  destruct (ps_exists snap) eqn:He; [|by apply Hk].
  destruct (ps_data snap) as [data|]; [|discriminate Hb].
  do 2 apply reject_then_ok in Hb as [_ Hb]. apply bind_ok in Hb as (doc & _ & Hb).
  apply reject_then_ok in Hb as [_ Hb]. apply bind_ok in Hb as (t & _ & Hb).
  by apply bind_ok in Hb as (s' & _ & [=]).
Qed.

(** A read gives the latest version at a time after its start, or there was none. *)
Lemma r_read_or_absent c id h :
  returns (cas_read c id) (λ h' o,
    match o with
    | Some s => snapshot_of h h' c id s
    | None => AbsentReads fs → ∀ t d, ¬ versions h (path_text c id) t d
    end) h.
Proof.
  apply r_bind, r_lift. intros id' h1 Hid%checked_ok%logical_id_inv Hg1. subst id'.
  apply r_bind. eapply r_mono; [apply r_client|]. intros h2 _ Hg2 _.
  apply r_bind. eapply r_mono; [apply r_reference|]. intros h3 p Hg3 ->.
  apply r_bind. eapply r_mono; [apply r_except, r_get|]. intros h4 snap _ [Hs Ha]. cbn in Hs.
  assert (grows h h3) as Hg03 by (do 2 (etrans; [eassumption|]); done).
  apply r_lift. intros [s|] h5 Ho Hg.
  - eapply decode_snapshot_known; [|exact Ho].
    intros d t He Hd Ht Hp. destruct (Hs d t He Hd Ht Hp) as [Hv Hr].
    split; [by eapply knows_grows|]. by eapply recent_since.
  - intros Habs t d Hv. eapply (decode_snapshot_absent _ _ _ _ Ha Ho Habs).
    by eapply grows_versions.
Qed.

Lemma r_read c id h :
  returns (cas_read c id) (λ h' o, ∀ s, o = Some s → snapshot_of h h' c id s) h.
Proof. eapply r_mono; [apply r_read_or_absent|]. by intros h' o _ Ho s ->. Qed.

Lemma r_commit_write w h :
  allowed h w →
  returns (commit_or_ambiguous [w] 1) (λ h' o, ∀ ts, o = Some ts → Forall2 (write_known h') [w] ts) h.
Proof.
  intros Ha. apply r_catch; [|intros e h' _; destruct e; try apply r_raise; by apply r_ret].
  apply r_bind. unfold _commit. apply r_bind, r_lift. intros [] h1 _ Hg1.
  apply r_bind. eapply r_mono.
  - apply r_catch; [apply (r_commit [w])|].
    + constructor; [|constructor]. by eapply allowed_grows.
    + cbn. apply NoDup_singleton.
    + intros e h' _. destruct e; apply r_raise.
  - intros h2 rs _ Hrs. cbn in Hrs. destruct (_ =? _)%nat; [|apply r_raise].
    destruct (aware_times rs) as [ts|] eqn:Hts; [|apply r_raise].
    apply aware_times_inv in Hts. apply r_ret. intros h3 Hg3. apply r_ret.
    intros h4 Hg4 ts' [= <-]. eapply Forall2_impl; [by apply Hrs|].
    intros w' t. apply write_known_grows. by etrans.
Qed.

Lemma r_resolve d h :
  returns (_resolve_ambiguous d) (λ h' s,
    sn_document s = d ∧ document_known h' (sn_update_time s) d) h.
Proof.
  apply r_bind. eapply r_mono; [apply r_except, r_read|]. intros h1 o _ Ho. cbn in Ho.
  destruct o as [s|]; [|apply r_raise].
  destruct (_documents_equal _ _) eqn:He; [|apply r_raise].
  apply andb_true_iff in He as [He%bool_decide_eq_true _].
  apply r_ret. intros h2 Hg. split; [done|]. destruct (Ho s eq_refl) as (_&_&_&_&[Hv _]&_).
  unfold document_known. rewrite <-He at 3. by eapply grows_versions.
Qed.

(** The end of a single write, for a document whose write makes it a version. *)
Lemma r_finish p d w h :
  allowed h w →
  (∀ h' t, grows h h' → write_known h' w t → document_known h' t d) →
  returns (finish_write p d w) (λ h' s,
    sn_document s = d ∧ document_known h' (sn_update_time s) d) h.
Proof.
  intros Ha Hw. apply r_bind. eapply r_mono; [by apply r_commit_write|].
  intros h1 o Hg1 Ho. cbn in Ho. destruct o as [[|t [|? ?]]|];
    [apply r_raise| |apply r_raise|apply r_resolve].
  apply r_lift. intros s h2 Hs%checked_ok Hg2.
  apply construct_snapshot_inv in Hs as [-> _]. cbn. split; [done|].
  specialize (Ho [t] eq_refl). apply Forall2_cons in Ho as [Ho _].
  eapply document_known_grows; [exact Hg2|by apply Hw].
Qed.

Lemma r_stage_create p d h :
  returns (stage_create p d) (λ _ w, w = CreateWrite p (data_of d)) h.
Proof.
  apply r_except. rewrite document_data_ok. apply r_bind, r_lift. intros data h1 [= <-] _.
  apply r_bind. eapply r_mono; [by apply (r_local _ (λ _ _, True))|].
  intros h2 _ _ _. by apply r_ret.
Qed.

Lemma r_stage_update p d t h :
  returns (stage_update p d t) (λ _ w, w = UpdateWrite p (data_of d) t) h.
Proof.
  apply r_except. rewrite document_data_ok. apply r_bind, r_lift. intros data h1 [= <-] _.
  apply r_bind. eapply r_mono; [by apply (r_local _ (λ _ _, True))|].
  intros h2 _ _ _. by apply r_ret.
Qed.

(** A document the protocol admits at its path. *)
Lemma r_create d h :
  creates (path_text (fd_kind d) (fd_logical_id d)) (data_of d) → drawn h (data_of d) →
  returns (cas_create d) (λ h' s,
    sn_document s = d ∧ document_known h' (sn_update_time s) d) h.
Proof.
  intros Hc Hd. apply r_bind. eapply r_mono; [apply r_client|]. intros h1 _ Hg1 _.
  apply r_bind. eapply r_mono; [apply r_reference|]. intros h2 p Hg2 ->.
  apply r_bind. eapply r_mono; [apply r_new_batch|]. intros h3 _ Hg3 _.
  apply r_bind. eapply r_mono; [apply r_stage_create|]. intros h4 w Hg4 ->.
  apply r_finish; [|by intros h' t _]. split; [done|]. eapply drawn_grows; [|exact Hd].
  do 3 (etrans; [eassumption|]). done.
Qed.

(** A document the protocol lets the version it read advance to. *)
Lemma r_update (s : FirestoreCasSnapshot) d d0 h :
  (∀ p c d, creates p c → rtc (advances p) c d → dom d = _WRAPPER_FIELDS) →
  knows_version h (path_text (fd_kind d) (fd_logical_id d)) (sn_update_time s) d0 →
  advances (path_text (fd_kind d) (fd_logical_id d)) d0 (data_of d) → drawn h (data_of d) →
  returns (cas_update s d) (λ h' s',
    sn_document s' = d ∧ document_known h' (sn_update_time s') d) h.
Proof.
  intros Hexact Hk Hadv Hd. apply r_bind, r_lift. intros [] h0 _ Hg0.
  apply r_bind. eapply r_mono; [apply r_client|]. intros h1 _ Hg1 _.
  apply r_bind. eapply r_mono; [apply r_reference|]. intros h2 p Hg2 ->.
  apply r_bind. eapply r_mono; [apply r_new_batch|]. intros h3 _ Hg3 _.
  apply r_bind. eapply r_mono; [apply r_stage_update|]. intros h4 w Hg4 ->.
  assert (grows h h4) as Hg by (do 4 (etrans; [eassumption|]); assumption).
  apply r_finish.
  - exists d0. destruct Hk as (Hv & c & Hc & Hr). rewrite data_of_union by eauto.
    split_and!; [by eapply grows_versions|done|by eapply drawn_grows].
  - intros h5 t _ (d1 & (_ & c & Hc & Hr) & Hv). unfold document_known.
    by rewrite data_of_union in Hv by eauto.
Qed.

End store.

(** ** Records kept in one document each

    A store keeps a record per identifier in one document, replaces it one step
    at a time, and decodes what it reads.  [StoredRecord] is what the protocol of
    such a store needs to know of its records. *)

Class StoredRecord (A : Type) := {
  sr_collection : FirestoreCasCollection;
  sr_id : A → string;
  sr_revision : A → Z;
  sr_bytes : A → string;
  sr_decode : string → option A;
  sr_valid : A → Prop;
  sr_initial : A → Prop;
  sr_step : relation A;
}.

Class StoredRecordLaws (A : Type) `{StoredRecord A} : Prop := {
  sr_decodes a : sr_valid a → sr_decode (sr_bytes a) = Some a;
  sr_step_id a b : sr_step a b → sr_id b = sr_id a;
  sr_step_revision a b : sr_step a b → sr_revision b = sr_revision a + 1;
  sr_initial_revision a b : sr_initial a → sr_initial b → sr_revision a = sr_revision b;
}.

Lemma sr_bytes_inj `{StoredRecordLaws A} (a b : A) :
  sr_valid a → sr_valid b → sr_bytes a = sr_bytes b → a = b.
Proof. intros Ha%sr_decodes Hb%sr_decodes Heq. rewrite Heq in Ha. congruence. Qed.

Section records.
Context {rt : Runtime} {sec : Security} {fp : FloatParser}.
Context {A : Type} {sr : StoredRecord A} {sl : StoredRecordLaws A}.

Definition record_path (id : string) : string := path_text sr_collection id.

(** [d] is the document of [a], at the path [p] of its identifier. *)
Definition encodes (p : string) (d : document_data) (a : A) : Prop :=
  ∃ doc, d = data_of doc ∧ fd_kind doc = sr_collection
    ∧ fd_logical_id doc = sr_id a ∧ p = record_path (sr_id a)
    ∧ fd_canonical_payload doc = sr_bytes a ∧ fd_revision doc = sr_revision a ∧ sr_valid a.

(** A path is created with an initial record, and moves by one step of it. *)
Definition record_protocol : protocol :=
  {| creates p d := ∃ a, encodes p d a ∧ sr_initial a;
     advances p d d' := ∃ a a', encodes p d a ∧ encodes p d' a' ∧ sr_step a a';
     marked d id := d !! "mutation_id" = Some (JStr ("mutation-" +:+ id)) |}.
#[local] Existing Instance record_protocol.

Lemma data_of_payload d e : data_of d = data_of e →
  fd_canonical_payload d = fd_canonical_payload e.
Proof.
  intros H. assert (data_of d !! "canonical_payload" = data_of e !! "canonical_payload") as Hp
    by by rewrite H.
  rewrite (data_lookup d 5 _ (JStr (fd_canonical_payload d))) in Hp by done.
  rewrite (data_lookup e 5 _ (JStr (fd_canonical_payload e))) in Hp by done.
  congruence.
Qed.

Lemma data_of_mutation d e : data_of d = data_of e → fd_mutation_id d = fd_mutation_id e.
Proof.
  intros H. assert (data_of d !! "mutation_id" = data_of e !! "mutation_id") as Hp
    by by rewrite H.
  rewrite (data_lookup d 4 _ (JStr (fd_mutation_id d))) in Hp by done.
  rewrite (data_lookup e 4 _ (JStr (fd_mutation_id e))) in Hp by done.
  congruence.
Qed.

Lemma encodes_valid p d a : encodes p d a → sr_valid a.
Proof. by intros (? & _ & _ & _ & _ & _ & _ & ?). Qed.

Lemma encodes_payload p d doc a :
  encodes p d a → d = data_of doc → fd_canonical_payload doc = sr_bytes a.
Proof.
  intros (doc' & -> & _ & _ & _ & Hb & _) Hd. apply data_of_payload in Hd. congruence.
Qed.

Lemma encodes_inj p p' d a a' : encodes p d a → encodes p' d a' → a = a'.
Proof.
  intros (doc & -> & _ & _ & _ & Hb & _ & Ha) (doc' & Hd & _ & _ & _ & Hb' & _ & Ha').
  apply data_of_payload in Hd. apply sr_bytes_inj; [done..|congruence].
Qed.

(** A version of a path encodes a record reached from an initial one. *)
Lemma version_record p c d :
  creates p c → rtc (advances p) c d →
  ∃ a0 a, encodes p c a0 ∧ encodes p d a ∧ sr_initial a0 ∧ rtc sr_step a0 a.
Proof.
  intros (a0 & He0 & Hi) Hr.
  assert (∀ b0, encodes p c b0 → ∃ b, encodes p d b ∧ rtc sr_step b0 b) as Hgo.
  { clear a0 He0 Hi. induction Hr as [d|c c' d (a & a' & He & He' & Hs) _ IH]; intros b0 Hb0.
    - by exists b0.
    - destruct (IH a' He') as (b & Hb & Hbs). exists b. split; [done|].
      rewrite (encodes_inj _ _ _ _ _ Hb0 He). by eapply rtc_l. }
  destruct (Hgo a0 He0) as (a & He & Hs). by exists a0, a.
Qed.

Lemma chain_exact p c d : creates p c → rtc (advances p) c d → dom d = _WRAPPER_FIELDS.
Proof.
  intros Hc Hr. destruct (version_record p c d Hc Hr) as (_ & a & _ & (doc & -> & _) & _).
  apply data_of_dom.
Qed.

(** Between two versions of a path at least one step was made. *)
Lemma versions_steps p d d' a a' :
  tc (advances p) d d' → encodes p d a → encodes p d' a' → tc sr_step a a'.
Proof.
  intros Hr. revert a. induction Hr as [d d' (b & b' & Hb & Hb' & Hs)|d e d'
    (b & b' & Hb & Hb' & Hs) _ IH]; intros a Ha Ha'.
  - rewrite (encodes_inj _ _ _ _ _ Ha Hb), (encodes_inj _ _ _ _ _ Ha' Hb'). by apply tc_once.
  - rewrite (encodes_inj _ _ _ _ _ Ha Hb). eapply tc_l; [exact Hs|by apply IH].
Qed.

Lemma build_inv c id rev mid payload doc :
  build_firestore_cas_document c id rev mid payload = Ok doc →
  fd_kind doc = c ∧ fd_logical_id doc = id ∧ fd_revision doc = rev
  ∧ fd_mutation_id doc = mid ∧ fd_canonical_payload doc = payload
  ∧ construct_document doc = Ok doc.
Proof.
  unfold build_firestore_cas_document.
  intros (id' & ->%logical_id_inv & (pl & Hpl & H)%bind_ok)%bind_ok.
  assert (pl = payload) as -> by (unfold _canonical_payload_text in Hpl; by inv_ok).
  pose proof (construct_document_inv _ _ H) as ->. done.
Qed.

Context {fs : Firestore} {laws : FirestoreLaws fs}.

(** A version of the path of [id] and its record. *)
Definition version_of (h : history) (id : string) (t : Z) (d : document_data) (a : A) : Prop :=
  knows_version h (record_path id) t d
  ∧ encodes (record_path id) d a ∧ sr_id a = id
  ∧ ∃ a0, sr_initial a0 ∧ rtc sr_step a0 a ∧ sr_valid a0.

Lemma version_of_grows h h' id t d a :
  grows h h' → version_of h id t d a → version_of h' id t d a.
Proof. intros Hg (Hk & Hrest). split; [by eapply knows_grows|done]. Qed.

(** What was read at a snapshot, when its payload can only be one record's. *)
Lemma snapshot_version h0 h id s a :
  snapshot_of h0 h sr_collection id s →
  (∀ b, sr_valid b → fd_canonical_payload (sn_document s) = sr_bytes b → b = a) →
  fd_logical_id (sn_document s) = sr_id a →
  version_of h id (sn_update_time s) (data_of (sn_document s)) a.
Proof.
  intros (_ & _ & Hid & _ & Hk & _) Hdec Hl. pose proof Hk as (_ & c & Hc & Hr).
  destruct (version_record _ _ _ Hc Hr) as (a0 & b & He0 & He & Hi & Hs).
  assert (b = a) as ->
    by (apply Hdec; [by eapply encodes_valid|by eapply encodes_payload]).
  split; [done|]. split; [done|]. split; [congruence|].
  exists a0. split_and!; [done..|by eapply encodes_valid].
Qed.

(** The document of a record, with an identifier that client [i] drew after [h0]. *)
Definition own_document (h0 h : history) (i : nat) (a : A) (doc : FirestoreCasDocument) : Prop :=
  fd_kind doc = sr_collection ∧ fd_logical_id doc = sr_id a
  ∧ fd_revision doc = sr_revision a ∧ fd_canonical_payload doc = sr_bytes a
  ∧ ∃ id, fd_mutation_id doc = "mutation-" +:+ id ∧ drew h id i ∧ undrawn h0 id.

Lemma own_document_grows h0 h h' i a doc :
  grows h h' → own_document h0 h i a doc → own_document h0 h' i a doc.
Proof.
  intros Hg (? & ? & ? & ? & id & ? & ? & ?). split_and!; try done. exists id.
  split_and!; [done|by eapply grows_drew|done].
Qed.

Lemma own_document_since h0 h0' h i a doc :
  grows h0 h0' → own_document h0' h i a doc → own_document h0 h i a doc.
Proof.
  intros Hg (? & ? & ? & ? & id & ? & ? & ?). split_and!; try done. exists id.
  split_and!; [done..|by eapply undrawn_since].
Qed.

Lemma data_mutation doc : data_of doc !! "mutation_id" = Some (JStr (fd_mutation_id doc)).
Proof. by apply (data_lookup doc 4). Qed.

Lemma own_drawn h0 h i a doc : own_document h0 h i a doc → drawn h (data_of doc).
Proof.
  intros (_ & _ & _ & _ & id & Hm & Hd & _). exists id, i. split; [|done].
  change (data_of doc !! "mutation_id" = Some (JStr ("mutation-" +:+ id))).
  by rewrite data_mutation, Hm.
Qed.

Lemma own_encodes h0 h i a doc :
  own_document h0 h i a doc → sr_valid a → encodes (record_path (sr_id a)) (data_of doc) a.
Proof. intros (? & ? & ? & ? & _) Ha. by exists doc. Qed.

Lemma r_own_document i a rev h :
  rev = sr_revision a →
  returns (mutation_id ← new_firestore_cas_mutation_id;
           lift (checked (build_firestore_cas_document sr_collection (sr_id a) rev
             mutation_id (sr_bytes a))))
    (λ h' doc, own_document h h' i a doc) h.
Proof.
  intros ->. apply r_bind. eapply r_mono.
  - apply r_bind. eapply r_mono; [apply (r_uuid i)|]. intros h1 id Hg [Hd Hu].
    apply (r_ret _ (λ h' m, ∃ id, m = "mutation-" +:+ id ∧ drew h' id i ∧ undrawn h id)).
    intros h2 Hg2. exists id. split_and!; [done|by eapply grows_drew|done].
  - intros h1 mid Hg (id & -> & Hd & Hu). apply r_lift.
    intros doc h2 Hdoc%checked_ok%build_inv Hg2. destruct Hdoc as (? & ? & ? & ? & ? & _).
    split_and!; try done. exists id. split_and!; [done|by eapply grows_drew|done].
Qed.

(** The version an update makes of the one it read. *)
Lemma update_version h0 h id t0 d0 a t doc a' i :
  version_of h id t0 d0 a → sr_step a a' → sr_valid a' →
  own_document h0 h i a' doc → document_known h t doc → version_of h id t (data_of doc) a'.
Proof.
  intros ([Hv (c & Hc & Hr)] & He & Hid & a0 & Hi & Hs & Ha0) Hstep Hok Hown Hk.
  pose proof (sr_step_id _ _ Hstep) as Hid'.
  pose proof (own_encodes _ _ _ _ _ Hown Hok) as He'. rewrite Hid', Hid in He'.
  destruct Hown as (Hkind & Hlog & _). unfold document_known in Hk.
  rewrite Hkind, Hlog, Hid', Hid in Hk.
  split; [|split; [done|split; [congruence|]]].
  - split; [done|]. exists c. split; [done|]. eapply rtc_r; [exact Hr|]. by exists a, a'.
  - exists a0. split_and!; [done| |done]. by eapply rtc_r.
Qed.

Lemma r_update_record h0 i id s a a' doc h :
  version_of h id (sn_update_time s) (data_of (sn_document s)) a → sr_step a a' → sr_valid a' →
  own_document h0 h i a' doc →
  returns (cas_update s doc) (λ h' w, sn_document w = doc
    ∧ version_of h' id (sn_update_time w) (data_of doc) a') h.
Proof.
  intros Hv Hstep Hok Hown. pose proof (own_encodes _ _ _ _ _ Hown Hok) as Henc.
  pose proof Hown as (Hkind & Hlog & _). pose proof Hv as (Hk & He & Hid & _).
  pose proof (sr_step_id _ _ Hstep) as Hid'.
  eapply r_mono; [apply (r_update s doc (data_of (sn_document s)));
      [apply chain_exact| | |by eapply own_drawn];
    rewrite Hkind, Hlog, Hid', Hid in *|].
  - exact Hk.
  - by exists a, a'.
  - intros h1 w Hg [Hw Hknown]. split; [done|].
    eapply (update_version h0 _ _ _ _ a); [by eapply version_of_grows|done..| |exact Hknown].
    by eapply own_document_grows.
Qed.

Lemma r_create_record h0 i a doc h :
  sr_initial a → sr_valid a → own_document h0 h i a doc →
  returns (cas_create doc) (λ h' w, sn_document w = doc
    ∧ version_of h' (sr_id a) (sn_update_time w) (data_of doc) a) h.
Proof.
  intros Hi Hok Hown. pose proof (own_encodes _ _ _ _ _ Hown Hok) as Henc.
  pose proof Hown as (Hkind & Hlog & _).
  assert (creates (record_path (sr_id a)) (data_of doc)) as Hcr by by exists a.
  eapply r_mono; [apply r_create; [by rewrite Hkind, Hlog|by eapply own_drawn]|].
  intros h1 w Hg [Hw Hk].
  split; [done|]. unfold document_known in Hk. rewrite Hkind, Hlog in Hk.
  split; [|split_and!; [done..|by exists a; split_and!]].
  split; [done|]. by exists (data_of doc).
Qed.

(** Client [i] wrote [a] as a version of [id], in a document of its own. *)
Definition written_by (h : history) (i : nat) (id : string) (a : A) : Prop :=
  ∃ t d doc uuid, version_of h id t d a ∧ d = data_of doc
    ∧ fd_mutation_id doc = "mutation-" +:+ uuid ∧ drew h uuid i.

Lemma written_by_grows h h' i id a : grows h h' → written_by h i id a → written_by h' i id a.
Proof.
  intros Hg (t & d & doc & uuid & Hv & Hd & Hm & Hu). exists t, d, doc, uuid.
  split_and!; [by eapply version_of_grows|done..|by eapply grows_drew].
Qed.

(** It did so after [h0]. *)
Definition written_since (h0 h : history) (i : nat) (id : string) (a : A) : Prop :=
  ∃ t doc uuid, version_of h id t (data_of doc) a
    ∧ fd_mutation_id doc = "mutation-" +:+ uuid ∧ drew h uuid i ∧ undrawn h0 uuid.

Lemma written_since_grows h0 h h' i id a :
  grows h h' → written_since h0 h i id a → written_since h0 h' i id a.
Proof.
  intros Hg (t & doc & uuid & Hv & Hm & Hd & Hu). exists t, doc, uuid.
  split_and!; [by eapply version_of_grows|done|by eapply grows_drew|done].
Qed.

Lemma written_since_by h0 h i id a : written_since h0 h i id a → written_by h i id a.
Proof. intros (t & doc & uuid & Hv & Hm & Hd & _). by exists t, (data_of doc), doc, uuid. Qed.

Lemma own_written h0 h i id t doc a :
  version_of h id t (data_of doc) a → own_document h0 h i a doc → written_since h0 h i id a.
Proof. intros Hv (_ & _ & _ & _ & uuid & Hm & Hd & Hu). by exists t, doc, uuid. Qed.

(** [a] is a version of [id] that was the latest at some time after [h0]. *)
Definition seen_since (h0 h : history) (id : string) (a : A) : Prop :=
  ∃ t d, version_of h id t d a ∧ recent h0 (record_path id) t.

Lemma seen_since_grows h0 h h' id a : grows h h' → seen_since h0 h id a → seen_since h0 h' id a.
Proof. intros Hg (t & d & Hv & Hr). exists t, d. split; [by eapply version_of_grows|done]. Qed.

Lemma seen_since_since h0 h0' h id a :
  grows h0 h0' → seen_since h0' h id a → seen_since h0 h id a.
Proof. intros Hg (t & d & Hv & Hr). exists t, d. split; [done|by eapply recent_since]. Qed.

(** Of the records that no steps lead from one to the other, one client writes one. *)
Lemma written_once (P : A → Prop) s h i j id a b :
  chained s h → (∀ a b, P a → P b → ¬ tc sr_step a b) →
  written_by h i id a → written_by h j id b → P a → P b → i = j ∧ a = b.
Proof.
  intros Hc Hno (ti & di & doci & ui & (Hi & Hei & _) & -> & Hmi & Hui)
    (tj & dj & docj & uj & (Hj & Hej & _) & -> & Hmj & Huj) Ha Hb.
  destruct Hi as [Hi _], Hj as [Hj _].
  destruct (Z.lt_trichotomy ti tj) as [Hl|[->|Hl]].
  - destruct (Hno a b Ha Hb). eapply versions_steps; [|exact Hei|exact Hej].
    by eapply (chain_order _ _ Hc).
  - pose proof (chain_one _ _ Hc _ _ _ _ Hi Hj) as Hd.
    split; [|rewrite Hd in Hei; by eapply encodes_inj].
    apply (chain_drew_once _ _ Hc ui); [done|]. apply data_of_mutation in Hd.
    rewrite Hmi, Hmj in Hd. injection Hd as Hd. change (ui = uj) in Hd. by rewrite Hd.
  - destruct (Hno b a Hb Ha). eapply versions_steps; [|exact Hej|exact Hei].
    by eapply (chain_order _ _ Hc).
Qed.

(** ** Calls between a state and a later one

    [record_at] is the record the database holds.  [took_effect] is what a call has
    done that found the record [before] and left [after], by what is known; and
    [linear] says of the calls that ended in a run of the clients that each took
    effect at one point between two states of the stored record, that the points are
    in one order, and that a call made after the database was in some state took
    effect after it. *)

Inductive record_move : relation (option A) :=
  | move_create a : sr_initial a → sr_valid a → record_move None (Some a)
  | move_step a b : sr_step a b → sr_valid b → record_move (Some a) (Some b).

Definition record_at (s : fs_state) (id : string) : option A :=
  match stored s (record_path id) with
  | Some (d, _) =>
      match d !! "canonical_payload" with Some (JStr text) => sr_decode text | _ => None end
  | None => None
  end.

Definition took_effect (h0 h : history) (i : nat) (id : string) (before after : option A)
  : Prop :=
  match before, after with
  | None, None => ∀ t d, ¬ versions h0 (record_path id) t d
  | Some a, Some b =>
      seen_since h0 h id a ∧ (a = b ∨ (sr_step a b ∧ written_since h0 h i id b))
  | None, Some b => sr_initial b ∧ written_since h0 h i id b
  | Some _, None => False
  end.

Lemma took_grows h0 h h' i id before after :
  grows h h' → took_effect h0 h i id before after → took_effect h0 h' i id before after.
Proof.
  intros Hg. destruct before as [a|], after as [b|]; cbn; [|done| |done].
  - intros [Hs Hw]. split; [by eapply seen_since_grows|].
    destruct Hw as [->|[? ?]]; [by left|]. right. split; [done|by eapply written_since_grows].
  - intros [? ?]. split; [done|by eapply written_since_grows].
Qed.

Lemma written_since_since h0 h0' h i id a :
  grows h0 h0' → written_since h0' h i id a → written_since h0 h i id a.
Proof.
  intros Hg (t & doc & uuid & Hv & Hm & Hd & Hu). exists t, doc, uuid.
  split_and!; [done..|by eapply undrawn_since].
Qed.

Lemma took_since h0 h0' h i id before after :
  grows h0 h0' → took_effect h0' h i id before after → took_effect h0 h i id before after.
Proof.
  intros Hg. destruct before as [a|], after as [b|]; cbn; [|done| |].
  - intros [Hs Hw]. split; [by eapply seen_since_since|].
    destruct Hw as [->|[? ?]]; [by left|]. right. split; [done|by eapply written_since_since].
  - intros [? ?]. split; [done|by eapply written_since_since].
  - intros Hn t d Hv. by eapply Hn, grows_versions.
Qed.

(** [o] was the record of the path [p] from the time [t] on; nothing was, before all. *)
Definition placed (h : history) (p : string) (o : option A) (t : option Z) : Prop :=
  match o, t with
  | None, None => True
  | Some a, Some t => ∃ d, versions h p t d ∧ encodes p d a
  | _, _ => False
  end.
Definition earlier (t t' : option Z) : Prop :=
  match t, t' with
  | None, _ => True
  | Some t, Some t' => t ≤ t'
  | Some _, None => False
  end.

Lemma steps_revision_le a b : rtc sr_step a b → sr_revision a ≤ sr_revision b.
Proof. induction 1 as [|a b c ?%sr_step_revision _ IH]; lia. Qed.

Lemma steps_revision_lt a b : tc sr_step a b → sr_revision a < sr_revision b.
Proof. induction 1 as [a b ?%sr_step_revision|a b c ?%sr_step_revision _ IH]; lia. Qed.

Lemma chain_moves p d d' a b :
  rtc (advances p) d d' → encodes p d a → encodes p d' b → rtc record_move (Some a) (Some b).
Proof.
  intros Hr. revert a. induction Hr as [d|d e d' (x & y & Hx & Hy & Hs) _ IH]; intros a Ha Hb.
  - by rewrite (encodes_inj _ _ _ _ _ Ha Hb).
  - rewrite (encodes_inj _ _ _ _ _ Ha Hx). eapply rtc_l; [|by apply IH].
    apply move_step; [done|by eapply encodes_valid].
Qed.

(** Of two records of a path the earlier one becomes the later one. *)
Lemma placed_steps s h p a t b t' :
  chained s h → placed h p (Some a) (Some t) → placed h p (Some b) (Some t') → t < t' →
  tc sr_step a b.
Proof.
  intros Hc (d & Hv & He) (d' & Hv' & He') Hlt.
  eapply versions_steps; [|exact He|exact He']. by eapply (chain_order _ _ Hc).
Qed.

Lemma placed_moves s h p o t o' t' :
  chained s h → placed h p o t → placed h p o' t' → earlier t t' → rtc record_move o o'.
Proof.
  intros Hc Ho Ho' Hle. destruct o as [a|], t as [t|]; try done.
  - destruct o' as [b|], t' as [t'|]; try done. cbn in Hle.
    destruct Ho as (d & Hv & He), Ho' as (d' & Hv' & He'). destruct (decide (t = t')) as [->|Hne].
    + rewrite (chain_one _ _ Hc _ _ _ _ Hv Hv') in He. by rewrite (encodes_inj _ _ _ _ _ He He').
    + eapply chain_moves; [|exact He|exact He']. apply tc_rtc.
      eapply (chain_order _ _ Hc); [exact Hv|exact Hv'|lia].
  - destruct o' as [b|], t' as [t'|]; try done. destruct Ho' as (d & Hv & He).
    destruct (chain_origin _ _ Hc _ _ _ Hv) as (c & Hcr & Hr). pose proof Hcr as (a & Ha & Hi).
    eapply rtc_l; [|by eapply chain_moves]. apply move_create; [done|by eapply encodes_valid].
Qed.

Lemma placed_revision s h p a t b :
  chained s h → placed h p (Some a) t → sr_initial b → sr_revision b ≤ sr_revision a.
Proof.
  intros Hc Ha Hb. destruct t as [t|]; [|done]. destruct Ha as (d & Hv & He).
  destruct (chain_origin _ _ Hc _ _ _ Hv) as (c & Hcr & Hr).
  destruct (version_record _ _ _ Hcr Hr) as (a0 & a' & _ & He' & Hi & Hs).
  rewrite (encodes_inj _ _ _ _ _ He He'), (sr_initial_revision b a0 Hb Hi).
  by apply steps_revision_le.
Qed.

Lemma placed_grows h h' p o t : grows h h' → placed h p o t → placed h' p o t.
Proof.
  intros Hg. destruct o as [a|], t as [t|]; cbn; try done. intros (d & Hv & He).
  exists d. split; [by eapply grows_versions|done].
Qed.

Lemma version_placed h id t d a : version_of h id t d a → placed h (record_path id) (Some a) (Some t).
Proof. intros ([Hv _] & He & _). by exists d. Qed.

Lemma versions_placed s h p t d : chained s h → versions h p t d → ∃ a, placed h p (Some a) (Some t).
Proof.
  intros Hc Hv. destruct (chain_origin _ _ Hc _ _ _ Hv) as (c & Hcr & Hr).
  destruct (version_record _ _ _ Hcr Hr) as (_ & a & _ & He & _). by exists a, d.
Qed.

(** The record of a chained database is placed at the latest time. *)
Lemma record_at_placed s h id :
  chained s h → ∃ t, placed h (record_path id) (record_at s id) t ∧
    ∀ t0 d0, versions h (record_path id) t0 d0 → earlier (Some t0) t.
Proof.
  intros Hc. unfold record_at. destruct (stored s (record_path id)) as [[d t]|] eqn:Hs.
  - pose proof (chain_current _ _ Hc _ _ _ Hs) as Hv.
    destruct (versions_placed _ _ _ _ _ Hc Hv) as (a & d' & Hv' & He).
    rewrite (chain_one _ _ Hc _ _ _ _ Hv' Hv) in He. exists (Some t). split.
    + pose proof He as (doc & -> & _ & _ & _ & Hb & _ & Ha).
      rewrite (data_lookup doc 5 _ (JStr (fd_canonical_payload doc))) by done.
      rewrite Hb, (sr_decodes a Ha). by exists (data_of doc).
    + intros t0 d0 H0. destruct (chain_latest _ _ Hc _ _ _ H0) as (d1 & t1 & Hs' & Hle).
      rewrite Hs in Hs'. by injection Hs' as <- <-.
  - exists None. split; [done|]. intros t0 d0 H0.
    destruct (chain_latest _ _ Hc _ _ _ H0) as (d1 & t1 & Hs' & _). congruence.
Qed.

Lemma placed_latest s h id o t :
  chained s h → placed h (record_path id) o t → rtc record_move o (record_at s id).
Proof.
  intros Hc Ho. destruct (record_at_placed s h id Hc) as (t' & Ht' & Hlast).
  eapply placed_moves; [exact Hc|exact Ho|exact Ht'|]. destruct t as [t|]; [|done].
  destruct o as [a|]; [|done]. destruct Ho as (d & Hv & _). by eapply Hlast.
Qed.

(** ** The point of a call *)

(** The times at which a call found and left its record: none of the path's versions
    lies between them. *)
Record spans (h0 h : history) (i : nat) (p : string) (before after : option A)
  (tb ta : option Z) : Prop := {
  sp_before : placed h p before tb;
  sp_after : placed h p after ta;
  sp_adjacent : ∀ o t, placed h p o t → earlier t tb ∨ earlier ta t;
  sp_since : ∀ t d, versions h0 p t d → earlier (Some t) tb;
  sp_kind : (tb = ta ∧ before = after) ∨
    (record_move before after ∧ ∃ t doc uuid, ta = Some t ∧ versions h p t (data_of doc)
      ∧ fd_mutation_id doc = "mutation-" +:+ uuid ∧ drew h uuid i);
}.

Lemma fresh_version s0 h0 p t doc uuid :
  chained s0 h0 → fd_mutation_id doc = "mutation-" +:+ uuid → undrawn h0 uuid →
  ¬ versions h0 p t (data_of doc).
Proof.
  intros Hc Hm Hu Hv. destruct (chain_drawn _ _ Hc _ _ _ Hv) as (id & i & Hid & Hd).
  change (data_of doc !! "mutation_id" = Some (JStr ("mutation-" +:+ id))) in Hid.
  rewrite data_mutation, Hm in Hid. injection Hid as Hid. change (uuid = id) in Hid. subst id.
  by eapply Hu.
Qed.

Lemma spans_read h0 h i p o t :
  placed h p o t → (∀ t0 d0, versions h0 p t0 d0 → earlier (Some t0) t) → spans h0 h i p o o t t.
Proof.
  intros Ho Hr. split; try done; [|by left]. intros o' t' _.
  destruct t as [t|], t' as [t'|]; cbn; auto. lia.
Qed.

Lemma spans_step s h0 h i id a b ta doc tb uuid :
  chained s h → let p := record_path id in
  placed h p (Some a) (Some ta) → recent h0 p ta → sr_step a b →
  placed h p (Some b) (Some tb) → versions h p tb (data_of doc) →
  fd_mutation_id doc = "mutation-" +:+ uuid → drew h uuid i →
  spans h0 h i p (Some a) (Some b) (Some ta) (Some tb).
Proof.
  intros Hc p Ha Hr Hs Hb Hv Hm Hd. pose proof (sr_step_revision _ _ Hs) as Hrev.
  assert (sr_valid b) as Hok by (destruct Hb as (d & _ & He); by eapply encodes_valid).
  split; [done|done| |exact Hr|].
  - intros [v|] [t|] Ho; [|done..|by left]. cbn.
    destruct (decide (t ≤ ta)) as [Hle|Hgt]; [by left|].
    destruct (decide (tb ≤ t)) as [Hle|Hgt']; [by right|].
    pose proof (steps_revision_lt _ _ (placed_steps _ _ _ _ _ _ _ Hc Ha Ho ltac:(lia))).
    pose proof (steps_revision_lt _ _ (placed_steps _ _ _ _ _ _ _ Hc Ho Hb ltac:(lia))). lia.
  - right. split; [by apply move_step|]. by exists tb, doc, uuid.
Qed.

Lemma spans_create s s0 h0 h i id b doc tb uuid :
  chained s h → chained s0 h0 → grows h0 h → let p := record_path id in
  sr_initial b → placed h p (Some b) (Some tb) → versions h p tb (data_of doc) →
  fd_mutation_id doc = "mutation-" +:+ uuid → drew h uuid i → undrawn h0 uuid →
  spans h0 h i p None (Some b) None (Some tb).
Proof.
  intros Hc Hc0 Hg p Hi Hb Hv Hm Hd Hu.
  assert (sr_valid b) as Hok by (destruct Hb as (d & _ & He); by eapply encodes_valid).
  assert (∀ o t, placed h p o t → earlier t None ∨ earlier (Some tb) t) as Hadj.
  { intros [v|] [t|] Ho; [|done..|by left]. right. cbn.
    destruct (decide (tb ≤ t)) as [Hle|Hgt]; [done|].
    pose proof (steps_revision_lt _ _ (placed_steps _ _ _ _ _ _ _ Hc Ho Hb ltac:(lia))).
    pose proof (placed_revision _ _ _ _ _ _ Hc Ho Hi). lia. }
  split; [done|done|exact Hadj| |].
  - intros t d H0. exfalso.
    destruct (grows_newer _ _ Hg _ _ _ Hv) as [Hold|Hlt]; [by eapply fresh_version|].
    specialize (Hlt _ _ H0).
    destruct (versions_placed _ _ _ _ _ Hc (grows_versions _ _ Hg _ _ _ H0)) as (v & Hpv).
    destruct (Hadj _ _ Hpv) as [Hx|Hx]; cbn in Hx; [done|lia].
  - right. split; [by apply move_create|]. by exists tb, doc, uuid.
Qed.

Lemma took_spans s s0 h0 h i id before after :
  chained s h → chained s0 h0 → grows h0 h → took_effect h0 h i id before after →
  ∃ tb ta, spans h0 h i (record_path id) before after tb ta.
Proof.
  intros Hc Hc0 Hg Ht. destruct before as [a|], after as [b|]; cbn in Ht; try done.
  - destruct Ht as [(t & d & Hv & Hr) Hw]. apply version_placed in Hv.
    destruct Hw as [<-|(Hs & t' & doc & uuid & Hv' & Hm & Hd & Hu)].
    + exists (Some t), (Some t). by apply spans_read.
    + exists (Some t), (Some t'). pose proof (version_placed _ _ _ _ _ Hv') as Hb.
      destruct Hv' as ([Hv' _] & _). by eapply spans_step.
  - destruct Ht as (Hi & t & doc & uuid & Hv & Hm & Hd & Hu). exists None, (Some t).
    pose proof (version_placed _ _ _ _ _ Hv) as Hb. destruct Hv as ([Hv _] & _).
    by eapply spans_create.
  - exists None, None. apply spans_read; [done|]. intros t d Hv. by destruct (Ht t d).
Qed.

Lemma spans_earlier s h0 h i p before after tb ta :
  chained s h → spans h0 h i p before after tb ta → earlier tb ta.
Proof.
  intros Hc [Hb Ha Hadj _ Hk]. destruct Hk as [[-> _]|[Hm _]]; [by destruct ta; cbn|].
  destruct tb as [tb|]; [|done]. destruct ta as [ta|].
  2: { destruct after; [done|]. inversion Hm. }
  cbn. destruct Hm as [a Hi Hv|a b Hs Hv]; [done|].
  destruct (decide (tb ≤ ta)) as [|Hgt]; [done|].
  pose proof (steps_revision_lt _ _ (placed_steps _ _ _ _ _ _ _ Hc Ha Hb ltac:(lia))).
  apply sr_step_revision in Hs. lia.
Qed.

(** Two clients' calls take effect one after the other. *)
Lemma spans_ordered s h i j h0 k0 p b a b' a' tb ta tb' ta' :
  chained s h → i ≠ j → spans h0 h i p b a tb ta → spans k0 h j p b' a' tb' ta' →
  earlier ta tb' ∨ earlier ta' tb.
Proof.
  intros Hc Hne H1 H2.
  destruct (sp_adjacent _ _ _ _ _ _ _ _ H1 _ _ (sp_after _ _ _ _ _ _ _ _ H2)) as [Hx|Hx];
    [by right|].
  destruct (sp_adjacent _ _ _ _ _ _ _ _ H2 _ _ (sp_after _ _ _ _ _ _ _ _ H1)) as [Hy|Hy];
    [by left|].
  assert (ta = ta') as <- by (destruct ta, ta'; cbn in Hx, Hy; try done; f_equal; lia).
  destruct (sp_kind _ _ _ _ _ _ _ _ H2) as [[-> _]|(_ & t & doc & uuid & -> & Hv & Hm & Hd)];
    [by left|].
  destruct (sp_kind _ _ _ _ _ _ _ _ H1) as [[-> _]|(_ & t' & doc' & uuid' & [= <-] & Hv' & Hm' & Hd')];
    [by right|].
  destruct Hne. pose proof (chain_one _ _ Hc _ _ _ _ Hv Hv') as Heq%data_of_mutation.
  rewrite Hm, Hm' in Heq. injection Heq as Heq. change (uuid = uuid') in Heq. subst uuid'.
  by eapply (chain_drew_once _ _ Hc).
Qed.

(** ** A run of calls

    [early] are called first; when the database is in [s1] and they got as far as
    [ps1], [late] are called too, and all get as far as [ps2]. *)

Section run.
Context {C R : Type} (run : C → hosted R) (key : C → string).
Context (reply : C → option A → option A → R → Prop).
Context (early late : list C) (s1 : fs_state) (ps1 : list (hosted R)).
Context (s2 : fs_state) (ps2 : list (hosted R)).

(** Client [i] made the call [c], which returned [r]. *)
Definition returned (i : nat) (c : C) (r : R) : Prop :=
  (early ++ late) !! i = Some c ∧ ps2 !! i = Some (Done (Ok r)).

(** Each call that returned found the record of its key as [before] and left it as
    [after]. *)
Record linear (before after : nat → option A) : Prop := {
  ln_reply i c r : returned i c r → reply c (before i) (after i) r;
  ln_moves i c r : returned i c r →
    before i = after i ∨ record_move (before i) (after i);
  ln_origin i c r : returned i c r → rtc record_move None (before i);
  ln_starts i c r : returned i c r → (length early ≤ i)%nat →
    rtc record_move (record_at s1 (key c)) (before i);
  ln_ends i c r r' : returned i c r → ps1 !! i = Some (Done (Ok r')) →
    rtc record_move (after i) (record_at s1 (key c));
  ln_stored i c r : returned i c r → rtc record_move (after i) (record_at s2 (key c));
  ln_ordered i j c d q r : i ≠ j → returned i c q → returned j d r → key c = key d →
    rtc record_move (after i) (before j) ∨ rtc record_move (after j) (before i);
}.

Context (Hrun : ∀ i c h, returns (run c) (λ h' r, ∃ before after,
  took_effect h h' i (key c) before after ∧ reply c before after r) h).

(** What is known of a client when it has returned, started at [h0]. *)
Definition answered (h0 : history) (i : nat) (h : history) (r : result exception R) : Prop :=
  match r with
  | Ok r => ∀ c, (early ++ late) !! i = Some c → ∀ h', grows h h' → ∃ before after,
      took_effect h0 h' i (key c) before after ∧ reply c before after r
  | Raise _ => True
  end.

Lemma run_answered i c h : (early ++ late) !! i = Some c → guarantees (run c) (answered h i) h.
Proof.
  intros Hc. eapply after_mono; [apply _|apply (Hrun i c)|]. intros h' [r|e] _ Hr; [|done].
  intros c' Hc' h2 Hg2. replace c' with c by congruence. by apply Hr.
Qed.

Lemma pool_ok_cut s ps (Q Q' : nat → history → result exception R → Prop) h (more : list (hosted R)) :
  pool_ok respond grows chained Q (s, ps) h →
  (∀ i h r, (i < length ps)%nat → Q i h r → Q' i h r) →
  (∀ i m, more !! i = Some m → guarantees m (Q' (length ps + i)%nat) h) →
  pool_ok respond grows chained Q' (s, ps ++ more) h.
Proof.
  intros [Hc Hq] HQ Hmore. split; [exact Hc|]. intros i m Hi. cbn [snd] in Hi.
  apply lookup_app_Some in Hi as [Hi|[Hle Hi]].
  - pose proof (lookup_lt_Some _ _ _ Hi) as Hlt.
    eapply after_mono; [apply _|by apply Hq|]. intros h' r _. by apply HQ.
  - specialize (Hmore _ _ Hi). by replace (length ps + (i - length ps))%nat with i in Hmore by lia.
Qed.

(** Points known of the calls are points between the stored records. *)
Lemma points_linear s0 h1 h2 before after :
  chained s0 no_history → chained s1 h1 → chained s2 h2 → grows h1 h2 →
  (∀ i c r, returned i c r → reply c (before i) (after i) r
    ∧ took_effect (if decide (i < length early)%nat then no_history else h1) h2 i (key c)
        (before i) (after i)
    ∧ (∀ r', ps1 !! i = Some (Done (Ok r')) →
        took_effect no_history h1 i (key c) (before i) (after i))) →
  linear before after.
Proof.
  intros Hc0 Hc1 Hc2 Hg HP.
  assert (∀ h, grows no_history h) as Hno
    by (intros h; split; [done|done|]; intros p t d _; by right).
  assert (∀ i c r, returned i c r → ∃ tb ta,
    spans (if decide (i < length early)%nat then no_history else h1) h2 i
      (record_path (key c)) (before i) (after i) tb ta) as Hspan.
  { intros i c r (_ & Ht & _)%HP. case_decide;
      (eapply took_spans; [exact Hc2| | |exact Ht]); [exact Hc0|done|exact Hc1|done]. }
  split.
  - intros i c r (Hr & _)%HP. done.
  - intros i c r (tb & ta & Hs)%Hspan. destruct (sp_kind _ _ _ _ _ _ _ _ Hs) as [[_ ?]|[? _]]; auto.
  - intros i c r (tb & ta & Hs)%Hspan. pose proof (sp_before _ _ _ _ _ _ _ _ Hs) as Hb.
    by apply (placed_moves s2 h2 (record_path (key c)) None None (before i) tb).
  - intros i c r (tb & ta & Hs)%Hspan Hi. rewrite decide_False in Hs by lia.
    destruct (record_at_placed s1 h1 (key c) Hc1) as (t & Ht & _).
    eapply placed_moves; [exact Hc2|by eapply placed_grows|exact (sp_before _ _ _ _ _ _ _ _ Hs)|].
    destruct t as [t|]; [|done]. destruct (record_at s1 (key c)); [|done].
    destruct Ht as (d & Hv & _). by eapply (sp_since _ _ _ _ _ _ _ _ Hs).
  - intros i c r r' (_ & _ & Ht)%HP Hi.
    destruct (took_spans s1 s0 _ _ _ _ _ _ Hc1 Hc0 (Hno h1) (Ht _ Hi)) as (tb & ta & Hs).
    by eapply placed_latest, (sp_after _ _ _ _ _ _ _ _ Hs).
  - intros i c r (tb & ta & Hs)%Hspan. by eapply placed_latest, (sp_after _ _ _ _ _ _ _ _ Hs).
  - intros i j c d q r Hne (tb & ta & Hs)%Hspan (tb' & ta' & Hs')%Hspan Hk. rewrite Hk in Hs.
    destruct (spans_ordered _ _ _ _ _ _ _ _ _ _ _ _ _ _ _ Hc2 Hne Hs Hs') as [He|He]; [left|right];
      (eapply placed_moves; [exact Hc2| | |exact He]);
      first [by eapply (sp_after _ _ _ _ _ _ _ _ Hs)|by eapply (sp_before _ _ _ _ _ _ _ _ Hs')
        |by eapply (sp_after _ _ _ _ _ _ _ _ Hs')|by eapply (sp_before _ _ _ _ _ _ _ _ Hs)].
Qed.

(** Something for each of finitely many clients. *)
Lemma for_clients {X} (x : X) n (P : nat → X → Prop) :
  (∀ i, (i < n)%nat → ∃ y, P i y) → ∃ f, ∀ i, (i < n)%nat → P i (f i).
Proof.
  induction n as [|n IH]; intros HP; [by exists (λ _, x); lia|].
  destruct IH as [f Hf]; [intros i Hi; apply HP; lia|]. destruct (HP n ltac:(lia)) as [y Hy].
  exists (λ i, if decide (i = n) then y else f i). intros i Hi. case_decide as Heq; [by subst|].
  apply Hf. lia.
Qed.

Lemma pool_steps_length p q : rtc (pool_step respond background) p q → length q.2 = length (p.2 : list (hosted R)).
Proof.
  induction 1 as [p|p p' q Hs _ IH]; [done|]. rewrite IH. destruct Hs; cbn; [|done].
  apply length_insert.
Qed.

Lemma done_stays p q i r : rtc (pool_step respond background) p q →
  (p.2 : list (hosted R)) !! i = Some (Done r) → q.2 !! i = Some (Done r).
Proof.
  induction 1 as [p|p p' q Hs _ IH]; [done|]. intros Hi. apply IH.
  destruct Hs as [w ps j S op k x w' Hj _|]; cbn in *; [|done].
  destruct (decide (j = i)) as [->|Hne]; [congruence|]. by rewrite list_lookup_insert_ne.
Qed.

Lemma call_done (m : option (hosted R)) :
  { r | m = Some (Done (Ok r)) } + { ∀ r, m ≠ Some (Done (Ok r)) }.
Proof. destruct m as [[[r|e]|S op k]|]; [left; by exists r|by right..]. Qed.

Lemma calls_linear s0 :
  fresh_database s0 →
  rtc (pool_step respond background) (s0, map run early) (s1, ps1) →
  rtc (pool_step respond background) (s1, ps1 ++ map run late) (s2, ps2) →
  ∃ before after, linear before after.
Proof.
  intros Hf Hrun1 Hrun2.
  destruct (pool_adequate respond background grows chained (answered no_history) background_chained
    (s0, map run early) (s1, ps1) no_history) as (h1 & _ & Hok1); [|done|].
  { split; [by apply fresh_chained|]. intros i m Hm. cbn [snd] in Hm.
    rewrite list_lookup_fmap in Hm. apply fmap_Some in Hm as (c & Hc & ->).
    apply run_answered. by apply lookup_app_l_Some. }
  pose proof (pool_steps_length _ _ Hrun1) as Hlen1. cbn [snd] in Hlen1. rewrite length_map in Hlen1.
  set (Q := λ i, if decide (i < length early)%nat then answered no_history i else answered h1 i).
  destruct (pool_adequate respond background grows chained Q background_chained
    (s1, ps1 ++ map run late) (s2, ps2) h1) as (h2 & Hg & Hc2 & Hq2); [|done|].
  { apply (pool_ok_cut s1 ps1 (answered no_history)); [done| |].
    - intros i h r Hi. unfold Q. rewrite decide_True by lia. done.
    - intros i m Hm. rewrite list_lookup_fmap in Hm. apply fmap_Some in Hm as (c & Hc & ->).
      unfold Q. rewrite decide_False by lia. apply run_answered.
      rewrite lookup_app_r, Hlen1 by lia. by replace (_ + i - _)%nat with i by lia. }
  destruct Hok1 as [Hc1 Hq1]. cbn [fst snd] in *.
  assert (∀ h, grows no_history h) as Hno
    by (intros h; split; [done|done|]; intros p t d _; by right).
  pose proof (fresh_chained s0 Hf) as Hc0.
  set (P := λ i (ba : option A * option A), ∀ c r, returned i c r →
    reply c ba.1 ba.2 r
    ∧ took_effect (if decide (i < length early)%nat then no_history else h1) h2 i (key c) ba.1 ba.2
    ∧ (∀ r', ps1 !! i = Some (Done (Ok r')) → took_effect no_history h1 i (key c) ba.1 ba.2)).
  destruct (for_clients (None, None) (length ps2) P) as [f Hf'].
  { intros i Hi. unfold P, returned.
    destruct ((early ++ late) !! i) as [c|] eqn:Hc; [|exists (None, None); by intros ?? [? _]].
    destruct (ps2 !! i) as [m2|] eqn:Hr; [|exists (None, None); by intros ?? [_ ?]].
    destruct m2 as [[r|e]|S op k]; [|exists (None, None); by intros ?? [_ [=]]..].
    destruct (call_done (ps1 !! i)) as [[r1 Hr1]|Hno1].
    - assert (r1 = r) as ->.
      { pose proof (done_stays _ _ i (Ok r1) Hrun2) as Hs. cbn [snd] in Hs.
        rewrite lookup_app_l in Hs by by eapply lookup_lt_Some.
        rewrite Hr in Hs. by injection (Hs Hr1). }
      destruct (Hq1 i _ Hr1 h1 ltac:(reflexivity) c Hc h1 ltac:(reflexivity)) as (b & a & Ht & Hrep).
      exists (b, a). intros c' r' [[= <-] [= <-]]. split; [done|]. split; [|done].
      rewrite decide_True by (rewrite <-Hlen1; by eapply lookup_lt_Some). by eapply took_grows.
    - pose proof (Hq2 i _ Hr h2 ltac:(reflexivity)) as Hans.
      assert (∃ b a, took_effect (if decide (i < length early)%nat then no_history else h1)
        h2 i (key c) b a ∧ reply c b a r) as (b & a & Ht & Hrep).
      { unfold Q in Hans. case_decide; by apply (Hans c Hc h2). }
      exists (b, a). intros c' r' [[= <-] [= <-]]. split; [done|]. split; [done|].
      by intros r' ?%Hno1. }
  assert (∀ i c r, returned i c r → P i (f i)) as HP.
  { intros i c r [_ Hr]. by eapply Hf', lookup_lt_Some. }
  exists (λ i, (f i).1), (λ i, (f i).2). eapply points_linear; [exact Hc0|exact Hc1|exact Hc2|exact Hg|].
  intros i c r Hret. by apply (HP i c r).
Qed.

End run.

End records.
