(* ===== verification/FirestorePermits.v ===== *)
(** The permit store over Firestore (reconcile/hosted/firestore_permits.py):
    [FirestoreActionPermitStore] keeps one aggregate per permit in one
    compare-and-swap document and applies each transition by replacing the
    revision it read, at most [_MAX_CAS_ATTEMPTS] times. *)

From S2P Require Export FirestoreCas PermitCodec FirestoreCasFacts.

#[local] Open Scope Z_scope.

Definition _MAX_CAS_ATTEMPTS : nat := 64.

Section store.
Context {rt : Runtime} {sec : Security} {fp : FloatParser} {tp : TimeParser}.

(** [_aggregate_document] *)
Definition _aggregate_document (aggregate : permit_aggregate) (revision : Z)
  : hosted FirestoreCasDocument :=
  mutation_id ← new_firestore_cas_mutation_id;
  lift (checked (build_firestore_cas_document C_ACTION_PERMIT
    (permit_id (ag_permit aggregate)) revision mutation_id
    (canonical_json_bytes aggregate))).

(** [_decode_aggregate]; any failure means that the state is corrupt. *)
Definition aggregate_of (snapshot : FirestoreCasSnapshot) : result unit permit_aggregate :=
  reject_if (negb (bool_decide (sn_collection snapshot = C_ACTION_PERMIT)
                   && bool_decide (fd_kind (sn_document snapshot) = C_ACTION_PERMIT))) tt;;
  aggregate ← map_error (λ _, tt)
    (decode_contract (fd_canonical_payload (sn_document snapshot)));
  map_error (λ _, tt) (validate_action_permit_identity (ag_permit aggregate));;
  reject_if (negb (bool_decide
    (fd_logical_id (sn_document snapshot) = permit_id (ag_permit aggregate)))) tt;;
  reject_if (negb (fd_revision (sn_document snapshot)
    =? Z.of_nat (length (ag_audit_events aggregate)) - 1)) tt;;
  Ok aggregate.
Definition _decode_aggregate (snapshot : FirestoreCasSnapshot)
  : result exception permit_aggregate :=
  map_error (λ _, PermitStoreError
    (PermitCorruptState (Some (fd_logical_id (sn_document snapshot)))))
    (aggregate_of snapshot).

(** The store errors a failure of the CAS store becomes. *)
Definition store_failure (e : exception) : exception :=
  match e with
  | CancelledError => CancelledError
  | FirestoreCasError Cas_OUTCOME_UNKNOWN => PermitStoreError PermitStoreOutcomeUnknown
  | _ => PermitStoreError PermitStoreUnavailable
  end.

(** [_read] *)
Definition permit_read (permit_id : string)
  : hosted (FirestoreCasSnapshot * permit_aggregate) :=
  snapshot ← catch (cas_read C_ACTION_PERMIT permit_id) (λ e, raise (store_failure e));
  match snapshot with
  | None => raise (PermitStoreError (PermitNotFound permit_id))
  | Some snapshot =>
      aggregate ← lift (_decode_aggregate snapshot);
      mret (snapshot, aggregate)
  end.

(** [except (TypeError, ValueError) as error: raise ...] *)
Definition except_value_error {A} (error : exception) (r : result py_error A)
  : result exception A :=
  map_error (λ e, match e with
                  | TypeError _ | ValueError _ => error
                  | _ => PyError e
                  end) r.

(** What [create] left: the written snapshot, or the permit that was there. *)
Definition create_or_existing (permit : ActionPermit) (document : FirestoreCasDocument)
  : hosted (FirestoreCasSnapshot + ActionPermit) :=
  let conflict := PermitStoreError (PermitConflict (permit_id permit)) in
  catch (written ← cas_create document;
         (mret (inl written) : hosted (FirestoreCasSnapshot + ActionPermit)))
    (λ e, match e with
          | FirestoreCasError Cas_CONFLICT =>
              existing ← catch (permit_read (permit_id permit))
                (λ e', match e' with PermitStoreError _ => raise conflict | _ => raise e' end);
              same ← lift (checked
                (same_action_permit_authority (ag_permit existing.2) permit));
              (if same : bool then mret (inr (ag_permit existing.2)) else raise conflict)
          | _ => raise (store_failure e)
          end).

(** [written.document != document or _decode_aggregate(written) != aggregate] *)
Definition verify_written (written : FirestoreCasSnapshot) (document : FirestoreCasDocument)
  (aggregate : permit_aggregate) (id : string) : result exception unit :=
  let corrupt := PermitStoreError (PermitCorruptState (Some id)) in
  reject_if (negb (bool_decide (sn_document written = document))) corrupt;;
  decoded ← _decode_aggregate written;
  reject_if (negb (bool_decide (ag_permit decoded = ag_permit aggregate))
             || negb (bool_decide (ag_audit_events decoded = ag_audit_events aggregate))) corrupt.

Definition issue_permit (permit : ActionPermit) : hosted ActionPermit :=
  lift (reject_if (negb (bool_decide (state permit = ISSUED)))
    (PyError (TypeError "an exact issued action permit is required")));;
  lift (except_value_error (PermitStoreError (PermitConflict (permit_id permit)))
    (validate_action_permit_identity permit));;
  aggregate ← lift (checked (issued_aggregate permit));
  lift (checked (construct_aggregate aggregate));;
  document ← _aggregate_document aggregate 0;
  outcome ← create_or_existing permit document;
  match outcome with
  | inr existing => mret existing
  | inl written =>
      lift (verify_written written document aggregate (permit_id permit));;
      mret permit
  end.

Definition get_permit (permit_id : string) : hosted ActionPermit :=
  read ← permit_read permit_id; mret (ag_permit read.2).

Definition permit_audit_events (permit_id : string) : hosted (list PermitAuditEvent) :=
  read ← permit_read permit_id; mret (ag_audit_events read.2).

(** One attempt of [_mutate]'s loop; [None] is [continue]. *)
Definition mutate_once (id : string) (request : permit_request)
  : hosted (option PermitMutation) :=
  read ← permit_read id;
  let '(snapshot, aggregate) := (read : FirestoreCasSnapshot * permit_aggregate) in
  mutation ← lift (checked (evaluate_request aggregate request));
  let replacement := extend_aggregate aggregate mutation in
  lift (checked (construct_aggregate replacement));;
  document ← _aggregate_document replacement (fd_revision (sn_document snapshot) + 1);
  outcome ← catch (written ← cas_update snapshot document; mret (Some written))
    (λ e, match e with
          | FirestoreCasError Cas_CONFLICT => mret None
          | _ => raise (store_failure e)
          end);
  match outcome with
  | None => mret None
  | Some written =>
      lift (verify_written written document replacement id);;
      mret (Some mutation)
  end.

(** [_mutate] *)
Fixpoint mutate (attempts : nat) (id : string) (request : permit_request)
  : hosted PermitMutation :=
  match attempts with
  | O => raise (PermitStoreError PermitStoreUnavailable)
  | S attempts' =>
      outcome ← mutate_once id request;
      match outcome with
      | Some mutation => mret mutation
      | None => mutate attempts' id request
      end
  end.

Definition claim_permit (request : PermitClaimRequest) : hosted ActionPermit :=
  mutation ← mutate _MAX_CAS_ATTEMPTS (rq_permit_id request) (Claim request);
  match pm_denial_reason mutation with
  | Some reason => raise (PermitStoreError (PermitClaimDenied (rq_permit_id request) reason))
  | None => mret (pm_permit mutation)
  end.

Definition complete_permit (request : PermitCompletionRequest) : hosted ActionPermit :=
  mutation ← mutate _MAX_CAS_ATTEMPTS (cq_permit_id request) (Complete request);
  match pm_denial_reason mutation with
  | Some reason =>
      raise (PermitStoreError (PermitCompletionDenied (cq_permit_id request) reason))
  | None => mret (pm_permit mutation)
  end.

End store.

(** * Many clients of the store *)

Section facts.
Context {rt : Runtime} {sec : Security} {fp : FloatParser}.
Context {tp : TimeParser} {tl : TimeParserLaws tp}.

(** ** The permit protocol *)

(** A permit's document holds its aggregate; it starts with a freshly issued
    permit and moves by one transition. *)
#[export] Instance permit_record : StoredRecord permit_aggregate :=
  {| sr_collection := C_ACTION_PERMIT;
     sr_id a := permit_id (ag_permit a);
     sr_revision a := Z.of_nat (length (ag_audit_events a)) - 1;
     sr_bytes := canonical_json_bytes;
     sr_decode text := match decode_contract text with Ok a => Some a | Raise _ => None end;
     sr_valid a := construct_aggregate a = Ok tt;
     sr_initial a := issued_aggregate (ag_permit a) = Ok a;
     sr_step := permit_step |}.

Lemma issued_aggregate_permit p a : issued_aggregate p = Ok a → ag_permit a = p.
Proof. unfold issued_aggregate. intros H. inv_ok. by subst. Qed.

Lemma issued_aggregate_length p a :
  issued_aggregate p = Ok a → length (ag_audit_events a) = 1%nat.
Proof. unfold issued_aggregate. intros H. inv_ok. by subst. Qed.

#[export] Instance permit_record_laws : StoredRecordLaws permit_aggregate.
Proof.
  split.
  - intros a Ha%aggregate_decodes. unfold sr_decode, permit_record.
    change (sr_bytes a) with (canonical_json_bytes a). by rewrite Ha.
  - intros a b Hs. change (permit_id (ag_permit b) = permit_id (ag_permit a)).
    apply step_edge in Hs as [->|[_ H]]; [done|]. by injection H.
  - intros a b [a' ? m _]. cbn. rewrite length_app. cbn. lia.
  - intros a b Ha%issued_aggregate_length Hb%issued_aggregate_length. cbn. by rewrite Ha, Hb.
Qed.

#[export] Instance permit_protocol : protocol := record_protocol (A := permit_aggregate).

(** ** Reading *)

Lemma decode_aggregate_inv s a :
  _decode_aggregate s = Ok a →
  decode_contract (fd_canonical_payload (sn_document s)) = Ok a
  ∧ fd_logical_id (sn_document s) = permit_id (ag_permit a)
  ∧ validate_action_permit_identity (ag_permit a) = Ok tt
  ∧ fd_revision (sn_document s) = Z.of_nat (length (ag_audit_events a)) - 1.
Proof.
  unfold _decode_aggregate. intros H. destruct (aggregate_of s) as [b|] eqn:Hb; [|done].
  cbn in H. injection H as ->. unfold aggregate_of in Hb.
  apply reject_then_ok in Hb as [_ Hb]. apply bind_ok in Hb as (b & Hdec & Hb).
  destruct (decode_contract _) as [c|?] eqn:Hc in Hdec; [|discriminate Hdec].
  cbn in Hdec. injection Hdec as ->. apply bind_ok in Hb as (u & Hid & Hb).
  apply reject_then_ok in Hb as [Hl Hb]. apply reject_then_ok in Hb as [Hrev Hb].
  injection Hb as <-. bool_simpl. split_and!; [done..| |done].
  by destruct (validate_action_permit_identity (ag_permit b)) as [[]|].
Qed.

Context {fs : Firestore} {laws : FirestoreLaws fs}.

(** A version of a permit's path and its aggregate. *)
Abbreviation aggregate_version := (version_of (A := permit_aggregate)).

Lemma snapshot_aggregate h0 h id s a :
  snapshot_of h0 h C_ACTION_PERMIT id s → _decode_aggregate s = Ok a →
  aggregate_version h id (sn_update_time s) (data_of (sn_document s)) a.
Proof.
  intros Hs (Hdec & Hl & _ & _)%decode_aggregate_inv.
  eapply snapshot_version; [exact Hs| |exact Hl].
  intros b Hb Hp. change (fd_canonical_payload (sn_document s) = canonical_json_bytes b) in Hp.
  rewrite Hp, (aggregate_decodes b Hb) in Hdec. congruence.
Qed.

(** [a] was read at the snapshot [s], the latest version at some time after [h0]. *)
Definition aggregate_read (h0 h : history) (id : string) (s : FirestoreCasSnapshot)
  (a : permit_aggregate) : Prop :=
  aggregate_version h id (sn_update_time s) (data_of (sn_document s)) a
  ∧ recent h0 (record_path id) (sn_update_time s)
  ∧ fd_revision (sn_document s) = Z.of_nat (length (ag_audit_events a)) - 1.

Lemma aggregate_read_since h0 h h' id s a :
  grows h h' → aggregate_read h0 h id s a → seen_since h0 h' id a.
Proof.
  intros Hg (Hv & Hr & _). exists (sn_update_time s), (data_of (sn_document s)).
  split; [by eapply version_of_grows|done].
Qed.

Lemma r_permit_read id h :
  returns (permit_read id) (λ h' r, aggregate_read h h' id r.1 r.2) h.
Proof.
  apply r_bind. eapply r_mono.
  - apply r_catch; [apply r_read|]. intros e h' _. apply r_raise.
  - intros h1 [s|] _ Hs; [|apply r_raise]. cbn in Hs. specialize (Hs s eq_refl).
    apply r_bind, r_lift. intros a h2 Ha Hg2. apply r_ret. intros h3 Hg3. cbn [fst snd].
    split_and!.
    + apply (version_of_grows h1); [by transitivity h2|]. by eapply snapshot_aggregate.
    + by destruct Hs as (_ & _ & _ & _ & _ & ?).
    + by apply decode_aggregate_inv in Ha as (_ & _ & _ & ?).
Qed.

Lemma r_aggregate_document i a rev h :
  rev = Z.of_nat (length (ag_audit_events a)) - 1 →
  returns (_aggregate_document a rev) (λ h' doc, own_document h h' i a doc) h.
Proof. intros Hr. exact (r_own_document i a rev h Hr). Qed.

(** ** Calls *)

(** The aggregate [a] is a version of the permit [id]. *)
Definition aggregate_seen (h : history) (id : string) (a : permit_aggregate) : Prop :=
  ∃ t d, aggregate_version h id t d a.

(** Client [i] replaced a version [a] by the one its request turns it into, with
    the mutation [m], in a document it alone wrote. *)
Definition transition_made (h : history) (i : nat) (id : string) (request : permit_request)
  (m : PermitMutation) : Prop :=
  ∃ a, aggregate_seen h id a ∧ evaluate_request a request = Ok m
    ∧ written_by h i id (extend_aggregate a m).

(** It did so after [h0]. *)
Definition transition_since (h0 h : history) (i : nat) (id : string) (request : permit_request)
  (m : PermitMutation) : Prop :=
  ∃ a, seen_since h0 h id a ∧ evaluate_request a request = Ok m
    ∧ written_since h0 h i id (extend_aggregate a m).

Lemma aggregate_seen_grows h h' id a : grows h h' → aggregate_seen h id a → aggregate_seen h' id a.
Proof. intros Hg (t & d & Hv). exists t, d. by eapply version_of_grows. Qed.

Lemma transition_made_grows h h' i id request m :
  grows h h' → transition_made h i id request m → transition_made h' i id request m.
Proof.
  intros Hg (a & Hs & He & Hw). exists a.
  split_and!; [by eapply aggregate_seen_grows|done|by eapply written_by_grows].
Qed.

Lemma transition_since_grows h0 h h' i id request m :
  grows h h' → transition_since h0 h i id request m → transition_since h0 h' i id request m.
Proof.
  intros Hg (a & Hs & He & Hw). exists a.
  split_and!; [by eapply seen_since_grows|done|by eapply written_since_grows].
Qed.

Lemma transition_since_since h0 h0' h i id request m :
  grows h0 h0' → transition_since h0' h i id request m → transition_since h0 h i id request m.
Proof.
  intros Hg (a & Hs & He & Hw). exists a.
  split_and!; [by eapply seen_since_since|done|by eapply written_since_since].
Qed.

Lemma transition_since_made h0 h i id request m :
  transition_since h0 h i id request m → transition_made h i id request m.
Proof.
  intros (a & (t & d & Hv & _) & He & Hw). exists a.
  split_and!; [by exists t, d|done|by eapply written_since_by].
Qed.

Lemma r_mutate_once i id request h :
  returns (mutate_once id request)
    (λ h' o, ∀ m, o = Some m → transition_since h h' i id request m) h.
Proof.
  apply r_bind. eapply r_mono; [apply r_permit_read|]. intros h1 [s a] Hg1 Hread.
  cbn [fst snd] in *. pose proof Hread as (Hv & _ & Hrev).
  apply r_bind, r_lift. intros m h2 Hm%checked_ok Hg2.
  apply r_bind, r_lift. intros [] h3 Hok%checked_ok Hg3.
  assert (permit_step a (extend_aggregate a m)) as Hstep by by eapply permit_step_request.
  apply r_bind. eapply r_mono; [apply (r_aggregate_document i)|].
  { rewrite Hrev. cbn [ag_audit_events extend_aggregate]. rewrite length_app. cbn. lia. }
  intros h4 doc Hg4 Hdoc. cbv beta in Hdoc.
  assert (grows h1 h4) as Hg by (do 2 (etrans; [eassumption|]); done).
  apply r_bind. eapply (r_mono _ (λ h' o, ∀ w, o = Some w →
    version_of h' id (sn_update_time w) (data_of doc) (extend_aggregate a m))).
  - apply r_catch.
    + apply r_bind. eapply r_mono.
      * eapply (r_update_record h3 i id s a); [by eapply version_of_grows|done..].
      * intros h5 w Hg5 [_ Hw]. apply r_ret. intros h6 Hg6 w' [= <-]. by eapply version_of_grows.
    + intros e h5 _. destruct e as [| | |[]| | | | | | |]; try apply r_raise. by apply r_ret.
  - intros h5 [w|] Hg5 Hw; [|by apply r_ret]. apply r_bind, r_lift. intros [] h6 _ Hg6.
    apply r_ret. intros h7 Hg7 m' [= <-]. assert (grows h5 h7) as Hg57 by by etrans.
    assert (grows h h3) as Hg03 by (etrans; [exact Hg1|]; by etrans; [exact Hg2|]).
    exists a. split_and!; [|done|].
    + eapply aggregate_read_since; [|exact Hread]. etrans; [exact Hg|]. by etrans.
    + eapply written_since_since; [exact Hg03|].
      eapply own_written; [by eapply version_of_grows; [|by apply Hw]|].
      eapply own_document_grows; [|exact Hdoc]. by etrans.
Qed.

Lemma r_mutate n i id request h :
  returns (mutate n id request) (λ h' m, transition_since h h' i id request m) h.
Proof.
  revert h. induction n as [|n IH]; intros h; [apply r_raise|].
  apply r_bind. eapply r_mono; [apply (r_mutate_once i)|]. intros h1 [m|] Hg1 Hm.
  - apply r_ret. intros h2 Hg. eapply transition_since_grows; [exact Hg|by apply Hm].
  - eapply r_mono; [apply IH|]. intros h2 m _ Ht. by eapply transition_since_since.
Qed.

(** A request that is granted: its mutation and the permit returned. *)
Definition granted (h0 h : history) (i : nat) (id : string) (request : permit_request)
  (p : ActionPermit) : Prop :=
  ∃ m, transition_since h0 h i id request m ∧ pm_denial_reason m = None ∧ p = pm_permit m.

Lemma granted_made h0 h i id request p :
  granted h0 h i id request p → ∃ m, transition_made h i id request m ∧ pm_denial_reason m = None.
Proof. intros (m & Ht & Hd & _). exists m. split; [by eapply transition_since_made|done]. Qed.

Lemma r_claim i rq h :
  returns (claim_permit rq) (λ h' p, granted h h' i (rq_permit_id rq) (Claim rq) p) h.
Proof.
  apply r_bind. eapply r_mono; [apply (r_mutate _ i)|]. intros h1 m _ Hm. cbn in Hm.
  destruct (pm_denial_reason m) eqn:Hd; [apply r_raise|]. apply r_ret. intros h2 Hg.
  exists m. split; [by eapply transition_since_grows|done].
Qed.

Lemma r_complete i cq h :
  returns (complete_permit cq) (λ h' p, granted h h' i (cq_permit_id cq) (Complete cq) p) h.
Proof.
  apply r_bind. eapply r_mono; [apply (r_mutate _ i)|]. intros h1 m _ Hm. cbn in Hm.
  destruct (pm_denial_reason m) eqn:Hd; [apply r_raise|]. apply r_ret. intros h2 Hg.
  exists m. split; [by eapply transition_since_grows|done].
Qed.

Lemma r_get_permit id h :
  returns (get_permit id) (λ h' p, ∃ a, seen_since h h' id a ∧ p = ag_permit a) h.
Proof.
  apply r_bind. eapply r_mono; [apply r_permit_read|]. intros h1 [s a] _ Hr.
  apply r_ret. intros h2 Hg. exists a. split; [|done]. by eapply aggregate_read_since.
Qed.

Lemma r_permit_audit_events id h :
  returns (permit_audit_events id)
    (λ h' es, ∃ a, seen_since h h' id a ∧ es = ag_audit_events a) h.
Proof.
  apply r_bind. eapply r_mono; [apply r_permit_read|]. intros h1 [s a] _ Hr.
  apply r_ret. intros h2 Hg. exists a. split; [|done]. by eapply aggregate_read_since.
Qed.

(** What an issuance that returned [p] found and left. *)
Definition issued_or_found (h0 h : history) (i : nat) (permit p : ActionPermit) : Prop :=
  (∃ a, issued_aggregate permit = Ok a ∧ written_since h0 h i (permit_id permit) a ∧ p = permit)
  ∨ (∃ a, seen_since h0 h (permit_id permit) a ∧ p = ag_permit a
      ∧ same_action_permit_authority p permit = Ok true).

Lemma issued_or_found_grows h0 h h' i permit p :
  grows h h' → issued_or_found h0 h i permit p → issued_or_found h0 h' i permit p.
Proof.
  intros Hg [(a & ? & Hw & ?)|(a & Hs & ? & ?)]; [left|right]; exists a.
  - split_and!; [done|by eapply written_since_grows|done].
  - split_and!; [by eapply seen_since_grows|done..].
Qed.

Lemma r_create_or_existing i permit a doc h0 h :
  grows h0 h → issued_aggregate permit = Ok a → construct_aggregate a = Ok tt →
  own_document h0 h i a doc →
  returns (create_or_existing permit doc) (λ h' o,
    issued_or_found h0 h' i permit match o with inl _ => permit | inr p => p end) h.
Proof.
  intros Hg Ha Hok Hdoc. pose proof (issued_aggregate_permit _ _ Ha) as Hp. apply r_catch.
  - apply r_bind. eapply r_mono.
    { apply (r_create_record h0 i a); [|exact Hok|exact Hdoc].
      change (issued_aggregate (ag_permit a) = Ok a). by rewrite Hp. }
    intros h1 w Hg1 [_ Hk]. change (sr_id a) with (permit_id (ag_permit a)) in Hk.
    rewrite Hp in Hk. apply r_ret. intros h2 Hg2. left. exists a. split_and!; [done| |done].
    eapply own_written; [by eapply version_of_grows|].
    eapply own_document_grows; [|exact Hdoc]. by etrans.
  - intros e h1 Hg1. destruct e as [| | |[]| | | | | | |]; try apply r_raise.
    apply r_bind. eapply r_mono.
    + apply r_catch; [apply r_permit_read|]. intros e h2 _. destruct e; apply r_raise.
    + intros h2 [s b] _ Hr. cbn [fst snd] in *. apply r_bind, r_lift.
      intros [] h3 Hsame%checked_ok Hg3; [|apply r_raise]. apply r_ret. intros h4 Hg4. right.
      exists b. split_and!; [|done..]. eapply seen_since_since; [by etrans|].
      eapply aggregate_read_since; [|exact Hr]. by etrans.
Qed.

Lemma r_issue i permit h :
  returns (issue_permit permit) (λ h' p, issued_or_found h h' i permit p) h.
Proof.
  apply r_bind, r_lift. intros [] h1 _ Hg1. apply r_bind, r_lift. intros [] h2 _ Hg2.
  apply r_bind, r_lift. intros a h3 Ha%checked_ok Hg3. apply r_bind, r_lift.
  intros [] h4 Hok%checked_ok Hg4. pose proof (issued_aggregate_length _ _ Ha) as Hlen.
  assert (grows h h4) as Hg by (do 3 (etrans; [eassumption|]); done).
  apply r_bind. eapply r_mono; [apply (r_aggregate_document i); rewrite Hlen; lia|].
  intros h5 doc Hg5 Hdoc. cbv beta in Hdoc.
  apply r_bind. eapply r_mono.
  - apply (r_create_or_existing i permit a doc h); [by etrans|done..|].
    by eapply own_document_since.
  - intros h6 [w|p] _ Hw.
    + apply r_bind, r_lift. intros [] h7 _ Hg7. apply r_ret. intros h8 Hg8.
      eapply issued_or_found_grows; [|exact Hw]. by etrans.
    + apply r_ret. intros h7 Hg7. by eapply issued_or_found_grows.
Qed.

End facts.
