(* ===== verification/FirestorePermitProperties.v ===== *)
(** Concurrent use of the Firestore permit store: what every interleaving of
    clients, every lost acknowledgement and every late commit leaves true. *)

From S2P Require Export FirestorePermits.

#[local] Open Scope Z_scope.

(** ** Calls *)

(** A call of the store and what it returns. *)
Inductive permit_call :=
  | CallIssue (permit : ActionPermit)
  | CallGet (permit_id : string)
  | CallAuditEvents (permit_id : string)
  | CallClaim (request : PermitClaimRequest)
  | CallComplete (request : PermitCompletionRequest).

Inductive permit_reply :=
  | ReplyPermit (permit : ActionPermit)
  | ReplyEvents (events : list PermitAuditEvent).

Section calls.
Context {rt : Runtime} {sec : Security} {fp : FloatParser} {tp : TimeParser}.

Definition run_call (c : permit_call) : hosted permit_reply :=
  match c with
  | CallIssue permit => p ← issue_permit permit; mret (ReplyPermit p)
  | CallGet id => p ← get_permit id; mret (ReplyPermit p)
  | CallAuditEvents id => es ← permit_audit_events id; mret (ReplyEvents es)
  | CallClaim request => p ← claim_permit request; mret (ReplyPermit p)
  | CallComplete request => p ← complete_permit request; mret (ReplyPermit p)
  end.

(** An aggregate some sequence of transitions makes of an issued permit. *)
Definition reached (a : permit_aggregate) : Prop :=
  ∃ a0, issued_aggregate (ag_permit a0) = Ok a0 ∧ rtc permit_step a0 a.

(** What a granted request makes of an aggregate, and the permit it returns. *)
Definition transition_reply (a : permit_aggregate) (request : permit_request)
  : option (option permit_aggregate * permit_reply) :=
  match evaluate_request a request with
  | Ok m =>
      match pm_denial_reason m with
      | None => Some (Some (extend_aggregate a m), ReplyPermit (pm_permit m))
      | Some _ => None
      end
  | Raise _ => None
  end.

(** The permit a call is about. *)
Definition call_permit (c : permit_call) : string :=
  match c with
  | CallIssue permit => permit_id permit
  | CallGet id | CallAuditEvents id => id
  | CallClaim request => rq_permit_id request
  | CallComplete request => cq_permit_id request
  end.

(** The abstract permit object, one aggregate or none: what it becomes by a call it
    answers and what it replies; a call that is refused has no reply. *)
Definition permit_object (c : permit_call) (st : option permit_aggregate)
  : option (option permit_aggregate * permit_reply) :=
  match c, st with
  | CallIssue permit, None =>
      match issued_aggregate permit with
      | Ok a => Some (Some a, ReplyPermit permit)
      | Raise _ => None
      end
  | CallIssue permit, Some a =>
      match same_action_permit_authority (ag_permit a) permit with
      | Ok true => Some (Some a, ReplyPermit (ag_permit a))
      | _ => None
      end
  | CallGet _, Some a => Some (Some a, ReplyPermit (ag_permit a))
  | CallAuditEvents _, Some a => Some (Some a, ReplyEvents (ag_audit_events a))
  | CallClaim request, Some a => transition_reply a (Claim request)
  | CallComplete request, Some a => transition_reply a (Complete request)
  | _, None => None
  end.

End calls.

Section facts.
Context {rt : Runtime} {sec : Security} {fp : FloatParser}.
Context {tp : TimeParser} {tl : TimeParserLaws tp}.
Context {fs : Firestore} {laws : FirestoreLaws fs}.

(** ** What a finished call has done *)

Definition object_replies (c : permit_call) (before after : option permit_aggregate)
  (r : permit_reply) : Prop := permit_object c before = Some (after, r).

Lemma granted_effect h0 h i id request p :
  granted h0 h i id request p → ∃ a after, seen_since h0 h id a
    ∧ took_effect h0 h i id (Some a) after
    ∧ transition_reply a request = Some (after, ReplyPermit p).
Proof.
  intros (m & (a & Hs & He & Hw) & Hd & ->). exists a, (Some (extend_aggregate a m)).
  split; [done|]. split.
  - split; [done|]. right. split; [by eapply permit_step_request|done].
  - unfold transition_reply. by rewrite He, Hd.
Qed.

(** A call that returns takes effect between two states of the permit object that
    explain its reply. *)
Lemma r_call i c h : returns (run_call c) (λ h' r, ∃ before after,
  took_effect h h' i (call_permit c) before after ∧ object_replies c before after r) h.
Proof.
  unfold object_replies. destruct c as [permit|id|id|rq|cq]; cbn [run_call call_permit];
    apply r_bind; (eapply r_mono;
      [first [apply (r_issue i)|apply r_get_permit|apply r_permit_audit_events
             |apply (r_claim i)|apply (r_complete i)]|]); intros h1 p _ Hp; apply r_ret;
    intros h2 Hg; cbv beta in Hp.
  - destruct (issued_or_found_grows _ _ _ _ _ _ Hg Hp)
      as [(a & Ha & Hw & ->)|(a & Hs & -> & Hsame)].
    + exists None, (Some a). split; [|cbn; by rewrite Ha]. split; [|done].
      change (issued_aggregate (ag_permit a) = Ok a).
      by rewrite (issued_aggregate_permit _ _ Ha).
    + exists (Some a), (Some a). split; [by split; [|left]|]. cbn. by rewrite Hsame.
  - destruct Hp as (a & Hs & ->). apply (seen_since_grows _ _ _ _ _ Hg) in Hs.
    exists (Some a), (Some a). split; [by split; [|left]|done].
  - destruct Hp as (a & Hs & ->). apply (seen_since_grows _ _ _ _ _ Hg) in Hs.
    exists (Some a), (Some a). split; [by split; [|left]|done].
  - apply granted_effect in Hp as (a & after & _ & Ht & Hr). exists (Some a), after.
    split; [by eapply took_grows|done].
  - apply granted_effect in Hp as (a & after & _ & Ht & Hr). exists (Some a), after.
    split; [by eapply took_grows|done].
Qed.

(** The transition behind a claim or a completion that returned. *)
Definition call_done (i : nat) (c : permit_call) (h : history) (r : permit_reply) : Prop :=
  match c with
  | CallClaim request => ∃ m, transition_made h i (rq_permit_id request) (Claim request) m
      ∧ pm_denial_reason m = None
  | CallComplete request => ∃ m,
      transition_made h i (cq_permit_id request) (Complete request) m
      ∧ pm_denial_reason m = None
  | _ => True
  end.

Lemma r_call_done i c h : returns (run_call c) (call_done i c) h.
Proof.
  assert (∀ id request (m : hosted ActionPermit), returns m (λ h' p, granted h h' i id request p) h →
    returns (p ← m; mret (ReplyPermit p)) (λ h' _, ∃ mu, transition_made h' i id request mu
      ∧ pm_denial_reason mu = None) h) as Hgranted.
  { intros id request m Hm. apply r_bind. eapply r_mono; [exact Hm|].
    intros h1 p _ (mu & Ht & Hd)%granted_made. apply r_ret. intros h2 Hg. exists mu.
    split; [by eapply transition_made_grows|done]. }
  destruct c as [permit|id|id|rq|cq]; cbn [run_call call_done].
  4: apply Hgranted, (r_claim i).
  4: apply Hgranted, (r_complete i).
  all: apply r_bind; (eapply r_mono; [first [apply (r_issue i)|apply r_get_permit
    |apply r_permit_audit_events]|]); intros; by apply r_ret.
Qed.

(** After any run the history is chained and each finished call is done. *)
Lemma calls_adequate calls s0 s ps :
  fresh_database s0 →
  rtc (pool_step respond background) (s0, map run_call calls) (s, ps) →
  ∃ h, chained s h ∧ ∀ i c r, calls !! i = Some c → ps !! i = Some (Done (Ok r)) →
    call_done i c h r.
Proof. intros Hf. apply calls_return; [done|]. intros i c. apply r_call_done. Qed.

(** ** Counting transitions *)

Lemma step_events a a' : permit_step a a' →
  ∃ e, ag_audit_events a' = ag_audit_events a ++ [e].
Proof. intros [? ? m _]. by exists (pm_event m). Qed.

Lemma steps_events a a' : tc permit_step a a' →
  ∃ l e, ag_audit_events a' = ag_audit_events a ++ l ++ [e].
Proof.
  induction 1 as [a a' (e & He)%step_events|a b c (e & He)%step_events _ (l & e' & IH)].
  - by exists [], e.
  - exists (e :: l), e'. by rewrite IH, He, <-!app_assoc.
Qed.

Lemma granted_event p rq n t m :
  evaluate_permit_claim p rq n t = Ok m → pm_denial_reason m = None →
  ev_kind (pm_event m) = Audit_CLAIMED.
Proof.
  unfold evaluate_permit_claim. intros H Hd.
  repeat case_match; try (apply blocked_mutation_inv in H as (_ & Hr & _); congruence).
  - inv_ok. subst. discriminate Hd.
  - inv_ok. apply permit_event_inv in Hr0. subst. done.
Qed.

Lemma settled_event p cq n t m :
  evaluate_permit_completion p cq n t = Ok m → pm_denial_reason m = None →
  is_Some (audit_kind_outcome (ev_kind (pm_event m))).
Proof.
  unfold evaluate_permit_completion. intros H Hd.
  case_match; [|apply blocked_mutation_inv in H as (_ & Hr & _); congruence].
  inv_ok. apply permit_event_inv in Hr0. subst. cbn. by destruct (cq_outcome cq).
Qed.

Lemma constructed_valid a : construct_aggregate a = Ok tt → validate_history a = Ok tt.
Proof.
  intros (u & Hp & H)%bind_ok. apply bind_ok in H as (u' & _ & H).
  apply reject_then_ok in Hp as [_ Hp]. unfold validate_history.
  destruct u. by rewrite Hp.
Qed.

(** An aggregate the store accepted, whose last event [f] counts. *)
Definition ends_with (f : PermitAuditEvent → bool) (a : permit_aggregate) : Prop :=
  construct_aggregate a = Ok tt ∧ ∃ es e, ag_audit_events a = es ++ [e] ∧ f e = true.

(** Two clients cannot both have made a transition whose event [f] counts, when
    no valid history holds two such events. *)
Lemma transition_once (f : PermitAuditEvent → bool) s h id i j ri rj mi mj :
  (∀ p es, validate_permit_audit_history p es = Ok tt →
     (length (List.filter f es) ≤ 1)%nat) →
  chained s h →
  transition_made h i id ri mi → f (pm_event mi) = true →
  transition_made h j id rj mj → f (pm_event mj) = true → i = j.
Proof.
  intros Hf Hc (ai & _ & _ & Hi) Hfi (aj & _ & _ & Hj) Hfj.
  assert (∀ h i a m, written_by h i id (extend_aggregate a m) → f (pm_event m) = true →
    ends_with f (extend_aggregate a m)) as Hends.
  { intros h' i' a m (t & d & doc & uuid & (_ & He & _) & _) Hm.
    split; [exact (encodes_valid _ _ _ He)|]. by exists (ag_audit_events a), (pm_event m). }
  eapply (written_once (ends_with f) s h i j id); [exact Hc| |exact Hi|exact Hj|by eauto..].
  intros a b (_ & es & e & Ha & He) (Hb & es' & e' & Hb' & He') (l & e2 & Hs)%steps_events.
  assert (e2 = e') as ->.
  { rewrite Hb', !app_assoc in Hs. by apply app_inj_2 in Hs as [_ [= ->]]. }
  unfold construct_aggregate in Hb.
  apply bind_ok in Hb as (u & _ & (u' & _ & Hb)%bind_ok). apply Hf in Hb.
  rewrite Hs, Ha, !List.filter_app, !length_app in Hb. cbn in Hb.
  rewrite He, He' in Hb. cbn in Hb. lia.
Qed.

Lemma made_granted h i id rq m :
  transition_made h i id (Claim rq) m → pm_denial_reason m = None →
  ev_kind (pm_event m) = Audit_CLAIMED.
Proof.
  intros (a & _ & He & _) Hd. unfold evaluate_request in He.
  destruct (last _); [|done]. by eapply granted_event.
Qed.

Lemma made_settled h i id cq m :
  transition_made h i id (Complete cq) m → pm_denial_reason m = None →
  is_Some (audit_kind_outcome (ev_kind (pm_event m))).
Proof.
  intros (a & _ & He & _) Hd. unfold evaluate_request in He.
  destruct (last _); [|done]. by eapply settled_event.
Qed.

(** The counts of PermitLifecycle.v, as boolean filters. *)
Lemma filter_bool {A} (P : A → Prop) `{!∀ x, Decision (P x)} l :
  List.filter (λ x, bool_decide (P x)) l = filter P l.
Proof.
  induction l as [|x l IH]; [done|]. cbn [List.filter]. rewrite filter_cons, IH.
  case_bool_decide; [by rewrite decide_True|by rewrite decide_False].
Qed.

Lemma filter_claims es :
  length (List.filter (λ e, bool_decide (ev_kind e = Audit_CLAIMED)) es)
    = length (claims_of es).
Proof. by rewrite filter_bool. Qed.

Lemma filter_settlements es :
  length (List.filter (λ e, bool_decide (is_Some (audit_kind_outcome (ev_kind e)))) es)
    = length (settlements_of es).
Proof. by rewrite filter_bool. Qed.

(** On a chained database one client at most claims a permit, and one settles it. *)
Lemma claim_once s h id i j rqi rqj mi mj :
  chained s h →
  transition_made h i id (Claim rqi) mi → pm_denial_reason mi = None →
  transition_made h j id (Claim rqj) mj → pm_denial_reason mj = None → i = j.
Proof.
  intros Hc Hi Hdi Hj Hdj.
  apply (transition_once (λ e, bool_decide (ev_kind e = Audit_CLAIMED)) s h id i j
    (Claim rqi) (Claim rqj) mi mj); try done.
  - intros p' es Hv. apply history_counts in Hv as [Hv _]. rewrite filter_claims, Hv.
    destruct (state p'); cbn; lia.
  - by eapply bool_decide_eq_true, made_granted.
  - by eapply bool_decide_eq_true, made_granted.
Qed.

Lemma settlement_once s h id i j cqi cqj mi mj :
  chained s h →
  transition_made h i id (Complete cqi) mi → pm_denial_reason mi = None →
  transition_made h j id (Complete cqj) mj → pm_denial_reason mj = None → i = j.
Proof.
  intros Hc Hi Hdi Hj Hdj.
  apply (transition_once (λ e, bool_decide (is_Some (audit_kind_outcome (ev_kind e)))) s h id i j
    (Complete cqi) (Complete cqj) mi mj); try done.
  - intros p' es Hv. apply history_counts in Hv as [_ Hv]. rewrite filter_settlements, Hv.
    destruct (state p'); cbn; lia.
  - by eapply bool_decide_eq_true, made_settled.
  - by eapply bool_decide_eq_true, made_settled.
Qed.

End facts.

(** * Properties *)

Section properties.
Context {rt : Runtime} {sec : Security} {fp : FloatParser}.
Context {tp : TimeParser} {tl : TimeParserLaws tp}.
Context {fs : Firestore} {laws : FirestoreLaws fs}.

(** C17: the durable history of a permit.  Whatever calls run concurrently on a
    fresh database, however they interleave, whichever commits contend, lose
    their acknowledgement or are applied late, every stored permit document
    decodes to an aggregate that some sequence of single permit transitions
    makes of an issued permit, and its whole audit history replays. *)
Theorem stored_permit_history calls s0 s ps id d t :
  fresh_database s0 →
  rtc (pool_step respond background) (s0, map run_call calls) (s, ps) →
  stored s (path_text C_ACTION_PERMIT id) = Some (d, t) →
  ∃ payload a, d !! "canonical_payload" = Some (JStr payload)
    ∧ decode_contract payload = Ok a ∧ reached a ∧ validate_history a = Ok tt.
Proof.
  intros Hf Hrun Hs. destruct (calls_adequate _ _ _ _ Hf Hrun) as (h & Hc & _).
  pose proof (chain_current _ _ Hc _ _ _ Hs) as Hv.
  destruct (chain_origin _ _ Hc _ _ _ Hv) as (c & Hcr & Hr).
  destruct (version_record _ _ _ Hcr Hr) as (a0 & a & _ & He & Hi & Hst).
  pose proof (encodes_valid _ _ _ He) as Ha.
  destruct He as (doc & -> & _ & _ & _ & Hb & _). exists (canonical_json_bytes a), a.
  split; [|split; [by apply aggregate_decodes|split; [by exists a0|]]].
  - change (canonical_json_bytes a) with (sr_bytes a). rewrite <-Hb. by apply (data_lookup doc 5).
  - by apply constructed_valid.
Qed.

(** A permit authorises one dispatch.  Of all the claims that concurrent
    clients make on one permit identifier, once one has returned a permit every
    other that has returned has raised. *)
Lemma one_claim_succeeds calls s0 s ps i j rqi rqj p r :
  fresh_database s0 →
  rtc (pool_step respond background) (s0, map run_call calls) (s, ps) →
  calls !! i = Some (CallClaim rqi) → calls !! j = Some (CallClaim rqj) →
  rq_permit_id rqi = rq_permit_id rqj → i ≠ j →
  ps !! i = Some (Done (Ok p)) → ps !! j = Some (Done r) → ∃ e, r = Raise e.
Proof.
  intros Hf Hrun Hi Hj Hid Hne Hpi Hpj. destruct r as [q|e]; [|by exists e].
  destruct (calls_adequate _ _ _ _ Hf Hrun) as (h & Hc & Hd). destruct Hne.
  destruct (Hd i _ _ Hi Hpi) as (mi & Hmi & Hdi).
  destruct (Hd j _ _ Hj Hpj) as (mj & Hmj & Hdj). rewrite <-Hid in Hmj.
  exact (claim_once _ _ _ _ _ _ _ _ _ Hc Hmi Hdi Hmj Hdj).
Qed.

(** A claimed permit is settled once.  Of all the completions that
    concurrent clients make on one permit identifier, once one has returned a
    permit every other that has returned has raised. *)
Lemma one_completion_succeeds calls s0 s ps i j cqi cqj p r :
  fresh_database s0 →
  rtc (pool_step respond background) (s0, map run_call calls) (s, ps) →
  calls !! i = Some (CallComplete cqi) → calls !! j = Some (CallComplete cqj) →
  cq_permit_id cqi = cq_permit_id cqj → i ≠ j →
  ps !! i = Some (Done (Ok p)) → ps !! j = Some (Done r) → ∃ e, r = Raise e.
Proof.
  intros Hf Hrun Hi Hj Hid Hne Hpi Hpj. destruct r as [q|e]; [|by exists e].
  destruct (calls_adequate _ _ _ _ Hf Hrun) as (h & Hc & Hd). destruct Hne.
  destruct (Hd i _ _ Hi Hpi) as (mi & Hmi & Hdi).
  destruct (Hd j _ _ Hj Hpj) as (mj & Hmj & Hdj). rewrite <-Hid in Hmj.
  exact (settlement_once _ _ _ _ _ _ _ _ _ Hc Hmi Hdi Hmj Hdj).
Qed.

(** C16: the store implements the permit object.  Clients make the calls [early] on
    a fresh database and, once it is in the state [s1], the calls [late]; they
    interleave in any way and the service fails in any way, up to the state [s2].
    Each call that returned found its permit's stored aggregate in one state and left
    it in another, such that the pure object in the first state becomes the second
    and gives that very reply: the two differ by one issuance or transition, made by
    this call alone, or not at all.  A late call's first state comes at or after the
    aggregate stored in [s1]; the second state of a call that had returned in [s1]
    comes at or before that aggregate, and of every call at or before the aggregate
    stored in [s2]; and any two calls on one permit take effect one after the
    other. *)
Theorem replies_refine_permit_object early late s0 s1 ps1 s2 ps2 :
  fresh_database s0 →
  rtc (pool_step respond background) (s0, map run_call early) (s1, ps1) →
  rtc (pool_step respond background) (s1, ps1 ++ map run_call late) (s2, ps2) →
  ∃ before after,
    linear call_permit object_replies early late s1 ps1 s2 ps2 before after.
Proof. apply calls_linear, r_call. Qed.

(** C39: what the store writes it reads back.  The document built for an
    aggregate, found again at a snapshot of the permit collection, decodes to
    that aggregate. *)
Theorem stored_aggregate_roundtrip a rev mid doc key t :
  construct_aggregate a = Ok tt →
  validate_action_permit_identity (ag_permit a) = Ok tt →
  rev = Z.of_nat (length (ag_audit_events a)) - 1 →
  build_firestore_cas_document C_ACTION_PERMIT (permit_id (ag_permit a)) rev mid
    (canonical_json_bytes a) = Ok doc →
  _decode_aggregate {| sn_collection := C_ACTION_PERMIT; sn_document_key := key;
                       sn_document := doc; sn_update_time := t |} = Ok a.
Proof.
  intros Ha Hid -> (Hk & Hl & Hrev & _ & Hp & _)%build_inv.
  unfold _decode_aggregate, aggregate_of. cbn [sn_collection sn_document].
  rewrite Hk, Hp, Hl, Hrev, aggregate_decodes by done. cbn [reject_if map_error mbind result_bind].
  rewrite Hid, !bool_decide_refl, Z.eqb_refl. done.
Qed.

End properties.
