(* ===== verification/Provider.v ===== *)
(** Contracts of the hosted model provider (reconcile/hosted/provider.py): the
    candidate whose one count and one generation are metered, the sealed
    request, the sanitised usage, the reservations; their wire forms, decoders
    and constructors, and that what is written reads back.

    A field with a single literal value is written and checked but not kept. *)

From S2P Require Export PermitCodec.

#[local] Open Scope Z_scope.

Definition HOSTED_CANDIDATE_IDENTITY_VERSION : string := "reconcile/hosted-candidate-identity/v1".
Definition HOSTED_PROVIDER_DISPATCH_VERSION : string := "reconcile/hosted-provider-dispatch/v1".

Record HostedCandidateIdentity := {
  hc_source_revision : string;
  hc_image_digest : string;
  hc_infrastructure_revision : string;
  hc_semantic_config_sha256 : string;
  hc_project_id : string;
  hc_vertex_location : string;
  hc_configured_model : string;
  hc_prompt_version : string;
  hc_prompt_sha256 : string;
  hc_maximum_output_tokens : Z;
}.
Definition hc_maximum_input_tokens : Z := 12000.

Record HostedProviderDispatch := {
  pd_input_sha256 : string;
  pd_count_request_sha256 : string;
  pd_generation_request_sha256 : string;
  pd_request_byte_count : Z;
}.

Record HostedModalityUsage := { mu_modality : string; mu_token_count : Z }.

Record HostedCountTokensUsage := {
  cu_total_tokens : Z;
  cu_cached_content_tokens : Z;
}.

Record HostedGenerationUsage := {
  gu_prompt_tokens : Z;
  gu_candidates_tokens : Z;
  gu_thoughts_tokens : Z;
  gu_tool_use_prompt_tokens : Z;
  gu_cached_content_tokens : Z;
  gu_total_tokens : Z;
  gu_traffic_type : string;
  gu_prompt_details : list HostedModalityUsage;
  gu_candidates_details : list HostedModalityUsage;
  gu_thoughts_details : list HostedModalityUsage;
  gu_tool_use_prompt_details : list HostedModalityUsage;
  gu_cache_details : list HostedModalityUsage;
}.

Inductive HostedCountFailure := Count_UNAVAILABLE | Count_TIMEOUT | Count_INVALID | Count_LIMIT_EXCEEDED.
Inductive HostedGenerationFailure := Generation_UNAVAILABLE | Generation_TIMEOUT | Generation_USAGE_INVALID.
Inductive HostedPlannerOutcome := Hosted_SUCCEEDED | Hosted_UNAVAILABLE | Hosted_TIMEOUT | Hosted_SCHEMA_INVALID.

Record HostedCountReservation := {
  hcr_candidate_id : string;
  hcr_reservation_id : string;
  hcr_revision : Z;
  hcr_dispatch : HostedProviderDispatch;
}.

Record HostedGenerationReservation := {
  hgr_candidate_id : string;
  hgr_reservation_id : string;
  hgr_revision : Z;
  hgr_dispatch : HostedProviderDispatch;
}.

#[export] Instance HostedCandidateIdentity_eq_dec : EqDecision HostedCandidateIdentity.
Proof. solve_decision. Defined.
#[export] Instance HostedProviderDispatch_eq_dec : EqDecision HostedProviderDispatch.
Proof. solve_decision. Defined.
#[export] Instance HostedModalityUsage_eq_dec : EqDecision HostedModalityUsage.
Proof. solve_decision. Defined.
#[export] Instance HostedCountTokensUsage_eq_dec : EqDecision HostedCountTokensUsage.
Proof. solve_decision. Defined.
#[export] Instance HostedGenerationUsage_eq_dec : EqDecision HostedGenerationUsage.
Proof. solve_decision. Defined.
#[export] Instance HostedCountFailure_eq_dec : EqDecision HostedCountFailure.
Proof. solve_decision. Defined.
#[export] Instance HostedGenerationFailure_eq_dec : EqDecision HostedGenerationFailure.
Proof. solve_decision. Defined.
#[export] Instance HostedPlannerOutcome_eq_dec : EqDecision HostedPlannerOutcome.
Proof. solve_decision. Defined.

Definition HostedCountFailure_value (f : HostedCountFailure) : string :=
  match f with
  | Count_UNAVAILABLE => "count-unavailable" | Count_TIMEOUT => "count-timeout"
  | Count_INVALID => "count-invalid" | Count_LIMIT_EXCEEDED => "count-limit-exceeded"
  end.
Definition HostedGenerationFailure_value (f : HostedGenerationFailure) : string :=
  match f with
  | Generation_UNAVAILABLE => "generation-unavailable"
  | Generation_TIMEOUT => "generation-timeout"
  | Generation_USAGE_INVALID => "generation-usage-invalid"
  end.
Definition HostedPlannerOutcome_value (o : HostedPlannerOutcome) : string :=
  match o with
  | Hosted_SUCCEEDED => "planner-succeeded" | Hosted_UNAVAILABLE => "planner-unavailable"
  | Hosted_TIMEOUT => "planner-timeout" | Hosted_SCHEMA_INVALID => "planner-schema-invalid"
  end.

(** ** Wire forms *)

Definition candidate_fields (c : HostedCandidateIdentity) : json_object :=
  [("schema_version", JStr HOSTED_CANDIDATE_IDENTITY_VERSION);
   ("source_revision", JStr (hc_source_revision c));
   ("image_digest", JStr (hc_image_digest c));
   ("infrastructure_revision", JStr (hc_infrastructure_revision c));
   ("semantic_config_sha256", JStr (hc_semantic_config_sha256 c));
   ("project_id", JStr (hc_project_id c));
   ("vertex_location", JStr (hc_vertex_location c));
   ("configured_model", JStr (hc_configured_model c));
   ("prompt_version", JStr (hc_prompt_version c));
   ("prompt_sha256", JStr (hc_prompt_sha256 c));
   ("maximum_input_tokens", JInt hc_maximum_input_tokens);
   ("maximum_output_tokens", JInt (hc_maximum_output_tokens c));
   ("thinking_level", JStr "MINIMAL");
   ("maximum_count_tokens_attempts", JInt 1);
   ("maximum_generation_attempts", JInt 1)].
#[export] Instance HostedCandidateIdentity_json : ToJson HostedCandidateIdentity :=
  λ c, JObj (candidate_fields c).

Definition provider_dispatch_fields (d : HostedProviderDispatch) : json_object :=
  [("schema_version", JStr HOSTED_PROVIDER_DISPATCH_VERSION);
   ("input_sha256", JStr (pd_input_sha256 d));
   ("count_request_sha256", JStr (pd_count_request_sha256 d));
   ("generation_request_sha256", JStr (pd_generation_request_sha256 d));
   ("request_byte_count", JInt (pd_request_byte_count d))].
#[export] Instance HostedProviderDispatch_json : ToJson HostedProviderDispatch :=
  λ d, JObj (provider_dispatch_fields d).

Definition modality_fields (m : HostedModalityUsage) : json_object :=
  [("modality", JStr (mu_modality m)); ("token_count", JInt (mu_token_count m))].
#[export] Instance HostedModalityUsage_json : ToJson HostedModalityUsage :=
  λ m, JObj (modality_fields m).

Definition count_usage_fields (u : HostedCountTokensUsage) : json_object :=
  [("total_tokens", JInt (cu_total_tokens u));
   ("cached_content_tokens", JInt (cu_cached_content_tokens u))].
#[export] Instance HostedCountTokensUsage_json : ToJson HostedCountTokensUsage :=
  λ u, JObj (count_usage_fields u).

Definition generation_usage_fields (u : HostedGenerationUsage) : json_object :=
  [("prompt_tokens", JInt (gu_prompt_tokens u));
   ("candidates_tokens", JInt (gu_candidates_tokens u));
   ("thoughts_tokens", JInt (gu_thoughts_tokens u));
   ("tool_use_prompt_tokens", JInt (gu_tool_use_prompt_tokens u));
   ("cached_content_tokens", JInt (gu_cached_content_tokens u));
   ("total_tokens", JInt (gu_total_tokens u));
   ("traffic_type", JStr (gu_traffic_type u));
   ("prompt_details", to_json (gu_prompt_details u));
   ("candidates_details", to_json (gu_candidates_details u));
   ("thoughts_details", to_json (gu_thoughts_details u));
   ("tool_use_prompt_details", to_json (gu_tool_use_prompt_details u));
   ("cache_details", to_json (gu_cache_details u))].
#[export] Instance HostedGenerationUsage_json : ToJson HostedGenerationUsage :=
  λ u, JObj (generation_usage_fields u).

(** ** Validators *)

(** [_SOURCE_REVISION.fullmatch], [_IMAGE_DIGEST.fullmatch] *)
Definition _SOURCE_REVISION (s : string) : bool :=
  (String.length s =? 40)%nat && string_forallb is_hex_digit s.
Definition _IMAGE_DIGEST (s : string) : bool :=
  match after_word "sha256:" s with
  | Some digits => (String.length digits =? 64)%nat && string_forallb is_hex_digit digits
  | None => false
  end.

Definition validate_candidate (self : HostedCandidateIdentity) : result py_error unit :=
  reject_if (negb (_SOURCE_REVISION (hc_source_revision self)))
    (ValueError "candidate source revision is invalid");;
  reject_if (negb (_IMAGE_DIGEST (hc_image_digest self)))
    (ValueError "candidate image digest is invalid").

Definition total_of (details : list HostedModalityUsage) : Z :=
  foldr Z.add 0 (map mu_token_count details).

Definition _validate_details (details : list HostedModalityUsage) (expected : Z)
  (label : string) : result py_error unit :=
  reject_if (16 <? length details)%nat (ValueError (label +:+ " modality usage is too large"));;
  reject_if (has_dup (map mu_modality details))
    (ValueError (label +:+ " modality usage must be unique"));;
  reject_if (negb (bool_decide (details = [])) && negb (total_of details =? expected))
    (ValueError (label +:+ " modality usage does not match its total")).

Definition validate_count_usage (self : HostedCountTokensUsage) : result py_error unit :=
  reject_if (cu_total_tokens self <? cu_cached_content_tokens self)
    (ValueError "cached token count exceeds the counted input").

Definition validate_generation_usage (self : HostedGenerationUsage) : result py_error unit :=
  let expected_total := gu_prompt_tokens self + gu_candidates_tokens self
    + gu_thoughts_tokens self + gu_tool_use_prompt_tokens self in
  reject_if (negb (gu_total_tokens self =? expected_total))
    (ValueError "generation usage does not match its complete total");;
  reject_if (gu_prompt_tokens self <? gu_cached_content_tokens self)
    (ValueError "cached generation tokens exceed prompt tokens");;
  _validate_details (gu_prompt_details self) (gu_prompt_tokens self) "prompt";;
  _validate_details (gu_candidates_details self) (gu_candidates_tokens self) "candidate";;
  _validate_details (gu_thoughts_details self) (gu_thoughts_tokens self) "thought";;
  _validate_details (gu_tool_use_prompt_details self) (gu_tool_use_prompt_tokens self) "tool-use";;
  _validate_details (gu_cache_details self) (gu_cached_content_tokens self) "cache".

(** [HostedGenerationUsage.output_tokens_including_thoughts] *)
Definition output_tokens_including_thoughts (self : HostedGenerationUsage) : Z :=
  gu_total_tokens self - gu_prompt_tokens self.

(** ** Decoders *)

(** [Literal["..."]] and [Literal[a, b]] of integers. *)
Definition literal_field (value : string) (v : json) : validation unit :=
  match v with
  | JStr s => if bool_decide (s = value) then Valid tt else Invalid false
  | _ => Invalid false
  end.
Definition int_literal_field (values : list Z) (v : json) : validation Z :=
  match v with
  | JInt z => if inb z values then Valid z else Invalid false
  | _ => Invalid false
  end.
Definition str_field : json → validation string := text_field (λ _, Ok tt).

(** A field with a default. *)
Definition with_default {A} (default : A) (name : string) (field : json → validation A)
  (m : json_object) : validation A :=
  match dict_get name m with Some v => field v | None => Valid default end.

Section codec.
Context {rt : Runtime} {sec : Security} {tp : TimeParser}.

Definition candidate_field_names : list string :=
  ["schema_version"; "source_revision"; "image_digest"; "infrastructure_revision";
   "semantic_config_sha256"; "project_id"; "vertex_location"; "configured_model";
   "prompt_version"; "prompt_sha256"; "maximum_input_tokens"; "maximum_output_tokens";
   "thinking_level"; "maximum_count_tokens_attempts"; "maximum_generation_attempts"].

Definition read_candidate (m : json_object) : validation HostedCandidateIdentity :=
  after validate_candidate
    (Valid Build_HostedCandidateIdentity
     <* required "schema_version" (version_field HOSTED_CANDIDATE_IDENTITY_VERSION) m
     <*> required "source_revision" str_field m
     <*> required "image_digest" str_field m
     <*> required "infrastructure_revision" digest_field m
     <*> required "semantic_config_sha256" digest_field m
     <*> required "project_id" identifier_field m
     <*> required "vertex_location" identifier_field m
     <*> required "configured_model" identifier_field m
     <*> required "prompt_version" identifier_field m
     <*> required "prompt_sha256" digest_field m
     <* required "maximum_input_tokens" (int_literal_field [12000]) m
     <*> required "maximum_output_tokens" (int_literal_field [1024; 4096]) m
     <* required "thinking_level" (literal_field "MINIMAL") m
     <* required "maximum_count_tokens_attempts" (int_literal_field [1]) m
     <* required "maximum_generation_attempts" (int_literal_field [1]) m
     <* only_fields candidate_field_names m).

Definition provider_dispatch_field_names : list string :=
  ["schema_version"; "input_sha256"; "count_request_sha256"; "generation_request_sha256";
   "request_byte_count"].

Definition read_provider_dispatch (m : json_object) : validation HostedProviderDispatch :=
  Valid Build_HostedProviderDispatch
  <* required "schema_version" (version_field HOSTED_PROVIDER_DISPATCH_VERSION) m
  <*> required "input_sha256" digest_field m
  <*> required "count_request_sha256" digest_field m
  <*> required "generation_request_sha256" digest_field m
  <*> required "request_byte_count" (int_field 1 12000) m
  <* only_fields provider_dispatch_field_names m.

Definition read_modality (m : json_object) : validation HostedModalityUsage :=
  Valid Build_HostedModalityUsage
  <*> required "modality" identifier_field m
  <*> required "token_count" (int_field 0 int64_max) m
  <* only_fields ["modality"; "token_count"] m.

Definition read_count_usage (m : json_object) : validation HostedCountTokensUsage :=
  after validate_count_usage
    (Valid Build_HostedCountTokensUsage
     <*> required "total_tokens" (int_field 1 12000) m
     <*> required "cached_content_tokens" (int_field 0 12000) m
     <* only_fields ["total_tokens"; "cached_content_tokens"] m).

Definition details_field : json → validation (list HostedModalityUsage) :=
  tuple_field (model_field read_modality).

Definition generation_usage_field_names : list string :=
  ["prompt_tokens"; "candidates_tokens"; "thoughts_tokens"; "tool_use_prompt_tokens";
   "cached_content_tokens"; "total_tokens"; "traffic_type"; "prompt_details";
   "candidates_details"; "thoughts_details"; "tool_use_prompt_details"; "cache_details"].

Definition read_generation_usage (m : json_object) : validation HostedGenerationUsage :=
  after validate_generation_usage
    (Valid Build_HostedGenerationUsage
     <*> required "prompt_tokens" (int_field 0 int64_max) m
     <*> required "candidates_tokens" (int_field 0 int64_max) m
     <*> required "thoughts_tokens" (int_field 0 int64_max) m
     <*> required "tool_use_prompt_tokens" (int_field 0 int64_max) m
     <*> required "cached_content_tokens" (int_field 0 int64_max) m
     <*> required "total_tokens" (int_field 0 int64_max) m
     <*> required "traffic_type" identifier_field m
     <*> with_default [] "prompt_details" details_field m
     <*> with_default [] "candidates_details" details_field m
     <*> with_default [] "thoughts_details" details_field m
     <*> with_default [] "tool_use_prompt_details" details_field m
     <*> with_default [] "cache_details" details_field m
     <* only_fields generation_usage_field_names m).

(** ** Constructors *)

Definition fields_checked (valid : bool) : result py_error unit :=
  reject_if (negb valid) (ValueError "a field is invalid").

Definition construct_candidate (c : HostedCandidateIdentity) : result py_error unit :=
  fields_checked
    (forallb (passes validate_Sha256Digest)
       [hc_infrastructure_revision c; hc_semantic_config_sha256 c; hc_prompt_sha256 c]
     && forallb (passes validate_Identifier)
       [hc_project_id c; hc_vertex_location c; hc_configured_model c; hc_prompt_version c]
     && inb (hc_maximum_output_tokens c) [1024; 4096]);;
  validate_candidate c.

Definition construct_provider_dispatch (d : HostedProviderDispatch) : result py_error unit :=
  fields_checked
    (forallb (passes validate_Sha256Digest)
       [pd_input_sha256 d; pd_count_request_sha256 d; pd_generation_request_sha256 d]
     && in_range 1 (pd_request_byte_count d) 12000).

Definition construct_modality (m : HostedModalityUsage) : result py_error unit :=
  fields_checked (passes validate_Identifier (mu_modality m)
    && in_range 0 (mu_token_count m) int64_max).

Definition construct_count_usage (u : HostedCountTokensUsage) : result py_error unit :=
  fields_checked (in_range 1 (cu_total_tokens u) 12000
    && in_range 0 (cu_cached_content_tokens u) 12000);;
  validate_count_usage u.

Definition construct_generation_usage (u : HostedGenerationUsage) : result py_error unit :=
  fields_checked
    (in_range 0 (gu_prompt_tokens u) int64_max && in_range 0 (gu_candidates_tokens u) int64_max
     && in_range 0 (gu_thoughts_tokens u) int64_max
     && in_range 0 (gu_tool_use_prompt_tokens u) int64_max
     && in_range 0 (gu_cached_content_tokens u) int64_max
     && in_range 0 (gu_total_tokens u) int64_max
     && passes validate_Identifier (gu_traffic_type u));;
  for_each construct_modality (gu_prompt_details u);;
  for_each construct_modality (gu_candidates_details u);;
  for_each construct_modality (gu_thoughts_details u);;
  for_each construct_modality (gu_tool_use_prompt_details u);;
  for_each construct_modality (gu_cache_details u);;
  validate_generation_usage u.

Definition construct_count_reservation (r : HostedCountReservation) : result py_error unit :=
  fields_checked (forallb (passes validate_Identifier)
      [hcr_candidate_id r; hcr_reservation_id r] && in_range 1 (hcr_revision r) int64_max);;
  construct_provider_dispatch (hcr_dispatch r).

Definition construct_generation_reservation (r : HostedGenerationReservation)
  : result py_error unit :=
  fields_checked (forallb (passes validate_Identifier)
      [hgr_candidate_id r; hgr_reservation_id r] && in_range 1 (hgr_revision r) int64_max);;
  construct_provider_dispatch (hgr_dispatch r).

(** [HostedCandidateIdentity.sha256], [candidate_id] *)
Definition candidate_sha256 (self : HostedCandidateIdentity) : string := canonical_sha256 self.
Definition candidate_id (self : HostedCandidateIdentity) : string :=
  "candidate-" +:+ candidate_sha256 self.

End codec.

(** ** What is written reads back *)

Lemma HostedCountFailure_value_inj b c :
  HostedCountFailure_value b = HostedCountFailure_value c → b = c.
Proof. by destruct b, c. Qed.
Lemma HostedGenerationFailure_value_inj b c :
  HostedGenerationFailure_value b = HostedGenerationFailure_value c → b = c.
Proof. by destruct b, c. Qed.
Lemma HostedPlannerOutcome_value_inj b c :
  HostedPlannerOutcome_value b = HostedPlannerOutcome_value c → b = c.
Proof. by destruct b, c. Qed.

#[export] Hint Resolve HostedCountFailure_value_inj HostedGenerationFailure_value_inj
  HostedPlannerOutcome_value_inj : reads.

(** The hypotheses of a constructor that accepted its fields. *)
Ltac fields_of H :=
  unfold fields_checked in H; cbn [forallb] in H; inv_ok; bool_simpl;
  repeat match goal with Hp : passes _ _ = true |- _ => apply passes_true in Hp end.

Section reads.
Context {rt : Runtime} {sec : Security} {tp : TimeParser} {tl : TimeParserLaws tp}.

Lemma version_field_reads version :
  version_field version (reload (JStr version)) = Valid tt.
Proof. cbn. by rewrite bool_decide_refl. Qed.
Lemma literal_reads value : literal_field value (reload (JStr value)) = Valid tt.
Proof. cbn. by rewrite bool_decide_refl. Qed.
Lemma int_literal_reads values z :
  inb z values = true → int_literal_field values (reload (JInt z)) = Valid z.
Proof. intros Hz. cbn. by rewrite Hz. Qed.
Lemma str_reads s : str_field (reload (JStr s)) = Valid s.
Proof. done. Qed.

Lemma with_default_reloaded {A} m (Hm : NoDup (map fst m)) (d : A) name field v a :
  dict_get name m = Some v → field (reload v) = Valid a →
  with_default d name field (reloaded m) = Valid a.
Proof. intros Hv Ha. unfold with_default. by rewrite dict_get_reloaded, Hv by done. Qed.

Lemma hex_valid s : string_forallb is_hex_digit s = true → valid_utf8 s = true.
Proof. apply ascii_valid. intros a. by destruct a as [[] [] [] [] [] [] [] []]. Qed.

Lemma after_word_app w s r : after_word w s = Some r → s = w +:+ r.
Proof.
  revert s. induction w as [|a w IH]; intros s; cbn; [by intros [= ->]|].
  destruct s as [|b s]; [discriminate|]. destruct (Ascii.eqb_spec a b) as [->|]; [|discriminate].
  intros Hr%IH. by rewrite Hr.
Qed.

Lemma candidate_texts_valid c : validate_candidate c = Ok tt →
  valid_utf8 (hc_source_revision c) = true ∧ valid_utf8 (hc_image_digest c) = true.
Proof.
  unfold validate_candidate, _SOURCE_REVISION, _IMAGE_DIGEST. intros H. inv_ok. bool_simpl.
  split; [by apply hex_valid|]. destruct (after_word _ _) as [d|] eqn:Hd; [|done].
  apply after_word_app in Hd. rewrite Hd. bool_simpl. apply valid_app; [done|by apply hex_valid].
Qed.

End reads.

Ltac literal_solve :=
  first [ apply int_literal_reads; first [eassumption|reflexivity]
        | apply literal_reads | apply version_field_reads | apply str_reads ].

(** Reads the fields of [reloaded m], the literal ones and the defaulted tuples
    included. *)
Ltac read_all_fields Hn :=
  repeat match goal with
  | |- context [required ?name ?f (reloaded ?m)] =>
      let H := fresh in
      eassert (required name f (reloaded m) = Valid _) as H
        by (eapply (required_reloaded m Hn); [reflexivity|first [literal_solve|field_solve]]);
      rewrite H; clear H
  | |- context [defaulted ?name ?f (reloaded ?m)] =>
      let H := fresh in
      eassert (defaulted name f (reloaded m) = Valid _) as H
        by (eapply (defaulted_reloaded m Hn); [reflexivity|field_solve]);
      rewrite H; clear H
  | |- context [with_default ?d ?name ?f (reloaded ?m)] =>
      let H := fresh in
      eassert (with_default d name f (reloaded m) = Valid _) as H
        by (eapply (with_default_reloaded m Hn d); [reflexivity|field_solve]);
      rewrite H; clear H
  end;
  rewrite only_fields_reloaded; [|reflexivity];
  cbn [ap both keep after orb].

Section models.
Context {rt : Runtime} {sec : Security} {tp : TimeParser} {tl : TimeParserLaws tp}.

Lemma candidate_nodup c : NoDup (map fst (candidate_fields c)).
Proof. apply has_dup_false. reflexivity. Qed.
Lemma provider_dispatch_nodup d : NoDup (map fst (provider_dispatch_fields d)).
Proof. apply has_dup_false. reflexivity. Qed.
Lemma modality_nodup m : NoDup (map fst (modality_fields m)).
Proof. apply has_dup_false. reflexivity. Qed.
Lemma count_usage_nodup u : NoDup (map fst (count_usage_fields u)).
Proof. apply has_dup_false. reflexivity. Qed.
Lemma generation_usage_nodup u : NoDup (map fst (generation_usage_fields u)).
Proof. apply has_dup_false. reflexivity. Qed.

Lemma candidate_reads c : construct_candidate c = Ok tt →
  model_field read_candidate (reload (to_json c)) = Valid c.
Proof.
  intros H. unfold construct_candidate in H. fields_of H.
  change (read_candidate (reloaded (candidate_fields c)) = Valid c).
  pose proof (candidate_nodup c) as Hn. unfold read_candidate. read_all_fields Hn.
  match goal with |- context [validate_candidate ?q] => replace q with c by by destruct c end.
  by rewrite H.
Qed.

Lemma provider_dispatch_reads d : construct_provider_dispatch d = Ok tt →
  model_field read_provider_dispatch (reload (to_json d)) = Valid d.
Proof.
  intros H. unfold construct_provider_dispatch in H. fields_of H.
  change (read_provider_dispatch (reloaded (provider_dispatch_fields d)) = Valid d).
  pose proof (provider_dispatch_nodup d) as Hn. unfold read_provider_dispatch.
  read_all_fields Hn. by destruct d.
Qed.

Lemma modality_reads m : construct_modality m = Ok tt →
  model_field read_modality (reload (to_json m)) = Valid m.
Proof.
  intros H. unfold construct_modality in H. fields_of H.
  change (read_modality (reloaded (modality_fields m)) = Valid m).
  pose proof (modality_nodup m) as Hn. unfold read_modality.
  read_all_fields Hn. by destruct m.
Qed.

Lemma count_usage_reads u : construct_count_usage u = Ok tt →
  model_field read_count_usage (reload (to_json u)) = Valid u.
Proof.
  intros H. unfold construct_count_usage in H. fields_of H.
  change (read_count_usage (reloaded (count_usage_fields u)) = Valid u).
  pose proof (count_usage_nodup u) as Hn. unfold read_count_usage. read_all_fields Hn.
  match goal with |- context [validate_count_usage ?q] => replace q with u by by destruct u end.
  by rewrite H.
Qed.

Lemma details_reads l : Forall (λ m, construct_modality m = Ok tt) l →
  details_field (reload (to_json l)) = Valid l.
Proof.
  intros Hl. unfold details_field. cbn [to_json list_to_json reload tuple_field].
  rewrite map_map. apply (traverse_reads _ (λ e, reload (to_json e))).
  eapply Forall_impl; [exact Hl|]. apply modality_reads.
Qed.
#[local] Hint Resolve details_reads : reads.

Lemma generation_usage_reads u : construct_generation_usage u = Ok tt →
  model_field read_generation_usage (reload (to_json u)) = Valid u.
Proof.
  intros H. unfold construct_generation_usage in H. fields_of H.
  change (read_generation_usage (reloaded (generation_usage_fields u)) = Valid u).
  pose proof (generation_usage_nodup u) as Hn. unfold read_generation_usage.
  read_all_fields Hn.
  match goal with |- context [validate_generation_usage ?q] =>
    replace q with u by by destruct u end.
  by rewrite H.
Qed.

(** ** Text the encoder accepts *)

Lemma sound_list {A} `{ToJson A} (P : A → Prop) l :
  (∀ a, P a → sound_json (to_json a) = true) → Forall P l → sound_json (to_json l) = true.
Proof.
  intros HP Hl. apply sound_array. rewrite Forall_map. by eapply Forall_impl.
Qed.

Lemma sound_fields (m : json_object) :
  has_dup (map fst m) = false → forallb (λ k, valid_utf8 k) (map fst m) = true →
  Forall (λ v, sound_json v = true) (map snd m) → sound_json (JObj m) = true.
Proof.
  intros Hn%has_dup_false Hk Hv. apply sound_object; [done| |done].
  apply Forall_forall. intros k Hin. rewrite forallb_forall in Hk.
  apply Hk. by apply list_elem_of_In.
Qed.

Lemma sound_candidate c : construct_candidate c = Ok tt → sound_json (to_json c) = true.
Proof.
  intros H. unfold construct_candidate in H. fields_of H.
  apply sound_fields; [reflexivity..|]. destruct (candidate_texts_valid c H) as [Hsource Himage].
  match goal with Hz : inb _ _ = true |- _ => apply inb_true in Hz as Hz' end.
  cbn [map candidate_fields snd].
  repeat (apply Forall_cons; split); [..|by apply Forall_nil]; try sound_solve;
    try (by apply sound_text).
  apply (sound_int 1024 _ 4096); [|done..]. apply in_range_true.
  rewrite !elem_of_cons in Hz'. destruct Hz' as [->|[->|[]%elem_of_nil]]; lia.
Qed.

Lemma sound_provider_dispatch d :
  construct_provider_dispatch d = Ok tt → sound_json (to_json d) = true.
Proof.
  intros H. unfold construct_provider_dispatch in H. fields_of H.
  apply sound_fields; [reflexivity..|]. cbn [map provider_dispatch_fields snd].
  repeat (apply Forall_cons; split); [..|by apply Forall_nil]; sound_solve.
Qed.

Lemma sound_modality m : construct_modality m = Ok tt → sound_json (to_json m) = true.
Proof.
  intros H. unfold construct_modality in H. fields_of H.
  apply sound_fields; [reflexivity..|]. cbn [map modality_fields snd].
  repeat (apply Forall_cons; split); [..|by apply Forall_nil]; sound_solve.
Qed.

Lemma sound_count_usage u : construct_count_usage u = Ok tt → sound_json (to_json u) = true.
Proof.
  intros H. unfold construct_count_usage in H. fields_of H.
  apply sound_fields; [reflexivity..|]. cbn [map count_usage_fields snd].
  repeat (apply Forall_cons; split); [..|by apply Forall_nil]; sound_solve.
Qed.

Lemma sound_generation_usage u :
  construct_generation_usage u = Ok tt → sound_json (to_json u) = true.
Proof.
  intros H. unfold construct_generation_usage in H. fields_of H.
  apply sound_fields; [reflexivity..|]. cbn [map generation_usage_fields snd].
  repeat (apply Forall_cons; split); [..|by apply Forall_nil];
    first [by eapply (sound_list (λ m, construct_modality m = Ok tt)); [apply sound_modality|]
          |sound_solve].
Qed.

End models.

#[export] Hint Resolve candidate_reads provider_dispatch_reads count_usage_reads
  generation_usage_reads : reads.
