(* ===== verification/ProviderLedger.v ===== *)
(** Candidate-wide provider authority over Firestore
    (reconcile/hosted/firestore_provider_ledger.py): one document per candidate
    holds the state of its only count and its only generation, and each
    operation of [FirestoreHostedProviderLedger] creates it or replaces the
    revision it read, without a retry.

    Arguments are typed, so the [type(...) is not ...] guards have no
    definition.  Every failure but a cancellation is the one ledger error. *)

From S2P Require Export FirestoreCas Provider.

#[local] Open Scope Z_scope.

Definition HOSTED_PROVIDER_LEDGER_DOCUMENT_VERSION : string :=
  "reconcile/hosted-provider-ledger-document/v1".

Inductive HostedProviderLedgerState :=
  | COUNT_RESERVED | COUNT_FAILED | GENERATION_RESERVED | GENERATION_USAGE_RECORDED
  | GENERATION_FAILED | FINALIZED.

#[export] Instance HostedProviderLedgerState_eq_dec : EqDecision HostedProviderLedgerState.
Proof. solve_decision. Defined.

Definition HostedProviderLedgerState_value (s : HostedProviderLedgerState) : string :=
  match s with
  | COUNT_RESERVED => "count-reserved" | COUNT_FAILED => "count-failed"
  | GENERATION_RESERVED => "generation-reserved"
  | GENERATION_USAGE_RECORDED => "generation-usage-recorded"
  | GENERATION_FAILED => "generation-failed" | FINALIZED => "finalized"
  end.

(** [_ProviderLedgerDocument] *)
Record ledger_document := {
  ld_state : HostedProviderLedgerState;
  ld_revision : Z;
  ld_candidate_id : string;
  ld_candidate : HostedCandidateIdentity;
  ld_dispatch : HostedProviderDispatch;
  ld_count_reservation_id : string;
  ld_count_reservation_revision : Z;
  ld_count_usage : option HostedCountTokensUsage;
  ld_count_failure : option HostedCountFailure;
  ld_generation_reservation_id : option string;
  ld_generation_reservation_revision : option Z;
  ld_generation_usage : option HostedGenerationUsage;
  ld_generation_failure : option HostedGenerationFailure;
  ld_planner_outcome : option HostedPlannerOutcome;
  ld_output_sha256 : option string;
  ld_reported_model : option string;
  ld_reported_model_raw_sha256 : option string;
}.

#[export] Instance ledger_document_eq_dec : EqDecision ledger_document.
Proof. solve_decision. Defined.

(** ** The stored form *)

Definition model_json `{ToJson A} (o : option A) : json :=
  match o with Some a => to_json a | None => JNull end.
Definition int_option_json (o : option Z) : json :=
  match o with Some z => JInt z | None => JNull end.

Definition ledger_fields (d : ledger_document) : json_object :=
  [("schema_version", JStr HOSTED_PROVIDER_LEDGER_DOCUMENT_VERSION);
   ("state", JStr (HostedProviderLedgerState_value (ld_state d)));
   ("revision", JInt (ld_revision d));
   ("candidate_id", JStr (ld_candidate_id d));
   ("candidate", to_json (ld_candidate d));
   ("dispatch", to_json (ld_dispatch d));
   ("count_reservation_id", JStr (ld_count_reservation_id d));
   ("count_reservation_revision", JInt (ld_count_reservation_revision d));
   ("count_usage", model_json (ld_count_usage d));
   ("count_failure", enum_json HostedCountFailure_value (ld_count_failure d));
   ("generation_reservation_id", to_json (ld_generation_reservation_id d));
   ("generation_reservation_revision",
     int_option_json (ld_generation_reservation_revision d));
   ("generation_usage", model_json (ld_generation_usage d));
   ("generation_failure", enum_json HostedGenerationFailure_value (ld_generation_failure d));
   ("planner_outcome", enum_json HostedPlannerOutcome_value (ld_planner_outcome d));
   ("output_sha256", to_json (ld_output_sha256 d));
   ("reported_model", to_json (ld_reported_model d));
   ("reported_model_raw_sha256", to_json (ld_reported_model_raw_sha256 d))].
#[export] Instance ledger_document_json : ToJson ledger_document :=
  λ d, JObj (ledger_fields d).

Definition ledger_field_names : list string :=
  ["schema_version"; "state"; "revision"; "candidate_id"; "candidate"; "dispatch";
   "count_reservation_id"; "count_reservation_revision"; "count_usage"; "count_failure";
   "generation_reservation_id"; "generation_reservation_revision"; "generation_usage";
   "generation_failure"; "planner_outcome"; "output_sha256"; "reported_model";
   "reported_model_raw_sha256"].

Definition absent {A} (o : option A) : bool := negb (is_some o).

Section ledger.
Context {rt : Runtime} {sec : Security} {tp : TimeParser}.

(** [_ProviderLedgerDocument.validate_state]: the fields each state has. *)
Definition ledger_state_valid (self : ledger_document) : bool :=
  let generation_fields_present :=
    is_some (ld_generation_reservation_id self)
    && is_some (ld_generation_reservation_revision self) in
  let generation_fields_absent :=
    absent (ld_generation_reservation_id self)
    && absent (ld_generation_reservation_revision self) in
  let final_fields_absent :=
    absent (ld_planner_outcome self) && absent (ld_output_sha256 self)
    && absent (ld_reported_model self) && absent (ld_reported_model_raw_sha256 self) in
  let common_generation :=
    is_some (ld_count_usage self) && absent (ld_count_failure self)
    && generation_fields_present
    && bool_decide (ld_generation_reservation_revision self = Some 2) in
  match ld_state self with
  | COUNT_RESERVED =>
      (ld_revision self =? 1) && absent (ld_count_usage self)
      && absent (ld_count_failure self) && generation_fields_absent
      && absent (ld_generation_usage self) && absent (ld_generation_failure self)
      && final_fields_absent
  | COUNT_FAILED =>
      (ld_revision self =? 2) && absent (ld_count_usage self)
      && is_some (ld_count_failure self) && generation_fields_absent
      && absent (ld_generation_usage self) && absent (ld_generation_failure self)
      && final_fields_absent
  | GENERATION_RESERVED =>
      common_generation && (ld_revision self =? 2) && absent (ld_generation_usage self)
      && absent (ld_generation_failure self) && final_fields_absent
  | GENERATION_USAGE_RECORDED =>
      common_generation && (ld_revision self =? 3) && is_some (ld_generation_usage self)
      && absent (ld_generation_failure self) && final_fields_absent
  | GENERATION_FAILED =>
      let expected_revision := if is_some (ld_generation_usage self) then 4 else 3 in
      common_generation && (ld_revision self =? expected_revision)
      && is_some (ld_generation_failure self) && final_fields_absent
  | FINALIZED =>
      common_generation && (ld_revision self =? 4) && is_some (ld_generation_usage self)
      && absent (ld_generation_failure self)
      && match ld_planner_outcome self with
         | Some Hosted_SUCCEEDED => is_some (ld_output_sha256 self)
         | Some _ => true
         | None => false
         end
  end.

Definition validate_state (self : ledger_document) : result py_error unit :=
  reject_if (negb (bool_decide (ld_candidate_id self = candidate_id (ld_candidate self))))
    (ValueError "provider ledger candidate identity does not match");;
  reject_if (negb (ld_count_reservation_revision self =? 1))
    (ValueError "provider ledger count reservation revision changed");;
  reject_if (negb (Bool.eqb (absent (ld_reported_model self))
                            (absent (ld_reported_model_raw_sha256 self))))
    (ValueError "provider ledger reported model is incomplete");;
  reject_if (negb (ledger_state_valid self))
    (ValueError "provider ledger state fields are inconsistent").

Definition read_ledger (m : json_object) : validation ledger_document :=
  after validate_state
    (Valid Build_ledger_document
     <* required "schema_version" (version_field HOSTED_PROVIDER_LEDGER_DOCUMENT_VERSION) m
     <*> required "state" (enum_field HostedProviderLedgerState_value
           [COUNT_RESERVED; COUNT_FAILED; GENERATION_RESERVED; GENERATION_USAGE_RECORDED;
            GENERATION_FAILED; FINALIZED]) m
     <*> required "revision" (int_field 1 int64_max) m
     <*> required "candidate_id" identifier_field m
     <*> required "candidate" (model_field read_candidate) m
     <*> required "dispatch" (model_field read_provider_dispatch) m
     <*> required "count_reservation_id" identifier_field m
     <*> required "count_reservation_revision" (int_field 1 int64_max) m
     <*> defaulted "count_usage" (model_field read_count_usage) m
     <*> defaulted "count_failure" (enum_field HostedCountFailure_value
           [Count_UNAVAILABLE; Count_TIMEOUT; Count_INVALID; Count_LIMIT_EXCEEDED]) m
     <*> defaulted "generation_reservation_id" identifier_field m
     <*> defaulted "generation_reservation_revision" (int_field 1 int64_max) m
     <*> defaulted "generation_usage" (model_field read_generation_usage) m
     <*> defaulted "generation_failure" (enum_field HostedGenerationFailure_value
           [Generation_UNAVAILABLE; Generation_TIMEOUT; Generation_USAGE_INVALID]) m
     <*> defaulted "planner_outcome" (enum_field HostedPlannerOutcome_value
           [Hosted_SUCCEEDED; Hosted_UNAVAILABLE; Hosted_TIMEOUT; Hosted_SCHEMA_INVALID]) m
     <*> defaulted "output_sha256" digest_field m
     <*> defaulted "reported_model" identifier_field m
     <*> defaulted "reported_model_raw_sha256" digest_field m
     <* only_fields ledger_field_names m).

#[export] Instance ledger_document_contract : Contract ledger_document :=
  {| expected_version := HOSTED_PROVIDER_LEDGER_DOCUMENT_VERSION;
     validate_model := model_field read_ledger |}.

Definition construct_opt {A} (construct : A → result py_error unit) (o : option A)
  : result py_error unit :=
  match o with Some a => construct a | None => Ok tt end.

(** [_ProviderLedgerDocument(...)] *)
Definition construct_ledger (d : ledger_document) : result py_error unit :=
  fields_checked
    (in_range 1 (ld_revision d) int64_max
     && forallb (passes validate_Identifier) [ld_candidate_id d; ld_count_reservation_id d]
     && in_range 1 (ld_count_reservation_revision d) int64_max
     && passes_opt (passes validate_Identifier) (ld_generation_reservation_id d)
     && passes_opt (λ z, in_range 1 z int64_max) (ld_generation_reservation_revision d)
     && passes_opt (passes validate_Sha256Digest) (ld_output_sha256 d)
     && passes_opt (passes validate_Identifier) (ld_reported_model d)
     && passes_opt (passes validate_Sha256Digest) (ld_reported_model_raw_sha256 d));;
  construct_candidate (ld_candidate d);;
  construct_provider_dispatch (ld_dispatch d);;
  construct_opt construct_count_usage (ld_count_usage d);;
  construct_opt construct_generation_usage (ld_generation_usage d);;
  validate_state d.

End ledger.

(** ** Transitions

    What [_transition(current, ...)] makes of the document. *)

Definition count_failed (d : ledger_document) (failure : HostedCountFailure)
  : ledger_document :=
  {| ld_state := COUNT_FAILED; ld_revision := ld_revision d + 1;
     ld_candidate_id := ld_candidate_id d; ld_candidate := ld_candidate d;
     ld_dispatch := ld_dispatch d; ld_count_reservation_id := ld_count_reservation_id d;
     ld_count_reservation_revision := ld_count_reservation_revision d;
     ld_count_usage := ld_count_usage d; ld_count_failure := Some failure;
     ld_generation_reservation_id := ld_generation_reservation_id d;
     ld_generation_reservation_revision := ld_generation_reservation_revision d;
     ld_generation_usage := ld_generation_usage d;
     ld_generation_failure := ld_generation_failure d;
     ld_planner_outcome := ld_planner_outcome d; ld_output_sha256 := ld_output_sha256 d;
     ld_reported_model := ld_reported_model d;
     ld_reported_model_raw_sha256 := ld_reported_model_raw_sha256 d |}.

Definition generation_reserved (d : ledger_document) (usage : HostedCountTokensUsage)
  (generation_reservation_id : string) : ledger_document :=
  {| ld_state := GENERATION_RESERVED; ld_revision := ld_revision d + 1;
     ld_candidate_id := ld_candidate_id d; ld_candidate := ld_candidate d;
     ld_dispatch := ld_dispatch d; ld_count_reservation_id := ld_count_reservation_id d;
     ld_count_reservation_revision := ld_count_reservation_revision d;
     ld_count_usage := Some usage; ld_count_failure := ld_count_failure d;
     ld_generation_reservation_id := Some generation_reservation_id;
     ld_generation_reservation_revision := Some (ld_revision d + 1);
     ld_generation_usage := ld_generation_usage d;
     ld_generation_failure := ld_generation_failure d;
     ld_planner_outcome := ld_planner_outcome d; ld_output_sha256 := ld_output_sha256 d;
     ld_reported_model := ld_reported_model d;
     ld_reported_model_raw_sha256 := ld_reported_model_raw_sha256 d |}.

Definition generation_failed (d : ledger_document) (failure : HostedGenerationFailure)
  : ledger_document :=
  {| ld_state := GENERATION_FAILED; ld_revision := ld_revision d + 1;
     ld_candidate_id := ld_candidate_id d; ld_candidate := ld_candidate d;
     ld_dispatch := ld_dispatch d; ld_count_reservation_id := ld_count_reservation_id d;
     ld_count_reservation_revision := ld_count_reservation_revision d;
     ld_count_usage := ld_count_usage d; ld_count_failure := ld_count_failure d;
     ld_generation_reservation_id := ld_generation_reservation_id d;
     ld_generation_reservation_revision := ld_generation_reservation_revision d;
     ld_generation_usage := ld_generation_usage d;
     ld_generation_failure := Some failure;
     ld_planner_outcome := ld_planner_outcome d; ld_output_sha256 := ld_output_sha256 d;
     ld_reported_model := ld_reported_model d;
     ld_reported_model_raw_sha256 := ld_reported_model_raw_sha256 d |}.

Definition usage_recorded (d : ledger_document) (usage : HostedGenerationUsage)
  : ledger_document :=
  {| ld_state := GENERATION_USAGE_RECORDED; ld_revision := ld_revision d + 1;
     ld_candidate_id := ld_candidate_id d; ld_candidate := ld_candidate d;
     ld_dispatch := ld_dispatch d; ld_count_reservation_id := ld_count_reservation_id d;
     ld_count_reservation_revision := ld_count_reservation_revision d;
     ld_count_usage := ld_count_usage d; ld_count_failure := ld_count_failure d;
     ld_generation_reservation_id := ld_generation_reservation_id d;
     ld_generation_reservation_revision := ld_generation_reservation_revision d;
     ld_generation_usage := Some usage;
     ld_generation_failure := ld_generation_failure d;
     ld_planner_outcome := ld_planner_outcome d; ld_output_sha256 := ld_output_sha256 d;
     ld_reported_model := ld_reported_model d;
     ld_reported_model_raw_sha256 := ld_reported_model_raw_sha256 d |}.

Definition generation_finalized (d : ledger_document) (outcome : HostedPlannerOutcome)
  (output_sha256 reported_model reported_model_raw_sha256 : option string)
  : ledger_document :=
  {| ld_state := FINALIZED; ld_revision := ld_revision d + 1;
     ld_candidate_id := ld_candidate_id d; ld_candidate := ld_candidate d;
     ld_dispatch := ld_dispatch d; ld_count_reservation_id := ld_count_reservation_id d;
     ld_count_reservation_revision := ld_count_reservation_revision d;
     ld_count_usage := ld_count_usage d; ld_count_failure := ld_count_failure d;
     ld_generation_reservation_id := ld_generation_reservation_id d;
     ld_generation_reservation_revision := ld_generation_reservation_revision d;
     ld_generation_usage := ld_generation_usage d;
     ld_generation_failure := ld_generation_failure d;
     ld_planner_outcome := Some outcome; ld_output_sha256 := output_sha256;
     ld_reported_model := reported_model;
     ld_reported_model_raw_sha256 := reported_model_raw_sha256 |}.

(** The observation of a finalised candidate. *)
Record HostedProviderLedgerObservation := {
  lo_candidate_id : string;
  lo_candidate_sha256 : string;
  lo_dispatch : HostedProviderDispatch;
  lo_dispatch_sha256 : string;
  lo_count_usage : HostedCountTokensUsage;
  lo_generation_usage : HostedGenerationUsage;
  lo_output_sha256 : string;
  lo_reported_model : string;
  lo_reported_model_raw_sha256 : string;
  lo_record_sha256 : string;
}.

Section store.
Context {rt : Runtime} {sec : Security} {fp : FloatParser} {tp : TimeParser}.

(** [HostedProviderLedgerObservation(...)] *)
Definition construct_observation (o : HostedProviderLedgerObservation)
  : result py_error HostedProviderLedgerObservation :=
  fields_checked
    (forallb (passes validate_Identifier) [lo_candidate_id o; lo_reported_model o]
     && forallb (passes validate_Sha256Digest)
          [lo_candidate_sha256 o; lo_dispatch_sha256 o; lo_output_sha256 o;
           lo_reported_model_raw_sha256 o; lo_record_sha256 o]);;
  construct_provider_dispatch (lo_dispatch o);;
  construct_count_usage (lo_count_usage o);;
  construct_generation_usage (lo_generation_usage o);;
  reject_if (negb (bool_decide (lo_candidate_id o = "candidate-" +:+ lo_candidate_sha256 o))
             || negb (bool_decide (lo_dispatch_sha256 o = canonical_sha256 (lo_dispatch o))))
    (ValueError "provider ledger observation changed candidate identity");;
  Ok o.

(** [_ledger_failure] *)
Definition _ledger_failure {A} : hosted A := raise HostedProviderLedgerError.
Definition ledger_check (guard : bool) : result exception unit :=
  reject_if (negb guard) HostedProviderLedgerError.

(** [try: ... except Exception: _ledger_failure()] around a constructor. *)
Definition constructed {A} (check : A → result py_error unit) (a : A) : hosted A :=
  lift (map_error (λ _ : py_error, HostedProviderLedgerError) (check a;; Ok a)).

Definition _reservation_id (kind : string) : hosted string :=
  uuid ← await NewUuid; mret (kind +:+ "-" +:+ uuid).

Definition _cas_document (record : ledger_document) : hosted FirestoreCasDocument :=
  mutation_id ← new_firestore_cas_mutation_id;
  lift (checked (build_firestore_cas_document C_PROVIDER_CANDIDATE (ld_candidate_id record)
    (ld_revision record) mutation_id (canonical_json_bytes record))).

Definition _decoded_record (snapshot : FirestoreCasSnapshot)
  : result exception ledger_document :=
  ledger_check (bool_decide (sn_collection snapshot = C_PROVIDER_CANDIDATE)
    && bool_decide (fd_kind (sn_document snapshot) = C_PROVIDER_CANDIDATE));;
  record ← map_error (λ _ : contract_error, HostedProviderLedgerError)
    (decode_contract (fd_canonical_payload (sn_document snapshot)));
  ledger_check (bool_decide (fd_logical_id (sn_document snapshot) = ld_candidate_id record)
    && (fd_revision (sn_document snapshot) =? ld_revision record));;
  Ok record.

(** [_load] *)
Definition ledger_load (id : string) : hosted (FirestoreCasSnapshot * ledger_document) :=
  snapshot ← except_raise HostedProviderLedgerError (cas_read C_PROVIDER_CANDIDATE id);
  match snapshot with
  | None => _ledger_failure
  | Some snapshot =>
      record ← lift (_decoded_record snapshot);
      lift (ledger_check (bool_decide (ld_candidate_id record = id)));;
      mret (snapshot, record)
  end.

(** [is_absent] *)
Definition ledger_is_absent (candidate : HostedCandidateIdentity) : hosted bool :=
  snapshot ← except_raise HostedProviderLedgerError
    (cas_read C_PROVIDER_CANDIDATE (candidate_id candidate));
  mret (negb (is_some snapshot)).

(** [written.document != document or _decoded_record(written) != record] *)
Definition ledger_written (written : FirestoreCasSnapshot) (document : FirestoreCasDocument)
  (record : ledger_document) : result exception unit :=
  ledger_check (bool_decide (sn_document written = document));;
  decoded ← _decoded_record written;
  ledger_check (bool_decide (decoded = record)).

(** [_create], [_update] *)
Definition ledger_create (record : ledger_document) : hosted unit :=
  except_raise HostedProviderLedgerError
    (document ← _cas_document record;
     written ← cas_create document;
     lift (ledger_written written document record)).
Definition ledger_update (snapshot : FirestoreCasSnapshot) (record : ledger_document)
  : hosted unit :=
  except_raise HostedProviderLedgerError
    (document ← _cas_document record;
     written ← cas_update snapshot document;
     lift (ledger_written written document record)).

(** [_count_record], [_generation_record] *)
Definition _count_record (record : ledger_document) (reservation : HostedCountReservation)
  : result exception unit :=
  ledger_check (bool_decide (ld_state record = COUNT_RESERVED)
    && bool_decide (hcr_candidate_id reservation = ld_candidate_id record)
    && bool_decide (hcr_reservation_id reservation = ld_count_reservation_id record)
    && (hcr_revision reservation =? ld_count_reservation_revision record)
    && bool_decide (hcr_dispatch reservation = ld_dispatch record)).
Definition _generation_record (record : ledger_document)
  (reservation : HostedGenerationReservation) (states : list HostedProviderLedgerState)
  : result exception unit :=
  ledger_check (inb (ld_state record) states
    && bool_decide (hgr_candidate_id reservation = ld_candidate_id record)
    && bool_decide (Some (hgr_reservation_id reservation) = ld_generation_reservation_id record)
    && bool_decide (Some (hgr_revision reservation) = ld_generation_reservation_revision record)
    && bool_decide (hgr_dispatch reservation = ld_dispatch record)).

(** ** The operations *)

Definition reserved_record (candidate : HostedCandidateIdentity)
  (dispatch : HostedProviderDispatch) (reservation_id : string) : ledger_document :=
  {| ld_state := COUNT_RESERVED; ld_revision := 1;
     ld_candidate_id := candidate_id candidate; ld_candidate := candidate;
     ld_dispatch := dispatch; ld_count_reservation_id := reservation_id;
     ld_count_reservation_revision := 1; ld_count_usage := None; ld_count_failure := None;
     ld_generation_reservation_id := None; ld_generation_reservation_revision := None;
     ld_generation_usage := None; ld_generation_failure := None; ld_planner_outcome := None;
     ld_output_sha256 := None; ld_reported_model := None;
     ld_reported_model_raw_sha256 := None |}.

Definition reserve_count_tokens (candidate : HostedCandidateIdentity)
  (dispatch : HostedProviderDispatch) : hosted HostedCountReservation :=
  reservation_id ← _reservation_id "count";
  record ← constructed construct_ledger (reserved_record candidate dispatch reservation_id);
  ledger_create record;;
  let reservation := {| hcr_candidate_id := ld_candidate_id record;
    hcr_reservation_id := ld_count_reservation_id record;
    hcr_revision := ld_count_reservation_revision record;
    hcr_dispatch := ld_dispatch record |} in
  lift (checked (construct_count_reservation reservation));;
  mret reservation.

Definition fail_count_tokens (reservation : HostedCountReservation)
  (failure : HostedCountFailure) : hosted unit :=
  loaded ← ledger_load (hcr_candidate_id reservation);
  let '(snapshot, current) := (loaded : FirestoreCasSnapshot * ledger_document) in
  lift (_count_record current reservation);;
  replacement ← constructed construct_ledger (count_failed current failure);
  ledger_update snapshot replacement.

Definition complete_count_and_reserve_generation (reservation : HostedCountReservation)
  (usage : HostedCountTokensUsage) : hosted HostedGenerationReservation :=
  loaded ← ledger_load (hcr_candidate_id reservation);
  let '(snapshot, current) := (loaded : FirestoreCasSnapshot * ledger_document) in
  lift (_count_record current reservation);;
  generation_reservation_id ← _reservation_id "generation";
  replacement ← constructed construct_ledger
    (generation_reserved current usage generation_reservation_id);
  ledger_update snapshot replacement;;
  let reserved := {| hgr_candidate_id := ld_candidate_id replacement;
    hgr_reservation_id := generation_reservation_id;
    hgr_revision := ld_revision current + 1; hgr_dispatch := ld_dispatch replacement |} in
  lift (checked (construct_generation_reservation reserved));;
  mret reserved.

(** The three operations on a reserved generation. *)
Definition replace_generation (reservation : HostedGenerationReservation)
  (states : list HostedProviderLedgerState) (change : ledger_document → ledger_document)
  : hosted unit :=
  loaded ← ledger_load (hgr_candidate_id reservation);
  let '(snapshot, current) := (loaded : FirestoreCasSnapshot * ledger_document) in
  lift (_generation_record current reservation states);;
  replacement ← constructed construct_ledger (change current);
  ledger_update snapshot replacement.

Definition fail_generation (reservation : HostedGenerationReservation)
  (failure : HostedGenerationFailure) : hosted unit :=
  replace_generation reservation [GENERATION_RESERVED; GENERATION_USAGE_RECORDED]
    (λ current, generation_failed current failure).

Definition record_generation_usage (reservation : HostedGenerationReservation)
  (usage : HostedGenerationUsage) : hosted unit :=
  replace_generation reservation [GENERATION_RESERVED]
    (λ current, usage_recorded current usage).

Definition finalize_generation (reservation : HostedGenerationReservation)
  (outcome : HostedPlannerOutcome)
  (output_sha256 reported_model reported_model_raw_sha256 : option string) : hosted unit :=
  replace_generation reservation [GENERATION_USAGE_RECORDED]
    (λ current, generation_finalized current outcome output_sha256 reported_model
                  reported_model_raw_sha256).

(** The fields [observe_finalized] requires of the record. *)
Definition observed_fields (current : ledger_document) (candidate : HostedCandidateIdentity)
  : option HostedProviderLedgerObservation :=
  if bool_decide (ld_candidate current = candidate)
     && bool_decide (ld_state current = FINALIZED) && (ld_revision current =? 4)
     && bool_decide (ld_planner_outcome current = Some Hosted_SUCCEEDED) then
    count_usage ← ld_count_usage current;
    generation_usage ← ld_generation_usage current;
    output_sha256 ← ld_output_sha256 current;
    reported_model ← ld_reported_model current;
    reported_model_raw_sha256 ← ld_reported_model_raw_sha256 current;
    Some {| lo_candidate_id := ld_candidate_id current;
            lo_candidate_sha256 := candidate_sha256 candidate;
            lo_dispatch := ld_dispatch current;
            lo_dispatch_sha256 := canonical_sha256 (ld_dispatch current);
            lo_count_usage := count_usage; lo_generation_usage := generation_usage;
            lo_output_sha256 := output_sha256; lo_reported_model := reported_model;
            lo_reported_model_raw_sha256 := reported_model_raw_sha256;
            lo_record_sha256 := canonical_sha256 current |}
  else None.

Definition observe_finalized (candidate : HostedCandidateIdentity)
  : hosted HostedProviderLedgerObservation :=
  loaded ← ledger_load (candidate_id candidate);
  let current := (loaded : FirestoreCasSnapshot * ledger_document).2 in
  match observed_fields current candidate with
  | None => _ledger_failure
  | Some observation =>
      lift (map_error (λ _ : py_error, HostedProviderLedgerError)
        (construct_observation observation))
  end.

End store.
