(* ===== verification/ProviderLedgerFacts.v ===== *)
(** Many clients of the provider ledger: the stored document reads back, its
    states never reopen, and what a call has done when it returns. *)

From S2P Require Export ProviderLedger FirestoreCasFacts.

#[local] Open Scope Z_scope.

Lemma HostedProviderLedgerState_value_inj b c :
  HostedProviderLedgerState_value b = HostedProviderLedgerState_value c → b = c.
Proof. by destruct b, c. Qed.
#[export] Hint Resolve HostedProviderLedgerState_value_inj : reads.

Section reads.
Context {rt : Runtime} {sec : Security} {tp : TimeParser} {tl : TimeParserLaws tp}.

Lemma ledger_nodup d : NoDup (map fst (ledger_fields d)).
Proof. apply has_dup_false. reflexivity. Qed.

Lemma option_model_reads {A} `{ToJson A} (field : json → validation A) construct (o : option A) :
  (∀ a, construct a = Ok tt → field (reload (to_json a)) = Valid a) →
  (∀ a, reload (to_json a) ≠ JNull) →
  construct_opt construct o = Ok tt →
  nullable field (reload (model_json o)) = Valid o.
Proof.
  intros Hf Hn Ho. destruct o as [a|]; [|done]. cbn [model_json construct_opt] in *.
  apply nullable_reads; [apply Hn|by apply Hf].
Qed.

Lemma option_int_reads low high (o : option Z) :
  passes_opt (λ z, in_range low z high) o = true →
  nullable (int_field low high) (reload (int_option_json o)) = Valid o.
Proof. destruct o as [z|]; [|done]. cbn. by intros ->. Qed.

Lemma read_ledger_reloaded d :
  construct_ledger d = Ok tt → read_ledger (reloaded (ledger_fields d)) = Valid d.
Proof.
  intros H. unfold construct_ledger in H. fields_of H.
  pose proof (ledger_nodup d) as Hn. unfold read_ledger.
  erewrite (defaulted_reloaded _ Hn "count_usage"); [|reflexivity|
    apply (option_model_reads _ construct_count_usage); [apply count_usage_reads|done..]].
  erewrite (defaulted_reloaded _ Hn "generation_usage"); [|reflexivity|
    apply (option_model_reads _ construct_generation_usage);
      [apply generation_usage_reads|done..]].
  erewrite (defaulted_reloaded _ Hn "generation_reservation_revision"); [|reflexivity|
    by apply option_int_reads].
  read_all_fields Hn.
  match goal with |- context [validate_state ?q] => replace q with d by by destruct d end.
  by rewrite H.
Qed.

Lemma sound_option {A} `{ToJson A} (construct : A → result py_error unit) (o : option A) :
  (∀ a, construct a = Ok tt → sound_json (to_json a) = true) →
  construct_opt construct o = Ok tt → sound_json (model_json o) = true.
Proof. destruct o as [a|]; [|done]. cbn. auto. Qed.

Lemma sound_option_digest o :
  passes_opt (passes validate_Sha256Digest) o = true → sound_json (to_json o) = true.
Proof. destruct o; [intros ?%passes_true; by apply sound_digest|done]. Qed.

Lemma sound_option_int (o : option Z) :
  passes_opt (λ z, in_range 1 z int64_max) o = true → sound_json (int_option_json o) = true.
Proof. destruct o as [z|]; [|done]. intros Hz. by apply (sound_int _ _ _ Hz). Qed.

Lemma sound_ledger d : construct_ledger d = Ok tt → sound_json (to_json d) = true.
Proof.
  intros H. unfold construct_ledger in H. fields_of H.
  apply sound_fields; [reflexivity..|]. cbn [map ledger_fields snd].
  repeat (apply Forall_cons; split); [..|by apply Forall_nil].
  5: by apply sound_candidate. 5: by apply sound_provider_dispatch.
  7: by apply (sound_option construct_count_usage _ sound_count_usage).
  9: by apply sound_option_int.
  9: by apply (sound_option construct_generation_usage _ sound_generation_usage).
  11: by apply sound_option_digest. 12: by apply sound_option_digest.
  all: sound_solve.
Qed.

Context {fp : FloatParser}.

Lemma ledger_decodes d :
  construct_ledger d = Ok tt → decode_contract (canonical_json_bytes d) = Ok d.
Proof.
  intros Hd. pose proof (sound_ledger d Hd) as [Hpl He]%andb_true_iff.
  eapply (decode_canonical d (ledger_fields d)); [done..|].
  by apply read_ledger_reloaded.
Qed.

End reads.

(** ** The states of a candidate *)

Section protocol.
Context {rt : Runtime} {sec : Security} {tp : TimeParser} {tl : TimeParserLaws tp}.
Context {fp : FloatParser}.

(** The closed state machine of one allowance. *)
Inductive ledger_step : relation ledger_document :=
  | step_count_failed d failure :
      ld_state d = COUNT_RESERVED → ledger_step d (count_failed d failure)
  | step_generation_reserved d usage id :
      ld_state d = COUNT_RESERVED → ledger_step d (generation_reserved d usage id)
  | step_generation_failed d failure :
      ld_state d = GENERATION_RESERVED ∨ ld_state d = GENERATION_USAGE_RECORDED →
      ledger_step d (generation_failed d failure)
  | step_usage_recorded d usage :
      ld_state d = GENERATION_RESERVED → ledger_step d (usage_recorded d usage)
  | step_finalized d outcome output model raw :
      ld_state d = GENERATION_USAGE_RECORDED →
      ledger_step d (generation_finalized d outcome output model raw).

Lemma step_sealed d d' : ledger_step d d' →
  ld_candidate_id d' = ld_candidate_id d ∧ ld_candidate d' = ld_candidate d
  ∧ ld_dispatch d' = ld_dispatch d
  ∧ ld_count_reservation_id d' = ld_count_reservation_id d
  ∧ ld_revision d' = ld_revision d + 1.
Proof. by destruct 1. Qed.

Lemma steps_revision d d' : tc ledger_step d d' → ld_revision d < ld_revision d'.
Proof.
  induction 1 as [d d' (_ & _ & _ & _ & H)%step_sealed|d d1 d' (_ & _ & _ & _ & H)%step_sealed _ IH];
    lia.
Qed.

Definition ledger_initial (d : ledger_document) : Prop :=
  ∃ candidate dispatch id, d = reserved_record candidate dispatch id.

#[export] Instance ledger_record : StoredRecord ledger_document :=
  {| sr_collection := C_PROVIDER_CANDIDATE;
     sr_id := ld_candidate_id;
     sr_revision := ld_revision;
     sr_bytes := canonical_json_bytes;
     sr_decode text := match decode_contract text with Ok d => Some d | Raise _ => None end;
     sr_valid d := construct_ledger d = Ok tt;
     sr_initial := ledger_initial;
     sr_step := ledger_step |}.

#[export] Instance ledger_record_laws : StoredRecordLaws ledger_document.
Proof.
  split.
  - intros a Ha%ledger_decodes. unfold sr_decode, ledger_record.
    change (sr_bytes a) with (canonical_json_bytes a). by rewrite Ha.
  - intros a b Hs. by apply step_sealed in Hs as [? _].
  - intros a b Hs. by apply step_sealed in Hs as (_ & _ & _ & _ & ?).
  - by intros a b (? & ? & ? & ->) (? & ? & ? & ->).
Qed.

#[export] Instance ledger_protocol : protocol := record_protocol (A := ledger_document).

Lemma constructed_state d : construct_ledger d = Ok tt → ledger_state_valid d = true.
Proof.
  unfold construct_ledger, validate_state. intros H. inv_ok. by bool_simpl.
Qed.

(** The revision a state has. *)
Lemma state_revision d : construct_ledger d = Ok tt →
  match ld_state d with
  | COUNT_RESERVED => ld_revision d = 1
  | COUNT_FAILED | GENERATION_RESERVED => ld_revision d = 2
  | GENERATION_USAGE_RECORDED => ld_revision d = 3
  | GENERATION_FAILED => ld_revision d = 3 ∨ ld_revision d = 4
  | FINALIZED => ld_revision d = 4
  end.
Proof.
  intros H%constructed_state. unfold ledger_state_valid in H.
  destruct (ld_state d); bool_simpl; try done.
  destruct (is_some (ld_generation_usage d)); auto.
Qed.

(** ** Reading and writing *)

Lemma decoded_record_inv s d : _decoded_record s = Ok d →
  decode_contract (fd_canonical_payload (sn_document s)) = Ok d
  ∧ fd_logical_id (sn_document s) = ld_candidate_id d
  ∧ fd_revision (sn_document s) = ld_revision d.
Proof.
  unfold _decoded_record, ledger_check. intros H. inv_ok. bool_simpl. subst.
  split_and!; [|done..].
  destruct (decode_contract _) as [c|e]; [|done]. cbn in *. congruence.
Qed.

Context {fs : Firestore} {laws : FirestoreLaws fs}.

(** [d] is a version of the candidate [id]. *)
Definition ledger_seen (h : history) (id : string) (d : ledger_document) : Prop :=
  ∃ t data, version_of h id t data d.

Lemma ledger_seen_grows h h' id d : grows h h' → ledger_seen h id d → ledger_seen h' id d.
Proof. intros Hg (t & data & Hv). exists t, data. by eapply version_of_grows. Qed.

Lemma ledger_seen_id h id d : ledger_seen h id d → ld_candidate_id d = id.
Proof. by intros (t & data & _ & _ & Hid & _). Qed.

Lemma ledger_seen_valid h id d : ledger_seen h id d → construct_ledger d = Ok tt.
Proof. intros (t & data & _ & He & _). exact (encodes_valid _ _ _ He). Qed.

Lemma snapshot_ledger h0 h id s d :
  snapshot_of h0 h C_PROVIDER_CANDIDATE id s → _decoded_record s = Ok d →
  version_of h id (sn_update_time s) (data_of (sn_document s)) d.
Proof.
  intros Hs (Hdec & Hl & _)%decoded_record_inv.
  eapply snapshot_version; [exact Hs| |exact Hl].
  intros b Hb Hp. change (fd_canonical_payload (sn_document s) = canonical_json_bytes b) in Hp.
  rewrite Hp, (ledger_decodes b Hb) in Hdec. congruence.
Qed.

(** [d] was read at the snapshot [s], the latest version at some time after [h0]. *)
Definition ledger_read (h0 h : history) (id : string) (s : FirestoreCasSnapshot)
  (d : ledger_document) : Prop :=
  version_of h id (sn_update_time s) (data_of (sn_document s)) d
  ∧ recent h0 (record_path id) (sn_update_time s).

Lemma ledger_read_since h0 h h' id s d :
  grows h h' → ledger_read h0 h id s d → seen_since h0 h' id d.
Proof.
  intros Hg (Hv & Hr). exists (sn_update_time s), (data_of (sn_document s)).
  split; [by eapply version_of_grows|done].
Qed.

Lemma seen_since_seen h0 h id d : seen_since h0 h id d → ledger_seen h id d.
Proof. intros (t & data & Hv & _). by exists t, data. Qed.

Lemma r_ledger_load id h :
  returns (ledger_load id) (λ h' r, ledger_read h h' id r.1 r.2) h.
Proof.
  apply r_bind. eapply r_mono; [apply r_except, r_read|].
  intros h1 [s|] _ Hs; [|apply r_raise]. cbv beta in Hs. specialize (Hs s eq_refl).
  apply r_bind, r_lift. intros d h2 Hd Hg2. apply r_bind, r_lift. intros [] h3 _ Hg3.
  apply r_ret. intros h4 Hg4. cbn [fst snd]. split.
  - apply (version_of_grows h1); [|by eapply snapshot_ledger].
    do 2 (etrans; [eassumption|]). done.
  - by destruct Hs as (_ & _ & _ & _ & _ & ?).
Qed.

Lemma r_constructed {A} (check : A → result py_error unit) a h :
  returns (constructed check a) (λ _ b, b = a ∧ check a = Ok tt) h.
Proof.
  apply r_lift. intros b h' Hb _. destruct (check a) as [[]|e]; [|done]. by injection Hb as <-.
Qed.

Lemma r_ledger_create i d h :
  ledger_initial d → construct_ledger d = Ok tt →
  returns (ledger_create d) (λ h' _, written_since h h' i (ld_candidate_id d) d) h.
Proof.
  intros Hi Hok. apply r_except, r_bind.
  eapply r_mono; [exact (r_own_document i d (ld_revision d) h eq_refl)|].
  intros h1 doc Hg1 Hdoc. cbv beta in Hdoc. apply r_bind.
  eapply r_mono; [exact (r_create_record h i d doc h1 Hi Hok Hdoc)|].
  intros h2 w Hg2 [_ Hv]. apply r_lift. intros [] h3 _ Hg3.
  eapply written_since_grows; [exact Hg3|]. eapply own_written; [exact Hv|].
  by eapply own_document_grows.
Qed.

Lemma r_ledger_update i id s d d' h :
  version_of h id (sn_update_time s) (data_of (sn_document s)) d → ledger_step d d' →
  construct_ledger d' = Ok tt →
  returns (ledger_update s d') (λ h' _, written_since h h' i id d') h.
Proof.
  intros Hv Hs Hok. apply r_except, r_bind.
  eapply r_mono; [exact (r_own_document i d' (ld_revision d') h eq_refl)|].
  intros h1 doc Hg1 Hdoc. cbv beta in Hdoc. apply r_bind.
  eapply r_mono; [eapply (r_update_record h i id s d d' doc);
    [by eapply version_of_grows|exact Hs|exact Hok|exact Hdoc]|].
  intros h2 w Hg2 [_ Hv']. apply r_lift. intros [] h3 _ Hg3.
  eapply written_since_grows; [exact Hg3|]. eapply own_written; [exact Hv'|].
  by eapply own_document_grows.
Qed.

End protocol.

(** ** What each operation has done *)

Section operations.
Context {rt : Runtime} {sec : Security} {tp : TimeParser} {tl : TimeParserLaws tp}.
Context {fp : FloatParser} {fs : Firestore} {laws : FirestoreLaws fs}.

(** After [h0], client [i] read the document [d] of [id] and replaced it by [d']. *)
Definition replaced_by (h0 h : history) (i : nat) (id : string) (d d' : ledger_document) : Prop :=
  seen_since h0 h id d ∧ ledger_step d d' ∧ written_since h0 h i id d'.

Lemma replaced_by_grows h0 h h' i id d d' :
  grows h h' → replaced_by h0 h i id d d' → replaced_by h0 h' i id d d'.
Proof.
  intros Hg (Hs & Hst & Hw).
  split_and!; [by eapply seen_since_grows|done|by eapply written_since_grows].
Qed.

(** What replacing a document that was read has done. *)
Lemma r_replace_read i h0 h1 id s d d' h :
  grows h0 h1 → grows h1 h → ledger_read h0 h1 id s d → ledger_step d d' →
  construct_ledger d' = Ok tt →
  returns (ledger_update s d') (λ h' _, replaced_by h0 h' i id d d') h.
Proof.
  intros Hg0 Hg1 Hr Hst Hok. pose proof Hr as [Hv _].
  eapply r_mono; [eapply (r_ledger_update i id s d);
    [by eapply version_of_grows|exact Hst|exact Hok]|].
  intros h2 [] Hg2 Hw. split_and!; [|done|].
  - eapply ledger_read_since; [|exact Hr]. by etrans.
  - eapply written_since_since; [|exact Hw]. by etrans.
Qed.

(** The reservations a document grants. *)
Definition count_reservation_of (d : ledger_document) : HostedCountReservation :=
  {| hcr_candidate_id := ld_candidate_id d; hcr_reservation_id := ld_count_reservation_id d;
     hcr_revision := ld_count_reservation_revision d; hcr_dispatch := ld_dispatch d |}.
Definition generation_reservation_of (d : ledger_document) (id : string)
  : HostedGenerationReservation :=
  {| hgr_candidate_id := ld_candidate_id d; hgr_reservation_id := id;
     hgr_revision := ld_revision d; hgr_dispatch := ld_dispatch d |}.

Lemma count_record_state d r : _count_record d r = Ok tt →
  ld_state d = COUNT_RESERVED ∧ r = count_reservation_of d.
Proof.
  unfold _count_record, ledger_check. intros H. inv_ok. bool_simpl.
  split; [done|]. destruct r; cbn in *. unfold count_reservation_of. by subst.
Qed.

Lemma generation_record_state d r states : _generation_record d r states = Ok tt →
  ld_state d ∈ states ∧ hgr_candidate_id r = ld_candidate_id d
  ∧ ld_generation_reservation_id d = Some (hgr_reservation_id r)
  ∧ ld_generation_reservation_revision d = Some (hgr_revision r)
  ∧ hgr_dispatch r = ld_dispatch d.
Proof.
  unfold _generation_record, ledger_check. intros H. inv_ok. bool_simpl. by rewrite <-inb_true.
Qed.

Definition count_reserved_by (h0 h : history) (i : nat) (candidate : HostedCandidateIdentity)
  (dispatch : HostedProviderDispatch) (r : HostedCountReservation) : Prop :=
  ∃ id, r = count_reservation_of (reserved_record candidate dispatch id)
    ∧ written_since h0 h i (candidate_id candidate) (reserved_record candidate dispatch id).

Lemma r_reserve i candidate dispatch h :
  returns (reserve_count_tokens candidate dispatch)
    (λ h' r, count_reserved_by h h' i candidate dispatch r) h.
Proof.
  apply r_bind. eapply r_mono.
  - apply r_bind. eapply r_mono; [apply (r_uuid i)|]. intros h1 id _ _.
    apply (r_ret _ (λ _ _, True)). done.
  - intros h1 id Hg1 _. apply r_bind. eapply r_mono; [apply r_constructed|].
    intros h2 d Hg2 [-> Hok]. apply r_bind.
    eapply r_mono; [apply (r_ledger_create i); [by eexists _, _, _|exact Hok]|].
    intros h3 [] Hg3 Hw. apply r_bind, r_lift. intros [] h4 _ Hg4. apply r_ret.
    intros h5 Hg5. exists id. split; [done|]. eapply written_since_since; [by etrans|].
    eapply written_since_grows; [|exact Hw]. by etrans.
Qed.

Lemma r_fail_count i r failure h :
  returns (fail_count_tokens r failure)
    (λ h' _, ∃ d, _count_record d r = Ok tt
      ∧ replaced_by h h' i (hcr_candidate_id r) d (count_failed d failure)) h.
Proof.
  apply r_bind. eapply r_mono; [apply r_ledger_load|]. intros h1 [s d] Hg1 Hv. cbn [fst snd] in Hv.
  apply r_bind, r_lift. intros [] h2 Hr Hg2. apply r_bind.
  eapply r_mono; [apply r_constructed|]. intros h3 d' Hg3 [-> Hok].
  eapply r_mono.
  - eapply (r_replace_read i h h1); [exact Hg1|by etrans|exact Hv| |exact Hok].
    apply step_count_failed; by apply count_record_state in Hr as [? _].
  - intros h4 [] _ Hw. by exists d.
Qed.

Definition generation_reserved_by (h0 h : history) (i : nat) (r : HostedCountReservation)
  (usage : HostedCountTokensUsage) (g : HostedGenerationReservation) : Prop :=
  ∃ d id, _count_record d r = Ok tt
    ∧ g = generation_reservation_of (generation_reserved d usage id) id
    ∧ replaced_by h0 h i (hcr_candidate_id r) d (generation_reserved d usage id).

Lemma r_complete_count i r usage h :
  returns (complete_count_and_reserve_generation r usage)
    (λ h' g, generation_reserved_by h h' i r usage g) h.
Proof.
  apply r_bind. eapply r_mono; [apply r_ledger_load|]. intros h1 [s d] Hg1 Hv. cbn [fst snd] in Hv.
  apply r_bind, r_lift. intros [] h2 Hr Hg2. apply r_bind. eapply (r_mono _ (λ _ _, True)).
  - apply r_bind. eapply r_mono; [apply (r_uuid i)|]. intros h3 id _ _. by apply r_ret.
  - intros h3 id Hg3 _. apply r_bind.
    eapply r_mono; [apply r_constructed|]. intros h4 d' Hg4 [-> Hok]. apply r_bind.
    eapply r_mono.
    + eapply (r_replace_read i h h1);
        [exact Hg1|do 2 (etrans; [eassumption|]); done|exact Hv| |exact Hok].
      apply step_generation_reserved; by apply count_record_state in Hr as [? _].
    + intros h5 [] Hg5 Hw. apply r_bind, r_lift. intros [] h6 _ Hg6. apply r_ret.
      intros h7 Hg7. exists d, id. split; [done|]. split; [done|].
      eapply replaced_by_grows; [|exact Hw]. by etrans.
Qed.

Lemma r_replace_generation i r states change h :
  (∀ d, ld_state d ∈ states → ledger_step d (change d)) →
  returns (replace_generation r states change)
    (λ h' _, ∃ d, _generation_record d r states = Ok tt
      ∧ replaced_by h h' i (hgr_candidate_id r) d (change d)) h.
Proof.
  intros Hchange. apply r_bind. eapply r_mono; [apply r_ledger_load|].
  intros h1 [s d] Hg1 Hv. cbn [fst snd] in Hv. apply r_bind, r_lift. intros [] h2 Hr Hg2.
  apply r_bind. eapply r_mono; [apply r_constructed|]. intros h3 d' Hg3 [-> Hok].
  eapply r_mono.
  - eapply (r_replace_read i h h1); [exact Hg1|by etrans|exact Hv| |exact Hok].
    apply Hchange; by apply generation_record_state in Hr as [? _].
  - intros h4 [] _ Hw. by exists d.
Qed.

Lemma r_fail_generation i r failure h :
  returns (fail_generation r failure)
    (λ h' _, ∃ d, _generation_record d r [GENERATION_RESERVED; GENERATION_USAGE_RECORDED] = Ok tt
      ∧ replaced_by h h' i (hgr_candidate_id r) d (generation_failed d failure)) h.
Proof.
  apply r_replace_generation. intros d Hd. apply step_generation_failed.
  apply elem_of_cons in Hd as [?|?%list_elem_of_singleton]; auto.
Qed.

Lemma r_record_usage i r usage h :
  returns (record_generation_usage r usage)
    (λ h' _, ∃ d, _generation_record d r [GENERATION_RESERVED] = Ok tt
      ∧ replaced_by h h' i (hgr_candidate_id r) d (usage_recorded d usage)) h.
Proof.
  apply r_replace_generation. intros d ?%list_elem_of_singleton. by apply step_usage_recorded.
Qed.

Lemma r_finalize i r outcome output model raw h :
  returns (finalize_generation r outcome output model raw)
    (λ h' _, ∃ d, _generation_record d r [GENERATION_USAGE_RECORDED] = Ok tt
      ∧ replaced_by h h' i (hgr_candidate_id r) d (generation_finalized d outcome output model raw)) h.
Proof.
  apply r_replace_generation. intros d ?%list_elem_of_singleton. by apply step_finalized.
Qed.

Lemma r_observe candidate h :
  returns (observe_finalized candidate)
    (λ h' o, ∃ d, seen_since h h' (candidate_id candidate) d
      ∧ observed_fields d candidate = Some o) h.
Proof.
  apply r_bind. eapply r_mono; [apply r_ledger_load|]. intros h1 [s d] _ Hv. cbn [fst snd] in *.
  destruct (observed_fields d candidate) as [o|] eqn:Ho; [|apply r_raise].
  apply r_lift. intros o' h2 Hc Hg2. exists d. split; [by eapply ledger_read_since|].
  unfold construct_observation in Hc. destruct (_ ≫= _) as [o2|e] eqn:Hb in Hc; [|done].
  injection Hc as <-. inv_ok. by subst.
Qed.

(** Any snapshot of a candidate is of some record of it. *)
Lemma snapshot_seen h0 h h' id s :
  grows h h' → snapshot_of h0 h C_PROVIDER_CANDIDATE id s → ∃ d, seen_since h0 h' id d.
Proof.
  intros Hg (_ & _ & Hid & _ & Hk & Hrec). pose proof Hk as (_ & c & Hc & Hr).
  destruct (version_record _ _ _ Hc Hr) as (a0 & a & He0 & He & Hi & Hs). exists a.
  assert (ld_candidate_id a = id) as Hida.
  { destruct He as (doc & Hd & _ & Hl & _). change (fd_logical_id doc = ld_candidate_id a) in Hl.
    rewrite <-Hl, <-Hid. symmetry.
    assert (data_of (sn_document s) !! "logical_id" = data_of doc !! "logical_id") as Hq
      by by rewrite Hd.
    rewrite (data_lookup (sn_document s) 2 _ (JStr (fd_logical_id (sn_document s)))) in Hq by done.
    rewrite (data_lookup doc 2 _ (JStr (fd_logical_id doc))) in Hq by done. congruence. }
  exists (sn_update_time s), (data_of (sn_document s)). split; [|exact Hrec].
  eapply version_of_grows; [exact Hg|]. split; [exact Hk|]. split; [exact He|].
  split; [exact Hida|]. exists a0. split_and!; [done..|by eapply encodes_valid].
Qed.

Lemma r_is_absent candidate h :
  returns (ledger_is_absent candidate) (λ h' absent,
    if absent then AbsentReads fs → ∀ t d, ¬ versions h (record_path (candidate_id candidate)) t d
    else ∃ d, seen_since h h' (candidate_id candidate) d) h.
Proof.
  apply r_bind. eapply r_mono; [apply r_except, r_read_or_absent|].
  intros h1 o _ Ho. cbv beta in Ho. apply r_ret. intros h2 Hg2.
  destruct o as [s|]; [by eapply snapshot_seen|exact Ho].
Qed.

End operations.
