(* ===== verification/HostedPlanner.v ===== *)
(** One metered planning turn (reconcile/hosted/planner.py and the sealed dispatch
    context of reconcile/adk_planner.py): a planner reserves the candidate's only
    count, counts, reserves its only generation, generates, and records the usage
    before it looks at the answer.

    [_HostedProviderAttempt] is the state of one [plan] and the context its
    dispatch was called with; an exception leaves the state as it was changed.  A
    ledger transition is shielded: it runs to its end, and whether its caller was
    cancelled meanwhile is a response of the environment.  The provider, the
    requests' identity check and the ADK planner around the hook are operations. *)

From S2P Require Export ProviderLedger Planning.

#[local] Open Scope Z_scope.

(** ** Responses of the SDK *)

(** A value of a response: an integer, text, an enumeration member with its text,
    [None], or another object. *)
Inductive response_value :=
  | IntValue (z : Z) | TextValue (s : string) | EnumValue (s : string) | NoValue | OtherValue.

Record CountTokensResponse := {
  ct_total_tokens : response_value;
  ct_cached_content_token_count : response_value;
}.

Record ModalityTokenCount := { mt_modality : response_value; mt_token_count : response_value }.

(** [None]; a list or tuple, an item [None] when it is of another type; another object. *)
Inductive provider_details :=
  | NoDetails | Details (items : list (option ModalityTokenCount)) | OtherDetails.

Record UsageMetadata := {
  um_prompt_token_count : response_value;
  um_candidates_token_count : response_value;
  um_thoughts_token_count : response_value;
  um_tool_use_prompt_token_count : response_value;
  um_cached_content_token_count : response_value;
  um_total_token_count : response_value;
  um_traffic_type : response_value;
  um_prompt_tokens_details : provider_details;
  um_candidates_tokens_details : provider_details;
  um_tool_use_prompt_tokens_details : provider_details;
  um_cache_tokens_details : provider_details;
}.

(** [GenerateContentResponse]; no metadata when it is of another type. *)
Record GenerateContentResponse := { gr_usage_metadata : option UsageMetadata }.

(** [types.TrafficType.ON_DEMAND.value] *)
Class GenaiTypes := { TrafficType_ON_DEMAND : string }.

Section normalize.
Context {rt : Runtime} {sec : Security}.

Definition _provider_integer (value : response_value) (label : string) (positive : bool)
  : result py_error Z :=
  match value with
  | IntValue z => reject_if (z <? if positive then 1 else 0) (ValueError (label +:+ " is invalid"));; Ok z
  | _ => Raise (ValueError (label +:+ " is invalid"))
  end.

Fixpoint ends_with_text (suffix s : string) : bool :=
  bool_decide (s = suffix)
  || match s with EmptyString => false | String _ r => ends_with_text suffix r end.

Definition _provider_identifier (value : response_value) (label : string)
  : result py_error string :=
  match value with
  | TextValue s | EnumValue s =>
      reject_if (ends_with_text "_UNSPECIFIED" s) (ValueError (label +:+ " is invalid"));; Ok s
  | _ => Raise (ValueError (label +:+ " is invalid"))
  end.

Fixpoint normalized_items (items : list (option ModalityTokenCount)) (label : string)
  : result py_error (list HostedModalityUsage) :=
  match items with
  | [] => Ok []
  | None :: _ => Raise (ValueError (label +:+ " modality usage is invalid"))
  | Some item :: items' =>
      modality ← _provider_identifier (mt_modality item) label;
      token_count ← _provider_integer (mt_token_count item) label false;
      let usage := {| mu_modality := modality; mu_token_count := token_count |} in
      construct_modality usage;;
      rest ← normalized_items items' label;
      Ok (usage :: rest)
  end.

Definition _modality_usage (values : provider_details) (label : string)
  : result py_error (list HostedModalityUsage) :=
  match values with
  | NoDetails => Ok []
  | Details items =>
      reject_if (16 <? length items)%nat (ValueError (label +:+ " modality usage is invalid"));;
      normalized_items items label
  | OtherDetails => Raise (ValueError (label +:+ " modality usage is invalid"))
  end.

Definition optional_integer (value : response_value) (label : string) : result py_error Z :=
  match value with NoValue => Ok 0 | _ => _provider_integer value label false end.

Definition normalize_count_tokens_usage (response : CountTokensResponse)
  : result py_error HostedCountTokensUsage :=
  total_tokens ← _provider_integer (ct_total_tokens response) "count total" true;
  cached ← optional_integer (ct_cached_content_token_count response) "count cached total";
  let usage := {| cu_total_tokens := total_tokens; cu_cached_content_tokens := cached |} in
  construct_count_usage usage;;
  Ok usage.

Definition normalize_generation_usage (response : GenerateContentResponse)
  : result py_error HostedGenerationUsage :=
  match gr_usage_metadata response with
  | None => Raise (ValueError "generation usage is unavailable")
  | Some metadata =>
      prompt ← _provider_integer (um_prompt_token_count metadata) "prompt total" false;
      candidates ← optional_integer (um_candidates_token_count metadata) "candidate total";
      thoughts ← optional_integer (um_thoughts_token_count metadata) "thought total";
      tool_use ← optional_integer (um_tool_use_prompt_token_count metadata) "tool-use total";
      cached ← optional_integer (um_cached_content_token_count metadata) "cache total";
      total ← _provider_integer (um_total_token_count metadata) "generation total" false;
      traffic ← _provider_identifier (um_traffic_type metadata) "traffic type";
      prompt_details ← _modality_usage (um_prompt_tokens_details metadata) "prompt";
      candidates_details ← _modality_usage (um_candidates_tokens_details metadata) "candidate";
      tool_details ← _modality_usage (um_tool_use_prompt_tokens_details metadata) "tool-use";
      cache_details ← _modality_usage (um_cache_tokens_details metadata) "cache";
      let usage :=
        {| gu_prompt_tokens := prompt; gu_candidates_tokens := candidates;
           gu_thoughts_tokens := thoughts; gu_tool_use_prompt_tokens := tool_use;
           gu_cached_content_tokens := cached; gu_total_tokens := total;
           gu_traffic_type := traffic; gu_prompt_details := prompt_details;
           gu_candidates_details := candidates_details; gu_thoughts_details := [];
           gu_tool_use_prompt_details := tool_details; gu_cache_details := cache_details |} in
      construct_generation_usage usage;;
      Ok usage
  end.

End normalize.

(** ** Turns (reconcile/adaptive.py) *)

Definition _failure_turn (metadata : AdvisoryPlannerMetadata) (input_sha256 : string)
  (failure : PlannerFailureKind) (usage : option AdvisoryPlannerUsage) : AdvisoryPlannerTurn :=
  {| tn_output := None; tn_failure := Some failure; tn_metadata := metadata;
     tn_input_sha256 := input_sha256; tn_output_sha256 := None; tn_usage := usage |}.

Definition measured_usage (usage : HostedGenerationUsage) : AdvisoryPlannerUsage :=
  {| au_prompt_tokens := gu_prompt_tokens usage;
     au_output_tokens := output_tokens_including_thoughts usage;
     au_total_tokens := gu_total_tokens usage |}.

(** ** Operations *)

(** What a planning turn awaits: an operation of the ledger's store; the identity
    check of the sealed request; the provider's two calls, [None] an answer of
    another type; whether the caller of a shielded transition was cancelled; the
    hook of the ADK planner and the turn it ends with. *)
Inductive planner_op : Type → Type :=
  | Stored (R : Type) (op : hosted_op R) : planner_op R
  | RevalidateRequest : planner_op (result exception unit)
  | RawCountTokens : planner_op (result exception (option CountTokensResponse))
  | RawGenerateContent : planner_op (result exception (option GenerateContentResponse))
  | WasInterrupted : planner_op bool
  | BindHook : planner_op (result exception unit)
  | PlannerTurn : planner_op (result exception AdvisoryPlannerTurn)
  | ClearHook : planner_op (result exception bool).
Arguments Stored {R} op.

Abbreviation planned := (proc planner_op exception).

Fixpoint embed {A} (m : hosted A) : planned A :=
  match m with
  | Done r => Done r
  | Call op k => Call (Stored op) (λ r, embed (k r))
  end.

(** ** The attempt *)

(** [_QualificationDispatchState]: the sealed request and what was done with it. *)
Record dispatch_context := {
  dc_request_byte_count : Z;
  dc_generation_request_sha256 : string;
  dc_count_request_sha256 : string;
  dc_count_started : bool;
  dc_count_response : option CountTokensResponse;
  dc_counted_tokens : option Z;
  dc_generation_started : bool;
  dc_generation_response : option GenerateContentResponse;
}.

Record attempt_state := {
  at_dispatch : option HostedProviderDispatch;
  at_count : option HostedCountReservation;
  at_generation : option HostedGenerationReservation;
  at_usage : option HostedGenerationUsage;
  at_generation_failed : bool;
  at_planner_failure : option PlannerFailureKind;
  at_context : option dispatch_context;
}.

Definition new_attempt : attempt_state :=
  {| at_dispatch := None; at_count := None; at_generation := None; at_usage := None;
     at_generation_failed := false; at_planner_failure := None; at_context := None |}.

(** Changes of the state. *)
Definition set_dispatch (d : HostedProviderDispatch) (s : attempt_state) : attempt_state :=
  {| at_dispatch := Some d; at_count := at_count s; at_generation := at_generation s;
     at_usage := at_usage s; at_generation_failed := at_generation_failed s;
     at_planner_failure := at_planner_failure s; at_context := at_context s |}.
Definition set_count (r : HostedCountReservation) (s : attempt_state) : attempt_state :=
  {| at_dispatch := at_dispatch s; at_count := Some r; at_generation := at_generation s;
     at_usage := at_usage s; at_generation_failed := at_generation_failed s;
     at_planner_failure := at_planner_failure s; at_context := at_context s |}.
Definition set_generation (r : HostedGenerationReservation) (s : attempt_state) : attempt_state :=
  {| at_dispatch := at_dispatch s; at_count := at_count s; at_generation := Some r;
     at_usage := at_usage s; at_generation_failed := at_generation_failed s;
     at_planner_failure := at_planner_failure s; at_context := at_context s |}.
Definition set_usage (u : HostedGenerationUsage) (s : attempt_state) : attempt_state :=
  {| at_dispatch := at_dispatch s; at_count := at_count s; at_generation := at_generation s;
     at_usage := Some u; at_generation_failed := at_generation_failed s;
     at_planner_failure := at_planner_failure s; at_context := at_context s |}.
Definition set_failure (generation_failed : bool) (f : PlannerFailureKind) (s : attempt_state)
  : attempt_state :=
  {| at_dispatch := at_dispatch s; at_count := at_count s; at_generation := at_generation s;
     at_usage := at_usage s;
     at_generation_failed := at_generation_failed s || generation_failed;
     at_planner_failure := Some f; at_context := at_context s |}.
Definition set_context (c : dispatch_context) (s : attempt_state) : attempt_state :=
  {| at_dispatch := at_dispatch s; at_count := at_count s; at_generation := at_generation s;
     at_usage := at_usage s; at_generation_failed := at_generation_failed s;
     at_planner_failure := at_planner_failure s; at_context := Some c |}.

Definition with_count_started (c : dispatch_context) : dispatch_context :=
  {| dc_request_byte_count := dc_request_byte_count c;
     dc_generation_request_sha256 := dc_generation_request_sha256 c;
     dc_count_request_sha256 := dc_count_request_sha256 c; dc_count_started := true;
     dc_count_response := dc_count_response c; dc_counted_tokens := dc_counted_tokens c;
     dc_generation_started := dc_generation_started c;
     dc_generation_response := dc_generation_response c |}.
Definition with_count (r : CountTokensResponse) (total : Z) (c : dispatch_context)
  : dispatch_context :=
  {| dc_request_byte_count := dc_request_byte_count c;
     dc_generation_request_sha256 := dc_generation_request_sha256 c;
     dc_count_request_sha256 := dc_count_request_sha256 c;
     dc_count_started := dc_count_started c; dc_count_response := Some r;
     dc_counted_tokens := Some total; dc_generation_started := dc_generation_started c;
     dc_generation_response := dc_generation_response c |}.
Definition with_generation_started (c : dispatch_context) : dispatch_context :=
  {| dc_request_byte_count := dc_request_byte_count c;
     dc_generation_request_sha256 := dc_generation_request_sha256 c;
     dc_count_request_sha256 := dc_count_request_sha256 c;
     dc_count_started := dc_count_started c; dc_count_response := dc_count_response c;
     dc_counted_tokens := dc_counted_tokens c; dc_generation_started := true;
     dc_generation_response := dc_generation_response c |}.
Definition with_generation (r : GenerateContentResponse) (c : dispatch_context)
  : dispatch_context :=
  {| dc_request_byte_count := dc_request_byte_count c;
     dc_generation_request_sha256 := dc_generation_request_sha256 c;
     dc_count_request_sha256 := dc_count_request_sha256 c;
     dc_count_started := dc_count_started c; dc_count_response := dc_count_response c;
     dc_counted_tokens := dc_counted_tokens c;
     dc_generation_started := dc_generation_started c;
     dc_generation_response := Some r |}.

(** ** Code that changes the attempt *)

Definition attempted (A : Type) : Type :=
  attempt_state → planned (result exception A * attempt_state).

#[export] Instance attempted_ret : MRet attempted := λ A a s, mret (Ok a, s).
#[export] Instance attempted_bind : MBind attempted := λ A B f m s,
  r ← m s;
  match r with
  | (Ok a, s') => f a s'
  | (Raise e, s') => mret (Raise e, s')
  end.

Definition throw {A} (e : exception) : attempted A := λ s, mret (Raise e, s).
Definition try_except {A} (m : attempted A) (handler : exception → attempted A) : attempted A :=
  λ s, r ← m s;
  match r with
  | (Ok a, s') => mret (Ok a, s')
  | (Raise e, s') => handler e s'
  end.
Definition compute {A} (r : result exception A) : attempted A := λ s, mret (r, s).
Definition attempt_now : attempted attempt_state := λ s, mret (Ok s, s).
Definition change (f : attempt_state → attempt_state) : attempted unit := λ s, mret (Ok tt, f s).
Definition act {A} (op : planner_op (result exception A)) : attempted A :=
  λ s, r ← await op; mret (r, s).
Definition ask {A} (op : planner_op A) : attempted A := λ s, r ← await op; mret (Ok r, s).

(** [_capture_durable_ledger_transition] *)
Definition capture {A} (operation : hosted A) : attempted (A * bool) := λ s,
  r ← catch (a ← embed operation; mret (Ok a)) (λ e, mret (Raise e));
  interrupted ← await WasInterrupted;
  mret (match r with
        | Ok a => Ok (a, interrupted)
        | Raise e => Raise (if (interrupted : bool) then CancelledError else e)
        end, s).

(** [_settle_durable_ledger_transition] *)
Definition settle_transition {A} (operation : hosted A) : attempted A :=
  captured ← capture operation;
  if (captured.2 : bool) then throw CancelledError else mret captured.1.

(** [except asyncio.CancelledError: raise
     except Exception: _ledger_failure()] *)
Definition or_ledger_failure {A} (m : attempted A) : attempted A :=
  try_except m (λ e, match e with
    | CancelledError => throw CancelledError
    | _ => throw HostedProviderLedgerError
    end).

Section attempt.
Context {rt : Runtime} {sec : Security} {fp : FloatParser} {tp : TimeParser}.
Context {gt : GenaiTypes}.

Definition QUALIFICATION_INPUT_TOKEN_CEILING : Z := 12000.

Definition the_context : attempted dispatch_context :=
  s ← attempt_now;
  match at_context s with
  | Some c => mret c
  | None => throw (PyError (RuntimeError "no dispatch context"))
  end.

(** [_QualificationDispatchState.count_tokens] *)
Definition count_tokens : attempted Z :=
  act RevalidateRequest;;
  c ← the_context;
  (if dc_count_started c
   then throw (PyError (RuntimeError "qualification token count was already attempted")) else mret tt);;
  (if dc_generation_started c
   then throw (PyError (RuntimeError "qualification generation already started")) else mret tt);;
  change (set_context (with_count_started c));;
  response ← act RawCountTokens;
  act RevalidateRequest;;
  match response with
  | None => throw (PyError (RuntimeError "qualification token count response type drifted"))
  | Some response =>
      match ct_total_tokens response with
      | IntValue total_tokens =>
          if total_tokens <? 1
          then throw (PyError (RuntimeError "qualification token count response is invalid"))
          else if QUALIFICATION_INPUT_TOKEN_CEILING <? total_tokens
          then throw GuardedInputTokenLimitExceeded
          else
            c ← the_context;
            change (set_context (with_count response total_tokens c));;
            mret total_tokens
      | _ => throw (PyError (RuntimeError "qualification token count response is invalid"))
      end
  end.

(** [_QualificationDispatchState.generate_content] *)
Definition generate_content : attempted GenerateContentResponse :=
  act RevalidateRequest;;
  c ← the_context;
  (if is_some (dc_counted_tokens c) then mret tt
   else throw (PyError (RuntimeError "qualification generation requires a token count")));;
  (if dc_generation_started c
   then throw (PyError (RuntimeError "qualification generation was already attempted")) else mret tt);;
  change (set_context (with_generation_started c));;
  response ← act RawGenerateContent;
  match response with
  | None => throw (PyError (RuntimeError "qualification generation response type drifted"))
  | Some response =>
      c ← the_context;
      change (set_context (with_generation response c));;
      mret response
  end.

(** [count_response] *)
Definition count_tokens_response : attempted CountTokensResponse :=
  c ← the_context;
  match dc_count_response c with
  | Some response => mret response
  | None => throw (PyError (RuntimeError "qualification token count is unavailable"))
  end.

(** [_validate_count_reservation], [_validate_generation_reservation] *)
Definition _validate_count_reservation (candidate : HostedCandidateIdentity)
  (value : HostedCountReservation) (dispatch : HostedProviderDispatch)
  : result exception HostedCountReservation :=
  reject_if (negb (bool_decide (hcr_candidate_id value = candidate_id candidate))
             || negb (bool_decide (hcr_dispatch value = dispatch))) HostedProviderLedgerError;;
  Ok value.
Definition _validate_generation_reservation (candidate : HostedCandidateIdentity)
  (value : HostedGenerationReservation) (dispatch : HostedProviderDispatch)
  : result exception HostedGenerationReservation :=
  reject_if (negb (bool_decide (hgr_candidate_id value = candidate_id candidate))
             || negb (bool_decide (hgr_dispatch value = dispatch))) HostedProviderLedgerError;;
  Ok value.

Definition count_failure_kind (failure : HostedCountFailure) : PlannerFailureKind :=
  match failure with
  | Count_TIMEOUT => Planner_TIMEOUT
  | Count_INVALID | Count_LIMIT_EXCEEDED => Planner_SCHEMA_INVALID
  | Count_UNAVAILABLE => Planner_UNAVAILABLE
  end.
Definition generation_failure_kind (failure : HostedGenerationFailure) : PlannerFailureKind :=
  match failure with
  | Generation_TIMEOUT => Planner_TIMEOUT
  | Generation_USAGE_INVALID => Planner_SCHEMA_INVALID
  | Generation_UNAVAILABLE => Planner_UNAVAILABLE
  end.

(** [assert reservation is not None] *)
Definition assertion_failed : exception := PyError (RuntimeError "AssertionError").

Definition _record_count_failure (failure : HostedCountFailure) : attempted unit :=
  s ← attempt_now;
  match at_count s with
  | None => throw assertion_failed
  | Some reservation =>
      change (set_failure false (count_failure_kind failure));;
      or_ledger_failure (settle_transition (fail_count_tokens reservation failure))
  end.
Definition _fail_count {A} (failure : HostedCountFailure) : attempted A :=
  _record_count_failure failure;; throw HostedProviderLedgerError.

Definition _record_generation_failure (failure : HostedGenerationFailure) : attempted unit :=
  s ← attempt_now;
  match at_generation s with
  | None => throw assertion_failed
  | Some reservation =>
      change (set_failure true (generation_failure_kind failure));;
      or_ledger_failure (settle_transition (fail_generation reservation failure))
  end.
Definition _fail_generation {A} (failure : HostedGenerationFailure) : attempted A :=
  _record_generation_failure failure;; throw HostedProviderLedgerError.

(** ** [_HostedProviderAttempt.dispatch], block by block *)

Definition reserve_count (candidate : HostedCandidateIdentity)
  (dispatch : HostedProviderDispatch) : attempted unit :=
  or_ledger_failure
    (captured ← capture (reserve_count_tokens candidate dispatch);
     reservation ← compute (_validate_count_reservation candidate captured.1 dispatch);
     change (set_count reservation);;
     if (captured.2 : bool)
     then _record_count_failure Count_TIMEOUT;; throw CancelledError
     else mret tt).

Definition perform_count : attempted HostedCountTokensUsage :=
  try_except (count_tokens;; mret tt) (λ e, match e with
    | CancelledError => _record_count_failure Count_TIMEOUT;; throw CancelledError
    | GuardedInputTokenLimitExceeded => _fail_count Count_LIMIT_EXCEEDED
    | TimeoutError => _fail_count Count_TIMEOUT
    | _ => _fail_count Count_UNAVAILABLE
    end);;
  count_usage ← try_except
    (response ← count_tokens_response;
     compute (checked (normalize_count_tokens_usage response)))
    (λ _, _fail_count Count_INVALID);
  (if negb (cu_cached_content_tokens count_usage =? 0)
   then _fail_count Count_INVALID else mret tt);;
  mret count_usage.

Definition reserve_generation (candidate : HostedCandidateIdentity)
  (dispatch : HostedProviderDispatch) (count_usage : HostedCountTokensUsage) : attempted unit :=
  or_ledger_failure
    (s ← attempt_now;
     match at_count s with
     | None => throw HostedProviderLedgerError
     | Some reservation =>
         captured ← capture (complete_count_and_reserve_generation reservation count_usage);
         generation ← compute (_validate_generation_reservation candidate captured.1 dispatch);
         change (set_generation generation);;
         if (captured.2 : bool)
         then _record_generation_failure Generation_TIMEOUT;; throw CancelledError
         else mret tt
     end).

Definition perform_generation : attempted (GenerateContentResponse * HostedGenerationUsage) :=
  response ← try_except generate_content (λ e, match e with
    | CancelledError => _record_generation_failure Generation_TIMEOUT;; throw CancelledError
    | TimeoutError => _fail_generation Generation_TIMEOUT
    | _ => _fail_generation Generation_UNAVAILABLE
    end);
  usage ← try_except (compute (checked (normalize_generation_usage response)))
    (λ _, _fail_generation Generation_USAGE_INVALID);
  mret (response, usage).

Definition record_usage (usage : HostedGenerationUsage) : attempted unit :=
  or_ledger_failure
    (s ← attempt_now;
     match at_generation s with
     | None => throw HostedProviderLedgerError
     | Some reservation =>
         captured ← capture (record_generation_usage reservation usage);
         change (set_usage usage);;
         if (captured.2 : bool)
         then _record_generation_failure Generation_TIMEOUT;; throw CancelledError
         else mret tt
     end).

(** The usage is outside what the candidate was granted. *)
Definition usage_exceeds (candidate : HostedCandidateIdentity) (usage : HostedGenerationUsage)
  : bool :=
  (hc_maximum_input_tokens <? gu_prompt_tokens usage)
  || (hc_maximum_output_tokens candidate <? output_tokens_including_thoughts usage)
  || negb (gu_cached_content_tokens usage =? 0)
  || negb (gu_tool_use_prompt_tokens usage =? 0)
  || negb (bool_decide (gu_traffic_type usage = TrafficType_ON_DEMAND)).

Definition dispatch (candidate : HostedCandidateIdentity) (input_sha256 : string)
  (context : dispatch_context) : attempted GenerateContentResponse :=
  s ← attempt_now;
  (if is_some (at_dispatch s) then throw HostedProviderLedgerError else mret tt);;
  let dispatch := {| pd_input_sha256 := input_sha256;
    pd_count_request_sha256 := dc_count_request_sha256 context;
    pd_generation_request_sha256 := dc_generation_request_sha256 context;
    pd_request_byte_count := dc_request_byte_count context |} in
  compute (checked (construct_provider_dispatch dispatch));;
  change (set_dispatch dispatch);;
  change (set_context context);;
  reserve_count candidate dispatch;;
  count_usage ← perform_count;
  reserve_generation candidate dispatch count_usage;;
  generated ← perform_generation;
  record_usage generated.2;;
  (if usage_exceeds candidate generated.2
   then _fail_generation Generation_USAGE_INVALID else mret tt);;
  mret generated.1.

(** ** [_HostedProviderAttempt.finalize] *)

Definition outcome_of_failure (failure : option PlannerFailureKind) : HostedPlannerOutcome :=
  match failure with
  | None => Hosted_SUCCEEDED
  | Some Planner_UNAVAILABLE => Hosted_UNAVAILABLE
  | Some Planner_TIMEOUT => Hosted_TIMEOUT
  | Some Planner_SCHEMA_INVALID => Hosted_SCHEMA_INVALID
  end.

(** A success whose usage is not the measured one is a failure. *)
Definition metered_turn (turn : AdvisoryPlannerTurn) (expected_usage : AdvisoryPlannerUsage)
  : AdvisoryPlannerTurn :=
  if negb (is_some (tn_failure turn))
     && negb (bool_decide (tn_usage turn = Some expected_usage)) then
    {| tn_output := None; tn_failure := Some Planner_SCHEMA_INVALID;
       tn_metadata := tn_metadata turn; tn_input_sha256 := tn_input_sha256 turn;
       tn_output_sha256 := tn_output_sha256 turn; tn_usage := Some expected_usage |}
  else turn.

Definition finalize (turn : AdvisoryPlannerTurn) : attempted AdvisoryPlannerTurn :=
  s ← attempt_now;
  match at_generation s, at_usage s with
  | Some reservation, Some usage =>
      if at_generation_failed s then mret turn else
      let expected_usage := measured_usage usage in
      let turn := metered_turn turn expected_usage in
      try_except
        (settle_transition (finalize_generation reservation (outcome_of_failure (tn_failure turn))
           (tn_output_sha256 turn) (md_reported_model (tn_metadata turn))
           (md_reported_model_raw_sha256 (tn_metadata turn)));;
         mret turn)
        (λ e, match e with
              | CancelledError => throw CancelledError
              | _ => mret (_failure_turn (tn_metadata turn) (tn_input_sha256 turn)
                             Planner_UNAVAILABLE (Some expected_usage))
              end)
  | _, _ => mret turn
  end.

(** ** [HostedGeminiPlanner.plan] *)

Record plan_call := {
  pc_candidate : HostedCandidateIdentity;
  pc_metadata : AdvisoryPlannerMetadata;
  pc_input_sha256 : string;
  pc_contexts : list dispatch_context;
}.

(** The ADK planner calls its hook with these contexts, and goes on or ends as it
    likes when the hook raises. *)
Fixpoint hook_calls (candidate : HostedCandidateIdentity) (input_sha256 : string)
  (contexts : list dispatch_context) : attempted unit :=
  match contexts with
  | [] => mret tt
  | context :: contexts' =>
      try_except (dispatch candidate input_sha256 context;; mret tt) (λ _, mret tt);;
      hook_calls candidate input_sha256 contexts'
  end.

(** The default failure turn of a call. *)
Definition failed_turn (c : plan_call) : AdvisoryPlannerTurn :=
  _failure_turn (pc_metadata c) (pc_input_sha256 c) Planner_UNAVAILABLE None.

(** What [plan] makes of the planner's turn and of whether the hook was consumed. *)
Definition conclude (c : plan_call) (ended : result exception AdvisoryPlannerTurn)
  (cleared : result exception bool) : attempted AdvisoryPlannerTurn :=
  match ended, cleared with
  | Raise CancelledError, _ | _, Raise CancelledError => throw CancelledError
  | _, Ok true =>
      s ← attempt_now;
      let turn := match ended with Ok turn => turn | Raise _ => failed_turn c end in
      finalize match at_planner_failure s with
        | Some failure => _failure_turn (tn_metadata turn) (pc_input_sha256 c) failure
            (measured_usage <$> at_usage s)
        | None => turn
        end
  | _, _ => finalize (failed_turn c)
  end.

Definition plan_attempt (c : plan_call) : attempted AdvisoryPlannerTurn :=
  bound ← try_except (act BindHook;; mret true) (λ e, match e with
    | CancelledError => throw CancelledError | _ => mret false end);
  if negb (bound : bool) then mret (failed_turn c) else
  hook_calls (pc_candidate c) (pc_input_sha256 c) (pc_contexts c);;
  ended ← ask PlannerTurn;
  cleared ← ask ClearHook;
  conclude c ended cleared.

Definition plan (c : plan_call) : planned AdvisoryPlannerTurn :=
  r ← plan_attempt c new_attempt; lift r.1.

End attempt.
