(* ===== verification/HostedPlannerFacts.v ===== *)
(** What a planning turn may do: every provider call it makes is licensed by a
    reservation it wrote, and it makes each of the two calls once at most. *)

From S2P Require Export HostedPlanner ProviderLedgerFacts.

#[local] Open Scope Z_scope.

(** ** The environment of planners *)

Section environment.
Context {fs : Firestore}.

(** The ledger's operations reach the database; the others leave it alone and
    answer anything. *)
Definition planner_respond (R : Type) (s : fs_state) (op : planner_op R)
  : R → fs_state → Prop :=
  match op in planner_op R return R → fs_state → Prop with
  | Stored op => λ r s', respond _ s op r s'
  | _ => λ _ s', s' = s
  end.

End environment.

(** The two calls that are billed. *)
Definition is_count (R : Type) (op : planner_op R) : bool :=
  match op with RawCountTokens => true | _ => false end.
Definition is_generation (R : Type) (op : planner_op R) : bool :=
  match op with RawGenerateContent => true | _ => false end.

(** ** How often *)

(** Lemmas that bound the calls of a block. *)
Create HintDb spends.
(** Lemmas that find no provider call in a block. *)
Create HintDb harmless.

Section counting.
Context {rt : Runtime} {sec : Security} {fp : FloatParser} {tp : TimeParser} {gt : GenaiTypes}.
Context (kind : ∀ R, planner_op R → bool).
Hypothesis kind_call : ∀ R (op : planner_op R),
  match op with RawCountTokens | RawGenerateContent => True | _ => kind R op = false end.

(** [m] performs at most [n] operations of the kind and keeps the dispatch. *)
Definition spends {A} (n : nat) (m : attempted A) : Prop :=
  ∀ s k, at_most kind (n + k) (m s) (λ k' r, (k ≤ k')%nat ∧ match r with
    | Ok (_, s') => at_dispatch s' = at_dispatch s | Raise _ => False end).

Lemma spends_le {A} n n' (m : attempted A) : (n ≤ n')%nat → spends n m → spends n' m.
Proof.
  intros Hn Hm s k. replace (n' + k)%nat with (n + (n' - n + k))%nat by lia.
  eapply at_most_mono; [by apply Hm|]. intros k' r [Hk Hr]. split; [lia|done].
Qed.

Lemma spends_mret {A} n (a : A) : spends n (mret a).
Proof. intros s k. cbn. split; [lia|done]. Qed.
Lemma spends_throw {A} n e : spends n (throw e : attempted A).
Proof. intros s k. cbn. split; [lia|done]. Qed.
Lemma spends_compute {A} n (r : result exception A) : spends n (compute r).
Proof. intros s k. cbn. split; [lia|done]. Qed.
Lemma spends_attempt_now n : spends n attempt_now.
Proof. intros s k. cbn. split; [lia|done]. Qed.

Lemma spends_bind {A B} n n' (m : attempted A) (f : A → attempted B) :
  spends n m → (∀ a, spends n' (f a)) → spends (n + n') (m ≫= f).
Proof.
  intros Hm Hf s k. apply at_most_bind. rewrite <-Nat.add_assoc.
  eapply at_most_mono; [by apply Hm|]. intros k' [[[a|e] s']|e] [Hk Hr]; [|cbn; split; [lia|done]|done].
  replace k' with (n' + (k' - n'))%nat by lia.
  eapply at_most_mono; [by apply Hf|]. intros k2 [[r2 s2]|e2] [Hk2 Hr2]; [|done]. split; [lia|by rewrite Hr2].
Qed.

Lemma spends_try {A} n (m : attempted A) handler :
  spends n m → (∀ e, spends 0 (handler e)) → spends n (try_except m handler).
Proof.
  intros Hm Hh s k. apply at_most_bind.
  eapply at_most_mono; [by apply Hm|]. intros k' [[[a|e] s']|e] [Hk Hr]; [cbn; split; [lia|done]| |done].
  replace k' with (0 + k')%nat by lia.
  eapply at_most_mono; [by apply Hh|]. intros k2 [[r2 s2]|e2] [Hk2 Hr2]; [|done]. split; [lia|by rewrite Hr2].
Qed.

Lemma spends_change n f :
  (∀ s, at_dispatch (f s) = at_dispatch s) → spends n (change f).
Proof. intros Hf s k. cbn. split; [lia|apply Hf]. Qed.

Lemma spends_act {A} n (op : planner_op (result exception A)) :
  kind _ op = false → spends n (act op).
Proof. intros Hop s k. cbn. rewrite Hop. intros r. cbn. split; [lia|done]. Qed.
Lemma spends_act_call {A} n (op : planner_op (result exception A)) : spends (S n) (act op).
Proof.
  intros s k. cbn. destruct (kind _ op); intros r; cbn; (split; [lia|done]).
Qed.
Lemma spends_ask {A} n (op : planner_op A) : kind _ op = false → spends n (ask op).
Proof. intros Hop s k. cbn. rewrite Hop. intros r. cbn. split; [lia|done]. Qed.

(** The ledger's operations are not provider calls. *)
Lemma at_most_embed {A} n (m : hosted A) (P : nat → result exception A → Prop) :
  (∀ r, P n r) → at_most kind n (embed m) P.
Proof.
  intros HP. induction m as [r|R op k IH]; cbn; [apply HP|].
  rewrite (kind_call _ (Stored op)). exact IH.
Qed.

Lemma spends_capture {A} n (operation : hosted A) : spends n (capture operation).
Proof.
  intros s k. apply at_most_bind.
  assert (∀ (m : hosted A) P, (∀ r, P (n + k)%nat (Ok r)) →
    at_most kind (n + k) (catch (a ← embed m; mret (Ok a)) (λ e, mret (Raise e))) P) as Hcatch.
  { intros m P HP. induction m as [[a|e]|R op f IH]; cbn; [apply HP..|].
    rewrite (kind_call _ (Stored op)). exact IH. }
  apply Hcatch. intros r. cbn. rewrite (kind_call _ WasInterrupted). intros b. cbn.
  split; [lia|]. by destruct r.
Qed.

(** *** The attempt *)

Context (nc ng : nat).
Hypothesis count_cost : spends nc (act RawCountTokens).
Hypothesis generation_cost : spends ng (act RawGenerateContent).

Lemma plumbing_free {A} (op : planner_op (result exception A)) :
  match op with RawCountTokens | RawGenerateContent => False | _ => True end → kind _ op = false.
Proof. intros H. pose proof (kind_call _ op) as Hk. destruct op; done. Qed.

Ltac spend :=
  repeat match goal with
  | |- spends _ (mret _) => apply spends_mret
  | |- spends _ (throw _) => apply spends_throw
  | |- spends _ (compute _) => apply spends_compute
  | |- spends _ attempt_now => apply spends_attempt_now
  | |- spends _ (change _) => apply spends_change; done
  | |- spends _ (capture _) => apply spends_capture
  | |- spends _ (act RevalidateRequest) => apply spends_act, (kind_call _ RevalidateRequest)
  | |- spends ?n (if ?b then _ else _) => destruct b
  | |- spends ?n (match ?o with _ => _ end) => destruct o
  | |- spends 0 (_ ≫= _) => apply (spends_bind 0 0); [|intros ?]
  | |- spends 0 (try_except _ _) => apply spends_try; [|intros ?]
  | |- spends _ _ => solve [eauto with spends]
  end.

Lemma spends_settle {A} (operation : hosted A) : spends 0 (settle_transition operation).
Proof. unfold settle_transition. spend. Qed.

Lemma spends_or_failure {A} n (m : attempted A) : spends n m → spends n (or_ledger_failure m).
Proof. intros Hm. apply spends_try; [done|]. intros e. spend. Qed.

Lemma spends_record_count failure : spends 0 (_record_count_failure failure).
Proof.
  unfold _record_count_failure. spend. apply spends_or_failure, spends_settle.
Qed.
Lemma spends_record_generation failure : spends 0 (_record_generation_failure failure).
Proof.
  unfold _record_generation_failure. spend. apply spends_or_failure, spends_settle.
Qed.
#[local] Hint Resolve spends_record_count spends_record_generation : spends.

Lemma spends_fail_count {A} failure : spends 0 (_fail_count failure : attempted A).
Proof. unfold _fail_count. spend. Qed.
Lemma spends_fail_generation {A} failure : spends 0 (_fail_generation failure : attempted A).
Proof. unfold _fail_generation. spend. Qed.
#[local] Hint Resolve spends_fail_count spends_fail_generation : spends.

Lemma spends_context : spends 0 the_context.
Proof. unfold the_context. spend. Qed.
#[local] Hint Resolve spends_context : spends.

Lemma spends_count_tokens : spends nc count_tokens.
Proof.
  unfold count_tokens. apply (spends_bind 0 nc); [spend|intros _].
  apply (spends_bind 0 nc); [spend|intros c]. apply (spends_bind 0 nc); [spend|intros _].
  apply (spends_bind 0 nc); [spend|intros _]. apply (spends_bind 0 nc); [spend|intros _].
  rewrite <-(Nat.add_0_r nc). apply spends_bind; [exact count_cost|]. intros r. spend.
Qed.

Lemma spends_generate_content : spends ng generate_content.
Proof.
  unfold generate_content. apply (spends_bind 0 ng); [spend|intros _].
  apply (spends_bind 0 ng); [spend|intros c]. apply (spends_bind 0 ng); [spend|intros _].
  apply (spends_bind 0 ng); [spend|intros _]. apply (spends_bind 0 ng); [spend|intros _].
  rewrite <-(Nat.add_0_r ng). apply spends_bind; [exact generation_cost|]. intros r. spend.
Qed.

Lemma spends_reserve_count candidate d : spends 0 (reserve_count candidate d).
Proof. unfold reserve_count. apply spends_or_failure. spend. Qed.

Lemma spends_perform_count : spends nc perform_count.
Proof.
  unfold perform_count. rewrite <-(Nat.add_0_r nc). apply spends_bind; [|intros _].
  - apply spends_try; [|intros e; spend]. rewrite <-(Nat.add_0_r nc).
    apply spends_bind; [apply spends_count_tokens|intros _; spend].
  - unfold count_tokens_response. spend.
Qed.

Lemma spends_reserve_generation candidate d u : spends 0 (reserve_generation candidate d u).
Proof. unfold reserve_generation. apply spends_or_failure. spend. Qed.

Lemma spends_perform_generation : spends ng perform_generation.
Proof.
  unfold perform_generation. rewrite <-(Nat.add_0_r ng). apply spends_bind; [|intros r; spend].
  apply spends_try; [apply spends_generate_content|intros e; spend].
Qed.

Lemma spends_record_usage u : spends 0 (record_usage u).
Proof. unfold record_usage. apply spends_or_failure. spend. Qed.

Lemma spends_finalize turn : spends 0 (finalize turn).
Proof.
  unfold finalize. spend; apply spends_settle.
Qed.

(** The guard of [dispatch] on its own state: what is left when it is refused is
    what there was. *)
Definition allowance_left (k : nat) (s : attempt_state) : Prop :=
  at_dispatch s = None → (nc + ng ≤ k)%nat.

Lemma at_most_dispatch candidate input context s k :
  allowance_left k s →
  at_most kind k (dispatch candidate input context s) (λ k' r, match r with
    | Ok (_, s') => allowance_left k' s' | Raise _ => False end).
Proof.
  intros Hk. unfold dispatch. apply at_most_bind. cbn beta iota delta [attempt_now at_most mret
    proc_ret]. apply at_most_bind. destruct (at_dispatch s) as [d|] eqn:Hs;
    cbn beta iota delta [is_some throw mret attempted_ret proc_ret at_most]; [done|].
  apply at_most_bind. unfold compute, checked.
  destruct (construct_provider_dispatch _) as [[]|e] eqn:Hd;
    cbn beta iota delta [map_error mret proc_ret at_most]; [|done].
  apply at_most_bind. cbn beta iota delta [change mret proc_ret at_most].
  apply at_most_bind. cbn beta iota delta [change mret proc_ret at_most].
  specialize (Hk Hs). set (s1 := set_context _ (set_dispatch _ s)).
  assert (∃ d, at_dispatch s1 = Some d) as [d Hs1] by by eexists.
  assert (spends (nc + ng) (
    reserve_count candidate {| pd_input_sha256 := input;
      pd_count_request_sha256 := dc_count_request_sha256 context;
      pd_generation_request_sha256 := dc_generation_request_sha256 context;
      pd_request_byte_count := dc_request_byte_count context |};;
    count_usage ← perform_count;
    reserve_generation candidate {| pd_input_sha256 := input;
      pd_count_request_sha256 := dc_count_request_sha256 context;
      pd_generation_request_sha256 := dc_generation_request_sha256 context;
      pd_request_byte_count := dc_request_byte_count context |} count_usage;;
    generated ← perform_generation;
    record_usage generated.2;;
    (if usage_exceeds candidate generated.2
     then _fail_generation Generation_USAGE_INVALID else mret tt);;
    mret generated.1)) as Hspend.
  { apply (spends_bind 0 (nc + ng)); [apply spends_reserve_count|intros _].
    apply spends_bind; [apply spends_perform_count|intros u].
    apply (spends_bind 0 ng); [apply spends_reserve_generation|intros _].
    rewrite <-(Nat.add_0_r ng). apply spends_bind; [apply spends_perform_generation|intros g].
    apply (spends_bind 0 0); [apply spends_record_usage|intros _].
    apply (spends_bind 0 0); [spend|intros _; spend]. }
  specialize (Hspend s1 (k - (nc + ng))%nat).
  replace (nc + ng + (k - (nc + ng)))%nat with k in Hspend by lia.
  eapply at_most_mono; [exact Hspend|]. intros k' [[r s']|e] [_ Hr]; [|done].
  unfold allowance_left. by rewrite Hr, Hs1.
Qed.

Lemma at_most_hook_calls candidate input contexts s k :
  allowance_left k s →
  at_most kind k (hook_calls candidate input contexts s) (λ _ r, is_ok r = true).
Proof.
  revert s k. induction contexts as [|context contexts IH]; intros s k Hk; [done|].
  cbn [hook_calls]. apply at_most_bind, at_most_bind, at_most_bind.
  eapply at_most_mono; [by apply at_most_dispatch|].
  intros k' [[[a|e] s']|e] Hs; [| |done]; cbn; by apply IH.
Qed.

Lemma spends_conclude c ended cleared : spends 0 (conclude c ended cleared).
Proof.
  assert (∀ turn, spends 0 (finalize turn)) as Hf by exact spends_finalize.
  unfold conclude. destruct ended as [turn|e].
  - destruct cleared as [[]|[]]; first [apply Hf|apply spends_throw|idtac].
    apply (spends_bind 0 0); [apply spends_attempt_now|intros s; apply Hf].
  - destruct e; first [apply spends_throw|destruct cleared as [[]|[]]];
      first [apply Hf|apply spends_throw
            |apply (spends_bind 0 0); [apply spends_attempt_now|intros s; apply Hf]].
Qed.

Lemma at_most_plan c : at_most kind (nc + ng) (plan c) (λ _ _, True).
Proof.
  unfold plan. apply at_most_bind.
  assert (∀ k s (m : attempted AdvisoryPlannerTurn), spends 0 m →
    at_most kind k (m s) (λ n' r, match r with
      | Ok b => at_most kind n' (lift b.1) (λ _ _, True) | Raise _ => True end)) as Hfree.
  { intros k s m Hm. eapply at_most_mono; [apply (Hm s k)|]. by intros n' [[[a|e] s']|e] _. }
  unfold plan_attempt. apply at_most_bind, at_most_bind, at_most_bind, at_most_bind.
  cbn. rewrite (kind_call _ BindHook). intros [[]|e]; cbn; [|by destruct e].
  apply at_most_bind. eapply at_most_mono; [apply at_most_hook_calls; by intros _|].
  intros k [[[[]|e] s]|e] H; [|by cbn|done]. clear H.
  apply at_most_bind. cbn. rewrite (kind_call _ PlannerTurn). intros ended. cbn.
  apply at_most_bind. cbn. rewrite (kind_call _ ClearHook). intros cleared.
  cbn beta iota. apply Hfree, spends_conclude.
Qed.

End counting.

(** ** Under which licence *)

Section licences.
Context {rt : Runtime} {sec : Security} {fp : FloatParser} {gt : GenaiTypes}.
Context {tp : TimeParser} {tl : TimeParserLaws tp}.
Context {fs : Firestore} {laws : FirestoreLaws fs}.

(** Client [i] wrote the document that reserves the count, or the generation, of
    the candidate [id]. *)
Definition holds_state (state : HostedProviderLedgerState) (h : history) (i : nat)
  (id : string) : Prop :=
  ∃ d, written_by h i id d ∧ ld_state d = state.

Lemma holds_state_grows state h h' i id :
  grows h h' → holds_state state h i id → holds_state state h' i id.
Proof. intros Hg (d & Hw & Hs). exists d. split; [by eapply written_by_grows|done]. Qed.

Context (i : nat) (id : string).

Definition planner_licence (h : history) (R : Type) (op : planner_op R) : Prop :=
  match op with
  | RawCountTokens => holds_state COUNT_RESERVED h i id
  | RawGenerateContent => holds_state GENERATION_RESERVED h i id
  | _ => True
  end.

Lemma planner_licence_grows h h' R (op : planner_op R) :
  grows h h' → planner_licence h R op → planner_licence h' R op.
Proof. intros Hg. destruct op; try done; by apply holds_state_grows. Qed.

Abbreviation safely := (safe planner_respond grows chained planner_licence).

Lemma safely_embed {A} (m : hosted A) Q h :
  guarantees m Q h → safely (embed m) Q h.
Proof.
  unfold guarantees. revert h. induction m as [r|R op k IH]; intros h; cbn; [done|].
  intros H. split; [done|]. intros h' s r s' Hg Hc Hr.
  destruct (H h' s r s' Hg Hc Hr) as (h2 & Hg2 & Hc2 & Hk). exists h2. split_and!; [done..|].
  by apply IH.
Qed.

(** From the state [s], [m] is safe and ends with [Q], which lasts. *)
Definition performs {A} (m : attempted A) (s : attempt_state)
  (Q : history → result exception A → attempt_state → Prop) (h : history) : Prop :=
  safely (m s) (λ h' r, match r with
    | Ok (a, s') => ∀ h'', grows h' h'' → Q h'' a s' | Raise _ => False end) h.

Lemma p_grows {A} (m : attempted A) s Q h h' :
  grows h h' → performs m s Q h → performs m s Q h'.
Proof. apply safe_grows, _. Qed.

Lemma p_mono {A} (m : attempted A) s (P Q : history → result exception A → attempt_state → Prop) h :
  performs m s P h → (∀ h' r s', grows h h' → P h' r s' → Q h' r s') → performs m s Q h.
Proof.
  intros Hm HPQ. eapply safe_mono; [apply _|exact Hm|]. intros h' [[a s']|e] Hg HP; [|done].
  intros h'' Hg'. apply HPQ; [by etrans|auto].
Qed.

Lemma p_done {A} (r : result exception A) s Q h :
  (∀ h', grows h h' → Q h' r s) → performs (λ s, mret (r, s)) s Q h.
Proof. intros HQ h' Hg h'' Hg'. apply HQ. by etrans. Qed.
Lemma p_mret {A} (a : A) s Q h : (∀ h', grows h h' → Q h' (Ok a) s) → performs (mret a) s Q h.
Proof. apply p_done. Qed.
Lemma p_throw {A} e s (Q : history → result exception A → attempt_state → Prop) h :
  (∀ h', grows h h' → Q h' (Raise e) s) → performs (throw e) s Q h.
Proof. apply p_done. Qed.
Lemma p_compute {A} (r : result exception A) s Q h :
  (∀ h', grows h h' → Q h' r s) → performs (compute r) s Q h.
Proof. apply p_done. Qed.
Lemma p_attempt_now s Q h : (∀ h', grows h h' → Q h' (Ok s) s) → performs attempt_now s Q h.
Proof. intros HQ h' Hg h'' Hg'. apply HQ. by etrans. Qed.
Lemma p_change f s Q h : (∀ h', grows h h' → Q h' (Ok tt) (f s)) → performs (change f) s Q h.
Proof. intros HQ h' Hg h'' Hg'. apply HQ. by etrans. Qed.

Lemma p_bind {A B} (m : attempted A) (f : A → attempted B) s Q h :
  performs m s (λ h' r s', match r with
    | Ok a => performs (f a) s' Q h'
    | Raise e => ∀ h'', grows h' h'' → Q h'' (Raise e) s' end) h →
  performs (m ≫= f) s Q h.
Proof.
  intros Hm. apply safe_bind; [apply _|]. eapply safe_mono; [apply _|exact Hm|].
  intros h' [[[a|e] s']|e] Hg HP; [|intros h2 Hg2 h3 Hg3|done].
  - apply (HP h'). reflexivity.
  - apply (HP h2); done.
Qed.

Lemma p_try {A} (m : attempted A) handler s Q h :
  performs m s (λ h' r s', match r with
    | Ok a => ∀ h'', grows h' h'' → Q h'' (Ok a) s'
    | Raise e => performs (handler e) s' Q h' end) h →
  performs (try_except m handler) s Q h.
Proof.
  intros Hm. apply safe_bind; [apply _|]. eapply safe_mono; [apply _|exact Hm|].
  intros h' [[[a|e] s']|e] Hg HP; [intros h2 Hg2 h3 Hg3| |done].
  - apply (HP h2); done.
  - apply (HP h'). reflexivity.
Qed.

(** An operation outside the ledger. *)
Lemma p_op {A R} (op : planner_op R) (f : R → result exception A) s Q h :
  match op with Stored _ => False | _ => True end →
  (∀ h', grows h h' → planner_licence h' R op) →
  (∀ r h', grows h h' → Q h' (f r) s) →
  performs (λ s, r ← await op; mret (f r, s)) s Q h.
Proof.
  intros Hop Hl HQ. split; [done|]. intros h' w r w' Hg Hc Hr.
  assert (w' = w) as -> by by destruct op.
  exists h'. split_and!; [done..|]. intros h2 Hg2 h3 Hg3. apply HQ.
  do 2 (etrans; [eassumption|]). done.
Qed.

Lemma p_act {A} (op : planner_op (result exception A)) s Q h :
  match op with Stored _ => False | _ => True end →
  (∀ h', grows h h' → planner_licence h' _ op) →
  (∀ r h', grows h h' → Q h' r s) → performs (act op) s Q h.
Proof. apply (p_op op (λ r, r)). Qed.
Lemma p_ask {R} (op : planner_op R) s Q h :
  match op with Stored _ => False | _ => True end →
  (∀ h', grows h h' → planner_licence h' _ op) →
  (∀ r h', grows h h' → Q h' (Ok r) s) → performs (ask op) s Q h.
Proof. apply (p_op op Ok). Qed.

(** A shielded transition: what it returned was done, whoever was cancelled. *)
Lemma p_capture {A} (operation : hosted A) (P : history → A → Prop) s Q h :
  returns operation P h →
  (∀ h' r, grows h h' → match r with Ok (a, _) => P h' a | Raise _ => True end → Q h' r s) →
  performs (capture operation) s Q h.
Proof.
  intros Hop HQ. apply safe_bind; [apply _|].
  assert (safely (catch (a ← embed operation; mret (Ok a)) (λ e, mret (Raise e)))
    (λ h' r, match r with
      | Ok (Ok a) => ∀ h'', grows h' h'' → P h'' a | Ok _ => True | Raise _ => False end) h) as Hc.
  { unfold returns, guarantees in Hop. clear HQ. revert h Hop.
    induction operation as [[a|e]|R op k IH]; intros h Hop; cbn in *.
    - intros h' Hg h'' Hg'. apply (Hop h'); done.
    - done.
    - split; [done|]. intros h' w r w' Hg Hi Hr.
      destruct (Hop h' w r w' Hg Hi Hr) as (h2 & ? & ? & Hk). exists h2. split_and!; [done..|].
      by apply IH. }
  eapply safe_mono; [apply _|exact Hc|]. intros h1 [r|e] Hg1 Hr; [|done].
  split; [done|]. intros h2 w b w' Hg2 Hi ->. exists h2. split_and!; [done..|].
  intros h3 Hg3 h4 Hg4. apply HQ.
  - do 3 (etrans; [eassumption|]). done.
  - destruct r as [a|e]; [|done]. apply Hr. do 2 (etrans; [eassumption|]). done.
Qed.

(** *** Blocks *)

(** What holds only of a value returned. *)
Definition of_value {A} (P : history → A → attempt_state → Prop)
  (h : history) (r : result exception A) (s : attempt_state) : Prop :=
  match r with Ok a => P h a s | Raise _ => True end.

Abbreviation gives m s P h := (performs m s (of_value P) h).

Lemma gives_bind {A B} (m : attempted A) (f : A → attempted B) s
  (P : history → A → attempt_state → Prop) (Q : history → B → attempt_state → Prop) h :
  gives m s P h → (∀ h' a s', grows h h' → P h' a s' → gives (f a) s' Q h') →
  gives (m ≫= f) s Q h.
Proof.
  intros Hm Hf. apply p_bind. eapply p_mono; [exact Hm|].
  intros h' [a|e] s' Hg HP; [by apply Hf|done].
Qed.

(** [m] is safe and leaves the reserved generation as it is. *)
Abbreviation keeps m s h := (performs m s (λ _ _ s', at_generation s' = at_generation s) h).

Lemma keeps_bind {A B} (m : attempted A) (f : A → attempted B) s h :
  keeps m s h →
  (∀ h' a s', grows h h' → at_generation s' = at_generation s → keeps (f a) s' h') →
  keeps (m ≫= f) s h.
Proof.
  intros Hm Hf. apply p_bind. eapply p_mono; [exact Hm|]. intros h' [a|e] s' Hg Hs; [|done].
  eapply p_mono; [by apply Hf|]. intros h2 r s2 _ Hs2. by rewrite Hs2.
Qed.
Lemma keeps_try {A} (m : attempted A) handler s h :
  keeps m s h →
  (∀ e h' s', grows h h' → at_generation s' = at_generation s → keeps (handler e) s' h') →
  keeps (try_except m handler) s h.
Proof.
  intros Hm Hh. apply p_try. eapply p_mono; [exact Hm|]. intros h' [a|e] s' Hg Hs; [done|].
  eapply p_mono; [by apply Hh|]. intros h2 r s2 _ Hs2. by rewrite Hs2.
Qed.

(** Code without a provider call. *)
Definition harmless {A} (m : attempted A) : Prop := ∀ s h, keeps m s h.

Lemma harmless_bind {A B} (m : attempted A) (f : A → attempted B) :
  harmless m → (∀ a, harmless (f a)) → harmless (m ≫= f).
Proof. intros Hm Hf s h. apply keeps_bind; [apply Hm|]. intros h' a s' _ _. apply Hf. Qed.
Lemma harmless_try {A} (m : attempted A) handler :
  harmless m → (∀ e, harmless (handler e)) → harmless (try_except m handler).
Proof. intros Hm Hh s h. apply keeps_try; [apply Hm|]. intros e h' s' _ _. apply Hh. Qed.
Lemma harmless_mret {A} (a : A) : harmless (mret a).
Proof. intros s h. by apply p_mret. Qed.
Lemma harmless_throw {A} e : harmless (throw e : attempted A).
Proof. intros s h. by apply p_throw. Qed.
Lemma harmless_compute {A} (r : result exception A) : harmless (compute r).
Proof. intros s h. by apply p_compute. Qed.
Lemma harmless_attempt_now : harmless attempt_now.
Proof. intros s h. by apply p_attempt_now. Qed.
Lemma harmless_change f :
  (∀ s, at_generation (f s) = at_generation s) → harmless (change f).
Proof. intros Hf s h. apply p_change. intros h' _. apply Hf. Qed.
Lemma harmless_revalidate : harmless (act RevalidateRequest).
Proof. intros s h. by apply p_act. Qed.
Lemma harmless_capture {A} (operation : hosted A) (P : history → history → A → Prop) :
  (∀ h, returns operation (P h) h) → harmless (capture operation).
Proof. intros Hop s h. by eapply p_capture; [apply Hop|]. Qed.

Ltac harmless_step :=
  repeat match goal with
  | |- harmless (mret _) => apply harmless_mret
  | |- harmless (throw _) => apply harmless_throw
  | |- harmless (compute _) => apply harmless_compute
  | |- harmless attempt_now => apply harmless_attempt_now
  | |- harmless (change _) => apply harmless_change; done
  | |- harmless (act RevalidateRequest) => apply harmless_revalidate
  | |- harmless (if ?b then _ else _) => destruct b
  | |- harmless (match ?o with _ => _ end) => destruct o
  | |- harmless (_ ≫= _) => apply harmless_bind; [|intros ?]
  | |- harmless (try_except _ _) => apply harmless_try; [|intros ?]
  | |- harmless (or_ledger_failure _) => apply harmless_try; [|intros ?]
  | |- harmless (settle_transition _) => apply harmless_bind; [|intros ?]
  | |- harmless (capture (fail_count_tokens _ _)) =>
      eapply harmless_capture; intros ?; apply (r_fail_count i)
  | |- harmless (capture (fail_generation _ _)) =>
      eapply harmless_capture; intros ?; apply (r_fail_generation i)
  | |- harmless (capture (finalize_generation _ _ _ _ _)) =>
      eapply harmless_capture; intros ?; apply (r_finalize i)
  | |- harmless _ => solve [eauto with harmless]
  end.

Lemma harmless_record_count failure : harmless (_record_count_failure failure).
Proof. unfold _record_count_failure. harmless_step. Qed.
Lemma harmless_record_generation failure : harmless (_record_generation_failure failure).
Proof. unfold _record_generation_failure. harmless_step. Qed.
#[local] Hint Resolve harmless_record_count harmless_record_generation : harmless.

Lemma harmless_fail_count {A} failure : harmless (_fail_count failure : attempted A).
Proof. unfold _fail_count. harmless_step. Qed.
Lemma harmless_fail_generation {A} failure : harmless (_fail_generation failure : attempted A).
Proof. unfold _fail_generation. harmless_step. Qed.
Lemma harmless_context : harmless the_context.
Proof. unfold the_context. harmless_step. Qed.
#[local] Hint Resolve harmless_fail_count harmless_fail_generation harmless_context : harmless.

Lemma harmless_finalize turn : harmless (finalize turn).
Proof. unfold finalize. harmless_step. Qed.

Lemma keeps_after {A B} (m : attempted A) (f : A → attempted B) s h :
  harmless m →
  (∀ h' a s', grows h h' → at_generation s' = at_generation s → keeps (f a) s' h') →
  keeps (m ≫= f) s h.
Proof. intros Hm Hf. apply keeps_bind; [apply Hm|done]. Qed.

Lemma keeps_harmless {A} (m : attempted A) s h : harmless m → keeps m s h.
Proof. intros Hm. apply Hm. Qed.

(** The provider's call, and harmless code after it. *)
Lemma keeps_call {A B} (op : planner_op (result exception A)) (f : A → attempted B) s h :
  match op with Stored _ => False | _ => True end →
  (∀ h', grows h h' → planner_licence h' _ op) → (∀ a, harmless (f a)) →
  keeps (act op ≫= f) s h.
Proof.
  intros Hop Hl Hf. apply keeps_bind; [by apply p_act|]. intros h' a s' _ _. apply Hf.
Qed.

Lemma licensed_count_tokens s h :
  holds_state COUNT_RESERVED h i id → keeps count_tokens s h.
Proof.
  intros Hl. unfold count_tokens. apply keeps_after; [harmless_step|intros h1 _ s1 Hg1 _].
  apply keeps_after; [harmless_step|intros h2 c s2 Hg2 _].
  apply keeps_after; [harmless_step|intros h3 _ s3 Hg3 _].
  apply keeps_after; [harmless_step|intros h4 _ s4 Hg4 _].
  apply keeps_after; [harmless_step|intros h5 _ s5 Hg5 _].
  apply keeps_call; [done| |intros r; harmless_step].
  intros h6 Hg6. eapply holds_state_grows; [|exact Hl].
  do 5 (etrans; [eassumption|]). done.
Qed.

Lemma licensed_generate_content s h :
  holds_state GENERATION_RESERVED h i id → keeps generate_content s h.
Proof.
  intros Hl. unfold generate_content. apply keeps_after; [harmless_step|intros h1 _ s1 Hg1 _].
  apply keeps_after; [harmless_step|intros h2 c s2 Hg2 _].
  apply keeps_after; [harmless_step|intros h3 _ s3 Hg3 _].
  apply keeps_after; [harmless_step|intros h4 _ s4 Hg4 _].
  apply keeps_after; [harmless_step|intros h5 _ s5 Hg5 _].
  apply keeps_call; [done| |intros r; harmless_step].
  intros h6 Hg6. eapply holds_state_grows; [|exact Hl].
  do 5 (etrans; [eassumption|]). done.
Qed.

Lemma licensed_perform_count s h :
  holds_state COUNT_RESERVED h i id → keeps perform_count s h.
Proof.
  intros Hl. unfold perform_count. apply keeps_bind.
  - apply keeps_try; [|intros e h' s' _ _; apply keeps_harmless; harmless_step].
    apply keeps_bind; [by apply licensed_count_tokens|]. intros h' a s' _ _. by apply p_mret.
  - intros h' _ s' _ _. unfold count_tokens_response. apply keeps_harmless. harmless_step.
Qed.

(** *** The transitions of a dispatch *)

Lemma or_failure_value {A} (m : attempted A) s (P : history → A → attempt_state → Prop) h :
  (∀ h h' a s, grows h h' → P h a s → P h' a s) →
  gives m s P h → gives (or_ledger_failure m) s P h.
Proof.
  intros HP Hm. apply p_try. eapply p_mono; [exact Hm|].
  intros h' [a|e] s' Hg Ha; [intros h2 Hg2; by eapply HP|]. by destruct e; apply p_throw.
Qed.

Lemma gives_harmless {A B} (m : attempted A) (f : A → attempted B) s
  (Q : history → B → attempt_state → Prop) h :
  harmless m → (∀ a h' s', gives (f a) s' Q h') → gives (m ≫= f) s Q h.
Proof.
  intros Hm Hf. apply p_bind. eapply p_mono; [apply Hm|].
  intros h' [a|e] s' _ _; [apply Hf|done].
Qed.

Lemma gives_reserve_count candidate d s h :
  id = candidate_id candidate →
  gives (reserve_count candidate d) s (λ h' _ _, holds_state COUNT_RESERVED h' i id) h.
Proof.
  intros Hid. apply or_failure_value; [intros h1 h2 a s'; apply holds_state_grows|].
  eapply (gives_bind _ _ _ (λ h' _ _, holds_state COUNT_RESERVED h' i id)).
  - eapply p_capture; [apply (r_reserve i)|]. intros h' [[r b]|e] Hg Hr; [|done].
    destruct Hr as (rid & -> & Hw%written_since_by). rewrite Hid. by eexists; split; [exact Hw|].
  - intros h1 captured s1 Hg1 Hl. eapply (gives_bind _ _ _ (λ _ _ _, True)).
    + apply p_compute. by intros h' _; destruct (_validate_count_reservation _ _ _).
    + intros h2 r s2 Hg2 _. eapply (gives_bind _ _ _ (λ _ _ _, True)); [by apply p_change|].
      intros h3 _ s3 Hg3 _. destruct captured.2.
      * eapply (gives_bind _ _ _ (λ _ _ _, True)); [|intros; by apply p_throw].
        eapply p_mono; [apply harmless_record_count|]. by intros h' [a|e].
      * apply p_mret. intros h4 Hg4. eapply holds_state_grows; [|exact Hl].
        do 3 (etrans; [eassumption|]). done.
Qed.

(** The reservation held is the candidate's. *)
Definition generation_held (h : history) (s : attempt_state) : Prop :=
  holds_state GENERATION_RESERVED h i id
  ∧ ∃ g, at_generation s = Some g ∧ hgr_candidate_id g = id.

Lemma generation_held_grows h h' s :
  grows h h' → generation_held h s → generation_held h' s.
Proof. intros Hg [Hl Hs]. split; [by eapply holds_state_grows|done]. Qed.

Lemma gives_reserve_generation candidate d u s h :
  id = candidate_id candidate →
  gives (reserve_generation candidate d u) s (λ h' _ s', generation_held h' s') h.
Proof.
  intros Hid. apply or_failure_value; [intros h1 h2 a s'; apply generation_held_grows|].
  eapply (gives_bind _ _ _ (λ _ _ _, True)); [by apply p_attempt_now|].
  intros h1 a s1 Hg1 _. destruct (at_count a) as [r|]; [|by apply p_throw].
  eapply (gives_bind _ _ _ (λ h' captured _, ∃ h0, generation_reserved_by h0 h' i r u captured.1)).
  - eapply p_capture; [apply (r_complete_count i)|]. intros h' [[g b]|e]; [by eexists|done].
  - intros h2 [g b] s2 Hg2 Hw. cbn [fst snd] in *.
    eapply (gives_bind _ _ _ (λ h' g' _, g' = g ∧ hgr_candidate_id g = id)).
    + apply p_compute. intros h' _. unfold _validate_generation_reservation.
      destruct (bool_decide_reflect (hgr_candidate_id g = candidate_id candidate)) as [He|];
        [|done]. by destruct (bool_decide _); cbn; rewrite ?Hid.
    + intros h3 g' s3 Hg3 [-> Hgid].
      eapply (gives_bind _ _ _ (λ _ _ s', at_generation s' = Some g)); [by apply p_change|].
      intros h4 _ s4 Hg4 Hs4. destruct b.
      * eapply (gives_bind _ _ _ (λ _ _ _, True)); [|intros; by apply p_throw].
        eapply p_mono; [apply harmless_record_generation|]. by intros h' [x|e].
      * apply p_mret. intros h5 Hg5. assert (grows h2 h5) as Hg by
          (do 2 (etrans; [eassumption|]); done).
        split; [|by exists g].
        destruct Hw as (h0 & doc & rid & Hr & -> & Hsn & _ & Hw%written_since_by).
        exists (generation_reserved doc u rid). split; [|done].
        apply seen_since_seen, ledger_seen_id in Hsn. cbn in Hgid. rewrite Hsn in Hgid. rewrite <-Hgid.
        by eapply written_by_grows.
Qed.

Lemma gives_try {A} (m : attempted A) handler s (P : history → A → attempt_state → Prop) h :
  (∀ h h' a s, grows h h' → P h a s → P h' a s) →
  gives m s P h → (∀ e h' s', gives (handler e) s' P h') →
  gives (try_except m handler) s P h.
Proof.
  intros HP Hm Hh. apply p_try. eapply p_mono; [exact Hm|].
  intros h' [a|e] s' Hg Ha; [|by apply Hh]. intros h2 Hg2. by eapply HP.
Qed.

Lemma fails_generation {A} failure s h (P : history → A → attempt_state → Prop) :
  gives (_fail_generation failure) s P h.
Proof.
  apply gives_harmless; [apply harmless_record_generation|]. intros a h' s'. by apply p_throw.
Qed.

Lemma gives_perform_generation s h :
  generation_held h s →
  gives perform_generation s (λ h' r s', generation_held h' s'
    ∧ normalize_generation_usage r.1 = Ok r.2) h.
Proof.
  intros Hl. unfold perform_generation.
  eapply (gives_bind _ _ _ (λ h' _ s', generation_held h' s')).
  - apply gives_try; [intros; by eapply generation_held_grows|..].
    + eapply p_mono; [by apply licensed_generate_content, Hl|]. intros h' [r|e] s' Hg Hs; [|done].
      destruct Hl as [Hl Hg']. split; [by eapply holds_state_grows|]. by rewrite Hs.
    + intros e h' s'. destruct e; try apply fails_generation.
      apply gives_harmless; [apply harmless_record_generation|]. intros a h2 s2. by apply p_throw.
  - intros h1 response s1 Hg1 Hl1.
    eapply (gives_bind _ _ _ (λ h' u s', generation_held h' s'
      ∧ normalize_generation_usage response = Ok u)).
    + apply gives_try.
      * intros h2 h3 u s2 Hg [Hs Hu]. split; [by eapply generation_held_grows|done].
      * apply p_compute. intros h2 Hg2.
        destruct (normalize_generation_usage response) as [u|e] eqn:Hu; [|done].
        split; [by eapply generation_held_grows|done].
      * intros e h2 s2. apply fails_generation.
    + intros h2 u s2 Hg2 [Hs2 Hu]. apply p_mret. intros h3 Hg3.
      split; [by eapply generation_held_grows|exact Hu].
Qed.

(** The usage is durable, in a document this client wrote. *)
Definition usage_durable (h : history) (u : HostedGenerationUsage) : Prop :=
  ∃ d, ld_state d = GENERATION_RESERVED ∧ written_by h i id (usage_recorded d u).

Lemma usage_durable_grows h h' u : grows h h' → usage_durable h u → usage_durable h' u.
Proof. intros Hg (d & Hs & Hw). exists d. split; [done|by eapply written_by_grows]. Qed.

Lemma gives_record_usage u s h :
  generation_held h s → gives (record_usage u) s (λ h' _ _, usage_durable h' u) h.
Proof.
  intros [_ (g & Hs & Hid)]. apply or_failure_value;
    [intros h1 h2 a s'; apply usage_durable_grows|].
  eapply (gives_bind _ _ _ (λ _ a _, a = s)); [by apply p_attempt_now|].
  intros h1 a s1 Hg1 ->. rewrite Hs.
  eapply (gives_bind _ _ _ (λ h' _ _, usage_durable h' u)).
  - eapply p_capture; [apply (r_record_usage i)|]. intros h' [[[] b]|e] Hg Hr; [|done].
    destruct Hr as (d & Hr & _ & _ & Hw%written_since_by). rewrite Hid in Hw. exists d. split; [|exact Hw].
    apply generation_record_state in Hr as [Hst _]. by apply list_elem_of_singleton in Hst.
  - intros h2 captured s2 Hg2 Hd. eapply (gives_bind _ _ _ (λ _ _ _, True)); [by apply p_change|].
    intros h3 _ s3 Hg3 _. destruct captured.2.
    + apply gives_harmless; [apply harmless_record_generation|]. intros; by apply p_throw.
    + apply p_mret. intros h4 Hg4. eapply usage_durable_grows; [|exact Hd]. by etrans.
Qed.

(** What a dispatch returns was metered first. *)
Definition metered (candidate : HostedCandidateIdentity) (h : history)
  (response : GenerateContentResponse) : Prop :=
  ∃ u, normalize_generation_usage response = Ok u ∧ usage_exceeds candidate u = false
    ∧ usage_durable h u.

Lemma gives_dispatch candidate input context s h :
  id = candidate_id candidate →
  gives (dispatch candidate input context) s (λ h' r _, metered candidate h' r) h.
Proof.
  intros Hid. unfold dispatch.
  apply gives_harmless; [harmless_step|intros s0 h0 s0'].
  apply gives_harmless; [harmless_step|intros _ h1 s1].
  apply gives_harmless; [harmless_step|intros _ h2 s2].
  apply gives_harmless; [harmless_step|intros _ h3 s3].
  apply gives_harmless; [harmless_step|intros _ h4 s4].
  eapply gives_bind; [by apply gives_reserve_count|]. intros h5 [] s5 _ Hl.
  eapply (gives_bind _ _ _ (λ _ _ _, True)).
  { eapply p_mono; [by apply licensed_perform_count|]. by intros h' [u|e]. }
  intros h6 u s6 _ _.
  eapply gives_bind; [by apply gives_reserve_generation|]. intros h7 [] s7 _ Hheld.
  eapply gives_bind; [by apply gives_perform_generation|].
  intros h8 [response usage] s8 _ [Hheld' Hu]. cbn [fst snd] in *.
  eapply gives_bind; [by apply gives_record_usage|]. intros h9 [] s9 Hg9 Hd.
  eapply (gives_bind _ _ _ (λ h' _ _, usage_exceeds candidate usage = false)).
  - destruct (usage_exceeds candidate usage); [apply fails_generation|by apply p_mret].
  - intros h10 _ s10 Hg10 Hx. apply p_mret. intros h11 Hg11.
    exists usage. split_and!; [done..|]. eapply usage_durable_grows; [|exact Hd]. by etrans.
Qed.

Lemma safe_hook_calls candidate input contexts s h :
  id = candidate_id candidate →
  gives (hook_calls candidate input contexts) s (λ _ _ _, True) h.
Proof.
  intros Hid. revert s h. induction contexts as [|context contexts IH]; intros s h; [by apply p_mret|].
  cbn [hook_calls]. eapply (gives_bind _ _ _ (λ _ _ _, True)); [|intros; apply IH].
  apply gives_try; [done| |intros; by apply p_mret].
  eapply gives_bind; [by apply gives_dispatch|]. intros h' a s' _ _. by apply p_mret.
Qed.

Lemma harmless_conclude c ended cleared : harmless (conclude c ended cleared).
Proof.
  assert (∀ turn, harmless (finalize turn)) as Hf by exact harmless_finalize.
  unfold conclude. destruct ended as [turn|e].
  - destruct cleared as [[]|[]]; first [apply Hf|apply harmless_throw|idtac].
    apply harmless_bind; [apply harmless_attempt_now|intros s; apply Hf].
  - destruct e; first [apply harmless_throw|destruct cleared as [[]|[]]];
      first [apply Hf|apply harmless_throw
            |apply harmless_bind; [apply harmless_attempt_now|intros s; apply Hf]].
Qed.

Lemma safe_plan c h :
  id = candidate_id (pc_candidate c) → safely (plan c) (λ _ _, True) h.
Proof.
  intros Hid. unfold plan. apply safe_bind; [apply _|].
  assert (gives (plan_attempt c) new_attempt (λ _ _ _, True) h) as Hp.
  { unfold plan_attempt. eapply (gives_bind _ _ _ (λ _ _ _, True)).
    - apply gives_try; [done| |by intros []; intros; first [apply p_throw|apply p_mret]].
      eapply (gives_bind _ _ _ (λ _ _ _, True)); [|intros; by apply p_mret].
      apply p_act; [done..|]. by intros [a|e].
    - intros h1 b s1 _ _. destruct (negb b); [by apply p_mret|].
      eapply gives_bind; [by apply safe_hook_calls|]. intros h2 _ s2 _ _.
      eapply (gives_bind _ _ _ (λ _ _ _, True)); [by apply p_ask|]. intros h3 ended s3 _ _.
      eapply (gives_bind _ _ _ (λ _ _ _, True)); [by apply p_ask|]. intros h4 cleared s4 _ _.
      eapply p_mono; [apply harmless_conclude|]. by intros h5 [r|e]. }
  eapply safe_mono; [apply _|exact Hp|].
  intros h' [[r s]|e] _ _; [intros h2 _|]; exact I.
Qed.

End licences.
