(* ===== verification/ProviderProperties.v ===== *)
(** The provider allowance of a candidate: what every interleaving of planners and
    ledger calls, every lost acknowledgement, every cancellation and every late
    commit leaves true. *)

From S2P Require Export HostedPlannerFacts.

#[local] Open Scope Z_scope.

(** ** Calls of the ledger *)

Inductive ledger_call :=
  | CallIsAbsent (candidate : HostedCandidateIdentity)
  | CallReserveCount (candidate : HostedCandidateIdentity) (dispatch : HostedProviderDispatch)
  | CallFailCount (reservation : HostedCountReservation) (failure : HostedCountFailure)
  | CallCompleteCount (reservation : HostedCountReservation) (usage : HostedCountTokensUsage)
  | CallFailGeneration (reservation : HostedGenerationReservation)
      (failure : HostedGenerationFailure)
  | CallRecordUsage (reservation : HostedGenerationReservation) (usage : HostedGenerationUsage)
  | CallFinalize (reservation : HostedGenerationReservation) (outcome : HostedPlannerOutcome)
      (output_sha256 reported_model reported_model_raw_sha256 : option string)
  | CallObserve (candidate : HostedCandidateIdentity).

Inductive ledger_reply :=
  | ReplyAbsent (absent : bool)
  | ReplyCount (reservation : HostedCountReservation)
  | ReplyGeneration (reservation : HostedGenerationReservation)
  | ReplyDone
  | ReplyObservation (observation : HostedProviderLedgerObservation).

Section calls.
Context {rt : Runtime} {sec : Security} {fp : FloatParser} {tp : TimeParser}.

Definition run_ledger_call (c : ledger_call) : hosted ledger_reply :=
  match c with
  | CallIsAbsent candidate => b ← ledger_is_absent candidate; mret (ReplyAbsent b)
  | CallReserveCount candidate d => r ← reserve_count_tokens candidate d; mret (ReplyCount r)
  | CallFailCount r failure => fail_count_tokens r failure;; mret ReplyDone
  | CallCompleteCount r usage =>
      g ← complete_count_and_reserve_generation r usage; mret (ReplyGeneration g)
  | CallFailGeneration r failure => fail_generation r failure;; mret ReplyDone
  | CallRecordUsage r usage => record_generation_usage r usage;; mret ReplyDone
  | CallFinalize r outcome output model raw =>
      finalize_generation r outcome output model raw;; mret ReplyDone
  | CallObserve candidate => o ← observe_finalized candidate; mret (ReplyObservation o)
  end.

(** The candidate a call is about. *)
Definition call_candidate (c : ledger_call) : string :=
  match c with
  | CallIsAbsent candidate | CallReserveCount candidate _ | CallObserve candidate =>
      candidate_id candidate
  | CallFailCount r _ | CallCompleteCount r _ => hcr_candidate_id r
  | CallFailGeneration r _ | CallRecordUsage r _ | CallFinalize r _ _ _ _ =>
      hgr_candidate_id r
  end.

(** ** The abstract allowance

    One candidate's allowance is absent, or one document.
    [allowance_reply c before after r] is the reply of the allowance to [c] when it
    goes from [before] to [after]. *)

Definition generation_change (c : ledger_call) (d : ledger_document) : option ledger_document :=
  match c with
  | CallFailGeneration _ failure => Some (generation_failed d failure)
  | CallRecordUsage _ usage => Some (usage_recorded d usage)
  | CallFinalize _ outcome output model raw =>
      Some (generation_finalized d outcome output model raw)
  | _ => None
  end.

(** The reservation's document [d] is one step behind [after]. *)
Definition generation_reply (d : ledger_document) (r : HostedGenerationReservation)
  (c : ledger_call) (after : option ledger_document) : Prop :=
  hgr_candidate_id r = ld_candidate_id d
  ∧ ld_generation_reservation_id d = Some (hgr_reservation_id r)
  ∧ ld_generation_reservation_revision d = Some (hgr_revision r)
  ∧ hgr_dispatch r = ld_dispatch d
  ∧ after = generation_change c d
  ∧ ∃ d', after = Some d' ∧ ledger_step d d'.

Definition allowance_reply (c : ledger_call) (before after : option ledger_document)
  (reply : ledger_reply) : Prop :=
  match c, before, reply with
  | CallReserveCount candidate dispatch, None, ReplyCount r =>
      ∃ id, after = Some (reserved_record candidate dispatch id)
        ∧ r = count_reservation_of (reserved_record candidate dispatch id)
  | CallFailCount r failure, Some d, ReplyDone =>
      ld_state d = COUNT_RESERVED ∧ r = count_reservation_of d
      ∧ after = Some (count_failed d failure)
  | CallCompleteCount r usage, Some d, ReplyGeneration g =>
      ld_state d = COUNT_RESERVED ∧ r = count_reservation_of d
      ∧ ∃ id, after = Some (generation_reserved d usage id)
          ∧ g = generation_reservation_of (generation_reserved d usage id) id
  | CallFailGeneration r _, Some d, ReplyDone | CallRecordUsage r _, Some d, ReplyDone
  | CallFinalize r _ _ _ _, Some d, ReplyDone => generation_reply d r c after
  | CallObserve candidate, Some d, ReplyObservation o =>
      after = Some d ∧ observed_fields d candidate = Some o
  | CallIsAbsent candidate, Some d, ReplyAbsent false =>
      after = Some d ∧ ld_candidate_id d = candidate_id candidate
  | CallIsAbsent _, None, ReplyAbsent true => after = None
  | _, _, _ => False
  end.

End calls.

Section facts.
Context {rt : Runtime} {sec : Security} {fp : FloatParser} {gt : GenaiTypes}.
Context {tp : TimeParser} {tl : TimeParserLaws tp}.
Context {fs : Firestore} {laws : FirestoreLaws fs}.

Lemma written_seen h i id d : written_by h i id d → ledger_seen h id d.
Proof. intros (t & data & doc & uuid & Hv & _). by exists t, data. Qed.

(** ** What a finished call has done *)

Lemma replaced_effect h0 h i id d d' :
  replaced_by h0 h i id d d' → took_effect h0 h i id (Some d) (Some d').
Proof. intros (Hs & Hst & Hw). split; [done|by right]. Qed.

Lemma seen_effect h0 h i id d : seen_since h0 h id d → took_effect h0 h i id (Some d) (Some d).
Proof. intros Hs. split; [done|by left]. Qed.

(** What a call found and left, and its reply. *)
Definition call_effect {B} (c : ledger_call) (f : B → ledger_reply) (i : nat) (h0 h : history)
  (b : B) : Prop :=
  ∃ before after, took_effect h0 h i (call_candidate c) before after
    ∧ allowance_reply c before after (f b).

Lemma r_reply {B} (m : hosted B) (f : B → ledger_reply) c i h :
  returns m (call_effect c f i h) h → returns (b ← m; mret (f b)) (call_effect c id i h) h.
Proof.
  intros Hm. apply r_bind. eapply r_mono; [exact Hm|]. intros h1 b _ (before & after & Ht & Hr).
  apply r_ret. intros h2 Hg. exists before, after. split; [by eapply took_grows|exact Hr].
Qed.

Lemma generation_effect c r states d d' h0 h i :
  _generation_record d r states = Ok tt → call_candidate c = hgr_candidate_id r →
  generation_change c d = Some d' → replaced_by h0 h i (hgr_candidate_id r) d d' →
  took_effect h0 h i (call_candidate c) (Some d) (Some d')
  ∧ generation_reply d r c (Some d').
Proof.
  intros (_ & Hc & Hi & Hrev & Hd)%generation_record_state -> Hch Hr.
  split; [by apply replaced_effect|]. destruct Hr as (_ & Hst & _).
  split_and!; [done..|by exists d'].
Qed.

Lemma r_ledger_call {absent : AbsentReads fs} i c h :
  returns (run_ledger_call c) (call_effect c id i h) h.
Proof.
  destruct c as [cand|cand disp|r failure|r usage|r failure|r usage|r o a b e|cand];
    cbn [run_ledger_call]; apply r_reply; unfold call_effect.
  - eapply r_mono; [apply r_is_absent|]. intros h' [] _ Hb.
    + exists None, None. split; [exact (Hb absent)|done].
    + destruct Hb as (d & Hs). exists (Some d), (Some d). split; [by apply seen_effect|].
      split; [done|]. exact (ledger_seen_id _ _ _ (seen_since_seen _ _ _ _ Hs)).
  - eapply r_mono; [apply (r_reserve i)|]. intros h' res _ (rid & Heq & Hw).
    exists None, (Some (reserved_record cand disp rid)).
    split; [split; [by eexists _, _, _|done]|by exists rid].
  - eapply r_mono; [apply (r_fail_count i)|]. intros h' _ _ (d & Hr & Hd).
    exists (Some d), (Some (count_failed d failure)). split; [by apply replaced_effect|].
    by apply count_record_state in Hr as [Hst Heq].
  - eapply r_mono; [apply (r_complete_count i)|]. intros h' g _ (d & gid & Hr & Heq' & Hd).
    exists (Some d), (Some (generation_reserved d usage gid)).
    split; [by apply replaced_effect|]. apply count_record_state in Hr as [Hst Heq].
    split_and!; [done..|by exists gid].
  - eapply r_mono; [apply (r_fail_generation i)|]. intros h' _ _ (d & Hr & Hd).
    exists (Some d), (Some (generation_failed d failure)). by eapply generation_effect.
  - eapply r_mono; [apply (r_record_usage i)|]. intros h' _ _ (d & Hr & Hd).
    exists (Some d), (Some (usage_recorded d usage)). by eapply generation_effect.
  - eapply r_mono; [apply (r_finalize i)|]. intros h' _ _ (d & Hr & Hd).
    exists (Some d), (Some (generation_finalized d o a b e)). by eapply generation_effect.
  - eapply r_mono; [apply r_observe|]. intros h' ob _ (d & Hs & Hob).
    exists (Some d), (Some d). split; [by apply seen_effect|done].
Qed.

(** ** One client holds a state *)

Lemma state_held_once state s h i j id :
  match state with COUNT_RESERVED | GENERATION_RESERVED => True | _ => False end →
  chained s h → holds_state state h i id → holds_state state h j id → i = j.
Proof.
  intros Hst Hc (a & Hi & Ha) (b & Hj & Hb).
  assert (∀ h i d, written_by h i id d → construct_ledger d = Ok tt) as Hok.
  { intros h' i' d Hw. by eapply ledger_seen_valid, written_seen. }
  eapply (written_once (λ d, ld_state d = state ∧ construct_ledger d = Ok tt) s h);
    [exact Hc| |exact Hi|exact Hj|by eauto..].
  intros d d' [Hd Hvd] [Hd' Hvd'] Hsteps%steps_revision.
  apply state_revision in Hvd, Hvd'. rewrite Hd in Hvd. rewrite Hd' in Hvd'.
  destruct state; (done || lia).
Qed.

(** ** Recorded usage stays *)

Lemma recorded_usage_stays d u d' :
  ld_state d = GENERATION_RESERVED → rtc ledger_step (usage_recorded d u) d' →
  ld_generation_usage d' = Some u.
Proof.
  intros _ Hr.
  assert (∀ e e', rtc ledger_step e e' →
    match ld_state e with COUNT_RESERVED | GENERATION_RESERVED => False | _ => True end →
    ld_generation_usage e' = ld_generation_usage e) as Hgo; [|by rewrite (Hgo _ _ Hr)].
  clear. intros e e'. induction 1 as [e|e e1 e' Hs _ IH]; [done|]. intros He.
  destruct Hs as [e f Hst|e v id Hst|e f Hst|e v Hst|e o a b c Hst]; rewrite ?Hst in He;
    try done; by rewrite IH.
Qed.

(** The stored document of a path some version of which is known. *)
Lemma seen_stored s h id d :
  chained s h → ledger_seen h id d →
  ∃ data t payload d', stored s (path_text C_PROVIDER_CANDIDATE id) = Some (data, t)
    ∧ data !! "canonical_payload" = Some (JStr payload) ∧ decode_contract payload = Ok d'
    ∧ rtc ledger_step d d'.
Proof.
  intros Hc (t0 & data0 & [Hv0 _] & He0 & _).
  destruct (chain_latest _ _ Hc _ _ _ Hv0) as (data & t & Hst & Hle).
  pose proof (chain_current _ _ Hc _ _ _ Hst) as Hv.
  destruct (chain_origin _ _ Hc _ _ _ Hv) as (c & Hcr & Hr).
  destruct (version_record _ _ _ Hcr Hr) as (a0 & a & _ & He & _ & _).
  pose proof (encodes_valid _ _ _ He) as Ha. pose proof He as (doc & Hdata & _ & _ & _ & Hb & _).
  exists data, t, (canonical_json_bytes a), a.
  split; [exact Hst|]. split; [|split; [by apply ledger_decodes|]].
  - rewrite Hdata. change (canonical_json_bytes a) with (sr_bytes a). rewrite <-Hb.
    by apply (data_lookup doc 5).
  - destruct (decide (t0 = t)) as [->|Hne].
    + rewrite (chain_one _ _ Hc _ _ _ _ Hv0 Hv) in He0. by rewrite (encodes_inj _ _ _ _ _ He0 He).
    + apply tc_rtc. change ledger_step with (sr_step (A := ledger_document)).
      eapply versions_steps; [|exact He0|exact He].
      eapply (chain_order _ _ Hc); [exact Hv0|exact Hv|lia].
Qed.

End facts.

(** ** Provider calls of a run *)

Section runs.
Context {rt : Runtime} {sec : Security}.

(** The event was performed for the candidate [id]. *)
Definition for_candidate (calls : list plan_call) (id : string) (e : event planner_op) : bool :=
  match calls !! event_client e with
  | Some c => bool_decide (candidate_id (pc_candidate c) = id)
  | None => false
  end.

(** The provider calls of a kind made for the candidate [id]. *)
Definition provider_calls (kind : ∀ R, planner_op R → bool) (calls : list plan_call)
  (id : string) (trace : list (event planner_op)) : list (event planner_op) :=
  List.filter (λ e, of_kind kind e && for_candidate calls id e) trace.

End runs.

(** Events of one client only, of which each client has one at most. *)
Lemma at_most_one {E} (p q : event E → bool) trace :
  (∀ e e', e ∈ List.filter p trace → e' ∈ List.filter p trace → event_client e = event_client e') →
  (∀ e, p e = true → q e = true) →
  (∀ i, (length (List.filter (λ e, q e && (event_client e =? i)%nat) trace) ≤ 1)%nat) →
  (length (List.filter p trace) ≤ 1)%nat.
Proof.
  intros Hone Hpq Hq. destruct (List.filter p trace) as [|e l] eqn:He; [cbn; lia|].
  rewrite <-He. etrans; [|apply (Hq (event_client e))].
  assert (∀ l', (∀ x, x ∈ List.filter p l' → event_client x = event_client e) →
    (length (List.filter p l')
     ≤ length (List.filter (λ x, q x && (event_client x =? event_client e)%nat) l'))%nat) as Hle.
  { induction l' as [|x l' IH]; intros Hx; [done|]. cbn [List.filter] in *.
    destruct (p x) eqn:Hp.
    - rewrite (Hpq x Hp), (Hx x) by by left. rewrite Nat.eqb_refl. cbn [andb length].
      apply le_n_S, IH. intros y Hy. apply Hx. by right.
    - specialize (IH Hx). destruct (_ && _); cbn [length]; lia. }
  apply Hle. intros x Hx. apply Hone; rewrite ?He in *; [done|by left].
Qed.

Section properties.
Context {rt : Runtime} {sec : Security} {fp : FloatParser} {gt : GenaiTypes}.
Context {tp : TimeParser} {tl : TimeParserLaws tp}.
Context {fs : Firestore} {laws : FirestoreLaws fs}.

(** The calls of a run were licensed in one history. *)
Lemma planners_licensed calls s0 trace s ps :
  fresh_database s0 →
  pool_run planner_respond background (s0, map plan calls) trace (s, ps) →
  ∃ h, chained s h ∧ ∀ e, e ∈ trace → ∃ c, calls !! event_client e = Some c
    ∧ licensed (λ i h, planner_licence i (candidate_id (pc_candidate c)) h) h e.
Proof.
  intros Hf Hrun.
  set (licence := λ i h R (op : planner_op R), ∃ c, calls !! i = Some c
    ∧ planner_licence i (candidate_id (pc_candidate c)) h R op).
  assert (∃ h, chained s h ∧ Forall (licensed licence h) trace) as (h & Hc & Hl).
  { edestruct (run_licensed (X := exception) (A := AdvisoryPlannerTurn) planner_respond
      background grows chained (λ _ _ _, True) licence) as (h & _ & Hc & Hl & _);
      [| |exact Hrun|..|by exists h].
    - intros i h h' R op Hg (c & Hc & Hl). exists c. split; [done|].
      by eapply planner_licence_grows.
    - exact background_chained.
    - by apply fresh_chained.
    - intros i m Hm. cbn [snd] in Hm. rewrite list_lookup_fmap in Hm.
      apply fmap_Some in Hm as (c & Hi & ->).
      pose proof (safe_plan i (candidate_id (pc_candidate c)) c no_history eq_refl) as Hs.
      clear -Hs Hi. revert Hs. generalize no_history. generalize (plan c).
      intros m. induction m as [r|R op k IH]; intros h; [done|]. intros [Hl Hk].
      split; [intros h' Hg; exists c; by split; [|apply Hl]|].
      intros h' w r w' Hg Hi' Hr. destruct (Hk h' w r w' Hg Hi' Hr) as (h2 & ? & ? & ?).
      exists h2. split_and!; [done..|by apply IH]. }
  exists h. split; [exact Hc|]. intros e He. rewrite Forall_forall in Hl. specialize (Hl e He).
  destruct e as [i R op]. destruct Hl as (c & Hi & Hl). by exists c.
Qed.

Lemma calls_at_most_one kind state calls s0 trace s ps id nc ng :
  (∀ R (op : planner_op R),
    match op with RawCountTokens | RawGenerateContent => True | _ => kind R op = false end) →
  spends kind nc (act RawCountTokens) → spends kind ng (act RawGenerateContent) →
  (nc + ng = 1)%nat →
  match state with COUNT_RESERVED | GENERATION_RESERVED => True | _ => False end →
  (∀ i id h R (op : planner_op R), kind R op = true → planner_licence i id h R op →
     holds_state state h i id) →
  fresh_database s0 →
  pool_run planner_respond background (s0, map plan calls) trace (s, ps) →
  (length (provider_calls kind calls id trace) ≤ 1)%nat.
Proof.
  intros Hkind Hc Hg Hsum Hst Hlic Hf Hrun.
  destruct (planners_licensed _ _ _ _ _ Hf Hrun) as (h & Hch & Hl).
  unfold provider_calls. apply (at_most_one _ (of_kind kind)).
  - assert (∀ e, e ∈ List.filter (λ e, of_kind kind e && for_candidate calls id e) trace →
      holds_state state h (event_client e) id) as Hholds.
    { intros e [He Hk]%list_elem_of_In%filter_In. apply andb_true_iff in Hk as [Hk Hcand].
      apply list_elem_of_In in He. destruct (Hl e He) as (c & Hi & Hlc).
      unfold for_candidate in Hcand. rewrite Hi in Hcand. apply bool_decide_eq_true in Hcand.
      destruct e as [i R op]. cbn in *. rewrite <-Hcand. by eapply Hlic. }
    intros e e' He He'. exact (state_held_once state s h _ _ id Hst Hch (Hholds e He) (Hholds e' He')).
  - by intros e [? _]%andb_true_iff.
  - intros i. destruct (calls !! i) as [c|] eqn:Hi.
    + eapply (run_at_most planner_respond background kind _ _ _ _ 1 (plan c) (λ _ _, True));
        [exact Hrun|cbn [snd]; rewrite list_lookup_fmap, Hi; reflexivity|].
      rewrite <-Hsum. by apply at_most_plan.
    + assert (List.filter (λ e, of_kind kind e && (event_client e =? i)%nat) trace = []) as ->;
        [|cbn; lia].
      destruct (List.filter _ trace) as [|e l] eqn:He; [done|].
      assert (e ∈ List.filter (λ e, of_kind kind e && (event_client e =? i)%nat) trace) as Hin
        by (rewrite He; by left).
      apply list_elem_of_In, filter_In in Hin as [Hin [_ Hei%Nat.eqb_eq]%andb_true_iff].
      apply list_elem_of_In in Hin. destruct (Hl e Hin) as (c & Hc' & _). congruence.
Qed.

(** A dispatch by itself, from a new attempt. *)
Record dispatch_call := {
  dl_candidate : HostedCandidateIdentity;
  dl_input_sha256 : string;
  dl_context : dispatch_context;
}.
Definition run_dispatch (c : dispatch_call) : planned GenerateContentResponse :=
  r ← dispatch (dl_candidate c) (dl_input_sha256 c) (dl_context c) new_attempt; lift r.1.

Lemma dispatches_metered calls s0 trace s ps i c response :
  fresh_database s0 →
  pool_run planner_respond background (s0, map run_dispatch calls) trace (s, ps) →
  calls !! i = Some c → ps !! i = Some (Done (Ok response)) →
  ∃ h, chained s h ∧ metered i (candidate_id (dl_candidate c)) (dl_candidate c) h response.
Proof.
  intros Hf Hrun Hi Hd.
  set (Q := λ i h (r : result exception GenerateContentResponse), ∀ c, calls !! i = Some c →
    match r with
    | Ok response => ∀ h', grows h h' →
        metered i (candidate_id (dl_candidate c)) (dl_candidate c) h' response
    | Raise _ => True end).
  assert (∃ h, chained s h ∧ ∀ i m, ps !! i = Some m →
    safe planner_respond grows chained (λ _ _ _, True) m (Q i) h) as (h & Hc & Hs).
  { edestruct (run_licensed (X := exception) (A := GenerateContentResponse) planner_respond
      background grows chained Q (λ _ _ _ _, True)) as (h & _ & Hc & _ & Hs);
      [done|exact background_chained|exact Hrun|by apply fresh_chained| |by exists h].
    intros j m Hm. cbn [snd] in Hm. rewrite list_lookup_fmap in Hm.
    apply fmap_Some in Hm as (c' & Hj & ->).
    assert (safe planner_respond grows chained
      (planner_licence j (candidate_id (dl_candidate c'))) (run_dispatch c') (Q j) no_history) as Hs.
    { unfold run_dispatch. apply safe_bind; [apply _|].
      eapply safe_mono; [apply _|by apply gives_dispatch|].
      intros h [[[a|e] s']|e] _ Hm; [|by intros h' _ c2 _|done].
      intros h' Hg c2 Hc2 h2 Hg2. replace c2 with c' by congruence. apply Hm. by etrans. }
    revert Hs. generalize no_history. generalize (run_dispatch c'). clear.
    intros m. induction m as [r|R op k IH]; intros h; [done|]. intros [_ Hk]. split; [done|].
    intros h' w r w' Hg Hi Hr. destruct (Hk h' w r w' Hg Hi Hr) as (h2 & ? & ? & ?).
    exists h2. split_and!; [done..|by apply IH]. }
  exists h. split; [exact Hc|]. by apply (Hs i _ Hd h ltac:(reflexivity) c Hi).
Qed.

End properties.

(** * Properties *)

Section theorems.
Context {rt : Runtime} {sec : Security} {fp : FloatParser} {gt : GenaiTypes}.
Context {tp : TimeParser} {tl : TimeParserLaws tp}.
Context {fs : Firestore} {laws : FirestoreLaws fs}.

(** C13: a candidate is billed once.  However many planners run for a candidate,
    however often each ADK planner calls its hook, however their steps interleave,
    whichever commits contend, lose their acknowledgement or are applied late, and
    whoever is cancelled, the provider receives at most one count and at most one
    generation for the candidate. *)
Theorem candidate_billed_once calls s0 trace s ps id :
  fresh_database s0 →
  pool_run planner_respond background (s0, map plan calls) trace (s, ps) →
  (length (provider_calls is_count calls id trace) ≤ 1)%nat
  ∧ (length (provider_calls is_generation calls id trace) ≤ 1)%nat.
Proof.
  intros Hf Hrun. split.
  - apply (calls_at_most_one is_count COUNT_RESERVED calls s0 trace s ps id 1 0);
      [by intros R []|by apply spends_act_call|by apply spends_act|done|done
      |by intros i id' h R []|done|done].
  - apply (calls_at_most_one is_generation GENERATION_RESERVED calls s0 trace s ps id 0 1);
      [by intros R []|by apply spends_act|by apply spends_act_call|done|done
      |by intros i id' h R []|done|done].
Qed.

(** C14: no answer before its bill.  A response a dispatch hands to the planner
    carries a complete usage within the candidate's limits, and the stored
    document of the candidate records exactly that usage, then and ever after. *)
Theorem response_metered_first calls s0 trace s ps i c response :
  fresh_database s0 →
  pool_run planner_respond background (s0, map run_dispatch calls) trace (s, ps) →
  calls !! i = Some c → ps !! i = Some (Done (Ok response)) →
  ∃ usage data t payload d,
    normalize_generation_usage response = Ok usage
    ∧ usage_exceeds (dl_candidate c) usage = false
    ∧ stored s (path_text C_PROVIDER_CANDIDATE (candidate_id (dl_candidate c))) = Some (data, t)
    ∧ data !! "canonical_payload" = Some (JStr payload) ∧ decode_contract payload = Ok d
    ∧ ld_generation_usage d = Some usage.
Proof.
  intros Hf Hrun Hi Hd.
  destruct (dispatches_metered _ _ _ _ _ _ _ _ Hf Hrun Hi Hd) as (h & Hc & usage & Hu & Hx & Hw).
  destruct Hw as (d & Hst & Hw). apply written_seen in Hw.
  destruct (seen_stored _ _ _ _ Hc Hw) as (data & t & payload & d' & Hs & Hp & Hdec & Hr).
  exists usage, data, t, payload, d'. split_and!; [done..|]. by eapply recorded_usage_stays.
Qed.

(** C15: the ledger implements the allowance.  Clients make the calls [early] on a
    fresh database and, once it is in the state [s1], the calls [late]; they
    interleave in any way and the service fails in any way, up to the state [s2].
    Each call that returned found its candidate's stored document in one state and
    left it in another, between which the abstract allowance gives that very reply:
    the two differ by one reservation or transition, made by this call alone, or not
    at all.  A late call's first state comes at or after the document stored in [s1];
    the second state of a call that had returned in [s1] comes at or before that
    document, and of every call at or before the document stored in [s2]; and any two
    calls on one candidate take effect one after the other. *)
Theorem ledger_refines_allowance {absent : AbsentReads fs} early late s0 s1 ps1 s2 ps2 :
  fresh_database s0 →
  rtc (pool_step respond background) (s0, map run_ledger_call early) (s1, ps1) →
  rtc (pool_step respond background) (s1, ps1 ++ map run_ledger_call late) (s2, ps2) →
  ∃ before after,
    linear call_candidate allowance_reply early late s1 ps1 s2 ps2 before after.
Proof. apply calls_linear. intros i c h. exact (r_ledger_call i c h). Qed.

End theorems.
