(* ===== verification/FirestoreLab.v ===== *)
(** A concrete Firestore that satisfies [FirestoreLaws], and executable runs of
    a pool against it, for the witnesses of the concurrent properties.

    The service keeps its documents, the time of its last commit and a script
    of faults: a commit may be acknowledged, lose its acknowledgement after it
    was applied, be refused, or be left to be applied later. *)

From S2P Require Export FirestoreService.

#[local] Open Scope Z_scope.

Inductive fault := Acknowledged | LostAcknowledgement | Refused | Late.

Record lab_state := {
  ls_documents : gmap string (document_data * Z);
  ls_time : Z;
  ls_uuids : nat;
  ls_faults : list fault;
  ls_pending : list (list write);
}.

(** ** The service *)

(** A write may be applied at the time [t]. *)
Definition write_admitted (db : gmap string (document_data * Z)) (t : Z) (w : write) : bool :=
  match w, db !! write_path w with
  | CreateWrite _ _, None => true
  | UpdateWrite _ _ t0, Some (_, t1) => (t0 =? t1) && (t1 <? t)
  | _, _ => false
  end.

Definition batch_result (db : gmap string (document_data * Z)) (t : Z) (ws : list write)
  : gmap string (document_data * Z) :=
  foldr (λ w db', <[write_path w := (write_result (db !! write_path w) w, t)]> db') db ws.

Definition admitted (s : lab_state) (ws : list write) : bool :=
  bool_decide (NoDup (map write_path ws))
  && forallb (write_admitted (ls_documents s) (ls_time s + 1)) ws.

Definition committed (s : lab_state) (ws : list write) : lab_state :=
  {| ls_documents := batch_result (ls_documents s) (ls_time s + 1) ws;
     ls_time := ls_time s + 1; ls_uuids := ls_uuids s; ls_faults := tail (ls_faults s);
     ls_pending := ls_pending s |}.
Definition after_fault (s : lab_state) (late : list (list write)) : lab_state :=
  {| ls_documents := ls_documents s; ls_time := ls_time s; ls_uuids := ls_uuids s;
     ls_faults := tail (ls_faults s); ls_pending := late ++ ls_pending s |}.

Definition commit_response (s : lab_state) (ws : list write)
  : result exception (list provider_time) * lab_state :=
  match default Acknowledged (head (ls_faults s)), admitted s ws with
  | Refused, _ => (Raise ProviderError, after_fault s [])
  | Late, _ => (Raise ProviderError, after_fault s
      (if bool_decide (NoDup (map write_path ws)) then [ws] else []))
  | _, false => (Raise ContentionError, after_fault s [])
  | Acknowledged, true =>
      (Ok (map AwareTime (replicate (length ws) (ls_time s + 1))), committed s ws)
  | LostAcknowledgement, true => (Raise ProviderError, committed s ws)
  end.

Definition uuid_of (n : nat) : string := pretty n.

Definition document_snapshot (s : lab_state) (path : string) : provider_snapshot :=
  match ls_documents s !! path with
  | Some (d, t) => {| ps_reference_path := path; ps_exists := true;
      ps_read_time := AwareTime (ls_time s); ps_data := Some d; ps_update_time := AwareTime t |}
  | None => {| ps_reference_path := path; ps_exists := false;
      ps_read_time := AwareTime (ls_time s); ps_data := None; ps_update_time := NoTime |}
  end.

Definition serve {R} (s : lab_state) (op : hosted_op R) : R * lab_state :=
  match op with
  | AcquireClient => (Ok tt, s)
  | MakeReference collection key => (Ok (collection +:+ "/" +:+ key), s)
  | NewBatch => (Ok tt, s)
  | StageWrite _ => (Ok tt, s)
  | GetDocument path => (Ok (document_snapshot s path), s)
  | CommitBatch ws => commit_response s ws
  | NewUuid => (uuid_of (ls_uuids s),
      {| ls_documents := ls_documents s; ls_time := ls_time s; ls_uuids := S (ls_uuids s);
         ls_faults := ls_faults s; ls_pending := ls_pending s |})
  | ReadClock => (Some (ls_time s), s)
  | NewClaimId => ("claim-lab", s)
  end.

(** A late batch is applied when it still may be. *)
Definition settle (s : lab_state) : option lab_state :=
  match ls_pending s with
  | [] => None
  | ws :: rest =>
      let s' := if admitted s ws then committed s ws else s in
      Some {| ls_documents := ls_documents s'; ls_time := ls_time s';
              ls_uuids := ls_uuids s'; ls_faults := ls_faults s'; ls_pending := rest |}
  end.

#[export] Instance lab_firestore : Firestore :=
  {| fs_state := lab_state;
     stored s p := ls_documents s !! p;
     pending s ws := ws ∈ ls_pending s;
     used_ids s id := ∃ n, (n < ls_uuids s)%nat ∧ id = uuid_of n;
     respond R s op r s' := serve s op = (r, s');
     background s s' := settle s = Some s' |}.

(** ** Its laws *)

Lemma batch_result_elsewhere db t ws p :
  p ∉ map write_path ws → batch_result db t ws !! p = db !! p.
Proof.
  induction ws as [|w ws IH]; [done|]. cbn. intros [Hne Hin]%not_elem_of_cons.
  rewrite lookup_insert_ne by done. by apply IH.
Qed.

Lemma batch_result_at db t ws w :
  NoDup (map write_path ws) → w ∈ ws →
  batch_result db t ws !! write_path w = Some (write_result (db !! write_path w) w, t).
Proof.
  induction ws as [|v ws IH]; [by intros _ ?%not_elem_of_nil|].
  cbn. intros [Hv Hn]%NoDup_cons [->|Hw]%elem_of_cons; [by rewrite lookup_insert_eq|].
  rewrite lookup_insert_ne; [by apply IH|]. intros Heq. apply Hv. rewrite Heq.
  apply list_elem_of_fmap. by exists w.
Qed.

Lemma committed_applied (s : lab_state) ws :
  admitted s ws = true →
  applied (fs := lab_firestore) ws (replicate (length ws) (ls_time s + 1)) s (committed s ws).
Proof.
  intros [Hn%bool_decide_eq_true Hall]%andb_true_iff. split.
  - apply Forall2_same_length_lookup. split; [by rewrite length_replicate|].
    intros i w t Hw Ht. apply lookup_replicate in Ht as [-> _].
    apply list_elem_of_lookup_2 in Hw.
    rewrite forallb_forall in Hall. specialize (Hall w ltac:(by apply list_elem_of_In)).
    cbn. rewrite batch_result_at by done. unfold write_admitted in Hall.
    destruct w as [p d|p d t0]; cbn in *.
    + destruct (ls_documents s !! p); [done|]. split_and!; done.
    + destruct (ls_documents s !! p) as [[d1 t1]|]; [|done]. bool_simpl. subst t1.
      split_and!; [by exists d1|done|]. intros d0 t1 [= <- <-]. lia.
  - intros p Hp. by apply batch_result_elsewhere.
Qed.

Lemma aware_inj l k : map AwareTime l = map AwareTime k → l = k.
Proof.
  revert k. induction l as [|t l IH]; intros [|u k]; try done.
  cbn. intros [= -> H]. by rewrite (IH k H).
Qed.

Lemma serve_local {R} (s : lab_state) (op : hosted_op R) :
  local_op op = true → (serve s op).2 = s.
Proof. by destruct op. Qed.

#[export] Instance lab_laws : FirestoreLaws lab_firestore.
Proof.
  split.
  - intros R op s r s' Hr Hop. pose proof (serve_local s op Hop) as Hs.
    cbn in Hr. rewrite Hr in Hs. cbn in Hs. subst s'. by split.
  - intros s path snap s' Hr d t He Hd Ht Hp. cbn in Hr. injection Hr as <- _.
    unfold document_snapshot in *. cbn. destruct (ls_documents s !! path) as [[d0 t0]|];
      cbn in *; congruence.
  - intros s id s' Hr. cbn in Hr. injection Hr as <- <-. split.
    + split; [done..|]. intros id (n & Hn & ->). exists n. cbn. split; [lia|done].
    + split; [|exists (ls_uuids s); cbn; split; [lia|done]].
      intros (n & Hn & Heq). apply (inj pretty) in Heq. lia.
  - intros s ws rs s' Hr Hn. cbn in Hr. unfold commit_response in Hr.
    destruct (default _ _), (admitted s ws) eqn:Ha; try discriminate Hr.
    injection Hr as <- <-. exists (replicate (length ws) (ls_time s + 1)).
    split; [by apply committed_applied|]. split.
    + split; [intros ws'; by left|done].
    + intros ts Hts. symmetry. by apply aware_inj.
  - intros s ws s' Hr. cbn in Hr. unfold commit_response in Hr.
    destruct (default _ _), (admitted s ws) eqn:Ha; try discriminate Hr;
      injection Hr as <-; by split.
  - intros s ws e s' Hr Hn. cbn in Hr. unfold commit_response in Hr.
    assert (pending_from (fs := lab_firestore) (λ ws', ws' = ws) s (after_fault s [])
      ∧ ∀ p, stored (Firestore := lab_firestore) (after_fault s []) p
          = stored (Firestore := lab_firestore) s p) as [Hp Hs].
    { split; [|done]. split; [intros ws' Hws'; by left|done]. }
    destruct (default _ _), (admitted s ws) eqn:Ha; try discriminate Hr;
      injection Hr as <- <-; try (split; [exact Hp|by left]).
    + split; [split; [intros ws'; by left|done]|]. right.
      eexists. by apply committed_applied.
    + rewrite bool_decide_true by done. split; [|by left]. split; [|done].
      intros ws'. cbn. rewrite elem_of_cons. naive_solver.
    + rewrite bool_decide_true by done. split; [|by left]. split; [|done].
      intros ws'. cbn. rewrite elem_of_cons. naive_solver.
  - intros s s' Hb. cbn in Hb. unfold settle in Hb.
    destruct (ls_pending s) as [|ws rest] eqn:Hp; [discriminate Hb|]. injection Hb as <-.
    assert (∀ ws', ws' ∈ rest → ws' ∈ ls_pending s) as Hrest.
    { intros ws' Hin. rewrite Hp. by right. }
    destruct (admitted s ws) eqn:Ha; (split; [split; [intros ws'; cbn; left; by apply Hrest|done]|]).
    + right. exists ws, (replicate (length ws) (ls_time s + 1)). cbn. rewrite Hp.
      split; [by left|]. pose proof (committed_applied s ws Ha) as [Hw He]. by split.
    + by left.
Qed.

#[export] Instance lab_absent : AbsentReads lab_firestore.
Proof.
  intros s path snap s' Hr He Hp. cbn in Hr. injection Hr as <- _.
  unfold document_snapshot in *. cbn. by destruct (ls_documents s !! path) as [[d0 t0]|].
Qed.

(** ** Executable runs *)

Section runs.
Context {A : Type}.

(** Client [i] takes its next step, or the service settles a late batch. *)
Definition run_step (p : lab_state * list (hosted A)) (turn : option nat)
  : lab_state * list (hosted A) :=
  match turn with
  | Some i =>
      match p.2 !! i with
      | Some (Call op k) => let r := serve p.1 op in (r.2, <[i := k r.1]> p.2)
      | _ => p
      end
  | None => match settle p.1 with Some s => (s, p.2) | None => p end
  end.

Definition run_schedule (p : lab_state * list (hosted A)) (turns : list (option nat))
  : lab_state * list (hosted A) := fold_left run_step turns p.

Lemma run_schedule_steps p turns :
  rtc (pool_step (respond (Firestore := lab_firestore)) (background (Firestore := lab_firestore)))
    p (run_schedule p turns).
Proof.
  revert p. induction turns as [|turn turns IH]; intros [s ps]; [done|].
  cbn. etrans; [|apply IH]. unfold run_step. destruct turn as [i|]; cbn.
  - destruct (ps !! i) as [[r|R op k]|] eqn:Hi; try done. apply rtc_once.
    eapply pool_client; [exact Hi|]. cbn. by destruct (serve s op).
  - destruct (settle s) as [s'|] eqn:Hs; [|done]. apply rtc_once. by apply pool_background.
Qed.

End runs.
