(* ===== verification/FirestorePermitWitnesses.v ===== *)
(** A concurrent run of the permit store: an issuance whose acknowledgement is
    lost, two racing claims, two completions, on the database of FirestoreLab.v;
    and the properties of FirestorePermitProperties.v applied to it. *)

From S2P Require Export FirestorePermitProperties FirestoreLab Decoding FirestoreCasFacts.

#[local] Open Scope Z_scope.

(** ** A runtime *)

(** A digest of 64 hexadecimal digits: the length of the text. *)
Fixpoint hex_text (width : nat) (n : N) : string :=
  match width with
  | O => ""
  | S w => hex_digit (N.land n 15) +:+ hex_text w (N.shiftr n 4)
  end.

Definition lab_runtime : Runtime :=
  {| sha256_hex s := hex_text 64 (N.of_nat (String.length s)); float_repr _ := "0.0";
     has_unsafe_category _ := false; pydantic_time := datetime_text;
     str_lower s := s; str_strip s := s |}.
Definition lab_security : Security :=
  {| is_sensitive_key _ := false; contains_sensitive_material _ := false;
     terminal_safe_text s := s; redact_untrusted_text s := s |}.
Definition lab_floats : FloatParser := {| parse_float _ := S754_zero false |}.
#[local] Existing Instance lab_runtime.
#[local] Existing Instance lab_security.
#[local] Existing Instance lab_floats.

(** ** A permit *)

Definition digest_text (c : string) : string := sha256_hex c.
Definition minute : Z := 60 * second_us.
Definition lab_time : datetime := 1717243200 * second_us.

Definition permit_draft (id : string) : ActionPermit :=
  {| permit_id := id; certificate_id := "certificate-1";
     certificate_sha256 := digest_text "certificate"; chain_id := "chain-1";
     source_node_id := "stage"; target_node_id := "promote";
     semantic_action_sha256 := digest_text "action"; action := CONTINUE;
     action_profile_version := "promote-cloud-run-traffic-profile-v1";
     action_policy_version := "v1"; tool_name := "promote-cloud-run-traffic";
     tool_version := "1.0.0"; arguments_sha256 := digest_text "arguments";
     target_sha256 := digest_text "target"; precondition_sha256 := digest_text "precondition";
     issued_at := lab_time; expires_at := lab_time + 10 * minute;
     state := ISSUED; revision := 0; claim_id := None; claimed_at := None;
     completed_at := None; completion_outcome := None; expired_at := None |}.

Definition lab_permit_id : string :=
  match action_permit_id "certificate-1" (action_permit_transition (permit_draft "")) with
  | Ok id => id | Raise _ => "" end.
Definition lab_permit : ActionPermit := permit_draft lab_permit_id.

Definition lab_claim (cid : string) (at_ : datetime) : PermitClaimRequest :=
  {| rq_permit_id := lab_permit_id; rq_claim_id := cid;
     rq_issued_permit_sha256 := canonical_sha256 lab_permit;
     rq_certificate_id := certificate_id lab_permit;
     rq_certificate_sha256 := certificate_sha256 lab_permit;
     rq_chain_id := chain_id lab_permit; rq_source_node_id := source_node_id lab_permit;
     rq_target_node_id := target_node_id lab_permit;
     rq_semantic_action_sha256 := semantic_action_sha256 lab_permit;
     rq_action_profile_version := action_profile_version lab_permit;
     rq_action_policy_version := action_policy_version lab_permit;
     rq_tool_name := tool_name lab_permit; rq_tool_version := tool_version lab_permit;
     rq_arguments_sha256 := arguments_sha256 lab_permit;
     rq_target_sha256 := target_sha256 lab_permit;
     rq_precondition_sha256 := precondition_sha256 lab_permit; rq_requested_at := at_ |}.

Definition lab_claimed : ActionPermit := claimed_copy lab_permit "claim-a" (lab_time + minute).

Definition lab_completion (at_ : datetime) : PermitCompletionRequest :=
  {| cq_permit_id := lab_permit_id; cq_claim_id := "claim-a";
     cq_claimed_permit_sha256 := canonical_sha256 lab_claimed; cq_outcome := SUCCEEDED;
     cq_completed_at := at_ |}.

(** ** A run *)

Definition lab_calls : list permit_call :=
  [CallIssue lab_permit;
   CallClaim (lab_claim "claim-a" (lab_time + minute));
   CallClaim (lab_claim "claim-b" (lab_time + minute));
   CallComplete (lab_completion (lab_time + 2 * minute));
   CallComplete (lab_completion (lab_time + 3 * minute))].

(** The issuance is applied and its acknowledgement lost; a claim is refused
    once and another left to be applied late. *)
Definition lab_start : lab_state :=
  {| ls_documents := ∅; ls_time := 0; ls_uuids := 0;
     ls_faults := [LostAcknowledgement]; ls_pending := [] |}.

Fixpoint turns (n : nat) (l : list (option nat)) : list (option nat) :=
  match n with O => [] | S n' => l ++ turns n' l end.

Definition lab_schedule : list (option nat) :=
  turns 20 [Some 0%nat] ++ turns 40 [Some 1%nat; Some 2%nat] ++ turns 20 [Some 3%nat; Some 4%nat]
  ++ turns 40 [Some 4%nat].

Definition lab_end : lab_state * list (hosted permit_reply) :=
  run_schedule (lab_start, map run_call lab_calls) lab_schedule.

Definition outcome_of (i : nat) : option (result exception permit_reply) :=
  match lab_end.2 !! i with Some (Done r) => Some r | _ => None end.

Lemma outcome_done i r : outcome_of i = Some r → lab_end.2 !! i = Some (Done r).
Proof.
  unfold outcome_of. destruct (lab_end.2 !! i) as [[r'|R op k]|]; [by intros [= ->]|done..].
Qed.

Definition lab_settled : ActionPermit :=
  completed_copy lab_claimed (lab_time + 2 * minute) SUCCEEDED.
Definition lab_path : string := path_text C_ACTION_PERMIT lab_permit_id.

Lemma lab_run :
  rtc (pool_step respond background) (lab_start, map run_call lab_calls)
    (lab_end.1, lab_end.2).
Proof.
  rewrite <-surjective_pairing. apply (run_schedule_steps (lab_start, map run_call lab_calls)).
Qed.

(** How the run ends. *)
Lemma lab_outcomes :
  (map outcome_of (seq 0 5), is_some (ls_documents lab_end.1 !! lab_path)) =
  ([Some (Ok (ReplyPermit lab_permit)); Some (Ok (ReplyPermit lab_claimed));
    Some (Raise (PermitStoreError (PermitClaimDenied lab_permit_id ALREADY_CLAIMED)));
    Some (Ok (ReplyPermit lab_settled));
    Some (Raise (PermitStoreError (PermitCompletionDenied lab_permit_id ALREADY_COMPLETED)))],
   true).
Proof. vm_compute. reflexivity. Qed.

#[local] Opaque lab_end outcome_of.

Lemma map_seq_lookup {A} (f : nat → A) n i r : map f (seq 0 n) !! i = Some r → f i = r.
Proof.
  rewrite list_lookup_fmap. destruct (seq 0 n !! i) as [j|] eqn:Hj; [|done].
  apply lookup_seq in Hj as [-> _]. by intros [= ->].
Qed.

Lemma lab_finished i r :
  [Some (Ok (ReplyPermit lab_permit)); Some (Ok (ReplyPermit lab_claimed));
   Some (Raise (PermitStoreError (PermitClaimDenied lab_permit_id ALREADY_CLAIMED)));
   Some (Ok (ReplyPermit lab_settled));
   Some (Raise (PermitStoreError (PermitCompletionDenied lab_permit_id ALREADY_COMPLETED)))]
    !! i = Some (Some r) → lab_end.2 !! i = Some (Done r).
Proof.
  intros Hi. apply outcome_done, (map_seq_lookup outcome_of 5).
  pose proof (f_equal fst lab_outcomes) as H. cbn [fst] in H. by rewrite H.
Qed.

Lemma lab_stored : ∃ d t, stored lab_end.1 lab_path = Some (d, t).
Proof.
  pose proof (f_equal snd lab_outcomes) as H. cbn [snd] in H.
  apply is_some_true in H as [[d t] H]. by exists d, t.
Qed.

Lemma lab_start_fresh : fresh_database (fs := lab_firestore) lab_start.
Proof. split; [done|]. by intros ws ?%not_elem_of_nil. Qed.

(** ** Witnesses *)

Lemma stored_permit_history_witness :
  ∃ (d : document_data) payload a, d !! "canonical_payload" = Some (JStr payload)
    ∧ decode_contract payload = Ok a ∧ reached a ∧ validate_history a = Ok tt.
Proof.
  destruct lab_stored as (d & t & Hs). exists d.
  exact (stored_permit_history lab_calls lab_start lab_end.1 lab_end.2 lab_permit_id d t
    lab_start_fresh lab_run Hs).
Defined.

Lemma one_claim_succeeds_witness :
  ∃ e, Raise (A := permit_reply)
    (PermitStoreError (PermitClaimDenied lab_permit_id ALREADY_CLAIMED)) = Raise e.
Proof.
  exact (one_claim_succeeds lab_calls lab_start lab_end.1 lab_end.2 1 2 _ _ _ _
    lab_start_fresh lab_run eq_refl eq_refl eq_refl ltac:(done)
    (lab_finished 1 _ eq_refl) (lab_finished 2 _ eq_refl)).
Defined.

Lemma one_completion_succeeds_witness :
  ∃ e, Raise (A := permit_reply)
    (PermitStoreError (PermitCompletionDenied lab_permit_id ALREADY_COMPLETED)) = Raise e.
Proof.
  exact (one_completion_succeeds lab_calls lab_start lab_end.1 lab_end.2 3 4 _ _ _ _
    lab_start_fresh lab_run eq_refl eq_refl eq_refl ltac:(done)
    (lab_finished 3 _ eq_refl) (lab_finished 4 _ eq_refl)).
Defined.

(** The same run, cut when the issuance and the claims have ended: the completions
    are called then. *)
Definition lab_early : list permit_call := firstn 3 lab_calls.
Definition lab_late : list permit_call := skipn 3 lab_calls.
Definition lab_middle : lab_state * list (hosted permit_reply) :=
  run_schedule (lab_start, map run_call lab_early)
    (turns 20 [Some 0%nat] ++ turns 40 [Some 1%nat; Some 2%nat]).
Definition lab_last : lab_state * list (hosted permit_reply) :=
  run_schedule (lab_middle.1, lab_middle.2 ++ map run_call lab_late)
    (turns 20 [Some 3%nat; Some 4%nat] ++ turns 40 [Some 4%nat]).

Definition replies (ps : list (hosted permit_reply)) : list (option permit_reply) :=
  map (λ m, match m with Done (Ok r) => Some r | _ => None end) ps.

Lemma lab_early_run :
  rtc (pool_step respond background) (lab_start, map run_call lab_early)
    (lab_middle.1, lab_middle.2).
Proof.
  rewrite <-(surjective_pairing lab_middle). unfold lab_middle.
  exact (run_schedule_steps (lab_start, map run_call lab_early)
    (turns 20 [Some 0%nat] ++ turns 40 [Some 1%nat; Some 2%nat])).
Qed.

Lemma lab_late_run :
  rtc (pool_step respond background) (lab_middle.1, lab_middle.2 ++ map run_call lab_late)
    (lab_last.1, lab_last.2).
Proof.
  rewrite <-(surjective_pairing lab_last). unfold lab_last.
  exact (run_schedule_steps (lab_middle.1, lab_middle.2 ++ map run_call lab_late)
    (turns 20 [Some 3%nat; Some 4%nat] ++ turns 40 [Some 4%nat])).
Qed.

Lemma lab_replies :
  (replies lab_middle.2, replies lab_last.2)
    = ([Some (ReplyPermit lab_permit); Some (ReplyPermit lab_claimed); None],
       [Some (ReplyPermit lab_permit); Some (ReplyPermit lab_claimed); None;
        Some (ReplyPermit lab_settled); None]).
Proof. vm_compute. reflexivity. Qed.

#[local] Opaque lab_middle lab_last.

Lemma replies_refine_permit_object_witness :
  (replies lab_middle.2, replies lab_last.2)
    = ([Some (ReplyPermit lab_permit); Some (ReplyPermit lab_claimed); None],
       [Some (ReplyPermit lab_permit); Some (ReplyPermit lab_claimed); None;
        Some (ReplyPermit lab_settled); None])
  ∧ ∃ before after, linear call_permit object_replies lab_early lab_late
      lab_middle.1 lab_middle.2 lab_last.1 lab_last.2 before after.
Proof.
  split; [exact lab_replies|].
  exact (replies_refine_permit_object lab_early lab_late lab_start lab_middle.1 lab_middle.2
    lab_last.1 lab_last.2 lab_start_fresh lab_early_run lab_late_run).
Defined.

(** *** A stored aggregate *)

Definition lab_aggregate : permit_aggregate :=
  match issued_aggregate lab_permit with
  | Ok a => a
  | Raise _ => {| ag_permit := lab_permit; ag_audit_events := [] |}
  end.

Definition lab_document : FirestoreCasDocument :=
  {| fd_kind := C_ACTION_PERMIT; fd_logical_id := lab_permit_id; fd_revision := 0;
     fd_mutation_id := "mutation-1"; fd_canonical_payload := canonical_json_bytes lab_aggregate;
     fd_payload_sha256 := sha256_hex (canonical_json_bytes lab_aggregate) |}.

Lemma stored_aggregate_roundtrip_witness :
  _decode_aggregate
    {| sn_collection := C_ACTION_PERMIT; sn_document_key := key_text C_ACTION_PERMIT lab_permit_id;
       sn_document := lab_document; sn_update_time := 1 |} = Ok lab_aggregate.
Proof.
  apply (stored_aggregate_roundtrip lab_aggregate 0 "mutation-1");
    vm_compute; reflexivity.
Defined.

(** *** A canonical payload: keys out of order, an escaped character *)

Definition lab_object : json_object :=
  [("name", JStr (String Ascii.zero "quoted")); ("amount", JInt (-7));
   ("nested", JObj [("b", JArr [JBool true; JNull]); ("a", JStr "")])].

Lemma canonical_payload_roundtrip_witness :
  loads (dumps (JObj lab_object)) = Ok (reload (JObj lab_object))
  ∧ _canonical_payload_text (dumps (JObj lab_object)) = Ok (dumps (JObj lab_object)).
Proof.
  apply (canonical_payload_roundtrip lab_object (dumps (JObj lab_object)));
    [vm_compute; reflexivity..|].
  vm_compute. discriminate.
Defined.
