(* ===== verification/ProviderWitnesses.v ===== *)
(** Planners racing for one candidate on the database of FirestoreLab.v: a lost
    acknowledgement, a hook called twice, a dispatch that is metered; and the
    properties of ProviderProperties.v applied to these runs. *)

From S2P Require Export FirestorePermitWitnesses ProviderProperties.

#[local] Open Scope Z_scope.

#[local] Existing Instance lab_runtime.
#[local] Existing Instance lab_security.
#[local] Existing Instance lab_floats.
Definition lab_genai : GenaiTypes := {| TrafficType_ON_DEMAND := "ON_DEMAND" |}.
#[local] Existing Instance lab_genai.

(** ** A candidate and its request *)

Definition lab_candidate : HostedCandidateIdentity :=
  {| hc_source_revision := String.substring 0 40 (digest_text "revision");
     hc_image_digest := "sha256:" +:+ digest_text "image";
     hc_infrastructure_revision := digest_text "infrastructure";
     hc_semantic_config_sha256 := digest_text "config"; hc_project_id := "project-1";
     hc_vertex_location := "global"; hc_configured_model := "gemini-1";
     hc_prompt_version := "prompt-v1"; hc_prompt_sha256 := digest_text "prompt";
     hc_maximum_output_tokens := 1024 |}.

Definition lab_context : dispatch_context :=
  {| dc_request_byte_count := 512; dc_generation_request_sha256 := digest_text "generate";
     dc_count_request_sha256 := digest_text "count"; dc_count_started := false;
     dc_count_response := None; dc_counted_tokens := None; dc_generation_started := false;
     dc_generation_response := None |}.

Definition lab_metadata : AdvisoryPlannerMetadata :=
  {| md_provider_name := "provider"; md_configured_model := "gemini-1";
     md_reported_model := Some "gemini-1"; md_adk_version := "1.0"; md_genai_version := "1.0";
     md_prompt_version := "prompt-v1"; md_prompt_sha256 := digest_text "prompt";
     md_input_schema_version := "v1"; md_output_schema_version := "v1";
     md_reported_model_raw_sha256 := Some (digest_text "gemini-1") |}.

Definition lab_count_response : CountTokensResponse :=
  {| ct_total_tokens := IntValue 100; ct_cached_content_token_count := NoValue |}.
Definition lab_response : GenerateContentResponse :=
  {| gr_usage_metadata := Some
       {| um_prompt_token_count := IntValue 100; um_candidates_token_count := IntValue 20;
          um_thoughts_token_count := NoValue; um_tool_use_prompt_token_count := NoValue;
          um_cached_content_token_count := NoValue; um_total_token_count := IntValue 120;
          um_traffic_type := EnumValue "ON_DEMAND";
          um_prompt_tokens_details := Details [Some {| mt_modality := EnumValue "TEXT";
            mt_token_count := IntValue 100 |}];
          um_candidates_tokens_details := NoDetails;
          um_tool_use_prompt_tokens_details := NoDetails;
          um_cache_tokens_details := NoDetails |} |}.

Definition lab_turn : AdvisoryPlannerTurn :=
  {| tn_output := Some "{}"; tn_failure := None; tn_metadata := lab_metadata;
     tn_input_sha256 := digest_text "input"; tn_output_sha256 := Some (digest_text "{}");
     tn_usage := Some {| au_prompt_tokens := 100; au_output_tokens := 20;
                         au_total_tokens := 120 |} |}.

(** ** Executable runs with their traces *)

Definition planner_serve {R} (s : lab_state) (op : planner_op R) : R * lab_state :=
  match op with
  | Stored op => serve s op
  | RevalidateRequest => (Ok tt, s)
  | RawCountTokens => (Ok (Some lab_count_response), s)
  | RawGenerateContent => (Ok (Some lab_response), s)
  | WasInterrupted => (false, s)
  | BindHook => (Ok tt, s)
  | PlannerTurn => (Ok lab_turn, s)
  | ClearHook => (Ok true, s)
  end.

Section runs.
Context {A : Type}.

Definition traced_pool : Type := lab_state * list (planned A).

Fixpoint traced_run (p : traced_pool) (turns : list nat)
  : list (event planner_op) * traced_pool :=
  match turns with
  | [] => ([], p)
  | i :: turns' =>
      match p.2 !! i with
      | Some (Call op k) =>
          let r := planner_serve p.1 op in
          let rest := traced_run (r.2, <[i := k r.1]> p.2) turns' in
          (Performed i op :: rest.1, rest.2)
      | _ => traced_run p turns'
      end
  end.

Lemma traced_run_steps p turns :
  pool_run (planner_respond (fs := lab_firestore)) (background (Firestore := lab_firestore))
    p (traced_run p turns).1 (traced_run p turns).2.
Proof.
  revert p. induction turns as [|i turns IH]; intros [s ps]; [constructor|].
  cbn [traced_run snd fst]. destruct (ps !! i) as [[r|R op k]|] eqn:Hi; [apply IH| |apply IH].
  cbn [fst snd]. eapply run_client; [exact Hi| |apply IH]. clear.
  destruct op; try reflexivity. cbn. by destruct (serve s op).
Qed.

End runs.

Fixpoint alternate (n : nat) (l : list nat) : list nat :=
  match n with O => [] | S n' => l ++ alternate n' l end.

Definition fault_start (faults : list fault) : lab_state :=
  {| ls_documents := ∅; ls_time := 0; ls_uuids := 0; ls_faults := faults; ls_pending := [] |}.

Lemma fault_start_fresh faults : fresh_database (fs := lab_firestore) (fault_start faults).
Proof. split; [done|]. by intros ws ?%not_elem_of_nil. Qed.

(** ** Two planners, one of them calling its hook twice *)

Definition lab_plan (contexts : list dispatch_context) : plan_call :=
  {| pc_candidate := lab_candidate; pc_metadata := lab_metadata;
     pc_input_sha256 := digest_text "input"; pc_contexts := contexts |}.
Definition lab_plans : list plan_call := [lab_plan [lab_context; lab_context]; lab_plan [lab_context]].

Definition planners_end : list (event planner_op) * traced_pool :=
  traced_run (fault_start [LostAcknowledgement], map plan lab_plans) (alternate 90 [0; 1]%nat).

(** Both planners end, and one count and one generation were performed: the second
    planner, and the first when it calls its hook again, are refused. *)
Lemma planners_outcome :
  (map (λ m, match m with Done (Ok turn) => Some (tn_failure turn) | _ => None end)
     planners_end.2.2,
   length (provider_calls is_count lab_plans (candidate_id lab_candidate) planners_end.1),
   length (provider_calls is_generation lab_plans (candidate_id lab_candidate) planners_end.1))
  = ([Some None; Some None], 1%nat, 1%nat).
Proof. vm_compute. reflexivity. Qed.

#[local] Opaque planners_end.

Lemma planners_run :
  pool_run (planner_respond (fs := lab_firestore)) (background (Firestore := lab_firestore))
    (fault_start [LostAcknowledgement], map plan lab_plans)
    planners_end.1 (planners_end.2.1, planners_end.2.2).
Proof.
  rewrite <-surjective_pairing.
  exact (traced_run_steps (fault_start [LostAcknowledgement], map plan lab_plans) _).
Qed.

Lemma candidate_billed_once_witness :
  (length (provider_calls is_count lab_plans (candidate_id lab_candidate) planners_end.1) ≤ 1)%nat
  ∧ (length (provider_calls is_generation lab_plans (candidate_id lab_candidate) planners_end.1)
     ≤ 1)%nat.
Proof.
  exact (candidate_billed_once lab_plans _ _ _ _ (candidate_id lab_candidate)
    (fault_start_fresh [LostAcknowledgement]) planners_run).
Defined.

(** ** A dispatch that ends *)

Definition lab_dispatch : dispatch_call :=
  {| dl_candidate := lab_candidate; dl_input_sha256 := digest_text "input";
     dl_context := lab_context |}.
Definition lab_dispatches : list dispatch_call := [lab_dispatch; lab_dispatch].

Definition dispatch_end : list (event planner_op) * traced_pool (A := GenerateContentResponse) :=
  traced_run (fault_start [], map run_dispatch lab_dispatches) (alternate 70 [1; 0]%nat).

Lemma dispatch_outcome :
  map (λ m, match m with Done r => Some r | _ => None end) dispatch_end.2.2
  = [Some (Raise HostedProviderLedgerError); Some (Ok lab_response)].
Proof. vm_compute. reflexivity. Qed.

#[local] Opaque dispatch_end.

Lemma lab_dispatch_run :
  pool_run (planner_respond (fs := lab_firestore)) (background (Firestore := lab_firestore))
    (fault_start [], map run_dispatch lab_dispatches)
    dispatch_end.1 (dispatch_end.2.1, dispatch_end.2.2).
Proof.
  rewrite <-surjective_pairing.
  exact (traced_run_steps (fault_start [], map run_dispatch lab_dispatches) _).
Qed.

Lemma dispatch_done : dispatch_end.2.2 !! 1%nat = Some (Done (Ok lab_response)).
Proof.
  pose proof (f_equal (λ l, l !! 1%nat) dispatch_outcome) as H. cbn beta in H.
  rewrite list_lookup_fmap in H. destruct (dispatch_end.2.2 !! 1%nat) as [[r|R op k]|]; [|done..].
  cbn in H. congruence.
Qed.

Lemma response_metered_first_witness :
  ∃ usage (data : document_data) t payload d,
    normalize_generation_usage lab_response = Ok usage
    ∧ usage_exceeds lab_candidate usage = false
    ∧ ls_documents dispatch_end.2.1 !! path_text C_PROVIDER_CANDIDATE (candidate_id lab_candidate)
      = Some (data, t)
    ∧ data !! "canonical_payload" = Some (JStr payload) ∧ decode_contract payload = Ok d
    ∧ ld_generation_usage d = Some usage.
Proof.
  exact (response_metered_first lab_dispatches _ _ _ _ 1 lab_dispatch lab_response
    (fault_start_fresh []) lab_dispatch_run eq_refl dispatch_done).
Defined.

(** ** Calls of the ledger: two reservations of one candidate *)

Definition lab_sealed : HostedProviderDispatch :=
  {| pd_input_sha256 := digest_text "input"; pd_count_request_sha256 := digest_text "count";
     pd_generation_request_sha256 := digest_text "generate"; pd_request_byte_count := 512 |}.
Definition lab_ledger_calls : list ledger_call :=
  [CallReserveCount lab_candidate lab_sealed; CallReserveCount lab_candidate lab_sealed].

Definition ledger_end : lab_state * list (hosted ledger_reply) :=
  run_schedule (fault_start [Refused], map run_ledger_call lab_ledger_calls)
    (turns 20 [Some 0; Some 1]%nat).

Definition lab_reservation : HostedCountReservation :=
  count_reservation_of (reserved_record lab_candidate lab_sealed "count-1").

(** The count is failed, and the allowance looked for, once the reservations ended. *)
Definition ledger_late : list ledger_call :=
  [CallIsAbsent lab_candidate; CallFailCount lab_reservation Count_TIMEOUT].
Definition ledger_last : lab_state * list (hosted ledger_reply) :=
  run_schedule (ledger_end.1, ledger_end.2 ++ map run_ledger_call ledger_late)
    (turns 20 [Some 2; Some 3]%nat).

Definition results (ps : list (hosted ledger_reply)) : list (option (result exception ledger_reply)) :=
  map (λ m, match m with Done r => Some r | _ => None end) ps.

Lemma ledger_early_run :
  rtc (pool_step (respond (Firestore := lab_firestore)) (background (Firestore := lab_firestore)))
    (fault_start [Refused], map run_ledger_call lab_ledger_calls) (ledger_end.1, ledger_end.2).
Proof.
  rewrite <-surjective_pairing. unfold ledger_end.
  exact (run_schedule_steps (fault_start [Refused], map run_ledger_call lab_ledger_calls)
    (turns 20 [Some 0; Some 1]%nat)).
Qed.

Lemma ledger_late_run :
  rtc (pool_step (respond (Firestore := lab_firestore)) (background (Firestore := lab_firestore)))
    (ledger_end.1, ledger_end.2 ++ map run_ledger_call ledger_late)
    (ledger_last.1, ledger_last.2).
Proof.
  rewrite <-(surjective_pairing ledger_last). unfold ledger_last.
  exact (run_schedule_steps (ledger_end.1, ledger_end.2 ++ map run_ledger_call ledger_late)
    (turns 20 [Some 2; Some 3]%nat)).
Qed.

Lemma ledger_results :
  (results ledger_end.2, results ledger_last.2)
    = ([Some (Raise HostedProviderLedgerError); Some (Ok (ReplyCount lab_reservation))],
       [Some (Raise HostedProviderLedgerError); Some (Ok (ReplyCount lab_reservation));
        Some (Ok (ReplyAbsent false)); Some (Ok ReplyDone)]).
Proof. vm_compute. reflexivity. Qed.

#[local] Opaque ledger_end ledger_last.

Lemma ledger_refines_allowance_witness :
  (results ledger_end.2, results ledger_last.2)
    = ([Some (Raise HostedProviderLedgerError); Some (Ok (ReplyCount lab_reservation))],
       [Some (Raise HostedProviderLedgerError); Some (Ok (ReplyCount lab_reservation));
        Some (Ok (ReplyAbsent false)); Some (Ok ReplyDone)])
  ∧ ∃ before after, linear call_candidate allowance_reply lab_ledger_calls ledger_late
      ledger_end.1 ledger_end.2 ledger_last.1 ledger_last.2 before after.
Proof.
  split; [exact ledger_results|].
  exact (ledger_refines_allowance lab_ledger_calls ledger_late (fault_start [Refused])
    ledger_end.1 ledger_end.2 ledger_last.1 ledger_last.2
    (fault_start_fresh [Refused]) ledger_early_run ledger_late_run).
Defined.
