(* ===== verification/PermitAuthority.v ===== *)
(** Controller-owned issuance and dispatch binding for single-use permits
    (reconcile/controller/permits.py): [PermitAuthority] derives the sole permit
    a verified certificate allows, keeps it in an [ActionPermitStore], and
    claims and completes it around one dispatch.

    The store is an interface: the protocol of reconcile/persistence/permits.py.
    The authority checks everything the store returns.  Decoding the canonical
    bytes of a certificate or of a semantic action is its validation. *)

From S2P Require Export Exceptions PermitCodec RecoveryRules.

#[local] Open Scope Z_scope.

(** [ActionPermitStore] *)
Class ActionPermitStore := {
  store_issue_permit : ActionPermit → hosted ActionPermit;
  store_get_permit : string → hosted ActionPermit;
  store_claim_permit : PermitClaimRequest → hosted ActionPermit;
  store_complete_permit : PermitCompletionRequest → hosted ActionPermit;
}.

(** [_ALLOWED_TRANSITIONS] *)
Definition _ALLOWED_TRANSITIONS : list ((string * PermitAction) * string) :=
  [((STAGE_CLOUD_RUN_REVISION_PROFILE_VERSION, CONTINUE),
     PROMOTE_CLOUD_RUN_TRAFFIC_PROFILE_VERSION);
   ((PROMOTE_CLOUD_RUN_TRAFFIC_PROFILE_VERSION, CONTINUE),
     CREATE_FIRESTORE_RELEASE_RECORD_PROFILE_VERSION);
   ((CREATE_FIRESTORE_RELEASE_RECORD_PROFILE_VERSION, RETRY),
     CREATE_FIRESTORE_RELEASE_RECORD_PROFILE_VERSION)].

Definition refuse {A} (message : string) : result exception A :=
  Raise (PermitAuthorityError message).
Definition refuse_if (guard : bool) (message : string) : result exception unit :=
  reject_if guard (PermitAuthorityError message).

Section authority.
Context {rt : Runtime} {sec : Security}.

(** [_certificate], [_semantic_action] *)
Definition _certificate (value : VerifiedCertificate) : result exception VerifiedCertificate :=
  map_error (λ _, PermitAuthorityError "verified certificate is invalid")
    (model_validate_certificate value).
Definition _semantic_action (value : SemanticActionIdentity)
  : result exception SemanticActionIdentity :=
  map_error (λ _, PermitAuthorityError "dispatch semantic action is invalid")
    (validate_identity value);;
  Ok value.

Definition _target_profile_version (certificate : VerifiedCertificate)
  : result exception string :=
  match vc_transition certificate with
  | None => refuse "certificate does not authorize a transition"
  | Some transition =>
      match dict_get (vc_action_profile_version certificate, ct_action transition)
              _ALLOWED_TRANSITIONS with
      | None => refuse "certificate transition is outside permit policy"
      | Some expected =>
          match filter (λ profile, rp_profile_version profile = expected
                          ∧ rp_tool_name profile = ct_tool_name transition
                          ∧ rp_tool_version profile = ct_tool_version transition)
                  RECOVERY_ACTION_PROFILES with
          | [profile] => Ok (rp_profile_version profile)
          | _ => refuse "certificate transition profile is not exact"
          end
      end
  end.

Definition permit_of (trusted : VerifiedCertificate) (transition : CertifiedTransition)
  (id profile_version : string) : ActionPermit :=
  {| permit_id := id;
     certificate_id := vc_certificate_id trusted;
     certificate_sha256 := canonical_sha256 trusted;
     chain_id := vc_chain_id trusted;
     source_node_id := ct_source_node_id transition;
     target_node_id := ct_target_node_id transition;
     Permit.semantic_action_sha256 := ct_semantic_action_sha256 transition;
     action := ct_action transition;
     action_profile_version := profile_version;
     action_policy_version := vc_action_policy_version trusted;
     tool_name := ct_tool_name transition;
     tool_version := ct_tool_version transition;
     arguments_sha256 := ct_arguments_sha256 transition;
     target_sha256 := ct_target_sha256 transition;
     precondition_sha256 := ct_precondition_sha256 transition;
     issued_at := vc_issued_at trusted;
     expires_at := vc_expires_at trusted;
     state := ISSUED; revision := 0; claim_id := None; claimed_at := None;
     completed_at := None; completion_outcome := None; expired_at := None |}.

Definition action_permit_from_certificate (certificate : VerifiedCertificate)
  : result exception (option ActionPermit) :=
  trusted ← _certificate certificate;
  match vc_transition trusted with
  | None => Ok None
  | Some transition =>
      profile_version ← _target_profile_version trusted;
      id ← checked (action_permit_id (vc_certificate_id trusted) transition);
      let permit := permit_of trusted transition id profile_version in
      checked (construct_permit permit);;
      Ok (Some permit)
  end.

Definition dispatch_arguments_sha256 (arguments : json_object) : result py_error string :=
  payload ← canonical_json_value_bytes (JObj arguments); Ok (sha256_hex payload).
Definition dispatch_precondition_sha256 (precondition : json_object) : result py_error string :=
  payload ← canonical_json_value_bytes (JObj precondition); Ok (sha256_hex payload).

(** [try: ... same_action_permit_authority(...) except (TypeError, ValueError):
    ... = False] *)
Definition same_authority (left right : ActionPermit) : result exception bool :=
  match same_action_permit_authority left right with
  | Ok b => Ok b
  | Raise (TypeError _) | Raise (ValueError _) => Ok false
  | Raise e => Raise (PyError e)
  end.

(** [PermitClaimRequest(...)] and [PermitCompletionRequest(...)] *)
Definition construct_claim_request (rq : PermitClaimRequest) : result py_error unit :=
  for_each validate_Identifier
    [rq_permit_id rq; rq_claim_id rq; rq_certificate_id rq; rq_chain_id rq;
     rq_source_node_id rq; rq_target_node_id rq; rq_action_profile_version rq;
     rq_action_policy_version rq; rq_tool_name rq; rq_tool_version rq];;
  for_each validate_Sha256Digest
    [rq_issued_permit_sha256 rq; rq_certificate_sha256 rq; rq_semantic_action_sha256 rq;
     rq_arguments_sha256 rq; rq_target_sha256 rq; rq_precondition_sha256 rq].
Definition construct_completion_request (cq : PermitCompletionRequest) : result py_error unit :=
  for_each validate_Identifier [cq_permit_id cq; cq_claim_id cq];;
  validate_Sha256Digest (cq_claimed_permit_sha256 cq).

(** ** [PermitAuthority] *)

Context {store : ActionPermitStore}.

Definition _now : hosted datetime :=
  t ← await ReadClock;
  match t with
  | Some t => mret t
  | None => raise (PermitAuthorityError "permit authority clock must be timezone-aware")
  end.

Definition authority_issue_permit (certificate : VerifiedCertificate)
  : hosted (option ActionPermit) :=
  permit ← lift (action_permit_from_certificate certificate);
  match permit with
  | None => mret None
  | Some permit =>
      now ← _now;
      lift (refuse_if ((now <? issued_at permit) || (expires_at permit <=? now))
        "certificate is outside its permit issuance interval");;
      stored ← store_issue_permit permit;
      valid ← lift (same_authority stored permit);
      lift (refuse_if (negb valid) "permit store returned another authority");;
      mret (Some stored)
  end.

Definition authority_get_permit (id : string) : hosted ActionPermit :=
  permit ← store_get_permit id;
  lift (refuse_if (negb (bool_decide (permit_id permit = id)))
    "permit store returned an invalid permit");;
  mret permit.

(** The arguments of [claim_for_dispatch]. *)
Record dispatch_request := {
  dq_permit_id : string;
  dq_certificate : VerifiedCertificate;
  dq_semantic_action : SemanticActionIdentity;
  dq_tool_name : string;
  dq_tool_version : string;
  dq_arguments : json_object;
  dq_target : TargetBinding;
  dq_precondition : json_object;
  dq_claim_id : option string;
}.

(** [validate_recovery_dispatch] and the comparison with the certified
    transition; the digests of the arguments and of the precondition. *)
Definition bind_dispatch (d : dispatch_request) (expected : ActionPermit)
  : result exception (string * string) :=
  trusted_action ← _semantic_action (dq_semantic_action d);
  profile ← map_error
    (λ e, match e with
     | RecoveryRuleViolation _ | RecoveryVerificationError _
     | ContractError (TypeError _) | ContractError (ValueError _) =>
         PermitAuthorityError "dispatch does not match a sealed recovery action"
     | ContractError e => PyError e
     end)
    (validate_recovery_dispatch trusted_action (dq_tool_name d) (dq_tool_version d)
      (dq_arguments d) (dq_target d) (dq_precondition d));
  arguments_sha ← checked (dispatch_arguments_sha256 (dq_arguments d));
  precondition_sha ← checked (dispatch_precondition_sha256 (dq_precondition d));
  refuse_if
    (negb (bool_decide (rp_profile_version profile = action_profile_version expected))
     || negb (bool_decide
          (sa_semantic_action_sha256 trusted_action = Permit.semantic_action_sha256 expected))
     || negb (bool_decide (arguments_sha = arguments_sha256 expected))
     || negb (bool_decide (canonical_sha256 (dq_target d) = target_sha256 expected))
     || negb (bool_decide (precondition_sha = precondition_sha256 expected)))
    "dispatch does not match the certified transition";;
  Ok (arguments_sha, precondition_sha).

Definition claim_request_of (d : dispatch_request) (persisted : ActionPermit)
  (claim_id : string) (requested_at : datetime) (arguments_sha precondition_sha : string)
  : PermitClaimRequest :=
  {| rq_permit_id := dq_permit_id d; rq_claim_id := claim_id;
     rq_issued_permit_sha256 := canonical_sha256 persisted;
     rq_certificate_id := certificate_id persisted;
     rq_certificate_sha256 := certificate_sha256 persisted;
     rq_chain_id := chain_id persisted; rq_source_node_id := source_node_id persisted;
     rq_target_node_id := target_node_id persisted;
     rq_semantic_action_sha256 := Permit.semantic_action_sha256 persisted;
     rq_action_profile_version := action_profile_version persisted;
     rq_action_policy_version := action_policy_version persisted;
     rq_tool_name := dq_tool_name d; rq_tool_version := dq_tool_version d;
     rq_arguments_sha256 := arguments_sha;
     rq_target_sha256 := canonical_sha256 (dq_target d);
     rq_precondition_sha256 := precondition_sha; rq_requested_at := requested_at |}.

Definition claim_for_dispatch (d : dispatch_request) : hosted ActionPermit :=
  trusted ← lift (_certificate (dq_certificate d));
  expected ← lift (action_permit_from_certificate trusted);
  match expected with
  | None => raise (PermitAuthorityError "certificate does not authorize dispatch")
  | Some expected =>
      lift (refuse_if (negb (bool_decide (dq_permit_id d = permit_id expected)))
        "permit identifier does not match certificate");;
      persisted ← store_get_permit (dq_permit_id d);
      persisted_matches ← lift (same_authority persisted expected);
      lift (refuse_if (negb persisted_matches)
        "durable permit does not match the certificate authority");;
      digests ← lift (bind_dispatch d expected);
      claim_id ← match dq_claim_id d with
                 | Some claim_id => mret claim_id
                 | None => await NewClaimId
                 end;
      requested_at ← _now;
      let request := claim_request_of d persisted claim_id requested_at
                       (fst digests) (snd digests) in
      lift (checked (construct_claim_request request));;
      claimed ← store_claim_permit request;
      let expected_claimed := claimed_copy persisted claim_id requested_at in
      lift (checked (construct_permit expected_claimed));;
      lift (refuse_if (negb (bool_decide (claimed = expected_claimed)))
        "permit store returned an invalid claim");;
      checked_at ← _now;
      lift (refuse_if ((checked_at <? requested_at) || (expires_at claimed <=? checked_at))
        "durably claimed permit requires outcome reconciliation");;
      mret claimed
  end.

Definition complete_dispatch (claimed : ActionPermit) (outcome : PermitCompletionOutcome)
  : hosted ActionPermit :=
  match state claimed, claim_id claimed with
  | CLAIMED, Some cid =>
      completed_at ← _now;
      let request :=
        {| cq_permit_id := permit_id claimed; cq_claim_id := cid;
           cq_claimed_permit_sha256 := canonical_sha256 claimed;
           cq_outcome := outcome; cq_completed_at := completed_at |} in
      lift (checked (construct_completion_request request));;
      completed ← store_complete_permit request;
      let expected_completed := completed_copy claimed completed_at outcome in
      lift (checked (construct_permit expected_completed));;
      lift (refuse_if (negb (bool_decide (completed = expected_completed)))
        "permit store returned an invalid completion");;
      mret completed
  | _, _ => raise (PermitAuthorityError "an exact claimed permit is required")
  end.

End authority.

(** ** Same authority *)

Section same.
Context {rt : Runtime} {sec : Security}.

(** The sealed fields two permits of the same authority share. *)
Record authority_shared (p q : ActionPermit) : Prop := {
  shared_permit_id : permit_id p = permit_id q;
  shared_certificate_id : certificate_id p = certificate_id q;
  shared_chain_id : chain_id p = chain_id q;
  shared_transition : action_permit_transition p = action_permit_transition q;
  shared_profile : action_profile_version p = action_profile_version q;
  shared_policy : action_policy_version p = action_policy_version q;
  shared_expiry : pydantic_time (expires_at p) = pydantic_time (expires_at q);
}.

Lemma authority_names time p :
  map fst (permit_authority_fields time p) =
  ["schema_version"; "permit_id"; "certificate_id"; "chain_id"; "source_node_id";
   "target_node_id"; "semantic_action_sha256"; "action"; "action_profile_version";
   "action_policy_version"; "tool_name"; "tool_version"; "arguments_sha256";
   "target_sha256"; "precondition_sha256"; "expires_at"; "max_uses"].
Proof. done. Qed.

Lemma authority_nodup time p : NoDup (map fst (permit_authority_fields time p)).
Proof. rewrite authority_names. apply has_dup_false. reflexivity. Qed.

Lemma authority_plain time p : plain_json (JObj (permit_authority_fields time p)) = true.
Proof.
  cbn [plain_json]. rewrite (bool_decide_eq_true_2 _ (authority_nodup time p)). done.
Qed.

(** Equal text, equal fields. *)
Lemma authority_text_inj time p q k :
  dumps (JObj (permit_authority_fields time p)) = dumps (JObj (permit_authority_fields time q)) →
  reload <$> dict_get k (permit_authority_fields time p)
    = reload <$> dict_get k (permit_authority_fields time q).
Proof.
  intros Hd. rewrite <-!dict_get_reloaded by apply authority_nodup.
  pose (fp := {| parse_float _ := S754_nan |} : FloatParser).
  pose proof (loads_dumps (fp := fp) _ (authority_plain time p)) as Hp.
  rewrite Hd, (loads_dumps (fp := fp) _ (authority_plain time q)), !reload_is in Hp.
  assert (∀ m n, Ok (E := py_error) (JObj m) = Ok (JObj n) → m = n) as Hinj by congruence.
  by rewrite (Hinj _ _ Hp).
Qed.

Lemma same_authority_shared p q :
  same_action_permit_authority p q = Ok true → authority_shared p q.
Proof.
  unfold same_action_permit_authority. intros (? & _ & H)%bind_ok.
  apply bind_ok in H as (? & _ & H). apply bind_ok in H as (l & Hl & H).
  apply bind_ok in H as (r & Hr & H). injection H as Heq%bool_decide_eq_true. subst r.
  unfold canonical_json_value_bytes in Hl, Hr.
  apply bind_ok in Hl as (? & _ & Hl). apply bind_ok in Hr as (? & _ & Hr).
  assert (dumps (JObj (permit_authority_fields pydantic_time p))
    = dumps (JObj (permit_authority_fields pydantic_time q))) as Hd by congruence.
  clear Hl Hr. pose proof (λ k, authority_text_inj _ _ _ k Hd) as Hk. clear Hd.
  assert (∀ k s t, dict_get k (permit_authority_fields pydantic_time p) = Some (JStr s) →
    dict_get k (permit_authority_fields pydantic_time q) = Some (JStr t) → s = t) as Hs.
  { intros k s t Hs Ht. specialize (Hk k). rewrite Hs, Ht in Hk. by injection Hk. }
  assert (∀ k s t, dict_get k (permit_authority_fields pydantic_time p) = Some (JStr s) ∧
    dict_get k (permit_authority_fields pydantic_time q) = Some (JStr t) → s = t) as Hst
    by (intros k s t [? ?]; by eapply Hs).
  split; [apply (Hst "permit_id"); done|apply (Hst "certificate_id"); done
    |apply (Hst "chain_id"); done| |apply (Hst "action_profile_version"); done
    |apply (Hst "action_policy_version"); done|apply (Hst "expires_at"); done].
  unfold action_permit_transition. f_equal;
    [apply PermitAction_value_inj, (Hst "action"); done
    |apply (Hst "source_node_id"); done|apply (Hst "target_node_id"); done
    |apply (Hst "semantic_action_sha256"); done|apply (Hst "tool_name"); done
    |apply (Hst "tool_version"); done|apply (Hst "arguments_sha256"); done
    |apply (Hst "target_sha256"); done|apply (Hst "precondition_sha256"); done].
Qed.

Lemma same_authority_true p q : same_authority p q = Ok true → authority_shared p q.
Proof.
  unfold same_authority. intros H. apply same_authority_shared.
  destruct (same_action_permit_authority p q) as [?|[]]; congruence.
Qed.

End same.

(** ** Permits of a certificate *)

Section certificates.
Context {rt : Runtime} {sec : Security}.

(** The permit [p] is the one the certificate [c] allows. *)
Record certified_permit (c : VerifiedCertificate) (p : ActionPermit) : Prop := {
  cp_valid : validate_certificate c = Ok tt;
  cp_transition : vc_transition c = Some (action_permit_transition p);
  cp_policy : dict_get (vc_action_profile_version c, action p) _ALLOWED_TRANSITIONS
    = Some (action_profile_version p);
  cp_profile : ∃ profile, profile ∈ RECOVERY_ACTION_PROFILES
    ∧ rp_profile_version profile = action_profile_version p
    ∧ rp_tool_name profile = tool_name p ∧ rp_tool_version profile = tool_version p;
  cp_certificate : certificate_id p = vc_certificate_id c;
  cp_chain : chain_id p = vc_chain_id c;
  cp_id : action_permit_id (vc_certificate_id c) (action_permit_transition p)
    = Ok (permit_id p);
  cp_interval : pydantic_time (expires_at p) = pydantic_time (vc_expires_at c);
}.

Lemma target_profile_inv c v :
  _target_profile_version c = Ok v →
  ∃ t, vc_transition c = Some t
    ∧ dict_get (vc_action_profile_version c, ct_action t) _ALLOWED_TRANSITIONS = Some v
    ∧ ∃ profile, profile ∈ RECOVERY_ACTION_PROFILES ∧ rp_profile_version profile = v
        ∧ rp_tool_name profile = ct_tool_name t ∧ rp_tool_version profile = ct_tool_version t.
Proof.
  unfold _target_profile_version. destruct (vc_transition c) as [t|]; [|done].
  destruct (dict_get _ _) as [expected|] eqn:He; [|done].
  destruct (filter _ _) as [|profile [|? ?]] eqn:Hf; try done. intros [= <-].
  assert (profile ∈ [profile]) as Hin by by left. rewrite <-Hf in Hin.
  apply list_elem_of_filter in Hin as [(Hv & Hn & Hver) Hin].
  exists t. split; [done|]. split; [by rewrite Hv|]. by exists profile.
Qed.

Lemma certificate_permit_inv c p :
  action_permit_from_certificate c = Ok (Some p) →
  certified_permit c p ∧ state p = ISSUED ∧ construct_permit p = Ok tt
  ∧ issued_at p = vc_issued_at c ∧ expires_at p = vc_expires_at c.
Proof.
  unfold action_permit_from_certificate, _certificate, model_validate_certificate.
  intros (c' & Hc & H)%bind_ok.
  destruct (validate_certificate c) as [[]|] eqn:Hv; [|discriminate Hc]. injection Hc as <-.
  destruct (vc_transition c) as [t|] eqn:Ht; [|discriminate H].
  apply bind_ok in H as (v & Hprof & H). apply bind_ok in H as (id & Hid & H).
  apply bind_ok in H as ([] & Hok & H). assert (permit_of c t id v = p) as <- by congruence.
  clear H. apply target_profile_inv in Hprof as (t' & Ht' & Hpol & Hin).
  assert (t' = t) as -> by congruence.
  assert (action_permit_transition (permit_of c t id v) = t) as Htr by by destruct t.
  destruct (construct_permit (permit_of c t id v)) as [[]|] eqn:Hcon; [|discriminate Hok].
  destruct (action_permit_id (vc_certificate_id c) t) as [id'|] eqn:Hi; [|discriminate Hid].
  injection Hid as ->. split; [|done]. split; rewrite ?Htr; done.
Qed.

(** The permit of another authority record with the same sealed fields. *)
Lemma certified_shared c p q :
  certified_permit c q → authority_shared p q → certified_permit c p.
Proof.
  intros [Hv Ht Hpol Hprof Hc Hch Hid Hi] [Sid Sc Sch Str Sp _ Sx].
  assert (action p = action q) as Sa by exact (f_equal ct_action Str).
  assert (tool_name p = tool_name q) as Sn by exact (f_equal ct_tool_name Str).
  assert (tool_version p = tool_version q) as Sv by exact (f_equal ct_tool_version Str).
  split; rewrite ?Str, ?Sa, ?Sp, ?Sn, ?Sv, ?Sc, ?Sch, ?Sid, ?Sx; done.
Qed.

(** The dispatch [d] is the action the permit [p] was sealed for. *)
Record dispatch_bound (d : dispatch_request) (p : ActionPermit) : Prop := {
  db_action : RecoveryContracts.semantic_action_sha256 (sa_key_version (dq_semantic_action d))
      (sa_tool_name (dq_semantic_action d)) (sa_tool_version (dq_semantic_action d))
      (sa_semantic_arguments (dq_semantic_action d)) (sa_target (dq_semantic_action d))
      (sa_expected_effect_sha256s (dq_semantic_action d))
      (sa_action_profile_version (dq_semantic_action d))
    = Ok (Permit.semantic_action_sha256 p);
  db_profile : ∃ profile, resolve_recovery_action_profile (dq_semantic_action d) = Ok profile
    ∧ rp_profile_version profile = action_profile_version p
    ∧ rp_tool_name profile = dq_tool_name d ∧ rp_tool_version profile = dq_tool_version d
    ∧ valid_dispatch_precondition (rp_precondition_kind profile) (dq_precondition d) = true;
  db_arguments : dispatch_arguments_sha256 (dq_arguments d) = Ok (arguments_sha256 p);
  db_target : canonical_sha256 (dq_target d) = target_sha256 p;
  db_precondition : dispatch_precondition_sha256 (dq_precondition d) = Ok (precondition_sha256 p);
}.

Lemma resolved_action_profile action profile :
  resolve_recovery_action_profile action = Ok profile →
  profile ∈ RECOVERY_ACTION_PROFILES ∧ rp_tool_name profile = sa_tool_name action
  ∧ rp_tool_version profile = sa_tool_version action.
Proof.
  unfold resolve_recovery_action_profile. intros H.
  destruct (dict_get _ _) as [pr|] eqn:Hd; [|done].
  apply bind_ok in H as ([] & Hv & [= <-]). split.
  - apply dict_get_elem in Hd. unfold PROFILES_BY_VERSION in Hd.
    apply list_elem_of_fmap in Hd as (pr' & [= _ ->] & Hin). done.
  - unfold validate_recovery_action in Hv. apply bind_ok in Hv as (? & _ & Hv).
    apply bind_ok in Hv as (u & Hg & _). apply reject_if_ok in Hg. repeat apply orb_false_iff in Hg as [Hg ?].
    rewrite !negb_false_iff, !bool_decide_eq_true in *. done.
Qed.

Lemma profile_of_version (p q : RecoveryActionProfile) :
  p ∈ RECOVERY_ACTION_PROFILES → q ∈ RECOVERY_ACTION_PROFILES →
  rp_profile_version p = rp_profile_version q → p = q.
Proof.
  unfold RECOVERY_ACTION_PROFILES. rewrite !elem_of_cons, !elem_of_nil.
  intros [->|[->|[->|[]]]] [->|[->|[->|[]]]]; (done || discriminate).
Qed.

Lemma bind_dispatch_inv d p a b :
  bind_dispatch d p = Ok (a, b) →
  dispatch_bound d p ∧ a = arguments_sha256 p ∧ b = precondition_sha256 p.
Proof.
  unfold bind_dispatch, _semantic_action. intros (action & Ha & H)%bind_ok.
  apply bind_ok in Ha as ([] & Hva & [= <-]).
  destruct (validate_identity (dq_semantic_action d)) as [[]|] eqn:Hid; [|discriminate Hva].
  apply bind_ok in H as (profile & Hp & H).
  destruct (validate_recovery_dispatch _ _ _ _ _ _) as [profile'|] eqn:Hd; [|discriminate Hp].
  injection Hp as ->. apply bind_ok in H as (a' & Harg & H). apply bind_ok in H as (b' & Hpre & H).
  apply reject_then_ok in H as [Hg [= -> ->]].
  repeat apply orb_false_iff in Hg as [Hg ?]. rewrite !negb_false_iff, !bool_decide_eq_true in *.
  destruct (dispatch_arguments_sha256 _) as [a'|] eqn:Ha; [|discriminate Harg].
  destruct (dispatch_precondition_sha256 _) as [b'|] eqn:Hb; [|discriminate Hpre].
  cbn in Harg, Hpre. injection Harg as ->. injection Hpre as ->. subst a b.
  split; [|done]. unfold validate_recovery_dispatch in Hd.
  apply bind_ok in Hd as (pr & Hres & Hd). apply bind_ok in Hd as (? & Htool & Hd).
  apply bind_ok in Hd as (? & Hk & [= ->]). split; try done.
  - unfold validate_identity in Hid. do 7 (apply bind_ok in Hid as (? & _ & Hid)).
    apply bind_ok in Hid as (e & -> & Hid). apply reject_if_ok, negb_false_iff in Hid.
    apply bool_decide_eq_true in Hid. congruence.
  - exists profile. pose proof (resolved_action_profile _ _ Hres) as (_ & Hn & Hver).
    apply reject_if_ok in Htool. repeat apply orb_false_iff in Htool as [Htool ?].
    rewrite !negb_false_iff in *. apply bool_decide_eq_true in Htool.
    match goal with Hb : bool_decide (dq_tool_version d = _) = true |- _ =>
      apply bool_decide_eq_true in Hb end.
    split_and!; [done|done|congruence|congruence|]. by apply reject_if_ok, negb_false_iff in Hk.
Qed.


(** ** Operations *)

Context {store : ActionPermitStore}.

(** Splits what a procedure returned into what its steps returned. *)
Ltac returned_step :=
  match goal with
  | H : may_return (raise _) _ |- _ => destruct H
  | H : may_return (@mret _ _ _ _) _ |- _ => apply may_return_ret in H
  | H : may_return (lift _) _ |- _ => apply may_return_lift in H
  | H : may_return (_ ≫= _) _ |- _ =>
      apply may_return_bind in H; let a := fresh "v" in let Ha := fresh "Hv" in
      destruct H as (a & Ha & H)
  | H : refuse_if _ _ = Ok _ |- _ => apply reject_if_ok in H
  end.
Ltac returned := repeat (returned_step; cbv beta in * ).

Lemma checked_Ok {A} (r : result py_error A) a : checked r = Ok a → r = Ok a.
Proof. destruct r; cbn; congruence. Qed.

Lemma issue_inv c o :
  may_return (authority_issue_permit c) o →
  match o with
  | Some p => certified_permit c p
  | None => vc_transition c = None
  end.
Proof.
  unfold authority_issue_permit. intros H. returned. rename Hv into Hp.
  destruct v as [q|].
  - apply certificate_permit_inv in Hp as (Hq & _). returned.
    subst o.
    match goal with Hb : negb ?b = false, Hs : same_authority _ _ = Ok ?b |- _ =>
      apply negb_false_iff in Hb; subst b; apply same_authority_true in Hs end.
    by eapply certified_shared.
  - returned. subst o. unfold action_permit_from_certificate, _certificate,
      model_validate_certificate in Hp.
    apply bind_ok in Hp as (c' & Hc & Hp). destruct (validate_certificate c) as [[]|]; [|done].
    injection Hc as <-. destruct (vc_transition c) as [t|]; [|done].
    apply bind_ok in Hp as (? & _ & Hp). apply bind_ok in Hp as (? & _ & Hp).
    by apply bind_ok in Hp as (? & _ & Hp).
Qed.

(** What a claim for dispatch returned: the durable permit, claimed. *)
Record claimed_for (d : dispatch_request) (claimed : ActionPermit) : Prop := {
  cl_certified : certified_permit (dq_certificate d) claimed;
  cl_bound : dispatch_bound d claimed;
  cl_permit_id : permit_id claimed = dq_permit_id d;
  cl_tool : tool_name claimed = dq_tool_name d ∧ tool_version claimed = dq_tool_version d;
  cl_state : state claimed = CLAIMED ∧ revision claimed = 1;
  cl_claim_id : ∃ cid at_, claim_id claimed = Some cid ∧ claimed_at claimed = Some at_
    ∧ (∀ own, dq_claim_id d = Some own → cid = own)
    ∧ issued_at claimed ≤ at_ < expires_at claimed;
}.

Lemma bound_shared d p q : dispatch_bound d q → authority_shared p q → dispatch_bound d p.
Proof.
  intros [Ha Hp Harg Ht Hpre] [_ _ _ Str Sp _ _].
  assert (Permit.semantic_action_sha256 p = Permit.semantic_action_sha256 q) as S1
    by exact (f_equal ct_semantic_action_sha256 Str).
  assert (arguments_sha256 p = arguments_sha256 q) as S2 by exact (f_equal ct_arguments_sha256 Str).
  assert (target_sha256 p = target_sha256 q) as S3 by exact (f_equal ct_target_sha256 Str).
  assert (precondition_sha256 p = precondition_sha256 q) as S4
    by exact (f_equal ct_precondition_sha256 Str).
  split; rewrite ?S1, ?S2, ?S3, ?S4, ?Sp; done.
Qed.

(** The tool of the permit is the tool of the dispatch. *)
Lemma bound_tool d p :
  certified_permit (dq_certificate d) p → dispatch_bound d p →
  tool_name p = dq_tool_name d ∧ tool_version p = dq_tool_version d.
Proof.
  intros [_ _ _ (pr & Hin & Hv & Hn & Hver) _ _ _ _] [_ (pr' & Hres & Hv' & Hn' & Hver' & _) _ _ _].
  apply resolved_action_profile in Hres as (Hin' & _). 
  assert (pr = pr') as -> by (apply profile_of_version; [done..|congruence]). split; congruence.
Qed.

Lemma claim_inv d claimed :
  may_return (claim_for_dispatch d) claimed →
  claimed_for d claimed
  ∧ ∃ rq, rq_permit_id rq = dq_permit_id d ∧ may_return (store_claim_permit rq) claimed.
Proof.
  unfold claim_for_dispatch. intros H. returned. destruct v0 as [q|]; [|returned].
  returned. subst claimed.
  match goal with Hc : _certificate _ = Ok v |- _ =>
    assert (v = dq_certificate d) as -> by (unfold _certificate, model_validate_certificate in Hc;
      destruct (validate_certificate (dq_certificate d)) as [[]|]; [by injection Hc|done]);
    clear Hc end.
  match goal with Hp : action_permit_from_certificate _ = Ok (Some q) |- _ =>
    apply certificate_permit_inv in Hp as (Hq & _) end.
  match goal with Hb : negb ?b = false, Hs : same_authority _ _ = Ok ?b |- _ =>
    apply negb_false_iff in Hb; subst b; apply same_authority_true in Hs as Hsh end.
  match goal with Hb : bind_dispatch d q = Ok ?ab |- _ =>
    destruct ab as [ash psh]; apply bind_dispatch_inv in Hb as (Hbound & _) end.
  match goal with Hb : negb (bool_decide (v8 = _)) = false |- _ =>
    apply negb_false_iff, bool_decide_eq_true in Hb; rewrite Hb in * end.
  match goal with Hb : negb (bool_decide (dq_permit_id d = _)) = false |- _ =>
    apply negb_false_iff, bool_decide_eq_true in Hb; rename Hb into Hid end.
  match goal with Hb : checked (construct_permit _) = Ok _ |- _ =>
    apply checked_Ok, reject_then_ok in Hb as [_ Hlife] end.
  pose proof (certified_shared _ _ _ Hq Hsh) as Hcert.
  pose proof (bound_shared _ _ _ Hbound Hsh) as Hbp.
  pose proof (shared_permit_id _ _ Hsh) as Hpid.
  split; [|eexists; split; [|eassumption]; done].
  split; cbn.
  - destruct Hcert. by split.
  - destruct Hbp. by split.
  - congruence.
  - by apply (bound_tool d v1).
  - done.
  - destruct v9. apply validate_lifecycle_ok in Hlife as (_ & _ & _ & _ & Hc & _).
    exists v5, v6. split; [done|]. split; [done|]. split; [|by apply (Hc v6)].
    intros own Hown. rewrite Hown in *. returned. by symmetry.
Qed.

Lemma complete_inv p outcome q :
  may_return (complete_dispatch p outcome) q →
  ∃ at_, q = completed_copy p at_ outcome ∧ state p = CLAIMED ∧ construct_permit q = Ok tt.
Proof.
  unfold complete_dispatch. intros H.
  destruct (state p) eqn:Hs; try (by destruct H). destruct (claim_id p); [|by destruct H].
  returned. subst q.
  match goal with Hb : negb (bool_decide (_ = completed_copy _ _ _)) = false |- _ =>
    apply negb_false_iff, bool_decide_eq_true in Hb; rewrite Hb end.
  exists v. split; [done|]. split; [done|].
  match goal with Hb : checked (construct_permit _) = Ok ?u |- _ =>
    destruct u; by apply checked_Ok in Hb end.
Qed.

End certificates.
