(* ===== verification/PermitAuthorityProperties.v ===== *)
(** The permit authority: what it lets a dispatcher do, whatever its store
    answers, and what many dispatchers do over the Firestore permit store. *)

From S2P Require Export PermitAuthority FirestorePermitProperties.

#[local] Open Scope Z_scope.

(** ** The authority over the Firestore store *)

(** A call of [PermitAuthority]. *)
Inductive authority_call :=
  | AuthorityIssue (certificate : VerifiedCertificate)
  | AuthorityGet (permit_id : string)
  | AuthorityClaim (dispatch : dispatch_request)
  | AuthorityComplete (claimed : ActionPermit) (outcome : PermitCompletionOutcome).

Section service.
Context {rt : Runtime} {sec : Security} {fp : FloatParser} {tp : TimeParser}.

(** [FirestoreActionPermitStore] as the store of the authority. *)
#[export] Instance firestore_store : ActionPermitStore := {|
  store_issue_permit := issue_permit;
  store_get_permit := get_permit;
  store_claim_permit := claim_permit;
  store_complete_permit := complete_permit;
|}.

Definition run_authority (c : authority_call) : hosted (option ActionPermit) :=
  match c with
  | AuthorityIssue certificate => authority_issue_permit certificate
  | AuthorityGet id => p ← authority_get_permit id; mret (Some p)
  | AuthorityClaim d => p ← claim_for_dispatch d; mret (Some p)
  | AuthorityComplete claimed outcome => p ← complete_dispatch claimed outcome; mret (Some p)
  end.

End service.

Section facts.
Context {rt : Runtime} {sec : Security} {fp : FloatParser}.
Context {tp : TimeParser} {tl : TimeParserLaws tp}.
Context {fs : Firestore} {laws : FirestoreLaws fs}.

(** The transition of the durable permit behind a call that returned. *)
Definition authority_done (i : nat) (c : authority_call) (h : history)
  (r : option ActionPermit) : Prop :=
  match c with
  | AuthorityClaim d => ∃ rq m,
      transition_made h i (dq_permit_id d) (Claim rq) m ∧ pm_denial_reason m = None
  | AuthorityComplete claimed _ => ∃ cq m,
      transition_made h i (permit_id claimed) (Complete cq) m ∧ pm_denial_reason m = None
  | _ => True
  end.

Lemma authority_done_grows i c r h h' :
  grows h h' → authority_done i c h r → authority_done i c h' r.
Proof.
  intros Hg. destruct c as [|?|d|p o]; cbn; [done..| |];
    intros (q & m & Hm & ?); exists q, m; (split; [by eapply transition_made_grows|done]).
Qed.

Lemma r_now h : returns _now (λ _ _, True) h.
Proof.
  apply r_bind. eapply r_mono; [apply (r_await _ (λ _ _, True)); done|].
  intros h' [t|] _ _; [by apply r_ret|apply r_raise].
Qed.

(** What an intermediate step guarantees is dropped; what comes after it is
    what is left to show. *)
Lemma r_then {A B} (m : hosted A) (f : A → hosted B) (P : history → A → Prop) Q h :
  returns m P h → (∀ a h', grows h h' → P h' a → returns (f a) Q h') → returns (m ≫= f) Q h.
Proof. intros Hm Hf. apply r_bind. eapply r_mono; [exact Hm|]. intros. by apply Hf. Qed.

Lemma r_lifted {A B} (r : result exception A) (f : A → hosted B) Q h :
  (∀ a h', grows h h' → returns (f a) Q h') → returns (a ← lift r; f a) Q h.
Proof. intros Hf. eapply r_then; [by apply (r_lift _ (λ _ _, True))|]. intros. by apply Hf. Qed.

Lemma r_claim_for_dispatch i d h :
  returns (claim_for_dispatch d) (λ h' _, ∃ rq m,
    transition_made h' i (dq_permit_id d) (Claim rq) m ∧ pm_denial_reason m = None) h.
Proof.
  apply r_lifted. intros trusted h1 _. apply r_lifted. intros [p|] h2 _; [|apply r_raise].
  apply r_lifted. intros _ h3 _. eapply r_then; [apply r_get_permit|]. intros q h4 _ _.
  apply r_lifted. intros same h5 _. apply r_lifted. intros _ h6 _.
  apply r_lifted. intros digests h7 _. eapply r_then with (P := λ _ _, True).
  { destruct (dq_claim_id d); [by apply r_ret|by apply r_await]. }
  intros cid h8 _ _. eapply r_then; [apply r_now|]. intros at_ h9 _ _.
  apply r_lifted. intros _ h10 _. eapply r_then; [apply (r_claim i)|].
  intros claimed h11 _ (m & Hm & Hd)%granted_made. apply r_lifted. intros _ h12 Hg12.
  apply r_lifted. intros _ h13 Hg13. eapply r_then; [apply r_now|]. intros ck h14 Hg14 _.
  apply r_lifted. intros _ h15 Hg15. apply r_ret. intros h16 Hg16.
  eexists _, m. split; [|exact Hd]. eapply transition_made_grows; [|exact Hm].
  etrans; [exact Hg12|]. etrans; [exact Hg13|]. etrans; [exact Hg14|]. by etrans.
Qed.

Lemma r_complete_dispatch i p outcome h :
  returns (complete_dispatch p outcome) (λ h' _, ∃ cq m,
    transition_made h' i (permit_id p) (Complete cq) m ∧ pm_denial_reason m = None) h.
Proof.
  unfold complete_dispatch.
  destruct (state p); try apply r_raise. destruct (claim_id p) as [cid|]; [|apply r_raise].
  eapply r_then; [apply r_now|]. intros at_ h1 _ _. apply r_lifted. intros _ h2 _.
  eapply r_then; [apply (r_complete i)|]. intros q h3 _ (m & Hm & Hd)%granted_made.
  apply r_lifted. intros _ h4 Hg4. apply r_lifted. intros _ h5 Hg5. apply r_ret.
  intros h6 Hg6. eexists _, m. split; [|exact Hd]. eapply transition_made_grows; [|exact Hm].
  etrans; [exact Hg4|]. by etrans.
Qed.

Lemma r_authority i c h : returns (run_authority c) (authority_done i c) h.
Proof.
  destruct c as [c|id|d|p o]; cbn [run_authority].
  - apply r_lifted. intros [p|] h1 _; [|by apply r_ret].
    eapply r_then; [apply r_now|]. intros now h2 _ _. apply r_lifted. intros _ h3 _.
    eapply r_then; [apply (r_issue i)|]. intros q h4 _ _. apply r_lifted. intros v h5 _.
    apply r_lifted. intros _ h6 _. by apply r_ret.
  - eapply r_then with (P := λ _ _, True); [|intros; by apply r_ret].
    eapply r_then; [apply r_get_permit|]. intros q h1 _ _. apply r_lifted.
    intros _ h2 _. by apply r_ret.
  - eapply r_then; [apply (r_claim_for_dispatch i)|]. intros p h1 _ Hp. apply r_ret.
    intros h2 Hg. by apply (authority_done_grows i (AuthorityClaim d) None h1).
  - eapply r_then; [apply (r_complete_dispatch i)|]. intros q h1 _ Hq. apply r_ret.
    intros h2 Hg. by apply (authority_done_grows i (AuthorityComplete p o) None h1).
Qed.

(** After any run, what each finished call has done. *)
Lemma authority_adequate calls s0 s ps :
  fresh_database s0 →
  rtc (pool_step respond background) (s0, map run_authority calls) (s, ps) →
  ∃ h, chained s h ∧ ∀ i c r, calls !! i = Some c → ps !! i = Some (Done (Ok r)) →
    authority_done i c h r ∧ may_return (run_authority c) r.
Proof.
  intros Hf Hrun. destruct (calls_return run_authority authority_done _ _ _ _ Hf r_authority Hrun)
    as (h & Hc & Hd). exists h. split; [done|]. intros i c r Hi Hr. split; [by apply (Hd i)|].
  eapply (pool_may_return _ _ _ _ i); [exact Hrun| |exact Hr].
  cbn. by rewrite list_lookup_fmap, Hi.
Qed.

(** What a claim through the authority returned. *)
Lemma claim_call_returned d p :
  may_return (run_authority (AuthorityClaim d)) (Some p) → may_return (claim_for_dispatch d) p.
Proof.
  cbn [run_authority]. intros (q & Hq & Ho)%may_return_bind. apply may_return_ret in Ho.
  by injection Ho as ->.
Qed.

Lemma claim_call_inv d o :
  may_return (run_authority (AuthorityClaim d)) o → ∃ p, o = Some p ∧ claimed_for d p.
Proof.
  cbn [run_authority]. intros (p & Hp & Ho)%may_return_bind. apply may_return_ret in Ho.
  exists p. split; [done|]. by apply claim_inv in Hp as [? _].
Qed.

(** Two permits certified by one certificate are the same permit. *)
Lemma certified_one_id c p q : certified_permit c p → certified_permit c q → permit_id p = permit_id q.
Proof. intros [_ Hp _ _ _ _ Hi _] [_ Hq _ _ _ _ Hj _]. congruence. Qed.

End facts.

(** * Properties *)

Section properties.
Context {rt : Runtime} {sec : Security}.

(** What the authority hands to a dispatcher.  Whatever its store answers,
    a claim that returns a permit returns the claimed permit of a valid
    certificate: it has the identifier derived from that certificate and its
    transition, the profile the transition policy allows, the interval of the
    certificate, and it is bound to this dispatch: its digests are those of the
    requested action, arguments, target and precondition, and its tool is the
    sealed tool of the profile. *)
Lemma claimed_dispatch_certified {store : ActionPermitStore} d p :
  may_return (claim_for_dispatch d) p → claimed_for d p.
Proof. intros H. by apply claim_inv in H as [? _]. Qed.

Context {fp : FloatParser} {tp : TimeParser} {tl : TimeParserLaws tp}.
Context {fs : Firestore} {laws : FirestoreLaws fs}.

(** C12: a certificate is dispatched once.  Of all the dispatchers that claim
    with one certificate through authorities sharing one Firestore database,
    whatever their interleaving, claim identifiers, clocks and failures, once
    one holds the certified permit every other that has ended has raised. *)
Theorem certificate_dispatched_once calls s0 s ps i j di dj o r :
  fresh_database s0 →
  rtc (pool_step respond background) (s0, map run_authority calls) (s, ps) →
  calls !! i = Some (AuthorityClaim di) → calls !! j = Some (AuthorityClaim dj) →
  dq_certificate di = dq_certificate dj → i ≠ j →
  ps !! i = Some (Done (Ok o)) → ps !! j = Some (Done r) →
  (∃ p, o = Some p ∧ claimed_for di p) ∧ ∃ e, r = Raise e.
Proof.
  intros Hf Hrun Hi Hj Hcert Hne Hpi Hpj.
  destruct (authority_adequate _ _ _ _ Hf Hrun) as (h & Hc & Hd).
  destruct (Hd i _ _ Hi Hpi) as [(rqi & mi & Hmi & Hdi) Hri].
  destruct (claim_call_inv _ _ Hri) as (p & -> & Hp). split; [by exists p|].
  destruct r as [o|e]; [|by exists e]. destruct Hne.
  destruct (Hd j _ _ Hj Hpj) as [(rqj & mj & Hmj & Hdj) Hrj].
  destruct (claim_call_inv _ _ Hrj) as (q & -> & Hq).
  assert (dq_permit_id dj = dq_permit_id di) as Hid.
  { rewrite <-(cl_permit_id _ _ Hp), <-(cl_permit_id _ _ Hq).
    apply (certified_one_id (dq_certificate di)); [|by destruct Hp].
    rewrite Hcert. by destruct Hq. }
  rewrite Hid in Hmj. exact (claim_once _ _ _ _ _ _ _ _ _ Hc Hmi Hdi Hmj Hdj).
Qed.

(** An outcome is recorded once.  Of all the completions of one permit
    through the authority, once one has returned the settled permit, the
    claimed permit with that outcome, every other that has ended has raised. *)
Lemma dispatch_settled_once calls s0 s ps i j pi pj oi oj q r :
  fresh_database s0 →
  rtc (pool_step respond background) (s0, map run_authority calls) (s, ps) →
  calls !! i = Some (AuthorityComplete pi oi) → calls !! j = Some (AuthorityComplete pj oj) →
  permit_id pi = permit_id pj → i ≠ j →
  ps !! i = Some (Done (Ok q)) → ps !! j = Some (Done r) →
  (∃ at_, q = Some (completed_copy pi at_ oi) ∧ state pi = CLAIMED) ∧ ∃ e, r = Raise e.
Proof.
  intros Hf Hrun Hi Hj Hid Hne Hpi Hpj.
  destruct (authority_adequate _ _ _ _ Hf Hrun) as (h & Hc & Hd).
  destruct (Hd i _ _ Hi Hpi) as [(cqi & mi & Hmi & Hdi) Hri]. split.
  - cbn [run_authority] in Hri. apply may_return_bind in Hri as (p & Hp & Ho).
    apply may_return_ret in Ho. subst q. apply complete_inv in Hp as (at_ & -> & Hs & _).
    by exists at_.
  - destruct r as [o|e]; [|by exists e]. destruct Hne.
    destruct (Hd j _ _ Hj Hpj) as [(cqj & mj & Hmj & Hdj) _]. rewrite <-Hid in Hmj.
    exact (settlement_once _ _ _ _ _ _ _ _ _ Hc Hmi Hdi Hmj Hdj).
Qed.

End properties.
