(* ===== verification/PermitAuthorityWitnesses.v ===== *)
(** Dispatchers racing for one certificate: the properties of
    PermitAuthorityProperties.v at a concrete run. *)

From S2P Require Export FirestorePermitWitnesses PermitAuthorityProperties.

#[local] Open Scope Z_scope.

#[local] Existing Instance lab_runtime.
#[local] Existing Instance lab_security.
#[local] Existing Instance lab_floats.

(** ** A certificate that allows the retry of a release record *)

Definition record_target : TargetBinding :=
  {| tb_target_kind := FIRESTORE_DOCUMENT_TARGET_KIND;
     tb_scope := [("project", JStr "project-1"); ("database", JStr "releases")];
     tb_resource := [("document", JStr "releases/release-7")] |}.
Definition record_arguments : json_object :=
  [("release_id", JStr "release-7"); ("payload_sha256", JStr (digest_text "payload"))].
Definition must_not_exist : json_object := [("exists", JBool false)].
Definition record_profile : RecoveryActionProfile := CREATE_FIRESTORE_RELEASE_RECORD_PROFILE.

Definition ok_text (r : result py_error string) : string :=
  match r with Ok s => s | Raise _ => "" end.

Definition record_action : SemanticActionIdentity :=
  {| sa_key_version := "semantic-action-v1"; sa_tool_name := rp_tool_name record_profile;
     sa_tool_version := rp_tool_version record_profile;
     sa_semantic_arguments := record_arguments; sa_target := record_target;
     sa_expected_effect_sha256s := [digest_text "effect"];
     sa_action_profile_version := rp_profile_version record_profile;
     sa_semantic_action_sha256 := ok_text
       (RecoveryContracts.semantic_action_sha256 "semantic-action-v1"
          (rp_tool_name record_profile) (rp_tool_version record_profile) record_arguments
          record_target [digest_text "effect"] (rp_profile_version record_profile)) |}.

Definition retry_transition : CertifiedTransition :=
  {| ct_action := RETRY; ct_source_node_id := "record"; ct_target_node_id := "record";
     ct_semantic_action_sha256 := sa_semantic_action_sha256 record_action;
     ct_tool_name := rp_tool_name record_profile;
     ct_tool_version := rp_tool_version record_profile;
     ct_arguments_sha256 := ok_text (dispatch_arguments_sha256 record_arguments);
     ct_target_sha256 := canonical_sha256 record_target;
     ct_precondition_sha256 := ok_text (dispatch_precondition_sha256 must_not_exist) |}.

Definition retry_certificate : VerifiedCertificate :=
  {| vc_certificate_id := "certificate-1"; vc_chain_id := "chain-1"; vc_node_id := "record";
     vc_semantic_action_sha256 := sa_semantic_action_sha256 record_action;
     vc_chain_sha256 := digest_text "chain"; vc_node_sha256 := digest_text "node";
     vc_envelope_sha256 := digest_text "envelope"; vc_report_sha256 := digest_text "report";
     vc_proof_sha256 := digest_text "proof"; vc_target := record_target;
     vc_target_sha256 := canonical_sha256 record_target;
     vc_evidence :=
       [{| rb_evidence_id := "evidence:receipt"; rb_evidence_sha256 := digest_text "receipt";
           rb_raw_observation_sha256 := digest_text "raw";
           rb_valid_until := lab_time + 10 * minute |}];
     vc_authority_policy_version := "authority-v1";
     vc_correlation_policy_version := "correlation-v1";
     vc_freshness_policy_version := "freshness-v1";
     vc_classification_policy_version := "classification-v1";
     vc_action_policy_version := "action-v1";
     vc_action_profile_version := rp_profile_version record_profile;
     vc_verifier_version := "verifier-v1"; vc_classification := NOT_COMMITTED;
     vc_transition := Some retry_transition; vc_issued_at := lab_time;
     vc_expires_at := lab_time + 10 * minute |}.

Definition retry_permit : ActionPermit :=
  match action_permit_from_certificate retry_certificate with
  | Ok (Some p) => p | _ => lab_permit end.

Definition retry_dispatch (claim_id : string) : dispatch_request :=
  {| dq_permit_id := permit_id retry_permit; dq_certificate := retry_certificate;
     dq_semantic_action := record_action; dq_tool_name := rp_tool_name record_profile;
     dq_tool_version := rp_tool_version record_profile; dq_arguments := record_arguments;
     dq_target := record_target; dq_precondition := must_not_exist;
     dq_claim_id := Some claim_id |}.

(** ** A run: issue, two racing dispatchers, two completions *)

Definition dispatch_start : lab_state :=
  {| ls_documents := ∅; ls_time := lab_time + minute; ls_uuids := 0;
     ls_faults := [LostAcknowledgement]; ls_pending := [] |}.

Definition retry_claimed : ActionPermit :=
  claimed_copy retry_permit "claim-a" (lab_time + minute + 1).

Definition dispatch_calls : list authority_call :=
  [AuthorityIssue retry_certificate;
   AuthorityClaim (retry_dispatch "claim-a"); AuthorityClaim (retry_dispatch "claim-b");
   AuthorityComplete retry_claimed SUCCEEDED; AuthorityComplete retry_claimed SUCCEEDED].

Definition dispatch_end : lab_state * list (hosted (option ActionPermit)) :=
  run_schedule (dispatch_start, map run_authority dispatch_calls)
    (turns 20 [Some 0%nat] ++ turns 60 [Some 1%nat; Some 2%nat]
     ++ turns 60 [Some 3%nat; Some 4%nat]).

Definition dispatch_outcome (i : nat) : option (result exception (option ActionPermit)) :=
  match dispatch_end.2 !! i with Some (Done r) => Some r | _ => None end.

Lemma dispatch_outcome_done i r : dispatch_outcome i = Some r → dispatch_end.2 !! i = Some (Done r).
Proof.
  unfold dispatch_outcome.
  destruct (dispatch_end.2 !! i) as [[r'|R op k]|]; [by intros [= ->]|done..].
Qed.

Lemma dispatch_run :
  rtc (pool_step respond background) (dispatch_start, map run_authority dispatch_calls)
    (dispatch_end.1, dispatch_end.2).
Proof. rewrite <-surjective_pairing. apply run_schedule_steps. Qed.

Definition retry_settled : ActionPermit :=
  completed_copy retry_claimed (lab_time + minute + 3) SUCCEEDED.

Definition dispatch_results : list (option (result exception (option ActionPermit))) :=
  [Some (Ok (Some retry_permit)); Some (Ok (Some retry_claimed));
   Some (Raise (PermitStoreError (PermitClaimDenied (permit_id retry_permit) ALREADY_CLAIMED)));
   Some (Ok (Some retry_settled));
   Some (Raise (PermitStoreError
     (PermitCompletionDenied (permit_id retry_permit) ALREADY_COMPLETED)))].

(** How the run ends. *)
Lemma dispatch_outcomes : map dispatch_outcome (seq 0 5) = dispatch_results.
Proof. vm_compute. reflexivity. Qed.

#[local] Opaque dispatch_end dispatch_outcome.

Lemma dispatch_finished i r :
  dispatch_results !! i = Some (Some r) → dispatch_end.2 !! i = Some (Done r).
Proof.
  intros Hi. apply dispatch_outcome_done, (map_seq_lookup dispatch_outcome 5).
  by rewrite dispatch_outcomes.
Qed.

Lemma dispatch_start_fresh : fresh_database (fs := lab_firestore) dispatch_start.
Proof. split; [done|]. by intros ws ?%not_elem_of_nil. Qed.

(** ** Witnesses *)

Lemma certificate_dispatched_once_witness :
  (∃ p, Some retry_claimed = Some p ∧ claimed_for (retry_dispatch "claim-a") p)
  ∧ ∃ e, Raise (A := option ActionPermit)
      (PermitStoreError (PermitClaimDenied (permit_id retry_permit) ALREADY_CLAIMED)) = Raise e.
Proof.
  exact (certificate_dispatched_once dispatch_calls dispatch_start dispatch_end.1 dispatch_end.2
    1 2 _ _ _ _ dispatch_start_fresh dispatch_run eq_refl eq_refl eq_refl ltac:(done)
    (dispatch_finished 1 _ eq_refl) (dispatch_finished 2 _ eq_refl)).
Defined.

Lemma dispatch_settled_once_witness :
  (∃ at_, Some retry_settled = Some (completed_copy retry_claimed at_ SUCCEEDED)
     ∧ state retry_claimed = CLAIMED)
  ∧ ∃ e, Raise (A := option ActionPermit)
      (PermitStoreError (PermitCompletionDenied (permit_id retry_permit) ALREADY_COMPLETED))
      = Raise e.
Proof.
  exact (dispatch_settled_once dispatch_calls dispatch_start dispatch_end.1 dispatch_end.2
    3 4 _ _ _ _ _ _ dispatch_start_fresh dispatch_run eq_refl eq_refl eq_refl ltac:(done)
    (dispatch_finished 3 _ eq_refl) (dispatch_finished 4 _ eq_refl)).
Defined.

(** *** One dispatcher, whatever the service does *)

Lemma run_may_return (s0 s : lab_state) (ps0 ps : list (hosted (option ActionPermit))) i m a :
  rtc (pool_step respond background) (s0, ps0) (s, ps) →
  ps0 !! i = Some m → ps !! i = Some (Done (Ok a)) → may_return m a.
Proof. exact (pool_may_return _ _ (s0, ps0) (s, ps) i m a). Qed.

Lemma claim_returned : may_return (claim_for_dispatch (retry_dispatch "claim-a")) retry_claimed.
Proof.
  apply claim_call_returned.
  exact (run_may_return _ _ _ _ 1 _ _ dispatch_run eq_refl (dispatch_finished 1 _ eq_refl)).
Qed.

Lemma claimed_dispatch_certified_witness : claimed_for (retry_dispatch "claim-a") retry_claimed.
Proof.
  exact (claimed_dispatch_certified (retry_dispatch "claim-a") retry_claimed claim_returned).
Defined.
