(* ===== verification/DispatchProperties.v ===== *)
(** From evidence to dispatch: what the recovery verifier proved about the
    action a dispatcher holds a claimed permit for. *)

From S2P Require Export RecoveryWitnesses PermitAuthority RecoveryProperties.

#[local] Open Scope Z_scope.

Section dispatch.
Context {rt : Runtime} {sec : Security} {store : ActionPermitStore}.

(** What must be proved of the chain before the permit [p] may be dispatched. *)
Definition transition_proved (chain : RecoveryChain) (envelope : ExecutionEnvelope)
  (evaluation : CoreEvaluation) (node : RecoveryActionNode) (p : ActionPermit)
  (admitted : list NormalizedEvidence) (succ : option ExecutionEnvelope) : Prop :=
  match action p with
  | RETRY =>
      ce_classification evaluation = NOT_COMMITTED
      ∧ Permit.semantic_action_sha256 p = sa_semantic_action_sha256 (rn_semantic_action node)
      ∧ admitted ≠ [] ∧ Forall (receipt_for (rn_semantic_action node)) admitted
      ∧ Forall (effect_settled admitted NOT_ESTABLISHED) (en_expected_effects envelope)
  | CONTINUE =>
      ce_classification evaluation = COMMITTED
      ∧ Forall (effect_settled admitted ESTABLISHED) (en_expected_effects envelope)
      ∧ ∃ profile supporting successor_envelope target target_profile,
          commit_observed profile (rn_semantic_action node) admitted
          ∧ succ = Some successor_envelope
          ∧ continues chain node profile supporting successor_envelope
              (action_permit_transition p) target target_profile
  end.

(** C11: nothing is dispatched without proof.  When the verifier issued a
    certificate for a node and a claim made with it returned a permit, whatever
    the permit store answered, the dispatch is bound to that permit, and: for a
    retry, every admitted evidence item is a trusted receipt that this very
    action never reached the provider; for a continuation, every expected
    effect of the node is established by provider readings and the permit's
    transition is to the node's successor, bound to its envelope. *)
Theorem dispatched_transition_proved chain node_id envelope report evaluation verified_at succ d p :
  verify_recovery chain node_id envelope report evaluation verified_at succ
    = Ok (CertificateResult (dq_certificate d)) →
  may_return (claim_for_dispatch d) p →
  dispatch_bound d p ∧
  ∃ node admitted, node ∈ rc_nodes chain ∧ rn_node_id node = node_id
    ∧ source_node_id p = node_id
    ∧ admitted_evidence envelope evaluation = Ok admitted
    ∧ transition_proved chain envelope evaluation node p admitted succ.
Proof.
  intros Hv Hp. apply claim_inv in Hp as [[Hcert Hbound _ _ _ _] _]. split; [done|].
  pose proof (cp_transition _ _ Hcert) as Ht. unfold transition_proved.
  destruct (action p) eqn:Ha.
  - destruct (continue_proved _ _ _ _ _ _ _ _ _ Hv Ht Ha)
      as (node & pr & admitted & sup & env & target & tp & Hin & Hid & Hpr & Hcl & Had & _ & He
          & Hobs & Hs & Hc).
    exists node, admitted. split; [done|]. split; [done|].
    split; [|split; [done|]].
    + pose proof (cn_transition _ _ _ _ _ _ _ _ Hc) as (_ & Hsrc & _). cbn in Hsrc. congruence.
    + split; [done|]. split; [done|]. by exists pr, sup, env, target, tp.
  - destruct (retry_proved _ _ _ _ _ _ _ _ _ Hv Ht Ha)
      as (node & admitted & Hin & Hid & Hsrc & _ & Hsha & _ & Hcl & Had & Hne & Hr & He).
    by exists node, admitted.
Qed.

End dispatch.

(** * A dispatch in the lab *)

(** A store that holds the permits of the certificate [c] and grants claims. *)
Definition granting_store (c : VerifiedCertificate) : ActionPermitStore :=
  let held := lift (permit ← action_permit_from_certificate c;
                    match permit with Some p => Ok p | None => refuse "no transition" end) in
  {| store_issue_permit p := mret p;
     store_get_permit _ := held;
     store_claim_permit rq :=
       p ← held; mret (claimed_copy p (rq_claim_id rq) (rq_requested_at rq));
     store_complete_permit _ := raise (PermitAuthorityError "not completed here") |}.

(** Runs a procedure that awaits nothing but the clock. *)
Definition clock_answer (t : datetime) {R} (op : hosted_op R) : option R :=
  match op with ReadClock => Some (Some t) | _ => None end.
Fixpoint at_time (t : datetime) {A} (m : hosted A) : option A :=
  match m with
  | Done (Ok a) => Some a
  | Done (Raise _) => None
  | Call op k => match clock_answer t op with Some r => at_time t (k r) | None => None end
  end.

Lemma at_time_returns t {A} (m : hosted A) a : at_time t m = Some a → may_return m a.
Proof.
  induction m as [[b|e]|R op k IH]; cbn; [by intros [= ->]|done|].
  destruct (clock_answer t op) as [r|]; [|done]. intros H. exists r. by apply IH.
Qed.

Definition record_retry_action : SemanticActionIdentity :=
  release_action CREATE_FIRESTORE_RELEASE_RECORD_PROFILE lab_document record_arguments
    record_effects.

Definition retry_of (c : VerifiedCertificate) : dispatch_request :=
  {| dq_permit_id := match action_permit_from_certificate c with
                     | Ok (Some p) => permit_id p | _ => "" end;
     dq_certificate := c; dq_semantic_action := record_retry_action;
     dq_tool_name := sa_tool_name record_retry_action;
     dq_tool_version := sa_tool_version record_retry_action;
     dq_arguments := record_arguments; dq_target := lab_document;
     dq_precondition := [("exists", JBool false)]; dq_claim_id := Some "claim-1" |}.

Definition retried (c : VerifiedCertificate) : option ActionPermit :=
  at_time (lab_time + 2 * second_us)
    (claim_for_dispatch (store := granting_store c) (retry_of c)).

Definition dispatched_retry
  (v : CoreEvaluation * InvestigationReport * RecoveryVerificationResult) : bool :=
  match v.2 with
  | CertificateResult c =>
      match retried c with Some p => bool_decide (action p = RETRY) | None => false end
  | WitnessResult _ => false
  end.

Lemma dispatched_release : ∃ ev report c p,
  verify_recovery lab_chain "record" record_envelope report ev (lab_time + second_us) None
    = Ok (CertificateResult c) ∧ retried c = Some p ∧ action p = RETRY.
Proof.
  destruct (ok_such (verify_release "record" record_envelope unrecorded None) dispatched_retry)
    as ([[ev report] v] & Hv & Hc); [vm_compute; reflexivity|].
  apply verify_release_inv in Hv. unfold dispatched_retry in Hc. cbn [snd] in Hc.
  destruct v as [c|]; [|discriminate Hc]. destruct (retried c) as [p|] eqn:Hp; [|discriminate Hc].
  apply bool_decide_eq_true in Hc. exists ev, report, c, p.
  split; [exact Hv|]. split; [exact Hp|exact Hc].
Qed.

#[local] Opaque verify_recovery lab_chain record_envelope.

Lemma dispatched_transition_proved_witness :
  ∃ ev p admitted, action p = RETRY ∧ ce_classification ev = NOT_COMMITTED
    ∧ admitted_evidence record_envelope ev = Ok admitted ∧ admitted ≠ [].
Proof.
  destruct dispatched_release as (ev & report & c & p & Hv & Hp & Ha).
  apply at_time_returns in Hp.
  destruct (dispatched_transition_proved (store := granting_store c) lab_chain "record"
    record_envelope report ev (lab_time + second_us) None (retry_of c) p Hv Hp)
    as (_ & node & admitted & _ & _ & _ & Had & Ht).
  unfold transition_proved in Ht. rewrite Ha in Ht. destruct Ht as (Hcl & _ & Hne & _).
  exists ev, p, admitted. split; [exact Ha|]. split; [exact Hcl|]. split; [exact Had|exact Hne].
Defined.
