(* ===== verification/RunContracts.v ===== *)
(** The public contracts of one recovery run (reconcile/contracts/recovery_run.py):
    requests, launch permits, prepared actions, action scopes, events and
    snapshots, with every model validator.

    Models are compared the way pydantic compares two models of one type: field
    by field with Python's [==], which is decided on their dumps ([model_eqb]). *)

From S2P Require Export RecoveryContracts.

#[local] Open Scope Z_scope.

Definition MAX_RECOVERY_RUN_EVENTS : Z := 512.

(** ** Data *)

Inductive RecoveryRunPolicy := BLIND_RETRY | BLIND_ABORT | FIXED | ADAPTIVE.
Inductive RecoveryRunFault :=
  | NO_FAULT | DROP_AFTER_ACCEPT | ACCEPTANCE_DROP_AFTER_ACCEPT_PARTIAL_READ_OUTAGE
  | SUPPRESS_BEFORE_DISPATCH.
Inductive RecoveryRunLifecycle :=
  | Run_ACCEPTED | Run_RUNNING | Run_COMPLETED | Run_ESCALATED | Run_FAILED | Run_CANCELLED.
Inductive RecoveryNodeState :=
  | Node_WAITING | Node_DISPATCH_PENDING | Node_DISPATCH_CLAIMED | Node_RECONCILING
  | Node_VERIFIED | Node_PERMITTED | Node_COMPLETED | Node_ESCALATED.
Inductive RecoveryDecision :=
  | Decide_CONTINUE | Decide_RETRY | Decide_OBSERVE | Decide_ESCALATE.
Inductive RecoveryHypothesisDisposition :=
  | SELECTED | NO_PROBE | DUPLICATE_PROBE | BUDGET_EXHAUSTED | UNSUPPORTED_PROBE
  | UNSUPPORTED_ACTION | INVALID_BINDING | MODEL_UNAVAILABLE | MODEL_TIMEOUT
  | MALFORMED_MODEL_OUTPUT | FIXED_FALLBACK.
Inductive RecoveryRunFailureCategory :=
  | Failure_CANCELLED | INVALID_DEFINITION | Failure_MODEL_UNAVAILABLE
  | EVIDENCE_UNAVAILABLE | DISPATCH_UNAVAILABLE | DURABLE_STATE_UNAVAILABLE
  | INTERNAL_FAILURE.
Inductive RecoveryLaunchPermitState := Launch_ISSUED | Launch_CLAIMED | Launch_COMPLETED.
Inductive RecoveryDispatchOutcome :=
  | Dispatch_SUCCEEDED | Dispatch_REJECTED | Dispatch_OUTCOME_UNKNOWN.
Inductive RecoveryAuthorityKind := LAUNCH_PERMIT_AUTHORITY | ACTION_PERMIT_AUTHORITY.
Inductive RecoveryRunEventType :=
  | Event_LIFECYCLE | Event_CHAIN | Event_NODE | Event_HYPOTHESIS | Event_EVIDENCE
  | Event_DECISION | Event_LAUNCH_PERMIT | Event_ACTION_PERMIT | Event_DISPATCH_RECEIPT.

#[export] Instance RecoveryRunPolicy_eq_dec : EqDecision RecoveryRunPolicy.
Proof. solve_decision. Defined.
#[export] Instance RecoveryRunFault_eq_dec : EqDecision RecoveryRunFault.
Proof. solve_decision. Defined.
#[export] Instance RecoveryRunLifecycle_eq_dec : EqDecision RecoveryRunLifecycle.
Proof. solve_decision. Defined.
#[export] Instance RecoveryNodeState_eq_dec : EqDecision RecoveryNodeState.
Proof. solve_decision. Defined.
#[export] Instance RecoveryDecision_eq_dec : EqDecision RecoveryDecision.
Proof. solve_decision. Defined.
#[export] Instance RecoveryHypothesisDisposition_eq_dec :
  EqDecision RecoveryHypothesisDisposition.
Proof. solve_decision. Defined.
#[export] Instance RecoveryRunFailureCategory_eq_dec : EqDecision RecoveryRunFailureCategory.
Proof. solve_decision. Defined.
#[export] Instance RecoveryLaunchPermitState_eq_dec : EqDecision RecoveryLaunchPermitState.
Proof. solve_decision. Defined.
#[export] Instance RecoveryDispatchOutcome_eq_dec : EqDecision RecoveryDispatchOutcome.
Proof. solve_decision. Defined.
#[export] Instance RecoveryAuthorityKind_eq_dec : EqDecision RecoveryAuthorityKind.
Proof. solve_decision. Defined.
#[export] Instance RecoveryRunEventType_eq_dec : EqDecision RecoveryRunEventType.
Proof. solve_decision. Defined.

Record RecoveryRunRequest := {
  rr_run_id : string;
  rr_scenario : string;
  rr_policy : RecoveryRunPolicy;
  rr_fault : RecoveryRunFault;
}.

Record RecoveryNodeProgress := {
  np_node_id : string;
  np_state : RecoveryNodeState;
  np_attempt : Z;
}.

Record RecoveryLaunchPermit := {
  lp_launch_permit_id : string;
  lp_run_id : string;
  lp_node_id : string;
  lp_semantic_action_sha256 : string;
  lp_action_request_sha256 : string;
  lp_issued_at : datetime;
  lp_state : RecoveryLaunchPermitState;
  lp_revision : Z;
  lp_claim_id : option string;
  lp_claimed_at : option datetime;
  lp_completed_at : option datetime;
  lp_outcome : option RecoveryDispatchOutcome;
}.

Record RecoveryPreparedAction := {
  prep_authority_kind : RecoveryAuthorityKind;
  prep_run_id : string;
  prep_chain_id : string;
  prep_source_node_id : string;
  prep_target_node_id : string;
  prep_semantic_action_sha256 : string;
  prep_tool_name : string;
  prep_tool_version : string;
  prep_arguments : json_object;
  prep_arguments_sha256 : string;
  prep_target : TargetBinding;
  prep_target_sha256 : string;
  prep_precondition : json_object;
  prep_precondition_sha256 : string;
  prep_request_payload : json_object;
  prep_action_request_sha256 : string;
  prep_permit_action : option PermitAction;
  prep_report_sha256 : option string;
  prep_certificate_id : option string;
  prep_certificate_sha256 : option string;
}.

Record RecoveryActionScope := {
  as_authority_kind : RecoveryAuthorityKind;
  as_run_id : string;
  as_source_node_id : string;
  as_target_node_id : string;
  as_semantic_action_sha256 : string;
  as_action_request_sha256 : string;
  as_authority_id : string;
  as_authority_sha256 : string;
  as_claim_id : string;
  as_permit_action : option PermitAction;
  as_certificate_id : option string;
  as_certificate_sha256 : option string;
}.

Record RecoveryRunEventPayload := {
  pd_lifecycle : option RecoveryRunLifecycle;
  pd_failure_category : option RecoveryRunFailureCategory;
  pd_chain : option RecoveryChain;
  pd_node : option RecoveryNodeProgress;
  pd_hypothesis : option GeminiHypothesis;
  pd_hypothesis_disposition : option RecoveryHypothesisDisposition;
  pd_report : option InvestigationReport;
  pd_decision : option RecoveryDecision;
  pd_certificate : option VerifiedCertificate;
  pd_witness : option AmbiguityWitness;
  pd_launch_permit : option RecoveryLaunchPermit;
  pd_action_permit : option ActionPermit;
  pd_dispatch_receipt : option RecoveryDispatchReceipt;
  pd_note : option string;
}.

(** [RecoveryRunEventPayload()] with nothing set. *)
Definition no_payload : RecoveryRunEventPayload :=
  {| pd_lifecycle := None; pd_failure_category := None; pd_chain := None; pd_node := None;
     pd_hypothesis := None; pd_hypothesis_disposition := None; pd_report := None;
     pd_decision := None; pd_certificate := None; pd_witness := None;
     pd_launch_permit := None; pd_action_permit := None; pd_dispatch_receipt := None;
     pd_note := None |}.
Definition lifecycle_payload (l : RecoveryRunLifecycle)
  (category : option RecoveryRunFailureCategory) : RecoveryRunEventPayload :=
  {| pd_lifecycle := Some l; pd_failure_category := category; pd_chain := None;
     pd_node := None; pd_hypothesis := None; pd_hypothesis_disposition := None;
     pd_report := None; pd_decision := None; pd_certificate := None; pd_witness := None;
     pd_launch_permit := None; pd_action_permit := None; pd_dispatch_receipt := None;
     pd_note := None |}.
Definition chain_payload (chain : RecoveryChain) : RecoveryRunEventPayload :=
  {| pd_lifecycle := None; pd_failure_category := None; pd_chain := Some chain;
     pd_node := None; pd_hypothesis := None; pd_hypothesis_disposition := None;
     pd_report := None; pd_decision := None; pd_certificate := None; pd_witness := None;
     pd_launch_permit := None; pd_action_permit := None; pd_dispatch_receipt := None;
     pd_note := None |}.
Definition launch_payload (permit : RecoveryLaunchPermit) : RecoveryRunEventPayload :=
  {| pd_lifecycle := None; pd_failure_category := None; pd_chain := None;
     pd_node := None; pd_hypothesis := None; pd_hypothesis_disposition := None;
     pd_report := None; pd_decision := None; pd_certificate := None; pd_witness := None;
     pd_launch_permit := Some permit; pd_action_permit := None;
     pd_dispatch_receipt := None; pd_note := None |}.

Record RecoveryRunEvent := {
  re_run_id : string;
  re_cursor : Z;
  re_type : RecoveryRunEventType;
  re_occurred_at : datetime;
  re_payload : RecoveryRunEventPayload;
}.

Record RecoveryRunSnapshot := {
  rs_request : RecoveryRunRequest;
  rs_request_sha256 : string;
  rs_lifecycle : RecoveryRunLifecycle;
  rs_event_cursor : Z;
  rs_revision : Z;
  rs_chain : RecoveryChain;
  rs_chain_sha256 : string;
  rs_active_node_id : option string;
  rs_nodes : list RecoveryNodeProgress;
  rs_hypotheses : list GeminiHypothesis;
  rs_reports : list InvestigationReport;
  rs_certificates : list VerifiedCertificate;
  rs_witnesses : list AmbiguityWitness;
  rs_launch_permit : option RecoveryLaunchPermit;
  rs_action_permits : list ActionPermit;
  rs_dispatch_receipts : list RecoveryDispatchReceipt;
  rs_decision : option RecoveryDecision;
  rs_failure_category : option RecoveryRunFailureCategory;
  rs_created_at : datetime;
  rs_updated_at : datetime;
}.

(** ** Wire forms *)

Definition RecoveryRunPolicy_value (p : RecoveryRunPolicy) : string :=
  match p with
  | BLIND_RETRY => "blind-retry" | BLIND_ABORT => "blind-abort"
  | FIXED => "fixed" | ADAPTIVE => "adaptive"
  end.
Definition RecoveryRunFault_value (f : RecoveryRunFault) : string :=
  match f with
  | NO_FAULT => "no-fault" | DROP_AFTER_ACCEPT => "drop-after-accept"
  | ACCEPTANCE_DROP_AFTER_ACCEPT_PARTIAL_READ_OUTAGE =>
      "acceptance-drop-after-accept-partial-read-outage"
  | SUPPRESS_BEFORE_DISPATCH => "suppress-before-dispatch"
  end.
Definition RecoveryRunLifecycle_value (l : RecoveryRunLifecycle) : string :=
  match l with
  | Run_ACCEPTED => "ACCEPTED" | Run_RUNNING => "RUNNING" | Run_COMPLETED => "COMPLETED"
  | Run_ESCALATED => "ESCALATED" | Run_FAILED => "FAILED" | Run_CANCELLED => "CANCELLED"
  end.
Definition RecoveryNodeState_value (s : RecoveryNodeState) : string :=
  match s with
  | Node_WAITING => "WAITING" | Node_DISPATCH_PENDING => "DISPATCH_PENDING"
  | Node_DISPATCH_CLAIMED => "DISPATCH_CLAIMED" | Node_RECONCILING => "RECONCILING"
  | Node_VERIFIED => "VERIFIED" | Node_PERMITTED => "PERMITTED"
  | Node_COMPLETED => "COMPLETED" | Node_ESCALATED => "ESCALATED"
  end.
Definition RecoveryDecision_value (d : RecoveryDecision) : string :=
  match d with
  | Decide_CONTINUE => "CONTINUE" | Decide_RETRY => "RETRY"
  | Decide_OBSERVE => "OBSERVE" | Decide_ESCALATE => "ESCALATE"
  end.
Definition RecoveryHypothesisDisposition_value (d : RecoveryHypothesisDisposition) : string :=
  match d with
  | SELECTED => "SELECTED" | NO_PROBE => "NO_PROBE" | DUPLICATE_PROBE => "DUPLICATE_PROBE"
  | BUDGET_EXHAUSTED => "BUDGET_EXHAUSTED" | UNSUPPORTED_PROBE => "UNSUPPORTED_PROBE"
  | UNSUPPORTED_ACTION => "UNSUPPORTED_ACTION" | INVALID_BINDING => "INVALID_BINDING"
  | MODEL_UNAVAILABLE => "MODEL_UNAVAILABLE" | MODEL_TIMEOUT => "MODEL_TIMEOUT"
  | MALFORMED_MODEL_OUTPUT => "MALFORMED_MODEL_OUTPUT" | FIXED_FALLBACK => "FIXED_FALLBACK"
  end.
Definition RecoveryRunFailureCategory_value (c : RecoveryRunFailureCategory) : string :=
  match c with
  | Failure_CANCELLED => "cancelled" | INVALID_DEFINITION => "invalid_definition"
  | Failure_MODEL_UNAVAILABLE => "model_unavailable"
  | EVIDENCE_UNAVAILABLE => "evidence_unavailable"
  | DISPATCH_UNAVAILABLE => "dispatch_unavailable"
  | DURABLE_STATE_UNAVAILABLE => "durable_state_unavailable"
  | INTERNAL_FAILURE => "internal_failure"
  end.
Definition RecoveryLaunchPermitState_value (s : RecoveryLaunchPermitState) : string :=
  match s with
  | Launch_ISSUED => "ISSUED" | Launch_CLAIMED => "CLAIMED" | Launch_COMPLETED => "COMPLETED"
  end.
Definition RecoveryDispatchOutcome_value (o : RecoveryDispatchOutcome) : string :=
  match o with
  | Dispatch_SUCCEEDED => "SUCCEEDED" | Dispatch_REJECTED => "REJECTED"
  | Dispatch_OUTCOME_UNKNOWN => "OUTCOME_UNKNOWN"
  end.
Definition RecoveryRunEventType_value (t : RecoveryRunEventType) : string :=
  match t with
  | Event_LIFECYCLE => "LIFECYCLE" | Event_CHAIN => "CHAIN" | Event_NODE => "NODE"
  | Event_HYPOTHESIS => "HYPOTHESIS" | Event_EVIDENCE => "EVIDENCE"
  | Event_DECISION => "DECISION" | Event_LAUNCH_PERMIT => "LAUNCH_PERMIT"
  | Event_ACTION_PERMIT => "ACTION_PERMIT" | Event_DISPATCH_RECEIPT => "DISPATCH_RECEIPT"
  end.
Definition RecoveryReceiptOutcome_value (o : RecoveryReceiptOutcome) : string :=
  match o with
  | PROVIDER_CONTACTED => "PROVIDER_CONTACTED"
  | SUPPRESSED_BEFORE_DISPATCH => "SUPPRESSED_BEFORE_DISPATCH"
  | REJECTED_BEFORE_PROVIDER_CONTACT => "REJECTED_BEFORE_PROVIDER_CONTACT"
  end.

(** A member of an enumeration, or [None]. *)
Definition opt_value_json {A} (value : A → string) (o : option A) : json :=
  match o with Some a => JStr (value a) | None => JNull end.

#[export] Instance RecoveryRunRequest_json : ToJson RecoveryRunRequest := λ m, JObj
  [("schema_version", JStr "reconcile/recovery-run-request/v1");
   ("run_id", JStr (rr_run_id m)); ("scenario", JStr (rr_scenario m));
   ("policy", JStr (RecoveryRunPolicy_value (rr_policy m)));
   ("fault", JStr (RecoveryRunFault_value (rr_fault m)))].

#[export] Instance RecoveryNodeProgress_json : ToJson RecoveryNodeProgress := λ m, JObj
  [("node_id", JStr (np_node_id m)); ("state", JStr (RecoveryNodeState_value (np_state m)));
   ("attempt", JInt (np_attempt m))].

#[export] Instance RecoveryLaunchPermit_json : ToJson RecoveryLaunchPermit := λ m, JObj
  [("schema_version", JStr "reconcile/recovery-launch-permit/v1");
   ("launch_permit_id", JStr (lp_launch_permit_id m)); ("run_id", JStr (lp_run_id m));
   ("node_id", JStr (lp_node_id m));
   ("semantic_action_sha256", JStr (lp_semantic_action_sha256 m));
   ("action_request_sha256", JStr (lp_action_request_sha256 m));
   ("issued_at", time_json (lp_issued_at m));
   ("state", JStr (RecoveryLaunchPermitState_value (lp_state m)));
   ("revision", JInt (lp_revision m)); ("claim_id", to_json (lp_claim_id m));
   ("claimed_at", opt_time_json (lp_claimed_at m));
   ("completed_at", opt_time_json (lp_completed_at m));
   ("outcome", opt_value_json RecoveryDispatchOutcome_value (lp_outcome m))].

#[export] Instance HypothesisMissingEvidence_json : ToJson HypothesisMissingEvidence := λ m,
  JObj [("effect_ids", to_json (hm_effect_ids m)); ("reason", JStr (hm_reason m))].

#[export] Instance ProposedTransition_json : ToJson ProposedTransition := λ m, JObj
  [("action", JStr (PermitAction_value (pt_action m)));
   ("source_node_id", JStr (pt_source_node_id m));
   ("target_node_id", JStr (pt_target_node_id m)); ("rationale", JStr (pt_rationale m))].

#[export] Instance GeminiHypothesis_json : ToJson GeminiHypothesis := λ m, JObj
  [("schema_version", JStr "reconcile/gemini-hypothesis/v1");
   ("hypothesis_id", JStr (gh_hypothesis_id m)); ("chain_id", JStr (gh_chain_id m));
   ("node_id", JStr (gh_node_id m));
   ("semantic_action_sha256", JStr (gh_semantic_action_sha256 m));
   ("report_sha256", JStr (gh_report_sha256 m));
   ("proposed_classification", JStr (Classification_value (gh_proposed_classification m)));
   ("effect_hypotheses", to_json (gh_effect_hypotheses m));
   ("cited_evidence_ids", to_json (gh_cited_evidence_ids m));
   ("confidence_basis_points", JInt (gh_confidence_basis_points m));
   ("alternative_histories", to_json (gh_alternative_histories m));
   ("missing_evidence", to_json (gh_missing_evidence m));
   ("proposed_probe", to_json (gh_proposed_probe m));
   ("proposed_transition", to_json (gh_proposed_transition m));
   ("explanation", JStr (gh_explanation m)); ("created_at", time_json (gh_created_at m))].

#[export] Instance AmbiguityWitness_json : ToJson AmbiguityWitness := λ m, JObj
  [("schema_version", JStr "reconcile/ambiguity-witness/v1");
   ("witness_id", JStr (aw_witness_id m)); ("chain_id", JStr (aw_chain_id m));
   ("node_id", JStr (aw_node_id m));
   ("semantic_action_sha256", JStr (aw_semantic_action_sha256 m));
   ("chain_sha256", JStr (aw_chain_sha256 m)); ("node_sha256", JStr (aw_node_sha256 m));
   ("envelope_sha256", JStr (aw_envelope_sha256 m));
   ("report_sha256", JStr (aw_report_sha256 m)); ("proof_sha256", JStr (aw_proof_sha256 m));
   ("target", to_json (aw_target m)); ("target_sha256", JStr (aw_target_sha256 m));
   ("evidence", to_json (aw_evidence m));
   ("possible_histories", to_json (aw_possible_histories m));
   ("discriminating_observations", to_json (aw_discriminating_observations m));
   ("conflicting_evidence_ids", to_json (aw_conflicting_evidence_ids m));
   ("verifier_version", JStr (aw_verifier_version m));
   ("created_at", time_json (aw_created_at m))].

#[export] Instance RecoveryDispatchReceipt_json : ToJson RecoveryDispatchReceipt := λ m, JObj
  [("schema_version", JStr "reconcile/recovery-dispatch-receipt/v1");
   ("receipt_id", JStr (dr_receipt_id m)); ("run_id", JStr (dr_run_id m));
   ("release_id", JStr (dr_release_id m)); ("node_id", JStr (dr_node_id m));
   ("semantic_action_sha256", JStr (dr_semantic_action_sha256 m));
   ("action_request_sha256", JStr (dr_action_request_sha256 m));
   ("authority_id", JStr (dr_authority_id m)); ("claim_id", JStr (dr_claim_id m));
   ("attempt", JInt (dr_attempt m)); ("provider_contact", JBool (dr_provider_contact m));
   ("outcome", JStr (RecoveryReceiptOutcome_value (dr_outcome m)));
   ("recorded_at", time_json (dr_recorded_at m))].

#[export] Instance RecoveryRunEventPayload_json : ToJson RecoveryRunEventPayload := λ m, JObj
  [("lifecycle", opt_value_json RecoveryRunLifecycle_value (pd_lifecycle m));
   ("failure_category", opt_value_json RecoveryRunFailureCategory_value (pd_failure_category m));
   ("chain", to_json (pd_chain m)); ("node", to_json (pd_node m));
   ("hypothesis", to_json (pd_hypothesis m));
   ("hypothesis_disposition",
      opt_value_json RecoveryHypothesisDisposition_value (pd_hypothesis_disposition m));
   ("report", to_json (pd_report m));
   ("decision", opt_value_json RecoveryDecision_value (pd_decision m));
   ("certificate", to_json (pd_certificate m)); ("witness", to_json (pd_witness m));
   ("launch_permit", to_json (pd_launch_permit m));
   ("action_permit", to_json (pd_action_permit m));
   ("dispatch_receipt", to_json (pd_dispatch_receipt m)); ("note", to_json (pd_note m))].

#[export] Instance RecoveryRunEvent_json : ToJson RecoveryRunEvent := λ m, JObj
  [("schema_version", JStr "reconcile/recovery-run-event/v1");
   ("run_id", JStr (re_run_id m)); ("cursor", JInt (re_cursor m));
   ("type", JStr (RecoveryRunEventType_value (re_type m)));
   ("occurred_at", time_json (re_occurred_at m)); ("payload", to_json (re_payload m))].

#[export] Instance RecoveryRunSnapshot_json : ToJson RecoveryRunSnapshot := λ m, JObj
  [("schema_version", JStr "reconcile/recovery-run-snapshot/v1");
   ("request", to_json (rs_request m)); ("request_sha256", JStr (rs_request_sha256 m));
   ("lifecycle", JStr (RecoveryRunLifecycle_value (rs_lifecycle m)));
   ("event_cursor", JInt (rs_event_cursor m)); ("revision", JInt (rs_revision m));
   ("chain", to_json (rs_chain m)); ("chain_sha256", JStr (rs_chain_sha256 m));
   ("active_node_id", to_json (rs_active_node_id m)); ("nodes", to_json (rs_nodes m));
   ("hypotheses", to_json (rs_hypotheses m)); ("reports", to_json (rs_reports m));
   ("certificates", to_json (rs_certificates m)); ("witnesses", to_json (rs_witnesses m));
   ("launch_permit", to_json (rs_launch_permit m));
   ("action_permits", to_json (rs_action_permits m));
   ("dispatch_receipts", to_json (rs_dispatch_receipts m));
   ("decision", opt_value_json RecoveryDecision_value (rs_decision m));
   ("failure_category",
      opt_value_json RecoveryRunFailureCategory_value (rs_failure_category m));
   ("created_at", time_json (rs_created_at m)); ("updated_at", time_json (rs_updated_at m))].

(** [left == right] for two models of one type. *)
Definition model_eqb `{ToJson A} (left right : A) : bool :=
  py_eqb (to_json left) (to_json right).

(** ** Validators *)

Section validators.
Context {rt : Runtime} {sec : Security}.

(** [re.fullmatch(r"p5w-fixed-[0-9a-f]{32}", run_id)] *)
Definition sealed_run_id (s : string) : bool :=
  bool_decide (String.substring 0 10 s = "p5w-fixed-")
  && (String.length s =? 42)%nat
  && string_forallb is_hex_digit (String.substring 10 32 s).

(** [RecoveryRunRequest.validate_acceptance_fault] *)
Definition validate_run_request (self : RecoveryRunRequest) : result py_error unit :=
  reject_if (negb (bool_decide (rr_scenario self = "cloud-run-rollout")))
    (ValueError "scenario is not the declared one");;
  if negb (bool_decide (rr_fault self = ACCEPTANCE_DROP_AFTER_ACCEPT_PARTIAL_READ_OUTAGE))
  then Ok tt else
  reject_if (negb (bool_decide (rr_policy self = FIXED)))
    (ValueError "partial-read acceptance fault requires fixed policy");;
  reject_if (negb (sealed_run_id (rr_run_id self)))
    (ValueError "partial-read acceptance fault requires a sealed run id").

Definition validate_progress (self : RecoveryNodeProgress) : result py_error unit :=
  reject_if (negb (in_range 0 (np_attempt self) 2)) (ValueError "attempt is outside its range").

(** [RecoveryLaunchPermit.validate_lifecycle] *)
Definition launch_fields_match (self : RecoveryLaunchPermit) : bool :=
  match lp_state self with
  | Launch_ISSUED =>
      (lp_revision self =? 0) && is_none (lp_claim_id self) && is_none (lp_claimed_at self)
      && is_none (lp_completed_at self) && is_none (lp_outcome self)
  | Launch_CLAIMED =>
      (lp_revision self =? 1) && is_some (lp_claim_id self) && is_some (lp_claimed_at self)
      && is_none (lp_completed_at self) && is_none (lp_outcome self)
  | Launch_COMPLETED =>
      (lp_revision self =? 2) && is_some (lp_claim_id self) && is_some (lp_claimed_at self)
      && is_some (lp_completed_at self) && is_some (lp_outcome self)
      && match lp_completed_at self, lp_claimed_at self with
         | Some done, Some claimed => claimed <=? done
         | _, _ => false
         end
  end.
Definition validate_launch_permit (self : RecoveryLaunchPermit) : result py_error unit :=
  reject_if (negb (in_range 0 (lp_revision self) 2)) (ValueError "revision is outside its range");;
  match lp_claim_id self with Some id => validate_Identifier id | None => Ok tt end;;
  reject_if (negb (launch_fields_match self))
    (ValueError "launch permit fields do not match lifecycle state").

(** A retry stays at its node and a continuation leaves it; the proof is there
    exactly when a permit, not a launch, is the authority. *)
Definition authority_consistent (kind : RecoveryAuthorityKind) (source target : string)
  (action : option PermitAction) (proof : list (option string)) : bool :=
  match kind with
  | LAUNCH_PERMIT_AUTHORITY =>
      bool_decide (source = target) && is_none action && forallb is_none proof
  | ACTION_PERMIT_AUTHORITY =>
      is_some action && forallb is_some proof
      && ((bool_decide (action = Some RETRY) && bool_decide (source = target))
          || (bool_decide (action = Some CONTINUE) && negb (bool_decide (source = target))))
  end.

(** [ArgumentsObject] and [NonEmptySmallJsonObject] *)
Definition bounded_object (low high : Z) (m : json_object) : result py_error unit :=
  bounded_length low high m "JSON object";;
  validate_json 0 (JObj m).

Definition object_sha256 (m : json_object) : result py_error string :=
  payload ← canonical_json_value_bytes (JObj m); Ok (sha256_hex payload).

(** [RecoveryPreparedAction.validate_bindings] *)
Definition validate_prepared_action (self : RecoveryPreparedAction) : result py_error unit :=
  bounded_object 0 64 (prep_arguments self);;
  validate_TargetBinding (prep_target self);;
  bounded_object 1 32 (prep_precondition self);;
  bounded_object 1 32 (prep_request_payload self);;
  for_each (λ m, reject_sensitive_keys (JObj m);; reject_sensitive_values (JObj m))
    [prep_arguments self; prep_precondition self; prep_request_payload self];;
  arguments_sha ← object_sha256 (prep_arguments self);
  precondition_sha ← object_sha256 (prep_precondition self);
  request_sha ← object_sha256 (prep_request_payload self);
  reject_if (negb (bool_decide (prep_arguments_sha256 self = arguments_sha))
             || negb (bool_decide (prep_target_sha256 self = canonical_sha256 (prep_target self)))
             || negb (bool_decide (prep_precondition_sha256 self = precondition_sha))
             || negb (bool_decide (prep_action_request_sha256 self = request_sha)))
    (ValueError "prepared recovery action digest does not match its value");;
  reject_if (negb (authority_consistent (prep_authority_kind self) (prep_source_node_id self)
               (prep_target_node_id self) (prep_permit_action self)
               [prep_report_sha256 self; prep_certificate_id self; prep_certificate_sha256 self]))
    (ValueError "prepared recovery action authority is inconsistent").

(** [RecoveryActionScope.validate_authority] *)
Definition validate_action_scope (self : RecoveryActionScope) : result py_error unit :=
  reject_if (negb (authority_consistent (as_authority_kind self) (as_source_node_id self)
               (as_target_node_id self) (as_permit_action self)
               [as_certificate_id self; as_certificate_sha256 self]))
    (ValueError "recovery action scope authority fields are inconsistent").

(** *** Events *)

Definition optionally {A} (check : A → result py_error unit) (o : option A)
  : result py_error unit :=
  match o with Some a => check a | None => Ok tt end.

Definition validate_certificate_model (c : VerifiedCertificate) : result py_error unit :=
  model_validate_certificate c;; Ok tt.
Definition validate_report_model (r : InvestigationReport) : result py_error unit :=
  model_validate_report r;; Ok tt.

(** The models inside a [RecoveryRunEventPayload]. *)
Definition validate_payload_models (p : RecoveryRunEventPayload) : result py_error unit :=
  optionally validate_RecoveryChain (pd_chain p);;
  optionally validate_progress (pd_node p);;
  optionally validate_hypothesis (pd_hypothesis p);;
  optionally validate_report_model (pd_report p);;
  optionally validate_certificate_model (pd_certificate p);;
  optionally validate_witness (pd_witness p);;
  optionally validate_launch_permit (pd_launch_permit p);;
  optionally validate_lifecycle (pd_action_permit p);;
  optionally validate_contact (pd_dispatch_receipt p).

(** The names of the fields of a payload that are set. *)
Definition set_fields (p : RecoveryRunEventPayload) : list string :=
  map fst (filter (λ f, f.2 = true)
    [("lifecycle", is_some (pd_lifecycle p)); ("failure_category", is_some (pd_failure_category p));
     ("chain", is_some (pd_chain p)); ("node", is_some (pd_node p));
     ("hypothesis", is_some (pd_hypothesis p));
     ("hypothesis_disposition", is_some (pd_hypothesis_disposition p));
     ("report", is_some (pd_report p)); ("decision", is_some (pd_decision p));
     ("certificate", is_some (pd_certificate p)); ("witness", is_some (pd_witness p));
     ("launch_permit", is_some (pd_launch_permit p));
     ("action_permit", is_some (pd_action_permit p));
     ("dispatch_receipt", is_some (pd_dispatch_receipt p)); ("note", is_some (pd_note p))]).

Definition base_fields (t : RecoveryRunEventType) : list string :=
  match t with
  | Event_LIFECYCLE => ["lifecycle"]
  | Event_CHAIN => ["chain"]
  | Event_NODE => ["node"]
  | Event_HYPOTHESIS => ["hypothesis_disposition"; "note"]
  | Event_EVIDENCE => ["report"]
  | Event_DECISION => ["decision"]
  | Event_LAUNCH_PERMIT => ["launch_permit"]
  | Event_ACTION_PERMIT => ["action_permit"]
  | Event_DISPATCH_RECEIPT => ["dispatch_receipt"]
  end.

Definition failed_lifecycle (l : option RecoveryRunLifecycle) : bool :=
  bool_decide (l = Some Run_FAILED) || bool_decide (l = Some Run_CANCELLED).

Definition requires_hypothesis (d : option RecoveryHypothesisDisposition) : bool :=
  match d with
  | Some (SELECTED | NO_PROBE | DUPLICATE_PROBE | BUDGET_EXHAUSTED | UNSUPPORTED_PROBE
         | UNSUPPORTED_ACTION | INVALID_BINDING) => true
  | _ => false
  end.

(** The decisions a certificate supports. *)
Definition valid_decisions (c : VerifiedCertificate) : result py_error (list RecoveryDecision) :=
  match vc_transition c with
  | Some t => Ok [match ct_action t with CONTINUE => Decide_CONTINUE | RETRY => Decide_RETRY end]
  | None =>
      match vc_classification c with
      | COMMITTED => Ok [Decide_CONTINUE; Decide_ESCALATE]
      | NOT_COMMITTED => Ok [Decide_ESCALATE]
      | PARTIAL => Ok [Decide_ESCALATE]
      | PENDING => Ok [Decide_OBSERVE; Decide_ESCALATE]
      | UNKNOWN => Raise (KeyError "UNKNOWN")
      end
  end.

(** The fields an event of its type must have set. *)
Definition expected_fields (t : RecoveryRunEventType) (p : RecoveryRunEventPayload)
  : result py_error (list string) :=
  match t with
  | Event_LIFECYCLE =>
      let failed := failed_lifecycle (pd_lifecycle p) in
      reject_if (negb (eqb failed (is_some (pd_failure_category p))))
        (ValueError "failed lifecycle events require one failure category");;
      Ok (base_fields t ++ if failed then ["failure_category"] else [])
  | Event_HYPOTHESIS =>
      let required := requires_hypothesis (pd_hypothesis_disposition p) in
      reject_if (negb (eqb required (is_some (pd_hypothesis p))))
        (ValueError "hypothesis disposition does not match its model artifact");;
      Ok (base_fields t ++ if required then ["hypothesis"] else [])
  | Event_DECISION =>
      reject_if (eqb (is_some (pd_certificate p)) (is_some (pd_witness p)))
        (ValueError "a recovery decision requires one proof artifact");;
      match pd_certificate p with
      | Some certificate =>
          decisions ← valid_decisions certificate;
          reject_if (negb (match pd_decision p with
                           | Some d => inb d decisions | None => false end))
            (ValueError "certificate does not support the recovery decision");;
          Ok (base_fields t ++ ["certificate"])
      | None =>
          reject_if (negb (bool_decide (pd_decision p = Some Decide_ESCALATE)))
            (ValueError "an ambiguity witness requires escalation");;
          Ok (base_fields t ++ ["witness"])
      end
  | _ => Ok (base_fields t)
  end.

(** [RecoveryRunEvent(...)] *)
Definition validate_run_event (self : RecoveryRunEvent) : result py_error unit :=
  reject_if (negb (in_range 1 (re_cursor self) MAX_RECOVERY_RUN_EVENTS))
    (ValueError "event cursor is outside its range");;
  validate_payload_models (re_payload self);;
  expected ← expected_fields (re_type self) (re_payload self);
  reject_if (negb (same_set (set_fields (re_payload self)) expected))
    (ValueError "recovery event type does not match its payload").

End validators.
