(* ===== verification/RunSnapshot.v ===== *)
(** [RecoveryRunSnapshot] (reconcile/contracts/recovery_run.py): the bindings a
    public snapshot of a run must have, check by check. *)

From S2P Require Export RunContracts.

#[local] Open Scope Z_scope.

Section snapshot.
Context {rt : Runtime} {sec : Security}.

Definition terminal_lifecycle (l : RecoveryRunLifecycle) : bool :=
  match l with
  | Run_COMPLETED | Run_ESCALATED | Run_FAILED | Run_CANCELLED => true
  | _ => false
  end.

Definition chain_node_ids (s : RecoveryRunSnapshot) : list string :=
  map rn_node_id (rc_nodes (rs_chain s)).

(** [chain_nodes.get(node_id)] of the dict built from the chain. *)
Definition chain_node (s : RecoveryRunSnapshot) (id : string) : option RecoveryActionNode :=
  dict_get id (dict_of (map (λ n, (rn_node_id n, n)) (rc_nodes (rs_chain s)))).

(** The models inside a snapshot and the bounds of its fields. *)
Definition validate_snapshot_models (self : RecoveryRunSnapshot) : result py_error unit :=
  validate_run_request (rs_request self);;
  reject_if (negb (in_range 1 (rs_event_cursor self) MAX_RECOVERY_RUN_EVENTS))
    (ValueError "event cursor is outside its range");;
  reject_if (negb (in_range 0 (rs_revision self) (MAX_RECOVERY_RUN_EVENTS - 1)))
    (ValueError "revision is outside its range");;
  validate_RecoveryChain (rs_chain self);;
  bounded_length 1 32 (rs_nodes self) "node collection";;
  for_each validate_progress (rs_nodes self);;
  bounded_length 0 64 (rs_hypotheses self) "hypothesis collection";;
  for_each validate_hypothesis (rs_hypotheses self);;
  bounded_length 0 64 (rs_reports self) "report collection";;
  for_each validate_report_model (rs_reports self);;
  bounded_length 0 32 (rs_certificates self) "certificate collection";;
  for_each validate_certificate_model (rs_certificates self);;
  bounded_length 0 32 (rs_witnesses self) "witness collection";;
  for_each validate_witness (rs_witnesses self);;
  optionally validate_launch_permit (rs_launch_permit self);;
  bounded_length 0 32 (rs_action_permits self) "permit collection";;
  for_each validate_lifecycle (rs_action_permits self);;
  bounded_length 0 64 (rs_dispatch_receipts self) "receipt collection";;
  for_each validate_contact (rs_dispatch_receipts self).

(** *** Identity, progress and disposition *)

Definition validate_progress_binding (self : RecoveryRunSnapshot) : result py_error unit :=
  reject_if (negb (bool_decide (rs_request_sha256 self = canonical_sha256 (rs_request self))))
    (ValueError "recovery request digest does not match");;
  reject_if (negb (bool_decide (rs_chain_sha256 self = canonical_sha256 (rs_chain self))))
    (ValueError "recovery chain digest does not match");;
  reject_if (negb (rs_revision self =? rs_event_cursor self - 1))
    (ValueError "recovery revision must follow the event cursor");;
  reject_if (negb (bool_decide (map np_node_id (rs_nodes self) = chain_node_ids self)))
    (ValueError "recovery node progress must match the declared chain");;
  reject_if (match rs_active_node_id self with
             | Some id => negb (inb id (map np_node_id (rs_nodes self))) | None => false end)
    (ValueError "active recovery node is not declared");;
  reject_if (rs_updated_at self <? rs_created_at self)
    (ValueError "recovery update cannot precede creation");;
  reject_if (terminal_lifecycle (rs_lifecycle self)
             && is_none (rs_decision self) && is_none (rs_failure_category self))
    (ValueError "terminal recovery state requires a disposition");;
  reject_if (is_some (rs_failure_category self)
             && negb (failed_lifecycle (Some (rs_lifecycle self))))
    (ValueError "failure category requires a failed recovery state").

(** *** Permits and receipts *)

Definition launch_bound (self : RecoveryRunSnapshot) (launch : RecoveryLaunchPermit) : bool :=
  match rc_nodes (rs_chain self) with
  | first :: _ =>
      bool_decide (lp_run_id launch = rr_run_id (rs_request self))
      && bool_decide (lp_node_id launch = rn_node_id first)
      && bool_decide (lp_semantic_action_sha256 launch
           = sa_semantic_action_sha256 (rn_semantic_action first))
  | [] => false
  end.

Definition permit_in_chain (self : RecoveryRunSnapshot) (permit : ActionPermit) : bool :=
  bool_decide (chain_id permit = rc_chain_id (rs_chain self))
  && inb (source_node_id permit) (chain_node_ids self)
  && inb (target_node_id permit) (chain_node_ids self).

(** The receipt is of this run and of the action of its node. *)
Definition receipt_in_chain (self : RecoveryRunSnapshot) (receipt : RecoveryDispatchReceipt)
  : bool :=
  bool_decide (dr_run_id receipt = rr_run_id (rs_request self))
  && inb (dr_node_id receipt) (chain_node_ids self)
  && match chain_node self (dr_node_id receipt) with
     | Some node =>
         bool_decide (dict_get "release_id" (sa_semantic_arguments (rn_semantic_action node))
           = Some (JStr (dr_release_id receipt)))
         && bool_decide (dr_semantic_action_sha256 receipt
              = sa_semantic_action_sha256 (rn_semantic_action node))
     | None => false
     end.

(** The launch permit a receipt was dispatched under, but for its action. *)
Definition launch_authority (launch : option RecoveryLaunchPermit)
  (receipt : RecoveryDispatchReceipt) : bool :=
  match launch with
  | Some launch =>
      (bool_decide (lp_state launch = Launch_CLAIMED)
       || bool_decide (lp_state launch = Launch_COMPLETED))
      && bool_decide (lp_launch_permit_id launch = dr_authority_id receipt)
      && bool_decide (lp_claim_id launch = Some (dr_claim_id receipt))
      && bool_decide (lp_node_id launch = dr_node_id receipt)
      && bool_decide (lp_action_request_sha256 launch = dr_action_request_sha256 receipt)
      && match lp_claimed_at launch with
         | Some at_ => at_ <=? dr_recorded_at receipt | None => false end
  | None => false
  end.

(** The action permit a receipt was dispatched under. *)
Definition action_authority (receipt : RecoveryDispatchReceipt) (permit : ActionPermit) : bool :=
  (bool_decide (state permit = CLAIMED) || bool_decide (state permit = COMPLETED))
  && bool_decide (permit_id permit = dr_authority_id receipt)
  && bool_decide (claim_id permit = Some (dr_claim_id receipt))
  && bool_decide (target_node_id permit = dr_node_id receipt)
  && bool_decide (Permit.semantic_action_sha256 permit = dr_semantic_action_sha256 receipt)
  && match claimed_at permit with
     | Some at_ => at_ <=? dr_recorded_at receipt | None => false end.

(** Exactly one authority covers the receipt, and its attempt is the second one
    exactly for a retry. *)
Definition receipt_authorized (launch_match : bool) (permits : list ActionPermit)
  (receipt : RecoveryDispatchReceipt) : bool :=
  let matches := List.filter (action_authority receipt) permits in
  let retry := match matches with [p] => bool_decide (action p = RETRY) | _ => false end in
  (Z.b2z launch_match + Z.of_nat (length matches) =? 1)
  && (dr_attempt receipt =? if retry then 2 else 1).

Definition validate_authorities (self : RecoveryRunSnapshot) : result py_error unit :=
  reject_if (match rs_launch_permit self with
             | Some launch => negb (launch_bound self launch) | None => false end)
    (ValueError "launch permit is not bound to the first chain node");;
  reject_if (existsb (λ p, negb (permit_in_chain self p)) (rs_action_permits self))
    (ValueError "action permit is not bound to this recovery chain");;
  reject_if (has_dup (map dr_receipt_id (rs_dispatch_receipts self)))
    (ValueError "dispatch receipt identifiers must be unique");;
  reject_if (existsb (λ r, negb (receipt_in_chain self r)) (rs_dispatch_receipts self))
    (ValueError "dispatch receipt is not bound to this recovery chain");;
  for_each (λ receipt, reject_if
      (negb (receipt_authorized (launch_authority (rs_launch_permit self) receipt)
               (rs_action_permits self) receipt))
      (ValueError "dispatch receipt lacks matching claimed authority"))
    (rs_dispatch_receipts self).

(** *** Proof artifacts *)

Definition artifact_bound (self : RecoveryRunSnapshot)
  (chain_id node_id report_sha256 semantic_action_sha256 : string) : bool :=
  bool_decide (chain_id = rc_chain_id (rs_chain self))
  && inb node_id (chain_node_ids self)
  && inb report_sha256 (map canonical_sha256 (rs_reports self))
  && match chain_node self node_id with
     | Some node =>
         bool_decide (semantic_action_sha256
           = sa_semantic_action_sha256 (rn_semantic_action node))
     | None => false
     end.

Definition proof_bound (self : RecoveryRunSnapshot)
  (chain_sha256 node_id node_sha256 envelope_sha256 : string) (target : TargetBinding) : bool :=
  match chain_node self node_id with
  | Some node =>
      bool_decide (chain_sha256 = rs_chain_sha256 self)
      && bool_decide (node_sha256 = canonical_sha256 node)
      && bool_decide (envelope_sha256 = er_envelope_sha256 (rn_envelope node))
      && target_eqb target (sa_target (rn_semantic_action node))
  | None => false
  end.

(** The permit is the one the certificate's transition allows. *)
Definition permit_of_certificate (permit : ActionPermit) (c : VerifiedCertificate) : bool :=
  match vc_transition c with
  | Some t =>
      bool_decide (vc_certificate_id c = certificate_id permit)
      && bool_decide (chain_id permit = vc_chain_id c)
      && bool_decide (source_node_id permit = ct_source_node_id t)
      && bool_decide (target_node_id permit = ct_target_node_id t)
      && bool_decide (Permit.semantic_action_sha256 permit = ct_semantic_action_sha256 t)
      && bool_decide (action permit = ct_action t)
      && bool_decide (action_policy_version permit = vc_action_policy_version c)
      && bool_decide (tool_name permit = ct_tool_name t)
      && bool_decide (tool_version permit = ct_tool_version t)
      && bool_decide (arguments_sha256 permit = ct_arguments_sha256 t)
      && bool_decide (target_sha256 permit = ct_target_sha256 t)
      && bool_decide (precondition_sha256 permit = ct_precondition_sha256 t)
      && (expires_at permit =? vc_expires_at c)
  | None => false
  end.

Definition validate_artifacts (self : RecoveryRunSnapshot) : result py_error unit :=
  reject_if
    (existsb (λ c, negb (artifact_bound self (vc_chain_id c) (vc_node_id c)
        (vc_report_sha256 c) (vc_semantic_action_sha256 c))) (rs_certificates self)
     || existsb (λ w, negb (artifact_bound self (aw_chain_id w) (aw_node_id w)
        (aw_report_sha256 w) (aw_semantic_action_sha256 w))) (rs_witnesses self)
     || existsb (λ h, negb (artifact_bound self (gh_chain_id h) (gh_node_id h)
        (gh_report_sha256 h) (gh_semantic_action_sha256 h))) (rs_hypotheses self))
    (ValueError "recovery artifact is not bound to this chain");;
  reject_if
    (existsb (λ c, negb (proof_bound self (vc_chain_sha256 c) (vc_node_id c)
        (vc_node_sha256 c) (vc_envelope_sha256 c) (vc_target c))) (rs_certificates self)
     || existsb (λ w, negb (proof_bound self (aw_chain_sha256 w) (aw_node_id w)
        (aw_node_sha256 w) (aw_envelope_sha256 w) (aw_target w))) (rs_witnesses self))
    (ValueError "recovery proof binding changed");;
  reject_if (existsb (λ p, negb (existsb (permit_of_certificate p) (rs_certificates self)))
               (rs_action_permits self))
    (ValueError "action permit is not bound to its certificate").

Definition validate_end (self : RecoveryRunSnapshot) : result py_error unit :=
  reject_if (bool_decide (rs_lifecycle self = Run_COMPLETED)
             && existsb (λ n, negb (bool_decide (np_state n = Node_COMPLETED))) (rs_nodes self))
    (ValueError "completed recovery requires every node to complete");;
  reject_if (bool_decide (rs_lifecycle self = Run_ESCALATED)
             && bool_decide (length (rs_witnesses self) = O)
             && negb (existsb (λ c, is_none (vc_transition c)) (rs_certificates self)))
    (ValueError "escalated recovery requires a non-authorizing proof").

(** [RecoveryRunSnapshot(...)]: the fields, then [validate_snapshot]. *)
Definition validate_snapshot (self : RecoveryRunSnapshot) : result py_error unit :=
  validate_progress_binding self;;
  validate_authorities self;;
  validate_artifacts self;;
  validate_end self.
Definition construct_run_snapshot (self : RecoveryRunSnapshot) : result py_error RecoveryRunSnapshot :=
  validate_snapshot_models self;;
  validate_snapshot self;;
  Ok self.

End snapshot.
