(* ===== verification/RunEvents.v ===== *)
(** The event-sourced state of a recovery run (reconcile/persistence/recovery_runs.py):
    the projection of one event on the public snapshot, aggregates of a snapshot
    and its whole history, and the launch permit's claim and completion.

    The timestamps a caller passes are aware, as [_aware] demands. *)

From S2P Require Export RunSnapshot PermitLifecycle.

#[local] Open Scope Z_scope.

(** [RecoveryRunStoreError] and its subclasses, and the built-in exceptions. *)
Inductive run_error :=
  | RecoveryRunNotFound (run_id : string)
  | RecoveryRunConflict (run_id : string)
  | RecoveryRunCorruptState (run_id : option string)
  | RecoveryRunStoreUnavailable
  | RecoveryRunEventTooLarge
  | RecoveryLaunchClaimDenied (run_id : string)
  | RunAssertionError
  | RunPyError (error : py_error).

(** A constructor of a contract, called by the store. *)
Definition built {A} (r : result py_error A) : result run_error A := map_error RunPyError r.

Definition is_terminal_recovery_run (l : RecoveryRunLifecycle) : bool := terminal_lifecycle l.

(** [assert value is not None] *)
Definition assert_some {A} (o : option A) : result run_error A :=
  match o with Some a => Ok a | None => Raise RunAssertionError end.

Section events.
Context {rt : Runtime} {sec : Security}.

Definition run_id_of (s : RecoveryRunSnapshot) : string := rr_run_id (rs_request s).

(** ** Creation *)

Definition run_event (run_id : string) (cursor : Z) (type : RecoveryRunEventType)
  (occurred_at : datetime) (payload : RecoveryRunEventPayload) : RecoveryRunEvent :=
  {| re_run_id := run_id; re_cursor := cursor; re_type := type;
     re_occurred_at := occurred_at; re_payload := payload |}.

Definition initial_event_pair (run_id : string) (chain : RecoveryChain) (created_at : datetime)
  : list RecoveryRunEvent :=
  [run_event run_id 1 Event_LIFECYCLE created_at (lifecycle_payload Run_ACCEPTED None);
   run_event run_id 2 Event_CHAIN created_at (chain_payload chain)].

Definition _initial_events (run_id : string) (chain : RecoveryChain) (created_at : datetime)
  : result py_error (list RecoveryRunEvent) :=
  for_each validate_run_event (initial_event_pair run_id chain created_at);;
  Ok (initial_event_pair run_id chain created_at).

Definition initial_snapshot_of (request : RecoveryRunRequest) (chain : RecoveryChain)
  (created_at : datetime) : RecoveryRunSnapshot :=
  {| rs_request := request; rs_request_sha256 := canonical_sha256 request;
     rs_lifecycle := Run_ACCEPTED; rs_event_cursor := 2; rs_revision := 1;
     rs_chain := chain; rs_chain_sha256 := canonical_sha256 chain;
     rs_active_node_id := None;
     rs_nodes := map (λ n, {| np_node_id := rn_node_id n; np_state := Node_WAITING;
                              np_attempt := 0 |}) (rc_nodes chain);
     rs_hypotheses := []; rs_reports := []; rs_certificates := []; rs_witnesses := [];
     rs_launch_permit := None; rs_action_permits := []; rs_dispatch_receipts := [];
     rs_decision := None; rs_failure_category := None;
     rs_created_at := created_at; rs_updated_at := created_at |}.

Definition _initial_snapshot (request : RecoveryRunRequest) (chain : RecoveryChain)
  (created_at : datetime) : result py_error RecoveryRunSnapshot :=
  construct_run_snapshot (initial_snapshot_of request chain created_at).

(** ** Projection of one event *)

(** [allowed] of [_replace_node]. *)
Definition node_transitions (current : RecoveryNodeState) : list RecoveryNodeState :=
  match current with
  | Node_WAITING => [Node_DISPATCH_PENDING; Node_RECONCILING]
  | Node_DISPATCH_PENDING => [Node_DISPATCH_CLAIMED; Node_RECONCILING]
  | Node_DISPATCH_CLAIMED => [Node_RECONCILING; Node_COMPLETED]
  | Node_RECONCILING => [Node_VERIFIED; Node_COMPLETED; Node_ESCALATED]
  | Node_VERIFIED =>
      [Node_PERMITTED; Node_DISPATCH_CLAIMED; Node_RECONCILING; Node_COMPLETED; Node_ESCALATED]
  | Node_PERMITTED => [Node_DISPATCH_CLAIMED; Node_RECONCILING; Node_COMPLETED]
  | Node_COMPLETED | Node_ESCALATED => []
  end.

Definition _replace_node (run_id : string) (nodes : list RecoveryNodeProgress)
  (replacement : RecoveryNodeProgress) : result run_error (list RecoveryNodeProgress) :=
  let same n := bool_decide (np_node_id n = np_node_id replacement) in
  match List.filter same nodes with
  | [current] =>
      reject_if (negb (inb (np_state replacement) (node_transitions (np_state current)))
                 || (np_attempt replacement <? np_attempt current)
                 || (np_attempt current + 1 <? np_attempt replacement))
        (RecoveryRunConflict run_id);;
      Ok (map (λ n, if same n then replacement else n) nodes)
  | _ => Raise (RecoveryRunCorruptState None)
  end.

(** [same_action_permit_authority], its TypeError and ValueError meaning no. *)
Definition same_permit_authority (left right : ActionPermit) : result run_error bool :=
  match same_action_permit_authority left right with
  | Ok b => Ok b
  | Raise (TypeError _) | Raise (ValueError _) => Ok false
  | Raise e => Raise (RunPyError e)
  end.

Definition permit_advances (current replacement : ActionPermit) : bool :=
  (revision replacement =? revision current + 1)
  && match state current, state replacement with
     | ISSUED, CLAIMED | ISSUED, EXPIRED | CLAIMED, COMPLETED => true
     | _, _ => false
     end.

Definition _upsert_permit (run_id : string) (permits : list ActionPermit)
  (replacement : ActionPermit) : result run_error (list ActionPermit) :=
  let same p := bool_decide (permit_id p = permit_id replacement) in
  match List.filter same permits with
  | [] =>
      reject_if (negb (revision replacement =? 0)
                 || negb (bool_decide (state replacement = ISSUED)))
        (RecoveryRunConflict run_id);;
      Ok (permits ++ [replacement])
  | [current] =>
      same_authority ← same_permit_authority current replacement;
      reject_if (negb same_authority || negb (permit_advances current replacement))
        (RecoveryRunConflict run_id);;
      Ok (map (λ p, if same p then replacement else p) permits)
  | _ => Raise (RecoveryRunCorruptState None)
  end.

(** The lifecycles a run may move to. *)
Definition lifecycle_transitions (current : RecoveryRunLifecycle) : list RecoveryRunLifecycle :=
  match current with
  | Run_ACCEPTED => [Run_RUNNING]
  | Run_RUNNING => [Run_COMPLETED; Run_ESCALATED; Run_FAILED; Run_CANCELLED]
  | _ => []
  end.

(** After its end a run takes only changes of the authorities it has. *)
Definition terminal_authority_audit (s : RecoveryRunSnapshot) (e : RecoveryRunEvent) : bool :=
  is_terminal_recovery_run (rs_lifecycle s)
  && ((bool_decide (re_type e = Event_ACTION_PERMIT)
       && match pd_action_permit (re_payload e) with
          | Some permit =>
              existsb (λ p, bool_decide (permit_id p = permit_id permit)) (rs_action_permits s)
          | None => false
          end)
      || (bool_decide (re_type e = Event_LAUNCH_PERMIT)
          && match pd_launch_permit (re_payload e), rs_launch_permit s with
             | Some launch, Some current =>
                 bool_decide (lp_launch_permit_id current = lp_launch_permit_id launch)
             | _, _ => false
             end)).

Definition launch_same_identity (current replacement : RecoveryLaunchPermit) : bool :=
  bool_decide (lp_launch_permit_id current = lp_launch_permit_id replacement)
  && bool_decide (lp_run_id current = lp_run_id replacement)
  && bool_decide (lp_node_id current = lp_node_id replacement)
  && bool_decide (lp_semantic_action_sha256 current = lp_semantic_action_sha256 replacement)
  && bool_decide (lp_action_request_sha256 current = lp_action_request_sha256 replacement)
  && (lp_issued_at current =? lp_issued_at replacement).

Definition launch_advances (current replacement : RecoveryLaunchPermit) : bool :=
  (lp_revision replacement =? lp_revision current + 1)
  && match lp_state current, lp_state replacement with
     | Launch_ISSUED, Launch_CLAIMED | Launch_CLAIMED, Launch_COMPLETED => true
     | _, _ => false
     end.

(** [snapshot.model_copy(update=updates)] with the three updates every event
    makes; what else changes is set by the fields below. *)
Definition with_event (s : RecoveryRunSnapshot) (e : RecoveryRunEvent) : RecoveryRunSnapshot :=
  {| rs_request := rs_request s; rs_request_sha256 := rs_request_sha256 s;
     rs_lifecycle := rs_lifecycle s; rs_event_cursor := re_cursor e;
     rs_revision := re_cursor e - 1; rs_chain := rs_chain s;
     rs_chain_sha256 := rs_chain_sha256 s; rs_active_node_id := rs_active_node_id s;
     rs_nodes := rs_nodes s; rs_hypotheses := rs_hypotheses s; rs_reports := rs_reports s;
     rs_certificates := rs_certificates s; rs_witnesses := rs_witnesses s;
     rs_launch_permit := rs_launch_permit s; rs_action_permits := rs_action_permits s;
     rs_dispatch_receipts := rs_dispatch_receipts s; rs_decision := rs_decision s;
     rs_failure_category := rs_failure_category s; rs_created_at := rs_created_at s;
     rs_updated_at := re_occurred_at e |}.
Definition with_lifecycle (s : RecoveryRunSnapshot) (l : RecoveryRunLifecycle)
  (decision : option RecoveryDecision) (category : option RecoveryRunFailureCategory)
  : RecoveryRunSnapshot :=
  {| rs_request := rs_request s; rs_request_sha256 := rs_request_sha256 s;
     rs_lifecycle := l; rs_event_cursor := rs_event_cursor s;
     rs_revision := rs_revision s; rs_chain := rs_chain s;
     rs_chain_sha256 := rs_chain_sha256 s; rs_active_node_id := rs_active_node_id s;
     rs_nodes := rs_nodes s; rs_hypotheses := rs_hypotheses s; rs_reports := rs_reports s;
     rs_certificates := rs_certificates s; rs_witnesses := rs_witnesses s;
     rs_launch_permit := rs_launch_permit s; rs_action_permits := rs_action_permits s;
     rs_dispatch_receipts := rs_dispatch_receipts s; rs_decision := decision;
     rs_failure_category := category; rs_created_at := rs_created_at s;
     rs_updated_at := rs_updated_at s |}.
Definition with_nodes (s : RecoveryRunSnapshot) (nodes : list RecoveryNodeProgress)
  (active : option string) : RecoveryRunSnapshot :=
  {| rs_request := rs_request s; rs_request_sha256 := rs_request_sha256 s;
     rs_lifecycle := rs_lifecycle s; rs_event_cursor := rs_event_cursor s;
     rs_revision := rs_revision s; rs_chain := rs_chain s;
     rs_chain_sha256 := rs_chain_sha256 s; rs_active_node_id := active;
     rs_nodes := nodes; rs_hypotheses := rs_hypotheses s; rs_reports := rs_reports s;
     rs_certificates := rs_certificates s; rs_witnesses := rs_witnesses s;
     rs_launch_permit := rs_launch_permit s; rs_action_permits := rs_action_permits s;
     rs_dispatch_receipts := rs_dispatch_receipts s; rs_decision := rs_decision s;
     rs_failure_category := rs_failure_category s; rs_created_at := rs_created_at s;
     rs_updated_at := rs_updated_at s |}.
Definition with_artifacts (s : RecoveryRunSnapshot) (hypotheses : list GeminiHypothesis)
  (reports : list InvestigationReport) (certificates : list VerifiedCertificate)
  (witnesses : list AmbiguityWitness) (decision : option RecoveryDecision)
  : RecoveryRunSnapshot :=
  {| rs_request := rs_request s; rs_request_sha256 := rs_request_sha256 s;
     rs_lifecycle := rs_lifecycle s; rs_event_cursor := rs_event_cursor s;
     rs_revision := rs_revision s; rs_chain := rs_chain s;
     rs_chain_sha256 := rs_chain_sha256 s; rs_active_node_id := rs_active_node_id s;
     rs_nodes := rs_nodes s; rs_hypotheses := hypotheses; rs_reports := reports;
     rs_certificates := certificates; rs_witnesses := witnesses;
     rs_launch_permit := rs_launch_permit s; rs_action_permits := rs_action_permits s;
     rs_dispatch_receipts := rs_dispatch_receipts s; rs_decision := decision;
     rs_failure_category := rs_failure_category s; rs_created_at := rs_created_at s;
     rs_updated_at := rs_updated_at s |}.
Definition with_authorities (s : RecoveryRunSnapshot) (launch : option RecoveryLaunchPermit)
  (permits : list ActionPermit) (receipts : list RecoveryDispatchReceipt)
  : RecoveryRunSnapshot :=
  {| rs_request := rs_request s; rs_request_sha256 := rs_request_sha256 s;
     rs_lifecycle := rs_lifecycle s; rs_event_cursor := rs_event_cursor s;
     rs_revision := rs_revision s; rs_chain := rs_chain s;
     rs_chain_sha256 := rs_chain_sha256 s; rs_active_node_id := rs_active_node_id s;
     rs_nodes := rs_nodes s; rs_hypotheses := rs_hypotheses s; rs_reports := rs_reports s;
     rs_certificates := rs_certificates s; rs_witnesses := rs_witnesses s;
     rs_launch_permit := launch; rs_action_permits := permits;
     rs_dispatch_receipts := receipts; rs_decision := rs_decision s;
     rs_failure_category := rs_failure_category s; rs_created_at := rs_created_at s;
     rs_updated_at := rs_updated_at s |}.

(** The lifecycle, node and artifact events: what they add to a snapshot. *)
Definition apply_lifecycle (s : RecoveryRunSnapshot) (payload : RecoveryRunEventPayload)
  : result run_error RecoveryRunSnapshot :=
  match pd_lifecycle payload with
  | None => Raise (RecoveryRunCorruptState (Some (run_id_of s)))
  | Some lifecycle =>
      reject_if (negb (inb lifecycle (lifecycle_transitions (rs_lifecycle s))))
        (RecoveryRunConflict (run_id_of s));;
      let decision :=
        match lifecycle with
        | Run_COMPLETED =>
            Some (match rs_decision s with Some d => d | None => Decide_CONTINUE end)
        | Run_ESCALATED => Some Decide_ESCALATE
        | _ => rs_decision s
        end in
      Ok (with_lifecycle s lifecycle decision (pd_failure_category payload))
  end.

Definition apply_node (s : RecoveryRunSnapshot) (payload : RecoveryRunEventPayload)
  : result run_error RecoveryRunSnapshot :=
  node ← assert_some (pd_node payload);
  nodes ← _replace_node (run_id_of s) (rs_nodes s) node;
  Ok (with_nodes s nodes (Some (np_node_id node))).

Definition apply_hypothesis (s : RecoveryRunSnapshot) (payload : RecoveryRunEventPayload)
  : result run_error RecoveryRunSnapshot :=
  match pd_hypothesis payload with
  | Some hypothesis =>
      if bool_decide (pd_hypothesis_disposition payload = Some INVALID_BINDING) then Ok s
      else Ok (with_artifacts s (rs_hypotheses s ++ [hypothesis]) (rs_reports s)
                 (rs_certificates s) (rs_witnesses s) (rs_decision s))
  | None => Ok s
  end.

Definition apply_evidence (s : RecoveryRunSnapshot) (payload : RecoveryRunEventPayload)
  : result run_error RecoveryRunSnapshot :=
  report ← assert_some (pd_report payload);
  Ok (with_artifacts s (rs_hypotheses s) (rs_reports s ++ [report])
        (rs_certificates s) (rs_witnesses s) (rs_decision s)).

Definition apply_decision (s : RecoveryRunSnapshot) (payload : RecoveryRunEventPayload)
  : result run_error RecoveryRunSnapshot :=
  decision ← assert_some (pd_decision payload);
  match pd_certificate payload with
  | Some certificate =>
      Ok (with_artifacts s (rs_hypotheses s) (rs_reports s)
            (rs_certificates s ++ [certificate]) (rs_witnesses s) (Some decision))
  | None =>
      witness ← assert_some (pd_witness payload);
      Ok (with_artifacts s (rs_hypotheses s) (rs_reports s)
            (rs_certificates s) (rs_witnesses s ++ [witness]) (Some decision))
  end.

Definition apply_launch_permit (s : RecoveryRunSnapshot) (payload : RecoveryRunEventPayload)
  : result run_error RecoveryRunSnapshot :=
  replacement ← assert_some (pd_launch_permit payload);
  reject_if (match rs_launch_permit s with
             | Some current =>
                 negb (launch_same_identity current replacement)
                 || negb (launch_advances current replacement)
             | None =>
                 negb (bool_decide (lp_state replacement = Launch_ISSUED))
                 || negb (lp_revision replacement =? 0)
             end) (RecoveryRunConflict (run_id_of s));;
  Ok (with_authorities s (Some replacement) (rs_action_permits s) (rs_dispatch_receipts s)).

Definition apply_action_permit (s : RecoveryRunSnapshot) (payload : RecoveryRunEventPayload)
  : result run_error RecoveryRunSnapshot :=
  permit ← assert_some (pd_action_permit payload);
  permits ← _upsert_permit (run_id_of s) (rs_action_permits s) permit;
  Ok (with_authorities s (rs_launch_permit s) permits (rs_dispatch_receipts s)).

(** [launch_match] of a dispatch receipt: the authority of the launch permit, and
    its action. *)
Definition launch_match (s : RecoveryRunSnapshot) (receipt : RecoveryDispatchReceipt) : bool :=
  launch_authority (rs_launch_permit s) receipt
  && match rs_launch_permit s with
     | Some launch =>
         bool_decide (lp_semantic_action_sha256 launch = dr_semantic_action_sha256 receipt)
     | None => false
     end.

Definition apply_receipt (s : RecoveryRunSnapshot) (payload : RecoveryRunEventPayload)
  : result run_error RecoveryRunSnapshot :=
  receipt ← assert_some (pd_dispatch_receipt payload);
  reject_if (negb (bool_decide (rs_lifecycle s = Run_RUNNING))
             || negb (inb (dr_node_id receipt) (map np_node_id (rs_nodes s)))
             || negb (receipt_authorized (launch_match s receipt) (rs_action_permits s) receipt)
             || inb (dr_receipt_id receipt) (map dr_receipt_id (rs_dispatch_receipts s)))
    (RecoveryRunConflict (run_id_of s));;
  Ok (with_authorities s (rs_launch_permit s) (rs_action_permits s)
        (rs_dispatch_receipts s ++ [receipt])).

Definition apply_updates (s : RecoveryRunSnapshot) (e : RecoveryRunEvent)
  : result run_error RecoveryRunSnapshot :=
  match re_type e with
  | Event_LIFECYCLE => apply_lifecycle s (re_payload e)
  | Event_CHAIN => Raise (RecoveryRunConflict (run_id_of s))
  | Event_NODE => apply_node s (re_payload e)
  | Event_HYPOTHESIS => apply_hypothesis s (re_payload e)
  | Event_EVIDENCE => apply_evidence s (re_payload e)
  | Event_DECISION => apply_decision s (re_payload e)
  | Event_LAUNCH_PERMIT => apply_launch_permit s (re_payload e)
  | Event_ACTION_PERMIT => apply_action_permit s (re_payload e)
  | Event_DISPATCH_RECEIPT => apply_receipt s (re_payload e)
  end.

Definition apply_recovery_event (s : RecoveryRunSnapshot) (e : RecoveryRunEvent)
  : result run_error RecoveryRunSnapshot :=
  reject_if (negb (bool_decide (re_run_id e = run_id_of s))
             || negb (re_cursor e =? rs_event_cursor s + 1)
             || (re_occurred_at e <? rs_updated_at s)
             || (is_terminal_recovery_run (rs_lifecycle s)
                 && negb (terminal_authority_audit s e)))
    (RecoveryRunConflict (run_id_of s));;
  updated ← apply_updates s e;
  map_error (λ _, RecoveryRunCorruptState (Some (run_id_of s)))
    (construct_run_snapshot (with_event updated e)).

(** ** Aggregates *)

Record RecoveryRunAggregate := {
  ra_snapshot : RecoveryRunSnapshot;
  ra_events : list RecoveryRunEvent;
}.

Definition cursors (events : list RecoveryRunEvent) : list Z := map re_cursor events.

(** [RecoveryRunAggregate.validate_history] *)
Definition validate_run_history (self : RecoveryRunAggregate) : result run_error unit :=
  let snapshot := ra_snapshot self in
  let events := ra_events self in
  match events with
  | [] => built (Raise (ValueError "recovery event history cannot be empty"))
  | first :: _ =>
      built (reject_if (negb (bool_decide (cursors events = one_to (length events))))
        (ValueError "recovery event history is not contiguous"));;
      built (reject_if (existsb (λ e, negb (bool_decide (re_run_id e = run_id_of snapshot))) events)
        (ValueError "recovery event history changed run identity"));;
      built (reject_if (negb (rs_event_cursor snapshot =? Z.of_nat (length events)))
        (ValueError "recovery snapshot cursor differs from event history"));;
      replayed ← built (_initial_snapshot (rs_request snapshot) (rs_chain snapshot)
                          (re_occurred_at first));
      initial ← built (_initial_events (run_id_of snapshot) (rs_chain snapshot)
                         (re_occurred_at first));
      built (reject_if (negb (list_eqb model_eqb (take 2 events) initial))
        (ValueError "recovery history has an invalid creation prefix"));;
      replayed ← fold_result apply_recovery_event replayed (drop 2 events);
      built (reject_if (negb (model_eqb replayed snapshot))
        (ValueError "recovery event history does not reproduce its snapshot"))
  end.

(** [RecoveryRunAggregate(...)] *)
Definition construct_run_aggregate (self : RecoveryRunAggregate)
  : result run_error RecoveryRunAggregate :=
  built (construct_run_snapshot (ra_snapshot self));;
  built (for_each validate_run_event (ra_events self));;
  validate_run_history self;;
  Ok self.

Definition create_recovery_run_aggregate (request : RecoveryRunRequest) (chain : RecoveryChain)
  (created_at : datetime) : result run_error RecoveryRunAggregate :=
  snapshot ← built (_initial_snapshot request chain created_at);
  events ← built (_initial_events (rr_run_id request) chain created_at);
  construct_run_aggregate {| ra_snapshot := snapshot; ra_events := events |}.

(** The event an append makes. *)
Definition next_event (aggregate : RecoveryRunAggregate) (type : RecoveryRunEventType)
  (payload : RecoveryRunEventPayload) (occurred_at : datetime) : RecoveryRunEvent :=
  run_event (run_id_of (ra_snapshot aggregate)) (rs_event_cursor (ra_snapshot aggregate) + 1)
    type occurred_at payload.

Definition append_recovery_event (aggregate : RecoveryRunAggregate)
  (type : RecoveryRunEventType) (payload : RecoveryRunEventPayload) (occurred_at : datetime)
  : result run_error RecoveryRunAggregate :=
  let event := next_event aggregate type payload occurred_at in
  built (validate_run_event event);;
  snapshot ← apply_recovery_event (ra_snapshot aggregate) event;
  construct_run_aggregate {| ra_snapshot := snapshot; ra_events := ra_events aggregate ++ [event] |}.

Definition _append_decoded_recovery_event (aggregate : RecoveryRunAggregate)
  (type : RecoveryRunEventType) (payload : RecoveryRunEventPayload) (occurred_at : datetime)
  : result run_error RecoveryRunAggregate :=
  let event := next_event aggregate type payload occurred_at in
  built (validate_run_event event);;
  snapshot ← apply_recovery_event (ra_snapshot aggregate) event;
  let events := ra_events aggregate ++ [event] in
  reject_if (negb (re_cursor event =? Z.of_nat (length events))
             || negb (rs_event_cursor snapshot =? Z.of_nat (length events))
             || negb (bool_decide (run_id_of snapshot = re_run_id event)))
    (RecoveryRunCorruptState (Some (re_run_id event)));;
  Ok {| ra_snapshot := snapshot; ra_events := events |}.

(** ** The launch permit *)

Definition claimed_launch (permit : RecoveryLaunchPermit) (claim_id : string)
  (claimed_at : datetime) : RecoveryLaunchPermit :=
  {| lp_launch_permit_id := lp_launch_permit_id permit; lp_run_id := lp_run_id permit;
     lp_node_id := lp_node_id permit;
     lp_semantic_action_sha256 := lp_semantic_action_sha256 permit;
     lp_action_request_sha256 := lp_action_request_sha256 permit;
     lp_issued_at := lp_issued_at permit; lp_state := Launch_CLAIMED; lp_revision := 1;
     lp_claim_id := Some claim_id; lp_claimed_at := Some claimed_at;
     lp_completed_at := lp_completed_at permit; lp_outcome := lp_outcome permit |}.
Definition completed_launch (permit : RecoveryLaunchPermit)
  (outcome : RecoveryDispatchOutcome) (completed_at : datetime) : RecoveryLaunchPermit :=
  {| lp_launch_permit_id := lp_launch_permit_id permit; lp_run_id := lp_run_id permit;
     lp_node_id := lp_node_id permit;
     lp_semantic_action_sha256 := lp_semantic_action_sha256 permit;
     lp_action_request_sha256 := lp_action_request_sha256 permit;
     lp_issued_at := lp_issued_at permit; lp_state := Launch_COMPLETED; lp_revision := 2;
     lp_claim_id := lp_claim_id permit; lp_claimed_at := lp_claimed_at permit;
     lp_completed_at := Some completed_at; lp_outcome := Some outcome |}.

Definition claim_recovery_launch (aggregate : RecoveryRunAggregate)
  (launch_permit_id claim_id action_request_sha256 : string) (claimed_at : datetime)
  : result run_error (RecoveryRunAggregate * RecoveryLaunchPermit) :=
  let denied := RecoveryLaunchClaimDenied (run_id_of (ra_snapshot aggregate)) in
  match rs_launch_permit (ra_snapshot aggregate) with
  | None => Raise denied
  | Some permit =>
      reject_if (negb (bool_decide (lp_state permit = Launch_ISSUED))
                 || negb (bool_decide (lp_launch_permit_id permit = launch_permit_id))
                 || negb (bool_decide (lp_action_request_sha256 permit = action_request_sha256))
                 || (claimed_at <? lp_issued_at permit)) denied;;
      let claimed := claimed_launch permit claim_id claimed_at in
      built (validate_launch_permit claimed);;
      replacement ← append_recovery_event aggregate Event_LAUNCH_PERMIT
                      (launch_payload claimed) claimed_at;
      Ok (replacement, claimed)
  end.

Definition complete_recovery_launch (aggregate : RecoveryRunAggregate)
  (launch_permit_id claim_id : string) (outcome : RecoveryDispatchOutcome)
  (completed_at : datetime) : result run_error (RecoveryRunAggregate * RecoveryLaunchPermit) :=
  let denied := RecoveryLaunchClaimDenied (run_id_of (ra_snapshot aggregate)) in
  match rs_launch_permit (ra_snapshot aggregate) with
  | None => Raise denied
  | Some permit =>
      reject_if (negb (bool_decide (lp_state permit = Launch_CLAIMED))
                 || negb (bool_decide (lp_launch_permit_id permit = launch_permit_id))
                 || negb (bool_decide (lp_claim_id permit = Some claim_id))
                 || match lp_claimed_at permit with
                    | Some at_ => completed_at <? at_ | None => true end) denied;;
      let completed := completed_launch permit outcome completed_at in
      built (validate_launch_permit completed);;
      replacement ← append_recovery_event aggregate Event_LAUNCH_PERMIT
                      (launch_payload completed) completed_at;
      Ok (replacement, completed)
  end.

End events.

(** * The run store *)

(** [RecoveryRunEventSnapshot] *)
Record RecoveryRunEventSnapshot := {
  es_run_id : string;
  es_cursor : Z;
  es_terminal : bool;
  es_events : list RecoveryRunEvent;
}.

(** [tuple(range(a, b))] *)
Definition range (a b : Z) : list Z := map (λ i, a + Z.of_nat i) (seq 0 (Z.to_nat (b - a))).

(** [self._aggregates] *)
Abbreviation run_state := (gmap string RecoveryRunAggregate).

(** An operation: what it returns or raises, and the runs it leaves. *)
Definition run_m (A : Type) : Type := run_state → result run_error A * run_state.
#[export] Instance run_ret : MRet run_m := λ A a s, (Ok a, s).
#[export] Instance run_bind : MBind run_m := λ A B f m s,
  match m s with
  | (Ok a, s') => f a s'
  | (Raise e, s') => (Raise e, s')
  end.

(** What does not touch the runs. *)
Definition pure {A} (r : result run_error A) : run_m A := λ s, (r, s).
Definition raise_run {A} (e : run_error) : run_m A := pure (Raise e).

(** [self._aggregates.get(run_id)] *)
Definition find_run (run_id : string) : run_m (option RecoveryRunAggregate) :=
  λ s, (Ok (s !! run_id), s).

(** [self._aggregates[run_id]], a KeyError raised as not found. *)
Definition load_run (run_id : string) : run_m RecoveryRunAggregate :=
  found ← find_run run_id;
  match found with
  | Some aggregate => mret aggregate
  | None => raise_run (RecoveryRunNotFound run_id)
  end.

(** [self._aggregates[run_id] = aggregate] *)
Definition store_run (run_id : string) (aggregate : RecoveryRunAggregate) : run_m unit :=
  λ s, (Ok tt, <[run_id := aggregate]> s).

Section store.
Context {rt : Runtime} {sec : Security}.

(** [RecoveryRunEventSnapshot(...)]: the cursor's range, the models of the events
    and [validate_suffix]. *)
Definition construct_event_snapshot (self : RecoveryRunEventSnapshot)
  : result py_error RecoveryRunEventSnapshot :=
  reject_if (negb (in_range 1 (es_cursor self) MAX_RECOVERY_RUN_EVENTS))
    (ValueError "event cursor is outside its range");;
  for_each validate_run_event (es_events self);;
  reject_if (existsb (λ e, negb (bool_decide (re_run_id e = es_run_id self))) (es_events self))
    (ValueError "recovery event suffix changed run identity");;
  let cs := cursors (es_events self) in
  reject_if (match cs, last cs with
             | first :: _, Some final =>
                 negb (bool_decide (cs = range first (es_cursor self + 1)))
                 || negb (final =? es_cursor self)
             | _, _ => false
             end)
    (ValueError "recovery event suffix is not contiguous");;
  Ok self.

(** ** The operations *)

Definition create (request : RecoveryRunRequest) (chain : RecoveryChain) (created_at : datetime)
  : run_m (RecoveryRunSnapshot * bool) :=
  candidate ← pure (create_recovery_run_aggregate request chain created_at);
  found ← find_run (rr_run_id request);
  match found with
  | Some current =>
      if negb (model_eqb (rs_request (ra_snapshot current)) request)
         || negb (model_eqb (rs_chain (ra_snapshot current)) chain)
      then raise_run (RecoveryRunConflict (rr_run_id request))
      else mret (ra_snapshot current, false)
  | None =>
      _ ← store_run (rr_run_id request) candidate;
      mret (ra_snapshot candidate, true)
  end.

Definition get (run_id : string) : run_m RecoveryRunSnapshot :=
  aggregate ← load_run run_id;
  mret (ra_snapshot aggregate).

Definition events (run_id : string) (after : Z) : run_m RecoveryRunEventSnapshot :=
  aggregate ← load_run run_id;
  let count := Z.of_nat (length (ra_events aggregate)) in
  if negb ((0 <=? after) && (after <=? count)) then raise_run (RecoveryRunConflict run_id)
  else pure (built (construct_event_snapshot
    {| es_run_id := run_id; es_cursor := count;
       es_terminal := is_terminal_recovery_run (rs_lifecycle (ra_snapshot aggregate));
       es_events := drop (Z.to_nat after) (ra_events aggregate) |})).

Definition append (run_id : string) (expected_revision : Z) (event_type : RecoveryRunEventType)
  (payload : RecoveryRunEventPayload) (occurred_at : datetime) : run_m RecoveryRunSnapshot :=
  current ← load_run run_id;
  if negb (rs_revision (ra_snapshot current) =? expected_revision)
  then raise_run (RecoveryRunConflict run_id) else
  replacement ← pure (append_recovery_event current event_type payload occurred_at);
  _ ← store_run run_id replacement;
  mret (ra_snapshot replacement).

Definition claim_launch (run_id launch_permit_id claim_id action_request_sha256 : string)
  (claimed_at : datetime) : run_m RecoveryLaunchPermit :=
  aggregate ← load_run run_id;
  replaced ← pure (claim_recovery_launch aggregate launch_permit_id claim_id
                     action_request_sha256 claimed_at);
  _ ← store_run run_id replaced.1;
  mret replaced.2.

Definition complete_launch (run_id launch_permit_id claim_id : string)
  (outcome : RecoveryDispatchOutcome) (completed_at : datetime) : run_m RecoveryLaunchPermit :=
  aggregate ← load_run run_id;
  replaced ← pure (complete_recovery_launch aggregate launch_permit_id claim_id outcome
                     completed_at);
  _ ← store_run run_id replaced.1;
  mret replaced.2.

(** ** Sequences of operations *)

Inductive run_call :=
  | CallCreate (request : RecoveryRunRequest) (chain : RecoveryChain) (created_at : datetime)
  | CallGet (run_id : string)
  | CallEvents (run_id : string) (after : Z)
  | CallAppend (run_id : string) (expected_revision : Z) (event_type : RecoveryRunEventType)
      (payload : RecoveryRunEventPayload) (occurred_at : datetime)
  | CallClaimLaunch (run_id launch_permit_id claim_id action_request_sha256 : string)
      (claimed_at : datetime)
  | CallCompleteLaunch (run_id launch_permit_id claim_id : string)
      (outcome : RecoveryDispatchOutcome) (completed_at : datetime).

Inductive run_reply :=
  | ReplyCreated (snapshot : RecoveryRunSnapshot) (fresh : bool)
  | ReplySnapshot (snapshot : RecoveryRunSnapshot)
  | ReplyEvents (suffix : RecoveryRunEventSnapshot)
  | ReplyLaunch (permit : RecoveryLaunchPermit).

Definition call_run (call : run_call) : run_m run_reply :=
  match call with
  | CallCreate request chain at_ =>
      created ← create request chain at_; mret (ReplyCreated created.1 created.2)
  | CallGet run_id => snapshot ← get run_id; mret (ReplySnapshot snapshot)
  | CallEvents run_id after => suffix ← events run_id after; mret (ReplyEvents suffix)
  | CallAppend run_id revision type payload at_ =>
      snapshot ← append run_id revision type payload at_; mret (ReplySnapshot snapshot)
  | CallClaimLaunch run_id permit claim sha at_ =>
      launch ← claim_launch run_id permit claim sha at_; mret (ReplyLaunch launch)
  | CallCompleteLaunch run_id permit claim outcome at_ =>
      launch ← complete_launch run_id permit claim outcome at_; mret (ReplyLaunch launch)
  end.

(** The calls in order; a call that raises leaves the rest to follow. *)
Fixpoint call_runs (calls : list run_call) (s : run_state)
  : list (result run_error run_reply) * run_state :=
  match calls with
  | [] => ([], s)
  | call :: calls' =>
      let '(reply, s') := call_run call s in
      let '(replies, s'') := call_runs calls' s' in
      (reply :: replies, s'')
  end.

End store.
