(* ===== verification/RunFacts.v ===== *)
(** The life of an aggregate: what one event may change, which aggregates the
    store can hold, and how a call moves them. *)

From S2P Require Export RunEvents PyEqual.

#[local] Open Scope Z_scope.

Section facts.
Context {rt : Runtime} {sec : Security}.
Implicit Types (s u : RecoveryRunSnapshot) (a : RecoveryRunAggregate) (e : RecoveryRunEvent).

Lemma built_ok {A} (r : result py_error A) x : built r = Ok x → r = Ok x.
Proof. apply map_error_ok. Qed.

Lemma assert_some_ok {A} (o : option A) x : assert_some o = Ok x → o = Some x.
Proof. destruct o; cbn; congruence. Qed.

Lemma construct_run_snapshot_id s s' : construct_run_snapshot s = Ok s' → s' = s.
Proof. unfold construct_run_snapshot. intros H. inv_ok. done. Qed.

(** ** One event *)

(** What no event changes. *)
Definition same_run s u : Prop :=
  rs_request u = rs_request s ∧ rs_request_sha256 u = rs_request_sha256 s
  ∧ rs_chain u = rs_chain s ∧ rs_chain_sha256 u = rs_chain_sha256 s
  ∧ rs_created_at u = rs_created_at s.

Lemma same_run_refl s : same_run s s.
Proof. done. Qed.

Lemma same_run_trans s t u : same_run s t → same_run t u → same_run s u.
Proof. unfold same_run. intros (?&?&?&?&?) (?&?&?&?&?). split_and!; congruence. Qed.

(** The updates of one event, by its type. *)
Inductive updates s e : RecoveryRunSnapshot → Prop :=
  | upd_lifecycle l decision category :
      re_type e = Event_LIFECYCLE → pd_lifecycle (re_payload e) = Some l →
      l ∈ lifecycle_transitions (rs_lifecycle s) → pd_failure_category (re_payload e) = category →
      (l = Run_COMPLETED → is_Some decision) → (l = Run_ESCALATED → decision = Some Decide_ESCALATE) →
      updates s e (with_lifecycle s l decision category)
  | upd_node node nodes :
      re_type e = Event_NODE → pd_node (re_payload e) = Some node →
      _replace_node (run_id_of s) (rs_nodes s) node = Ok nodes →
      updates s e (with_nodes s nodes (Some (np_node_id node)))
  | upd_artifacts h r c w d :
      re_type e = Event_HYPOTHESIS ∨ re_type e = Event_EVIDENCE ∨ re_type e = Event_DECISION →
      updates s e (with_artifacts s h r c w d)
  | upd_launch launch :
      re_type e = Event_LAUNCH_PERMIT → pd_launch_permit (re_payload e) = Some launch →
      match rs_launch_permit s with
      | Some current => launch_same_identity current launch = true
                        ∧ launch_advances current launch = true
      | None => lp_state launch = Launch_ISSUED
      end →
      updates s e (with_authorities s (Some launch) (rs_action_permits s) (rs_dispatch_receipts s))
  | upd_permit permit permits :
      re_type e = Event_ACTION_PERMIT → pd_action_permit (re_payload e) = Some permit →
      _upsert_permit (run_id_of s) (rs_action_permits s) permit = Ok permits →
      updates s e (with_authorities s (rs_launch_permit s) permits (rs_dispatch_receipts s))
  | upd_receipt receipt :
      re_type e = Event_DISPATCH_RECEIPT → pd_dispatch_receipt (re_payload e) = Some receipt →
      rs_lifecycle s = Run_RUNNING →
      updates s e (with_authorities s (rs_launch_permit s) (rs_action_permits s)
                     (rs_dispatch_receipts s ++ [receipt])).

Lemma with_artifacts_same s :
  with_artifacts s (rs_hypotheses s) (rs_reports s) (rs_certificates s) (rs_witnesses s)
    (rs_decision s) = s.
Proof. by destruct s. Qed.

Lemma apply_lifecycle_updates s e u :
  re_type e = Event_LIFECYCLE → apply_lifecycle s (re_payload e) = Ok u → updates s e u.
Proof.
  unfold apply_lifecycle. intros Ht H. destruct (pd_lifecycle (re_payload e)) as [l|] eqn:El; [|done].
  inv_ok. bool_simpl. subst u. apply inb_true in Hr.
  apply upd_lifecycle; try done; intros ->; [|done].
  destruct (rs_decision s); eauto.
Qed.

Lemma apply_artifact_updates s e u :
  re_type e = Event_HYPOTHESIS ∧ apply_hypothesis s (re_payload e) = Ok u
  ∨ re_type e = Event_EVIDENCE ∧ apply_evidence s (re_payload e) = Ok u
  ∨ re_type e = Event_DECISION ∧ apply_decision s (re_payload e) = Ok u → updates s e u.
Proof.
  intros [[Ht H]|[[Ht H]|[Ht H]]].
  - unfold apply_hypothesis in H.
    destruct (pd_hypothesis _); [destruct (bool_decide _)|]; inv_ok; subst u;
      first [apply upd_artifacts; tauto
            | rewrite <-(with_artifacts_same s) at 2; apply upd_artifacts; tauto].
  - unfold apply_evidence in H. inv_ok. subst u. apply upd_artifacts. tauto.
  - unfold apply_decision in H. inv_ok.
    destruct (pd_certificate _); inv_ok; subst u; apply upd_artifacts; tauto.
Qed.

Lemma apply_launch_updates s e u :
  re_type e = Event_LAUNCH_PERMIT → apply_launch_permit s (re_payload e) = Ok u → updates s e u.
Proof.
  unfold apply_launch_permit. intros Ht H. inv_ok. apply assert_some_ok in Hr. subst u.
  apply upd_launch; [done|done|].
  destruct (rs_launch_permit s); by bool_simpl.
Qed.

Lemma apply_updates_inv s e u : apply_updates s e = Ok u → updates s e u.
Proof.
  unfold apply_updates. intros H. destruct (re_type e) eqn:Ht.
  - by apply apply_lifecycle_updates.
  - done.
  - unfold apply_node in H. inv_ok. apply assert_some_ok in Hr. subst u. by apply upd_node.
  - apply apply_artifact_updates. auto.
  - apply apply_artifact_updates. auto.
  - apply apply_artifact_updates. auto.
  - by apply apply_launch_updates.
  - unfold apply_action_permit in H. inv_ok. apply assert_some_ok in Hr. subst u.
    by eapply upd_permit.
  - unfold apply_receipt in H. inv_ok. apply assert_some_ok in Hr. bool_simpl. subst u.
    by apply upd_receipt.
Qed.

Lemma updates_same_run s e u : updates s e u → same_run s u.
Proof. by destruct 1. Qed.

Lemma apply_event_inv s e s' :
  apply_recovery_event s e = Ok s' →
  re_run_id e = run_id_of s ∧ re_cursor e = rs_event_cursor s + 1
  ∧ rs_updated_at s <= re_occurred_at e
  ∧ (is_terminal_recovery_run (rs_lifecycle s) = true → terminal_authority_audit s e = true)
  ∧ (∃ u, updates s e u ∧ s' = with_event u e)
  ∧ construct_run_snapshot s' = Ok s'.
Proof.
  unfold apply_recovery_event. intros H.
  apply reject_then_ok in H as [Hg H]. apply bind_ok in H as (u & Hu & H).
  apply map_error_ok in H. pose proof (construct_run_snapshot_id _ _ H) as ->.
  bool_simpl. split_and!; try done.
  - intros Ht. rewrite Ht in *. cbn in *. by bool_simpl.
  - exists u. split; [by apply apply_updates_inv|done].
Qed.

Lemma apply_event_same_run s e s' : apply_recovery_event s e = Ok s' → same_run s s'.
Proof.
  intros (_ & _ & _ & _ & (u & Hu & ->) & _)%apply_event_inv.
  apply (updates_same_run _ _ _ Hu).
Qed.

Lemma apply_event_cursor s e s' :
  apply_recovery_event s e = Ok s' →
  rs_event_cursor s' = rs_event_cursor s + 1 ∧ rs_revision s' = rs_event_cursor s
  ∧ re_cursor e = rs_event_cursor s + 1.
Proof.
  intros (_ & Hc & _ & _ & (u & _ & ->) & _)%apply_event_inv. cbn. lia.
Qed.

Lemma fold_events_inv s tail s' :
  fold_result apply_recovery_event s tail = Ok s' →
  same_run s s' ∧ rs_event_cursor s' = rs_event_cursor s + Z.of_nat (length tail).
Proof.
  revert s. induction tail as [|e tail IH]; intros s H; cbn in H.
  - injection H as <-. split; [apply same_run_refl|cbn; lia].
  - apply bind_ok in H as (t & Ht & H). apply IH in H as [Hrun Hcur].
    split; [apply (same_run_trans _ t); [by apply (apply_event_same_run _ e)|done]|].
    apply apply_event_cursor in Ht. cbn [length]. lia.
Qed.

(** ** Aggregates *)

(** The snapshot is what its events make of the initial one. *)
Definition replays a : Prop :=
  ∃ created_at s0 tail,
    _initial_snapshot (rs_request (ra_snapshot a)) (rs_chain (ra_snapshot a)) created_at = Ok s0
    ∧ ra_events a = initial_event_pair (run_id_of (ra_snapshot a)) (rs_chain (ra_snapshot a))
                      created_at ++ tail
    ∧ Forall (λ e, validate_run_event e = Ok tt) (ra_events a)
    ∧ fold_result apply_recovery_event s0 tail = Ok (ra_snapshot a).

(** A new aggregate for [run_id]. *)
Definition new_run (run_id : string) a : Prop :=
  ∃ request chain at_, create_recovery_run_aggregate request chain at_ = Ok a
    ∧ rr_run_id request = run_id.

(** One accepted event. *)
Definition run_step a a' : Prop :=
  ∃ type payload at_, append_recovery_event a type payload at_ = Ok a'.

Lemma construct_run_aggregate_ok a a' :
  construct_run_aggregate a = Ok a' →
  a' = a ∧ Forall (λ e, validate_run_event e = Ok tt) (ra_events a).
Proof.
  unfold construct_run_aggregate. intros H. inv_ok. apply built_ok in Hr0. inv_ok. done.
Qed.

Lemma append_event_inv a type payload at_ a' :
  append_recovery_event a type payload at_ = Ok a' →
  ra_events a' = ra_events a ++ [next_event a type payload at_]
  ∧ apply_recovery_event (ra_snapshot a) (next_event a type payload at_) = Ok (ra_snapshot a')
  ∧ Forall (λ e, validate_run_event e = Ok tt) (ra_events a').
Proof.
  unfold append_recovery_event. intros H.
  apply bind_ok in H as (? & _ & H). apply bind_ok in H as (s & Hs & H).
  apply construct_run_aggregate_ok in H as [-> Hev]. done.
Qed.

Lemma initial_snapshot_inv request chain at_ s :
  _initial_snapshot request chain at_ = Ok s → s = initial_snapshot_of request chain at_.
Proof. apply construct_run_snapshot_id. Qed.

Lemma created_inv request chain at_ a :
  create_recovery_run_aggregate request chain at_ = Ok a →
  _initial_snapshot request chain at_ = Ok (ra_snapshot a)
  ∧ ra_snapshot a = initial_snapshot_of request chain at_
  ∧ ra_events a = initial_event_pair (rr_run_id request) chain at_
  ∧ Forall (λ e, validate_run_event e = Ok tt) (ra_events a).
Proof.
  unfold create_recovery_run_aggregate. intros H.
  apply bind_ok in H as (s & Hs & H). apply bind_ok in H as (evs & Hevs & H).
  apply built_ok in Hs, Hevs. apply construct_run_aggregate_ok in H as [-> Hev].
  unfold _initial_events in Hevs. apply bind_ok in Hevs as (? & _ & [= <-]).
  split_and!; try done. by apply initial_snapshot_inv.
Qed.

Lemma created_replays request chain at_ a :
  create_recovery_run_aggregate request chain at_ = Ok a → replays a.
Proof.
  intros (Hs & Heq & He & Hv)%created_inv. exists at_, (ra_snapshot a), [].
  rewrite app_nil_r. rewrite Heq in *. cbn. done.
Qed.

Lemma step_snapshot a a' :
  run_step a a' → ∃ e, ra_events a' = ra_events a ++ [e]
    ∧ apply_recovery_event (ra_snapshot a) e = Ok (ra_snapshot a').
Proof. intros (t & p & at_ & (He & Ha & _)%append_event_inv). eauto. Qed.

Lemma step_same_run a a' : run_step a a' → same_run (ra_snapshot a) (ra_snapshot a').
Proof. intros (e & _ & H)%step_snapshot. by apply (apply_event_same_run _ e). Qed.

Lemma step_replays a a' : replays a → run_step a a' → replays a'.
Proof.
  intros (at_ & s0 & tail & Hs0 & He & _ & Hf) Hstep.
  pose proof (step_same_run _ _ Hstep) as (Hrq & _ & Hch & _ & _).
  destruct Hstep as (t & p & z & (He' & Ha & Hv)%append_event_inv).
  exists at_, s0, (tail ++ [next_event a t p z]).
  unfold run_id_of in *. rewrite Hrq, Hch. split_and!; try done.
  - by rewrite He', He, <-app_assoc.
  - by rewrite fold_result_snoc, Hf.
Qed.

Lemma steps_same_run a a' : rtc run_step a a' → same_run (ra_snapshot a) (ra_snapshot a').
Proof.
  induction 1 as [a|a b c Hs _ IH]; [apply same_run_refl|].
  apply (same_run_trans _ (ra_snapshot b)); [by apply step_same_run|done].
Qed.

Lemma steps_replay a a' : replays a → rtc run_step a a' → replays a'.
Proof. intros Ha. induction 1; eauto using step_replays. Qed.

(** The snapshot's cursor is the length of its history. *)
Lemma replays_cursor a :
  replays a → rs_event_cursor (ra_snapshot a) = Z.of_nat (length (ra_events a))
    ∧ (2 ≤ length (ra_events a))%nat
    ∧ rs_event_cursor (ra_snapshot a) <= MAX_RECOVERY_RUN_EVENTS
    ∧ rs_revision (ra_snapshot a) = rs_event_cursor (ra_snapshot a) - 1
    ∧ construct_run_snapshot (ra_snapshot a) = Ok (ra_snapshot a).
Proof.
  intros (at_ & s0 & tail & Hs0 & He & _ & Hf).
  assert (construct_run_snapshot (ra_snapshot a) = Ok (ra_snapshot a)) as Hc.
  { destruct tail as [|e tail] using rev_ind; cbn in Hf.
    - injection Hf as <-. pose proof (initial_snapshot_inv _ _ _ _ Hs0) as ->. exact Hs0.
    - rewrite fold_result_snoc in Hf. apply bind_ok in Hf as (t & _ & Hf).
      by apply apply_event_inv in Hf as (_ & _ & _ & _ & _ & ?). }
  pose proof (initial_snapshot_inv _ _ _ _ Hs0) as ->.
  apply fold_events_inv in Hf as [_ Hcur]. rewrite He, length_app. cbn in *.
  assert (rs_event_cursor (ra_snapshot a) <= MAX_RECOVERY_RUN_EVENTS
    ∧ rs_revision (ra_snapshot a) = rs_event_cursor (ra_snapshot a) - 1) as [? ?].
  { unfold construct_run_snapshot in Hc. apply bind_ok in Hc as (? & Hm & Hc).
    apply bind_ok in Hc as (? & Hv & _). split.
    - unfold validate_snapshot_models in Hm. apply bind_ok in Hm as (? & _ & Hm).
      apply reject_then_ok in Hm as [Hm _]. unfold in_range in Hm. bool_simpl. done.
    - unfold validate_snapshot in Hv. apply bind_ok in Hv as (? & Hv & _).
      unfold validate_progress_binding in Hv.
      do 2 apply reject_then_ok in Hv as [_ Hv]. apply reject_then_ok in Hv as [Hv _].
      by bool_simpl. }
  split_and!; try done; lia.
Qed.

(** A step adds one event and one revision. *)
Lemma step_revision a a' :
  replays a → run_step a a' →
  rs_revision (ra_snapshot a') = rs_revision (ra_snapshot a) + 1.
Proof.
  intros (_ & _ & _ & Hr & _)%replays_cursor (e & _ & Ha)%step_snapshot.
  apply apply_event_cursor in Ha. lia.
Qed.

(** ** Calls *)

Lemma claim_launch_step a pid cid sha at_ a' launch :
  claim_recovery_launch a pid cid sha at_ = Ok (a', launch) →
  ∃ current, rs_launch_permit (ra_snapshot a) = Some current ∧ lp_state current = Launch_ISSUED
    ∧ lp_launch_permit_id current = pid ∧ lp_action_request_sha256 current = sha
    ∧ launch = claimed_launch current cid at_
    ∧ append_recovery_event a Event_LAUNCH_PERMIT (launch_payload launch) at_ = Ok a'.
Proof.
  unfold claim_recovery_launch. destruct (rs_launch_permit (ra_snapshot a)) as [current|]; [|done].
  intros H. apply reject_then_ok in H as [Hg H]. bool_simpl. apply bind_ok in H as (? & _ & H).
  apply bind_ok in H as (b & Hb & [= <- <-]). eauto 10.
Qed.

Lemma complete_launch_step a pid cid outcome at_ a' launch :
  complete_recovery_launch a pid cid outcome at_ = Ok (a', launch) →
  ∃ current, rs_launch_permit (ra_snapshot a) = Some current ∧ lp_state current = Launch_CLAIMED
    ∧ lp_launch_permit_id current = pid ∧ lp_claim_id current = Some cid
    ∧ launch = completed_launch current outcome at_
    ∧ append_recovery_event a Event_LAUNCH_PERMIT (launch_payload launch) at_ = Ok a'.
Proof.
  unfold complete_recovery_launch. destruct (rs_launch_permit (ra_snapshot a)) as [current|]; [|done].
  intros H. apply reject_then_ok in H as [Hg H]. bool_simpl. apply bind_ok in H as (? & _ & H).
  apply bind_ok in H as (b & Hb & [= <- <-]). eauto 10.
Qed.

(** What a call does to the runs: nothing, a new run, or one event of one run. *)
Inductive moves (s : run_state) : run_state → Prop :=
  | move_none : moves s s
  | move_new run_id a : s !! run_id = None → new_run run_id a → moves s (<[run_id := a]> s)
  | move_step run_id a a' :
      s !! run_id = Some a → run_step a a' → moves s (<[run_id := a']> s).

Lemma load_run_bind {A} run_id (k : RecoveryRunAggregate → run_m A) (s : run_state) :
  (a ← load_run run_id; k a) s
  = match s !! run_id with
    | Some a => k a s
    | None => (Raise (RecoveryRunNotFound run_id), s)
    end.
Proof. unfold load_run, find_run, mbind, run_bind. cbn. by destruct (s !! run_id). Qed.

Lemma pure_bind {A B} (r : result run_error A) (k : A → run_m B) (s : run_state) :
  (x ← pure r; k x) s = match r with Ok x => k x s | Raise err => (Raise err, s) end.
Proof. by destruct r. Qed.

Lemma append_cases run_id revision type payload at_ (s s' : run_state) r :
  append run_id revision type payload at_ s = (r, s') →
  match r with
  | Ok u => ∃ a a', s !! run_id = Some a ∧ rs_revision (ra_snapshot a) = revision
      ∧ append_recovery_event a type payload at_ = Ok a'
      ∧ s' = <[run_id := a']> s ∧ u = ra_snapshot a'
  | Raise _ => s' = s
  end.
Proof.
  unfold append. rewrite load_run_bind. destruct (s !! run_id) as [a|]; [|by intros [= <- <-]].
  destruct (negb _) eqn:Hrev; [by intros [= <- <-]|]. rewrite pure_bind. bool_simpl.
  destruct (append_recovery_event _ _ _ _) as [a'|] eqn:Ha; [|by intros [= <- <-]].
  intros [= <- <-]. eauto 10.
Qed.

Lemma create_cases request chain at_ (s s' : run_state) r :
  create request chain at_ s = (r, s') →
  s' = s ∨ ∃ a, s !! rr_run_id request = None
      ∧ create_recovery_run_aggregate request chain at_ = Ok a
      ∧ s' = <[rr_run_id request := a]> s ∧ r = Ok (ra_snapshot a, true).
Proof.
  unfold create. rewrite pure_bind.
  destruct (create_recovery_run_aggregate _ _ _) as [a|] eqn:Ha; [|intros [= <- <-]; by left].
  unfold find_run, mbind, run_bind. destruct (s !! rr_run_id request) as [b|] eqn:Hb.
  - destruct (_ || _); intros [= <- <-]; by left.
  - intros [= <- <-]. right. eauto 10.
Qed.

(** The two launch operations, by the step they make of an aggregate. *)
Lemma launch_cases (step : RecoveryRunAggregate →
    result run_error (RecoveryRunAggregate * RecoveryLaunchPermit)) run_id (s s' : run_state) r :
  (a ← load_run run_id; p ← pure (step a); _ ← store_run run_id p.1; mret p.2) s = (r, s') →
  match r with
  | Ok launch => ∃ a a', s !! run_id = Some a ∧ step a = Ok (a', launch) ∧ s' = <[run_id := a']> s
  | Raise _ => s' = s
  end.
Proof.
  rewrite load_run_bind. destruct (s !! run_id) as [a|]; [|by intros [= <- <-]].
  rewrite pure_bind. destruct (step a) as [[a' l]|] eqn:Ha; [|by intros [= <- <-]].
  intros [= <- <-]. eauto.
Qed.

Lemma get_unchanged run_id (s s' : run_state) r : get run_id s = (r, s') → s' = s.
Proof. unfold get. rewrite load_run_bind. by destruct (s !! run_id); intros [= _ <-]. Qed.

Lemma events_unchanged run_id after (s s' : run_state) r :
  events run_id after s = (r, s') → s' = s.
Proof.
  unfold events. rewrite load_run_bind. destruct (s !! run_id); [|by intros [= _ <-]].
  destruct (negb _); by intros [= _ <-].
Qed.

Lemma reply_bind {A} (m : run_m A) (f : A → run_reply) (s s' : run_state) r :
  (x ← m; mret (f x)) s = (r, s') →
  ∃ r0, m s = (r0, s') ∧ r = match r0 with Ok x => Ok (f x) | Raise e => Raise e end.
Proof. unfold mbind, run_bind. destruct (m s) as [[x|e] t]; intros [= <- <-]; eauto. Qed.

Lemma call_run_moves call (s s' : run_state) r : call_run call s = (r, s') → moves s s'.
Proof.
  destruct call; cbn [call_run]; intros (r0 & Hr & _)%reply_bind.
  - apply create_cases in Hr as [->|(a & Hn & Ha & -> & _)]; [constructor|].
    apply move_new; [done|]. exists request, chain, created_at. done.
  - apply get_unchanged in Hr as ->. constructor.
  - apply events_unchanged in Hr as ->. constructor.
  - apply append_cases in Hr. destruct r0 as [reply|err]; [|subst; constructor].
    destruct Hr as (a & b & Ha & _ & Hb & -> & _).
    eapply move_step; [exact Ha|]. unfold run_step. eauto.
  - apply launch_cases in Hr. destruct r0 as [reply|err]; [|subst; constructor].
    destruct Hr as (a & b & Ha & Hb & ->). eapply move_step; [exact Ha|].
    apply claim_launch_step in Hb as (c & _ & _ & _ & _ & _ & Hb). unfold run_step. eauto.
  - apply launch_cases in Hr. destruct r0 as [reply|err]; [|subst; constructor].
    destruct Hr as (a & b & Ha & Hb & ->). eapply move_step; [exact Ha|].
    apply complete_launch_step in Hb as (c & _ & _ & _ & _ & _ & Hb). unfold run_step. eauto.
Qed.

(** A move takes every stored run to itself or one event further. *)
Lemma moves_lookup (s s' : run_state) run_id a :
  moves s s' → s !! run_id = Some a → ∃ a', s' !! run_id = Some a' ∧ rtc run_step a a'.
Proof.
  intros [|id b Hn Hb|id b b' Hb Hs] Ha.
  - exists a. split; [done|constructor].
  - exists a. rewrite lookup_insert_ne by congruence. split; [done|constructor].
  - destruct (decide (id = run_id)) as [->|].
    + exists b'. rewrite lookup_insert_eq. split; [done|]. simplify_eq. by apply rtc_once.
    + exists a. rewrite lookup_insert_ne by done. split; [done|constructor].
Qed.

Lemma call_runs_evolve calls (s s' : run_state) replies run_id a :
  call_runs calls s = (replies, s') → s !! run_id = Some a →
  ∃ a', s' !! run_id = Some a' ∧ rtc run_step a a'.
Proof.
  revert s replies a. induction calls as [|call calls IH]; intros s replies a H Ha; cbn in H.
  - injection H as _ <-. exists a. split; [done|constructor].
  - destruct (call_run call s) as [r t] eqn:Hc.
    destruct (call_runs calls t) as [rs t'] eqn:Hcs. injection H as _ <-.
    apply call_run_moves in Hc. destruct (moves_lookup _ _ _ _ Hc Ha) as (b & Hb & Hab).
    destruct (IH _ _ _ Hcs Hb) as (c & Hc' & Hbc). exists c. split; [done|]. by trans b.
Qed.

Lemma call_runs_app calls calls' (s s' s'' : run_state) replies replies' :
  call_runs calls s = (replies, s') → call_runs calls' s' = (replies', s'') →
  call_runs (calls ++ calls') s = (replies ++ replies', s'').
Proof.
  revert s replies. induction calls as [|call calls IH]; intros s replies H H'; cbn in H.
  - by injection H as <- ->.
  - destruct (call_run call s) as [r t] eqn:Hc.
    destruct (call_runs calls t) as [rs t'] eqn:Hcs. injection H as <- <-.
    cbn [app call_runs]. by rewrite Hc, (IH _ _ Hcs H').
Qed.

(** ** Reachable runs *)

(** Every stored run began as a new run of its identifier and took events since. *)
Definition reachable (s : run_state) : Prop :=
  map_Forall (λ run_id a, ∃ a0, new_run run_id a0 ∧ rtc run_step a0 a) s.

Lemma moves_reachable (s s' : run_state) : moves s s' → reachable s → reachable s'.
Proof.
  intros [|id b Hn Hb|id b b' Hb Hs] Hr; [done| |]; apply map_Forall_insert_2; try done.
  - exists b. split; [done|constructor].
  - destruct (Hr id b Hb) as (a0 & Ha0 & Hsteps). exists a0. split; [done|].
    by eapply rtc_r.
Qed.

Lemma call_runs_reachable calls (s s' : run_state) replies :
  call_runs calls s = (replies, s') → reachable s → reachable s'.
Proof.
  revert s replies. induction calls as [|call calls IH]; intros s replies H Hr; cbn in H.
  - by injection H as _ <-.
  - destruct (call_run call s) as [r t] eqn:Hc.
    destruct (call_runs calls t) as [rs t'] eqn:Hcs. injection H as _ <-.
    apply (IH _ _ Hcs). by eapply moves_reachable; [eapply call_run_moves|].
Qed.

Lemma none_reachable : reachable ∅.
Proof. apply map_Forall_empty. Qed.

Lemma empty_reachable calls replies (s : run_state) :
  call_runs calls ∅ = (replies, s) → reachable s.
Proof. intros H. apply (call_runs_reachable _ _ _ _ H), none_reachable. Qed.

Lemma reachable_run (s : run_state) run_id a :
  reachable s → s !! run_id = Some a → replays a ∧ run_id_of (ra_snapshot a) = run_id.
Proof.
  intros Hr Ha. destruct (Hr run_id a Ha) as (a0 & (request & chain & at_ & Hc & Hid) & Hsteps).
  split; [apply (steps_replay a0); [by eapply created_replays|done]|].
  apply steps_same_run in Hsteps as (Hrq & _). unfold run_id_of. rewrite Hrq.
  apply created_inv in Hc as (_ & -> & _). done.
Qed.

End facts.

(** * Regular runs *)

Definition regular `{ToJson A} (m : A) : bool := regular_json (to_json m).

Lemma model_eqb_refl `{ToJson A} (m : A) : regular m = true → model_eqb m m = true.
Proof. apply py_eqb_refl. Qed.

(** An object is regular when its fields are. *)
Lemma regular_object (m : json_object) :
  has_dup (dict_keys m) = false →
  regular_json (JObj m) = forallb (λ f, regular_json f.2) m.
Proof.
  intros Hd%has_dup_false. cbn. rewrite bool_decide_eq_true_2 by done. cbn.
  clear Hd. induction m as [|[k v] m IH]; cbn; [done|by rewrite IH].
Qed.

Lemma regular_list `{ToJson A} (l : list A) : regular l = forallb regular l.
Proof. unfold regular. cbn. induction l as [|x l IH]; cbn; [done|by rewrite IH]. Qed.

Lemma regular_app `{ToJson A} (l k : list A) : regular (l ++ k) = regular l && regular k.
Proof. by rewrite !regular_list, forallb_app. Qed.

Lemma regular_all `{ToJson A} (l : list A) : (∀ x : A, regular x = true) → regular l = true.
Proof. intros Hx. rewrite regular_list. apply forallb_forall. auto. Qed.

Lemma regular_option `{ToJson A} (o : option A) :
  (∀ x : A, regular x = true) → regular o = true.
Proof. intros Hx. destruct o; [apply Hx|done]. Qed.

Lemma regular_text (o : option string) : regular_json (to_json o) = true.
Proof. by destruct o. Qed.
Lemma regular_time (o : option datetime) : regular_json (opt_time_json o) = true.
Proof. by destruct o. Qed.
Lemma regular_value {A} (value : A → string) (o : option A) :
  regular_json (opt_value_json value o) = true.
Proof. by destruct o. Qed.

(** Models of texts, numbers and times only are regular. *)
Ltac flat_object :=
  unfold regular;
  match goal with
  | |- regular_json ?v = _ => let w := eval hnf in v in change v with w
  end;
  rewrite regular_object by reflexivity;
  cbn [forallb snd];
  repeat lazymatch goal with |- _ && _ = true => apply andb_true_iff; split end;
  first [reflexivity | apply regular_text | apply regular_time | apply regular_value | idtac].

Lemma regular_request (r : RecoveryRunRequest) : regular r = true.
Proof. flat_object. Qed.
Lemma regular_progress (n : RecoveryNodeProgress) : regular n = true.
Proof. flat_object. Qed.
Lemma regular_launch (l : RecoveryLaunchPermit) : regular l = true.
Proof. flat_object. Qed.
Lemma regular_receipt (r : RecoveryDispatchReceipt) : regular r = true.
Proof. flat_object. Qed.
Lemma regular_permit (p : ActionPermit) : regular p = true.
Proof.
  unfold regular, to_json, ActionPermit_json. rewrite regular_object by reflexivity.
  unfold permit_lifecycle_fields.
  destruct (claim_id p), (claimed_at p), (completed_at p), (completion_outcome p), (expired_at p);
    reflexivity.
Qed.

(** A snapshot is regular when what holds free JSON is. *)
Lemma regular_snapshot (s : RecoveryRunSnapshot) :
  regular s = true ↔ regular (rs_chain s) = true ∧ regular (rs_hypotheses s) = true
    ∧ regular (rs_reports s) = true ∧ regular (rs_certificates s) = true
    ∧ regular (rs_witnesses s) = true.
Proof.
  split.
  - unfold regular at 1. intros H.
    match type of H with regular_json ?v = _ => let w := eval hnf in v in change v with w in H end.
    rewrite regular_object in H by reflexivity. cbn [forallb snd] in H. bool_simpl. done.
  - intros (?&?&?&?&?). flat_object; try done.
    + apply regular_all, regular_progress.
    + apply regular_option, regular_launch.
    + apply regular_all, regular_permit.
    + apply regular_all, regular_receipt.
Qed.

Section regular_events.
Context {rt : Runtime} {sec : Security}.
Implicit Types (s u : RecoveryRunSnapshot) (a : RecoveryRunAggregate) (e : RecoveryRunEvent).

Lemma regular_payload (p : RecoveryRunEventPayload) :
  regular p = true →
  regular (pd_chain p) = true ∧ regular (pd_hypothesis p) = true ∧ regular (pd_report p) = true
  ∧ regular (pd_certificate p) = true ∧ regular (pd_witness p) = true.
Proof.
  unfold regular at 1. intros H.
  match type of H with regular_json ?v = _ => let w := eval hnf in v in change v with w in H end.
  rewrite regular_object in H by reflexivity. cbn [forallb snd] in H. bool_simpl. done.
Qed.

Lemma regular_snoc `{ToJson A} (l : list A) (o : option A) x :
  regular l = true → regular o = true → o = Some x → regular (l ++ [x]) = true.
Proof.
  intros Hl Ho ->. rewrite regular_app, Hl. cbn. unfold regular in *. cbn in *. by rewrite Ho.
Qed.

(** An event with a regular payload keeps a snapshot regular. *)
Lemma updates_regular s e u :
  regular s = true → regular (re_payload e) = true → apply_updates s e = Ok u →
  regular (with_event u e) = true.
Proof.
  intros Hs Hp. pose proof Hs as (?&?&?&?&?)%regular_snapshot.
  apply regular_payload in Hp as (?&?&?&?&?).
  assert (∀ t, rs_chain t = rs_chain s → rs_hypotheses t = rs_hypotheses s →
    rs_reports t = rs_reports s → rs_certificates t = rs_certificates s →
    rs_witnesses t = rs_witnesses s → regular (with_event t e) = true) as Hsame.
  { intros t E1 E2 E3 E4 E5. apply regular_snapshot.
    change (rs_chain (with_event t e)) with (rs_chain t).
    change (rs_hypotheses (with_event t e)) with (rs_hypotheses t).
    change (rs_reports (with_event t e)) with (rs_reports t).
    change (rs_certificates (with_event t e)) with (rs_certificates t).
    change (rs_witnesses (with_event t e)) with (rs_witnesses t).
    rewrite E1, E2, E3, E4, E5. done. }
  unfold apply_updates. destruct (re_type e); intros Hu; [|discriminate Hu| | | | | | |].
  - unfold apply_lifecycle in Hu. destruct (pd_lifecycle _); [|done]. inv_ok. subst u. by apply Hsame.
  - unfold apply_node in Hu. inv_ok. subst u. by apply Hsame.
  - unfold apply_hypothesis in Hu.
    destruct (pd_hypothesis _) eqn:Eh; [destruct (bool_decide _)|]; inv_ok; subst u;
      try (by apply Hsame).
    apply regular_snapshot. cbn. split_and!; try done. by eapply regular_snoc.
  - unfold apply_evidence in Hu. inv_ok. subst u. apply assert_some_ok in Hr.
    apply regular_snapshot. cbn. split_and!; try done. by eapply regular_snoc.
  - unfold apply_decision in Hu. inv_ok.
    destruct (pd_certificate _) eqn:Ec; inv_ok; subst u; apply regular_snapshot; cbn;
      split_and!; try done; eapply regular_snoc; try done. by apply assert_some_ok.
  - unfold apply_launch_permit in Hu. inv_ok. subst u. by apply Hsame.
  - unfold apply_action_permit in Hu. inv_ok. subst u. by apply Hsame.
  - unfold apply_receipt in Hu. inv_ok. subst u. by apply Hsame.
Qed.

Lemma event_keeps_regular s e s' :
  regular s = true → regular (re_payload e) = true → apply_recovery_event s e = Ok s' →
  regular s' = true.
Proof.
  intros Hs Hp H. unfold apply_recovery_event in H. apply reject_then_ok in H as [_ H].
  apply bind_ok in H as (u & Hu & H). apply map_error_ok, construct_run_snapshot_id in H as ->.
  by apply (updates_regular s).
Qed.

(** The two events of a creation. *)
Lemma creation_prefix_regular id chain at_ :
  regular chain = true →
  list_eqb model_eqb (initial_event_pair id chain at_) (initial_event_pair id chain at_) = true.
Proof.
  intros Hc. cbn [initial_event_pair list_eqb].
  assert (regular (run_event id 2 Event_CHAIN at_ (chain_payload chain)) = true) as H2.
  { flat_object. flat_object. exact Hc. }
  rewrite (model_eqb_refl _ H2), model_eqb_refl; reflexivity.
Qed.

End regular_events.
