(* ===== verification/RunTransitions.v ===== *)
(** What the steps of a run preserve: the launch permit only advances, a run that
    ended keeps its state, its history only grows, and an append that the
    projection accepts is accepted.  And how runs end: a run that has not ended
    accepts its start and its failure, an ended run has a disposition, and what only
    one call can take is taken once. *)

From S2P Require Export RunFacts ClassificationFacts.

#[local] Open Scope Z_scope.
#[local] Opaque regular.

Section transitions.
Context {rt : Runtime} {sec : Security}.
Implicit Types (s u : RecoveryRunSnapshot) (a : RecoveryRunAggregate) (e : RecoveryRunEvent).

Lemma event_updates s e s' :
  apply_recovery_event s e = Ok s' → ∃ u, updates s e u ∧ s' = with_event u e.
Proof. by intros (_ & _ & _ & _ & H & _)%apply_event_inv. Qed.

(** ** The launch permit *)

Definition launch_of a : option RecoveryLaunchPermit := rs_launch_permit (ra_snapshot a).

(** Neither without a launch permit nor with an unclaimed one. *)
Definition launch_taken a : Prop :=
  ∃ l, launch_of a = Some l ∧ lp_state l ≠ Launch_ISSUED.

Lemma launch_advances_state current l :
  launch_advances current l = true → lp_state l ≠ Launch_ISSUED.
Proof.
  unfold launch_advances. rewrite andb_true_iff.
  destruct (lp_state current), (lp_state l); naive_solver.
Qed.

Lemma step_launch_taken a a' : run_step a a' → launch_taken a → launch_taken a'.
Proof.
  intros (e & _ & (u & Hu & Hs)%event_updates)%step_snapshot (l & Hl & Hst).
  unfold launch_taken, launch_of in *. rewrite Hs. cbn. destruct Hu; cbn; eauto.
  rewrite Hl in *. destruct H1 as [_ Hadv]. eauto using launch_advances_state.
Qed.

(** ** Ended runs *)

Definition run_ended a : Prop := is_terminal_recovery_run (rs_lifecycle (ra_snapshot a)) = true.

(** What an ended run keeps: everything but the state of the authorities it has. *)
Definition frozen s u : Prop :=
  rs_lifecycle u = rs_lifecycle s ∧ rs_active_node_id u = rs_active_node_id s
  ∧ rs_nodes u = rs_nodes s ∧ rs_hypotheses u = rs_hypotheses s ∧ rs_reports u = rs_reports s
  ∧ rs_certificates u = rs_certificates s ∧ rs_witnesses u = rs_witnesses s
  ∧ rs_dispatch_receipts u = rs_dispatch_receipts s ∧ rs_decision u = rs_decision s
  ∧ rs_failure_category u = rs_failure_category s
  ∧ lp_launch_permit_id <$> rs_launch_permit u = lp_launch_permit_id <$> rs_launch_permit s
  ∧ map permit_id (rs_action_permits u) = map permit_id (rs_action_permits s).

Lemma frozen_refl s : frozen s s.
Proof. unfold frozen. by split_and!. Qed.

Lemma frozen_trans s t u : frozen s t → frozen t u → frozen s u.
Proof.
  unfold frozen. intros (?&?&?&?&?&?&?&?&?&?&?&?) (?&?&?&?&?&?&?&?&?&?&?&?).
  split_and!; congruence.
Qed.

Lemma upsert_known run_id permits p permits' :
  existsb (λ q, bool_decide (permit_id q = permit_id p)) permits = true →
  _upsert_permit run_id permits p = Ok permits' → map permit_id permits' = map permit_id permits.
Proof.
  intros (q & Hq & Heq)%existsb_exists H. unfold _upsert_permit in H.
  destruct (List.filter _ permits) as [|c [|]] eqn:Ef; [|inv_ok; subst permits'|done].
  - assert (q ∈ ([] : list ActionPermit)) as []%not_elem_of_nil.
    rewrite <-Ef. apply list_elem_of_In, filter_In. done.
  - rewrite map_map. apply map_ext. intros x.
    destruct (bool_decide_reflect (permit_id x = permit_id p)); congruence.
Qed.

Lemma step_frozen a a' :
  run_step a a' → run_ended a → frozen (ra_snapshot a) (ra_snapshot a').
Proof.
  intros (e & _ & H)%step_snapshot Hend.
  apply apply_event_inv in H as (_ & _ & _ & Haudit & (u & Hu & ->) & _).
  specialize (Haudit Hend). unfold terminal_authority_audit in Haudit.
  rewrite Hend in Haudit. cbn in Haudit.
  apply orb_true_iff in Haudit as [[Ht Ha]%andb_true_iff|[Ht Ha]%andb_true_iff];
    apply bool_decide_eq_true in Ht;
    destruct Hu as [l d c Hty _ _ _ _ _|n ns Hty _ _|h r c w d Hty|launch Hty Hp Hcase
                   |permit permits Hty Hp Hup|receipt Hty _ _];
    try (exfalso; rewrite Ht in Hty; clear -Hty; naive_solver);
    rewrite Hp in Ha; unfold frozen; cbn; split_and!; try done.
  - by eapply upsert_known.
  - destruct (rs_launch_permit (ra_snapshot a)) as [current|]; [|done].
    apply bool_decide_eq_true in Ha. cbn. congruence.
Qed.

Lemma step_ended a a' : run_step a a' → run_ended a → run_ended a'.
Proof. intros Hs He. destruct (step_frozen _ _ Hs He) as (Hl & _). unfold run_ended. by rewrite Hl. Qed.

Lemma steps_frozen a a' :
  rtc run_step a a' → run_ended a → frozen (ra_snapshot a) (ra_snapshot a').
Proof.
  induction 1 as [a|a b c Hs _ IH]; intros He; [apply frozen_refl|].
  apply (frozen_trans _ (ra_snapshot b)); [by apply step_frozen|eauto using step_ended].
Qed.

(** ** Histories *)

Lemma steps_history a a' : rtc run_step a a' → ra_events a `prefix_of` ra_events a'.
Proof.
  induction 1 as [a|a b c (e & He & _)%step_snapshot _ IH]; [done|].
  rewrite He in IH. by etrans; [apply prefix_app_r|].
Qed.

Lemma one_to_snoc n : one_to (S n) = one_to n ++ [Z.of_nat (S n)].
Proof. unfold one_to. rewrite seq_S, map_app. done. Qed.

(** Cursors count from one and every event is of the run. *)
Lemma fold_events_cursors s tail s' k evs :
  fold_result apply_recovery_event s tail = Ok s' →
  rs_event_cursor s = Z.of_nat k → length evs = k → cursors evs = one_to k →
  Forall (λ e, re_run_id e = run_id_of s) evs →
  cursors (evs ++ tail) = one_to (length (evs ++ tail))
  ∧ Forall (λ e, re_run_id e = run_id_of s') (evs ++ tail).
Proof.
  revert s k evs. induction tail as [|e tail IH]; intros s k evs H Hk Hlen Hc Hall; cbn in H.
  - injection H as <-. rewrite app_nil_r, Hlen. done.
  - apply bind_ok in H as (t & Ht & H).
    pose proof (apply_event_same_run _ _ _ Ht) as (Hrq & _).
    pose proof (apply_event_cursor _ _ _ Ht) as (Hcur & _ & Hec).
    apply apply_event_inv in Ht as (Hid & _).
    rewrite (cons_middle e evs tail), app_assoc. apply (IH t (S k)); try done.
    + lia.
    + rewrite length_app. cbn. lia.
    + unfold cursors in *. rewrite map_app, Hc, one_to_snoc. cbn. do 2 f_equal. lia.
    + unfold run_id_of in *. apply Forall_app. split; [|constructor; [congruence|constructor]].
      eapply Forall_impl; [exact Hall|]. cbn. intros. congruence.
Qed.

Lemma replays_events a :
  replays a →
  cursors (ra_events a) = one_to (length (ra_events a))
  ∧ Forall (λ e, re_run_id e = run_id_of (ra_snapshot a)) (ra_events a).
Proof.
  intros (at_ & s0 & tail & Hs0 & He & _ & Hf). rewrite He.
  pose proof (initial_snapshot_inv _ _ _ _ Hs0) as ->.
  apply (fold_events_cursors _ _ _ 2 _ Hf); [reflexivity..|].
  by repeat constructor.
Qed.

(** ** An accepted event is appended *)

Lemma existsb_Forall_false {A} (f : A → bool) (P : A → Prop) l :
  Forall P l → (∀ x, P x → f x = false) → existsb f l = false.
Proof. intros Hl Hf. induction Hl; cbn; [done|]. by rewrite Hf. Qed.

Lemma replayed_history a :
  replays a → regular (ra_snapshot a) = true → validate_run_history a = Ok tt.
Proof.
  intros Hr Hreg. pose proof (replays_events _ Hr) as (Hcs & Hids).
  pose proof (replays_cursor _ Hr) as (Hcur & _).
  pose proof Hreg as (Hchain & _)%regular_snapshot.
  destruct Hr as (at_ & s0 & tail & Hs0 & He & Hv & Hf).
  assert (_initial_events (run_id_of (ra_snapshot a)) (rs_chain (ra_snapshot a)) at_
    = Ok (initial_event_pair (run_id_of (ra_snapshot a)) (rs_chain (ra_snapshot a)) at_)) as Hinit.
  { unfold _initial_events. rewrite He in Hv. apply Forall_app in Hv as [Hv _].
    apply for_each_ok with (u := tt) in Hv. by rewrite Hv. }
  unfold validate_run_history. rewrite He in *.
  rewrite Hcs, bool_decide_refl.
  rewrite (existsb_Forall_false _ _ _ Hids); [|intros x ->; by rewrite bool_decide_refl].
  rewrite Hcur, Z.eqb_refl. cbn [app initial_event_pair re_occurred_at run_event].
  rewrite Hs0, Hinit. cbn [take drop].
  pose proof (creation_prefix_regular (run_id_of (ra_snapshot a)) _ at_ Hchain) as Hpre.
  unfold initial_event_pair in *. cbn [built map_error reject_if negb mbind result_bind].
  rewrite take_0, drop_0, Hpre. cbn [built map_error reject_if negb mbind result_bind]. rewrite Hf.
  cbn [mbind result_bind]. by rewrite model_eqb_refl.
Qed.

Lemma accepted_append a type payload at_ s' :
  replays a → regular (ra_snapshot a) = true → regular payload = true →
  validate_run_event (next_event a type payload at_) = Ok tt →
  apply_recovery_event (ra_snapshot a) (next_event a type payload at_) = Ok s' →
  append_recovery_event a type payload at_
  = Ok {| ra_snapshot := s'; ra_events := ra_events a ++ [next_event a type payload at_] |}.
Proof.
  intros Hr Hreg Hp Hv Ha. unfold append_recovery_event. rewrite Hv, Ha.
  cbn [built map_error mbind result_bind]. unfold construct_run_aggregate. cbn [ra_snapshot ra_events].
  pose proof (apply_event_inv _ _ _ Ha) as (_ & _ & _ & _ & _ & Hc). rewrite Hc.
  pose proof (apply_event_same_run _ _ _ Ha) as (Hrq & _ & Hch & _).
  assert (regular s' = true) as Hreg'.
  { apply (event_keeps_regular _ (next_event a type payload at_) _ Hreg Hp Ha). }
  destruct Hr as (z & s0 & tail & Hs0 & He & Hev & Hf).
  assert (Forall (λ e, validate_run_event e = Ok tt)
    (ra_events a ++ [next_event a type payload at_])) as Hall.
  { apply Forall_app. split; [done|by constructor]. }
  pose proof Hall as Hall'. apply for_each_ok with (u := tt) in Hall'. rewrite Hall'.
  cbn [built map_error mbind result_bind]. rewrite replayed_history; [done| |done].
  exists z, s0, (tail ++ [next_event a type payload at_]). cbn [ra_snapshot ra_events].
  unfold run_id_of in *. rewrite Hrq, Hch. split_and!; [done| |done|].
  - by rewrite He, <-app_assoc.
  - by rewrite fold_result_snoc, Hf.
Qed.

End transitions.

#[local] Opaque regular.

Section lifecycle.
Context {rt : Runtime} {sec : Security}.
Implicit Types (s u : RecoveryRunSnapshot) (a : RecoveryRunAggregate) (e : RecoveryRunEvent).

(** ** A start or a failure is accepted *)

(** [RUNNING] without a category, [FAILED] and [CANCELLED] with one. *)
Definition plain_lifecycle (l : RecoveryRunLifecycle) (category : option RecoveryRunFailureCategory)
  : bool :=
  match l with
  | Run_RUNNING => is_none category
  | Run_FAILED | Run_CANCELLED => is_some category
  | _ => false
  end.

Definition lifecycle_event s (l : RecoveryRunLifecycle)
  (category : option RecoveryRunFailureCategory) (at_ : datetime) : RecoveryRunEvent :=
  run_event (run_id_of s) (rs_event_cursor s + 1) Event_LIFECYCLE at_ (lifecycle_payload l category).

Lemma lifecycle_event_valid s l category at_ :
  plain_lifecycle l category = true →
  1 <= rs_event_cursor s + 1 <= MAX_RECOVERY_RUN_EVENTS →
  validate_run_event (lifecycle_event s l category at_) = Ok tt.
Proof.
  intros Hl [H1 H2]. unfold validate_run_event, lifecycle_event.
  cbn [re_cursor run_event re_payload re_type]. unfold in_range.
  apply Z.leb_le in H1, H2. rewrite H1, H2. by destruct l, category.
Qed.

(** The snapshot an event leaves is valid when the last one was, if it changes
    nothing else than the lifecycle. *)
Lemma advanced_snapshot s l category e :
  construct_run_snapshot s = Ok s →
  plain_lifecycle l category = true ∨ l = rs_lifecycle s ∧ category = rs_failure_category s →
  rs_updated_at s <= re_occurred_at e → re_cursor e = rs_event_cursor s + 1 →
  rs_event_cursor s + 1 <= MAX_RECOVERY_RUN_EVENTS →
  let s' := with_event (with_lifecycle s l (rs_decision s) category) e in
  construct_run_snapshot s' = Ok s'.
Proof.
  intros H Hl Hat Hcur' Hmax s'. unfold construct_run_snapshot in H |- *.
  apply bind_ok in H as (u0 & Hm & H). apply bind_ok in H as (u1 & Hv & _).
  assert (validate_snapshot_models s' = Ok tt) as ->.
  { destruct u0. unfold validate_snapshot_models in *.
    apply bind_ok in Hm as (w & Hrq & Hm). destruct w.
    apply reject_then_ok in Hm as [Hcur Hm]. apply reject_then_ok in Hm as [_ Hm].
    unfold in_range in *. bool_simpl.
    change (rs_request s') with (rs_request s). rewrite Hrq. cbn [mbind result_bind].
    rewrite !reject_if_false; [exact Hm| |]; cbn [s' with_event rs_event_cursor rs_revision];
      unfold MAX_RECOVERY_RUN_EVENTS in *; apply negb_false_iff, andb_true_iff; split; apply Z.leb_le; lia. }
  unfold validate_snapshot in Hv |- *.
  apply bind_ok in Hv as (u2 & Hp & Hv). apply bind_ok in Hv as (u3 & Ha & Hv).
  apply bind_ok in Hv as (u4 & Hr & Hv). destruct u1, u2, u3, u4.
  assert (validate_progress_binding s' = Ok tt) as ->.
  { unfold validate_progress_binding in *.
    do 5 (apply reject_then_ok in Hp as [? Hp]). apply reject_then_ok in Hp as [Hup Hp].
    apply reject_then_ok in Hp as [Hend Hp]. apply reject_if_ok in Hp.
    rewrite !reject_if_false; try done.
    - cbn. apply negb_false_iff, Z.eqb_eq. lia.
    - bool_simpl. cbn. apply Z.ltb_ge. lia.
    - cbn. destruct Hl as [Hl|[-> ->]]; [by destruct l, category, (rs_decision s)|done].
    - cbn. destruct Hl as [Hl|[-> ->]]; [by destruct l, category|done]. }
  change (validate_authorities s') with (validate_authorities s). rewrite Ha.
  change (validate_artifacts s') with (validate_artifacts s). rewrite Hr.
  cbn [mbind result_bind].
  assert (validate_end s' = Ok tt) as ->; [|done].
  destruct Hl as [Hl|[-> ->]]; [by destruct l|exact Hv].
Qed.

Lemma lifecycle_applies s l category at_ :
  construct_run_snapshot s = Ok s → plain_lifecycle l category = true →
  l ∈ lifecycle_transitions (rs_lifecycle s) →
  rs_updated_at s <= at_ → rs_event_cursor s + 1 <= MAX_RECOVERY_RUN_EVENTS →
  apply_recovery_event s (lifecycle_event s l category at_)
  = Ok (with_event (with_lifecycle s l (rs_decision s) category)
          (lifecycle_event s l category at_)).
Proof.
  intros Hs Hl Hin Hat Hmax. unfold apply_recovery_event.
  rewrite reject_if_false.
  2: { cbn. rewrite bool_decide_refl, Z.eqb_refl. cbn.
       assert ((at_ <? rs_updated_at s) = false) as -> by by apply Z.ltb_ge.
       destruct (rs_lifecycle s); cbn in Hin; try done; by apply not_elem_of_nil in Hin. }
  cbn [mbind result_bind]. unfold apply_updates. cbn [re_type lifecycle_event run_event].
  unfold apply_lifecycle. cbn [pd_lifecycle pd_failure_category re_payload lifecycle_event run_event
    lifecycle_payload].
  assert (inb l (lifecycle_transitions (rs_lifecycle s)) = true) as -> by by apply inb_true.
  cbn [negb reject_if mbind result_bind].
  assert (match l with
    | Run_COMPLETED => Some (match rs_decision s with Some d => d | None => Decide_CONTINUE end)
    | Run_ESCALATED => Some Decide_ESCALATE
    | _ => rs_decision s end = rs_decision s) as -> by by destruct l.
  rewrite (advanced_snapshot s l category); [done|done|by left|done|done|done].
Qed.

(** ** Ended runs have a disposition *)

Definition disposed s : Prop :=
  (rs_lifecycle s = Run_ESCALATED → rs_decision s = Some Decide_ESCALATE)
  ∧ (failed_lifecycle (Some (rs_lifecycle s)) = true → is_Some (rs_failure_category s)).

Lemma validated_category e :
  validate_run_event e = Ok tt → re_type e = Event_LIFECYCLE →
  failed_lifecycle (pd_lifecycle (re_payload e)) = is_some (pd_failure_category (re_payload e)).
Proof.
  unfold validate_run_event. intros H Ht. apply reject_then_ok in H as [_ H].
  apply bind_ok in H as (? & _ & H). apply bind_ok in H as (fs & Hf & _).
  rewrite Ht in Hf. cbn in Hf. apply reject_then_ok in Hf as [Hf _].
  bool_simpl. by apply eqb_prop.
Qed.

Lemma step_disposed a a' :
  run_step a a' → disposed (ra_snapshot a) → disposed (ra_snapshot a').
Proof.
  intros Hstep [Hd Hc]. pose proof Hstep as (t & p & z & (He & Happ & Hv)%append_event_inv).
  destruct (is_terminal_recovery_run (rs_lifecycle (ra_snapshot a))) eqn:Hend.
  - destruct (step_frozen _ _ Hstep Hend) as (Hl & _ & _ & _ & _ & _ & _ & _ & Hdec & Hcat & _).
    unfold disposed. by rewrite Hl, Hdec, Hcat.
  - rewrite He in Hv. apply Forall_app in Hv as [_ Hv]. apply Forall_cons in Hv as [Hv _].
    apply event_updates in Happ as (u & Hu & ->).
    destruct Hu as [l d c Hty Hpl _ Hcat _ Hesc|n ns Hty _ _|h r c w d Hty|launch Hty Hp Hcase
                   |permit permits Hty Hp Hup|receipt Hty _ _]; unfold disposed; cbn.
    { split; [exact Hesc|]. intros Hf. apply validated_category in Hv; [|done].
      rewrite Hpl, Hf, Hcat in Hv. destruct c; [eauto|done]. }
    all: by destruct (rs_lifecycle (ra_snapshot a)).
Qed.

Lemma steps_disposed a a' :
  rtc run_step a a' → disposed (ra_snapshot a) → disposed (ra_snapshot a').
Proof. induction 1; eauto using step_disposed. Qed.

(** ** At most one winner *)

Section winner.
Variable won : run_call → result run_error run_reply → bool.
Variable spent : run_state → Prop.
Hypothesis winning : ∀ call (s : run_state) reply (s' : run_state),
  reachable s → call_run call s = (reply, s') → won call reply = true → ¬ spent s ∧ spent s'.
Hypothesis spent_stays : ∀ s s' : run_state, reachable s → moves s s' → spent s → spent s'.

Definition wins (calls : list run_call) (replies : list (result run_error run_reply)) : nat :=
  length (List.filter (λ o, won o.1 o.2) (combine calls replies)).

Lemma no_win_when_spent calls (s : run_state) replies (s' : run_state) :
  reachable s → call_runs calls s = (replies, s') → spent s → wins calls replies = O.
Proof.
  unfold wins. revert s replies. induction calls as [|call calls IH]; intros s replies Hr H Hs;
    cbn in H; [by injection H as <- _|].
  destruct (call_run call s) as [r t] eqn:Hc.
  destruct (call_runs calls t) as [rs t'] eqn:Hcs. injection H as <- <-. cbn.
  pose proof (call_run_moves _ _ _ _ Hc) as Hm.
  destruct (won call r) eqn:Hw; [by destruct (winning _ _ _ _ Hr Hc Hw)|].
  apply (IH t); [by eapply moves_reachable|done|by eapply spent_stays].
Qed.

Lemma at_most_one_win calls (s : run_state) replies (s' : run_state) :
  reachable s → call_runs calls s = (replies, s') → (wins calls replies ≤ 1)%nat.
Proof.
  unfold wins. revert s replies. induction calls as [|call calls IH]; intros s replies Hr H;
    cbn in H; [injection H as <- _; cbn; lia|].
  destruct (call_run call s) as [r t] eqn:Hc.
  destruct (call_runs calls t) as [rs t'] eqn:Hcs. injection H as <- <-. cbn.
  pose proof (call_run_moves _ _ _ _ Hc) as Hm.
  assert (reachable t) as Ht by by eapply moves_reachable.
  destruct (won call r) eqn:Hw; [|by eapply IH].
  destruct (winning _ _ _ _ Hr Hc Hw) as [_ Hs].
  pose proof (no_win_when_spent _ _ _ _ Ht Hcs Hs) as Hz. unfold wins in Hz. cbn. lia.
Qed.
End winner.

End lifecycle.
