(* ===== verification/RunProperties.v ===== *)
(** What the run store guarantees, over any sequence of calls from an empty store. *)

From S2P Require Export RunTransitions.

#[local] Open Scope Z_scope.
#[local] Opaque regular.

Section properties.
Context {rt : Runtime} {sec : Security}.

(** ** Calls in the middle of a sequence *)

(** The states around the call at an index. *)
Lemma call_at calls (s s' : run_state) replies i call reply :
  reachable s → call_runs calls s = (replies, s') →
  calls !! i = Some call → replies !! i = Some reply →
  ∃ t t', reachable t ∧ call_run call t = (reply, t')
    ∧ ∀ run_id a, t' !! run_id = Some a → ∃ a', s' !! run_id = Some a' ∧ rtc run_step a a'.
Proof.
  revert s replies i. induction calls as [|c calls IH]; intros s replies i Hr H Hc Hreply; [done|].
  cbn in H. destruct (call_run c s) as [r t] eqn:Hcall.
  destruct (call_runs calls t) as [rs t'] eqn:Hcs. injection H as <- <-.
  destruct i as [|i]; cbn in Hc, Hreply.
  - simplify_eq. exists s, t. split_and!; [done|done|]. intros run_id a Ha.
    by apply (call_runs_evolve _ _ _ _ _ _ Hcs).
  - eapply IH; [|exact Hcs|done|done]. by eapply moves_reachable; [eapply call_run_moves|].
Qed.

Lemma moves_keep (P : RecoveryRunAggregate → Prop) (s s' : run_state) run_id :
  (∀ a a', replays a → run_step a a' → P a → P a') → reachable s → moves s s' →
  (∃ a, s !! run_id = Some a ∧ P a) → ∃ a, s' !! run_id = Some a ∧ P a.
Proof.
  intros Hstep Hr Hm (a & Ha & HP). destruct (reachable_run _ _ _ Hr Ha) as [Hre _].
  destruct (moves_lookup _ _ _ _ Hm Ha) as (b & Hb & Hab). exists b. split; [done|].
  clear -Hstep Hab HP Hre. induction Hab; [done|]. eauto using step_replays.
Qed.

(** ** What is stored *)

(** C18: every stored run is what its events make of the initial snapshot of its
    request: the history holds two to 512 validated events of the run, numbered
    from one, its snapshot passes its own validator, and only append, launch and
    creation calls ever changed it. *)
Theorem stored_runs_replay calls replies (s : run_state) run_id a :
  call_runs calls ∅ = (replies, s) → s !! run_id = Some a →
  run_id_of (ra_snapshot a) = run_id ∧ replays a
  ∧ cursors (ra_events a) = one_to (length (ra_events a))
  ∧ Forall (λ e, re_run_id e = run_id ∧ validate_run_event e = Ok tt) (ra_events a)
  ∧ rs_event_cursor (ra_snapshot a) = Z.of_nat (length (ra_events a))
  ∧ (2 ≤ length (ra_events a) ≤ 512)%nat
  ∧ construct_run_snapshot (ra_snapshot a) = Ok (ra_snapshot a).
Proof.
  intros H Ha. destruct (reachable_run _ _ _ (empty_reachable _ _ _ H) Ha) as [Hr Hid].
  pose proof (replays_events _ Hr) as (Hc & Hids).
  pose proof (replays_cursor _ Hr) as (Hcur & Hmin & Hmax & _ & Hcon).
  unfold MAX_RECOVERY_RUN_EVENTS in Hmax.
  split_and!; try done; [|lia]. rewrite Hid in Hids.
  destruct Hr as (? & ? & ? & _ & _ & Hv & _). apply Forall_and. done.
Qed.

(** ** Ended runs *)

(** C21: once a run has ended, whatever calls follow, it stays stored with the same
    lifecycle, nodes, artifacts, decision, failure and receipts, and with the same
    launch and action permits by identity; only their states can still change. *)
Theorem ended_run_frozen calls replies (s s' : run_state) run_id a :
  call_runs calls s = (replies, s') →
  s !! run_id = Some a → is_terminal_recovery_run (rs_lifecycle (ra_snapshot a)) = true →
  ∃ a', s' !! run_id = Some a' ∧ frozen (ra_snapshot a) (ra_snapshot a')
    ∧ ra_events a `prefix_of` ra_events a'.
Proof.
  intros H Ha Hend. destruct (call_runs_evolve _ _ _ _ _ _ H Ha) as (a' & Ha' & Hsteps).
  exists a'. split_and!; [done|by apply steps_frozen|by apply steps_history].
Qed.

(** A run that ended has a disposition: a completed run completed every node
    and decided, an escalated one decided to escalate on a witness or on a
    certificate without a transition, and a failure category is there exactly
    when the run failed or was cancelled. *)
Theorem ended_run_disposed calls replies (s : run_state) run_id a :
  call_runs calls ∅ = (replies, s) → s !! run_id = Some a →
  (rs_lifecycle (ra_snapshot a) = Run_COMPLETED →
     Forall (λ n, np_state n = Node_COMPLETED) (rs_nodes (ra_snapshot a))
     ∧ is_Some (rs_decision (ra_snapshot a)))
  ∧ (rs_lifecycle (ra_snapshot a) = Run_ESCALATED →
     rs_decision (ra_snapshot a) = Some Decide_ESCALATE
     ∧ (rs_witnesses (ra_snapshot a) ≠ []
        ∨ ∃ c, c ∈ rs_certificates (ra_snapshot a) ∧ vc_transition c = None))
  ∧ (is_Some (rs_failure_category (ra_snapshot a)) ↔
     rs_lifecycle (ra_snapshot a) = Run_FAILED ∨ rs_lifecycle (ra_snapshot a) = Run_CANCELLED).
Proof.
  intros H Ha. pose proof (empty_reachable _ _ _ H) as Hre.
  destruct (reachable_run _ _ _ Hre Ha) as [Hr _].
  apply replays_cursor in Hr as (_ & _ & _ & _ & Hc).
  assert (disposed (ra_snapshot a)) as [Hesc Hcat].
  { destruct (Hre run_id a Ha) as (a0 & (rq & ch & z & Hnew & _) & Hsteps).
    apply (steps_disposed _ _ Hsteps). apply created_inv in Hnew as (_ & -> & _). done. }
  unfold construct_run_snapshot in Hc. apply bind_ok in Hc as (? & _ & Hc).
  apply bind_ok in Hc as (u & Hv & _). unfold validate_snapshot in Hv.
  apply bind_ok in Hv as (? & Hp & Hv). apply bind_ok in Hv as (? & _ & Hv).
  apply bind_ok in Hv as (? & _ & Hv).
  unfold validate_progress_binding in Hp.
  do 6 (apply reject_then_ok in Hp as [_ Hp]). apply reject_then_ok in Hp as [Hdis Hp].
  apply reject_if_ok in Hp. unfold validate_end in Hv.
  apply reject_then_ok in Hv as [Hcomp Hv]. apply reject_if_ok in Hv.
  split_and!.
  - intros Hl. rewrite Hl in *. split.
    + apply Forall_forall. intros n Hn. apply dec_stable. intros Hne.
      enough (existsb (λ n, negb (bool_decide (np_state n = Node_COMPLETED)))
                (rs_nodes (ra_snapshot a)) = true) as Hex by by rewrite Hex in Hcomp.
      apply existsb_exists. exists n. split; [by apply list_elem_of_In|].
      by apply negb_true_iff, bool_decide_eq_false.
    + destruct (rs_decision _); [eauto|]. destruct (rs_failure_category _); done.
  - intros Hl. rewrite Hl in *. split; [by apply Hesc|]. cbn in Hv.
    destruct (rs_witnesses _) as [|w ws]; [right|by left]. cbn in Hv.
    apply negb_false_iff, existsb_exists in Hv as (c & Hin & Hn).
    exists c. split; [by apply list_elem_of_In|by apply is_none_true].
  - split; [|intros [Hl|Hl]; rewrite Hl in *; by apply Hcat].
    intros Hs. destruct (rs_failure_category _); [|by destruct Hs]. cbn in Hp.
    destruct (rs_lifecycle _); try done; auto.
Qed.

(** ** What is taken once *)

Definition claims_launch (run_id : string) (call : run_call)
  (reply : result run_error run_reply) : bool :=
  match call, reply with
  | CallClaimLaunch id _ _ _ _, Ok _ => bool_decide (id = run_id)
  | _, _ => false
  end.

Definition appends_at (run_id : string) (revision : Z) (call : run_call)
  (reply : result run_error run_reply) : bool :=
  match call, reply with
  | CallAppend id expected _ _ _, Ok _ => bool_decide (id = run_id) && (expected =? revision)
  | _, _ => false
  end.

(** The launch permit a validated snapshot has is of its first node's action. *)
Lemma launch_of_first_node (u : RecoveryRunSnapshot) l :
  construct_run_snapshot u = Ok u → rs_launch_permit u = Some l →
  ∃ first rest, rc_nodes (rs_chain u) = first :: rest ∧ lp_run_id l = run_id_of u
    ∧ lp_node_id l = rn_node_id first
    ∧ lp_semantic_action_sha256 l = sa_semantic_action_sha256 (rn_semantic_action first).
Proof.
  unfold construct_run_snapshot. intros H Hl. apply bind_ok in H as (? & _ & H).
  apply bind_ok in H as (? & Hv & _). unfold validate_snapshot in Hv.
  apply bind_ok in Hv as (? & _ & Hv). apply bind_ok in Hv as (? & Ha & _).
  unfold validate_authorities in Ha. apply reject_then_ok in Ha as [Hb _].
  rewrite Hl in Hb. unfold launch_bound in Hb.
  destruct (rc_nodes (rs_chain u)) as [|first rest]; [done|]. bool_simpl. eauto 10.
Qed.

(** A claim that returns takes an issued permit and leaves the returned one. *)
Lemma claim_taken (s s' : run_state) run_id pid cid sha at_ r :
  reachable s → call_run (CallClaimLaunch run_id pid cid sha at_) s = (Ok r, s') →
  ∃ a a' current, s !! run_id = Some a ∧ launch_of a = Some current
    ∧ lp_state current = Launch_ISSUED ∧ lp_launch_permit_id current = pid
    ∧ lp_action_request_sha256 current = sha ∧ r = ReplyLaunch (claimed_launch current cid at_)
    ∧ s' !! run_id = Some a' ∧ launch_of a' = Some (claimed_launch current cid at_).
Proof.
  intros Hre H. cbn [call_run] in H. apply reply_bind in H as (r0 & H & Hr).
  apply launch_cases in H. destruct r0 as [launch|err]; [|done].
  destruct H as (a & a' & Ha & Hstep & ->).
  apply claim_launch_step in Hstep as (current & Hc & Hst & Hid & Hsha & -> & Happ).
  injection Hr as ->. exists a, a', current. rewrite lookup_insert_eq. split_and!; try done.
  apply append_event_inv in Happ as (_ & Happ & _).
  apply event_updates in Happ as (u & Hu & Hs). unfold launch_of. rewrite Hs.
  destruct Hu as [l d c Hty _ _ _ _ _|n ns Hty _ _|h rp c w d Hty|launch Hty Hp Hcase
                 |permit permits Hty Hp Hup|receipt Hty _ _]; try (exfalso; clear -Hty; naive_solver).
  cbn in Hp |- *. by injection Hp as ->.
Qed.

(** C20: of all claims of a run's launch permit at most one returns, and it returns
    the permit, claimed by this claim, for the request it named and the action of
    the chain's first node. *)
Theorem launch_claimed_once run_id calls replies (s : run_state) :
  call_runs calls ∅ = (replies, s) →
  (wins (claims_launch run_id) calls replies ≤ 1)%nat
  ∧ ∀ i pid cid sha at_ r,
      calls !! i = Some (CallClaimLaunch run_id pid cid sha at_) → replies !! i = Some (Ok r) →
      ∃ a launch first rest, r = ReplyLaunch launch ∧ s !! run_id = Some a
        ∧ lp_state launch = Launch_CLAIMED ∧ lp_launch_permit_id launch = pid
        ∧ lp_claim_id launch = Some cid ∧ lp_action_request_sha256 launch = sha
        ∧ lp_run_id launch = run_id ∧ rc_nodes (rs_chain (ra_snapshot a)) = first :: rest
        ∧ lp_node_id launch = rn_node_id first
        ∧ lp_semantic_action_sha256 launch = sa_semantic_action_sha256 (rn_semantic_action first).
Proof.
  intros H. pose proof none_reachable as H0. split.
  - eapply (at_most_one_win _ (λ st, ∃ a, st !! run_id = Some a ∧ launch_taken a));
      [| |exact H0|exact H].
    + intros call t reply t' Hre Hc Hw. destruct call; try done. destruct reply as [r|]; [|done].
      apply bool_decide_eq_true in Hw as ->.
      apply claim_taken in Hc as (a & a' & cur & Ha & Hl & Hst & _ & _ & _ & Ha' & Hl'); [|done].
      split.
      * intros (b & Hb & l & Hbl & Hne). rewrite Ha in Hb. injection Hb as <-.
        rewrite Hl in Hbl. injection Hbl as <-. done.
      * exists a'. split; [done|]. eexists. split; [exact Hl'|done].
    + intros t t' Hre Hm. apply moves_keep; [|done|done].
      intros a a' _. apply step_launch_taken.
  - intros i pid cid sha at_ r Hi Hr.
    destruct (call_at _ _ _ _ _ _ _ H0 H Hi Hr) as (t & t' & Hre & Hc & Hlater).
    pose proof (moves_reachable _ _ (call_run_moves _ _ _ _ Hc) Hre) as Hre'.
    apply claim_taken in Hc as (a & a' & cur & _ & _ & _ & Hpid & Hsha & -> & Ha' & Hl'); [|done].
    destruct (reachable_run _ _ _ Hre' Ha') as [Hrep Hid].
    destruct (Hlater _ _ Ha') as (b & Hb & Hsteps).
    apply steps_same_run in Hsteps as (_ & _ & Hch & _).
    apply replays_cursor in Hrep as (_ & _ & _ & _ & Hcon).
    destruct (launch_of_first_node _ _ Hcon Hl') as (first & rest & Hn & Hrun & Hnode & Hsem).
    exists b, (claimed_launch cur cid at_), first, rest. rewrite Hch. split_and!; try done.
    by rewrite Hrun.
Qed.

(** C37: of all appends to a run that expect the same revision at most one returns,
    and it returns the snapshot of the next revision: no update is lost. *)
Theorem revision_appended_once run_id revision calls replies (s : run_state) :
  call_runs calls ∅ = (replies, s) →
  (wins (appends_at run_id revision) calls replies ≤ 1)%nat
  ∧ ∀ i type payload at_ r,
      calls !! i = Some (CallAppend run_id revision type payload at_) →
      replies !! i = Some (Ok r) →
      ∃ u a, r = ReplySnapshot u ∧ rs_revision u = revision + 1 ∧ run_id_of u = run_id
        ∧ s !! run_id = Some a
        ∧ ra_events a !! Z.to_nat (revision + 1)
          = Some (run_event run_id (revision + 2) type at_ payload).
Proof.
  intros H. pose proof none_reachable as H0. split.
  - eapply (at_most_one_win _ (λ st, ∃ a, st !! run_id = Some a
      ∧ revision < rs_revision (ra_snapshot a))); [| |exact H0|exact H].
    + intros call t reply t' Hre Hc Hw. destruct call; try done. destruct reply as [r|]; [|done].
      cbn in Hw. apply andb_true_iff in Hw as [->%bool_decide_eq_true ->%Z.eqb_eq].
      cbn [call_run] in Hc. apply reply_bind in Hc as (r0 & Hc & Hr0). apply append_cases in Hc.
      destruct r0 as [u|]; [|done]. destruct Hc as (a & a' & Ha & Hrev & Happ & -> & _).
      destruct (reachable_run _ _ _ Hre Ha) as [Hrep _].
      assert (run_step a a') as Hs by (unfold run_step; eauto).
      pose proof (step_revision _ _ Hrep Hs) as Hnext. split.
      * intros (b & Hb & Hlt). rewrite Ha in Hb. injection Hb as <-. lia.
      * exists a'. rewrite lookup_insert_eq. split; [done|lia].
    + intros t t' Hre Hm. apply moves_keep; [|done|done].
      intros a a' Hrep Hs Hlt. rewrite (step_revision _ _ Hrep Hs). lia.
  - intros i type payload at_ r Hi Hr.
    destruct (call_at _ _ _ _ _ _ _ H0 H Hi Hr) as (t & t' & Hre & Hc & Hlater).
    cbn [call_run] in Hc. apply reply_bind in Hc as (r0 & Hc & Hr0). apply append_cases in Hc.
    destruct r0 as [u|]; [|done]. destruct Hc as (a & a' & Ha & Hrev & Happ & -> & ->).
    injection Hr0 as ->. destruct (reachable_run _ _ _ Hre Ha) as [Hrep Hid].
    pose proof (replays_cursor _ Hrep) as (Hcur & Hlen & _ & Hrc & _).
    assert (run_step a a') as Hs by (unfold run_step; eauto).
    destruct (Hlater run_id a') as (b & Hb & Hsteps); [by rewrite lookup_insert_eq|].
    exists (ra_snapshot a'), b. rewrite (step_revision _ _ Hrep Hs), Hrev.
    pose proof (step_same_run _ _ Hs) as (Hrq & _).
    split_and!; try done; [by unfold run_id_of in *; rewrite Hrq|].
    apply append_event_inv in Happ as (He & _).
    eapply prefix_lookup_Some; [|by apply steps_history]. rewrite He.
    rewrite lookup_app_r by lia.
    replace (Z.to_nat (revision + 1) - length (ra_events a))%nat with 0%nat by lia. cbn.
    unfold next_event. rewrite Hid. do 2 f_equal. lia.
Qed.

End properties.
