(* ===== verification/RunProgress.v ===== *)
(** What callers of the run store can count on: an append to a decoded aggregate is
    the append of the aggregate, a run can be ended while its history has room, a
    full history takes nothing more, and polling misses no event. *)

From S2P Require Export RunProperties.

#[local] Open Scope Z_scope.
#[local] Opaque regular.

Section progress.
Context {rt : Runtime} {sec : Security}.

(** ** Appends to decoded aggregates *)

(** C19: on an aggregate whose events replay to its snapshot, as the durable stores'
    decoder checks, [_append_decoded_recovery_event] returns and raises exactly
    what [append_recovery_event] does although it replays nothing. *)
Theorem decoded_append_agrees a type payload at_ :
  replays a → regular (ra_snapshot a) = true → regular payload = true →
  _append_decoded_recovery_event a type payload at_ = append_recovery_event a type payload at_.
Proof.
  intros Hr Hreg Hp. unfold _append_decoded_recovery_event.
  destruct (validate_run_event (next_event a type payload at_)) as [[]|e] eqn:Hv;
    [|unfold append_recovery_event; by rewrite Hv].
  destruct (apply_recovery_event (ra_snapshot a) (next_event a type payload at_)) as [s'|e] eqn:Ha;
    [|unfold append_recovery_event; by rewrite Hv, Ha].
  rewrite (accepted_append _ _ _ _ s') by done. cbn [built map_error mbind result_bind].
  rewrite reject_if_false; [done|].
  pose proof (replays_cursor _ Hr) as (Hcur & _).
  pose proof (apply_event_cursor _ _ _ Ha) as (Hs' & _ & He).
  pose proof (apply_event_same_run _ _ _ Ha) as (Hrq & _).
  rewrite length_app, Hs', He, Hcur. cbn [length].
  replace (Z.of_nat (length (ra_events a)) + 1) with (Z.of_nat (length (ra_events a) + 1)) by lia.
  rewrite Z.eqb_refl. cbn. unfold run_id_of. rewrite Hrq. by rewrite bool_decide_refl.
Qed.

(** ** A run can be ended *)

(** The appends that fail a run: its start first when it was only accepted. *)
Definition fail_run (a : RecoveryRunAggregate) (category : RecoveryRunFailureCategory)
  (at_ : datetime) : list run_call :=
  let id := run_id_of (ra_snapshot a) in
  let revision := rs_revision (ra_snapshot a) in
  let failed r := CallAppend id r Event_LIFECYCLE (lifecycle_payload Run_FAILED (Some category)) at_ in
  match rs_lifecycle (ra_snapshot a) with
  | Run_ACCEPTED =>
      [CallAppend id revision Event_LIFECYCLE (lifecycle_payload Run_RUNNING None) at_;
       failed (revision + 1)]
  | _ => [failed revision]
  end.

Lemma regular_lifecycle l category : regular (lifecycle_payload l category) = true.
Proof. by destruct category. Qed.

(** An append of an event the projection accepts. *)
Lemma accepted_call (s : run_state) run_id a type payload at_ u :
  s !! run_id = Some a → run_id_of (ra_snapshot a) = run_id → replays a →
  regular (ra_snapshot a) = true → regular payload = true →
  validate_run_event (next_event a type payload at_) = Ok tt →
  apply_recovery_event (ra_snapshot a) (next_event a type payload at_) = Ok u →
  let a' := {| ra_snapshot := u; ra_events := ra_events a ++ [next_event a type payload at_] |} in
  run_step a a' ∧ regular u = true
  ∧ call_run (CallAppend run_id (rs_revision (ra_snapshot a)) type payload at_) s
    = (Ok (ReplySnapshot u), <[run_id := a']> s).
Proof.
  intros Ha Hid Hr Hreg Hp Hv Happ.
  pose proof (accepted_append _ _ _ _ _ Hr Hreg Hp Hv Happ) as Happend.
  split; [unfold run_step; eauto|split].
  - apply (event_keeps_regular _ (next_event a type payload at_) _ Hreg Hp Happ).
  - cbn [call_run]. unfold append. unfold mbind at 1, run_bind at 1. rewrite load_run_bind, Ha.
    rewrite Z.eqb_refl. cbn [negb]. rewrite pure_bind, Happend. reflexivity.
Qed.

(** One lifecycle event of the store. *)
Lemma lifecycle_call (s : run_state) run_id a l category at_ :
  s !! run_id = Some a → run_id_of (ra_snapshot a) = run_id → replays a →
  regular (ra_snapshot a) = true → plain_lifecycle l category = true →
  l ∈ lifecycle_transitions (rs_lifecycle (ra_snapshot a)) →
  rs_updated_at (ra_snapshot a) <= at_ →
  rs_event_cursor (ra_snapshot a) + 1 <= MAX_RECOVERY_RUN_EVENTS →
  ∃ a', call_run (CallAppend run_id (rs_revision (ra_snapshot a)) Event_LIFECYCLE
                    (lifecycle_payload l category) at_) s
        = (Ok (ReplySnapshot (ra_snapshot a')), <[run_id := a']> s)
    ∧ run_step a a' ∧ regular (ra_snapshot a') = true
    ∧ rs_lifecycle (ra_snapshot a') = l ∧ rs_failure_category (ra_snapshot a') = category
    ∧ rs_updated_at (ra_snapshot a') = at_.
Proof.
  intros Ha Hid Hr Hreg Hl Hin Hat Hmax.
  pose proof (replays_cursor _ Hr) as (Hcur & _ & _ & _ & Hc).
  pose proof (lifecycle_applies _ _ category at_ Hc Hl Hin Hat Hmax) as Happ.
  assert (validate_run_event (next_event a Event_LIFECYCLE (lifecycle_payload l category) at_)
    = Ok tt) as Hv.
  { apply (lifecycle_event_valid (ra_snapshot a)); [done|]. lia. }
  destruct (accepted_call s run_id a Event_LIFECYCLE _ at_ _ Ha Hid Hr Hreg
    (regular_lifecycle l category) Hv Happ) as (Hstep & Hreg' & Hcall).
  eexists {| ra_snapshot := _; ra_events := _ |}. split; [exact Hcall|]. by split_and!.
Qed.

(** C36: a stored run that has not ended and has room for two more events can always
    be failed: from any reachable state the start (if still due) and the failure
    are both accepted and leave it FAILED with the category given. *)
Theorem run_can_fail calls replies (s : run_state) run_id a category at_ :
  call_runs calls ∅ = (replies, s) → s !! run_id = Some a →
  regular (ra_snapshot a) = true →
  is_terminal_recovery_run (rs_lifecycle (ra_snapshot a)) = false →
  rs_updated_at (ra_snapshot a) <= at_ →
  (length (ra_events a) ≤ 510)%nat →
  ∃ replies' s' a', call_runs (fail_run a category at_) s = (replies', s')
    ∧ Forall is_Ok replies' ∧ s' !! run_id = Some a'
    ∧ rs_lifecycle (ra_snapshot a') = Run_FAILED
    ∧ rs_failure_category (ra_snapshot a') = Some category.
Proof.
  intros H Ha Hreg Hlive Hat Hroom.
  destruct (reachable_run _ _ _ (empty_reachable _ _ _ H) Ha) as [Hr Hid].
  pose proof (replays_cursor _ Hr) as (Hcur & _).
  unfold fail_run. rewrite Hid.
  destruct (rs_lifecycle (ra_snapshot a)) eqn:Hl; try done.
  - destruct (lifecycle_call s run_id a Run_RUNNING None at_) as (b & Hcall & Hs & Hregb & Hlb & _ & Hub);
      try done; [rewrite Hl; by left|unfold MAX_RECOVERY_RUN_EVENTS; lia|].
    pose proof (step_replays _ _ Hr Hs) as Hrb.
    pose proof (step_snapshot _ _ Hs) as (e & He & _).
    pose proof (replays_cursor _ Hrb) as (Hcurb & _). rewrite He, length_app in Hcurb. cbn in Hcurb.
    destruct (lifecycle_call (<[run_id := b]> s) run_id b Run_FAILED (Some category) at_)
      as (c & Hcall' & _ & _ & Hlc & Hcat & _); try done.
    + by rewrite lookup_insert_eq.
    + unfold run_id_of in *. by rewrite (proj1 (step_same_run _ _ Hs)).
    + rewrite Hlb. by apply inb_true.
    + lia.
    + unfold MAX_RECOVERY_RUN_EVENTS. lia.
    + rewrite (step_revision _ _ Hr Hs) in Hcall'.
      cbn [call_runs]. rewrite Hcall, Hcall'. do 3 eexists. split; [reflexivity|].
      rewrite lookup_insert_eq. split_and!; try done. by repeat constructor.
  - destruct (lifecycle_call s run_id a Run_FAILED (Some category) at_)
      as (c & Hcall & _ & _ & Hlc & Hcat & _); try done;
      [rewrite Hl; by apply inb_true|unfold MAX_RECOVERY_RUN_EVENTS; lia|].
    cbn [call_runs]. rewrite Hcall. do 3 eexists. split; [reflexivity|].
    rewrite lookup_insert_eq. split_and!; try done. by repeat constructor.
Qed.

(** ** A full history *)

(** What the planner's absence records: a disposition and a note. *)
Definition note_payload : RecoveryRunEventPayload :=
  {| pd_lifecycle := None; pd_failure_category := None; pd_chain := None; pd_node := None;
     pd_hypothesis := None; pd_hypothesis_disposition := Some MODEL_UNAVAILABLE;
     pd_report := None; pd_decision := None; pd_certificate := None; pd_witness := None;
     pd_launch_permit := None; pd_action_permit := None; pd_dispatch_receipt := None;
     pd_note := Some "planner unavailable" |}.

Lemma with_lifecycle_same u :
  with_lifecycle u (rs_lifecycle u) (rs_decision u) (rs_failure_category u) = u.
Proof. by destruct u. Qed.

(** A note is accepted while the run lives and has room, and changes nothing else. *)
Lemma note_call (s : run_state) run_id a :
  s !! run_id = Some a → run_id_of (ra_snapshot a) = run_id → replays a →
  regular (ra_snapshot a) = true →
  is_terminal_recovery_run (rs_lifecycle (ra_snapshot a)) = false →
  rs_event_cursor (ra_snapshot a) + 1 <= MAX_RECOVERY_RUN_EVENTS →
  ∃ call r a', call_run call s = (Ok r, <[run_id := a']> s) ∧ run_step a a'
    ∧ regular (ra_snapshot a') = true
    ∧ rs_lifecycle (ra_snapshot a') = rs_lifecycle (ra_snapshot a).
Proof.
  intros Ha Hid Hr Hreg Hlive Hmax.
  pose proof (replays_cursor _ Hr) as (Hcur & _ & _ & _ & Hc).
  set (at_ := rs_updated_at (ra_snapshot a)).
  set (e := next_event a Event_HYPOTHESIS note_payload at_).
  assert (construct_run_snapshot (with_event (ra_snapshot a) e) = Ok (with_event (ra_snapshot a) e))
    as Hnew.
  { rewrite <-(with_lifecycle_same (ra_snapshot a)) at 1 2.
    apply advanced_snapshot; [done|by right|cbn; lia|done|done]. }
  assert (apply_recovery_event (ra_snapshot a) e = Ok (with_event (ra_snapshot a) e)) as Happ.
  { unfold apply_recovery_event. rewrite reject_if_false.
    - cbn [mbind result_bind]. unfold apply_updates. cbn [re_type e next_event run_event].
      unfold apply_hypothesis. cbn [re_payload e next_event run_event note_payload pd_hypothesis].
      cbn [mbind result_bind]. by rewrite Hnew.
    - cbn. rewrite Hlive, bool_decide_refl, Z.eqb_refl. cbn. rewrite orb_false_r.
      apply Z.ltb_ge. lia. }
  assert (validate_run_event e = Ok tt) as Hv.
  { unfold validate_run_event. cbn [re_cursor e next_event run_event].
    assert (in_range 1 (rs_event_cursor (ra_snapshot a) + 1) MAX_RECOVERY_RUN_EVENTS = true) as ->;
      [|reflexivity]. apply andb_true_iff. split; apply Z.leb_le; lia. }
  destruct (accepted_call s run_id a Event_HYPOTHESIS note_payload at_ _ Ha Hid Hr Hreg
    eq_refl Hv Happ) as (Hstep & Hreg' & Hcall).
  eexists _, _, {| ra_snapshot := _; ra_events := _ |}. split; [exact Hcall|]. by split_and!.
Qed.

(** A live run can be filled with notes and stays what it is. *)
Lemma run_filled n (s : run_state) run_id a :
  s !! run_id = Some a → run_id_of (ra_snapshot a) = run_id → replays a →
  regular (ra_snapshot a) = true →
  is_terminal_recovery_run (rs_lifecycle (ra_snapshot a)) = false →
  (length (ra_events a) + n ≤ 512)%nat →
  ∃ calls replies s' a', call_runs calls s = (replies, s') ∧ s' !! run_id = Some a'
    ∧ length (ra_events a') = (length (ra_events a) + n)%nat
    ∧ rs_lifecycle (ra_snapshot a') = rs_lifecycle (ra_snapshot a).
Proof.
  revert s a. induction n as [|n IH]; intros s a Ha Hid Hr Hreg Hlive Hroom.
  - exists [], [], s, a. split_and!; [done|done|lia|done].
  - pose proof (replays_cursor _ Hr) as (Hcur & _).
    destruct (note_call s run_id a) as (call & r & b & Hcall & Hs & Hregb & Hlb); try done.
    { unfold MAX_RECOVERY_RUN_EVENTS. lia. }
    pose proof (step_snapshot _ _ Hs) as (e & He & _).
    assert (length (ra_events b) = S (length (ra_events a))) as Hlen
      by (rewrite He, length_app; cbn; lia).
    destruct (IH (<[run_id := b]> s) b) as (calls & rs & s' & c & Hcs & Hc & Hlc & Hlife).
    + by rewrite lookup_insert_eq.
    + unfold run_id_of in *. by rewrite (proj1 (step_same_run _ _ Hs)).
    + by eapply step_replays.
    + done.
    + by rewrite Hlb.
    + lia.
    + exists (call :: calls), (Ok r :: rs), s', c. cbn [call_runs]. rewrite Hcall, Hcs.
      split_and!; [done|done|lia|congruence].
Qed.

(** A run with 512 events is never changed again by any call, ended or not, and
    an append that expects its revision raises ValueError. *)
Lemma full_run_closed calls replies calls' replies' (s s' : run_state) run_id a :
  call_runs calls ∅ = (replies, s) → s !! run_id = Some a → length (ra_events a) = 512%nat →
  call_runs calls' s = (replies', s') →
  s' !! run_id = Some a
  ∧ ∀ type payload at_, ∃ text,
      append run_id (rs_revision (ra_snapshot a)) type payload at_ s'
      = (Raise (RunPyError (ValueError text)), s').
Proof.
  intros H Ha Hfull H'. pose proof (empty_reachable _ _ _ H) as Hre.
  assert (s' !! run_id = Some a) as Ha'.
  { destruct (call_runs_evolve _ _ _ _ _ _ H' Ha) as (b & Hb & Hsteps). rewrite Hb. f_equal.
    destruct (reachable_run _ _ _ Hre Ha) as [Hr _].
    assert (replays b) as Hrb by (eapply steps_replay; eauto).
    pose proof (replays_cursor _ Hrb) as (Hcb & _ & Hmax & _).
    destruct Hsteps as [|a c b Hs Hsteps]; [done|]. apply steps_history, prefix_length in Hsteps.
    apply step_snapshot in Hs as (e & He & _). rewrite He, length_app in Hsteps.
    unfold MAX_RECOVERY_RUN_EVENTS in Hmax. cbn in Hsteps. lia. }
  split; [done|]. intros type payload at_. destruct (reachable_run _ _ _ Hre Ha) as [Hr _].
  pose proof (replays_cursor _ Hr) as (Hcur & _).
  unfold append. rewrite load_run_bind, Ha', Z.eqb_refl. cbn [negb]. rewrite pure_bind.
  unfold append_recovery_event, validate_run_event. cbn [next_event re_cursor run_event].
  rewrite Hcur, Hfull. eexists. reflexivity.
Qed.

(** ** Polling *)

Lemma drop_one_to n k :
  (k ≤ n)%nat → drop k (one_to n) = range (Z.of_nat (S k)) (Z.of_nat n + 1).
Proof.
  intros Hk. unfold one_to, range.
  rewrite <-fmap_drop || rewrite <-skipn_map.
  replace (Z.to_nat (Z.of_nat n + 1 - Z.of_nat (S k))) with (n - k)%nat by lia.
  rewrite drop_seq, <-(Nat.add_0_r (1 + k)), <-fmap_add_seq.
  rewrite <-list_fmap_compose. apply list_fmap_ext. intros i x _. cbn. lia.
Qed.

Lemma last_range k n : (k < n)%nat → last (range (Z.of_nat (S k)) (Z.of_nat n + 1)) = Some (Z.of_nat n).
Proof.
  intros Hk. unfold range.
  replace (Z.to_nat (Z.of_nat n + 1 - Z.of_nat (S k))) with (S (n - k - 1)) by lia.
  rewrite seq_S, map_app. cbn [map]. rewrite last_snoc. f_equal. lia.
Qed.

(** A suffix of a stored history is a valid event snapshot. *)
Lemma suffix_valid a k :
  replays a → (k ≤ length (ra_events a))%nat →
  let suffix := {| es_run_id := run_id_of (ra_snapshot a);
                   es_cursor := Z.of_nat (length (ra_events a));
                   es_terminal := is_terminal_recovery_run (rs_lifecycle (ra_snapshot a));
                   es_events := drop k (ra_events a) |} in
  construct_event_snapshot suffix = Ok suffix.
Proof.
  intros Hr Hk suffix. unfold construct_event_snapshot. cbn [suffix es_cursor es_events es_run_id].
  pose proof (replays_cursor _ Hr) as (Hcur & Hmin & Hmax & _).
  pose proof (replays_events _ Hr) as (Hcs & Hids).
  assert (Forall (λ e, validate_run_event e = Ok tt) (drop k (ra_events a))) as Hv.
  { destruct Hr as (? & ? & ? & _ & _ & Hv & _). by apply Forall_drop. }
  apply for_each_ok with (u := tt) in Hv. rewrite Hv.
  assert (in_range 1 (Z.of_nat (length (ra_events a))) MAX_RECOVERY_RUN_EVENTS = true) as ->.
  { apply andb_true_iff; split; apply Z.leb_le; lia. }
  rewrite (existsb_Forall_false _ _ _ (Forall_drop _ k _ Hids));
    [|intros x ->; by rewrite bool_decide_refl].
  cbn [mbind result_bind reject_if].
  assert (cursors (drop k (ra_events a))
    = range (Z.of_nat (S k)) (Z.of_nat (length (ra_events a)) + 1)) as ->.
  { rewrite <-drop_one_to by done. rewrite <-Hcs. unfold cursors. by rewrite skipn_map. }
  destruct (decide (k = length (ra_events a))) as [->|].
  - unfold range. by replace (Z.to_nat _) with 0%nat by lia.
  - pose proof (last_range k (length (ra_events a)) ltac:(lia)) as Hl.
    assert (∃ rest, range (Z.of_nat (S k)) (Z.of_nat (length (ra_events a)) + 1)
      = Z.of_nat (S k) :: rest) as [rest Hrange].
    { unfold range.
      replace (Z.to_nat _) with (S (length (ra_events a) - k - 1)) by lia.
      cbn [seq map]. rewrite Z.add_0_r. eauto. }
    rewrite Hrange in *. rewrite Hl, Hrange, bool_decide_refl. by rewrite Z.eqb_refl.
Qed.

Lemma events_call (s : run_state) run_id a k :
  s !! run_id = Some a → run_id_of (ra_snapshot a) = run_id → replays a →
  (k ≤ length (ra_events a))%nat →
  events run_id (Z.of_nat k) s = (Ok {| es_run_id := run_id;
      es_cursor := Z.of_nat (length (ra_events a));
      es_terminal := is_terminal_recovery_run (rs_lifecycle (ra_snapshot a));
      es_events := drop k (ra_events a) |}, s).
Proof.
  intros Ha <- Hr Hk. unfold events. rewrite load_run_bind, Ha.
  assert ((0 <=? Z.of_nat k) && (Z.of_nat k <=? Z.of_nat (length (ra_events a))) = true) as ->.
  { apply andb_true_iff. split; apply Z.leb_le; lia. }
  cbn [negb]. rewrite Nat2Z.id. by rewrite suffix_valid.
Qed.

(** A consumer that polls a run with the cursor of its last answer misses no
    event, sees none twice and none out of order: whatever happened in between,
    the two answers are the history from its first cursor on, and the second
    says whether the run has ended. *)
Lemma polled_events_complete calls replies calls' replies' (s s' : run_state) run_id k first s1 :
  call_runs calls ∅ = (replies, s) → 0 <= k →
  events run_id k s = (Ok first, s1) →
  call_runs calls' s1 = (replies', s') →
  ∃ next a, events run_id (es_cursor first) s' = (Ok next, s') ∧ s' !! run_id = Some a
    ∧ drop (Z.to_nat k) (ra_events a) = es_events first ++ es_events next
    ∧ es_cursor next = rs_event_cursor (ra_snapshot a)
    ∧ es_terminal next = is_terminal_recovery_run (rs_lifecycle (ra_snapshot a)).
Proof.
  intros H Hk0 Hfirst H'. pose proof (empty_reachable _ _ _ H) as Hre.
  pose proof (events_unchanged _ _ _ _ _ Hfirst) as ->.
  destruct (s !! run_id) as [a|] eqn:Ha.
  2: { unfold events in Hfirst. rewrite load_run_bind, Ha in Hfirst. done. }
  destruct (reachable_run _ _ _ Hre Ha) as [Hr Hid].
  assert (k <= Z.of_nat (length (ra_events a))) as Hk.
  { unfold events in Hfirst. rewrite load_run_bind, Ha in Hfirst.
    destruct (negb _) eqn:Hb; [done|]. bool_simpl. done. }
  rewrite <-(Z2Nat.id k) in Hfirst by done.
  rewrite (events_call _ _ _ _ Ha Hid Hr) in Hfirst by lia. injection Hfirst as <-. cbn.
  destruct (call_runs_evolve _ _ _ _ _ _ H' Ha) as (b & Hb & Hsteps).
  destruct (reachable_run _ _ _ (call_runs_reachable _ _ _ _ H' Hre) Hb) as [Hrb Hidb].
  pose proof (steps_history _ _ Hsteps) as [rest Hrest].
  pose proof (replays_cursor _ Hrb) as (Hcur & _).
  eexists _, b. split; [apply (events_call _ _ _ _ Hb Hidb Hrb); rewrite Hrest, length_app; lia|].
  split_and!; try done. cbn [es_events]. rewrite Hrest, drop_app_length.
  by rewrite drop_app_le by lia.
Qed.

End progress.
