(* ===== verification/RunWitnesses.v ===== *)
(** One recovery run from its creation to its failure, with two racing claims of its
    launch and two racing appends, and the properties of the run store applied to
    it. *)

From S2P Require Export RunProgress.

#[local] Open Scope Z_scope.

(** ** A runtime: the digest is the length of the text *)

Fixpoint length_digits (width : nat) (n : N) : string :=
  match width with
  | O => ""
  | S w => hex_digit (N.land n 15) +:+ length_digits w (N.shiftr n 4)
  end.

Definition run_runtime : Runtime :=
  {| sha256_hex s := length_digits 64 (N.of_nat (String.length s)); float_repr _ := "0.0";
     has_unsafe_category _ := false; pydantic_time := datetime_text;
     str_lower s := s; str_strip s := s |}.
Definition run_security : Security :=
  {| is_sensitive_key _ := false; contains_sensitive_material _ := false;
     terminal_safe_text s := s; redact_untrusted_text s := s |}.
#[local] Existing Instance run_runtime.
#[local] Existing Instance run_security.

(** ** A chain of one node and its launch permit *)

Definition run_time : datetime := 1717243200 * second_us.

Definition run_target : TargetBinding :=
  {| tb_target_kind := "service"; tb_scope := [("project", JStr "p")];
     tb_resource := [("service", JStr "s")] |}.
Definition run_arguments : json_object := [("release_id", JStr "r")].
Definition run_effects : list string := [sha256_hex "effect"].

Definition run_action : SemanticActionIdentity :=
  {| sa_key_version := "v1"; sa_tool_name := "stage"; sa_tool_version := "1";
     sa_semantic_arguments := run_arguments; sa_target := run_target;
     sa_expected_effect_sha256s := run_effects; sa_action_profile_version := "v1";
     sa_semantic_action_sha256 :=
       match RecoveryContracts.semantic_action_sha256 "v1" "stage" "1" run_arguments run_target run_effects "v1" with
       | Ok digest => digest | Raise _ => "" end |}.

Definition run_chain : RecoveryChain :=
  {| rc_chain_id := "chain"; rc_chain_profile_version := "v1";
     rc_nodes := [{| rn_node_id := "stage"; rn_chain_profile_version := "v1";
                     rn_semantic_action := run_action; rn_depends_on := [];
                     rn_envelope := {| er_investigation_id := "i"; er_operation_id := "o";
                                       er_envelope_sha256 := sha256_hex "envelope" |} |}];
     rc_created_at := run_time |}.

Definition run_name : string := "run-1".
Definition run_request : RecoveryRunRequest :=
  {| rr_run_id := run_name; rr_scenario := "cloud-run-rollout"; rr_policy := FIXED;
     rr_fault := NO_FAULT |}.

Definition run_launch : RecoveryLaunchPermit :=
  {| lp_launch_permit_id := "launch"; lp_run_id := run_name; lp_node_id := "stage";
     lp_semantic_action_sha256 := sa_semantic_action_sha256 run_action;
     lp_action_request_sha256 := sha256_hex "request"; lp_issued_at := run_time;
     lp_state := Launch_ISSUED; lp_revision := 0; lp_claim_id := None; lp_claimed_at := None;
     lp_completed_at := None; lp_outcome := None |}.

Definition request_digest : string := sha256_hex "request".
Definition claim_by (claimant : string) : run_call :=
  CallClaimLaunch run_name "launch" claimant request_digest (run_time + 3).
Definition lifecycle_at (revision : Z) (l : RecoveryRunLifecycle)
  (category : option RecoveryRunFailureCategory) (at_ : datetime) : run_call :=
  CallAppend run_name revision Event_LIFECYCLE (lifecycle_payload l category) at_.
Definition launch_at_two : run_call :=
  CallAppend run_name 2 Event_LAUNCH_PERMIT (launch_payload run_launch) (run_time + 2).

(** Two callers append at revision 2 and two claim the launch. *)
Definition first_calls : list run_call :=
  [CallCreate run_request run_chain run_time; lifecycle_at 1 Run_RUNNING None (run_time + 1);
   launch_at_two; launch_at_two; claim_by "first"; claim_by "second"].
Definition last_call : run_call :=
  lifecycle_at 4 Run_FAILED (Some INTERNAL_FAILURE) (run_time + 4).

(** ** Its aggregates *)

Definition taken : RecoveryLaunchPermit := claimed_launch run_launch "first" (run_time + 3).

Definition created_run : RecoveryRunAggregate :=
  {| ra_snapshot := initial_snapshot_of run_request run_chain run_time;
     ra_events := initial_event_pair run_name run_chain run_time |}.
Definition with_next (a : RecoveryRunAggregate) (type : RecoveryRunEventType)
  (payload : RecoveryRunEventPayload) (at_ : datetime) (s : RecoveryRunSnapshot)
  : RecoveryRunAggregate :=
  {| ra_snapshot := with_event s (next_event a type payload at_);
     ra_events := ra_events a ++ [next_event a type payload at_] |}.
Definition started_run : RecoveryRunAggregate :=
  with_next created_run Event_LIFECYCLE (lifecycle_payload Run_RUNNING None) (run_time + 1)
    (with_lifecycle (ra_snapshot created_run) Run_RUNNING None None).
Definition issued_run : RecoveryRunAggregate :=
  with_next started_run Event_LAUNCH_PERMIT (launch_payload run_launch) (run_time + 2)
    (with_authorities (ra_snapshot started_run) (Some run_launch) [] []).
Definition claimed_run : RecoveryRunAggregate :=
  with_next issued_run Event_LAUNCH_PERMIT (launch_payload taken) (run_time + 3)
    (with_authorities (ra_snapshot issued_run) (Some taken) [] []).
Definition failed_run : RecoveryRunAggregate :=
  with_next claimed_run Event_LIFECYCLE (lifecycle_payload Run_FAILED (Some INTERNAL_FAILURE))
    (run_time + 4)
    (with_lifecycle (ra_snapshot claimed_run) Run_FAILED None (Some INTERNAL_FAILURE)).

(** A result that is computed to return, and whose value is known when it does. *)
Lemma returns_known {A E} (r : result E A) a :
  (∀ b, r = Ok b → b = a) → is_ok r = true → r = Ok a.
Proof. destruct r as [b|]; cbn; [|done]. intros H _. f_equal. by apply H. Qed.

Lemma created_ok : create_recovery_run_aggregate run_request run_chain run_time = Ok created_run.
Proof.
  apply returns_known; [|vm_compute; reflexivity].
  intros [s evs] H. pose proof (created_inv _ _ _ _ H) as (_ & Hs & He & _). cbn in Hs, He.
  unfold created_run. f_equal; assumption.
Qed.

(** ** Its calls *)

Definition good (a : RecoveryRunAggregate) : Prop :=
  replays a ∧ regular (ra_snapshot a) = true ∧ run_id_of (ra_snapshot a) = run_name.

Lemma good_created : good created_run.
Proof.
  split; [exact (created_replays _ _ _ _ created_ok)|].
  split; [apply regular_snapshot; split_and!; reflexivity|reflexivity].
Qed.

(** A next event whose projection is computed to be accepted. *)
Lemma next_accepted a type payload at_ s :
  good a → regular payload = true →
  is_ok (validate_run_event (next_event a type payload at_)) = true →
  is_ok (apply_recovery_event (ra_snapshot a) (next_event a type payload at_)) = true →
  apply_updates (ra_snapshot a) (next_event a type payload at_) = Ok s →
  let a' := with_next a type payload at_ s in
  append_recovery_event a type payload at_ = Ok a' ∧ good a'
  ∧ ∀ st : run_state, st !! run_name = Some a →
      call_run (CallAppend run_name (rs_revision (ra_snapshot a)) type payload at_) st
      = (Ok (ReplySnapshot (ra_snapshot a')), <[run_name := a']> st).
Proof.
  intros (Hr & Hreg & Hid) Hp Hv Happ Hs a'.
  assert (validate_run_event (next_event a type payload at_) = Ok tt) as Hv'
    by (apply returns_known; [by intros []|done]).
  assert (apply_recovery_event (ra_snapshot a) (next_event a type payload at_)
    = Ok (ra_snapshot a')) as Happ'.
  { apply returns_known; [|done]. intros b Hb. unfold apply_recovery_event in Hb.
    apply reject_then_ok in Hb as [_ Hb]. rewrite Hs in Hb. cbn [mbind result_bind] in Hb.
    by apply map_error_ok, construct_run_snapshot_id in Hb. }
  pose proof (accepted_append _ _ _ _ _ Hr Hreg Hp Hv' Happ') as Happend.
  split; [exact Happend|]. split.
  - assert (run_step a a') as Hstep by (unfold run_step; eauto).
    split; [by eapply step_replays|]. split.
    + exact (event_keeps_regular _ (next_event a type payload at_) _ Hreg Hp Happ').
    + unfold run_id_of in *. by rewrite (proj1 (step_same_run _ _ Hstep)).
  - intros st Hst. apply (accepted_call _ _ _ _ _ _ _ Hst Hid Hr Hreg Hp Hv' Happ').
Qed.

Lemma good_started : good started_run ∧ ∀ st : run_state, st !! run_name = Some created_run →
  call_run (lifecycle_at 1 Run_RUNNING None (run_time + 1)) st
  = (Ok (ReplySnapshot (ra_snapshot started_run)), <[run_name := started_run]> st).
Proof.
  destruct (next_accepted created_run Event_LIFECYCLE (lifecycle_payload Run_RUNNING None)
    (run_time + 1) (with_lifecycle (ra_snapshot created_run) Run_RUNNING None None) good_created)
    as (_ & Hg & Hc); [reflexivity|vm_compute; reflexivity..|]. exact (conj Hg Hc).
Qed.

Lemma good_issued : good issued_run ∧ ∀ st : run_state, st !! run_name = Some started_run →
  call_run launch_at_two st
  = (Ok (ReplySnapshot (ra_snapshot issued_run)), <[run_name := issued_run]> st).
Proof.
  destruct (next_accepted started_run Event_LAUNCH_PERMIT (launch_payload run_launch)
    (run_time + 2) (with_authorities (ra_snapshot started_run) (Some run_launch) [] [])
    (proj1 good_started))
    as (_ & Hg & Hc); [reflexivity|vm_compute; reflexivity..|]. exact (conj Hg Hc).
Qed.

Lemma good_claimed : good claimed_run ∧ append_recovery_event issued_run Event_LAUNCH_PERMIT
  (launch_payload taken) (run_time + 3) = Ok claimed_run.
Proof.
  destruct (next_accepted issued_run Event_LAUNCH_PERMIT (launch_payload taken)
    (run_time + 3) (with_authorities (ra_snapshot issued_run) (Some taken) [] [])
    (proj1 good_issued))
    as (Ha & Hg & _); [reflexivity|vm_compute; reflexivity..|]. exact (conj Hg Ha).
Qed.

Lemma good_failed : good failed_run ∧ ∀ st : run_state, st !! run_name = Some claimed_run →
  call_run last_call st
  = (Ok (ReplySnapshot (ra_snapshot failed_run)), <[run_name := failed_run]> st).
Proof.
  destruct (next_accepted claimed_run Event_LIFECYCLE
    (lifecycle_payload Run_FAILED (Some INTERNAL_FAILURE)) (run_time + 4)
    (with_lifecycle (ra_snapshot claimed_run) Run_FAILED None (Some INTERNAL_FAILURE))
    (proj1 good_claimed))
    as (_ & Hg & Hc); [reflexivity|vm_compute; reflexivity..|]. exact (conj Hg Hc).
Qed.

Lemma create_call : call_run (CallCreate run_request run_chain run_time) ∅
  = (Ok (ReplyCreated (ra_snapshot created_run) true), <[run_name := created_run]> ∅).
Proof.
  cbn [call_run]. unfold create. unfold mbind at 1, run_bind at 1.
  rewrite pure_bind, created_ok. unfold find_run, mbind, run_bind. by rewrite lookup_empty.
Qed.

Lemma late_append_call (st : run_state) : st !! run_name = Some issued_run →
  call_run launch_at_two st = (Raise (RecoveryRunConflict run_name), st).
Proof.
  intros H. cbn [call_run launch_at_two]. unfold append. unfold mbind at 1, run_bind at 1.
  by rewrite load_run_bind, H.
Qed.

Lemma claim_call (st : run_state) : st !! run_name = Some issued_run →
  call_run (claim_by "first") st = (Ok (ReplyLaunch taken), <[run_name := claimed_run]> st).
Proof.
  intros H. cbn [call_run claim_by]. unfold claim_launch. unfold mbind at 1, run_bind at 1.
  rewrite load_run_bind, H.
  assert (claim_recovery_launch issued_run "launch" "first" request_digest (run_time + 3)
    = Ok (claimed_run, taken)) as Hc.
  { unfold claim_recovery_launch. change (rs_launch_permit (ra_snapshot issued_run)) with (Some run_launch).
    cbv beta iota. rewrite reject_if_false by (vm_compute; reflexivity).
    change (claimed_launch run_launch "first" (run_time + 3)) with taken. cbn [mbind result_bind].
    rewrite (proj2 good_claimed). reflexivity. }
  by rewrite pure_bind, Hc.
Qed.

Lemma late_claim_call (st : run_state) : st !! run_name = Some claimed_run →
  call_run (claim_by "second") st = (Raise (RecoveryLaunchClaimDenied run_name), st).
Proof.
  intros H. cbn [call_run claim_by]. unfold claim_launch. unfold mbind at 1, run_bind at 1.
  by rewrite load_run_bind, H.
Qed.

(** ** The run *)

Definition first_replies : list (result run_error run_reply) :=
  [Ok (ReplyCreated (ra_snapshot created_run) true); Ok (ReplySnapshot (ra_snapshot started_run));
   Ok (ReplySnapshot (ra_snapshot issued_run)); Raise (RecoveryRunConflict run_name);
   Ok (ReplyLaunch taken); Raise (RecoveryLaunchClaimDenied run_name)].
Definition claimed_state : run_state := <[run_name := claimed_run]> ∅.
Definition failed_state : run_state := <[run_name := failed_run]> ∅.

Lemma calls_cons call calls (s s' s'' : run_state) r rs :
  call_run call s = (r, s') → call_runs calls s' = (rs, s'') →
  call_runs (call :: calls) s = (r :: rs, s'').
Proof. intros H H'. cbn [call_runs]. by rewrite H, H'. Qed.

Lemma first_run : call_runs first_calls ∅ = (first_replies, claimed_state).
Proof.
  unfold first_calls, first_replies.
  eapply calls_cons; [apply create_call|].
  eapply calls_cons; [apply (proj2 good_started), lookup_insert_eq|]. rewrite insert_insert_eq.
  eapply calls_cons; [apply (proj2 good_issued), lookup_insert_eq|]. rewrite insert_insert_eq.
  eapply calls_cons; [apply late_append_call, lookup_insert_eq|].
  eapply calls_cons; [apply claim_call, lookup_insert_eq|]. rewrite insert_insert_eq.
  eapply calls_cons; [apply late_claim_call, lookup_insert_eq|]. reflexivity.
Qed.

Lemma last_run : call_runs [last_call] claimed_state
  = ([Ok (ReplySnapshot (ra_snapshot failed_run))], failed_state).
Proof.
  unfold claimed_state.
  eapply calls_cons; [apply (proj2 good_failed), lookup_insert_eq|]. by rewrite insert_insert_eq.
Qed.

Lemma whole_run : call_runs (first_calls ++ [last_call]) ∅
  = (first_replies ++ [Ok (ReplySnapshot (ra_snapshot failed_run))], failed_state).
Proof. exact (call_runs_app _ _ _ _ _ _ _ first_run last_run). Qed.

Lemma claimed_stored : claimed_state !! run_name = Some claimed_run.
Proof. apply lookup_insert_eq. Qed.
Lemma failed_stored : failed_state !! run_name = Some failed_run.
Proof. apply lookup_insert_eq. Qed.

(** ** The properties *)

Lemma stored_runs_replay_witness :
  replays failed_run ∧ cursors (ra_events failed_run) = one_to 6
  ∧ construct_run_snapshot (ra_snapshot failed_run) = Ok (ra_snapshot failed_run).
Proof.
  destruct (stored_runs_replay _ _ _ run_name failed_run whole_run failed_stored)
    as (_ & Hr & Hc & _ & _ & _ & Hv). split_and!; [exact Hr|exact Hc|exact Hv].
Defined.

(** A second failure after the first. *)
Lemma ended_run_frozen_witness : ∃ replies' s' a',
  call_runs [last_call; claim_by "third"] failed_state = (replies', s')
  ∧ s' !! run_name = Some a' ∧ frozen (ra_snapshot failed_run) (ra_snapshot a').
Proof.
  destruct (call_runs [last_call; claim_by "third"] failed_state) as [replies' s'] eqn:H.
  destruct (ended_run_frozen _ _ _ _ run_name failed_run H failed_stored eq_refl)
    as (a' & Ha' & Hf & _).
  exists replies', s', a'. split_and!; [reflexivity|exact Ha'|exact Hf].
Defined.

Lemma ended_run_disposed_witness : is_Some (rs_failure_category (ra_snapshot failed_run)).
Proof.
  destruct (ended_run_disposed _ _ _ run_name failed_run whole_run failed_stored) as (_ & _ & H).
  apply H. left. reflexivity.
Defined.

Lemma launch_claimed_once_witness :
  wins (claims_launch run_name) first_calls first_replies = 1%nat
  ∧ ∃ launch, Ok (ReplyLaunch taken) = Ok (E:=run_error) (ReplyLaunch launch)
      ∧ lp_claim_id launch = Some "first" ∧ lp_node_id launch = "stage".
Proof.
  split; [reflexivity|].
  destruct (launch_claimed_once run_name _ _ _ first_run) as [_ H].
  destruct (H 4%nat "launch" "first" request_digest (run_time + 3) (ReplyLaunch taken) eq_refl eq_refl)
    as (a & l & first & rest & Hl & Ha & _ & _ & Hcid & _ & _ & Hn & Hnode & _).
  exists l. split; [by rewrite Hl|]. split; [exact Hcid|]. rewrite Hnode.
  rewrite claimed_stored in Ha. injection Ha as <-. cbn in Hn. by injection Hn as <- _.
Defined.

Lemma revision_appended_once_witness :
  wins (appends_at run_name 2) first_calls first_replies = 1%nat
  ∧ ∃ u, ReplySnapshot (ra_snapshot issued_run) = ReplySnapshot u ∧ rs_revision u = 3.
Proof.
  split; [reflexivity|].
  destruct (revision_appended_once run_name 2 _ _ _ first_run) as [_ H].
  destruct (H 2%nat _ _ _ (ReplySnapshot (ra_snapshot issued_run)) eq_refl eq_refl)
    as (u & a & Hu & Hrev & _). exists u. split; [exact Hu|exact Hrev].
Defined.

Lemma decoded_append_agrees_witness :
  _append_decoded_recovery_event issued_run Event_LAUNCH_PERMIT (launch_payload taken) (run_time + 3)
  = Ok claimed_run.
Proof.
  rewrite decoded_append_agrees; [exact (proj2 good_claimed)|apply good_issued..|reflexivity].
Defined.

Lemma run_can_fail_witness : ∃ replies' s' a',
  call_runs (fail_run claimed_run DISPATCH_UNAVAILABLE (run_time + 9)) claimed_state = (replies', s')
  ∧ Forall is_Ok replies' ∧ s' !! run_name = Some a'
  ∧ rs_lifecycle (ra_snapshot a') = Run_FAILED.
Proof.
  destruct (run_can_fail _ _ _ run_name claimed_run DISPATCH_UNAVAILABLE (run_time + 9) first_run
    claimed_stored) as (rs & s' & a' & H & Hok & Ha' & Hl & _);
    [apply good_claimed|reflexivity|vm_compute; discriminate|cbn; lia|].
  exists rs, s', a'. split_and!; [exact H|exact Hok|exact Ha'|exact Hl].
Defined.

(** A running run filled with notes: it can never be ended. *)
Lemma full_run_closed_witness : ∃ calls replies (s : run_state) a,
  call_runs calls ∅ = (replies, s) ∧ s !! run_name = Some a
  ∧ rs_lifecycle (ra_snapshot a) = Run_RUNNING
  ∧ ∀ calls' replies' s', call_runs calls' s = (replies', s') → s' !! run_name = Some a.
Proof.
  destruct (run_filled 507 claimed_state run_name claimed_run claimed_stored)
    as (calls & rs & s & a & H & Ha & Hlen & Hl); [apply good_claimed..|reflexivity|cbn; lia|].
  pose proof (call_runs_app _ _ _ _ _ _ _ first_run H) as Hall.
  exists (first_calls ++ calls), (first_replies ++ rs), s, a.
  split_and!; [exact Hall|exact Ha|exact Hl|].
  intros calls' rs' s' H'. apply (full_run_closed _ _ _ _ _ _ _ _ Hall Ha Hlen H').
Defined.

Lemma polled_events_complete_witness : ∃ next a,
  events run_name 5 failed_state = (Ok next, failed_state) ∧ failed_state !! run_name = Some a
  ∧ ra_events a = ra_events claimed_run ++ es_events next ∧ es_terminal next = true.
Proof.
  pose proof (events_call claimed_state run_name claimed_run 0 claimed_stored eq_refl
    (proj1 (proj1 good_claimed)) ltac:(lia)) as Hfirst.
  destruct (polled_events_complete _ _ [last_call] _ _ _ run_name 0 _ _ first_run
    ltac:(lia) Hfirst last_run)
    as (next & a & Hn & Ha & Hev & _ & Hend).
  rewrite failed_stored in Ha. injection Ha as <-.
  exists next, failed_run. split_and!; [exact Hn|exact failed_stored|exact Hev|exact Hend].
Defined.
