(* ===== verification/WorkOps.v ===== *)
(** What the recovery workflow works with (reconcile/recovery_workflow.py and the
    dispatch boundary of reconcile/recovery_agents.py): its definition, evidence,
    agent turns and dispatch results, the operations it awaits, and its pure
    helpers.

    The store, the evidence source, the hypothesis agent, the action preparer, the
    permit authority, the gateway, the clock and the claim identifiers are the
    environment; an operation of theirs answers with a value or an exception. *)

From S2P Require Export Planning RunEvents RecoveryVerification PermitAuthority Controller.

#[local] Open Scope Z_scope.

(** ** Exceptions *)

Inductive work_exn :=
  | WorkCancelled
  | RecoveryWorkflowError (message : string)
  | RecoveryDefinitionError (message : string)
  | RecoveryEvidenceUnavailable
  | StoreError (error : run_error)
  | AuthorityError (error : exception)
  | VerifierError (error : recovery_error)
  | PythonError (error : py_error)
  | AssertionFailed
  | OutsideError.

(** [except Exception] takes all but [asyncio.CancelledError]. *)
Definition is_cancelled (e : work_exn) : bool :=
  match e with WorkCancelled | AuthorityError CancelledError => true | _ => false end.

(** ** Data *)

(** [RecoveryEvidenceState]; its evaluation is an output of the evidence engine. *)
Record RecoveryEvidenceState := {
  ev_envelope : ExecutionEnvelope;
  ev_report : InvestigationReport;
  ev_evaluation : CoreEvaluation;
}.

Record RecoveryRunDefinition := {
  df_chain : RecoveryChain;
  df_envelopes : list (string * ExecutionEnvelope);
  df_capabilities : list (string * list ObservationCapability);
}.

Record RecoveryAgentTurn := {
  turn_hypothesis : option GeminiHypothesis;
  turn_failure : option PlannerFailureKind;
  turn_output_sha256 : option string;
}.

(** [RecoveryDispatchReceipt] of recovery_agents.py. *)
Record DispatchResult := {
  ds_outcome : RecoveryDispatchOutcome;
  ds_launch_permit : option RecoveryLaunchPermit;
  ds_action_permit : option ActionPermit;
}.

#[export] Instance RecoveryNodeProgress_eq_dec : EqDecision RecoveryNodeProgress.
Proof. solve_decision. Defined.

(** ** Operations *)

Inductive work_op : Type → Type :=
  | StoreGet (run_id : string) : work_op (result work_exn RecoveryRunSnapshot)
  | StoreAppend (run_id : string) (expected_revision : Z) (type : RecoveryRunEventType)
      (payload : RecoveryRunEventPayload) (occurred_at : datetime)
      : work_op (result work_exn RecoveryRunSnapshot)
  | StoreEvents (run_id : string) (after : Z)
      : work_op (result work_exn RecoveryRunEventSnapshot)
  | MakeDefinition (request : RecoveryRunRequest) : work_op (result work_exn RecoveryRunDefinition)
  | CurrentEvidence (run_id : string) (node : RecoveryActionNode) (envelope : ExecutionEnvelope)
      : work_op (result work_exn RecoveryEvidenceState)
  | FixedEvidence (run_id : string) (node : RecoveryActionNode) (envelope : ExecutionEnvelope)
      : work_op (result work_exn RecoveryEvidenceState)
  | ProbeEvidence (run_id : string) (node : RecoveryActionNode) (envelope : ExecutionEnvelope)
      (request : ProbeRequest) : work_op (result work_exn RecoveryEvidenceState)
  | Hypothesize (chain : RecoveryChain) (node : RecoveryActionNode) (envelope : ExecutionEnvelope)
      (report : InvestigationReport) (capabilities : list ObservationCapability)
      (prior : list string) : work_op (result work_exn RecoveryAgentTurn)
  | PrepareAction (request : RecoveryRunRequest) (chain : RecoveryChain)
      (source target : RecoveryActionNode) (report : option InvestigationReport)
      (certificate : option VerifiedCertificate)
      : work_op (result work_exn RecoveryPreparedAction)
  | GetPermit (id : string) : work_op (result work_exn ActionPermit)
  | IssuePermit (certificate : VerifiedCertificate)
      : work_op (result work_exn (option ActionPermit))
  | Dispatch (prepared : RecoveryPreparedAction) (scope : RecoveryActionScope)
      : work_op (result work_exn DispatchResult)
  | WorkClock : work_op (option datetime)
  | NewWorkClaim : work_op string
  | CancellationPending : work_op bool.

Abbreviation work := (proc work_op work_exn).

Definition python {A} (r : result py_error A) : result work_exn A := map_error PythonError r.
Definition verified {A} (r : result recovery_error A) : result work_exn A := map_error VerifierError r.
Definition definition_error {A} (message : string) : result work_exn A :=
  Raise (RecoveryDefinitionError message).
Definition workflow_error {A} (message : string) : result work_exn A :=
  Raise (RecoveryWorkflowError message).
Definition workflow_error_if (guard : bool) (message : string) : result work_exn unit :=
  reject_if guard (RecoveryWorkflowError message).

(** [next(item for item in items if test(item))]; inside a coroutine its
    StopIteration becomes a RuntimeError. *)
Definition next_item {A} (test : A → bool) (items : list A) : result work_exn A :=
  match List.filter test items with
  | item :: _ => Ok item
  | [] => Raise (PythonError (RuntimeError "coroutine raised StopIteration"))
  end.

(** [mapping[key]] *)
Definition lookup_key {V} (key : string) (mapping : list (string * V)) : result work_exn V :=
  match dict_get key mapping with
  | Some v => Ok v
  | None => Raise (PythonError (KeyError key))
  end.

(** ** Event payloads *)

Definition node_payload (n : RecoveryNodeProgress) : RecoveryRunEventPayload :=
  {| pd_lifecycle := None; pd_failure_category := None; pd_chain := None; pd_node := Some n;
     pd_hypothesis := None; pd_hypothesis_disposition := None; pd_report := None;
     pd_decision := None; pd_certificate := None; pd_witness := None;
     pd_launch_permit := None; pd_action_permit := None; pd_dispatch_receipt := None;
     pd_note := None |}.
Definition hypothesis_payload (h : option GeminiHypothesis) (d : RecoveryHypothesisDisposition)
  (note : string) : RecoveryRunEventPayload :=
  {| pd_lifecycle := None; pd_failure_category := None; pd_chain := None; pd_node := None;
     pd_hypothesis := h; pd_hypothesis_disposition := Some d; pd_report := None;
     pd_decision := None; pd_certificate := None; pd_witness := None;
     pd_launch_permit := None; pd_action_permit := None; pd_dispatch_receipt := None;
     pd_note := Some note |}.
Definition report_payload (r : InvestigationReport) : RecoveryRunEventPayload :=
  {| pd_lifecycle := None; pd_failure_category := None; pd_chain := None; pd_node := None;
     pd_hypothesis := None; pd_hypothesis_disposition := None; pd_report := Some r;
     pd_decision := None; pd_certificate := None; pd_witness := None;
     pd_launch_permit := None; pd_action_permit := None; pd_dispatch_receipt := None;
     pd_note := None |}.
Definition decision_payload (d : RecoveryDecision) (artifact : RecoveryVerificationResult)
  : RecoveryRunEventPayload :=
  {| pd_lifecycle := None; pd_failure_category := None; pd_chain := None; pd_node := None;
     pd_hypothesis := None; pd_hypothesis_disposition := None; pd_report := None;
     pd_decision := Some d;
     pd_certificate := match artifact with CertificateResult c => Some c | _ => None end;
     pd_witness := match artifact with WitnessResult w => Some w | _ => None end;
     pd_launch_permit := None; pd_action_permit := None; pd_dispatch_receipt := None;
     pd_note := None |}.
Definition permit_payload (p : ActionPermit) : RecoveryRunEventPayload :=
  {| pd_lifecycle := None; pd_failure_category := None; pd_chain := None; pd_node := None;
     pd_hypothesis := None; pd_hypothesis_disposition := None; pd_report := None;
     pd_decision := None; pd_certificate := None; pd_witness := None;
     pd_launch_permit := None; pd_action_permit := Some p; pd_dispatch_receipt := None;
     pd_note := None |}.

Section helpers.
Context {rt : Runtime} {sec : Security} {sv : SchemaValidator} {od : ObservationDecoder}.

(** ** Definitions *)

(** [RecoveryRunDefinition.__post_init__]; a capability's [read_only] is always
    true. *)
Definition construct_definition (self : RecoveryRunDefinition)
  : result work_exn RecoveryRunDefinition :=
  let ids := map rn_node_id (rc_nodes (df_chain self)) in
  reject_if (negb (same_set (dict_keys (df_envelopes self)) ids)
             || negb (same_set (dict_keys (df_capabilities self)) ids))
    (RecoveryDefinitionError "recovery definition does not bind every node");;
  for_each (λ node,
    envelope ← lookup_key (rn_node_id node) (df_envelopes self);
    reject_if (negb (bool_decide (canonical_sha256 envelope = er_envelope_sha256 (rn_envelope node)))
               || negb (bool_decide (en_investigation_id envelope
                          = er_investigation_id (rn_envelope node)))
               || negb (bool_decide (en_operation_id envelope
                          = er_operation_id (rn_envelope node))))
      (RecoveryDefinitionError "recovery envelope binding changed");;
    capabilities ← lookup_key (rn_node_id node) (df_capabilities self);
    let enabled := map (λ c, (cr_name c, cr_version c))
                     (enabled_capabilities (en_context envelope)) in
    let actual := map (λ c, (oc_name c, oc_version c)) capabilities in
    reject_if (negb (same_set actual enabled))
      (RecoveryDefinitionError "recovery probes are not exactly allowlisted"))
    (rc_nodes (df_chain self));;
  Ok self.

Definition _node (chain : RecoveryChain) (node_id : string) : result work_exn RecoveryActionNode :=
  match List.filter (λ n, bool_decide (rn_node_id n = node_id)) (rc_nodes chain) with
  | [node] => Ok node
  | _ => definition_error "recovery node is not unique"
  end.

Definition _successor_envelope (definition : RecoveryRunDefinition) (node : RecoveryActionNode)
  : result work_exn (option ExecutionEnvelope) :=
  match List.filter (λ c, inb (rn_node_id node) (rn_depends_on c)) (rc_nodes (df_chain definition)) with
  | [] => Ok None
  | [next] => envelope ← lookup_key (rn_node_id next) (df_envelopes definition); Ok (Some envelope)
  | _ => definition_error "recovery chain is not a single declared path"
  end.

(** ** Advice *)

(** [RecoveryAgentTurn.__post_init__] *)
Definition construct_turn (self : RecoveryAgentTurn) : result work_exn RecoveryAgentTurn :=
  reject_if (eqb (is_none (turn_hypothesis self)) (is_none (turn_failure self)))
    (PythonError (ValueError "a recovery turn requires one hypothesis or failure"));;
  reject_if (match turn_hypothesis self with
             | Some h => negb (bool_decide (turn_output_sha256 self = Some (canonical_sha256 h)))
             | None => false
             end)
    (PythonError (ValueError "successful recovery output must identify its hypothesis"));;
  Ok self.

Definition _validate_hypothesis (hypothesis : GeminiHypothesis) (chain : RecoveryChain)
  (node : RecoveryActionNode) (report : InvestigationReport) : bool :=
  bool_decide (gh_chain_id hypothesis = rc_chain_id chain)
  && bool_decide (gh_node_id hypothesis = rn_node_id node)
  && bool_decide (gh_semantic_action_sha256 hypothesis
       = sa_semantic_action_sha256 (rn_semantic_action node))
  && bool_decide (gh_report_sha256 hypothesis = canonical_sha256 report)
  && subsetb (gh_cited_evidence_ids hypothesis) (map ne_evidence_id (ir_evidence report)).

(** [probe_request_sha256] of recovery_agents.py: the whole request. *)
Definition advised_probe_sha256 (request : ProbeRequest) : string := canonical_sha256 request.

(** [max((f(item) for item in items), default=0)] of natural numbers. *)
Definition max_of {A} (f : A → Z) (items : list A) : Z :=
  match items with [] => 0 | x :: l => foldr (λ y m, Z.max (f y) m) (f x) l end.

(** [int((now - created_at).total_seconds() * 1_000)] *)
Definition wall_ms (now created_at : datetime) : result py_error Z :=
  int_of_float (fmul (true_div (now - created_at) second_us) (float_of_int 1000)).

(** [created_at + timedelta(milliseconds=n)]: a [timedelta] has less than 10^9 days
    and a [datetime] ends with the year 9999. *)
Definition deadline_after (created_at : datetime) (n : Z) : result py_error datetime :=
  reject_if (1000000000 * 86400000 <=? n) OverflowError;;
  let t := created_at + n * 1000 in
  reject_if (datetime_max <? t) OverflowError;;
  Ok t.

Definition recovery_remaining_budget (envelope : ExecutionEnvelope) (report : InvestigationReport)
  (now : datetime) : result py_error PlannerRemainingBudget :=
  let maximum := evidence_budget (en_context envelope) in
  let audits := ir_probe_audit report in
  let probes_used := Z.max (Z.of_nat (length audits)) (max_of pa_probe_count_used audits) in
  elapsed ← wall_ms now (ir_created_at report);
  let wall_elapsed := Z.max 0 elapsed in
  deadline ← deadline_after (ir_created_at report) (max_elapsed_ms maximum);
  let budget :=
    {| pb_probes := Z.max 0 (max_probes maximum - probes_used);
       pb_elapsed_ms := Z.max 0 (max_elapsed_ms maximum
         - Z.max (max_of pa_session_elapsed_ms audits) wall_elapsed);
       pb_result_bytes := Z.max 0 (max_total_result_bytes maximum
         - max_of pa_result_bytes_acquired audits);
       pb_cost_units := Z.max 0 (max_cost_units maximum - max_of pa_cost_units_used audits);
       pb_deadline_at := Z.max (en_invoked_at envelope) deadline |} in
  reject_if (negb (in_range 0 (pb_probes budget) 64)) (ValueError "probes are outside their range");;
  for_each (λ n, reject_if (negb (in_range 0 n (2 ^ 63 - 1))) (ValueError "budget is outside its range"))
    [pb_elapsed_ms budget; pb_result_bytes budget; pb_cost_units budget];;
  Ok budget.

Definition _probe_disposition (hypothesis : GeminiHypothesis) (envelope : ExecutionEnvelope)
  (capabilities : list ObservationCapability) (prior : list string)
  (remaining : PlannerRemainingBudget) : RecoveryHypothesisDisposition :=
  if is_some (gh_proposed_transition hypothesis) then UNSUPPORTED_ACTION
  else match gh_proposed_probe hypothesis with
  | None => NO_PROBE
  | Some request =>
      if inb (advised_probe_sha256 request) prior then DUPLICATE_PROBE else
      match List.filter (λ c, bool_decide ((oc_name c, oc_version c)
                = (pr_capability_name request, pr_capability_version request))) capabilities with
      | [capability] =>
          if negb (subsetb (pr_relevant_effect_ids request)
                     (map ee_effect_id (en_expected_effects envelope)))
             || negb (schema_is_valid (JObj (oc_argument_schema capability))
                        (JObj (pr_arguments request)))
          then UNSUPPORTED_PROBE
          else if (pb_probes remaining =? 0) || (pb_elapsed_ms remaining =? 0)
                  || (pb_result_bytes remaining =? 0)
                  || (pb_cost_units remaining <? oc_cost_units capability)
          then RunContracts.BUDGET_EXHAUSTED
          else SELECTED
      | _ => UNSUPPORTED_PROBE
      end
  end.

Definition _planner_disposition (failure : PlannerFailureKind) : RecoveryHypothesisDisposition :=
  match failure with
  | Planner_UNAVAILABLE => MODEL_UNAVAILABLE
  | Planner_TIMEOUT => MODEL_TIMEOUT
  | Planner_SCHEMA_INVALID => MALFORMED_MODEL_OUTPUT
  end.

(** ** Proof artifacts *)

Definition _is_provider_conflict_witness (node : RecoveryActionNode) (state : RecoveryEvidenceState)
  (artifact : RecoveryVerificationResult) : result work_exn bool :=
  match artifact with
  | CertificateResult _ => Ok false
  | WitnessResult witness =>
      let bound := map rb_evidence_id (aw_evidence witness) in
      let evidence := List.filter (λ e, inb (ne_evidence_id e) bound) (ce_evidence (ev_evaluation state)) in
      if negb (same_set (map ne_evidence_id evidence) bound) then Ok false else
      match (profile ← resolve_recovery_action_profile (rn_semantic_action node);
             recovery_provider_conflict_pairs profile (rn_semantic_action node) evidence) with
      | Ok conflicts =>
          Ok (existsb (λ '(a, b), bool_decide (aw_conflicting_evidence_ids witness = [a; b])) conflicts)
      | Raise (RecoveryRuleViolation _) => Ok false
      | Raise e => Raise (VerifierError e)
      end
  end.

Definition _MAX_OBSERVATION_ROUNDS : Z := 8.
Definition _MAX_ADAPTIVE_TURNS : nat := 8.

Definition _certificate_decision (definition : RecoveryRunDefinition) (node : RecoveryActionNode)
  (certificate : VerifiedCertificate) (observation_round : Z) : RecoveryDecision :=
  match vc_transition certificate with
  | Some t => match ct_action t with CONTINUE => Decide_CONTINUE | RETRY => Decide_RETRY end
  | None =>
      if bool_decide (vc_classification certificate = PENDING) then
        if observation_round <? _MAX_OBSERVATION_ROUNDS then Decide_OBSERVE else Decide_ESCALATE
      else if bool_decide (vc_classification certificate = COMMITTED)
              && bool_decide (Some (rn_node_id node)
                   = rn_node_id <$> last (rc_nodes (df_chain definition)))
      then Decide_CONTINUE else Decide_ESCALATE
  end.

(** [ProofToPermitWorkflow._verify] *)
Definition _verify (definition : RecoveryRunDefinition) (node : RecoveryActionNode)
  (state : RecoveryEvidenceState) : result work_exn RecoveryVerificationResult :=
  successor ← _successor_envelope definition node;
  verified (verify_recovery (df_chain definition) (rn_node_id node) (ev_envelope state)
    (ev_report state) (ev_evaluation state) (ir_updated_at (ev_report state)) successor).

End helpers.
