(* ===== verification/Workflow.v ===== *)
(** [ProofToPermitWorkflow] (reconcile/recovery_workflow.py): how a worker takes one
    run through its chain.

    A projection under [asyncio.shield] or [_finish_before_cancellation] runs to its
    end before the cancellation goes on; a second cancellation during a shielded
    one is not told apart from the first. *)

From S2P Require Export WorkOps.

#[local] Open Scope Z_scope.

#[local] Abbreviation lift := Proc.lift.
#[local] Abbreviation raise := Proc.raise.
#[local] Abbreviation await := Proc.await.
#[local] Abbreviation catch := Proc.catch.

Section workflow.
Context {rt : Runtime} {sec : Security} {sv : SchemaValidator} {od : ObservationDecoder}.

(** [self._now(snapshot)] *)
Definition work_now (at_least : option datetime) : work datetime :=
  value ← await WorkClock;
  match value with
  | None => raise (RecoveryWorkflowError "recovery clock is invalid")
  | Some t => mret (match at_least with Some u => Z.max t u | None => t end)
  end.

Definition work_definition (request : RecoveryRunRequest) : work RecoveryRunDefinition :=
  value ← perform (MakeDefinition request);
  lift (construct_definition value).

(** ** Appends *)

(** [self._append(run_id, type, RecoveryRunEventPayload(...))] *)
Definition _append (run_id : string) (event_type : RecoveryRunEventType)
  (payload : RecoveryRunEventPayload) : work RecoveryRunSnapshot :=
  _ ← lift (python (validate_payload_models payload));
  snapshot ← perform (StoreGet run_id);
  now ← work_now (Some (rs_updated_at snapshot));
  perform (StoreAppend run_id (rs_revision snapshot) event_type payload now).

Definition append_lifecycle (run_id : string) (l : RecoveryRunLifecycle)
  : work RecoveryRunSnapshot := _append run_id Event_LIFECYCLE (lifecycle_payload l None).

Definition _node_state (run_id node_id : string) (state : RecoveryNodeState) (attempt : Z)
  : work RecoveryRunSnapshot :=
  snapshot ← perform (StoreGet run_id);
  let desired := {| np_node_id := node_id; np_state := state; np_attempt := attempt |} in
  _ ← lift (python (validate_progress desired));
  match List.filter (λ n, bool_decide (np_node_id n = node_id)) (rs_nodes snapshot) with
  | [current] =>
      if is_terminal_recovery_run (rs_lifecycle snapshot)
      then raise (StoreError (RecoveryRunConflict run_id))
      else if bool_decide (current = desired) then mret snapshot
      else now ← work_now (Some (rs_updated_at snapshot));
           perform (StoreAppend run_id (rs_revision snapshot) Event_NODE (node_payload desired) now)
  | _ => raise (RecoveryDefinitionError "recovery node progress is not unique")
  end.

(** [next(item for item in snapshot.nodes if item.node_id == node_id)] *)
Definition progress_of (snapshot : RecoveryRunSnapshot) (node_id : string)
  : result work_exn RecoveryNodeProgress :=
  next_item (λ n, bool_decide (np_node_id n = node_id)) (rs_nodes snapshot).

(** ** Prepared actions *)

(** The identity of the prepared action is that of the target node's action. *)
Definition prepared_common (request : RecoveryRunRequest) (definition : RecoveryRunDefinition)
  (source target : RecoveryActionNode) (value : RecoveryPreparedAction) : result py_error bool :=
  let action := rn_semantic_action target in
  if bool_decide (prep_run_id value = rr_run_id request)
     && bool_decide (prep_chain_id value = rc_chain_id (df_chain definition))
     && bool_decide (prep_source_node_id value = rn_node_id source)
     && bool_decide (prep_target_node_id value = rn_node_id target)
     && bool_decide (prep_semantic_action_sha256 value = sa_semantic_action_sha256 action)
     && bool_decide (prep_tool_name value = sa_tool_name action)
     && bool_decide (prep_tool_version value = sa_tool_version action)
     && object_eqb (prep_arguments value) (sa_semantic_arguments action)
  then digest ← dispatch_arguments_sha256 (sa_semantic_arguments action);
       Ok (bool_decide (prep_arguments_sha256 value = digest)
           && target_eqb (prep_target value) (sa_target action)
           && bool_decide (prep_target_sha256 value = canonical_sha256 (sa_target action)))
  else Ok false.

(** [except (TypeError, ValueError)] around the sealed profile's check. *)
Definition sealed_dispatch (action : SemanticActionIdentity) (value : RecoveryPreparedAction)
  : result work_exn unit :=
  match validate_recovery_dispatch action (prep_tool_name value) (prep_tool_version value)
          (prep_arguments value) (prep_target value) (prep_precondition value) with
  | Ok _ => Ok tt
  | Raise (RecoveryRuleViolation _) | Raise (RecoveryVerificationError _)
  | Raise (ContractError (TypeError _)) | Raise (ContractError (ValueError _)) =>
      workflow_error "prepared action is outside the sealed dispatch profile"
  | Raise e => Raise (VerifierError e)
  end.

Definition launch_authorized (source target : RecoveryActionNode)
  (report : option InvestigationReport) (value : RecoveryPreparedAction) : bool :=
  is_none report && bool_decide (prep_authority_kind value = LAUNCH_PERMIT_AUTHORITY)
  && is_none (prep_permit_action value) && is_none (prep_report_sha256 value)
  && is_none (prep_certificate_id value) && is_none (prep_certificate_sha256 value)
  && bool_decide (rn_node_id source = rn_node_id target).

Definition certificate_authorized (report : option InvestigationReport)
  (certificate : VerifiedCertificate) (value : RecoveryPreparedAction) : result py_error bool :=
  match report, vc_transition certificate with
  | Some report, Some transition =>
      if bool_decide (canonical_sha256 report = vc_report_sha256 certificate)
         && bool_decide (prep_authority_kind value = ACTION_PERMIT_AUTHORITY)
         && bool_decide (prep_permit_action value = Some (ct_action transition))
         && bool_decide (prep_report_sha256 value = Some (vc_report_sha256 certificate))
         && bool_decide (prep_certificate_id value = Some (vc_certificate_id certificate))
         && bool_decide (prep_certificate_sha256 value = Some (canonical_sha256 certificate))
         && bool_decide (prep_semantic_action_sha256 value = ct_semantic_action_sha256 transition)
         && bool_decide (prep_tool_name value = ct_tool_name transition)
         && bool_decide (prep_tool_version value = ct_tool_version transition)
         && bool_decide (prep_arguments_sha256 value = ct_arguments_sha256 transition)
         && bool_decide (prep_target_sha256 value = ct_target_sha256 transition)
         && bool_decide (prep_precondition_sha256 value = ct_precondition_sha256 transition)
      then digest ← dispatch_precondition_sha256 (prep_precondition value);
           Ok (bool_decide (prep_precondition_sha256 value = digest))
      else Ok false
  | _, _ => Ok false
  end.

Definition _prepare_action (request : RecoveryRunRequest) (definition : RecoveryRunDefinition)
  (source target : RecoveryActionNode) (report : option InvestigationReport)
  (certificate : option VerifiedCertificate) : work RecoveryPreparedAction :=
  value ← perform (PrepareAction request (df_chain definition) source target report certificate);
  common ← lift (python (prepared_common request definition source target value));
  _ ← lift (sealed_dispatch (rn_semantic_action target) value);
  _ ← lift (workflow_error_if (negb common) "prepared action identity changed");
  valid ← lift (python (match certificate with
    | None => Ok (launch_authorized source target report value)
    | Some c => certificate_authorized report c value
    end));
  _ ← lift (workflow_error_if (negb valid)
              "prepared action is not bound to certified authority");
  mret value.

(** [RolloutAgent.execute] *)
Definition scope_matches (prepared : RecoveryPreparedAction) (scope : RecoveryActionScope) : bool :=
  bool_decide (prep_authority_kind prepared = as_authority_kind scope)
  && bool_decide (prep_run_id prepared = as_run_id scope)
  && bool_decide (prep_source_node_id prepared = as_source_node_id scope)
  && bool_decide (prep_target_node_id prepared = as_target_node_id scope)
  && bool_decide (prep_semantic_action_sha256 prepared = as_semantic_action_sha256 scope)
  && bool_decide (prep_action_request_sha256 prepared = as_action_request_sha256 scope)
  && bool_decide (prep_permit_action prepared = as_permit_action scope)
  && bool_decide (prep_certificate_id prepared = as_certificate_id scope)
  && bool_decide (prep_certificate_sha256 prepared = as_certificate_sha256 scope).
Definition execute_rollout (prepared : RecoveryPreparedAction) (scope : RecoveryActionScope)
  : work DispatchResult :=
  _ ← lift (reject_if (negb (scope_matches prepared scope))
    (PythonError (RuntimeError "prepared recovery action does not match its scope")));
  perform (Dispatch prepared scope).

(** ** The first dispatch *)

Definition new_launch (run_id : string) (node : RecoveryActionNode)
  (prepared : RecoveryPreparedAction) (issued_at : datetime) : RecoveryLaunchPermit :=
  let digest := sha256_hex (run_id +:+ nul +:+ rn_node_id node +:+ nul +:+ "launch") in
  {| lp_launch_permit_id := "launch-permit-" +:+ String.substring 0 32 digest;
     lp_run_id := run_id; lp_node_id := rn_node_id node;
     lp_semantic_action_sha256 := sa_semantic_action_sha256 (rn_semantic_action node);
     lp_action_request_sha256 := prep_action_request_sha256 prepared;
     lp_issued_at := issued_at; lp_state := Launch_ISSUED; lp_revision := 0;
     lp_claim_id := None; lp_claimed_at := None; lp_completed_at := None; lp_outcome := None |}.

Definition launch_scope (run_id : string) (node : RecoveryActionNode)
  (launch : RecoveryLaunchPermit) (claim_id : string) : RecoveryActionScope :=
  {| as_authority_kind := LAUNCH_PERMIT_AUTHORITY; as_run_id := run_id;
     as_source_node_id := rn_node_id node; as_target_node_id := rn_node_id node;
     as_semantic_action_sha256 := sa_semantic_action_sha256 (rn_semantic_action node);
     as_action_request_sha256 := lp_action_request_sha256 launch;
     as_authority_id := lp_launch_permit_id launch; as_authority_sha256 := canonical_sha256 launch;
     as_claim_id := claim_id; as_permit_action := None; as_certificate_id := None;
     as_certificate_sha256 := None |}.

Definition launch_dispatched (launch : RecoveryLaunchPermit) : bool :=
  bool_decide (lp_state launch = Launch_CLAIMED) || bool_decide (lp_state launch = Launch_COMPLETED).

Definition preserve_launch_authority (run_id node_id : string) : work unit :=
  current ← perform (StoreGet run_id);
  match rs_launch_permit current with
  | Some latest =>
      if launch_dispatched latest then
        progress ← lift (progress_of current node_id);
        if bool_decide (np_state progress = Node_DISPATCH_PENDING)
        then _ ← _node_state run_id node_id Node_DISPATCH_CLAIMED 1; mret tt
        else mret tt
      else mret tt
  | None => mret tt
  end.

(** What the [except] clauses around the first dispatch do. *)
Definition launch_failed (run_id node_id : string) (e : work_exn) : work (option DispatchResult) :=
  if is_cancelled e then _ ← preserve_launch_authority run_id node_id; raise e else
  current ← perform (StoreGet run_id);
  match rs_launch_permit current with
  | Some latest => if bool_decide (lp_state latest = Launch_ISSUED) then raise e else mret None
  | None => raise e
  end.

Definition launch_completed (launch : RecoveryLaunchPermit) (claim_id : string)
  (receipt : DispatchResult) : bool :=
  match ds_launch_permit receipt with
  | Some completed =>
      bool_decide (lp_launch_permit_id completed = lp_launch_permit_id launch)
      && bool_decide (lp_claim_id completed = Some claim_id)
      && bool_decide (lp_state completed = Launch_COMPLETED)
      && bool_decide (lp_outcome completed = Some (ds_outcome receipt))
  | None => false
  end.

(** [if launch.state is ISSUED: ...] *)
Definition dispatch_launch (run_id : string) (node : RecoveryActionNode)
  (launch : RecoveryLaunchPermit) (prepared : option RecoveryPreparedAction) : work unit :=
  let node_id := rn_node_id node in
  current ← perform (StoreGet run_id);
  progress ← lift (progress_of current node_id);
  _ ← (if bool_decide (np_state progress = Node_WAITING)
       then _ ← _node_state run_id node_id Node_DISPATCH_PENDING 1; mret tt
       else lift (workflow_error_if (negb (bool_decide (np_state progress = Node_DISPATCH_PENDING)))
                    "issued launch permit has invalid recovery node state"));
  match prepared with
  | None => raise (RecoveryWorkflowError "prepared launch request changed")
  | Some prepared =>
      _ ← lift (workflow_error_if (negb (bool_decide (prep_action_request_sha256 prepared
                   = lp_action_request_sha256 launch))) "prepared launch request changed");
      claim_id ← await NewWorkClaim;
      let scope := launch_scope run_id node launch claim_id in
      _ ← lift (python (validate_Identifier claim_id;; validate_action_scope scope));
      receipt ← catch (receipt ← execute_rollout prepared scope; mret (Some receipt))
                  (launch_failed run_id node_id);
      match receipt with
      | None => _ ← _node_state run_id node_id Node_DISPATCH_CLAIMED 1; mret tt
      | Some receipt =>
          lift (workflow_error_if (negb (launch_completed launch claim_id receipt))
            "initial dispatch authority was not completed")
      end
  end.

Definition _initial_dispatch (snapshot : RecoveryRunSnapshot) (definition : RecoveryRunDefinition)
  (node : RecoveryActionNode) : work unit :=
  let run_id := run_id_of snapshot in
  let request := rs_request snapshot in
  prepared ← (if match rs_launch_permit snapshot with
                 | None => true
                 | Some launch => bool_decide (lp_state launch = Launch_ISSUED)
                 end
              then value ← _prepare_action request definition node node None None; mret (Some value)
              else mret None);
  launch ← match rs_launch_permit snapshot, prepared with
    | Some launch, _ => mret launch
    | None, None => raise (RecoveryWorkflowError "initial recovery action was not prepared")
    | None, Some prepared =>
        issued ← work_now (Some (rs_updated_at snapshot));
        let launch := new_launch run_id node prepared issued in
        _ ← lift (python (validate_launch_permit launch));
        _ ← _append run_id Event_LAUNCH_PERMIT (launch_payload launch);
        mret launch
    end;
  _ ← (if bool_decide (lp_state launch = Launch_ISSUED)
       then dispatch_launch run_id node launch prepared else mret tt);
  _ ← _node_state run_id (rn_node_id node) Node_RECONCILING 1;
  mret tt.

(** ** Investigation *)

Definition _record_evidence (run_id : string) (state : RecoveryEvidenceState) : work unit :=
  _ ← _append run_id Event_EVIDENCE (report_payload (ev_report state)); mret tt.

(** [except CancelledError: raise], [except Exception: raise RecoveryEvidenceUnavailable] *)
Definition or_unavailable {A} (m : work A) : work A :=
  catch m (λ e, if is_cancelled e then raise e else raise RecoveryEvidenceUnavailable).

Definition record_hypothesis (run_id : string) (h : option GeminiHypothesis)
  (d : RecoveryHypothesisDisposition) (note : string) : work unit :=
  _ ← _append run_id Event_HYPOTHESIS (hypothesis_payload h d note); mret tt.

Definition fixed_investigation (run_id : string) (definition : RecoveryRunDefinition)
  (node : RecoveryActionNode) (envelope : ExecutionEnvelope)
  : work (RecoveryEvidenceState * RecoveryVerificationResult) :=
  state ← or_unavailable (perform (FixedEvidence run_id node envelope));
  _ ← _record_evidence run_id state;
  artifact ← lift (_verify definition node state);
  conflict ← lift (_is_provider_conflict_witness node state artifact);
  if conflict : bool then
    state ← or_unavailable (
      again ← perform (CurrentEvidence run_id node envelope);
      _ ← _record_evidence run_id again;
      perform (FixedEvidence run_id node envelope));
    _ ← _record_evidence run_id state;
    artifact ← lift (_verify definition node state);
    mret (state, artifact)
  else mret (state, artifact).

Definition PLANNER_NOTE : string :=
  "The advisory planner was unavailable or invalid; fixed read policy selected.".
Definition ADVICE_NOTE : string :=
  "The advisory hypothesis was recorded without proof or mutation authority.".
Definition FALLBACK_NOTE : string :=
  "Deterministic fixed probe policy replaced rejected advice.".

(** What one adaptive turn leads to. *)
Inductive turn_outcome :=
  | TurnEnds (state : RecoveryEvidenceState) (artifact : RecoveryVerificationResult)
  | TurnGoesOn (state : RecoveryEvidenceState) (prior : list string)
      (artifact : RecoveryVerificationResult).

Definition hypothesis_disposition (definition : RecoveryRunDefinition) (node : RecoveryActionNode)
  (envelope : ExecutionEnvelope) (capabilities : list ObservationCapability)
  (state : RecoveryEvidenceState) (prior : list string) (hypothesis : option GeminiHypothesis)
  : work RecoveryHypothesisDisposition :=
  match hypothesis with
  | Some h =>
      if _validate_hypothesis h (df_chain definition) node (ev_report state) then
        now ← work_now None;
        remaining ← lift (python (recovery_remaining_budget envelope (ev_report state) now));
        mret (_probe_disposition h envelope capabilities prior remaining)
      else mret INVALID_BINDING
  | None => mret INVALID_BINDING
  end.

(** The dispositions that a fixed round of reads replaces. *)
Definition falls_back (d : RecoveryHypothesisDisposition) : bool :=
  match d with
  | UNSUPPORTED_PROBE | UNSUPPORTED_ACTION | DUPLICATE_PROBE | INVALID_BINDING => true
  | _ => false
  end.

Definition adaptive_turn (run_id : string) (definition : RecoveryRunDefinition)
  (node : RecoveryActionNode) (envelope : ExecutionEnvelope)
  (state : RecoveryEvidenceState) (prior : list string) : work turn_outcome :=
  capabilities ← lift (lookup_key (rn_node_id node) (df_capabilities definition));
  answer ← perform (Hypothesize (df_chain definition) node envelope (ev_report state)
                      capabilities (merge_sort str_le prior));
  turn ← lift (construct_turn answer);
  match turn_failure turn with
  | Some failure =>
      _ ← record_hypothesis run_id None (_planner_disposition failure) PLANNER_NOTE;
      state ← perform (FixedEvidence run_id node envelope);
      _ ← _record_evidence run_id state;
      artifact ← lift (_verify definition node state);
      mret (TurnEnds state artifact)
  | None =>
      let hypothesis := turn_hypothesis turn in
      disposition ← hypothesis_disposition definition node envelope capabilities state prior hypothesis;
      _ ← record_hypothesis run_id hypothesis disposition ADVICE_NOTE;
      match disposition, hypothesis ≫= gh_proposed_probe with
      | SELECTED, Some request =>
          let prior' := list_union prior [advised_probe_sha256 request] in
          state ← or_unavailable (perform (ProbeEvidence run_id node envelope request));
          _ ← _record_evidence run_id state;
          artifact ← lift (_verify definition node state);
          mret (match artifact with
                | CertificateResult _ => TurnEnds state artifact
                | WitnessResult _ => TurnGoesOn state prior' artifact
                end)
      | SELECTED, None => raise AssertionFailed
      | _, _ =>
          state ← (if falls_back disposition then
                     state ← perform (FixedEvidence run_id node envelope);
                     _ ← record_hypothesis run_id None FIXED_FALLBACK FALLBACK_NOTE;
                     _ ← _record_evidence run_id state;
                     mret state
                   else mret state);
          artifact ← lift (_verify definition node state);
          mret (TurnEnds state artifact)
      end
  end.

Fixpoint adaptive_turns (turns : nat) (run_id : string) (definition : RecoveryRunDefinition)
  (node : RecoveryActionNode) (envelope : ExecutionEnvelope) (state : RecoveryEvidenceState)
  (prior : list string) (artifact : option RecoveryVerificationResult)
  : work (RecoveryEvidenceState * RecoveryVerificationResult) :=
  match turns with
  | O => match artifact with
         | Some artifact => mret (state, artifact)
         | None => artifact ← lift (_verify definition node state); mret (state, artifact)
         end
  | S turns' =>
      outcome ← adaptive_turn run_id definition node envelope state prior;
      match outcome with
      | TurnEnds state artifact => mret (state, artifact)
      | TurnGoesOn state prior artifact =>
          adaptive_turns turns' run_id definition node envelope state prior (Some artifact)
      end
  end.

Definition _investigate (snapshot : RecoveryRunSnapshot) (definition : RecoveryRunDefinition)
  (node : RecoveryActionNode) : work (RecoveryEvidenceState * RecoveryVerificationResult) :=
  let run_id := run_id_of snapshot in
  envelope ← lift (lookup_key (rn_node_id node) (df_envelopes definition));
  state ← or_unavailable (perform (CurrentEvidence run_id node envelope));
  _ ← _record_evidence run_id state;
  match rr_policy (rs_request snapshot) with
  | FIXED => fixed_investigation run_id definition node envelope
  | ADAPTIVE =>
      adaptive_turns _MAX_ADAPTIVE_TURNS run_id definition node envelope state [] None
  | _ => raise (RecoveryDefinitionError "baseline policies are implemented by #171")
  end.

Definition _record_decision (run_id : string) (artifact : RecoveryVerificationResult)
  (decision : RecoveryDecision) : work RecoveryRunSnapshot :=
  _ ← (match artifact with
       | CertificateResult _ => mret tt
       | WitnessResult _ =>
           lift (workflow_error_if (negb (bool_decide (decision = Decide_ESCALATE)))
             "ambiguity witness must escalate")
       end);
  _append run_id Event_DECISION (decision_payload decision artifact).

End workflow.
