(* ===== verification/WorkRun.v ===== *)
(** [ProofToPermitWorkflow.run] and the certified dispatches it makes, and the worker
    of [RecoveryRunApplicationService] that runs it (reconcile/recovery_workflow.py).

    The loop over the chain takes fuel; [workflow_terminates] gives the amount that
    is always enough. *)

From S2P Require Export Workflow.

#[local] Open Scope Z_scope.

#[local] Abbreviation lift := Proc.lift.
#[local] Abbreviation raise := Proc.raise.
#[local] Abbreviation await := Proc.await.
#[local] Abbreviation catch := Proc.catch.

Section run.
Context {rt : Runtime} {sec : Security} {sv : SchemaValidator} {od : ObservationDecoder}.

(** ** The projection of an action permit *)

(** The copy that validates as CLAIMED; [issued_copy] of Permit.v is the other one. *)
Definition claimed_state (p : ActionPermit) : ActionPermit :=
  Permit.with_lifecycle p CLAIMED 1 (claim_id p) (claimed_at p) None None (expired_at p).

(** [try: ... except (TypeError, ValueError): ... = False] *)
Definition or_false (r : result py_error bool) : result work_exn bool :=
  match r with
  | Ok b => Ok b
  | Raise (TypeError _) | Raise (ValueError _) => Ok false
  | Raise e => Raise (PythonError e)
  end.

(** The states from the projection's revision up to the permit's. *)
Definition missing_states (current_revision : Z) (permit : ActionPermit)
  : result py_error (list ActionPermit) :=
  first ← (if current_revision <? 0 then p ← model_validate_permit (issued_copy permit); Ok [p]
           else Ok []);
  let current := Z.max 0 current_revision in
  second ← (if (current <? 1) && (1 <=? revision permit) then
              if bool_decide (state permit = EXPIRED) then Ok [permit]
              else p ← model_validate_permit (claimed_state permit); Ok [p]
            else Ok []);
  let current := if (current <? 1) && (1 <=? revision permit) then 1 else current in
  Ok (first ++ second ++ if (current <? 2) && (revision permit =? 2) then [permit] else []).

Definition with_permit_id (id : string) (permits : list ActionPermit) : list ActionPermit :=
  List.filter (λ p, bool_decide (permit_id p = id)) permits.

Definition _mirror_action_permit (run_id : string) (permit : ActionPermit) : work unit :=
  snapshot ← perform (StoreGet run_id);
  let append_missing current :=
    states ← lift (python (missing_states current permit));
    _ ← gather (λ p, _append run_id Event_ACTION_PERMIT (permit_payload p)) states;
    mret tt in
  match with_permit_id (permit_id permit) (rs_action_permits snapshot) with
  | [] => append_missing (-1)
  | [projected] =>
      if revision projected =? revision permit then
        same ← lift (or_false (same_action_permit_state projected permit));
        lift (workflow_error_if (negb same) "action permit projection changed")
      else if revision permit <? revision projected
      then raise (RecoveryWorkflowError "action permit projection moved backwards")
      else append_missing (revision projected)
  | _ => raise (RecoveryWorkflowError "action permit projection is ambiguous")
  end.

(** [_finish_before_cancellation]: the operation ends before a cancellation that came
    meanwhile goes on. *)
Definition _finish_before_cancellation (operation : work unit) : work unit :=
  _ ← operation;
  pending ← await CancellationPending;
  if pending : bool then raise WorkCancelled else mret tt.

(** ** A certified dispatch *)

Definition certified_scope (run_id : string) (transition : CertifiedTransition)
  (prepared : RecoveryPreparedAction) (permit : ActionPermit)
  (certificate : VerifiedCertificate) (claim_id : string) : RecoveryActionScope :=
  {| as_authority_kind := ACTION_PERMIT_AUTHORITY; as_run_id := run_id;
     as_source_node_id := ct_source_node_id transition;
     as_target_node_id := ct_target_node_id transition;
     as_semantic_action_sha256 := ct_semantic_action_sha256 transition;
     as_action_request_sha256 := prep_action_request_sha256 prepared;
     as_authority_id := permit_id permit; as_authority_sha256 := canonical_sha256 permit;
     as_claim_id := claim_id; as_permit_action := Some (action permit);
     as_certificate_id := Some (vc_certificate_id certificate);
     as_certificate_sha256 := Some (canonical_sha256 certificate) |}.

Definition permit_dispatched (p : ActionPermit) : bool :=
  bool_decide (state p = CLAIMED) || bool_decide (state p = COMPLETED).
Definition awaits_claim (n : RecoveryNodeProgress) : bool :=
  bool_decide (np_state n = Node_VERIFIED) || bool_decide (np_state n = Node_PERMITTED).

(** The source of a dispatched permit is at least DISPATCH_CLAIMED. *)
Definition claim_source (run_id node_id : string) : work unit :=
  latest ← perform (StoreGet run_id);
  progress ← lift (progress_of latest node_id);
  if bool_decide (np_state progress = Node_DISPATCH_CLAIMED) then mret tt
  else _ ← lift (workflow_error_if (negb (awaits_claim progress))
                   "claimed permit disagrees with durable node state");
       _ ← _node_state run_id node_id Node_DISPATCH_CLAIMED (Z.max 1 (np_attempt progress));
       mret tt.

Definition preserve_action_authority (run_id node_id : string) (id : string) (attempt : Z)
  : work unit :=
  latest ← perform (GetPermit id);
  if bool_decide (state latest = ISSUED) then mret tt else
  _ ← _mirror_action_permit run_id latest;
  if permit_dispatched latest then
    current ← perform (StoreGet run_id);
    progress ← lift (progress_of current node_id);
    if awaits_claim progress
    then _ ← _node_state run_id node_id Node_DISPATCH_CLAIMED (Z.max 1 attempt); mret tt
    else mret tt
  else mret tt.

(** What the [except] clauses around a certified dispatch do. *)
Definition certified_failed (run_id node_id : string) (id : string) (attempt : Z) (e : work_exn)
  : work (option DispatchResult) :=
  if is_cancelled e then
    _ ← _finish_before_cancellation (preserve_action_authority run_id node_id id attempt);
    raise e
  else
    latest ← perform (GetPermit id);
    if bool_decide (state latest = ISSUED) then raise e else
    _ ← _mirror_action_permit run_id latest;
    _ ← lift (workflow_error_if (bool_decide (state latest = EXPIRED))
                "action permit expired before dispatch authority was claimed");
    _ ← lift (workflow_error_if (negb (permit_dispatched latest))
                "action permit did not establish dispatch authority");
    _ ← claim_source run_id node_id;
    mret None.

Definition RecoveryDispatchOutcome_of (o : PermitCompletionOutcome) : RecoveryDispatchOutcome :=
  match o with
  | SUCCEEDED => Dispatch_SUCCEEDED
  | REJECTED => Dispatch_REJECTED
  | OUTCOME_UNKNOWN => Dispatch_OUTCOME_UNKNOWN
  end.

Definition certified_completed (permit : ActionPermit) (claim : string) (receipt : DispatchResult)
  : option ActionPermit :=
  match ds_action_permit receipt with
  | Some completed =>
      if bool_decide (permit_id completed = permit_id permit)
         && bool_decide (claim_id completed = Some claim)
         && bool_decide (state completed = COMPLETED)
         && bool_decide (RecoveryDispatchOutcome_of <$> completion_outcome completed
              = Some (ds_outcome receipt))
      then Some completed else None
  | None => None
  end.

(** The permit the authority holds for the certificate, issued if there is none. *)
Definition held_permit (certificate : VerifiedCertificate) (expected : ActionPermit)
  : work ActionPermit :=
  catch (perform (GetPermit (permit_id expected))) (λ e,
    match e with
    | AuthorityError (PermitStoreError (PermitNotFound _)) =>
        issued ← perform (IssuePermit certificate);
        match issued with
        | Some permit => mret permit
        | None => raise (RecoveryWorkflowError "verified transition did not issue a permit")
        end
    | _ => raise e
    end).

(** From an ISSUED permit: the prepared action, its scope, one dispatch. *)
Definition dispatch_certified (snapshot : RecoveryRunSnapshot) (definition : RecoveryRunDefinition)
  (certificate : VerifiedCertificate) (transition : CertifiedTransition)
  (target_node : RecoveryActionNode) (permit : ActionPermit) (attempt : Z) : work unit :=
  let run_id := run_id_of snapshot in
  let source_id := ct_source_node_id transition in
  report ← match last (List.filter (λ r, bool_decide (canonical_sha256 r
                          = vc_report_sha256 certificate)) (rs_reports snapshot)) with
    | Some report => mret report
    | None => raise (RecoveryWorkflowError "certificate-bound recovery report is unavailable")
    end;
  source_node ← lift (_node (df_chain definition) source_id);
  prepared ← _prepare_action (rs_request snapshot) definition source_node target_node
               (Some report) (Some certificate);
  _ ← _node_state run_id source_id Node_PERMITTED (Z.max 1 attempt);
  claim_id ← await NewWorkClaim;
  let scope := certified_scope run_id transition prepared permit certificate claim_id in
  _ ← lift (python (validate_Identifier claim_id;; validate_action_scope scope));
  receipt ← catch (receipt ← execute_rollout prepared scope; mret (Some receipt))
              (certified_failed run_id source_id (permit_id permit) attempt);
  match receipt with
  | None => mret tt
  | Some receipt =>
      match certified_completed permit claim_id receipt with
      | None => raise (RecoveryWorkflowError "permitted dispatch authority was not completed")
      | Some completed => _finish_before_cancellation (_mirror_action_permit run_id completed)
      end
  end.

Definition _permitted_dispatch (snapshot : RecoveryRunSnapshot)
  (definition : RecoveryRunDefinition) (certificate : VerifiedCertificate) : work unit :=
  match vc_transition certificate with
  | None => mret tt
  | Some transition =>
      let run_id := run_id_of snapshot in
      current ← perform (StoreGet run_id);
      source_progress ← lift (progress_of current (ct_source_node_id transition));
      _ ← lift (workflow_error_if (bool_decide (ct_action transition = RETRY)
                                   && (2 <=? np_attempt source_progress))
                  "bounded recovery retry was exhausted");
      target_node ← lift (_node (df_chain definition) (ct_target_node_id transition));
      expected ← lift (map_error AuthorityError (action_permit_from_certificate certificate));
      match expected with
      | None => raise (RecoveryWorkflowError "verified transition did not issue a permit")
      | Some expected =>
          latest ← perform (StoreGet run_id);
          _ ← match with_permit_id (permit_id expected) (rs_action_permits latest) with
              | [] => _mirror_action_permit run_id expected
              | [projected] =>
                  same ← lift (or_false (same_action_permit_authority projected expected));
                  lift (workflow_error_if (negb same) "action permit projection changed")
              | _ => raise (RecoveryWorkflowError "action permit projection is ambiguous")
              end;
          permit ← held_permit certificate expected;
          same ← lift (or_false (same_action_permit_authority permit expected));
          _ ← lift (workflow_error_if (negb same) "durable action permit identity changed");
          _ ← _mirror_action_permit run_id permit;
          if permit_dispatched permit then claim_source run_id (ct_source_node_id transition)
          else
            _ ← lift (workflow_error_if (negb (bool_decide (state permit = ISSUED)))
                        "expired action permit cannot authorize dispatch");
            dispatch_certified snapshot definition certificate transition target_node permit
              (np_attempt source_progress)
      end
  end.

(** ** One round of the loop *)

(** The loop goes on at an index or returns a snapshot. *)
Inductive round := GoOn (index : nat) | Return (snapshot : RecoveryRunSnapshot).

Definition certificates_of (snapshot : RecoveryRunSnapshot) (node : RecoveryActionNode)
  : list VerifiedCertificate :=
  List.filter (λ c, bool_decide (vc_node_id c = rn_node_id node)) (rs_certificates snapshot).

Definition end_escalated (run_id : string) : work round :=
  snapshot ← append_lifecycle run_id Run_ESCALATED; mret (Return snapshot).

Definition escalate_node (run_id node_id : string) (attempt : Z) : work round :=
  _ ← _node_state run_id node_id Node_ESCALATED attempt;
  end_escalated run_id.

(** A VERIFIED node whose last certificate authorizes nothing. *)
Definition verified_round (snapshot : RecoveryRunSnapshot) (definition : RecoveryRunDefinition)
  (node : RecoveryActionNode) (index : nat) (attempt : Z) : work round :=
  let run_id := run_id_of snapshot in
  let node_id := rn_node_id node in
  match rs_decision snapshot with
  | Some Decide_OBSERVE =>
      _ ← _node_state run_id node_id Node_RECONCILING attempt; mret (GoOn index)
  | Some Decide_ESCALATE => escalate_node run_id node_id attempt
  | Some Decide_CONTINUE =>
      if bool_decide (Some node_id = rn_node_id <$> last (rc_nodes (df_chain definition)))
      then _ ← _node_state run_id node_id Node_COMPLETED attempt; mret (GoOn (S index))
      else raise (RecoveryWorkflowError "non-authorizing certificate cannot advance recovery")
  | _ => raise (RecoveryWorkflowError "non-authorizing certificate cannot advance recovery")
  end.

(** The dispatch of the last certificate is resumed and its nodes moved on. *)
Definition resumed_round (snapshot : RecoveryRunSnapshot) (definition : RecoveryRunDefinition)
  (node : RecoveryActionNode) (index : nat) (progress : RecoveryNodeProgress)
  (certificate : VerifiedCertificate) (transition : CertifiedTransition) : work round :=
  let run_id := run_id_of snapshot in
  let node_id := rn_node_id node in
  let target_id := ct_target_node_id transition in
  let stays := bool_decide (target_id = node_id) in
  _ ← _permitted_dispatch snapshot definition certificate;
  let next_attempt := np_attempt progress + Z.b2z stays in
  latest ← perform (StoreGet run_id);
  target_progress ← lift (progress_of latest target_id);
  _ ← (if bool_decide (np_state target_progress = Node_RECONCILING) then mret tt else
       _ ← lift (workflow_error_if
             (negb (inb (np_state target_progress)
                (if stays then [Node_PERMITTED; Node_DISPATCH_CLAIMED] else [Node_WAITING])))
             "dispatch successor disagrees with durable node state");
       _ ← _node_state run_id target_id Node_RECONCILING (Z.max 1 next_attempt);
       mret tt);
  if stays then mret (GoOn index) else
  latest ← perform (StoreGet run_id);
  source_progress ← lift (progress_of latest node_id);
  _ ← (if bool_decide (np_state source_progress = Node_COMPLETED) then mret tt else
       _ ← lift (workflow_error_if
             (negb (inb (np_state source_progress) [Node_PERMITTED; Node_DISPATCH_CLAIMED]))
             "dispatch source disagrees with durable node state");
       _ ← _node_state run_id node_id Node_COMPLETED (Z.max 1 (np_attempt source_progress));
       mret tt);
  mret (GoOn (S index)).

(** The decision an artifact leads to. *)
Definition decision_for (definition : RecoveryRunDefinition) (node : RecoveryActionNode)
  (snapshot : RecoveryRunSnapshot) (artifact : RecoveryVerificationResult) : RecoveryDecision :=
  match artifact with
  | CertificateResult c =>
      _certificate_decision definition node c
        (1 + Z.of_nat (length (List.filter (λ c, bool_decide (vc_classification c = PENDING))
                                 (certificates_of snapshot node))))
  | WitnessResult _ => Decide_ESCALATE
  end.

(** The artifact of an investigation, recorded and followed. *)
Definition decided_round (snapshot : RecoveryRunSnapshot) (definition : RecoveryRunDefinition)
  (node : RecoveryActionNode) (index : nat) (attempt : Z)
  (artifact : RecoveryVerificationResult) : work round :=
  let run_id := run_id_of snapshot in
  let node_id := rn_node_id node in
  let decision := decision_for definition node snapshot artifact in
  recorded ← _record_decision run_id artifact decision;
  match artifact with
  | WitnessResult _ => escalate_node run_id node_id attempt
  | CertificateResult certificate =>
      _ ← _node_state run_id node_id Node_VERIFIED attempt;
      match decision, vc_transition certificate with
      | Decide_ESCALATE, _ => escalate_node run_id node_id attempt
      | Decide_OBSERVE, _ =>
          _ ← _node_state run_id node_id Node_RECONCILING attempt; mret (GoOn index)
      | _, Some transition =>
          _ ← _permitted_dispatch recorded definition certificate;
          let target := ct_target_node_id transition in
          if bool_decide (target = node_id) then
            _ ← _node_state run_id target Node_RECONCILING (attempt + 1); mret (GoOn index)
          else
            _ ← _node_state run_id target Node_RECONCILING 1;
            _ ← _node_state run_id node_id Node_COMPLETED attempt;
            mret (GoOn (S index))
      | _, None =>
          _ ← _node_state run_id node_id Node_COMPLETED attempt; mret (GoOn (S index))
      end
  end.

(** The last event is the decision a certificate of this node gave. *)
Definition decision_pending (tail : RecoveryRunEventSnapshot) (snapshot : RecoveryRunSnapshot)
  (node : RecoveryActionNode) : bool :=
  match es_events tail with
  | [event] =>
      (re_cursor event =? rs_event_cursor snapshot)
      && bool_decide (re_type event = Event_DECISION)
      && match pd_certificate (re_payload event) with
         | Some c => bool_decide (vc_node_id c = rn_node_id node)
         | None => false
         end
  | _ => false
  end.

(** [artifacts[-1]] of the certificates and then the witnesses. *)
Definition last_artifact_node (snapshot : RecoveryRunSnapshot) : option string :=
  match last (rs_witnesses snapshot) with
  | Some w => Some (aw_node_id w)
  | None => vc_node_id <$> last (rs_certificates snapshot)
  end.

(** The node is reconciled: what was decided is finished, or it is investigated. *)
Definition reconciling_round (definition : RecoveryRunDefinition) (run_id : string)
  (node : RecoveryActionNode) (index : nat) (attempt : Z) : work round :=
  snapshot ← perform (StoreGet run_id);
  if bool_decide (rs_decision snapshot = Some Decide_ESCALATE)
     && bool_decide (last_artifact_node snapshot = Some (rn_node_id node))
  then escalate_node run_id (rn_node_id node) attempt
  else
    tail ← perform (StoreEvents run_id (Z.max 0 (rs_event_cursor snapshot - 1)));
    if decision_pending tail snapshot node then
      _ ← _node_state run_id (rn_node_id node) Node_VERIFIED attempt; mret (GoOn index)
    else
      found ← _investigate snapshot definition node;
      decided_round snapshot definition node index attempt found.2.

(** The first node's dispatch, when it is due. *)
Definition starts_dispatch (snapshot : RecoveryRunSnapshot) (node : RecoveryActionNode)
  (index : nat) (progress : RecoveryNodeProgress) : bool :=
  let resumes := bool_decide (np_state progress = Node_DISPATCH_CLAIMED)
    && existsb (λ c, is_some (vc_transition c)) (certificates_of snapshot node) in
  (index =? 0)%nat && negb resumes
  && inb (np_state progress) [Node_WAITING; Node_DISPATCH_PENDING; Node_DISPATCH_CLAIMED].

Definition certified_state (s : RecoveryNodeState) : bool :=
  inb s [Node_VERIFIED; Node_PERMITTED; Node_DISPATCH_CLAIMED].

Definition run_round (definition : RecoveryRunDefinition) (run_id : string) (index : nat)
  (node : RecoveryActionNode) : work round :=
  let node_id := rn_node_id node in
  snapshot ← perform (StoreGet run_id);
  progress ← lift (progress_of snapshot node_id);
  if bool_decide (np_state progress = Node_COMPLETED) then mret (GoOn (S index))
  else if bool_decide (np_state progress = Node_ESCALATED) then end_escalated run_id else
  _ ← (if starts_dispatch snapshot node index progress
       then _initial_dispatch snapshot definition node
       else lift (workflow_error_if (bool_decide (np_state progress = Node_WAITING))
                    "successor node has no dispatch authority"));
  snapshot ← perform (StoreGet run_id);
  progress ← lift (progress_of snapshot node_id);
  let attempt := Z.max 1 (np_attempt progress) in
  if certified_state (np_state progress) then
    match last (certificates_of snapshot node) with
    | None => raise (RecoveryWorkflowError
        (if bool_decide (np_state progress = Node_VERIFIED)
         then "verified recovery node has no certificate"
         else "certified recovery dispatch cannot be resumed"))
    | Some certificate =>
        match vc_transition certificate with
        | Some transition =>
            resumed_round snapshot definition node index progress certificate transition
        | None =>
            if bool_decide (np_state progress = Node_VERIFIED)
            then verified_round snapshot definition node index attempt
            else raise (RecoveryWorkflowError "certified recovery dispatch cannot be resumed")
        end
    end
  else reconciling_round definition run_id node index attempt.

(** ** The run *)

(** [None] is fuel that ran out. *)
Fixpoint run_rounds (fuel : nat) (definition : RecoveryRunDefinition) (run_id : string)
  (index : nat) : work (option RecoveryRunSnapshot) :=
  match rc_nodes (df_chain definition) !! index with
  | None => snapshot ← append_lifecycle run_id Run_COMPLETED; mret (Some snapshot)
  | Some node =>
      match fuel with
      | O => mret None
      | S fuel' =>
          next ← run_round definition run_id index node;
          match next with
          | Return snapshot => mret (Some snapshot)
          | GoOn index => run_rounds fuel' definition run_id index
          end
      end
  end.

Definition run (fuel : nat) (run_id : string) : work (option RecoveryRunSnapshot) :=
  snapshot ← perform (StoreGet run_id);
  definition ← work_definition (rs_request snapshot);
  _ ← lift (reject_if (negb (model_eqb (df_chain definition) (rs_chain snapshot)))
              (RecoveryDefinitionError "durable recovery chain changed"));
  snapshot ← (if bool_decide (rs_lifecycle snapshot = Run_ACCEPTED)
              then append_lifecycle run_id Run_RUNNING else mret snapshot);
  if negb (bool_decide (rs_lifecycle snapshot = Run_RUNNING)) then mret (Some snapshot)
  else run_rounds fuel definition run_id 0.

(** ** The worker *)

(** [RecoveryRunApplicationService._worker] *)
Definition _worker (fuel : nat) (run_id : string) : work unit :=
  catch (_ ← run fuel run_id; mret tt) (λ e,
    if is_cancelled e then raise e else
    match e with
    | StoreError (RecoveryRunConflict _) => mret tt
    | _ =>
        catch (snapshot ← perform (StoreGet run_id);
               if bool_decide (rs_lifecycle snapshot = Run_RUNNING) then
                 now ← work_now (Some (rs_updated_at snapshot));
                 _ ← perform (StoreAppend run_id (rs_revision snapshot) Event_LIFECYCLE
                       (lifecycle_payload Run_FAILED (Some INTERNAL_FAILURE)) now);
                 mret tt
               else mret tt)
          (λ e, if is_cancelled e then raise e else mret tt)
    end).

(** [RecoveryRunApplicationService.cancel], once the run's worker has settled. *)
Definition cancel_run (run_id : string) : work RecoveryRunSnapshot :=
  snapshot ← perform (StoreGet run_id);
  if is_terminal_recovery_run (rs_lifecycle snapshot) then mret snapshot else
  snapshot ← (if bool_decide (rs_lifecycle snapshot = Run_ACCEPTED) then
                now ← work_now (Some (rs_updated_at snapshot));
                perform (StoreAppend run_id (rs_revision snapshot) Event_LIFECYCLE
                  (lifecycle_payload Run_RUNNING None) now)
              else mret snapshot);
  now ← work_now (Some (rs_updated_at snapshot));
  perform (StoreAppend run_id (rs_revision snapshot) Event_LIFECYCLE
    (lifecycle_payload Run_CANCELLED (Some Failure_CANCELLED)) now).

End run.
