(* ===== verification/WorkSafe.v ===== *)
(** What authorizes an operation of a recovery worker: a logic for it.

    A history holds the operations performed so far with their answers, the last one
    first.  Workers of many runs share it and each answer is arbitrary; [respects]
    is that every dispatch and every recorded decision of a history was authorized
    by the answers before it.  [ensures] is [yields] of Proc.v for this invariant; the
    second half says what each operation of the workflow establishes in it. *)

From S2P Require Export WorkRun Proc.

#[local] Open Scope Z_scope.

(** ** Histories *)

Inductive work_event := Did (R : Type) (op : work_op R) (answer : R).
Arguments Did {R} op answer.

Definition work_log := list work_event.

(** Any answer may be given; the event is logged. *)
Definition logs (R : Type) (h : work_log) (op : work_op R) (answer : R) (h' : work_log) : Prop :=
  h' = Did op answer :: h.

Definition dispatch_of (e : work_event) : option (RecoveryPreparedAction * RecoveryActionScope) :=
  match e with Did (Dispatch prepared scope) _ => Some (prepared, scope) | _ => None end.

Definition decision_of (e : work_event) : option (string * RecoveryRunEventPayload) :=
  match e with
  | Did (StoreAppend run_id _ Event_DECISION payload _) _ => Some (run_id, payload)
  | _ => None
  end.

(** The store answered this snapshot of the run. *)
Definition recorded (h : work_log) (run_id : string) (s : RecoveryRunSnapshot) : Prop :=
  Did (StoreGet run_id) (Ok s) ∈ h
  ∨ ∃ revision event_type payload at_time,
      Did (StoreAppend run_id revision event_type payload at_time) (Ok s) ∈ h.

Definition appended (h : work_log) (run_id : string) (event_type : RecoveryRunEventType)
  (payload : RecoveryRunEventPayload) (s : RecoveryRunSnapshot) : Prop :=
  ∃ revision at_time, Did (StoreAppend run_id revision event_type payload at_time) (Ok s) ∈ h.

(** The evidence source answered this state for the node. *)
Definition evidence_given (h : work_log) (run_id : string) (node : RecoveryActionNode)
  (state : RecoveryEvidenceState) : Prop :=
  ∃ envelope, Did (CurrentEvidence run_id node envelope) (Ok state) ∈ h
    ∨ Did (FixedEvidence run_id node envelope) (Ok state) ∈ h
    ∨ ∃ request, Did (ProbeEvidence run_id node envelope request) (Ok state) ∈ h.

Section authority.
Context {rt : Runtime} {sec : Security} {sv : SchemaValidator} {od : ObservationDecoder}.

(** ** Authority *)

(** A well-formed definition with the chain of the run. *)
Definition run_definition (h : work_log) (run_id : string) (definition : RecoveryRunDefinition)
  : Prop :=
  ∃ s, recorded h run_id s
    ∧ Did (MakeDefinition (rs_request s)) (Ok definition) ∈ h
    ∧ construct_definition definition = Ok definition
    ∧ model_eqb (df_chain definition) (rs_chain s) = true.

Definition prepared_for (h : work_log) (request : RecoveryRunRequest)
  (definition : RecoveryRunDefinition) (source target : RecoveryActionNode)
  (report : option InvestigationReport) (certificate : option VerifiedCertificate)
  (prepared : RecoveryPreparedAction) : Prop :=
  Did (PrepareAction request (df_chain definition) source target report certificate)
    (Ok prepared) ∈ h
  ∧ prepared_common request definition source target prepared = Ok true
  ∧ sealed_dispatch (rn_semantic_action target) prepared = Ok tt
  ∧ match certificate with
    | None => launch_authorized source target report prepared = true
    | Some c => certificate_authorized report c prepared = Ok true
    end.

Definition launch_granted (h : work_log) (snapshot : RecoveryRunSnapshot)
  (launch : RecoveryLaunchPermit) : Prop :=
  rs_launch_permit snapshot = Some launch
  ∨ rs_launch_permit snapshot = None
    ∧ ∃ s, appended h (run_id_of snapshot) Event_LAUNCH_PERMIT (launch_payload launch) s.

Definition launch_dispatch (h : work_log) (definition : RecoveryRunDefinition)
  (snapshot : RecoveryRunSnapshot) (prepared : RecoveryPreparedAction)
  (scope : RecoveryActionScope) : Prop :=
  ∃ node launch claim,
    rc_nodes (df_chain definition) !! 0%nat = Some node
    ∧ launch_granted h snapshot launch ∧ lp_state launch = Launch_ISSUED
    ∧ prepared_for h (rs_request snapshot) definition node node None None prepared
    ∧ Did NewWorkClaim claim ∈ h
    ∧ scope = launch_scope (run_id_of snapshot) node launch claim
    ∧ scope_matches prepared scope = true.

(** The certificate is stored with the run, or was just verified and stored. *)
Definition certificate_held (h : work_log) (definition : RecoveryRunDefinition)
  (snapshot : RecoveryRunSnapshot) (certificate : VerifiedCertificate) : Prop :=
  certificate ∈ rs_certificates snapshot
  ∨ ∃ run_id node state d,
      evidence_given h run_id node state
      ∧ _verify definition node state = Ok (CertificateResult certificate)
      ∧ appended h run_id Event_DECISION (decision_payload d (CertificateResult certificate)) snapshot.

Definition permit_held (h : work_log) (certificate : VerifiedCertificate)
  (permit : ActionPermit) : Prop :=
  ∃ expected, action_permit_from_certificate certificate = Ok (Some expected)
    ∧ (Did (GetPermit (permit_id expected)) (Ok permit) ∈ h
       ∨ Did (IssuePermit certificate) (Ok (Some permit)) ∈ h)
    ∧ same_action_permit_authority permit expected = Ok true.

(** A retry has an attempt left. *)
Definition attempt_left (h : work_log) (run_id : string) (transition : CertifiedTransition) : Prop :=
  ct_action transition = RETRY →
  ∃ s progress, recorded h run_id s
    ∧ progress_of s (ct_source_node_id transition) = Ok progress ∧ np_attempt progress < 2.

Definition certified_dispatch (h : work_log) (definition : RecoveryRunDefinition)
  (snapshot : RecoveryRunSnapshot) (prepared : RecoveryPreparedAction)
  (scope : RecoveryActionScope) : Prop :=
  ∃ certificate transition source target report permit claim,
    certificate_held h definition snapshot certificate
    ∧ vc_transition certificate = Some transition
    ∧ _node (df_chain definition) (ct_source_node_id transition) = Ok source
    ∧ _node (df_chain definition) (ct_target_node_id transition) = Ok target
    ∧ report ∈ rs_reports snapshot
    ∧ canonical_sha256 report = vc_report_sha256 certificate
    ∧ permit_held h certificate permit ∧ state permit = ISSUED
    ∧ attempt_left h (run_id_of snapshot) transition
    ∧ prepared_for h (rs_request snapshot) definition source target (Some report)
        (Some certificate) prepared
    ∧ Did NewWorkClaim claim ∈ h
    ∧ scope = certified_scope (run_id_of snapshot) transition prepared permit certificate claim
    ∧ scope_matches prepared scope = true.

Definition dispatch_authorized (h : work_log) (prepared : RecoveryPreparedAction)
  (scope : RecoveryActionScope) : Prop :=
  ∃ run_id definition snapshot,
    run_definition h run_id definition ∧ (∃ asked, recorded h asked snapshot)
    ∧ (launch_dispatch h definition snapshot prepared scope
       ∨ certified_dispatch h definition snapshot prepared scope).

Definition decision_verified (h : work_log) (stored_in : string) (payload : RecoveryRunEventPayload)
  : Prop :=
  ∃ run_id definition snapshot node state artifact,
    run_definition h run_id definition ∧ recorded h run_id snapshot
    ∧ stored_in = run_id_of snapshot
    ∧ node ∈ rc_nodes (df_chain definition)
    ∧ evidence_given h stored_in node state
    ∧ _verify definition node state = Ok artifact
    ∧ payload = decision_payload (decision_for definition node snapshot artifact) artifact.

Definition event_authorized (h : work_log) (e : work_event) : Prop :=
  match dispatch_of e with
  | Some (prepared, scope) => dispatch_authorized h prepared scope
  | None => match decision_of e with
            | Some (run_id, payload) => decision_verified h run_id payload
            | None => True
            end
  end.

Fixpoint respects (h : work_log) : Prop :=
  match h with [] => True | e :: h' => event_authorized h' e ∧ respects h' end.

Lemma respects_app h1 e h2 : respects (h1 ++ e :: h2) → event_authorized h2 e.
Proof. induction h1 as [|e' h1 IH]; cbn; [by intros [? _]|intros [_ ?]; by apply IH]. Qed.

(** ** The logic *)

Definition log_ok (w h : work_log) : Prop := w = h ∧ respects h.

(** Whatever the answers, a value returned satisfies [P] in all later histories. *)
Definition ensures {A} (m : work A) (P : work_log → A → Prop) (h : work_log) : Prop :=
  yields logs suffix log_ok m P h.

Definition quiet {A} (m : work A) : Prop := ∀ h, ensures m (λ _ _, True) h.



Lemma ensures_mono {A} (m : work A) (P Q : work_log → A → Prop) h :
  ensures m P h → (∀ h' a, suffix h h' → P h' a → Q h' a) → ensures m Q h.
Proof. apply yields_mono, _. Qed.

Lemma ensures_bind {A B} (m : work A) (f : A → work B) (P : work_log → A → Prop) Q h :
  ensures m P h → (∀ h' a, suffix h h' → P h' a → ensures (f a) Q h') → ensures (m ≫= f) Q h.
Proof. apply yields_bind, _. Qed.

(** What [m] returns does not matter. *)
Lemma ensures_then {A B} (m : work A) (f : A → work B) Q h :
  quiet m → (∀ h' a, suffix h h' → ensures (f a) Q h') → ensures (m ≫= f) Q h.
Proof. intros Hm Hf. eapply ensures_bind; [apply Hm|]. intros h' a Hs _. by apply Hf. Qed.

Lemma ensures_catch {A} (m : work A) handler (P : work_log → A → Prop) h :
  lasting suffix P → ensures m P h →
  (∀ e h', suffix h h' → ensures (handler e) P h') → ensures (Proc.catch m handler) P h.
Proof. apply yields_catch, _. Qed.

Lemma ensures_ret {A} (a : A) (P : work_log → A → Prop) h :
  (∀ h', suffix h h' → P h' a) → ensures (mret a) P h.
Proof. apply yields_ret. Qed.

Lemma ensures_raise {A} e (P : work_log → A → Prop) h : ensures (Proc.raise e) P h.
Proof. apply yields_raise. Qed.

Lemma ensures_lift {A} (r : result work_exn A) (P : work_log → A → Prop) h :
  (∀ a h', r = Ok a → suffix h h' → P h' a) → ensures (Proc.lift r) P h.
Proof. apply yields_lift. Qed.

Lemma ensures_call {R A} (op : work_op R) (k : R → work A) P h :
  (∀ h' answer, suffix h h' → event_authorized h' (Did op answer)) →
  (∀ h' answer, suffix h h' → Did op answer ∈ h' → ensures (k answer) P h') →
  ensures (Call op k) P h.
Proof.
  intros Hop Hk h' w r w' Hs [-> Hr] ->. exists (Did op r :: h').
  assert (Hs' : suffix h' (Did op r :: h')) by (by exists [Did op r]).
  split; [done|]. split.
  - split; [done|]. split; [by apply Hop|done].
  - apply Hk; [by etrans|by left].
Qed.

Lemma ensures_perform {A} (op : work_op (result work_exn A)) (P : work_log → A → Prop) h :
  (∀ h' answer, suffix h h' → event_authorized h' (Did op answer)) →
  (∀ h' a, suffix h h' → Did op (Ok a) ∈ h' → P h' a) →
  ensures (perform op) P h.
Proof.
  intros Hop HP. apply ensures_call; [done|]. intros h' [a|e] Hs Hin h2 Hs2; [|exact I].
  apply HP; [by etrans|]. destruct Hs2 as [t ->]. apply elem_of_app. by right.
Qed.

Lemma ensures_await {A} (op : work_op A) (P : work_log → A → Prop) h :
  (∀ h' answer, suffix h h' → event_authorized h' (Did op answer)) →
  (∀ h' a, suffix h h' → Did op a ∈ h' → P h' a) →
  ensures (Proc.await op) P h.
Proof.
  intros Hop HP. apply ensures_call; [done|]. intros h' a Hs Hin h2 Hs2.
  apply HP; [by etrans|]. destruct Hs2 as [t ->]. apply elem_of_app. by right.
Qed.

(** ** What performs neither a dispatch nor a decision *)

Definition tame {R} (op : work_op R) : Prop :=
  ∀ answer, dispatch_of (Did op answer) = None ∧ decision_of (Did op answer) = None.

Lemma tame_authorized {R} (op : work_op R) h answer : tame op → event_authorized h (Did op answer).
Proof. intros Hop. unfold event_authorized. by destruct (Hop answer) as [-> ->]. Qed.

Lemma quiet_ret {A} (a : A) : quiet (mret a).
Proof. intros h. by apply ensures_ret. Qed.
Lemma quiet_raise {A} e : quiet (A := A) (Proc.raise e).
Proof. intros h. apply ensures_raise. Qed.
Lemma quiet_lift {A} (r : result work_exn A) : quiet (Proc.lift r).
Proof. intros h. by apply ensures_lift. Qed.
Lemma quiet_bind {A B} (m : work A) (f : A → work B) :
  quiet m → (∀ a, quiet (f a)) → quiet (m ≫= f).
Proof. intros Hm Hf h. apply ensures_then; [done|]. intros h' a _. apply Hf. Qed.
Lemma quiet_catch {A} (m : work A) handler :
  quiet m → (∀ e, quiet (handler e)) → quiet (Proc.catch m handler).
Proof. intros Hm Hh h. apply ensures_catch; [done|apply Hm|]. intros e h' _. apply Hh. Qed.
Lemma quiet_perform {A} (op : work_op (result work_exn A)) : tame op → quiet (perform op).
Proof. intros Hop h. apply ensures_perform; [|done]. intros. by apply tame_authorized. Qed.
Lemma quiet_await {A} (op : work_op A) : tame op → quiet (Proc.await op).
Proof. intros Hop h. apply ensures_await; [|done]. intros. by apply tame_authorized. Qed.
Lemma quiet_gather {A B} (f : A → work B) l : (∀ a, quiet (f a)) → quiet (gather f l).
Proof.
  intros Hf. induction l as [|a l IH]; cbn [gather]; [apply quiet_ret|].
  apply quiet_bind; [done|]. intros b. apply quiet_bind; [done|]. intros bs. apply quiet_ret.
Qed.

(** A quiet procedure is followed by what knows nothing of its value. *)
Lemma quiet_ensures {A} (m : work A) h : quiet m → ensures m (λ _ _, True) h.
Proof. done. Qed.

End authority.

Create HintDb quiet.
#[export] Hint Resolve quiet_ret quiet_raise quiet_lift : quiet.

(** Proves [quiet m] for an unfolded body [m]. *)
Ltac quiet :=
  repeat (intros; cbv beta; lazymatch goal with
  | |- tame _ => by intros ?
  | |- quiet (let _ := _ in _) => cbv zeta
  | |- quiet (_ ≫= _) => apply quiet_bind
  | |- quiet (Proc.catch _ _) => apply quiet_catch
  | |- quiet (perform _) => apply quiet_perform
  | |- quiet (Proc.await _) => apply quiet_await
  | |- quiet (gather _ _) => apply quiet_gather
  | |- quiet (match ?x with _ => _ end) => destruct x
  | |- quiet _ => solve [eauto with quiet]
  end).

(** * What the operations establish *)

Section quiet_operations.
Context {rt : Runtime} {sec : Security} {sv : SchemaValidator} {od : ObservationDecoder}.

Lemma quiet_now at_least : quiet (work_now at_least).
Proof. unfold work_now. quiet. Qed.

Lemma tame_append run_id revision event_type payload at_time :
  event_type ≠ Event_DECISION →
  tame (StoreAppend run_id revision event_type payload at_time).
Proof. intros Ht answer. by destruct event_type. Qed.

End quiet_operations.

#[export] Hint Resolve quiet_now : quiet.
#[export] Hint Extern 1 (_ ≠ Event_DECISION) => discriminate : quiet.

Section quiet_appends.
Context {rt : Runtime} {sec : Security} {sv : SchemaValidator} {od : ObservationDecoder}.

Lemma quiet_append run_id event_type payload :
  event_type ≠ Event_DECISION → quiet (_append run_id event_type payload).
Proof. intros Ht. unfold _append. quiet. by apply tame_append. Qed.

#[local] Hint Resolve quiet_append : quiet.

Lemma quiet_append_lifecycle run_id l : quiet (append_lifecycle run_id l).
Proof. by apply quiet_append. Qed.

Lemma quiet_node_state run_id node_id state attempt :
  quiet (_node_state run_id node_id state attempt).
Proof. unfold _node_state. quiet. Qed.

Lemma quiet_definition request : quiet (work_definition request).
Proof. unfold work_definition. quiet. Qed.

Lemma quiet_prepare_action request definition source target report certificate :
  quiet (_prepare_action request definition source target report certificate).
Proof. unfold _prepare_action. quiet. Qed.

Lemma quiet_record_evidence run_id state : quiet (_record_evidence run_id state).
Proof. unfold _record_evidence. quiet. Qed.

Lemma quiet_record_hypothesis run_id h d note : quiet (record_hypothesis run_id h d note).
Proof. unfold record_hypothesis. quiet. Qed.

Lemma quiet_mirror run_id permit : quiet (_mirror_action_permit run_id permit).
Proof. unfold _mirror_action_permit. quiet. Qed.

Lemma quiet_finish m : quiet m → quiet (_finish_before_cancellation m).
Proof. intros Hm. unfold _finish_before_cancellation. quiet. Qed.

Lemma quiet_unavailable {A} (m : work A) : quiet m → quiet (or_unavailable m).
Proof. intros Hm. unfold or_unavailable. quiet. Qed.

End quiet_appends.

#[export] Hint Resolve quiet_append quiet_append_lifecycle quiet_node_state quiet_definition
  quiet_prepare_action quiet_record_evidence quiet_record_hypothesis quiet_mirror
  quiet_finish quiet_unavailable : quiet.

Section quiet_steps.
Context {rt : Runtime} {sec : Security} {sv : SchemaValidator} {od : ObservationDecoder}.

Lemma quiet_preserve_launch run_id node_id : quiet (preserve_launch_authority run_id node_id).
Proof. unfold preserve_launch_authority. quiet. Qed.

Lemma quiet_preserve_action run_id node_id id attempt :
  quiet (preserve_action_authority run_id node_id id attempt).
Proof. unfold preserve_action_authority. quiet. Qed.

Lemma quiet_claim_source run_id node_id : quiet (claim_source run_id node_id).
Proof. unfold claim_source. quiet. Qed.

#[local] Hint Resolve quiet_preserve_launch quiet_preserve_action quiet_claim_source : quiet.

Lemma quiet_launch_failed run_id node_id e : quiet (launch_failed run_id node_id e).
Proof. unfold launch_failed. quiet. Qed.

Lemma quiet_certified_failed run_id node_id id attempt e :
  quiet (certified_failed run_id node_id id attempt e).
Proof. unfold certified_failed. quiet. Qed.

Lemma quiet_hypothesis_disposition definition node envelope capabilities state prior h :
  quiet (hypothesis_disposition definition node envelope capabilities state prior h).
Proof. unfold hypothesis_disposition. quiet. Qed.

Lemma quiet_verified_round snapshot definition node index attempt :
  quiet (verified_round snapshot definition node index attempt).
Proof. unfold verified_round, escalate_node, end_escalated. quiet. Qed.

Lemma quiet_escalate run_id node_id attempt : quiet (escalate_node run_id node_id attempt).
Proof. unfold escalate_node, end_escalated. quiet. Qed.

Lemma quiet_end_escalated run_id : quiet (end_escalated run_id).
Proof. unfold end_escalated. quiet. Qed.

End quiet_steps.

#[export] Hint Resolve quiet_preserve_launch quiet_preserve_action quiet_claim_source
  quiet_launch_failed quiet_certified_failed quiet_hypothesis_disposition quiet_verified_round
  quiet_escalate quiet_end_escalated : quiet.

(** ** What answers establish *)

Section facts.
Context {rt : Runtime} {sec : Security} {sv : SchemaValidator} {od : ObservationDecoder}.

Lemma told_mono (e : work_event) h h' : suffix h h' → e ∈ h → e ∈ h'.
Proof. intros [t ->] He. apply elem_of_app. by right. Qed.

Lemma recorded_mono h h' run_id s : suffix h h' → recorded h run_id s → recorded h' run_id s.
Proof. unfold recorded. intros Hs. pose proof (λ e, told_mono e h h' Hs). naive_solver. Qed.

Lemma appended_mono h h' run_id event_type payload s :
  suffix h h' → appended h run_id event_type payload s → appended h' run_id event_type payload s.
Proof. unfold appended. intros Hs. pose proof (λ e, told_mono e h h' Hs). naive_solver. Qed.

Lemma evidence_given_mono h h' run_id node state :
  suffix h h' → evidence_given h run_id node state → evidence_given h' run_id node state.
Proof. unfold evidence_given. intros Hs. pose proof (λ e, told_mono e h h' Hs). naive_solver. Qed.

Lemma run_definition_mono h h' run_id definition :
  suffix h h' → run_definition h run_id definition → run_definition h' run_id definition.
Proof.
  intros Hs (s & Hr & Hm & Hc & He). exists s. split_and!; [|by eapply told_mono|done..].
  by eapply recorded_mono.
Qed.

Lemma prepared_for_mono h h' request definition source target report certificate prepared :
  suffix h h' → prepared_for h request definition source target report certificate prepared →
  prepared_for h' request definition source target report certificate prepared.
Proof.
  intros Hs (Hp & Hc & Hd & Ha). split; [by eapply told_mono|]. by split_and!.
Qed.

Lemma launch_granted_mono h h' snapshot launch :
  suffix h h' → launch_granted h snapshot launch → launch_granted h' snapshot launch.
Proof.
  intros Hs [Hl|(Hn & s & Ha)]; [by left|right]. split; [done|]. exists s.
  by eapply appended_mono.
Qed.

Lemma certificate_held_mono h h' definition snapshot certificate :
  suffix h h' → certificate_held h definition snapshot certificate →
  certificate_held h' definition snapshot certificate.
Proof.
  intros Hs [Hc|(run_id & node & state & d & He & Hv & Ha)]; [by left|right].
  exists run_id, node, state, d.
  split_and!; [by eapply evidence_given_mono|done|by eapply appended_mono].
Qed.

Lemma attempt_left_mono h h' run_id transition :
  suffix h h' → attempt_left h run_id transition → attempt_left h' run_id transition.
Proof.
  intros Hs Hl Hr. destruct (Hl Hr) as (s & p & Hrec & Hp & Hn). exists s, p.
  split_and!; [by eapply recorded_mono|done|done].
Qed.

Lemma appended_recorded h run_id event_type payload s :
  appended h run_id event_type payload s → recorded h run_id s.
Proof. intros (revision & at_time & Hin). right. by exists revision, event_type, payload, at_time. Qed.

Lemma construct_definition_same value definition :
  construct_definition value = Ok definition → definition = value.
Proof. unfold construct_definition. intros H. inv_ok. by symmetry. Qed.

(** ** What operations establish *)

Lemma ensures_get run_id h : ensures (perform (StoreGet run_id)) (λ h s, recorded h run_id s) h.
Proof.
  apply ensures_perform; [intros; by apply tame_authorized|]. intros h' s _ Hin. by left.
Qed.

Lemma ensures_append run_id event_type payload h :
  (∀ h', suffix h h' → event_type = Event_DECISION → decision_verified h' run_id payload) →
  ensures (_append run_id event_type payload) (λ h s, appended h run_id event_type payload s) h.
Proof.
  intros Hd. unfold _append.
  apply ensures_then; [apply quiet_lift|]. intros h1 _ Hs1.
  apply ensures_then; [quiet|]. intros h2 s Hs2.
  apply ensures_then; [apply quiet_now|]. intros h3 t Hs3.
  apply ensures_perform; [|intros h' a _ Hin; by exists (rs_revision s), t].
  intros h' answer Hs'. unfold event_authorized. destruct event_type; try exact I. cbn.
  apply Hd; [|done]. etrans; [exact Hs1|]. etrans; [exact Hs2|]. by etrans.
Qed.

Lemma ensures_definition request h :
  ensures (work_definition request)
    (λ h definition, Did (MakeDefinition request) (Ok definition) ∈ h
       ∧ construct_definition definition = Ok definition) h.
Proof.
  unfold work_definition.
  eapply (ensures_bind _ _ (λ h value, Did (MakeDefinition request) (Ok value) ∈ h)).
  { apply ensures_perform; [intros; by apply tame_authorized|done]. }
  intros h1 value Hs1 Hin. apply ensures_lift. intros d h2 Hd Hs2.
  pose proof (construct_definition_same _ _ Hd) as ->. split; [by eapply told_mono|done].
Qed.

Lemma ensures_prepare request definition source target report certificate h :
  ensures (_prepare_action request definition source target report certificate)
    (λ h, prepared_for h request definition source target report certificate) h.
Proof.
  unfold _prepare_action.
  eapply (ensures_bind _ _ (λ h value, Did (PrepareAction request (df_chain definition) source
     target report certificate) (Ok value) ∈ h)).
  { apply ensures_perform; [intros; by apply tame_authorized|done]. }
  intros h1 value Hs1 Hin.
  eapply (ensures_bind _ _ (λ _ b, prepared_common request definition source target value = Ok b)).
  { apply ensures_lift. intros b h' Hb _. unfold python in Hb. by apply map_error_ok in Hb. }
  intros h2 common Hs2 Hcommon.
  eapply (ensures_bind _ _ (λ _ u, sealed_dispatch (rn_semantic_action target) value = Ok u)).
  { by apply ensures_lift. }
  intros h3 [] Hs3 Hsealed.
  eapply (ensures_bind _ _ (λ _ _, common = true)).
  { apply ensures_lift. intros u h' Hu _. apply reject_if_ok in Hu. by destruct common. }
  intros h4 u4 Hs4 ->.
  eapply (ensures_bind _ _ (λ _ b, match certificate with
    | None => Ok (launch_authorized source target report value)
    | Some c => certificate_authorized report c value end = Ok b)).
  { apply ensures_lift. intros b h' Hb _. unfold python in Hb. by apply map_error_ok in Hb. }
  intros h5 valid Hs5 Hvalid.
  eapply (ensures_bind _ _ (λ _ _, valid = true)).
  { apply ensures_lift. intros u h' Hu _. apply reject_if_ok in Hu. by destruct valid. }
  intros h6 u6 Hs6 ->. apply ensures_ret. intros h7 Hs7.
  split_and!; [|done|done|destruct certificate; [done|by injection Hvalid]].
  eapply told_mono; [|exact Hin]. repeat (etrans; [eassumption|]); done.
Qed.

Lemma ensures_rollout prepared scope h :
  (∀ h', suffix h h' → scope_matches prepared scope = true → dispatch_authorized h' prepared scope) →
  ensures (execute_rollout prepared scope) (λ _ _, True) h.
Proof.
  intros Hd. unfold execute_rollout.
  eapply (ensures_bind _ _ (λ _ _, scope_matches prepared scope = true)).
  { apply ensures_lift. intros u h' Hu _. apply reject_if_ok in Hu. by destruct scope_matches. }
  intros h1 u1 Hs1 Hm. apply ensures_perform; [|done]. intros h' answer Hs. apply Hd; [by etrans|done].
Qed.

Lemma ensures_claim h : ensures (Proc.await NewWorkClaim) (λ h c, Did NewWorkClaim c ∈ h) h.
Proof. apply ensures_await; [intros; by apply tame_authorized|done]. Qed.

End facts.
