(* ===== verification/WorkProperties.v ===== *)
(** Dispatches and decisions in the logic of WorkSafe.v, and what the recovery
    workers of any runs, started and cancelled in any order, can do whatever they
    are answered. *)

From S2P Require Export WorkSafe.

#[local] Open Scope Z_scope.

Section dispatches.
Context {rt : Runtime} {sec : Security} {sv : SchemaValidator} {od : ObservationDecoder}.

(** What a round knows of its run. *)
Definition known (h : work_log) (run_id : string) (definition : RecoveryRunDefinition)
  (snapshot : RecoveryRunSnapshot) : Prop :=
  run_definition h run_id definition ∧ ∃ asked, recorded h asked snapshot.

Lemma known_mono h h' run_id definition snapshot :
  suffix h h' → known h run_id definition snapshot → known h' run_id definition snapshot.
Proof.
  intros Hs [Hd [asked Hr]]. split; [by eapply run_definition_mono|].
  exists asked. by eapply recorded_mono.
Qed.

Lemma ensures_guarded_rollout prepared scope handler h :
  (∀ h', suffix h h' → scope_matches prepared scope = true → dispatch_authorized h' prepared scope) →
  (∀ e, quiet (handler e)) →
  ensures (Proc.catch (receipt ← execute_rollout prepared scope; mret (Some receipt)) handler)
    (λ _ _, True) h.
Proof.
  intros Hd Hh. apply ensures_catch; [done| |intros e h' _; apply Hh].
  eapply ensures_bind; [by apply ensures_rollout|]. intros h' a _ _. by apply ensures_ret.
Qed.

Lemma ensures_anything {A} (m : work A) P h :
  ensures m P h → ensures m (λ _ _, True) h.
Proof. intros Hm. by eapply ensures_mono. Qed.

(** ** The first dispatch *)

Lemma ensures_dispatch_launch h run_id definition snapshot node launch prepared :
  known h run_id definition snapshot →
  rc_nodes (df_chain definition) !! 0%nat = Some node →
  launch_granted h snapshot launch → lp_state launch = Launch_ISSUED →
  (∀ p, prepared = Some p →
     prepared_for h (rs_request snapshot) definition node node None None p) →
  ensures (dispatch_launch (run_id_of snapshot) node launch prepared) (λ _ _, True) h.
Proof.
  intros Hk Hn Hg Hi Hp. unfold dispatch_launch.
  apply ensures_then; [quiet|]. intros h1 current Hs1.
  apply ensures_then; [quiet|]. intros h2 progress Hs2.
  apply ensures_then; [quiet|]. intros h3 u3 Hs3.
  destruct prepared as [prepared|]; [|apply ensures_raise].
  apply ensures_then; [quiet|]. intros h4 u4 Hs4.
  eapply ensures_bind; [apply ensures_claim|]. intros h5 claim Hs5 Hclaim. cbv zeta.
  apply ensures_then; [quiet|]. intros h6 u6 Hs6.
  eapply ensures_bind; [|intros h7 receipt _ _; apply quiet_ensures; quiet].
  apply ensures_guarded_rollout; [|intros e; apply quiet_launch_failed].
  intros h7 Hs7 Hm.
  assert (Hs : suffix h h7) by (repeat (etrans; [eassumption|]); done).
  destruct (known_mono _ _ _ _ _ Hs Hk) as [Hd Hr].
  exists run_id, definition, snapshot. split; [done|]. split; [done|]. left.
  exists node, launch, claim. split_and!; try done.
  - by eapply launch_granted_mono.
  - eapply prepared_for_mono; [exact Hs|]. by apply Hp.
  - eapply told_mono; [|exact Hclaim]. by etrans.
Qed.

Lemma ensures_initial h run_id definition snapshot node :
  known h run_id definition snapshot →
  rc_nodes (df_chain definition) !! 0%nat = Some node →
  ensures (_initial_dispatch snapshot definition node) (λ _ _, True) h.
Proof.
  intros Hk Hn. unfold _initial_dispatch.
  eapply (ensures_bind _ _ (λ h prepared, ∀ p, prepared = Some p →
    prepared_for h (rs_request snapshot) definition node node None None p)).
  { match goal with |- ensures (if ?c then _ else _) _ _ => destruct c end; [|by apply ensures_ret].
    eapply ensures_bind; [apply ensures_prepare|]. intros h1 value Hs1 Hv. apply ensures_ret.
    intros h2 Hs2 p [= <-]. by eapply prepared_for_mono. }
  intros h1 prepared Hs1 Hp.
  eapply (ensures_bind _ _ (λ h launch, launch_granted h snapshot launch)).
  { destruct (rs_launch_permit snapshot) as [launch|] eqn:El.
    - apply ensures_ret. intros h2 Hs2. by left.
    - destruct prepared as [prepared|]; [|apply ensures_raise].
      apply ensures_then; [quiet|]. intros h2 issued Hs2. cbv zeta.
      apply ensures_then; [quiet|]. intros h3 u3 Hs3.
      eapply ensures_bind; [by apply ensures_append|]. intros h4 s Hs4 Ha.
      apply ensures_ret. intros h5 Hs5. right. split; [done|]. exists s.
      by eapply appended_mono. }
  intros h2 launch Hs2 Hg.
  apply (ensures_bind _ _ (λ _ _, True)); [|intros h3 u _ _; apply quiet_ensures; quiet].
  destruct (bool_decide_reflect (lp_state launch = Launch_ISSUED)) as [Hi|Hi]; [|by apply ensures_ret].
  apply (ensures_dispatch_launch _ run_id definition); try done.
  - eapply known_mono; [|exact Hk]. by etrans.
  - intros p ->. eapply prepared_for_mono; [exact Hs2|]. by apply Hp.
Qed.

(** ** A certified dispatch *)

Lemma or_false_true r : or_false r = Ok true → r = Ok true.
Proof. destruct r as [[]|[]]; by cbn. Qed.

Lemma ensures_held h certificate expected :
  action_permit_from_certificate certificate = Ok (Some expected) →
  ensures (held_permit certificate expected)
    (λ h permit, Did (GetPermit (permit_id expected)) (Ok permit) ∈ h
                 ∨ Did (IssuePermit certificate) (Ok (Some permit)) ∈ h) h.
Proof.
  intros He. unfold held_permit. apply ensures_catch.
  - intros h1 h2 permit Hs [Hin|Hin]; [left|right]; by eapply told_mono.
  - apply ensures_perform; [intros; by apply tame_authorized|]. intros h' permit _. by left.
  - intros e h1 _. repeat (lazymatch goal with
      | |- ensures (Proc.raise _) _ _ => apply ensures_raise
      | |- ensures (match ?e with _ => _ end) _ _ => destruct e
      end).
    eapply (ensures_bind _ _ (λ h r, Did (IssuePermit certificate) (Ok r) ∈ h)).
    { apply ensures_perform; [intros; by apply tame_authorized|done]. }
    intros h2 [permit|] Hs2 Hin; [|apply ensures_raise]. apply ensures_ret. intros h3 Hs3.
    right. by eapply told_mono.
Qed.

Lemma ensures_dispatch_certified h run_id definition snapshot certificate transition target permit
  attempt :
  known h run_id definition snapshot →
  certificate_held h definition snapshot certificate →
  vc_transition certificate = Some transition →
  _node (df_chain definition) (ct_target_node_id transition) = Ok target →
  permit_held h certificate permit → state permit = ISSUED →
  attempt_left h (run_id_of snapshot) transition →
  ensures (dispatch_certified snapshot definition certificate transition target permit attempt)
    (λ _ _, True) h.
Proof.
  intros Hk Hc Ht Htarget Hp Hi Ha. unfold dispatch_certified.
  eapply (ensures_bind _ _ (λ _ report, report ∈ rs_reports snapshot
    ∧ canonical_sha256 report = vc_report_sha256 certificate)).
  { destruct (last _) as [report|] eqn:El; [|apply ensures_raise]. apply ensures_ret.
    intros h' _. apply last_Some_elem_of, list_elem_of_In, List.filter_In in El as [Hin Hd].
    split; [by apply list_elem_of_In|by apply bool_decide_eq_true_1 in Hd]. }
  intros h1 report Hs1 [Hin Hdigest].
  eapply (ensures_bind _ _ (λ _ source,
    _node (df_chain definition) (ct_source_node_id transition) = Ok source)); [by apply ensures_lift|].
  intros h2 source Hs2 Hsource.
  eapply ensures_bind; [apply ensures_prepare|]. intros h3 prepared Hs3 Hprep.
  apply ensures_then; [quiet|]. intros h4 s4 Hs4.
  eapply ensures_bind; [apply ensures_claim|]. intros h5 claim Hs5 Hclaim. cbv zeta.
  apply ensures_then; [quiet|]. intros h6 u6 Hs6.
  eapply ensures_bind; [|intros h7 receipt _ _; apply quiet_ensures; quiet].
  apply ensures_guarded_rollout; [|intros e; apply quiet_certified_failed].
  intros h7 Hs7 Hm.
  assert (Hs : suffix h h7) by (repeat (etrans; [eassumption|]); done).
  destruct (known_mono _ _ _ _ _ Hs Hk) as [Hd Hr].
  exists run_id, definition, snapshot. split; [done|]. split; [done|]. right.
  exists certificate, transition, source, target, report, permit, claim.
  split_and!; try done.
  - by eapply certificate_held_mono.
  - destruct Hp as (expected & He & Hin' & Hsame). exists expected. split_and!; [done| |done].
    destruct Hin' as [H'|H']; [left|right]; by eapply told_mono.
  - by eapply attempt_left_mono.
  - eapply prepared_for_mono; [|exact Hprep]. repeat (etrans; [eassumption|]); done.
  - eapply told_mono; [|exact Hclaim]. by etrans.
Qed.

Lemma ensures_permitted h run_id definition snapshot certificate :
  known h run_id definition snapshot →
  certificate_held h definition snapshot certificate →
  ensures (_permitted_dispatch snapshot definition certificate) (λ _ _, True) h.
Proof.
  intros Hk Hc. unfold _permitted_dispatch.
  destruct (vc_transition certificate) as [transition|] eqn:Et; [|by apply ensures_ret]. cbv zeta.
  eapply ensures_bind; [apply ensures_get|]. intros h1 current Hs1 Hcurrent.
  eapply (ensures_bind _ _ (λ _ p, progress_of current (ct_source_node_id transition) = Ok p));
    [by apply ensures_lift|]. intros h2 progress Hs2 Hprogress.
  eapply (ensures_bind _ _ (λ _ _, ct_action transition = RETRY → np_attempt progress < 2)).
  { apply ensures_lift. intros u h' Hu _ Hretry. apply reject_if_ok in Hu.
    rewrite Hretry in Hu. cbn in Hu. by apply Z.leb_gt in Hu. }
  intros h3 u3 Hs3 Hattempt.
  eapply (ensures_bind _ _ (λ _ target,
    _node (df_chain definition) (ct_target_node_id transition) = Ok target)); [by apply ensures_lift|].
  intros h4 target Hs4 Htarget.
  eapply (ensures_bind _ _ (λ _ e, action_permit_from_certificate certificate = Ok e)).
  { apply ensures_lift. intros e h' He _. by apply map_error_ok in He. }
  intros h5 [expected|] Hs5 He; [|apply ensures_raise].
  apply ensures_then; [quiet|]. intros h6 latest Hs6.
  apply ensures_then; [quiet|]. intros h7 u7 Hs7.
  eapply ensures_bind; [by apply ensures_held|]. intros h8 permit Hs8 Hheld.
  eapply (ensures_bind _ _ (λ _ same,
    or_false (same_action_permit_authority permit expected) = Ok same)); [by apply ensures_lift|].
  intros h9 same Hs9 Hsame.
  eapply (ensures_bind _ _ (λ _ _, same = true)).
  { apply ensures_lift. intros u h' Hu _. apply reject_if_ok in Hu. by destruct same. }
  intros h10 u10 Hs10 ->. apply or_false_true in Hsame.
  apply ensures_then; [quiet|]. intros h11 u11 Hs11.
  destruct (permit_dispatched permit); [apply quiet_ensures, quiet_claim_source|].
  eapply (ensures_bind _ _ (λ _ _, state permit = ISSUED)).
  { apply ensures_lift. intros u h' Hu _. apply reject_if_ok in Hu.
    by destruct (bool_decide_reflect (state permit = ISSUED)). }
  intros h12 u12 Hs12 Hissued.
  assert (Hs : suffix h h12) by (repeat (etrans; [eassumption|]); done).
  assert (Hs' : suffix h1 h12) by (repeat (etrans; [eassumption|]); done).
  assert (Hs'' : suffix h8 h12) by (repeat (etrans; [eassumption|]); done).
  eapply (ensures_dispatch_certified _ run_id); try done.
  - by apply (known_mono _ _ _ _ _ Hs).
  - by apply (certificate_held_mono _ _ _ _ _ Hs).
  - exists expected. split_and!; [done| |done].
    destruct Hheld as [H'|H']; [left|right]; by apply (told_mono _ _ _ Hs'').
  - intros Hretry. exists current, progress. split_and!; [|done|by apply Hattempt].
    by apply (recorded_mono _ _ _ _ Hs').
Qed.

(** ** The investigation *)

(** The artifact of a state the evidence source gave. *)
Definition found (run_id : string) (definition : RecoveryRunDefinition) (node : RecoveryActionNode)
  (h : work_log) (r : RecoveryEvidenceState * RecoveryVerificationResult) : Prop :=
  evidence_given h run_id node r.1 ∧ _verify definition node r.1 = Ok r.2.

Lemma ensures_evidence h (op : work_op (result work_exn RecoveryEvidenceState)) run_id node envelope :
  op = CurrentEvidence run_id node envelope ∨ op = FixedEvidence run_id node envelope
  ∨ (∃ request, op = ProbeEvidence run_id node envelope request) →
  ensures (perform op) (λ h state, evidence_given h run_id node state) h.
Proof.
  intros Hop. apply ensures_perform.
  - intros h' answer _. apply tame_authorized. destruct Hop as [->|[->|[request ->]]]; by intros ?.
  - intros h' state _ Hin. exists envelope. naive_solver.
Qed.

Lemma ensures_unavailable {A} (m : work A) (P : work_log → A → Prop) h :
  lasting suffix P → ensures m P h → ensures (or_unavailable m) P h.
Proof.
  intros HP Hm. unfold or_unavailable. apply ensures_catch; [done..|].
  intros e h' _. destruct (is_cancelled e); apply ensures_raise.
Qed.

Lemma lasting_evidence run_id node : lasting suffix (λ h state, evidence_given h run_id node state).
Proof. intros h h' state. apply evidence_given_mono. Qed.

(** Evidence is recorded, then verified. *)
Lemma ensures_found h run_id definition node state :
  evidence_given h run_id node state →
  ensures (artifact ← Proc.lift (_verify definition node state); mret (state, artifact))
    (found run_id definition node) h.
Proof.
  intros He. eapply (ensures_bind _ _ (λ _ artifact, _verify definition node state = Ok artifact));
    [by apply ensures_lift|].
  intros h1 artifact Hs1 Hv. apply ensures_ret. intros h2 Hs2. split; [|done].
  eapply evidence_given_mono; [|exact He]. by etrans.
Qed.

Lemma ensures_fixed h run_id definition node envelope :
  ensures (fixed_investigation run_id definition node envelope) (found run_id definition node) h.
Proof.
  unfold fixed_investigation.
  eapply ensures_bind; [apply ensures_unavailable;
    [apply (lasting_evidence run_id node)|eapply ensures_evidence; by eauto]|].
  intros h1 state Hs1 Hstate.
  apply ensures_then; [quiet|]. intros h2 u2 Hs2.
  eapply (ensures_bind _ _ (λ _ artifact, _verify definition node state = Ok artifact));
    [by apply ensures_lift|]. intros h3 artifact Hs3 Hv.
  apply ensures_then; [quiet|]. intros h4 [] Hs4.
  - eapply ensures_bind; [apply ensures_unavailable; [apply (lasting_evidence run_id node)|]|].
    { apply ensures_then; [quiet|]. intros h5 again Hs5.
      apply ensures_then; [quiet|]. intros h6 u6 Hs6. eapply ensures_evidence; by eauto. }
    intros h5 state' Hs5 Hstate'. apply ensures_then; [quiet|]. intros h6 u6 Hs6.
    apply ensures_found. by eapply evidence_given_mono.
  - apply ensures_ret. intros h5 Hs5. split; [|done].
    eapply evidence_given_mono; [|exact Hstate]. repeat (etrans; [eassumption|]); done.
Qed.

(** What a turn leads to is an artifact of evidence that was given. *)
Definition turn_found (run_id : string) (definition : RecoveryRunDefinition)
  (node : RecoveryActionNode) (h : work_log) (o : turn_outcome) : Prop :=
  match o with
  | TurnEnds state artifact | TurnGoesOn state _ artifact =>
      found run_id definition node h (state, artifact)
  end.

Lemma ensures_turn h run_id definition node envelope state prior :
  evidence_given h run_id node state →
  ensures (adaptive_turn run_id definition node envelope state prior)
    (turn_found run_id definition node) h.
Proof.
  intros He. unfold adaptive_turn.
  assert (Hends : ∀ h s, evidence_given h run_id node s →
    ensures (artifact ← Proc.lift (_verify definition node s); mret (TurnEnds s artifact))
      (turn_found run_id definition node) h).
  { intros h' s Hs. eapply (ensures_bind _ _ (λ _ artifact, _verify definition node s = Ok artifact));
      [by apply ensures_lift|]. intros h1 artifact Hs1 Hv. apply ensures_ret. intros h2 Hs2.
    split; [|done]. eapply evidence_given_mono; [|exact Hs]. by etrans. }
  apply ensures_then; [quiet|]. intros h1 capabilities Hs1.
  apply ensures_then; [quiet|]. intros h2 answer Hs2.
  apply ensures_then; [quiet|]. intros h3 turn Hs3.
  destruct (turn_failure turn) as [failure|].
  - apply ensures_then; [quiet|]. intros h4 u4 Hs4.
    eapply ensures_bind; [eapply (ensures_evidence _ _ run_id node); by eauto|].
    intros h5 state' Hs5 Hstate'. apply ensures_then; [quiet|]. intros h6 u6 Hs6.
    apply Hends. by eapply evidence_given_mono.
  - cbv zeta. apply ensures_then; [quiet|]. intros h4 disposition Hs4.
    apply ensures_then; [quiet|]. intros h5 u5 Hs5.
    assert (Hs : suffix h h5) by (repeat (etrans; [eassumption|]); done).
    assert (Hother : ensures (state ← (if falls_back disposition then
                     state ← perform (FixedEvidence run_id node envelope);
                     _ ← record_hypothesis run_id None FIXED_FALLBACK FALLBACK_NOTE;
                     _ ← _record_evidence run_id state;
                     mret state
                   else mret state);
          artifact ← Proc.lift (_verify definition node state);
          mret (TurnEnds state artifact)) (turn_found run_id definition node) h5).
    { eapply (ensures_bind _ _ (λ h s, evidence_given h run_id node s)).
      - destruct (falls_back disposition).
        + eapply ensures_bind; [eapply (ensures_evidence _ _ run_id node); by eauto|].
          intros h6 s Hs6 Hg. apply ensures_then; [quiet|]. intros h7 u7 Hs7.
          apply ensures_then; [quiet|]. intros h8 u8 Hs8. apply ensures_ret. intros h9 Hs9.
          eapply evidence_given_mono; [|exact Hg]. repeat (etrans; [eassumption|]); done.
        + apply ensures_ret. intros h6 Hs6. eapply evidence_given_mono; [|exact He]. by etrans.
      - intros h6 s Hs6 Hg. by apply Hends. }
    destruct disposition; try exact Hother.
    destruct (turn_hypothesis turn ≫= gh_proposed_probe) as [request|]; [|apply ensures_raise].
    cbv zeta. eapply ensures_bind; [apply ensures_unavailable;
      [apply (lasting_evidence run_id node)|eapply ensures_evidence; by eauto]|].
    intros h6 s Hs6 Hg. apply ensures_then; [quiet|]. intros h7 u7 Hs7.
    eapply (ensures_bind _ _ (λ _ artifact, _verify definition node s = Ok artifact));
      [by apply ensures_lift|]. intros h8 artifact Hs8 Hv. apply ensures_ret. intros h9 Hs9.
    assert (Hf : found run_id definition node h9 (s, artifact)).
    { split; [|done]. eapply evidence_given_mono; [|exact Hg].
      repeat (etrans; [eassumption|]); done. }
    by destruct artifact.
Qed.

Lemma ensures_turns turns h run_id definition node envelope state prior artifact :
  evidence_given h run_id node state →
  (∀ a, artifact = Some a → _verify definition node state = Ok a) →
  ensures (adaptive_turns turns run_id definition node envelope state prior artifact)
    (found run_id definition node) h.
Proof.
  revert h state prior artifact. induction turns as [|turns IH]; intros h state prior artifact He Ha;
    cbn [adaptive_turns].
  - destruct artifact as [a|]; [|by apply ensures_found]. apply ensures_ret. intros h' Hs.
    split; [by eapply evidence_given_mono|by apply Ha].
  - eapply ensures_bind; [by apply ensures_turn|]. intros h1 [s a|s p a] Hs1 [Hg Hv].
    + apply ensures_ret. intros h2 Hs2. split; [by eapply evidence_given_mono|done].
    + apply IH; [done|]. by intros a' [= <-].
Qed.

Lemma ensures_investigate h snapshot definition node :
  ensures (_investigate snapshot definition node)
    (found (run_id_of snapshot) definition node) h.
Proof.
  unfold _investigate. cbv zeta.
  apply ensures_then; [quiet|]. intros h1 envelope Hs1.
  eapply ensures_bind; [apply ensures_unavailable;
    [apply (lasting_evidence (run_id_of snapshot) node)|eapply ensures_evidence; by eauto]|].
  intros h2 state Hs2 Hg. apply ensures_then; [quiet|]. intros h3 u3 Hs3.
  destruct (rr_policy (rs_request snapshot)); lazymatch goal with
    | |- ensures (Proc.raise _) _ _ => apply ensures_raise
    | |- ensures (fixed_investigation _ _ _ _) _ _ => apply ensures_fixed
    | _ => apply ensures_turns; [by eapply evidence_given_mono|done]
    end.
Qed.

(** ** Rounds *)

Lemma ensures_record h run_id artifact decision :
  (∀ h', suffix h h' → decision_verified h' run_id (decision_payload decision artifact)) →
  ensures (_record_decision run_id artifact decision)
    (λ h s, appended h run_id Event_DECISION (decision_payload decision artifact) s) h.
Proof.
  intros Hd. unfold _record_decision. apply ensures_then; [quiet|]. intros h1 u1 Hs1.
  apply ensures_append. intros h2 Hs2 _. apply Hd. by etrans.
Qed.

Lemma ensures_resumed h run_id definition snapshot node index progress certificate transition :
  known h run_id definition snapshot → certificate ∈ rs_certificates snapshot →
  ensures (resumed_round snapshot definition node index progress certificate transition)
    (λ _ _, True) h.
Proof.
  intros Hk Hc. unfold resumed_round. cbv zeta.
  eapply ensures_bind; [eapply ensures_permitted; [done|by left]|].
  intros h1 u1 _ _. apply quiet_ensures. quiet.
Qed.

Lemma ensures_decided h run_id definition snapshot node index attempt r :
  known h run_id definition snapshot → recorded h run_id snapshot →
  node ∈ rc_nodes (df_chain definition) →
  found (run_id_of snapshot) definition node h r →
  ensures (decided_round snapshot definition node index attempt r.2) (λ _ _, True) h.
Proof.
  intros Hk Hr Hn [He Hv]. destruct r as [state artifact]. cbn [fst snd] in *.
  unfold decided_round. cbv zeta.
  eapply ensures_bind; [apply ensures_record|].
  { intros h' Hs. exists run_id, definition, snapshot, node, state, artifact.
    split_and!; try done; [|by eapply recorded_mono|by eapply evidence_given_mono].
    eapply run_definition_mono; [exact Hs|apply Hk]. }
  intros h1 s Hs1 Ha.
  destruct artifact as [certificate|witness]; [|apply quiet_ensures; quiet].
  apply ensures_then; [quiet|]. intros h2 u2 Hs2.
  assert (Hheld : certificate_held h2 definition s certificate).
  { right. exists (run_id_of snapshot), node, state. eexists. split_and!; [|done|].
    - eapply evidence_given_mono; [|exact He]. by etrans.
    - by eapply appended_mono. }
  assert (Hknown : known h2 run_id definition s).
  { split.
    - eapply run_definition_mono; [|apply Hk]. by etrans.
    - exists (run_id_of snapshot). eapply recorded_mono; [done|]. by eapply appended_recorded. }
  assert (Hgo : ∀ k : work round, (∀ u : unit, quiet k) →
    ensures (_ ← _permitted_dispatch s definition certificate; k) (λ _ _, True) h2).
  { intros k Hq. eapply ensures_bind; [by eapply ensures_permitted|].
    intros h3 u3 _ _. apply quiet_ensures, Hq, u3. }
  destruct (decision_for definition node snapshot (CertificateResult certificate));
    try (apply quiet_ensures; quiet; fail);
    (destruct (vc_transition certificate); [apply Hgo; intros _; quiet|apply quiet_ensures; quiet]).
Qed.

Lemma ensures_reconciling h run_id definition node index attempt :
  run_definition h run_id definition → node ∈ rc_nodes (df_chain definition) →
  ensures (reconciling_round definition run_id node index attempt) (λ _ _, True) h.
Proof.
  intros Hd Hn. unfold reconciling_round.
  eapply ensures_bind; [apply ensures_get|]. intros h1 snapshot Hs1 Hr.
  match goal with |- ensures (if ?c then _ else _) _ _ => destruct c end;
    [apply quiet_ensures; quiet|].
  apply ensures_then; [quiet|]. intros h2 tail Hs2.
  destruct (decision_pending tail snapshot node); [apply quiet_ensures; quiet|].
  eapply ensures_bind; [apply ensures_investigate|]. intros h3 r Hs3 Hf.
  assert (Hr' : recorded h3 run_id snapshot) by (eapply recorded_mono; [|exact Hr]; by etrans).
  apply (ensures_decided _ run_id); try done. split; [|by exists run_id].
  eapply run_definition_mono; [|exact Hd]. etrans; [exact Hs1|]. by etrans.
Qed.

Lemma ensures_round h run_id definition index node :
  run_definition h run_id definition → rc_nodes (df_chain definition) !! index = Some node →
  ensures (run_round definition run_id index node) (λ _ _, True) h.
Proof.
  intros Hd Hn. unfold run_round. cbv zeta.
  eapply ensures_bind; [apply ensures_get|]. intros h1 snapshot Hs1 Hr.
  apply ensures_then; [quiet|]. intros h2 progress Hs2.
  do 2 (match goal with |- ensures (if ?c then _ else _) _ _ => destruct c end;
    [apply quiet_ensures; quiet|]).
  eapply (ensures_bind _ _ (λ _ _, True)).
  { destruct (starts_dispatch snapshot node index progress) eqn:Es; [|apply quiet_ensures; quiet].
    unfold starts_dispatch in Es. cbv zeta in Es. apply andb_prop in Es as [Es _].
    apply andb_prop in Es as [Es _]. apply Nat.eqb_eq in Es as ->.
    apply (ensures_initial _ run_id); [|done].
    split; [eapply run_definition_mono; [|exact Hd]; by etrans|].
    exists run_id. by apply (recorded_mono _ _ _ _ Hs2). }
  intros h3 u3 Hs3 _.
  eapply ensures_bind; [apply ensures_get|]. intros h4 snapshot' Hs4 Hr'.
  apply ensures_then; [quiet|]. intros h5 progress' Hs5.
  assert (Hs : suffix h h5) by (repeat (etrans; [eassumption|]); done).
  destruct (certified_state _).
  - destruct (last (certificates_of snapshot' node)) as [certificate|] eqn:El; [|apply ensures_raise].
    destruct (vc_transition certificate) as [transition|];
      [|destruct (bool_decide _); [apply quiet_ensures; quiet|apply ensures_raise]].
    apply (ensures_resumed _ run_id).
    + split; [by apply (run_definition_mono _ _ _ _ Hs)|].
      exists run_id. by apply (recorded_mono _ _ _ _ Hs5).
    + apply last_Some_elem_of, list_elem_of_In, List.filter_In in El as [Hin _].
      by apply list_elem_of_In.
  - apply ensures_reconciling; [by apply (run_definition_mono _ _ _ _ Hs)|].
    by eapply list_elem_of_lookup_2.
Qed.

Lemma ensures_rounds fuel h run_id definition index :
  run_definition h run_id definition →
  ensures (run_rounds fuel definition run_id index) (λ _ _, True) h.
Proof.
  revert h index. induction fuel as [|fuel IH]; intros h index Hd; cbn [run_rounds];
    destruct (rc_nodes (df_chain definition) !! index) as [node|] eqn:Hn;
    try (apply quiet_ensures; quiet; fail).
  eapply ensures_bind; [by apply ensures_round|].
  intros h1 [index'|snapshot] Hs1 _; [|by apply ensures_ret].
  apply IH. by eapply run_definition_mono.
Qed.

Lemma ensures_run fuel h run_id : ensures (run fuel run_id) (λ _ _, True) h.
Proof.
  unfold run. eapply ensures_bind; [apply ensures_get|]. intros h1 snapshot Hs1 Hr.
  eapply ensures_bind; [apply ensures_definition|]. intros h2 definition Hs2 [Hin Hc].
  eapply (ensures_bind _ _ (λ _ _, model_eqb (df_chain definition) (rs_chain snapshot) = true)).
  { apply ensures_lift. intros u h' Hu _. apply reject_if_ok in Hu. by destruct model_eqb. }
  intros h3 u3 Hs3 He. apply ensures_then; [quiet|]. intros h4 snapshot' Hs4.
  destruct (negb _); [by apply ensures_ret|]. apply ensures_rounds. exists snapshot.
  assert (suffix h2 h4) by (by etrans).
  split_and!; [|by eapply told_mono|done|done].
  eapply recorded_mono; [|exact Hr]. by etrans.
Qed.

Lemma ensures_worker fuel h run_id : ensures (_worker fuel run_id) (λ _ _, True) h.
Proof.
  unfold _worker. apply ensures_catch; [done| |intros e h' _; apply quiet_ensures; quiet].
  eapply ensures_bind; [apply ensures_run|]. intros h' a _ _. by apply ensures_ret.
Qed.

Lemma quiet_cancel run_id : quiet (cancel_run run_id).
Proof. unfold cancel_run. quiet. Qed.

End dispatches.

(** * Workers of many runs *)

(** A worker of a run, or a request that cancels one. *)
Inductive work_client :=
  | Worker (fuel : nat) (run_id : string)
  | Canceller (run_id : string).

Section properties.
Context {rt : Runtime} {sec : Security} {sv : SchemaValidator} {od : ObservationDecoder}.

Definition client_body (c : work_client) : work unit :=
  match c with
  | Worker fuel run_id => _worker fuel run_id
  | Canceller run_id => _ ← cancel_run run_id; mret tt
  end.

(** The clients, interleaved in any way, logged these operations. *)
Definition logged (clients : list work_client) (h : work_log) : Prop :=
  ∃ procs, rtc (pool_step logs (λ _ _, False)) ([], map client_body clients) (h, procs).

Lemma ensures_client c h : ensures (client_body c) (λ _ _, True) h.
Proof.
  destruct c as [fuel run_id|run_id]; unfold client_body; [apply ensures_worker|].
  apply quiet_ensures. pose proof (quiet_cancel run_id). quiet.
Qed.

Lemma logged_respects clients h : logged clients h → respects h.
Proof.
  intros [procs Hrun].
  destruct (pool_adequate logs (λ _ _, False) suffix log_ok
    (λ _ _ _, True) ltac:(done) ([], map client_body clients) (h, procs) []) as (κ & _ & Hi & _).
  - split; [by split|]. intros i m Hi. change (map client_body clients !! i = Some m) in Hi.
    apply list_lookup_fmap_Some in Hi as (c & -> & _).
    eapply after_mono; [exact _|apply (ensures_client c)|]. done.
  - exact Hrun.
  - change (log_ok h κ) in Hi. by destruct Hi as [-> Hr].
Qed.

(** C8: whatever the store, the evidence source, the agent, the preparer, the authority
    and the gateway answer, and however many workers run, a worker dispatches only (a)
    the first node of its run's well-formed chain, under a launch permit still ISSUED
    that the store holds for the run, or (b) the target of a certificate that is stored
    with the run or was verified and stored just before, under a permit for exactly
    that certificate which the authority answered as ISSUED, with an attempt left when
    it is a retry.  The prepared action is the node's sealed one, bound to the
    certificate and its report, and the scope names this very authority and a fresh
    claim. *)
Theorem workflow_dispatch_authorized clients h1 e h2 prepared scope :
  logged clients (h1 ++ e :: h2) → dispatch_of e = Some (prepared, scope) →
  dispatch_authorized h2 prepared scope.
Proof.
  intros Hl He. pose proof (respects_app _ _ _ (logged_respects _ _ Hl)) as Ha.
  unfold event_authorized in Ha. by rewrite He in Ha.
Qed.

(** C9: a worker stores a decision only for an artifact the verifier computed from
    evidence the source gave for a node of the run's chain; the decision is the one
    the artifact leads to, whatever the agent advised. *)
Theorem workflow_decision_verified clients h1 e h2 run_id payload :
  logged clients (h1 ++ e :: h2) → decision_of e = Some (run_id, payload) →
  decision_verified h2 run_id payload.
Proof.
  intros Hl He. pose proof (respects_app _ _ _ (logged_respects _ _ Hl)) as Ha.
  unfold event_authorized in Ha. rewrite He in Ha.
  destruct (dispatch_of e) as [[prepared scope]|] eqn:Hd; [|done].
  by destruct e as [R [] answer].
Qed.

End properties.
