(* ===== verification/WorkWitnesses.v ===== *)
(** A small environment to play a recovery worker against, at the release of
    RecoveryWitnesses.v - the staged revision is found ready, its promotion is found
    committed, and the release record is found not to have left - and the properties
    of the workers at a log of it. *)

From S2P Require Export WorkProperties RecoveryWitnesses.

#[local] Open Scope Z_scope.

(** ** The release *)

Definition rollout_name : string := "run-1".
Definition rollout_request : RecoveryRunRequest :=
  {| rr_run_id := rollout_name; rr_scenario := "cloud-run-rollout"; rr_policy := FIXED;
     rr_fault := SUPPRESS_BEFORE_DISPATCH |}.

Definition probes_of (envelope : ExecutionEnvelope) : list ObservationCapability :=
  map (λ c, {| oc_name := cr_name c; oc_version := cr_version c; oc_argument_schema := [];
               oc_allowed_targets := []; oc_timeout_ms := 1000;
               oc_result_byte_ceiling := 1000; oc_cost_units := 1 |})
    (enabled_capabilities (en_context envelope)).

Definition stage_envelope : ExecutionEnvelope :=
  release_envelope "stage" STAGE_CLOUD_RUN_REVISION_PROFILE lab_service stage_arguments
    stage_effects.
Definition service_record : string := "projects/project-1/locations/us-central1/services/checkout".

Definition rollout_definition : RecoveryRunDefinition := Eval vm_compute in
  {| df_chain := lab_chain;
     df_envelopes := [("stage", stage_envelope); ("promote", promote_envelope);
                      ("record", record_envelope)];
     df_capabilities := [("stage", probes_of stage_envelope);
                         ("promote", probes_of promote_envelope);
                         ("record", probes_of record_envelope)] |}.

(** The staged revision is ready and takes no traffic. *)
Definition staged : list (NormalizedEvidence * EvidenceReason) :=
  [(release_evidence "evidence:s1" SERVICE_GET "google-cloud-run-v2" "reconcile-cloud-run-v2-v1"
      service_record lab_service
      [("observation_schema", "cloud-run-service-observation-v1"); ("release_id", lab_release);
       ("revision", lab_revision); ("service_etag", "etag-0"); ("generation", "3");
       ("observed_generation", "3"); ("reconciling", "false");
       ("terminal_condition", "SUCCEEDED"); ("revision_traffic_percent", "0")]
      [{| ea_effect_id := STAGE_TRAFFIC_EFFECT_SCOPE; ea_state := ESTABLISHED |}] None,
    AUTHORITATIVE_EXACT_CORRELATION);
   (release_evidence "evidence:s2" REVISION_GET "google-cloud-run-v2" "reconcile-cloud-run-v2-v1"
      (service_record +:+ "/revisions/" +:+ lab_revision) lab_service
      [("observation_schema", "cloud-run-revision-observation-v1"); ("release_id", lab_release);
       ("release_label", lab_release); ("revision", lab_revision); ("image_digest", lab_image);
       ("configuration_sha256", sha256_hex "configuration"); ("generation", "3");
       ("observed_generation", "3"); ("reconciling", "false");
       ("terminal_condition", "SUCCEEDED"); ("readiness", "READY")]
      [{| ea_effect_id := STAGE_REVISION_EFFECT_SCOPE; ea_state := ESTABLISHED |};
       {| ea_effect_id := STAGE_READINESS_EFFECT_SCOPE; ea_state := ESTABLISHED |}] None,
    AUTHORITATIVE_EXACT_CORRELATION)].

(** ** The environment *)

Record world := {
  wo_run : RecoveryRunAggregate;
  wo_permits : list ActionPermit;
  wo_claims : nat;
}.

Definition with_run (w : world) (r : result run_error RecoveryRunAggregate)
  : result work_exn RecoveryRunSnapshot * world :=
  match r with
  | Ok a => (Ok (ra_snapshot a),
             {| wo_run := a; wo_permits := wo_permits w; wo_claims := wo_claims w |})
  | Raise e => (Raise (StoreError e), w)
  end.

(** An append whose result is not validated again. *)
Definition project (a : RecoveryRunAggregate) (event_type : RecoveryRunEventType)
  (payload : RecoveryRunEventPayload) (at_time : datetime) : result run_error RecoveryRunAggregate :=
  let event := next_event a event_type payload at_time in
  s ← apply_updates (ra_snapshot a) event;
  Ok {| ra_snapshot := with_event s event; ra_events := ra_events a ++ [event] |}.

Definition with_permits (w : world) (permits : list ActionPermit) : world :=
  {| wo_run := wo_run w; wo_permits := permits; wo_claims := wo_claims w |}.

Definition evidence_from (envelope : ExecutionEnvelope)
  (readings : list (NormalizedEvidence * EvidenceReason)) : result work_exn RecoveryEvidenceState :=
  python (evaluation ← release_evaluation envelope readings;
          report ← release_report envelope readings evaluation;
          Ok {| ev_envelope := envelope; ev_report := report; ev_evaluation := evaluation |}).

Definition stage_evidence : result work_exn RecoveryEvidenceState :=
  Eval vm_compute in evidence_from stage_envelope staged.

Definition evidence_of (node : RecoveryActionNode) (envelope : ExecutionEnvelope)
  : result work_exn RecoveryEvidenceState :=
  if bool_decide (rn_node_id node = "stage") then stage_evidence
  else if bool_decide (rn_node_id node = "promote") then evidence_from envelope promoted
  else evidence_from envelope unrecorded.

Definition prepared_action (request : RecoveryRunRequest) (chain : RecoveryChain)
  (source target : RecoveryActionNode) (certificate : option VerifiedCertificate)
  : result work_exn RecoveryPreparedAction :=
  let action := rn_semantic_action target in
  let precondition :=
    if bool_decide (rn_node_id target = "stage") then [("none", JBool true)]
    else if bool_decide (rn_node_id target = "promote")
    then [("service_etag", JStr "etag-0")] else [("exists", JBool false)] in
  python (
    arguments_digest ← dispatch_arguments_sha256 (sa_semantic_arguments action);
    precondition_digest ← dispatch_precondition_sha256 precondition;
    Ok {| prep_authority_kind := if is_none certificate then LAUNCH_PERMIT_AUTHORITY
                                 else ACTION_PERMIT_AUTHORITY;
          prep_run_id := rr_run_id request; prep_chain_id := rc_chain_id chain;
          prep_source_node_id := rn_node_id source; prep_target_node_id := rn_node_id target;
          prep_semantic_action_sha256 := sa_semantic_action_sha256 action;
          prep_tool_name := sa_tool_name action; prep_tool_version := sa_tool_version action;
          prep_arguments := sa_semantic_arguments action;
          prep_arguments_sha256 := arguments_digest; prep_target := sa_target action;
          prep_target_sha256 := canonical_sha256 (sa_target action);
          prep_precondition := precondition; prep_precondition_sha256 := precondition_digest;
          prep_request_payload := []; prep_action_request_sha256 := sha256_hex "request";
          prep_permit_action := c ← certificate; ct_action <$> vc_transition c;
          prep_report_sha256 := vc_report_sha256 <$> certificate;
          prep_certificate_id := vc_certificate_id <$> certificate;
          prep_certificate_sha256 := canonical_sha256 <$> certificate |}).

Definition play_time : datetime := lab_time + 2 * second_us.

(** A dispatch claims its authority, acts, and completes it. *)
Definition dispatched (scope : RecoveryActionScope) (w : world)
  : result work_exn DispatchResult * world :=
  match as_authority_kind scope with
  | LAUNCH_PERMIT_AUTHORITY =>
      match rs_launch_permit (ra_snapshot (wo_run w)) with
      | Some launch =>
          let claimed := claimed_launch launch (as_claim_id scope) play_time in
          let settled := completed_launch claimed Dispatch_SUCCEEDED play_time in
          let appended a l :=
            project a Event_LAUNCH_PERMIT (launch_payload l) play_time in
          let receipt := {| ds_outcome := Dispatch_SUCCEEDED; ds_launch_permit := Some settled;
                            ds_action_permit := None |} in
          let '(r, w') := with_run w (a ← appended (wo_run w) claimed; appended a settled) in
          ((_ ← r; Ok receipt), w')
      | None => (Raise OutsideError, w)
      end
  | _ =>
      match List.partition (λ p, bool_decide (permit_id p = as_authority_id scope)) (wo_permits w) with
      | ([permit], others) =>
          let settled := completed_copy (claimed_copy permit (as_claim_id scope) play_time)
                           play_time SUCCEEDED in
          (Ok {| ds_outcome := Dispatch_SUCCEEDED; ds_launch_permit := None;
                 ds_action_permit := Some settled |}, with_permits w (settled :: others))
      | _ => (Raise OutsideError, w)
      end
  end.

Definition answer {R} (op : work_op R) (w : world) : R * world :=
  match op in work_op R return R * world with
  | StoreGet _ => (Ok (ra_snapshot (wo_run w)), w)
  | StoreAppend _ revision event_type payload at_time =>
      if revision =? rs_revision (ra_snapshot (wo_run w))
      then with_run w (project (wo_run w) event_type payload at_time)
      else (Raise (StoreError (RecoveryRunConflict rollout_name)), w)
  | StoreEvents _ after =>
      (Ok {| es_run_id := rollout_name;
             es_cursor := rs_event_cursor (ra_snapshot (wo_run w));
             es_events := List.filter (λ e, after <? re_cursor e) (ra_events (wo_run w));
             es_terminal := false |}, w)
  | MakeDefinition _ => (Ok rollout_definition, w)
  | CurrentEvidence _ node envelope | FixedEvidence _ node envelope
  | ProbeEvidence _ node envelope _ => (evidence_of node envelope, w)
  | Hypothesize _ _ _ _ _ _ => (Raise OutsideError, w)
  | PrepareAction request chain source target _ certificate =>
      (prepared_action request chain source target certificate, w)
  | GetPermit id =>
      (match with_permit_id id (wo_permits w) with
       | permit :: _ => Ok permit
       | [] => Raise (AuthorityError (PermitStoreError (PermitNotFound id)))
       end, w)
  | IssuePermit certificate =>
      match action_permit_from_certificate certificate with
      | Ok (Some permit) => (Ok (Some permit), with_permits w (permit :: wo_permits w))
      | Ok None => (Ok None, w)
      | Raise e => (Raise (AuthorityError e), w)
      end
  | Dispatch _ scope => dispatched scope w
  | WorkClock => (Some play_time, w)
  | NewWorkClaim =>
      ("claim-" +:+ hex_digit (N.of_nat (wo_claims w)),
       {| wo_run := wo_run w; wo_permits := wo_permits w; wo_claims := S (wo_claims w) |})
  | CancellationPending => (false, w)
  end.

(** At most [n] operations of a worker. *)
Fixpoint play (n : nat) (m : work unit) (w : world) (h : work_log) : work unit * world * work_log :=
  match n, m with
  | S n', Call op k => let '(r, w') := answer op w in play n' (k r) w' (Did op r :: h)
  | _, _ => (m, w, h)
  end.

Definition rollout_world : world :=
  {| wo_run := {| ra_snapshot := initial_snapshot_of rollout_request (df_chain rollout_definition) lab_time;
                  ra_events := initial_event_pair rollout_name (df_chain rollout_definition) lab_time |};
     wo_permits := []; wo_claims := 0 |}.

Definition rollout_log (n : nat) : work_log :=
  (play n (_worker 20 rollout_name) rollout_world []).2.

(** The operations of a log, the first one first. *)
Definition dispatches (h : work_log) : list (string * string) :=
  map (λ d : RecoveryPreparedAction * RecoveryActionScope,
         (as_source_node_id d.2, as_target_node_id d.2)) (reverse (omap dispatch_of h)).

Definition decisions (h : work_log) : list (option RecoveryDecision) :=
  map (λ d : string * RecoveryRunEventPayload, pd_decision d.2) (reverse (omap decision_of h)).

(** * The properties *)

(** A played worker is a pool of one client. *)
Lemma play_steps n m w h :
  rtc (pool_step logs (λ _ _, False)) (h, [m]) ((play n m w h).2, [(play n m w h).1.1]).
Proof.
  revert m w h. induction n as [|n IH]; intros m w h; [by constructor|].
  destruct m as [r|R op k]; cbn [play]; [by constructor|].
  destruct (answer op w) as [r w']. eapply rtc_l; [|apply IH].
  exact (pool_client logs (λ _ _, False) h [Call op k] 0 R op k r (Did op r :: h) eq_refl eq_refl).
Qed.

Lemma rollout_logged n : logged [Worker 20 rollout_name] (rollout_log n).
Proof. eexists. apply (play_steps n). Qed.

Definition certified_scope_in (e : work_event) : bool :=
  match dispatch_of e with
  | Some (_, scope) => bool_decide (as_authority_kind scope = ACTION_PERMIT_AUTHORITY)
  | None => false
  end.

Lemma rollout_computed :
  existsb certified_scope_in (rollout_log 52)
  && existsb (λ e, is_some (decision_of e)) (rollout_log 52) = true.
Proof. vm_compute. reflexivity. Qed.

Lemma split_at {A} (f : A → bool) l : existsb f l = true → ∃ l1 x l2, l = l1 ++ x :: l2 ∧ f x = true.
Proof.
  intros (x & Hin & Hf)%existsb_exists. apply list_elem_of_In, list_elem_of_split in Hin as (l1 & l2 & ->).
  by exists l1, x, l2.
Qed.

#[local] Opaque rollout_log.

Lemma workflow_dispatch_authorized_witness :
  ∃ h prepared scope, as_authority_kind scope = ACTION_PERMIT_AUTHORITY
    ∧ dispatch_authorized h prepared scope.
Proof.
  destruct (andb_prop _ _ rollout_computed) as [Hc _].
  destruct (split_at _ _ Hc) as (h1 & e & h2 & Hsplit & He).
  unfold certified_scope_in in He.
  destruct (dispatch_of e) as [[prepared scope]|] eqn:Hd; [|discriminate He].
  exists h2, prepared, scope. split; [exact (bool_decide_eq_true_1 _ He)|].
  apply (workflow_dispatch_authorized [Worker 20 rollout_name] h1 e h2); [|exact Hd].
  rewrite <-Hsplit. exact (rollout_logged 52).
Defined.

Lemma workflow_decision_verified_witness : ∃ h run_id payload, decision_verified h run_id payload.
Proof.
  destruct (andb_prop _ _ rollout_computed) as [_ Hc].
  destruct (split_at _ _ Hc) as (h1 & e & h2 & Hsplit & He).
  destruct (decision_of e) as [[run_id payload]|] eqn:Hd; [|discriminate He].
  exists h2, run_id, payload.
  apply (workflow_decision_verified [Worker 20 rollout_name] h1 e h2); [|exact Hd].
  rewrite <-Hsplit. exact (rollout_logged 52).
Defined.
