(* ===== verification/WorkTermination.v ===== *)
(** The loop over the chain ends: run by any number of workers on one store, a round
    that stays at a node leaves at least one new event, a run has at most 512 of them
    and a chain at most 32 nodes. *)

From S2P Require Export RunWitnesses WorkSafe RunProperties.

#[local] Open Scope Z_scope.

Section termination.
Context {rt : Runtime} {sec : Security} {sv : SchemaValidator} {od : ObservationDecoder}.

(** ** The store of the workers *)

(** An operation of the store is answered by the store; the gateway may call it too;
    a definition's chain is a validated model; other answers are arbitrary. *)
Definition store_responds (R : Type) (s : run_state) (op : work_op R) (r : R) (s' : run_state)
  : Prop :=
  match op in work_op R return R → Prop with
  | StoreGet run_id => λ r,
      r = map_error StoreError (get run_id s).1 ∧ s' = (get run_id s).2
  | StoreAppend run_id revision event_type payload at_time => λ r,
      r = map_error StoreError (append run_id revision event_type payload at_time s).1
      ∧ s' = (append run_id revision event_type payload at_time s).2
  | StoreEvents run_id after => λ r,
      r = map_error StoreError (events run_id after s).1 ∧ s' = (events run_id after s).2
  | MakeDefinition _ => λ r,
      s' = s ∧ ∀ definition, r = Ok definition → validate_RecoveryChain (df_chain definition) = Ok tt
  | Dispatch _ _ => λ _, ∃ calls, s' = (call_runs calls s).2
  | _ => λ _, s' = s
  end r.

(** The store's other clients. *)
Definition store_changes (s s' : run_state) : Prop := ∃ call, s' = (call_run call s).2.

(** ** What grows *)

Definition later (s s' : run_state) : Prop :=
  (∀ run_id a, s !! run_id = Some a → ∃ a', s' !! run_id = Some a' ∧ rtc run_step a a')
  ∧ (reachable s → reachable s').

#[local] Instance later_preorder : PreOrder later.
Proof.
  split.
  - intros s. split; [|done]. intros run_id a Ha. by exists a.
  - intros s t u [Hst Hrs] [Htu Hrt]. split; [|by auto]. intros run_id a Ha.
    destruct (Hst _ _ Ha) as (b & Hb & Hab). destruct (Htu _ _ Hb) as (c & Hc & Hbc).
    exists c. split; [done|]. by trans b.
Qed.

Lemma moves_later s s' : moves s s' → later s s'.
Proof.
  intros Hm. split; [|by apply moves_reachable]. intros run_id a. by apply moves_lookup.
Qed.

Lemma call_later call s : later s (call_run call s).2.
Proof.
  destruct (call_run call s) as [r s'] eqn:Hc. by eapply moves_later, call_run_moves.
Qed.

Lemma calls_later calls s : later s (call_runs calls s).2.
Proof.
  destruct (call_runs calls s) as [r s'] eqn:Hc. split.
  - intros run_id a Ha. by eapply call_runs_evolve.
  - by eapply call_runs_reachable.
Qed.

Definition current (s κ : run_state) : Prop := s = κ ∧ reachable κ.

Lemma responds_later R (op : work_op R) (κ w : run_state) r w' :
  current w κ → store_responds R w op r w' → ∃ κ', later κ κ' ∧ current w' κ'.
Proof.
  intros [-> Hr] Hop. exists w'.
  assert (Hl : later κ w'); [|split; [done|]; split; [done|]; by apply Hl].
  destruct op; cbn in Hop; try (subst w'; reflexivity).
  - destruct Hop as [_ ->]. destruct (get run_id κ) as [x t] eqn:Hg. cbn.
    by apply get_unchanged in Hg as ->.
  - destruct Hop as [_ ->].
    pose proof (call_later (CallAppend run_id expected_revision type payload occurred_at) κ) as Hc.
    cbn [call_run] in Hc. unfold mbind, run_bind in Hc.
    by destruct (append _ _ _ _ _ _) as [[]].
  - destruct Hop as [_ ->]. destruct (events run_id after κ) as [x t] eqn:Hg. cbn.
    by apply events_unchanged in Hg as ->.
  - destruct Hop as [-> _]. done.
  - destruct Hop as [calls ->]. apply calls_later.
Qed.

(** How many events the run has. *)
Definition size (run_id : string) (s : run_state) : nat :=
  match s !! run_id with Some a => length (ra_events a) | None => O end.

Lemma steps_length a a' : rtc run_step a a' → (length (ra_events a) ≤ length (ra_events a'))%nat.
Proof. intros H%steps_history. by apply prefix_length. Qed.

Lemma steps_changed a a' :
  rtc run_step a a' → a ≠ a' → (length (ra_events a) < length (ra_events a'))%nat.
Proof.
  intros [|b c d (e & He & _)%step_snapshot Hcd%steps_length] Hne; [done|].
  rewrite He, length_app in Hcd. cbn in Hcd. lia.
Qed.

Lemma size_later run_id s s' : later s s' → (size run_id s ≤ size run_id s')%nat.
Proof.
  intros [Hl _]. unfold size. destruct (s !! run_id) as [a|] eqn:Ha; [|lia].
  destruct (Hl _ _ Ha) as (a' & -> & Hs). by apply steps_length.
Qed.

Lemma size_bound run_id s : reachable s → (size run_id s ≤ 512)%nat.
Proof.
  intros Hr. unfold size. destruct (s !! run_id) as [a|] eqn:Ha; [|lia].
  destruct (reachable_run _ _ _ Hr Ha) as [(Hc & _ & Hm & _)%replays_cursor _].
  unfold MAX_RECOVERY_RUN_EVENTS in Hm. lia.
Qed.

(** Compares the sizes of states that come one after the other. *)
Ltac sizes id :=
  cbv beta in *; repeat (match goal with H : later _ _ |- _ => apply (size_later id) in H end); lia.

(** ** The logic *)

Abbreviation gives := (yields store_responds later current).

Lemma gives_then {A B} (m : work A) (f : A → work B) Q κ :
  (∀ κ' a, later κ κ' → gives (f a) Q κ') → gives (m ≫= f) Q κ.
Proof.
  intros Hf. eapply yields_bind; [exact _|apply yields_any; apply responds_later|].
  intros κ' a Hl _. by apply Hf.
Qed.

(** The store held this aggregate of the run, between two states. *)
Definition held (run_id : string) (κ : run_state) (a : RecoveryRunAggregate) (κ' : run_state)
  : Prop :=
  ∃ s, later κ s ∧ later s κ' ∧ s !! run_id = Some a ∧ run_id_of (ra_snapshot a) = run_id.

Lemma gives_get run_id κ :
  gives (perform (StoreGet run_id))
    (λ κ' s, ∃ a, held run_id κ a κ' ∧ ra_snapshot a = s) κ.
Proof.
  intros κ1 w r w' Hl [-> Hr] [-> ->]. exists κ1.
  destruct (get run_id κ1) as [x t] eqn:Hg. pose proof (get_unchanged _ _ _ _ Hg) as ->.
  split; [reflexivity|]. split; [done|].
  unfold get in Hg. rewrite load_run_bind in Hg.
  destruct (κ1 !! run_id) as [a|] eqn:Ha; injection Hg as <-; intros κ2 Hl2; [|exact I].
  exists a. split; [|done]. exists κ1. split_and!; try done. by eapply reachable_run.
Qed.

Lemma gives_store_append run_id revision event_type payload at_time κ :
  gives (perform (StoreAppend run_id revision event_type payload at_time))
    (λ κ' _, (size run_id κ < size run_id κ')%nat) κ.
Proof.
  intros κ1 w r w' Hl [-> Hr] [-> ->].
  pose proof (call_later (CallAppend run_id revision event_type payload at_time) κ1) as Hc.
  cbn [call_run] in Hc. unfold mbind, run_bind in Hc.
  destruct (append run_id revision event_type payload at_time κ1) as [x t] eqn:Ha. cbn [fst snd].
  exists t. assert (Hl1 : later κ1 t) by (by destruct x). split; [done|].
  split; [split; [done|]; by apply Hl1|].
  apply append_cases in Ha. destruct x as [u|e]; intros κ2 Hl2; [|exact I]. cbn.
  destruct Ha as (a & a' & Hlook & _ & (He & _)%append_event_inv & -> & _).
  apply (size_later run_id) in Hl, Hl2. unfold size in *.
  rewrite lookup_insert_eq, He, length_app in Hl2. rewrite Hlook in Hl. cbn in Hl2. lia.
Qed.

Lemma gives_append run_id event_type payload κ :
  gives (_append run_id event_type payload) (λ κ' _, (size run_id κ < size run_id κ')%nat) κ.
Proof.
  unfold _append. apply gives_then. intros κ1 u1 Hl1. apply gives_then. intros κ2 s Hl2.
  apply gives_then. intros κ3 t Hl3. eapply yields_mono; [exact _|apply gives_store_append|].
  intros κ4 u4 _ Hs. sizes run_id.
Qed.

(** ** The state of a node *)

Definition in_state (node_id : string) (st : RecoveryNodeState) (a : RecoveryRunAggregate) : Prop :=
  ∃ p, progress_of (ra_snapshot a) node_id = Ok p ∧ np_state p = st.

Lemma held_later run_id κ a κ' κ2 : later κ' κ2 → held run_id κ a κ' → held run_id κ a κ2.
Proof. intros Hl (s & H1 & H2 & Ha). exists s. split_and!; [done|by etrans|apply Ha..]. Qed.

Lemma held_from run_id κ κ1 a κ2 : later κ κ1 → held run_id κ1 a κ2 → held run_id κ a κ2.
Proof. intros Hl (s & H1 & H2 & Ha). exists s. split_and!; [by etrans|done|apply Ha..]. Qed.

(** A node found in two states has events in between. *)
Lemma held_moved run_id node_id κ a κ1 a' κ2 st st' :
  held run_id κ a κ1 → held run_id κ1 a' κ2 → in_state node_id st a → in_state node_id st' a' →
  st ≠ st' → (size run_id κ < size run_id κ2)%nat.
Proof.
  intros (s & Hs1 & Hs2 & Ha & _) (t & Ht1 & Ht2 & Ha' & _) (p & Hp & Hst) (q & Hq & Hst') Hne.
  assert (Hl : later s t) by (by etrans).
  destruct Hl as [Hl _]. destruct (Hl _ _ Ha) as (b & Hb & Hab).
  rewrite Ha' in Hb. injection Hb as <-.
  assert (Hd : a ≠ a') by (intros ->; congruence).
  pose proof (steps_changed _ _ Hab Hd) as Hlen.
  apply (size_later run_id) in Hs1, Ht2. unfold size in *. rewrite Ha in Hs1. rewrite Ha' in Ht2. lia.
Qed.

(** The run has grown, or was seen with the node in this state. *)
Definition arrived (run_id node_id : string) (st : RecoveryNodeState) (κ κ' : run_state) : Prop :=
  (size run_id κ < size run_id κ')%nat ∨ ∃ a, held run_id κ a κ' ∧ in_state node_id st a.

Lemma gives_node_state run_id node_id st attempt κ :
  gives (_node_state run_id node_id st attempt) (λ κ' _, arrived run_id node_id st κ κ') κ.
Proof.
  unfold _node_state. eapply yields_bind; [exact _|apply gives_get|].
  intros κ1 s Hl1 (a & Hh & <-). apply gives_then. intros κ2 u2 Hl2. cbv zeta.
  destruct (List.filter _ (rs_nodes _)) as [|current [|]] eqn:Hf; [apply yields_raise| |apply yields_raise].
  destruct (is_terminal_recovery_run _); [apply yields_raise|].
  destruct (bool_decide_reflect (current = {| np_node_id := node_id; np_state := st; np_attempt := attempt |}))
    as [->|Hne].
  - apply yields_ret. intros κ3 Hl3. right. exists a. split.
    + eapply held_later; [|exact Hh]. by etrans.
    + eexists. split; [unfold progress_of, next_item; by rewrite Hf|done].
  - apply gives_then. intros κ3 t Hl3. eapply yields_mono; [exact _|apply gives_store_append|].
    intros κ4 u4 _ Hs. left. sizes run_id.
Qed.

(** ** Rounds *)

(** A round goes to the next node, or stays and leaves an event. *)
Definition advances (run_id : string) (index : nat) (κ κ' : run_state) (r : round) : Prop :=
  match r with
  | GoOn i => i = S index ∨ i = index ∧ (size run_id κ < size run_id κ')%nat
  | Return _ => True
  end.

(** From a state of the node that was seen, another one was arrived at. *)
Lemma moved_on run_id node_id index κ a κ1 κ2 st st' :
  held run_id κ a κ1 → in_state node_id st a → st ≠ st' →
  arrived run_id node_id st' κ1 κ2 → advances run_id index κ κ2 (GoOn index).
Proof.
  intros Hh Hin Hne [Hs|(a' & Hh' & Hin')]; right; (split; [done|]).
  - destruct Hh as (s & H1 & H2 & _). assert (Hl : later κ κ1) by (by etrans).
    sizes run_id.
  - by eapply held_moved.
Qed.

Lemma advances_later run_id index κ κ1 κ2 r :
  later κ1 κ2 → advances run_id index κ κ1 r → advances run_id index κ κ2 r.
Proof.
  intros Hl. destruct r as [i|s]; [|done]. intros [->|[-> Hs]]; [by left|right].
  split; [done|]. sizes run_id.
Qed.

Lemma gives_return run_id index κ κ0 (m : work round) :
  (∀ κ, gives m (λ _ r, ∃ s, r = Return s) κ) → gives m (advances run_id index κ0) κ.
Proof. intros Hm. eapply yields_mono; [exact _|apply Hm|]. by intros κ' r _ [s ->]. Qed.

Lemma gives_end_escalated run_id κ : gives (end_escalated run_id) (λ _ r, ∃ s, r = Return s) κ.
Proof. unfold end_escalated. apply gives_then. intros κ1 s _. apply yields_ret. eauto. Qed.

Lemma gives_escalate run_id node_id attempt κ :
  gives (escalate_node run_id node_id attempt) (λ _ r, ∃ s, r = Return s) κ.
Proof. unfold escalate_node. apply gives_then. intros κ1 s _. apply gives_end_escalated. Qed.

Section round.
Context (snapshot : RecoveryRunSnapshot) (definition : RecoveryRunDefinition)
  (node : RecoveryActionNode) (index : nat).

Lemma gives_verified attempt κ a κ1 :
  held (run_id_of snapshot) κ a κ1 → in_state (rn_node_id node) Node_VERIFIED a →
  gives (verified_round snapshot definition node index attempt)
    (advances (run_id_of snapshot) index κ) κ1.
Proof.
  intros Hh Hin. unfold verified_round. cbv zeta.
  destruct (rs_decision snapshot) as [[]|]; try apply yields_raise.
  - destruct (bool_decide _); [|apply yields_raise]. apply gives_then. intros κ2 s _.
    apply yields_ret. intros κ3 _. by left.
  - eapply yields_bind; [exact _|apply gives_node_state|]. intros κ2 s Hl2 Ha.
    apply yields_ret. intros κ3 Hl3. eapply advances_later; [exact Hl3|].
    by apply (moved_on _ (rn_node_id node) _ _ a κ1 _ Node_VERIFIED Node_RECONCILING).
  - apply gives_return. intros κ2. apply gives_escalate.
Qed.

Lemma gives_resumed progress certificate transition κ a κ1 :
  held (run_id_of snapshot) κ a κ1 → in_state (rn_node_id node) (np_state progress) a →
  np_state progress ≠ Node_RECONCILING →
  gives (resumed_round snapshot definition node index progress certificate transition)
    (advances (run_id_of snapshot) index κ) κ1.
Proof.
  intros Hh Hin Hne. unfold resumed_round. cbv zeta.
  apply gives_then. intros κ2 u2 Hl2.
  eapply yields_bind; [exact _|apply gives_get|]. intros κ3 latest Hl3 (a' & Hh' & <-).
  eapply yields_bind; [exact _|apply (yields_lift _ _ _ _ (λ _ p,
    progress_of (ra_snapshot a') (ct_target_node_id transition) = Ok p)); done|].
  intros κ4 target Hl4 Ht.
  eapply (yields_bind _ _ _ _ _ (λ κ' _,
    arrived (run_id_of snapshot) (ct_target_node_id transition) Node_RECONCILING κ1 κ')).
  { destruct (bool_decide_reflect (np_state target = Node_RECONCILING)) as [Hr|Hr].
    - apply yields_ret. intros κ5 Hl5. right. exists a'. split; [|by exists target].
      eapply held_from; [exact Hl2|]. eapply held_later; [|exact Hh'].
      transitivity κ4; [exact Hl4|exact Hl5].
    - apply gives_then. intros κ5 u5 Hl5. eapply yields_bind; [exact _|apply gives_node_state|].
      intros κ6 s6 Hl6 Ha. apply yields_ret. intros κ7 Hl7.
      assert (Hl : later κ1 κ5) by (repeat first [eassumption|etrans; [eassumption|]]).
      destruct Ha as [Hs|(b & Hb & Hst)].
      + left. sizes (run_id_of snapshot).
      + right. exists b. split; [|done]. eapply held_later; [exact Hl7|]. by eapply held_from. }
  intros κ5 u5 Hl5 Harr.
  destruct (bool_decide_reflect (ct_target_node_id transition = rn_node_id node)) as [Heq|_].
  - apply yields_ret. intros κ6 Hl6. eapply advances_later; [exact Hl6|]. rewrite Heq in Harr.
    eapply moved_on; [exact Hh|exact Hin|exact Hne|exact Harr].
  - apply gives_then. intros κ6 s6 _. apply gives_then. intros κ7 p7 _.
    apply gives_then. intros κ8 u8 _. apply yields_ret. intros κ9 _. by left.
Qed.

Lemma gives_decided attempt artifact κ :
  gives (decided_round snapshot definition node index attempt artifact)
    (advances (run_id_of snapshot) index κ) κ.
Proof.
  unfold decided_round, _record_decision. cbv zeta.
  eapply (yields_bind _ _ _ _ _ (λ κ' _, (size (run_id_of snapshot) κ < size (run_id_of snapshot) κ')%nat)).
  { apply gives_then. intros κ1 u1 Hl1. eapply yields_mono; [exact _|apply gives_append|].
    intros κ2 s _ Hs. sizes (run_id_of snapshot). }
  intros κ1 recorded Hl1 Hs.
  assert (Hstay : ∀ κ2 κ3, later κ1 κ2 → later κ2 κ3 →
    advances (run_id_of snapshot) index κ κ3 (GoOn index)).
  { intros κ2 κ3 H2 H3. right. split; [done|].
    sizes (run_id_of snapshot). }
  destruct artifact as [certificate|witness]; [|apply gives_return; intros κ2; apply gives_escalate].
  apply gives_then. intros κ2 s2 Hl2.
  assert (Hgo : ∀ target st n κ4, later κ2 κ4 →
    gives (_ ← _node_state (run_id_of snapshot) target st n; mret (GoOn index))
      (advances (run_id_of snapshot) index κ) κ4).
  { intros target st n κ4 Hl4. apply gives_then. intros κ5 s5 Hl5. apply yields_ret.
    intros κ6 Hl6. apply (Hstay κ2); [done|].
    repeat first [eassumption|etrans; [eassumption|]]. }
  assert (Hnext : ∀ target st n κ4,
    gives (_ ← _node_state (run_id_of snapshot) target st n; mret (GoOn (S index)))
      (advances (run_id_of snapshot) index κ) κ4).
  { intros target st n κ4. apply gives_then. intros κ5 s5 _. apply yields_ret. intros κ6 _. by left. }
  assert (Hdispatch :
    ∀ transition, gives (_ ← _permitted_dispatch recorded definition certificate;
      let target := ct_target_node_id transition in
      if bool_decide (target = rn_node_id node) then
        _ ← _node_state (run_id_of snapshot) target Node_RECONCILING (attempt + 1);
        mret (GoOn index)
      else
        _ ← _node_state (run_id_of snapshot) target Node_RECONCILING 1;
        _ ← _node_state (run_id_of snapshot) (rn_node_id node) Node_COMPLETED attempt;
        mret (GoOn (S index))) (advances (run_id_of snapshot) index κ) κ2).
  { intros transition. apply gives_then. intros κ3 u3 Hl3. cbv zeta.
    destruct (bool_decide _); [by apply Hgo|]. apply gives_then. intros κ4 s4 _. apply Hnext. }
  destruct (decision_for _ _ _ _); [|  |by apply Hgo|].
  - destruct (vc_transition certificate) as [transition|]; [apply Hdispatch|apply Hnext].
  - destruct (vc_transition certificate) as [transition|]; [apply Hdispatch|apply Hnext].
  - apply gives_return. intros κ3. apply gives_escalate.
Qed.

End round.

(** ** The loop *)

Lemma held_id run_id κ a κ' : held run_id κ a κ' → run_id_of (ra_snapshot a) = run_id.
Proof. by intros (s & _ & _ & _ & Hid). Qed.

Lemma gives_reconciling definition run_id node index attempt st κ a κ1 :
  held run_id κ a κ1 → in_state (rn_node_id node) st a → st ≠ Node_VERIFIED →
  gives (reconciling_round definition run_id node index attempt) (advances run_id index κ) κ1.
Proof.
  intros Hh Hin Hne. unfold reconciling_round.
  eapply yields_bind; [exact _|apply gives_get|]. intros κ2 snapshot Hl2 (b & Hb & <-).
  destruct (_ && _); [apply gives_return; intros κ3; apply gives_escalate|].
  apply gives_then. intros κ3 tail Hl3.
  destruct (decision_pending _ _ _).
  - eapply yields_bind; [exact _|apply gives_node_state|]. intros κ4 s4 Hl4 Ha.
    apply yields_ret. intros κ5 Hl5. eapply advances_later; [exact Hl5|].
    apply (moved_on _ (rn_node_id node) _ _ a κ3 _ st Node_VERIFIED); [|done..].
    eapply held_later; [|exact Hh]. by etrans.
  - apply gives_then. intros κ4 r Hl4. rewrite <-(held_id _ _ _ _ Hb).
    eapply yields_mono; [exact _|apply gives_decided|]. intros κ5 [i|s] Hl5 Hr; [|exact I].
    destruct Hr as [Hr|[-> Hr]]; [by left|right]. split; [done|].
    destruct Hh as (t & Ht1 & Ht2 & _). sizes (run_id_of (ra_snapshot b)).
Qed.

Lemma gives_round definition run_id index node κ :
  gives (run_round definition run_id index node) (advances run_id index κ) κ.
Proof.
  unfold run_round. cbv zeta.
  apply gives_then. intros κ1 s1 Hl1. apply gives_then. intros κ2 p2 Hl2.
  destruct (bool_decide _); [apply yields_ret; intros κ3 _; by left|].
  destruct (bool_decide _); [apply gives_return; intros κ3; apply gives_end_escalated|].
  apply gives_then. intros κ3 u3 Hl3.
  eapply yields_bind; [exact _|apply gives_get|]. intros κ4 snapshot Hl4 (a & Ha & <-).
  eapply yields_bind; [exact _|apply (yields_lift _ _ _ _ (λ _ p,
    progress_of (ra_snapshot a) (rn_node_id node) = Ok p)); done|].
  intros κ5 progress Hl5 Hp.
  assert (Hin : in_state (rn_node_id node) (np_state progress) a) by (by exists progress).
  assert (Hl : later κ κ3) by (repeat first [eassumption|etrans; [eassumption|]]).
  assert (Hh : held run_id κ a κ5) by (eapply held_later; [exact Hl5|]; by eapply held_from).
  destruct (certified_state (np_state progress)) eqn:Hc.
  - destruct (last (certificates_of _ _)) as [certificate|]; [|apply yields_raise].
    pose proof (held_id _ _ _ _ Ha) as Hid.
    destruct (vc_transition certificate) as [transition|].
    + rewrite <-Hid. rewrite <-Hid in Hh. eapply gives_resumed; [exact Hh|exact Hin|].
      intros Hr. by rewrite Hr in Hc.
    + destruct (bool_decide_reflect (np_state progress = Node_VERIFIED)) as [Hv|_]; [|apply yields_raise].
      rewrite <-Hid. rewrite <-Hid in Hh. rewrite Hv in Hin. by eapply gives_verified.
  - eapply gives_reconciling; [exact Hh|exact Hin|]. intros Hr. by rewrite Hr in Hc.
Qed.

(** The nodes left and the events the run has room for. *)
Definition left_over (definition : RecoveryRunDefinition) (run_id : string) (index : nat)
  (κ : run_state) : nat :=
  (length (rc_nodes (df_chain definition)) - index) + (512 - size run_id κ).

Lemma gives_rounds fuel definition run_id index κ :
  reachable κ → (left_over definition run_id index κ ≤ fuel)%nat →
  gives (run_rounds fuel definition run_id index) (λ _ r, r ≠ None) κ.
Proof.
  revert index κ. induction fuel as [|fuel IH]; intros index κ Hr Hf; cbn [run_rounds];
    destruct (rc_nodes (df_chain definition) !! index) as [node|] eqn:Hn;
    try (apply gives_then; intros κ1 s1 _; by apply yields_ret).
  - apply lookup_lt_Some in Hn. unfold left_over in Hf. lia.
  - apply lookup_lt_Some in Hn.
    eapply yields_bind; [exact _|apply gives_round|]. intros κ1 [i|s] Hl Ha; [|by apply yields_ret].
    assert (Hr1 : reachable κ1) by (by apply Hl). apply IH; [done|].
    pose proof (size_bound run_id _ Hr1). unfold left_over in *.
    destruct Ha as [->|[-> Hs]]; sizes run_id.
Qed.

Lemma gives_run fuel run_id κ :
  reachable κ → (544 ≤ fuel)%nat → gives (run fuel run_id) (λ _ r, r ≠ None) κ.
Proof.
  intros Hr Hf. unfold run. apply gives_then. intros κ1 snapshot Hl1.
  eapply (yields_bind _ _ _ _ _ (λ _ d, (length (rc_nodes (df_chain d)) ≤ 32)%nat)).
  { unfold work_definition. eapply (yields_bind _ _ _ _ _ (λ _ d,
      validate_RecoveryChain (df_chain d) = Ok tt)).
    - intros κ2 w r w' Hl [-> Hw] [-> Hd]. exists κ2. split; [reflexivity|]. split; [done|].
      intros κ3 Hl3. destruct r as [d|e]; [by apply Hd|exact I].
    - intros κ2 d Hl2 Hd. apply yields_lift. intros d' κ3 Hc _.
      apply construct_definition_same in Hc as ->. unfold validate_RecoveryChain in Hd.
      apply bind_ok in Hd as (u & Hb & _). unfold bounded_length in Hb.
      apply reject_if_ok in Hb. unfold in_range in Hb. bool_simpl. lia. }
  intros κ2 definition Hl2 Hlen. apply gives_then. intros κ3 u3 Hl3.
  apply gives_then. intros κ4 snapshot' Hl4. destruct (negb _); [by apply yields_ret|].
  assert (Hl : later κ κ4) by (repeat first [eassumption|etrans; [eassumption|]]).
  apply gives_rounds; [by apply Hl|]. unfold left_over. lia.
Qed.

(** C10: a worker of a store that began empty never runs out of 544 rounds, however many
    workers and other clients call the store meanwhile: a round that stays at its node
    adds an event of the run, a run has at most 512 of them, and the chain at most 32
    nodes.  So the loop over the chain ends, with a snapshot or an exception. *)
Theorem workflow_terminates fuel run_ids calls replies (s s' : run_state) procs i r :
  (544 ≤ fuel)%nat → call_runs calls ∅ = (replies, s) →
  rtc (pool_step store_responds store_changes) (s, map (run fuel) run_ids) (s', procs) →
  procs !! i = Some (Done r) → r ≠ Ok None.
Proof.
  intros Hf Hc%empty_reachable Hrun Hi.
  destruct (pool_adequate store_responds store_changes later current
    (λ (_ : nat) (_ : run_state) (r : result work_exn (option RecoveryRunSnapshot)), r ≠ Ok None))
    with (p := (s, map (run fuel) run_ids)) (p' := (s', procs)) (κ := s)
    as (κ & _ & [_ Hw]); [| |exact Hrun|].
  - intros w κ w' [-> Hr] [call ->]. exists (call_run call κ).2.
    pose proof (call_later call κ) as Hl. split; [done|]. split; [done|]. by apply Hl.
  - split; [by split|]. intros j m Hj. change (map (run fuel) run_ids !! j = Some m) in Hj.
    apply list_lookup_fmap_Some in Hj as (id & -> & _).
    eapply after_mono; [exact _|by apply gives_run|].
    intros κ' [[u|]|e] _ Hr; [done| |done]. by intros _.
  - exact (Hw i _ Hi κ (reflexivity κ)).
Qed.

End termination.

(** * A run of the harness that terminates *)

#[local] Existing Instance run_runtime.
#[local] Existing Instance run_security.

#[local] Instance no_schemas : SchemaValidator :=
  {| META_SCHEMA_ID := "https://json-schema.org/draft/2020-12/schema";
     check_schema _ := true; schema_is_valid _ _ := true |}.
#[local] Instance no_decoder : ObservationDecoder :=
  {| decode_observation _ := Raise (ValueError "unknown observation") |}.

Definition bare_definition : RecoveryRunDefinition :=
  {| df_chain := run_chain; df_envelopes := []; df_capabilities := [] |}.

Lemma bare_chain_valid : validate_RecoveryChain run_chain = Ok tt.
Proof. apply returns_known; [by intros []|vm_compute; reflexivity]. Qed.

Lemma failed_read : get run_name failed_state = (Ok (ra_snapshot failed_run), failed_state).
Proof. unfold get. by rewrite load_run_bind, failed_stored. Qed.

(** The first worker reads the run, is given its definition, and refuses it. *)
Lemma bare_run :
  rtc (pool_step store_responds store_changes)
    (failed_state, map (run 544) [run_name; run_name])
    (failed_state, [Done (Raise (RecoveryDefinitionError
                            "recovery definition does not bind every node")); run 544 run_name]).
Proof.
  eapply rtc_l.
  { eapply (pool_client _ _ _ _ 0); [reflexivity|]. unfold store_responds. rewrite failed_read. split; reflexivity. }
  eapply rtc_l.
  { eapply (pool_client _ _ _ _ 0 _ _ _ (Ok bare_definition)); [reflexivity|]. cbn.
    split; [reflexivity|]. intros definition [= <-]. exact bare_chain_valid. }
  constructor.
Qed.

Lemma workflow_terminates_witness :
  Raise (E := work_exn) (RecoveryDefinitionError "recovery definition does not bind every node")
  ≠ Ok (None (A := RecoveryRunSnapshot)).
Proof.
  apply (workflow_terminates 544 [run_name; run_name] _ _ failed_state failed_state _ 0 _
    (le_n 544) whole_run bare_run). reflexivity.
Defined.
